(* ===== verification/_CoqProject ===== *)
-Q . S2P
Prelude.v
CList.v
Loops.v
NbrTable.v
UipState.v
Chksum.v
UipWf.v
Clock.v
Ds6.v
Ds6Inv.v
Ds6Route.v
Ds6Calls.v
Ds6Run.v
Ds6Addr.v
Nd6.v
Nd6Inv.v
Nd6Run.v
Ds6Examples.v
Nd6Examples.v
UipLib.v
Neighbor.v
UipConn.v
UipProcess.v
UipSafety.v
UipOutput.v
UipTcp.v
UipFrame.v
UipSegment.v
UipTimer.v
UipOptions.v
UipExamples.v
Arp.v
ArpFrames.v
AutoIP.v
AutoIPLive.v
Split.v
Forward.v
Dhcpc.v
DhcpcRun.v
Igmp.v
Buffered.v
Tftp.v
TftpRun.v
TftpErrors.v
TftpExamples.v
MdnsName.v
Mdns.v
MdnsRun.v
MdnsSend.v
MdnsLive.v
MdnsQuery.v
Xtcp.v
XtcpSafety.v
XtcpEvents.v
Channel.v
XcClient.v
XcServer.v
XcRun.v
XcRefine.v
Blocking.v
Server.v
ServerInv.v
ServerRun.v
NetExamples.v
XtcpExamples.v
XcExamples.v
ServerExamples.v
RouterExamples.v
MdnsExamples.v
