(* ===== verification/Prelude.v ===== *)
(** * The XMOS xTCP stack: a verification development

    This library models the IPv4 server of the repository, the program that
    runs when an application calls [xtcp_server_uip]: the uIP stack of
    module_xtcp/src/xtcp_uip as XMOS adapted it, the protocols around it, the
    layer that serves the client tasks and the loop that drives everything; the
    rest of that directory (packet forwarding, the neighbour cache, address
    parsing); the client library and the channels between it and the server; and
    its users, the buffered and the blocking client, the mDNS responder of
    module_zeroconf and the TFTP server of module_tftp; and, of the IPv6 build in
    xtcp_uip6, the data structures of a host and neighbour discovery over them.
    Source paths below are relative to src/module_xtcp/src/, unless they start
    with another module; contiki/ is xtcp_uip6/contiki/.

    ** The program and its model

    The main loop reads frames from the MAC, commands from the clients and a
    millisecond clock.  An IP frame goes through [uip_process], which calls back
    the application layer ([xtcpd_appcall]) for the connection concerned; that
    talks to the client that owns the connection and may ask [uip_process] to
    send.  What [uip_process] leaves in the packet buffer is given an Ethernet
    header by ARP, possibly split in two, and handed to the MAC.  DHCP runs as
    a UDP application of the stack, AutoIP and IGMP are driven by timers.

    - [UipState], [UipWf]: the variables of xtcp_uip/uip.c and the structures
      of uip.h, as the record [uip_state]; the invariant [uip_wf].  [Clock]:
      timer.c.  [Chksum]: 32-bit words and checksums of uip.c, and their
      originals in xtcp_uip6/contiki/net/uip6.c.
    - [UipConn]: [uip_connect], [uip_listen] and the rest of the calls over the
      connection tables of uip.c, and the interface [UipEnv] through which the
      stack calls the layers above it.  [UipProcess]: the function
      [uip_process], one definition per label.  [UipSafety], [UipOutput], [UipTcp],
      [UipFrame]: that it keeps [uip_wf], what it sends, the states it moves, and
      what it leaves to the application, for every application; [UipSegment],
      [UipTimer], [UipOptions]: single segments, the timers, the option loop.
    - [Arp]: uip_arp.c.  [Split]: uip-split.c and the frames given to
      [xcoredev_send].  [AutoIP]: autoip/autoip.c.  [Dhcpc]: dhcpc/dhcpc.c.
      [Igmp]: igmp/igmp.c.
    - [Xtcp]: uip_xtcp.c and the server's side of the channel protocol of
      xtcp_server.xc; it implements [UipEnv].  [XtcpSafety], [XtcpEvents]: what
      it keeps, and the events a callback reports.
    - [Server]: uip_server_support.c, [xcoredev_read] and the loop of
      uip_server.c; it implements the interface of the DHCP client.  [ServerInv]:
      its invariant, and [uip_process] with the server above it.  [ServerRun]:
      whole runs.
    - [Forward]: uip-fw.c.  [Neighbor]: uip-neighbor.c.  [UipLib]: uiplib.c.
      The server does not call them; a router built on the stack does.
    - [Channel]: channel ends of XC, two tasks whose steps interleave.
      [XcClient]: xtcp_client.xc.  [XcServer]: xtcp_server.xc, token by token.
      [XcRun], [XcRefine]: the two together implement what [Xtcp] assumes of its
      clients.  [Blocking]: xtcp_blocking_client.xc.
    - [Buffered]: xtcp_buffered_client.c.
    - [MdnsName], [Mdns]: module_zeroconf/mdns/mdns.c, its string functions and
      its table, messages and handler.  [MdnsRun], [MdnsSend], [MdnsLive],
      [MdnsQuery]: the theorems about it.
    - [Tftp]: tftp_support.c and tftp.xc of module_tftp/src.  [TftpRun]: whole
      transfers.  [TftpErrors]: refusals, and all that is ever sent.
    - [CList]: contiki/lib/list.c and memb.c.  [NbrTable]: contiki/net/nbr-table.c,
      whose tables share the neighbours.  [Ds6]: uip-ds6.c, uip-ds6-nbr.c and
      uip-ds6-route.c of contiki/net, and stimer.c.  [Ds6Inv]: their invariant.
      [Ds6Route], [Ds6Calls], [Ds6Run], [Ds6Addr]: what lookups find, that calls
      keep the invariant, default routers and whole runs, source addresses.
      [Nd6]: uip-nd6.c, the periodic handlers, and the output function of
      xtcp_uip6/uip_server_support.c.  [Nd6Inv]: safety and the option loops.
      [Nd6Run]: two hosts that resolve an address.

    The stack's record has a field [env] for the variables of the layers above,
    [xtcp_env] of [Xtcp], which has a field [rest] for those of the server,
    [server_state], where the DHCP, AutoIP, IGMP and ARP states live.  The
    operations of each component are polymorphic in the part they cannot see.
    The mDNS responder and the TFTP server are client tasks with states of their
    own, the records [mdns] and [tftp], which the handlers of the events of their
    connections transform.  The IPv6 host is the record [ds6], in which the
    neighbour cache and the lists of routes are tables of [NbrTable] - their memory
    and callbacks are the class [NbrWorld] - and [nd6] adds the packet buffer and the
    frames sent.  The application that stores the file and the types of
    nettypes.h, which the repository does not hold, are the classes [TftpApp] and
    [NetTypes].

    ** Conventions

    A machine integer is a [Z] with its wrap-around written out ([w8], [w16],
    [w32], [s32]).  The target is little-endian, so [htons] swaps the
    bytes; a 4-byte address or sequence number is the record [u8x4].  The packet buffer is a list of bytes read and written at
    offsets ([rd8], [wr16], ...); the layouts of the header structures are the
    constants of the modules [BUF], [UDPBUF], [ICMPBUF], [ARP], [IGMPBUF],
    [DHCP] and [IP6].  A pointer into a table is the index of the entry, the null
    pointer [None].  A label that is the target of a [goto] is a definition and
    the [goto] a call.  Configuration macros have the values of uip-conf.h and
    uipopt.h.  A function that fills a message from a pointer and returns its end
    is the list of the bytes it writes ([Mdns]).

    Hardware and library calls are arguments or part of the state: the clock,
    the frames of the MAC ([mac_rx], and a log of the frames sent), [srand] and
    [rand], what the clients do while the server waits for one of them (commands,
    and the moments at which they take the interface event queued for them: the
    [script] of [xtcp_env]) and what they answer ([ready] and [answers]), the
    output functions of the interfaces of a router and the calls of a client to
    the server (logs).  Each link has one slot for a queued interface event, which
    a later one overwrites ([pending_event]).

    A store past the end of the packet buffer changes nothing in the model.  A
    client that answers with more data than fits makes the program store there:
    that sets [fault] ([store_answer]), as does the use of a null pointer.

    ** Fuel and divergence

    The TCP option loop of [uip_process] can run for ever, because its offset
    has 8 bits; [parse_options] has fuel 256 and [None] means divergence:
    [options_fuel_exact] shows that a loop that needs more never ends,
    [options_terminate] when it ends.  So can [mdns_parse_name], which follows
    compression pointers: [parse_name_fuel_exact].  Both bounds come from
    [turns_forever] of [Loops], a pigeonhole argument.  Loops over tables are
    structural.  The search for a local port ([find_port]) and for an identifier
    ([find_guid]) have a bound on the number of turns that [uip_connect_spec] and
    [xtcpd_init_state_fresh] show to be enough; so does [parse_encode] for the
    options of DHCP, of which every one advances by at least two bytes.  In
    [Mdns], [None] is also an access through the null pointer or a write past the
    end of an array; [mdns_send_exact] and [mdns_comes_up] show when there is
    none.

    The linked lists of Contiki are loops over [next] fields: their fuel is the
    number of elements of the pool and one more, which every list that is not a
    circle leaves unused ([chain_fuel]); [ds6_calls_safe] and [nd_run_safe] show
    that no call comes to [None], an access through a stray pointer.  The loops
    over the options of a neighbour discovery message have 8-bit offsets again:
    256 turns decide, and their results ([run]) tell [NoFuel] from [Fault].

    ** What the theorems show

    - Types and memory safety: [server_reachable_wf] for the whole program, from
      the lemma of each component ([server_ok] is the invariant of all its
      variables, [xtcpd_appcall_inv] the lemma of the application layer);
      [xtcp_buffered_send_refines] and [xtcp_buffered_recv_refines] for the
      client library.
    - TCP: [server_process_transitions] (the state diagram, with the clients
      acting during the callback), [found_in_order],
      [found_out_of_order], [process_ack_spec], [established_by_ack],
      [found_reset] (a segment on a connection), [half_open_timeout],
      [waiting_timeout] (the timers).
    - What is sent: [server_process_packet], [tcp_send_segment],
      [udp_send_checksum], [uip_arp_out_spec], [uip_split_output_spec],
      [igmp_message_valid], [autoip_periodic_frame].
    - What is refused: [uip_input_malformed], [igmp_in_inert].
    - Protocols between peers: [arp_exchange], [dhcp_exchange],
      [dhcp_backoff], [autoip_configures], [autoip_contested],
      [autoip_reachable]; and the source of the host's address and the events
      that tell the clients of it, [config_refines].
    - Tables, timers, arithmetic, text: [uip_connect_spec], [uip_listen_unlisten],
      [uip_arp_update_resolve], [arp_entry_expires], [uip_neighbor_add_lookup],
      [timer_reset_stable], [chksum_equiv], [uip_add32_equiv],
      [uiplib_ipaddrconv_print], [uiplib_ipaddrconv_accepts].
    - Forwarding: [uip_fw_forward_transit], [uip_fw_forward_expired],
      [uip_fw_forward_once].
    - The client's view: [xtcpd_init_state_fresh], [xtcpd_appcall_events],
      [xtcp_buffered_stream].
    - The channels: [xtcp_command_refines], [xtcp_event_refines],
      [xtcp_recv_refines], [xtcp_send_refines]: every call of the library meets
      the server's side of it, in any interleaving and with channels of any
      capacity, and leaves the server as [Xtcp] says; [xtcp_write_delivers],
      [xtcp_read_gathers].
    - mDNS: [mdns_claimed_after_six] (the automaton of probes and
      announcements), [mdns_comes_up], [mdns_query_answered],
      [mdns_name_contested], [mdns_name_roundtrip], [mdns_rev_ip_roundtrip].
    - TFTP: [tftp_transfer], [tftp_refused], [tftp_replies_wellformed].
    - The IPv6 host: [list_calls_refine] (linked lists are sequences, until an
      element is inserted that is on its list already),
      [nbr_call_refines] (the neighbour tables and their replacement policy),
      [ds6_calls_safe] and [nd_run_safe] (any sequence of calls, messages and
      timers), [route_lookup_longest], [select_src_longest],
      [defrt_periodic_expires], [address_resolution] (solicitation, answer and
      reception between two hosts, checksums included).
    - Flaws: [syn_hangs_stack] (one segment stops the server),
      [server_process_packet] (an echo reply sent before there is an address),
      [mdns_endless_query] (one datagram stops the responder),
      [tftp_retry_loses_blocks], [xtcp_ignore_recv_traps], [nd_option_endless]
      (one message stops the IPv6 host), and the lemmas
      [increment_ackno_wrong], [iss_never_increases], [arp_entry_never_expires],
      [xtcp_buffered_unpause_missed] and those at the end of
      [MdnsExamples], [Ds6Examples] and [Nd6Examples].

    [UipExamples], [NetExamples], [XtcpExamples], [ServerExamples],
    [RouterExamples], [MdnsExamples], [TftpExamples], [XcExamples], [Ds6Examples] and
    [Nd6Examples] run the model on concrete packets: a TCP
    conversation with an echo server, the same through the xtcp layer, a host that
    boots and obtains a lease, a router, a host that claims its name, a file that is stored.

    ** Not modelled

    Of the IPv6 build: the engine (contiki/net/uip6.c: the header chain, and the
    same TCP as the IPv4 engine, which is modelled) but for its checksums and
    32-bit addition; the router side of neighbour discovery, RPL, the packet queue
    and [uip_ds6_link_neighbor_callback], which the configuration leaves out; the
    processes and event timers of the Contiki kernel, of which the host keeps two
    timers; the IPv6 copies of the server and of the client layer, but for the
    output function.  Of the rest: psock.c, which nothing calls; the single-thread server
    (uip_single_server.xc), which makes the same calls in another loop; the
    NetBIOS responder of mdns.c, which is not compiled; the applications, the experiments and the tests. *)
From Stdlib Require Export ZArith Lia.
From stdpp Require Export base list numbers option.

(** * Arithmetic tactics

    [lia] sees [div] and [mod] by constants through the Zify hook; [zdm] is
    [lia] with the hook switched on locally, so the default [lia] stays fast. *)
Ltac zdm := Z.div_mod_to_equations; lia.

Local Open Scope Z_scope.

(** * Functional record update

    [r <| f := v |>] replaces field [f] of the structure [r], and
    [r <| f ::= g |>] applies [g] to it.  A structure only has to provide its
    eta expansion as an instance of [Eta]; the updater of a field is computed
    from it by abstracting the projection. *)
Class Eta (R : Type) := eta : R -> R.

Class Settable {R T : Type} (proj : R -> T) :=
  set_field : (T -> T) -> R -> R.
Global Arguments set_field {R T} proj {_} f r.

Ltac head_of t := lazymatch t with ?f _ => head_of f | _ => t end.

Ltac derive_settable :=
  lazymatch goal with
  | |- @Settable ?R ?T ?proj =>
      let i := constr:(_ : Eta R) in
      let i := eval cbv beta in i in
      let h := head_of i in
      exact (fun (f : T -> T) (r : R) =>
        ltac:(let b := eval cbv beta delta [h eta] in (@eta R i r) in
              let p := eval pattern (proj r) in b in
              lazymatch p with
              | ?F _ => let t := eval cbv beta in (F (f (proj r))) in exact t
              end))
  end.
#[export] Hint Extern 0 (Settable _) => derive_settable : typeclass_instances.

Declare Scope update_scope.
Delimit Scope update_scope with update.
Notation "r <| p ::= f |>" := (set_field p f r)
  (at level 1, left associativity, format "r <| p  ::=  f |>") : update_scope.
Notation "r <| p := v |>" := (set_field p (fun _ => v) r)
  (at level 1, left associativity, format "r <| p  :=  v |>") : update_scope.
Open Scope update_scope.

(** * Machine integers

    A [w]-bit unsigned integer is a [Z] in [0 .. 2^w - 1]; [w8], [w16] and
    [w32] are the conversions the C code performs on assignment, and [s8],
    [s16], [s32] the two's complement readings of the same bits. *)
Definition w8 (z : Z) : Z := z mod 256.
Definition w16 (z : Z) : Z := z mod 65536.
Definition w32 (z : Z) : Z := z mod 4294967296.
Definition s8 (z : Z) : Z := (z + 128) mod 256 - 128.
Definition s16 (z : Z) : Z := (z + 32768) mod 65536 - 32768.
Definition s32 (z : Z) : Z := (z + 2147483648) mod 4294967296 - 2147483648.

Definition u8 (z : Z) : Prop := 0 <= z < 256.
Definition u16 (z : Z) : Prop := 0 <= z < 65536.
Definition u32 (z : Z) : Prop := 0 <= z < 4294967296.

(** C's test [if (x & m)]. *)
Definition tst (x m : Z) : bool := negb (Z.land x m =? 0).

Lemma w8_u8 z : u8 (w8 z).
Proof. unfold u8, w8. apply Z.mod_pos_bound. lia. Qed.
Lemma w16_u16 z : u16 (w16 z).
Proof. unfold u16, w16. apply Z.mod_pos_bound. lia. Qed.
Lemma w32_u32 z : u32 (w32 z).
Proof. unfold u32, w32. apply Z.mod_pos_bound. lia. Qed.
Lemma w8_small z : u8 z -> w8 z = z.
Proof. apply Z.mod_small. Qed.
Lemma w16_small z : u16 z -> w16 z = z.
Proof. apply Z.mod_small. Qed.
Lemma w32_small z : u32 z -> w32 z = z.
Proof. apply Z.mod_small. Qed.
Lemma u8_u16 z : u8 z -> u16 z.
Proof. unfold u8, u16. lia. Qed.

(** [~x] of a 16-bit quantity stored back into 16 bits. *)
Lemma w16_lnot z : u16 z -> w16 (Z.lnot z) = 65535 - z.
Proof. unfold u16, w16, Z.lnot. zdm. Qed.

(** Byte halves of a 16-bit quantity. *)
Lemma u8_lo z : u8 (z mod 256).
Proof. apply w8_u8. Qed.
Lemma u8_hi z : u16 z -> u8 (z / 256).
Proof. unfold u16, u8. zdm. Qed.

Create HintDb word discriminated.
#[export] Hint Resolve w8_u8 w16_u16 w32_u32 u8_lo u8_hi u8_u16 : word.

(** * Byte memory

    A C byte array is a [list Z] of values in [0 .. 255], addressed by [Z]
    offsets.  A read outside the array has no meaning in C; here it yields 0
    and a write outside changes nothing.  16-bit accesses are little endian,
    the byte order of the xCORE processor. *)
Definition rd8 (b : list Z) (i : Z) : Z := default 0 (b !! Z.to_nat i).
Definition wr8 (i v : Z) (b : list Z) : list Z := <[Z.to_nat i := w8 v]> b.

Definition rd16 (b : list Z) (i : Z) : Z := rd8 b i + 256 * rd8 b (i + 1).
Definition wr16 (i v : Z) (b : list Z) : list Z :=
  wr8 (i + 1) (w16 v / 256) (wr8 i (w16 v) b).

(** Four bytes of memory: an IPv4 address ([u16_t[2]] or [u8_t[4]]) or a TCP
    sequence number ([u8_t[4]]). *)
Record u8x4 : Type := U4 { q0 : Z; q1 : Z; q2 : Z; q3 : Z }.
#[export] Instance eta_u8x4 : Eta u8x4 := fun r => U4 r.(q0) r.(q1) r.(q2) r.(q3).
#[export] Instance u8x4_eq_dec : EqDecision u8x4.
Proof. solve_decision. Defined.

Definition rd4 (b : list Z) (i : Z) : u8x4 :=
  U4 (rd8 b i) (rd8 b (i + 1)) (rd8 b (i + 2)) (rd8 b (i + 3)).
Definition wr4 (i : Z) (a : u8x4) (b : list Z) : list Z :=
  wr8 (i + 3) (q3 a) (wr8 (i + 2) (q2 a) (wr8 (i + 1) (q1 a) (wr8 i (q0 a) b))).

(** The two [u16_t] elements of a 4-byte array, in memory order. *)
Definition word0 (a : u8x4) : Z := q0 a + 256 * q1 a.
Definition word1 (a : u8x4) : Z := q2 a + 256 * q3 a.
Definition of_words (w0 w1 : Z) : u8x4 :=
  U4 (w8 w0) (w8 (w0 / 256)) (w8 w1) (w8 (w1 / 256)).

(** The big-endian (network) value of four bytes. *)
Definition be32 (a : u8x4) : Z := 16777216 * q0 a + 65536 * q1 a + 256 * q2 a + q3 a.

(** [memcpy] of a run of bytes into the array and out of it. *)
Fixpoint wrs (i : Z) (vs b : list Z) : list Z :=
  match vs with
  | [] => b
  | v :: vs => wrs (i + 1) vs (wr8 i v b)
  end.
Definition rds (b : list Z) (i : Z) (n : nat) : list Z :=
  map (fun k => rd8 b (i + Z.of_nat k)) (seq 0 n).

Definition u8x4_ok (a : u8x4) : Prop := u8 (q0 a) /\ u8 (q1 a) /\ u8 (q2 a) /\ u8 (q3 a).
Definition bytes (b : list Z) : Prop := Forall u8 b.

Lemma forallb_bytes m : forallb (fun x => (0 <=? x) && (x <? 256)) m = true -> bytes m.
Proof.
  intros Hm. apply Forall_forall. intros x Hx. apply (proj1 (forallb_forall _ _) Hm) in Hx.
  apply andb_true_iff in Hx as [H1 H2]. unfold u8. lia.
Qed.
Lemma rd8_u8 b i : bytes b -> u8 (rd8 b i).
Proof.
  intros H. unfold rd8. destruct (b !! Z.to_nat i) eqn:E; simpl.
  - exact (Forall_lookup_1 _ _ _ _ H E).
  - unfold u8. lia.
Qed.
Lemma length_wr8 i v b : length (wr8 i v b) = length b.
Proof. apply length_insert. Qed.
Lemma length_wr16 i v b : length (wr16 i v b) = length b.
Proof. unfold wr16. by rewrite !length_wr8. Qed.
Lemma length_wr4 i v b : length (wr4 i v b) = length b.
Proof. unfold wr4. by rewrite !length_wr8. Qed.
Lemma length_wrs vs : forall i b, length (wrs i vs b) = length b.
Proof. induction vs as [|v vs IH]; intros; simpl; [done|]. by rewrite IH, length_wr8. Qed.
Lemma bytes_wr8 i v b : bytes b -> bytes (wr8 i v b).
Proof. intros. apply Forall_insert; auto with word. Qed.
Lemma bytes_wr16 i v b : bytes b -> bytes (wr16 i v b).
Proof. intros. unfold wr16. by do 2 apply bytes_wr8. Qed.
Lemma bytes_wr4 i v b : bytes b -> bytes (wr4 i v b).
Proof. intros. unfold wr4. by do 4 apply bytes_wr8. Qed.
Lemma bytes_wrs vs : forall i b, bytes b -> bytes (wrs i vs b).
Proof. induction vs; intros; simpl; [done|]. by apply IHvs, bytes_wr8. Qed.
Lemma length_rds b i n : length (rds b i n) = n.
Proof. unfold rds. by rewrite length_map, length_seq. Qed.

Lemma rd8_wr8_eq b i v : 0 <= i < Z.of_nat (length b) -> rd8 (wr8 i v b) i = w8 v.
Proof. intros. unfold rd8, wr8. rewrite list_lookup_insert_eq; [done | lia]. Qed.
Lemma rd8_wr8_ne b i j v : 0 <= i -> 0 <= j -> i <> j -> rd8 (wr8 i v b) j = rd8 b j.
Proof. intros. unfold rd8, wr8. rewrite list_lookup_insert_ne; [done | lia]. Qed.
Lemma rd8_wrs_out vs : forall b i j, 0 <= i -> 0 <= j ->
  j < i \/ i + Z.of_nat (length vs) <= j -> rd8 (wrs i vs b) j = rd8 b j.
Proof.
  induction vs as [|v vs IH]; intros b i j Hi Hj H; cbn [wrs length] in *; [done|].
  rewrite IH by lia. apply rd8_wr8_ne; lia.
Qed.

Lemma rd4_ok b i : bytes b -> u8x4_ok (rd4 b i).
Proof. intros. repeat split; cbn; try apply rd8_u8; auto. Qed.
Lemma rd16_u16 b i : bytes b -> u16 (rd16 b i).
Proof.
  intros Hb. unfold rd16. pose proof (rd8_u8 b i Hb) as Hl.
  pose proof (rd8_u8 b (i + 1) Hb) as Hh. unfold u8, u16 in *. lia.
Qed.
Lemma of_words_ok w0 w1 : u8x4_ok (of_words w0 w1).
Proof. repeat split; cbn; apply w8_u8. Qed.
Lemma be32_u32 a : u8x4_ok a -> u32 (be32 a).
Proof. unfold u8x4_ok, u8, u32, be32. lia. Qed.
Lemma be32_inj a b : u8x4_ok a -> u8x4_ok b -> be32 a = be32 b -> a = b.
Proof.
  destruct a, b; unfold u8x4_ok, u8, be32; cbn; intros. f_equal; lia.
Qed.

Create HintDb mem discriminated.
Create Rewrite HintDb memlen.
#[export] Hint Resolve bytes_wr8 bytes_wr16 bytes_wr4 bytes_wrs rd4_ok rd8_u8 rd16_u16
  of_words_ok : mem.
#[export] Hint Rewrite length_wr8 length_wr16 length_wr4 length_wrs : memlen.

(** [mem_step] resolves one read against one write at constant offsets; the
    16-bit and 4-byte accesses are first opened into bytes. *)
Ltac mem_len := autorewrite with memlen; cbn [length]; lia.
Ltac mem_step :=
  first [ rewrite rd8_wr8_ne by lia | rewrite rd8_wr8_eq by mem_len ].
Ltac mem_simpl := unfold rd16, wr16, rd4, wr4; repeat mem_step.

(** ** Fields

    One access of 1, 2 or 4 bytes against one store at constant offsets: past
    it when they do not overlap, the stored value when they coincide. *)
Lemma rd8_wr16_ne b i j v : 0 <= i -> 0 <= j -> i <> j -> i + 1 <> j -> rd8 (wr16 i v b) j = rd8 b j.
Proof. intros. unfold wr16. by rewrite !rd8_wr8_ne by lia. Qed.
Lemma rd8_wr4_ne b i j v : 0 <= i -> 0 <= j -> j < i \/ i + 4 <= j -> rd8 (wr4 i v b) j = rd8 b j.
Proof. intros. unfold wr4. by rewrite !rd8_wr8_ne by lia. Qed.
Lemma rd16_wr16_eq b i v : 0 <= i -> i + 2 <= Z.of_nat (length b) -> rd16 (wr16 i v b) i = w16 v.
Proof.
  intros. unfold rd16, wr16. rewrite rd8_wr8_eq by (rewrite length_wr8; lia).
  rewrite rd8_wr8_ne, rd8_wr8_eq by lia. pose proof (w16_u16 v). unfold u16, w8 in *. zdm.
Qed.
Lemma rd4_wr4_eq b i a : 0 <= i -> i + 4 <= Z.of_nat (length b) -> u8x4_ok a -> rd4 (wr4 i a b) i = a.
Proof.
  intros ? ? (? & ? & ? & ?). unfold rd4, wr4. destruct a as [a0 a1 a2 a3]; cbn [q0 q1 q2 q3] in *.
  rewrite rd8_wr8_ne, (rd8_wr8_ne _ (i + 2)), (rd8_wr8_ne _ (i + 1)), rd8_wr8_eq by lia.
  rewrite (rd8_wr8_ne _ (i + 3)), (rd8_wr8_ne _ (i + 2)), rd8_wr8_eq by (rewrite ?length_wr8; lia).
  rewrite (rd8_wr8_ne _ (i + 3)), rd8_wr8_eq by (rewrite ?length_wr8; lia).
  rewrite rd8_wr8_eq by (rewrite ?length_wr8; lia). by rewrite !w8_small.
Qed.

Lemma wr16_0_id b i : 0 <= i -> i + 2 <= Z.of_nat (length b) ->
  rd8 b i = 0 -> rd8 b (i + 1) = 0 -> wr16 i 0 b = b.
Proof.
  intros Hi Hl H0 H1. unfold wr16, wr8, rd8 in *. cbn -[Z.to_nat].
  rewrite (list_insert_id b (Z.to_nat i)), list_insert_id; [done| |].
  - destruct (b !! Z.to_nat (i + 1)) eqn:E; [simpl in *; by subst|].
    apply lookup_ge_None in E. lia.
  - destruct (b !! Z.to_nat i) eqn:E; [simpl in *; by subst|].
    apply lookup_ge_None in E. lia.
Qed.
Lemma rd16_wr8_ne b i j v : 0 <= i -> 0 <= j -> i < j \/ j + 2 <= i ->
  rd16 (wr8 i v b) j = rd16 b j.
Proof. intros. unfold rd16. by rewrite !rd8_wr8_ne by lia. Qed.
Lemma rd16_wr16_ne b i j v : 0 <= i -> 0 <= j -> i + 2 <= j \/ j + 2 <= i ->
  rd16 (wr16 i v b) j = rd16 b j.
Proof. intros. unfold rd16. by rewrite !rd8_wr16_ne by lia. Qed.
Lemma rd16_wr4_ne b i j v : 0 <= i -> 0 <= j -> i + 4 <= j \/ j + 2 <= i ->
  rd16 (wr4 i v b) j = rd16 b j.
Proof. intros. unfold rd16. by rewrite !rd8_wr4_ne by lia. Qed.
Lemma rd4_wr8_ne b i j v : 0 <= i -> 0 <= j -> i < j \/ j + 4 <= i ->
  rd4 (wr8 i v b) j = rd4 b j.
Proof. intros. unfold rd4. by rewrite !rd8_wr8_ne by lia. Qed.
Lemma rd4_wr16_ne b i j v : 0 <= i -> 0 <= j -> i + 2 <= j \/ j + 4 <= i ->
  rd4 (wr16 i v b) j = rd4 b j.
Proof. intros. unfold rd4. by rewrite !rd8_wr16_ne by lia. Qed.
Lemma rd4_wr4_ne b i j v : 0 <= i -> 0 <= j -> i + 4 <= j \/ j + 4 <= i ->
  rd4 (wr4 i v b) j = rd4 b j.
Proof. intros. unfold rd4. by rewrite !rd8_wr4_ne by lia. Qed.

(** Reads of whole fields depend only on their bytes. *)
Lemma rd16_ext b b' i : rd8 b i = rd8 b' i -> rd8 b (i + 1) = rd8 b' (i + 1) -> rd16 b i = rd16 b' i.
Proof. unfold rd16. congruence. Qed.
Lemma rd4_ext b b' i : (forall k, i <= k < i + 4 -> rd8 b k = rd8 b' k) -> rd4 b i = rd4 b' i.
Proof. intros H. unfold rd4. by rewrite !H by lia. Qed.

(** Runs of bytes. *)
Lemma rd8_wrs_in vs : forall b i j, 0 <= i -> i + Z.of_nat (length vs) <= Z.of_nat (length b) ->
  i <= j < i + Z.of_nat (length vs) -> rd8 (wrs i vs b) j = w8 (nth (Z.to_nat (j - i)) vs 0).
Proof.
  induction vs as [|v vs IH]; intros b i j Hi Hl Hj; cbn [wrs length] in *; [lia|].
  destruct (decide (j = i)) as [->|].
  - rewrite rd8_wrs_out by lia. rewrite rd8_wr8_eq by lia. by rewrite Z.sub_diag.
  - rewrite IH by (rewrite ?length_wr8; lia).
    replace (Z.to_nat (j - i)) with (S (Z.to_nat (j - (i + 1)))) by lia. done.
Qed.
Lemma rds_ext b b' i n : (forall k, i <= k < i + Z.of_nat n -> rd8 b k = rd8 b' k) ->
  rds b i n = rds b' i n.
Proof. intros H. unfold rds. apply map_ext_in. intros k Hk%in_seq. apply H. lia. Qed.
Lemma nth_rds b i n k : (k < n)%nat -> nth k (rds b i n) 0 = rd8 b (i + Z.of_nat k).
Proof.
  intros Hk. unfold rds.
  rewrite (nth_indep _ 0 (rd8 b (i + Z.of_nat 0))) by (by rewrite length_map, length_seq).
  rewrite (map_nth (fun k => rd8 b (i + Z.of_nat k)) (seq 0 n) O k). by rewrite seq_nth.
Qed.
Lemma bytes_rds b i n : bytes b -> bytes (rds b i n).
Proof.
  intros Hb. unfold rds. apply Forall_map, Forall_forall. intros k _. by apply rd8_u8.
Qed.
Lemma rds_wrs_eq b i vs n : 0 <= i -> i + Z.of_nat (length vs) <= Z.of_nat (length b) ->
  bytes vs -> n = length vs -> rds (wrs i vs b) i n = vs.
Proof.
  intros Hi Hl Hb ->. apply nth_ext with (d := 0) (d' := 0); [apply length_rds|].
  intros k Hk. rewrite length_rds in Hk. rewrite nth_rds, rd8_wrs_in by lia.
  replace (Z.to_nat (i + Z.of_nat k - i)) with k by lia. apply w8_small.
  exact (proj1 (List.Forall_forall u8 vs) Hb _ (nth_In vs 0 Hk)).
Qed.
Lemma rds_wrs_ne b i vs j n : 0 <= i -> 0 <= j ->
  i + Z.of_nat (length vs) <= j \/ j + Z.of_nat n <= i -> rds (wrs i vs b) j n = rds b j n.
Proof. intros. apply rds_ext. intros k Hk. apply rd8_wrs_out; lia. Qed.
Lemma rds_wr8_ne b i v j n : 0 <= i -> 0 <= j -> i < j \/ j + Z.of_nat n <= i ->
  rds (wr8 i v b) j n = rds b j n.
Proof. intros. apply rds_ext. intros k Hk. apply rd8_wr8_ne; lia. Qed.
Lemma rds_wr16_ne b i v j n : 0 <= i -> 0 <= j -> i + 2 <= j \/ j + Z.of_nat n <= i ->
  rds (wr16 i v b) j n = rds b j n.
Proof. intros. apply rds_ext. intros k Hk. apply rd8_wr16_ne; lia. Qed.
Lemma rds_wr4_ne b i v j n : 0 <= i -> 0 <= j -> i + 4 <= j \/ j + Z.of_nat n <= i ->
  rds (wr4 i v b) j n = rds b j n.
Proof. intros. apply rds_ext. intros k Hk. apply rd8_wr4_ne; lia. Qed.
Lemma rd16_wrs_ne b i vs j : 0 <= i -> 0 <= j -> i + Z.of_nat (length vs) <= j \/ j + 2 <= i ->
  rd16 (wrs i vs b) j = rd16 b j.
Proof. intros. unfold rd16. by rewrite !rd8_wrs_out by lia. Qed.
Lemma rd4_wrs_ne b i vs j : 0 <= i -> 0 <= j -> i + Z.of_nat (length vs) <= j \/ j + 4 <= i ->
  rd4 (wrs i vs b) j = rd4 b j.
Proof. intros. unfold rd4. by rewrite !rd8_wrs_out by lia. Qed.

Lemma rds_app b m n : forall i, rds b i (m + n) = rds b i m ++ rds b (i + Z.of_nat m) n.
Proof.
  intros i. unfold rds. rewrite seq_app, map_app. f_equal. cbn [Nat.add].
  rewrite <- (Nat.add_0_r m) at 1. rewrite <- fmap_add_seq. rewrite map_map.
  apply map_ext. intros k. f_equal. lia.
Qed.
Lemma wrs_app_exact a x b : bytes x -> (length x <= length b)%nat -> wrs (Z.of_nat (length a)) x (a ++ b) = a ++ x ++ skipn (length x) b.
Proof.
  revert a b. induction x as [|v x IH]; intros a b Hx Hl; cbn [wrs length] in *; [done|].
  destruct b as [|b0 b]; cbn in Hl; [lia|]. apply Forall_cons_iff in Hx as [Hv Hx].
  assert (wr8 (Z.of_nat (length a)) v (a ++ b0 :: b) = (a ++ [v]) ++ b) as ->.
  { unfold wr8. rewrite Nat2Z.id, insert_app_r_alt, Nat.sub_diag by lia. cbn. by rewrite w8_small, <- app_assoc. }
  replace (Z.of_nat (length a) + 1) with (Z.of_nat (length (a ++ [v]))) by (rewrite length_app; cbn; lia).
  rewrite IH by (done || lia). by rewrite <- app_assoc.
Qed.
Lemma rds_shift b b' i d n : (forall k, i <= k < i + Z.of_nat n -> rd8 b k = rd8 b' (k + d)) ->
  rds b i n = rds b' (i + d) n.
Proof.
  intros H. unfold rds. apply map_ext_in. intros k Hk%in_seq. rewrite H by lia. f_equal. lia.
Qed.

(** A run of bytes read back from inside a longer run. *)
Lemma rds_wrs_sub b i vs j n : 0 <= i -> i + Z.of_nat (length vs) <= Z.of_nat (length b) ->
  bytes vs -> i <= j -> j + Z.of_nat n <= i + Z.of_nat (length vs) ->
  rds (wrs i vs b) j n = firstn n (skipn (Z.to_nat (j - i)) vs).
Proof.
  intros Hi Hl Hb Hj Hn. apply nth_ext with (d := 0) (d' := 0).
  - rewrite length_rds, length_firstn, length_skipn. lia.
  - intros k Hk. rewrite length_rds in Hk. rewrite nth_rds, rd8_wrs_in by lia.
    rewrite nth_firstn, nth_skipn. destruct (Nat.ltb_spec k n); [|lia].
    replace (Z.to_nat (j + Z.of_nat k - i)) with (Z.to_nat (j - i) + k)%nat by lia. apply w8_small.
    apply (proj1 (List.Forall_forall u8 vs) Hb), nth_In. lia.
Qed.

Lemma firstn_rds b i n k : (k <= n)%nat -> firstn k (rds b i n) = rds b i k.
Proof.
  intros H. replace n with (k + (n - k))%nat by lia.
  rewrite rds_app, take_app_length'; [done|by rewrite length_rds].
Qed.
Lemma skipn_rds b i n k : (k <= n)%nat -> skipn k (rds b i n) = rds b (i + Z.of_nat k) (n - k).
Proof.
  intros H. replace n with (k + (n - k))%nat at 1 by lia.
  rewrite rds_app, drop_app_length'; [done|by rewrite length_rds].
Qed.

(** [fld] resolves the accesses of a goal; the side conditions are left to the
    hypotheses: a lower bound of the length of the buffer, the widths of the
    stored values. *)
Ltac fld_step :=
  first
  [ rewrite rd8_wr8_ne by lia | rewrite rd8_wr16_ne by lia | rewrite rd8_wr4_ne by lia
  | rewrite rd16_wr8_ne by lia | rewrite rd16_wr16_ne by lia | rewrite rd16_wr4_ne by lia
  | rewrite rd4_wr8_ne by lia | rewrite rd4_wr16_ne by lia | rewrite rd4_wr4_ne by lia
  | rewrite rd8_wr8_eq by mem_len | rewrite rd16_wr16_eq by mem_len
  | rewrite rd4_wr4_eq by (first [mem_len | eassumption]) ].
(** The same for runs; the lengths of the runs are hypotheses. *)
Ltac run_side := autorewrite with memlen; rewrite ?length_rds; cbn [length replicate]; lia.
Ltac run_step :=
  first
  [ fld_step
  | rewrite rd8_wrs_out by run_side | rewrite rd16_wrs_ne by run_side | rewrite rd4_wrs_ne by run_side
  | match goal with
    | |- context [rds (wr8 ?i ?v ?b) ?j ?n] => rewrite (rds_wr8_ne b i v j n) by run_side
    | |- context [rds (wr16 ?i ?v ?b) ?j ?n] => rewrite (rds_wr16_ne b i v j n) by run_side
    | |- context [rds (wr4 ?i ?v ?b) ?j ?n] => rewrite (rds_wr4_ne b i v j n) by run_side
    | |- context [rds (wrs ?i ?vs ?b) ?j ?n] =>
        first [ rewrite (rds_wrs_eq b i vs n) by (first [eassumption | run_side])
              | rewrite (rds_wrs_ne b i vs j n) by run_side ]
    end ].
Ltac runs := repeat run_step.
Ltac fld := repeat fld_step.

(** * Searching an array

    [find_index p l] is the loop [for (i = 0; i < n; i++) if (p(l[i])) break;]:
    the first index whose element satisfies [p], or [None] when the loop runs
    to the end. *)
Fixpoint find_index {A} (p : A -> bool) (l : list A) : option nat :=
  match l with
  | [] => None
  | x :: l => if p x then Some O else S <$> find_index p l
  end.

Section find_index.
Context {A : Type} (p : A -> bool).

Lemma find_index_Some l i :
  find_index p l = Some i <->
  (exists x, l !! i = Some x /\ p x = true) /\
  (forall j y, (j < i)%nat -> l !! j = Some y -> p y = false).
Proof.
  revert i. induction l as [|x l IH]; intros i; simpl.
  - split; [done|]. intros [(y & Hy & _) _]. done.
  - destruct (p x) eqn:E; split.
    + intros [= <-]. split; [by exists x|]. lia.
    + intros [_ H]. destruct i as [|i]; [done|].
      assert (true = false) by (rewrite <- E; apply (H O); [lia|done]). done.
    + intros (k & Hk & ->)%fmap_Some. apply IH in Hk as [Hk Hlt].
      split; [done|]. intros [|j] y; simpl; [by intros _ [= <-]|].
      intros ?. apply Hlt. lia.
    + intros [Hx Hlt]. destruct i as [|i]; [destruct Hx as (y & [= ->] & ?); congruence|].
      apply fmap_Some. exists i. split; [|done]. apply IH. split; [done|].
      intros j y ? ?. apply (Hlt (S j)); [lia|done].
Qed.

Lemma find_index_None l :
  find_index p l = None <-> Forall (fun x => p x = false) l.
Proof.
  induction l as [|x l IH]; simpl; [by split; [constructor|]|].
  rewrite Forall_cons_iff. destruct (p x).
  - split; [done|]. by intros [? _].
  - rewrite fmap_None, IH. tauto.
Qed.

Lemma find_index_lt l i : find_index p l = Some i -> (i < length l)%nat.
Proof. intros [(x & Hx & _) _]%find_index_Some. by eapply lookup_lt_Some. Qed.

(** An update that does not change whether its element is the one looked for. *)
Lemma find_index_alter f l : forall i, (forall x, l !! i = Some x -> p (f x) = p x) ->
  find_index p (alter f i l) = find_index p l.
Proof.
  induction l as [|x l IH]; intros [|i] H; cbn [find_index alter list_alter]; try done.
  - by rewrite (H x eq_refl).
  - rewrite (IH i); [done|]. intros y Hy. by apply H.
Qed.

(** An update that makes its element the first one looked for. *)
Lemma find_index_hit f l i : (i < length l)%nat -> (forall x, l !! i = Some x -> p (f x) = true) ->
  (forall j y, (j < i)%nat -> l !! j = Some y -> p y = false) ->
  find_index p (alter f i l) = Some i.
Proof.
  intros Hi Hx Hj. apply find_index_Some. split.
  - destruct (lookup_lt_is_Some_2 _ _ Hi) as [x Hlx]. exists (f x).
    rewrite list_lookup_alter_eq, Hlx. auto.
  - intros j y Hlt Hy. rewrite list_lookup_alter_ne in Hy by lia. eauto.
Qed.
End find_index.

Lemma lxor_u8 x y : u8 y -> u8 x -> u8 (Z.lxor x y).
Proof.
  unfold u8. intros Hy Hx.
  assert (forall z, 0 <= z < 256 -> Z.land z 255 = z) as Hl.
  { intros z Hz. change 255 with (Z.ones 8). rewrite Z.land_ones by lia. by apply Z.mod_small. }
  rewrite <- (Hl x), <- (Hl y) by done.
  replace (Z.lxor (Z.land x 255) (Z.land y 255)) with (Z.land (Z.lxor x y) 255).
  - change 255 with (Z.ones 8). rewrite Z.land_ones by lia. apply Z.mod_pos_bound. lia.
  - apply Z.bits_inj'. intros k Hk. rewrite !Z.land_spec, !Z.lxor_spec, !Z.land_spec.
    destruct (Z.testbit 255 k), (Z.testbit x k), (Z.testbit y k); done.
Qed.

Lemma land_u8 a b : u8 a -> u8 (Z.land a b).
Proof.
  unfold u8. intros Ha. assert (Z.land a b = Z.land (Z.land a b) (Z.ones 8)) as ->.
  { rewrite <- Z.land_assoc, (Z.land_comm b), Z.land_assoc. f_equal.
    rewrite Z.land_ones by lia. by rewrite Z.mod_small. }
  rewrite Z.land_ones by lia. apply Z.mod_pos_bound. lia.
Qed.
Lemma lor_u8 a b : u8 a -> u8 b -> u8 (Z.lor a b).
Proof.
  unfold u8. intros Ha Hb. assert (Z.lor a b = Z.land (Z.lor a b) (Z.ones 8)) as ->.
  { rewrite Z.land_lor_distr_l, !Z.land_ones by lia. by rewrite !Z.mod_small. }
  rewrite Z.land_ones by lia. apply Z.mod_pos_bound. lia.
Qed.
#[export] Hint Resolve land_u8 lor_u8 : word.
