(* ===== verification/CList.v ===== *)
(** * Linked lists and block allocation of Contiki: [list.c] and [memb.c]

    A list is the address of a cell that holds the first element; every element
    starts with a [next] pointer.  An element is named by its index in the pool
    it comes from, [None] is [NULL], and the [next] fields of a pool are the
    [store].  A [None] of a whole call is an access through a pointer to no
    element, or a list that runs in a circle: the fuel of the loops, one more
    than the number of elements, is exhausted by no other list. *)
From S2P Require Export Prelude.
From stdpp Require Export list gmap.
Local Open Scope nat_scope.

Notation ptr := (option nat).
Notation store := (gmap nat (option nat)).

Definition fuel_of (nx : store) : nat := S (size nx).
(** [l->next = v]. *)
Definition set_next (i : nat) (v : ptr) (nx : store) : option store :=
  _ ← nx !! i; Some (<[i := v]> nx).

(** * The operations

    A call takes the store and the head of the list and returns both. *)
Definition list_init : ptr := None.
Definition list_head (hd : ptr) : ptr := hd.
Definition list_copy (src : ptr) : ptr := src.

(** [for(l = *list; l->next != NULL; l = l->next);] *)
Fixpoint last_from (fuel : nat) (nx : store) (l : nat) : option nat :=
  match fuel with
  | O => None
  | S fuel => n ← nx !! l; match n with Some l' => last_from fuel nx l' | None => Some l end
  end.
Definition list_tail (nx : store) (hd : ptr) : option ptr :=
  match hd with
  | None => Some None
  | Some l => l ← last_from (fuel_of nx) nx l; Some (Some l)
  end.

(** [r] is the element before [l]. *)
Fixpoint remove_from (fuel : nat) (nx : store) (hd r l : ptr) (item : nat) : option (store * ptr) :=
  match fuel with
  | O => None
  | S fuel =>
      match l with
      | None => Some (nx, hd)
      | Some i =>
          n ← nx !! i;
          if decide (i = item) then
            match r with
            | None => nx ← set_next i None nx; Some (nx, n)
            | Some j => nx ← set_next j n nx; nx ← set_next i None nx; Some (nx, hd)
            end
          else remove_from fuel nx hd l n item
      end
  end.
Definition list_remove (nx : store) (hd : ptr) (item : nat) : option (store * ptr) :=
  remove_from (fuel_of nx) nx hd None hd item.

Definition list_add (nx : store) (hd : ptr) (item : nat) : option (store * ptr) :=
  '(nx, hd) ← list_remove nx hd item;
  nx ← set_next item None nx;
  l ← list_tail nx hd;
  match l with
  | None => Some (nx, Some item)
  | Some l => nx ← set_next l (Some item) nx; Some (nx, hd)
  end.

Definition list_push (nx : store) (hd : ptr) (item : nat) : option (store * ptr) :=
  '(nx, hd) ← list_remove nx hd item;
  nx ← set_next item hd nx;
  Some (nx, Some item).

(** [for(l = *list; l->next->next != NULL; l = l->next);] *)
Fixpoint chop_from (fuel : nat) (nx : store) (l : nat) : option nat :=
  match fuel with
  | O => None
  | S fuel =>
      n ← nx !! l;
      r ← n;
      n' ← nx !! r;
      match n' with Some _ => chop_from fuel nx r | None => Some l end
  end.
Definition list_chop (nx : store) (hd : ptr) : option (store * ptr * ptr) :=
  match hd with
  | None => Some (nx, hd, None)
  | Some l =>
      n ← nx !! l;
      match n with
      | None => Some (nx, None, Some l)
      | Some _ =>
          l ← chop_from (fuel_of nx) nx l;
          r ← nx !! l;
          nx ← set_next l None nx;
          Some (nx, hd, r)
      end
  end.

Definition list_pop (nx : store) (hd : ptr) : option (ptr * ptr) :=
  match hd with
  | None => Some (hd, None)
  | Some l => n ← nx !! l; Some (n, Some l)
  end.

Fixpoint length_from (fuel : nat) (nx : store) (l : ptr) (n : nat) : option nat :=
  match fuel with
  | O => None
  | S fuel =>
      match l with
      | None => Some n
      | Some i => l ← nx !! i; length_from fuel nx l (S n)
      end
  end.
Definition list_length (nx : store) (hd : ptr) : option nat := length_from (fuel_of nx) nx hd 0.

Definition list_insert (nx : store) (hd previtem : ptr) (newitem : nat) : option (store * ptr) :=
  match previtem with
  | None => list_push nx hd newitem
  | Some p =>
      n ← nx !! p;
      nx ← set_next newitem n nx;
      nx ← set_next p (Some newitem) nx;
      Some (nx, hd)
  end.

Definition list_item_next (nx : store) (item : ptr) : option ptr :=
  match item with
  | None => Some None
  | Some i => nx !! i
  end.

(** * Blocks

    The blocks of a [struct memb] are the elements of [memb_mem]; the [next]
    fields of blocks that are linked are in a [store] beside it. *)
Record memb (A : Type) : Type := Memb { memb_count : list Z; memb_mem : list A }.
Arguments Memb {A}.
Arguments memb_count {A}.
Arguments memb_mem {A}.
#[export] Instance eta_memb A : Eta (memb A) := fun r => Memb (memb_count r) (memb_mem r).

Definition memb_num {A} (m : memb A) : nat := length (memb_mem m).

Section memb.
Context {A : Type}.
Implicit Types m : memb A.

Definition memb_init (zero : A) m : memb A :=
  Memb (replicate (memb_num m) 0%Z) (replicate (memb_num m) zero).
Definition memb_alloc m : memb A * ptr :=
  match find_index (fun c => Z.eqb c 0) (memb_count m) with
  | Some i => (m <| memb_count ::= alter (fun c => w8 (c + 1)) i |>, Some i)
  | None => (m, None)
  end.
(** [char] is unsigned on the xCORE: the -1 of the last line is 255. *)
Definition memb_free m (i : nat) : memb A * Z :=
  match memb_count m !! i with
  | Some c =>
      let c' := if (0 <? c)%Z then (c - 1)%Z else c in
      (m <| memb_count ::= <[i := c']> |>, c')
  | None => (m, 255%Z)
  end.
(** A pointer, as an offset from the first block; the blocks have [size] bytes. *)
Definition memb_inmemb m (size : Z) (off : Z) : bool :=
  ((0 <=? off) && (off <? Z.of_nat (memb_num m) * size))%Z.
End memb.

(** * What a store represents

    [seg nx p xs q]: from [p] the [next] pointers lead through the elements
    [xs] to [q]; a list is a segment that ends in [NULL]. *)
Fixpoint seg (nx : store) (p : ptr) (xs : list nat) (q : ptr) : Prop :=
  match xs with
  | [] => p = q
  | x :: xs => p = Some x /\ exists n, nx !! x = Some n /\ seg nx n xs q
  end.
Definition chain (nx : store) (p : ptr) (xs : list nat) : Prop := seg nx p xs None.

Lemma seg_app nx xs ys : forall p q, seg nx p (xs ++ ys) q <-> exists r, seg nx p xs r /\ seg nx r ys q.
Proof. induction xs as [|x xs IH]; intros p q; cbn; naive_solver. Qed.
Lemma seg_frame nx nx' xs : (forall j, j ∈ xs -> nx' !! j = nx !! j) -> forall p q, seg nx p xs q -> seg nx' p xs q.
Proof.
  induction xs as [|x xs IH]; intros H p q; cbn; [done|]. intros (-> & n & Hn & Hs). split; [done|].
  exists n. split; [by rewrite H by set_solver|]. apply IH; [set_solver|done].
Qed.
Lemma seg_insert nx i v xs p q : i ∉ xs -> seg nx p xs q -> seg (<[i:=v]> nx) p xs q.
Proof. intros Hi. apply seg_frame. intros j Hj. apply lookup_insert_ne. set_solver. Qed.
Lemma seg_dom nx xs : forall p q, seg nx p xs q -> forall x, x ∈ xs -> is_Some (nx !! x).
Proof.
  induction xs as [|y xs IH]; intros p q; cbn; [set_solver|]. intros (-> & n & Hn & Hs) x [->|Hx]%elem_of_cons; eauto.
Qed.
Lemma chain_det nx xs : forall p ys, chain nx p xs -> chain nx p ys -> xs = ys.
Proof.
  induction xs as [|x xs IH]; intros p ys; unfold chain in *; cbn.
  - intros ->. destruct ys; cbn; [done|naive_solver].
  - intros (-> & n & Hn & Hs). destruct ys as [|y ys]; cbn; [done|]. intros (? & n' & Hn' & Hs').
    simplify_eq. f_equal. by eapply IH.
Qed.
Lemma chain_distinct nx p xs : chain nx p xs -> NoDup xs.
Proof.
  revert p. induction xs as [|x xs IH]; intros p H; [constructor|].
  pose proof H as (-> & n & Hn & Hs). constructor; [|by eapply IH].
  intros (l1 & l2 & ->)%list_elem_of_split. apply seg_app in Hs as (r & _ & Hr). pose proof Hr as [-> _].
  assert (x :: l1 ++ x :: l2 = x :: l2) as E by (by eapply chain_det).
  apply (f_equal length) in E. cbn in E. rewrite length_app in E. cbn in E. lia.
Qed.
Lemma chain_length nx p xs : chain nx p xs -> (length xs <= size nx)%nat.
Proof.
  intros H. pose proof (chain_distinct _ _ _ H) as Hd. rewrite <- (size_list_to_set (C := gset nat)) by done.
  rewrite <- (size_dom (D := gset nat) nx). apply subseteq_size. intros x Hx%elem_of_list_to_set. apply elem_of_dom. by eapply seg_dom.
Qed.

(** What a call may change: the [next] fields of the elements [ts]. *)
Record updates (nx nx' : store) (ts : list nat) : Prop := {
  upd_dom : forall j, is_Some (nx' !! j) <-> is_Some (nx !! j);
  upd_out : forall j, j ∉ ts -> nx' !! j = nx !! j }.

Lemma updates_refl nx ts : updates nx nx ts.
Proof. by split. Qed.
Lemma updates_trans a b c ts us : updates a b ts -> updates b c us -> updates a c (ts ++ us).
Proof.
  intros [D1 O1] [D2 O2]. split; intros j; [by rewrite D2|]. intros Hj.
  rewrite O2, O1; [done|set_solver..].
Qed.
Lemma updates_weaken a b ts us : (forall j, j ∈ ts -> j ∈ us) -> updates a b ts -> updates a b us.
Proof. intros H [D O]. split; [done|]. intros j Hj. apply O. naive_solver. Qed.
Lemma updates_size a b ts : updates a b ts -> size b = size a.
Proof.
  intros [D _]. rewrite <- (size_dom (D := gset nat) a), <- (size_dom (D := gset nat) b). f_equal. apply set_eq. intros j. rewrite !elem_of_dom. apply D.
Qed.
Lemma updates_chain a b ts p xs : updates a b ts -> xs ## ts -> chain a p xs -> chain b p xs.
Proof. intros [_ O] H. apply seg_frame. intros j Hj. apply O. set_solver. Qed.

Lemma set_next_spec i v nx : is_Some (nx !! i) -> set_next i v nx = Some (<[i:=v]> nx) /\ updates nx (<[i:=v]> nx) [i].
Proof.
  intros [n Hn]. unfold set_next. rewrite Hn. split; [done|]. split; intros j.
  - destruct (decide (j = i)) as [->|]; [rewrite lookup_insert_eq, Hn; split; by eexists|by rewrite lookup_insert_ne by done].
  - intros Hj. apply lookup_insert_ne. set_solver.
Qed.

(** * The operations on a list *)
Lemma last_from_spec nx ys : forall fuel y, chain nx (Some y) ys -> (length ys <= fuel)%nat ->
  last_from fuel nx y = last ys.
Proof.
  induction ys as [|x ys IH]; intros fuel y H Hf; unfold chain in H; cbn in H; [done|].
  destruct H as ([= <-] & n & Hn & Hs). destruct fuel as [|fuel]; cbn in *; [lia|].
  rewrite Hn. cbn. destruct ys as [|z ys]; cbn in Hs; [by subst|]. destruct Hs as (-> & m & Hm & Hs).
  rewrite (IH fuel z); [done| |lia]. split; [done|eauto].
Qed.
Lemma chain_fuel nx p xs : chain nx p xs -> (S (length xs) <= fuel_of nx)%nat.
Proof. intros H%chain_length. unfold fuel_of. lia. Qed.
Lemma list_tail_spec nx hd xs : chain nx hd xs -> list_tail nx hd = Some (last xs).
Proof.
  intros H. pose proof (chain_fuel _ _ _ H) as Hf. unfold list_tail. destruct hd as [l|].
  - rewrite (last_from_spec nx xs) by (done || lia). destruct xs as [|x xs]; [done|].
    destruct (last_is_Some (x :: xs)) as [_ [z Hz]]; [done|]. by rewrite Hz.
  - destruct xs; [done|]. by destruct H as [[=] _].
Qed.
Lemma length_from_spec nx xs : forall fuel p n, chain nx p xs -> (length xs < fuel)%nat ->
  length_from fuel nx p n = Some (length xs + n)%nat.
Proof.
  induction xs as [|x xs IH]; intros fuel p n H Hf; unfold chain in *; cbn in *; (destruct fuel as [|fuel]; [lia|]).
  - by subst.
  - destruct H as (-> & m & Hm & Hs). cbn. rewrite Hm. cbn. rewrite (IH fuel m (S n)) by (done || lia). f_equal. lia.
Qed.
Lemma list_length_spec nx hd xs : chain nx hd xs -> list_length nx hd = Some (length xs).
Proof.
  intros H. unfold list_length. rewrite (length_from_spec nx xs); [f_equal; lia|done|].
  pose proof (chain_fuel _ _ _ H). lia.
Qed.

(** The list without [item]. *)
Definition without (item : nat) (xs : list nat) : list nat := filter (fun x => x <> item) xs.
Lemma without_notin i xs : i ∉ xs -> without i xs = xs.
Proof.
  unfold without. induction xs as [|x xs IH]; intros H; [done|]. rewrite filter_cons_True by set_solver.
  f_equal. apply IH. set_solver.
Qed.
Lemma without_split i ys zs : i ∉ ys -> i ∉ zs -> without i (ys ++ i :: zs) = ys ++ zs.
Proof.
  intros. unfold without. rewrite filter_app, filter_cons_False by naive_solver.
  fold (without i ys) (without i zs). by rewrite !without_notin.
Qed.
Lemma elem_of_without i j xs : j ∈ without i xs <-> j <> i /\ j ∈ xs.
Proof. unfold without. by rewrite list_elem_of_filter. Qed.

Lemma remove_from_spec nx hd post : forall fuel pre r l i, seg nx hd pre l -> chain nx l post ->
  r = last pre -> i ∉ pre -> NoDup (pre ++ post) -> (length post < fuel)%nat ->
  exists nx' hd', remove_from fuel nx hd r l i = Some (nx', hd') /\ chain nx' hd' (pre ++ without i post) /\
    updates nx nx' (pre ++ post) /\ (i ∈ post -> nx' !! i = Some None).
Proof.
  induction post as [|x post IH]; intros fuel pre r l i Hpre Hl Hr Hi Hd Hf;
    unfold chain in Hl; cbn in Hl; (destruct fuel as [|fuel]; [cbn in Hf; lia|]).
  - subst l. exists nx, hd. rewrite !app_nil_r. repeat split; try done. set_solver.
  - destruct Hl as (-> & n & Hn & Hs). cbn [remove_from]. rewrite Hn. cbn [mbind option_bind]. case_decide as Hx.
    + subst x. apply NoDup_app in Hd as (Hdp & Hdj & [Hip Hdpost]%NoDup_cons).
      assert (without i (i :: post) = post) as -> by (apply (without_split i [] post); set_solver).
      destruct (set_next_spec i None nx) as [E1 U1]; [by eexists|].
      destruct (last pre) as [j|] eqn:Ej; subst r.
      * apply last_Some in Ej as [pre' ->]. apply seg_app in Hpre as (m & Hp1 & Hp2).
        destruct Hp2 as (-> & m' & Hm & ->).
        destruct (set_next_spec j n nx) as [E2 U2]; [by eexists|]. rewrite E2. cbn [mbind option_bind].
        assert (i <> j) as Hij by set_solver.
        destruct (set_next_spec i None (<[j:=n]> nx)) as [E3 U3]; [rewrite lookup_insert_ne by done; by eexists|].
        rewrite E3. cbn [mbind option_bind]. exists (<[i:=None]> (<[j:=n]> nx)), hd. split; [done|].
        apply NoDup_app in Hdp as (Hdp' & Hjp & _). split; [|split].
        -- apply seg_app. exists n. split.
           ++ apply seg_app. exists (Some j). split.
              ** apply seg_insert; [set_solver|]. apply seg_insert; [set_solver|done].
              ** cbn. split; [done|]. exists n. rewrite lookup_insert_ne, lookup_insert_eq by done. done.
           ++ apply seg_insert; [done|]. apply seg_insert; [|done]. intros ?. apply (Hdj j); set_solver.
        -- eapply updates_weaken; [|exact (updates_trans _ _ _ _ _ U2 U3)]. set_solver.
        -- intros _. by rewrite lookup_insert_eq.
      * apply last_None in Ej as ->. cbn in Hpre. subst hd. rewrite E1. cbn [mbind option_bind].
        exists (<[i:=None]> nx), n. split; [done|]. split; [by apply seg_insert|]. split; [|intros _; by rewrite lookup_insert_eq].
        eapply updates_weaken; [|exact U1]. set_solver.
    + destruct (IH fuel (pre ++ [x]) (Some x) n i) as (nx' & hd' & E & Hc & Hu & Hz).
      * apply seg_app. exists (Some x). split; [done|]. cbn. split; [done|]. by exists n.
      * done.
      * by rewrite last_snoc.
      * set_solver.
      * by rewrite <- app_assoc.
      * cbn in Hf. lia.
      * exists nx', hd'. rewrite E. split; [done|]. assert (without i (x :: post) = x :: without i post) as ->.
        { unfold without. by rewrite filter_cons_True by done. }
        rewrite <- app_assoc in Hc, Hu. cbn in Hc, Hu. split; [done|]. split; [done|].
        intros [->|?]%elem_of_cons; [done|by apply Hz].
Qed.

(** [list_remove] takes the element out, and leaves its [next] pointer [NULL]. *)
Lemma list_remove_spec nx hd xs i : chain nx hd xs ->
  exists nx' hd', list_remove nx hd i = Some (nx', hd') /\ chain nx' hd' (without i xs) /\
    updates nx nx' xs /\ (i ∈ xs -> nx' !! i = Some None).
Proof.
  intros H. destruct (remove_from_spec nx hd xs (fuel_of nx) [] None hd i) as (nx' & hd' & ? & ? & ? & ?);
    [done|done|done|set_solver|by eapply chain_distinct|by eapply chain_fuel|]. by exists nx', hd'.
Qed.

Lemma list_add_spec nx hd xs i : chain nx hd xs -> is_Some (nx !! i) ->
  exists nx' hd', list_add nx hd i = Some (nx', hd') /\ chain nx' hd' (without i xs ++ [i]) /\ updates nx nx' (i :: xs).
Proof.
  intros H Hi. unfold list_add. destruct (list_remove_spec nx hd xs i H) as (nx1 & hd1 & -> & Hc1 & U1 & _).
  cbn [mbind option_bind]. assert (i ∉ without i xs) as Hni by (rewrite elem_of_without; tauto).
  destruct (set_next_spec i None nx1) as [-> U2]; [by apply (upd_dom _ _ _ U1)|]. cbn [mbind option_bind].
  apply (seg_insert _ i None) in Hc1; [|done]. rewrite (list_tail_spec _ _ _ Hc1). cbn [mbind option_bind].
  pose proof (updates_trans _ _ _ _ _ U1 U2) as U.
  destruct (last (without i xs)) as [l|] eqn:El.
  - pose proof El as [ys Ey]%last_Some.
    assert (l ∈ xs) as Hlx by (apply (elem_of_without i l xs); rewrite Ey; set_solver).
    rewrite Ey in Hc1, Hni |- *. apply seg_app in Hc1 as (p & Hp & Hl). cbn in Hl. destruct Hl as (-> & n & Hn & ->).
    destruct (set_next_spec l (Some i) (<[i:=None]> nx1)) as [-> U3]; [by eexists|]. cbn [mbind option_bind].
    eexists _, hd1. split; [done|]. split.
    + assert (NoDup (ys ++ [l])) as [_ [Hd _]]%NoDup_app.
      { rewrite <- Ey. apply NoDup_filter. by eapply chain_distinct. }
      rewrite <- app_assoc. apply seg_app. exists (Some l). split; [apply seg_insert; [set_solver|done]|].
      cbn. split; [done|]. exists (Some i). rewrite lookup_insert_eq. split; [done|]. split; [done|].
      exists None. rewrite lookup_insert_ne, lookup_insert_eq by set_solver. done.
    + eapply updates_weaken; [|exact (updates_trans _ _ _ _ _ U U3)]. set_solver.
  - apply last_None in El. rewrite El in *. eexists _, (Some i). split; [done|]. split.
    + cbn. split; [done|]. exists None. by rewrite lookup_insert_eq.
    + eapply updates_weaken; [|exact U]. set_solver.
Qed.

Lemma list_push_spec nx hd xs i : chain nx hd xs -> is_Some (nx !! i) ->
  exists nx' hd', list_push nx hd i = Some (nx', hd') /\ chain nx' hd' (i :: without i xs) /\ updates nx nx' (i :: xs).
Proof.
  intros H Hi. unfold list_push. destruct (list_remove_spec nx hd xs i H) as (nx1 & hd1 & -> & Hc1 & U1 & _).
  cbn [mbind option_bind]. assert (i ∉ without i xs) as Hni by (rewrite elem_of_without; tauto).
  destruct (set_next_spec i hd1 nx1) as [-> U2]; [by apply (upd_dom _ _ _ U1)|]. cbn [mbind option_bind].
  eexists _, (Some i). split; [done|]. split.
  - cbn. split; [done|]. exists hd1. rewrite lookup_insert_eq. split; [done|]. by apply seg_insert.
  - eapply updates_weaken; [|exact (updates_trans _ _ _ _ _ U1 U2)]. set_solver.
Qed.

Lemma list_pop_spec nx hd xs : chain nx hd xs ->
  list_pop nx hd = Some (match xs with [] => (None, None) | x :: _ => (default None (nx !! x), Some x) end) /\
  chain nx (match xs with [] => None | x :: _ => default None (nx !! x) end) (tail xs).
Proof.
  destruct xs as [|x xs]; unfold chain, list_pop; cbn; [by intros ->|].
  intros (-> & n & Hn & Hs). by rewrite Hn.
Qed.

Lemma chop_from_spec nx ys : forall fuel y z x, chain nx (Some y) (ys ++ [z; x]) -> (length ys < fuel)%nat ->
  chop_from fuel nx y = Some z.
Proof.
  induction ys as [|w ys IH]; intros fuel y z x H Hf; (destruct fuel as [|fuel]; [cbn in Hf; lia|]); cbn in H.
  - destruct H as ([= ->] & n & Hn & -> & m & Hm & ->). cbn. rewrite Hn. cbn. by rewrite Hm.
  - destruct H as ([= ->] & n & Hn & Hs). cbn [chop_from]. rewrite Hn. cbn [mbind option_bind].
    destruct n as [r|]; [|by destruct ys; destruct Hs as [[=] _]]. cbn [mbind option_bind].
    assert (exists r', nx !! r = Some (Some r')) as [r' Hr'].
    { destruct ys as [|v ys]; cbn in Hs.
      - destruct Hs as ([= ->] & m & Hm & -> & _). by eexists.
      - destruct Hs as ([= ->] & m & Hm & Hs). destruct m as [m|]; [by eexists|].
        by destruct ys; destruct Hs as [[=] _]. }
    rewrite Hr'. cbn [mbind option_bind]. apply (IH fuel r z x); [exact Hs|cbn in Hf; lia].
Qed.
Lemma list_chop_spec nx hd xs : chain nx hd xs ->
  exists nx' hd', list_chop nx hd = Some (nx', hd', last xs) /\
    chain nx' hd' (take (pred (length xs)) xs) /\ updates nx nx' xs.
Proof.
  intros H. pose proof (chain_fuel _ _ _ H) as Hf. destruct xs as [|x xs] using rev_ind; [|clear IHxs].
  { unfold chain in H. cbn in H. subst. exists nx, None. split; [done|]. split; [done|]. apply updates_refl. }
  rewrite last_snoc, length_app, Nat.add_comm. cbn [length Nat.add pred].
  rewrite take_app_length. destruct xs as [|z ys] using rev_ind; [|clear IHys].
  - cbn in H. destruct H as (-> & n & Hn & ->). unfold list_chop. rewrite Hn. cbn [mbind option_bind].
    exists nx, None. split; [done|]. split; [done|]. apply updates_refl.
  - rewrite <- app_assoc in H. cbn in H. destruct hd as [y|]; [|by destruct ys; destruct H as [[=] _]].
    assert (chop_from (fuel_of nx) nx y = Some z) as Hc.
    { eapply chop_from_spec; [exact H|]. rewrite !length_app in Hf. cbn in Hf. lia. }
    assert (exists r, nx !! y = Some (Some r)) as [r Hr].
    { destruct ys; cbn in H.
      - destruct H as ([= ->] & m & Hm & -> & _). by eexists.
      - destruct H as ([= ->] & m & Hm & Hs). destruct m; [by eexists|]. by destruct ys; destruct Hs as [[=] _]. }
    pose proof (chain_distinct _ _ _ H) as Hd. apply seg_app in H as (p & Hp & Hz). cbn in Hz.
    destruct Hz as (-> & m & Hm & -> & m' & Hx & Hn').
    destruct (set_next_spec z None nx) as [Es Us]; [by eexists|].
    exists (<[z:=None]> nx), (Some y). split; [|split].
    + unfold list_chop. rewrite Hr. cbn [mbind option_bind]. rewrite Hc. cbn [mbind option_bind]. rewrite Hm.
      cbn [mbind option_bind]. by rewrite Es.
    + apply seg_app. exists (Some z). split.
      * apply seg_insert; [|done]. apply NoDup_app in Hd as (_ & Hd & _). intros Hin. by apply (Hd z Hin); set_solver.
      * cbn. split; [done|]. exists None. by rewrite lookup_insert_eq.
    + eapply updates_weaken; [|exact Us]. set_solver.
Qed.

(** The list with [y] after [x]. *)
Fixpoint after (x y : nat) (xs : list nat) : list nat :=
  match xs with
  | [] => []
  | z :: xs => if decide (z = x) then z :: y :: xs else z :: after x y xs
  end.
Lemma after_split x y ys zs : x ∉ ys -> after x y (ys ++ x :: zs) = ys ++ x :: y :: zs.
Proof.
  induction ys as [|z ys IH]; intros H; cbn; [by rewrite decide_True|].
  rewrite decide_False by set_solver. f_equal. apply IH. set_solver.
Qed.
Lemma list_insert_spec nx hd xs p i : chain nx hd xs -> p ∈ xs -> i ∉ xs -> is_Some (nx !! i) ->
  exists nx' hd', list_insert nx hd (Some p) i = Some (nx', hd') /\ chain nx' hd' (after p i xs) /\ updates nx nx' (i :: xs).
Proof.
  intros H (ys & zs & ->)%list_elem_of_split Hi Hs. pose proof (chain_distinct _ _ _ H) as Hd.
  apply NoDup_app in Hd as (_ & Hd & [Hpz _]%NoDup_cons). rewrite after_split by (intros Hp; apply (Hd p Hp); set_solver).
  apply seg_app in H as (q & Hy & Hp). cbn in Hp. destruct Hp as (-> & n & Hn & Hz).
  unfold list_insert. rewrite Hn. cbn [mbind option_bind].
  destruct (set_next_spec i n nx Hs) as [-> U1]. cbn [mbind option_bind].
  destruct (set_next_spec p (Some i) (<[i:=n]> nx)) as [-> U2].
  { rewrite lookup_insert_ne by set_solver. by eexists. }
  cbn [mbind option_bind]. eexists _, hd. split; [done|]. split.
  - assert (p ∉ ys) by (intros Hp; apply (Hd p Hp); set_solver).
    apply seg_app. exists (Some p). split; [apply seg_insert; [done|]; apply seg_insert; [set_solver|done]|].
    cbn. split; [done|]. exists (Some i). rewrite lookup_insert_eq. split; [done|]. split; [done|].
    exists n. rewrite lookup_insert_ne, lookup_insert_eq by set_solver. split; [done|].
    apply seg_insert; [done|]. apply seg_insert; [set_solver|done].
  - eapply updates_weaken; [|exact (updates_trans _ _ _ _ _ U1 U2)]. set_solver.
Qed.

(** [list_insert] does not take the element out first.  When it is on the list
    before [p], the elements from there to [p] drop out. *)
Lemma list_insert_back nx hd pre i mid p post : chain nx hd (pre ++ i :: mid ++ p :: post) ->
  exists nx' hd', list_insert nx hd (Some p) i = Some (nx', hd') /\ chain nx' hd' (pre ++ i :: post) /\
    updates nx nx' [i; p].
Proof.
  intros H. pose proof (chain_distinct _ _ _ H) as Hd. apply seg_app in H as (q & Hpre & H). cbn in H.
  destruct H as (-> & m & Hm & H). apply seg_app in H as (q & Hmid & H). cbn in H. destruct H as (-> & n & Hn & Hpost).
  apply NoDup_app in Hd as (_ & Hd & [Hi Hd2]%NoDup_cons). rewrite elem_of_app, elem_of_cons in Hi.
  apply NoDup_app in Hd2 as (_ & _ & [Hp _]%NoDup_cons).
  assert (i <> p) as Hip by naive_solver. assert (i ∉ post) by naive_solver.
  assert (i ∉ pre) by (intros ?; apply (Hd i); set_solver). assert (p ∉ pre) by (intros ?; apply (Hd p); set_solver).
  unfold list_insert. rewrite Hn. cbn [mbind option_bind].
  destruct (set_next_spec i n nx) as [-> U1]; [by eexists|]. cbn [mbind option_bind].
  destruct (set_next_spec p (Some i) (<[i:=n]> nx)) as [-> U2]; [rewrite lookup_insert_ne by done; by eexists|].
  cbn [mbind option_bind]. eexists _, hd. split; [done|]. split; [|exact (updates_trans _ _ _ _ _ U1 U2)].
  apply seg_app. exists (Some i). split; [by do 2 (apply seg_insert; [done|])|]. cbn. split; [done|]. exists n.
  rewrite lookup_insert_ne, lookup_insert_eq by done. split; [done|]. by do 2 (apply seg_insert; [done|]).
Qed.

(** When it is [p] itself or comes after [p], a circle is closed: every walk over
    the list runs for ever. *)
Lemma walk_into nx hd pre : forall c0, seg nx hd pre c0 ->
  (forall fuel n, length_from fuel nx c0 n = None) -> forall fuel n, length_from fuel nx hd n = None.
Proof.
  revert hd. induction pre as [|x pre IH]; intros hd c0; cbn [seg]; [by intros ->|].
  intros (-> & m & Hm & Hs) Hc fuel n. destruct fuel as [|fuel]; [done|]. cbn [length_from]. rewrite Hm.
  cbn [mbind option_bind]. by eapply IH.
Qed.
Lemma walk_circle nx i mid : seg nx (Some i) (i :: mid) (Some i) -> forall fuel n, length_from fuel nx (Some i) n = None.
Proof.
  intros Hc fuel. induction (lt_wf fuel) as [fuel _ IH]. intros n.
  enough (forall ys q k f, seg nx q ys (Some i) -> (f < fuel)%nat -> length_from f nx q k = None) as Hys.
  { destruct fuel as [|fuel]; [done|]. cbn in Hc. destruct Hc as (_ & m & Hm & Hs). cbn [length_from]. rewrite Hm.
    cbn [mbind option_bind]. apply (Hys mid); [exact Hs|lia]. }
  induction ys as [|y ys IHys]; intros q k f; cbn [seg]; [intros -> Hf; by apply IH|].
  intros (-> & m & Hm & Hs) Hf. destruct f as [|f]; [done|]. cbn [length_from]. rewrite Hm. cbn [mbind option_bind].
  apply IHys; [exact Hs|lia].
Qed.
Lemma list_insert_circle nx hd pre p mid post i : chain nx hd (pre ++ p :: mid ++ post) -> last (p :: mid) = Some i ->
  exists nx', list_insert nx hd (Some p) i = Some (nx', hd) /\ forall fuel n, length_from fuel nx' hd n = None.
Proof.
  intros H Hl. pose proof (chain_distinct _ _ _ H) as Hd. apply seg_app in H as (q & Hpre & H). cbn in H.
  destruct H as (-> & n & Hn & H). apply seg_app in H as (q & Hmid & _).
  apply NoDup_app in Hd as (_ & Hd & Hd2). rewrite app_comm_cons in Hd2. apply NoDup_app in Hd2 as (Hd2 & _ & _).
  assert (i ∈ p :: mid) as Hi by (apply last_Some in Hl as [l' ->]; set_solver).
  assert (i ∉ pre /\ p ∉ pre) as [Hip Hpp] by (split; intros Hx; apply (Hd _ Hx); set_solver).
  assert (is_Some (nx !! i)) as Hs.
  { apply elem_of_cons in Hi as [->|Hi]; [by eexists|]. by eapply seg_dom. }
  unfold list_insert. rewrite Hn. cbn [mbind option_bind].
  destruct (set_next_spec i n nx Hs) as [-> U1]. cbn [mbind option_bind].
  destruct (set_next_spec p (Some i) (<[i:=n]> nx)) as [-> U2]; [apply (upd_dom _ _ _ U1); by eexists|].
  cbn [mbind option_bind]. eexists. split; [done|]. apply (walk_into _ hd pre (Some p)).
  { by do 2 (apply seg_insert; [done|]). }
  destruct mid as [|x mid] using rev_ind; [|clear IHmid].
  - injection Hl as <-. apply (walk_circle _ p []). cbn. split; [done|]. eexists. by rewrite lookup_insert_eq.
  - rewrite app_comm_cons, last_snoc in Hl. injection Hl as ->. apply seg_app in Hmid.
    apply NoDup_cons in Hd2 as [Hpm Hd2]. apply NoDup_app in Hd2 as (_ & Hdj & _).
    assert (i <> p) as Hne by set_solver. assert (i ∉ mid) by (intros Hx; apply (Hdj i Hx); set_solver).
    assert (<[p:=Some i]> (<[i:=n]> nx) !! p = Some (Some i)) as E1 by (by rewrite lookup_insert_eq).
    assert (<[p:=Some i]> (<[i:=n]> nx) !! i = Some n) as E2 by (by rewrite lookup_insert_ne, lookup_insert_eq).
    apply (walk_into _ _ [p] (Some i)); [cbn; split; [done|by exists (Some i)]|].
    apply (walk_circle _ i mid). cbn. split; [done|]. exists n. split; [done|].
    cbn in Hmid. destruct Hmid as (q' & Hmid & -> & _). by do 2 (apply seg_insert; [set_solver|]).
Qed.

(** * Any sequence of calls *)
Inductive list_call : Type :=
  | CInit | CAdd (i : nat) | CPush (i : nat) | CRemove (i : nat) | CPop | CChop | CInsert (p : ptr) (i : nat)
  | CHead | CTail | CLength.
Inductive list_answer : Type := AVoid | APtr (p : ptr) | AInt (n : nat).

Definition call (nx : store) (hd : ptr) (c : list_call) : option (store * ptr * list_answer) :=
  match c with
  | CInit => Some (nx, list_init, AVoid)
  | CAdd i => '(nx, hd) ← list_add nx hd i; Some (nx, hd, AVoid)
  | CPush i => '(nx, hd) ← list_push nx hd i; Some (nx, hd, AVoid)
  | CRemove i => '(nx, hd) ← list_remove nx hd i; Some (nx, hd, AVoid)
  | CPop => '(hd, r) ← list_pop nx hd; Some (nx, hd, APtr r)
  | CChop => '(nx, hd, r) ← list_chop nx hd; Some (nx, hd, APtr r)
  | CInsert p i => '(nx, hd) ← list_insert nx hd p i; Some (nx, hd, AVoid)
  | CHead => Some (nx, hd, APtr (list_head hd))
  | CTail => r ← list_tail nx hd; Some (nx, hd, APtr r)
  | CLength => n ← list_length nx hd; Some (nx, hd, AInt n)
  end.
Fixpoint calls (nx : store) (hd : ptr) (cs : list list_call) : option (store * ptr * list list_answer) :=
  match cs with
  | [] => Some (nx, hd, [])
  | c :: cs => '(nx, hd, a) ← call nx hd c; '(nx, hd, rs) ← calls nx hd cs; Some (nx, hd, a :: rs)
  end.

(** [list_insert] on a sequence.  [None] is a circle: the new element is [p], or
    comes after it. *)
Definition seq_insert (p i : nat) (xs : list nat) : option (list nat) :=
  if decide (i ∈ xs) then
    match find_index (Nat.eqb i) xs, find_index (Nat.eqb p) xs with
    | Some a, Some b => if (a <? b)%nat then Some (take (S a) xs ++ drop (S b) xs) else None
    | _, _ => None
    end
  else Some (after p i xs).

(** The same calls on a sequence. *)
Definition seq_call (xs : list nat) (c : list_call) : option (list nat * list_answer) :=
  match c with
  | CInit => Some ([], AVoid)
  | CAdd i => Some (without i xs ++ [i], AVoid)
  | CPush i | CInsert None i => Some (i :: without i xs, AVoid)
  | CRemove i => Some (without i xs, AVoid)
  | CPop => Some (tail xs, APtr (head xs))
  | CChop => Some (take (pred (length xs)) xs, APtr (last xs))
  | CInsert (Some p) i => xs ← seq_insert p i xs; Some (xs, AVoid)
  | CHead => Some (xs, APtr (head xs))
  | CTail => Some (xs, APtr (last xs))
  | CLength => Some (xs, AInt (length xs))
  end.
(** The sequence after the calls with their answers, or ([inr]) the number of the
    call that closes a circle. *)
Fixpoint seq_calls (xs : list nat) (cs : list list_call) : list nat * list list_answer + nat :=
  match cs with
  | [] => inl (xs, [])
  | c :: cs =>
      match seq_call xs c with
      | None => inr O
      | Some (xs, a) =>
          match seq_calls xs cs with
          | inl (xs, rs) => inl (xs, a :: rs)
          | inr k => inr (S k)
          end
      end
  end.

(** What the calls assume: an element that is put on the list exists, and
    [list_insert] is given an element of the list. *)
Definition call_ok (nx : store) (xs : list nat) (c : list_call) : Prop :=
  match c with
  | CAdd i | CPush i | CInsert None i => is_Some (nx !! i)
  | CInsert (Some p) i => p ∈ xs /\ is_Some (nx !! i)
  | _ => True
  end.
Fixpoint calls_ok (nx : store) (xs : list nat) (cs : list list_call) : Prop :=
  match cs with
  | [] => True
  | c :: cs => call_ok nx xs c /\ match seq_call xs c with Some (xs, _) => calls_ok nx xs cs | None => True end
  end.
Definition call_item (c : list_call) : list nat :=
  match c with CAdd i | CPush i | CInsert _ i => [i] | _ => [] end.

Lemma find_eqb_app i ys zs : i ∉ ys -> find_index (Nat.eqb i) (ys ++ i :: zs) = Some (length ys).
Proof.
  intros H. apply find_index_Some. split.
  - exists i. split; [by rewrite list_lookup_middle|apply Nat.eqb_refl].
  - intros j y Hj Hy. rewrite lookup_app_l in Hy by done. apply Nat.eqb_neq. intros <-. apply H. by eapply list_elem_of_lookup_2.
Qed.
(** The three cases of an insertion after an element of the list. *)
Lemma seq_insert_cases p i xs : NoDup xs -> p ∈ xs ->
  match seq_insert p i xs with
  | Some ys => (i ∉ xs /\ ys = after p i xs) \/
      exists pre mid post, xs = pre ++ i :: mid ++ p :: post /\ ys = pre ++ i :: post
  | None => exists pre mid post, xs = pre ++ p :: mid ++ post /\ last (p :: mid) = Some i
  end.
Proof.
  intros Hd Hp. unfold seq_insert. case_decide as Hi; [|by left].
  apply list_elem_of_split in Hi as (pre & post & ->). pose proof Hd as (_ & Hdj & [Hi2 Hd2]%NoDup_cons)%NoDup_app.
  assert (i ∉ pre) by (intros Hx; apply (Hdj i Hx); set_solver). rewrite find_eqb_app by done.
  apply elem_of_app in Hp as [Hp|[->|Hp]%elem_of_cons].
  - apply list_elem_of_split in Hp as (q & mid & ->). apply NoDup_app in Hd as (Hdq & _ & _).
    apply NoDup_app in Hdq as (_ & Hdq & [Hpm _]%NoDup_cons). rewrite <- app_assoc. cbn [app].
    rewrite find_eqb_app by (intros Hx; apply (Hdq p Hx); set_solver).
    rewrite (proj2 (Nat.ltb_ge _ _)) by (rewrite length_app; lia).
    exists q, (mid ++ [i]), post. split; [by rewrite <- app_assoc|]. by rewrite app_comm_cons, last_snoc.
  - rewrite find_eqb_app by done. rewrite Nat.ltb_irrefl. by exists pre, [], post.
  - apply list_elem_of_split in Hp as (mid & q & ->). rewrite app_comm_cons, app_assoc.
    apply NoDup_app in Hd2 as (_ & Hdm & [Hpq _]%NoDup_cons).
    rewrite find_eqb_app.
    2:{ intros [Hx|[->|Hx]%elem_of_cons]%elem_of_app; [by apply (Hdj p Hx); set_solver|set_solver|]. by apply (Hdm p Hx); set_solver. }
    rewrite (proj2 (Nat.ltb_lt _ _)) by (rewrite length_app; cbn; lia).
    right. exists pre, mid, q. split; [by rewrite <- app_assoc|].
    assert (pre ++ i :: mid ++ p :: q = (pre ++ [i]) ++ mid ++ p :: q) as E1 by (by rewrite <- app_assoc).
    assert (pre ++ i :: mid ++ p :: q = (pre ++ i :: mid ++ [p]) ++ q) as E2
      by (rewrite <- app_assoc; cbn; by rewrite <- app_assoc).
    rewrite <- app_assoc. cbn [app]. rewrite E1 at 1. rewrite E2.
    rewrite take_app_length' by (rewrite length_app; cbn; lia).
    rewrite drop_app_length' by (rewrite !length_app; cbn; rewrite length_app; cbn; lia). by rewrite <- app_assoc.
Qed.

Lemma chain_head nx hd xs : chain nx hd xs -> hd = head xs.
Proof. unfold chain. destruct xs; cbn; naive_solver. Qed.
Lemma call_spec nx hd xs c : chain nx hd xs -> call_ok nx xs c ->
  match seq_call xs c with
  | Some (xs', a) =>
      exists nx' hd', call nx hd c = Some (nx', hd', a) /\ chain nx' hd' xs' /\ updates nx nx' (call_item c ++ xs)
  | None => exists nx' hd', call nx hd c = Some (nx', hd', AVoid) /\ forall fuel n, length_from fuel nx' hd' n = None
  end.
Proof.
  intros H Hok. assert (forall i nx', updates nx nx' (i :: xs) -> updates nx nx' ([i] ++ xs)) as Hw by done.
  destruct c as [|i|i|i| | |[p|] i| | |]; cbn [call seq_call call_item call_ok] in *.
  - exists nx, None. split; [done|]. split; [done|apply updates_refl].
  - destruct (list_add_spec _ _ _ i H Hok) as (nx' & hd' & -> & ? & ?). by exists nx', hd'.
  - destruct (list_push_spec _ _ _ i H Hok) as (nx' & hd' & -> & ? & ?). by exists nx', hd'.
  - destruct (list_remove_spec _ _ _ i H) as (nx' & hd' & -> & ? & ? & ?). by exists nx', hd'.
  - destruct (list_pop_spec _ _ _ H) as [-> Hc]. destruct xs; eexists _, _; (split; [done|]); (split; [done|apply updates_refl]).
  - destruct (list_chop_spec _ _ _ H) as (nx' & hd' & -> & ? & ?). by exists nx', hd'.
  - destruct Hok as [Hp Hs]. pose proof (seq_insert_cases p i xs (chain_distinct _ _ _ H) Hp) as Hc.
    destruct (seq_insert p i xs) as [ys|]; cbn [mbind option_bind].
    + destruct Hc as [[Hi ->]|(pre & mid & post & -> & ->)].
      * destruct (list_insert_spec _ _ _ p i H Hp Hi Hs) as (nx' & hd' & -> & ? & ?). by exists nx', hd'.
      * destruct (list_insert_back _ _ _ _ _ _ _ H) as (nx' & hd' & -> & ? & U). exists nx', hd'.
        split; [done|]. split; [done|]. eapply updates_weaken; [|exact U]. set_solver.
    + destruct Hc as (pre & mid & post & -> & Hl). destruct (list_insert_circle _ _ _ _ _ _ _ H Hl) as (nx' & -> & ?).
      by exists nx', hd.
  - destruct (list_push_spec _ _ _ i H Hok) as (nx' & hd' & E & ? & ?). cbn [list_insert]. rewrite E. by exists nx', hd'.
  - pose proof (chain_head _ _ _ H) as ->. exists nx, (head xs). split; [done|]. split; [done|apply updates_refl].
  - exists nx, hd. rewrite (list_tail_spec _ _ _ H). split; [done|]. split; [done|apply updates_refl].
  - exists nx, hd. rewrite (list_length_spec _ _ _ H). split; [done|]. split; [done|apply updates_refl].
Qed.
Lemma call_ok_dom nx nx' xs c : (forall j, is_Some (nx' !! j) <-> is_Some (nx !! j)) -> call_ok nx xs c -> call_ok nx' xs c.
Proof. intros H. destruct c as [|?|?|?| | |[?|] ?| | |]; cbn; rewrite ?H; tauto. Qed.
Lemma calls_ok_dom cs : forall nx nx' xs, (forall j, is_Some (nx' !! j) <-> is_Some (nx !! j)) ->
  calls_ok nx xs cs -> calls_ok nx' xs cs.
Proof.
  induction cs as [|c cs IH]; intros nx nx' xs H; cbn; [done|]. intros [? Hc]. split; [by eapply call_ok_dom|].
  destruct (seq_call xs c) as [[xs' a]|]; [by eapply IH|done].
Qed.

Lemma elem_of_after x y xs j : j ∈ after x y xs -> j = y \/ j ∈ xs.
Proof. induction xs as [|z xs IH]; cbn; [tauto|]. case_decide; set_solver. Qed.
Lemma seq_insert_elem p i xs ys j : seq_insert p i xs = Some ys -> j ∈ ys -> j = i \/ j ∈ xs.
Proof.
  unfold seq_insert. case_decide.
  - repeat case_match; intros [= <-]. rewrite elem_of_app. intros [Hj|Hj]; right; [by eapply subseteq_take|by eapply subseteq_drop].
  - intros [= <-]. apply elem_of_after.
Qed.
Lemma seq_call_elem xs c xs' a j : seq_call xs c = Some (xs', a) -> j ∈ xs' -> j ∈ call_item c ++ xs.
Proof.
  destruct c as [|i|i|i| | |[p|] i| | |]; cbn [seq_call call_item app]; try (intros [= <- <-]); try done.
  - set_solver.
  - rewrite elem_of_app, elem_of_without. set_solver.
  - rewrite elem_of_cons, elem_of_without. set_solver.
  - rewrite elem_of_without. tauto.
  - destruct xs; set_solver.
  - intros H. rewrite <- (take_drop (pred (length xs)) xs). set_solver.
  - intros (ys & Hy & [= <- <-])%bind_Some Hj. apply (seq_insert_elem _ _ _ _ _ Hy) in Hj. set_solver.
  - rewrite elem_of_cons, elem_of_without. set_solver.
Qed.


(** * Blocks in use *)
Record memb_wf {A} (m : memb A) : Prop := {
  memb_len : length (memb_count m) = memb_num m;
  memb_bits : Forall (fun c => c = 0 \/ c = 1)%Z (memb_count m) }.
(** Block [i] is allocated. *)
Definition in_use {A} (m : memb A) (i : nat) : Prop := memb_count m !! i = Some 1%Z.

Section memb_spec.
Context {A : Type}.
Implicit Types m : memb A.

Lemma memb_init_spec (z : A) m : memb_wf (memb_init z m) /\ (forall i, ~ in_use (memb_init z m) i) /\
  memb_num (memb_init z m) = memb_num m.
Proof.
  unfold memb_init, in_use, memb_num. cbn. rewrite length_replicate. repeat split; cbn.
  - by rewrite !length_replicate.
  - apply Forall_replicate. by left.
  - intros i. rewrite lookup_replicate. by intros [? _].
Qed.

(** The block handed out was free, is taken now, and is the first such; there
    is none exactly when all are taken. *)
Lemma memb_alloc_spec m : memb_wf m ->
  match memb_alloc m with
  | (m', Some i) => memb_wf m' /\ memb_mem m' = memb_mem m /\ i < memb_num m /\ ~ in_use m i /\
      (forall j, in_use m' j <-> j = i \/ in_use m j) /\ (forall j, j < i -> in_use m j)
  | (m', None) => m' = m /\ forall i, i < memb_num m -> in_use m i
  end.
Proof.
  intros [Hl Hb]. unfold memb_alloc. destruct (find_index _ _) as [i|] eqn:E.
  - pose proof (find_index_lt _ _ _ E) as Hlt. apply find_index_Some in E as [(c & Hc & ->%Z.eqb_eq) Hj].
    assert (w8 (0 + 1) = 1)%Z as Hw by done.
    repeat split; cbn [memb_mem memb_count set_field] in *; unfold memb_num in *; cbn [memb_mem set_field] in *.
    + cbn. by rewrite length_alter.
    + cbn. apply Forall_alter; [done|]. intros x Hx _. simplify_eq. by right.
    + lia.
    + unfold in_use. rewrite Hc. done.
    + unfold in_use. cbn. destruct (decide (j = i)) as [->|]; [by left|]. rewrite list_lookup_alter_ne by done. by right.
    + unfold in_use. cbn. intros [->|H]; [by rewrite list_lookup_alter_eq, Hc|].
      destruct (decide (i = j)) as [->|]; [by rewrite Hc in H|]. by rewrite list_lookup_alter_ne.
    + intros j Hji. unfold in_use. destruct (lookup_lt_is_Some_2 (memb_count m) j) as [c Hcj]; [lia|].
      specialize (Hj j c Hji Hcj). destruct (Forall_lookup_1 _ _ _ _ Hb Hcj) as [->| ->]; done.
  - apply find_index_None in E. split; [done|]. intros i Hi. unfold in_use.
    destruct (lookup_lt_is_Some_2 (memb_count m) i) as [c Hc]; [lia|].
    pose proof (Forall_lookup_1 _ _ _ _ E Hc) as Hz. cbn in Hz.
    destruct (Forall_lookup_1 _ _ _ _ Hb Hc) as [->| ->]; done.
Qed.

Lemma memb_free_spec m i : memb_wf m -> i < memb_num m ->
  exists m', memb_free m i = (m', 0%Z) /\ memb_wf m' /\ memb_mem m' = memb_mem m /\
    forall j, in_use m' j <-> j <> i /\ in_use m j.
Proof.
  intros [Hl Hb] Hi. unfold memb_free. destruct (lookup_lt_is_Some_2 (memb_count m) i) as [c Hc]; [lia|].
  rewrite Hc. assert ((if (0 <? c)%Z then (c - 1)%Z else c) = 0%Z) as ->.
  { by destruct (Forall_lookup_1 _ _ _ _ Hb Hc) as [->| ->]. }
  eexists. split; [done|]. cbn. unfold in_use, memb_num in *. cbn. split; [split; cbn|split; [done|]].
  - by rewrite length_insert.
  - apply Forall_insert; [done|]. by left.
  - intros j. destruct (decide (j = i)) as [->|]; [rewrite list_lookup_insert_eq by lia|rewrite list_lookup_insert_ne by done]; naive_solver.
Qed.
End memb_spec.
