(* ===== verification/Loops.v ===== *)
(** * Loops that do not end

    A loop whose state is one number from a finite range either ends within as
    many turns as there are numbers or never: the bound of the two parsers
    whose input can send them back ([uip.c], [mdns.c]). *)
From stdpp Require Import finite.
From S2P Require Export Prelude.
Local Open Scope Z_scope.

(** The state after [n] turns of a loop, when it is still running. *)
Fixpoint turns (f : Z -> option Z) (n : nat) (x : Z) : option Z :=
  match n with
  | O => Some x
  | S n => y ← f x; turns f n y
  end.

Section turns.
Context (f : Z -> option Z) (B : Z) (Hf : forall x y, f x = Some y -> 0 <= y < B).

Lemma turns_add m n x : turns f (m + n) x = (y ← turns f m x; turns f n y).
Proof.
  revert x. induction m as [|m IH]; intros x; [done|]. cbn [Nat.add turns].
  destruct (f x) as [y|]; [|done]. cbn [mbind option_bind]. apply IH.
Qed.
Lemma turns_before m n x : (m <= n)%nat -> is_Some (turns f n x) -> is_Some (turns f m x).
Proof.
  intros Hm. replace n with (m + (n - m))%nat by lia. rewrite turns_add.
  destruct (turns f m x); [by eexists|]. by intros [? ?].
Qed.
Lemma turns_range n x y : 0 <= x < B -> turns f n x = Some y -> 0 <= y < B.
Proof.
  revert x. induction n as [|n IH]; intros x Hx; cbn [turns]; [by intros [= <-]|].
  intros (z & Hz & H)%bind_Some. eapply IH; [by eapply Hf|done].
Qed.

(** A loop that has run for as many turns as there are states goes on for ever. *)
Lemma turns_forever x : 0 <= x < B -> is_Some (turns f (Z.to_nat B) x) -> forall n, is_Some (turns f n x).
Proof.
  intros Hx HB. set (v := fun k => default 0 (turns f k x)).
  assert (forall k, (k <= Z.to_nat B)%nat -> turns f k x = Some (v k)) as Hv.
  { intros k Hk. destruct (turns_before k _ x Hk HB) as [y Hy]. unfold v. by rewrite Hy. }
  destruct (nat_pigeonhole (fun k => Z.to_nat (v k)) (S (Z.to_nat B)) (Z.to_nat B)) as (i & j & Hij & He); [lia| |].
  { intros k Hk. pose proof (turns_range k x (v k) Hx (Hv k ltac:(lia))). lia. }
  assert (v i = v j) as Hvij.
  { pose proof (turns_range i x _ Hx (Hv i ltac:(lia))). pose proof (turns_range j x _ Hx (Hv j ltac:(lia))). lia. }
  intros n. induction (lt_wf n) as [n _ IH]. destruct (decide (n <= Z.to_nat B)%nat) as [Hn|Hn].
  - rewrite Hv by done. by eexists.
  - replace n with (j + (n - j))%nat by lia. rewrite turns_add, Hv by lia. cbn [mbind option_bind]. rewrite <- Hvij.
    specialize (IH (i + (n - j))%nat ltac:(lia)). by rewrite turns_add, Hv in IH by lia.
Qed.
End turns.
