(* ===== verification/NbrTable.v ===== *)
(** * The neighbour tables of Contiki: [nbr-table.c]

    Up to eight tables share one list of link-layer addresses: entry [i] of
    every table belongs to the neighbour with key [i], and two bitmaps per
    neighbour say which tables use it and which have locked it.  A full list
    makes room by dropping a neighbour no table has locked. *)
From S2P Require Export CList.
Local Open Scope Z_scope.

Definition NBR_TABLE_MAX_NEIGHBORS : nat := 8.
Definition MAX_NUM_TABLES : nat := 8.
Definition RIMEADDR_SIZE : nat := 8.

(** [rimeaddr_t], and the comparison [memcmp(addr1, addr2, RIMEADDR_SIZE) == 0]. *)
Notation rimeaddr := (list Z).
Definition rimeaddr_null : rimeaddr := replicate RIMEADDR_SIZE 0.
Definition rimeaddr_cmp (a b : rimeaddr) : bool := bool_decide (take RIMEADDR_SIZE a = take RIMEADDR_SIZE b).
Definition rimeaddr_copy (src : rimeaddr) : rimeaddr := take RIMEADDR_SIZE src.
Arguments rimeaddr_copy : simpl never.

(** The variables of the file.  [T] is the type of the pointers to tables; the
    [next] fields of the keys are [key_next], their addresses the blocks of
    [neighbor_addr_mem]; [table_index] is the field [index] of the tables. *)
Record nbr_tables (T : Type) : Type := NbrTables {
  neighbor_addr_mem : memb rimeaddr;
  key_next : store;
  nbr_table_keys : ptr;
  used_map : list Z;
  locked_map : list Z;
  all_tables : list (option T);
  num_tables : nat;
  table_index : T -> Z }.
Arguments NbrTables {T}.
Arguments neighbor_addr_mem {T}.
Arguments key_next {T}.
Arguments nbr_table_keys {T}.
Arguments used_map {T}.
Arguments locked_map {T}.
Arguments all_tables {T}.
Arguments num_tables {T}.
Arguments table_index {T}.
#[export] Instance eta_nbr_tables T : Eta (nbr_tables T) := fun r =>
  NbrTables (neighbor_addr_mem r) (key_next r) (nbr_table_keys r) (used_map r) (locked_map r)
    (all_tables r) (num_tables r) (table_index r).

(** The static initialisers. *)
Definition initial_nbr_tables {T} : nbr_tables T :=
  NbrTables (Memb (replicate NBR_TABLE_MAX_NEIGHBORS 0) (replicate NBR_TABLE_MAX_NEIGHBORS rimeaddr_null))
    (gset_to_gmap None (set_seq 0 NBR_TABLE_MAX_NEIGHBORS)) None
    (replicate NBR_TABLE_MAX_NEIGHBORS 0) (replicate NBR_TABLE_MAX_NEIGHBORS 0)
    (replicate MAX_NUM_TABLES None) 0 (fun _ => 0).

(** The memory the tables live in: [item_zero t i] is [memset(item, 0,
    table->item_size)] of item [i], and [callback t] the function [t] was
    registered with. *)
Class NbrWorld (T W : Type) := {
  nbr_get : W -> nbr_tables T;
  nbr_upd : (nbr_tables T -> nbr_tables T) -> W -> W;
  item_zero : T -> nat -> W -> W;
  callback : T -> option (nat -> W -> option W) }.

Section tables.
Context {T : Type} `{EqDecision T}.
Implicit Types (s : nbr_tables T) (t : T) (item : ptr).

(** Items, keys and addresses; an item or a key is its index, and the index -1
    of the code is [None].  A [NULL] address means [rimeaddr_null]. *)
Fixpoint find_key (fuel : nat) s (key : ptr) (lladdr : rimeaddr) : option ptr :=
  match fuel with
  | O => None
  | S fuel =>
      match key with
      | None => Some None
      | Some k =>
          a ← memb_mem (neighbor_addr_mem s) !! k;
          if rimeaddr_cmp lladdr a then Some (Some k)
          else n ← list_item_next (key_next s) (Some k); find_key fuel s n lladdr
      end
  end.
Definition index_from_lladdr s (lladdr : option rimeaddr) : option ptr :=
  find_key (fuel_of (key_next s)) s (list_head (nbr_table_keys s)) (default rimeaddr_null lladdr).

Definition table_bit s t : Z := Z.shiftl 1 (table_index s t).
Definition nbr_get_bit s (bitmap : list Z) t item : bool :=
  match item with
  | Some i => tst (rd8 bitmap (Z.of_nat i)) (table_bit s t)
  | None => false
  end.
Definition nbr_set_bit s (bitmap : list Z) t item (value : bool) : list Z * Z :=
  match item with
  | Some i =>
      let b := rd8 bitmap (Z.of_nat i) in
      (wr8 (Z.of_nat i) (if value then Z.lor b (table_bit s t) else Z.land b (Z.lnot (table_bit s t))) bitmap, 1)
  | None => (bitmap, 0)
  end.

(** [while(used != 0) { if((used & 1) == 1) used_count++; used >>= 1; }] *)
Fixpoint count_bits (fuel : nat) (used : Z) : Z :=
  match fuel with
  | O => 0
  | S fuel => if used =? 0 then 0 else (if Z.land used 1 =? 1 then 1 else 0) + count_bits fuel (Z.shiftr used 1)
  end.
Definition used_count s (i : nat) : Z := count_bits 8 (rd8 (used_map s) (Z.of_nat i)).

(** The search for the neighbour to drop, from [key] on. *)
Fixpoint least_used (fuel : nat) s (key : ptr) (least_used_key : ptr) (least_used_count : Z) : option ptr :=
  match fuel with
  | O => None
  | S fuel =>
      match key with
      | None => Some least_used_key
      | Some k =>
          if (rd8 (locked_map s) (Z.of_nat k) =? 0) &&
             (bool_decide (least_used_key = None) || (used_count s k <? least_used_count)) then
            if used_count s k =? 0 then Some key
            else next ← list_item_next (key_next s) key; least_used fuel s next key (used_count s k)
          else next ← list_item_next (key_next s) key; least_used fuel s next least_used_key least_used_count
      end
  end.

Definition nbr_table_register s t : nbr_tables T * Z :=
  if decide (num_tables s < MAX_NUM_TABLES)%nat then
    (s <| table_index ::= (fun f t' => if decide (t' = t) then Z.of_nat (num_tables s) else f t') |>
       <| all_tables ::= <[num_tables s := Some t]> |> <| num_tables ::= S |>, 1)
  else (s, 0).

(** [nbr_table_next] gives up no key: it leaves the list or finds an item. *)
Fixpoint next_from (fuel : nat) s t (key : ptr) : option ptr :=
  match fuel with
  | O => None
  | S fuel =>
      key ← list_item_next (key_next s) key;
      match key with
      | None => Some None
      | Some _ => if nbr_get_bit s (used_map s) t key then Some key else next_from fuel s t key
      end
  end.
Definition nbr_table_next s t item : option ptr := next_from (fuel_of (key_next s)) s t item.
Definition nbr_table_head s t : option ptr :=
  let item := list_head (nbr_table_keys s) in
  if nbr_get_bit s (used_map s) t item then Some item else nbr_table_next s t item.

Definition nbr_table_get_from_lladdr s t (lladdr : option rimeaddr) : option ptr :=
  item ← index_from_lladdr s lladdr;
  Some (if nbr_get_bit s (used_map s) t item then item else None).
Definition nbr_table_remove s t item : nbr_tables T * Z :=
  let '(u, ret) := nbr_set_bit s (used_map s) t item false in
  let '(l, _) := nbr_set_bit s (locked_map s) t item false in
  (s <| used_map := u |> <| locked_map := l |>, ret).
Definition nbr_table_lock s t item : nbr_tables T * Z :=
  let '(l, ret) := nbr_set_bit s (locked_map s) t item true in (s <| locked_map := l |>, ret).
Definition nbr_table_unlock s t item : nbr_tables T * Z :=
  let '(l, ret) := nbr_set_bit s (locked_map s) t item false in (s <| locked_map := l |>, ret).
Definition nbr_table_get_lladdr s t item : option rimeaddr :=
  i ← item; memb_mem (neighbor_addr_mem s) !! i.
End tables.

Section world.
Context {T W : Type} `{EqDecision T} `{NbrWorld T W}.
Implicit Types w : W.

(** The turns of the loop over [all_tables] for the neighbour [k]. *)
Fixpoint call_tables (i n : nat) (k : nat) w : option W :=
  match n with
  | O => Some w
  | S n =>
      w ← match all_tables (nbr_get w) !! i with
          | Some (Some t) =>
              match callback t with
              | Some f => if nbr_get_bit (nbr_get w) (used_map (nbr_get w)) t (Some k) then f k w else Some w
              | None => Some w
              end
          | _ => Some w
          end;
      call_tables (S i) n k w
  end.

Definition nbr_table_allocate w : option (W * ptr) :=
  let '(m, key) := memb_alloc (neighbor_addr_mem (nbr_get w)) in
  match key with
  | Some k => Some (nbr_upd (fun s => s <| neighbor_addr_mem := m |>) w, key)
  | None =>
      let s := nbr_get w in
      least_used_key ← least_used (fuel_of (key_next s)) s (list_head (nbr_table_keys s)) None 0;
      match least_used_key with
      | None => Some (w, None)
      | Some k =>
          w ← call_tables 0 MAX_NUM_TABLES k w;
          let s := nbr_get w in
          '(nx, hd) ← list_remove (key_next s) (nbr_table_keys s) k;
          Some (nbr_upd (fun s => s <| used_map ::= wr8 (Z.of_nat k) 0 |> <| key_next := nx |> <| nbr_table_keys := hd |>) w,
                least_used_key)
      end
  end.

Definition new_key (lladdr : rimeaddr) w : option (W * ptr) :=
  '(w, key) ← nbr_table_allocate w;
  match key with
  | None => Some (w, None)
  | Some k =>
      let s := nbr_get w in
      '(nx, hd) ← list_add (key_next s) (nbr_table_keys s) k;
      Some (nbr_upd (fun s => s <| key_next := nx |> <| nbr_table_keys := hd |>
                                <| neighbor_addr_mem ::= set_field memb_mem (<[k := rimeaddr_copy lladdr]>) |>) w, key)
  end.
Definition nbr_table_add_lladdr (t : T) (lladdr : option rimeaddr) w : option (W * ptr) :=
  index ← index_from_lladdr (nbr_get w) lladdr;
  '(w, index) ← match index with
                | Some i => Some (w, Some i)
                | None => new_key (default rimeaddr_null lladdr) w
                end;
  match index with
  | None => Some (w, None)
  | Some i =>
      let w := item_zero t i w in
      Some (nbr_upd (fun s => s <| used_map := (nbr_set_bit s (used_map s) t (Some i) true).1 |>) w, Some i)
  end.
End world.

(** * The tables as a sequence of neighbours

    [ks] are the keys of the list, oldest first. *)
Record neighbor : Type := Neighbor { n_lladdr : rimeaddr; n_used : Z; n_locked : Z }.
#[export] Instance eta_neighbor : Eta neighbor := fun r => Neighbor (n_lladdr r) (n_used r) (n_locked r).

Definition lladdr_ok (a : rimeaddr) : Prop := length a = RIMEADDR_SIZE.
Definition key_lladdr {T} (s : nbr_tables T) (k : nat) : rimeaddr := default rimeaddr_null (memb_mem (neighbor_addr_mem s) !! k).
Definition view {T} (s : nbr_tables T) (ks : list nat) : list neighbor :=
  map (fun k => Neighbor (key_lladdr s k) (rd8 (used_map s) (Z.of_nat k)) (rd8 (locked_map s) (Z.of_nat k))) ks.

(** [pend] is the key, if any, that has been allocated but not yet linked. *)
Record nbr_inv {T} (s : nbr_tables T) (pend : ptr) (ks : list nat) : Prop := {
  nw_memb : memb_wf (neighbor_addr_mem s);
  nw_num : memb_num (neighbor_addr_mem s) = NBR_TABLE_MAX_NEIGHBORS;
  nw_ll : Forall lladdr_ok (memb_mem (neighbor_addr_mem s));
  nw_dom : forall k, is_Some (key_next s !! k) <-> (k < NBR_TABLE_MAX_NEIGHBORS)%nat;
  nw_keys : chain (key_next s) (nbr_table_keys s) ks;
  nw_alloc : forall k, in_use (neighbor_addr_mem s) k <-> k ∈ ks \/ pend = Some k;
  nw_used : length (used_map s) = NBR_TABLE_MAX_NEIGHBORS /\ bytes (used_map s);
  nw_locked : length (locked_map s) = NBR_TABLE_MAX_NEIGHBORS /\ bytes (locked_map s);
  nw_free : forall k, (k < NBR_TABLE_MAX_NEIGHBORS)%nat -> k ∉ ks ->
    rd8 (used_map s) (Z.of_nat k) = 0 /\ rd8 (locked_map s) (Z.of_nat k) = 0;
  nw_tables : length (all_tables s) = MAX_NUM_TABLES;
  nw_index : forall i t, all_tables s !! i = Some (Some t) -> table_index s t = Z.of_nat i }.

Notation nbr_wf s ks := (nbr_inv s None ks).

(** Table [t] is registered. *)
Definition registered {T} (s : nbr_tables T) (t : T) : Prop :=
  0 <= table_index s t < 8 /\ all_tables s !! Z.to_nat (table_index s t) = Some (Some t).

Section facts.
Context {T : Type} `{EqDecision T}.
Implicit Types (s : nbr_tables T) (t : T).

(** ** Bits *)
Lemma table_bit_pow s t : registered s t -> table_bit s t = 2 ^ table_index s t.
Proof. intros [? _]. unfold table_bit. rewrite Z.shiftl_mul_pow2 by lia. lia. Qed.
Lemma tst_pow2 x n : 0 <= n -> tst x (2 ^ n) = Z.testbit x n.
Proof.
  intros Hn. unfold tst. destruct (Z.testbit x n) eqn:E.
  - destruct (Z.eqb_spec (Z.land x (2 ^ n)) 0) as [Hz|]; [|done].
    apply (f_equal (fun z => Z.testbit z n)) in Hz. rewrite Z.land_spec, E, Z.pow2_bits_true, Z.bits_0 in Hz by lia. done.
  - assert (Z.land x (2 ^ n) = 0) as ->; [|done]. apply Z.bits_inj_iff'. intros m Hm.
    rewrite Z.land_spec, Z.bits_0, Z.pow2_bits_eqb by lia. destruct (Z.eqb_spec n m) as [->|]; [by rewrite E|apply andb_false_r].
Qed.
Lemma get_bit_spec s bm t k : registered s t -> nbr_get_bit s bm t (Some k) = Z.testbit (rd8 bm (Z.of_nat k)) (table_index s t).
Proof. intros Hr. cbn. rewrite table_bit_pow by done. apply tst_pow2. apply Hr. Qed.
Lemma u8_bits x n : u8 x -> 8 <= n -> Z.testbit x n = false.
Proof.
  unfold u8. intros Hx Hn. rewrite Z.testbit_false by lia. rewrite Z.div_small; [done|].
  assert (2 ^ 8 <= 2 ^ n) by (apply Z.pow_le_mono_r; lia). lia.
Qed.
Lemma u8_of_bits x : 0 <= x -> (forall n, 8 <= n -> Z.testbit x n = false) -> u8 x.
Proof.
  intros H0 Hx. unfold u8. split; [done|]. destruct (Z.eq_dec x 0) as [->|]; [lia|].
  apply (Z.log2_lt_pow2 x 8); [lia|]. destruct (Z.lt_ge_cases (Z.log2 x) 8) as [|Hge]; [done|].
  specialize (Hx _ Hge). rewrite Z.bit_log2 in Hx by lia. done.
Qed.
Lemma set_bit_eq s bm t k v : registered s t -> bytes bm -> (k < length bm)%nat ->
  (nbr_set_bit s bm t (Some k) v).1 =
    <[k := (if v then Z.setbit else Z.clearbit) (rd8 bm (Z.of_nat k)) (table_index s t)]> bm.
Proof.
  intros Hr Hb Hk. pose proof (rd8_u8 bm (Z.of_nat k) Hb) as Hu. cbn. unfold wr8. rewrite Nat2Z.id.
  rewrite table_bit_pow by done. destruct Hr as [Hi _]. f_equal.
  assert ((if v then Z.lor (rd8 bm (Z.of_nat k)) (2 ^ table_index s t)
           else Z.land (rd8 bm (Z.of_nat k)) (Z.lnot (2 ^ table_index s t))) =
          (if v then Z.setbit else Z.clearbit) (rd8 bm (Z.of_nat k)) (table_index s t)) as ->.
  { destruct v; [by rewrite Z.setbit_spec'|by rewrite Z.clearbit_spec', Z.ldiff_land]. }
  apply w8_small, u8_of_bits.
  - destruct v; [rewrite Z.setbit_spec'; apply Z.lor_nonneg|rewrite Z.clearbit_spec', Z.ldiff_nonneg; left];
      unfold u8 in Hu; lia.
  - intros n Hn. destruct v; [rewrite Z.setbit_eqb by lia|rewrite Z.clearbit_eqb]; rewrite (u8_bits _ n) by (done || lia);
      [|done]. rewrite orb_false_r. apply Z.eqb_neq. lia.
Qed.
Lemma rd8_insert bm k v j : (k < length bm)%nat -> rd8 (<[k := v]> bm) (Z.of_nat j) = if decide (j = k) then v else rd8 bm (Z.of_nat j).
Proof.
  intros Hk. unfold rd8. rewrite !Nat2Z.id. case_decide; [subst; by rewrite list_lookup_insert_eq|by rewrite list_lookup_insert_ne].
Qed.
Lemma set_bit_bytes s bm t item v : bytes bm -> bytes (nbr_set_bit s bm t item v).1 /\ length (nbr_set_bit s bm t item v).1 = length bm.
Proof. intros Hb. destruct item as [i|]; cbn; [|done]. split; [auto with mem|apply length_wr8]. Qed.

(** ** Finding a key *)
Lemma view_nil_iff s ks : view s ks = [] <-> ks = [].
Proof. destruct ks; cbn; naive_solver. Qed.
Lemma wf_lt s p ks k : nbr_inv s p ks -> k ∈ ks -> (k < NBR_TABLE_MAX_NEIGHBORS)%nat.
Proof. intros Hw Hk. apply (nw_dom s _ ks Hw). eapply seg_dom; [apply (nw_keys s _ ks Hw)|done]. Qed.
Lemma wf_lookup s p ks k : nbr_inv s p ks -> (k < NBR_TABLE_MAX_NEIGHBORS)%nat -> memb_mem (neighbor_addr_mem s) !! k = Some (key_lladdr s k).
Proof.
  intros Hw Hk. unfold key_lladdr. destruct (lookup_lt_is_Some_2 (memb_mem (neighbor_addr_mem s)) k) as [a Ha]; [|by rewrite Ha].
  pose proof (nw_num s _ ks Hw) as Hn. unfold memb_num in Hn. lia.
Qed.
Lemma rimeaddr_cmp_ok a b : lladdr_ok a -> lladdr_ok b -> rimeaddr_cmp a b = bool_decide (a = b).
Proof. unfold lladdr_ok, rimeaddr_cmp. intros Ha Hb. by rewrite !take_ge by lia. Qed.
Lemma key_lladdr_ok s p ks k : nbr_inv s p ks -> (k < NBR_TABLE_MAX_NEIGHBORS)%nat -> lladdr_ok (key_lladdr s k).
Proof. intros Hw Hk. eapply Forall_lookup_1; [apply (nw_ll s _ ks Hw)|by eapply wf_lookup]. Qed.

Definition find_nbr (lladdr : rimeaddr) (l : list neighbor) : option nat := find_index (fun n => bool_decide (lladdr = n_lladdr n)) l.
Lemma find_key_spec s p ks0 ks : forall fuel key ll, nbr_inv s p ks0 -> lladdr_ok ll -> chain (key_next s) key ks ->
  (forall k, k ∈ ks -> (k < NBR_TABLE_MAX_NEIGHBORS)%nat) -> (length ks < fuel)%nat ->
  find_key fuel s key ll = Some (i ← find_nbr ll (view s ks); ks !! i).
Proof.
  induction ks as [|k ks IH]; intros fuel key ll Hw Hl Hc Hk Hf; unfold chain in Hc; cbn in Hc; (destruct fuel as [|fuel]; [lia|]).
  - by subst.
  - destruct Hc as (-> & n & Hn & Hc). cbn [find_key]. pose proof (Hk k ltac:(set_solver)) as Hkk.
    rewrite (wf_lookup s p ks0) by done. cbn [mbind option_bind]. rewrite rimeaddr_cmp_ok by (done || by eapply key_lladdr_ok).
    unfold find_nbr. cbn [view map find_index n_lladdr]. case_bool_decide; [done|].
    cbn [list_item_next]. rewrite Hn. cbn [mbind option_bind]. rewrite (IH fuel n ll); [|done|done|done|set_solver|cbn in Hf; lia].
    unfold find_nbr, view. by destruct (find_index _ _).
Qed.
Lemma index_from_lladdr_spec s p ks ll : nbr_inv s p ks -> lladdr_ok (default rimeaddr_null ll) ->
  index_from_lladdr s ll = Some (i ← find_nbr (default rimeaddr_null ll) (view s ks); ks !! i).
Proof.
  intros Hw Hl. unfold index_from_lladdr. eapply find_key_spec; [done|done|apply (nw_keys s _ ks Hw)|by intros; eapply wf_lt|].
  pose proof (chain_fuel _ _ _ (nw_keys s _ ks Hw)). lia.
Qed.
End facts.

(** ** The neighbour to drop: the oldest of those that fewest tables use, among
    those no table has locked. *)
Definition uses (n : neighbor) : Z := count_bits 8 (n_used n).
Definition victim (l : list neighbor) (v : nat) : Prop :=
  exists n, l !! v = Some n /\ n_locked n = 0 /\
    (forall j m, l !! j = Some m -> n_locked m = 0 -> uses n <= uses m) /\
    (forall j m, (j < v)%nat -> l !! j = Some m -> n_locked m = 0 -> uses n < uses m).
Definition all_locked (l : list neighbor) : Prop := Forall (fun n => n_locked n <> 0) l.

Lemma count_bits_nonneg fuel x : 0 <= count_bits fuel x.
Proof. revert x. induction fuel as [|f IH]; intros x; cbn; [lia|]. repeat case_match; specialize (IH (Z.shiftr x 1)); lia. Qed.
Lemma victim_locked l n v : victim l v -> n_locked n <> 0 -> victim (l ++ [n]) v.
Proof.
  intros (m & Hv & Hl & H1 & H2) Hn. exists m. split; [by apply lookup_app_l_Some|]. split; [done|].
  assert (forall j m', (l ++ [n]) !! j = Some m' -> n_locked m' = 0 -> l !! j = Some m') as Hin.
  { intros j m' Hj H0. apply lookup_app_Some in Hj as [?|[_ Hj]]; [done|]. apply list_lookup_singleton_Some in Hj as [_ <-]. done. }
  split; intros; eauto.
Qed.
Lemma victim_keep l n v m : victim l v -> l !! v = Some m -> uses m <= uses n -> victim (l ++ [n]) v.
Proof.
  intros (m' & Hv & Hl & H1 & H2) Hm Hu. simplify_eq. exists m'. split; [by apply lookup_app_l_Some|]. split; [done|].
  pose proof (lookup_lt_Some _ _ _ Hv) as Hlt.
  split; intros j k Hj; [|intros Hk; apply lookup_app_Some in Hk as [?|[Hge _]]; [by eapply H2|lia]].
  apply lookup_app_Some in Hj as [?|[_ Hj]]; [by eapply H1|]. apply list_lookup_singleton_Some in Hj as [_ <-]. lia.
Qed.
Lemma victim_new l n : n_locked n = 0 -> (forall j m, l !! j = Some m -> n_locked m = 0 -> uses n < uses m) ->
  victim (l ++ [n]) (length l).
Proof.
  intros Hl Hu. exists n. rewrite list_lookup_middle by done. split; [done|]. split; [done|].
  split; intros j m Hj.
  - intros Hz. apply lookup_app_Some in Hj as [Hj|[_ Hj]]; [specialize (Hu j m Hj Hz); lia|].
    apply list_lookup_singleton_Some in Hj as [_ <-]. lia.
  - intros Hjm Hz. apply lookup_app_Some in Hjm as [?|[Hge _]]; [by eapply Hu|lia].
Qed.
Lemma victim_zero l l' v n : victim l v -> l !! v = Some n -> uses n = 0 -> victim (l ++ l') v.
Proof.
  intros (m & Hv & Hl & H1 & H2) Hn Hu. simplify_eq. exists m. split; [by apply lookup_app_l_Some|]. split; [done|].
  split; intros j k Hj; [intros _; rewrite Hu; apply count_bits_nonneg|].
  intros Hk Hz. apply lookup_lt_Some in Hv. rewrite lookup_app_l in Hk by lia. by eapply H2.
Qed.

Section drop.
Context {T : Type} `{EqDecision T}.
Implicit Types (s : nbr_tables T) (t : T).

Lemma view_app s ks ks' : view s (ks ++ ks') = view s ks ++ view s ks'.
Proof. apply map_app. Qed.
Lemma view_lookup s ks v n : view s ks !! v = Some n <-> exists k, ks !! v = Some k /\
  n = Neighbor (key_lladdr s k) (rd8 (used_map s) (Z.of_nat k)) (rd8 (locked_map s) (Z.of_nat k)).
Proof. unfold view. rewrite list_lookup_fmap, fmap_Some. naive_solver. Qed.

Definition best s (pre : list nat) (lk : ptr) (c : Z) : Prop :=
  match lk with
  | None => all_locked (view s pre)
  | Some k => exists v, pre !! v = Some k /\ victim (view s pre) v /\ c = used_count s k /\ c <> 0
  end.
Lemma least_used_spec s ks : forall fuel pre key lk c, chain (key_next s) key ks -> (length ks < fuel)%nat ->
  best s pre lk c ->
  exists r, least_used fuel s key lk c = Some r /\
    match r with
    | None => all_locked (view s (pre ++ ks))
    | Some k => exists v, (pre ++ ks) !! v = Some k /\ victim (view s (pre ++ ks)) v
    end.
Proof.
  induction ks as [|k ks IH]; intros fuel pre key lk c Hc Hf Hb; unfold chain in Hc; cbn in Hc; (destruct fuel as [|fuel]; [lia|]).
  - subst. exists lk. split; [done|]. rewrite app_nil_r. destruct lk; [|done]. destruct Hb as (v & ? & ? & _). by exists v.
  - destruct Hc as (-> & n & Hn & Hc). cbn [least_used list_item_next]. rewrite Hn. cbn [mbind option_bind].
    assert (pre ++ k :: ks = (pre ++ [k]) ++ ks) as E by (by rewrite <- app_assoc). rewrite E.
    assert (length ks < fuel)%nat by (cbn in Hf; lia).
    set (nk := Neighbor (key_lladdr s k) (rd8 (used_map s) (Z.of_nat k)) (rd8 (locked_map s) (Z.of_nat k))).
    assert (view s (pre ++ [k]) = view s pre ++ [nk]) as Ev by apply view_app.
    destruct (Z.eqb_spec (rd8 (locked_map s) (Z.of_nat k)) 0) as [Hlk|Hlk]; cbn [andb].
    + assert (best s pre lk c -> (lk = None \/ used_count s k < c) -> used_count s k <> 0 ->
        best s (pre ++ [k]) (Some k) (used_count s k)) as Hnew.
      { intros Hb' Hlt Hnz. exists (length pre). rewrite list_lookup_middle by done. repeat split; [|done].
        rewrite Ev. replace (length pre) with (length (view s pre)) by apply length_map. apply victim_new; [done|].
        intros j m Hj Hm. destruct lk as [k'|]; cbn in Hb'.
        - destruct Hlt as [?|Hlt]; [done|]. destruct Hb' as (v & Hv & (m' & Hm' & _ & Hmin & _) & -> & _).
          specialize (Hmin j m Hj Hm). apply view_lookup in Hm' as (k2 & ? & ->). simplify_eq.
          unfold used_count, uses, nk in *. cbn in *. lia.
        - exfalso. exact (Forall_lookup_1 _ _ _ _ Hb' Hj Hm). }
      destruct (bool_decide (lk = None) || (used_count s k <? c)) eqn:Et; cbn [andb].
      * assert (lk = None \/ used_count s k < c) as Hlt.
        { apply orb_true_iff in Et as [?%bool_decide_eq_true|?%Z.ltb_lt]; auto. }
        destruct (Z.eqb_spec (used_count s k) 0) as [Hz|Hz]; [|by apply IH; [..|apply Hnew]].
        exists (Some k). split; [done|]. exists (length pre). split; [by rewrite <- E, list_lookup_middle|].
        rewrite view_app, Ev. eapply (victim_zero _ _ _ nk); [|by rewrite list_lookup_middle by (unfold view; by rewrite length_map)|exact Hz].
        replace (length pre) with (length (view s pre)) by apply length_map. apply victim_new; [done|].
        intros j m Hj Hm. assert (uses nk = 0) as -> by exact Hz.
        destruct lk as [k'|]; cbn in Hb; [|exfalso; exact (Forall_lookup_1 _ _ _ _ Hb Hj Hm)].
        destruct Hb as (v & Hv & (m' & Hm' & _ & Hmin & _) & -> & Hnz). specialize (Hmin j m Hj Hm).
        apply view_lookup in Hm' as (k2 & ? & ->). simplify_eq. unfold used_count, uses in *. cbn in *.
        pose proof (count_bits_nonneg 8 (rd8 (used_map s) (Z.of_nat k'))). lia.
      * apply orb_false_iff in Et as [Hlk'%bool_decide_eq_false Hge%Z.ltb_ge].
        destruct lk as [k'|]; [|done]. apply IH; [done|done|]. destruct Hb as (v & Hv & Hvic & -> & Hnz).
        exists v. split; [by apply lookup_app_l_Some|]. split; [|done]. rewrite Ev.
        eapply victim_keep; [done|apply view_lookup; by exists k'|]. exact Hge.
    + apply IH; [done|done|]. destruct lk as [k'|]; cbn [best] in *.
      * destruct Hb as (v & Hv & Hvic & -> & Hnz). exists v. split; [by apply lookup_app_l_Some|]. split; [|done].
        rewrite Ev. by apply victim_locked.
      * unfold all_locked. rewrite Ev. apply Forall_app. split; [done|]. by constructor.
Qed.

(** ** Walking a table *)
Definition items_of s t (ks : list nat) : list nat := filter (fun k => nbr_get_bit s (used_map s) t (Some k) = true) ks.
Lemma next_from_spec s t ks : forall fuel k n, key_next s !! k = Some n -> chain (key_next s) n ks -> (length ks < fuel)%nat ->
  next_from fuel s t (Some k) = Some (head (items_of s t ks)).
Proof.
  induction ks as [|j ks IH]; intros fuel k n Hk Hc Hf; unfold chain in Hc; cbn in Hc; (destruct fuel as [|fuel]; [lia|]);
    cbn [next_from list_item_next]; rewrite Hk; cbn [mbind option_bind].
  - by subst.
  - destruct Hc as (-> & m & Hm & Hc). unfold items_of. rewrite filter_cons. cbn in Hf.
    destruct (nbr_get_bit s (used_map s) t (Some j)) eqn:E; cbn [decide]; [by rewrite decide_True|].
    rewrite decide_False by done. eapply IH; [done|done|lia].
Qed.
Lemma nbr_table_next_spec s t pre k ks : chain (key_next s) (nbr_table_keys s) (pre ++ k :: ks) ->
  nbr_table_next s t (Some k) = Some (head (items_of s t ks)).
Proof.
  intros Hc. pose proof (chain_fuel _ _ _ Hc) as Hf. apply seg_app in Hc as (p & _ & Hk). cbn in Hk.
  destruct Hk as (-> & n & Hn & Hc). unfold nbr_table_next. eapply next_from_spec; [done|done|].
  rewrite length_app in Hf. cbn in Hf. lia.
Qed.
Lemma nbr_table_head_spec s t ks : chain (key_next s) (nbr_table_keys s) ks -> nbr_table_head s t = Some (head (items_of s t ks)).
Proof.
  intros Hc. unfold nbr_table_head, list_head. pose proof (chain_head _ _ _ Hc) as Hh. rewrite Hh.
  destruct ks as [|k ks]; cbn [head] in *.
  - cbn. done.
  - unfold items_of. rewrite filter_cons. destruct (nbr_get_bit s (used_map s) t (Some k)) eqn:E; [by rewrite decide_True|].
    rewrite decide_False by done. by apply (nbr_table_next_spec s t []).
Qed.

(** [for(item = nbr_table_head(t); item != NULL; item = nbr_table_next(t, item))]:
    the items of a table, in the order of the keys. *)
Fixpoint walk_from (fuel : nat) s t (item : ptr) : option (list nat) :=
  match fuel with
  | O => None
  | S fuel =>
      match item with
      | None => Some []
      | Some k => n ← nbr_table_next s t item; l ← walk_from fuel s t n; Some (k :: l)
      end
  end.
Definition walk s t : option (list nat) :=
  item ← nbr_table_head s t; walk_from (fuel_of (key_next s)) s t item.
Lemma items_of_split s t ks k l : items_of s t ks = k :: l -> exists pre post, ks = pre ++ k :: post /\ items_of s t post = l.
Proof.
  induction ks as [|j ks IH]; unfold items_of; [done|]. rewrite filter_cons. case_decide.
  - intros [= -> <-]. by exists [], ks.
  - intros (pre & post & -> & Hu)%IH. by exists (j :: pre), post.
Qed.
Lemma walk_from_spec s t post : forall fuel pre, chain (key_next s) (nbr_table_keys s) (pre ++ post) -> (length post < fuel)%nat ->
  walk_from fuel s t (head (items_of s t post)) = Some (items_of s t post).
Proof.
  induction post as [post IH] using (induction_ltof1 _ (@length nat)); unfold ltof in IH. intros fuel pre Hc Hf.
  destruct fuel as [|fuel]; [lia|]. cbn [walk_from]. destruct (items_of s t post) as [|k l] eqn:E; [done|].
  cbn [head]. apply items_of_split in E as (q & post' & -> & <-).
  rewrite (nbr_table_next_spec s t (pre ++ q) k post') by (by rewrite <- app_assoc). cbn [mbind option_bind].
  rewrite length_app in *. cbn in *. rewrite (IH post') with (pre := pre ++ q ++ [k]); [done| | |lia].
  - lia.
  - by rewrite <- !app_assoc.
Qed.
Lemma walk_spec s t ks : chain (key_next s) (nbr_table_keys s) ks -> walk s t = Some (items_of s t ks).
Proof.
  intros Hc. unfold walk. rewrite (nbr_table_head_spec s t ks Hc). cbn [mbind option_bind].
  apply (walk_from_spec s t ks _ []); [done|]. pose proof (chain_fuel _ _ _ Hc). lia.
Qed.
End drop.

(** * What the tables ask of their users

    [client] is the invariant of the memory the items of the tables live in.  A
    function a table is registered with must take the item out of the table,
    and do nothing else to the tables. *)
Definition same_bits {T} (cb : T -> Prop) (s s' : nbr_tables T) : Prop :=
  table_index s' = table_index s /\ all_tables s' = all_tables s /\
  forall t k, registered s t -> cb t -> nbr_get_bit s' (used_map s') t (Some k) = nbr_get_bit s (used_map s) t (Some k).

Class NbrClient (T W : Type) `{EqDecision T} `{NbrWorld T W} (client : W -> Prop) : Prop := {
  get_upd : forall f w, nbr_get (nbr_upd f w) = f (nbr_get w);
  get_zero : forall t i w, nbr_get (item_zero t i w) = nbr_get w;
  client_upd : forall f w, client w -> same_bits (fun t => is_Some (callback t)) (nbr_get w) (f (nbr_get w)) ->
    (exists p ks, nbr_inv (f (nbr_get w)) p ks) -> client (nbr_upd f w);
  callback_ok : forall t f k w, client w -> callback t = Some f -> registered (nbr_get w) t ->
    (k < NBR_TABLE_MAX_NEIGHBORS)%nat -> nbr_get_bit (nbr_get w) (used_map (nbr_get w)) t (Some k) = true ->
    exists w', f k w = Some w' /\ client w' /\ nbr_get w' = (nbr_table_remove (nbr_get w) t (Some k)).1 }.

(** [s'] is [s] with bits of neighbour [k] cleared. *)
Record clears {T} (k : nat) (s s' : nbr_tables T) : Prop := {
  cl_mem : neighbor_addr_mem s' = neighbor_addr_mem s;
  cl_next : key_next s' = key_next s;
  cl_keys : nbr_table_keys s' = nbr_table_keys s;
  cl_tables : all_tables s' = all_tables s;
  cl_num : num_tables s' = num_tables s;
  cl_index : table_index s' = table_index s;
  cl_used : length (used_map s') = length (used_map s) /\ (bytes (used_map s) -> bytes (used_map s'));
  cl_locked : length (locked_map s') = length (locked_map s) /\ (bytes (locked_map s) -> bytes (locked_map s'));
  cl_other : forall j, j <> k -> rd8 (used_map s') (Z.of_nat j) = rd8 (used_map s) (Z.of_nat j) /\
    rd8 (locked_map s') (Z.of_nat j) = rd8 (locked_map s) (Z.of_nat j);
  cl_used_k : forall b, Z.testbit (rd8 (used_map s') (Z.of_nat k)) b = true -> Z.testbit (rd8 (used_map s) (Z.of_nat k)) b = true;
  cl_locked_k : forall b, Z.testbit (rd8 (locked_map s') (Z.of_nat k)) b = true -> Z.testbit (rd8 (locked_map s) (Z.of_nat k)) b = true }.

Section client.
Context {T : Type} `{EqDecision T}.
Implicit Types (s : nbr_tables T) (t : T).

Lemma clears_refl k s : clears k s s.
Proof. by constructor. Qed.
Lemma clears_trans k s1 s2 s3 : clears k s1 s2 -> clears k s2 s3 -> clears k s1 s3.
Proof.
  intros [] []; constructor; try (intros; rewrite ?H in *; congruence || (by eauto)).
  - naive_solver congruence.
  - naive_solver congruence.
  - intros j Hj. destruct (cl_other0 j Hj), (cl_other1 j Hj). split; congruence.
Qed.
Lemma clears_registered k s s' t : clears k s s' -> registered s t <-> registered s' t.
Proof. intros Hc. unfold registered. by rewrite (cl_index _ _ _ Hc), (cl_tables _ _ _ Hc). Qed.

(** The bytes of a bitmap after one bit was written. *)
Lemma set_bit_rd s bm t k v j : registered s t -> bytes bm -> (k < length bm)%nat ->
  rd8 (nbr_set_bit s bm t (Some k) v).1 (Z.of_nat j) =
    if decide (j = k) then (if v then Z.setbit else Z.clearbit) (rd8 bm (Z.of_nat k)) (table_index s t) else rd8 bm (Z.of_nat j).
Proof. intros Hr Hb Hk. rewrite set_bit_eq by done. by apply rd8_insert. Qed.
Lemma clearbit_sub x n b : Z.testbit (Z.clearbit x n) b = true -> Z.testbit x b = true.
Proof. rewrite Z.clearbit_eqb. by intros [? _]%andb_true_iff. Qed.

Lemma remove_eq s t item : (nbr_table_remove s t item).1 =
  s <| used_map := (nbr_set_bit s (used_map s) t item false).1 |> <| locked_map := (nbr_set_bit s (locked_map s) t item false).1 |>.
Proof. unfold nbr_table_remove. by destruct (nbr_set_bit s (used_map s) t item false), (nbr_set_bit s (locked_map s) t item false). Qed.
Definition maps_ok s : Prop :=
  (length (used_map s) = NBR_TABLE_MAX_NEIGHBORS /\ bytes (used_map s)) /\
  (length (locked_map s) = NBR_TABLE_MAX_NEIGHBORS /\ bytes (locked_map s)).
Lemma remove_clears s t k : registered s t -> maps_ok s -> (k < NBR_TABLE_MAX_NEIGHBORS)%nat ->
  clears k s (nbr_table_remove s t (Some k)).1 /\
  Z.testbit (rd8 (used_map (nbr_table_remove s t (Some k)).1) (Z.of_nat k)) (table_index s t) = false.
Proof.
  intros Hr [[Hlu Hbu] [Hll Hbl]] Hk. rewrite remove_eq. cbn [used_map locked_map set_field].
  assert (Hi := Hr). destruct Hi as [Hi _]. split.
  - constructor; cbn [neighbor_addr_mem key_next nbr_table_keys all_tables num_tables table_index used_map locked_map set_field]; try done.
    + destruct (set_bit_bytes s (used_map s) t (Some k) false Hbu). by split.
    + destruct (set_bit_bytes s (locked_map s) t (Some k) false Hbl). by split.
    + intros j Hj. rewrite !set_bit_rd by (done || lia). by rewrite !decide_False.
    + intros b. rewrite set_bit_rd by (done || lia). rewrite decide_True by done. apply clearbit_sub.
    + intros b. rewrite set_bit_rd by (done || lia). rewrite decide_True by done. apply clearbit_sub.
  - rewrite set_bit_rd by (done || lia). rewrite decide_True by done. rewrite Z.clearbit_eqb, Z.eqb_refl. apply andb_false_r.
Qed.
Lemma clears_maps_ok k s s' : clears k s s' -> maps_ok s -> maps_ok s'.
Proof. intros [] [[] []]. unfold maps_ok. naive_solver congruence. Qed.
Lemma wf_maps_ok s p ks : nbr_inv s p ks -> maps_ok s.
Proof. intros []. by split. Qed.
End client.

Section add.
Context {T W : Type} `{EqDecision T} `{NbrWorld T W} (client : W -> Prop) `{!NbrClient T W client}.
Implicit Types (s : nbr_tables T) (t : T) (w : W).

Lemma call_tables_spec k n : forall i w, client w -> maps_ok (nbr_get w) -> (k < NBR_TABLE_MAX_NEIGHBORS)%nat ->
  (forall j t, all_tables (nbr_get w) !! j = Some (Some t) -> table_index (nbr_get w) t = Z.of_nat j) -> (i + n <= 8)%nat ->
  exists w', call_tables i n k w = Some w' /\ client w' /\ clears k (nbr_get w) (nbr_get w') /\
    forall t, registered (nbr_get w) t -> is_Some (callback t) -> Z.of_nat i <= table_index (nbr_get w) t < Z.of_nat (i + n) ->
      Z.testbit (rd8 (used_map (nbr_get w')) (Z.of_nat k)) (table_index (nbr_get w) t) = false.
Proof.
  induction n as [|n IH]; intros i w Hc Hm Hk Hix Hn; cbn [call_tables].
  { exists w. split; [done|]. split; [done|]. split; [apply clears_refl|]. lia. }
  assert (exists w1, match all_tables (nbr_get w) !! i with
            | Some (Some t) => match callback t with
                | Some f => if nbr_get_bit (nbr_get w) (used_map (nbr_get w)) t (Some k) then f k w else Some w
                | None => Some w end
            | _ => Some w end = Some w1 /\ client w1 /\ clears k (nbr_get w) (nbr_get w1) /\
          forall t, registered (nbr_get w) t -> is_Some (callback t) -> table_index (nbr_get w) t = Z.of_nat i ->
            Z.testbit (rd8 (used_map (nbr_get w1)) (Z.of_nat k)) (table_index (nbr_get w) t) = false) as (w1 & -> & Hc1 & Hcl & Hz).
  { destruct (all_tables (nbr_get w) !! i) as [[t|]|] eqn:Et.
    2,3: exists w; split; [done|]; split; [done|]; split; [apply clears_refl|]; intros t [? Hr] _ Hti;
         rewrite Hti, Nat2Z.id in Hr; congruence.
    assert (forall t', registered (nbr_get w) t' -> table_index (nbr_get w) t' = Z.of_nat i -> t' = t) as Huniq.
    { intros t' [? Hr] Hti. rewrite Hti, Nat2Z.id in Hr. congruence. }
    destruct (callback t) as [f|] eqn:Ef.
    2: { exists w. split; [done|]. split; [done|]. split; [apply clears_refl|]. intros t' Hr [? Hf] Hti.
         rewrite (Huniq t' Hr Hti), Ef in Hf. done. }
    assert (registered (nbr_get w) t) as Hr.
    { pose proof (Hix i t Et) as Hti. split; [lia|]. by rewrite Hti, Nat2Z.id. }
    destruct (nbr_get_bit _ _ _ _) eqn:Eb.
    - destruct (callback_ok t f k w Hc Ef Hr Hk Eb) as (w1 & -> & Hc1 & E1). exists w1. split; [done|]. split; [done|].
      destruct (remove_clears _ t k Hr Hm Hk) as [Hcl Hz]. rewrite E1. split; [done|].
      intros t' Hr' _ Hti. by rewrite (Huniq t' Hr' Hti).
    - exists w. split; [done|]. split; [done|]. split; [apply clears_refl|]. intros t' Hr' _ Hti.
      rewrite (Huniq t' Hr' Hti). by rewrite <- (get_bit_spec _ (used_map (nbr_get w)) t k Hr). }
  cbn [mbind option_bind]. destruct (IH (S i) w1) as (w2 & -> & Hc2 & Hcl2 & Hz2); [done|by eapply clears_maps_ok|done| |lia|].
  { intros j t. rewrite (cl_tables _ _ _ Hcl), (cl_index _ _ _ Hcl). apply Hix. }
  exists w2. split; [done|]. split; [done|]. split; [by eapply clears_trans|].
  intros t Hr Hcb Hti. destruct (decide (table_index (nbr_get w) t = Z.of_nat i)) as [Hi|Hi].
  - specialize (Hz t Hr Hcb Hi). apply not_true_is_false. intros Hb. apply (cl_used_k _ _ _ Hcl2) in Hb. congruence.
  - rewrite <- (cl_index _ _ _ Hcl). apply Hz2; [by apply (clears_registered _ _ _ _ Hcl)|done|].
    rewrite (cl_index _ _ _ Hcl). lia.
Qed.

Lemma find_nbr_None ll (l : list neighbor) : find_nbr ll l = None <-> forall n, n ∈ l -> n_lladdr n <> ll.
Proof.
  unfold find_nbr. rewrite find_index_None, Forall_forall. split; intros Hf n Hn; specialize (Hf n Hn); cbn in *.
  - apply bool_decide_eq_false in Hf. congruence.
  - apply bool_decide_eq_false. congruence.
Qed.
Lemma elem_of_view s ks n : n ∈ view s ks <-> exists k, k ∈ ks /\
  n = Neighbor (key_lladdr s k) (rd8 (used_map s) (Z.of_nat k)) (rd8 (locked_map s) (Z.of_nat k)).
Proof. unfold view. rewrite list_elem_of_fmap. naive_solver. Qed.
Lemma view_ext s s' ks : (forall k, k ∈ ks -> key_lladdr s' k = key_lladdr s k /\
    rd8 (used_map s') (Z.of_nat k) = rd8 (used_map s) (Z.of_nat k) /\
    rd8 (locked_map s') (Z.of_nat k) = rd8 (locked_map s) (Z.of_nat k)) -> view s' ks = view s ks.
Proof. intros Hk. apply map_ext_in. intros k Hin%list_elem_of_In. by destruct (Hk k Hin) as (-> & -> & ->). Qed.

(** Linking a fresh key. *)
Lemma attach s ks k ll : nbr_inv s (Some k) ks -> k ∉ ks -> lladdr_ok ll -> find_nbr ll (view s ks) = None ->
  exists nx hd, list_add (key_next s) (nbr_table_keys s) k = Some (nx, hd) /\
    let s' := s <| key_next := nx |> <| nbr_table_keys := hd |>
                <| neighbor_addr_mem ::= set_field memb_mem (<[k := rimeaddr_copy ll]>) |> in
    nbr_wf s' (ks ++ [k]) /\ view s' (ks ++ [k]) = view s ks ++ [Neighbor ll 0 0].
Proof.
  intros Hw Hk Hl Hf. assert (in_use (neighbor_addr_mem s) k) as Huse by (apply (nw_alloc _ _ _ Hw); by right).
  assert (k < NBR_TABLE_MAX_NEIGHBORS)%nat as Hlt.
  { rewrite <- (nw_num _ _ _ Hw), <- (memb_len _ (nw_memb _ _ _ Hw)). by eapply lookup_lt_Some. }
  destruct (list_add_spec _ _ _ k (nw_keys _ _ _ Hw)) as (nx & hd & E & Hc & Hu); [by apply (nw_dom _ _ _ Hw)|].
  rewrite without_notin in Hc by done. exists nx, hd. split; [done|]. intros s'.
  assert (rimeaddr_copy ll = ll) as Hcopy by (unfold rimeaddr_copy; apply take_ge; unfold lladdr_ok in Hl; lia).
  pose proof (nw_num _ _ _ Hw) as Hnum. unfold memb_num in Hnum.
  assert (forall j, key_lladdr s' j = if decide (j = k) then ll else key_lladdr s j) as Hkey.
  { intros j. unfold key_lladdr, s'. cbn. rewrite Hcopy.
    case_decide; [subst; by rewrite list_lookup_insert_eq by lia|by rewrite list_lookup_insert_ne]. }
  destruct (nw_free _ _ _ Hw k Hlt Hk) as [Hz1 Hz2]. split.
  - constructor; cbn [neighbor_addr_mem key_next nbr_table_keys all_tables num_tables table_index used_map locked_map set_field s'].
    + split; [cbn; unfold memb_num; cbn; rewrite length_insert|]; apply (nw_memb _ _ _ Hw).
    + unfold memb_num. cbn. by rewrite length_insert.
    + cbn. rewrite Hcopy. apply Forall_insert; [apply (nw_ll _ _ _ Hw)|done].
    + intros j. rewrite (upd_dom _ _ _ Hu). apply (nw_dom _ _ _ Hw).
    + done.
    + intros j. unfold in_use. cbn. fold (in_use (neighbor_addr_mem s) j). rewrite (nw_alloc _ _ _ Hw), elem_of_app. set_solver.
    + apply (nw_used _ _ _ Hw).
    + apply (nw_locked _ _ _ Hw).
    + intros j Hj Hjk. apply (nw_free _ _ _ Hw); [done|set_solver].
    + apply (nw_tables _ _ _ Hw).
    + apply (nw_index _ _ _ Hw).
  - rewrite view_app. f_equal.
    + apply view_ext. intros j Hj. rewrite Hkey, decide_False by set_solver. done.
    + cbn. rewrite Hkey, decide_True by done. unfold s'. cbn. by rewrite Hz1, Hz2.
Qed.

Lemma full_length s ks : nbr_wf s ks ->
  match memb_alloc (neighbor_addr_mem s) with (_, Some _) => (length ks < NBR_TABLE_MAX_NEIGHBORS)%nat | _ => length ks = NBR_TABLE_MAX_NEIGHBORS end.
Proof.
  intros Hw. pose proof (chain_distinct _ _ _ (nw_keys _ _ _ Hw)) as Hd.
  assert (forall k, k ∈ ks -> k ∈ seq 0 NBR_TABLE_MAX_NEIGHBORS) as Hsub.
  { intros k Hk. apply elem_of_seq. split; [lia|]. cbn. by eapply wf_lt. }
  pose proof (submseteq_length _ _ (NoDup_submseteq _ _ Hd Hsub)) as Hle. rewrite length_seq in Hle.
  pose proof (memb_alloc_spec _ (nw_memb _ _ _ Hw)) as Ha. destruct (memb_alloc _) as [m [i|]].
  - destruct Ha as (_ & _ & Hi & Hn & _). destruct (Nat.eq_dec (length ks) NBR_TABLE_MAX_NEIGHBORS) as [Heq|]; [|lia].
    exfalso. apply Hn, (nw_alloc _ _ _ Hw). left.
    assert (ks ≡ₚ seq 0 NBR_TABLE_MAX_NEIGHBORS) as ->.
    { apply submseteq_length_Permutation; [by apply NoDup_submseteq|]. by rewrite length_seq, Heq. }
    apply elem_of_seq. rewrite <- (nw_num _ _ _ Hw). lia.
  - destruct Ha as [_ Hall]. apply Nat.le_antisymm; [done|].
    rewrite <- (length_seq NBR_TABLE_MAX_NEIGHBORS 0) at 1. apply submseteq_length, NoDup_submseteq; [apply NoDup_seq|].
    intros k Hk%elem_of_seq. rewrite <- (nw_num _ _ _ Hw) in Hk. destruct (proj1 (nw_alloc _ _ _ Hw k)) as [?|?]; [apply Hall; lia|done|done].
Qed.

Lemma without_delete v k ks : NoDup ks -> ks !! v = Some k -> without k ks = delete v ks.
Proof.
  intros Hd Hv. rewrite <- (take_drop_middle _ _ _ Hv) in Hd |- * at 1. apply NoDup_app in Hd as (_ & Hd & [? _]%NoDup_cons).
  rewrite without_split; [|intros Hk; apply (Hd k Hk); set_solver|done]. by rewrite delete_take_drop.
Qed.
Lemma testbit_zero x : 0 <= x -> (forall b, Z.testbit x b = true -> Z.testbit 0 b = true) -> x = 0.
Proof.
  intros Hx Hb. apply Z.bits_inj_iff'. intros n Hn. rewrite Z.bits_0. apply not_true_is_false. intros E.
  apply Hb in E. by rewrite Z.bits_0 in E.
Qed.

(** Unlinking the neighbour that makes room. *)
Lemma detach s s1 ks v k : nbr_wf s ks -> ks !! v = Some k -> clears k s s1 -> rd8 (locked_map s) (Z.of_nat k) = 0 ->
  exists nx hd, list_remove (key_next s1) (nbr_table_keys s1) k = Some (nx, hd) /\
    let s2 := s1 <| used_map ::= wr8 (Z.of_nat k) 0 |> <| key_next := nx |> <| nbr_table_keys := hd |> in
    nbr_inv s2 (Some k) (delete v ks) /\ view s2 (delete v ks) = delete v (view s ks).
Proof.
  intros Hw Hv Hcl Hlk. pose proof (chain_distinct _ _ _ (nw_keys _ _ _ Hw)) as Hd.
  assert (k ∈ ks) as Hin by (by eapply list_elem_of_lookup_2). pose proof (wf_lt _ _ _ _ Hw Hin) as Hlt.
  rewrite (cl_next _ _ _ Hcl), (cl_keys _ _ _ Hcl).
  destruct (list_remove_spec _ _ _ k (nw_keys _ _ _ Hw)) as (nx & hd & E & Hc & Hu & _).
  exists nx, hd. split; [done|]. intros s2. rewrite (without_delete v k) in Hc by done.
  assert (forall j, j ∈ delete v ks <-> j <> k /\ j ∈ ks) as Hel by (intros j; rewrite <- (without_delete v k) by done; apply elem_of_without).
  pose proof (wf_maps_ok _ _ _ Hw) as Hmo. pose proof (clears_maps_ok _ _ _ Hcl Hmo) as [[Hlu Hbu] [Hll Hbl]].
  assert (rd8 (locked_map s1) (Z.of_nat k) = 0) as Hlk1.
  { apply testbit_zero; [by apply (rd8_u8 _ _ Hbl)|]. rewrite <- Hlk. apply (cl_locked_k _ _ _ Hcl). }
  assert (forall j, rd8 (used_map s2) (Z.of_nat j) = if decide (j = k) then 0 else rd8 (used_map s) (Z.of_nat j)) as Hus.
  { intros j. cbn. unfold wr8. rewrite Nat2Z.id. change (w8 0) with 0. rewrite rd8_insert by lia.
    case_decide; [done|]. by apply (cl_other _ _ _ Hcl). }
  assert (forall j, key_lladdr s2 j = key_lladdr s j) as Hkey by (intros j; unfold key_lladdr, s2; cbn; by rewrite (cl_mem _ _ _ Hcl)).
  split.
  - constructor; cbn [neighbor_addr_mem key_next nbr_table_keys all_tables num_tables table_index locked_map set_field s2];
      rewrite ?(cl_mem _ _ _ Hcl), ?(cl_tables _ _ _ Hcl), ?(cl_index _ _ _ Hcl).
    + apply (nw_memb _ _ _ Hw).
    + apply (nw_num _ _ _ Hw).
    + apply (nw_ll _ _ _ Hw).
    + intros j. rewrite (upd_dom _ _ _ Hu). apply (nw_dom _ _ _ Hw).
    + done.
    + intros j. rewrite (nw_alloc _ _ _ Hw), Hel. split.
      * intros [?|?]; [|done]. destruct (decide (j = k)) as [->|]; [by right|by left].
      * intros [[_ ?]|[= <-]]; by left.
    + cbn. rewrite length_wr8. auto with mem.
    + done.
    + intros j Hj Hjk. rewrite Hus. case_decide as Hjk'; [by subst|].
      destruct (cl_other _ _ _ Hcl j Hjk') as [_ ->]. rewrite Hel in Hjk. apply (nw_free _ _ _ Hw); [done|]. tauto.
    + apply (nw_tables _ _ _ Hw).
    + apply (nw_index _ _ _ Hw).
  - assert (delete v (view s ks) = view s (delete v ks)) as ->.
    { unfold view. by rewrite !delete_take_drop, map_app, <- firstn_map, <- skipn_map. }
    apply view_ext. intros j [Hjk Hj]%Hel. rewrite Hkey, Hus, decide_False by done.
    split; [done|]. split; [done|]. cbn. by apply (cl_other _ _ _ Hcl).
Qed.

(** The neighbours that stay when one is added to [l]. *)
Inductive makes_room : list neighbor -> list neighbor -> Prop :=
  | room_left l : (length l < NBR_TABLE_MAX_NEIGHBORS)%nat -> makes_room l l
  | room_made l v : length l = NBR_TABLE_MAX_NEIGHBORS -> victim l v -> makes_room l (delete v l).

Lemma find_nbr_sub ll l l' : (forall n, n ∈ l' -> n ∈ l) -> find_nbr ll l = None -> find_nbr ll l' = None.
Proof. rewrite !find_nbr_None. eauto. Qed.
Lemma find_nbr_app_new ll l n : find_nbr ll l = None -> n_lladdr n = ll -> find_nbr ll (l ++ [n]) = Some (length l).
Proof.
  rewrite find_nbr_None. intros Hl Hn. unfold find_nbr. apply find_index_Some. split.
  - exists n. rewrite list_lookup_middle by done. split; [done|]. by apply bool_decide_eq_true.
  - intros j y Hj Hy. rewrite lookup_app_l in Hy by done. apply bool_decide_eq_false.
    intros E. by apply (Hl y); [eapply list_elem_of_lookup_2|].
Qed.

Lemma new_key_spec ll w ks : client w -> nbr_wf (nbr_get w) ks -> lladdr_ok ll -> find_nbr ll (view (nbr_get w) ks) = None ->
  exists w1 r, new_key ll w = Some (w1, r) /\ client w1 /\
    table_index (nbr_get w1) = table_index (nbr_get w) /\ all_tables (nbr_get w1) = all_tables (nbr_get w) /\
    match r with
    | None => w1 = w /\ length ks = NBR_TABLE_MAX_NEIGHBORS /\ all_locked (view (nbr_get w) ks)
    | Some k => exists ks1, k ∉ ks1 /\ nbr_wf (nbr_get w1) (ks1 ++ [k]) /\ exists l1, makes_room (view (nbr_get w) ks) l1 /\
        length l1 = length ks1 /\ view (nbr_get w1) (ks1 ++ [k]) = l1 ++ [Neighbor ll 0 0]
    end.
Proof.
  intros Hc Hw Hl Hf. unfold new_key, nbr_table_allocate. pose proof (full_length _ _ Hw) as Hlen.
  pose proof (memb_alloc_spec _ (nw_memb _ _ _ Hw)) as Ha. destruct (memb_alloc _) as [m [k|]] eqn:Em.
  - destruct Ha as (Hmw & Hmem & Hk & Hfree & Huse & _). cbn [mbind option_bind].
    set (w0 := nbr_upd _ w).
    assert (nbr_get w0 = (nbr_get w) <| neighbor_addr_mem := m |>) as E0 by apply get_upd.
    assert (k ∉ ks) as Hkn by (intros Hin; apply Hfree, (nw_alloc _ _ _ Hw); by left).
    assert (nbr_inv (nbr_get w0) (Some k) ks) as Hw0.
    { rewrite E0. destruct Hw. constructor; cbn; unfold memb_num, key_lladdr in *; cbn; rewrite ?Hmem; try done.
      intros j. rewrite Huse, nw_alloc0. naive_solver. }
    assert (client w0) as Hc0 by (apply client_upd; [done|done|rewrite <- E0; by eauto]).
    assert (view (nbr_get w0) ks = view (nbr_get w) ks) as Ev.
    { apply view_ext. intros j _. rewrite E0. unfold key_lladdr. cbn. by rewrite Hmem. }
    rewrite <- Ev in Hf. destruct (attach _ _ _ _ Hw0 Hkn Hl Hf) as (nx & hd & -> & Hw1 & Hv1).
    cbn [mbind option_bind]. eexists _, (Some k). split; [done|]. rewrite get_upd.
    split; [apply client_upd; [done|done|by eauto]|]. split; [by rewrite E0|]. split; [by rewrite E0|].
    exists ks. split; [done|]. split; [done|]. exists (view (nbr_get w) ks). split; [|split; [apply length_map|by rewrite Hv1, Ev]].
    constructor. unfold view. by rewrite length_map.
  - destruct Ha as [-> _].
    destruct (least_used_spec (nbr_get w) ks (fuel_of (key_next (nbr_get w))) [] (list_head (nbr_table_keys (nbr_get w))) None 0)
      as (r & -> & Hr); [apply (nw_keys _ _ _ Hw)|pose proof (chain_fuel _ _ _ (nw_keys _ _ _ Hw)); lia|by constructor|].
    cbn [mbind option_bind]. destruct r as [k|].
    + destruct Hr as (v & Hv & Hvic). cbn [app] in *.
      assert (rd8 (locked_map (nbr_get w)) (Z.of_nat k) = 0) as Hlk.
      { destruct Hvic as (n & Hn & Hl0 & _). apply view_lookup in Hn as (k' & Hk' & ->). by simplify_eq. }
      assert (k < NBR_TABLE_MAX_NEIGHBORS)%nat as Hlt by (eapply wf_lt; [done|by eapply list_elem_of_lookup_2]).
      destruct (call_tables_spec k MAX_NUM_TABLES 0 w Hc (wf_maps_ok _ _ _ Hw) Hlt) as (w1 & -> & Hc1 & Hcl & Hz);
        [intros; by apply (nw_index _ _ _ Hw)|done|].
      cbn [mbind option_bind]. destruct (detach _ _ _ _ _ Hw Hv Hcl Hlk) as (nx & hd & -> & Hw2 & Hv2).
      cbn [mbind option_bind]. set (w2 := nbr_upd _ w1).
      assert (nbr_get w2 = (nbr_get w1) <| used_map ::= wr8 (Z.of_nat k) 0 |> <| key_next := nx |> <| nbr_table_keys := hd |>) as E2 by (unfold w2; by rewrite get_upd).
      rewrite <- E2 in Hw2, Hv2. assert (k ∉ delete v ks) as Hkn.
      { rewrite <- (without_delete v k), elem_of_without by (done || apply (chain_distinct _ _ _ (nw_keys _ _ _ Hw))). tauto. }
      assert (find_nbr ll (view (nbr_get w2) (delete v ks)) = None) as Hf2.
      { rewrite Hv2. eapply find_nbr_sub; [|exact Hf]. intros n Hn.
        eapply elem_of_submseteq; [exact Hn|]. apply sublist_submseteq, sublist_delete. }
      assert (client w2) as Hc2.
      { apply client_upd; [done| |rewrite <- E2; by eauto]. split; [done|]. split; [done|]. intros t j Hr Hcb. cbn.
        destruct (decide (j = k)) as [->|Hj].
        - unfold wr8. rewrite Nat2Z.id. change (w8 0) with 0.
          pose proof (clears_maps_ok _ _ _ Hcl (wf_maps_ok _ _ _ Hw)) as [[Hlu _] _].
          rewrite rd8_insert, decide_True by (done || lia). unfold tst at 1. rewrite Z.land_0_l. cbn.
          rewrite table_bit_pow, tst_pow2 by (done || apply Hr). symmetry. rewrite (cl_index _ _ _ Hcl) in *.
          apply (clears_registered _ _ _ _ Hcl) in Hr. apply Hz; [done|done|]. exact (proj1 Hr).
        - rewrite rd8_wr8_ne by lia. done. }
      destruct (attach _ _ _ _ Hw2 Hkn Hl Hf2) as (nx' & hd' & -> & Hw3 & Hv3).
      cbn [mbind option_bind]. eexists _, (Some k). split; [done|]. rewrite get_upd.
      split; [apply client_upd; [done|done|by eauto]|]. cbn [table_index all_tables set_field].
      split; [cbn; rewrite E2; cbn; apply (cl_index _ _ _ Hcl)|]. split; [cbn; rewrite E2; cbn; apply (cl_tables _ _ _ Hcl)|].
      exists (delete v ks). split; [done|]. split; [done|]. exists (delete v (view (nbr_get w) ks)).
      split; [constructor; [unfold view; by rewrite length_map|done]|]. rewrite <- Hv2. split; [apply length_map|done].
    + exists w, None. split; [done|]. split; [done|]. split; [done|]. by split.
Qed.

(** Writing one bit of the bitmaps. *)
Definition put (v : bool) (b : Z) (x : Z) : Z := (if v then Z.setbit else Z.clearbit) x b.
Lemma view_alter s s' ks j i g : NoDup ks -> ks !! j = Some i ->
  (forall k, key_lladdr s' k = key_lladdr s k) ->
  (forall k, k <> i -> rd8 (used_map s') (Z.of_nat k) = rd8 (used_map s) (Z.of_nat k) /\
    rd8 (locked_map s') (Z.of_nat k) = rd8 (locked_map s) (Z.of_nat k)) ->
  Neighbor (key_lladdr s i) (rd8 (used_map s') (Z.of_nat i)) (rd8 (locked_map s') (Z.of_nat i)) =
    g (Neighbor (key_lladdr s i) (rd8 (used_map s) (Z.of_nat i)) (rd8 (locked_map s) (Z.of_nat i))) ->
  view s' ks = alter g j (view s ks).
Proof.
  intros Hd Hj Hkey Hoth Hg. apply list_eq. intros m. unfold view. rewrite list_lookup_fmap.
  destruct (decide (j = m)) as [<-|Hm].
  - rewrite list_lookup_alter_eq, list_lookup_fmap, Hj. cbn. by rewrite Hkey, Hg.
  - rewrite list_lookup_alter_ne, list_lookup_fmap by done. destruct (ks !! m) as [k|] eqn:Ek; [|done]. cbn.
    assert (k <> i) as Hki by (intros ->; apply Hm; by eapply NoDup_lookup).
    destruct (Hoth k Hki) as [-> ->]. by rewrite Hkey.
Qed.
Lemma set_bits_spec s p ks j i t u l vu vl : nbr_inv s p ks -> registered s t -> ks !! j = Some i ->
  u = used_map s \/ u = (nbr_set_bit s (used_map s) t (Some i) vu).1 ->
  l = locked_map s \/ l = (nbr_set_bit s (locked_map s) t (Some i) vl).1 ->
  let s' := s <| used_map := u |> <| locked_map := l |> in
  nbr_inv s' p ks /\ view s' ks = alter (fun n => Neighbor (n_lladdr n) (rd8 u (Z.of_nat i)) (rd8 l (Z.of_nat i))) j (view s ks).
Proof.
  intros Hw Hr Hj Hu Hl s'. pose proof (wf_maps_ok _ _ _ Hw) as [[Hlu Hbu] [Hll Hbl]].
  assert (i ∈ ks) as Hin by (by eapply list_elem_of_lookup_2). pose proof (wf_lt _ _ _ _ Hw Hin) as Hlt.
  assert (forall bm bm' v, length bm = NBR_TABLE_MAX_NEIGHBORS -> bytes bm ->
    bm' = bm \/ bm' = (nbr_set_bit s bm t (Some i) v).1 -> (length bm' = NBR_TABLE_MAX_NEIGHBORS /\ bytes bm') /\
    forall k, k <> i -> rd8 bm' (Z.of_nat k) = rd8 bm (Z.of_nat k)) as Hbm.
  { intros bm bm' v Hlb Hbb [->| ->]; [done|]. destruct (set_bit_bytes s bm t (Some i) v Hbb) as [? E]. rewrite E.
    split; [done|]. intros k Hk. rewrite set_bit_rd by (done || lia). by rewrite decide_False. }
  destruct (Hbm _ _ _ Hlu Hbu Hu) as [Hu1 Hu2], (Hbm _ _ _ Hll Hbl Hl) as [Hl1 Hl2]. split.
  - destruct Hw. constructor; cbn; try done. intros k Hk Hkn. assert (k <> i) by congruence.
    rewrite Hu2, Hl2 by done. by apply nw_free0.
  - apply (view_alter s s' ks j i); [by eapply chain_distinct, nw_keys|done|done| |done].
    intros k Hk. cbn. by rewrite Hu2, Hl2.
Qed.

Lemma find_nbr_key s p ks ll v : nbr_inv s p ks -> find_nbr ll (view s ks) = Some v -> exists i, ks !! v = Some i /\ key_lladdr s i = ll.
Proof.
  intros Hw Hf. apply find_index_Some in Hf as [(n & Hn & Hl%bool_decide_eq_true) _].
  apply view_lookup in Hn as (i & Hi & ->). by exists i.
Qed.

Lemma nbr_table_add_spec t oll w ks (ll := default rimeaddr_null oll) : client w -> nbr_wf (nbr_get w) ks -> lladdr_ok ll ->
  exists w' r, nbr_table_add_lladdr t oll w = Some (w', r) /\
    match r with
    | None => w' = w /\ find_nbr ll (view (nbr_get w) ks) = None /\ length ks = NBR_TABLE_MAX_NEIGHBORS /\ all_locked (view (nbr_get w) ks)
    | Some i => exists w1 ks1, client w1 /\ nbr_wf (nbr_get w1) ks1 /\
        table_index (nbr_get w1) = table_index (nbr_get w) /\ all_tables (nbr_get w1) = all_tables (nbr_get w) /\
        w' = nbr_upd (fun s => s <| used_map := (nbr_set_bit s (used_map s) t (Some i) true).1 |>) (item_zero t i w1) /\
        ((exists v, find_nbr ll (view (nbr_get w) ks) = Some v /\ ks1 !! v = Some i /\ w1 = w /\ ks1 = ks) \/
         (find_nbr ll (view (nbr_get w) ks) = None /\ exists l1, makes_room (view (nbr_get w) ks) l1 /\
            view (nbr_get w1) ks1 = l1 ++ [Neighbor ll 0 0] /\ ks1 !! length l1 = Some i))
    end.
Proof.
  intros Hc Hw Hl. unfold nbr_table_add_lladdr. rewrite (index_from_lladdr_spec _ _ ks) by done. fold ll. cbn [mbind option_bind].
  destruct (find_nbr ll _) as [v|] eqn:Ef.
  - destruct (find_nbr_key _ _ _ _ _ Hw Ef) as (i & Hi & _). cbn [mbind option_bind]. rewrite Hi. cbn [mbind option_bind].
    eexists _, (Some i). split; [done|]. exists w, ks. do 5 (split; [done|]). left. by exists v.
  - cbn [mbind option_bind]. destruct (new_key_spec ll w ks Hc Hw Hl Ef) as (w1 & r & -> & Hc1 & Hix & Hat & Hr).
    cbn [mbind option_bind]. destruct r as [i|].
    + destruct Hr as (ks1 & Hi & Hw1 & l1 & Hroom & Hlen & Hv). eexists _, (Some i). split; [done|].
      exists w1, (ks1 ++ [i]). do 5 (split; [done|]). right. split; [done|]. exists l1. split; [done|]. split; [done|].
      by rewrite Hlen, list_lookup_middle.
    + destruct Hr as (-> & ? & ?). by exists w, None.
Qed.

Lemma nbr_table_get_spec s t oll p ks (ll := default rimeaddr_null oll) : nbr_inv s p ks -> lladdr_ok ll -> registered s t ->
  nbr_table_get_from_lladdr s t oll = Some (v ← find_nbr ll (view s ks); n ← view s ks !! v;
    if Z.testbit (n_used n) (table_index s t) then ks !! v else None).
Proof.
  intros Hw Hl Hr. unfold nbr_table_get_from_lladdr. rewrite (index_from_lladdr_spec _ _ ks) by done. fold ll. cbn [mbind option_bind].
  destruct (find_nbr ll _) as [v|] eqn:Ef; cbn [mbind option_bind]; [|done].
  destruct (find_nbr_key _ _ _ _ _ Hw Ef) as (i & Hi & _). rewrite Hi. rewrite get_bit_spec by done. f_equal.
  unfold view. rewrite list_lookup_fmap, Hi. done.
Qed.

(** * The calls, by the address of the neighbour *)
Inductive nbr_call : Type :=
  | NAdd (ll : option rimeaddr) | NGet (ll : option rimeaddr) | NRemove (ll : option rimeaddr)
  | NLock (ll : option rimeaddr) | NUnlock (ll : option rimeaddr).
Definition call_ll (c : nbr_call) : rimeaddr :=
  match c with NAdd ll | NGet ll | NRemove ll | NLock ll | NUnlock ll => default rimeaddr_null ll end.

Definition nbr_exec (t : T) (c : nbr_call) (w : W) : option (W * bool) :=
  let on f ll :=
    item ← nbr_table_get_from_lladdr (nbr_get w) t ll;
    Some (nbr_upd (fun s => (f s t item).1) w, negb ((f (nbr_get w) t item).2 =? 0)) in
  match c with
  | NAdd ll => '(w, item) ← nbr_table_add_lladdr t ll w; Some (w, bool_decide (is_Some item))
  | NGet ll => item ← nbr_table_get_from_lladdr (nbr_get w) t ll; Some (w, bool_decide (is_Some item))
  | NRemove ll => on nbr_table_remove ll
  | NLock ll => on nbr_table_lock ll
  | NUnlock ll => on nbr_table_unlock ll
  end.

(** What they do to the neighbours, [b] being the bit of the table. *)
Definition changes (c : nbr_call) (b : Z) (n : neighbor) : neighbor :=
  match c with
  | NAdd _ => n <| n_used ::= put true b |>
  | NGet _ => n
  | NRemove _ => n <| n_used ::= put false b |> <| n_locked ::= put false b |>
  | NLock _ => n <| n_locked ::= put true b |>
  | NUnlock _ => n <| n_locked ::= put false b |>
  end.
Inductive nbr_step (b : Z) (l : list neighbor) : nbr_call -> list neighbor -> bool -> Prop :=
  | step_known ll v : find_nbr (default rimeaddr_null ll) l = Some v ->
      nbr_step b l (NAdd ll) (alter (changes (NAdd ll) b) v l) true
  | step_new ll l1 : find_nbr (default rimeaddr_null ll) l = None -> makes_room l l1 ->
      nbr_step b l (NAdd ll) (l1 ++ [Neighbor (default rimeaddr_null ll) (put true b 0) 0]) true
  | step_full ll : find_nbr (default rimeaddr_null ll) l = None -> length l = NBR_TABLE_MAX_NEIGHBORS -> all_locked l ->
      nbr_step b l (NAdd ll) l false
  | step_used c v n : find_nbr (call_ll c) l = Some v -> l !! v = Some n -> Z.testbit (n_used n) b = true ->
      (forall ll, c <> NAdd ll) -> nbr_step b l c (alter (changes c b) v l) true
  | step_unused c : (forall v n, find_nbr (call_ll c) l = Some v -> l !! v = Some n -> Z.testbit (n_used n) b = false) ->
      (forall ll, c <> NAdd ll) -> nbr_step b l c l false.

Lemma upd_maps_id s : s <| used_map := used_map s |> <| locked_map := locked_map s |> = s.
Proof. by destruct s. Qed.
Lemma alter_at {A} (f g : A -> A) i (l : list A) : (forall x, l !! i = Some x -> f x = g x) -> alter f i l = alter g i l.
Proof.
  intros Hf. apply list_eq. intros j. destruct (decide (i = j)) as [<-|]; [|by rewrite !list_lookup_alter_ne].
  rewrite !list_lookup_alter_eq. destruct (l !! i) eqn:E; [|done]. cbn. by rewrite Hf.
Qed.
Lemma view_at s ks v i n : ks !! v = Some i -> view s ks !! v = Some n ->
  n = Neighbor (key_lladdr s i) (rd8 (used_map s) (Z.of_nat i)) (rd8 (locked_map s) (Z.of_nat i)).
Proof. intros Hi (k & Hk & ->)%view_lookup. by simplify_eq. Qed.

(** One bit set or cleared, as a change of the neighbour. *)
Lemma set_bits_view s p ks v i t (wu wl : option bool) : nbr_inv s p ks -> registered s t -> ks !! v = Some i ->
  let s' := s <| used_map := match wu with Some x => (nbr_set_bit s (used_map s) t (Some i) x).1 | None => used_map s end |>
              <| locked_map := match wl with Some x => (nbr_set_bit s (locked_map s) t (Some i) x).1 | None => locked_map s end |> in
  nbr_inv s' p ks /\ view s' ks = alter (fun n =>
    Neighbor (n_lladdr n) (match wu with Some x => put x (table_index s t) (n_used n) | None => n_used n end)
      (match wl with Some x => put x (table_index s t) (n_locked n) | None => n_locked n end)) v (view s ks).
Proof.
  intros Hw Hr Hv. cbv zeta. pose proof (wf_maps_ok _ _ _ Hw) as [[Hlu Hbu] [Hll Hbl]].
  assert (i ∈ ks) as Hin by (by eapply list_elem_of_lookup_2). pose proof (wf_lt _ _ _ _ Hw Hin) as Hlt.
  edestruct (set_bits_spec s p ks v i t
    (match wu with Some x => (nbr_set_bit s (used_map s) t (Some i) x).1 | None => used_map s end)
    (match wl with Some x => (nbr_set_bit s (locked_map s) t (Some i) x).1 | None => locked_map s end)
    (default true wu) (default true wl) Hw Hr Hv) as [Hw' Hv']; [destruct wu; auto|destruct wl; auto|].
  split; [exact Hw'|]. rewrite Hv'. apply alter_at. intros n Hn. rewrite (view_at _ _ _ _ _ Hv Hn). cbn [n_used n_locked n_lladdr].
  f_equal.
  - destruct wu; [|done]. rewrite set_bit_rd by (done || lia). by rewrite decide_True.
  - destruct wl; [|done]. rewrite set_bit_rd by (done || lia). by rewrite decide_True.
Qed.
(** The three calls that take an item. *)
Lemma change_bits t ll w ks (f : nbr_tables T -> T -> ptr -> nbr_tables T * Z) c (wu wl : option bool) :
  nbr_wf (nbr_get w) ks -> registered (nbr_get w) t -> lladdr_ok (default rimeaddr_null ll) -> call_ll c = default rimeaddr_null ll ->
  (forall ll', c <> NAdd ll') ->
  (forall s, f s t None = (s, 0)) ->
  (forall s i, f s t (Some i) = (s <| used_map := match wu with Some x => (nbr_set_bit s (used_map s) t (Some i) x).1 | None => used_map s end |>
       <| locked_map := match wl with Some x => (nbr_set_bit s (locked_map s) t (Some i) x).1 | None => locked_map s end |>, 1)) ->
  (forall n, changes c (table_index (nbr_get w) t) n =
    Neighbor (n_lladdr n) (match wu with Some x => put x (table_index (nbr_get w) t) (n_used n) | None => n_used n end)
      (match wl with Some x => put x (table_index (nbr_get w) t) (n_locked n) | None => n_locked n end)) ->
  exists w' b ks', (item ← nbr_table_get_from_lladdr (nbr_get w) t ll;
      Some (nbr_upd (fun s => (f s t item).1) w, negb ((f (nbr_get w) t item).2 =? 0))) = Some (w', b) /\
    nbr_wf (nbr_get w') ks' /\ nbr_step (table_index (nbr_get w) t) (view (nbr_get w) ks) c (view (nbr_get w') ks') b.
Proof.
  intros Hw Hr Hl Hc Hna Hnone Hsome Hch. rewrite (nbr_table_get_spec _ t ll None ks) by done. cbn [mbind option_bind].
  set (r := v ← find_nbr _ _; _).
  assert ((exists v i n, r = Some i /\ find_nbr (call_ll c) (view (nbr_get w) ks) = Some v /\ ks !! v = Some i /\
            view (nbr_get w) ks !! v = Some n /\ Z.testbit (n_used n) (table_index (nbr_get w) t) = true) \/
          (r = None /\ forall v n, find_nbr (call_ll c) (view (nbr_get w) ks) = Some v -> view (nbr_get w) ks !! v = Some n ->
             Z.testbit (n_used n) (table_index (nbr_get w) t) = false)) as Hcase.
  { unfold r. rewrite Hc. destruct (find_nbr _ _) as [v|] eqn:Ef; [|right; split; [done|intros; done]]. cbn [mbind option_bind].
    destruct (find_nbr_key _ _ _ _ _ Hw Ef) as (i & Hi & _). destruct (view (nbr_get w) ks !! v) as [n|] eqn:En; cbn [mbind option_bind].
    - destruct (Z.testbit (n_used n) _) eqn:Et; [left; by exists v, i, n|right]. split; [done|]. intros v' n' [= <-] ?. by simplify_eq.
    - right. split; [done|]. intros v' n' [= <-] ?. congruence. }
  destruct Hcase as [(v & i & n & -> & Hf & Hv & Hn & Hb)|[-> Hb]].
  - rewrite Hsome. cbn [snd]. eexists _, true, ks. split; [done|]. rewrite get_upd, Hsome. cbn [fst].
    destruct (set_bits_view (nbr_get w) None ks v i t wu wl Hw Hr Hv) as [Hw' ->]. split; [done|].
    rewrite (alter_at _ (changes c (table_index (nbr_get w) t))) by (intros; by rewrite Hch). by eapply step_used.
  - rewrite Hnone. cbn [snd]. eexists _, false, ks. split; [done|]. rewrite get_upd, Hnone. cbn [fst]. split; [done|]. by apply step_unused.
Qed.

(** C24: the neighbour tables are a queue of at most eight neighbours with the set of the
    tables that use and that have locked each: every call returns and does to
    the queue what [nbr_step] says.  In particular a neighbour is only dropped
    when the queue is full, no table has locked it, and it is the oldest of
    those that fewest tables use. *)
Theorem nbr_call_refines t c w ks : client w -> nbr_wf (nbr_get w) ks -> registered (nbr_get w) t -> lladdr_ok (call_ll c) ->
  exists w' b ks', nbr_exec t c w = Some (w', b) /\ nbr_wf (nbr_get w') ks' /\
    nbr_step (table_index (nbr_get w) t) (view (nbr_get w) ks) c (view (nbr_get w') ks') b.
Proof.
  intros Hc Hw Hr Hl. destruct c as [ll|ll|ll|ll|ll]; cbn [nbr_exec call_ll] in *.
  - destruct (nbr_table_add_spec t ll w ks Hc Hw Hl) as (w' & r & -> & Hadd). cbn [mbind option_bind]. destruct r as [i|].
    + destruct Hadd as (w1 & ks1 & Hc1 & Hw1 & Hix & Hat & -> & Hcase).
      assert (registered (nbr_get w1) t) as Hr1 by (unfold registered; by rewrite Hix, Hat).
      eexists _, true, ks1. split; [done|]. rewrite get_upd, get_zero.
      assert (forall v, ks1 !! v = Some i -> let s' := (nbr_get w1) <| used_map := (nbr_set_bit (nbr_get w1) (used_map (nbr_get w1)) t (Some i) true).1 |> in
        nbr_wf s' ks1 /\ view s' ks1 = alter (changes (NAdd ll) (table_index (nbr_get w) t)) v (view (nbr_get w1) ks1)) as Hset.
      { intros v Hv. destruct (set_bits_view (nbr_get w1) None ks1 v i t (Some true) None Hw1 Hr1 Hv) as [Hw2 Hv2].
        rewrite <- Hix. split; [exact Hw2|]. etransitivity; [exact Hv2|]. apply alter_at. by intros []. }
      destruct Hcase as [(v & Hf & Hv & -> & ->)|(Hf & l1 & Hroom & Hv1 & Hv)].
      * destruct (Hset v Hv) as [Hw2 ->]. split; [done|]. by apply step_known.
      * destruct (Hset _ Hv) as [Hw2 ->]. split; [done|]. rewrite Hv1, (alter_app_r_alt _ _ _ (length l1)) by lia.
        rewrite Nat.sub_diag. cbn. by apply step_new.
    + destruct Hadd as (-> & Hf & Hlen & Hall). exists w, false, ks. split; [done|]. split; [done|].
      apply step_full; [done| |done]. unfold view. by rewrite length_map.
  - rewrite (nbr_table_get_spec _ t ll None ks) by done. cbn [mbind option_bind].
    eexists w, _, ks. split; [done|]. split; [done|].
    destruct (find_nbr _ _) as [v|] eqn:Ef; cbn [mbind option_bind]; [|rewrite bool_decide_eq_false_2 by (by intros [? ?]); apply step_unused; cbn [call_ll]; [intros; congruence|done]].
    destruct (find_nbr_key _ _ _ _ _ Hw Ef) as (i & Hi & _). destruct (view (nbr_get w) ks !! v) as [n|] eqn:En; cbn [mbind option_bind].
    + destruct (Z.testbit (n_used n) _) eqn:Et.
      * rewrite Hi, bool_decide_eq_true_2 by (by eexists).
        assert (view (nbr_get w) ks = alter (changes (NGet ll) (table_index (nbr_get w) t)) v (view (nbr_get w) ks)) as E.
        { rewrite (alter_at _ id) by done. apply list_eq. intros m. destruct (decide (v = m)) as [<-|].
          - rewrite list_lookup_alter_eq. by rewrite option_fmap_id.
          - by rewrite list_lookup_alter_ne. }
        rewrite E at 2. by eapply step_used.
      * rewrite bool_decide_eq_false_2 by (by intros [? ?]). apply step_unused; [|done]. cbn [call_ll]. intros v' n' ??. by simplify_eq.
    + exfalso. apply lookup_ge_None in En. unfold view in En. rewrite length_map in En. apply lookup_lt_Some in Hi. lia.
  - apply (change_bits t ll w ks nbr_table_remove (NRemove ll) (Some false) (Some false)); try done.
    intros s. unfold nbr_table_remove. cbn. by rewrite upd_maps_id.
  - apply (change_bits t ll w ks nbr_table_lock (NLock ll) None (Some true)); try done.
    intros s. unfold nbr_table_lock. cbn. by destruct s.
  - apply (change_bits t ll w ks nbr_table_unlock (NUnlock ll) None (Some false)); try done.
    intros s. unfold nbr_table_unlock. cbn. by destruct s.
Qed.
End add.
