(* ===== verification/UipState.v ===== *)
(** * Data of the stack: constants, structures and global variables of uIP

    The constants of [uip.h] and [uipopt.h] under the configuration of
    [uip-conf.h]; the structures [uip_conn], [uip_udp_conn] and the
    [xtcpd_state_t] each connection carries; the layout of the packet headers
    in [uip_buf]; and [uip_state], the global variables of [uip.c].  The field
    [env] holds the globals of the modules above uIP, which uIP itself never
    touches. *)
From S2P Require Export Prelude.
Local Open Scope Z_scope.

(** ** Constants *)
Definition UIP_CONNS : nat := 10.
Definition UIP_UDP_CONNS : nat := 10.
Definition UIP_LISTENPORTS : nat := 10.
Definition UIP_LLH_LEN : Z := 14.
Definition UIP_IPH_LEN : Z := 20.
Definition UIP_UDPH_LEN : Z := 8.
Definition UIP_TCPH_LEN : Z := 20.
Definition UIP_IPUDPH_LEN : Z := 28.
Definition UIP_IPTCPH_LEN : Z := 40.
Definition UIP_TCPIP_HLEN : Z := UIP_IPTCPH_LEN.
Definition XTCP_CLIENT_BUF_SIZE : Z := 1472.
Definition UIP_BUFSIZE : Z := XTCP_CLIENT_BUF_SIZE + UIP_LLH_LEN + UIP_TCPIP_HLEN.
(** [uip_buf] points to [uip_buf32[(UIP_BUFSIZE + 5) >> 2]]. *)
Definition UIP_BUF_BYTES : Z := 4 * ((UIP_BUFSIZE + 5) / 4).
Definition UIP_TCP_MSS : Z := UIP_BUFSIZE - UIP_LLH_LEN - UIP_TCPIP_HLEN.
Definition UIP_RECEIVE_WINDOW : Z := UIP_TCP_MSS.
Definition UIP_TTL : Z := 64.
Definition UIP_RTO : Z := 3.
Definition UIP_MAXRTX : Z := 8.
Definition UIP_MAXSYNRTX : Z := 5.
Definition UIP_TIME_WAIT_TIMEOUT : Z := 120.

Definition UIP_PROTO_ICMP : Z := 1.
Definition UIP_PROTO_IGMP : Z := 6.
Definition UIP_PROTO_TCP : Z := 6.
Definition UIP_PROTO_UDP : Z := 17.

(** [uip_flags]: what the stack tells the application and back. *)
Definition UIP_ACKDATA : Z := 1.
Definition UIP_NEWDATA : Z := 2.
Definition UIP_REXMIT : Z := 4.
Definition UIP_POLL : Z := 8.
Definition UIP_CLOSE : Z := 16.
Definition UIP_ABORT : Z := 32.
Definition UIP_CONNECTED : Z := 64.
Definition UIP_TIMEDOUT : Z := 128.
Definition UIP_TCP_PUSH : Z := 256.

(** The argument of [uip_process]. *)
Definition UIP_DATA : Z := 1.
Definition UIP_TIMER : Z := 2.
Definition UIP_POLL_REQUEST : Z := 3.
Definition UIP_UDP_SEND_CONN : Z := 4.
Definition UIP_UDP_TIMER : Z := 5.
Definition UIP_UDP_ARP_EVENT : Z := 6.
Definition UIP_UDP_ACKDATA : Z := 7.

(** [tcpstateflags]. *)
Definition UIP_CLOSED : Z := 0.
Definition UIP_SYN_RCVD : Z := 1.
Definition UIP_SYN_SENT : Z := 2.
Definition UIP_ESTABLISHED : Z := 3.
Definition UIP_FIN_WAIT_1 : Z := 4.
Definition UIP_FIN_WAIT_2 : Z := 5.
Definition UIP_CLOSING : Z := 6.
Definition UIP_TIME_WAIT : Z := 7.
Definition UIP_LAST_ACK : Z := 8.
Definition UIP_TS_MASK : Z := 15.
Definition UIP_STOPPED : Z := 16.

Definition UDP_PENDING_ARP : Z := 1.
Definition UDP_SENT : Z := 2.

(** TCP header flags and options of [uip.c]. *)
Definition TCP_FIN : Z := 0x01.
Definition TCP_SYN : Z := 0x02.
Definition TCP_RST : Z := 0x04.
Definition TCP_PSH : Z := 0x08.
Definition TCP_ACK : Z := 0x10.
Definition TCP_URG : Z := 0x20.
Definition TCP_CTL : Z := 0x3f.
Definition TCP_OPT_END : Z := 0.
Definition TCP_OPT_NOOP : Z := 1.
Definition TCP_OPT_MSS : Z := 2.
Definition TCP_OPT_MSS_LEN : Z := 4.
Definition ICMP_ECHO_REPLY : Z := 0.
Definition ICMP_ECHO : Z := 8.

(** [HTONS]: the byte swap of a little-endian machine. *)
Definition HTONS (n : Z) : Z := w16 (Z.lor (Z.shiftl (w16 n) 8) (Z.shiftr (w16 n) 8)).

(** An address from its four bytes. *)
Definition uip_ipaddr (a0 a1 a2 a3 : Z) : u8x4 :=
  of_words (HTONS (Z.lor (Z.shiftl a0 8) a1)) (HTONS (Z.lor (Z.shiftl a2 8) a3)).

(** ** Header layout in [uip_buf] ([struct uip_tcpip_hdr] and its siblings) *)
Module BUF.
Definition vhl : Z := 14.
Definition tos : Z := 15.
Definition len : Z := 16.
Definition ipid : Z := 18.
Definition ipoffset : Z := 20.
Definition ttl : Z := 22.
Definition proto : Z := 23.
Definition ipchksum : Z := 24.
Definition srcipaddr : Z := 26.
Definition destipaddr : Z := 30.
Definition srcport : Z := 34.
Definition destport : Z := 36.
Definition seqno : Z := 38.
Definition ackno : Z := 42.
Definition tcpoffset : Z := 46.
Definition flags : Z := 47.
Definition wnd : Z := 48.
Definition tcpchksum : Z := 50.
Definition urgp : Z := 52.
Definition optdata : Z := 54.
End BUF.
Module UDPBUF.
Definition udplen : Z := 38.
Definition udpchksum : Z := 40.
End UDPBUF.
Module ICMPBUF.
Definition type : Z := 34.
Definition icode : Z := 35.
Definition icmpchksum : Z := 36.
End ICMPBUF.

(** ** Structures *)

(** [struct uip_timer]; [clock_time_t] is [int]. *)
Record uip_timer : Type := UipTimer { start : Z; interval : Z }.
#[export] Instance eta_uip_timer : Eta uip_timer := fun r => UipTimer r.(start) r.(interval).

Inductive xtcp_protocol_t : Set := XTCP_PROTOCOL_TCP | XTCP_PROTOCOL_UDP.
Inductive xtcp_connection_type_t : Set := XTCP_CLIENT_CONNECTION | XTCP_SERVER_CONNECTION.
Inductive xtcp_event_type_t : Set :=
| XTCP_NEW_CONNECTION | XTCP_RECV_DATA | XTCP_REQUEST_DATA | XTCP_SENT_DATA
| XTCP_RESEND_DATA | XTCP_TIMED_OUT | XTCP_ABORTED | XTCP_CLOSED | XTCP_POLL
| XTCP_IFUP | XTCP_IFDOWN | XTCP_ALREADY_HANDLED.
#[export] Instance xtcp_protocol_eq_dec : EqDecision xtcp_protocol_t.
Proof. solve_decision. Defined.
#[export] Instance xtcp_event_eq_dec : EqDecision xtcp_event_type_t.
Proof. solve_decision. Defined.

(** A [struct uip_conn *] or [struct uip_udp_conn *] kept as an [int]. *)
Inductive connptr : Set := CPnull | CPtcp (i : nat) | CPudp (i : nat).

Record xtcp_connection_t : Type := XtcpConnection {
  id : Z;
  protocol : xtcp_protocol_t;
  connection_type : xtcp_connection_type_t;
  event : xtcp_event_type_t;
  conn_appstate : Z;
  remote_addr : u8x4;
  remote_port : Z;
  local_port : Z;
  conn_mss : Z }.
#[export] Instance eta_xtcp_connection_t : Eta xtcp_connection_t := fun r =>
  XtcpConnection r.(id) r.(protocol) r.(connection_type) r.(event) r.(conn_appstate)
    r.(remote_addr) r.(remote_port) r.(local_port) r.(conn_mss).

Record xtcp_server_state_t : Type := XtcpServerState {
  send_request : Z;
  abort_request : Z;
  close_request : Z;
  poll_interval : Z;
  connect_request : Z;
  ack_request : Z;
  closed : Z;
  tmr : uip_timer;
  s_uip_conn : connptr;
  ack_recv_mode : Z }.
#[export] Instance eta_xtcp_server_state_t : Eta xtcp_server_state_t := fun r =>
  XtcpServerState r.(send_request) r.(abort_request) r.(close_request) r.(poll_interval)
    r.(connect_request) r.(ack_request) r.(closed) r.(tmr) r.(s_uip_conn) r.(ack_recv_mode).

Record xtcpd_state_t : Type := XtcpdState {
  linknum : Z;
  xconn : xtcp_connection_t;
  xs : xtcp_server_state_t }.
#[export] Instance eta_xtcpd_state_t : Eta xtcpd_state_t := fun r =>
  XtcpdState r.(linknum) r.(xconn) r.(xs).

Definition zero4 : u8x4 := U4 0 0 0 0.
Definition zero_xtcpd_state : xtcpd_state_t :=
  XtcpdState 0
    (XtcpConnection 0 XTCP_PROTOCOL_TCP XTCP_CLIENT_CONNECTION XTCP_NEW_CONNECTION 0 zero4 0 0 0)
    (XtcpServerState 0 0 0 0 0 0 0 (UipTimer 0 0) CPnull 0).

(** [struct uip_conn] without the sliding-window member. *)
Record uip_conn_t : Type := UipConn {
  ripaddr : u8x4;
  lport : Z;
  rport : Z;
  rcv_nxt : u8x4;
  snd_nxt : u8x4;
  len : Z;
  mss : Z;
  initialmss : Z;
  sa : Z;
  sv : Z;
  rto : Z;
  tcpstateflags : Z;
  timer : Z;
  nrtx : Z;
  appstate : xtcpd_state_t }.
#[export] Instance eta_uip_conn_t : Eta uip_conn_t := fun r =>
  UipConn r.(ripaddr) r.(lport) r.(rport) r.(rcv_nxt) r.(snd_nxt) r.(len) r.(mss)
    r.(initialmss) r.(sa) r.(sv) r.(rto) r.(tcpstateflags) r.(timer) r.(nrtx) r.(appstate).

(** [struct uip_udp_conn]. *)
Record uip_udp_conn_t : Type := UipUdpConn {
  udp_ripaddr : u8x4;
  udp_lport : Z;
  udp_rport : Z;
  udp_ttl : Z;
  udpflags : Z;
  udp_appstate : xtcpd_state_t }.
#[export] Instance eta_uip_udp_conn_t : Eta uip_udp_conn_t := fun r =>
  UipUdpConn r.(udp_ripaddr) r.(udp_lport) r.(udp_rport) r.(udp_ttl) r.(udpflags)
    r.(udp_appstate).

Definition zero_conn : uip_conn_t :=
  UipConn zero4 0 0 zero4 zero4 0 0 0 0 0 0 0 0 0 zero_xtcpd_state.
Definition zero_udp_conn : uip_udp_conn_t := UipUdpConn zero4 0 0 0 0 zero_xtcpd_state.
#[export] Instance uip_conn_inhabited : Inhabited uip_conn_t := populate zero_conn.
#[export] Instance uip_udp_conn_inhabited : Inhabited uip_udp_conn_t := populate zero_udp_conn.

(** ** The global variables of [uip.c]

    [uip_appdata] and [uip_sappdata] point into [uip_buf] and are kept as
    offsets; [uip_conn] and [uip_udp_conn] point into the connection tables
    and are kept as indices, [None] being [NULL].  The scratch globals
    [uip_acc32], [c], [opt] and [tmp16] are written before each use and are
    the local values of the definitions that use them. *)
Record uip_state (E : Type) : Type := UipState {
  uip_buf : list Z;
  uip_appdata : Z;
  uip_sappdata : Z;
  uip_len : Z;
  uip_slen : Z;
  uip_flags : Z;
  uip_conn : option nat;
  uip_conns : list uip_conn_t;
  uip_listenports : list Z;
  uip_udp_listenports : list Z;
  uip_udp_conn : option nat;
  uip_udp_conns : list uip_udp_conn_t;
  ipid : Z;
  iss : u8x4;
  lastport : Z;
  uip_hostaddr : u8x4;
  uip_draddr : u8x4;
  uip_netmask : u8x4;
  uip_ethaddr : list Z;
  env : E }.
Arguments UipState {E}.
Arguments uip_buf {E}. Arguments uip_appdata {E}. Arguments uip_sappdata {E}.
Arguments uip_len {E}. Arguments uip_slen {E}. Arguments uip_flags {E}.
Arguments uip_conn {E}. Arguments uip_conns {E}. Arguments uip_listenports {E}.
Arguments uip_udp_listenports {E}. Arguments uip_udp_conn {E}. Arguments uip_udp_conns {E}.
Arguments ipid {E}. Arguments iss {E}. Arguments lastport {E}. Arguments uip_hostaddr {E}.
Arguments uip_draddr {E}. Arguments uip_netmask {E}. Arguments uip_ethaddr {E}.
Arguments env {E}.
#[export] Instance eta_uip_state {E} : Eta (uip_state E) := fun r =>
  UipState r.(uip_buf) r.(uip_appdata) r.(uip_sappdata) r.(uip_len) r.(uip_slen)
    r.(uip_flags) r.(uip_conn) r.(uip_conns) r.(uip_listenports) r.(uip_udp_listenports)
    r.(uip_udp_conn) r.(uip_udp_conns) r.(ipid) r.(iss) r.(lastport) r.(uip_hostaddr)
    r.(uip_draddr) r.(uip_netmask) r.(uip_ethaddr) r.(env).

Section access.
Context {E : Type}.
Implicit Type s : uip_state E.

(** [uip_conns[i]], [uip_udp_conns[i]] and updates through such pointers. *)
Definition conn_at (i : nat) s : uip_conn_t := uip_conns s !!! i.
Definition udp_conn_at (i : nat) s : uip_udp_conn_t := uip_udp_conns s !!! i.
Definition upd_conn (i : nat) (f : uip_conn_t -> uip_conn_t) s : uip_state E :=
  s <| uip_conns ::= alter f i |>.
Definition upd_udp_conn (i : nat) (f : uip_udp_conn_t -> uip_udp_conn_t) s : uip_state E :=
  s <| uip_udp_conns ::= alter f i |>.
(** A store into [uip_buf]. *)
Definition mem (f : list Z -> list Z) s : uip_state E := s <| uip_buf ::= f |>.
End access.

(** The state of the program at load time: every static variable is zero. *)
Definition initial_state {E} (e : E) : uip_state E :=
  UipState (replicate (Z.to_nat UIP_BUF_BYTES) 0) 0 0 0 0 0 None
    (replicate UIP_CONNS zero_conn) (replicate UIP_LISTENPORTS 0)
    (replicate UIP_LISTENPORTS 0) None (replicate UIP_UDP_CONNS zero_udp_conn)
    0 zero4 0 zero4 zero4 zero4 (replicate 6 0) e.

(** ** Simplification

    [ssimpl] computes field reads of updated structures. *)
Ltac ssimpl :=
  cbn [mem upd_conn upd_udp_conn set_field uip_buf uip_appdata uip_sappdata uip_len uip_slen uip_flags uip_conn uip_conns
       uip_listenports uip_udp_listenports uip_udp_conn uip_udp_conns ipid iss lastport
       uip_hostaddr uip_draddr uip_netmask uip_ethaddr env
       ripaddr lport rport rcv_nxt snd_nxt len mss initialmss sa sv rto tcpstateflags
       timer nrtx appstate
       udp_ripaddr udp_lport udp_rport udp_ttl udpflags udp_appstate].

Section access_lemmas.
Context {E : Type}.
Implicit Types s : uip_state E.

Lemma conn_at_upd_eq i f s : (i < length (uip_conns s))%nat ->
  conn_at i (upd_conn i f s) = f (conn_at i s).
Proof.
  intros H. unfold conn_at. ssimpl. rewrite !list_lookup_total_alt, list_lookup_alter_eq.
  by destruct (lookup_lt_is_Some_2 _ _ H) as [x ->].
Qed.
Lemma conn_at_upd_ne i j f s : i <> j -> conn_at j (upd_conn i f s) = conn_at j s.
Proof.
  intros H. unfold conn_at. ssimpl.
  rewrite !list_lookup_total_alt. by rewrite list_lookup_alter_ne.
Qed.
Lemma length_conns_upd i f s : length (uip_conns (upd_conn i f s)) = length (uip_conns s).
Proof. ssimpl. apply length_alter. Qed.
End access_lemmas.
