(* ===== verification/Chksum.v ===== *)
(** * Byte order, 32-bit sequence arithmetic and the Internet checksum

    The helpers at the top of [uip.c]: [xtcp_copy_word] and its siblings on
    4-byte words, [uip_add32], and the checksum routines, which XMOS rewrote
    for speed.  The routines of the IPv6 stack ([uip6.c]), which are the
    original uIP ones, serve as the reference the fast ones are proved equal
    to. *)
From S2P Require Export UipState.
Local Open Scope Z_scope.

(** ** Definitions *)

(** The toolchain's [byterev] (BYTEREV instruction): the bytes of a 32-bit
    word in reverse order. *)
Definition byterev (x : Z) : Z :=
  16777216 * (x mod 256) + 65536 * (x / 256 mod 256)
  + 256 * (x / 65536 mod 256) + x / 16777216 mod 256.

(** The value of a pointer comparison [xtcp_compare_words]: both halves equal. *)
Definition xtcp_compare_words (a b : u8x4) : bool :=
  (s16 (word0 a) =? s16 (word0 b)) && (s16 (word1 a) =? s16 (word1 b)).

Definition uip_ipaddr_cmp (a b : u8x4) : bool := xtcp_compare_words a b.

(** A 4-byte array written as one little-endian [unsigned int]. *)
Definition le32_bytes (x : Z) : u8x4 :=
  U4 (w8 x) (w8 (x / 256)) (w8 (x / 65536)) (w8 (x / 16777216)).

Definition uip_add32 (op32 : u8x4) (op16 : Z) : u8x4 :=
  let x := w32 (Z.shiftl (word1 op32) 16 + word0 op32) in
  let x := byterev x in
  le32_bytes (byterev (w32 (x + op16))).

(** [uip_add32] of [uip6.c], byte by byte. *)
Definition uip6_add32 (op32 : u8x4) (op16 : Z) : u8x4 :=
  let a3 := w8 (q3 op32 + Z.land op16 0xff) in
  let a2 := w8 (q2 op32 + Z.shiftr op16 8) in
  let a1 := q1 op32 in
  let a0 := q0 op32 in
  let '(a1, a0) :=
    if a2 <? Z.shiftr op16 8 then
      let a1 := w8 (a1 + 1) in (a1, if a1 =? 0 then w8 (a0 + 1) else a0)
    else (a1, a0) in
  let '(a2, a1, a0) :=
    if a3 <? Z.land op16 0xff then
      let a2 := w8 (a2 + 1) in
      if a2 =? 0 then
        let a1 := w8 (a1 + 1) in (a2, a1, if a1 =? 0 then w8 (a0 + 1) else a0)
      else (a2, a1, a0)
    else (a2, a1, a0) in
  U4 a0 a1 a2 a3.

Definition onesReduce (sum carry : Z) : Z :=
  let sum := w32 (Z.land sum 0xffff + Z.shiftr sum 16 + carry) in
  w32 (Z.land sum 0xffff + Z.shiftr sum 16).

(** [for (i = ...; i < n; i++) s += byterev(data[i]) >> 16], where [data] is a
    [short *] at offset [p]; [n] counts the iterations left. *)
Fixpoint chksum_loop (n : nat) (b : list Z) (p i s : Z) : Z :=
  match n with
  | O => s
  | S n => chksum_loop n b p (i + 1)
             (w32 (s + Z.shiftr (byterev (w32 (s16 (rd16 b (p + 2 * i))))) 16))
  end.

Definition chksum (sum : Z) (b : list Z) (p lengthInBytes : Z) : Z :=
  let n := Z.shiftr lengthInBytes 1 in
  let s := chksum_loop (Z.to_nat n) b p 0 sum in
  let s := if tst lengthInBytes 1
           then w32 (s + Z.shiftl (rd8 b (p + 2 * n)) 8) else s in
  w16 (onesReduce s 0).

(** The step of the loop of [uip6.c]: add one word with end-around carry. *)
Definition chksum6_add (sum t : Z) : Z :=
  let sum := w16 (sum + t) in
  if sum <? t then w16 (sum + 1) else sum.

Fixpoint chksum6_loop (fuel : nat) (b : list Z) (dataptr last_byte sum : Z) : Z * Z :=
  match fuel with
  | O => (dataptr, sum)
  | S fuel =>
      if dataptr <? last_byte then
        chksum6_loop fuel b (dataptr + 2) last_byte
          (chksum6_add sum (w16 (Z.shiftl (rd8 b dataptr) 8 + rd8 b (dataptr + 1))))
      else (dataptr, sum)
  end.

(** [chksum] of [uip6.c]; the loop consumes two bytes per turn, so [length]
    turns are more than it can take. *)
Definition chksum6 (sum : Z) (b : list Z) (data length : Z) : Z :=
  let last_byte := data + length - 1 in
  let '(dataptr, sum) := chksum6_loop (Z.to_nat length) b data last_byte sum in
  if dataptr =? last_byte
  then chksum6_add sum (w16 (Z.shiftl (rd8 b dataptr) 8))
  else sum.

Definition htons (val : Z) : Z := HTONS val.

Definition uip_chksum (b : list Z) (p length : Z) : Z := htons (chksum 0 b p length).

Definition uip_ipchksum (b : list Z) : Z :=
  let sum := chksum 0 b UIP_LLH_LEN UIP_IPH_LEN in
  if sum =? 0 then 0xffff else htons sum.

Definition upper_layer_chksum (proto : Z) (b : list Z) : Z :=
  let upper_layer_len :=
    w16 (Z.shiftl (rd8 b BUF.len) 8 + rd8 b (BUF.len + 1) - UIP_IPH_LEN) in
  let sum := w16 (upper_layer_len + proto) in
  let sum := chksum sum b BUF.srcipaddr 8 in
  let sum := chksum sum b (UIP_IPH_LEN + UIP_LLH_LEN) upper_layer_len in
  if sum =? 0 then 0xffff else htons sum.

Definition uip_tcpchksum (b : list Z) : Z := upper_layer_chksum UIP_PROTO_TCP b.
Definition uip_udpchksum (b : list Z) : Z := upper_layer_chksum UIP_PROTO_UDP b.

(** ** Specification: sums modulo 65535 *)

(** The one's complement sum of a total [s]: 0 only for 0, else in 1..65535. *)
Definition ones (s : Z) : Z := if s =? 0 then 0 else (s - 1) mod 65535 + 1.

(** The sum of [n] bytes from offset [p + k], big-endian pairs counted from
    the even [k]. *)
Fixpoint wsum (n : nat) (b : list Z) (p k : Z) : Z :=
  match n with
  | O => 0
  | S n => (if Z.even k then 256 else 1) * rd8 b (p + k) + wsum n b p (k + 1)
  end.

(** ** Lemmas on words *)

Lemma land_ffff z : Z.land z 0xffff = z mod 65536.
Proof. change 0xffff with (Z.ones 16). by rewrite Z.land_ones. Qed.
Lemma land_ff z : Z.land z 0xff = z mod 256.
Proof. change 0xff with (Z.ones 8). by rewrite Z.land_ones. Qed.
Lemma shiftr_16 z : Z.shiftr z 16 = z / 65536.
Proof. by rewrite Z.shiftr_div_pow2. Qed.
Lemma shiftr_8 z : Z.shiftr z 8 = z / 256.
Proof. by rewrite Z.shiftr_div_pow2. Qed.
Lemma shiftl_16 z : Z.shiftl z 16 = z * 65536.
Proof. by rewrite Z.shiftl_mul_pow2. Qed.
Lemma shiftl_8 z : Z.shiftl z 8 = z * 256.
Proof. by rewrite Z.shiftl_mul_pow2. Qed.
Create Rewrite HintDb bits.
#[export] Hint Rewrite land_ffff land_ff shiftr_16 shiftr_8 shiftl_16 shiftl_8 : bits.

(** Bits that do not overlap: [|] is [+]. *)
Lemma lor_shiftl_add a b k : 0 <= k -> 0 <= b < 2 ^ k -> Z.lor (Z.shiftl a k) b = Z.shiftl a k + b.
Proof.
  intros Hk Hb. rewrite <- Z.add_lor_land.
  replace (Z.land (Z.shiftl a k) b) with 0; [lia|].
  symmetry. apply Z.bits_inj'. intros i Hi. rewrite Z.land_spec, Z.bits_0.
  destruct (Z.ltb_spec i k); [by rewrite Z.shiftl_spec_low|].
  rewrite <- (Z.mod_small b (2 ^ k)) by lia.
  rewrite Z.mod_pow2_bits_high by lia. by rewrite andb_false_r.
Qed.

Lemma HTONS_swap n : u16 n -> HTONS n = 256 * (n mod 256) + n / 256.
Proof.
  intros Hn. unfold HTONS. rewrite (w16_small n) by done. unfold u16 in Hn.
  rewrite lor_shiftl_add; [|lia|rewrite shiftr_8; change (2 ^ 8) with 256; zdm].
  autorewrite with bits. unfold w16. zdm.
Qed.

Lemma HTONS_u16 n : u16 (HTONS n).
Proof. apply w16_u16. Qed.
Lemma HTONS_HTONS n : u16 n -> HTONS (HTONS n) = n.
Proof.
  intros. rewrite (HTONS_swap (HTONS n)) by apply HTONS_u16.
  rewrite HTONS_swap by done. unfold u16 in *. zdm.
Qed.

Lemma byterev_word lo hi : u8 lo -> u8 hi ->
  Z.shiftr (byterev (w32 (s16 (lo + 256 * hi)))) 16 = 256 * lo + hi.
Proof.
  unfold u8. intros. rewrite shiftr_16.
  assert (w32 (s16 (lo + 256 * hi)) mod 65536 = lo + 256 * hi) as Hx
    by (unfold w32, s16; zdm).
  unfold byterev. set (x := w32 _) in *. clearbody x.
  assert (x mod 256 = lo) as -> by zdm. assert (x / 256 mod 256 = hi) as -> by zdm.
  zdm.
Qed.

Lemma byterev_be32 a : u8x4_ok a ->
  byterev (w32 (Z.shiftl (word1 a) 16 + word0 a)) = be32 a.
Proof.
  destruct a as [a0 a1 a2 a3]. unfold u8x4_ok, u8, word0, word1, be32; cbn. intros.
  rewrite shiftl_16. rewrite w32_small by (unfold u32; lia).
  unfold byterev. set (x := (a2 + 256 * a3) * 65536 + (a0 + 256 * a1)).
  assert (x mod 256 = a0) as -> by (unfold x; zdm).
  assert (x / 256 = a1 + 256 * a2 + 65536 * a3) as -> by (unfold x; zdm).
  assert (x / 65536 = a2 + 256 * a3) as -> by (unfold x; zdm).
  assert (x / 16777216 = a3) as -> by (unfold x; zdm).
  zdm.
Qed.

Lemma le32_byterev_be32 x : u32 x -> be32 (le32_bytes (byterev x)) = x.
Proof.
  unfold u32, be32, le32_bytes, w8; cbn. intros. unfold byterev.
  set (b0 := x mod 256). set (b1 := x / 256 mod 256).
  set (b2 := x / 65536 mod 256). set (b3 := x / 16777216 mod 256).
  assert (x = b0 + 256 * b1 + 65536 * b2 + 16777216 * b3) as Hx
    by (unfold b0, b1, b2, b3; zdm).
  assert (0 <= b0 < 256 /\ 0 <= b1 < 256 /\ 0 <= b2 < 256 /\ 0 <= b3 < 256) as Hb
    by (unfold b0, b1, b2, b3; zdm).
  clearbody b0 b1 b2 b3. subst x. zdm.
Qed.

Lemma le32_bytes_ok x : u8x4_ok (le32_bytes x).
Proof. repeat split; cbn; apply w8_u8. Qed.
#[export] Hint Resolve le32_bytes_ok HTONS_u16 : word.

Lemma xtcp_compare_words_spec a b : u8x4_ok a -> u8x4_ok b ->
  xtcp_compare_words a b = true <-> a = b.
Proof.
  destruct a as [a0 a1 a2 a3], b as [b0 b1 b2 b3].
  unfold u8x4_ok, u8, xtcp_compare_words, word0, word1, s16; cbn. intros Ha Hb.
  rewrite andb_true_iff, !Z.eqb_eq. split.
  - intros []. f_equal; zdm.
  - intros [= -> -> -> ->]. done.
Qed.

(** ** 32-bit addition *)

Lemma uip_add32_ok op32 op16 : u8x4_ok (uip_add32 op32 op16).
Proof. apply le32_bytes_ok. Qed.
#[export] Hint Resolve uip_add32_ok : mem word.

Lemma uip_add32_be32 op32 op16 : u8x4_ok op32 ->
  be32 (uip_add32 op32 op16) = w32 (be32 op32 + op16).
Proof.
  intros H. unfold uip_add32. rewrite byterev_be32 by done.
  apply le32_byterev_be32, w32_u32.
Qed.

Lemma uip6_add32_ok op32 op16 : u8x4_ok op32 -> u8x4_ok (uip6_add32 op32 op16).
Proof.
  destruct op32 as [a0 a1 a2 a3]. unfold u8x4_ok; cbn [q0 q1 q2 q3]. intros (?&?&?&?).
  unfold uip6_add32; cbn [q0 q1 q2 q3].
  repeat match goal with |- context [if ?c then _ else _] => destruct c end;
    cbn [q0 q1 q2 q3]; auto 10 using w8_u8.
Qed.

(** A carry out of a byte shows as the sum being smaller than the addend. *)
Lemma w8_carry a v : u8 a -> u8 v ->
  (w8 (a + v) <? v) = (256 <=? a + v) /\
  w8 (a + v) = a + v - 256 * Z.b2z (256 <=? a + v).
Proof.
  unfold u8, w8. intros. destruct (Z.leb_spec 256 (a + v)); cbn [Z.b2z];
  assert ((a + v) mod 256 = a + v - 256 * Z.b2z (256 <=? a + v)) as ->
    by (destruct (Z.leb_spec 256 (a + v)); cbn [Z.b2z]; zdm);
  destruct (Z.leb_spec 256 (a + v)); cbn [Z.b2z]; lia.
Qed.
Lemma w8_succ a : u8 a ->
  (w8 (a + 1) =? 0) = (256 <=? a + 1) /\ w8 (a + 1) = a + 1 - 256 * Z.b2z (256 <=? a + 1).
Proof.
  unfold u8, w8. intros.
  assert ((a + 1) mod 256 = a + 1 - 256 * Z.b2z (256 <=? a + 1)) as ->
    by (destruct (Z.leb_spec 256 (a + 1)); cbn [Z.b2z]; zdm).
  destruct (Z.leb_spec 256 (a + 1)); cbn [Z.b2z]; lia.
Qed.

(** The 32-bit sequence number addition of the XMOS port ([byterev] based)
    is the byte-by-byte carry chain of the original uIP code kept in
    [uip6.c], on every operand. *)
Theorem uip_add32_equiv op32 op16 : u8x4_ok op32 -> u16 op16 ->
  uip_add32 op32 op16 = uip6_add32 op32 op16 /\
  be32 (uip_add32 op32 op16) = (be32 op32 + op16) mod 2 ^ 32.
Proof.
  intros H Ho. split; [|by rewrite uip_add32_be32].
  apply be32_inj; [apply uip_add32_ok | by apply uip6_add32_ok |].
  rewrite uip_add32_be32 by done. symmetry.
  destruct op32 as [a0 a1 a2 a3]. destruct H as (H0 & H1 & H2 & H3); cbn in *.
  unfold uip6_add32; cbn [q0 q1 q2 q3]. autorewrite with bits.
  set (lo := op16 mod 256). set (hi := op16 / 256).
  assert (u8 lo) as Hlo by apply u8_lo. assert (u8 hi) as Hhi by by apply u8_hi.
  assert (op16 = lo + 256 * hi) as Eop by (unfold lo, hi; zdm).
  rewrite Eop. clearbody lo hi. clear Eop Ho op16.
  destruct (w8_carry a2 hi H2 Hhi) as [-> E2], (w8_carry a3 lo H3 Hlo) as [-> E3].
  destruct (w8_succ a1 H1) as [C1 E1], (w8_succ a0 H0) as [_ E0].
  assert (u8 (w8 (a1 + 1))) as H1' by apply w8_u8.
  assert (u8 (w8 (a2 + hi))) as H2' by apply w8_u8.
  destruct (w8_succ _ H1') as [C1' E1'], (w8_succ _ H2') as [C2' E2'].
  assert (u8 (w8 (a0 + 1))) as H0' by apply w8_u8.
  destruct (w8_succ _ H0') as [_ E0'].
  unfold be32, w32, u8 in *. rewrite C1, C2'.
  destruct (256 <=? a2 + hi) eqn:B2, (256 <=? a3 + lo) eqn:B3; cbn [Z.b2z] in *;
    repeat (case_match; simplify_eq); cbn [q0 q1 q2 q3];
    rewrite ?Z.eqb_eq, ?Z.eqb_neq, ?Z.leb_le, ?Z.leb_gt in *;
    repeat match goal with
    | H : context [Z.b2z ?c] |- _ =>
        destruct c eqn:?; cbn [Z.b2z] in *; rewrite ?Z.leb_le, ?Z.leb_gt in *
    end; zdm.
Qed.

(** ** One's complement sums *)

Lemma ones_range s : 0 <= s -> 0 <= ones s <= 65535.
Proof. unfold ones. intros. case_match; [lia|]. zdm. Qed.
Lemma ones_0 s : 0 <= s -> ones s = 0 <-> s = 0.
Proof. unfold ones. intros. destruct (Z.eqb_spec s 0); [done|]. zdm. Qed.
Lemma ones_small s : 0 <= s <= 65535 -> ones s = s.
Proof. unfold ones. intros. destruct (Z.eqb_spec s 0); [done|]. zdm. Qed.
Lemma ones_add a t : 0 <= a -> 0 <= t -> ones (ones a + t) = ones (a + t).
Proof.
  unfold ones. intros.
  destruct (Z.eqb_spec a 0) as [->|]; [done|].
  destruct (Z.eqb_spec (a + t) 0); [lia|].
  destruct (Z.eqb_spec ((a - 1) mod 65535 + 1 + t) 0); [zdm|]. zdm.
Qed.

(** The fast reduction: two folds bring any 32-bit sum to its one's
    complement representative. *)
Lemma onesReduce_ones s : 0 <= s < 4294967296 -> w16 (onesReduce s 0) = ones s.
Proof.
  intros. unfold onesReduce, ones. autorewrite with bits. unfold w32, w16.
  rewrite Z.add_0_r. rewrite !(Z.mod_small _ 4294967296) by zdm.
  destruct (Z.eqb_spec s 0) as [->|]; [done|]. zdm.
Qed.

Lemma chksum6_add_ones a t : 0 <= a -> u16 t -> chksum6_add (ones a) t = ones (a + t).
Proof.
  intros Ha Ht. rewrite <- ones_add by (unfold u16 in *; lia).
  pose proof (ones_range a Ha). set (x := ones a) in *. clearbody x.
  unfold chksum6_add, w16, ones, u16 in *.
  destruct (Z.eqb_spec (x + t) 0) as [E|E].
  - rewrite E. assert (t = 0) as -> by lia. done.
  - destruct (Z.ltb_spec ((x + t) mod 65536) t); zdm.
Qed.

Lemma wsum_nonneg n b : bytes b -> forall p k, 0 <= wsum n b p k.
Proof.
  intros Hb. induction n as [|n IH]; intros p k; cbn [wsum]; [lia|].
  specialize (IH p (k + 1)). pose proof (rd8_u8 b (p + k) Hb). unfold u8 in *.
  destruct (Z.even k); lia.
Qed.

Lemma wsum_pair n b p k : Z.even k = true ->
  wsum (S (S n)) b p k = 256 * rd8 b (p + k) + rd8 b (p + k + 1) + wsum n b p (k + 2).
Proof.
  intros Hk. cbn [wsum]. rewrite Hk.
  assert (Z.even (k + 1) = false) as -> by (rewrite Z.even_add, Hk; done).
  replace (k + 1 + 1) with (k + 2) by lia. replace (p + (k + 1)) with (p + k + 1) by lia. lia.
Qed.

Lemma even_double i : Z.even (2 * i) = true.
Proof. by rewrite Z.even_mul. Qed.

(** The loop adds the words without overflow. *)
Lemma chksum_loop_wsum n b p : bytes b -> forall i s,
  0 <= s -> s + 65535 * Z.of_nat n < 4294967296 ->
  chksum_loop n b p i s = s + wsum (2 * n) b p (2 * i) /\
  wsum (2 * n) b p (2 * i) <= 65535 * Z.of_nat n.
Proof.
  intros Hb. induction n as [|n IH]; intros i s Hs Hov; [cbn; lia|].
  replace (2 * S n)%nat with (S (S (2 * n))) by lia.
  rewrite wsum_pair by apply even_double. cbn [chksum_loop]. unfold rd16.
  rewrite byterev_word by (by apply rd8_u8).
  pose proof (rd8_u8 b (p + 2 * i) Hb) as H0.
  pose proof (rd8_u8 b (p + 2 * i + 1) Hb) as H1. unfold u8 in *.
  rewrite w32_small by (unfold u32; lia).
  replace (2 * i + 2) with (2 * (i + 1)) by lia.
  destruct (IH (i + 1) (s + (256 * rd8 b (p + 2 * i) + rd8 b (p + 2 * i + 1)))); lia.
Qed.

Lemma wsum_snoc n b p : forall k,
  wsum (S n) b p k = wsum n b p k +
    (if Z.even (k + Z.of_nat n) then 256 else 1) * rd8 b (p + k + Z.of_nat n).
Proof.
  induction n as [|n IH]; intros k.
  - cbn [wsum]. rewrite !Z.add_0_r. lia.
  - change (wsum (S (S n)) b p k) with
      ((if Z.even k then 256 else 1) * rd8 b (p + k) + wsum (S n) b p (k + 1)).
    rewrite IH. cbn [wsum].
    replace (k + 1 + Z.of_nat n) with (k + Z.of_nat (S n)) by lia.
    replace (p + (k + 1) + Z.of_nat n) with (p + k + Z.of_nat (S n)) by lia. lia.
Qed.

Lemma tst_1 x : tst x 1 = Z.odd x.
Proof.
  unfold tst. change 1 with (Z.ones 1). rewrite Z.land_ones by lia.
  change (2 ^ 1) with 2. rewrite Zmod_odd. by destruct (Z.odd x).
Qed.

(** The fast checksum is the one's complement sum of the bytes. *)
Lemma chksum_ones sum b p n : bytes b -> u16 sum -> u16 n ->
  chksum sum b p n = ones (sum + wsum (Z.to_nat n) b p 0).
Proof.
  intros Hb Hs Hn. unfold chksum, u16 in *. rewrite tst_1.
  rewrite Z.shiftr_div_pow2 by lia. change (2 ^ 1) with 2.
  set (m := Z.to_nat (n / 2)).
  assert (Z.of_nat m = n / 2) as Em by (unfold m; apply Z2Nat.id; zdm).
  assert (0 <= n / 2 <= 32767) as Hm by zdm.
  destruct (chksum_loop_wsum m b p Hb 0 sum) as [-> Hle]; [lia..|].
  pose proof (wsum_nonneg (2 * m) b Hb p 0). change (2 * 0) with 0 in *.
  destruct (Z.odd n) eqn:Hodd.
  - assert (Z.to_nat n = S (2 * m)) as ->.
    { apply Z.odd_spec in Hodd as [k Ek]. assert (n / 2 = k) by zdm. lia. }
    rewrite wsum_snoc, shiftl_8, Nat2Z.inj_mul, Em, !Z.add_0_l, Z.add_0_r.
    change (Z.of_nat 2) with 2. rewrite even_double.
    pose proof (rd8_u8 b (p + 2 * (n / 2)) Hb). unfold u8 in *.
    rewrite w32_small by (unfold u32; lia). rewrite onesReduce_ones by lia.
    f_equal. lia.
  - assert (Z.to_nat n = (2 * m)%nat) as ->.
    { rewrite <- Z.negb_even in Hodd. apply negb_false_iff, Z.even_spec in Hodd as [k Ek].
      assert (n / 2 = k) by zdm. lia. }
    by rewrite onesReduce_ones by lia.
Qed.

(** The original loop computes the same sum. *)
Lemma chksum6_loop_ones fuel b p r : bytes b -> 0 <= r <= 1 -> forall m k a,
  Z.even k = true -> 0 <= a -> (m <= fuel)%nat ->
  chksum6_loop fuel b (p + k) (p + k + 2 * Z.of_nat m + r - 1) (ones a)
  = (p + k + 2 * Z.of_nat m, ones (a + wsum (2 * m) b p k)).
Proof.
  intros Hb Hr. induction fuel as [|fuel IH]; intros m k a Hk Ha Hm; cbn [chksum6_loop].
  { replace m with 0%nat by lia. cbn. rewrite !Z.add_0_r. done. }
  destruct m as [|m].
  - destruct (Z.ltb_spec (p + k) (p + k + 2 * Z.of_nat 0 + r - 1)); [lia|].
    cbn. by rewrite !Z.add_0_r.
  - destruct (Z.ltb_spec (p + k) (p + k + 2 * Z.of_nat (S m) + r - 1)); [|lia].
    pose proof (rd8_u8 b (p + k) Hb) as H0. pose proof (rd8_u8 b (p + k + 1) Hb) as H1.
    unfold u8 in *. rewrite shiftl_8, w16_small by (unfold u16; lia).
    rewrite chksum6_add_ones by (unfold u16; lia).
    replace (2 * S m)%nat with (S (S (2 * m))) by lia. rewrite wsum_pair by done.
    specialize (IH m (k + 2) (a + (rd8 b (p + k) * 256 + rd8 b (p + k + 1)))).
    replace (p + k + 2) with (p + (k + 2)) by lia.
    replace (p + k + 2 * Z.of_nat (S m) + r - 1)
      with (p + (k + 2) + 2 * Z.of_nat m + r - 1) by lia.
    rewrite IH by (try lia; by rewrite Z.even_add, Hk). f_equal; [lia|]. f_equal. lia.
Qed.

Lemma chksum6_ones sum b p n : bytes b -> u16 sum -> u16 n ->
  chksum6 sum b p n = ones (sum + wsum (Z.to_nat n) b p 0).
Proof.
  intros Hb Hs Hn. unfold chksum6, u16 in *.
  set (m := Z.to_nat (n / 2)). set (r := n mod 2).
  assert (Z.of_nat m = n / 2) as Em by (unfold m; apply Z2Nat.id; zdm).
  pose proof (Z.div_mod n 2 ltac:(lia)) as En. pose proof (Z.mod_pos_bound n 2 ltac:(lia)) as Hr.
  rewrite <- Em in En. fold r in En, Hr. clearbody r m. assert (0 <= r <= 1) as Hr' by lia.
  pose proof (chksum6_loop_ones (Z.to_nat n) b p r Hb Hr' m 0 sum) as L.
  rewrite ones_small in L by lia. rewrite Z.add_0_r in L. clear Em. subst n.
  replace (p + (2 * Z.of_nat m + r) - 1) with (p + 2 * Z.of_nat m + r - 1) by lia.
  rewrite L by (try done; lia). pose proof (wsum_nonneg (2 * m) b Hb p 0).
  destruct (Z.eqb_spec (p + 2 * Z.of_nat m) (p + 2 * Z.of_nat m + r - 1)) as [E|E].
  - assert (r = 1) as Hr1 by lia.
    pose proof (rd8_u8 b (p + 2 * Z.of_nat m) Hb). unfold u8 in *.
    rewrite shiftl_8, w16_small by (unfold u16; lia).
    rewrite chksum6_add_ones by (unfold u16; lia). f_equal.
    replace (Z.to_nat (2 * Z.of_nat m + r)) with (S (2 * m)) by lia.
    rewrite wsum_snoc, Nat2Z.inj_mul, !Z.add_0_l, Z.add_0_r.
    change (Z.of_nat 2) with 2. rewrite even_double. lia.
  - by replace (Z.to_nat (2 * Z.of_nat m + r)) with (2 * m)%nat by lia.
Qed.

(** C35: the checksum XMOS rewrote for speed ([short] loads, [byterev], one
    32-bit accumulator reduced at the end) computes, for every buffer, offset,
    start value and length, exactly what the original word-by-word loop with
    end-around carry of [uip6.c] computes. *)
Theorem chksum_equiv sum b p n : bytes b -> u16 sum -> u16 n ->
  chksum sum b p n = chksum6 sum b p n.
Proof. intros. by rewrite chksum_ones, chksum6_ones. Qed.

(** ** Checksum fields *)

Lemma wsum_wr8_out n b j v : 0 <= j -> forall p k, 0 <= p + k ->
  j < p + k \/ p + k + Z.of_nat n <= j -> wsum n (wr8 j v b) p k = wsum n b p k.
Proof.
  intros Hj. induction n as [|n IH]; intros p k Hk H; cbn [wsum]; [done|].
  rewrite rd8_wr8_ne by lia. by rewrite IH by lia.
Qed.

Lemma wsum_wr8_in n b j v : 0 <= j < Z.of_nat (length b) -> forall p k, 0 <= p + k ->
  p + k <= j < p + k + Z.of_nat n ->
  wsum n (wr8 j v b) p k
  = wsum n b p k + (if Z.even (j - p) then 256 else 1) * (w8 v - rd8 b j).
Proof.
  intros Hj. induction n as [|n IH]; intros p k Hk H; [lia|]. cbn [wsum].
  destruct (decide (j = p + k)) as [->|].
  - rewrite rd8_wr8_eq by lia. replace (p + k - p) with k by lia.
    rewrite wsum_wr8_out by lia. destruct (Z.even k); lia.
  - rewrite rd8_wr8_ne by lia. rewrite IH by lia. lia.
Qed.

Lemma wsum_wr16 n b q v p : 0 <= p -> p <= q -> q + 2 <= p + Z.of_nat n ->
  q + 2 <= Z.of_nat (length b) -> Z.even (q - p) = true ->
  wsum n (wr16 q v b) p 0
  = wsum n b p 0 + (256 * (w16 v mod 256) + w16 v / 256)
    - (256 * rd8 b q + rd8 b (q + 1)).
Proof.
  intros ???? Hev. unfold wr16. pose proof (w16_u16 v) as Hv. unfold u16 in Hv.
  rewrite wsum_wr8_in by (rewrite ?length_wr8; lia).
  rewrite wsum_wr8_in by lia. rewrite rd8_wr8_ne by lia.
  replace (q + 1 - p) with (q - p + 1) by lia.
  rewrite Z.even_add, Hev. change (eqb true (Z.even 1)) with false. unfold w8. rewrite (Z.mod_small (w16 v / 256)) by zdm. lia.
Qed.

Lemma wsum_wr16_out n b q v p : 0 <= p -> 0 <= q ->
  q + 2 <= p \/ p + Z.of_nat n <= q -> wsum n (wr16 q v b) p 0 = wsum n b p 0.
Proof. intros. unfold wr16. by rewrite !wsum_wr8_out by lia. Qed.

(** The value returned for a sum: network byte order, never 0. *)
Definition fold_sum (c : Z) : Z := if c =? 0 then 0xffff else htons c.

Lemma fold_sum_u16 c : u16 (fold_sum c).
Proof. unfold fold_sum. case_match; [unfold u16; lia | apply HTONS_u16]. Qed.

Lemma fold_sum_ffff c : u16 c -> fold_sum c = 0xffff <-> c = 0 \/ c = 0xffff.
Proof.
  unfold fold_sum, htons. intros Hc. destruct (Z.eqb_spec c 0); [tauto|].
  rewrite HTONS_swap by done. unfold u16 in *. split; [intros; right; zdm|].
  intros [?| ->]; [lia|done].
Qed.

(** Storing the complement of the returned value makes the new sum all ones. *)
Lemma ones_patch s0 v : 0 <= s0 -> v = w16 (Z.lnot (fold_sum (ones s0))) ->
  fold_sum (ones (s0 + (256 * (w16 v mod 256) + w16 v / 256))) = 0xffff.
Proof.
  intros Hs ->. pose proof (ones_range s0 Hs).
  pose proof (fold_sum_u16 (ones s0)) as Hf.
  rewrite (w16_small (w16 _)) by apply w16_u16. rewrite w16_lnot by done.
  set (w := 256 * ((65535 - fold_sum (ones s0)) mod 256) + (65535 - fold_sum (ones s0)) / 256).
  assert (0 <= w) by (unfold w, u16 in *; zdm).
  apply fold_sum_ffff; [pose proof (ones_range (s0 + w)); unfold u16; lia|].
  rewrite <- ones_add by done. subst w.
  unfold fold_sum, htons. destruct (Z.eqb_spec (ones s0) 0) as [E|E].
  - left. rewrite E. done.
  - right. rewrite HTONS_swap by (unfold u16; lia). set (c := ones s0) in *. clearbody c.
    assert (256 * ((65535 - (256 * (c mod 256) + c / 256)) mod 256)
      + (65535 - (256 * (c mod 256) + c / 256)) / 256 = 65535 - c) as -> by zdm.
    unfold ones. destruct (Z.eqb_spec (c + (65535 - c)) 0); zdm.
Qed.

Lemma uip_ipchksum_ones b : bytes b ->
  uip_ipchksum b = fold_sum (ones (wsum 20 b 14 0)).
Proof.
  intros. unfold uip_ipchksum. rewrite chksum_ones by (try done; unfold u16, UIP_IPH_LEN; lia).
  rewrite Z.add_0_l. done.
Qed.

Lemma uip_ipchksum_u16 b : bytes b -> u16 (uip_ipchksum b).
Proof. intros. rewrite uip_ipchksum_ones by done. apply fold_sum_u16. Qed.

(** Filling the IP checksum field as [ip_send_nolen] does makes the header
    pass the check of the input path. *)
Lemma ipchksum_filled b : bytes b -> 34 <= Z.of_nat (length b) ->
  let b0 := wr16 BUF.ipchksum 0 b in
  uip_ipchksum (wr16 BUF.ipchksum (w16 (Z.lnot (uip_ipchksum b0))) b0) = 0xffff.
Proof.
  intros Hb Hl b0. assert (bytes b0) by (by apply bytes_wr16).
  rewrite (uip_ipchksum_ones (wr16 _ _ _)) by (by apply bytes_wr16).
  unfold BUF.ipchksum in *. rewrite wsum_wr16; try done; try lia;
    [| unfold b0; rewrite length_wr16; lia].
  assert (rd8 b0 24 = 0 /\ rd8 b0 (24 + 1) = 0) as [-> ->]
    by (unfold b0; split; mem_simpl; reflexivity).
  rewrite Z.mul_0_r, Z.add_0_r, Z.sub_0_r.
  apply ones_patch; [by apply wsum_nonneg|]. by rewrite uip_ipchksum_ones.
Qed.

(** The length [upper_layer_chksum] reads from the IP header. *)
Definition upper_len (b : list Z) : Z :=
  w16 (Z.shiftl (rd8 b BUF.len) 8 + rd8 b (BUF.len + 1) - UIP_IPH_LEN).
Definition upper_sum (proto : Z) (b : list Z) : Z :=
  w16 (upper_len b + proto) + wsum 8 b 26 0 + wsum (Z.to_nat (upper_len b)) b 34 0.

Lemma upper_sum_nonneg proto b : bytes b -> 0 <= upper_sum proto b.
Proof.
  intros Hb. unfold upper_sum. pose proof (w16_u16 (upper_len b + proto)). unfold u16 in *.
  pose proof (wsum_nonneg 8 b Hb 26 0).
  pose proof (wsum_nonneg (Z.to_nat (upper_len b)) b Hb 34 0). lia.
Qed.

Lemma upper_layer_ones proto b : bytes b ->
  upper_layer_chksum proto b = fold_sum (ones (upper_sum proto b)).
Proof.
  intros Hb. unfold upper_layer_chksum, upper_sum. fold (upper_len b).
  pose proof (w16_u16 (upper_len b + proto)) as Hs.
  assert (u16 (upper_len b)) as Hl by apply w16_u16.
  pose proof (wsum_nonneg 8 b Hb 26 0).
  pose proof (wsum_nonneg (Z.to_nat (upper_len b)) b Hb 34 0).
  rewrite (chksum_ones _ b BUF.srcipaddr 8) by (try done; unfold u16; lia).
  change (Z.to_nat 8) with 8%nat. unfold BUF.srcipaddr.
  change (UIP_IPH_LEN + UIP_LLH_LEN) with 34.
  pose proof (ones_range (w16 (upper_len b + proto) + wsum 8 b 26 0)).
  rewrite chksum_ones by (try done; unfold u16 in *; lia).
  rewrite ones_add by (unfold u16 in *; lia). done.
Qed.

(** Filling a transport checksum field at offset [q]. *)
Lemma upper_chksum_filled proto q b : bytes b -> 34 <= q -> Z.even q = true ->
  q + 2 <= 34 + upper_len b -> q + 2 <= Z.of_nat (length b) ->
  let b0 := wr16 q 0 b in
  let v := w16 (Z.lnot (upper_layer_chksum proto b0)) in
  upper_layer_chksum proto (wr16 q v b0) = 0xffff /\
  (v = 0 -> upper_layer_chksum proto (wr16 q 0xffff b0) = 0xffff).
Proof.
  intros Hb Hq Hev Hu Hl b0 v. assert (bytes b0) by (by apply bytes_wr16).
  assert (forall w, upper_len (wr16 q w b0) = upper_len b) as Elen.
  { intros w. unfold upper_len, b0, BUF.len. by mem_simpl. }
  assert (upper_len b0 = upper_len b) as Elen0 by (unfold upper_len, b0, BUF.len; by mem_simpl).
  assert (rd8 b0 q = 0 /\ rd8 b0 (q + 1) = 0) as [Z0 Z1]
    by (unfold b0; split; mem_simpl; reflexivity).
  assert (forall w, upper_sum proto (wr16 q w b0)
    = upper_sum proto b0 + (256 * (w16 w mod 256) + w16 w / 256)) as Esum.
  { intros w. assert (length b0 = length b) by apply length_wr16.
    assert (Z.even (q - 34) = true) by (by rewrite Z.even_sub, Hev).
    unfold upper_sum. rewrite Elen, Elen0, wsum_wr16_out, wsum_wr16 by (done || lia).
    rewrite Z0, Z1. lia. }
  pose proof (upper_sum_nonneg proto b0 ltac:(done)) as Hn.
  rewrite !(upper_layer_ones proto (wr16 _ _ _)) by (by apply bytes_wr16).
  rewrite !Esum. split.
  - apply ones_patch; [done|]. unfold v. by rewrite upper_layer_ones.
  - intros Hv. pose proof (fold_sum_u16 (ones (upper_sum proto b0))) as Hf.
    assert (fold_sum (ones (upper_sum proto b0)) = 0xffff) as Hff.
    { unfold v in Hv. rewrite upper_layer_ones, w16_lnot in Hv by done. unfold u16 in *. lia. }
    apply fold_sum_ffff in Hff; [|pose proof (ones_range _ Hn); unfold u16; lia].
    change (256 * (w16 0xffff mod 256) + w16 0xffff / 256) with 65535.
    rewrite <- ones_add by lia. by destruct Hff as [-> | ->].
Qed.

(** ** Address fields under the IP checksum *)

Lemma wsum_ext n b b' : forall p k, (forall j, p + k <= j < p + k + Z.of_nat n -> rd8 b j = rd8 b' j) ->
  wsum n b p k = wsum n b' p k.
Proof.
  induction n as [|n IH]; intros p k H; cbn [wsum]; [done|].
  rewrite H by lia. f_equal. apply IH. intros j Hj. apply H. lia.
Qed.

Lemma wsum_app m n b p : forall k, 0 <= k ->
  wsum (m + n) b p k = wsum m b p k + wsum n b p (k + Z.of_nat m).
Proof.
  induction m as [|m IH]; intros k Hk; cbn [wsum Nat.add].
  - by replace (k + Z.of_nat 0) with k by lia.
  - rewrite IH by lia. replace (k + 1 + Z.of_nat m) with (k + Z.of_nat (S m)) by lia. lia.
Qed.

(** The contribution of an address to the sum. *)
Definition addr_sum (a : u8x4) : Z := 256 * q0 a + q1 a + 256 * q2 a + q3 a.

Lemma wsum_addrs b : wsum 8 b 14 12 = addr_sum (rd4 b 26) + addr_sum (rd4 b 30).
Proof.
  transitivity (256 * rd8 b 26 + (1 * rd8 b 27 + (256 * rd8 b 28 + (1 * rd8 b 29
    + (256 * rd8 b 30 + (1 * rd8 b 31 + (256 * rd8 b 32 + (1 * rd8 b 33 + 0))))))));
    [reflexivity|].
  transitivity (256 * rd8 b 26 + rd8 b 27 + 256 * rd8 b 28 + rd8 b 29
    + (256 * rd8 b 30 + rd8 b 31 + 256 * rd8 b 32 + rd8 b 33)); [lia|reflexivity].
Qed.

Lemma wsum_header b : wsum 20 b 14 0
  = wsum 12 b 14 0 + addr_sum (rd4 b 26) + addr_sum (rd4 b 30).
Proof. rewrite (wsum_app 12 8), wsum_addrs by lia. lia. Qed.

(** Conversion unfolds the checksums last. *)
#[global] Strategy 100 [chksum upper_layer_chksum uip_ipchksum].
