(* ===== verification/UipWf.v ===== *)
(** * The type invariant of the stack state

    Every C variable stays within its declared width, every array keeps its
    length, every index that stands for a pointer is within its table.
    [uip_wf] is preserved field by field; the hint database [wf] holds the
    preservation lemmas, and [wf_auto] chains them through a sequence of
    updates. *)
From S2P Require Export Chksum.
Local Open Scope Z_scope.

Record conn_wf (c : uip_conn_t) : Prop := {
  cwf_ripaddr : u8x4_ok (ripaddr c);
  cwf_lport : u16 (lport c);
  cwf_rport : u16 (rport c);
  cwf_rcv_nxt : u8x4_ok (rcv_nxt c);
  cwf_snd_nxt : u8x4_ok (snd_nxt c);
  cwf_len : u16 (len c);
  cwf_mss : u16 (mss c);
  cwf_initialmss : u16 (initialmss c);
  cwf_sa : u8 (sa c);
  cwf_sv : u8 (sv c);
  cwf_rto : u8 (rto c);
  cwf_tcpstateflags : u8 (tcpstateflags c);
  cwf_timer : u8 (timer c);
  cwf_nrtx : u8 (nrtx c) }.

Record udp_conn_wf (c : uip_udp_conn_t) : Prop := {
  uwf_ripaddr : u8x4_ok (udp_ripaddr c);
  uwf_lport : u16 (udp_lport c);
  uwf_rport : u16 (udp_rport c);
  uwf_ttl : u8 (udp_ttl c);
  uwf_flags : u8 (udpflags c) }.

(** [uip_udp_conn] may be one past the end of its table: the demultiplexing
    loop of [udp_input] leaves it there when no connection matches. *)
Record uip_wf {E} (s : uip_state E) : Prop := {
  wf_buf : bytes (uip_buf s);
  wf_buf_len : Z.of_nat (length (uip_buf s)) = UIP_BUF_BYTES;
  wf_sappdata : 0 <= uip_sappdata s <= UIP_LLH_LEN + UIP_IPTCPH_LEN;
  wf_len : u16 (uip_len s);
  wf_slen : u16 (uip_slen s);
  wf_conn : match uip_conn s with Some i => (i < UIP_CONNS)%nat | None => True end;
  wf_conns : Forall conn_wf (uip_conns s);
  wf_conns_len : length (uip_conns s) = UIP_CONNS;
  wf_listenports : Forall u16 (uip_listenports s);
  wf_listenports_len : length (uip_listenports s) = UIP_LISTENPORTS;
  wf_udp_listenports : Forall u16 (uip_udp_listenports s);
  wf_udp_listenports_len : length (uip_udp_listenports s) = UIP_LISTENPORTS;
  wf_udp_conn : match uip_udp_conn s with Some i => (i <= UIP_UDP_CONNS)%nat | None => True end;
  wf_udp_conns : Forall udp_conn_wf (uip_udp_conns s);
  wf_udp_conns_len : length (uip_udp_conns s) = UIP_UDP_CONNS;
  wf_ipid : u16 (ipid s);
  wf_iss : u8x4_ok (iss s);
  wf_lastport : 0 <= lastport s < 32000;
  wf_hostaddr : u8x4_ok (uip_hostaddr s);
  wf_draddr : u8x4_ok (uip_draddr s);
  wf_netmask : u8x4_ok (uip_netmask s);
  wf_ethaddr : bytes (uip_ethaddr s);
  wf_ethaddr_len : length (uip_ethaddr s) = 6%nat }.

Create HintDb wf discriminated.

Ltac wf_field := intros; match goal with H : uip_wf _ |- _ => destruct H end;
  constructor; ssimpl; auto.

Section wf_updates.
Context {E : Type}.
Implicit Types s : uip_state E.

Lemma wf_mem s f : uip_wf s -> (forall b, bytes b -> bytes (f b)) ->
  (forall b, length (f b) = length b) -> uip_wf (mem f s).
Proof.
  intros H Hb Hl. destruct H; constructor; ssimpl; auto. by rewrite Hl.
Qed.
Lemma wf_set_mem s f : uip_wf s -> (forall b, bytes b -> bytes (f b)) ->
  (forall b, length (f b) = length b) -> uip_wf (s <| uip_buf ::= f |>).
Proof. apply wf_mem. Qed.
Lemma wf_set_appdata s f : uip_wf s -> uip_wf (s <| uip_appdata ::= f |>).
Proof. wf_field. Qed.
Lemma wf_set_sappdata s v : uip_wf s -> 0 <= v <= 54 -> uip_wf (s <| uip_sappdata := v |>).
Proof. wf_field. Qed.
Lemma wf_set_len s f : uip_wf s -> u16 (f (uip_len s)) -> uip_wf (s <| uip_len ::= f |>).
Proof. wf_field. Qed.
Lemma wf_set_slen s v : uip_wf s -> u16 v -> uip_wf (s <| uip_slen := v |>).
Proof. wf_field. Qed.
Lemma wf_set_flags s f : uip_wf s -> uip_wf (s <| uip_flags ::= f |>).
Proof. wf_field. Qed.
Lemma wf_set_conn s i : uip_wf s -> (i < UIP_CONNS)%nat -> uip_wf (s <| uip_conn := Some i |>).
Proof. wf_field. Qed.
Lemma wf_set_conn_null s : uip_wf s -> uip_wf (s <| uip_conn := None |>).
Proof. wf_field. Qed.
Lemma wf_set_udp_conn s i : uip_wf s -> (i <= UIP_UDP_CONNS)%nat ->
  uip_wf (s <| uip_udp_conn := Some i |>).
Proof. wf_field. Qed.
Lemma wf_set_udp_conn_null s : uip_wf s -> uip_wf (s <| uip_udp_conn := None |>).
Proof. wf_field. Qed.
Lemma wf_set_ipid s v : uip_wf s -> u16 v -> uip_wf (s <| ipid := v |>).
Proof. wf_field. Qed.
Lemma wf_set_iss s v : uip_wf s -> u8x4_ok v -> uip_wf (s <| iss := v |>).
Proof. wf_field. Qed.
Lemma wf_set_lastport s v : uip_wf s -> 0 <= v < 32000 -> uip_wf (s <| lastport := v |>).
Proof. wf_field. Qed.
Lemma wf_set_hostaddr s v : uip_wf s -> u8x4_ok v -> uip_wf (s <| uip_hostaddr := v |>).
Proof. wf_field. Qed.
Lemma wf_set_draddr s v : uip_wf s -> u8x4_ok v -> uip_wf (s <| uip_draddr := v |>).
Proof. wf_field. Qed.
Lemma wf_set_netmask s v : uip_wf s -> u8x4_ok v -> uip_wf (s <| uip_netmask := v |>).
Proof. wf_field. Qed.
Lemma wf_set_env s f : uip_wf s -> uip_wf (s <| env ::= f |>).
Proof. wf_field. Qed.

Lemma wf_conn_at s i : uip_wf s -> conn_wf (conn_at i s).
Proof.
  intros H. unfold conn_at. rewrite list_lookup_total_alt.
  destruct (uip_conns s !! i) eqn:Ei.
  - by eapply Forall_lookup_1; [apply (wf_conns s)|].
  - by do 2 constructor.
Qed.
Lemma wf_udp_conn_at s i : uip_wf s -> udp_conn_wf (udp_conn_at i s).
Proof.
  intros H. unfold udp_conn_at. rewrite list_lookup_total_alt.
  destruct (uip_udp_conns s !! i) eqn:Ei.
  - by eapply Forall_lookup_1; [apply (wf_udp_conns s)|].
  - by do 2 constructor.
Qed.

Lemma wf_upd_conn s i f : uip_wf s -> (conn_wf (conn_at i s) -> conn_wf (f (conn_at i s))) ->
  uip_wf (upd_conn i f s).
Proof.
  intros H Hf. pose proof (wf_conn_at s i H) as Hc.
  destruct H; constructor; ssimpl; auto; [|by rewrite length_alter].
  apply Forall_alter; [done|]. intros x Hx _.
  unfold conn_at in *. rewrite list_lookup_total_alt, Hx in Hf, Hc. cbn in Hf, Hc. auto.
Qed.
Lemma wf_upd_udp_conn s i f : uip_wf s ->
  (udp_conn_wf (udp_conn_at i s) -> udp_conn_wf (f (udp_conn_at i s))) ->
  uip_wf (upd_udp_conn i f s).
Proof.
  intros H Hf. pose proof (wf_udp_conn_at s i H) as Hc.
  destruct H; constructor; ssimpl; auto; [|by rewrite length_alter].
  apply Forall_alter; [done|]. intros x Hx _.
  unfold udp_conn_at in *. rewrite list_lookup_total_alt, Hx in Hf, Hc. cbn in Hf, Hc. auto.
Qed.
End wf_updates.

(** [conn_field] proves a [conn_wf] goal about an updated block: the new
    values of the changed fields are left to [word] hints and arithmetic. *)
Ltac const_range := vm_compute; split; [intros X; discriminate X | first [reflexivity | intros X; discriminate X]].
Ltac conn_field :=
  intros; repeat match goal with
  | H : conn_wf _ |- _ => destruct H
  | H : udp_conn_wf _ |- _ => destruct H
  end; constructor; ssimpl; auto with word mem; try solve [const_range].

Ltac u16_const := solve [const_range | unfold u16; lia].

#[export] Hint Extern 1 (u16 _) => u16_const : wf.
#[export] Hint Extern 3 (conn_wf _) => conn_field : wf.
#[export] Hint Extern 3 (udp_conn_wf _) => conn_field : wf.
#[export] Hint Resolve wf_mem wf_set_mem wf_set_appdata wf_set_len wf_set_slen wf_set_flags
  wf_set_conn wf_set_conn_null wf_set_udp_conn wf_set_udp_conn_null wf_set_ipid wf_set_iss
  wf_set_lastport wf_set_hostaddr wf_set_draddr wf_set_netmask wf_set_env wf_upd_conn
  wf_upd_udp_conn wf_conn_at wf_udp_conn_at : wf.

(** The invariant of a chain of updates follows from that of its start. *)
Ltac wf_step :=
  first [ assumption |
  lazymatch goal with
  | |- uip_wf (mem _ _) =>
      apply wf_mem; [ | intros; auto with mem | intros; autorewrite with memlen; reflexivity ]
  | |- uip_wf (upd_conn _ _ _) => apply wf_upd_conn; [ | solve [conn_field] ]
  | |- uip_wf (upd_udp_conn _ _ _) => apply wf_upd_udp_conn; [ | solve [conn_field] ]
  | |- uip_wf (set_field uip_buf _ _) =>
      apply wf_set_mem; [ | intros; auto with mem | intros; autorewrite with memlen; reflexivity ]
  | |- uip_wf (set_field uip_appdata _ _) => apply wf_set_appdata
  | |- uip_wf (set_field uip_flags _ _) => apply wf_set_flags
  | |- uip_wf (set_field env _ _) => apply wf_set_env
  | |- uip_wf (set_field uip_len _ _) =>
      apply wf_set_len; [ | solve [auto with word | u16_const]]
  | |- uip_wf (set_field uip_slen _ _) =>
      apply wf_set_slen; [ | solve [auto with word | u16_const]]
  | |- uip_wf (set_field ipid _ _) => apply wf_set_ipid; [ | solve [auto with word] ]
  | |- uip_wf (set_field uip_sappdata _ _) => apply wf_set_sappdata; [ | solve [const_range] ]
  | |- uip_wf (set_field uip_conn (fun _ => None) _) => apply wf_set_conn_null
  | |- uip_wf (set_field uip_udp_conn (fun _ => None) _) => apply wf_set_udp_conn_null
  | |- uip_wf (set_field uip_conn _ _) => apply wf_set_conn; [ | solve [auto] ]
  | |- uip_wf (set_field uip_udp_conn _ _) => apply wf_set_udp_conn; [ | solve [auto] ]
  | |- uip_wf (set_field iss _ _) => apply wf_set_iss; [ | solve [auto with mem word] ]
  end ].
Ltac wf_auto := repeat wf_step.

Lemma initial_state_wf {E} (e : E) : uip_wf (initial_state e).
Proof.
  assert (forall n, bytes (replicate n 0)) as Hz
    by (intros; apply Forall_replicate; unfold u8; lia).
  assert (forall n, Forall u16 (replicate n 0)) as Hz16
    by (intros; apply Forall_replicate; unfold u16; lia).
  constructor; cbn -[UIP_BUF_BYTES replicate]; auto; try done; try lia;
    try (by unfold u16; lia); rewrite ?length_replicate; auto; try lia;
    try (by apply Forall_replicate; do 2 constructor).
Qed.
