(* ===== verification/Clock.v ===== *)
(** * Timers: [timer.c]

    [clock_time_t] is [int], in milliseconds.  [clock_time] reads a hardware
    timer; its value is the argument [now] of the operations that call it, read
    once per operation. *)
From S2P Require Export UipState.
Local Open Scope Z_scope.

Definition CLOCK_SECOND : Z := 1000.

Definition timer_set (now interval' : Z) (t : uip_timer) : uip_timer :=
  (t <| interval := interval' |>) <| start := now |>.
Definition timer_reset (t : uip_timer) : uip_timer := t <| start := s32 (start t + interval t) |>.
Definition timer_restart (now : Z) (t : uip_timer) : uip_timer := t <| start := now |>.
Definition timer_expired (now : Z) (t : uip_timer) : bool := interval t <=? s32 (now - start t).

(** The reading of the clock at the true time [t]. *)
Definition clock (t : Z) : Z := s32 t.

Lemma s32_small z : - 2147483648 <= z < 2147483648 -> s32 z = z.
Proof. unfold s32. intros. rewrite Z.mod_small; lia. Qed.
Lemma s32_range z : - 2147483648 <= s32 z < 2147483648.
Proof. unfold s32. pose proof (Z.mod_pos_bound (z + 2147483648) 4294967296). lia. Qed.
Lemma s32_eq a b : (a - b) mod 4294967296 = 0 -> s32 a = s32 b.
Proof.
  unfold s32. intros H. f_equal. apply Z.mod_divide in H as [k Hk]; [|lia].
  replace (a + 2147483648) with (b + 2147483648 + k * 4294967296) by lia. by rewrite Z_mod_plus_full.
Qed.
Lemma s32_mod z : exists k, s32 z = z + k * 4294967296.
Proof.
  unfold s32. exists (- ((z + 2147483648) / 4294967296)).
  rewrite Z.mod_eq by lia. lia.
Qed.
Lemma s32_add_l a b : s32 (s32 a + b) = s32 (a + b).
Proof.
  destruct (s32_mod a) as [k ->]. apply s32_eq.
  replace (a + k * 4294967296 + b - (a + b)) with (k * 4294967296) by lia. apply Z_mod_mult.
Qed.
Lemma s32_sub a b : s32 (s32 a - s32 b) = s32 (a - b).
Proof.
  destruct (s32_mod a) as [j ->], (s32_mod b) as [k ->]. apply s32_eq.
  replace (a + j * 4294967296 - (b + k * 4294967296) - (a - b)) with ((j - k) * 4294967296) by lia.
  apply Z_mod_mult.
Qed.

Lemma timer_set_expired t0 t1 i t : - 2147483648 <= t1 - t0 < 2147483648 ->
  timer_expired (clock t1) (timer_set (clock t0) i t) = (i <=? t1 - t0).
Proof. intros H. unfold timer_expired. cbn. unfold clock. rewrite s32_sub, s32_small; done. Qed.

Lemma iter_reset n t0 i t :
  Nat.iter n timer_reset (timer_set (clock t0) i t)
  = timer_set (clock (t0 + Z.of_nat n * i)) i t.
Proof.
  induction n as [|n IH]; [cbn [Nat.iter]; by rewrite Z.add_0_r|].
  change (timer_reset (Nat.iter n timer_reset (timer_set (clock t0) i t))
          = timer_set (clock (t0 + Z.of_nat (S n) * i)) i t).
  rewrite IH. unfold timer_reset, timer_set, clock, set_field. cbn [start interval].
  rewrite s32_add_l. replace (t0 + Z.of_nat (S n) * i) with (t0 + Z.of_nat n * i + i) by lia. done.
Qed.

(** Timers across the wrap of the clock.  A timer set at the true time
    [t0] and reset [n] times counts from [t0 + n * i] exactly: at the time [t1]
    it has expired if and only if [n + 1] intervals have passed, however often
    the 32-bit clock has wrapped, as long as [t1] is within 2^31 ms of the last
    expiry.  Between 2^31 and 2^32 ms after it the timer reads as not expired. *)
Theorem timer_reset_stable n t0 t1 i t : 0 <= i ->
  let last := t0 + Z.of_nat n * i in
  let r := timer_expired (clock t1) (Nat.iter n timer_reset (timer_set (clock t0) i t)) in
  (- 2147483648 <= t1 - last < 2147483648 -> r = ((Z.of_nat n + 1) * i <=? t1 - t0)) /\
  (2147483648 <= t1 - last < 4294967296 -> r = false).
Proof.
  intros Hi last r. subst r. rewrite iter_reset. fold last. split; intros H.
  - rewrite timer_set_expired by done. apply eq_true_iff_eq. rewrite !Z.leb_le. lia.
  - unfold timer_expired. cbn -[s32]. unfold clock. rewrite s32_sub. apply Z.leb_gt.
    rewrite (s32_eq _ (t1 - last - 4294967296)).
    + rewrite s32_small; lia.
    + replace (t1 - last - (t1 - last - 4294967296)) with 4294967296 by lia. done.
Qed.

(** A 10 s timer set just before the clock wraps, reset twice. *)
Lemma timer_reset_stable_witness :
  timer_expired (clock 2147513000) (Nat.iter 2 timer_reset (timer_set (clock 2147483000) 10000 (UipTimer 0 0)))
  = true.
Proof.
  etrans; [apply (proj1 (timer_reset_stable 2 2147483000 2147513000 10000 (UipTimer 0 0) ltac:(lia))); lia|].
  reflexivity.
Defined.
