(* ===== verification/Ds6.v ===== *)
(** * The data structures of the IPv6 host: [uip-ds6.c], [uip-ds6-nbr.c],
    [uip-ds6-route.c] and [stimer.c]

    The neighbour cache and the lists of routes are tables of [NbrTable]; routes
    and default routers are blocks of [CList] on linked lists; addresses and
    prefixes are arrays searched by [uip_ds6_list_loop].  The configuration is
    that of the repository: a host, no RPL, no packet queue, duplicate address
    detection on. *)
From S2P Require Export NbrTable Clock.
Local Open Scope Z_scope.

(** ** Addresses

    An address is its 16 bytes. *)
Notation ip6 := (list Z).
Definition uip_ip6addr_cmp (a b : ip6) : bool := bool_decide (a = b).
Definition uip_ipaddr_prefixcmp (a b : ip6) (length : Z) : bool :=
  bool_decide (take (Z.to_nat (Z.shiftr length 3)) a = take (Z.to_nat (Z.shiftr length 3)) b).
Definition uip_is_addr_link_local (a : ip6) : bool := (rd8 a 0 =? 0xFE) && (rd8 a 1 =? 0x80).
Definition uip_is_addr_mcast (a : ip6) : bool := rd8 a 0 =? 0xFF.
Definition uip_create_unspecified : ip6 := replicate 16 0.
Definition uip_is_addr_unspecified (a : ip6) : bool := bool_decide (take 16 a = replicate 16 0).
Definition uip_create_linklocal_allnodes_mcast : ip6 := [0xff; 0x02] ++ replicate 13 0 ++ [1].
Definition uip_create_linklocal_allrouters_mcast : ip6 := [0xff; 0x02] ++ replicate 13 0 ++ [2].
(** The first eight bytes are written. *)
Definition uip_create_linklocal_prefix (a : ip6) : ip6 := wrs 0 ([0xfe; 0x80] ++ replicate 6 0) a.
Definition uip_create_solicited_node (a : ip6) : ip6 :=
  [0xFF; 0x02] ++ replicate 8 0 ++ [0; 1; 0xFF; rd8 a 13; rd8 a 14; rd8 a 15].
Definition uip_is_addr_solicited_node (a : ip6) : bool :=
  bool_decide (take 13 a = [0xFF; 0x02] ++ replicate 8 0 ++ [0; 1; 0xFF]).

(** ** Timers in seconds *)
Record stimer : Type := Stimer { st_start : Z; st_interval : Z }.
#[export] Instance eta_stimer : Eta stimer := fun r => Stimer (st_start r) (st_interval r).
(** [now] is [clock_seconds()]. *)
Definition SCLOCK_GEQ (a b : Z) : bool := w32 (a - b) <? 0x7fffffff.
Definition stimer_set (now interval : Z) (t : stimer) : stimer := Stimer now (w32 interval).
Definition stimer_reset (t : stimer) : stimer := t <| st_start := w32 (st_start t + st_interval t) |>.
Definition stimer_restart (now : Z) (t : stimer) : stimer := t <| st_start := now |>.
Definition stimer_expired (now : Z) (t : stimer) : bool := SCLOCK_GEQ now (st_start t + st_interval t).
Definition stimer_remaining (now : Z) (t : stimer) : Z := w32 (st_start t + st_interval t - now).
Definition stimer_elapsed (now : Z) (t : stimer) : Z := w32 (now - st_start t).

(** ** Configuration *)
Definition UIP_DS6_DEFRT_NB : nat := 2.
Definition UIP_DS6_PREFIX_NB : nat := 3.
Definition UIP_DS6_ADDR_NB : nat := 3.
Definition UIP_DS6_MADDR_NB : nat := 4.
Definition UIP_DS6_AADDR_NB : nat := 0.
Definition UIP_DS6_ROUTE_NB : nat := 4.
Definition UIP_LINK_MTU : Z := 1280.
Definition UIP_TTL6 : Z := 64.
Definition UIP_DEFAULT_PREFIX_LEN : Z := 64.
Definition UIP_ND6_REACHABLE_TIME : Z := 30000.
Definition UIP_ND6_RETRANS_TIMER : Z := 1000.
Definition UIP_ND6_DEF_MAXDADNS : Z := 1.
Definition UIP_ND6_MAX_RTR_SOLICITATION_DELAY : Z := 1.
Definition UIP_ND6_INFINITE_LIFETIME : Z := 0xFFFFFFFF.
Definition NBR_INCOMPLETE : Z := 0.
Definition NBR_REACHABLE : Z := 1.
Definition NBR_STALE : Z := 2.
Definition NBR_DELAY : Z := 3.
Definition NBR_PROBE : Z := 4.
Definition ADDR_TENTATIVE : Z := 0.
Definition ADDR_PREFERRED : Z := 1.
Definition ADDR_DEPRECATED : Z := 2.
Definition ADDR_AUTOCONF : Z := 1.
Definition FOUND : Z := 0.
Definition FREESPACE : Z := 1.
Definition NOSPACE : Z := 2.
Definition UIP_DS6_NOTIFICATION_DEFRT_ADD : Z := 0.
Definition UIP_DS6_NOTIFICATION_DEFRT_RM : Z := 1.
Definition UIP_DS6_NOTIFICATION_ROUTE_ADD : Z := 2.
Definition UIP_DS6_NOTIFICATION_ROUTE_RM : Z := 3.

(** ** The structures *)
Record uip_ds6_nbr_t : Type := Nbr {
  nbr_ipaddr : ip6; nbr_reachable : stimer; nbr_sendns : stimer; nbr_nscount : Z; nbr_isrouter : Z; nbr_state : Z }.
#[export] Instance eta_nbr : Eta uip_ds6_nbr_t := fun r =>
  Nbr (nbr_ipaddr r) (nbr_reachable r) (nbr_sendns r) (nbr_nscount r) (nbr_isrouter r) (nbr_state r).
Definition zero_nbr : uip_ds6_nbr_t := Nbr (replicate 16 0) (Stimer 0 0) (Stimer 0 0) 0 0 0.

(** [LIST_STRUCT(route_list)]: the head [route_list_list] and the pointer
    [route_list] to it, [NULL] until [LIST_STRUCT_INIT]. *)
Record neighbor_routes : Type := NeighborRoutes { route_list_list : ptr; route_list : bool }.
#[export] Instance eta_neighbor_routes : Eta neighbor_routes := fun r => NeighborRoutes (route_list_list r) (route_list r).
Definition zero_routes : neighbor_routes := NeighborRoutes None false.

(** A route, but for its [next] field; [state] is only used by RPL. *)
Record uip_ds6_route_t : Type := Route { rt_routes : ptr; rt_ipaddr : ip6; rt_length : Z }.
#[export] Instance eta_route : Eta uip_ds6_route_t := fun r => Route (rt_routes r) (rt_ipaddr r) (rt_length r).
Definition zero_route : uip_ds6_route_t := Route None (replicate 16 0) 0.

Record uip_ds6_defrt_t : Type := Defrt { d_ipaddr : ip6; d_lifetime : stimer; d_isinfinite : Z }.
#[export] Instance eta_defrt : Eta uip_ds6_defrt_t := fun r => Defrt (d_ipaddr r) (d_lifetime r) (d_isinfinite r).
Definition zero_defrt : uip_ds6_defrt_t := Defrt (replicate 16 0) (Stimer 0 0) 0.

Record uip_ds6_prefix_t : Type := Prefix {
  p_isused : Z; p_ipaddr : ip6; p_length : Z; p_vlifetime : stimer; p_isinfinite : Z }.
#[export] Instance eta_prefix : Eta uip_ds6_prefix_t := fun r =>
  Prefix (p_isused r) (p_ipaddr r) (p_length r) (p_vlifetime r) (p_isinfinite r).
Definition zero_prefix : uip_ds6_prefix_t := Prefix 0 (replicate 16 0) 0 (Stimer 0 0) 0.

Record uip_ds6_addr_t : Type := Addr {
  a_isused : Z; a_ipaddr : ip6; a_state : Z; a_type : Z; a_isinfinite : Z; a_vlifetime : stimer;
  a_dadtimer : uip_timer; a_dadnscount : Z }.
#[export] Instance eta_addr : Eta uip_ds6_addr_t := fun r =>
  Addr (a_isused r) (a_ipaddr r) (a_state r) (a_type r) (a_isinfinite r) (a_vlifetime r) (a_dadtimer r) (a_dadnscount r).
Definition zero_addr : uip_ds6_addr_t := Addr 0 (replicate 16 0) 0 0 0 (Stimer 0 0) (UipTimer 0 0) 0.

(** Multicast and anycast addresses. *)
Record uip_ds6_maddr_t : Type := Maddr { m_isused : Z; m_ipaddr : ip6 }.
#[export] Instance eta_maddr : Eta uip_ds6_maddr_t := fun r => Maddr (m_isused r) (m_ipaddr r).
Definition zero_maddr : uip_ds6_maddr_t := Maddr 0 (replicate 16 0).

Record uip_ds6_netif_t : Type := Netif {
  link_mtu : Z; cur_hop_limit : Z; base_reachable_time : Z; reachable_time : Z; retrans_timer : Z; maxdadns : Z;
  addr_list : list uip_ds6_addr_t; aaddr_list : list uip_ds6_maddr_t; maddr_list : list uip_ds6_maddr_t }.
#[export] Instance eta_netif : Eta uip_ds6_netif_t := fun r =>
  Netif (link_mtu r) (cur_hop_limit r) (base_reachable_time r) (reachable_time r) (retrans_timer r) (maxdadns r)
    (addr_list r) (aaddr_list r) (maddr_list r).

(** The tables that are registered with [nbr_table.c]. *)
Inductive ds6_table : Type := DS6_NEIGHBORS | NBR_ROUTES.
#[export] Instance ds6_table_eq_dec : EqDecision ds6_table.
Proof. solve_decision. Defined.

(** A call of a notification callback: which, and its arguments. *)
Record notification : Type := Notification { n_who : nat; n_event : Z; n_route : ip6; n_nexthop : option ip6; n_num : Z }.

(** The timer [uip_ds6_timer_rs], what the model keeps of it: whether it runs. *)
Record ds6 : Type := Ds6 {
  now_s : Z;                            (* clock_seconds() *)
  now_ms : Z;                           (* clock_time() *)
  rands : list Z;                       (* what rand() returns *)
  nt : nbr_tables ds6_table;
  nbr_data : list uip_ds6_nbr_t;
  routes_data : list neighbor_routes;
  routememb : memb uip_ds6_route_t;
  route_next : store;
  num_routes : Z;
  defaultroutermemb : memb uip_ds6_defrt_t;
  defrt_next : store;
  defaultrouterlist : ptr;
  notification_next : store;            (* the notifications of the callers *)
  notificationlist : ptr;
  notified : list notification;         (* the calls made, in order *)
  prefix_list : list uip_ds6_prefix_t;
  uip_ds6_if : uip_ds6_netif_t;
  uip_lladdr : list Z;
  rscount : Z;
  timer_rs : option uip_timer;          (* uip_ds6_timer_rs, while it runs *)
  timer_periodic : uip_timer }.         (* uip_ds6_timer_periodic *)
#[export] Instance eta_ds6 : Eta ds6 := fun r =>
  Ds6 (now_s r) (now_ms r) (rands r) (nt r) (nbr_data r) (routes_data r) (routememb r) (route_next r) (num_routes r)
    (defaultroutermemb r) (defrt_next r) (defaultrouterlist r) (notification_next r) (notificationlist r) (notified r)
    (prefix_list r) (uip_ds6_if r) (uip_lladdr r) (rscount r) (timer_rs r) (timer_periodic r).

Implicit Types w : ds6.

(** Arrays of structures, and the state error monad of code that follows pointers. *)
Definition nbr_at w (i : nat) : uip_ds6_nbr_t := default zero_nbr (nbr_data w !! i).
Definition upd_nbr (i : nat) (f : uip_ds6_nbr_t -> uip_ds6_nbr_t) w : ds6 := w <| nbr_data ::= alter f i |>.
Definition routes_at w (i : nat) : neighbor_routes := default zero_routes (routes_data w !! i).
Definition upd_routes (i : nat) (f : neighbor_routes -> neighbor_routes) w : ds6 := w <| routes_data ::= alter f i |>.
Definition route_at w (i : nat) : uip_ds6_route_t := default zero_route (memb_mem (routememb w) !! i).
Definition upd_route (i : nat) (f : uip_ds6_route_t -> uip_ds6_route_t) w : ds6 :=
  w <| routememb ::= set_field memb_mem (alter f i) |>.
Definition defrt_at w (i : nat) : uip_ds6_defrt_t := default zero_defrt (memb_mem (defaultroutermemb w) !! i).
Definition upd_defrt (i : nat) (f : uip_ds6_defrt_t -> uip_ds6_defrt_t) w : ds6 :=
  w <| defaultroutermemb ::= set_field memb_mem (alter f i) |>.

(** [random_rand()]: [(unsigned short)rand()]. *)
Definition random_rand w : ds6 * Z :=
  match rands w with
  | [] => (w, 0)
  | r :: rs => (w <| rands := rs |>, w16 r)
  end.

(** * The neighbour cache: [uip-ds6-nbr.c] *)
Definition uip_ds6_nbr_rm (nbr : ptr) w : ds6 :=
  match nbr with
  | Some _ => w <| nt := (nbr_table_remove (nt w) DS6_NEIGHBORS nbr).1 |>
  | None => w
  end.

Definition uip_ds6_nbr_get_ipaddr w (nbr : ptr) : option ip6 := i ← nbr; Some (nbr_ipaddr (nbr_at w i)).
Definition uip_ds6_nbr_get_ll w (nbr : ptr) : option rimeaddr := nbr_table_get_lladdr (nt w) DS6_NEIGHBORS nbr.

Fixpoint nbr_num_from (fuel : nat) w (nbr : ptr) (num : Z) : option Z :=
  match fuel with
  | O => None
  | S fuel =>
      match nbr with
      | None => Some num
      | Some _ => nbr ← nbr_table_next (nt w) DS6_NEIGHBORS nbr; nbr_num_from fuel w nbr (num + 1)
      end
  end.
Definition uip_ds6_nbr_num w : option Z :=
  nbr ← nbr_table_head (nt w) DS6_NEIGHBORS; nbr_num_from (fuel_of (key_next (nt w))) w nbr 0.

Fixpoint nbr_lookup_from (fuel : nat) w (ipaddr : ip6) (nbr : ptr) : option ptr :=
  match fuel with
  | O => None
  | S fuel =>
      match nbr with
      | None => Some None
      | Some i =>
          if uip_ip6addr_cmp (nbr_ipaddr (nbr_at w i)) ipaddr then Some nbr
          else nbr ← nbr_table_next (nt w) DS6_NEIGHBORS nbr; nbr_lookup_from fuel w ipaddr nbr
      end
  end.
Definition uip_ds6_nbr_lookup w (ipaddr : option ip6) : option ptr :=
  nbr ← nbr_table_head (nt w) DS6_NEIGHBORS;
  match ipaddr with
  | Some a => nbr_lookup_from (fuel_of (key_next (nt w))) w a nbr
  | None => Some None
  end.

Definition uip_ds6_nbr_ll_lookup w (lladdr : option rimeaddr) : option ptr :=
  nbr_table_get_from_lladdr (nt w) DS6_NEIGHBORS lladdr.
Definition uip_ds6_nbr_ipaddr_from_lladdr w (lladdr : option rimeaddr) : option (option ip6) :=
  nbr ← uip_ds6_nbr_ll_lookup w lladdr; Some (i ← nbr; Some (nbr_ipaddr (nbr_at w i))).
Definition uip_ds6_nbr_lladdr_from_ipaddr w (ipaddr : option ip6) : option (option rimeaddr) :=
  nbr ← uip_ds6_nbr_lookup w ipaddr;
  Some (match nbr with Some _ => uip_ds6_nbr_get_ll w nbr | None => None end).

(** [curr < stimer_remaining(&nbr->reachable)] compares a neighbour with
    itself. *)
Fixpoint least_lifetime_from (fuel : nat) w (nbr expiring : ptr) : option ptr :=
  match fuel with
  | O => None
  | S fuel =>
      match nbr with
      | None => Some expiring
      | Some i =>
          let curr := stimer_remaining (now_s w) (nbr_reachable (nbr_at w i)) in
          let expiring :=
            match expiring with
            | Some _ => if curr <? stimer_remaining (now_s w) (nbr_reachable (nbr_at w i)) then nbr else expiring
            | None => nbr
            end in
          nbr ← nbr_table_next (nt w) DS6_NEIGHBORS nbr; least_lifetime_from fuel w nbr expiring
      end
  end.
Definition uip_ds6_get_least_lifetime_neighbor w : option ptr :=
  nbr ← nbr_table_head (nt w) DS6_NEIGHBORS; least_lifetime_from (fuel_of (key_next (nt w))) w nbr None.

(** * Routes: [uip-ds6-route.c] *)

(** The callbacks are functions of the application: the model records their
    arguments.  [num] is computed for every callback. *)
Fixpoint call_callbacks (fuel : nat) (event : Z) (route : ip6) (nexthop : option ip6) (n : ptr) w : option ds6 :=
  match fuel with
  | O => None
  | S fuel =>
      match n with
      | None => Some w
      | Some i =>
          num ← (if (event =? UIP_DS6_NOTIFICATION_DEFRT_ADD) || (event =? UIP_DS6_NOTIFICATION_DEFRT_RM)
                 then k ← list_length (defrt_next w) (defaultrouterlist w); Some (Z.of_nat k)
                 else Some (num_routes w));
          let w := w <| notified ::= fun l => l ++ [Notification i event route nexthop num] |> in
          n ← list_item_next (notification_next w) n; call_callbacks fuel event route nexthop n w
      end
  end.
Definition call_route_callback (event : Z) (route : ip6) (nexthop : option ip6) w : option ds6 :=
  call_callbacks (fuel_of (notification_next w)) event route nexthop (list_head (notificationlist w)) w.
Definition uip_ds6_notification_add (n : nat) w : option ds6 :=
  '(nx, hd) ← list_add (notification_next w) (notificationlist w) n;
  Some (w <| notification_next := nx |> <| notificationlist := hd |>).
Definition uip_ds6_notification_rm (n : nat) w : option ds6 :=
  '(nx, hd) ← list_remove (notification_next w) (notificationlist w) n;
  Some (w <| notification_next := nx |> <| notificationlist := hd |>).

Definition uip_ds6_route_nexthop_lladdr w (route : ptr) : option rimeaddr :=
  r ← route; nbr_table_get_lladdr (nt w) NBR_ROUTES (rt_routes (route_at w r)).
Definition uip_ds6_route_nexthop w (route : ptr) : option (option ip6) :=
  match route with
  | Some _ => uip_ds6_nbr_ipaddr_from_lladdr w (uip_ds6_route_nexthop_lladdr w route)
  | None => Some None
  end.

(** [list_head(routes->route_list)]: a null [route_list] is followed. *)
Definition route_list_head w (routes : nat) : option ptr :=
  if route_list (routes_at w routes) then Some (list_head (route_list_list (routes_at w routes))) else None.
Definition uip_ds6_route_head w : option ptr :=
  routes ← nbr_table_head (nt w) NBR_ROUTES;
  match routes with
  | Some i => route_list_head w i
  | None => Some None
  end.
Definition uip_ds6_route_next w (r : ptr) : option ptr :=
  match r with
  | Some i =>
      n ← list_item_next (route_next w) r;
      match n with
      | Some _ => Some n
      | None =>
          routes ← nbr_table_next (nt w) NBR_ROUTES (rt_routes (route_at w i));
          match routes with
          | Some j => route_list_head w j
          | None => Some None
          end
      end
  | None => Some None
  end.
Definition uip_ds6_route_num_routes w : Z := num_routes w.

Fixpoint lookup_from (fuel : nat) w (addr : ip6) (r found_route : ptr) (longestmatch : Z) : option ptr :=
  match fuel with
  | O => None
  | S fuel =>
      match r with
      | None => Some found_route
      | Some i =>
          let rt := route_at w i in
          next ← uip_ds6_route_next w r;
          if (longestmatch <=? rt_length rt) && uip_ipaddr_prefixcmp addr (rt_ipaddr rt) (rt_length rt)
          then lookup_from fuel w addr next r (rt_length rt)
          else lookup_from fuel w addr next found_route longestmatch
      end
  end.
Definition uip_ds6_route_lookup w (addr : ip6) : option ptr :=
  r ← uip_ds6_route_head w; lookup_from (fuel_of (route_next w)) w addr r None 0.

Definition uip_ds6_route_rm (route : ptr) w : option ds6 :=
  match route with
  | Some r =>
      match rt_routes (route_at w r) with
      | Some j =>
          hd ← route_list_head w j;
          '(nx, hd) ← list_remove (route_next w) hd r;
          let w := upd_routes j (fun x => x <| route_list_list := hd |>) (w <| route_next := nx |>) in
          let w := match hd with
                   | None => w <| nt := (nbr_table_remove (nt w) NBR_ROUTES (Some j)).1 |>
                   | Some _ => w
                   end in
          let w := w <| routememb := (memb_free (routememb w) r).1 |> <| num_routes ::= fun n => n - 1 |> in
          nexthop ← uip_ds6_route_nexthop w route;
          call_route_callback UIP_DS6_NOTIFICATION_ROUTE_RM (rt_ipaddr (route_at w r)) nexthop w
      | None => Some w
      end
  | None => Some w
  end.

(** [while(r != NULL) { uip_ds6_route_rm(r); r = list_head(routes->route_list); }] *)
Fixpoint rm_routes (fuel : nat) (routes : nat) (r : ptr) w : option ds6 :=
  match fuel with
  | O => None
  | S fuel =>
      match r with
      | None => Some w
      | Some _ => w ← uip_ds6_route_rm r w; r ← route_list_head w routes; rm_routes fuel routes r w
      end
  end.
Definition rm_routelist (routes : ptr) w : option ds6 :=
  match routes with
  | Some i =>
      if route_list (routes_at w i) then
        r ← route_list_head w i;
        w ← rm_routes (fuel_of (route_next w)) i r w;
        Some (w <| nt := (nbr_table_remove (nt w) NBR_ROUTES routes).1 |>)
      else Some w
  | None => Some w
  end.
Definition rm_routelist_callback (item : nat) w : option ds6 := rm_routelist (Some item) w.

(** The tables as [nbr-table.c] sees them. *)
#[export] Instance ds6_world : NbrWorld ds6_table ds6 := {
  nbr_get := nt;
  nbr_upd f w := w <| nt ::= f |>;
  item_zero t i w :=
    match t with
    | DS6_NEIGHBORS => upd_nbr i (fun _ => zero_nbr) w
    | NBR_ROUTES => upd_routes i (fun _ => zero_routes) w
    end;
  callback t :=
    match t with
    | DS6_NEIGHBORS => Some (fun i w => Some (uip_ds6_nbr_rm (Some i) w))
    | NBR_ROUTES => Some rm_routelist_callback
    end }.

Definition uip_ds6_neighbors_init w : ds6 := w <| nt := (nbr_table_register (nt w) DS6_NEIGHBORS).1 |>.
Definition uip_ds6_nbr_add (ipaddr : ip6) (lladdr : option rimeaddr) (isrouter state : Z) w : option (ds6 * ptr) :=
  '(w, nbr) ← nbr_table_add_lladdr DS6_NEIGHBORS lladdr w;
  match nbr with
  | Some i =>
      Some (upd_nbr i (fun n => n <| nbr_ipaddr := ipaddr |> <| nbr_isrouter := isrouter |> <| nbr_state := state |>
              <| nbr_reachable ::= stimer_set (now_s w) 0 |> <| nbr_sendns ::= stimer_set (now_s w) 0 |>
              <| nbr_nscount := 0 |>) w, nbr)
  | None => Some (w, None)
  end.

Definition uip_ds6_route_init w : ds6 :=
  w <| routememb ::= memb_init zero_route |> <| route_next ::= fmap (fun _ => None) |>
    <| nt := (nbr_table_register (nt w) NBR_ROUTES).1 |>
    <| defaultroutermemb ::= memb_init zero_defrt |> <| defrt_next ::= fmap (fun _ => None) |>
    <| defaultrouterlist := list_init |> <| notificationlist := list_init |>.

(** The list the route goes on: the one of the next hop, created when needed. *)
Definition routes_for (nexthop_lladdr : rimeaddr) w : option (ds6 * ptr) :=
  routes ← nbr_table_get_from_lladdr (nt w) NBR_ROUTES (Some nexthop_lladdr);
  match routes with
  | Some _ => Some (w, routes)
  | None =>
      '(w, routes) ← nbr_table_add_lladdr NBR_ROUTES (Some nexthop_lladdr) w;
      match routes with
      | Some j => Some (upd_routes j (fun _ => NeighborRoutes None true) w, routes)
      | None => Some (w, None)
      end
  end.
Definition set_route (r : nat) (ipaddr : ip6) (length : Z) (nexthop : ip6) w : option (ds6 * ptr) :=
  let w := upd_route r (fun x => x <| rt_ipaddr := ipaddr |> <| rt_length := length |>) w in
  w ← call_route_callback UIP_DS6_NOTIFICATION_ROUTE_ADD ipaddr (Some nexthop) w;
  Some (w, Some r).
Definition uip_ds6_route_add (ipaddr : ip6) (length : Z) (nexthop : ip6) w : option (ds6 * ptr) :=
  nexthop_lladdr ← uip_ds6_nbr_lladdr_from_ipaddr w (Some nexthop);
  match nexthop_lladdr with
  | None => Some (w, None)
  | Some ll =>
      r ← uip_ds6_route_lookup w ipaddr;
      match r with
      | Some r => set_route r ipaddr length nexthop w
      | None =>
          '(w, routes) ← routes_for ll w;
          match routes with
          | None => Some (w, None)
          | Some j =>
              let '(m, r) := memb_alloc (routememb w) in
              match r with
              | None => Some (w, None)
              | Some r =>
                  let w := w <| routememb := m |> in
                  hd ← route_list_head w j;
                  '(nx, hd) ← list_add (route_next w) hd r;
                  let w := upd_routes j (fun x => x <| route_list_list := hd |>) (w <| route_next := nx |>) in
                  let w := upd_route r (fun x => x <| rt_routes := Some j |>) (w <| num_routes ::= Z.succ |>) in
                  set_route r ipaddr length nexthop w
              end
          end
      end
  end.
Definition uip_ds6_route_rm_by_nexthop (nexthop : ip6) w : option ds6 :=
  nexthop_lladdr ← uip_ds6_nbr_lladdr_from_ipaddr w (Some nexthop);
  routes ← nbr_table_get_from_lladdr (nt w) NBR_ROUTES nexthop_lladdr;
  rm_routelist routes w.

(** ** Default routers *)
Fixpoint defrt_lookup_from (fuel : nat) w (ipaddr : ip6) (d : ptr) : option ptr :=
  match fuel with
  | O => None
  | S fuel =>
      match d with
      | None => Some None
      | Some i =>
          if uip_ip6addr_cmp (d_ipaddr (defrt_at w i)) ipaddr then Some d
          else d ← list_item_next (defrt_next w) d; defrt_lookup_from fuel w ipaddr d
      end
  end.
Definition uip_ds6_defrt_lookup w (ipaddr : ip6) : option ptr :=
  defrt_lookup_from (fuel_of (defrt_next w)) w ipaddr (list_head (defaultrouterlist w)).

Definition set_defrt (d : nat) (ipaddr : ip6) (interval : Z) w : option (ds6 * ptr) :=
  let w := upd_defrt d (fun x => x <| d_ipaddr := ipaddr |>) w in
  let w := if negb (interval =? 0)
           then upd_defrt d (fun x => x <| d_lifetime ::= stimer_set (now_s w) interval |> <| d_isinfinite := 0 |>) w
           else upd_defrt d (fun x => x <| d_isinfinite := 1 |>) w in
  w ← call_route_callback UIP_DS6_NOTIFICATION_DEFRT_ADD ipaddr (Some ipaddr) w;
  Some (w, Some d).
Definition uip_ds6_defrt_add (ipaddr : ip6) (interval : Z) w : option (ds6 * ptr) :=
  d ← uip_ds6_defrt_lookup w ipaddr;
  match d with
  | Some d => set_defrt d ipaddr interval w
  | None =>
      let '(m, d) := memb_alloc (defaultroutermemb w) in
      match d with
      | None => Some (w, None)
      | Some d =>
          '(nx, hd) ← list_push (defrt_next w) (defaultrouterlist w) d;
          set_defrt d ipaddr interval (w <| defaultroutermemb := m |> <| defrt_next := nx |> <| defaultrouterlist := hd |>)
      end
  end.

Fixpoint defrt_rm_from (fuel : nat) (defrt : nat) (d : ptr) w : option ds6 :=
  match fuel with
  | O => None
  | S fuel =>
      match d with
      | None => Some w
      | Some i =>
          if decide (i = defrt) then
            '(nx, hd) ← list_remove (defrt_next w) (defaultrouterlist w) defrt;
            let w := w <| defrt_next := nx |> <| defaultrouterlist := hd |>
                       <| defaultroutermemb := (memb_free (defaultroutermemb w) defrt).1 |> in
            call_route_callback UIP_DS6_NOTIFICATION_DEFRT_RM (d_ipaddr (defrt_at w defrt)) (Some (d_ipaddr (defrt_at w defrt))) w
          else d ← list_item_next (defrt_next w) d; defrt_rm_from fuel defrt d w
      end
  end.
Definition uip_ds6_defrt_rm (defrt : nat) w : option ds6 :=
  defrt_rm_from (fuel_of (defrt_next w)) defrt (list_head (defaultrouterlist w)) w.

Fixpoint defrt_choose_from (fuel : nat) w (d : ptr) (addr : option ip6) : option (option ip6) :=
  match fuel with
  | O => None
  | S fuel =>
      match d with
      | None => Some addr
      | Some i =>
          let a := d_ipaddr (defrt_at w i) in
          bestnbr ← uip_ds6_nbr_lookup w (Some a);
          if match bestnbr with Some b => negb (nbr_state (nbr_at w b) =? NBR_INCOMPLETE) | None => false end
          then Some (Some a)
          else d ← list_item_next (defrt_next w) d; defrt_choose_from fuel w d (Some a)
      end
  end.
Definition uip_ds6_defrt_choose w : option (option ip6) :=
  defrt_choose_from (fuel_of (defrt_next w)) w (list_head (defaultrouterlist w)) None.

(** After a removal the walk starts again from the head; it takes at most one
    turn for every pair of routers. *)
Fixpoint defrt_periodic_from (fuel : nat) (d : ptr) w : option ds6 :=
  match fuel with
  | O => None
  | S fuel =>
      match d with
      | None => Some w
      | Some i =>
          if (d_isinfinite (defrt_at w i) =? 0) && stimer_expired (now_s w) (d_lifetime (defrt_at w i))
          then w ← uip_ds6_defrt_rm i w; defrt_periodic_from fuel (list_head (defaultrouterlist w)) w
          else d ← list_item_next (defrt_next w) d; defrt_periodic_from fuel d w
      end
  end.
Definition uip_ds6_defrt_periodic w : option ds6 :=
  defrt_periodic_from (fuel_of (defrt_next w) * fuel_of (defrt_next w)) (list_head (defaultrouterlist w)) w.

(** * Addresses and prefixes: [uip-ds6.c] *)

(** The loop over an array, seen as the flags and addresses of its elements. *)
Fixpoint list_loop_from (i : nat) (l : list (Z * ip6)) (ipaddr : ip6) (ipaddrlen : Z) (out_element : ptr) : Z * ptr :=
  match l with
  | [] => (match out_element with Some _ => FREESPACE | None => NOSPACE end, out_element)
  | (isused, a) :: l =>
      if negb (isused =? 0) then
        if uip_ipaddr_prefixcmp a ipaddr ipaddrlen then (FOUND, Some i)
        else list_loop_from (S i) l ipaddr ipaddrlen out_element
      else list_loop_from (S i) l ipaddr ipaddrlen (Some i)
  end.
Definition uip_ds6_list_loop (l : list (Z * ip6)) (ipaddr : ip6) (ipaddrlen : Z) : Z * ptr :=
  list_loop_from 0 l ipaddr ipaddrlen None.
(** The element to be filled, and the element found. *)
Definition free_slot (l : list (Z * ip6)) (ipaddr : ip6) (ipaddrlen : Z) : ptr :=
  let '(r, out) := uip_ds6_list_loop l ipaddr ipaddrlen in if r =? FREESPACE then out else None.
Definition found_slot (l : list (Z * ip6)) (ipaddr : ip6) (ipaddrlen : Z) : ptr :=
  let '(r, out) := uip_ds6_list_loop l ipaddr ipaddrlen in if r =? FOUND then out else None.

Definition prefix_elements w : list (Z * ip6) := map (fun p => (p_isused p, p_ipaddr p)) (prefix_list w).
Definition upd_prefix (i : nat) (f : uip_ds6_prefix_t -> uip_ds6_prefix_t) w : ds6 := w <| prefix_list ::= alter f i |>.
(** It returns [NULL] whatever it does. *)
Definition uip_ds6_prefix_add (ipaddr : ip6) (ipaddrlen interval : Z) w : ds6 * ptr :=
  match free_slot (prefix_elements w) ipaddr ipaddrlen with
  | Some i =>
      let w := upd_prefix i (fun p => p <| p_isused := 1 |> <| p_ipaddr := ipaddr |> <| p_length := w8 ipaddrlen |>) w in
      (if negb (interval =? 0)
       then upd_prefix i (fun p => p <| p_vlifetime ::= stimer_set (now_s w) interval |> <| p_isinfinite := 0 |>) w
       else upd_prefix i (fun p => p <| p_isinfinite := 1 |>) w, None)
  | None => (w, None)
  end.
Definition uip_ds6_prefix_rm (prefix : ptr) w : ds6 :=
  match prefix with
  | Some i => upd_prefix i (fun p => p <| p_isused := 0 |>) w
  | None => w
  end.
Definition uip_ds6_prefix_lookup w (ipaddr : ip6) (ipaddrlen : Z) : ptr := found_slot (prefix_elements w) ipaddr ipaddrlen.
Definition uip_ds6_is_addr_onlink w (ipaddr : ip6) : bool :=
  existsb (fun p => negb (p_isused p =? 0) && uip_ipaddr_prefixcmp (p_ipaddr p) ipaddr (p_length p)) (prefix_list w).

Definition maddr_elements w : list (Z * ip6) := map (fun m => (m_isused m, m_ipaddr m)) (maddr_list (uip_ds6_if w)).
Definition upd_maddr (i : nat) (f : uip_ds6_maddr_t -> uip_ds6_maddr_t) w : ds6 :=
  w <| uip_ds6_if ::= set_field maddr_list (alter f i) |>.
Definition uip_ds6_maddr_add (ipaddr : ip6) w : ds6 * ptr :=
  match free_slot (maddr_elements w) ipaddr 128 with
  | Some i => (upd_maddr i (fun m => m <| m_isused := 1 |> <| m_ipaddr := ipaddr |>) w, Some i)
  | None => (w, None)
  end.
Definition uip_ds6_maddr_rm (maddr : ptr) w : ds6 :=
  match maddr with
  | Some i => upd_maddr i (fun m => m <| m_isused := 0 |>) w
  | None => w
  end.
Definition uip_ds6_maddr_lookup w (ipaddr : ip6) : ptr := found_slot (maddr_elements w) ipaddr 128.

Definition aaddr_elements w : list (Z * ip6) := map (fun m => (m_isused m, m_ipaddr m)) (aaddr_list (uip_ds6_if w)).
Definition upd_aaddr (i : nat) (f : uip_ds6_maddr_t -> uip_ds6_maddr_t) w : ds6 :=
  w <| uip_ds6_if ::= set_field aaddr_list (alter f i) |>.
Definition uip_ds6_aaddr_add (ipaddr : ip6) w : ds6 * ptr :=
  match free_slot (aaddr_elements w) ipaddr 128 with
  | Some i => (upd_aaddr i (fun m => m <| m_isused := 1 |> <| m_ipaddr := ipaddr |>) w, Some i)
  | None => (w, None)
  end.
Definition uip_ds6_aaddr_rm (aaddr : ptr) w : ds6 :=
  match aaddr with
  | Some i => upd_aaddr i (fun m => m <| m_isused := 0 |>) w
  | None => w
  end.
Definition uip_ds6_aaddr_lookup w (ipaddr : ip6) : ptr := found_slot (aaddr_elements w) ipaddr 128.

Definition addr_elements w : list (Z * ip6) := map (fun a => (a_isused a, a_ipaddr a)) (addr_list (uip_ds6_if w)).
Definition addr_at w (i : nat) : uip_ds6_addr_t := default zero_addr (addr_list (uip_ds6_if w) !! i).
Definition upd_addr (i : nat) (f : uip_ds6_addr_t -> uip_ds6_addr_t) w : ds6 :=
  w <| uip_ds6_if ::= set_field addr_list (alter f i) |>.
Definition uip_ds6_addr_add (ipaddr : ip6) (vlifetime type : Z) w : ds6 * ptr :=
  match free_slot (addr_elements w) ipaddr 128 with
  | Some i =>
      let w := upd_addr i (fun a => a <| a_isused := 1 |> <| a_ipaddr := ipaddr |> <| a_type := type |>) w in
      let w := if vlifetime =? 0 then upd_addr i (fun a => a <| a_isinfinite := 1 |>) w
               else upd_addr i (fun a => a <| a_isinfinite := 0 |> <| a_vlifetime ::= stimer_set (now_s w) vlifetime |>) w in
      let w := upd_addr i (fun a => a <| a_state := ADDR_TENTATIVE |>) w in
      let '(w, r) := random_rand w in
      let w := upd_addr i (fun a => a <| a_dadtimer ::= timer_set (now_ms w) (r mod (UIP_ND6_MAX_RTR_SOLICITATION_DELAY * CLOCK_SECOND)) |>
                                      <| a_dadnscount := 0 |>) w in
      let '(w, _) := uip_ds6_maddr_add (uip_create_solicited_node ipaddr) w in
      (w, Some i)
  | None => (w, None)
  end.
Definition uip_ds6_addr_rm (addr : ptr) w : ds6 :=
  match addr with
  | Some i =>
      let w := uip_ds6_maddr_rm (uip_ds6_maddr_lookup w (uip_create_solicited_node (a_ipaddr (addr_at w i)))) w in
      upd_addr i (fun a => a <| a_isused := 0 |>) w
  | None => w
  end.
Definition uip_ds6_addr_lookup w (ipaddr : ip6) : ptr := found_slot (addr_elements w) ipaddr 128.
Definition uip_ds6_is_my_addr w (a : ip6) : bool := bool_decide (is_Some (uip_ds6_addr_lookup w a)).
Definition uip_ds6_is_my_maddr w (a : ip6) : bool := bool_decide (is_Some (uip_ds6_maddr_lookup w a)).

(** [state] is -1 for any. *)
Definition uip_ds6_get_link_local w (state : Z) : ptr :=
  find_index (fun a => negb (a_isused a =? 0) && ((state =? -1) || (a_state a =? state)) && uip_is_addr_link_local (a_ipaddr a))
    (addr_list (uip_ds6_if w)).
Definition uip_ds6_get_global w (state : Z) : ptr :=
  find_index (fun a => negb (a_isused a =? 0) && ((state =? -1) || (a_state a =? state)) && negb (uip_is_addr_link_local (a_ipaddr a)))
    (addr_list (uip_ds6_if w)).

Fixpoint match_bits (k : nat) (x_or len : Z) : Z :=
  match k with
  | O => len
  | S k => if Z.land x_or 0x80 =? 0 then match_bits k (w8 (Z.shiftl x_or 1)) (w8 (len + 1)) else len
  end.
Fixpoint match_bytes (n : nat) (j : Z) (src dst : ip6) (len : Z) : Z :=
  match n with
  | O => len
  | S n =>
      if rd8 src j =? rd8 dst j then match_bytes n (j + 1) src dst (w8 (len + 8))
      else match_bits 8 (Z.lxor (rd8 src j) (rd8 dst j)) len
  end.
Definition get_match_length (src dst : ip6) : Z := match_bytes 16 0 src dst 0.

Fixpoint best_match (i : nat) (l : list uip_ds6_addr_t) (dst : ip6) (best : Z) (matchaddr : ptr) : ptr :=
  match l with
  | [] => matchaddr
  | a :: l =>
      if negb (a_isused a =? 0) && (a_state a =? ADDR_PREFERRED) && negb (uip_is_addr_link_local (a_ipaddr a)) then
        let n := get_match_length dst (a_ipaddr a) in
        if best <=? n then best_match (S i) l dst n (Some i) else best_match (S i) l dst best matchaddr
      else best_match (S i) l dst best matchaddr
  end.
Definition uip_ds6_select_src w (dst : ip6) : ip6 :=
  match (if negb (uip_is_addr_link_local dst) && negb (uip_is_addr_mcast dst)
         then best_match 0 (addr_list (uip_ds6_if w)) dst 0 None
         else uip_ds6_get_link_local w ADDR_PREFERRED) with
  | Some i => a_ipaddr (addr_at w i)
  | None => uip_create_unspecified
  end.

(** The branch [UIP_LLADDR_LEN == 6]. *)
Definition uip_ds6_set_addr_iid (ipaddr : ip6) (lladdr : list Z) : ip6 :=
  let a := wrs 8 (take 3 lladdr) ipaddr in
  let a := wr8 12 0xfe (wr8 11 0xff a) in
  let a := wrs 13 (rds lladdr 3 3) a in
  wr8 8 (Z.lxor (rd8 a 8) 0x02) a.

(** [UIP_ND6_MIN_RANDOM_FACTOR(x)] is [(x / 2)] without parentheses around [x];
    both are applied to one operand.  The two calls of [random_rand] are made
    in the order they are written; C leaves it open. *)
Definition uip_ds6_compute_reachable_time w : ds6 * Z :=
  let b := base_reachable_time (uip_ds6_if w) in
  let '(w, r1) := random_rand w in
  let '(w, r2) := random_rand w in
  (w, w32 (b / 2 + (w16 (Z.shiftl r1 8) + r2) mod w32 (w32 (b + b / 2) - b / 2))).

Definition uip_ds6_dad_failed (addr : nat) w : ds6 * Z :=
  if uip_is_addr_link_local (a_ipaddr (addr_at w addr)) then (w, 0) else (uip_ds6_addr_rm (Some addr) w, 1).

Definition uip_ds6_init w : ds6 :=
  let w := uip_ds6_route_init (uip_ds6_neighbors_init w) in
  let w := w <| prefix_list := replicate UIP_DS6_PREFIX_NB zero_prefix |>
             <| uip_ds6_if := Netif UIP_LINK_MTU UIP_TTL6 UIP_ND6_REACHABLE_TIME 0 0 0
                  (replicate UIP_DS6_ADDR_NB zero_addr) (replicate UIP_DS6_AADDR_NB zero_maddr)
                  (replicate UIP_DS6_MADDR_NB zero_maddr) |> in
  let '(w, t) := uip_ds6_compute_reachable_time w in
  let w := w <| uip_ds6_if ::= fun i => i <| reachable_time := t |> <| retrans_timer := UIP_ND6_RETRANS_TIMER |>
                                          <| maxdadns := UIP_ND6_DEF_MAXDADNS |> |> in
  let loc := uip_create_linklocal_prefix (replicate 16 0) in
  let '(w, _) := uip_ds6_prefix_add loc UIP_DEFAULT_PREFIX_LEN 0 w in
  let loc := uip_ds6_set_addr_iid loc (uip_lladdr w) in
  let '(w, _) := uip_ds6_addr_add loc 0 ADDR_AUTOCONF w in
  let '(w, _) := uip_ds6_maddr_add uip_create_linklocal_allnodes_mcast w in
  let '(w, r) := random_rand w in
  w <| timer_rs := Some (timer_set (now_ms w) (r mod (UIP_ND6_MAX_RTR_SOLICITATION_DELAY * CLOCK_SECOND)) (UipTimer 0 0)) |>
    <| timer_periodic ::= timer_set (now_ms w) (CLOCK_SECOND / 10) |>.
