(* ===== verification/Ds6Inv.v ===== *)
(** * The invariant of the IPv6 data structures

    Every neighbour with a list of routes has a well-formed list, the lists are
    disjoint, and the allocated routes are exactly those on a list.  The
    functions the tables call when a neighbour is dropped keep it, which is what
    [NbrTable] asks of its users. *)
From S2P Require Export Ds6.
From stdpp Require Import list gmap.
Local Open Scope Z_scope.

Implicit Types w : ds6.

Definition on w (t : ds6_table) (i : nat) : bool := nbr_get_bit (nt w) (used_map (nt w)) t (Some i).

(** [rs i] are the routes through neighbour [i]. *)
Record ds6_inv w (rs : nat -> list nat) : Prop := {
  di_nt : exists p ks, nbr_inv (nt w) p ks;
  di_nbr : registered (nt w) DS6_NEIGHBORS /\ registered (nt w) NBR_ROUTES;
  di_len : length (nbr_data w) = NBR_TABLE_MAX_NEIGHBORS /\ length (routes_data w) = NBR_TABLE_MAX_NEIGHBORS;
  di_memb : memb_wf (routememb w) /\ memb_num (routememb w) = UIP_DS6_ROUTE_NB;
  di_dom : forall r, is_Some (route_next w !! r) <-> (r < UIP_DS6_ROUTE_NB)%nat;
  di_used : forall i, (i < NBR_TABLE_MAX_NEIGHBORS)%nat -> on w NBR_ROUTES i = true ->
    route_list (routes_at w i) = true /\ chain (route_next w) (route_list_list (routes_at w i)) (rs i);
  di_unused : forall i, (NBR_TABLE_MAX_NEIGHBORS <= i)%nat \/ on w NBR_ROUTES i = false -> rs i = [];
  di_disj : forall i j r, r ∈ rs i -> r ∈ rs j -> i = j;
  di_alloc : forall r, in_use (routememb w) r <-> exists i, r ∈ rs i;
  di_back : forall i r, r ∈ rs i -> rt_routes (route_at w r) = Some i;
  di_num : num_routes w = Z.of_nat (length (concat (map rs (seq 0 NBR_TABLE_MAX_NEIGHBORS))));
  di_notify : exists ns, chain (notification_next w) (notificationlist w) ns;
  di_defrt : memb_wf (defaultroutermemb w) /\ memb_num (defaultroutermemb w) = UIP_DS6_DEFRT_NB;
  di_defrt_dom : forall d, is_Some (defrt_next w !! d) <-> (d < UIP_DS6_DEFRT_NB)%nat;
  di_defrts : exists ds, chain (defrt_next w) (defaultrouterlist w) ds /\ forall d, in_use (defaultroutermemb w) d <-> d ∈ ds;
  di_rlen : forall r, u8 (rt_length (route_at w r)) }.

(** ** Taking an item out of a table *)
Section remove.
Context {T : Type} `{EqDecision T}.
Implicit Types (s : nbr_tables T) (t : T).

Lemma remove_inv s p ks t k : nbr_inv s p ks -> registered s t -> k ∈ ks ->
  nbr_inv (nbr_table_remove s t (Some k)).1 p ks.
Proof.
  intros Hw Hr [v Hv]%list_elem_of_lookup. rewrite remove_eq.
  by destruct (set_bits_view s p ks v k t (Some false) (Some false) Hw Hr Hv) as [? _].
Qed.
Lemma used_key s p ks t k : nbr_inv s p ks -> (k < NBR_TABLE_MAX_NEIGHBORS)%nat ->
  nbr_get_bit s (used_map s) t (Some k) = true -> k ∈ ks.
Proof.
  intros Hw Hk Hb. destruct (decide (k ∈ ks)) as [|Hn]; [done|]. destruct (nw_free _ _ _ Hw k Hk Hn) as [Hz _].
  cbn in Hb. rewrite Hz in Hb. unfold tst in Hb. by rewrite Z.land_0_l in Hb.
Qed.
Lemma get_bit_remove s t t' k j : registered s t -> registered s t' -> maps_ok s -> (k < NBR_TABLE_MAX_NEIGHBORS)%nat ->
  nbr_get_bit (nbr_table_remove s t (Some k)).1 (used_map (nbr_table_remove s t (Some k)).1) t' (Some j) =
    if decide (t' = t /\ j = k) then false else nbr_get_bit s (used_map s) t' (Some j).
Proof.
  intros Hr Hr' [[Hl Hb] _] Hk.
  assert (registered (nbr_table_remove s t (Some k)).1 t') as Hr2 by (by rewrite remove_eq).
  rewrite !get_bit_spec by done. rewrite remove_eq. cbn [used_map locked_map table_index set_field].
  rewrite (set_bit_rd s (used_map s) t k false j) by (done || lia). destruct (decide (j = k)) as [->|].
  - rewrite Z.clearbit_eqb. destruct (decide (t' = t /\ k = k)) as [[-> _]|Hne]; [by rewrite Z.eqb_refl, andb_false_r|].
    destruct (Z.eqb_spec (table_index s t) (table_index s t')) as [E|]; [|by rewrite andb_true_r].
    exfalso. apply Hne. split; [|done]. destruct Hr as [_ Hr], Hr' as [_ Hr']. rewrite E in Hr. congruence.
  - by rewrite decide_False by tauto.
Qed.
Lemma set_bit_false_idem s s' bm t k : registered s t -> table_index s' = table_index s -> registered s' t ->
  bytes bm -> (k < length bm)%nat ->
  (nbr_set_bit s' (nbr_set_bit s bm t (Some k) false).1 t (Some k) false).1 = (nbr_set_bit s bm t (Some k) false).1.
Proof.
  intros Hr Hi Hr' Hb Hk. destruct (set_bit_bytes s bm t (Some k) false Hb) as [Hb' Hl'].
  rewrite (set_bit_eq s') by (done || lia). rewrite set_bit_rd, decide_True by done.
  rewrite (set_bit_eq s bm) by done. rewrite list_insert_insert_eq, Hi. f_equal.
  apply Z.bits_inj_iff'. intros n Hn. rewrite !Z.clearbit_eqb. by rewrite <- andb_assoc, andb_diag.
Qed.
Lemma remove_idem s t k : registered s t -> maps_ok s -> (k < NBR_TABLE_MAX_NEIGHBORS)%nat ->
  (nbr_table_remove (nbr_table_remove s t (Some k)).1 t (Some k)).1 = (nbr_table_remove s t (Some k)).1.
Proof.
  intros Hr [[Hlu Hbu] [Hll Hbl]] Hk. rewrite (remove_eq (nbr_table_remove s t (Some k)).1), remove_eq.
  cbn [used_map locked_map set_field]. destruct s as [mem nx keys um lm at_ nu ix].
  cbn [used_map locked_map] in *. cbv [set_field used_map locked_map neighbor_addr_mem key_next nbr_table_keys all_tables num_tables table_index]. f_equal; apply set_bit_false_idem; done || lia.
Qed.
End remove.

(** ** Notifications only record *)
Lemma call_callbacks_spec ns : forall fuel e route nexthop n w, chain (notification_next w) n ns -> (length ns < fuel)%nat ->
  (exists ds, chain (defrt_next w) (defaultrouterlist w) ds) ->
  exists l, call_callbacks fuel e route nexthop n w = Some (w <| notified := l |>).
Proof.
  induction ns as [|i ns IH]; intros fuel e route nexthop n w Hc Hf Hd; unfold chain in Hc; cbn in Hc; (destruct fuel as [|fuel]; [lia|]).
  - subst. exists (notified w). by destruct w.
  - destruct Hc as (-> & m & Hm & Hc). cbn [call_callbacks]. destruct Hd as [ds Hd]. rewrite (list_length_spec _ _ _ Hd).
    set (num := if _ || _ then _ else _). assert (exists z, num = Some z) as [z ->] by (unfold num; case_match; by eexists).
    cbn [mbind option_bind list_item_next]. set (w1 := w <| notified ::= _ |>). change (notification_next w1) with (notification_next w).
    rewrite Hm. cbn [mbind option_bind]. destruct (IH fuel e route nexthop m w1) as [l ->]; [done|cbn in Hf; lia|by exists ds|].
    exists l. by destruct w.
Qed.
Lemma call_route_callback_spec e route nexthop w rs : ds6_inv w rs ->
  exists l, call_route_callback e route nexthop w = Some (w <| notified := l |>).
Proof.
  intros Hi. destruct (di_notify _ _ Hi) as [ns Hns]. destruct (di_defrts _ _ Hi) as (ds & Hd & _).
  eapply call_callbacks_spec; [exact Hns| |by eexists]. pose proof (chain_fuel _ _ _ Hns). lia.
Qed.
Lemma notified_inv l w rs : ds6_inv w rs -> ds6_inv (w <| notified := l |>) rs.
Proof. by intros []. Qed.

Lemma ipaddr_from_lladdr_some w ll p ks : nbr_inv (nt w) p ks -> registered (nt w) DS6_NEIGHBORS -> lladdr_ok (default rimeaddr_null ll) ->
  is_Some (uip_ds6_nbr_ipaddr_from_lladdr w ll).
Proof.
  intros Hw Hr Hl. unfold uip_ds6_nbr_ipaddr_from_lladdr, uip_ds6_nbr_ll_lookup.
  rewrite (nbr_table_get_spec _ _ _ p ks) by done. cbn [mbind option_bind]. by eexists.
Qed.
Lemma nexthop_some w r i p ks : nbr_inv (nt w) p ks -> registered (nt w) DS6_NEIGHBORS ->
  rt_routes (route_at w r) = Some i -> (i < NBR_TABLE_MAX_NEIGHBORS)%nat -> is_Some (uip_ds6_route_nexthop w (Some r)).
Proof.
  intros Hw Hr Hb Hi. unfold uip_ds6_route_nexthop. eapply ipaddr_from_lladdr_some; [done|done|].
  cbn. rewrite Hb. cbn. rewrite (wf_lookup _ p ks) by done. by eapply key_lladdr_ok.
Qed.

(** ** Removing a route *)
Definition upd_rs (rs : nat -> list nat) (j : nat) (l : list nat) : nat -> list nat := fun i => if decide (i = j) then l else rs i.

Lemma total_upd (rs : nat -> list nat) j l n ks : NoDup ks -> j ∈ ks -> Z.of_nat (length l) = Z.of_nat (length (rs j)) + n ->
  Z.of_nat (length (concat (map (upd_rs rs j l) ks))) = Z.of_nat (length (concat (map rs ks))) + n.
Proof.
  intros Hd Hj Hn. induction ks as [|k ks IH]; [set_solver|]. apply NoDup_cons in Hd as [Hk Hd]. cbn [map concat].
  rewrite !length_app. unfold upd_rs at 1. case_decide as E.
  - subst. assert (map (upd_rs rs j l) ks = map rs ks) as ->; [|lia]. apply map_ext_in. intros i Hi%list_elem_of_In.
    unfold upd_rs. rewrite decide_False; [done|]. by intros ->.
  - rewrite !Nat2Z.inj_add, IH; [lia|done|set_solver].
Qed.
Lemma length_without i xs : NoDup xs -> i ∈ xs -> Z.of_nat (length (without i xs)) = Z.of_nat (length xs) - 1.
Proof.
  intros Hd (ys & zs & ->)%list_elem_of_split. apply NoDup_app in Hd as (_ & Hd & [? _]%NoDup_cons).
  rewrite without_split; [rewrite !length_app; cbn; lia| |done]. intros Hy. apply (Hd i Hy). set_solver.
Qed.
Lemma chain_nil nx hd xs : chain nx hd xs -> hd = None <-> xs = [].
Proof. unfold chain. destruct xs; cbn; naive_solver. Qed.

Lemma di_lt w rs i r : ds6_inv w rs -> r ∈ rs i ->
  (i < NBR_TABLE_MAX_NEIGHBORS)%nat /\ on w NBR_ROUTES i = true /\ (r < UIP_DS6_ROUTE_NB)%nat.
Proof.
  intros Hi Hr. destruct (Nat.lt_ge_cases i NBR_TABLE_MAX_NEIGHBORS) as [Hlt|Hge];
    [|rewrite (di_unused _ _ Hi i) in Hr by (by left); set_solver].
  destruct (on w NBR_ROUTES i) eqn:Eo; [|rewrite (di_unused _ _ Hi i) in Hr by (by right); set_solver].
  split; [done|]. split; [done|]. destruct (di_used _ _ Hi i Hlt Eo) as [_ Hc]. apply (di_dom _ _ Hi). by eapply seg_dom.
Qed.
Lemma di_maps w rs : ds6_inv w rs -> maps_ok (nt w).
Proof. intros Hi. destruct (di_nt _ _ Hi) as (p & ks & Hw). by eapply wf_maps_ok. Qed.

(** The lists and the table after route [r] has left the list of neighbour [j]. *)
Lemma without_disj rs j r : (forall i i' x, x ∈ rs i -> x ∈ rs i' -> i = i') ->
  forall i i' x, x ∈ upd_rs rs j (without r (rs j)) i -> x ∈ upd_rs rs j (without r (rs j)) i' -> i = i'.
Proof.
  intros Hdj i i' x. unfold upd_rs. repeat case_decide; subst; rewrite ?elem_of_without; try done.
  - intros [_ ?] ?. by eapply Hdj.
  - intros ? [_ ?]. by eapply Hdj.
  - apply Hdj.
Qed.
Lemma elem_of_unlinked rs j r : (forall i i' x, x ∈ rs i -> x ∈ rs i' -> i = i') -> r ∈ rs j ->
  forall x, (x <> r /\ exists i, x ∈ rs i) <-> exists i, x ∈ upd_rs rs j (without r (rs j)) i.
Proof.
  intros Hdj Hr x. unfold upd_rs. split.
  - intros [Hx [i Hi']]. exists i. case_decide; subst; [by apply elem_of_without|done].
  - intros [i Hx]. case_decide as Eij; [subst; apply elem_of_without in Hx as [? ?]; split; [done|by exists j]|].
    split; [|by exists i]. intros ->. apply Eij. by eapply Hdj.
Qed.
Lemma on_unlinked w w' rs j (xs : list nat) : ds6_inv w rs -> (j < NBR_TABLE_MAX_NEIGHBORS)%nat ->
  nt w' = (match xs with [] => (nbr_table_remove (nt w) NBR_ROUTES (Some j)).1 | _ => nt w end) ->
  (forall i, on w' NBR_ROUTES i = true -> on w NBR_ROUTES i = true) /\
  (forall i, i <> j \/ xs <> [] -> on w' NBR_ROUTES i = on w NBR_ROUTES i) /\
  (on w' NBR_ROUTES j = true -> xs <> []).
Proof.
  intros Hi Hj Hnt. assert (forall i, xs = [] -> on w' NBR_ROUTES i = if decide (NBR_ROUTES = NBR_ROUTES /\ i = j) then false else on w NBR_ROUTES i) as Hon.
  { intros i ->. unfold on. rewrite Hnt. apply get_bit_remove; (apply (di_nbr _ _ Hi) || by eapply di_maps || done). }
  assert (forall i, xs <> [] -> on w' NBR_ROUTES i = on w NBR_ROUTES i) as Hsame by (intros i Hx; unfold on; rewrite Hnt; by destruct xs).
  split; [|split].
  - intros i Ho. destruct (decide (xs = [])) as [E|E]; [rewrite Hon in Ho by done; by case_decide|by rewrite <- Hsame].
  - intros i Hne. destruct (decide (xs = [])) as [E|E]; [|by apply Hsame]. rewrite Hon by done. rewrite decide_False; [done|]. intros [_ ->]. by destruct Hne.
  - intros Ho E. rewrite Hon in Ho by done. by rewrite decide_True in Ho.
Qed.

(** The state without route [r] of neighbour [j]. *)
Lemma unlink_inv w rs j r nx hd : ds6_inv w rs -> r ∈ rs j ->
  list_remove (route_next w) (route_list_list (routes_at w j)) r = Some (nx, hd) ->
  let w1 := upd_routes j (fun x => x <| route_list_list := hd |>) (w <| route_next := nx |>) in
  let w2 := match hd with None => w1 <| nt := (nbr_table_remove (nt w1) NBR_ROUTES (Some j)).1 |> | Some _ => w1 end in
  let w3 := w2 <| routememb := (memb_free (routememb w2) r).1 |> <| num_routes ::= fun n => n - 1 |> in
  ds6_inv w3 (upd_rs rs j (without r (rs j))) /\
  nt w3 = (match without r (rs j) with [] => (nbr_table_remove (nt w) NBR_ROUTES (Some j)).1 | _ => nt w end).
Proof.
  intros Hi Hr Hrm w1 w2 w3. destruct (di_lt _ _ _ _ Hi Hr) as (Hj & Ho & Hr4).
  destruct (di_used _ _ Hi j Hj Ho) as [Hl Hc]. pose proof (chain_distinct _ _ _ Hc) as Hd.
  destruct (list_remove_spec _ _ _ r Hc) as (nx' & hd' & E & Hc' & Hu & _). rewrite Hrm in E. simplify_eq.
  pose proof (chain_nil _ _ _ Hc') as Hnil.
  assert (nt w3 = (match without r (rs j) with [] => (nbr_table_remove (nt w) NBR_ROUTES (Some j)).1 | _ => nt w end)) as Hnt.
  { unfold w3, w2. destruct hd' as [h|].
    - destruct (without r (rs j)); [|done]. exfalso. destruct Hnil as [_ Hnil]. by specialize (Hnil eq_refl).
    - by rewrite (proj1 Hnil eq_refl). }
  split; [|exact Hnt].
  destruct (on_unlinked w w3 rs j _ Hi Hj Hnt) as (Hon1 & Hon2 & Hon3).
  assert (forall i, routes_at w3 i = if decide (i = j) then NeighborRoutes hd' true else routes_at w i) as Hra.
  { intros i. assert (routes_data w3 = alter (fun x => x <| route_list_list := hd' |>) j (routes_data w)) as E.
    { unfold w3, w2. by destruct hd'. }
    unfold routes_at. rewrite E. case_decide as Eij.
    - subst. rewrite list_lookup_alter_eq. destruct (lookup_lt_is_Some_2 (routes_data w) j) as [x Hx];
        [rewrite (proj2 (di_len _ _ Hi)); done|]. unfold routes_at in Hl. rewrite Hx in Hl |- *. cbn in *. by rewrite <- Hl.
    - by rewrite list_lookup_alter_ne by done. }
  assert (route_next w3 = nx') as Hnx by (unfold w3, w2; by destruct hd').
  assert (routememb w3 = (memb_free (routememb w) r).1) as Hmb by (unfold w3, w2; by destruct hd').
  destruct (di_memb _ _ Hi) as [Hmw Hmn].
  destruct (memb_free_spec (routememb w) r Hmw) as (m' & Hf & Hmw' & Hmem & Huse); [by rewrite Hmn|].
  rewrite Hf in Hmb. cbn [fst] in Hmb.
  assert (forall A (f : ds6 -> A), (forall w x, f (w <| nt := x |>) = f w) -> (forall w x, f (w <| routememb := x |>) = f w) ->
    (forall w g, f (w <| num_routes ::= g |>) = f w) -> (forall w x, f (w <| route_next := x |>) = f w) ->
    (forall w g, f (w <| routes_data ::= g |>) = f w) -> f w3 = f w) as Hsame.
  { intros A f H1 H2 H3 H4 H5. unfold w3. rewrite H3, H2. unfold w2. destruct hd'; rewrite ?H1; unfold w1, upd_routes; by rewrite H5, H4. }
  assert (num_routes w3 = num_routes w - 1) as Hnum by (unfold w3, w2; by destruct hd').
  assert (length (routes_data w3) = length (routes_data w)) as Hlen by (unfold w3, w2; destruct hd'; cbn; by rewrite length_alter).
  clearbody w3. constructor.
  - rewrite Hnt. destruct (di_nt _ _ Hi) as (p & ks & Hw). exists p, ks. destruct (without r (rs j)); [|done].
    apply remove_inv; [done|apply (di_nbr _ _ Hi)|]. eapply used_key; [done|done|exact Ho].
  - rewrite Hnt. destruct (without r (rs j)); [rewrite remove_eq|]; apply (di_nbr _ _ Hi).
  - rewrite (Hsame _ nbr_data), Hlen by done. apply (di_len _ _ Hi).
  - rewrite Hmb. unfold memb_num in *. by rewrite Hmem.
  - intros x. rewrite Hnx, (upd_dom _ _ _ Hu). apply (di_dom _ _ Hi).
  - intros i Hilt Hoi. rewrite Hra, Hnx. unfold upd_rs. case_decide as Eij; [done|].
    destruct (di_used _ _ Hi i Hilt (Hon1 i Hoi)) as [Hli Hci]. split; [done|].
    eapply updates_chain; [exact Hu| |exact Hci]. intros x Hx Hx'. apply Eij. by eapply (di_disj _ _ Hi).
  - intros i Hii. unfold upd_rs. case_decide as Eij.
    + subst. destruct Hii as [?|Hii]; [lia|]. destruct (without r (rs j)) eqn:Ew; [done|].
      rewrite Hon2, Ho in Hii by (right; by rewrite ?Ew). done.
    + apply (di_unused _ _ Hi). destruct Hii as [?|Hii]; [by left|right]. rewrite <- Hii. symmetry. apply Hon2. by left.
  - apply without_disj, (di_disj _ _ Hi).
  - intros x. rewrite Hmb, Huse, (di_alloc _ _ Hi). by apply elem_of_unlinked; [apply (di_disj _ _ Hi)|].
  - intros i x Hx. unfold route_at. rewrite Hmb, Hmem. apply (di_back _ _ Hi). unfold upd_rs in Hx.
    case_decide; subst; [by apply elem_of_without in Hx as [_ ?]|done].
  - rewrite Hnum, (di_num _ _ Hi), (total_upd rs j _ (-1)); [lia|apply NoDup_seq|apply elem_of_seq; lia|]. rewrite length_without by done. lia.
  - rewrite (Hsame _ notification_next), (Hsame _ notificationlist) by done. apply (di_notify _ _ Hi).
  - rewrite (Hsame _ defaultroutermemb) by done. apply (di_defrt _ _ Hi).
  - rewrite (Hsame _ defrt_next) by done. apply (di_defrt_dom _ _ Hi).
  - rewrite (Hsame _ defrt_next), (Hsame _ defaultrouterlist), (Hsame _ defaultroutermemb) by done. apply (di_defrts _ _ Hi).
  - intros x. unfold route_at. rewrite Hmb, Hmem. apply (di_rlen _ _ Hi).
Qed.

Lemma route_rm_spec w rs j r : ds6_inv w rs -> r ∈ rs j ->
  exists w', uip_ds6_route_rm (Some r) w = Some w' /\ ds6_inv w' (upd_rs rs j (without r (rs j))) /\
    nt w' = (match without r (rs j) with [] => (nbr_table_remove (nt w) NBR_ROUTES (Some j)).1 | _ => nt w end).
Proof.
  intros Hi Hr. destruct (di_lt _ _ _ _ Hi Hr) as (Hj & Ho & _). destruct (di_used _ _ Hi j Hj Ho) as [Hl Hc].
  unfold uip_ds6_route_rm. rewrite (di_back _ _ Hi j r Hr). unfold route_list_head. rewrite Hl. cbn [mbind option_bind list_head].
  destruct (list_remove_spec _ _ _ r Hc) as (nx & hd & E & _). unfold list_head. rewrite E. cbn [mbind option_bind].
  destruct (unlink_inv w rs j r nx hd Hi Hr E) as [Hi' Hnt]. cbv zeta in Hi', Hnt.
  set (w3 := set_field num_routes _ _) in *.
  assert (rt_routes (route_at w3 r) = Some j) as Hb.
  { rewrite <- (di_back _ _ Hi j r Hr). unfold route_at. do 2 f_equal.
    assert (routememb w3 = (memb_free (routememb w) r).1) as -> by (unfold w3; by destruct hd).
    unfold memb_free. by destruct (memb_count (routememb w) !! r). }
  destruct (di_nt _ _ Hi') as (p & ks & Hw). destruct (nexthop_some w3 r j p ks Hw (proj1 (di_nbr _ _ Hi')) Hb Hj) as [nh ->].
  cbn [mbind option_bind]. destruct (call_route_callback_spec UIP_DS6_NOTIFICATION_ROUTE_RM (rt_ipaddr (route_at w3 r)) nh w3 _ Hi') as [l ->].
  eexists. split; [done|]. split; [by apply notified_inv|]. exact Hnt.
Qed.

(** ** Removing all routes of a neighbour *)
Lemma list_head_at w rs j : ds6_inv w rs -> (j < NBR_TABLE_MAX_NEIGHBORS)%nat -> on w NBR_ROUTES j = true ->
  route_list_head w j = Some (head (rs j)).
Proof.
  intros Hi Hj Ho. destruct (di_used _ _ Hi j Hj Ho) as [Hl Hc]. unfold route_list_head. rewrite Hl. unfold list_head.
  f_equal. by eapply chain_head.
Qed.
Lemma upd_rs_ext rs rs' w : (forall i, rs i = rs' i) -> ds6_inv w rs -> ds6_inv w rs'.
Proof.
  intros E []. constructor; try done; intros; rewrite <- ?E in *; eauto.
  - setoid_rewrite <- E. done.
  - rewrite di_num0. do 3 f_equal. by apply map_ext.
Qed.
(** The routes of a neighbour taken out of the table keep their list. *)
Lemma route_list_after w w' rs j r : ds6_inv w rs -> r ∈ rs j -> uip_ds6_route_rm (Some r) w = Some w' ->
  without r (rs j) = [] -> route_list_head w' j = Some None.
Proof.
  intros Hi Hr Hrm Hw. destruct (di_lt _ _ _ _ Hi Hr) as (Hj & Ho & _). destruct (di_used _ _ Hi j Hj Ho) as [Hl Hc].
  unfold uip_ds6_route_rm in Hrm. rewrite (di_back _ _ Hi j r Hr) in Hrm.
  unfold route_list_head at 1 in Hrm. rewrite Hl in Hrm. cbn [mbind option_bind] in Hrm.
  destruct (list_remove_spec _ _ _ r Hc) as (nx & hd & E & Hc' & _). unfold list_head in Hrm. rewrite E in Hrm. cbn [mbind option_bind] in Hrm.
  rewrite Hw in Hc'. unfold chain in Hc'. cbn in Hc'. subst hd.
  apply bind_Some in Hrm as (nh & _ & Hrm). destruct (unlink_inv w rs j r nx None Hi Hr E) as [Hi' _]. cbv zeta in Hi'.
  destruct (call_route_callback_spec UIP_DS6_NOTIFICATION_ROUTE_RM (rt_ipaddr (route_at (set_field num_routes (fun n => n - 1)
    (set_field routememb (fun _ => (memb_free (routememb w) r).1) (set_field nt (fun _ => (nbr_table_remove (nt w) NBR_ROUTES (Some j)).1)
     (upd_routes j (fun x => x <| route_list_list := None |>) (w <| route_next := nx |>))))) r)) nh _ _ Hi') as [l El].
  assert (Some w' = Some (set_field notified (fun _ => l) (set_field num_routes (fun n => n - 1)
    (set_field routememb (fun _ => (memb_free (routememb w) r).1) (set_field nt (fun _ => (nbr_table_remove (nt w) NBR_ROUTES (Some j)).1)
     (upd_routes j (fun x => x <| route_list_list := None |>) (w <| route_next := nx |>))))))) as [= ->].
  { rewrite <- Hrm. exact El. }
  unfold route_list_head, routes_at. cbn. rewrite list_lookup_alter_eq. unfold routes_at in Hl.
  destruct (routes_data w !! j) as [x|]; [|done]. cbn in *. by rewrite Hl.
Qed.

Lemma rm_routes_spec xs : forall fuel w rs j, ds6_inv w rs -> (j < NBR_TABLE_MAX_NEIGHBORS)%nat ->
  rs j = xs -> (length xs < fuel)%nat ->
  exists w', rm_routes fuel j (head xs) w = Some w' /\ ds6_inv w' (upd_rs rs j []) /\
    nt w' = (match xs with [] => nt w | _ => (nbr_table_remove (nt w) NBR_ROUTES (Some j)).1 end).
Proof.
  induction xs as [|r xs IH]; intros fuel w rs j Hi Hj Hx Hf; (destruct fuel as [|fuel]; [cbn in Hf; lia|]); cbn [rm_routes head].
  - exists w. split; [done|]. split; [|done]. eapply upd_rs_ext; [|exact Hi]. intros i. unfold upd_rs. case_decide; congruence.
  - assert (r ∈ rs j) as Hr by (rewrite Hx; set_solver).
    destruct (route_rm_spec w rs j r Hi Hr) as (w1 & E1 & Hi1 & Hnt1). rewrite E1. cbn [mbind option_bind].
    destruct (di_lt _ _ _ _ Hi Hr) as (_ & Ho & _). destruct (di_used _ _ Hi j Hj Ho) as [_ Hc].
    assert (without r (rs j) = xs) as Hwo.
    { pose proof (chain_distinct _ _ _ Hc) as Hnd. rewrite Hx in Hnd |- *. apply NoDup_cons in Hnd as [Hn _].
      apply (without_split r [] xs); [set_solver|done]. }
    rewrite Hwo in Hi1, Hnt1.
    assert (route_list_head w1 j = Some (head xs)) as ->.
    { destruct xs as [|r' xs']; [exact (route_list_after w w1 rs j r Hi Hr E1 Hwo)|].
      rewrite (list_head_at w1 (upd_rs rs j (r' :: xs'))) by (done || (unfold on in *; by rewrite Hnt1)).
      unfold upd_rs. by rewrite decide_True. }
    cbn [mbind option_bind]. destruct (IH fuel w1 (upd_rs rs j xs) j Hi1 Hj) as (w2 & E2 & Hi2 & Hnt2).
    { unfold upd_rs. by rewrite decide_True. }
    { cbn in Hf. lia. }
    exists w2. split; [exact E2|]. split.
    + eapply upd_rs_ext; [|exact Hi2]. intros i. unfold upd_rs. by case_decide.
    + rewrite Hnt2, Hnt1. by destruct xs.
Qed.
Lemma chain_le w rs j : ds6_inv w rs -> (j < NBR_TABLE_MAX_NEIGHBORS)%nat -> on w NBR_ROUTES j = true ->
  (length (rs j) < fuel_of (route_next w))%nat.
Proof. intros Hi Hj Ho. destruct (di_used _ _ Hi j Hj Ho) as [_ Hc]. pose proof (chain_fuel _ _ _ Hc). lia. Qed.

(** Removing the bit of a neighbour without routes. *)
Lemma remove_bit_inv w rs j : ds6_inv w rs -> (j < NBR_TABLE_MAX_NEIGHBORS)%nat -> rs j = [] -> (exists p ks, nbr_inv (nt w) p ks /\ j ∈ ks) ->
  ds6_inv (w <| nt := (nbr_table_remove (nt w) NBR_ROUTES (Some j)).1 |>) rs.
Proof.
  intros Hi Hj Hrs (p & ks & Hw & Hk). pose proof (di_maps _ _ Hi) as Hm. destruct (di_nbr _ _ Hi) as [Hr1 Hr2].
  assert (forall i, on (w <| nt := (nbr_table_remove (nt w) NBR_ROUTES (Some j)).1 |>) NBR_ROUTES i =
    if decide (i = j) then false else on w NBR_ROUTES i) as Hon.
  { intros i. unfold on. cbn [nt set_field]. rewrite get_bit_remove by done. repeat case_decide; naive_solver. }
  destruct Hi. constructor; cbn [nt nbr_data routes_data routememb route_next num_routes set_field]; try done.
  - exists p, ks. by apply remove_inv.
  - intros i Hi. rewrite Hon. case_decide; [done|]. apply di_used0. done.
  - intros i [?|Hi]; [apply di_unused0; by left|]. rewrite Hon in Hi. case_decide; [by subst|]. apply di_unused0. by right.
Qed.
Lemma used_in w rs t j : ds6_inv w rs -> (j < NBR_TABLE_MAX_NEIGHBORS)%nat -> on w t j = true -> exists p ks, nbr_inv (nt w) p ks /\ j ∈ ks.
Proof. intros Hi Hj Ho. destruct (di_nt _ _ Hi) as (p & ks & Hw). exists p, ks. split; [done|]. by eapply used_key. Qed.

Lemma rm_routelist_spec w rs j : ds6_inv w rs -> (j < NBR_TABLE_MAX_NEIGHBORS)%nat -> on w NBR_ROUTES j = true ->
  exists w', rm_routelist (Some j) w = Some w' /\ ds6_inv w' (upd_rs rs j []) /\
    nt w' = (nbr_table_remove (nt w) NBR_ROUTES (Some j)).1.
Proof.
  intros Hi Hj Ho. destruct (di_used _ _ Hi j Hj Ho) as [Hl _]. unfold rm_routelist. rewrite Hl, (list_head_at w rs) by done.
  cbn [mbind option_bind].
  destruct (rm_routes_spec (rs j) (fuel_of (route_next w)) w rs j Hi Hj eq_refl (chain_le _ _ _ Hi Hj Ho)) as (w1 & -> & Hi1 & Hnt1).
  cbn [mbind option_bind]. eexists. split; [done|].
  assert (nt (w1 <| nt := (nbr_table_remove (nt w1) NBR_ROUTES (Some j)).1 |>) = (nbr_table_remove (nt w) NBR_ROUTES (Some j)).1) as Hnt.
  { cbn [nt set_field]. rewrite Hnt1. destruct (rs j); [done|]. apply remove_idem; [apply (di_nbr _ _ Hi)|by eapply di_maps|done]. }
  split; [|exact Hnt]. apply remove_bit_inv; [done|done|unfold upd_rs; by rewrite decide_True|].
  destruct (used_in w rs NBR_ROUTES j Hi Hj Ho) as (p & ks & Hw & Hk). exists p, ks. split; [|done].
  rewrite Hnt1. destruct (rs j); [done|]. apply remove_inv; [done|apply (di_nbr _ _ Hi)|done].
Qed.

Lemma nbr_rm_inv w rs j : ds6_inv w rs -> (j < NBR_TABLE_MAX_NEIGHBORS)%nat -> on w DS6_NEIGHBORS j = true ->
  ds6_inv (uip_ds6_nbr_rm (Some j) w) rs.
Proof.
  intros Hi Hj Ho. destruct (used_in w rs _ j Hi Hj Ho) as (p & ks & Hw & Hk).
  pose proof (di_maps _ _ Hi) as Hm. destruct (di_nbr _ _ Hi) as [Hr1 Hr2].
  assert (forall i, on (uip_ds6_nbr_rm (Some j) w) NBR_ROUTES i = on w NBR_ROUTES i) as Hon.
  { intros i. unfold on, uip_ds6_nbr_rm. cbn [nt set_field]. rewrite get_bit_remove by done. rewrite decide_False; [done|]. by intros []. }
  unfold uip_ds6_nbr_rm in *. destruct Hi. constructor; cbn [nt nbr_data routes_data routememb route_next num_routes set_field]; try done.
  - exists p, ks. by apply remove_inv.
  - intros i Hi. rewrite Hon. apply di_used0. done.
  - intros i. rewrite Hon. apply di_unused0.
Qed.

(** The IPv6 structures are what the neighbour tables ask for. *)
Definition ds6_client w : Prop := exists rs, ds6_inv w rs.
#[export] Instance ds6_nbr_client : NbrClient ds6_table ds6 ds6_client.
Proof.
  constructor.
  - done.
  - by intros [] i w.
  - intros f w [rs Hi] (Hix & Hat & Hb) (p & ks & Hw). exists rs. cbn [nbr_get nbr_upd ds6_world] in *.
    assert (forall i, on (w <| nt ::= f |>) NBR_ROUTES i = on w NBR_ROUTES i) as Hon.
    { intros i. unfold on. cbn [nt set_field]. apply Hb; [apply (di_nbr _ _ Hi)|by eexists]. }
    destruct Hi. constructor; cbn [nt nbr_data routes_data routememb route_next num_routes set_field]; try done.
    + by exists p, ks.
    + cbn. unfold registered in *. by rewrite Hix, Hat.
    + intros i Hi. rewrite Hon. apply di_used0. done.
    + intros i. rewrite Hon. apply di_unused0.
  - intros t f k w [rs Hi] Hf Hr Hk Hb. destruct t; cbn [callback ds6_world] in Hf; simplify_eq.
    + eexists. split; [done|]. split; [|done]. exists rs. by apply nbr_rm_inv.
    + destruct (rm_routelist_spec w rs k Hi Hk Hb) as (w' & ? & ? & ?). exists w'. split; [done|]. split; [by eexists|done].
Qed.
