(* ===== verification/Ds6Route.v ===== *)
(** * Neighbours and routes of the IPv6 host

    What the lookups find, and that every call of the interface returns and
    keeps the invariant. *)
From S2P Require Export Ds6Inv.
From stdpp Require Import list gmap.
Local Open Scope Z_scope.

Implicit Types w : ds6.

Record ds6_wf w (rs : nat -> list nat) (ks : list nat) : Prop := {
  dw_inv : ds6_inv w rs;
  dw_nbr : nbr_wf (nt w) ks }.
(** The neighbours of a table, in the order of the list. *)
Definition members w (t : ds6_table) (ks : list nat) : list nat := items_of (nt w) t ks.

Lemma elem_of_members w t ks i : i ∈ members w t ks <-> on w t i = true /\ i ∈ ks.
Proof. unfold members, items_of. rewrite list_elem_of_filter. done. Qed.

(** ** Looking up a neighbour *)
Lemma nbr_lookup_from_spec w a post : forall fuel pre, chain (key_next (nt w)) (nbr_table_keys (nt w)) (pre ++ post) ->
  (length post < fuel)%nat ->
  nbr_lookup_from fuel w a (head (items_of (nt w) DS6_NEIGHBORS post)) =
    Some (head (filter (fun i => nbr_ipaddr (nbr_at w i) = a) (items_of (nt w) DS6_NEIGHBORS post))).
Proof.
  induction post as [post IH] using (induction_ltof1 _ (@length nat)); unfold ltof in IH. intros fuel pre Hc Hf.
  destruct fuel as [|fuel]; [lia|]. cbn [nbr_lookup_from]. destruct (items_of (nt w) DS6_NEIGHBORS post) as [|k l] eqn:E; [done|].
  cbn [head]. apply items_of_split in E as (q & post' & -> & <-). unfold uip_ip6addr_cmp. rewrite filter_cons.
  case_bool_decide as Ha; [by rewrite decide_True|]. rewrite decide_False by done.
  rewrite (nbr_table_next_spec _ _ (pre ++ q) k post') by (by rewrite <- app_assoc). cbn [mbind option_bind].
  rewrite length_app in *. cbn in *. apply (IH post') with (pre := pre ++ q ++ [k]); [lia| |lia]. by rewrite <- !app_assoc.
Qed.
Definition nbrs_at w (a : ip6) (ks : list nat) : list nat := filter (fun i => nbr_ipaddr (nbr_at w i) = a) (members w DS6_NEIGHBORS ks).
Lemma nbr_lookup_spec w rs ks a : ds6_wf w rs ks -> uip_ds6_nbr_lookup w (Some a) = Some (head (nbrs_at w a ks)).
Proof.
  intros [_ Hw]. unfold uip_ds6_nbr_lookup. rewrite (nbr_table_head_spec _ _ ks) by apply (nw_keys _ _ _ Hw). cbn [mbind option_bind].
  apply (nbr_lookup_from_spec w a ks _ []); [apply (nw_keys _ _ _ Hw)|]. pose proof (chain_fuel _ _ _ (nw_keys _ _ _ Hw)). lia.
Qed.
Lemma head_elem {A} (l : list A) x : head l = Some x -> x ∈ l.
Proof. destruct l; [done|]. intros [= ->]. set_solver. Qed.
Lemma nbr_lookup_in w rs ks a i : ds6_wf w rs ks -> uip_ds6_nbr_lookup w (Some a) = Some (Some i) ->
  i ∈ ks /\ on w DS6_NEIGHBORS i = true /\ nbr_ipaddr (nbr_at w i) = a.
Proof.
  intros Hw. rewrite (nbr_lookup_spec w rs ks) by done. intros [= Hh]. apply head_elem in Hh. unfold nbrs_at in Hh.
  apply list_elem_of_filter in Hh as [? [? ?]%elem_of_members]. done.
Qed.
Lemma lladdr_from_ipaddr_spec w rs ks a : ds6_wf w rs ks ->
  exists r, uip_ds6_nbr_lladdr_from_ipaddr w (Some a) = Some r /\
    match r with Some ll => lladdr_ok ll | None => True end.
Proof.
  intros Hw. unfold uip_ds6_nbr_lladdr_from_ipaddr. destruct (uip_ds6_nbr_lookup w (Some a)) as [[i|]|] eqn:E;
    [| |by rewrite (nbr_lookup_spec w rs ks) in E by done]; cbn [mbind option_bind]; [|by exists None].
  destruct (nbr_lookup_in _ _ _ _ _ Hw E) as (Hi & _ & _). eexists. split; [done|].
  unfold uip_ds6_nbr_get_ll, nbr_table_get_lladdr. cbn [mbind option_bind].
  pose proof (wf_lt _ _ _ _ (dw_nbr _ _ _ Hw) Hi) as Hlt.
  rewrite (wf_lookup _ None ks) by (done || apply (dw_nbr _ _ _ Hw)). eapply key_lladdr_ok; [apply (dw_nbr _ _ _ Hw)|done].
Qed.

(** ** Walking all routes

    The walk over the neighbours with routes ends at the first whose list is
    empty. *)
Fixpoint visible (rs : nat -> list nat) (js : list nat) : list nat :=
  match js with
  | [] => []
  | i :: js => match rs i with [] => [] | _ => rs i ++ visible rs js end
  end.
Definition routes_seen w (rs : nat -> list nat) (ks : list nat) : list nat := visible rs (members w NBR_ROUTES ks).

Lemma elem_of_visible rs js r : r ∈ visible rs js -> exists i, i ∈ js /\ r ∈ rs i.
Proof.
  induction js as [|i js IH]; cbn; [set_solver|]. destruct (rs i) eqn:E; [set_solver|].
  rewrite <- E, elem_of_app. intros [?|(j & ? & ?)%IH]; [exists i|exists j]; set_solver.
Qed.
Lemma visible_all rs js r i : (forall j, j ∈ js -> rs j <> []) -> i ∈ js -> r ∈ rs i -> r ∈ visible rs js.
Proof.
  induction js as [|j js IH]; intros Hne Hi Hr; [set_solver|]. cbn. destruct (rs j) eqn:E; [exfalso; apply (Hne j); set_solver|].
  rewrite <- E, elem_of_app. apply elem_of_cons in Hi as [->|Hi]; [by left|right]. apply IH; set_solver.
Qed.
Lemma route_head_spec w rs ks : ds6_wf w rs ks -> uip_ds6_route_head w = Some (head (routes_seen w rs ks)).
Proof.
  intros [Hi Hw]. unfold uip_ds6_route_head. rewrite (nbr_table_head_spec _ _ ks) by apply (nw_keys _ _ _ Hw). cbn [mbind option_bind].
  unfold routes_seen, members. destruct (items_of (nt w) NBR_ROUTES ks) as [|i js] eqn:E; [done|]. cbn [head visible].
  assert (i ∈ members w NBR_ROUTES ks) as [Ho Hik]%elem_of_members by (unfold members; rewrite E; set_solver).
  rewrite (list_head_at w rs) by (done || by eapply wf_lt). by destruct (rs i).
Qed.
Lemma chain_next_of nx hd pre r post : chain nx hd (pre ++ r :: post) -> nx !! r = Some (head post).
Proof.
  intros Hc. apply seg_app in Hc as (q & _ & Hr). cbn in Hr. destruct Hr as (_ & n & Hn & Hc). rewrite Hn.
  f_equal. by eapply chain_head.
Qed.
Lemma route_next_spec w rs ks qs i js pre r post : ds6_wf w rs ks -> members w NBR_ROUTES ks = qs ++ i :: js -> rs i = pre ++ r :: post ->
  uip_ds6_route_next w (Some r) = Some (head (post ++ visible rs js)).
Proof.
  intros [Hi Hw] Hm Hr. assert (i ∈ members w NBR_ROUTES ks) as [Ho Hik]%elem_of_members by (rewrite Hm; set_solver).
  pose proof (wf_lt _ _ _ _ Hw Hik) as Hlt. destruct (di_used _ _ Hi i Hlt Ho) as [_ Hc].
  unfold uip_ds6_route_next. cbn [list_item_next]. rewrite Hr in Hc. rewrite (chain_next_of _ _ _ _ _ Hc). cbn [mbind option_bind].
  destruct post as [|p post]; [|done]. cbn [head app]. rewrite (di_back _ _ Hi i r) by (rewrite Hr; set_solver).
  assert (exists k1 k2, ks = k1 ++ i :: k2 /\ items_of (nt w) NBR_ROUTES k2 = js) as (k1 & k2 & -> & Hk2).
  { unfold members in Hm. clear -Hm. revert qs Hm. induction ks as [|k ks IH]; intros qs Hm; unfold items_of in Hm.
    - by destruct qs.
    - rewrite filter_cons in Hm. case_decide.
      + destruct qs as [|q qs]; cbn in Hm; simplify_eq; [by exists [], ks|].
        destruct (IH qs) as (k1 & k2 & -> & ?); [done|]. by exists (q :: k1), k2.
      + destruct (IH qs Hm) as (k1 & k2 & -> & ?). by exists (k :: k1), k2. }
  rewrite (nbr_table_next_spec _ _ k1 i k2) by apply (nw_keys _ _ _ Hw). cbn [mbind option_bind]. rewrite Hk2.
  destruct js as [|j js]; [done|]. cbn [head visible].
  assert (j ∈ members w NBR_ROUTES (k1 ++ i :: k2)) as [Hoj Hjk]%elem_of_members by (rewrite Hm; set_solver).
  rewrite (list_head_at w rs) by (done || by eapply wf_lt). by destruct (rs j).
Qed.

(** ** The longest match *)
Definition route_matches w (addr : ip6) (r : nat) : bool := uip_ipaddr_prefixcmp addr (rt_ipaddr (route_at w r)) (rt_length (route_at w r)).
Definition better w (addr : ip6) (found : ptr) (r : nat) : ptr :=
  if (match found with Some f => rt_length (route_at w f) | None => 0 end <=? rt_length (route_at w r)) && route_matches w addr r
  then Some r else found.

Lemma route_walk_spec w rs ks addr : ds6_wf w rs ks -> forall js fuel qs i pre post found,
  members w NBR_ROUTES ks = qs ++ i :: js -> rs i = pre ++ post -> (length (post ++ visible rs js) < fuel)%nat ->
  lookup_from fuel w addr (head (post ++ visible rs js)) found (match found with Some f => rt_length (route_at w f) | None => 0 end) =
    Some (fold_left (better w addr) (post ++ visible rs js) found).
Proof.
  intros Hw js. induction js as [|j js IHjs]; intros fuel qs i pre post; revert fuel pre;
    (induction post as [|r post IH]; intros fuel pre found Hm Hr Hf; cbn [app visible] in *; (destruct fuel as [|fuel]; [lia|])).
  - done.
  - cbn [head lookup_from fold_left]. rewrite (route_next_spec w rs ks qs i [] pre r post) by done. cbn [mbind option_bind].
    specialize (fun found => IH fuel (pre ++ [r]) found Hm). rewrite <- app_assoc in IH. cbn [length] in Hf. unfold better at 2, route_matches.
    destruct (_ && _); cbn [visible]; [rewrite <- (IH (Some r)); [done|done|lia]|apply IH; [done|lia]].
  - destruct (rs j) as [|r0 l] eqn:Ej; [done|]. rewrite <- Ej in *. change (head (rs j ++ visible rs js)) with (head (rs j ++ visible rs js)).
    apply (IHjs (S fuel) (qs ++ [i]) j []); [by rewrite <- app_assoc|done|done].
  - cbn [head lookup_from fold_left]. rewrite (route_next_spec w rs ks qs i (j :: js) pre r post) by done. cbn [mbind option_bind visible].
    specialize (fun found => IH fuel (pre ++ [r]) found Hm). rewrite <- app_assoc in IH. cbn [length app] in Hf. unfold better at 2, route_matches.
    destruct (_ && _); [rewrite <- (IH (Some r)); [done|done|lia]|apply IH; [done|lia]].
Qed.

Lemma fold_better w addr l : (forall r, u8 (rt_length (route_at w r))) -> forall found,
  (forall f, fold_left (better w addr) l found = Some f -> found = Some f \/ (f ∈ l /\ route_matches w addr f = true)) /\
  (forall x, x ∈ l -> route_matches w addr x = true ->
     exists f, fold_left (better w addr) l found = Some f /\ rt_length (route_at w x) <= rt_length (route_at w f)) /\
  (forall f0, found = Some f0 ->
     exists f, fold_left (better w addr) l found = Some f /\ rt_length (route_at w f0) <= rt_length (route_at w f)).
Proof.
  intros Hl. induction l as [|r l IH]; intros found; cbn [fold_left].
  - split; [by left|]. split; [set_solver|]. intros f0 ->. by exists f0.
  - destruct (IH (better w addr found r)) as (H1 & H2 & H3). specialize (Hl r) as Hr. unfold u8 in Hr.
    unfold better in *. destruct (_ && _) eqn:E.
    + apply andb_true_iff in E as [Hle%Z.leb_le Hm]. split; [|split].
      * intros f Hf. destruct (H1 f Hf) as [[= <-]|[? ?]]; right; set_solver.
      * intros x [->|Hx]%elem_of_cons Hxm; [by apply H3|by apply H2].
      * intros f0 ->. destruct (H3 r eq_refl) as (f & ? & ?). exists f. split; [done|lia].
    + split; [|split].
      * intros f Hf. destruct (H1 f Hf) as [?|[? ?]]; [by left|right; set_solver].
      * intros x [->|Hx]%elem_of_cons Hxm; [|by apply H2]. rewrite Hxm, andb_true_r in E. apply Z.leb_gt in E.
        destruct found as [f0|]; [|lia]. destruct (H3 f0 eq_refl) as (f & ? & ?). exists f. split; [done|lia].
      * done.
Qed.
Lemma route_lookup_spec w rs ks addr : ds6_wf w rs ks ->
  uip_ds6_route_lookup w addr = Some (fold_left (better w addr) (routes_seen w rs ks) None).
Proof.
  intros Hw. unfold uip_ds6_route_lookup. rewrite (route_head_spec w rs ks) by done. cbn [mbind option_bind].
  unfold routes_seen. destruct (members w NBR_ROUTES ks) as [|i js] eqn:Em; [done|].
  assert (visible rs (i :: js) = [] \/ visible rs (i :: js) = rs i ++ visible rs js) as [E|E] by (cbn; destruct (rs i); auto).
  - by rewrite E.
  - rewrite E. apply (route_walk_spec w rs ks addr Hw js (fuel_of (route_next w)) [] i []); [done|done|].
    rewrite <- E, <- Em. unfold fuel_of. apply Nat.lt_succ_r.
    assert (NoDup (visible rs (members w NBR_ROUTES ks))) as Hd.
    { assert (NoDup (members w NBR_ROUTES ks)) as Hm by (apply NoDup_filter; eapply chain_distinct, nw_keys, dw_nbr, Hw).
      pose proof (dw_inv _ _ _ Hw) as Hi. assert (forall j, j ∈ members w NBR_ROUTES ks -> NoDup (rs j)) as Hn.
      { intros j [Ho Hj]%elem_of_members. eapply chain_distinct. apply (di_used _ _ Hi j); [|done]. eapply wf_lt; [apply (dw_nbr _ _ _ Hw)|done]. }
      revert Hm Hn. generalize (members w NBR_ROUTES ks). intros l. induction l as [|j l IH]; cbn; [constructor|].
      intros [Hj Hm]%NoDup_cons Hn. destruct (rs j) eqn:Ej; [constructor|]. rewrite <- Ej. apply NoDup_app.
      split; [apply Hn; set_solver|]. split; [|apply IH; [done|set_solver]].
      intros x Hx (j' & Hj' & Hx')%elem_of_visible. apply Hj. by rewrite (di_disj _ _ Hi j j' x Hx Hx'). }
    rewrite <- (size_list_to_set (C := gset nat)) by done. rewrite <- (size_dom (D := gset nat) (route_next w)).
    apply subseteq_size. intros x Hx%elem_of_list_to_set. apply elem_of_dom, (di_dom _ _ (dw_inv _ _ _ Hw)).
    apply elem_of_visible in Hx as (j & _ & Hx). by destruct (di_lt _ _ _ _ (dw_inv _ _ _ Hw) Hx) as (_ & _ & ?).
Qed.

(** No neighbour of the table of routes has an empty list. *)
Definition no_empty_list w : Prop := forall i, (i < NBR_TABLE_MAX_NEIGHBORS)%nat -> on w NBR_ROUTES i = true -> route_list_head w i <> Some None.

Lemma all_seen w rs ks r : ds6_wf w rs ks -> no_empty_list w -> in_use (routememb w) r -> r ∈ routes_seen w rs ks.
Proof.
  intros [Hi Hw] Hne [i Hr]%(di_alloc _ _ Hi). destruct (di_lt _ _ _ _ Hi Hr) as (Hlt & Ho & _).
  apply (visible_all rs _ r i); [|apply elem_of_members; split; [done|eapply used_key; [exact Hw|done|exact Ho]]|done].
  intros j [Hoj Hj]%elem_of_members Hnil. pose proof (wf_lt _ _ _ _ Hw Hj) as Hjl.
  apply (Hne j Hjl Hoj). rewrite (list_head_at w rs) by done. by rewrite Hnil.
Qed.
Lemma seen_in_use w rs ks r : ds6_wf w rs ks -> r ∈ routes_seen w rs ks -> in_use (routememb w) r.
Proof. intros [Hi _] (i & _ & Hr)%elem_of_visible. apply (di_alloc _ _ Hi). by exists i. Qed.

(** C25: [uip_ds6_route_lookup] finds the longest prefix among the routes its walk
    passes, in every well-formed state: it returns, and what it returns is a
    route in use whose prefix matches the address and is as long as that of any
    other route passed that does, or [NULL] when none of them does.  The walk
    goes through the lists of the neighbours with routes and ends at the first
    neighbour whose list is empty ([routes_seen]); when no list is empty it
    passes every route in use.  ("Matches" is [uip_ipaddr_prefixcmp], which
    compares whole bytes.) *)
Theorem route_lookup_longest w rs ks addr : ds6_wf w rs ks ->
  let seen := routes_seen w rs ks in
  (exists p, uip_ds6_route_lookup w addr = Some p /\
    match p with
    | Some r => r ∈ seen /\ in_use (routememb w) r /\ route_matches w addr r = true /\
        forall r', r' ∈ seen -> route_matches w addr r' = true -> rt_length (route_at w r') <= rt_length (route_at w r)
    | None => forall r', r' ∈ seen -> route_matches w addr r' = false
    end) /\
  (no_empty_list w -> forall r, in_use (routememb w) r <-> r ∈ seen).
Proof.
  intros Hw seen. split; [|intros Hne r; split; [by apply all_seen|by apply seen_in_use]].
  pose proof (dw_inv _ _ _ Hw) as Hi. eexists. split; [by apply route_lookup_spec|].
  destruct (fold_better w addr (routes_seen w rs ks) (di_rlen _ _ Hi) None) as (H1 & H2 & _).
  destruct (fold_left _ _ _) as [r|].
  - destruct (H1 r eq_refl) as [?|[Hr Hm]]; [done|]. split; [done|]. split; [by eapply seen_in_use|split; [done|]].
    intros r' Hr' Hm'. by destruct (H2 r') as (f & [= <-] & ?).
  - intros r' Hr'. apply not_true_is_false. intros Hm'. by destruct (H2 r') as (f & ? & _).
Qed.
