(* ===== verification/Ds6Calls.v ===== *)
(** * Every call of the IPv6 interface returns and keeps the invariant *)
From S2P Require Export Ds6Route.
From stdpp Require Import list gmap.
Local Open Scope Z_scope.

Implicit Types w : ds6.

(** ** Putting an item into a table *)
Lemma get_bit_set {T} `{EqDecision T} (s : nbr_tables T) t t' k j : registered s t -> registered s t' -> maps_ok s ->
  (k < NBR_TABLE_MAX_NEIGHBORS)%nat ->
  nbr_get_bit (s <| used_map := (nbr_set_bit s (used_map s) t (Some k) true).1 |>) (nbr_set_bit s (used_map s) t (Some k) true).1 t' (Some j) =
    if decide (t' = t /\ j = k) then true else nbr_get_bit s (used_map s) t' (Some j).
Proof.
  intros Hr Hr' [[Hl Hb] _] Hk.
  assert (registered (s <| used_map := (nbr_set_bit s (used_map s) t (Some k) true).1 |>) t') as Hr2 by done.
  rewrite !get_bit_spec by done. cbn [table_index set_field].
  rewrite (set_bit_rd s (used_map s) t k true j) by (done || lia). destruct (decide (j = k)) as [->|].
  - rewrite Z.setbit_eqb by (destruct Hr; lia). destruct (decide (t' = t /\ k = k)) as [[-> _]|Hne].
    + by rewrite Z.eqb_refl.
    + destruct (Z.eqb_spec (table_index s t) (table_index s t')) as [E|]; [|done].
      exfalso. apply Hne. split; [|done]. destruct Hr as [_ Hr], Hr' as [_ Hr']. rewrite E in Hr. congruence.
  - by rewrite decide_False by tauto.
Qed.

(** What [nbr_table_add_lladdr] leaves, for either table. *)
Lemma add_known t ll w rs ks : ds6_wf w rs ks -> lladdr_ok (default rimeaddr_null ll) ->
  exists w' r, nbr_table_add_lladdr t ll w = Some (w', r) /\
    match r with
    | None => w' = w
    | Some i => exists w1 rs1 ks1, ds6_wf w1 rs1 ks1 /\ i ∈ ks1 /\
        w' = (item_zero t i w1) <| nt := (nt w1) <| used_map := (nbr_set_bit (nt w1) (used_map (nt w1)) t (Some i) true).1 |> |> /\
        nbr_wf (nt w') ks1 /\
        (nbr_table_get_from_lladdr (nt w) t ll = Some None -> on w1 t i = false)
    end.
Proof.
  intros [Hi Hw] Hl. assert (client_w := ex_intro _ rs Hi : ds6_client w).
  pose proof (nbr_table_add_spec ds6_client t ll w ks client_w) as Hadd. cbn [nbr_get ds6_world] in Hadd.
  destruct (Hadd Hw Hl) as (w' & r & E & Hr). exists w', r. split; [exact E|].
  destruct r as [i|]; [|by destruct Hr]. destruct Hr as (w1 & ks1 & [rs1 Hi1] & Hw1 & Hix & Hat & -> & Hcase).
  assert (forall t', registered (nt w1) t') as Hreg1 by (intros []; apply (di_nbr _ _ Hi1)).
  assert (forall t', registered (nt w) t') as Hreg by (intros []; apply (di_nbr _ _ Hi)).
  assert (i ∈ ks1) as Hik by (destruct Hcase as [(v & _ & Hv & _)|(_ & l1 & _ & _ & Hv)]; by eapply list_elem_of_lookup_2).
  exists w1, rs1, ks1. split; [by split|]. split; [done|].
  assert (nbr_upd (fun s => s <| used_map := (nbr_set_bit s (used_map s) t (Some i) true).1 |>) (item_zero t i w1) =
    (item_zero t i w1) <| nt := (nt w1) <| used_map := (nbr_set_bit (nt w1) (used_map (nt w1)) t (Some i) true).1 |> |>) as Eu by (by destruct t).
  split; [exact Eu|]. rewrite Eu. split.
  - cbn [nt set_field]. apply list_elem_of_lookup in Hik as [v Hv].
    destruct (set_bits_view (nt w1) None ks1 v i t (Some true) None Hw1 (Hreg1 t) Hv) as [Hw2 _].
    rewrite <- (upd_maps_id (set_field used_map _ (nt w1))). exact Hw2.
  - intros Hg. unfold on. rewrite get_bit_spec by done. destruct Hcase as [(v & Hf & Hv & -> & ->)|(Hf & l1 & _ & Hv1 & Hv)].
    + rewrite (nbr_table_get_spec _ _ _ None ks) in Hg by done. cbn [nbr_get ds6_world] in Hf. rewrite Hf in Hg.
      cbn [mbind option_bind] in Hg. unfold view in Hg. rewrite list_lookup_fmap, Hv in Hg. cbn [fmap option_fmap option_map mbind option_bind n_used] in Hg.
      by destruct (Z.testbit _ _).
    + cbn [nbr_get ds6_world] in *. assert (view (nt w1) ks1 !! length l1 = Some (Neighbor (default rimeaddr_null ll) 0 0)) as Hn
        by (rewrite Hv1; by apply list_lookup_middle). apply view_lookup in Hn as (k & Hk & [= _ E0 _]).
      assert (k = i) as -> by congruence. rewrite <- E0. apply Z.bits_0.
Qed.

(** [nt] with the bit of [t] for [i] set. *)
Definition with_bit w (t : ds6_table) (i : nat) : ds6 :=
  w <| nt := (nt w) <| used_map := (nbr_set_bit (nt w) (used_map (nt w)) t (Some i) true).1 |> |>.
Lemma on_with_bit w rs t t' i j : ds6_inv w rs -> (i < NBR_TABLE_MAX_NEIGHBORS)%nat ->
  on (with_bit w t i) t' j = if decide (t' = t /\ j = i) then true else on w t' j.
Proof.
  intros Hi Hlt. assert (forall t', registered (nt w) t') as Hreg by (intros []; apply (di_nbr _ _ Hi)).
  unfold on, with_bit. cbn [nt used_map set_field]. apply get_bit_set; [done|done|by eapply di_maps|done].
Qed.

Lemma nbr_add_inv w rs ks ip ll isr st : ds6_wf w rs ks -> lladdr_ok (default rimeaddr_null ll) ->
  exists w' r rs' ks', uip_ds6_nbr_add ip ll isr st w = Some (w', r) /\ ds6_wf w' rs' ks' /\
    match r with Some i => on w' DS6_NEIGHBORS i = true /\ nbr_ipaddr (nbr_at w' i) = ip /\ nbr_state (nbr_at w' i) = st | None => w' = w end.
Proof.
  intros Hw Hl. unfold uip_ds6_nbr_add.
  destruct (add_known DS6_NEIGHBORS ll w rs ks Hw Hl) as (w0 & r & -> & Hr). cbn [mbind option_bind].
  destruct r as [i|]; [|subst; exists w, None, rs, ks; done].
  destruct Hr as (w1 & rs1 & ks1 & [Hi1 Hw1] & Hik & -> & Hw2 & _). pose proof (wf_lt _ _ _ _ Hw1 Hik) as Hlt.
  set (f := fun n : uip_ds6_nbr_t => _). eexists (upd_nbr i f _), (Some i), rs1, ks1. split; [done|].
  change (set_field nt _ _) with (upd_nbr i (fun _ => zero_nbr) (with_bit w1 DS6_NEIGHBORS i)).
  assert (forall t j, on (upd_nbr i f (upd_nbr i (fun _ => zero_nbr) (with_bit w1 DS6_NEIGHBORS i))) t j =
    if decide (t = DS6_NEIGHBORS /\ j = i) then true else on w1 t j) as Hon by (intros t j; by eapply on_with_bit).
  destruct (di_len _ _ Hi1) as [Hl1 Hl2]. split; [split|].
  - destruct Hi1. constructor; cbn [nt nbr_data routes_data routememb route_next num_routes set_field upd_nbr with_bit]; try done.
    + by eauto.
    + split; [by rewrite !length_alter|done].
    + intros j Hj. rewrite Hon, decide_False by (by intros [? _]). by apply di_used.
    + intros j. rewrite Hon, decide_False by (by intros [? _]). by apply di_unused.
  - exact Hw2.
  - rewrite Hon, decide_True by done. split; [done|]. unfold nbr_at, upd_nbr. cbn [nbr_data set_field with_bit].
    rewrite !list_lookup_alter_eq. destruct (lookup_lt_is_Some_2 (nbr_data w1) i) as [x Hx]; [lia|]. by rewrite Hx.
Qed.

(** ** Adding a route *)
Lemma routes_for_inv ll w rs ks : ds6_wf w rs ks -> lladdr_ok ll ->
  exists w' r rs' ks', routes_for ll w = Some (w', r) /\ ds6_wf w' rs' ks' /\
    match r with Some j => j ∈ ks' /\ on w' NBR_ROUTES j = true | None => True end.
Proof.
  intros Hw Hl. pose proof (dw_inv _ _ _ Hw) as Hi. unfold routes_for.
  assert (registered (nt w) NBR_ROUTES) as Hreg by apply (di_nbr _ _ Hi).
  pose proof (nbr_table_get_spec (nt w) NBR_ROUTES (Some ll) None ks (dw_nbr _ _ _ Hw) Hl Hreg) as Hget.
  destruct (nbr_table_get_from_lladdr (nt w) NBR_ROUTES (Some ll)) as [[j|]|] eqn:Eg; [| |done]; cbn [mbind option_bind].
  - exists w, (Some j), rs, ks. split; [done|]. split; [done|]. injection Hget as Hget. symmetry in Hget.
    apply bind_Some in Hget as (v & Hf & Hget). apply bind_Some in Hget as (n & Hn & Hget).
    destruct (Z.testbit _ _) eqn:Et; [|done]. apply view_lookup in Hn as (k & Hk & ->). simplify_eq.
    split; [by eapply list_elem_of_lookup_2|]. unfold on. by rewrite get_bit_spec by done.
  - destruct (add_known NBR_ROUTES (Some ll) w rs ks Hw Hl) as (w0 & r & -> & Hr). cbn [mbind option_bind].
    destruct r as [j|]; [|subst; exists w, None, rs, ks; done].
    destruct Hr as (w1 & rs1 & ks1 & [Hi1 Hw1] & Hjk & -> & Hw2 & Hoff). pose proof (wf_lt _ _ _ _ Hw1 Hjk) as Hlt.
    specialize (Hoff Eg). eexists _, (Some j), rs1, ks1. split; [done|].
    change (set_field nt _ _) with (upd_routes j (fun _ => zero_routes) (with_bit w1 NBR_ROUTES j)).
    set (w3 := upd_routes j _ _).
    assert (forall t i, on w3 t i = if decide (t = NBR_ROUTES /\ i = j) then true else on w1 t i) as Hon by (intros t i; by eapply on_with_bit).
    destruct (di_len _ _ Hi1) as [Hl1 Hl2].
    assert (forall i, routes_at w3 i = if decide (i = j) then NeighborRoutes None true else routes_at w1 i) as Hra.
    { intros i. unfold routes_at, w3, upd_routes. cbn [routes_data set_field with_bit]. case_decide.
      - subst. rewrite !list_lookup_alter_eq. destruct (lookup_lt_is_Some_2 (routes_data w1) j) as [x Hx]; [lia|]. by rewrite Hx.
      - by rewrite !list_lookup_alter_ne by done. }
    assert (rs1 j = []) as Hnil by (apply (di_unused _ _ Hi1); by right).
    split; [split|split; [done|by rewrite Hon, decide_True]].
    + destruct Hi1. constructor; try done.
      * by eauto.
      * unfold w3, upd_routes. cbn. split; [done|]. by rewrite !length_alter.
      * intros i Hii. rewrite Hon, Hra. destruct (decide (i = j)) as [->|]; [by rewrite Hnil|].
        rewrite decide_False by tauto. by apply di_used.
      * intros i [?|Hoi]; [apply di_unused; by left|]. rewrite Hon in Hoi. case_decide; [done|]. apply di_unused. by right.
    + exact Hw2.
Qed.
Lemma set_route_inv r ip len nh w rs ks : ds6_wf w rs ks -> u8 len ->
  exists w', set_route r ip len nh w = Some (w', Some r) /\ ds6_wf w' rs ks.
Proof.
  intros [Hi Hw] Hlen. unfold set_route. set (w1 := upd_route r _ w).
  assert (forall x, route_at w1 x = if decide (x = r /\ x < UIP_DS6_ROUTE_NB)%nat then Route (rt_routes (route_at w x)) ip len else route_at w x) as Hra.
  { intros x. destruct (di_memb _ _ Hi) as [_ Hn]. unfold memb_num in Hn.
    unfold route_at, w1, upd_route. cbn [routememb set_field memb_mem]. case_decide as Hd.
    - destruct Hd as [-> Hlt]. rewrite list_lookup_alter_eq. destruct (lookup_lt_is_Some_2 (memb_mem (routememb w)) r) as [y Hy]; [lia|]. by rewrite Hy.
    - destruct (decide (r = x)) as [->|]; [|by rewrite list_lookup_alter_ne by done]. rewrite list_lookup_alter_eq.
      rewrite (lookup_ge_None_2 (memb_mem (routememb w)) x); [done|]. lia. }
  assert (ds6_inv w1 rs) as Hi1.
  { destruct Hi. constructor; try done.
    - unfold w1, upd_route. destruct di_memb as [[Hl Hb] Hn]. split; [split|]; unfold memb_num in *; cbn; by rewrite ?length_alter.
    - intros i x Hx. rewrite Hra. case_decide; [cbn|]; by apply di_back.
    - intros x. rewrite Hra. case_decide; [done|apply di_rlen]. }
  destruct (call_route_callback_spec UIP_DS6_NOTIFICATION_ROUTE_ADD ip (Some nh) w1 rs Hi1) as [l ->]. cbn [mbind option_bind].
  eexists. split; [done|]. split; [by apply notified_inv|exact Hw].
Qed.

(** The state with the fresh block [r] on the list of neighbour [j]. *)
Lemma link_inv w rs ks j m r nx hd : ds6_wf w rs ks -> j ∈ ks -> on w NBR_ROUTES j = true ->
  memb_alloc (routememb w) = (m, Some r) ->
  list_add (route_next w) (route_list_list (routes_at w j)) r = Some (nx, hd) ->
  ds6_wf (upd_route r (fun x => x <| rt_routes := Some j |>)
           (upd_routes j (fun x => x <| route_list_list := hd |>) (w <| routememb := m |> <| route_next := nx |>) <| num_routes ::= Z.succ |>))
    (upd_rs rs j (rs j ++ [r])) ks.
Proof.
  intros [Hi Hw] Hjk Ho Hm Hadd. pose proof (wf_lt _ _ _ _ Hw Hjk) as Hj. destruct (di_used _ _ Hi j Hj Ho) as [Hl Hc].
  destruct (di_memb _ _ Hi) as [Hmw Hmn]. pose proof (memb_alloc_spec (routememb w) Hmw) as Ha. rewrite Hm in Ha.
  destruct Ha as (Hmw' & Hmem & Hr & Hfree & Huse & _). rewrite Hmn in Hr.
  assert (forall i, r ∉ rs i) as Hnew by (intros i Hri; apply Hfree, (di_alloc _ _ Hi); by exists i).
  destruct (list_add_spec _ _ _ r Hc) as (nx' & hd' & E & Hc' & Hu); [by apply (di_dom _ _ Hi)|].
  rewrite Hadd in E. injection E as [= <- <-]. rewrite without_notin in Hc' by apply Hnew.
  set (w3 := upd_route r _ _).
  assert (forall t i, on w3 t i = on w t i) as Hon by done.
  destruct (di_len _ _ Hi) as [Hl1 Hl2].
  assert (forall i, routes_at w3 i = if decide (i = j) then NeighborRoutes hd true else routes_at w i) as Hra.
  { intros i. unfold routes_at, w3, upd_route, upd_routes. cbn [routes_data set_field]. case_decide as Eij.
    - subst. rewrite list_lookup_alter_eq. destruct (lookup_lt_is_Some_2 (routes_data w) j) as [x Hx]; [lia|].
      unfold routes_at in Hl. rewrite Hx in Hl |- *. cbn in *. by rewrite <- Hl.
    - by rewrite list_lookup_alter_ne by done. }
  assert (memb_mem (routememb w3) = alter (fun x => x <| rt_routes := Some j |>) r (memb_mem (routememb w))) as Hmem3
    by (rewrite <- Hmem; done).
  assert (forall x, route_at w3 x = if decide (x = r) then (route_at w r) <| rt_routes := Some j |> else route_at w x) as Hrt.
  { intros x. unfold route_at. rewrite Hmem3. case_decide as Ex.
    - subst. rewrite list_lookup_alter_eq. unfold memb_num in Hmn. destruct (lookup_lt_is_Some_2 (memb_mem (routememb w)) r) as [y Hy]; [lia|].
      by rewrite Hy.
    - by rewrite list_lookup_alter_ne by done. }
  split; [|exact Hw]. destruct Hi. constructor; try done.
  - unfold w3, upd_routes. cbn. split; [done|]. by rewrite length_alter.
  - unfold w3, upd_route. unfold memb_num in *. cbn. rewrite length_alter, Hmem. split; [|done].
    destruct Hmw' as [Hml Hmb]. unfold memb_num in Hml. split; [|done]. unfold memb_num. cbn. by rewrite length_alter.
  - intros x. change (route_next w3) with nx. rewrite (upd_dom _ _ _ Hu). apply di_dom.
  - intros i Hilt Hoi. rewrite Hra. change (route_next w3) with nx. unfold upd_rs. case_decide as Eij; [done|].
    destruct (di_used i Hilt Hoi) as [? Hci]. split; [done|]. eapply updates_chain; [exact Hu| |exact Hci].
    intros x Hx [->|Hx']%elem_of_cons; [by apply (Hnew i)|]. apply Eij. by eapply di_disj.
  - intros i Hii. unfold upd_rs. case_decide as Eij; [subst|by apply di_unused].
    destruct Hii as [?|Hii]; [lia|]. rewrite Hon in Hii. congruence.
  - intros i i' x. unfold upd_rs. repeat case_decide; subst; rewrite ?elem_of_app, ?list_elem_of_singleton; try done.
    + intros [?| ->] ?; [by eapply di_disj|by destruct (Hnew i')].
    + intros ? [?| ->]; [by eapply di_disj|by destruct (Hnew i)].
    + apply di_disj.
  - intros x. change (in_use (routememb w3) x) with (in_use m x). rewrite Huse, di_alloc. unfold upd_rs. split.
    + intros [->|[i Hx]]; [exists j; rewrite decide_True by done; set_solver|]. exists i. case_decide; [subst i; set_solver|done].
    + intros [i Hx]. case_decide; [subst; apply elem_of_app in Hx as [?| ->%list_elem_of_singleton]; [right; by exists j|by left]|right; by exists i].
  - intros i x Hx. rewrite Hrt. unfold upd_rs in Hx. case_decide as Ex.
    + case_decide as Exr; [cbn; congruence|]. apply di_back. subst i. apply elem_of_app in Hx as [?|?%list_elem_of_singleton]; done.
    + case_decide as Exr; [subst x; by destruct (Hnew i)|by apply di_back].
  - change (num_routes w3) with (Z.succ (num_routes w)). rewrite di_num, (total_upd rs j _ 1); [lia|apply NoDup_seq|apply elem_of_seq; lia|].
    rewrite length_app. cbn. lia.
  - intros x. rewrite Hrt. case_decide; [by subst; apply di_rlen|apply di_rlen].
Qed.
Lemma route_add_inv ip len nh w rs ks : ds6_wf w rs ks -> u8 len ->
  exists w' r rs' ks', uip_ds6_route_add ip len nh w = Some (w', r) /\ ds6_wf w' rs' ks'.
Proof.
  intros Hw Hlen. unfold uip_ds6_route_add. destruct (lladdr_from_ipaddr_spec w rs ks nh Hw) as (ll & -> & Hll). cbn [mbind option_bind].
  destruct ll as [ll|]; [|by exists w, None, rs, ks]. rewrite (route_lookup_spec w rs ks) by done. cbn [mbind option_bind].
  destruct (fold_left _ _ _) as [r|].
  - destruct (set_route_inv r ip len nh w rs ks Hw Hlen) as (w' & -> & Hw'). by exists w', (Some r), rs, ks.
  - destruct (routes_for_inv ll w rs ks Hw Hll) as (w1 & j & rs1 & ks1 & -> & Hw1 & Hj). cbn [mbind option_bind].
    destruct j as [j|]; [|by exists w1, None, rs1, ks1]. destruct Hj as [Hjk Ho].
    destruct (memb_alloc (routememb w1)) as [m [r|]] eqn:Em; [|by exists w1, None, rs1, ks1].
    pose proof (dw_inv _ _ _ Hw1) as Hi1. pose proof (wf_lt _ _ _ _ (dw_nbr _ _ _ Hw1) Hjk) as Hlt.
    destruct (di_used _ _ Hi1 j Hlt Ho) as [Hl Hc]. unfold route_list_head. change (routes_at (w1 <| routememb := m |>) j) with (routes_at w1 j).
    rewrite Hl. cbn [mbind option_bind list_head route_next set_field].
    assert (r < UIP_DS6_ROUTE_NB)%nat as Hr.
    { destruct (di_memb _ _ Hi1) as [Hmw Hmn]. pose proof (memb_alloc_spec _ Hmw) as Ha. rewrite Em in Ha. destruct Ha as (_ & _ & ? & _). lia. }
    destruct (list_add_spec _ _ _ r Hc) as (nx & hd & E & _); [by apply (di_dom _ _ Hi1)|]. unfold list_head. rewrite E. cbn [mbind option_bind].
    destruct (set_route_inv r ip len nh _ _ _ (link_inv w1 rs1 ks1 j m r nx hd Hw1 Hjk Ho Em E) Hlen) as (w' & E' & Hw').
    eexists w', (Some r), _, ks1. split; [exact E'|exact Hw'].
Qed.

(** ** Removing *)
Lemma remove_wf w ks t i w' : nbr_wf (nt w) ks -> registered (nt w) t -> i ∈ ks ->
  nt w' = (nbr_table_remove (nt w) t (Some i)).1 -> nbr_wf (nt w') ks.
Proof. intros Hw Hr Hi ->. by apply remove_inv. Qed.
Lemma route_rm_wf w rs ks r : ds6_wf w rs ks -> in_use (routememb w) r ->
  exists w' rs', uip_ds6_route_rm (Some r) w = Some w' /\ ds6_wf w' rs' ks.
Proof.
  intros [Hi Hw] [j Hr]%(di_alloc _ _ Hi). destruct (route_rm_spec w rs j r Hi Hr) as (w' & -> & Hi' & Hnt).
  exists w', (upd_rs rs j (without r (rs j))). split; [done|]. split; [done|]. destruct (di_lt _ _ _ _ Hi Hr) as (Hj & Ho & _).
  destruct (without r (rs j)); [|by rewrite Hnt]. eapply remove_wf; [done|apply (di_nbr _ _ Hi)| |exact Hnt]. by eapply used_key.
Qed.
Lemma rm_routelist_wf w rs ks i : ds6_wf w rs ks -> (match i with Some j => j ∈ ks /\ on w NBR_ROUTES j = true | None => True end) ->
  exists w' rs', rm_routelist i w = Some w' /\ ds6_wf w' rs' ks.
Proof.
  intros Hwf Hj. destruct i as [j|]; [|by exists w, rs]. destruct Hwf as [Hi Hw]. destruct Hj as [Hj Ho].
  destruct (rm_routelist_spec w rs j Hi (wf_lt _ _ _ _ Hw Hj) Ho) as (w' & -> & Hi' & Hnt). eexists w', _. split; [done|].
  split; [exact Hi'|]. eapply remove_wf; [done|apply (di_nbr _ _ Hi)|done|exact Hnt].
Qed.
Lemma get_member w rs ks t ll : ds6_wf w rs ks -> lladdr_ok (default rimeaddr_null ll) ->
  exists p, nbr_table_get_from_lladdr (nt w) t ll = Some p /\ match p with Some j => j ∈ ks /\ on w t j = true | None => True end.
Proof.
  intros [Hi Hw] Hl. assert (registered (nt w) t) as Hreg by (destruct t; apply (di_nbr _ _ Hi)).
  rewrite (nbr_table_get_spec (nt w) t ll None ks Hw Hl Hreg). eexists. split; [done|].
  destruct (find_nbr _ _) as [v|]; cbn [mbind option_bind]; [|done]. destruct (view _ _ !! v) as [n|] eqn:En; cbn [mbind option_bind]; [|done].
  destruct (Z.testbit _ _) eqn:Et; [|done]. apply view_lookup in En as (k & Hk & ->). rewrite Hk.
  split; [by eapply list_elem_of_lookup_2|]. unfold on. by rewrite get_bit_spec.
Qed.
Lemma rm_by_nexthop_wf w rs ks nh : ds6_wf w rs ks -> exists w' rs', uip_ds6_route_rm_by_nexthop nh w = Some w' /\ ds6_wf w' rs' ks.
Proof.
  intros Hw. unfold uip_ds6_route_rm_by_nexthop. destruct (lladdr_from_ipaddr_spec w rs ks nh Hw) as (ll & -> & Hll). cbn [mbind option_bind].
  destruct (get_member w rs ks NBR_ROUTES ll Hw) as (p & -> & Hp); [by destruct ll|]. cbn [mbind option_bind]. by eapply rm_routelist_wf.
Qed.

(** ** Default routers *)
Lemma defrt_upd_wf d f w rs ks : ds6_wf w rs ks -> ds6_wf (upd_defrt d f w) rs ks.
Proof.
  intros [Hi Hw]. split; [|done]. destruct Hi. constructor; try done.
  destruct di_defrt as [[Hl Hb] Hn]. unfold upd_defrt, memb_num in *. split; [split|]; unfold memb_num; cbn; by rewrite ?length_alter.
Qed.
Lemma set_defrt_wf d ip iv w rs ks : ds6_wf w rs ks -> exists w', set_defrt d ip iv w = Some (w', Some d) /\ ds6_wf w' rs ks.
Proof.
  intros Hw. unfold set_defrt. set (w2 := if negb (iv =? 0) then _ else _).
  assert (ds6_wf w2 rs ks) as [Hi2 Hw2] by (unfold w2; case_match; by do 2 apply defrt_upd_wf).
  destruct (call_route_callback_spec UIP_DS6_NOTIFICATION_DEFRT_ADD ip (Some ip) w2 rs Hi2) as [l ->]. cbn [mbind option_bind].
  eexists. split; [done|]. split; [by apply notified_inv|exact Hw2].
Qed.
Definition defrts_at w (a : ip6) (ds : list nat) : list nat := filter (fun i : nat => d_ipaddr (defrt_at w i) = a) ds.
Lemma defrt_lookup_from_spec w a ds : forall fuel d, chain (defrt_next w) d ds -> (length ds < fuel)%nat ->
  defrt_lookup_from fuel w a d = Some (head (defrts_at w a ds)).
Proof.
  induction ds as [|i ds IH]; intros fuel d Hc Hf; unfold chain in Hc; cbn in Hc; (destruct fuel as [|fuel]; [lia|]); cbn [defrt_lookup_from].
  - by subst.
  - destruct Hc as (-> & n & Hn & Hc). unfold uip_ip6addr_cmp, defrts_at. rewrite filter_cons.
    case_bool_decide as Ha; [by rewrite decide_True|]. rewrite decide_False by done. cbn [list_item_next]. rewrite Hn. cbn [mbind option_bind].
    apply IH; [done|cbn in Hf; lia].
Qed.
Lemma defrt_lookup_spec w a ds : chain (defrt_next w) (defaultrouterlist w) ds -> uip_ds6_defrt_lookup w a = Some (head (defrts_at w a ds)).
Proof. intros Hc. apply defrt_lookup_from_spec; [done|]. pose proof (chain_fuel _ _ _ Hc). lia. Qed.
Lemma defrt_add_wf ip iv w rs ks : ds6_wf w rs ks -> exists w' r, uip_ds6_defrt_add ip iv w = Some (w', r) /\ ds6_wf w' rs ks.
Proof.
  intros Hw. pose proof (dw_inv _ _ _ Hw) as Hi. destruct (di_defrts _ _ Hi) as (ds & Hc & Hd). unfold uip_ds6_defrt_add.
  rewrite (defrt_lookup_spec w ip ds Hc). cbn [mbind option_bind]. destruct (head _) as [d|].
  { destruct (set_defrt_wf d ip iv w rs ks Hw) as (w' & -> & ?). by exists w', (Some d). }
  destruct (di_defrt _ _ Hi) as [Hmw Hmn]. pose proof (memb_alloc_spec _ Hmw) as Ha. destruct (memb_alloc _) as [m [d|]]; [|by exists w, None].
  destruct Ha as (Hmw' & Hmem & Hlt & Hfree & Huse & _). rewrite Hmn in Hlt.
  destruct (list_push_spec _ _ _ d Hc) as (nx & hd & -> & Hc' & Hu); [by apply (di_defrt_dom _ _ Hi)|]. cbn [mbind option_bind].
  rewrite without_notin in Hc' by (by rewrite <- Hd).
  set (w1 := w <| defaultroutermemb := m |> <| defrt_next := nx |> <| defaultrouterlist := hd |>).
  assert (ds6_wf w1 rs ks) as Hw1.
  { split; [|apply (dw_nbr _ _ _ Hw)]. destruct Hi. constructor; try done.
    - unfold w1, memb_num in *. cbn. by rewrite Hmem.
    - intros x. unfold w1. cbn [defrt_next set_field]. rewrite (upd_dom _ _ _ Hu). apply di_defrt_dom.
    - exists (d :: ds). split; [done|]. intros x. unfold w1. cbn [defaultroutermemb set_field]. rewrite Huse, elem_of_cons, Hd. done. }
  destruct (set_defrt_wf d ip iv w1 rs ks Hw1) as (w' & E & ?). rewrite E. by exists w', (Some d).
Qed.
