(* ===== verification/Ds6Run.v ===== *)
(** * Running the IPv6 structures

    The default routers that expire, and that every sequence of calls returns
    and keeps the invariant. *)
From S2P Require Export Ds6Calls.
From stdpp Require Import list gmap.
Local Open Scope Z_scope.

Implicit Types w : ds6.

(** ** Removing a default router *)
(** [ds] are the default routers, in the order of the list. *)
Definition defrts w (ds : list nat) : Prop :=
  chain (defrt_next w) (defaultrouterlist w) ds /\ forall d, in_use (defaultroutermemb w) d <-> d ∈ ds.

(** The state without the router [d]. *)
Lemma defrt_unlink_wf w rs ks ds d nx hd : ds6_wf w rs ks -> defrts w ds -> d ∈ ds ->
  list_remove (defrt_next w) (defaultrouterlist w) d = Some (nx, hd) ->
  let w' := w <| defrt_next := nx |> <| defaultrouterlist := hd |>
              <| defaultroutermemb := (memb_free (defaultroutermemb w) d).1 |> in
  ds6_wf w' rs ks /\ defrts w' (without d ds) /\ memb_mem (defaultroutermemb w') = memb_mem (defaultroutermemb w).
Proof.
  intros [Hi Hw] [Hc Hu] Hd Hrm. cbv zeta.
  destruct (list_remove_spec _ _ _ d Hc) as (nx' & hd' & E & Hc' & Hup & _). rewrite Hrm in E. injection E as [= <- <-].
  destruct (di_defrt _ _ Hi) as [Hmw Hmn].
  assert (d < UIP_DS6_DEFRT_NB)%nat as Hlt by (apply (di_defrt_dom _ _ Hi); by eapply seg_dom).
  destruct (memb_free_spec (defaultroutermemb w) d Hmw) as (m & Em & Hmw' & Hmem & Huse); [by rewrite Hmn|]. rewrite Em. cbn [fst].
  assert (forall x, in_use m x <-> x ∈ without d ds) as Hin by (intros x; by rewrite Huse, Hu, elem_of_without).
  split; [|split; [by split|exact Hmem]]. split; [|exact Hw]. destruct Hi. constructor; try done.
  - split; [exact Hmw'|]. unfold memb_num in *. cbn. by rewrite Hmem.
  - intros x. cbn [defrt_next set_field]. rewrite (upd_dom _ _ _ Hup). apply di_defrt_dom.
  - by exists (without d ds).
Qed.

Lemma defrt_rm_from_spec w rs ks d : forall post fuel pre, ds6_wf w rs ks -> defrts w (pre ++ post) -> d ∉ pre -> d ∈ post ->
  (length post < fuel)%nat ->
  exists w', defrt_rm_from fuel d (head post) w = Some w' /\ ds6_wf w' rs ks /\ defrts w' (without d (pre ++ post)) /\
    memb_mem (defaultroutermemb w') = memb_mem (defaultroutermemb w) /\ now_s w' = now_s w.
Proof.
  induction post as [|i post IH]; intros fuel pre Hw Hds Hpre Hd Hf; [set_solver|].
  destruct fuel as [|fuel]; [lia|]. cbn [defrt_rm_from head]. case_decide as Hid.
  - subst i. destruct (list_remove_spec _ _ _ d (proj1 Hds)) as (nx & hd & E & _). rewrite E. cbn [mbind option_bind].
    destruct (defrt_unlink_wf w rs ks _ d nx hd Hw Hds) as ([Hi' Hw'] & Hds' & Hmem); [set_solver|done|].
    set (w1 := set_field defaultroutermemb _ _) in *.
    destruct (call_route_callback_spec UIP_DS6_NOTIFICATION_DEFRT_RM (d_ipaddr (defrt_at w1 d)) (Some (d_ipaddr (defrt_at w1 d))) w1 rs Hi') as [l E'].
    eexists. split; [exact E'|]. split; [split; [by apply notified_inv|exact Hw']|]. done.
  - cbn [list_item_next]. rewrite (chain_next_of _ _ _ _ _ (proj1 Hds)). cbn [mbind option_bind].
    assert (pre ++ i :: post = (pre ++ [i]) ++ post) as E by (by rewrite <- app_assoc). rewrite E in *.
    apply IH; [done|done|set_solver|set_solver|cbn in Hf; lia].
Qed.
Lemma defrt_rm_spec w rs ks d ds : ds6_wf w rs ks -> defrts w ds -> d ∈ ds ->
  exists w', uip_ds6_defrt_rm d w = Some w' /\ ds6_wf w' rs ks /\ defrts w' (without d ds) /\
    memb_mem (defaultroutermemb w') = memb_mem (defaultroutermemb w) /\ now_s w' = now_s w.
Proof.
  intros Hw Hds Hd. unfold uip_ds6_defrt_rm, list_head. rewrite (chain_head _ _ _ (proj1 Hds)).
  apply (defrt_rm_from_spec w rs ks d ds _ []); [done|done|set_solver|done|].
  pose proof (chain_fuel _ _ _ (proj1 Hds)). lia.
Qed.

(** ** Default routers that expire *)
Definition defrt_expired w (d : nat) : bool :=
  (d_isinfinite (defrt_at w d) =? 0) && stimer_expired (now_s w) (d_lifetime (defrt_at w d)).
Definition alive w (ds : list nat) : list nat := List.filter (fun d => negb (defrt_expired w d)) ds.
Lemma expired_same w w' d : memb_mem (defaultroutermemb w') = memb_mem (defaultroutermemb w) -> now_s w' = now_s w ->
  defrt_expired w' d = defrt_expired w d.
Proof. intros Hm Hn. unfold defrt_expired, defrt_at. by rewrite Hm, Hn. Qed.
Lemma alive_app w xs ys : alive w (xs ++ ys) = alive w xs ++ alive w ys.
Proof. apply List.filter_app. Qed.
Lemma alive_all w xs : (forall d, d ∈ xs -> defrt_expired w d = false) -> alive w xs = xs.
Proof. induction xs as [|x xs IH]; intros H; [done|]. cbn. rewrite H by set_solver. cbn. f_equal. apply IH. set_solver. Qed.

Lemma defrt_periodic_from_spec F n : forall fuel w rs ks pre post, ds6_wf w rs ks -> defrts w (pre ++ post) ->
  (forall d, d ∈ pre -> defrt_expired w d = false) -> (length (pre ++ post) <= n)%nat -> (n < F)%nat ->
  (n * F + length post < fuel)%nat ->
  exists w', defrt_periodic_from fuel (head post) w = Some w' /\ ds6_wf w' rs ks /\ defrts w' (alive w (pre ++ post)) /\
    memb_mem (defaultroutermemb w') = memb_mem (defaultroutermemb w) /\ now_s w' = now_s w.
Proof.
  induction n as [n IHn] using lt_wf_ind. intros fuel w rs ks pre post. revert fuel pre.
  induction post as [|d post IH]; intros fuel pre Hw Hds Hpre Hn HF Hf; (destruct fuel as [|fuel]; [lia|]); cbn [defrt_periodic_from head].
  - exists w. rewrite app_nil_r in *. by rewrite alive_all.
  - change ((d_isinfinite (defrt_at w d) =? 0) && stimer_expired (now_s w) (d_lifetime (defrt_at w d))) with (defrt_expired w d).
    pose proof (chain_distinct _ _ _ (proj1 Hds)) as Hnd. destruct (defrt_expired w d) eqn:Ex.
    + destruct (defrt_rm_spec w rs ks d _ Hw Hds) as (w1 & -> & Hw1 & Hds1 & Hm1 & Hn1); [set_solver|]. cbn [mbind option_bind].
      apply NoDup_app in Hnd as (_ & Hnd & [Hdp _]%NoDup_cons).
      rewrite without_split in Hds1 by (done || (intros Hd; apply (Hnd d Hd); set_solver)).
      rewrite length_app in Hn. cbn in Hn. unfold list_head. rewrite (chain_head _ _ _ (proj1 Hds1)).
      destruct (IHn (pred n) ltac:(lia) fuel w1 rs ks [] (pre ++ post)) as (w2 & -> & Hw2 & Hds2 & Hm2 & Hn2);
        [done|done|set_solver|cbn; rewrite length_app; lia|lia|rewrite length_app; nia|].
      exists w2. split; [done|]. split; [done|]. split; [|split; congruence].
      assert (forall l, alive w1 l = alive w l) as E.
      { intros l. apply List.filter_ext. intros x. by rewrite (expired_same w w1). }
      cbn [app] in Hds2. rewrite E in Hds2. rewrite alive_app in *. cbn [alive List.filter]. rewrite Ex. exact Hds2.
    + cbn [list_item_next]. rewrite (chain_next_of _ _ _ _ _ (proj1 Hds)). cbn [mbind option_bind].
      assert (pre ++ d :: post = (pre ++ [d]) ++ post) as E by (by rewrite <- app_assoc). rewrite E in *.
      apply IH; [done|done|set_solver|done|done|cbn in Hf; lia].
Qed.
Lemma defrt_periodic_spec w rs ks ds : ds6_wf w rs ks -> defrts w ds ->
  exists w', uip_ds6_defrt_periodic w = Some w' /\ ds6_wf w' rs ks /\ defrts w' (alive w ds) /\
    memb_mem (defaultroutermemb w') = memb_mem (defaultroutermemb w) /\ now_s w' = now_s w.
Proof.
  intros Hw Hds. unfold uip_ds6_defrt_periodic, list_head. rewrite (chain_head _ _ _ (proj1 Hds)).
  pose proof (chain_fuel _ _ _ (proj1 Hds)) as Hf.
  apply (defrt_periodic_from_spec (fuel_of (defrt_next w)) (length ds) _ w rs ks [] ds); [done|done|set_solver|done|lia|].
  set (F := fuel_of _) in *. nia.
Qed.
(** C26: the routers the periodic handler leaves are exactly those that have not expired:
    [uip_ds6_defrt_periodic] returns, although it starts its walk again after
    every removal, and the list is then the routers whose lifetime is infinite
    or not over, in the same order. *)
Theorem defrt_periodic_expires w rs ks ds : ds6_wf w rs ks -> defrts w ds ->
  exists w', uip_ds6_defrt_periodic w = Some w' /\ ds6_wf w' rs ks /\ defrts w' (alive w ds) /\
    forall d, d ∈ ds -> defrt_at w' d = defrt_at w d.
Proof.
  intros Hw Hds. destruct (defrt_periodic_spec w rs ks ds Hw Hds) as (w' & ? & ? & ? & Hm & _).
  exists w'. do 3 (split; [done|]). intros d _. unfold defrt_at. by rewrite Hm.
Qed.

(** ** The addresses and prefixes are apart from the tables *)
Definition tables_of w :=
  (nt w, nbr_data w, routes_data w, routememb w, route_next w, num_routes w,
   (defaultroutermemb w, defrt_next w, defaultrouterlist w), (notification_next w, notificationlist w)).
Lemma wf_same w w' rs ks : tables_of w' = tables_of w -> ds6_wf w rs ks -> ds6_wf w' rs ks.
Proof. destruct w, w'. unfold tables_of. cbn. intros [= -> -> -> -> -> -> -> -> -> -> ->] [[] Hw]. by constructor. Qed.

Lemma random_tables w : tables_of (random_rand w).1 = tables_of w.
Proof. unfold random_rand. by destruct (rands w). Qed.
Lemma prefix_add_tables a l iv w : tables_of (uip_ds6_prefix_add a l iv w).1 = tables_of w.
Proof. unfold uip_ds6_prefix_add. destruct (free_slot _ _ _); [|done]. by case_match. Qed.
Lemma prefix_rm_tables p w : tables_of (uip_ds6_prefix_rm p w) = tables_of w.
Proof. by destruct p. Qed.
Lemma maddr_add_tables a w : tables_of (uip_ds6_maddr_add a w).1 = tables_of w.
Proof. unfold uip_ds6_maddr_add. by destruct (free_slot _ _ _). Qed.
Lemma maddr_rm_tables p w : tables_of (uip_ds6_maddr_rm p w) = tables_of w.
Proof. by destruct p. Qed.
Lemma addr_add_tables a iv ty w : tables_of (uip_ds6_addr_add a iv ty w).1 = tables_of w.
Proof.
  unfold uip_ds6_addr_add. destruct (free_slot _ _ _) as [i|]; [|done]. set (w1 := if iv =? 0 then _ else _).
  assert (tables_of w1 = tables_of w) as E1 by (unfold w1; by destruct (iv =? 0)).
  pose proof (random_tables (upd_addr i (fun a => a <| a_state := ADDR_TENTATIVE |>) w1)) as E2.
  destruct (random_rand _) as [w2 r]. cbn [fst] in E2. set (w3 := upd_addr i _ w2).
  pose proof (maddr_add_tables (uip_create_solicited_node a) w3) as E3. destruct (uip_ds6_maddr_add _ _) as [w4 m].
  cbn [fst] in *. rewrite E3. change (tables_of w3) with (tables_of w2). by rewrite E2.
Qed.
Lemma addr_rm_tables p w : tables_of (uip_ds6_addr_rm p w) = tables_of w.
Proof. destruct p as [i|]; [|done]. apply (maddr_rm_tables (uip_ds6_maddr_lookup w (uip_create_solicited_node (a_ipaddr (addr_at w i)))) w). Qed.
Lemma dad_failed_tables i w : tables_of (uip_ds6_dad_failed i w).1 = tables_of w.
Proof. unfold uip_ds6_dad_failed. destruct (uip_is_addr_link_local _); [done|]. apply addr_rm_tables. Qed.
Lemma reachable_time_tables w : tables_of (uip_ds6_compute_reachable_time w).1 = tables_of w.
Proof.
  unfold uip_ds6_compute_reachable_time. pose proof (random_tables w) as E1. destruct (random_rand w) as [w1 r1].
  pose proof (random_tables w1) as E2. destruct (random_rand w1) as [w2 r2]. cbn [fst] in *. congruence.
Qed.

(** ** Starting *)
(** The memory before [uip_ds6_init]: zero, but for the link-layer address;
    [next] fields of blocks are [NULL]. *)
Definition boot_ds6 (s ms : Z) (rnd : list Z) (lladdr : list Z) : ds6 :=
  Ds6 s ms rnd initial_nbr_tables (replicate NBR_TABLE_MAX_NEIGHBORS zero_nbr) (replicate NBR_TABLE_MAX_NEIGHBORS zero_routes)
    (Memb (replicate UIP_DS6_ROUTE_NB 0) (replicate UIP_DS6_ROUTE_NB zero_route)) (gset_to_gmap None (set_seq 0 UIP_DS6_ROUTE_NB)) 0
    (Memb (replicate UIP_DS6_DEFRT_NB 0) (replicate UIP_DS6_DEFRT_NB zero_defrt)) (gset_to_gmap None (set_seq 0 UIP_DS6_DEFRT_NB)) None
    ∅ None [] (replicate UIP_DS6_PREFIX_NB zero_prefix)
    (Netif 0 0 0 0 0 0 (replicate UIP_DS6_ADDR_NB zero_addr) (replicate UIP_DS6_AADDR_NB zero_maddr) (replicate UIP_DS6_MADDR_NB zero_maddr))
    lladdr 0 None (UipTimer 0 0).
Lemma init_tables w : tables_of (uip_ds6_init w) = tables_of (uip_ds6_route_init (uip_ds6_neighbors_init w)).
Proof.
  unfold uip_ds6_init. set (w0 := uip_ds6_route_init _). set (w1 := set_field uip_ds6_if _ _).
  pose proof (reachable_time_tables w1) as E1. destruct (uip_ds6_compute_reachable_time w1) as [w2 t]. set (w3 := set_field uip_ds6_if _ w2).
  pose proof (prefix_add_tables (uip_create_linklocal_prefix (replicate 16 0)) UIP_DEFAULT_PREFIX_LEN 0 w3) as E2.
  destruct (uip_ds6_prefix_add _ _ _ _) as [w4 p]. set (a := uip_ds6_set_addr_iid _ _).
  pose proof (addr_add_tables a 0 ADDR_AUTOCONF w4) as E3. destruct (uip_ds6_addr_add _ _ _ _) as [w5 q].
  pose proof (maddr_add_tables uip_create_linklocal_allnodes_mcast w5) as E4. destruct (uip_ds6_maddr_add _ _) as [w6 m].
  pose proof (random_tables w6) as E5. destruct (random_rand w6) as [w7 r]. cbn [fst] in *.
  change (tables_of (set_field timer_periodic _ _)) with (tables_of w7). rewrite E5, E4, E3, E2.
  change (tables_of w3) with (tables_of w2). rewrite E1. done.
Qed.
Lemma dom_block n r : is_Some (gset_to_gmap (None : ptr) (set_seq 0 n) !! r) <-> (r < n)%nat.
Proof.
  rewrite lookup_gset_to_gmap. destruct (decide (r ∈ (set_seq 0 n : gset nat))) as [H|H].
  - rewrite option_guard_True by done. apply elem_of_set_seq in H. split; [lia|by eexists].
  - rewrite option_guard_False by done. rewrite elem_of_set_seq in H. split; [by intros [? ?]|lia].
Qed.
Lemma dom_block_fmap n r : is_Some ((fun _ : ptr => (None : ptr)) <$> gset_to_gmap None (set_seq 0 n) !! r) <-> (r < n)%nat.
Proof. rewrite fmap_is_Some. apply dom_block. Qed.
Lemma rd8_all_zero n k : rd8 (replicate n 0) k = 0.
Proof.
  unfold rd8. destruct (replicate n 0 !! Z.to_nat k) as [x|] eqn:E; [|done]. by apply lookup_replicate in E as [-> _].
Qed.
Lemma fresh_wf {A} (z : A) n : memb_wf (Memb (replicate n 0) (replicate n z)) /\ memb_num (Memb (replicate n 0) (replicate n z)) = n /\
  forall i, ~ in_use (Memb (replicate n 0) (replicate n z)) i.
Proof.
  unfold in_use, memb_num. cbn. rewrite length_replicate. split; [split; cbn|split; [done|]].
  - unfold memb_num. cbn. by rewrite !length_replicate.
  - apply Forall_replicate. by left.
  - intros i. rewrite lookup_replicate. by intros [? _].
Qed.
Lemma init_nbr_wf : nbr_wf (nbr_table_register (nbr_table_register initial_nbr_tables DS6_NEIGHBORS).1 NBR_ROUTES).1 [].
Proof.
  destruct (fresh_wf rimeaddr_null NBR_TABLE_MAX_NEIGHBORS) as (Hf & Hn & Hu). constructor; try done.
  - by apply Forall_replicate.
  - intros k. apply dom_block.
  - intros k. split; [intros H; by destruct (Hu k)|intros [H|H]; [set_solver|done]].
  - split; [done|]. by apply Forall_replicate.
  - split; [done|]. by apply Forall_replicate.
  - intros k _ _. split; exact (rd8_all_zero 8 (Z.of_nat k)).
  - intros i t Hi. destruct i as [|[|[|[|[|[|[|[|i]]]]]]]]; try discriminate Hi; by injection Hi as <-.
Qed.
Lemma ds6_init_wf s ms rnd lladdr : ds6_wf (uip_ds6_init (boot_ds6 s ms rnd lladdr)) (fun _ => []) [].
Proof.
  eapply wf_same; [apply init_tables|].
  destruct (fresh_wf zero_route UIP_DS6_ROUTE_NB) as (Hf & Hn & Hu). destruct (fresh_wf zero_defrt UIP_DS6_DEFRT_NB) as (Hfd & Hnd & Hud).
  set (w := uip_ds6_route_init _). assert (forall t i, on w t i = false) as Hoff.
  { intros t i. unfold on. rewrite get_bit_spec by (by destruct t). change (used_map (nt w)) with (replicate 8 0).
    rewrite rd8_all_zero. apply Z.bits_0. }
  split; [|apply init_nbr_wf]. constructor; try done.
  - exists None, []. apply init_nbr_wf.
  - intros r. cbn [route_next w uip_ds6_route_init uip_ds6_neighbors_init set_field boot_ds6]. rewrite lookup_fmap. apply dom_block_fmap.
  - intros i _ Hi. by rewrite Hoff in Hi.
  - intros i j r Hr. set_solver.
  - intros r. split; [intros H; by destruct (Hu r)|intros [i Hi]; set_solver].
  - intros i r Hr. set_solver.
  - by exists [].
  - intros d. cbn [defrt_next w uip_ds6_route_init uip_ds6_neighbors_init set_field boot_ds6]. rewrite lookup_fmap. apply dom_block_fmap.
  - exists []. split; [done|]. intros d. split; [intros H; by destruct (Hud d)|set_solver].
  - intros r. unfold route_at. cbn [routememb w uip_ds6_route_init uip_ds6_neighbors_init set_field boot_ds6].
    unfold memb_init, memb_num. cbn. destruct r as [|[|[|[|r]]]]; done.
Qed.

(** ** Calls, and sequences of calls *)
(** The calls that change the tables and the lists of addresses, as the rest of
    the stack makes them: what is removed is first looked up. *)
Inductive ds6_call : Type :=
  | NbrAdd (ipaddr : ip6) (lladdr : option rimeaddr) (isrouter state : Z)
  | NbrRm (ipaddr : ip6)
  | RouteAdd (ipaddr : ip6) (length : Z) (nexthop : ip6)
  | RouteRm (addr : ip6)
  | RouteRmByNexthop (nexthop : ip6)
  | DefrtAdd (ipaddr : ip6) (interval : Z)
  | DefrtRm (ipaddr : ip6)
  | DefrtPeriodic
  | PrefixAdd (ipaddr : ip6) (ipaddrlen interval : Z)
  | PrefixRm (ipaddr : ip6) (ipaddrlen : Z)
  | AddrAdd (ipaddr : ip6) (vlifetime type : Z)
  | AddrRm (ipaddr : ip6)
  | DadFailed (addr : nat)
  | MaddrAdd (ipaddr : ip6)
  | MaddrRm (ipaddr : ip6)
  | Seconds (s : Z).
Definition ds6_exec (c : ds6_call) w : option ds6 :=
  match c with
  | NbrAdd ip ll isr st => '(w, _) ← uip_ds6_nbr_add ip ll isr st w; Some w
  | NbrRm ip => nbr ← uip_ds6_nbr_lookup w (Some ip); Some (uip_ds6_nbr_rm nbr w)
  | RouteAdd ip len nh => '(w, _) ← uip_ds6_route_add ip len nh w; Some w
  | RouteRm ip => r ← uip_ds6_route_lookup w ip; uip_ds6_route_rm r w
  | RouteRmByNexthop nh => uip_ds6_route_rm_by_nexthop nh w
  | DefrtAdd ip iv => '(w, _) ← uip_ds6_defrt_add ip iv w; Some w
  | DefrtRm ip => d ← uip_ds6_defrt_lookup w ip; match d with Some d => uip_ds6_defrt_rm d w | None => Some w end
  | DefrtPeriodic => uip_ds6_defrt_periodic w
  | PrefixAdd ip len iv => Some (uip_ds6_prefix_add ip len iv w).1
  | PrefixRm ip len => Some (uip_ds6_prefix_rm (uip_ds6_prefix_lookup w ip len) w)
  | AddrAdd ip vl ty => Some (uip_ds6_addr_add ip vl ty w).1
  | AddrRm ip => Some (uip_ds6_addr_rm (uip_ds6_addr_lookup w ip) w)
  | DadFailed i => Some (uip_ds6_dad_failed i w).1
  | MaddrAdd ip => Some (uip_ds6_maddr_add ip w).1
  | MaddrRm ip => Some (uip_ds6_maddr_rm (uip_ds6_maddr_lookup w ip) w)
  | Seconds s => Some (w <| now_s := s |>)
  end.
Fixpoint ds6_run (cs : list ds6_call) w : option ds6 :=
  match cs with
  | [] => Some w
  | c :: cs => w ← ds6_exec c w; ds6_run cs w
  end.
Definition ds6_call_ok (c : ds6_call) : Prop :=
  match c with
  | NbrAdd _ ll _ _ => lladdr_ok (default rimeaddr_null ll)
  | RouteAdd _ len _ => u8 len
  | _ => True
  end.

Lemma lookup_in_use w rs ks addr r : ds6_wf w rs ks -> uip_ds6_route_lookup w addr = Some (Some r) -> in_use (routememb w) r.
Proof.
  intros Hw Hl. pose proof (dw_inv _ _ _ Hw) as Hi. rewrite (route_lookup_spec w rs ks) in Hl by done. injection Hl as Hl.
  destruct (fold_better w addr (routes_seen w rs ks) (di_rlen _ _ Hi) None) as (H1 & _).
  destruct (H1 r Hl) as [?|[Hr _]]; [done|]. apply elem_of_visible in Hr as (i & _ & Hr). apply (di_alloc _ _ Hi). by exists i.
Qed.
Lemma ds6_exec_wf c w rs ks : ds6_wf w rs ks -> ds6_call_ok c ->
  exists w' rs' ks', ds6_exec c w = Some w' /\ ds6_wf w' rs' ks'.
Proof.
  intros Hw Hok. pose proof (dw_inv _ _ _ Hw) as Hi. destruct (di_defrts _ _ Hi) as (ds & Hds).
  destruct c as [ip ll isr st|ip|ip len nh|ip|nh|ip iv|ip| |ip len iv|ip len|ip vl ty|ip|i|ip|ip|s]; cbn [ds6_exec ds6_call_ok] in *.
  - destruct (nbr_add_inv w rs ks ip ll isr st Hw Hok) as (w' & r & rs' & ks' & -> & ? & _). by exists w', rs', ks'.
  - destruct (uip_ds6_nbr_lookup w (Some ip)) as [[j|]|] eqn:E; cbn [mbind option_bind];
      [|by exists w, rs, ks|by rewrite (nbr_lookup_spec w rs ks) in E by done].
    destruct (nbr_lookup_in _ _ _ _ _ Hw E) as (Hj & Ho & _). exists (uip_ds6_nbr_rm (Some j) w), rs, ks. split; [done|].
    pose proof (wf_lt _ _ _ _ (dw_nbr _ _ _ Hw) Hj). split; [by apply nbr_rm_inv|].
    by eapply (remove_wf w ks DS6_NEIGHBORS j); [apply (dw_nbr _ _ _ Hw)|apply (di_nbr _ _ Hi)|exact Hj|].
  - destruct (route_add_inv ip len nh w rs ks Hw Hok) as (w' & r & rs' & ks' & -> & ?). by exists w', rs', ks'.
  - destruct (uip_ds6_route_lookup w ip) as [[r|]|] eqn:E; cbn [mbind option_bind];
      [|by exists w, rs, ks|by rewrite (route_lookup_spec w rs ks) in E by done].
    destruct (route_rm_wf w rs ks r Hw) as (w' & rs' & ? & ?); [by eapply lookup_in_use|]. by exists w', rs', ks.
  - destruct (rm_by_nexthop_wf w rs ks nh Hw) as (w' & rs' & ? & ?). by exists w', rs', ks.
  - destruct (defrt_add_wf ip iv w rs ks Hw) as (w' & r & -> & ?). by exists w', rs, ks.
  - rewrite (defrt_lookup_spec w ip ds) by apply Hds. cbn [mbind option_bind]. destruct (head _) as [d|] eqn:Ed; [|by exists w, rs, ks].
    apply head_elem in Ed. unfold defrts_at in Ed. apply list_elem_of_filter in Ed as [_ Hd].
    destruct (defrt_rm_spec w rs ks d ds Hw Hds Hd) as (w' & ? & ? & _). by exists w', rs, ks.
  - destruct (defrt_periodic_spec w rs ks ds Hw Hds) as (w' & ? & ? & _). by exists w', rs, ks.
  - exists (uip_ds6_prefix_add ip len iv w).1, rs, ks. split; [done|]. eapply wf_same; [apply prefix_add_tables|done].
  - eexists _, rs, ks. split; [done|]. eapply wf_same; [apply prefix_rm_tables|done].
  - eexists _, rs, ks. split; [done|]. eapply wf_same; [apply addr_add_tables|done].
  - eexists _, rs, ks. split; [done|]. eapply wf_same; [apply addr_rm_tables|done].
  - eexists _, rs, ks. split; [done|]. eapply wf_same; [apply dad_failed_tables|done].
  - eexists _, rs, ks. split; [done|]. eapply wf_same; [apply maddr_add_tables|done].
  - eexists _, rs, ks. split; [done|]. eapply wf_same; [apply maddr_rm_tables|done].
  - exists (w <| now_s := s |>), rs, ks. split; [done|]. by apply (wf_same w).
Qed.
Lemma ds6_run_wf cs : forall w rs ks, ds6_wf w rs ks -> Forall ds6_call_ok cs ->
  exists w' rs' ks', ds6_run cs w = Some w' /\ ds6_wf w' rs' ks'.
Proof.
  induction cs as [|c cs IH]; intros w rs ks Hw Hok; [by exists w, rs, ks|].
  apply Forall_cons in Hok as [Hc Hcs]. cbn [ds6_run]. destruct (ds6_exec_wf c w rs ks Hw Hc) as (w1 & rs1 & ks1 & -> & Hw1).
  cbn [mbind option_bind]. by apply (IH w1 rs1 ks1).
Qed.
(** C23: from [uip_ds6_init] on, any sequence of calls of the neighbour cache, the routes, the
    default routers, the prefixes and the addresses returns, and leaves the
    tables well formed: the blocks of routes that are allocated are exactly
    those on the list of a neighbour of the route table, each list belongs to
    the neighbour its routes name, no route is on two, the count of routes is
    right, and no pointer leads out of the tables. *)
Theorem ds6_calls_safe s ms rnd lladdr cs : Forall ds6_call_ok cs ->
  exists w rs ks, ds6_run cs (uip_ds6_init (boot_ds6 s ms rnd lladdr)) = Some w /\ ds6_wf w rs ks.
Proof. intros Hok. by eapply ds6_run_wf; [apply ds6_init_wf|]. Qed.
