(* ===== verification/Ds6Addr.v ===== *)
(** * Choosing a source address

    [get_match_length] counts the leading bits two addresses share, and
    [uip_ds6_select_src] picks the address that shares most with the
    destination. *)
From S2P Require Export Ds6.
From stdpp Require Import list gmap.
Local Open Scope Z_scope.

Implicit Types w : ds6.

(** ** The common prefix, in bits *)
Definition byte_bits (b : Z) : list bool := map (fun i => Z.testbit b i) [7; 6; 5; 4; 3; 2; 1; 0].
Definition addr_bits (a : ip6) : list bool := mbind byte_bits a.
Fixpoint common (xs ys : list bool) : nat :=
  match xs, ys with
  | x :: xs, y :: ys => if Bool.eqb x y then S (common xs ys) else O
  | _, _ => O
  end.

Lemma common_same zs xs ys : common (zs ++ xs) (zs ++ ys) = (length zs + common xs ys)%nat.
Proof. induction zs as [|z zs IH]; [done|]. cbn. by rewrite Bool.eqb_reflx, IH. Qed.
Lemma common_app xs ys xs' ys' : (common xs ys < length xs)%nat -> length xs = length ys ->
  common (xs ++ xs') (ys ++ ys') = common xs ys.
Proof.
  revert ys. induction xs as [|x xs IH]; intros [|y ys] Hc Hl; cbn in *; try lia.
  destruct (Bool.eqb x y); [|done]. f_equal. apply IH; lia.
Qed.
Lemma match_bits_add k : forall x a b, 0 <= a -> 0 <= b -> a + b + Z.of_nat k < 256 -> match_bits k x (a + b) = a + match_bits k x b.
Proof.
  induction k as [|k IH]; intros x a b Ha Hb Hk; [done|]. cbn [match_bits]. destruct (_ =? 0); [|done].
  rewrite (w8_small (a + b + 1)), (w8_small (b + 1)) by (unfold u8; lia). rewrite <- Z.add_assoc. apply IH; lia.
Qed.
(** Checked on all pairs of bytes. *)
Definition byte_match (a b : Z) : bool :=
  (a =? b) || ((match_bits 8 (Z.lxor a b) 0 =? Z.of_nat (common (byte_bits a) (byte_bits b))) &&
    (Z.of_nat (common (byte_bits a) (byte_bits b)) <? 8)).
Lemma byte_match_all : forallb (fun a => forallb (byte_match a) (map Z.of_nat (seq 0 256))) (map Z.of_nat (seq 0 256)) = true.
Proof. vm_compute. reflexivity. Qed.
Lemma byte_match_ok a b : u8 a -> u8 b -> a <> b ->
  match_bits 8 (Z.lxor a b) 0 = Z.of_nat (common (byte_bits a) (byte_bits b)) /\ (common (byte_bits a) (byte_bits b) < 8)%nat.
Proof.
  intros Ha Hb Hne. assert (forall x, u8 x -> In x (map Z.of_nat (seq 0 256))) as Hin.
  { intros x [??]. apply in_map_iff. exists (Z.to_nat x). split; [lia|]. apply in_seq. lia. }
  pose proof byte_match_all as H. rewrite forallb_forall in H. specialize (H a (Hin a Ha)). rewrite forallb_forall in H.
  specialize (H b (Hin b Hb)). unfold byte_match in H. apply orb_true_iff in H as [?%Z.eqb_eq|H]; [done|].
  apply andb_true_iff in H as [?%Z.eqb_eq ?%Z.ltb_lt]. lia.
Qed.

Lemma match_bytes_spec n : forall j src dst len, (j + n = 16)%nat -> length src = 16%nat -> length dst = 16%nat -> bytes src -> bytes dst ->
  len = 8 * Z.of_nat j ->
  match_bytes n (Z.of_nat j) src dst len = len + Z.of_nat (common (addr_bits (drop j src)) (addr_bits (drop j dst))).
Proof.
  induction n as [|n IH]; intros j src dst len Hj Hs Hd Hbs Hbd ->; cbn [match_bytes].
  - rewrite !drop_ge by lia. cbn. lia.
  - destruct (lookup_lt_is_Some_2 src j) as [a Ha]; [lia|]. destruct (lookup_lt_is_Some_2 dst j) as [b Hb]; [lia|].
    assert (rd8 src (Z.of_nat j) = a) as -> by (unfold rd8; by rewrite Nat2Z.id, Ha).
    assert (rd8 dst (Z.of_nat j) = b) as -> by (unfold rd8; by rewrite Nat2Z.id, Hb).
    rewrite (drop_S src a j), (drop_S dst b j) by done. unfold addr_bits. cbn [mbind list_bind]. fold (addr_bits (drop (S j) src)) (addr_bits (drop (S j) dst)).
    pose proof (Forall_lookup_1 _ _ _ _ Hbs Ha) as Hua. pose proof (Forall_lookup_1 _ _ _ _ Hbd Hb) as Hub.
    destruct (Z.eqb_spec a b) as [<-|Hne].
    + rewrite w8_small by (unfold u8; lia). replace (Z.of_nat j + 1) with (Z.of_nat (S j)) by lia.
      rewrite (IH (S j)) by (done || lia). rewrite common_same. cbn [length byte_bits map]. lia.
    + destruct (byte_match_ok a b Hua Hub Hne) as [Hm Hc]. rewrite common_app by (done || cbn [length byte_bits map]; lia).
      rewrite <- Hm, <- (Z.add_0_r (8 * Z.of_nat j)) at 1. apply match_bits_add; lia.
Qed.
Definition addr_ok (a : ip6) : Prop := length a = 16%nat /\ bytes a.
Lemma get_match_length_spec a b : addr_ok a -> addr_ok b -> get_match_length a b = Z.of_nat (common (addr_bits a) (addr_bits b)).
Proof. intros [??] [??]. unfold get_match_length. rewrite (match_bytes_spec 16 0) by done. by rewrite !drop_0. Qed.

(** ** The address chosen *)
(** The addresses that may be chosen. *)
Definition source_candidate (a : uip_ds6_addr_t) : bool :=
  negb (a_isused a =? 0) && (a_state a =? ADDR_PREFERRED) && negb (uip_is_addr_link_local (a_ipaddr a)).
Definition shared (dst : ip6) (a : uip_ds6_addr_t) : nat := common (addr_bits dst) (addr_bits (a_ipaddr a)).

(** [m] is the best element of [l] found so far, sharing [best] bits. *)
Definition best_of (dst : ip6) (l : list uip_ds6_addr_t) (best : Z) (m : ptr) : Prop :=
  match m with
  | Some i => exists a, l !! i = Some a /\ source_candidate a = true /\ best = Z.of_nat (shared dst a) /\
      forall a', a' ∈ l -> source_candidate a' = true -> (shared dst a' <= shared dst a)%nat
  | None => best = 0 /\ forall a', a' ∈ l -> source_candidate a' = false
  end.
Lemma best_of_skip dst l best m a : source_candidate a = false -> best_of dst l best m -> best_of dst (l ++ [a]) best m.
Proof.
  intros Ha. destruct m as [i|]; cbn.
  - intros (x & Hx & Hc & -> & Hall). exists x. split; [by apply lookup_app_l_Some|]. do 2 (split; [done|]).
    intros a' [Hin| ->%list_elem_of_singleton]%elem_of_app Hca; [by apply Hall|congruence].
  - intros [-> Hall]. split; [done|]. intros a' [Hin| ->%list_elem_of_singleton]%elem_of_app; [by apply Hall|done].
Qed.
Lemma best_of_take dst l best m a : source_candidate a = true -> best_of dst l best m ->
  best_of dst (l ++ [a]) (if best <=? Z.of_nat (shared dst a) then Z.of_nat (shared dst a) else best)
    (if best <=? Z.of_nat (shared dst a) then Some (length l) else m).
Proof.
  intros Ha Hb. destruct (Z.leb_spec best (Z.of_nat (shared dst a))) as [Hle|Hgt].
  - exists a. split; [by rewrite list_lookup_middle|]. do 2 (split; [done|]).
    intros a' [Hin| ->%list_elem_of_singleton]%elem_of_app Hca; [|lia]. destruct m as [i|]; cbn in Hb.
    + destruct Hb as (x & _ & _ & -> & Hall). specialize (Hall a' Hin Hca). lia.
    + destruct Hb as [_ Hall]. rewrite (Hall a' Hin) in Hca. done.
  - destruct m as [i|]; cbn in Hb |- *; [|lia]. destruct Hb as (x & Hx & Hc & -> & Hall). exists x.
    split; [by apply lookup_app_l_Some|]. do 2 (split; [done|]).
    intros a' [Hin| ->%list_elem_of_singleton]%elem_of_app Hca; [by apply Hall|lia].
Qed.
Lemma best_match_spec dst l : forall pre best m, addr_ok dst -> Forall (fun a => addr_ok (a_ipaddr a)) l -> best_of dst pre best m ->
  exists best', best_of dst (pre ++ l) best' (best_match (length pre) l dst best m).
Proof.
  induction l as [|a l IH]; intros pre best m Hd Hl Hb; cbn [best_match].
  - exists best. by rewrite app_nil_r.
  - apply Forall_cons in Hl as [Ha Hl]. specialize (IH (pre ++ [a])). rewrite length_app, Nat.add_1_r, <- app_assoc in IH. cbn [app] in IH.
    fold (source_candidate a). destruct (source_candidate a) eqn:Ec.
    + rewrite get_match_length_spec by done. fold (shared dst a). pose proof (best_of_take dst pre best m a Ec Hb) as Ht.
      destruct (best <=? _); by apply IH.
    + apply IH; [done|done|]. by apply best_of_skip.
Qed.

(** The addresses for a link-local or a multicast destination. *)
Definition link_candidate (a : uip_ds6_addr_t) : bool :=
  negb (a_isused a =? 0) && (a_state a =? ADDR_PREFERRED) && uip_is_addr_link_local (a_ipaddr a).
(** Destinations beyond the link. *)
Definition off_link (dst : ip6) : bool := negb (uip_is_addr_link_local dst) && negb (uip_is_addr_mcast dst).

Lemma get_link_local_preferred w :
  uip_ds6_get_link_local w ADDR_PREFERRED = find_index link_candidate (addr_list (uip_ds6_if w)).
Proof. done. Qed.

(** C40: the source address [uip_ds6_select_src] chooses, for every destination.
    For one that is neither link-local nor multicast it is an address in use,
    preferred and not link-local, that shares at least as many leading bits with
    the destination as any other such address; for a link-local or a multicast
    destination it is the first address in use that is preferred and link-local;
    and it is the unspecified address exactly when there is none. *)
Theorem select_src_longest w dst : addr_ok dst -> Forall (fun a => addr_ok (a_ipaddr a)) (addr_list (uip_ds6_if w)) ->
  let l := addr_list (uip_ds6_if w) in
  let src := uip_ds6_select_src w dst in
  if off_link dst then
    (exists a, a ∈ l /\ source_candidate a = true /\ src = a_ipaddr a /\
       forall a', a' ∈ l -> source_candidate a' = true -> (shared dst a' <= shared dst a)%nat) \/
    (src = uip_create_unspecified /\ forall a, a ∈ l -> source_candidate a = false)
  else
    (exists pre a post, l = pre ++ a :: post /\ link_candidate a = true /\ src = a_ipaddr a /\
       forall a', a' ∈ pre -> link_candidate a' = false) \/
    (src = uip_create_unspecified /\ forall a, a ∈ l -> link_candidate a = false).
Proof.
  intros Hd Hl l src. subst l src. unfold uip_ds6_select_src, off_link.
  set (l := addr_list (uip_ds6_if w)) in *.
  destruct (negb (uip_is_addr_link_local dst) && negb (uip_is_addr_mcast dst)) eqn:Ho.
  - destruct (best_match_spec dst l [] 0 None Hd Hl) as [best Hb]; [split; [done|set_solver]|].
    cbn [app length] in Hb. destruct (best_match _ _ _ _ _) as [i|]; cbn in Hb.
    + left. destruct Hb as (a & Ha & Hc & _ & Hall). exists a. split; [by eapply list_elem_of_lookup_2|]. split; [done|].
      split; [|done]. unfold addr_at. subst l. by rewrite Ha.
    + right. by destruct Hb.
  - rewrite get_link_local_preferred. fold l. destruct (find_index link_candidate l) as [i|] eqn:Ei.
    + left. apply find_index_Some in Ei as [(a & Ha & Hc) Hbefore].
      exists (take i l), a, (drop (S i) l). split; [symmetry; by apply take_drop_middle|]. split; [done|].
      split; [unfold addr_at; subst l; by rewrite Ha|].
      intros a' (j & Hj)%list_elem_of_lookup. apply lookup_take_Some in Hj as [Hj Hlt]. by eapply Hbefore.
    + right. split; [done|]. apply find_index_None in Ei. rewrite Forall_forall in Ei. intros a Ha. by apply Ei.
Qed.
