(* ===== verification/Nd6.v ===== *)
(** * Neighbour discovery of the IPv6 host: [uip-nd6.c]

    The messages it sends and what it does with those it receives, on a host
    ([ds6]) and the packet buffer; the periodic handlers of [uip-ds6.c] and
    [uip-ds6-nbr.c] that send them; and [xtcpip_ipv6_output] of the IPv6
    [uip_server_support.c], which finds the next hop and its link address.  The
    loops over the options of a message have an 8-bit offset and need not end:
    they take fuel, and their results tell a loop that has not ended from a
    pointer that leads nowhere. *)
From S2P Require Export Ds6 Chksum.
Local Open Scope Z_scope.

(** ** Results *)
Inductive run (A : Type) : Type := Ret (a : A) | NoFuel | Fault.
Arguments Ret {A}.
Arguments NoFuel {A}.
Arguments Fault {A}.
#[export] Instance run_bind : MBind run := fun A B f r =>
  match r with Ret a => f a | NoFuel => NoFuel | Fault => Fault end.
(** The functions of [ds6] return [None] only for a pointer that leads nowhere. *)
Definition lift {A} (o : option A) : run A := match o with Some a => Ret a | None => Fault end.

(** ** The packet buffer *)
Definition UIP_IPH_LEN6 : Z := 40.
Definition UIP_ICMPH_LEN6 : Z := 4.
(** Offsets of the IPv6 header in [uip_buf]. *)
Module IP6.
Definition vtc : Z := 14.
Definition tcflow : Z := 15.
Definition flow : Z := 16.
Definition len : Z := 18.
Definition proto : Z := 20.
Definition ttl : Z := 21.
Definition srcipaddr : Z := 22.
Definition destipaddr : Z := 38.
End IP6.

Definition UIP_PROTO_ICMP6 : Z := 58.
Definition ICMP6_RS : Z := 133.
Definition ICMP6_RA : Z := 134.
Definition ICMP6_NS : Z := 135.
Definition ICMP6_NA : Z := 136.
Definition UIP_ND6_HOP_LIMIT : Z := 255.
Definition UIP_ND6_NA_LEN : Z := 20.
Definition UIP_ND6_NS_LEN : Z := 20.
Definition UIP_ND6_RA_LEN : Z := 12.
Definition UIP_ND6_RS_LEN : Z := 4.
Definition UIP_ND6_OPT_LLAO_LEN : Z := 8.
Definition UIP_ND6_OPT_DATA_OFFSET : Z := 2.
Definition UIP_ND6_OPT_SLLAO : Z := 1.
Definition UIP_ND6_OPT_TLLAO : Z := 2.
Definition UIP_ND6_OPT_PREFIX_INFO : Z := 3.
Definition UIP_ND6_OPT_MTU : Z := 5.
Definition UIP_ND6_NA_FLAG_ROUTER : Z := 0x80.
Definition UIP_ND6_NA_FLAG_SOLICITED : Z := 0x40.
Definition UIP_ND6_NA_FLAG_OVERRIDE : Z := 0x20.
Definition UIP_ND6_RA_FLAG_ONLINK : Z := 0x80.
Definition UIP_ND6_RA_FLAG_AUTONOMOUS : Z := 0x40.
Definition UIP_ND6_MAX_MULTICAST_SOLICIT : Z := 3.
Definition UIP_ND6_MAX_UNICAST_SOLICIT : Z := 3.
Definition UIP_ND6_DELAY_FIRST_PROBE_TIME : Z := 5.
Definition UIP_ND6_MAX_RTR_SOLICITATIONS : Z := 3.
Definition UIP_ND6_RTR_SOLICITATION_INTERVAL : Z := 4.
Definition UIP_LLADDR_LEN : nat := 6.
Definition UIP_ETHTYPE_IPV6 : Z := 0x86dd.

(** The static [nbr] of [uip-nd6.c] is part of the state: [uip_nd6_ra_input]
    reads it without setting it first.  [frames] are the frames given to
    [xcoredev_send], which pads them. *)
Record nd6 : Type := Nd6 { host : ds6; buf6 : list Z; len6 : Z; ext6 : Z; nbr6 : ptr; frames : list (list Z) }.
#[export] Instance eta_nd6 : Eta nd6 := fun r => Nd6 (host r) (buf6 r) (len6 r) (ext6 r) (nbr6 r) (frames r).
Implicit Types s : nd6.

Definition uip_l2_l3_hdr_len s : Z := UIP_LLH_LEN + UIP_IPH_LEN6 + ext6 s.
Definition uip_l2_l3_icmp_hdr_len s : Z := UIP_LLH_LEN + UIP_IPH_LEN6 + ext6 s + UIP_ICMPH_LEN6.
Definition uip_l3_icmp_hdr_len s : Z := UIP_IPH_LEN6 + ext6 s + UIP_ICMPH_LEN6.

Definition ip_at s (i : Z) : ip6 := rds (buf6 s) i 16.
Definition srcip s : ip6 := ip_at s IP6.srcipaddr.
Definition destip s : ip6 := ip_at s IP6.destipaddr.
(** The target address of a solicitation and of an advertisement. *)
Definition tgtip s : ip6 := ip_at s (uip_l2_l3_icmp_hdr_len s + 4).
Definition mem6 (f : list Z -> list Z) s : nd6 := s <| buf6 ::= f |>.
(** Big-endian values of 16 and 32 bits: [uip_ntohs], [uip_ntohl]. *)
Definition ntohs_at s (i : Z) : Z := rd8 (buf6 s) i * 256 + rd8 (buf6 s) (i + 1).
Definition ntohl_at s (i : Z) : Z := be32 (rd4 (buf6 s) i).

(** The [chksum] of this build is that of [uip_arch.c], the same code as in
    the IPv4 stack. *)
Definition upper_layer_chksum6 (proto : Z) s : Z :=
  let upper_layer_len := w16 (Z.shiftl (rd8 (buf6 s) IP6.len) 8 + rd8 (buf6 s) (IP6.len + 1) - ext6 s) in
  let sum := w16 (upper_layer_len + proto) in
  let sum := chksum sum (buf6 s) IP6.srcipaddr 32 in
  let sum := chksum sum (buf6 s) (UIP_IPH_LEN6 + UIP_LLH_LEN + ext6 s) upper_layer_len in
  if sum =? 0 then 0xffff else htons sum.
Definition uip_icmp6chksum s : Z := upper_layer_chksum6 UIP_PROTO_ICMP6 s.
Definition ICMP_chksum s : Z := uip_l2_l3_hdr_len s + 2.
Definition fill_icmp6chksum s : nd6 :=
  let s := mem6 (wr16 (ICMP_chksum s) 0) s in
  mem6 (wr16 (ICMP_chksum s) (w16 (Z.lnot (uip_icmp6chksum s)))) s.

(** ** Sending *)
Definition create_llao (llao type : Z) s : nd6 := mem6 (wrs llao ([type; 1] ++ take UIP_LLADDR_LEN (uip_lladdr (host s)))) s.
(** The first part of every message. *)
Definition ip6_header s : nd6 :=
  mem6 (fun b => wr8 IP6.ttl UIP_ND6_HOP_LIMIT (wr8 IP6.proto UIP_PROTO_ICMP6
          (wr16 IP6.flow 0 (wr8 IP6.tcflow 0 (wr8 IP6.vtc 0x60 b))))) s.

(** From the label [create_na] on. *)
Definition create_na (flags : Z) (addr : nat) s : nd6 :=
  let s := s <| ext6 := 0 |> in
  let s := mem6 (fun b => wr16 IP6.flow 0 (wr8 IP6.tcflow 0 (wr8 IP6.vtc 0x60 b))) s in
  let s := mem6 (fun b => wr8 (IP6.len + 1) (UIP_ICMPH_LEN6 + UIP_ND6_NA_LEN + UIP_ND6_OPT_LLAO_LEN) (wr8 IP6.len 0 b)) s in
  let s := mem6 (fun b => wr8 IP6.ttl UIP_ND6_HOP_LIMIT (wr8 IP6.proto UIP_PROTO_ICMP6 b)) s in
  let s := mem6 (fun b => wr8 (uip_l2_l3_hdr_len s + 1) 0 (wr8 (uip_l2_l3_hdr_len s) ICMP6_NA b)) s in
  let s := mem6 (wr8 (uip_l2_l3_icmp_hdr_len s) flags) s in
  let s := mem6 (wrs (uip_l2_l3_icmp_hdr_len s + 4) (a_ipaddr (addr_at (host s) addr))) s in
  let s := create_llao (uip_l2_l3_icmp_hdr_len s + UIP_ND6_NA_LEN) UIP_ND6_OPT_TLLAO s in
  let s := fill_icmp6chksum s in
  s <| len6 := UIP_IPH_LEN6 + UIP_ICMPH_LEN6 + UIP_ND6_NA_LEN + UIP_ND6_OPT_LLAO_LEN |>.

(** [None] is [NULL]. *)
Definition uip_nd6_ns_output (src dest : option ip6) (tgt : ip6) s : nd6 :=
  let s := ip6_header (s <| ext6 := 0 |>) in
  let s := mem6 (wrs IP6.destipaddr (default (uip_create_solicited_node tgt) dest)) s in
  let s := mem6 (fun b => wr8 (uip_l2_l3_hdr_len s + 1) 0 (wr8 (uip_l2_l3_hdr_len s) ICMP6_NS b)) s in
  let s := mem6 (wrs (uip_l2_l3_icmp_hdr_len s) (replicate 4 0 ++ tgt)) s in
  let s := mem6 (wr8 IP6.len 0) s in
  if negb (uip_ds6_is_my_addr (host s) tgt) then
    let s := mem6 (wrs IP6.srcipaddr (match src with Some a => a | None => uip_ds6_select_src (host s) (destip s) end)) s in
    if uip_is_addr_unspecified (srcip s) then s <| len6 := 0 |>
    else
      let s := mem6 (wr8 (IP6.len + 1) (UIP_ICMPH_LEN6 + UIP_ND6_NS_LEN + UIP_ND6_OPT_LLAO_LEN)) s in
      let s := create_llao (uip_l2_l3_icmp_hdr_len s + UIP_ND6_NS_LEN) UIP_ND6_OPT_SLLAO s in
      let s := s <| len6 := UIP_IPH_LEN6 + UIP_ICMPH_LEN6 + UIP_ND6_NS_LEN + UIP_ND6_OPT_LLAO_LEN |> in
      fill_icmp6chksum s
  else
    let s := mem6 (wrs IP6.srcipaddr uip_create_unspecified) s in
    let s := mem6 (wr8 (IP6.len + 1) (UIP_ICMPH_LEN6 + UIP_ND6_NS_LEN)) s in
    let s := s <| len6 := UIP_IPH_LEN6 + UIP_ICMPH_LEN6 + UIP_ND6_NS_LEN |> in
    fill_icmp6chksum s.

(** [uip_ext_len] is not cleared, and the reserved field of the message is not
    written. *)
Definition uip_nd6_rs_output s : nd6 :=
  let s := ip6_header s in
  let s := mem6 (wrs IP6.destipaddr uip_create_linklocal_allrouters_mcast) s in
  let s := mem6 (wrs IP6.srcipaddr (uip_ds6_select_src (host s) (destip s))) s in
  let s := mem6 (fun b => wr8 (uip_l2_l3_hdr_len s + 1) 0 (wr8 (uip_l2_l3_hdr_len s) ICMP6_RS b)) s in
  let s := mem6 (wr8 IP6.len 0) s in
  let s :=
    if uip_is_addr_unspecified (srcip s) then
      let s := mem6 (wr8 (IP6.len + 1) (UIP_ICMPH_LEN6 + UIP_ND6_RS_LEN)) s in
      s <| len6 := uip_l3_icmp_hdr_len s + UIP_ND6_RS_LEN |>
    else
      let s := s <| len6 := uip_l3_icmp_hdr_len s + UIP_ND6_RS_LEN + UIP_ND6_OPT_LLAO_LEN |> in
      let s := mem6 (wr8 (IP6.len + 1) (UIP_ICMPH_LEN6 + UIP_ND6_RS_LEN + UIP_ND6_OPT_LLAO_LEN)) s in
      create_llao (uip_l2_l3_icmp_hdr_len s + UIP_ND6_RS_LEN) UIP_ND6_OPT_SLLAO s in
  fill_icmp6chksum s.

(** ** Options *)
(** The option at [nd6_opt_offset]. *)
Definition opt_at s (off : Z) : Z := uip_l2_l3_icmp_hdr_len s + off.
Definition opt_type s (off : Z) : Z := rd8 (buf6 s) (opt_at s off).
Definition opt_len s (off : Z) : Z := rd8 (buf6 s) (opt_at s off + 1).
Definition more_options s (off : Z) : bool := uip_l3_icmp_hdr_len s + off <? len6 s.
Definition next_option s (off : Z) : Z := w8 (off + Z.shiftl (opt_len s off) 3).

(** [uip_lladdr_t] has six bytes; [nbr_table_add_lladdr] takes the eight of a
    [rimeaddr_t]. *)
Definition opt_lladdr s (off : Z) : list Z := rds (buf6 s) (opt_at s off + UIP_ND6_OPT_DATA_OFFSET) UIP_LLADDR_LEN.
Definition opt_rimeaddr s (off : Z) : rimeaddr := rds (buf6 s) (opt_at s off + UIP_ND6_OPT_DATA_OFFSET) RIMEADDR_SIZE.

(** [*uip_ds6_nbr_get_ll(nbr)], and [memcpy] into it. *)
Definition nbr_lladdr (w : ds6) (nbr : nat) : list Z := take UIP_LLADDR_LEN (default rimeaddr_null (uip_ds6_nbr_get_ll w (Some nbr))).
Definition set_nbr_lladdr (nbr : nat) (a : list Z) (w : ds6) : ds6 :=
  w <| nt ::= set_field neighbor_addr_mem (set_field memb_mem (alter (fun old => a ++ drop UIP_LLADDR_LEN old) nbr)) |>.
Definition set_nbr_state (nbr : nat) (st : Z) (w : ds6) : ds6 := upd_nbr nbr (fun n => n <| nbr_state := st |>) w.

(** ** Neighbour solicitations *)
(** The source link-layer address option; [false] means discard. *)
Definition ns_sllao (off : Z) s : run (nd6 * bool) :=
  if uip_is_addr_unspecified (srcip s) then Ret (s, false)
  else
    nbr ← lift (uip_ds6_nbr_lookup (host s) (Some (srcip s)));
    let s := s <| nbr6 := nbr |> in
    match nbr with
    | None =>
        '(w, _) ← lift (uip_ds6_nbr_add (srcip s) (Some (opt_rimeaddr s off)) 0 NBR_STALE (host s));
        Ret (s <| host := w |>, true)
    | Some i =>
        if negb (bool_decide (opt_lladdr s off = nbr_lladdr (host s) i))
        then Ret (s <| host ::= fun w => set_nbr_state i NBR_STALE (set_nbr_lladdr i (opt_lladdr s off) w) |>, true)
        else if nbr_state (nbr_at (host s) i) =? NBR_INCOMPLETE
             then Ret (s <| host ::= set_nbr_state i NBR_STALE |>, true)
             else Ret (s, true)
    end.
Fixpoint ns_options (fuel : nat) (off : Z) s : run (nd6 * bool) :=
  match fuel with
  | O => NoFuel
  | S fuel =>
      if more_options s off then
        if opt_len s off =? 0 then Ret (s, false)
        else
          '(s, ok) ← (if opt_type s off =? UIP_ND6_OPT_SLLAO then ns_sllao off s else Ret (s, true));
          if ok : bool then ns_options fuel (next_option s off) s else Ret (s, false)
      else Ret (s, true)
  end.

Definition discard s : nd6 := s <| len6 := 0 |>.
Definition icode s : Z := rd8 (buf6 s) (uip_l2_l3_hdr_len s + 1).
(** The packet goes back to its source, from the target. *)
Definition answer_to_source s : nd6 :=
  let s := mem6 (wrs IP6.destipaddr (srcip s)) s in
  mem6 (wrs IP6.srcipaddr (tgtip s)) s.
(** What follows the options. *)
Definition ns_target s : nd6 :=
  match uip_ds6_addr_lookup (host s) (tgtip s) with
  | Some addr =>
      if uip_is_addr_unspecified (srcip s) then
        if negb (uip_is_addr_solicited_node (destip s)) then discard s
        else if negb (a_state (addr_at (host s) addr) =? ADDR_TENTATIVE) then
          let s := mem6 (wrs IP6.destipaddr uip_create_linklocal_allnodes_mcast) s in
          let s := mem6 (wrs IP6.srcipaddr (uip_ds6_select_src (host s) (destip s))) s in
          create_na UIP_ND6_NA_FLAG_OVERRIDE addr s
        else discard (s <| host ::= fun w => (uip_ds6_dad_failed addr w).1 |>)
      else if uip_ds6_is_my_addr (host s) (srcip s) then discard s
      else if uip_is_addr_solicited_node (destip s) || bool_decide (uip_ds6_addr_lookup (host s) (destip s) = Some addr)
      then create_na (Z.lor UIP_ND6_NA_FLAG_SOLICITED UIP_ND6_NA_FLAG_OVERRIDE) addr (answer_to_source s)
      else discard s
  | None => discard s
  end.
Definition uip_nd6_ns_input (fuel : nat) s : run nd6 :=
  if negb (rd8 (buf6 s) IP6.ttl =? UIP_ND6_HOP_LIMIT) || uip_is_addr_mcast (tgtip s) || negb (icode s =? 0) then Ret (discard s)
  else
    '(s, ok) ← ns_options fuel UIP_ND6_NS_LEN s;
    Ret (if ok : bool then ns_target s else discard s).

(** ** Neighbour advertisements *)
(** The last target link-layer address option, [None] for [NULL]; [false]
    means discard. *)
Fixpoint na_options (fuel : nat) (off : Z) (llao : option Z) s : run (option Z * bool) :=
  match fuel with
  | O => NoFuel
  | S fuel =>
      if more_options s off then
        if opt_len s off =? 0 then Ret (llao, false)
        else na_options fuel (next_option s off) (if opt_type s off =? UIP_ND6_OPT_TLLAO then Some off else llao) s
      else Ret (llao, true)
  end.
Definition reachable_for (now rt : Z) (n : uip_ds6_nbr_t) : uip_ds6_nbr_t :=
  n <| nbr_state := NBR_REACHABLE |> <| nbr_reachable ::= stimer_set now (rt / 1000) |>.

(** An advertisement for a neighbour [i] whose address is not known yet, with
    the option [off]. *)
Definition na_incomplete (off : Z) (i : nat) (is_router is_solicited : Z) s : nd6 :=
  let w := set_nbr_lladdr i (opt_lladdr s off) (host s) in
  let w := if negb (is_solicited =? 0)
           then upd_nbr i (fun n => reachable_for (now_s w) (reachable_time (uip_ds6_if w)) (n <| nbr_nscount := 0 |>)) w
           else set_nbr_state i NBR_STALE w in
  s <| host := upd_nbr i (fun n => n <| nbr_isrouter := is_router |>) w |>.
(** An advertisement for a neighbour whose address is known; [llao] is the
    address in it. *)
Definition na_known (llao : option (list Z)) (i : nat) (is_router is_solicited is_override : Z) s : run nd6 :=
  let is_llchange := match llao with Some a => negb (bool_decide (a = nbr_lladdr (host s) i)) | None => false end in
  if (is_override =? 0) && is_llchange then
    Ret (if nbr_state (nbr_at (host s) i) =? NBR_REACHABLE then s <| host ::= set_nbr_state i NBR_STALE |> else s)
  else
    let w := host s in
    let w :=
      if negb (is_override =? 0) || (match llao with Some _ => negb is_llchange | None => false end) || bool_decide (llao = None) then
        let w := match llao with Some a => set_nbr_lladdr i a w | None => w end in
        if negb (is_solicited =? 0) then upd_nbr i (reachable_for (now_s w) (reachable_time (uip_ds6_if w))) w
        else if is_llchange then set_nbr_state i NBR_STALE w else w
      else w in
    w ← (if negb (nbr_isrouter (nbr_at w i) =? 0) && (is_router =? 0) then
           defrt ← lift (uip_ds6_defrt_lookup w (srcip s));
           match defrt with Some d => lift (uip_ds6_defrt_rm d w) | None => Ret w end
         else Ret w);
    Ret (s <| host := upd_nbr i (fun n => n <| nbr_isrouter := is_router |>) w |>).
Definition na_flag s (f : Z) : Z := Z.land (rd8 (buf6 s) (uip_l2_l3_icmp_hdr_len s)) f.
Definition uip_nd6_na_input (fuel : nat) s : run nd6 :=
  let is_router := na_flag s UIP_ND6_NA_FLAG_ROUTER in
  let is_solicited := na_flag s UIP_ND6_NA_FLAG_SOLICITED in
  let is_override := na_flag s UIP_ND6_NA_FLAG_OVERRIDE in
  if negb (rd8 (buf6 s) IP6.ttl =? UIP_ND6_HOP_LIMIT) || negb (icode s =? 0) || uip_is_addr_mcast (tgtip s)
     || (negb (is_solicited =? 0) && uip_is_addr_mcast (destip s)) then Ret (discard s)
  else
    '(llao, ok) ← na_options fuel UIP_ND6_NA_LEN None s;
    if negb ok then Ret (discard s)
    else
      match uip_ds6_addr_lookup (host s) (tgtip s) with
      | Some addr =>
          Ret (discard (if a_state (addr_at (host s) addr) =? ADDR_TENTATIVE
                        then s <| host ::= fun w => (uip_ds6_dad_failed addr w).1 |> else s))
      | None =>
          nbr ← lift (uip_ds6_nbr_lookup (host s) (Some (tgtip s)));
          let s := s <| nbr6 := nbr |> in
          match nbr with
          | None => Ret (discard s)
          | Some i =>
              if nbr_state (nbr_at (host s) i) =? NBR_INCOMPLETE then
                Ret (discard (match llao with Some off => na_incomplete off i is_router is_solicited s | None => s end))
              else s ← na_known (opt_lladdr s <$> llao) i is_router is_solicited is_override s; Ret (discard s)
          end
      end.

(** ** Router advertisements *)
Definition ra_sllao (off : Z) s : run nd6 :=
  nbr ← lift (uip_ds6_nbr_lookup (host s) (Some (srcip s)));
  match nbr with
  | None =>
      '(w, nbr) ← lift (uip_ds6_nbr_add (srcip s) (Some (opt_rimeaddr s off)) 1 NBR_STALE (host s));
      Ret (s <| host := w |> <| nbr6 := nbr |>)
  | Some i =>
      let w := host s in
      let w := if nbr_state (nbr_at w i) =? NBR_INCOMPLETE then set_nbr_state i NBR_STALE w else w in
      let w := if negb (bool_decide (opt_lladdr s off = nbr_lladdr w i))
               then set_nbr_state i NBR_STALE (set_nbr_lladdr i (opt_lladdr s off) w) else w in
      Ret (s <| host := upd_nbr i (fun n => n <| nbr_isrouter := 1 |>) w |> <| nbr6 := nbr |>)
  end.
(** The flag on-link of a prefix option. *)
Definition ra_onlink (prefix : ip6) (preflen validlt : Z) (w : ds6) : ds6 :=
  match uip_ds6_prefix_lookup w prefix preflen with
  | None =>
      if negb (validlt =? 0) then
        (uip_ds6_prefix_add prefix preflen (if negb (validlt =? UIP_ND6_INFINITE_LIFETIME) then validlt else 0) w).1
      else w
  | Some i =>
      if validlt =? 0 then uip_ds6_prefix_rm (Some i) w
      else if validlt =? UIP_ND6_INFINITE_LIFETIME then upd_prefix i (fun p => p <| p_isinfinite := 1 |>) w
      else upd_prefix i (fun p => p <| p_vlifetime ::= stimer_set (now_s w) validlt |> <| p_isinfinite := 0 |>) w
  end.
(** The flag autonomous. *)
Definition ra_autonomous (prefix : ip6) (validlt : Z) (w : ds6) : ds6 :=
  let ipaddr := uip_ds6_set_addr_iid prefix (uip_lladdr w) in
  let add w :=
    (uip_ds6_addr_add ipaddr (if validlt =? UIP_ND6_INFINITE_LIFETIME then 0 else validlt) ADDR_AUTOCONF w).1 in
  match uip_ds6_addr_lookup w ipaddr with
  | Some i =>
      if a_type (addr_at w i) =? ADDR_AUTOCONF then
        if negb (validlt =? UIP_ND6_INFINITE_LIFETIME) then
          let v := if (2 * 60 * 60 <? validlt) || (stimer_remaining (now_s w) (a_vlifetime (addr_at w i)) <? validlt)
                   then validlt else 2 * 60 * 60 in
          upd_addr i (fun a => a <| a_vlifetime ::= stimer_set (now_s w) v |> <| a_isinfinite := 0 |>) w
        else upd_addr i (fun a => a <| a_isinfinite := 1 |>) w
      else add w
  | None => add w
  end.
(** A prefix option at [i]. *)
Definition ra_prefix (i : Z) s : nd6 :=
  let preflen := rd8 (buf6 s) (i + 2) in
  let flags := rd8 (buf6 s) (i + 3) in
  let validlt := ntohl_at s (i + 4) in
  let prefix := ip_at s (i + 16) in
  if (ntohl_at s (i + 8) <=? validlt) && negb (uip_is_addr_link_local prefix) then
    let s := if tst flags UIP_ND6_RA_FLAG_ONLINK then s <| host ::= ra_onlink prefix preflen validlt |> else s in
    if tst flags UIP_ND6_RA_FLAG_AUTONOMOUS && negb (validlt =? 0) && (preflen =? UIP_DEFAULT_PREFIX_LEN)
    then s <| host ::= ra_autonomous prefix validlt |> else s
  else s.
Fixpoint ra_options (fuel : nat) (off : Z) s : run (nd6 * bool) :=
  match fuel with
  | O => NoFuel
  | S fuel =>
      if more_options s off then
        if opt_len s off =? 0 then Ret (s, false)
        else
          let type := opt_type s off in
          s ← (if type =? UIP_ND6_OPT_SLLAO then ra_sllao off s
               else if type =? UIP_ND6_OPT_MTU
               then Ret (s <| host ::= fun w => w <| uip_ds6_if ::= fun f => f <| link_mtu := ntohl_at s (opt_at s off + 4) |> |> |>)
               else if type =? UIP_ND6_OPT_PREFIX_INFO then Ret (ra_prefix (opt_at s off) s)
               else Ret s);
          ra_options fuel (next_option s off) s
      else Ret (s, true)
  end.
(** The parameters of the interface; [i] is where the message begins. *)
Definition ra_parameters (i : Z) s : nd6 :=
  let cur_ttl := rd8 (buf6 s) i in
  let s := if negb (cur_ttl =? 0)
           then s <| host ::= fun w => w <| uip_ds6_if ::= fun f => f <| cur_hop_limit := cur_ttl |> |> |> else s in
  let rt := ntohl_at s (i + 4) in
  let s := if negb (rt =? 0) && negb (base_reachable_time (uip_ds6_if (host s)) =? rt) then
             let w := (host s) <| uip_ds6_if ::= fun f => f <| base_reachable_time := rt |> |> in
             let '(w, t) := uip_ds6_compute_reachable_time w in
             s <| host := w <| uip_ds6_if ::= fun f => f <| reachable_time := t |> |> |>
           else s in
  let rt := ntohl_at s (i + 8) in
  if negb (rt =? 0) then s <| host ::= fun w => w <| uip_ds6_if ::= fun f => f <| retrans_timer := rt |> |> |> else s.
(** The router itself; [nbr6] may be of an earlier message. *)
Definition ra_router (lifetime : Z) s : run nd6 :=
  defrt ← lift (uip_ds6_defrt_lookup (host s) (srcip s));
  if negb (lifetime =? 0) then
    let s := match nbr6 s with Some i => s <| host ::= upd_nbr i (fun n => n <| nbr_isrouter := 1 |>) |> | None => s end in
    match defrt with
    | None => '(w, _) ← lift (uip_ds6_defrt_add (srcip s) lifetime (host s)); Ret (s <| host := w |>)
    | Some d => Ret (s <| host ::= fun w => upd_defrt d (fun x => x <| d_lifetime ::= stimer_set (now_s w) lifetime |>) w |>)
    end
  else
    match defrt with
    | Some d => w ← lift (uip_ds6_defrt_rm d (host s)); Ret (s <| host := w |>)
    | None => Ret s
    end.
Definition uip_nd6_ra_input (fuel : nat) s : run nd6 :=
  if negb (rd8 (buf6 s) IP6.ttl =? UIP_ND6_HOP_LIMIT) || negb (uip_is_addr_link_local (srcip s)) || negb (icode s =? 0)
  then Ret (discard s)
  else
    let i := uip_l2_l3_icmp_hdr_len s in
    '(s, ok) ← ra_options fuel UIP_ND6_RA_LEN (ra_parameters i s);
    if ok : bool then s ← ra_router (ntohs_at s (i + 2)) s; Ret (discard s) else Ret (discard s).

(** * The periodic handlers *)
Definition nbr_solicit (i : nat) (dest : option ip6) s : nd6 :=
  let s := s <| host ::= upd_nbr i (fun n => n <| nbr_nscount ::= fun c => w8 (c + 1) |>) |> in
  let s := uip_nd6_ns_output None dest (nbr_ipaddr (nbr_at (host s) i)) s in
  s <| host ::= fun w => upd_nbr i (fun n => n <| nbr_sendns ::= stimer_set (now_s w) (retrans_timer (uip_ds6_if w) / 1000) |>) w |>.
(** One neighbour of the cache. *)
Definition neighbor_turn (i : nat) s : run nd6 :=
  let n := nbr_at (host s) i in
  let now := now_s (host s) in
  if nbr_state n =? NBR_REACHABLE then
    Ret (if stimer_expired now (nbr_reachable n) then s <| host ::= set_nbr_state i NBR_STALE |> else s)
  else if nbr_state n =? NBR_INCOMPLETE then
    Ret (if UIP_ND6_MAX_MULTICAST_SOLICIT <=? nbr_nscount n then s <| host ::= uip_ds6_nbr_rm (Some i) |>
         else if stimer_expired now (nbr_sendns n) && (len6 s =? 0) then nbr_solicit i None s
         else s)
  else if nbr_state n =? NBR_DELAY then
    Ret (if stimer_expired now (nbr_reachable n)
         then s <| host ::= upd_nbr i (fun n => n <| nbr_state := NBR_PROBE |> <| nbr_nscount := 0 |> <| nbr_sendns ::= stimer_set now 0 |>) |>
         else s)
  else if nbr_state n =? NBR_PROBE then
    if UIP_ND6_MAX_UNICAST_SOLICIT <=? nbr_nscount n then
      locdefrt ← lift (uip_ds6_defrt_lookup (host s) (nbr_ipaddr n));
      w ← match locdefrt with
          | Some d => if d_isinfinite (defrt_at (host s) d) =? 0 then lift (uip_ds6_defrt_rm d (host s)) else Ret (host s)
          | None => Ret (host s)
          end;
      Ret (s <| host := uip_ds6_nbr_rm (Some i) w |>)
    else Ret (if stimer_expired now (nbr_sendns n) && (len6 s =? 0) then nbr_solicit i (Some (nbr_ipaddr n)) s else s)
  else Ret s.
(** The list has as many elements as the store at most. *)
Fixpoint neighbor_periodic_from (fuel : nat) (nbr : ptr) s : run nd6 :=
  match fuel with
  | O => Fault
  | S fuel =>
      match nbr with
      | None => Ret s
      | Some i =>
          s ← neighbor_turn i s;
          nbr ← lift (nbr_table_next (nt (host s)) DS6_NEIGHBORS nbr);
          neighbor_periodic_from fuel nbr s
      end
  end.
Definition uip_ds6_neighbor_periodic s : run nd6 :=
  nbr ← lift (nbr_table_head (nt (host s)) DS6_NEIGHBORS);
  neighbor_periodic_from (fuel_of (key_next (nt (host s)))) nbr s.

Definition uip_ds6_dad (addr : nat) s : nd6 :=
  let a := addr_at (host s) addr in
  if a_dadnscount a <? maxdadns (uip_ds6_if (host s)) then
    let s := uip_nd6_ns_output None None (a_ipaddr a) s in
    s <| host ::= fun w => upd_addr addr (fun a => a <| a_dadnscount ::= fun c => w8 (c + 1) |>
        <| a_dadtimer ::= timer_set (now_ms w) (w32 (retrans_timer (uip_ds6_if w) / 1000 * CLOCK_SECOND)) |>) w |>
  else s <| host ::= upd_addr addr (fun a => a <| a_state := ADDR_PREFERRED |>) |>.
Definition addr_turn (i : nat) s : nd6 :=
  let a := addr_at (host s) i in
  if negb (a_isused a =? 0) then
    if (a_isinfinite a =? 0) && stimer_expired (now_s (host s)) (a_vlifetime a) then s <| host ::= uip_ds6_addr_rm (Some i) |>
    else if (a_state a =? ADDR_TENTATIVE) && (a_dadnscount a <=? maxdadns (uip_ds6_if (host s)))
            && timer_expired (now_ms (host s)) (a_dadtimer a) && (len6 s =? 0)
    then uip_ds6_dad i s
    else s
  else s.
Definition prefix_turn (i : nat) (w : ds6) : ds6 :=
  let p := default zero_prefix (prefix_list w !! i) in
  if negb (p_isused p =? 0) && (p_isinfinite p =? 0) && stimer_expired (now_s w) (p_vlifetime p)
  then uip_ds6_prefix_rm (Some i) w else w.
Definition uip_ds6_periodic s : run nd6 :=
  let s := fold_left (fun s i => addr_turn i s) (seq 0 UIP_DS6_ADDR_NB) s in
  w ← lift (uip_ds6_defrt_periodic (host s));
  let w := fold_left (fun w i => prefix_turn i w) (seq 0 UIP_DS6_PREFIX_NB) w in
  s ← uip_ds6_neighbor_periodic (s <| host := w |>);
  Ret (s <| host ::= fun w => w <| timer_periodic ::= timer_reset |> |>).
Definition uip_ds6_send_rs s : run nd6 :=
  r ← lift (uip_ds6_defrt_choose (host s));
  if bool_decide (r = None) && (rscount (host s) <? UIP_ND6_MAX_RTR_SOLICITATIONS) then
    let s := uip_nd6_rs_output s in
    Ret (s <| host ::= fun w => w <| rscount ::= fun c => w8 (c + 1) |>
           <| timer_rs := Some (timer_set (now_ms w) (UIP_ND6_RTR_SOLICITATION_INTERVAL * CLOCK_SECOND) (UipTimer 0 0)) |> |>)
  else Ret (s <| host ::= fun w => w <| timer_rs := None |> |>).

(** * Output: the IPv6 [uip_server_support.c] *)
Definition xtcpip_output (lladdr : option (list Z)) s : nd6 :=
  let dest := match lladdr with
              | None => [0x33; 0x33] ++ rds (buf6 s) (IP6.destipaddr + 12) 4
              | Some a => a
              end in
  let s := mem6 (wrs 0 (dest ++ take UIP_LLADDR_LEN (uip_lladdr (host s)))) s in
  let s := mem6 (wr16 12 (HTONS UIP_ETHTYPE_IPV6)) s in
  let s := s <| len6 ::= fun l => w16 (l + UIP_LLH_LEN) |> in
  s <| frames ::= fun fs => fs ++ [take (Z.to_nat (len6 s)) (buf6 s)] |>.

(** The next hop; [None] when there is none, and then the state the function
    returns with. *)
Definition next_hop s : run (nd6 * option ip6) :=
  if uip_ds6_is_addr_onlink (host s) (destip s) then Ret (s, Some (destip s))
  else
    route ← lift (uip_ds6_route_lookup (host s) (destip s));
    match route with
    | None =>
        r ← lift (uip_ds6_defrt_choose (host s));
        Ret (match r with Some a => (s, Some a) | None => (discard s, None) end)
    | Some _ =>
        nexthop ← lift (uip_ds6_route_nexthop (host s) route);
        match nexthop with
        | Some a => Ret (s, Some a)
        | None => w ← lift (uip_ds6_route_rm route (host s)); Ret (s <| host := w |>, None)
        end
    end.
(** The packet goes to the neighbour [nexthop]; a packet for a neighbour whose
    address is not known is lost, and a solicitation takes its place in the
    buffer. *)
Definition to_neighbor (nexthop : ip6) s : run nd6 :=
  nbr ← lift (uip_ds6_nbr_lookup (host s) (Some nexthop));
  match nbr with
  | None =>
      '(w, nbr) ← lift (uip_ds6_nbr_add nexthop None 0 NBR_INCOMPLETE (host s));
      let s := s <| host := w |> in
      match nbr with
      | None => Ret (discard s)
      | Some i =>
          let src := if uip_ds6_is_my_addr (host s) (srcip s) then Some (srcip s) else None in
          let s := uip_nd6_ns_output src None (nbr_ipaddr (nbr_at (host s) i)) s in
          Ret (s <| host ::= fun w => upd_nbr i (fun n => n <| nbr_sendns ::= stimer_set (now_s w) (retrans_timer (uip_ds6_if w) / 1000) |>
                                                    <| nbr_nscount := 1 |>) w |>)
      end
  | Some i =>
      if nbr_state (nbr_at (host s) i) =? NBR_INCOMPLETE then Ret (discard s)
      else
        let s := if nbr_state (nbr_at (host s) i) =? NBR_STALE
                 then s <| host ::= fun w => upd_nbr i (fun n => n <| nbr_state := NBR_DELAY |>
                         <| nbr_reachable ::= stimer_set (now_s w) UIP_ND6_DELAY_FIRST_PROBE_TIME |> <| nbr_nscount := 0 |>) w |>
                 else s in
        Ret (discard (xtcpip_output (Some (nbr_lladdr (host s) i)) s))
  end.
Definition xtcpip_ipv6_output s : run nd6 :=
  if len6 s =? 0 then Ret s
  else if UIP_LINK_MTU <? len6 s then Ret (discard s)
  else if uip_is_addr_unspecified (destip s) then Ret (discard s)
  else if negb (uip_is_addr_mcast (destip s)) then
    '(s, nexthop) ← next_hop s;
    match nexthop with Some a => to_neighbor a s | None => Ret s end
  else Ret (discard (xtcpip_output None s) <| ext6 := 0 |>).
