(* ===== verification/Nd6Inv.v ===== *)
(** * Neighbour discovery keeps the host well formed

    Every message handler, periodic handler and output call returns and keeps
    the invariant of the tables; only a loop over the options of a message may
    not end, and then 256 turns show it. *)
From S2P Require Export Nd6 Ds6Run Loops.
From stdpp Require Import list gmap.
Local Open Scope Z_scope.

Implicit Types (s : nd6) (w : ds6).

(** ** Changes that keep the tables *)
Lemma upd_nbr_wf i f w rs ks : ds6_wf w rs ks -> ds6_wf (upd_nbr i f w) rs ks.
Proof.
  intros [Hi Hw]. split; [|exact Hw]. destruct Hi. constructor; try done.
  unfold upd_nbr. cbn [nbr_data routes_data set_field]. by rewrite length_alter.
Qed.
Lemma set_nbr_lladdr_nbr_wf {T} (t : nbr_tables T) p ks i a : length a = UIP_LLADDR_LEN -> nbr_inv t p ks ->
  nbr_inv (t <| neighbor_addr_mem ::= set_field memb_mem (alter (fun old => a ++ drop UIP_LLADDR_LEN old) i) |>) p ks.
Proof.
  intros Ha []. constructor; cbn [neighbor_addr_mem set_field]; try done.
  - destruct nw_memb as [Hl Hb]. split; [|done]. unfold memb_num in *. cbn. by rewrite length_alter.
  - unfold memb_num in *. cbn. by rewrite length_alter.
  - cbn. apply Forall_alter; [done|]. intros x _ Hx. unfold lladdr_ok in *. by rewrite length_app, length_drop, Hx, Ha.
Qed.
Lemma set_nbr_lladdr_wf i a w rs ks : length a = UIP_LLADDR_LEN -> ds6_wf w rs ks -> ds6_wf (set_nbr_lladdr i a w) rs ks.
Proof.
  intros Ha [Hi Hw]. split; [|by apply set_nbr_lladdr_nbr_wf].
  destruct Hi. destruct di_nt as (p & ks' & Hp). constructor; try done. exists p, ks'. by apply set_nbr_lladdr_nbr_wf.
Qed.
Lemma opt_lladdr_length s off : length (opt_lladdr s off) = UIP_LLADDR_LEN.
Proof. apply length_rds. Qed.

(** ** Lookups return *)
Lemma defrt_lookup_total w rs ks a : ds6_wf w rs ks -> exists r, uip_ds6_defrt_lookup w a = Some r /\
  match r with Some d => exists ds, defrts w ds /\ d ∈ ds | None => True end.
Proof.
  intros Hw. destruct (di_defrts _ _ (dw_inv _ _ _ Hw)) as (ds & Hds). eexists. split; [by apply (defrt_lookup_spec w a ds), Hds|].
  destruct (head _) as [d|] eqn:Ed; [|done]. exists ds. split; [exact Hds|]. apply head_elem in Ed. unfold defrts_at in Ed.
  by apply list_elem_of_filter in Ed as [_ Hd].
Qed.
Lemma nbr_lookup_total w rs ks a : ds6_wf w rs ks -> exists r, uip_ds6_nbr_lookup w (Some a) = Some r.
Proof. intros Hw. eexists. by apply (nbr_lookup_spec w rs ks). Qed.
Lemma defrt_choose_from_total w rs ks ds : forall fuel d addr, ds6_wf w rs ks -> chain (defrt_next w) d ds -> (length ds < fuel)%nat ->
  exists r, defrt_choose_from fuel w d addr = Some r.
Proof.
  induction ds as [|i ds IH]; intros fuel d addr Hw Hc Hf; unfold chain in Hc; cbn in Hc; (destruct fuel as [|fuel]; [lia|]); cbn [defrt_choose_from].
  - subst. by eexists.
  - destruct Hc as (-> & n & Hn & Hc). destruct (nbr_lookup_total w rs ks (d_ipaddr (defrt_at w i)) Hw) as [r ->]. cbn [mbind option_bind].
    destruct (match r with Some b => _ | None => false end); [by eexists|]. cbn [list_item_next]. rewrite Hn. cbn [mbind option_bind].
    apply IH; [done|done|cbn in Hf; lia].
Qed.
Lemma defrt_choose_total w rs ks : ds6_wf w rs ks -> exists r, uip_ds6_defrt_choose w = Some r.
Proof.
  intros Hw. destruct (di_defrts _ _ (dw_inv _ _ _ Hw)) as (ds & Hc & _). apply (defrt_choose_from_total w rs ks ds); [done|done|].
  pose proof (chain_fuel _ _ _ Hc). lia.
Qed.

(** ** Handlers that return *)
(** [r] is a state whose host is well formed, with the keys [ks] when they are
    given. *)
Definition host_ok s : Prop := exists rs ks, ds6_wf (host s) rs ks.
Lemma host_ok_intro s rs ks : ds6_wf (host s) rs ks -> host_ok s.
Proof. intros H. by exists rs, ks. Qed.
(** Changes of the buffer. *)
Lemma host_fill s : host (fill_icmp6chksum s) = host s.
Proof. done. Qed.
Lemma host_create_na f a s : host (create_na f a s) = host s.
Proof. done. Qed.
Lemma host_ns_output a b t s : host (uip_nd6_ns_output a b t s) = host s.
Proof.
  unfold uip_nd6_ns_output. cbv zeta. destruct (negb _); [|done]. destruct (uip_is_addr_unspecified _); done.
Qed.
Lemma host_rs_output s : host (uip_nd6_rs_output s) = host s.
Proof. unfold uip_nd6_rs_output. cbv zeta. destruct (uip_is_addr_unspecified _); done. Qed.
Lemma host_output a s : host (xtcpip_output a s) = host s.
Proof. done. Qed.

(** ** The options of a message *)
Inductive nd_message : Type := ND_NS | ND_NA | ND_RA.
Definition first_option (k : nd_message) : Z :=
  match k with ND_NS => UIP_ND6_NS_LEN | ND_NA => UIP_ND6_NA_LEN | ND_RA => UIP_ND6_RA_LEN end.
(** The next value of [nd6_opt_offset], [None] when the loop ends. *)
Definition option_walk (k : nd_message) s (off : Z) : option Z :=
  if more_options s off then
    if opt_len s off =? 0 then None
    else match k with
         | ND_NS => if (opt_type s off =? UIP_ND6_OPT_SLLAO) && uip_is_addr_unspecified (srcip s) then None else Some (next_option s off)
         | _ => Some (next_option s off)
         end
  else None.
Definition same_packet s s' : Prop := buf6 s' = buf6 s /\ len6 s' = len6 s /\ ext6 s' = ext6 s.

Lemma same_packet_refl s : same_packet s s.
Proof. done. Qed.
Lemma same_packet_trans s1 s2 s3 : same_packet s1 s2 -> same_packet s2 s3 -> same_packet s1 s3.
Proof. unfold same_packet. intuition congruence. Qed.
Lemma same_walk k s s' off : same_packet s s' -> option_walk k s' off = option_walk k s off.
Proof.
  intros (Hb & Hl & He). unfold option_walk, more_options, opt_len, opt_type, next_option, opt_len, opt_at, srcip, ip_at, uip_l3_icmp_hdr_len, uip_l2_l3_icmp_hdr_len.
  by rewrite Hb, Hl, He.
Qed.
Lemma same_turns k s s' n : forall off, same_packet s s' -> turns (option_walk k s') n off = turns (option_walk k s) n off.
Proof.
  induction n as [|n IH]; intros off Hs; [done|]. cbn [turns]. rewrite (same_walk k s s') by done.
  destruct (option_walk k s off); [|done]. cbn [mbind option_bind]. by apply IH.
Qed.
Lemma walk_range k s x y : option_walk k s x = Some y -> 0 <= y < 256.
Proof.
  unfold option_walk. intros H. assert (y = next_option s x) as -> by (repeat case_match; congruence).
  unfold next_option. pose proof (w8_u8 (x + Z.shiftl (opt_len s x) 3)) as Hu. exact Hu.
Qed.

(** What one turn leaves. *)
Definition keeps s s' : Prop := host_ok s' /\ same_packet s s'.
Lemma keeps_refl s : host_ok s -> keeps s s.
Proof. by split. Qed.
#[local] Hint Resolve keeps_refl : core.
Lemma keeps_host s w rs ks : ds6_wf w rs ks -> keeps s (s <| host := w |>).
Proof. intros Hw. split; [by exists rs, ks|done]. Qed.

Lemma ns_sllao_spec off s : host_ok s ->
  exists s', ns_sllao off s = Ret (s', negb (uip_is_addr_unspecified (srcip s))) /\ keeps s s'.
Proof.
  intros (rs & ks & Hw). unfold ns_sllao. destruct (uip_is_addr_unspecified _); [exists s; split; [done|]; split; [by exists rs, ks|done]|].
  destruct (nbr_lookup_total (host s) rs ks (srcip s) Hw) as [r ->]. cbn [lift mbind run_bind host set_field].
  destruct r as [i|].
  - destruct (negb (bool_decide _)); [|destruct (_ =? _)]; eexists; (split; [done|]); (split; [|done]); exists rs, ks; cbn [host set_field].
    + apply upd_nbr_wf, set_nbr_lladdr_wf; [apply opt_lladdr_length|done].
    + by apply upd_nbr_wf.
    + done.
  - destruct (nbr_add_inv (host s) rs ks (srcip (s <| nbr6 := None |>)) (Some (opt_rimeaddr (s <| nbr6 := None |>) off)) 0 NBR_STALE Hw) as (w' & r & rs' & ks' & -> & Hw' & _); [apply length_rds|].
    cbn [lift mbind run_bind]. eexists. split; [done|]. split; [by exists rs', ks'|done].
Qed.
Lemma ns_options_spec fuel : forall off s, host_ok s ->
  (turns (option_walk ND_NS s) fuel off = None /\ exists s' ok, ns_options fuel off s = Ret (s', ok) /\ keeps s s') \/
  (is_Some (turns (option_walk ND_NS s) fuel off) /\ ns_options fuel off s = NoFuel).
Proof.
  induction fuel as [|fuel IH]; intros off s Hs; cbn [turns ns_options]; [right; split; [by eexists|done]|].
  set (t := turns (option_walk _ s) fuel). unfold option_walk. destruct (more_options s off); [|left; split; [done|]; exists s, true; auto].
  destruct (opt_len s off =? 0); [left; split; [done|]; exists s, false; auto|].
  assert (forall s1, keeps s s1 ->
    (t (next_option s off) = None /\ exists s' ok, ns_options fuel (next_option s1 off) s1 = Ret (s', ok) /\ keeps s s') \/
    (is_Some (t (next_option s off)) /\ ns_options fuel (next_option s1 off) s1 = NoFuel)) as Hnext.
  { intros s1 [Hs1 Hp]. assert (next_option s1 off = next_option s off) as ->.
    { destruct Hp as (Hb & _ & He). unfold next_option, opt_len, opt_at, uip_l2_l3_icmp_hdr_len. by rewrite Hb, He. }
    unfold t. rewrite <- (same_turns ND_NS s s1) by done. destruct (IH (next_option s off) s1 Hs1) as [(? & s' & ok & ? & Hs' & ?)|?]; [|by right].
    left. split; [done|]. exists s', ok. split; [done|]. split; [done|by eapply same_packet_trans]. }
  destruct (opt_type s off =? UIP_ND6_OPT_SLLAO); cbn [andb].
  - destruct (ns_sllao_spec off s Hs) as (s1 & -> & Hk). cbn [mbind run_bind].
    destruct (uip_is_addr_unspecified (srcip s)); cbn [negb]; [left; split; [done|by exists s1, false]|].
    cbn [mbind option_bind]. by apply Hnext.
  - cbn [mbind run_bind option_bind]. apply Hnext. auto.
Qed.
Lemma na_options_spec fuel : forall off llao s,
  (turns (option_walk ND_NA s) fuel off = None /\ exists r, na_options fuel off llao s = Ret r) \/
  (is_Some (turns (option_walk ND_NA s) fuel off) /\ na_options fuel off llao s = NoFuel).
Proof.
  induction fuel as [|fuel IH]; intros off llao s; cbn [turns na_options]; [right; split; [by eexists|done]|].
  set (t := turns (option_walk _ s) fuel). unfold option_walk. destruct (more_options s off); [|left; split; [done|by eexists]].
  destruct (opt_len s off =? 0); [left; split; [done|by eexists]|]. cbn [mbind option_bind]. apply IH.
Qed.

(** Changes of the host apart from its tables. *)
Lemma keeps_same s w : host_ok s -> tables_of w = tables_of (host s) -> keeps s (s <| host := w |>).
Proof. intros (rs & ks & Hw) E. split; [|done]. exists rs, ks. by eapply wf_same. Qed.
Lemma keeps_trans s1 s2 s3 : keeps s1 s2 -> keeps s2 s3 -> keeps s1 s3.
Proof. intros [_ H1] [H2 H3]. split; [done|by eapply same_packet_trans]. Qed.

Lemma ra_sllao_spec off s : host_ok s -> exists s', ra_sllao off s = Ret s' /\ keeps s s'.
Proof.
  intros (rs & ks & Hw). unfold ra_sllao. destruct (nbr_lookup_total (host s) rs ks (srcip s) Hw) as [r ->]. cbn [lift mbind run_bind].
  destruct r as [i|].
  - eexists. split; [done|]. split; [|done]. exists rs, ks. cbn [host set_field]. set (w1 := if _ =? _ then _ else _).
    assert (ds6_wf w1 rs ks) as Hw1 by (unfold w1; destruct (_ =? _); [by apply upd_nbr_wf|done]).
    apply upd_nbr_wf. destruct (negb _); [|done]. by apply upd_nbr_wf, set_nbr_lladdr_wf; [apply opt_lladdr_length|].
  - destruct (nbr_add_inv (host s) rs ks (srcip s) (Some (opt_rimeaddr s off)) 1 NBR_STALE Hw) as (w' & r & rs' & ks' & -> & Hw' & _); [apply length_rds|].
    cbn [lift mbind run_bind]. eexists. split; [done|]. split; [by exists rs', ks'|done].
Qed.
Lemma ra_onlink_tables p l v w : tables_of (ra_onlink p l v w) = tables_of w.
Proof.
  unfold ra_onlink. destruct (uip_ds6_prefix_lookup w p l) as [i|].
  - destruct (v =? 0); [done|]. by destruct (_ =? _).
  - destruct (negb (v =? 0)); [|done]. apply prefix_add_tables.
Qed.
Lemma ra_autonomous_tables p v w : tables_of (ra_autonomous p v w) = tables_of w.
Proof.
  unfold ra_autonomous. cbv zeta. destruct (uip_ds6_addr_lookup w _) as [i|]; [|apply addr_add_tables].
  destruct (_ =? ADDR_AUTOCONF); [|apply addr_add_tables]. by destruct (negb _).
Qed.
Lemma ra_prefix_keeps i s : host_ok s -> keeps s (ra_prefix i s).
Proof.
  intros Hs. unfold ra_prefix. cbv zeta. destruct (_ && _); [|auto]. set (s1 := if tst _ UIP_ND6_RA_FLAG_ONLINK then _ else _).
  assert (keeps s s1) as H1 by (unfold s1; destruct (tst _ _); [apply keeps_same; [done|apply ra_onlink_tables]|auto]).
  destruct (_ && _); [|done]. eapply keeps_trans; [exact H1|]. apply keeps_same; [apply H1|apply ra_autonomous_tables].
Qed.
Lemma ra_options_spec fuel : forall off s, host_ok s ->
  (turns (option_walk ND_RA s) fuel off = None /\ exists s' ok, ra_options fuel off s = Ret (s', ok) /\ keeps s s') \/
  (is_Some (turns (option_walk ND_RA s) fuel off) /\ ra_options fuel off s = NoFuel).
Proof.
  induction fuel as [|fuel IH]; intros off s Hs; cbn [turns ra_options]; [right; split; [by eexists|done]|].
  set (t := turns (option_walk _ s) fuel). unfold option_walk. destruct (more_options s off); [|left; split; [done|]; exists s, true; auto].
  destruct (opt_len s off =? 0); [left; split; [done|]; exists s, false; auto|]. cbv zeta.
  set (r := if opt_type s off =? UIP_ND6_OPT_SLLAO then _ else _). assert (exists s1, r = Ret s1 /\ keeps s s1) as (s1 & -> & Hk).
  { unfold r. destruct (_ =? _); [by apply ra_sllao_spec|]. destruct (_ =? _); [eexists; split; [done|]; by apply keeps_same|].
    destruct (_ =? _); eexists; (split; [done|]); [by apply ra_prefix_keeps|auto]. }
  cbn [mbind run_bind option_bind]. destruct Hk as [Hs1 Hp].
  assert (next_option s1 off = next_option s off) as ->.
  { destruct Hp as (Hb & _ & He). unfold next_option, opt_len, opt_at, uip_l2_l3_icmp_hdr_len. by rewrite Hb, He. }
  unfold t. rewrite <- (same_turns ND_RA s s1) by done. destruct (IH (next_option s off) s1 Hs1) as [(? & s' & ok & ? & Hs' & ?)|?]; [|by right].
  left. split; [done|]. exists s', ok. split; [done|]. split; [done|by eapply same_packet_trans].
Qed.
Lemma ra_parameters_keeps i s : host_ok s -> keeps s (ra_parameters i s).
Proof.
  intros Hs. unfold ra_parameters. cbv zeta. set (s1 := if negb (rd8 _ _ =? 0) then _ else _).
  assert (keeps s s1) as H1 by (unfold s1; destruct (negb _); [by apply keeps_same|auto]). clearbody s1.
  set (s2 := if _ && _ then _ else _). assert (keeps s s2) as H2.
  { unfold s2. destruct (_ && _); [|done]. set (w := set_field uip_ds6_if _ (host s1)). pose proof (reachable_time_tables w) as E.
    destruct (uip_ds6_compute_reachable_time w) as [w2 t]. cbn [fst] in E. eapply keeps_trans; [exact H1|].
    apply keeps_same; [apply H1|]. exact E. }
  clearbody s2. destruct (negb _); [|done]. eapply keeps_trans; [exact H2|]. by apply keeps_same; [apply H2|].
Qed.
Lemma ra_router_spec l s : host_ok s -> exists s', ra_router l s = Ret s' /\ host_ok s'.
Proof.
  intros (rs & ks & Hw). unfold ra_router. destruct (defrt_lookup_total (host s) rs ks (srcip s) Hw) as (r & -> & Hr). cbn [lift mbind run_bind].
  destruct (negb (l =? 0)).
  - set (s1 := match nbr6 s with Some _ => _ | None => _ end).
    assert (ds6_wf (host s1) rs ks) as Hw1 by (unfold s1; destruct (nbr6 s); [by apply upd_nbr_wf|done]). clearbody s1. destruct r as [d|].
    + eexists. split; [done|]. exists rs, ks. by apply defrt_upd_wf.
    + destruct (defrt_add_wf (srcip s1) l (host s1) rs ks Hw1) as (w' & r & -> & Hw'). cbn [lift mbind run_bind].
      eexists. split; [done|]. by exists rs, ks.
  - destruct r as [d|]; [|exists s; split; [done|by exists rs, ks]]. destruct Hr as (ds & Hds & Hd).
    destruct (defrt_rm_spec (host s) rs ks d ds Hw Hds Hd) as (w' & -> & Hw' & _). cbn [lift mbind run_bind].
    eexists. split; [done|]. by exists rs, ks.
Qed.

(** ** Whole messages *)
Lemma host_ok_same s w : host_ok s -> tables_of w = tables_of (host s) -> host_ok (s <| host := w |>).
Proof. intros Hs E. by destruct (keeps_same s w Hs E). Qed.
Lemma host_ok_eq s s' : host s' = host s -> host_ok s -> host_ok s'.
Proof. intros E (rs & ks & Hw). exists rs, ks. by rewrite E. Qed.
Lemma ns_target_ok s : host_ok s -> host_ok (ns_target s).
Proof.
  intros Hs. unfold ns_target. destruct (uip_ds6_addr_lookup _ _) as [addr|]; [|exact Hs].
  destruct (uip_is_addr_unspecified (srcip s)).
  - destruct (negb _); [exact Hs|]. destruct (negb _); [exact Hs|]. by apply host_ok_same, dad_failed_tables.
  - destruct (uip_ds6_is_my_addr _ _); [exact Hs|]. destruct (_ || _); exact Hs.
Qed.
Lemma na_incomplete_ok off i r so s : host_ok s -> host_ok (na_incomplete off i r so s).
Proof.
  intros (rs & ks & Hw). exists rs, ks. unfold na_incomplete. cbv zeta. cbn [host set_field]. apply upd_nbr_wf.
  destruct (negb _); apply upd_nbr_wf, set_nbr_lladdr_wf; (apply opt_lladdr_length || done).
Qed.
Lemma na_known_ok a i r so ov s : host_ok s -> (forall x, a = Some x -> length x = UIP_LLADDR_LEN) ->
  exists s', na_known a i r so ov s = Ret s' /\ host_ok s'.
Proof.
  intros (rs & ks & Hw) Ha. unfold na_known. cbv zeta. set (ch := match a with Some _ => _ | None => _ end).
  destruct (_ && ch); [eexists; split; [done|]; exists rs, ks; destruct (_ =? _); [by apply upd_nbr_wf|done]|].
  set (w1 := if _ || _ then _ else _). assert (ds6_wf w1 rs ks) as Hw1.
  { unfold w1. destruct (_ || _); [|done]. set (w0 := match a with Some _ => _ | None => _ end).
    assert (ds6_wf w0 rs ks) by (unfold w0; destruct a; [apply set_nbr_lladdr_wf; [by apply Ha|done]|done]).
    destruct (negb _); [by apply upd_nbr_wf|]. destruct ch; [by apply upd_nbr_wf|done]. }
  clearbody w1. destruct (negb _ && _).
  - destruct (defrt_lookup_total w1 rs ks (srcip s) Hw1) as (d & -> & Hd). cbn [lift mbind run_bind]. destruct d as [d|].
    + destruct Hd as (ds & Hds & Hd). destruct (defrt_rm_spec w1 rs ks d ds Hw1 Hds Hd) as (w' & -> & Hw' & _). cbn [lift mbind run_bind].
      eexists. split; [done|]. exists rs, ks. by apply upd_nbr_wf.
    + cbn [mbind run_bind]. eexists. split; [done|]. exists rs, ks. by apply upd_nbr_wf.
  - cbn [mbind run_bind]. eexists. split; [done|]. exists rs, ks. by apply upd_nbr_wf.
Qed.

Definition nd_input (k : nd_message) (fuel : nat) s : run nd6 :=
  match k with
  | ND_NS => uip_nd6_ns_input fuel s
  | ND_NA => uip_nd6_na_input fuel s
  | ND_RA => uip_nd6_ra_input fuel s
  end.
(** The checks before the options. *)
Definition nd_refused (k : nd_message) s : bool :=
  negb (rd8 (buf6 s) IP6.ttl =? UIP_ND6_HOP_LIMIT) || negb (icode s =? 0) ||
  match k with
  | ND_NS => uip_is_addr_mcast (tgtip s)
  | ND_NA => uip_is_addr_mcast (tgtip s) || (negb (na_flag s UIP_ND6_NA_FLAG_SOLICITED =? 0) && uip_is_addr_mcast (destip s))
  | ND_RA => negb (uip_is_addr_link_local (srcip s))
  end.
Lemma nd_input_refused k fuel s : nd_refused k s = true -> nd_input k fuel s = Ret (discard s).
Proof.
  unfold nd_refused. destruct k; cbn [nd_input].
  - unfold uip_nd6_ns_input. destruct (negb (_ =? UIP_ND6_HOP_LIMIT)), (negb (icode s =? 0)), (uip_is_addr_mcast _); done.
  - unfold uip_nd6_na_input. destruct (negb (_ =? UIP_ND6_HOP_LIMIT)), (negb (icode s =? 0)), (uip_is_addr_mcast (tgtip s)), (negb _ && _); done.
  - unfold uip_nd6_ra_input. destruct (negb (_ =? UIP_ND6_HOP_LIMIT)), (negb (icode s =? 0)), (negb (uip_is_addr_link_local _)); done.
Qed.
Lemma nd_input_accepted k fuel s : host_ok s -> nd_refused k s = false ->
  (turns (option_walk k s) fuel (first_option k) = None /\ exists s', nd_input k fuel s = Ret s' /\ host_ok s') \/
  (is_Some (turns (option_walk k s) fuel (first_option k)) /\ nd_input k fuel s = NoFuel).
Proof.
  intros Hs Hr. unfold nd_refused in Hr. destruct k; cbn [nd_input first_option] in *.
  - unfold uip_nd6_ns_input. apply orb_false_iff in Hr as [[-> ->]%orb_false_iff ->]. cbn [orb].
    destruct (ns_options_spec fuel UIP_ND6_NS_LEN s Hs) as [(Ht & s' & ok & -> & Hs' & _)|[Ht ->]]; cbn [mbind run_bind]; [left|by right].
    split; [done|]. eexists. split; [done|]. destruct ok; [by apply ns_target_ok|exact Hs'].
  - unfold uip_nd6_na_input. cbv zeta. apply orb_false_iff in Hr as [[-> ->]%orb_false_iff [-> ->]%orb_false_iff]. cbn [orb].
    destruct (na_options_spec fuel UIP_ND6_NA_LEN None s) as [(Ht & [llao ok] & ->)|[Ht ->]]; cbn [mbind run_bind]; [left|by right].
    split; [done|]. destruct ok; cbn [negb]; [|by eexists]. destruct (uip_ds6_addr_lookup _ _) as [addr|].
    + eexists. split; [done|]. destruct (_ =? _); [by apply (host_ok_same s), dad_failed_tables|done].
    + pose proof Hs as (rs & ks & Hw). destruct (nbr_lookup_total (host s) rs ks (tgtip s) Hw) as [r ->]. cbn [lift mbind run_bind].
      destruct r as [i|]; [|by eexists]. destruct (_ =? NBR_INCOMPLETE).
      * eexists. split; [done|]. destruct llao; [by apply (na_incomplete_ok _ _ _ _ (s <| nbr6 := Some i |>))|done].
      * match goal with |- context [na_known ?a ?i ?r ?so ?ov ?s1] =>
          destruct (na_known_ok a i r so ov s1 Hs) as (s' & -> & Hs') end.
        { intros x Hx. destruct llao; [|done]. injection Hx as <-. apply opt_lladdr_length. }
        cbn [mbind run_bind]. eexists. split; [done|exact Hs'].
  - unfold uip_nd6_ra_input. apply orb_false_iff in Hr as [[-> ->]%orb_false_iff ->]. cbn [orb].
    destruct (ra_parameters_keeps (uip_l2_l3_icmp_hdr_len s) s Hs) as [Hs1 Hp]. set (s1 := ra_parameters _ s) in *.
    rewrite <- (same_turns ND_RA s s1) by done.
    destruct (ra_options_spec fuel UIP_ND6_RA_LEN s1 Hs1) as [(Ht & s' & ok & -> & Hs' & _)|[Ht ->]]; cbn [mbind run_bind]; [left|by right].
    split; [done|]. destruct ok; [|by eexists]. destruct (ra_router_spec (ntohs_at s' (uip_l2_l3_icmp_hdr_len s + 2)) s' Hs') as (s2 & -> & Hs2).
    cbn [mbind run_bind]. by eexists.
Qed.
(** 256 turns decide. *)
Definition nd6_fuel : nat := 256.
Lemma nd_input_cases k s : host_ok s ->
  (exists s', nd_input k nd6_fuel s = Ret s' /\ host_ok s') \/
  (nd_refused k s = false /\ (forall n, is_Some (turns (option_walk k s) n (first_option k))) /\ forall fuel, nd_input k fuel s = NoFuel).
Proof.
  intros Hs. destruct (nd_refused k s) eqn:Hr; [left; eexists; split; [by apply nd_input_refused|exact Hs]|].
  destruct (nd_input_accepted k nd6_fuel s Hs Hr) as [[_ H]|[Ht _]]; [by left|right]. split; [done|].
  assert (forall n, is_Some (turns (option_walk k s) n (first_option k))) as Hall.
  { apply (turns_forever (option_walk k s) 256); [apply walk_range|by destruct k|exact Ht]. }
  split; [exact Hall|]. intros fuel. destruct (nd_input_accepted k fuel s Hs Hr) as [[Hn _]|[_ H]]; [|exact H].
  destruct (Hall fuel) as [x Hx]. congruence.
Qed.

(** ** The periodic handlers *)
(** The host of [s] is well formed with the keys [ks]. *)
Definition host_at s (ks : list nat) : Prop := exists rs, ds6_wf (host s) rs ks.
Lemma host_at_ok s ks : host_at s ks -> host_ok s.
Proof. intros [rs Hw]. by exists rs, ks. Qed.
Lemma nbr_rm_wf w rs ks i : ds6_wf w rs ks -> i ∈ ks -> on w DS6_NEIGHBORS i = true -> ds6_wf (uip_ds6_nbr_rm (Some i) w) rs ks.
Proof.
  intros [Hi Hw] Hk Ho. split; [apply nbr_rm_inv; [done|by eapply wf_lt|done]|].
  by eapply (remove_wf w ks DS6_NEIGHBORS i); [exact Hw|apply (di_nbr _ _ Hi)|exact Hk|].
Qed.
Lemma nbr_solicit_at i d s ks : host_at s ks -> host_at (nbr_solicit i d s) ks.
Proof.
  intros [rs Hw]. exists rs. unfold nbr_solicit. cbn [host set_field]. apply upd_nbr_wf. rewrite host_ns_output. by apply upd_nbr_wf.
Qed.
Lemma nt_defrt_rm w rs ks d ds w' : ds6_wf w rs ks -> defrts w ds -> d ∈ ds -> uip_ds6_defrt_rm d w = Some w' -> nt w' = nt w.
Proof.
  intros Hw Hds Hd. unfold uip_ds6_defrt_rm. generalize (fuel_of (defrt_next w)) (list_head (defaultrouterlist w)). intros fuel.
  induction fuel as [|fuel IH]; intros p; cbn [defrt_rm_from]; [done|]. destruct p as [i|]; [|congruence]. case_decide as Hid.
  - destruct (list_remove_spec _ _ _ d (proj1 Hds)) as (nx & hd & E & _). rewrite E. cbn [mbind option_bind].
    destruct (defrt_unlink_wf w rs ks _ d nx hd Hw Hds Hd E) as ([Hi' _] & _). set (w1 := set_field defaultroutermemb _ _) in *.
    destruct (call_route_callback_spec UIP_DS6_NOTIFICATION_DEFRT_RM (d_ipaddr (defrt_at w1 d)) (Some (d_ipaddr (defrt_at w1 d))) w1 rs Hi') as [l ->].
    by intros [= <-].
  - intros (n & _ & H)%bind_Some. by apply (IH n).
Qed.
Lemma neighbor_turn_spec i s ks : host_at s ks -> i ∈ ks -> on (host s) DS6_NEIGHBORS i = true ->
  exists s', neighbor_turn i s = Ret s' /\ host_at s' ks.
Proof.
  intros [rs Hw] Hi Ho. assert (forall f, host_at (s <| host ::= upd_nbr i f |>) ks) as Hupd by (intros f; exists rs; by apply upd_nbr_wf).
  assert (host_at s ks) as Hs by (by exists rs). unfold neighbor_turn. cbv zeta.
  destruct (_ =? NBR_REACHABLE); [eexists; split; [done|]; destruct (stimer_expired _ _); [apply Hupd|done]|].
  destruct (_ =? NBR_INCOMPLETE).
  { eexists. split; [done|]. destruct (_ <=? _); [exists rs; by apply nbr_rm_wf|]. destruct (_ && _); [by apply nbr_solicit_at|done]. }
  destruct (_ =? NBR_DELAY); [eexists; split; [done|]; destruct (stimer_expired _ _); [apply Hupd|done]|].
  destruct (_ =? NBR_PROBE); [|by eexists]. destruct (_ <=? _).
  - destruct (defrt_lookup_total (host s) rs ks (nbr_ipaddr (nbr_at (host s) i)) Hw) as (r & -> & Hr). cbn [lift mbind run_bind].
    set (m := match r with Some d => _ | None => _ end). assert (exists w', m = Ret w' /\ ds6_wf w' rs ks /\ nt w' = nt (host s)) as (w' & -> & Hw' & Hnt).
    { unfold m. destruct r as [d|]; [|by eexists]. destruct (_ =? 0); [|by eexists]. destruct Hr as (ds & Hds & Hd).
      destruct (defrt_rm_spec (host s) rs ks d ds Hw Hds Hd) as (w' & E & Hw' & _). rewrite E. cbn [lift].
      eexists. split; [done|]. split; [done|]. by eapply nt_defrt_rm. }
    cbn [mbind run_bind]. eexists. split; [done|]. exists rs. apply nbr_rm_wf; [done|done|]. unfold on. by rewrite Hnt.
  - eexists. split; [done|]. destruct (_ && _); [by apply nbr_solicit_at|done].
Qed.
Lemma neighbor_periodic_from_spec ks post : forall fuel pre s, host_at s ks -> ks = pre ++ post -> (length post < fuel)%nat ->
  exists s', neighbor_periodic_from fuel (head (items_of (nt (host s)) DS6_NEIGHBORS post)) s = Ret s' /\ host_at s' ks.
Proof.
  induction post as [post IH] using (induction_ltof1 _ (@length nat)); unfold ltof in IH. intros fuel pre s Hs -> Hf.
  destruct fuel as [|fuel]; [lia|]. cbn [neighbor_periodic_from]. destruct (items_of (nt (host s)) DS6_NEIGHBORS post) as [|k l] eqn:E; [by exists s|].
  cbn [head]. pose proof E as E'. apply items_of_split in E as (q & post' & -> & _).
  assert (k ∈ items_of (nt (host s)) DS6_NEIGHBORS (q ++ k :: post')) as [Ho _]%list_elem_of_filter by (rewrite E'; set_solver).
  destruct (neighbor_turn_spec k s _ Hs ltac:(set_solver) Ho) as (s1 & -> & Hs1). cbn [mbind run_bind].
  pose proof Hs1 as [rs1 Hw1]. rewrite (nbr_table_next_spec _ _ (pre ++ q) k post') by (rewrite <- app_assoc; apply (nw_keys _ _ _ (dw_nbr _ _ _ Hw1))).
  cbn [lift mbind run_bind]. rewrite length_app in Hf. cbn in Hf.
  apply (IH post') with (pre := pre ++ q ++ [k]); [rewrite length_app; cbn; lia|done|by rewrite <- !app_assoc|lia].
Qed.
Lemma neighbor_periodic_spec s : host_ok s -> exists s', uip_ds6_neighbor_periodic s = Ret s' /\ host_ok s'.
Proof.
  intros (rs & ks & Hw). pose proof (nw_keys _ _ _ (dw_nbr _ _ _ Hw)) as Hc. unfold uip_ds6_neighbor_periodic.
  rewrite (nbr_table_head_spec _ _ ks) by exact Hc. cbn [lift mbind run_bind]. pose proof (chain_fuel _ _ _ Hc).
  destruct (neighbor_periodic_from_spec ks ks (fuel_of (key_next (nt (host s)))) [] s) as (s' & ? & ?); [by exists rs|done|lia|].
  exists s'. split; [done|by eapply host_at_ok].
Qed.

Lemma addr_turn_ok i s : host_ok s -> host_ok (addr_turn i s).
Proof.
  intros Hs. unfold addr_turn. cbv zeta. destruct (negb _); [|done]. destruct (_ && stimer_expired _ _); [by apply host_ok_same, addr_rm_tables|].
  destruct (_ && _); [|done]. unfold uip_ds6_dad. cbv zeta. destruct (_ <? _); [|by apply host_ok_same].
  assert (host_ok (uip_nd6_ns_output None None (a_ipaddr (addr_at (host s) i)) s)) as H by (eapply host_ok_eq; [apply host_ns_output|done]).
  revert H. generalize (uip_nd6_ns_output None None (a_ipaddr (addr_at (host s) i)) s). intros s1 H. by apply (host_ok_same s1).
Qed.
Lemma prefix_turn_tables i w : tables_of (prefix_turn i w) = tables_of w.
Proof. unfold prefix_turn. cbv zeta. by destruct (_ && _). Qed.
Lemma fold_ok {A} (f : A -> nat -> A) (P : A -> Prop) l : (forall a i, P a -> P (f a i)) -> forall a, P a -> P (fold_left f l a).
Proof. intros Hf. induction l as [|i l IH]; intros a Ha; [done|]. cbn [fold_left]. apply IH. by apply Hf. Qed.
Lemma periodic_spec s : host_ok s -> exists s', uip_ds6_periodic s = Ret s' /\ host_ok s'.
Proof.
  intros Hs. unfold uip_ds6_periodic. cbv zeta. set (s1 := fold_left (fun s i => addr_turn i s) _ s).
  assert (host_ok s1) as (rs & ks & Hw1) by (apply (fold_ok _ host_ok); [intros; by apply addr_turn_ok|done]). clearbody s1.
  destruct (di_defrts _ _ (dw_inv _ _ _ Hw1)) as (ds & Hds). destruct (defrt_periodic_spec (host s1) rs ks ds Hw1 Hds) as (w & -> & Hw & _).
  cbn [lift mbind run_bind]. set (w' := fold_left _ _ w). assert (tables_of w' = tables_of w) as Hw'.
  { apply (fold_ok _ (fun x => tables_of x = tables_of w)); [intros a i <-; apply prefix_turn_tables|done]. }
  destruct (neighbor_periodic_spec (s1 <| host := w' |>)) as (s2 & -> & Hs2); [exists rs, ks; by eapply wf_same|].
  cbn [mbind run_bind]. eexists. split; [done|]. by apply host_ok_same.
Qed.
Lemma send_rs_spec s : host_ok s -> exists s', uip_ds6_send_rs s = Ret s' /\ host_ok s'.
Proof.
  intros Hs. pose proof Hs as (rs & ks & Hw). unfold uip_ds6_send_rs. destruct (defrt_choose_total (host s) rs ks Hw) as [r ->].
  cbn [lift mbind run_bind]. cbv zeta. destruct (_ && _); (eexists; split; [done|]); [|by apply (host_ok_same s)].
  assert (host_ok (uip_nd6_rs_output s)) as H by (eapply host_ok_eq; [apply host_rs_output|done]).
  revert H. generalize (uip_nd6_rs_output s). intros s1 H. by apply (host_ok_same s1).
Qed.

(** ** Output *)
Lemma next_hop_spec s : host_ok s -> exists s' r, next_hop s = Ret (s', r) /\ host_ok s'.
Proof.
  intros Hs. pose proof Hs as (rs & ks & Hw). unfold next_hop. destruct (uip_ds6_is_addr_onlink _ _); [by eexists _, _|].
  destruct (uip_ds6_route_lookup (host s) (destip s)) as [route|] eqn:El; [|by rewrite (route_lookup_spec (host s) rs ks) in El by done].
  cbn [lift mbind run_bind]. destruct route as [r|].
  - pose proof (lookup_in_use _ _ _ _ _ Hw El) as Hu. pose proof Hw as [Hi Hn]. apply (di_alloc _ _ Hi) in Hu as Hu'. destruct Hu' as [j Hj].
    destruct (di_lt _ _ _ _ Hi Hj) as (Hlt & _). destruct (nexthop_some (host s) r j None ks Hn (proj1 (di_nbr _ _ Hi)) (di_back _ _ Hi j r Hj) Hlt) as [nh ->].
    cbn [lift mbind run_bind]. destruct nh as [a|]; [by eexists _, _|].
    destruct (route_rm_wf (host s) rs ks r Hw Hu) as (w' & rs' & -> & Hw'). cbn [lift mbind run_bind].
    eexists _, _. split; [done|]. by exists rs', ks.
  - destruct (defrt_choose_total (host s) rs ks Hw) as [r ->]. cbn [lift mbind run_bind]. destruct r; by eexists _, _.
Qed.
Lemma to_neighbor_spec a s : host_ok s -> exists s', to_neighbor a s = Ret s' /\ host_ok s'.
Proof.
  intros Hs. pose proof Hs as (rs & ks & Hw). unfold to_neighbor. destruct (nbr_lookup_total (host s) rs ks a Hw) as [r ->]. cbn [lift mbind run_bind].
  destruct r as [i|].
  - destruct (_ =? NBR_INCOMPLETE); [by eexists|]. cbv zeta. eexists. split; [done|]. set (s1 := if _ =? NBR_STALE then _ else _).
    assert (host_ok s1) as H1 by (unfold s1; destruct (_ =? _); [exists rs, ks; by apply upd_nbr_wf|done]). clearbody s1. exact H1.
  - destruct (nbr_add_inv (host s) rs ks a None 0 NBR_INCOMPLETE Hw) as (w' & r & rs' & ks' & -> & Hw' & _); [done|].
    cbn [lift mbind run_bind]. destruct r as [i|]; [|eexists; split; [done|]; by exists rs', ks'].
    cbv zeta. eexists. split; [done|]. exists rs', ks'. cbn [host set_field]. apply upd_nbr_wf. by rewrite host_ns_output.
Qed.
Lemma ipv6_output_spec s : host_ok s -> exists s', xtcpip_ipv6_output s = Ret s' /\ host_ok s'.
Proof.
  intros Hs. unfold xtcpip_ipv6_output. destruct (_ =? 0); [by eexists|]. destruct (_ <? _); [by eexists|].
  destruct (uip_is_addr_unspecified _); [by eexists|]. destruct (negb _); [|by eexists].
  destruct (next_hop_spec s Hs) as (s1 & r & -> & Hs1). cbn [mbind run_bind]. destruct r as [a|]; [by apply to_neighbor_spec|by eexists].
Qed.

(** ** Any sequence of events *)
(** A message arrives in the buffer; the other events are those of the timers,
    of the output functions and of the interface of the tables. *)
Inductive nd_event : Type :=
  | Recv (k : nd_message) (packet : list Z) (len ext : Z)
  | Output (packet : list Z) (len ext : Z)
  | Send
  | Periodic
  | SendRs
  | TableCall (c : ds6_call)
  | Clock (seconds milliseconds : Z).
Definition arrives (packet : list Z) (len ext : Z) s : nd6 := s <| buf6 := packet |> <| len6 := len |> <| ext6 := ext |>.
Definition nd_step (e : nd_event) s : run nd6 :=
  match e with
  | Recv k p l x => nd_input k nd6_fuel (arrives p l x s)
  | Output p l x => xtcpip_ipv6_output (arrives p l x s)
  | Send => xtcpip_ipv6_output s
  | Periodic => uip_ds6_periodic s
  | SendRs => uip_ds6_send_rs s
  | TableCall c => w ← lift (ds6_exec c (host s)); Ret (s <| host := w |>)
  | Clock t ms => Ret (s <| host ::= fun w => w <| now_s := t |> <| now_ms := ms |> |>)
  end.
Fixpoint nd_run (es : list nd_event) s : run nd6 :=
  match es with
  | [] => Ret s
  | e :: es => s ← nd_step e s; nd_run es s
  end.
Definition nd_event_ok (e : nd_event) : Prop := match e with TableCall c => ds6_call_ok c | _ => True end.
(** The message never lets its handler return. *)
Definition endless (k : nd_message) s : Prop :=
  nd_refused k s = false /\ (forall n, is_Some (turns (option_walk k s) n (first_option k))) /\ forall fuel, nd_input k fuel s = NoFuel.

Lemma nd_step_spec e s : host_ok s -> nd_event_ok e ->
  (exists s', nd_step e s = Ret s' /\ host_ok s') \/ (exists k p l x, e = Recv k p l x /\ endless k (arrives p l x s) /\ nd_step e s = NoFuel).
Proof.
  intros Hs He. destruct e as [k p l x|p l x| | | |c|t ms]; cbn [nd_step].
  - destruct (nd_input_cases k (arrives p l x s) Hs) as [?|(Hr & Ht & Hn)]; [by left|right]. exists k, p, l, x. by split; [|split; [split|apply Hn]].
  - left. by apply ipv6_output_spec.
  - left. by apply ipv6_output_spec.
  - left. by apply periodic_spec.
  - left. by apply send_rs_spec.
  - left. pose proof Hs as (rs & ks & Hw). destruct (ds6_exec_wf c (host s) rs ks Hw He) as (w' & rs' & ks' & -> & Hw').
    cbn [lift mbind run_bind]. eexists. split; [done|]. by exists rs', ks'.
  - left. eexists. split; [done|]. by apply host_ok_same.
Qed.
(** C21: neighbour discovery never follows a pointer out of the tables and leaves them well
    formed, whatever arrives: on a host whose tables are well formed (as
    [uip_ds6_init] leaves them), any sequence of messages with any contents, of
    packets to send, of turns of the timers and of calls of the tables either
    is handled to its end, or comes to a message on which the loop over the
    options never ends: the handler returns with no amount of fuel. *)
Theorem nd_run_safe s es : host_ok s -> Forall nd_event_ok es ->
  (exists s', nd_run es s = Ret s' /\ host_ok s') \/
  (nd_run es s = NoFuel /\ exists es1 k p l x es2 s1, es = es1 ++ Recv k p l x :: es2 /\ nd_run es1 s = Ret s1 /\ host_ok s1 /\
     endless k (arrives p l x s1)).
Proof.
  revert s. induction es as [|e es IH]; intros s Hs Hes; [left; by exists s|]. apply Forall_cons in Hes as [He Hes]. cbn [nd_run].
  destruct (nd_step_spec e s Hs He) as [(s1 & E & Hs1)|(k & p & l & x & -> & Hend & E)]; rewrite E; cbn [mbind run_bind].
  - destruct (IH s1 Hs1 Hes) as [?|(Hn & es1 & k & p & l & x & es2 & s2 & -> & Hr & Hs2 & Hend)]; [by left|right]. split; [done|].
    exists (e :: es1), k, p, l, x, es2, s2. split; [done|]. split; [|done]. cbn [nd_run]. rewrite E. exact Hr.
  - right. split; [done|]. by exists [], k, p, l, x, es, s.
Qed.

(** ** A message that stops the stack *)
(** An option of length 32, in units of 8 bytes, takes the 8-bit offset round
    to itself. *)
Lemma option_of_256 k s : nd_refused k s = false -> more_options s (first_option k) = true -> opt_len s (first_option k) = 32 ->
  (k = ND_NS -> opt_type s (first_option k) = UIP_ND6_OPT_SLLAO -> uip_is_addr_unspecified (srcip s) = false) ->
  forall n, turns (option_walk k s) n (first_option k) = Some (first_option k).
Proof.
  intros Hr Hm Hl Hu. assert (option_walk k s (first_option k) = Some (first_option k)) as Hw.
  { unfold option_walk. rewrite Hm, Hl. cbn [Z.eqb]. assert (next_option s (first_option k) = first_option k) as ->
      by (unfold next_option; rewrite Hl; by destruct k).
    destruct k; [|done..]. destruct (Z.eqb_spec (opt_type s (first_option ND_NS)) UIP_ND6_OPT_SLLAO) as [E|]; [|done].
    by rewrite (Hu eq_refl E). }
  induction n as [|n IH]; [done|]. cbn [turns]. rewrite Hw. exact IH.
Qed.
(** C22: one message stops the IPv6 stack for good: when the first option of a solicitation, an
    advertisement or a router advertisement has the length 32 (256 bytes), and
    the message passes the checks, its handler never returns - the offset of
    the options has 8 bits and comes back to the same option.  The option may
    even be of a type that is to be ignored. *)
Theorem nd_option_endless k s : host_ok s -> nd_refused k s = false -> uip_is_addr_unspecified (srcip s) = false ->
  more_options s (first_option k) = true -> opt_len s (first_option k) = 32 -> forall fuel, nd_input k fuel s = NoFuel.
Proof.
  intros Hs Hr Hu Hm Hl fuel. pose proof (option_of_256 k s Hr Hm Hl (fun _ _ => Hu) fuel) as Ht.
  destruct (nd_input_accepted k fuel s Hs Hr) as [[Hn _]|[_ H]]; [congruence|exact H].
Qed.
