(* ===== verification/Nd6Run.v ===== *)
(** * Address resolution

    The messages [uip-nd6.c] sends are complete and pass the checks of the
    receiver; a solicitation for an address of the host is answered; and a
    solicitation, the answer of the neighbour and its reception resolve the
    neighbour's address. *)
From S2P Require Export Nd6Inv.
From stdpp Require Import list gmap.
Local Open Scope Z_scope.

Implicit Types (s : nd6) (w : ds6).

(** ** What adding a neighbour leaves alone *)
Definition apart w := (uip_ds6_if w, uip_lladdr w, prefix_list w, (now_s w, now_ms w, rands w)).
Lemma call_callbacks_apart fuel e r n : forall p w w', call_callbacks fuel e r n p w = Some w' -> apart w' = apart w.
Proof.
  induction fuel as [|fuel IH]; intros p w w'; cbn [call_callbacks]; [done|]. destruct p as [i|]; [|congruence].
  intros (num & _ & H)%bind_Some. apply bind_Some in H as (q & _ & H). by apply IH in H.
Qed.
Lemma route_rm_apart p w w' : uip_ds6_route_rm p w = Some w' -> apart w' = apart w.
Proof.
  unfold uip_ds6_route_rm. destruct p as [r|]; [|congruence]. destruct (rt_routes _) as [j|]; [|congruence].
  intros (hd & _ & H)%bind_Some. apply bind_Some in H as ([nx hd'] & _ & H). apply bind_Some in H as (nh & _ & H).
  apply call_callbacks_apart in H. rewrite H. by destruct hd'.
Qed.
Lemma rm_routes_apart fuel j : forall p w w', rm_routes fuel j p w = Some w' -> apart w' = apart w.
Proof.
  induction fuel as [|fuel IH]; intros p w w'; cbn [rm_routes]; [done|]. destruct p as [i|]; [|congruence].
  intros (w1 & H1 & H)%bind_Some. apply bind_Some in H as (q & _ & H). apply IH in H. apply route_rm_apart in H1. congruence.
Qed.
Lemma rm_routelist_apart p w w' : rm_routelist p w = Some w' -> apart w' = apart w.
Proof.
  unfold rm_routelist. destruct p as [i|]; [|congruence]. destruct (route_list _); [|congruence].
  intros (r & _ & H)%bind_Some. apply bind_Some in H as (w1 & H1 & [= <-]). by apply rm_routes_apart in H1.
Qed.
Lemma call_tables_apart n k : forall i w w', call_tables i n k w = Some w' -> apart w' = apart w.
Proof.
  induction n as [|n IH]; intros i w w'; cbn [call_tables]; [congruence|]. intros (w1 & H1 & H)%bind_Some. apply IH in H. rewrite H.
  destruct (all_tables _ !! i) as [[t|]|]; [|congruence..]. destruct t; cbn [callback ds6_world] in H1;
    (destruct (nbr_get_bit _ _ _ _); [|congruence]); [by injection H1 as <-|by apply (rm_routelist_apart (Some k)) in H1].
Qed.
Lemma nbr_add_lladdr_apart t ll w w' r : nbr_table_add_lladdr t ll w = Some (w', r) -> apart w' = apart w.
Proof.
  unfold nbr_table_add_lladdr. intros (index & _ & H)%bind_Some. apply bind_Some in H as ([w1 i] & H1 & H).
  assert (apart w1 = apart w) as E1.
  { destruct index as [x|]; [congruence|]. unfold new_key in H1. apply bind_Some in H1 as ([w2 k] & H2 & H1).
    assert (apart w2 = apart w) as E2.
    { unfold nbr_table_allocate in H2. destruct (memb_alloc _) as [m [x|]]; [by injection H2 as <- _|].
      apply bind_Some in H2 as (lk & _ & H2). destruct lk as [x|]; [|congruence]. apply bind_Some in H2 as (w3 & H3 & H2).
      apply call_tables_apart in H3. apply bind_Some in H2 as ([nx hd] & _ & [= <- _]). exact H3. }
    destruct k as [x|]; [|congruence]. apply bind_Some in H1 as ([nx hd] & _ & [= <- _]). exact E2. }
  destruct i as [x|]; [|congruence]. injection H as <- _. rewrite <- E1. by destruct t.
Qed.
Lemma nbr_add_apart ip ll isr st w w' r : uip_ds6_nbr_add ip ll isr st w = Some (w', r) -> apart w' = apart w.
Proof.
  unfold uip_ds6_nbr_add. intros ([w1 n] & H1 & H)%bind_Some. apply nbr_add_lladdr_apart in H1. destruct n; injection H as <- _; exact H1.
Qed.
Lemma apart_if w w' : apart w' = apart w -> uip_ds6_if w' = uip_ds6_if w /\ uip_lladdr w' = uip_lladdr w /\ now_s w' = now_s w.
Proof. unfold apart. intros. naive_solver. Qed.
Lemma ns_sllao_apart off s s' ok : ns_sllao off s = Ret (s', ok) -> apart (host s') = apart (host s) /\ frames s' = frames s.
Proof.
  unfold ns_sllao. destruct (uip_is_addr_unspecified _); [by intros [= <- _]|]. destruct (uip_ds6_nbr_lookup _ _) as [[i|]|]; [| |done]; cbn [lift mbind run_bind].
  - destruct (negb _); [by intros [= <- _]|]. destruct (_ =? _); by intros [= <- _].
  - destruct (uip_ds6_nbr_add _ _ _ _ _) as [[w r]|] eqn:E; [|done]. cbn [lift mbind run_bind]. intros [= <- _]. by apply nbr_add_apart in E.
Qed.

(** ** Checksums *)
Definition upper_len6 (b : list Z) : Z := w16 (Z.shiftl (rd8 b IP6.len) 8 + rd8 b (IP6.len + 1) - 0).
Definition icmp_sum (b : list Z) : Z := w16 (upper_len6 b + UIP_PROTO_ICMP6) + wsum 32 b 22 0 + wsum (Z.to_nat (upper_len6 b)) b 54 0.
Lemma icmp_sum_nonneg b : bytes b -> 0 <= icmp_sum b.
Proof.
  intros Hb. unfold icmp_sum. pose proof (w16_u16 (upper_len6 b + UIP_PROTO_ICMP6)). unfold u16 in *.
  pose proof (wsum_nonneg 32 b Hb 22 0). pose proof (wsum_nonneg (Z.to_nat (upper_len6 b)) b Hb 54 0). lia.
Qed.
Lemma icmp6chksum_ones s : ext6 s = 0 -> bytes (buf6 s) -> uip_icmp6chksum s = fold_sum (ones (icmp_sum (buf6 s))).
Proof.
  intros He Hb. unfold uip_icmp6chksum, upper_layer_chksum6, icmp_sum. rewrite He. fold (upper_len6 (buf6 s)). set (b := buf6 s) in *.
  pose proof (w16_u16 (upper_len6 b + UIP_PROTO_ICMP6)) as Hs. assert (u16 (upper_len6 b)) as Hl by apply w16_u16.
  pose proof (wsum_nonneg 32 b Hb 22 0). pose proof (wsum_nonneg (Z.to_nat (upper_len6 b)) b Hb 54 0).
  rewrite (chksum_ones _ b IP6.srcipaddr 32) by (try done; unfold u16; lia).
  change (Z.to_nat 32) with 32%nat. unfold IP6.srcipaddr. change (UIP_IPH_LEN6 + UIP_LLH_LEN + 0) with 54.
  pose proof (ones_range (w16 (upper_len6 b + UIP_PROTO_ICMP6) + wsum 32 b 22 0)).
  rewrite chksum_ones by (try done; unfold u16 in *; lia). rewrite ones_add by (unfold u16 in *; lia). done.
Qed.
Lemma icmp6_filled s : ext6 s = 0 -> bytes (buf6 s) -> 4 <= upper_len6 (buf6 s) -> 58 <= Z.of_nat (length (buf6 s)) ->
  uip_icmp6chksum (fill_icmp6chksum s) = 0xffff.
Proof.
  intros He Hb Hl Hlen. unfold fill_icmp6chksum. cbv zeta. assert (ICMP_chksum s = 56) as Eq by (unfold ICMP_chksum, uip_l2_l3_hdr_len; by rewrite He).
  change (ICMP_chksum (mem6 _ s)) with (ICMP_chksum s). rewrite Eq.
  set (b0 := wr16 56 0 (buf6 s)). assert (bytes b0) as Hb0 by (by apply bytes_wr16).
  assert (forall v, upper_len6 (wr16 56 v b0) = upper_len6 b0) as Elen by (intros v; unfold upper_len6, IP6.len; by mem_simpl).
  assert (upper_len6 b0 = upper_len6 (buf6 s)) as Elen0 by (unfold upper_len6, IP6.len, b0; by mem_simpl).
  assert (rd8 b0 56 = 0 /\ rd8 b0 57 = 0) as [Z0 Z1] by (unfold b0; split; mem_simpl; reflexivity).
  assert (forall v, icmp_sum (wr16 56 v b0) = icmp_sum b0 + (256 * (w16 v mod 256) + w16 v / 256)) as Esum.
  { intros v. assert (length b0 = length (buf6 s)) by apply length_wr16. unfold icmp_sum. rewrite Elen, Elen0, wsum_wr16_out by (done || lia).
    rewrite wsum_wr16 by (done || lia). change (56 + 1) with 57. rewrite Z0, Z1. lia. }
  rewrite icmp6chksum_ones by (done || (cbn [buf6 mem6 set_field]; by apply bytes_wr16)). cbn [buf6 mem6 set_field].
  fold b0. rewrite Esum. apply ones_patch; [by apply icmp_sum_nonneg|]. by rewrite icmp6chksum_ones.
Qed.

(** ** Messages with one option *)
Definition buf_ok s : Prop := bytes (buf6 s) /\ 86 <= Z.of_nat (length (buf6 s)).
(** A solicitation or an advertisement of 72 bytes that passes every check of
    the receiver: [first] is the byte of the flags, [opt] the type of the
    option. *)
Record nd_packet s (type : Z) (src dst : ip6) (first : Z) (tgt : ip6) (opt : Z) (lladdr : list Z) : Prop := {
  pk_buf : buf_ok s;
  pk_len : len6 s = 72;
  pk_ext : ext6 s = 0;
  pk_iplen : upper_len6 (buf6 s) = 32;
  pk_proto : rd8 (buf6 s) IP6.proto = UIP_PROTO_ICMP6;
  pk_ttl : rd8 (buf6 s) IP6.ttl = UIP_ND6_HOP_LIMIT;
  pk_src : rds (buf6 s) 22 16 = src;
  pk_dst : rds (buf6 s) 38 16 = dst;
  pk_type : rd8 (buf6 s) 54 = type;
  pk_code : rd8 (buf6 s) 55 = 0;
  pk_first : rd8 (buf6 s) 58 = first;
  pk_tgt : rds (buf6 s) 62 16 = tgt;
  pk_opt : rd8 (buf6 s) 78 = opt;
  pk_optlen : rd8 (buf6 s) 79 = 1;
  pk_lladdr : rds (buf6 s) 80 6 = lladdr;
  pk_chksum : uip_icmp6chksum s = 0xffff }.
Definition lladdr6_ok (a : list Z) : Prop := length a = UIP_LLADDR_LEN /\ bytes a.
Definition ip_ok (a : ip6) : Prop := length a = 16%nat /\ bytes a.

Lemma take_lladdr a : lladdr6_ok a -> take UIP_LLADDR_LEN a = a.
Proof. intros [Hl _]. apply take_ge. unfold UIP_LLADDR_LEN in *. lia. Qed.
Lemma rds_wrs_head b i v vs : 0 <= i -> i + 1 + Z.of_nat (length vs) <= Z.of_nat (length b) -> u8 v ->
  rd8 (wrs i (v :: vs) b) i = v.
Proof.
  intros Hi Hl Hv. rewrite rd8_wrs_in by (cbn [length]; lia). rewrite Z.sub_diag. cbn [nth Z.to_nat]. by apply w8_small.
Qed.
Lemma bytes_option t a : u8 t -> lladdr6_ok a -> bytes ([t; 1] ++ a).
Proof. intros Ht [_ Ha]. apply List.Forall_cons; [exact Ht|]. apply List.Forall_cons; [unfold u8; lia|exact Ha]. Qed.

Lemma bytes_fill s : bytes (buf6 s) -> bytes (buf6 (fill_icmp6chksum s)).
Proof. intros H. unfold fill_icmp6chksum. cbv zeta. cbn [buf6 mem6 set_field]. by do 2 apply bytes_wr16. Qed.
(** The tail shared by the two messages: an option at 78, then the checksum. *)
Lemma message_fields b (type first opt : Z) (tgt ll : list Z) s :
  bytes b -> 86 <= Z.of_nat (length b) -> ip_ok tgt -> lladdr6_ok ll -> u8 opt ->
  ext6 s = 0 -> len6 s = 72 -> buf6 s = wrs 78 ([opt; 1] ++ ll) b ->
  rd8 b IP6.len = 0 -> rd8 b (IP6.len + 1) = 32 -> rd8 b IP6.proto = UIP_PROTO_ICMP6 -> rd8 b IP6.ttl = UIP_ND6_HOP_LIMIT ->
  rd8 b 54 = type -> rd8 b 55 = 0 -> rd8 b 58 = first -> rds b 62 16 = tgt ->
  nd_packet (fill_icmp6chksum s) type (rds b 22 16) (rds b 38 16) first tgt opt ll.
Proof.
  intros Hb Hlen Ht Hll Hopt He Hl Hbuf Hf0 Hf1 Hpr Httl Hty Hco Hfi Htg.
  pose proof (bytes_option opt ll Hopt Hll) as Hbo. destruct Hll as [Hll1 Hll2]. unfold UIP_LLADDR_LEN in Hll1.
  assert (length ([opt; 1] ++ ll) = 8%nat) as Hol by (cbn; lia).
  assert (bytes (buf6 s)) as Hbs by (rewrite Hbuf; auto with mem).
  assert (Z.of_nat (length (buf6 s)) = Z.of_nat (length b)) as Hls by (by rewrite Hbuf, length_wrs).
  assert (uip_icmp6chksum (fill_icmp6chksum s) = 65535) as Hsum.
  { apply icmp6_filled; [done|done| |lia]. unfold upper_len6. rewrite Hbuf. unfold IP6.len in *.
    rewrite !rd8_wrs_out by (cbn [length app]; lia). rewrite Hf0, Hf1. vm_compute. discriminate. }
  assert (buf6 (fill_icmp6chksum s) = wr16 56 (w16 (Z.lnot (uip_icmp6chksum (mem6 (wr16 56 0) s)))) (wr16 56 0 (buf6 s))) as Efill.
  { unfold fill_icmp6chksum. cbv zeta. assert (ICMP_chksum s = 56) as E by (unfold ICMP_chksum, uip_l2_l3_hdr_len; by rewrite He).
    change (ICMP_chksum (mem6 _ s)) with (ICMP_chksum s). by rewrite E. }
  assert (forall j, 0 <= j -> j <> 56 -> j <> 57 -> j < 78 -> rd8 (buf6 (fill_icmp6chksum s)) j = rd8 b j) as Hrd.
  { intros j H0 H1 H2 H3. rewrite Efill, !rd8_wr16_ne, Hbuf by lia. apply rd8_wrs_out; cbn [length app]; lia. }
  assert (forall j n, 0 <= j -> 58 <= j \/ j + Z.of_nat n <= 56 -> j + Z.of_nat n <= 78 ->
    rds (buf6 (fill_icmp6chksum s)) j n = rds b j n) as Hrun by (intros j n H0 H1 H2; apply rds_ext; intros k Hk; apply Hrd; lia).
  constructor; unfold IP6.proto, IP6.ttl in *; try (rewrite Hrd by lia; assumption); try (rewrite Hrun by lia; assumption || reflexivity).
  - split; [by apply bytes_fill|]. rewrite Efill, !length_wr16. lia.
  - exact Hl.
  - exact He.
  - unfold upper_len6, IP6.len in *. rewrite !Hrd by lia. rewrite Hf0, Hf1. reflexivity.
  - rewrite Efill, !rd8_wr16_ne, Hbuf by lia. apply rds_wrs_head; [lia|cbn [length app]; lia|done].
  - rewrite Efill, !rd8_wr16_ne, Hbuf by lia. rewrite rd8_wrs_in by (cbn [length app]; lia). done.
  - rewrite Efill, !rds_wr16_ne, Hbuf by lia. rewrite rds_wrs_sub by (done || (cbn [length app]; lia)).
    change (Z.to_nat (80 - 78)) with 2%nat. cbn [skipn app]. by apply take_ge; lia.
  - exact Hsum.
Qed.

(** ** The messages of the code *)
Lemma ip_at_ok s i : bytes (buf6 s) -> ip_ok (ip_at s i).
Proof. intros Hb. split; [apply length_rds|by apply bytes_rds]. Qed.
Lemma create_na_packet flags addr s : buf_ok s -> u8 flags -> ip_ok (a_ipaddr (addr_at (host s) addr)) -> lladdr6_ok (uip_lladdr (host s)) ->
  nd_packet (create_na flags addr s) ICMP6_NA (srcip s) (destip s) flags (a_ipaddr (addr_at (host s) addr)) UIP_ND6_OPT_TLLAO (uip_lladdr (host s)).
Proof.
  intros [Hb Hl] Hf Hip Hll. set (tgt := a_ipaddr (addr_at (host s) addr)) in *. pose proof Hip as [Hipl Hipb].
  set (b := wrs 62 tgt (wr8 58 flags (wr8 55 0 (wr8 54 ICMP6_NA (wr8 IP6.ttl UIP_ND6_HOP_LIMIT (wr8 IP6.proto UIP_PROTO_ICMP6
    (wr8 (IP6.len + 1) 32 (wr8 IP6.len 0 (wr16 IP6.flow 0 (wr8 IP6.tcflow 0 (wr8 IP6.vtc 0x60 (buf6 s)))))))))))).
  assert (create_na flags addr s = fill_icmp6chksum (s <| ext6 := 0 |> <| buf6 := wrs 78 ([UIP_ND6_OPT_TLLAO; 1] ++ uip_lladdr (host s)) b |> <| len6 := 72 |>)) as ->.
  { unfold create_na, create_llao. cbv zeta. cbn [host mem6 set_field]. rewrite (take_lladdr (uip_lladdr (host s))) by done. reflexivity. }
  unfold IP6.vtc, IP6.tcflow, IP6.flow, IP6.len, IP6.proto, IP6.ttl, UIP_ND6_HOP_LIMIT, UIP_PROTO_ICMP6, ICMP6_NA in *.
  assert (srcip s = rds b 22 16) as -> by (unfold b, srcip, ip_at, IP6.srcipaddr; by runs).
  assert (destip s = rds b 38 16) as -> by (unfold b, destip, ip_at, IP6.destipaddr; by runs).
  assert (bytes b) by (unfold b; auto 20 with mem).
  apply message_fields; try done; unfold IP6.len, IP6.proto, IP6.ttl.
  - unfold b. mem_len.
  - unfold b. by runs.
  - unfold b. by runs.
  - unfold b. by runs.
  - unfold b. by runs.
  - unfold b. by runs.
  - unfold b. by runs.
  - unfold b. runs. by apply w8_small.
  - unfold b. by runs.
Qed.
Lemma ns_output_packet src tgt s : buf_ok s -> ip_ok src -> ip_ok tgt -> lladdr6_ok (uip_lladdr (host s)) ->
  uip_ds6_is_my_addr (host s) tgt = false -> uip_is_addr_unspecified src = false ->
  nd_packet (uip_nd6_ns_output (Some src) None tgt s) ICMP6_NS src (uip_create_solicited_node tgt) 0 tgt UIP_ND6_OPT_SLLAO (uip_lladdr (host s)).
Proof.
  intros [Hb Hl] [Hsl Hsb] Hip Hll Hmy Hun. pose proof Hip as [Hipl Hipb].
  assert (ip_ok (uip_create_solicited_node tgt)) as [Hnl Hnb].
  { split; [done|]. unfold uip_create_solicited_node. apply Forall_app. split; [by repeat (apply List.Forall_cons; [unfold u8; lia|])|].
    apply Forall_app. split; [by apply Forall_replicate|]. repeat (apply List.Forall_cons; [first [unfold u8; lia|by apply rd8_u8]|]). done. }
  set (b := wr8 (IP6.len + 1) 32 (wrs IP6.srcipaddr src (wr8 IP6.len 0 (wrs 58 (replicate 4 0 ++ tgt) (wr8 55 0 (wr8 54 ICMP6_NS
    (wrs IP6.destipaddr (uip_create_solicited_node tgt) (wr8 IP6.ttl UIP_ND6_HOP_LIMIT (wr8 IP6.proto UIP_PROTO_ICMP6
    (wr16 IP6.flow 0 (wr8 IP6.tcflow 0 (wr8 IP6.vtc 0x60 (buf6 s))))))))))))).
  assert (bytes (replicate 4 0 ++ tgt)) as Hrb by (apply Forall_app; split; [by apply Forall_replicate|done]).
  assert (length (replicate 4 0 ++ tgt) = 20%nat) as Hrl by (rewrite length_app, length_replicate; lia).
  unfold IP6.vtc, IP6.tcflow, IP6.flow, IP6.len, IP6.proto, IP6.ttl, IP6.srcipaddr, IP6.destipaddr, UIP_ND6_HOP_LIMIT, UIP_PROTO_ICMP6, ICMP6_NS in *.
  assert (bytes b) as Hbb by (unfold b; auto 20 with mem).
  assert (rds b 22 16 = src) as Esrc by (unfold b; by runs).
  assert (uip_nd6_ns_output (Some src) None tgt s = fill_icmp6chksum (s <| ext6 := 0 |> <| buf6 := wrs 78 ([UIP_ND6_OPT_SLLAO; 1] ++ uip_lladdr (host s)) b |> <| len6 := 72 |>)) as ->.
  { unfold uip_nd6_ns_output, create_llao. cbv zeta. cbn [host mem6 set_field ip6_header default]. rewrite Hmy. cbn [negb].
    match goal with |- (if uip_is_addr_unspecified ?x then _ else _) = _ => assert (x = src) as -> end; [|rewrite Hun].
    - unfold srcip, ip_at. apply rds_wrs_eq; [done| |done|by rewrite Hsl].
      unfold ip6_header. cbn [buf6 mem6 set_field]. rewrite Hsl. unfold IP6.srcipaddr. mem_len.
    - rewrite (take_lladdr (uip_lladdr (host s))) by done. reflexivity. }
  rewrite <- Esrc. assert (uip_create_solicited_node tgt = rds b 38 16) as -> by (unfold b; by runs).
  apply message_fields; try done; unfold IP6.len, IP6.proto, IP6.ttl.
  - unfold b. mem_len.
  - unfold b. by runs.
  - unfold b. by runs.
  - unfold b. by runs.
  - unfold b. by runs.
  - unfold b. by runs.
  - unfold b. by runs.
  - unfold b. runs. rewrite rd8_wrs_in by (rewrite ?Hrl; mem_len). done.
  - unfold b. runs. rewrite rds_wrs_sub; [| |mem_len|done| |]; rewrite ?Hrl; try lia. change (Z.to_nat (62 - 58)) with 4%nat.
    cbn [replicate app skipn]. apply take_ge. lia.
Qed.

(** ** The receiver's view of a message *)
(** A packet that arrived carries the bytes that were sent, after the header of
    the frame. *)
Definition carries (p : list Z) s : Prop :=
  bytes p /\ 86 <= Z.of_nat (length p) /\ forall j, 14 <= j < 86 -> rd8 p j = rd8 (buf6 s) j.
Lemma packet_arrives p s s' type src dst first tgt opt ll : nd_packet s type src dst first tgt opt ll -> carries p s ->
  nd_packet (arrives p 72 0 s') type src dst first tgt opt ll.
Proof.
  intros [[Hb Hl]] (Hp & Hpl & Hj). unfold IP6.proto, IP6.ttl in *.
  assert (forall i n, 14 <= i -> i + Z.of_nat n <= 86 -> rds p i n = rds (buf6 s) i n) as Hrun by (intros i n ??; apply rds_ext; intros k Hk; apply Hj; lia).
  constructor; cbn [buf6 len6 ext6 arrives set_field]; unfold IP6.proto, IP6.ttl; rewrite ?Hrun, ?Hj by lia; try done.
  - unfold upper_len6, IP6.len in *. by rewrite !Hj by lia.
  - rewrite <- pk_chksum0. rewrite !icmp6chksum_ones by done. cbn [buf6 arrives set_field]. do 2 f_equal. unfold icmp_sum.
    assert (upper_len6 p = upper_len6 (buf6 s)) as -> by (unfold upper_len6, IP6.len; by rewrite !Hj by lia). rewrite pk_iplen0.
    by rewrite (wsum_ext 32 p (buf6 s) 22), (wsum_ext (Z.to_nat 32) p (buf6 s) 54) by (intros k Hk; apply Hj; lia).
Qed.
Lemma packet_tgt s type src dst first tgt opt ll : nd_packet s type src dst first tgt opt ll ->
  tgtip s = tgt /\ srcip s = src /\ destip s = dst /\ icode s = 0 /\ na_flag s 0xff = Z.land first 0xff.
Proof.
  intros []. unfold tgtip, srcip, destip, ip_at, icode, na_flag, uip_l2_l3_icmp_hdr_len, uip_l2_l3_hdr_len. rewrite pk_ext0.
  change (UIP_LLH_LEN + UIP_IPH_LEN6 + 0 + UIP_ICMPH_LEN6) with 58. by rewrite pk_first0.
Qed.
Lemma packet_option s type src dst first tgt opt ll : nd_packet s type src dst first tgt opt ll ->
  more_options s 20 = true /\ opt_type s 20 = opt /\ opt_len s 20 = 1 /\ next_option s 20 = 28 /\ more_options s 28 = false /\ opt_lladdr s 20 = ll.
Proof.
  intros []. unfold more_options, opt_type, next_option, opt_len, opt_lladdr, opt_at, uip_l3_icmp_hdr_len, uip_l2_l3_icmp_hdr_len. rewrite pk_ext0, pk_len0.
  change (UIP_LLH_LEN + UIP_IPH_LEN6 + 0 + UIP_ICMPH_LEN6 + 20) with 78. change (78 + 1) with 79. rewrite pk_optlen0. by repeat split.
Qed.
Lemma na_flag_packet s type src dst first tgt opt ll f : nd_packet s type src dst first tgt opt ll -> na_flag s f = Z.land first f.
Proof.
  intros []. unfold na_flag, uip_l2_l3_icmp_hdr_len. rewrite pk_ext0. change (UIP_LLH_LEN + UIP_IPH_LEN6 + 0 + UIP_ICMPH_LEN6) with 58. by rewrite pk_first0.
Qed.

(** ** Addresses of the host *)
Lemma list_loop_found l ip n : forall i out j, list_loop_from i l ip n out = (FOUND, Some j) ->
  exists u a, l !! (j - i)%nat = Some (u, a) /\ (i <= j)%nat /\ u <> 0 /\ uip_ipaddr_prefixcmp a ip n = true.
Proof.
  induction l as [|[u a] l IH]; intros i out j; cbn [list_loop_from]; [by destruct out|]. destruct (Z.eqb_spec u 0) as [E|E]; cbn [negb].
  - intros (u' & a' & Hl & Hle & ? & ?)%IH. exists u', a'. replace (j - i)%nat with (S (j - S i)) by lia. by repeat split; [|lia|..].
  - destruct (uip_ipaddr_prefixcmp a ip n) eqn:Ec.
    + intros [= <-]. exists u, a. by rewrite Nat.sub_diag.
    + intros (u' & a' & Hl & Hle & ? & ?)%IH. exists u', a'. replace (j - i)%nat with (S (j - S i)) by lia. by repeat split; [|lia|..].
Qed.
Definition addrs_ok w : Prop := Forall (fun a => ip_ok (a_ipaddr a)) (addr_list (uip_ds6_if w)).
Lemma addr_lookup_spec w ip i : addrs_ok w -> ip_ok ip -> uip_ds6_addr_lookup w ip = Some i -> a_ipaddr (addr_at w i) = ip.
Proof.
  intros Ha [Hl _]. unfold uip_ds6_addr_lookup, found_slot, uip_ds6_list_loop. destruct (list_loop_from _ _ _ _ _) as [r out] eqn:E.
  destruct (Z.eqb_spec r FOUND) as [->|]; [|done]. intros ->. apply list_loop_found in E as (u & a & Hat & _ & _ & Hc).
  rewrite Nat.sub_0_r in Hat. unfold addr_elements in Hat. rewrite list_lookup_fmap in Hat.
  destruct (addr_list (uip_ds6_if w) !! i) as [x|] eqn:Ex; [|done]. cbn in Hat. injection Hat as _ <-.
  unfold addr_at. rewrite Ex. cbn [default]. pose proof (Forall_lookup_1 _ _ _ _ Ha Ex) as [Hxl _].
  unfold uip_ipaddr_prefixcmp in Hc. apply bool_decide_eq_true in Hc. change (Z.to_nat (Z.shiftr 128 3)) with 16%nat in Hc.
  by rewrite !take_ge in Hc by lia.
Qed.

(** ** A solicitation is answered *)
Lemma ns_options_one s src dst first tgt ll : host_ok s -> nd_packet s ICMP6_NS src dst first tgt UIP_ND6_OPT_SLLAO ll ->
  uip_is_addr_unspecified src = false ->
  exists s', ns_options nd6_fuel UIP_ND6_NS_LEN s = Ret (s', true) /\ keeps s s' /\ apart (host s') = apart (host s) /\ frames s' = frames s.
Proof.
  intros Hs Hp Hu. destruct (packet_option _ _ _ _ _ _ _ _ Hp) as (Hm & Ht & Hl & Hn & Hm' & _). destruct (packet_tgt _ _ _ _ _ _ _ _ Hp) as (_ & Hsrc & _).
  change nd6_fuel with (S (S 254)). cbn [ns_options]. change UIP_ND6_NS_LEN with 20. rewrite Hm, Hl, Ht. cbn [Z.eqb UIP_ND6_OPT_SLLAO Pos.eqb].
  destruct (ns_sllao_spec 20 s Hs) as (s1 & E & Hk). rewrite Hsrc, Hu in E. rewrite E. cbn [mbind run_bind negb].
  assert (next_option s1 20 = 28 /\ more_options s1 28 = false) as [-> ->].
  { destruct Hk as [_ (Hb & Hlen & He)]. unfold next_option, opt_len, opt_at, more_options, uip_l2_l3_icmp_hdr_len, uip_l3_icmp_hdr_len in *.
    by rewrite Hb, Hlen, He. }
  exists s1. split; [done|]. split; [done|]. by eapply ns_sllao_apart.
Qed.
Lemma answer_packet s src dst first tgt ll addr : nd_packet s ICMP6_NS src dst first tgt UIP_ND6_OPT_SLLAO ll ->
  a_ipaddr (addr_at (host s) addr) = tgt -> lladdr6_ok (uip_lladdr (host s)) ->
  nd_packet (create_na (Z.lor UIP_ND6_NA_FLAG_SOLICITED UIP_ND6_NA_FLAG_OVERRIDE) addr (answer_to_source s))
    ICMP6_NA tgt src 0x60 tgt UIP_ND6_OPT_TLLAO (uip_lladdr (host s)).
Proof.
  intros Hp Ha Hll. pose proof (pk_buf _ _ _ _ _ _ _ _ Hp) as [Hb Hl]. destruct (packet_tgt _ _ _ _ _ _ _ _ Hp) as (Htgt & Hsrc & _).
  assert (ip_ok tgt) as Hto by (rewrite <- Htgt; by apply ip_at_ok). assert (ip_ok src) as Hso by (rewrite <- Hsrc; by apply ip_at_ok).
  set (s1 := answer_to_source s). assert (buf6 s1 = wrs 22 tgt (wrs 38 src (buf6 s))) as Hb1.
  { unfold s1, answer_to_source. cbn [buf6 mem6 set_field]. rewrite Hsrc. f_equal. rewrite <- Htgt.
    unfold tgtip, ip_at, uip_l2_l3_icmp_hdr_len. change (ext6 (mem6 _ s)) with (ext6 s). rewrite (pk_ext _ _ _ _ _ _ _ _ Hp).
    change (UIP_LLH_LEN + UIP_IPH_LEN6 + 0 + UIP_ICMPH_LEN6 + 4) with 62. change (buf6 (mem6 ?f s)) with (f (buf6 s)).
    destruct Hso as [Hsl _]. unfold IP6.destipaddr. by runs. }
  destruct Hto as [Htl Htb], Hso as [Hsl Hsb].
  assert (buf_ok s1) as Hbo by (split; [rewrite Hb1; auto with mem|rewrite Hb1; mem_len]).
  assert (srcip s1 = tgt) as E1 by (unfold srcip, ip_at, IP6.srcipaddr; rewrite Hb1; by runs).
  assert (destip s1 = src) as E2 by (unfold destip, ip_at, IP6.destipaddr; rewrite Hb1; by runs).
  pose proof (create_na_packet 0x60 addr s1 Hbo ltac:(unfold u8; lia)) as Hna. change (host s1) with (host s) in Hna.
  rewrite E1, E2, Ha in Hna. by apply Hna.
Qed.
Lemma keeps_packet s s' type src dst first tgt opt ll : same_packet s s' -> nd_packet s type src dst first tgt opt ll ->
  nd_packet s' type src dst first tgt opt ll.
Proof.
  intros (Hbuf & Hlen & Hext) Hp. pose proof (pk_chksum _ _ _ _ _ _ _ _ Hp) as Hck. pose proof (pk_buf _ _ _ _ _ _ _ _ Hp) as Hb.
  destruct Hp. constructor; unfold buf_ok; rewrite ?Hbuf, ?Hlen, ?Hext; try done.
  rewrite <- Hck. destruct Hb. rewrite !icmp6chksum_ones by (done || congruence). by rewrite Hbuf.
Qed.
Lemma ns_input_answers s src dst first tgt ll addr : host_ok s -> nd_packet s ICMP6_NS src dst first tgt UIP_ND6_OPT_SLLAO ll ->
  addrs_ok (host s) -> lladdr6_ok (uip_lladdr (host s)) ->
  uip_is_addr_mcast tgt = false -> uip_is_addr_unspecified src = false -> uip_ds6_is_my_addr (host s) src = false ->
  uip_ds6_addr_lookup (host s) tgt = Some addr -> uip_is_addr_solicited_node dst = true \/ uip_ds6_addr_lookup (host s) dst = Some addr ->
  exists s', uip_nd6_ns_input nd6_fuel s = Ret s' /\ host_ok s' /\ frames s' = frames s /\ apart (host s') = apart (host s) /\
    nd_packet s' ICMP6_NA tgt src 0x60 tgt UIP_ND6_OPT_TLLAO (uip_lladdr (host s)).
Proof.
  intros Hs Hp Hao Hll Hmc Hun Hmy Hlk Hdst.
  destruct (packet_tgt _ _ _ _ _ _ _ _ Hp) as (Htgt & Hsrc & Hdip & Hco & _).
  unfold uip_nd6_ns_input. rewrite (pk_ttl _ _ _ _ _ _ _ _ Hp), Htgt, Hmc, Hco. cbn [Z.eqb Pos.eqb negb orb UIP_ND6_HOP_LIMIT].
  destruct (ns_options_one s src dst first tgt ll Hs Hp Hun) as (s1 & -> & [Hs1 Hpk] & Hap & Hfr). cbn [mbind run_bind].
  destruct (apart_if _ _ Hap) as (Hif & Hlla & _). pose proof (keeps_packet _ _ _ _ _ _ _ _ _ Hpk Hp) as Hp1.
  destruct (packet_tgt _ _ _ _ _ _ _ _ Hp1) as (Htgt1 & Hsrc1 & Hdip1 & _).
  assert (forall a, uip_ds6_addr_lookup (host s1) a = uip_ds6_addr_lookup (host s) a) as Hlook by (intros a; unfold uip_ds6_addr_lookup, addr_elements; by rewrite Hif).
  assert (a_ipaddr (addr_at (host s1) addr) = tgt) as Haddr.
  { apply (addr_lookup_spec (host s1)); [unfold addrs_ok; by rewrite Hif| |by rewrite Hlook].
    rewrite <- Htgt. apply ip_at_ok. apply (pk_buf _ _ _ _ _ _ _ _ Hp). }
  eexists. split; [reflexivity|]. unfold ns_target. rewrite Htgt1, Hlook, Hlk, Hsrc1, Hun.
  unfold uip_ds6_is_my_addr in *. rewrite Hlook, Hmy, Hdip1, Hlook.
  assert (uip_is_addr_solicited_node dst || bool_decide (uip_ds6_addr_lookup (host s) dst = Some addr) = true) as ->.
  { apply orb_true_iff. destruct Hdst; [by left|right]. by apply bool_decide_eq_true. }
  pose proof (answer_packet s1 src dst first tgt ll addr Hp1 Haddr) as Hans. rewrite Hlla in Hans.
  split; [by apply (host_ok_eq s1)|]. split; [exact Hfr|]. split; [exact Hap|]. by apply Hans.
Qed.

(** ** An advertisement resolves the neighbour *)
Lemma nbr_lookup_from_data i f w a : (forall n, nbr_ipaddr (f n) = nbr_ipaddr n) -> forall fuel p,
  nbr_lookup_from fuel (upd_nbr i f w) a p = nbr_lookup_from fuel w a p.
Proof.
  intros Hf fuel. induction fuel as [|fuel IH]; intros p; [done|]. cbn [nbr_lookup_from]. destruct p as [j|]; [|done].
  assert (nbr_ipaddr (nbr_at (upd_nbr i f w) j) = nbr_ipaddr (nbr_at w j)) as ->.
  { unfold nbr_at, upd_nbr. cbn [nbr_data set_field]. destruct (decide (j = i)) as [->|]; [|by rewrite list_lookup_alter_ne].
    rewrite list_lookup_alter_eq. destruct (nbr_data w !! i); [apply Hf|done]. }
  destruct (uip_ip6addr_cmp _ _); [done|]. change (nt (upd_nbr i f w)) with (nt w). destruct (nbr_table_next _ _ _); [apply IH|done].
Qed.
Lemma nbr_lookup_data i f w a : (forall n, nbr_ipaddr (f n) = nbr_ipaddr n) -> uip_ds6_nbr_lookup (upd_nbr i f w) a = uip_ds6_nbr_lookup w a.
Proof.
  intros Hf. unfold uip_ds6_nbr_lookup. change (nt (upd_nbr i f w)) with (nt w). destruct (nbr_table_head _ _); [|done].
  cbn [mbind option_bind]. destruct a; [|done]. by apply nbr_lookup_from_data.
Qed.
Lemma nbr_next_lladdr i ll w t p : nbr_table_next (nt (set_nbr_lladdr i ll w)) t p = nbr_table_next (nt w) t p.
Proof.
  unfold nbr_table_next. change (key_next (nt (set_nbr_lladdr i ll w))) with (key_next (nt w)). generalize (fuel_of (key_next (nt w))).
  intros fuel. revert p. induction fuel as [|fuel IH]; intros p; [done|]. cbn [next_from].
  change (key_next (nt (set_nbr_lladdr i ll w))) with (key_next (nt w)). destruct (list_item_next _ _) as [[j|]|]; [|done..].
  cbn [mbind option_bind]. rewrite IH. reflexivity.
Qed.
Lemma nbr_lookup_lladdr i ll w a : uip_ds6_nbr_lookup (set_nbr_lladdr i ll w) a = uip_ds6_nbr_lookup w a.
Proof.
  assert (forall fuel b p, nbr_lookup_from fuel (set_nbr_lladdr i ll w) b p = nbr_lookup_from fuel w b p) as E.
  { intros fuel b. induction fuel as [|fuel IH]; intros p; [done|]. cbn [nbr_lookup_from]. destruct p as [j|]; [|done].
    change (nbr_at (set_nbr_lladdr i ll w) j) with (nbr_at w j). destruct (uip_ip6addr_cmp _ _); [done|].
    rewrite nbr_next_lladdr.
    destruct (nbr_table_next _ _ _); [apply IH|done]. }
  unfold uip_ds6_nbr_lookup. assert (nbr_table_head (nt (set_nbr_lladdr i ll w)) DS6_NEIGHBORS = nbr_table_head (nt w) DS6_NEIGHBORS) as ->
    by (unfold nbr_table_head; rewrite nbr_next_lladdr; reflexivity).
  destruct (nbr_table_head _ _); [|done]. cbn [mbind option_bind]. destruct a; [|done]. apply E.
Qed.
Lemma nbr_at_upd w rs ks i f : ds6_wf w rs ks -> i ∈ ks -> nbr_at (upd_nbr i f w) i = f (nbr_at w i).
Proof.
  intros Hw Hi. pose proof (wf_lt _ _ _ _ (dw_nbr _ _ _ Hw) Hi) as Hlt. destruct (di_len _ _ (dw_inv _ _ _ Hw)) as [Hl _].
  unfold nbr_at, upd_nbr. cbn [nbr_data set_field]. rewrite list_lookup_alter_eq.
  destruct (lookup_lt_is_Some_2 (nbr_data w) i) as [x Hx]; [lia|]. by rewrite Hx.
Qed.
Lemma nbr_lladdr_set w rs ks i ll : ds6_wf w rs ks -> i ∈ ks -> length ll = UIP_LLADDR_LEN -> nbr_lladdr (set_nbr_lladdr i ll w) i = ll.
Proof.
  intros Hw Hi Hl. pose proof (wf_lt _ _ _ _ (dw_nbr _ _ _ Hw) Hi) as Hlt. unfold nbr_lladdr, uip_ds6_nbr_get_ll, nbr_table_get_lladdr.
  cbn [mbind option_bind nt neighbor_addr_mem memb_mem set_field set_nbr_lladdr]. rewrite list_lookup_alter_eq.
  rewrite (wf_lookup _ None ks) by (done || apply (dw_nbr _ _ _ Hw)). cbn. by apply take_app_length'.
Qed.
Lemma na_options_one s src dst first tgt ll : nd_packet s ICMP6_NA src dst first tgt UIP_ND6_OPT_TLLAO ll ->
  na_options nd6_fuel UIP_ND6_NA_LEN None s = Ret (Some 20, true).
Proof.
  intros Hp. destruct (packet_option _ _ _ _ _ _ _ _ Hp) as (Hm & Ht & Hl & Hn & Hm' & _).
  assert (forall n, na_options (S (S n)) 20 None s = Ret (Some 20, true)) as H; [|apply (H 254%nat)].
  intros n. cbn [na_options]. rewrite Hm, Hl, Ht. cbn [Z.eqb UIP_ND6_OPT_TLLAO Pos.eqb]. rewrite Hn, Hm'. reflexivity.
Qed.
Lemma na_input_resolves s src dst tgt ll i : host_ok s -> nd_packet s ICMP6_NA src dst 0x60 tgt UIP_ND6_OPT_TLLAO ll -> lladdr6_ok ll ->
  uip_is_addr_mcast tgt = false -> uip_is_addr_mcast dst = false -> uip_ds6_addr_lookup (host s) tgt = None ->
  uip_ds6_nbr_lookup (host s) (Some tgt) = Some (Some i) -> nbr_state (nbr_at (host s) i) = NBR_INCOMPLETE ->
  exists s', uip_nd6_na_input nd6_fuel s = Ret s' /\ host_ok s' /\ frames s' = frames s /\ len6 s' = 0 /\
    uip_ds6_nbr_lookup (host s') (Some tgt) = Some (Some i) /\ nbr_state (nbr_at (host s') i) = NBR_REACHABLE /\
    nbr_lladdr (host s') i = ll /\ uip_lladdr (host s') = uip_lladdr (host s).
Proof.
  intros Hs Hp Hll Hmt Hmd Hlk Hn Hst. destruct (packet_tgt _ _ _ _ _ _ _ _ Hp) as (Htgt & _ & Hdip & Hco & _).
  pose proof (packet_option _ _ _ _ _ _ _ _ Hp) as (_ & _ & _ & _ & _ & Hol).
  unfold uip_nd6_na_input. rewrite !(na_flag_packet _ _ _ _ _ _ _ _ _ Hp), (pk_ttl _ _ _ _ _ _ _ _ Hp), Htgt, Hdip, Hco, Hmt, Hmd.
  cbn [Z.eqb Pos.eqb negb orb andb Z.land Pos.land UIP_ND6_HOP_LIMIT]. rewrite andb_false_r. cbn [orb].
  rewrite (na_options_one _ _ _ _ _ _ Hp). cbn [mbind run_bind negb]. rewrite Hlk, Hn. cbn [lift mbind run_bind].
  change (host (s <| nbr6 := Some i |>)) with (host s). rewrite Hst. cbn [Z.eqb NBR_INCOMPLETE]. eexists. split; [reflexivity|].
  set (s1 := s <| nbr6 := Some i |>). assert (host_ok s1) as Hs1 by exact Hs. pose proof Hs as (rs & ks & Hw).
  destruct (nbr_lookup_in _ _ _ _ _ Hw Hn) as (Hi & _ & _). destruct Hll as [Hll _].
  split; [by apply (na_incomplete_ok 20 i 0 64 s1)|]. split; [done|]. split; [done|].
  set (w1 := set_nbr_lladdr i ll (host s)). assert (ds6_wf w1 rs ks) as Hw1 by (by apply set_nbr_lladdr_wf).
  unfold na_incomplete. change (opt_lladdr s1 20) with (opt_lladdr s 20). rewrite Hol. change (host s1) with (host s). fold w1. cbv zeta.
  change (negb (Z.land 96 UIP_ND6_NA_FLAG_SOLICITED =? 0)) with true. cbn [host set_field discard].
  set (f := fun n => reachable_for _ _ _). assert (ds6_wf (upd_nbr i f w1) rs ks) as Hw2 by (by apply upd_nbr_wf).
  rewrite !nbr_lookup_data by done. unfold w1 at 1. rewrite nbr_lookup_lladdr. split; [exact Hn|].
  rewrite (nbr_at_upd _ rs ks) by done. cbn [nbr_state set_field]. rewrite (nbr_at_upd _ rs ks) by done. split; [done|].
  split; [by apply (nbr_lladdr_set (host s) rs ks)|done].
Qed.

(** ** The next packet *)
Lemma rds_take_head b n m : (m <= n)%nat -> rds (take n b) 0 m = rds b 0 m.
Proof.
  intros Hmn. apply rds_ext. intros k Hk. unfold rd8. by rewrite lookup_take_lt by lia.
Qed.
Lemma nbr_lladdr_length w rs ks i : ds6_wf w rs ks -> i ∈ ks -> length (nbr_lladdr w i) = UIP_LLADDR_LEN.
Proof.
  intros Hw Hi. pose proof (wf_lt _ _ _ _ (dw_nbr _ _ _ Hw) Hi) as Hlt. unfold nbr_lladdr, uip_ds6_nbr_get_ll, nbr_table_get_lladdr.
  cbn [mbind option_bind]. rewrite (wf_lookup _ None ks) by (done || apply (dw_nbr _ _ _ Hw)). cbn [default].
  pose proof (key_lladdr_ok _ _ _ _ (dw_nbr _ _ _ Hw) Hlt) as Hk. unfold lladdr_ok, RIMEADDR_SIZE in Hk.
  unfold UIP_LLADDR_LEN. rewrite length_take.
  transitivity (6 `min` 8)%nat; [f_equal; exact Hk|reflexivity].
Qed.
Lemma to_neighbor_known s tgt i : host_ok s -> uip_ds6_nbr_lookup (host s) (Some tgt) = Some (Some i) ->
  nbr_state (nbr_at (host s) i) = NBR_REACHABLE -> 14 <= Z.of_nat (length (buf6 s)) -> 0 <= len6 s <= UIP_LINK_MTU ->
  bytes (nbr_lladdr (host s) i) -> lladdr6_ok (uip_lladdr (host s)) ->
  exists s' f, to_neighbor tgt s = Ret s' /\ frames s' = frames s ++ [f] /\ rds f 0 6 = nbr_lladdr (host s) i.
Proof.
  intros (rs & ks & Hw) Hn Hst Hb Hl Hd Hu. destruct (nbr_lookup_in _ _ _ _ _ Hw Hn) as (Hi & _ & _).
  pose proof (nbr_lladdr_length _ _ _ _ Hw Hi) as Hdl. unfold UIP_LLADDR_LEN, UIP_LINK_MTU in *.
  unfold to_neighbor. rewrite Hn. cbn [lift mbind run_bind]. rewrite Hst. cbn [Z.eqb Pos.eqb NBR_REACHABLE NBR_INCOMPLETE NBR_STALE].
  cbv zeta. eexists _, _. split; [reflexivity|]. unfold xtcpip_output. cbv zeta. cbn [frames discard set_field]. split; [reflexivity|].
  cbn [len6 buf6 mem6 set_field]. unfold UIP_LLH_LEN in *. rewrite w16_small by (unfold u16; lia). rewrite rds_take_head by lia.
  set (d := nbr_lladdr (host s) i) in *. rewrite rds_wr16_ne by lia. change 6%nat with UIP_LLADDR_LEN. rewrite (take_lladdr (uip_lladdr _)) by done.
  destruct Hu as [Hul Hub]. unfold UIP_LLADDR_LEN in *. rewrite rds_wrs_sub; rewrite ?length_app, ?Hdl, ?Hul; [|lia..| |lia|lia].
  - change (Z.to_nat (0 - 0)) with 0%nat. cbn [skipn]. by apply take_app_length'.
  - by apply Forall_app.
Qed.

(** ** A round of address resolution *)
Lemma solicited_node_solicited a : uip_is_addr_solicited_node (uip_create_solicited_node a) = true.
Proof. done. Qed.
Lemma host_ok_arrives p l x s : host_ok s -> host_ok (arrives p l x s).
Proof. by intros (rs & ks & Hw); exists rs, ks. Qed.
Lemma ns_output_frames src dst tgt s : frames (uip_nd6_ns_output src dst tgt s) = frames s.
Proof. unfold uip_nd6_ns_output. cbv zeta. destruct (negb _); [|done]. by destruct (uip_is_addr_unspecified _). Qed.

(** C20: the stack at one end resolves the link address of the stack at the other end: when
    host [a] has an incomplete entry for the address [tgt] of host [b], the
    solicitation [uip_nd6_ns_output] builds is accepted by [b], which answers it
    with an advertisement that is accepted by [a]; whatever frames carried the
    two packets, [a] then has the entry [REACHABLE] with the link address of
    [b], and sends the next packet for [tgt] in a frame to that address.
    Neither host dereferences a stray pointer or loops on the way. *)
Theorem address_resolution a b i addr src tgt p :
  host_ok a -> buf_ok a -> lladdr6_ok (uip_lladdr (host a)) -> ip_ok src -> uip_is_addr_unspecified src = false -> uip_is_addr_mcast src = false ->
  ip_ok tgt -> uip_is_addr_mcast tgt = false -> uip_ds6_addr_lookup (host a) tgt = None ->
  uip_ds6_nbr_lookup (host a) (Some tgt) = Some (Some i) -> nbr_state (nbr_at (host a) i) = NBR_INCOMPLETE ->
  host_ok b -> addrs_ok (host b) -> lladdr6_ok (uip_lladdr (host b)) ->
  uip_ds6_addr_lookup (host b) tgt = Some addr -> uip_ds6_addr_lookup (host b) src = None ->
  let solicitation := uip_nd6_ns_output (Some src) None tgt a in
  carries p solicitation ->
  exists answer, uip_nd6_ns_input nd6_fuel (arrives p (len6 solicitation) 0 b) = Ret answer /\ host_ok answer /\
    forall q, carries q answer ->
    exists a', uip_nd6_na_input nd6_fuel (arrives q (len6 answer) 0 solicitation) = Ret a' /\ host_ok a' /\
      uip_ds6_nbr_lookup (host a') (Some tgt) = Some (Some i) /\ nbr_state (nbr_at (host a') i) = NBR_REACHABLE /\
      nbr_lladdr (host a') i = uip_lladdr (host b) /\
      forall packet len, 14 <= Z.of_nat (length packet) -> 0 <= len <= UIP_LINK_MTU ->
        exists s frame, to_neighbor tgt (arrives packet len 0 a') = Ret s /\ frames s = frames a ++ [frame] /\
          rds frame 0 6 = uip_lladdr (host b).
Proof.
  intros Ha Hab Hal Hs Hsu Hsm Ht Htm Hat Hnb Hst Hb Hba Hbl Hbt Hbs q Hp.
  assert (uip_ds6_is_my_addr (host a) tgt = false) as Hmy by (unfold uip_ds6_is_my_addr; by rewrite Hat).
  pose proof (ns_output_packet src tgt a Hab Hs Ht Hal Hmy Hsu) as Hq. fold q in Hq.
  pose proof (packet_arrives _ _ b _ _ _ _ _ _ _ Hq Hp) as Hpb. rewrite (pk_len _ _ _ _ _ _ _ _ Hq).
  assert (host q = host a) as Eq by apply host_ns_output. assert (frames q = frames a) as Ef by apply ns_output_frames. clearbody q.
  destruct (ns_input_answers (arrives p 72 0 b) src _ 0 tgt _ addr (host_ok_arrives _ _ _ _ Hb) Hpb) as (b' & -> & Hb' & _ & _ & Hans); try done.
  { change (host (arrives p 72 0 b)) with (host b). unfold uip_ds6_is_my_addr. by rewrite Hbs. }
  { left. apply solicited_node_solicited. }
  exists b'. split; [done|]. split; [done|]. intros r Hr. pose proof (packet_arrives _ _ q _ _ _ _ _ _ _ Hans Hr) as Hra.
  rewrite (pk_len _ _ _ _ _ _ _ _ Hans). set (s := arrives r 72 0 q) in *. assert (host s = host a) as Es by exact Eq.
  destruct (na_input_resolves s tgt src tgt (uip_lladdr (host b)) i) as (a' & -> & Ha' & Hfr & _ & Hn' & Hs' & Hl' & Hu'); rewrite ?Es; try done.
  { by eapply host_ok_eq. }
  exists a'. split; [done|]. split; [done|]. split; [done|]. split; [done|]. split; [done|]. intros packet len Hpl Hlen. rewrite <- Hl'.
  destruct (to_neighbor_known (arrives packet len 0 a') tgt i (host_ok_arrives _ _ _ _ Ha') Hn' Hs' Hpl Hlen) as (s2 & f & -> & E2 & E3).
  - change (host (arrives packet len 0 a')) with (host a'). rewrite Hl'. apply Hbl.
  - change (host (arrives packet len 0 a')) with (host a'). by rewrite Hu', Es.
  - exists s2, f. split; [done|]. split; [|done]. rewrite E2. change (frames (arrives packet len 0 a')) with (frames a'). rewrite Hfr. by rewrite <- Ef.
Qed.
