(* ===== verification/Ds6Examples.v ===== *)
(** * The IPv6 structures at concrete inputs

    A host with neighbours, routes and default routers, the witnesses of the
    theorems of CList, NbrTable and the Ds6 files, and behaviours of the code
    that differ from what it says it does, computed. *)
From S2P Require Export Ds6Run Ds6Addr.
From stdpp Require Import list gmap.
Local Open Scope Z_scope.

(** ** Lists *)
Definition three : store := {[ 0%nat := None; 1%nat := None; 2%nat := None ]}.
Definition some_calls : list list_call :=
  [CAdd 0; CPush 1; CAdd 2; CAdd 0; CRemove 1; CInsert (Some 2%nat) 1; CLength; CTail; CPop; CRemove 0; CHead].
(** The last call of [circle] inserts an element after itself. *)
Definition circle : list list_call := [CAdd 0; CAdd 1; CAdd 2; CInsert (Some 2%nat) 0; CInsert (Some 0%nat) 0; CLength].

(** ** A host *)
Definition ll (i : Z) : rimeaddr := [0; 0x22; 0x97; 0; 0; i; 0; 0].
Definition host_addr (i : Z) : ip6 := [0x20; 0x01; 0x0d; 0xb8] ++ replicate 11 0 ++ [i].
Definition net_addr (i : Z) : ip6 := [0x20; 0x01; 0x0d; 0xb8; i] ++ replicate 11 0.
Definition started : ds6 := uip_ds6_init (boot_ds6 100 100000 [1; 2; 3; 4; 5] [0; 0x22; 0x97; 0; 0; 1]).
(** Two neighbours, a route through each, two default routers of which one
    expires, and a global address. *)
Definition day : list ds6_call :=
  [NbrAdd (host_addr 2) (Some (ll 2)) 0 NBR_REACHABLE; NbrAdd (host_addr 3) (Some (ll 3)) 1 NBR_REACHABLE;
   RouteAdd (net_addr 7) 40 (host_addr 2); RouteAdd (host_addr 0) 32 (host_addr 3);
   DefrtAdd (host_addr 3) 10; DefrtAdd (host_addr 4) 0;
   PrefixAdd (host_addr 0) 64 0; AddrAdd (host_addr 1) 0 ADDR_AUTOCONF].
Lemma day_ok : Forall ds6_call_ok day.
Proof. repeat (apply Forall_cons; split; [done || (cbn; unfold u8; lia)|]). done. Qed.
Definition evening : ds6 := default started (ds6_run (day ++ [Seconds 200]) started).
Lemma evening_wf : exists rs ks, ds6_wf evening rs ks.
Proof.
  destruct (ds6_run_wf (day ++ [Seconds 200]) started (fun _ => []) []) as (w & rs & ks & E & Hw); [apply ds6_init_wf| |].
  - apply Forall_app. split; [apply day_ok|by apply Forall_singleton].
  - exists rs, ks. unfold evening. by rewrite E.
Qed.

Lemma nbr_call_refines_witness : exists w ks,
  nbr_exec DS6_NEIGHBORS (NAdd (Some (ll 9))) started = Some (w, true) /\ view (nt w) ks = [Neighbor (ll 9) 1 0].
Proof.
  assert (ds6_wf started (fun _ => []) []) as [Hi Hw] by apply ds6_init_wf.
  destruct (nbr_call_refines ds6_client DS6_NEIGHBORS (NAdd (Some (ll 9))) started []) as (w & b & ks & E & _ & Hs);
    [by eexists|exact Hw|apply (di_nbr _ _ Hi)|done|].
  exists w, ks. cbn [nbr_get ds6_world] in Hs. change (table_index (nt started) DS6_NEIGHBORS) with 0 in Hs.
  inversion Hs as [? v Hf|? l1 Hf Hr|? Hf Hl|? v n Hf Hv Ht Hne|? Hu Hne]; subst; try done; [|by destruct (Hne (Some (ll 9)))..].
  split; [exact E|]. inversion Hr; subst; done.
Defined.

(** ** Routes *)
Lemma evening_lists : no_empty_list evening.
Proof. intros i Hi. do 8 (destruct i as [|i]; [vm_compute; congruence|]). vm_compute in Hi. lia. Qed.
(** Both routes match [host_addr 9 ] but for the fifth byte; the longer one of
    [net_addr 7] does not. *)
Lemma route_lookup_longest_witness : exists p, uip_ds6_route_lookup evening (host_addr 9) = Some p /\
  exists r, p = Some r /\ rt_length (route_at evening r) = 32.
Proof.
  destruct evening_wf as (rs & ks & Hw).
  destruct (route_lookup_longest evening rs ks (host_addr 9) Hw) as [(p & E & H) Hall]. exists p. split; [exact E|].
  specialize (Hall evening_lists). destruct p as [r|].
  - exists r. split; [done|]. assert (uip_ds6_route_lookup evening (host_addr 9) = Some (Some 1%nat)) as E' by (vm_compute; reflexivity).
    assert (r = 1%nat) as -> by congruence. vm_compute. reflexivity.
  - specialize (H 1%nat). exfalso. assert (route_matches evening (host_addr 9) 1 = true) as Hm by (vm_compute; reflexivity).
    rewrite H in Hm; [done|]. apply Hall. vm_compute. reflexivity.
Defined.

(** ** Default routers *)
Lemma defrt_periodic_expires_witness : exists w, uip_ds6_defrt_periodic evening = Some w /\ defrts w [1%nat] /\
  d_ipaddr (defrt_at w 1) = host_addr 4.
Proof.
  destruct evening_wf as (rs & ks & Hw). destruct (di_defrts _ _ (dw_inv _ _ _ Hw)) as (ds & Hc & Hu).
  assert (ds = [1%nat; 0%nat]) as -> by (apply (chain_det _ _ _ _ Hc); vm_compute; repeat (eexists || split)).
  destruct (defrt_periodic_expires evening rs ks _ Hw (conj Hc Hu)) as (w & E & _ & Hd & Hat). exists w. split; [exact E|].
  assert (alive evening [1%nat; 0%nat] = [1%nat]) as Ha by (vm_compute; reflexivity). rewrite Ha in Hd. split; [exact Hd|].
  rewrite Hat by (apply elem_of_cons; by left). vm_compute. reflexivity.
Defined.

Lemma ds6_calls_safe_witness : exists w rs ks, ds6_run day started = Some w /\ ds6_wf w rs ks.
Proof. apply (ds6_calls_safe 100 100000 [1; 2; 3; 4; 5] [0; 0x22; 0x97; 0; 0; 1] day). exact day_ok. Defined.

(** ** Addresses *)
Definition preferred : ds6 :=
  upd_addr 2 (fun a => a <| a_state := ADDR_PREFERRED |>) (upd_addr 1 (fun a => a <| a_state := ADDR_PREFERRED |>) evening).
Definition addr_okb (a : ip6) : bool := (length a =? 16)%nat && forallb (fun x => (0 <=? x) && (x <? 256)) a.
Lemma addr_okb_ok a : addr_okb a = true -> addr_ok a.
Proof. intros [?%Nat.eqb_eq ?]%andb_true_iff. split; [done|by apply forallb_bytes]. Qed.
Definition fe80_addr (i : Z) : ip6 := [0xfe; 0x80] ++ replicate 13 0 ++ [i].
(** A destination beyond the link, and one on it. *)
Lemma select_src_longest_witness :
  (exists a, a ∈ addr_list (uip_ds6_if preferred) /\ source_candidate a = true /\
     uip_ds6_select_src preferred (host_addr 9) = a_ipaddr a) /\
  (exists a, link_candidate a = true /\ uip_ds6_select_src preferred (fe80_addr 9) = a_ipaddr a).
Proof.
  assert (Forall (fun a => addr_ok (a_ipaddr a)) (addr_list (uip_ds6_if preferred))) as Hl.
  { apply List.Forall_forall. intros a Ha. apply addr_okb_ok. revert a Ha.
    apply (proj1 (forallb_forall (fun a => addr_okb (a_ipaddr a)) _)). vm_compute. reflexivity. }
  split.
  - pose proof (select_src_longest preferred (host_addr 9) (addr_okb_ok (host_addr 9) eq_refl) Hl) as H.
    cbv zeta in H. replace (off_link (host_addr 9)) with true in H by (vm_compute; reflexivity).
    destruct H as [(a & Ha & Hc & E & _)|[E _]].
    + exists a. split; [exact Ha|split; [exact Hc|exact E]].
    + exfalso. vm_compute in E. discriminate E.
  - pose proof (select_src_longest preferred (fe80_addr 9) (addr_okb_ok (fe80_addr 9) eq_refl) Hl) as H.
    cbv zeta in H. replace (off_link (fe80_addr 9)) with false in H by (vm_compute; reflexivity).
    destruct H as [(pre & a & post & _ & Hc & E & _)|[E _]].
    + exists a. split; [exact Hc|exact E].
    + exfalso. vm_compute in E. discriminate E.
Defined.

(** ** What the code does otherwise than it says *)
(** The neighbour whose lifetime ends first is not the one returned: the first
    of the list is. *)
Definition lifetimes : ds6 :=
  upd_nbr 0 (fun n => n <| nbr_reachable := Stimer 200 30 |>) (upd_nbr 1 (fun n => n <| nbr_reachable := Stimer 200 5 |>) evening).
Example least_lifetime_first : uip_ds6_get_least_lifetime_neighbor lifetimes = Some (Some 0%nat) /\
  stimer_remaining (now_s lifetimes) (nbr_reachable (nbr_at lifetimes 0)) = 30 /\
  stimer_remaining (now_s lifetimes) (nbr_reachable (nbr_at lifetimes 1)) = 5.
Proof. vm_compute. repeat split. Qed.

(** A route to one host, added where a shorter prefix covers it: the shorter
    route is replaced, and keeps the next hop it had. *)
Example route_add_replaces : exists w,
  ds6_run [RouteAdd (host_addr 9) 128 (host_addr 2)] evening = Some w /\ num_routes w = 2 /\
  rt_length (route_at w 1) = 128 /\ uip_ds6_route_nexthop w (Some 1%nat) = Some (Some (host_addr 3)) /\
  uip_ds6_route_lookup w (host_addr 8) = Some None.
Proof. eexists. split; [vm_compute; reflexivity|]. vm_compute. repeat split. Qed.

(** A fifth route is refused, but its neighbour stays in the table of routes
    with an empty list; as soon as a route is added behind it, lookups stop
    there and no longer find it. *)
Example refused_route_hides : exists w w1 w2,
  ds6_run (map (fun i => NbrAdd (host_addr i) (Some (ll i)) 0 NBR_REACHABLE) [2; 3; 4; 5] ++
    [RouteAdd (net_addr 1) 40 (host_addr 2); RouteAdd (net_addr 2) 40 (host_addr 2); RouteAdd (net_addr 3) 40 (host_addr 2);
     RouteAdd (net_addr 4) 40 (host_addr 2); RouteAdd (net_addr 5) 40 (host_addr 4)]) started = Some w /\
  num_routes w = 4 /\ route_list_head w 2 = Some None /\
  ds6_run [RouteRm (net_addr 1)] w = Some w1 /\
  ds6_run [RouteAdd (net_addr 6) 40 (host_addr 5)] w1 = Some w2 /\ num_routes w2 = 4 /\
  uip_ds6_route_lookup w2 (net_addr 6) = Some None.
Proof. do 3 eexists. do 6 (split; [vm_compute; reflexivity|]). vm_compute. reflexivity. Qed.

(** Prefixes are compared in whole bytes. *)
Example prefixcmp_whole_bytes : uip_ipaddr_prefixcmp ([0x20] ++ replicate 15 0) ([0x2f] ++ replicate 15 0) 4 = true /\
  uip_ipaddr_prefixcmp ([0x20] ++ replicate 15 0) ([0xfe] ++ replicate 15 0) 7 = true.
Proof. vm_compute. done. Qed.
