(* ===== verification/Nd6Examples.v ===== *)
(** * Neighbour discovery at concrete inputs

    Two hosts on one link as [uip_ds6_init] leaves them, a round of address
    resolution between them, the message that stops the stack, and what becomes
    of packets for neighbours whose link address is not known. *)
From S2P Require Export Nd6Run Ds6Examples.
From stdpp Require Import list gmap.
Local Open Scope Z_scope.

(** ** Two hosts *)
Definition mac (i : Z) : list Z := [0; 0x22; 0x97; 0; 0; i].
Definition link_local (i : Z) : ip6 := uip_ds6_set_addr_iid ([0xfe; 0x80] ++ replicate 14 0) (mac i).
Definition node (i : Z) (calls : list ds6_call) : ds6 :=
  let w := uip_ds6_init (boot_ds6 100 100000 [1; 2; 3; 4; 5] (mac i)) in default w (ds6_run calls w).
Lemma node_wf i calls : Forall ds6_call_ok calls -> exists rs ks, ds6_wf (node i calls) rs ks.
Proof.
  intros Hc. destruct (ds6_run_wf calls (uip_ds6_init (boot_ds6 100 100000 [1; 2; 3; 4; 5] (mac i))) (fun _ => []) []) as (w & rs & ks & E & Hw);
    [apply ds6_init_wf|done|]. exists rs, ks. unfold node. by rewrite E.
Qed.
Definition with_host (w : ds6) : nd6 := Nd6 w (replicate 200 0) 0 0 None [].
Definition asking : list ds6_call := [NbrAdd (link_local 2) None 0 NBR_INCOMPLETE].
Lemma asking_ok : Forall ds6_call_ok asking.
Proof. by apply Forall_singleton. Qed.
Definition asker : nd6 := with_host (node 1 asking).
Definition target : nd6 := with_host (node 2 []).

Definition addrs_okb (w : ds6) : bool := forallb (fun a => addr_okb (a_ipaddr a)) (addr_list (uip_ds6_if w)).
Lemma ip_okb_ok a : addr_okb a = true -> ip_ok a.
Proof. intros [?%Nat.eqb_eq ?]%andb_true_iff. split; [done|by apply forallb_bytes]. Qed.
Lemma addrs_okb_ok w : addrs_okb w = true -> addrs_ok w.
Proof.
  intros H. apply List.Forall_forall. intros a Ha. apply ip_okb_ok. revert a Ha.
  by apply (proj1 (forallb_forall (fun a => addr_okb (a_ipaddr a)) _)).
Qed.
Lemma mac_ok i : (0 <=? i) && (i <? 256) = true -> lladdr6_ok (mac i).
Proof. intros H. split; [reflexivity|]. apply forallb_bytes. cbn -[Z.leb Z.ltb]. by rewrite H. Qed.

(** The frame that carries a packet has its first 14 bytes changed. *)
Definition framed (b : list Z) : list Z := wrs 0 (mac 2 ++ mac 1) (take 86 b).
Notation solicitation := (uip_nd6_ns_output (Some (link_local 1)) None (link_local 2) asker).
Lemma framed_carries s : forallb (fun x => (0 <=? x) && (x <? 256)) (framed (buf6 s)) = true -> length (framed (buf6 s)) = 86%nat ->
  rds (framed (buf6 s)) 14 72 = rds (buf6 s) 14 72 -> carries (framed (buf6 s)) s.
Proof.
  intros Hb Hl Hr. split; [by apply forallb_bytes|]. rewrite Hl. split; [done|]. intros j Hj.
  assert (nth (Z.to_nat (j - 14)) (rds (framed (buf6 s)) 14 72) 0 = nth (Z.to_nat (j - 14)) (rds (buf6 s) 14 72) 0) as H by (by rewrite Hr).
  rewrite !nth_rds in H by lia. by replace (14 + Z.of_nat (Z.to_nat (j - 14))) with j in H by lia.
Qed.

Lemma ret_inj {A} (x y : A) : Ret x = Ret y -> x = y.
Proof. by intros [= ->]. Qed.
Definition returned (r : run nd6) (s : nd6) : nd6 := match r with Ret s' => s' | _ => s end.
Definition answer : nd6 := returned (uip_nd6_ns_input nd6_fuel (arrives (framed (buf6 solicitation)) 72 0 target)) target.

(** The facts the round needs. *)
Lemma asker_ok : host_ok asker.
Proof. exact (node_wf 1 asking asking_ok). Qed.
Lemma target_ok : host_ok target.
Proof. exact (node_wf 2 [] (List.Forall_nil _)). Qed.
Lemma asker_buf : buf_ok asker.
Proof. split; [by apply forallb_bytes; vm_compute|by vm_compute]. Qed.
Lemma asker_mac : lladdr6_ok (uip_lladdr (host asker)).
Proof. replace (uip_lladdr (host asker)) with (mac 1) by (vm_compute; reflexivity). by apply mac_ok. Qed.
Lemma target_mac : lladdr6_ok (uip_lladdr (host target)).
Proof. replace (uip_lladdr (host target)) with (mac 2) by (vm_compute; reflexivity). by apply mac_ok. Qed.
Lemma target_addrs : addrs_ok (host target).
Proof. apply addrs_okb_ok. vm_compute. reflexivity. Qed.
Lemma ip1_ok : ip_ok (link_local 1).
Proof. apply ip_okb_ok. vm_compute. reflexivity. Qed.
Lemma ip2_ok : ip_ok (link_local 2).
Proof. apply ip_okb_ok. vm_compute. reflexivity. Qed.
Lemma solicitation_carried : carries (framed (buf6 solicitation)) solicitation.
Proof. apply framed_carries; vm_compute; reflexivity. Qed.
Lemma answer_carried : carries (framed (buf6 answer)) answer.
Proof. apply framed_carries; vm_compute; reflexivity. Qed.
Lemma answered :
  uip_nd6_ns_input nd6_fuel (arrives (framed (buf6 solicitation)) (len6 solicitation) 0 target) = Ret answer.
Proof. vm_compute. reflexivity. Qed.

Lemma address_resolution_witness : exists a' s frame,
  uip_nd6_na_input nd6_fuel (arrives (framed (buf6 answer)) (len6 answer) 0 solicitation) = Ret a' /\
  to_neighbor (link_local 2) (arrives (replicate 100 0) 60 0 a') = Ret s /\ frames s = frames asker ++ [frame] /\ rds frame 0 6 = uip_lladdr (host target).
Proof.
  destruct (address_resolution asker target 0 2 (link_local 1) (link_local 2) (framed (buf6 solicitation)) asker_ok asker_buf asker_mac ip1_ok
    ltac:(vm_compute; reflexivity) ltac:(vm_compute; reflexivity) ip2_ok ltac:(vm_compute; reflexivity) ltac:(vm_compute; reflexivity)
    ltac:(vm_compute; reflexivity) ltac:(vm_compute; reflexivity) target_ok target_addrs target_mac ltac:(vm_compute; reflexivity)
    ltac:(vm_compute; reflexivity) solicitation_carried) as (answer' & E & _ & H).
  pose proof (ret_inj _ _ (eq_trans (eq_sym E) answered)) as Ea. subst answer'.
  destruct (H (framed (buf6 answer)) answer_carried) as (a' & Ha & _ & _ & _ & _ & Hn).
  assert (14 <= Z.of_nat (length (replicate 100 0)) /\ 0 <= 60 <= UIP_LINK_MTU) as [H1 H2] by (vm_compute; repeat split; discriminate).
  destruct (Hn (replicate 100 0) 60 H1 H2) as (s & f & Hs & Hf & Hr).
  exists a', s, f. exact (conj Ha (conj Hs (conj Hf Hr))).
Defined.

(** ** Any sequence of events *)
(** The host answers the solicitation, sends the answer, and its timers run. *)
Definition events : list nd_event :=
  [SendRs; Send; Clock 101 101000; Recv ND_NS (framed (buf6 solicitation)) 72 0; Send; TableCall (DefrtAdd (link_local 1) 30); Periodic].
Lemma nd_run_safe_witness : exists s, nd_run events target = Ret s /\ host_ok s.
Proof.
  assert (Forall nd_event_ok events) as He by (repeat (apply List.Forall_cons; [exact I || (cbn; unfold u8; lia)|]); apply List.Forall_nil).
  destruct (nd_run_safe target events target_ok He) as [H|[Hn _]]; [exact H|].
  exfalso. assert (match nd_run events target with NoFuel => false | _ => true end = true) as Hr by (vm_compute; reflexivity).
  rewrite Hn in Hr. discriminate.
Defined.

(** ** The message that stops the stack: the length of its option is 32 *)
Definition bad_packet : list Z := wr8 79 32 (buf6 solicitation).
Lemma nd_option_endless_witness : nd_refused ND_NS (arrives bad_packet 72 0 target) = false /\
  forall fuel, nd_input ND_NS fuel (arrives bad_packet 72 0 target) = NoFuel.
Proof.
  split; [vm_compute; reflexivity|].
  apply (nd_option_endless ND_NS (arrives bad_packet 72 0 target) target_ok); vm_compute; reflexivity.
Defined.

(** ** Packets for neighbours that are not known yet *)
(** A packet of 60 bytes from [link_local 1] to [link_local i]. *)
Definition packet_to (i : Z) : list Z := wrs 22 (link_local 1 ++ link_local i) (replicate 200 0).
Definition host1 : nd6 := with_host (node 1 []).
(** The first packet is not sent: a solicitation takes its place in the buffer,
    and is not sent by this call. *)
Example first_packet_lost : match xtcpip_ipv6_output (arrives (packet_to 2) 60 0 host1) with
  | Ret s => frames s = [] /\ len6 s = 72 /\ rd8 (buf6 s) 54 = ICMP6_NS /\ rds (buf6 s) 62 16 = link_local 2
  | _ => False
  end.
Proof. vm_compute. repeat split. Qed.
(** The entry for a second unknown neighbour takes the place of the first: both
    have the null link address. *)
Example one_incomplete : match nd_run [Output (packet_to 2) 60 0; Output (packet_to 3) 60 0] host1 with
  | Ret s => uip_ds6_nbr_lookup (host s) (Some (link_local 2)) = Some None /\
             uip_ds6_nbr_lookup (host s) (Some (link_local 3)) = Some (Some 0%nat)
  | _ => False
  end.
Proof. vm_compute. repeat split. Qed.
