(* ===== verification/UipLib.v ===== *)
(** * Addresses in text: [uiplib.c]

    [uiplib_ipaddrconv] reads four decimal fields.  The string is the memory
    from [addrstr] on; [None] is a read past its end. *)
From S2P Require Export Chksum.
Local Open Scope Z_scope.

Definition DOT : Z := 46.
Definition is_digit (c : Z) : bool := (48 <=? c) && (c <=? 57).

(** One field: the loop on [j].  [Some None] is [return 0]. *)
Fixpoint conv_field (j tmp : Z) (addrstr : list Z) : option (option (Z * list Z)) :=
  match addrstr with
  | [] => None
  | c :: addrstr =>
      let j := w8 (j + 1) in
      if 4 <? j then Some None
      else if (c =? DOT) || (c =? 0) then Some (Some (tmp, addrstr))
      else if is_digit c then conv_field j (w8 (tmp * 10 + (c - 48))) addrstr
      else Some None
  end.

(** The loop on [i]; the second component is what has been stored in [ipaddr]. *)
Fixpoint conv_fields (n : nat) (addrstr ipaddr : list Z) : option (Z * list Z) :=
  match n with
  | O => Some (1, ipaddr)
  | S n =>
      r ← conv_field 0 0 addrstr;
      match r with
      | None => Some (0, ipaddr)
      | Some (tmp, addrstr) => conv_fields n addrstr (ipaddr ++ [tmp])
      end
  end.
Definition uiplib_ipaddrconv (addrstr : list Z) : option (Z * list Z) := conv_fields 4 addrstr [].

(** * What is accepted *)

(** The value the code gives to a field: modulo 256. *)
Definition field_value (ds : list Z) : Z := foldl (fun v c => w8 (v * 10 + (c - 48))) 0 ds.
Definition digits (ds : list Z) : Prop := Forall (fun c => is_digit c = true) ds /\ (length ds <= 3)%nat.
Definition terminator (t : Z) : Prop := t = DOT \/ t = 0.

Lemma digit_not_end c : is_digit c = true -> (c =? DOT) || (c =? 0) = false.
Proof. unfold is_digit, DOT. lia. Qed.

Lemma conv_field_value ds : forall j v t rest, Forall (fun c => is_digit c = true) ds -> 0 <= j ->
  j + Z.of_nat (length ds) <= 3 -> terminator t ->
  conv_field j v (ds ++ t :: rest) = Some (Some (foldl (fun v c => w8 (v * 10 + (c - 48))) v ds, rest)).
Proof.
  induction ds as [|d ds IH]; intros j v t rest Hd Hj Hl Ht; cbn [conv_field app foldl length] in *;
    rewrite (w8_small (j + 1)) by (unfold u8; lia); destruct (Z.ltb_spec 4 (j + 1)); try lia.
  - by destruct Ht as [-> | ->].
  - inversion_clear Hd. rewrite digit_not_end by done. rewrite H0. apply IH; try done; lia.
Qed.

Lemma conv_field_inv s : forall j v v' rest, 0 <= j <= 4 -> conv_field j v s = Some (Some (v', rest)) ->
  exists ds t, s = ds ++ t :: rest /\ Forall (fun c => is_digit c = true) ds /\ j + Z.of_nat (length ds) <= 3 /\
    terminator t /\ v' = foldl (fun v c => w8 (v * 10 + (c - 48))) v ds.
Proof.
  induction s as [|c s IH]; intros j v v' rest Hj; cbn [conv_field]; [done|].
  rewrite w8_small by (unfold u8; lia). destruct (Z.ltb_spec 4 (j + 1)); [done|].
  destruct ((c =? DOT) || (c =? 0)) eqn:Ec.
  - intros [= <- <-]. exists [], c. split_and!; try done; [cbn; lia|]. unfold terminator. lia.
  - destruct (is_digit c) eqn:Hd; [|done]. intros (ds & t & -> & H1 & H2 & H3 & ->)%IH; [|lia].
    exists (c :: ds), t. split_and!; try done; [by constructor|cbn [length]; lia].
Qed.

(** The texts that are converted, and to what. *)
Inductive dotted : nat -> list Z -> list Z -> Prop :=
| dotted_O rest : dotted 0 rest []
| dotted_S n ds t rest l : digits ds -> terminator t -> dotted n rest l ->
    dotted (S n) (ds ++ t :: rest) (field_value ds :: l).

Lemma conv_fields_dotted n : forall s out l, conv_fields n s out = Some (1, l) <-> exists l', dotted n s l' /\ l = out ++ l'.
Proof.
  induction n as [|n IH]; intros s out l; cbn [conv_fields].
  - split; [intros [= <-]; exists []; split; [constructor|by rewrite app_nil_r]|].
    intros (l' & H & ->). inversion H. by rewrite app_nil_r.
  - split.
    + intros (r & Hr & H)%bind_Some. destruct r as [[v rest]|]; [|done].
      apply conv_field_inv in Hr as (ds & t & -> & H1 & H2 & H3 & ->); [|lia]. apply IH in H as (l' & Hd & ->).
      exists (field_value ds :: l'). split; [constructor; [split; [done|lia]|done..]|by rewrite <- app_assoc].
    + intros (l' & H & ->). inversion H as [|? ds t rest l'' [H1 H2] Ht Hd]; subst.
      rewrite (conv_field_value ds) by (done || lia). cbn [mbind option_bind]. apply IH.
      exists l''. split; [done|by rewrite <- app_assoc].
Qed.

(** Exactly the texts of four fields of at most three digits, each ended by
    a dot or a null byte, are converted; the bytes are the values of the fields
    modulo 256, and what follows the fourth end is not looked at. *)
Theorem uiplib_ipaddrconv_accepts s l : uiplib_ipaddrconv s = Some (1, l) <-> dotted 4 s l.
Proof.
  unfold uiplib_ipaddrconv. rewrite conv_fields_dotted. split; [by intros (l' & H & ->)|by exists l].
Qed.

(** * Printing *)

Definition decimal (n : Z) : list Z :=
  if n <? 10 then [48 + n]
  else if n <? 100 then [48 + n / 10; 48 + n mod 10]
  else [48 + n / 100; 48 + n / 10 mod 10; 48 + n mod 10].

Lemma decimal_field n : u8 n -> digits (decimal n) /\ field_value (decimal n) = n.
Proof.
  intros Hn. assert (forallb (fun k => let d := decimal (Z.of_nat k) in
    forallb is_digit d && (length d <=? 3)%nat && (field_value d =? Z.of_nat k)) (seq 0 256) = true) as H by (vm_compute; reflexivity).
  rewrite forallb_forall in H. specialize (H (Z.to_nat n)). rewrite Z2Nat.id in H by (unfold u8 in *; lia).
  cbv zeta in H. rewrite !andb_true_iff, Nat.leb_le, Z.eqb_eq, forallb_forall in H.
  destruct H as [[H1 H2] H3]; [apply in_seq; unfold u8 in *; lia|]. split; [|done]. split; [|done].
  apply Forall_forall. exact H1.
Qed.

Definition print_ipaddr (a : u8x4) : list Z :=
  decimal (q0 a) ++ DOT :: decimal (q1 a) ++ DOT :: decimal (q2 a) ++ DOT :: decimal (q3 a) ++ [0].

(** An address written in decimal is read back. *)
Theorem uiplib_ipaddrconv_print a rest : u8x4_ok a ->
  uiplib_ipaddrconv (print_ipaddr a ++ rest) = Some (1, [q0 a; q1 a; q2 a; q3 a]).
Proof.
  intros (H0 & H1 & H2 & H3). apply conv_fields_dotted. exists [q0 a; q1 a; q2 a; q3 a]. split; [|done].
  destruct (decimal_field _ H0) as [D0 E0], (decimal_field _ H1) as [D1 E1],
    (decimal_field _ H2) as [D2 E2], (decimal_field _ H3) as [D3 E3].
  rewrite <- E0. rewrite <- E1. rewrite <- E2. rewrite <- E3.
  unfold print_ipaddr. repeat (rewrite <- app_assoc; cbn [app]).
  do 4 (apply dotted_S; [done|unfold terminator; lia|]). constructor.
Qed.

(** Leniency: empty fields, values over 255 and text after the address. *)
Example uiplib_lenient :
  uiplib_ipaddrconv [DOT; 50; 53; 54; DOT; DOT; 57; DOT; 120] = Some (1, [0; 0; 0; 9]).
Proof. reflexivity. Qed.
(** Three fields: the bytes after the end of the string are read. *)
Example uiplib_overrun : uiplib_ipaddrconv [49; DOT; 50; DOT; 51; 0] = None.
Proof. reflexivity. Qed.

Lemma uiplib_ipaddrconv_print_witness :
  uiplib_ipaddrconv ([49; 57; 50; DOT; 49; 54; 56; DOT; 49; DOT; 55; 0] ++ []) = Some (1, [192; 168; 1; 7]).
Proof. apply (uiplib_ipaddrconv_print (U4 192 168 1 7) []). unfold u8x4_ok, u8. cbn. lia. Defined.
