(* ===== verification/Neighbor.v ===== *)
(** * The neighbour cache: [uip-neighbor.c]

    Eight entries, each with an age; an entry of age [MAX_TIME] is free.  The
    IPv6 code of uIP was to find link addresses here. *)
From S2P Require Export Chksum.
Local Open Scope Z_scope.

Definition MAX_TIME : Z := 128.
Definition ENTRIES : nat := 8.

Record neighbor_entry : Type := NeighborEntry { nb_ipaddr : u8x4; nb_addr : list Z; nb_time : Z }.
#[export] Instance eta_neighbor_entry : Eta neighbor_entry := fun r => NeighborEntry (nb_ipaddr r) (nb_addr r) (nb_time r).
Definition zero_neighbor : neighbor_entry := NeighborEntry zero4 (replicate 6 0) 0.
Definition initial_neighbors : list neighbor_entry := replicate ENTRIES zero_neighbor.

Definition uip_neighbor_init (entries : list neighbor_entry) : list neighbor_entry :=
  map (fun e => e <| nb_time := MAX_TIME |>) entries.
Definition uip_neighbor_periodic (entries : list neighbor_entry) : list neighbor_entry :=
  map (fun e => if nb_time e <? MAX_TIME then e <| nb_time ::= fun t => w8 (t + 1) |> else e) entries.

(** The first free entry, the first whose IP address compares equal to the
    first four bytes of the link address, or the oldest. *)
Fixpoint slot_from (i : nat) (l : list neighbor_entry) (addr : list Z) (oldest : nat) (oldest_time : Z) : nat :=
  match l with
  | [] => oldest
  | e :: l =>
      if nb_time e =? MAX_TIME then i
      else if uip_ipaddr_cmp (nb_ipaddr e) (rd4 addr 0) then i
      else if oldest_time <? nb_time e then slot_from (S i) l addr i (nb_time e)
      else slot_from (S i) l addr oldest oldest_time
  end.
Definition neighbor_slot (entries : list neighbor_entry) (addr : list Z) : nat := slot_from 0 entries addr 0 0.
Definition uip_neighbor_add (ipaddr : u8x4) (addr : list Z) (entries : list neighbor_entry) : list neighbor_entry :=
  <[neighbor_slot entries addr := NeighborEntry ipaddr addr 0]> entries.

Definition find_entry (ipaddr : u8x4) (entries : list neighbor_entry) : option nat :=
  find_index (fun e => uip_ipaddr_cmp (nb_ipaddr e) ipaddr) entries.
Definition uip_neighbor_update (ipaddr : u8x4) (entries : list neighbor_entry) : list neighbor_entry :=
  match find_entry ipaddr entries with
  | Some i => alter (fun e => e <| nb_time := 0 |>) i entries
  | None => entries
  end.
Definition uip_neighbor_lookup (ipaddr : u8x4) (entries : list neighbor_entry) : option (list Z) :=
  i ← find_entry ipaddr entries; nb_addr <$> entries !! i.

(** * Looking up what was added *)

Record neighbors_wf (entries : list neighbor_entry) : Prop := {
  nb_length : length entries = ENTRIES;
  nb_entries : Forall (fun e => u8x4_ok (nb_ipaddr e) /\ 0 <= nb_time e <= MAX_TIME) entries }.

Lemma slot_from_lt l addr : forall i oldest t, (oldest < i + length l)%nat \/ l <> [] ->
  (oldest < i \/ oldest = 0)%nat -> (slot_from i l addr oldest t < i + length l)%nat.
Proof.
  induction l as [|e l IH]; intros i oldest t H H0; cbn [slot_from length] in *; [destruct H; [lia|done]|].
  repeat case_match; try lia.
  - specialize (IH (S i) i (nb_time e)). lia.
  - specialize (IH (S i) oldest t). destruct l; [cbn in *; lia|]. lia.
Qed.
Lemma neighbor_slot_lt l addr : length l = ENTRIES -> (neighbor_slot l addr < length l)%nat.
Proof.
  intros H. pose proof (slot_from_lt l addr 0 0 0). unfold neighbor_slot, ENTRIES in *. cbn in *. lia.
Qed.

Lemma ipaddr_cmp_refl a : u8x4_ok a -> uip_ipaddr_cmp a a = true.
Proof. intros. by apply xtcp_compare_words_spec. Qed.

(** After an address has been added it is looked up with the link address
    it came with, except when it was known before in an entry the new one does
    not replace: then the old link address is still the one found. *)
Theorem uip_neighbor_add_lookup ip addr l : neighbors_wf l -> u8x4_ok ip ->
  uip_neighbor_lookup ip (uip_neighbor_add ip addr l) =
    match find_entry ip l with
    | Some i => if decide (i < neighbor_slot l addr)%nat then nb_addr <$> l !! i else Some addr
    | None => Some addr
    end.
Proof.
  intros [Hl _] Hip. pose proof (neighbor_slot_lt l addr Hl) as Hj.
  unfold uip_neighbor_lookup, uip_neighbor_add. set (j := neighbor_slot l addr) in *. clearbody j.
  assert ((forall k y, (k < j)%nat -> l !! k = Some y -> uip_ipaddr_cmp (nb_ipaddr y) ip = false) ->
    find_entry ip (<[j:=NeighborEntry ip addr 0]> l) = Some j) as Hhit.
  { intros H. apply find_index_Some. split.
    - exists (NeighborEntry ip addr 0). split; [by apply list_lookup_insert_eq|by apply ipaddr_cmp_refl].
    - intros k y Hk. rewrite list_lookup_insert_ne by lia. by apply H. }
  destruct (find_entry ip l) as [i|] eqn:E.
  - apply find_index_Some in E as [(e & He & Hp) Hlt]. case_decide.
    + assert (find_entry ip (<[j:=NeighborEntry ip addr 0]> l) = Some i) as ->.
      { apply find_index_Some. split.
        - exists e. split; [by rewrite list_lookup_insert_ne by lia|done].
        - intros k y Hk. rewrite list_lookup_insert_ne by lia. by apply Hlt. }
      cbn [mbind option_bind]. by rewrite list_lookup_insert_ne by lia.
    + rewrite Hhit by (intros k y Hk; apply Hlt; lia). cbn [mbind option_bind]. by rewrite list_lookup_insert_eq.
  - apply find_index_None in E. rewrite Hhit; [cbn [mbind option_bind]; by rewrite list_lookup_insert_eq|].
    intros k y _ Hy. by eapply Forall_lookup_1 in E.
Qed.

Lemma uip_neighbor_add_wf ip addr l : neighbors_wf l -> u8x4_ok ip -> neighbors_wf (uip_neighbor_add ip addr l).
Proof.
  intros [Hl He] Hip. constructor; unfold uip_neighbor_add; [by rewrite length_insert|].
  apply Forall_insert; [done|]. cbn. unfold MAX_TIME. split; [done|lia].
Qed.
Lemma uip_neighbor_periodic_wf l : neighbors_wf l -> neighbors_wf (uip_neighbor_periodic l).
Proof.
  intros [Hl He]. constructor; [by unfold uip_neighbor_periodic; rewrite length_map|].
  apply Forall_fmap. eapply Forall_impl; [|exact He]. intros e [Hi Ht]. cbn.
  destruct (Z.ltb_spec (nb_time e) MAX_TIME); [|done]. unfold MAX_TIME in *. cbn.
  rewrite w8_small by (unfold u8; lia). split; [done|lia].
Qed.
Lemma uip_neighbor_init_wf l : neighbors_wf l -> neighbors_wf (uip_neighbor_init l).
Proof.
  intros [Hl He]. constructor; [by unfold uip_neighbor_init; rewrite length_map|].
  apply Forall_fmap. eapply Forall_impl; [|exact He]. intros e [Hi Ht]. cbn. unfold MAX_TIME. split; [done|lia].
Qed.

(** The comparison of an IP address with a link address, where the two IP
    addresses were meant: a neighbour that changes its link address gets a
    second entry, and the first is still found. *)
Definition nb_ip : u8x4 := U4 10 0 0 7.
Definition one_neighbor : list neighbor_entry :=
  Eval vm_compute in uip_neighbor_add nb_ip [2; 0; 0; 0; 0; 1] (uip_neighbor_init initial_neighbors).
Lemma one_neighbor_wf : neighbors_wf one_neighbor.
Proof.
  assert (neighbors_wf initial_neighbors) as H.
  { split; [done|]. apply Forall_replicate. unfold u8x4_ok, u8, MAX_TIME. cbn. lia. }
  change one_neighbor with (uip_neighbor_add nb_ip [2; 0; 0; 0; 0; 1] (uip_neighbor_init initial_neighbors)).
  apply uip_neighbor_add_wf; [by apply uip_neighbor_init_wf|]. unfold u8x4_ok, u8. cbn. lia.
Qed.
Lemma uip_neighbor_add_lookup_witness :
  uip_neighbor_lookup nb_ip (uip_neighbor_add nb_ip [2; 0; 0; 0; 0; 2] one_neighbor) = Some [2; 0; 0; 0; 0; 1].
Proof.
  rewrite (uip_neighbor_add_lookup nb_ip [2; 0; 0; 0; 0; 2] one_neighbor one_neighbor_wf); [reflexivity|].
  unfold u8x4_ok, u8. cbn. lia.
Defined.
