(* ===== verification/UipConn.v ===== *)
(** * Connection and port tables of [uip.c]

    [uip_init], the active open [uip_connect], [uip_udp_new], the listening
    port tables, [uip_send], and the interface through which [uip_process]
    calls the layers above it. *)
From Stdlib Require Import Finite.
From S2P Require Export UipWf.
Local Open Scope Z_scope.

(** ** The application interface

    uIP calls the application through the macros [UIP_APPCALL] and
    [UIP_UDP_APPCALL] (both [xtcpd_appcall] in this code base), with all
    communication through the global variables.  Multicast reception is
    delegated to [igmp.c] when the stack is built with [UIP_IGMP]. *)
Class UipEnv (E : Type) := {
  UIP_APPCALL : uip_state E -> uip_state E;
  UIP_IGMP : bool;
  igmp_check_addr : u8x4 -> uip_state E -> bool;
  igmp_in : uip_state E -> uip_state E }.

Section tables.
Context {E : Type}.
Implicit Types s : uip_state E.

Definition uip_setipid (n : Z) s : uip_state E := s <| ipid := w16 n |>.

Definition uip_init s : uip_state E :=
  s <| uip_listenports := replicate UIP_LISTENPORTS 0 |>
    <| uip_udp_listenports := replicate UIP_LISTENPORTS 0 |>
    <| uip_conns := replicate UIP_CONNS zero_conn |>
    <| lastport := 1024 |>
    <| uip_udp_conns := replicate UIP_UDP_CONNS zero_udp_conn |>.

(** [++lastport; if (lastport >= 32000) lastport = 4096;] *)
Definition next_port (lastport : Z) : Z :=
  let lastport := w16 (lastport + 1) in
  if 32000 <=? lastport then 4096 else lastport.

(** The [goto again] loop: the next port that is not [used].  [None] when
    [fuel] further attempts do not find one. *)
Fixpoint find_port (fuel : nat) (used : Z -> bool) (lastport : Z) : option Z :=
  let lastport := next_port lastport in
  if used lastport then
    match fuel with
    | O => None
    | S fuel => find_port fuel used lastport
    end
  else Some lastport.

Definition tcp_port_used (conns : list uip_conn_t) (port : Z) : bool :=
  existsb (fun conn => negb (tcpstateflags conn =? UIP_CLOSED) && (lport conn =? HTONS port))
    conns.
Definition udp_port_used (conns : list uip_udp_conn_t) (port : Z) : bool :=
  existsb (fun conn => udp_lport conn =? HTONS port) conns.

(** The search for a connection block: the first [CLOSED] one, else the
    [TIME_WAIT] one with the largest timer.  [conn] is the best candidate so
    far with its timer, [c] the index of the head of the list. *)
Fixpoint find_free_conn (l : list uip_conn_t) (c : nat) (conn : option (nat * Z))
    : option nat :=
  match l with
  | [] => fst <$> conn
  | cconn :: l =>
      if tcpstateflags cconn =? UIP_CLOSED then Some c
      else if tcpstateflags cconn =? UIP_TIME_WAIT then
        match conn with
        | None => find_free_conn l (S c) (Some (c, timer cconn))
        | Some (_, t) =>
            if t <? timer cconn then find_free_conn l (S c) (Some (c, timer cconn))
            else find_free_conn l (S c) conn
        end
      else find_free_conn l (S c) conn
  end.

(** The fields of a block claimed by an active open. *)
Definition connect_block (iss : u8x4) (lastport rport' : Z) (addr : u8x4) (conn : uip_conn_t)
    : uip_conn_t :=
  conn <| tcpstateflags := UIP_SYN_SENT |>
    <| snd_nxt := iss |>
    <| initialmss := UIP_TCP_MSS |> <| mss := UIP_TCP_MSS |>
    <| len := 1 |>
    <| nrtx := 0 |>
    <| timer := 1 |>
    <| rto := UIP_RTO |>
    <| sa := 0 |>
    <| sv := 16 |>
    <| lport := HTONS lastport |>
    <| rport := rport' |>
    <| ripaddr := addr |>.

(** The outer [option] is the [again] loop; the inner one the returned
    pointer. *)
Definition uip_connect (addr : u8x4) (rport : Z) s : option (uip_state E * option nat) :=
  match find_port UIP_CONNS (tcp_port_used (uip_conns s)) (lastport s) with
  | None => None
  | Some port =>
      let s := s <| lastport := port |> in
      match find_free_conn (uip_conns s) 0 None with
      | None => Some (s, None)
      | Some i => Some (upd_conn i (connect_block (iss s) port rport addr) s, Some i)
      end
  end.

Definition uip_udp_new (addr : option u8x4) (rport : Z) s : option (uip_state E * option nat) :=
  match find_port UIP_UDP_CONNS (udp_port_used (uip_udp_conns s)) (lastport s) with
  | None => None
  | Some port =>
      let s := s <| lastport := port |> in
      match find_index (fun conn => udp_lport conn =? 0) (uip_udp_conns s) with
      | None => Some (s, None)
      | Some i =>
          Some (upd_udp_conn i (fun conn =>
            conn <| udp_lport := HTONS port |>
              <| udp_rport := rport |>
              <| udp_ripaddr := match addr with None => zero4 | Some a => a end |>
              <| udp_ttl := UIP_TTL |>
              <| udpflags := 0 |>) s, Some i)
      end
  end.

(** A port table: clear the first entry equal to [port]; take the first
    empty entry. *)
Definition ports_remove (port : Z) (ports : list Z) : list Z :=
  match find_index (Z.eqb port) ports with
  | Some c => <[c := 0]> ports
  | None => ports
  end.
Definition ports_add (port : Z) (ports : list Z) : list Z :=
  match find_index (Z.eqb 0) ports with
  | Some c => <[c := port]> ports
  | None => ports
  end.

Definition uip_unlisten (port : Z) s : uip_state E := s <| uip_listenports ::= ports_remove port |>.
Definition uip_udp_unlisten (port : Z) s : uip_state E :=
  s <| uip_udp_listenports ::= ports_remove port |>.
Definition uip_listen (port : Z) s : uip_state E := s <| uip_listenports ::= ports_add port |>.
Definition uip_udp_listen (port : Z) s : uip_state E :=
  s <| uip_udp_listenports ::= ports_add port |>.

(** [data] is a pointer into [uip_buf]. *)
Definition uip_send (data length : Z) s : uip_state E :=
  if 0 <? length then
    let s := s <| uip_slen := w16 length |> in
    if data =? uip_sappdata s then s
    else mem (wrs (uip_sappdata s) (rds (uip_buf s) data (Z.to_nat (uip_slen s)))) s
  else s.
End tables.

(** ** Ephemeral port search *)

(** The [k]-th port after [lp], in closed form. *)
Definition port_after (lp k : Z) : Z :=
  if lp + k <? 32000 then lp + k else lp + k - 32000 + 4096.

Lemma next_port_after lp k : 0 <= lp < 32000 -> 0 <= k < 20000 ->
  next_port (port_after lp k) = port_after lp (k + 1).
Proof.
  intros. unfold next_port, port_after, w16.
  destruct (Z.ltb_spec (lp + k) 32000), (Z.ltb_spec (lp + (k + 1)) 32000);
    rewrite Z.mod_small by lia; case_match; lia.
Qed.

Lemma port_after_inj lp j k : 0 <= lp < 32000 -> 0 <= j < 20000 -> 0 <= k < 20000 ->
  port_after lp j = port_after lp k -> j = k.
Proof.
  unfold port_after. intros.
  destruct (Z.ltb_spec (lp + j) 32000), (Z.ltb_spec (lp + k) 32000); lia.
Qed.

Lemma port_after_range lp k : 0 <= lp < 32000 -> 0 <= k < 20000 ->
  0 <= port_after lp k < 32000.
Proof. unfold port_after. intros. case_match; lia. Qed.

Lemma find_port_Some fuel used : forall lp p, 0 <= lp < 32000 ->
  find_port fuel used lp = Some p -> used p = false /\ 0 <= p < 32000.
Proof.
  assert (forall lp, 0 <= lp < 32000 -> 0 <= next_port lp < 32000) as Hn.
  { intros lp ?. unfold next_port, w16. rewrite Z.mod_small by lia. case_match; lia. }
  induction fuel as [|fuel IH]; intros lp p Hlp; cbn [find_port];
    destruct (used (next_port lp)) eqn:E; try done; try (intros [= <-]; auto).
  eauto.
Qed.

Lemma find_port_None fuel used lp : 0 <= lp < 32000 ->
  forall k, Z.of_nat fuel + k < 19999 -> 0 <= k ->
  find_port fuel used (port_after lp k) = None ->
  forall j, k < j <= k + 1 + Z.of_nat fuel -> used (port_after lp j) = true.
Proof.
  intros Hlp. induction fuel as [|fuel IH]; intros k Hk Hk0; cbn [find_port];
    rewrite next_port_after by lia;
    destruct (used (port_after lp (k + 1))) eqn:E; try done; intros H j Hj.
  - by replace j with (k + 1) by lia.
  - destruct (decide (j = k + 1)) as [->|]; [done|].
    apply (IH (k + 1)); auto; lia.
Qed.

(** Pigeonhole: a table of [fuel] blocks cannot use [fuel + 1] ports. *)
Lemma find_port_total {A} (f : A -> Z) (l : list A) (used : Z -> bool) fuel lp :
  0 <= lp < 32000 -> (length l <= fuel)%nat -> Z.of_nat fuel < 19998 ->
  (forall p, used p = true -> exists x, x ∈ l /\ f x = HTONS p) ->
  is_Some (find_port fuel used lp).
Proof.
  intros Hlp Hl Hf Hu. destruct (find_port fuel used lp) eqn:E; [by eexists|exfalso].
  replace lp with (port_after lp 0) in E
    by (unfold port_after; case_match; lia).
  pose proof (find_port_None fuel used lp Hlp 0 ltac:(lia) ltac:(lia) E) as Hall.
  set (ports := map (fun k => HTONS (port_after lp (Z.of_nat k))) (seq 1 (S fuel))).
  assert (NoDup ports) as Hnd.
  { apply NoDup_ListNoDup. unfold ports.
    apply Finite.Injective_map_NoDup_in; [|apply seq_NoDup].
    intros j k Hj%in_seq Hk%in_seq Heq.
    apply (f_equal HTONS) in Heq. rewrite !HTONS_HTONS in Heq
      by (unfold u16; pose proof (port_after_range lp (Z.of_nat j));
          pose proof (port_after_range lp (Z.of_nat k)); lia).
    apply port_after_inj in Heq; lia. }
  assert (length ports <= length (map f l))%nat as Hlen.
  { apply NoDup_incl_length; [by apply NoDup_ListNoDup|].
    intros p (k & <- & Hk%in_seq)%in_map_iff.
    destruct (Hu (port_after lp (Z.of_nat k))) as (x & Hx & Hfx); [apply Hall; lia|].
    apply in_map_iff. exists x. split; [done|]. by apply list_elem_of_In. }
  unfold ports in Hlen. rewrite !length_map, length_seq in Hlen. lia.
Qed.

Lemma tcp_port_used_true conns p :
  tcp_port_used conns p = true <->
  exists i c, conns !! i = Some c /\ tcpstateflags c <> UIP_CLOSED /\ lport c = HTONS p.
Proof.
  unfold tcp_port_used. rewrite existsb_exists. split.
  - intros (c & Hc%list_elem_of_In%list_elem_of_lookup & H). destruct Hc as [i Hi].
    exists i, c. apply andb_true_iff in H as [H1 H2].
    rewrite negb_true_iff, Z.eqb_neq in H1. by rewrite Z.eqb_eq in H2.
  - intros (i & c & Hi & H1 & H2). exists c.
    split; [apply list_elem_of_In, list_elem_of_lookup; eauto|].
    rewrite andb_true_iff, negb_true_iff, Z.eqb_neq, Z.eqb_eq. done.
Qed.

(** ** The search for a connection block *)

Definition is_closed (c : uip_conn_t) : bool := tcpstateflags c =? UIP_CLOSED.
Definition is_time_wait (c : uip_conn_t) : bool := tcpstateflags c =? UIP_TIME_WAIT.

Lemma find_free_conn_spec (full : list uip_conn_t) :
  forall l pre conn, full = pre ++ l ->
  Forall (fun c => is_closed c = false) pre ->
  (match conn with
   | None => Forall (fun c => is_time_wait c = false) pre
   | Some (i, t) => exists c, pre !! i = Some c /\ is_time_wait c = true /\ timer c = t /\
       forall j d, pre !! j = Some d -> is_time_wait d = true -> timer d <= t
   end) ->
  match find_free_conn l (length pre) conn with
  | Some i => exists c, full !! i = Some c /\
      (is_closed c = true /\ (forall j d, (j < i)%nat -> full !! j = Some d -> is_closed d = false)
       \/ Forall (fun c => is_closed c = false) full /\ is_time_wait c = true /\
          forall j d, full !! j = Some d -> is_time_wait d = true -> timer d <= timer c)
  | None => Forall (fun c => is_closed c = false /\ is_time_wait c = false) full
  end.
Proof.
  induction l as [|x l IH]; intros pre conn Hfull Hpre Hbest; cbn [find_free_conn].
  - rewrite app_nil_r in Hfull. subst pre. destruct conn as [[i t]|]; cbn.
    + destruct Hbest as (c & Hc & Htw & <- & Hmax). exists c. split; [done|]. right. eauto.
    + by apply Forall_and.
  - assert (full = (pre ++ [x]) ++ l) as Hfull' by (by rewrite <- app_assoc).
    specialize (fun conn => IH (pre ++ [x]) conn Hfull').
    rewrite length_app, Nat.add_1_r in IH.
    assert (full !! length pre = Some x) as Hx.
    { rewrite Hfull, lookup_app_r, Nat.sub_diag by lia. done. }
    fold (is_closed x) (is_time_wait x).
    destruct (is_closed x) eqn:Ec.
    { exists x. split; [done|]. left. split; [done|]. intros j d Hj Hd.
      rewrite Hfull, lookup_app_l in Hd by done.
      by eapply (Forall_lookup_1 (fun c => is_closed c = false)). }
    assert (Forall (fun c => is_closed c = false) (pre ++ [x])) as Hpre'
      by (apply Forall_app; auto).
    assert (forall i c, pre !! i = Some c -> (pre ++ [x]) !! i = Some c) as Hw
      by (intros; by apply lookup_app_l_Some).
    assert (forall j d, (pre ++ [x]) !! j = Some d -> pre !! j = Some d \/ d = x) as Hsp.
    { intros j d [Hj|[_ Hj]]%lookup_app_Some; [by left|right].
      by apply list_lookup_singleton_Some in Hj as [_ ?]. }
    destruct (is_time_wait x) eqn:Et.
    + destruct conn as [[i t]|].
      * destruct Hbest as (c & Hc & Htw & <- & Hmax).
        destruct (Z.ltb_spec (timer c) (timer x)); apply IH; auto.
        -- exists x. rewrite lookup_app_r, Nat.sub_diag by lia.
           repeat split; auto. intros j d [Hd| ->]%Hsp Hdt; [|lia].
           specialize (Hmax j d Hd Hdt). lia.
        -- exists c. repeat split; auto. intros j d [Hd| ->]%Hsp Hdt; eauto.
      * apply IH; auto. exists x. rewrite lookup_app_r, Nat.sub_diag by lia.
        repeat split; auto. intros j d [Hd| ->]%Hsp Hdt; [|lia].
        rewrite Forall_lookup in Hbest. rewrite (Hbest j d Hd) in Hdt. done.
    + apply IH; auto. destruct conn as [[i t]|].
      * destruct Hbest as (c & Hc & Htw & <- & Hmax). exists c. repeat split; auto.
        intros j d [Hd| ->]%Hsp Hdt; [eauto|congruence].
      * apply Forall_app; auto.
Qed.

(** ** Theorems *)

Section tables_theorems.
Context {E : Type}.
Implicit Types s : uip_state E.

Lemma uip_init_wf s : uip_wf s -> uip_wf (uip_init s).
Proof.
  intros []. constructor; auto; unfold uip_init; ssimpl; try done; try lia;
    repeat constructor; try done; unfold u16; lia.
Qed.

Lemma find_port_tcp s : uip_wf s ->
  exists p, find_port UIP_CONNS (tcp_port_used (uip_conns s)) (lastport s) = Some p /\
    tcp_port_used (uip_conns s) p = false /\ 0 <= p < 32000.
Proof.
  intros H. pose proof (wf_lastport s H).
  destruct (find_port_total lport (uip_conns s) (tcp_port_used (uip_conns s)) UIP_CONNS
    (lastport s)) as [p Hp]; try (by rewrite ?(wf_conns_len s H) || done).
  - intros p (i & c & Hi & _ & Hl)%tcp_port_used_true. exists c.
    split; [|done]. apply list_elem_of_lookup; eauto.
  - exists p. split; [done|]. by eapply find_port_Some.
Qed.

Lemma find_port_udp s : uip_wf s ->
  exists p, find_port UIP_UDP_CONNS (udp_port_used (uip_udp_conns s)) (lastport s) = Some p /\
    udp_port_used (uip_udp_conns s) p = false /\ 0 <= p < 32000.
Proof.
  intros H. pose proof (wf_lastport s H).
  destruct (find_port_total udp_lport (uip_udp_conns s) (udp_port_used (uip_udp_conns s)) UIP_UDP_CONNS
    (lastport s)) as [p Hp]; try (by rewrite ?(wf_udp_conns_len s H) || done).
  - intros p. unfold udp_port_used. rewrite existsb_exists. intros (c & Hc & Hl%Z.eqb_eq).
    exists c. split; [by apply list_elem_of_In|done].
  - exists p. split; [done|]. by eapply find_port_Some.
Qed.

Lemma uip_connect_wf s addr rp s' r : uip_wf s -> u8x4_ok addr -> u16 rp ->
  uip_connect addr rp s = Some (s', r) -> uip_wf s'.
Proof.
  intros H Ha Hr. destruct (find_port_tcp s H) as (p & Hp & _ & Hrange).
  unfold uip_connect. rewrite Hp. assert (uip_wf (s <| lastport := p |>)) as H1 by (by apply wf_set_lastport).
  case_match; intros [= <- <-]; [|done].
  pose proof (wf_iss _ H1). apply wf_upd_conn; [done|]. unfold connect_block. conn_field.
Qed.

Lemma uip_udp_new_wf s addr rp s' r : uip_wf s -> u8x4_ok addr -> u16 rp ->
  uip_udp_new (Some addr) rp s = Some (s', r) -> uip_wf s'.
Proof.
  intros H Ha Hr. destruct (find_port_udp s H) as (p & Hp & _ & Hrange).
  unfold uip_udp_new. rewrite Hp. assert (uip_wf (s <| lastport := p |>)) as H1 by (by apply wf_set_lastport).
  case_match; intros [= <- <-]; [|done].
  apply wf_upd_udp_conn; [done|]. conn_field.
Qed.

Lemma uip_send_wf data length s : uip_wf s -> uip_wf (uip_send data length s).
Proof.
  intros Hs. unfold uip_send. case_match; [|done]. cbv zeta. case_match; [wf_auto|].
  apply wf_mem; [wf_auto|auto with mem|intros; apply length_wrs].
Qed.

(** An active open always returns.  It either reports that no block is
    free, which is then true of every block, or it returns a block that was
    [CLOSED] or in [TIME_WAIT], filled in for a SYN with a local port no live
    connection uses; every other block is untouched. *)
Theorem uip_connect_spec s addr rp : uip_wf s -> u8x4_ok addr -> u16 rp ->
  exists s' r, uip_connect addr rp s = Some (s', r) /\ uip_wf s' /\
  match r with
  | None => uip_conns s' = uip_conns s /\
      Forall (fun c => is_closed c = false /\ is_time_wait c = false) (uip_conns s)
  | Some i =>
      (is_closed (conn_at i s) = true \/
       is_time_wait (conn_at i s) = true /\
       Forall (fun c => is_closed c = false) (uip_conns s)) /\
      conn_at i s' = connect_block (iss s) (lastport s') rp addr (conn_at i s) /\
      (forall j, j <> i -> conn_at j s' = conn_at j s) /\
      (forall j c, uip_conns s !! j = Some c -> is_closed c = false ->
         lport c <> lport (conn_at i s'))
  end.
Proof.
  intros H Ha Hr. destruct (find_port_tcp s H) as (p & Hp & Hu & Hrange).
  unfold uip_connect. rewrite Hp. set (s1 := s <| lastport := p |>).
  assert (uip_wf s1) as H1 by (by apply wf_set_lastport).
  pose proof (find_free_conn_spec (uip_conns s1) (uip_conns s1) [] None eq_refl
    (Forall_nil_2 _) (Forall_nil_2 _)) as Hf. cbn [length] in Hf.
  destruct (find_free_conn (uip_conns s1) 0 None) as [i|].
  2:{ exists s1, None. auto. }
  destruct Hf as (c & Hc & Hor).
  assert (i < length (uip_conns s1))%nat as Hi by by eapply lookup_lt_Some.
  assert (conn_at i s1 = c) as Hci by (unfold conn_at; by apply list_lookup_total_correct).
  eexists _, (Some i). split; [reflexivity|]. split.
  { pose proof (wf_iss _ H1). apply wf_upd_conn; [done|]. unfold connect_block. conn_field. }
  rewrite conn_at_upd_eq by done. change (conn_at i s1) with (conn_at i s) in *. rewrite Hci.
  repeat split.
  - destruct Hor as [[? _]|(? & ? & _)]; auto.
  - intros j Hj. by rewrite conn_at_upd_ne.
  - intros j d Hd Hdc. unfold connect_block; ssimpl. intros Hl.
    enough (tcp_port_used (uip_conns s) p = true) by congruence.
    apply tcp_port_used_true. exists j, d. unfold is_closed in Hdc.
    rewrite Z.eqb_neq in Hdc. auto.
Qed.

End tables_theorems.

Example uip_connect_spec_witness :
  let s := uip_init (initial_state tt) in
  exists s' i, uip_connect (U4 10 0 0 1) (HTONS 80) s = Some (s', Some i) /\ uip_wf s'.
Proof.
  pose proof (uip_init_wf (initial_state tt) (initial_state_wf tt)) as H.
  destruct (uip_connect_spec (uip_init (initial_state tt)) (U4 10 0 0 1) (HTONS 80) H)
    as (s' & r & E' & Hwf & Hr).
  - unfold u8x4_ok, u8; cbn; lia.
  - apply HTONS_u16.
  - destruct r as [i|]; [by exists s', i|].
    exfalso. destruct Hr as [_ Hr]. inversion Hr as [|? ? [Hc _] _]. discriminate Hc.
Defined.

(** ** Listening ports *)

Lemma ports_add_elem p ports : 0 ∈ ports -> p ∈ ports_add p ports.
Proof.
  intros H. unfold ports_add. destruct (find_index (Z.eqb 0) ports) as [c|] eqn:Ec.
  - apply find_index_lt in Ec. apply list_elem_of_lookup. exists c.
    by apply list_lookup_insert_eq.
  - apply find_index_None in Ec. rewrite Forall_forall in Ec.
    apply list_elem_of_In, Ec in H. done.
Qed.

Lemma ports_add_remove p ports : p <> 0 -> p ∉ ports -> ports_remove p (ports_add p ports) = ports.
Proof.
  intros Hp Hn. unfold ports_add. destruct (find_index (Z.eqb 0) ports) as [c|] eqn:Ec.
  - pose proof (find_index_lt _ _ _ Ec) as Hlt.
    apply find_index_Some in Ec as [(x & Hx & Ex%Z.eqb_eq) _]. subst x.
    assert (find_index (Z.eqb p) (<[c:=p]> ports) = Some c) as Ef.
    { apply find_index_Some. split.
      - exists p. by rewrite list_lookup_insert_eq, Z.eqb_refl.
      - intros j y Hj Hy. rewrite list_lookup_insert_ne in Hy by lia.
        apply Z.eqb_neq. intros ->. apply Hn, list_elem_of_lookup. eauto. }
    unfold ports_remove. rewrite Ef, list_insert_insert_eq. by apply list_insert_id.
  - unfold ports_remove. destruct (find_index (Z.eqb p) ports) as [c|] eqn:Ef; [|done].
    apply find_index_Some in Ef as [(x & Hx & Ex%Z.eqb_eq) _]. subst x.
    destruct Hn. apply list_elem_of_lookup. eauto.
Qed.

Lemma ports_remove_other p q ports : q <> p -> q <> 0 -> q ∈ ports_remove p ports <-> q ∈ ports.
Proof.
  intros Hqp Hq0. unfold ports_remove.
  destruct (find_index (Z.eqb p) ports) as [c|] eqn:Ef; [|done].
  pose proof (find_index_lt _ _ _ Ef) as Hlt.
  apply find_index_Some in Ef as [(x & Hx & Ex%Z.eqb_eq) _]. subst x.
  rewrite !list_elem_of_lookup. split; intros [j Hj].
  - destruct (decide (j = c)) as [->|]; [rewrite list_lookup_insert_eq in Hj by done; congruence|].
    rewrite list_lookup_insert_ne in Hj by done. eauto.
  - exists j. rewrite list_lookup_insert_ne; [done|]. intros ->. congruence.
Qed.

(** [uip_listen] opens a port whenever the table has a free entry, and
    [uip_unlisten] is its inverse: closing a port that was not open before
    restores the whole state, and neither affects whether another port
    listens. *)
Theorem uip_listen_unlisten {E} (s : uip_state E) port :
  port <> 0 -> port ∉ uip_listenports s -> 0 ∈ uip_listenports s ->
  port ∈ uip_listenports (uip_listen port s) /\
  uip_unlisten port (uip_listen port s) = s /\
  forall q, q <> port -> q <> 0 ->
    (q ∈ uip_listenports (uip_listen port s) <-> q ∈ uip_listenports s).
Proof.
  intros Hp Hn H0. unfold uip_listen, uip_unlisten. ssimpl. split; [by apply ports_add_elem|].
  split.
  - destruct s. unfold set_field. ssimpl. by rewrite ports_add_remove.
  - intros q Hq Hq0. rewrite <- (ports_remove_other port q (ports_add port _)) by done.
    by rewrite ports_add_remove.
Qed.

Example uip_listen_unlisten_witness :
  let s := initial_state tt in
  HTONS 80 ∈ uip_listenports (uip_listen (HTONS 80) s) /\
  uip_unlisten (HTONS 80) (uip_listen (HTONS 80) s) = s.
Proof.
  destruct (uip_listen_unlisten (initial_state tt) (HTONS 80)) as (H1 & H2 & _).
  - vm_compute. discriminate.
  - intros H%list_elem_of_In. vm_compute in H. repeat destruct H as [H|H]; try discriminate H; done.
  - apply list_elem_of_In. left. reflexivity.
  - exact (conj H1 H2).
Defined.

Lemma ports_add_u16 p ports : u16 p -> Forall u16 ports -> Forall u16 (ports_add p ports).
Proof. intros. unfold ports_add. case_match; [by apply Forall_insert|done]. Qed.
Lemma ports_remove_u16 p ports : Forall u16 ports -> Forall u16 (ports_remove p ports).
Proof. intros. unfold ports_remove. case_match; [|done]. apply Forall_insert; [done|u16_const]. Qed.
Lemma length_ports_add p ports : length (ports_add p ports) = length ports.
Proof. unfold ports_add. case_match; [apply length_insert|done]. Qed.
Lemma length_ports_remove p ports : length (ports_remove p ports) = length ports.
Proof. unfold ports_remove. case_match; [apply length_insert|done]. Qed.

Lemma uip_listen_wf {E} p (s : uip_state E) : u16 p -> uip_wf s -> uip_wf (uip_listen p s).
Proof.
  intros Hp []. constructor; unfold uip_listen; ssimpl; auto; [by apply ports_add_u16|].
  by rewrite length_ports_add.
Qed.
Lemma uip_unlisten_wf {E} p (s : uip_state E) : uip_wf s -> uip_wf (uip_unlisten p s).
Proof.
  intros []. constructor; unfold uip_unlisten; ssimpl; auto; [by apply ports_remove_u16|].
  by rewrite length_ports_remove.
Qed.
Lemma uip_udp_listen_wf {E} p (s : uip_state E) : u16 p -> uip_wf s -> uip_wf (uip_udp_listen p s).
Proof.
  intros Hp []. constructor; unfold uip_udp_listen; ssimpl; auto; [by apply ports_add_u16|].
  by rewrite length_ports_add.
Qed.
Lemma uip_udp_unlisten_wf {E} p (s : uip_state E) : uip_wf s -> uip_wf (uip_udp_unlisten p s).
Proof.
  intros []. constructor; unfold uip_udp_unlisten; ssimpl; auto; [by apply ports_remove_u16|].
  by rewrite length_ports_remove.
Qed.
