(* ===== verification/UipProcess.v ===== *)
(** * [uip_process]: the TCP, UDP and ICMP engine

    [uip_process] is one C function made of labelled blocks joined by [goto].
    The jumps never go round in a cycle, so each label is a definition here
    and a [goto] is a call in tail position, the labels in an order in which
    every target comes first.  The register variable [uip_connr] is the
    argument [i], an index into [uip_conns].  The result is an [option]: [None]
    is the TCP option loop running for ever, which a hostile segment can bring
    about (see [UipOptions]). *)
From S2P Require Export UipConn.
Local Open Scope Z_scope.

Definition all_ones_addr : u8x4 := U4 0xff 0xff 0xff 0xff.
Definition all_zeroes_addr : u8x4 := U4 0 0 0 0.

(** The first byte is 224: of the class D range only 224.x.x.x counts. *)
Definition uip_ipaddr_is_multicast (addr : u8x4) : bool := Z.land (word0 addr) 0xff =? 224.

(** ** 4-byte words in memory *)

(** [xtcp_swap_words] swaps two words of [uip_buf], a half at a time. *)
Definition xtcp_swap_words (a b : Z) (m : list Z) : list Z :=
  let c := rd16 m a in
  let m := wr16 a (rd16 m b) m in
  let m := wr16 b c m in
  let c := rd16 m (a + 2) in
  let m := wr16 (a + 2) (rd16 m (b + 2)) m in
  wr16 (b + 2) c m.

(** The value [s] computed by [xtcp_increment_word]: the halves are loaded as
    signed [short]s. *)
Definition xtcp_increment_value (a : u8x4) : Z :=
  let s := w32 (Z.shiftl (s16 (word1 a)) 16 + s16 (word0 a)) in
  byterev (w32 (byterev s + 1)).

(** The two words the function is called on. *)
Inductive wordptr : Set := PTR_iss | PTR_buf (i : Z).

Section helpers.
Context {E : Type}.
Implicit Types s : uip_state E.

(** The first half of the result goes back to [a], the second half to
    [BUF->ackno[2]] whatever [a] is. *)
Definition xtcp_increment_word (a : wordptr) s : uip_state E :=
  match a with
  | PTR_iss =>
      let v := xtcp_increment_value (iss s) in
      let s := s <| iss ::= fun a => U4 (w8 v) (w8 (v / 256)) (q2 a) (q3 a) |> in
      mem (wr16 (BUF.ackno + 2) (Z.shiftr v 16)) s
  | PTR_buf i =>
      let v := xtcp_increment_value (rd4 (uip_buf s) i) in
      let s := mem (wr16 i v) s in
      mem (wr16 (BUF.ackno + 2) (Z.shiftr v 16)) s
  end.

Definition uip_add_rcv_nxt (n : Z) s : uip_state E :=
  match uip_conn s with
  | Some i => upd_conn i (fun c => c <| rcv_nxt ::= fun a => uip_add32 a (w16 n) |>) s
  | None => s
  end.
End helpers.

(** ** TCP options *)

(** The option loop of [found_listen] and of the [SYN_SENT] state: [c] is the
    8-bit offset of the current option, [limit] the length of the option area.
    [Some (Some v)] is an MSS option with value [v], [Some None] the end of the
    options, [None] a loop still running after [fuel] turns. *)
Fixpoint parse_options (fuel : nat) (b : list Z) (limit c : Z) : option (option Z) :=
  if c <? limit then
    match fuel with
    | O => None
    | S fuel =>
        let opt := rd8 b (UIP_TCPIP_HLEN + UIP_LLH_LEN + c) in
        if opt =? TCP_OPT_END then Some None
        else if opt =? TCP_OPT_NOOP then parse_options fuel b limit (w8 (c + 1))
        else if (opt =? TCP_OPT_MSS)
             && (rd8 b (UIP_TCPIP_HLEN + UIP_LLH_LEN + 1 + c) =? TCP_OPT_MSS_LEN) then
          Some (Some (Z.lor (Z.shiftl (rd8 b (UIP_TCPIP_HLEN + UIP_LLH_LEN + 2 + c)) 8)
                            (rd8 b (UIP_IPTCPH_LEN + UIP_LLH_LEN + 3 + c))))
        else if rd8 b (UIP_TCPIP_HLEN + UIP_LLH_LEN + 1 + c) =? 0 then Some None
        else parse_options fuel b limit
               (w8 (c + rd8 b (UIP_TCPIP_HLEN + UIP_LLH_LEN + 1 + c)))
    end
  else Some None.

(** [c] has 256 values, so a loop that runs for 256 turns repeats itself. *)
Definition options_fuel : nat := 256.

Definition options_limit (b : list Z) : Z :=
  Z.shiftl (Z.shiftr (rd8 b BUF.tcpoffset) 4 - 5) 2.

(** "Parse the TCP MSS option, if present." *)
Definition parse_mss {E} (i : nat) (s : uip_state E) : option (uip_state E) :=
  let b := uip_buf s in
  if 0x50 <? Z.land (rd8 b BUF.tcpoffset) 0xf0 then
    match parse_options options_fuel b (options_limit b) 0 with
    | None => None
    | Some None => Some s
    | Some (Some tmp16) =>
        let m := if UIP_TCP_MSS <? tmp16 then UIP_TCP_MSS else tmp16 in
        Some (upd_conn i (fun c => c <| initialmss := m |> <| mss := m |>) s)
    end
  else Some s.

(** ** Round-trip time estimation *)

(** Van Jacobson's estimator in 8-bit arithmetic; [m] is a [signed char]. *)
Definition rtt_estimate (conn : uip_conn_t) : uip_conn_t :=
  let m := s8 (rto conn - timer conn) in
  let m := s8 (m - Z.shiftr (sa conn) 3) in
  let sa' := w8 (sa conn + m) in
  let m := if m <? 0 then s8 (- m) else m in
  let m := s8 (m - Z.shiftr (sv conn) 2) in
  let sv' := w8 (sv conn + m) in
  conn <| sa := sa' |> <| sv := sv' |> <| rto := w8 (Z.shiftr sa' 3 + sv') |>.

Section uip_process.
Context {E : Type} `{!UipEnv E}.
Implicit Types s : uip_state E.

(** ** Output: the labels at the end of the function *)

Definition drop s : uip_state E := s <| uip_len := 0 |> <| uip_flags := 0 |>.

Definition send s : uip_state E := s <| uip_flags := 0 |>.

Definition ip_send_nolen s : uip_state E :=
  let s := mem (wr8 BUF.vhl 0x45) s in
  let s := mem (wr8 BUF.tos 0) s in
  let s := mem (wr8 (BUF.ipoffset + 1) 0) s in
  let s := mem (wr8 BUF.ipoffset 0) s in
  let s := s <| ipid := w16 (ipid s + 1) |> in
  let s := mem (wr8 BUF.ipid (Z.shiftr (ipid s) 8)) s in
  let s := mem (wr8 (BUF.ipid + 1) (Z.land (ipid s) 0xff)) s in
  let s := mem (wr16 BUF.ipchksum 0) s in
  let s := mem (fun b => wr16 BUF.ipchksum (w16 (Z.lnot (uip_ipchksum b))) b) s in
  send s.

Definition tcp_send_noconn s : uip_state E :=
  let s := mem (wr8 BUF.ttl UIP_TTL) s in
  let s := mem (wr8 BUF.len (Z.shiftr (uip_len s) 8)) s in
  let s := mem (wr8 (BUF.len + 1) (Z.land (uip_len s) 0xff)) s in
  let s := mem (wr8 (BUF.urgp + 1) 0) s in
  let s := mem (wr8 BUF.urgp 0) s in
  ip_send_nolen s.

Definition tcp_send (i : nat) s : uip_state E :=
  let connr := conn_at i s in
  let s := mem (wr4 BUF.ackno (rcv_nxt connr)) s in
  let s := mem (wr4 BUF.seqno (snd_nxt connr)) s in
  let s := mem (wr8 BUF.proto UIP_PROTO_TCP) s in
  let s := mem (wr16 BUF.srcport (lport connr)) s in
  let s := mem (wr16 BUF.destport (rport connr)) s in
  let s := mem (wr4 BUF.srcipaddr (uip_hostaddr s)) s in
  let s := mem (wr4 BUF.destipaddr (ripaddr connr)) s in
  let s :=
    if tst (tcpstateflags connr) UIP_STOPPED then
      let s := mem (wr8 (BUF.wnd + 1) 0) s in
      mem (wr8 BUF.wnd 0) s
    else
      let s := mem (wr8 BUF.wnd (Z.shiftr UIP_RECEIVE_WINDOW 8)) s in
      mem (wr8 (BUF.wnd + 1) (Z.land UIP_RECEIVE_WINDOW 0xff)) s in
  tcp_send_noconn s.

Definition tcp_send_noopts (i : nat) s : uip_state E :=
  tcp_send i (mem (wr8 BUF.tcpoffset (Z.shiftl (UIP_TCPH_LEN / 4) 4)) s).

Definition tcp_send_nodata (i : nat) s : uip_state E :=
  tcp_send_noopts i (s <| uip_len := UIP_IPTCPH_LEN |>).

Definition tcp_send_ack (i : nat) s : uip_state E :=
  tcp_send_nodata i (mem (wr8 BUF.flags TCP_ACK) s).

Definition tcp_send_finack (i : nat) s : uip_state E :=
  tcp_send_nodata i (mem (wr8 BUF.flags (Z.lor TCP_FIN TCP_ACK)) s).

Definition tcp_send_syn (i : nat) s : uip_state E :=
  let s := mem (fun b => wr8 BUF.flags (Z.lor (rd8 b BUF.flags) TCP_SYN) b) s in
  let s := mem (wr8 BUF.optdata TCP_OPT_MSS) s in
  let s := mem (wr8 (BUF.optdata + 1) TCP_OPT_MSS_LEN) s in
  let s := mem (wr8 (BUF.optdata + 2) (UIP_TCP_MSS / 256)) s in
  let s := mem (wr8 (BUF.optdata + 3) (Z.land UIP_TCP_MSS 255)) s in
  let s := s <| uip_len := UIP_IPTCPH_LEN + TCP_OPT_MSS_LEN |> in
  let s := mem (wr8 BUF.tcpoffset (Z.shiftl ((UIP_TCPH_LEN + TCP_OPT_MSS_LEN) / 4) 4)) s in
  tcp_send i s.

Definition tcp_send_synack (i : nat) s : uip_state E :=
  tcp_send_syn i (mem (wr8 BUF.flags TCP_ACK) s).

(** ** After the application has been called *)

Definition apprexmit (i : nat) s : uip_state E :=
  let s := s <| uip_appdata := uip_sappdata s |> in
  if (0 <? uip_slen s) && (0 <? len (conn_at i s)) then
    let s := s <| uip_len := w16 (len (conn_at i s) + UIP_TCPIP_HLEN) |> in
    let s := mem (wr8 BUF.flags (Z.lor TCP_ACK TCP_PSH)) s in
    tcp_send_noopts i s
  else if tst (uip_flags s) UIP_NEWDATA then
    let s := s <| uip_len := UIP_TCPIP_HLEN |> in
    let s := mem (wr8 BUF.flags TCP_ACK) s in
    tcp_send_noopts i s
  else drop s.

(** "If uip_slen > 0, the application has data to be sent": what is sent, and
    how much of it, is fixed by the connection while data is in transit. *)
Definition app_data (i : nat) s : uip_state E :=
  let s := upd_conn i (fun c => c <| nrtx := 0 |>) s in
  if 0 <? uip_slen s then
    let s := if tst (uip_flags s) UIP_ACKDATA
             then upd_conn i (fun c => c <| len := 0 |>) s else s in
    if len (conn_at i s) =? 0 then
      let s := if mss (conn_at i s) <? uip_slen s
               then s <| uip_slen := mss (conn_at i s) |> else s in
      upd_conn i (fun c => c <| len := uip_slen s |>) s
    else s <| uip_slen := len (conn_at i s) |>
  else s.

Definition appsend (i : nat) s : uip_state E :=
  if tst (uip_flags s) UIP_ABORT then
    let s := s <| uip_slen := 0 |> in
    let s := upd_conn i (fun c => c <| tcpstateflags := UIP_CLOSED |>) s in
    let s := mem (wr8 BUF.flags (Z.lor TCP_RST TCP_ACK)) s in
    tcp_send_nodata i s
  else if tst (uip_flags s) UIP_CLOSE then
    let s := s <| uip_slen := 0 |> in
    let s := upd_conn i (fun c =>
      c <| len := 1 |> <| tcpstateflags := UIP_FIN_WAIT_1 |> <| nrtx := 0 |>) s in
    let s := mem (wr8 BUF.flags (Z.lor TCP_FIN TCP_ACK)) s in
    tcp_send_nodata i s
  else apprexmit i (app_data i s).

(** ** TCP input *)

(** [reset]: answer with a RST.  Sequence and acknowledgement number are
    exchanged and the latter incremented. *)
Definition reset s : uip_state E :=
  if tst (rd8 (uip_buf s) BUF.flags) TCP_RST then drop s
  else
    let s := mem (wr8 BUF.flags (Z.lor TCP_RST TCP_ACK)) s in
    let s := s <| uip_len := UIP_IPTCPH_LEN |> in
    let s := mem (wr8 BUF.tcpoffset (Z.shiftl 5 4)) s in
    let s := mem (xtcp_swap_words BUF.seqno BUF.ackno) s in
    let s := xtcp_increment_word (PTR_buf BUF.ackno) s in
    let tmp16 := rd16 (uip_buf s) BUF.srcport in
    let s := mem (fun b => wr16 BUF.srcport (rd16 b BUF.destport) b) s in
    let s := mem (wr16 BUF.destport tmp16) s in
    let s := mem (fun b => wr4 BUF.destipaddr (rd4 b BUF.srcipaddr) b) s in
    let s := mem (wr4 BUF.srcipaddr (uip_hostaddr s)) s in
    tcp_send_noconn s.

(** "Check if the incoming segment acknowledges any outstanding data."  Only
    an acknowledgement of all of it counts. *)
Definition process_ack (i : nat) s : uip_state E :=
  let connr := conn_at i s in
  if tst (rd8 (uip_buf s) BUF.flags) TCP_ACK && negb (len connr =? 0) then
    let uip_acc32 := uip_add32 (snd_nxt connr) (len connr) in
    if xtcp_compare_words (rd4 (uip_buf s) BUF.ackno) uip_acc32 then
      let s := upd_conn i (fun c => c <| snd_nxt := uip_acc32 |>) s in
      let s := if nrtx (conn_at i s) =? 0 then upd_conn i rtt_estimate s else s in
      let s := s <| uip_flags := UIP_ACKDATA |> in
      upd_conn i (fun c => c <| timer := rto c |> <| len := 0 |>) s
    else s
  else s.

Definition process_push s : uip_state E :=
  if tst (rd8 (uip_buf s) BUF.flags) TCP_PSH
  then s <| uip_flags ::= Z.lor UIP_TCP_PUSH |> else s.

(** The cases of the [switch] on the state of the connection. *)
Definition in_SYN_RCVD (i : nat) s : uip_state E :=
  if tst (uip_flags s) UIP_ACKDATA then
    let s := upd_conn i (fun c => c <| tcpstateflags := UIP_ESTABLISHED |>) s in
    let s := s <| uip_flags := UIP_CONNECTED |> in
    let s := upd_conn i (fun c => c <| len := 0 |>) s in
    let s :=
      if 0 <? uip_len s then
        let s := s <| uip_flags ::= Z.lor UIP_NEWDATA |> in
        uip_add_rcv_nxt (uip_len s) s
      else s in
    let s := s <| uip_slen := 0 |> in
    appsend i (UIP_APPCALL s)
  else drop s.

Definition in_SYN_SENT (i : nat) s : option (uip_state E) :=
  if tst (uip_flags s) UIP_ACKDATA
     && (Z.land (rd8 (uip_buf s) BUF.flags) TCP_CTL =? Z.lor TCP_SYN TCP_ACK) then
    match parse_mss i s with
    | None => None
    | Some s =>
        let s := upd_conn i (fun c => c <| tcpstateflags := UIP_ESTABLISHED |>) s in
        let s := upd_conn i (fun c => c <| rcv_nxt := rd4 (uip_buf s) BUF.seqno |>) s in
        let s := uip_add_rcv_nxt 1 s in
        let s := s <| uip_flags := Z.lor UIP_CONNECTED UIP_NEWDATA |> in
        let s := upd_conn i (fun c => c <| len := 0 |>) s in
        let s := s <| uip_len := 0 |> in
        let s := s <| uip_slen := 0 |> in
        Some (appsend i (UIP_APPCALL s))
    end
  else
    let s := UIP_APPCALL (s <| uip_flags := UIP_ABORT |>) in
    let s := match uip_conn s with
             | Some j => upd_conn j (fun c => c <| tcpstateflags := UIP_CLOSED |>) s
             | None => s
             end in
    Some (reset s).

(** The urgent pointer, the new data and the window of a segment. *)
Definition take_data (i : nat) s : uip_state E :=
  let b := uip_buf s in
  let s :=
    if tst (rd8 b BUF.flags) TCP_URG then
      let urg := Z.lor (Z.shiftl (rd8 b BUF.urgp) 8) (rd8 b (BUF.urgp + 1)) in
      s <| uip_appdata ::= Z.add urg |> <| uip_len ::= fun l => w16 (l - urg) |>
    else s in
  let s :=
    if (0 <? uip_len s) && negb (tst (tcpstateflags (conn_at i s)) UIP_STOPPED) then
      let s := s <| uip_flags ::= Z.lor UIP_NEWDATA |> in
      uip_add_rcv_nxt (uip_len s) s
    else s in
  let tmp16 := w16 (Z.shiftl (rd8 b BUF.wnd) 8 + rd8 b (BUF.wnd + 1)) in
  upd_conn i (fun c =>
    c <| mss := if (initialmss c <? tmp16) || (tmp16 =? 0) then initialmss c else tmp16 |>) s.

Definition in_ESTABLISHED (i : nat) s : uip_state E :=
  if tst (rd8 (uip_buf s) BUF.flags) TCP_FIN
     && negb (tst (tcpstateflags (conn_at i s)) UIP_STOPPED) then
    if negb (len (conn_at i s) =? 0) then drop s
    else
      let s := uip_add_rcv_nxt (1 + uip_len s) s in
      let s := s <| uip_flags ::= Z.lor UIP_CLOSE |> in
      let s := if 0 <? uip_len s then s <| uip_flags ::= Z.lor UIP_NEWDATA |> else s in
      let s := UIP_APPCALL s in
      let s := upd_conn i (fun c =>
        c <| len := 1 |> <| tcpstateflags := UIP_LAST_ACK |> <| nrtx := 0 |>) s in
      tcp_send_finack i s
  else
    let s := take_data i s in
    if tst (uip_flags s) (Z.lor UIP_NEWDATA UIP_ACKDATA) then
      let s := s <| uip_slen := 0 |> in
      appsend i (UIP_APPCALL s)
    else drop s.

Definition in_LAST_ACK (i : nat) s : uip_state E :=
  if tst (uip_flags s) UIP_ACKDATA then
    let s := upd_conn i (fun c => c <| tcpstateflags := UIP_CLOSED |>) s in
    let s := s <| uip_flags := UIP_CLOSE |> in
    drop (UIP_APPCALL s)
  else drop s.

Definition in_FIN_WAIT_1 (i : nat) s : uip_state E :=
  let s := if 0 <? uip_len s then uip_add_rcv_nxt (uip_len s) s else s in
  if tst (rd8 (uip_buf s) BUF.flags) TCP_FIN then
    let s :=
      if tst (uip_flags s) UIP_ACKDATA then
        upd_conn i (fun c =>
          c <| tcpstateflags := UIP_TIME_WAIT |> <| timer := 0 |> <| len := 0 |>) s
      else upd_conn i (fun c => c <| tcpstateflags := UIP_CLOSING |>) s in
    let s := uip_add_rcv_nxt 1 s in
    let s := s <| uip_flags := UIP_CLOSE |> in
    tcp_send_ack i (UIP_APPCALL s)
  else if tst (uip_flags s) UIP_ACKDATA then
    drop (upd_conn i (fun c => c <| tcpstateflags := UIP_FIN_WAIT_2 |> <| len := 0 |>) s)
  else if 0 <? uip_len s then tcp_send_ack i s
  else drop s.

Definition in_FIN_WAIT_2 (i : nat) s : uip_state E :=
  let s := if 0 <? uip_len s then uip_add_rcv_nxt (uip_len s) s else s in
  if tst (rd8 (uip_buf s) BUF.flags) TCP_FIN then
    let s := upd_conn i (fun c => c <| tcpstateflags := UIP_TIME_WAIT |> <| timer := 0 |>) s in
    let s := uip_add_rcv_nxt 1 s in
    let s := s <| uip_flags := UIP_CLOSE |> in
    tcp_send_ack i (UIP_APPCALL s)
  else if 0 <? uip_len s then tcp_send_ack i s
  else drop s.

Definition in_CLOSING (i : nat) s : uip_state E :=
  if tst (uip_flags s) UIP_ACKDATA
  then drop (upd_conn i (fun c => c <| tcpstateflags := UIP_TIME_WAIT |> <| timer := 0 |>) s)
  else drop s.

Definition tcp_switch (i : nat) s : option (uip_state E) :=
  let st := Z.land (tcpstateflags (conn_at i s)) UIP_TS_MASK in
  if st =? UIP_SYN_RCVD then Some (in_SYN_RCVD i s)
  else if st =? UIP_SYN_SENT then in_SYN_SENT i s
  else if st =? UIP_ESTABLISHED then Some (in_ESTABLISHED i s)
  else if st =? UIP_LAST_ACK then Some (in_LAST_ACK i s)
  else if st =? UIP_FIN_WAIT_1 then Some (in_FIN_WAIT_1 i s)
  else if st =? UIP_FIN_WAIT_2 then Some (in_FIN_WAIT_2 i s)
  else if st =? UIP_TIME_WAIT then Some (tcp_send_ack i s)
  else if st =? UIP_CLOSING then Some (in_CLOSING i s)
  else Some (drop s).

(** The test "if the sequence number of the incoming packet is what we're
    expecting next. If not, we send out an ACK". *)
Definition bad_seqno (i : nat) s : bool :=
  let b := uip_buf s in
  let connr := conn_at i s in
  negb ((Z.land (tcpstateflags connr) UIP_TS_MASK =? UIP_SYN_SENT)
        && (Z.land (rd8 b BUF.flags) TCP_CTL =? Z.lor TCP_SYN TCP_ACK))
  && ((0 <? uip_len s) || negb (Z.land (rd8 b BUF.flags) (Z.lor TCP_SYN TCP_FIN) =? 0))
  && negb (xtcp_compare_words (rd4 b BUF.seqno) (rcv_nxt connr)).

Definition found (i : nat) s : option (uip_state E) :=
  let s := s <| uip_conn := Some i |> in
  let s := s <| uip_flags := 0 |> in
  if tst (rd8 (uip_buf s) BUF.flags) TCP_RST then
    let s := upd_conn i (fun c => c <| tcpstateflags := UIP_CLOSED |>) s in
    let s := s <| uip_flags := UIP_ABORT |> in
    Some (drop (UIP_APPCALL s))
  else
    let c := w8 (Z.shiftl (Z.shiftr (rd8 (uip_buf s) BUF.tcpoffset) 4) 2) in
    let s := s <| uip_len ::= fun l => w16 (l - c - UIP_IPH_LEN) |> in
    if bad_seqno i s then Some (tcp_send_ack i s)
    else
      let s := process_ack i s in
      let s := process_push s in
      tcp_switch i s.

(** "Fill in the necessary fields for the new connection." *)
Definition listen_block (i : nat) s : uip_state E :=
  let s := s <| uip_conn := Some i |> in
  let b := uip_buf s in
  let s := upd_conn i (fun c =>
    c <| timer := UIP_RTO |> <| rto := UIP_RTO |>
      <| sa := 0 |> <| sv := 4 |> <| nrtx := 0 |>
      <| lport := rd16 b BUF.destport |>
      <| rport := rd16 b BUF.srcport |>
      <| ripaddr := rd4 b BUF.srcipaddr |>
      <| tcpstateflags := UIP_SYN_RCVD |>
      <| snd_nxt := iss s |>
      <| len := 1 |>
      <| rcv_nxt := rd4 b BUF.seqno |>) s in
  uip_add_rcv_nxt 1 s.

Definition found_listen s : option (uip_state E) :=
  match find_free_conn (uip_conns s) 0 None with
  | None => Some (drop s)
  | Some i =>
      match parse_mss i (listen_block i s) with
      | None => None
      | Some s => Some (tcp_send_synack i s)
      end
  end.

(** The connection a segment belongs to. *)
Definition tcp_match (b : list Z) (c : uip_conn_t) : bool :=
  negb (tcpstateflags c =? UIP_CLOSED)
  && (rd16 b BUF.destport =? lport c)
  && (rd16 b BUF.srcport =? rport c)
  && uip_ipaddr_cmp (rd4 b BUF.srcipaddr) (ripaddr c).

Definition tcp_input s : option (uip_state E) :=
  let b := uip_buf s in
  if negb (uip_tcpchksum b =? 0xffff) then Some (drop s)
  else
    match find_index (tcp_match b) (uip_conns s) with
    | Some i => found i s
    | None =>
        if negb (Z.land (rd8 b BUF.flags) TCP_CTL =? TCP_SYN) then Some (reset s)
        else
          match find_index (Z.eqb (rd16 b BUF.destport)) (uip_listenports s) with
          | Some _ => found_listen s
          | None => Some (reset s)
          end
    end.

(** ** UDP *)

(** [*uip_udp_conn].  One past the table, or through [NULL], C reads
    unspecified storage; the model reads a zero block. *)
Definition cur_udp_conn s : uip_udp_conn_t :=
  match uip_udp_conn s with Some i => udp_conn_at i s | None => zero_udp_conn end.

Definition udp_send s : uip_state E :=
  if uip_slen s =? 0 then drop s
  else
    let s := s <| uip_len := w16 (uip_slen s + UIP_IPUDPH_LEN) |> in
    let s := mem (wr8 BUF.len (Z.shiftr (uip_len s) 8)) s in
    let s := mem (wr8 (BUF.len + 1) (Z.land (uip_len s) 0xff)) s in
    let conn := cur_udp_conn s in
    let s := mem (wr8 BUF.ttl (udp_ttl conn)) s in
    let s := mem (wr8 BUF.proto UIP_PROTO_UDP) s in
    let s := mem (wr16 UDPBUF.udplen (HTONS (uip_slen s + UIP_UDPH_LEN))) s in
    let s := mem (wr16 UDPBUF.udpchksum 0) s in
    let s := mem (wr16 BUF.srcport (udp_lport conn)) s in
    let s := mem (wr16 BUF.destport (udp_rport conn)) s in
    let s := mem (wr4 BUF.srcipaddr (uip_hostaddr s)) s in
    let s := mem (wr4 BUF.destipaddr (udp_ripaddr conn)) s in
    let s := s <| uip_appdata := UIP_LLH_LEN + UIP_IPTCPH_LEN |> in
    let s := mem (fun b => wr16 UDPBUF.udpchksum (w16 (Z.lnot (uip_udpchksum b))) b) s in
    let s := if rd16 (uip_buf s) UDPBUF.udpchksum =? 0
             then mem (wr16 UDPBUF.udpchksum 0xffff) s else s in
    ip_send_nolen s.

Definition udp_payload : Z := UIP_LLH_LEN + UIP_IPUDPH_LEN.

Definition udp_found_listener s : uip_state E :=
  let s := s <| uip_conn := None |> in
  let s := s <| uip_sappdata := udp_payload |> <| uip_appdata := udp_payload |> in
  let s := s <| uip_slen := 0 |> in
  udp_send (UIP_APPCALL s).

Definition udp_found s : uip_state E := udp_found_listener (s <| uip_flags := UIP_NEWDATA |>).

(** The connection a datagram belongs to.  0x4400 is port 68, the DHCP
    client, in network byte order. *)
Definition udp_match (b : list Z) (c : uip_udp_conn_t) : bool :=
  negb (udp_lport c =? 0)
  && (rd16 b BUF.destport =? udp_lport c)
  && (rd16 b BUF.srcport =? udp_rport c)
  && (uip_ipaddr_cmp (rd4 b BUF.srcipaddr) (udp_ripaddr c)
      || (rd16 b BUF.destport =? 0x4400)
      || uip_ipaddr_is_multicast (udp_ripaddr c)).

Definition udp_input s : uip_state E :=
  let s := s <| uip_len ::= fun l => w16 (l - UIP_IPUDPH_LEN) |> in
  let s := s <| uip_appdata := udp_payload |> in
  let b := uip_buf s in
  if negb (rd16 b UDPBUF.udpchksum =? 0) && negb (uip_udpchksum b =? 0xffff) then drop s
  else
    match find_index (udp_match b) (uip_udp_conns s) with
    | Some i => udp_found (s <| uip_udp_conn := Some i |>)
    | None =>
        let s := s <| uip_udp_conn := Some UIP_UDP_CONNS |> in
        let tmp16 := rd16 b BUF.destport in
        match find_index (Z.eqb tmp16) (uip_udp_listenports s) with
        | None => drop s
        | Some _ =>
            match find_index (fun c => udp_lport c =? 0) (uip_udp_conns s) with
            | None => drop (s <| uip_udp_conn := None |>)
            | Some i =>
                let s := s <| uip_udp_conn := Some i |> in
                let s := upd_udp_conn i (fun c =>
                  c <| udp_lport := tmp16 |>
                    <| udp_rport := rd16 b BUF.srcport |>
                    <| udp_ttl := UIP_TTL |>
                    <| udpflags := 0 |>
                    <| udp_ripaddr := rd4 b BUF.srcipaddr |>) s in
                let s := s <| uip_flags := Z.lor UIP_CONNECTED UIP_NEWDATA |> in
                udp_found_listener s
            end
        end
    end.

(** [UIP_UDP_TIMER], [UIP_UDP_ACKDATA] and [UIP_UDP_ARP_EVENT]. *)
Definition upd_cur_udp_conn (f : uip_udp_conn_t -> uip_udp_conn_t) s : uip_state E :=
  match uip_udp_conn s with Some i => upd_udp_conn i f s | None => s end.

Definition udp_event (flag : Z) s : uip_state E :=
  if negb (udp_lport (cur_udp_conn s) =? 0) then
    let s := s <| uip_conn := None |> in
    let s := s <| uip_sappdata := udp_payload |> <| uip_appdata := udp_payload |> in
    let s := s <| uip_slen := 0 |> <| uip_len := 0 |> in
    let s :=
      if flag =? UIP_UDP_ACKDATA then
        upd_cur_udp_conn (fun c => c <| udpflags ::= fun x => Z.lxor x UDP_SENT |>)
          (s <| uip_flags := UIP_ACKDATA |>)
      else s <| uip_flags := UIP_POLL |> in
    udp_send (UIP_APPCALL s)
  else drop s.

Definition udp_arp_event s : uip_state E :=
  if negb (udp_lport (cur_udp_conn s) =? 0)
     && tst (udpflags (cur_udp_conn s)) UDP_PENDING_ARP then
    let s := s <| uip_conn := None |> in
    let s := s <| uip_sappdata := udp_payload |> <| uip_appdata := udp_payload |> in
    let s := s <| uip_slen := 0 |> <| uip_len := 0 |> in
    let s := s <| uip_flags := UIP_REXMIT |> in
    let s := upd_cur_udp_conn (fun c => c <| udpflags ::= fun x => Z.lxor x UDP_PENDING_ARP |>) s in
    udp_send (UIP_APPCALL s)
  else drop s.

(** ** ICMP and IP *)

Definition icmp_input s : uip_state E :=
  let b := uip_buf s in
  if negb (rd8 b ICMPBUF.type =? ICMP_ECHO) then drop s
  else
    let s := mem (wr8 ICMPBUF.type ICMP_ECHO_REPLY) s in
    let chk := rd16 b ICMPBUF.icmpchksum in
    let s :=
      if HTONS (0xffff - Z.shiftl ICMP_ECHO 8) <=? chk
      then mem (wr16 ICMPBUF.icmpchksum (w16 (chk + (HTONS (Z.shiftl ICMP_ECHO 8) + 1)))) s
      else mem (wr16 ICMPBUF.icmpchksum (w16 (chk + HTONS (Z.shiftl ICMP_ECHO 8)))) s in
    let s := mem (fun b => wr4 BUF.destipaddr (rd4 b BUF.srcipaddr) b) s in
    let s := mem (wr4 BUF.srcipaddr (uip_hostaddr s)) s in
    send s.

(** From the header checksum on. *)
Definition ip_accept s : option (uip_state E) :=
  let b := uip_buf s in
  if negb (uip_ipchksum b =? 0xffff) then Some (drop s)
  else
    let proto := rd8 b BUF.proto in
    if proto =? UIP_PROTO_TCP then tcp_input s
    else if proto =? UIP_PROTO_UDP then Some (udp_input s)
    else if UIP_IGMP && (proto =? UIP_PROTO_IGMP) then Some (igmp_in s)
    else if negb (proto =? UIP_PROTO_ICMP) then Some (drop s)
    else Some (icmp_input s).

Definition ip_length (b : list Z) : Z := Z.shiftl (rd8 b BUF.len) 8 + rd8 b (BUF.len + 1).

Definition ip_input s : option (uip_state E) :=
  let b := uip_buf s in
  if negb (rd8 b BUF.vhl =? 0x45) then Some (drop s)
  else if negb (ip_length b <=? uip_len s) then Some (drop s)
  else
    let s := s <| uip_len := ip_length b |> in
    if negb (Z.land (rd8 b BUF.ipoffset) 0x3f =? 0) || negb (rd8 b (BUF.ipoffset + 1) =? 0)
    then Some (drop s)
    else
      let dest := rd4 b BUF.destipaddr in
      if uip_ipaddr_cmp (uip_hostaddr s) all_zeroes_addr then ip_accept s
      else if (rd8 b BUF.proto =? UIP_PROTO_UDP)
              && (uip_ipaddr_cmp dest all_ones_addr || uip_ipaddr_is_multicast dest)
      then Some (udp_input s)
      else if negb (uip_ipaddr_cmp dest (uip_hostaddr s))
              && negb (UIP_IGMP && igmp_check_addr dest s)
      then Some (drop s)
      else ip_accept s.

(** ** The periodic timer *)

(** The retransmission itself, after the timer has been backed off. *)
Definition retransmit (i : nat) s : uip_state E :=
  let st := Z.land (tcpstateflags (conn_at i s)) UIP_TS_MASK in
  if st =? UIP_SYN_RCVD then tcp_send_synack i s
  else if st =? UIP_SYN_SENT then tcp_send_syn i (mem (wr8 BUF.flags 0) s)
  else if st =? UIP_ESTABLISHED then
    apprexmit i (UIP_APPCALL (s <| uip_flags := UIP_REXMIT |>))
  else if (st =? UIP_FIN_WAIT_1) || (st =? UIP_CLOSING) || (st =? UIP_LAST_ACK)
  then tcp_send_finack i s
  else drop s.

Definition gives_up (c : uip_conn_t) : bool :=
  (nrtx c =? UIP_MAXRTX)
  || (((tcpstateflags c =? UIP_SYN_SENT) || (tcpstateflags c =? UIP_SYN_RCVD))
      && (nrtx c =? UIP_MAXSYNRTX)).

Definition uip_timer_event (i : nat) s : uip_state E :=
  let s := xtcp_increment_word PTR_iss s in
  let s := s <| uip_len := 0 |> in
  let s := s <| uip_slen := 0 |> in
  let st := tcpstateflags (conn_at i s) in
  if (st =? UIP_TIME_WAIT) || (st =? UIP_FIN_WAIT_2) then
    let s := upd_conn i (fun c => c <| timer ::= fun t => w8 (t + 1) |>) s in
    drop (if timer (conn_at i s) =? UIP_TIME_WAIT_TIMEOUT
          then upd_conn i (fun c => c <| tcpstateflags := UIP_CLOSED |>) s else s)
  else if negb (st =? UIP_CLOSED) then
    if negb (len (conn_at i s) =? 0) then
      let t := timer (conn_at i s) in
      let s := upd_conn i (fun c => c <| timer := w8 (t - 1) |>) s in
      if t =? 0 then
        if gives_up (conn_at i s) then
          let s := upd_conn i (fun c => c <| tcpstateflags := UIP_CLOSED |>) s in
          let s := UIP_APPCALL (s <| uip_flags := UIP_TIMEDOUT |>) in
          tcp_send_nodata i (mem (wr8 BUF.flags (Z.lor TCP_RST TCP_ACK)) s)
        else
          let s := upd_conn i (fun c =>
            c <| timer := w8 (Z.shiftl UIP_RTO (if 4 <? nrtx c then 4 else nrtx c)) |>
              <| nrtx := w8 (nrtx c + 1) |>) s in
          retransmit i s
      else drop s
    else if Z.land st UIP_TS_MASK =? UIP_ESTABLISHED then
      appsend i (UIP_APPCALL (s <| uip_flags := UIP_POLL |>))
    else drop s
  else drop s.

Definition uip_poll_request (i : nat) s : uip_state E :=
  let c := conn_at i s in
  if (Z.land (tcpstateflags c) UIP_TS_MASK =? UIP_ESTABLISHED) && (len c =? 0) then
    let s := s <| uip_flags := UIP_POLL |> in
    let s := s <| uip_len := 0 |> in
    let s := s <| uip_slen := 0 |> in
    appsend i (UIP_APPCALL s)
  else drop s.

(** ** The whole function *)

(** [uip_connr = uip_conn] is only dereferenced for the timer and for a
    poll, where a [NULL] leaves the model's state alone. *)
Definition uip_process (flag : Z) s : option (uip_state E) :=
  if flag =? UIP_UDP_SEND_CONN then Some (udp_send s)
  else
    let uip_connr := uip_conn s in
    let s := s <| uip_sappdata := UIP_IPTCPH_LEN + UIP_LLH_LEN |>
               <| uip_appdata := UIP_IPTCPH_LEN + UIP_LLH_LEN |> in
    if flag =? UIP_POLL_REQUEST then
      match uip_connr with Some i => Some (uip_poll_request i s) | None => Some s end
    else if flag =? UIP_TIMER then
      match uip_connr with Some i => Some (uip_timer_event i s) | None => Some s end
    else if (flag =? UIP_UDP_TIMER) || (flag =? UIP_UDP_ACKDATA) then Some (udp_event flag s)
    else if flag =? UIP_UDP_ARP_EVENT then Some (udp_arp_event s)
    else ip_input s.

(** The macros of [uip.h] that enter it. *)
Definition uip_input s : option (uip_state E) := uip_process UIP_DATA s.
Definition uip_periodic (conn : nat) s : option (uip_state E) :=
  uip_process UIP_TIMER (s <| uip_conn := Some conn |>).
Definition uip_poll_conn (conn : nat) s : option (uip_state E) :=
  uip_process UIP_POLL_REQUEST (s <| uip_conn := Some conn |>).
Definition uip_udp_periodic (conn : nat) s : option (uip_state E) :=
  uip_process UIP_UDP_TIMER (s <| uip_udp_conn := Some conn |>).
End uip_process.
