(* ===== verification/UipSafety.v ===== *)
(** * Type safety of [uip_process]

    Whatever packet arrives and in whatever state the connections are, every
    variable stays within its width, no array changes size and every pointer
    stays inside its table, provided the application layer keeps it so.  One
    lemma per label, used by the labels that jump to it. *)
From S2P Require Export UipProcess.
Local Open Scope Z_scope.

(** What uIP relies on from the layers it calls. *)
Class UipEnvWf (E : Type) {H : UipEnv E} : Prop := {
  APPCALL_wf : forall s : uip_state E, uip_wf s -> uip_wf (UIP_APPCALL s);
  igmp_in_wf : forall s : uip_state E, uip_wf s -> uip_wf (igmp_in s) }.

Lemma bytes_swap a b m : bytes m -> bytes (xtcp_swap_words a b m).
Proof. intros. unfold xtcp_swap_words. auto with mem. Qed.
Lemma length_swap a b m : length (xtcp_swap_words a b m) = length m.
Proof. unfold xtcp_swap_words. by autorewrite with memlen. Qed.
#[export] Hint Resolve bytes_swap : mem.
#[export] Hint Rewrite length_swap : memlen.

Lemma rtt_estimate_wf c : conn_wf c -> conn_wf (rtt_estimate c).
Proof. unfold rtt_estimate. conn_field. Qed.

Lemma lor_u16 a b : u8 a -> u8 b -> u16 (Z.lor (Z.shiftl a 8) b).
Proof. unfold u8, u16. intros. rewrite lor_shiftl_add by (cbn; lia). autorewrite with bits. lia. Qed.

(** An MSS option yields a 16-bit value. *)
Lemma parse_options_u16 fuel b limit c v : bytes b ->
  parse_options fuel b limit c = Some (Some v) -> u16 (if UIP_TCP_MSS <? v then UIP_TCP_MSS else v).
Proof.
  intros Hb. revert c. induction fuel as [|fuel IH]; intros c; cbn [parse_options].
  - by case_match.
  - destruct (c <? limit); [|done].
    repeat match goal with |- context [if ?x then _ else _] =>
      lazymatch x with context [UIP_TCP_MSS] => fail | _ => destruct x; try done; try apply IH end
    end.
    intros [= <-]. case_match; [u16_const|]. apply lor_u16; by apply rd8_u8.
Qed.

Section labels.
Context {E : Type} `{UipEnvWf E}.
Implicit Types s : uip_state E.

Lemma add_rcv_nxt_wf n s : uip_wf s -> uip_wf (uip_add_rcv_nxt n s).
Proof.
  intros Hs. unfold uip_add_rcv_nxt. destruct (uip_conn s); [|done].
  apply wf_upd_conn; [done|]. intros []; constructor; ssimpl; auto.
  apply uip_add32_ok.
Qed.
Lemma increment_word_wf a s : uip_wf s -> uip_wf (xtcp_increment_word a s).
Proof.
  intros Hs. pose proof (wf_iss s Hs) as Hi. destruct a; unfold xtcp_increment_word; wf_auto.
  destruct Hi as (? & ? & ? & ?), Hs; constructor; ssimpl; auto.
  unfold u8x4_ok; cbn [q0 q1 q2 q3]. auto with word.
Qed.
Lemma drop_wf s : uip_wf s -> uip_wf (drop s).
Proof. intros. unfold drop. wf_auto. Qed.
Lemma send_wf s : uip_wf s -> uip_wf (send s).
Proof. intros. unfold send. wf_auto. Qed.
Lemma ip_send_nolen_wf s : uip_wf s -> uip_wf (ip_send_nolen s).
Proof. intros. unfold ip_send_nolen. apply send_wf. wf_auto. Qed.
Lemma tcp_send_noconn_wf s : uip_wf s -> uip_wf (tcp_send_noconn s).
Proof. intros. unfold tcp_send_noconn. apply ip_send_nolen_wf. wf_auto. Qed.
Lemma tcp_send_wf i s : uip_wf s -> uip_wf (tcp_send i s).
Proof. intros. unfold tcp_send. apply tcp_send_noconn_wf. case_match; wf_auto. Qed.
Lemma tcp_send_noopts_wf i s : uip_wf s -> uip_wf (tcp_send_noopts i s).
Proof. intros. apply tcp_send_wf. wf_auto. Qed.
Lemma tcp_send_nodata_wf i s : uip_wf s -> uip_wf (tcp_send_nodata i s).
Proof. intros. apply tcp_send_noopts_wf. wf_auto. Qed.
Lemma tcp_send_ack_wf i s : uip_wf s -> uip_wf (tcp_send_ack i s).
Proof. intros. apply tcp_send_nodata_wf. wf_auto. Qed.
Lemma tcp_send_finack_wf i s : uip_wf s -> uip_wf (tcp_send_finack i s).
Proof. intros. apply tcp_send_nodata_wf. wf_auto. Qed.
Lemma tcp_send_syn_wf i s : uip_wf s -> uip_wf (tcp_send_syn i s).
Proof. intros. apply tcp_send_wf. wf_auto. Qed.
Lemma tcp_send_synack_wf i s : uip_wf s -> uip_wf (tcp_send_synack i s).
Proof. intros. apply tcp_send_syn_wf. wf_auto. Qed.
End labels.

(** Chains of updates, then calls of labels, then branches. *)
Ltac safe_step :=
  lazymatch goal with
  | |- uip_wf (uip_add_rcv_nxt _ _) => apply add_rcv_nxt_wf
  | |- uip_wf (xtcp_increment_word _ _) => apply increment_word_wf
  | |- uip_wf (UIP_APPCALL _) => apply APPCALL_wf
  | |- uip_wf (igmp_in _) => apply igmp_in_wf
  | |- uip_wf (drop _) => apply drop_wf
  | |- uip_wf (send _) => apply send_wf
  | |- uip_wf (ip_send_nolen _) => apply ip_send_nolen_wf
  | |- uip_wf (tcp_send_noconn _) => apply tcp_send_noconn_wf
  | |- uip_wf (tcp_send_noopts _ _) => apply tcp_send_noopts_wf
  | |- uip_wf (tcp_send_nodata _ _) => apply tcp_send_nodata_wf
  | |- uip_wf (tcp_send_ack _ _) => apply tcp_send_ack_wf
  | |- uip_wf (tcp_send_finack _ _) => apply tcp_send_finack_wf
  | |- uip_wf (tcp_send_syn _ _) => apply tcp_send_syn_wf
  | |- uip_wf (tcp_send_synack _ _) => apply tcp_send_synack_wf
  | |- uip_wf (if _ then _ else _) => case_match
  | |- uip_wf (match _ with _ => _ end) => case_match
  | |- uip_wf (let _ := _ in _) => cbv zeta
  | _ => wf_step
  end.
Ltac safe := repeat safe_step.

Section handlers.
Context {E : Type} `{UipEnvWf E}.
Implicit Types s : uip_state E.

Lemma apprexmit_wf i s : uip_wf s -> uip_wf (apprexmit i s).
Proof. intros. unfold apprexmit. safe. Qed.

Lemma app_data_wf i s : uip_wf s -> uip_wf (app_data i s).
Proof.
  intros Hs. unfold app_data. cbv zeta.
  set (s1 := upd_conn i (fun c => c <| nrtx := 0 |>) s).
  assert (uip_wf s1) as Hw1 by (unfold s1; safe). clearbody s1.
  case_match; [|done].
  set (s2 := if tst _ _ then _ else s1).
  assert (uip_wf s2) as Hw2 by (unfold s2; safe). clearbody s2.
  case_match.
  - set (s3 := if mss _ <? _ then _ else s2).
    assert (uip_wf s3) as Hw3.
    { unfold s3. case_match; [|done]. apply wf_set_slen; [done|]. by apply cwf_mss, wf_conn_at. }
    clearbody s3. apply wf_upd_conn; [done|]. intros []; constructor; ssimpl; auto.
    by apply wf_slen.
  - apply wf_set_slen; [done|]. by apply cwf_len, wf_conn_at.
Qed.

Lemma appsend_wf i s : uip_wf s -> uip_wf (appsend i s).
Proof.
  intros Hs. unfold appsend. do 2 (case_match; [safe|]). by apply apprexmit_wf, app_data_wf.
Qed.

Lemma reset_wf s : uip_wf s -> uip_wf (reset s).
Proof.
  intros Hs. unfold reset. case_match; [safe|]. apply tcp_send_noconn_wf. do 4 wf_step.
  apply increment_word_wf. wf_auto.
Qed.

Lemma process_ack_wf i s : uip_wf s -> uip_wf (process_ack i s).
Proof.
  intros Hs. unfold process_ack. case_match; [|done]. case_match; [|done].
  apply wf_upd_conn; [|conn_field]. apply wf_set_flags.
  assert (uip_wf (upd_conn i (fun c => c <| snd_nxt :=
    uip_add32 (snd_nxt (conn_at i s)) (len (conn_at i s)) |>) s)) as Hw1.
  { apply wf_upd_conn; [done|]. intros []; constructor; ssimpl; auto. apply uip_add32_ok. }
  case_match; [|done]. apply wf_upd_conn; [done|]. apply rtt_estimate_wf.
Qed.

Lemma process_push_wf s : uip_wf s -> uip_wf (process_push s).
Proof. intros. unfold process_push. safe. Qed.

Lemma parse_mss_wf i s s' : uip_wf s -> parse_mss i s = Some s' -> uip_wf s'.
Proof.
  intros Hs. unfold parse_mss. case_match; [|by intros [= <-]].
  destruct (parse_options _ _ _ _) as [[v|]|] eqn:Eo; intros [= <-]; [|done].
  apply wf_upd_conn; [done|]. intros Hc.
  assert (u16 (if UIP_TCP_MSS <? v then UIP_TCP_MSS else v)) as Hm
    by exact (parse_options_u16 _ _ _ _ _ (wf_buf s Hs) Eo).
  destruct Hc; constructor; ssimpl; auto.
Qed.

Lemma in_SYN_SENT_wf i s s' : uip_wf s -> in_SYN_SENT i s = Some s' -> uip_wf s'.
Proof.
  intros Hs. unfold in_SYN_SENT. case_match.
  - destruct (parse_mss i s) as [s1|] eqn:Em; [|done]. intros [= <-].
    apply parse_mss_wf in Em; [|done]. apply appsend_wf. safe. apply wf_upd_conn; [safe|].
    intros []; constructor; ssimpl; auto. apply rd4_ok. by apply wf_buf in Em.
  - intros [= <-]. apply reset_wf. safe.
Qed.

Lemma take_data_wf i s : uip_wf s -> uip_wf (take_data i s).
Proof.
  intros Hs. unfold take_data. cbv zeta.
  match goal with |- uip_wf (upd_conn _ _ ?s2) =>
    assert (uip_wf s2) as Hw2 by safe; set (s3 := s2) in *; clearbody s3 end.
  apply wf_upd_conn; [done|]. intros []; constructor; ssimpl; auto. case_match; auto with word.
Qed.

Lemma in_ESTABLISHED_wf i s : uip_wf s -> uip_wf (in_ESTABLISHED i s).
Proof.
  intros Hs. unfold in_ESTABLISHED. case_match; [safe|].
  pose proof (take_data_wf i s Hs). case_match; [|safe]. apply appsend_wf. safe.
Qed.

Lemma tcp_switch_wf i s s' : uip_wf s -> tcp_switch i s = Some s' -> uip_wf s'.
Proof.
  intros Hs. unfold tcp_switch. cbv zeta.
  destruct (_ =? UIP_SYN_RCVD).
  { intros [= <-]. unfold in_SYN_RCVD. case_match; [|safe]. apply appsend_wf. safe. }
  destruct (_ =? UIP_SYN_SENT); [by apply in_SYN_SENT_wf|].
  destruct (_ =? UIP_ESTABLISHED); [intros [= <-]; by apply in_ESTABLISHED_wf|].
  destruct (_ =? UIP_LAST_ACK); [intros [= <-]; unfold in_LAST_ACK; safe|].
  destruct (_ =? UIP_FIN_WAIT_1).
  { intros [= <-]. unfold in_FIN_WAIT_1. cbv zeta.
    set (s1 := if _ : bool then _ else s). assert (uip_wf s1) by (unfold s1; safe). clearbody s1. safe. }
  destruct (_ =? UIP_FIN_WAIT_2).
  { intros [= <-]. unfold in_FIN_WAIT_2. cbv zeta.
    set (s1 := if _ : bool then _ else s). assert (uip_wf s1) by (unfold s1; safe). clearbody s1. safe. }
  destruct (_ =? UIP_TIME_WAIT); [intros [= <-]; safe|].
  destruct (_ =? UIP_CLOSING); intros [= <-]; unfold in_CLOSING; safe.
Qed.

Lemma found_wf i s s' : uip_wf s -> (i < UIP_CONNS)%nat -> found i s = Some s' -> uip_wf s'.
Proof.
  intros Hs Hi. unfold found. cbv zeta. case_match; [intros [= <-]; safe|].
  case_match; [intros [= <-]; safe|]. apply tcp_switch_wf.
  apply process_push_wf, process_ack_wf. safe.
Qed.

Lemma find_free_conn_lt s i : uip_wf s -> find_free_conn (uip_conns s) 0 None = Some i ->
  (i < UIP_CONNS)%nat.
Proof.
  intros Hs Hf.
  pose proof (find_free_conn_spec (uip_conns s) (uip_conns s) [] None eq_refl
    (Forall_nil_2 _) (Forall_nil_2 _)) as Hc. cbn [length] in Hc. rewrite Hf in Hc.
  destruct Hc as (c & Hc%lookup_lt_Some & _). by rewrite (wf_conns_len s Hs) in Hc.
Qed.

Lemma listen_block_wf s i : uip_wf s -> (i < UIP_CONNS)%nat -> uip_wf (listen_block i s).
Proof.
  intros Hs Hi. unfold listen_block. cbv zeta. apply add_rcv_nxt_wf, wf_upd_conn.
  - by apply wf_set_conn.
  - pose proof (wf_buf s Hs). pose proof (wf_iss s Hs). conn_field.
Qed.

Lemma found_listen_wf s s' : uip_wf s -> found_listen s = Some s' -> uip_wf s'.
Proof.
  intros Hs. unfold found_listen. destruct (find_free_conn _ _ _) as [i|] eqn:Ef; [|intros [= <-]; safe].
  cbv zeta. pose proof (listen_block_wf s i Hs (find_free_conn_lt s i Hs Ef)) as Hl.
  destruct (parse_mss i _) as [s2|] eqn:Em; [|done].
  intros [= <-]. apply parse_mss_wf in Em; [|done]. safe.
Qed.

Lemma find_conn_lt s p i : uip_wf s -> find_index p (uip_conns s) = Some i -> (i < UIP_CONNS)%nat.
Proof. intros Hs Hf%find_index_lt. by rewrite (wf_conns_len s Hs) in Hf. Qed.
Lemma find_udp_conn_lt s p i : uip_wf s -> find_index p (uip_udp_conns s) = Some i ->
  (i < UIP_UDP_CONNS)%nat.
Proof. intros Hs Hf%find_index_lt. by rewrite (wf_udp_conns_len s Hs) in Hf. Qed.

Lemma tcp_input_wf s s' : uip_wf s -> tcp_input s = Some s' -> uip_wf s'.
Proof.
  intros Hs. unfold tcp_input. cbv zeta. case_match; [intros [= <-]; safe|].
  destruct (find_index _ (uip_conns s)) as [i|] eqn:Ef.
  { apply found_wf; [done|]. by eapply find_conn_lt. }
  case_match; [intros [= <-]; by apply reset_wf|].
  case_match; [by apply found_listen_wf|]. intros [= <-]. by apply reset_wf.
Qed.

Lemma udp_send_wf s : uip_wf s -> uip_wf (udp_send s).
Proof.
  intros Hs. unfold udp_send. case_match; [safe|]. cbv zeta. apply ip_send_nolen_wf.
  case_match; safe.
Qed.

Lemma udp_found_listener_wf s : uip_wf s -> uip_wf (udp_found_listener s).
Proof. intros Hs. unfold udp_found_listener. apply udp_send_wf. safe. Qed.

Lemma set_udp_conn_wf s p i : uip_wf s -> find_index p (uip_udp_conns s) = Some i ->
  uip_wf (s <| uip_udp_conn := Some i |>).
Proof.
  intros Hs Hf. apply wf_set_udp_conn; [done|]. apply Nat.lt_le_incl. by eapply find_udp_conn_lt.
Qed.

Lemma udp_input_wf s : uip_wf s -> uip_wf (udp_input s).
Proof.
  intros Hs. unfold udp_input. cbv zeta.
  set (s1 := s <| uip_len ::= _ |> <| uip_appdata := _ |>).
  assert (uip_wf s1) as Hs1 by (unfold s1; safe). clearbody s1.
  case_match; [safe|].
  destruct (find_index _ (uip_udp_conns s1)) as [i|] eqn:Ef.
  { apply udp_found_listener_wf, wf_set_flags. by eapply set_udp_conn_wf. }
  assert (uip_wf (s1 <| uip_udp_conn := Some UIP_UDP_CONNS |>)) as Hs2
    by (by apply wf_set_udp_conn).
  case_match; [|safe].
  destruct (find_index (fun c => udp_lport c =? 0) _) as [i|] eqn:Eu; [|safe].
  apply udp_found_listener_wf, wf_set_flags, wf_upd_udp_conn; [by eapply set_udp_conn_wf|].
  pose proof (wf_buf s1 Hs1). conn_field.
Qed.

Lemma udp_flag_wf f s : (forall x, u8 x -> u8 (f x)) -> uip_wf s ->
  uip_wf (upd_cur_udp_conn (fun c => c <| udpflags ::= f |>) s).
Proof.
  intros Hf Hs. unfold upd_cur_udp_conn. case_match; [|done].
  apply wf_upd_udp_conn; [done|]. conn_field.
Qed.

Lemma udp_event_wf flag s : uip_wf s -> uip_wf (udp_event flag s).
Proof.
  intros Hs. unfold udp_event. case_match; [|safe]. cbv zeta. apply udp_send_wf, APPCALL_wf.
  case_match; [|safe]. apply udp_flag_wf; [|safe]. intros x. apply lxor_u8; const_range.
Qed.
Lemma udp_arp_event_wf s : uip_wf s -> uip_wf (udp_arp_event s).
Proof.
  intros Hs. unfold udp_arp_event. case_match; [|safe]. cbv zeta. apply udp_send_wf, APPCALL_wf.
  apply udp_flag_wf; [|safe]. intros x. apply lxor_u8; const_range.
Qed.

Lemma icmp_input_wf s : uip_wf s -> uip_wf (icmp_input s).
Proof. intros Hs. unfold icmp_input. case_match; [safe|]. cbv zeta. apply send_wf. safe. Qed.

Lemma ip_accept_wf s s' : uip_wf s -> ip_accept s = Some s' -> uip_wf s'.
Proof.
  intros Hs. unfold ip_accept. cbv zeta. case_match; [intros [= <-]; safe|].
  case_match; [by apply tcp_input_wf|].
  repeat case_match; intros [= <-]; safe; [by apply udp_input_wf|by apply icmp_input_wf].
Qed.

Lemma ip_length_u16 b : bytes b -> u16 (ip_length b).
Proof.
  intros Hb. unfold ip_length. pose proof (rd8_u8 _ BUF.len Hb).
  pose proof (rd8_u8 _ (BUF.len + 1) Hb). autorewrite with bits. unfold u8, u16 in *. lia.
Qed.
Lemma ip_input_wf s s' : uip_wf s -> ip_input s = Some s' -> uip_wf s'.
Proof.
  intros Hs. unfold ip_input. cbv zeta. case_match; [intros [= <-]; safe|].
  case_match; [intros [= <-]; safe|]. set (s1 := s <| uip_len := _ |>).
  assert (uip_wf s1) by (apply wf_set_len; [done|apply ip_length_u16, (wf_buf s Hs)]).
  clearbody s1.
  repeat (case_match; [try (by apply ip_accept_wf); intros [= <-]; safe; by apply udp_input_wf|]).
  by apply ip_accept_wf.
Qed.

Lemma timer_event_wf i s : uip_wf s -> uip_wf (uip_timer_event i s).
Proof.
  intros Hs. unfold uip_timer_event. cbv zeta. set (s1 := set_field uip_slen _ _).
  assert (uip_wf s1) by (unfold s1; safe). clearbody s1.
  case_match; [safe|]. case_match; [|safe]. case_match; [|case_match; [apply appsend_wf|]; safe].
  case_match; [|safe]. case_match; [safe|]. unfold retransmit. cbv zeta.
  repeat case_match; safe. apply apprexmit_wf. safe.
Qed.

Lemma poll_request_wf i s : uip_wf s -> uip_wf (uip_poll_request i s).
Proof. intros Hs. unfold uip_poll_request. case_match; [apply appsend_wf|]; safe. Qed.

(** The type invariant is preserved by [uip_process], for every event and
    every packet in [uip_buf]. *)
Theorem uip_process_wf flag s s' : uip_wf s -> uip_process flag s = Some s' -> uip_wf s'.
Proof.
  intros Hs. unfold uip_process. cbv zeta.
  destruct (flag =? UIP_UDP_SEND_CONN); [intros [= <-]; by apply udp_send_wf|].
  set (s1 := set_field uip_appdata _ _). assert (uip_wf s1) by (unfold s1; safe). clearbody s1.
  destruct (flag =? UIP_POLL_REQUEST).
  { destruct (uip_conn s) as [i|]; intros [= <-]; [by apply poll_request_wf|done]. }
  destruct (flag =? UIP_TIMER).
  { destruct (uip_conn s) as [i|]; intros [= <-]; [by apply timer_event_wf|done]. }
  destruct (_ || _); [intros [= <-]; by apply udp_event_wf|].
  destruct (flag =? UIP_UDP_ARP_EVENT); [intros [= <-]; by apply udp_arp_event_wf|].
  by apply ip_input_wf.
Qed.
End handlers.
