(* ===== verification/UipOutput.v ===== *)
(** * What [uip_process] leaves in [uip_buf]

    [uip_len] tells the caller whether there is a packet to transmit.  The
    theorems say what such a packet is: its IP header always passes the checks
    of [ip_input] at the receiver, a TCP segment carries the numbers of its
    connection, a UDP datagram passes the UDP checksum. *)
From S2P Require Export UipSafety.
Local Open Scope Z_scope.

(** ** The abstract view of a packet *)

(** A header the input side accepts, for a packet of [n] bytes. *)
Definition ip_header_ok (b : list Z) (n : Z) : Prop :=
  rd8 b BUF.vhl = 0x45 /\ ip_length b = n /\ Z.land (rd8 b BUF.ipoffset) 0x3f = 0 /\
  rd8 b (BUF.ipoffset + 1) = 0 /\ uip_ipchksum b = 0xffff.

(** The same without the checksum. *)
Definition ip_fields_ok (b : list Z) (n : Z) : Prop :=
  rd8 b BUF.vhl = 0x45 /\ ip_length b = n /\ Z.land (rd8 b BUF.ipoffset) 0x3f = 0 /\
  rd8 b (BUF.ipoffset + 1) = 0.
Lemma ip_header_fields b n : ip_header_ok b n <-> ip_fields_ok b n /\ uip_ipchksum b = 0xffff.
Proof. unfold ip_header_ok, ip_fields_ok. tauto. Qed.

(** The fields of a TCP segment. *)
Record tcp_segment : Type := Segment {
  seg_src : u8x4; seg_dst : u8x4;
  seg_sport : Z; seg_dport : Z;
  seg_seq : u8x4; seg_ack : u8x4;
  seg_off : Z; seg_flags : Z; seg_wnd : Z }.

Definition segment (b : list Z) : tcp_segment :=
  Segment (rd4 b BUF.srcipaddr) (rd4 b BUF.destipaddr) (rd16 b BUF.srcport) (rd16 b BUF.destport)
    (rd4 b BUF.seqno) (rd4 b BUF.ackno) (rd8 b BUF.tcpoffset) (rd8 b BUF.flags)
    (256 * rd8 b BUF.wnd + rd8 b (BUF.wnd + 1)).

(** The segment a connection block describes. *)
Definition conn_segment (host : u8x4) (c : uip_conn_t) (off flags : Z) : tcp_segment :=
  Segment host (ripaddr c) (lport c) (rport c) (snd_nxt c) (rcv_nxt c) off flags
    (if tst (tcpstateflags c) UIP_STOPPED then 0 else UIP_RECEIVE_WINDOW).

(** ** Frame lemmas: the bytes each label leaves alone *)

Section output.
Context {E : Type} `{UipEnvWf E}.
Implicit Types s : uip_state E.

Lemma buf_len s : uip_wf s -> 64 <= Z.of_nat (length (uip_buf s)).
Proof. intros Hs. rewrite (wf_buf_len s Hs). vm_compute. discriminate. Qed.

(** Bytes 14, 15, 18-21, 24 and 25 belong to the IP header fields filled last. *)
Lemma nolen_frame s k : 0 <= k -> k < 14 \/ 16 <= k < 18 \/ 22 <= k < 24 \/ 26 <= k ->
  rd8 (uip_buf (ip_send_nolen s)) k = rd8 (uip_buf s) k.
Proof.
  intros. unfold ip_send_nolen, send. ssimpl.
  unfold BUF.vhl, BUF.tos, BUF.ipoffset, BUF.ipid, BUF.ipchksum.
  by rewrite !rd8_wr16_ne, !rd8_wr8_ne by lia.
Qed.

Lemma nolen_header s : uip_wf s -> ip_length (uip_buf s) = uip_len s ->
  ip_header_ok (uip_buf (ip_send_nolen s)) (uip_len (ip_send_nolen s)).
Proof.
  intros Hs Hl. pose proof (buf_len s Hs). pose proof (wf_buf s Hs).
  assert (uip_ipchksum (uip_buf (ip_send_nolen s)) = 0xffff) as Hc.
  { unfold ip_send_nolen, send. ssimpl. apply ipchksum_filled; [auto 10 with mem|].
    autorewrite with memlen. lia. }
  assert (ip_length (uip_buf (ip_send_nolen s)) = uip_len s) as Hlen.
  { unfold ip_length, BUF.len. by rewrite !nolen_frame by lia. }
  unfold ip_header_ok. rewrite Hc, Hlen.
  unfold ip_send_nolen, send. ssimpl.
  unfold BUF.vhl, BUF.tos, BUF.ipoffset, BUF.ipid, BUF.ipchksum.
  repeat (first [rewrite rd8_wr16_ne by lia | mem_step]). done.
Qed.

(** The fields other than the buffer, the flags and the packet counter. *)
Lemma nolen_rest s :
  ip_send_nolen s = s <| uip_buf := uip_buf (ip_send_nolen s) |> <| uip_flags := 0 |>
                      <| ipid := w16 (ipid s + 1) |>.
Proof. by destruct s. Qed.

Lemma hi_lo n : u16 n -> Z.shiftl (w8 (Z.shiftr n 8)) 8 + w8 (Z.land n 0xff) = n.
Proof.
  intros Hn. autorewrite with bits. unfold w8, u16 in *. zdm.
Qed.

Lemma noconn_frame s k : 0 <= k -> k < 14 \/ k = 23 \/ 26 <= k < 52 \/ 54 <= k ->
  rd8 (uip_buf (tcp_send_noconn s)) k = rd8 (uip_buf s) k.
Proof.
  intros. unfold tcp_send_noconn. rewrite nolen_frame by lia. ssimpl.
  unfold BUF.ttl, BUF.len, BUF.urgp. by rewrite !rd8_wr8_ne by lia.
Qed.

Lemma noconn_header s : uip_wf s ->
  ip_header_ok (uip_buf (tcp_send_noconn s)) (uip_len (tcp_send_noconn s)).
Proof.
  intros Hs. pose proof (buf_len s Hs). unfold tcp_send_noconn. apply nolen_header; [wf_auto|].
  unfold ip_length. ssimpl. unfold BUF.ttl, BUF.len, BUF.urgp. repeat mem_step.
  apply hi_lo, (wf_len s Hs).
Qed.

Lemma noconn_rest s :
  tcp_send_noconn s = s <| uip_buf := uip_buf (tcp_send_noconn s) |> <| uip_flags := 0 |>
                        <| ipid := w16 (ipid s + 1) |>.
Proof. by destruct s. Qed.

(** ** TCP segments *)

Lemma noconn_segment s : segment (uip_buf (tcp_send_noconn s)) = segment (uip_buf s).
Proof.
  unfold segment, BUF.srcipaddr, BUF.destipaddr, BUF.srcport, BUF.destport, BUF.seqno, BUF.ackno,
    BUF.tcpoffset, BUF.flags, BUF.wnd, rd4, rd16.
  by rewrite !noconn_frame by lia.
Qed.

Lemma window_bytes : 256 * w8 (Z.shiftr UIP_RECEIVE_WINDOW 8) + w8 (Z.land UIP_RECEIVE_WINDOW 0xff)
  = UIP_RECEIVE_WINDOW.
Proof. reflexivity. Qed.

Lemma tcp_send_fields i s : uip_wf s -> let b := uip_buf (tcp_send i s) in
  segment b = conn_segment (uip_hostaddr s) (conn_at i s) (rd8 (uip_buf s) BUF.tcpoffset)
                (rd8 (uip_buf s) BUF.flags) /\
  rd8 b BUF.proto = UIP_PROTO_TCP /\ ip_header_ok b (uip_len s).
Proof.
  intros Hs. pose proof (buf_len s Hs). pose proof (wf_hostaddr s Hs).
  destruct (wf_conn_at s i Hs). unfold tcp_send. cbv zeta.
  set (s1 := if tst _ _ then _ else _).
  assert (uip_wf s1) as Hs1 by (unfold s1; case_match; wf_auto).
  assert (uip_len s1 = uip_len s) as <- by (unfold s1; by case_match).
  split; [|split; [|by apply noconn_header]].
  - rewrite noconn_segment. unfold segment, conn_segment, s1.
    unfold BUF.srcipaddr, BUF.destipaddr, BUF.srcport, BUF.destport, BUF.seqno, BUF.ackno,
      BUF.tcpoffset, BUF.flags, BUF.wnd, BUF.proto.
    destruct (tst _ UIP_STOPPED); ssimpl; fld; rewrite ?window_bytes, !w16_small by done; done.
  - unfold BUF.proto. rewrite noconn_frame by lia. unfold s1.
    unfold BUF.srcipaddr, BUF.destipaddr, BUF.srcport, BUF.destport, BUF.seqno, BUF.ackno,
      BUF.wnd, BUF.proto.
    destruct (tst _ UIP_STOPPED); ssimpl; fld; done.
Qed.

(** Nothing but the buffer, the flags and the packet counter changes. *)
Lemma tcp_send_rest i s :
  tcp_send i s = s <| uip_buf := uip_buf (tcp_send i s) |> <| uip_flags := 0 |>
                   <| ipid := w16 (ipid s + 1) |>.
Proof. unfold tcp_send. destruct s. destruct (tst _ UIP_STOPPED); reflexivity. Qed.

(** What [tcp_send] puts on the wire is the segment its connection block
    describes: our address and ports, [snd_nxt] as sequence number, [rcv_nxt]
    acknowledged, the receive window or zero when the application stopped the
    flow; under a valid IP header for [uip_len] bytes.  Connections and
    application state are untouched, so sending the same thing again later
    (a retransmission) emits the same segment. *)
Theorem tcp_send_segment i s : uip_wf s ->
  let s' := tcp_send i s in
  segment (uip_buf s') = conn_segment (uip_hostaddr s) (conn_at i s)
    (rd8 (uip_buf s) BUF.tcpoffset) (rd8 (uip_buf s) BUF.flags) /\
  rd8 (uip_buf s') BUF.proto = UIP_PROTO_TCP /\
  ip_header_ok (uip_buf s') (uip_len s') /\
  uip_len s' = uip_len s /\ uip_conns s' = uip_conns s /\ env s' = env s.
Proof.
  intros Hs s'. destruct (tcp_send_fields i s Hs) as (? & ? & ?).
  assert (uip_len s' = uip_len s) as Hl by (unfold s'; by rewrite tcp_send_rest).
  rewrite Hl. do 4 (split; [done|]). split; unfold s'; by rewrite tcp_send_rest.
Qed.

(** ** Every packet [uip_process] asks to transmit *)

Definition packet_ok s : Prop := uip_len s = 0 \/ ip_header_ok (uip_buf s) (uip_len s).

Lemma drop_out s : packet_ok (drop s).
Proof. by left. Qed.
Lemma noconn_out s : uip_wf s -> packet_ok (tcp_send_noconn s).
Proof. right. by apply noconn_header. Qed.
Lemma tcp_send_out i s : uip_wf s -> packet_ok (tcp_send i s).
Proof.
  intros Hs. right. destruct (tcp_send_fields i s Hs) as (_ & _ & Hh).
  by replace (uip_len (tcp_send i s)) with (uip_len s) by (by rewrite tcp_send_rest).
Qed.
Lemma tcp_send_noopts_out i s : uip_wf s -> packet_ok (tcp_send_noopts i s).
Proof. intros. apply tcp_send_out. wf_auto. Qed.
Lemma tcp_send_nodata_out i s : uip_wf s -> packet_ok (tcp_send_nodata i s).
Proof. intros. apply tcp_send_noopts_out. wf_auto. Qed.
Lemma tcp_send_ack_out i s : uip_wf s -> packet_ok (tcp_send_ack i s).
Proof. intros. apply tcp_send_nodata_out. wf_auto. Qed.
Lemma tcp_send_finack_out i s : uip_wf s -> packet_ok (tcp_send_finack i s).
Proof. intros. apply tcp_send_nodata_out. wf_auto. Qed.
Lemma tcp_send_syn_out i s : uip_wf s -> packet_ok (tcp_send_syn i s).
Proof. intros. apply tcp_send_out. wf_auto. Qed.
Lemma tcp_send_synack_out i s : uip_wf s -> packet_ok (tcp_send_synack i s).
Proof. intros. apply tcp_send_syn_out. wf_auto. Qed.

(** A leaf of a handler: a label applied to a well-formed state. *)
Ltac out_step :=
  lazymatch goal with
  | |- packet_ok (drop _) => apply drop_out
  | |- packet_ok (tcp_send_noconn _) => apply noconn_out
  | |- packet_ok (tcp_send_noopts _ _) => apply tcp_send_noopts_out
  | |- packet_ok (tcp_send_nodata _ _) => apply tcp_send_nodata_out
  | |- packet_ok (tcp_send_ack _ _) => apply tcp_send_ack_out
  | |- packet_ok (tcp_send_finack _ _) => apply tcp_send_finack_out
  | |- packet_ok (tcp_send_syn _ _) => apply tcp_send_syn_out
  | |- packet_ok (tcp_send_synack _ _) => apply tcp_send_synack_out
  | |- packet_ok (let _ := _ in _) => cbv zeta
  | |- packet_ok (if _ then _ else _) => case_match
  | |- packet_ok (match _ with _ => _ end) => case_match
  end.
Ltac out := repeat out_step; safe.

Lemma apprexmit_out i s : uip_wf s -> packet_ok (apprexmit i s).
Proof. intros. unfold apprexmit. out. Qed.

Lemma appsend_out i s : uip_wf s -> packet_ok (appsend i s).
Proof.
  intros Hs. unfold appsend. do 2 (case_match; [out|]). by apply apprexmit_out, app_data_wf.
Qed.

Lemma reset_out s : uip_wf s -> packet_ok (reset s).
Proof.
  intros Hs. unfold reset. case_match; [out|]. cbv zeta. apply noconn_out.
  do 4 wf_step. apply increment_word_wf. wf_auto.
Qed.

Lemma in_SYN_SENT_out i s s' : uip_wf s -> in_SYN_SENT i s = Some s' -> packet_ok s'.
Proof.
  intros Hs. unfold in_SYN_SENT. case_match.
  - destruct (parse_mss i s) as [s1|] eqn:Em; [|done]. intros [= <-].
    apply parse_mss_wf in Em; [|done]. apply appsend_out. safe. apply wf_upd_conn; [safe|].
    intros []; constructor; ssimpl; auto. apply rd4_ok. by apply wf_buf in Em.
  - intros [= <-]. apply reset_out. safe.
Qed.

Lemma in_ESTABLISHED_out i s : uip_wf s -> packet_ok (in_ESTABLISHED i s).
Proof.
  intros Hs. unfold in_ESTABLISHED. cbv zeta. case_match; [out|].
  pose proof (take_data_wf i s Hs). case_match; [|out]. apply appsend_out. safe.
Qed.

Lemma tcp_switch_out i s s' : uip_wf s -> tcp_switch i s = Some s' -> packet_ok s'.
Proof.
  intros Hs. unfold tcp_switch. cbv zeta.
  destruct (_ =? UIP_SYN_RCVD).
  { intros [= <-]. unfold in_SYN_RCVD. case_match; [|out]. apply appsend_out. safe. }
  destruct (_ =? UIP_SYN_SENT); [by apply in_SYN_SENT_out|].
  destruct (_ =? UIP_ESTABLISHED); [intros [= <-]; by apply in_ESTABLISHED_out|].
  destruct (_ =? UIP_LAST_ACK); [intros [= <-]; unfold in_LAST_ACK; out|].
  destruct (_ =? UIP_FIN_WAIT_1); [intros [= <-]; unfold in_FIN_WAIT_1; out|].
  destruct (_ =? UIP_FIN_WAIT_2); [intros [= <-]; unfold in_FIN_WAIT_2; out|].
  destruct (_ =? UIP_TIME_WAIT); [intros [= <-]; out|].
  destruct (_ =? UIP_CLOSING); intros [= <-]; unfold in_CLOSING; out.
Qed.

Lemma found_out i s s' : uip_wf s -> (i < UIP_CONNS)%nat -> found i s = Some s' -> packet_ok s'.
Proof.
  intros Hs Hi. unfold found. cbv zeta. case_match; [intros [= <-]; out|].
  case_match; [intros [= <-]; out|]. apply tcp_switch_out.
  apply process_push_wf, process_ack_wf. safe.
Qed.

Lemma found_listen_out s s' : uip_wf s -> found_listen s = Some s' -> packet_ok s'.
Proof.
  intros Hs. unfold found_listen.
  destruct (find_free_conn _ _ _) as [i|] eqn:Ef; [|intros [= <-]; out].
  cbv zeta. pose proof (listen_block_wf s i Hs (find_free_conn_lt s i Hs Ef)) as H1.
  destruct (parse_mss i _) as [s2|] eqn:Em; [|done].
  intros [= <-]. apply parse_mss_wf in Em; [|done]. out.
Qed.

Lemma tcp_input_out s s' : uip_wf s -> tcp_input s = Some s' -> packet_ok s'.
Proof.
  intros Hs. unfold tcp_input. cbv zeta. case_match; [intros [= <-]; out|].
  destruct (find_index _ (uip_conns s)) as [i|] eqn:Ef.
  { apply found_out; [done|]. by eapply find_conn_lt. }
  case_match; [intros [= <-]; by apply reset_out|].
  case_match; [by apply found_listen_out|]. intros [= <-]. by apply reset_out.
Qed.

(** ** UDP *)

(** The datagram before its checksum is filled in. *)
Definition udp_fill s : uip_state E :=
  let conn := cur_udp_conn s in
  mem (fun b => wr4 BUF.destipaddr (udp_ripaddr conn) (wr4 BUF.srcipaddr (uip_hostaddr s)
    (wr16 BUF.destport (udp_rport conn) (wr16 BUF.srcport (udp_lport conn)
    (wr16 UDPBUF.udpchksum 0 (wr16 UDPBUF.udplen (HTONS (uip_slen s + UIP_UDPH_LEN))
    (wr8 BUF.proto UIP_PROTO_UDP (wr8 BUF.ttl (udp_ttl conn)
    (wr8 (BUF.len + 1) (Z.land (w16 (uip_slen s + UIP_IPUDPH_LEN)) 0xff)
    (wr8 BUF.len (Z.shiftr (w16 (uip_slen s + UIP_IPUDPH_LEN)) 8) b))))))))))
  (s <| uip_len := w16 (uip_slen s + UIP_IPUDPH_LEN) |>).

(** The same with the checksum, as [ip_send_nolen] finds it. *)
Definition udp_sum s : uip_state E :=
  let s := (udp_fill s) <| uip_appdata := UIP_LLH_LEN + UIP_IPTCPH_LEN |> in
  let s := mem (fun b => wr16 UDPBUF.udpchksum (w16 (Z.lnot (uip_udpchksum b))) b) s in
  if rd16 (uip_buf s) UDPBUF.udpchksum =? 0
  then mem (wr16 UDPBUF.udpchksum 0xffff) s else s.

Lemma udp_send_eq s : uip_slen s <> 0 -> udp_send s = ip_send_nolen (udp_sum s).
Proof. intros Hn%Z.eqb_neq. unfold udp_send. rewrite Hn. reflexivity. Qed.

Lemma udp_fill_wf s : uip_wf s -> uip_wf (udp_fill s).
Proof. intros. unfold udp_fill. apply wf_mem; [wf_auto|intros; auto 12 with mem|].
  intros. by autorewrite with memlen. Qed.
Lemma udp_sum_wf s : uip_wf s -> uip_wf (udp_sum s).
Proof. intros Hs%udp_fill_wf. unfold udp_sum. cbv zeta. case_match; wf_auto. Qed.

Lemma udp_fill_len s : uip_wf s -> ip_length (uip_buf (udp_fill s)) = uip_len (udp_fill s).
Proof.
  intros Hs. pose proof (buf_len s Hs). unfold ip_length, udp_fill. ssimpl.
  unfold BUF.len, BUF.srcipaddr, BUF.destipaddr, BUF.srcport, BUF.destport, UDPBUF.udplen,
    UDPBUF.udpchksum, BUF.proto, BUF.ttl.
  fld. apply hi_lo, w16_u16.
Qed.

Lemma udp_sum_frame s k : uip_wf s -> 0 <= k -> k < 40 \/ 42 <= k ->
  rd8 (uip_buf (udp_sum s)) k = rd8 (uip_buf (udp_fill s)) k.
Proof.
  intros. unfold udp_sum, UDPBUF.udpchksum. cbv zeta. case_match; ssimpl; by fld.
Qed.

Lemma uip_len_nolen s : uip_len (ip_send_nolen s) = uip_len s.
Proof. done. Qed.
Lemma uip_len_udp_sum s : uip_len (udp_sum s) = w16 (uip_slen s + UIP_IPUDPH_LEN).
Proof. unfold udp_sum. cbv zeta. destruct (_ =? 0); done. Qed.

Lemma udp_sum_len s : uip_wf s -> ip_length (uip_buf (udp_sum s)) = uip_len (udp_sum s).
Proof.
  intros Hs. rewrite uip_len_udp_sum. change (w16 _) with (uip_len (udp_fill s)).
  rewrite <- udp_fill_len by done. unfold ip_length, BUF.len. by rewrite !udp_sum_frame by (done || lia).
Qed.

Lemma cur_udp_conn_wf s : uip_wf s -> udp_conn_wf (cur_udp_conn s).
Proof.
  intros. unfold cur_udp_conn. case_match; [by apply wf_udp_conn_at|]. by do 2 constructor.
Qed.

(** The header fields [udp_fill] sets. *)
Lemma udp_fill_fields s : uip_wf s -> let b := uip_buf (udp_fill s) in
  let conn := cur_udp_conn s in
  rd16 b UDPBUF.udplen = HTONS (uip_slen s + UIP_UDPH_LEN) /\ rd8 b BUF.proto = UIP_PROTO_UDP /\
  rd4 b BUF.srcipaddr = uip_hostaddr s /\ rd4 b BUF.destipaddr = udp_ripaddr conn /\
  rd16 b BUF.srcport = udp_lport conn /\ rd16 b BUF.destport = udp_rport conn.
Proof.
  intros Hs b conn. destruct (cur_udp_conn_wf s Hs). pose proof (wf_hostaddr s Hs).
  pose proof (buf_len s Hs). unfold b, udp_fill. fold conn. ssimpl.
  unfold BUF.len, BUF.srcipaddr, BUF.destipaddr, BUF.srcport, BUF.destport, UDPBUF.udplen,
    UDPBUF.udpchksum, BUF.proto, BUF.ttl. fld.
  rewrite !w16_small by (done || apply HTONS_u16). done.
Qed.

Lemma udp_fill_chksum s : uip_wf s ->
  wr16 UDPBUF.udpchksum 0 (uip_buf (udp_fill s)) = uip_buf (udp_fill s).
Proof.
  intros Hs. pose proof (buf_len s Hs). pose proof (buf_len _ (udp_fill_wf s Hs)).
  apply wr16_0_id; [unfold UDPBUF.udpchksum; lia|unfold UDPBUF.udpchksum; lia| |];
    unfold udp_fill; ssimpl;
    unfold BUF.len, BUF.srcipaddr, BUF.destipaddr, BUF.srcport, BUF.destport, UDPBUF.udplen,
      UDPBUF.udpchksum, BUF.proto, BUF.ttl;
    repeat first [fld_step | progress unfold wr16]; reflexivity.
Qed.

Lemma udp_sum_filled s : uip_wf s -> u16 (uip_slen s + UIP_IPUDPH_LEN) ->
  uip_udpchksum (uip_buf (udp_sum s)) = 0xffff /\ rd16 (uip_buf (udp_sum s)) UDPBUF.udpchksum <> 0.
Proof.
  intros Hs Hl. pose proof (udp_fill_wf s Hs) as Hf. pose proof (buf_len _ Hf).
  pose proof (wf_slen s Hs).
  assert (uip_len (udp_fill s) = uip_slen s + UIP_IPUDPH_LEN) as Hlen by (by apply w16_small).
  assert (upper_len (uip_buf (udp_fill s)) = uip_slen s + 8) as Hu.
  { unfold upper_len. fold (ip_length (uip_buf (udp_fill s))). rewrite udp_fill_len, Hlen by done.
    unfold UIP_IPUDPH_LEN, UIP_IPH_LEN, u16 in *. rewrite w16_small; unfold u16; lia. }
  pose proof (upper_chksum_filled UIP_PROTO_UDP UDPBUF.udpchksum _ (wf_buf _ Hf)) as Hc.
  cbv zeta in Hc. rewrite udp_fill_chksum in Hc by done.
  destruct Hc as [Hv Hv0]; try (unfold UDPBUF.udpchksum, u16 in *; reflexivity || lia).
  unfold udp_sum, uip_udpchksum. cbv zeta. ssimpl.
  set (b := uip_buf (udp_fill s)) in *.
  set (v := w16 (Z.lnot (upper_layer_chksum UIP_PROTO_UDP b))) in *.
  rewrite rd16_wr16_eq by (unfold UDPBUF.udpchksum; lia).
  destruct (Z.eqb_spec (w16 v) 0) as [Ez|Ez]; ssimpl.
  - rewrite w16_small in Ez by apply w16_u16. split.
    + fold b v. rewrite Ez. unfold b. rewrite udp_fill_chksum by done. exact (Hv0 Ez).
    + rewrite rd16_wr16_eq; [done|done|rewrite length_wr16; fold b; unfold UDPBUF.udpchksum; lia].
  - split; [done|]. fold b. rewrite rd16_wr16_eq by (unfold UDPBUF.udpchksum; lia). done.
Qed.

Lemma udp_send_out s : uip_wf s -> packet_ok (udp_send s).
Proof.
  intros Hs. destruct (decide (uip_slen s = 0)) as [Hz|Hz].
  { unfold udp_send. rewrite Hz. apply drop_out. }
  right. rewrite udp_send_eq by done. apply nolen_header; [by apply udp_sum_wf|by apply udp_sum_len].
Qed.

(** The upper-layer checksum reads nothing [ip_send_nolen] writes. *)
Lemma nolen_upper proto s : uip_wf s ->
  upper_layer_chksum proto (uip_buf (ip_send_nolen s)) = upper_layer_chksum proto (uip_buf s).
Proof.
  intros Hs. rewrite !upper_layer_ones by (apply wf_buf; try apply ip_send_nolen_wf; done).
  assert (upper_len (uip_buf (ip_send_nolen s)) = upper_len (uip_buf s)) as Hl.
  { unfold upper_len, BUF.len. by rewrite !nolen_frame by lia. }
  unfold upper_sum. rewrite Hl.
  by rewrite !(wsum_ext _ (uip_buf (ip_send_nolen s)) (uip_buf s)) by (intros; apply nolen_frame; lia).
Qed.

(** A datagram [udp_send] emits is addressed from the connection block,
    has a consistent IP and UDP length and a UDP checksum that the receiver's
    [uip_udpchksum] accepts; the checksum field is never the 0 that would mean
    "no checksum". *)
Theorem udp_send_checksum s : uip_wf s -> uip_slen s <> 0 -> u16 (uip_slen s + UIP_IPUDPH_LEN) ->
  let b := uip_buf (udp_send s) in
  uip_udpchksum b = 0xffff /\ rd16 b UDPBUF.udpchksum <> 0 /\
  rd16 b UDPBUF.udplen = HTONS (uip_slen s + UIP_UDPH_LEN) /\
  uip_len (udp_send s) = uip_slen s + UIP_IPUDPH_LEN /\
  ip_header_ok b (uip_len (udp_send s)) /\ rd8 b BUF.proto = UIP_PROTO_UDP /\
  rd4 b BUF.srcipaddr = uip_hostaddr s /\ rd4 b BUF.destipaddr = udp_ripaddr (cur_udp_conn s) /\
  rd16 b BUF.srcport = udp_lport (cur_udp_conn s) /\ rd16 b BUF.destport = udp_rport (cur_udp_conn s).
Proof.
  intros Hs Hz Hl b. assert (packet_ok (udp_send s)) as Hout by (by apply udp_send_out).
  assert (uip_len (udp_send s) = uip_slen s + UIP_IPUDPH_LEN) as Hlen.
  { rewrite udp_send_eq, uip_len_nolen, uip_len_udp_sum by done. by apply w16_small. }
  destruct (udp_sum_filled s Hs Hl) as (Hc & Hf).
  destruct (udp_fill_fields s Hs) as (F1 & F2 & F3 & F4 & F5 & F6).
  assert (forall k, 26 <= k \/ k = 23 -> rd8 b k = rd8 (uip_buf (udp_sum s)) k) as Hk.
  { intros k Hk. unfold b. rewrite udp_send_eq by done. apply nolen_frame; lia. }
  assert (forall k, k = 23 \/ 26 <= k < 40 -> rd8 b k = rd8 (uip_buf (udp_fill s)) k) as Hk'.
  { intros k ?. rewrite Hk by lia. apply udp_sum_frame; [done|lia|lia]. }
  split.
  { unfold b. rewrite udp_send_eq by exact Hz. unfold uip_udpchksum in *.
    rewrite nolen_upper by (apply udp_sum_wf, Hs). exact Hc. }
  split; [by rewrite (rd16_ext _ (uip_buf (udp_sum s))) by (apply Hk; unfold UDPBUF.udpchksum; lia)|].
  rewrite <- F1, <- F2, <- F3, <- F4, <- F5, <- F6.
  split; [apply rd16_ext; apply Hk'; unfold UDPBUF.udplen; lia|]. split; [done|].
  split; [|split; [apply Hk'; unfold BUF.proto; lia|split; [|split; [|split]]]].
  - destruct Hout as [Ho|Ho]; [|done]. pose proof (wf_slen s Hs).
    unfold u16, UIP_IPUDPH_LEN in *. lia.
  - apply rd4_ext. intros. apply Hk'. unfold BUF.srcipaddr in *. lia.
  - apply rd4_ext. intros. apply Hk'. unfold BUF.destipaddr in *. lia.
  - apply rd16_ext; apply Hk'; unfold BUF.srcport; lia.
  - apply rd16_ext; apply Hk'; unfold BUF.destport; lia.
Qed.

Lemma udp_found_listener_out s : uip_wf s -> packet_ok (udp_found_listener s).
Proof. intros. unfold udp_found_listener. apply udp_send_out. safe. Qed.

Lemma udp_input_out s : uip_wf s -> packet_ok (udp_input s).
Proof.
  intros Hs. unfold udp_input. cbv zeta.
  set (s1 := s <| uip_len ::= _ |> <| uip_appdata := _ |>).
  assert (uip_wf s1) as Hs1 by (unfold s1; safe). clearbody s1.
  case_match; [out|].
  destruct (find_index _ (uip_udp_conns s1)) as [i|] eqn:Ef.
  { apply udp_found_listener_out, wf_set_flags. by eapply set_udp_conn_wf. }
  assert (uip_wf (s1 <| uip_udp_conn := Some UIP_UDP_CONNS |>)) as Hs2
    by (by apply wf_set_udp_conn).
  case_match; [|out].
  destruct (find_index (fun c => udp_lport c =? 0) _) as [i|] eqn:Eu; [|out].
  apply udp_found_listener_out, wf_set_flags, wf_upd_udp_conn; [by eapply set_udp_conn_wf|].
  pose proof (wf_buf s1 Hs1). conn_field.
Qed.

Lemma udp_event_out flag s : uip_wf s -> packet_ok (udp_event flag s).
Proof.
  intros Hs. unfold udp_event. case_match; [|out]. cbv zeta. apply udp_send_out, APPCALL_wf.
  case_match; [|safe]. apply udp_flag_wf; [|safe]. intros x. apply lxor_u8; const_range.
Qed.
Lemma udp_arp_event_out s : uip_wf s -> packet_ok (udp_arp_event s).
Proof.
  intros Hs. unfold udp_arp_event. case_match; [|out]. cbv zeta. apply udp_send_out, APPCALL_wf.
  apply udp_flag_wf; [|safe]. intros x. apply lxor_u8; const_range.
Qed.

(** ** ICMP *)

(** A header checksum is right exactly when its words add up to a multiple of
    65535. *)
Lemma ipchksum_mod b : bytes b -> 0 < rd8 b 14 -> uip_ipchksum b = 0xffff <-> wsum 20 b 14 0 mod 65535 = 0.
Proof.
  intros Hb Hv. rewrite uip_ipchksum_ones by done.
  assert (0 < wsum 20 b 14 0) as Hp.
  { change (wsum 20 b 14 0) with (256 * rd8 b 14 + wsum 19 b 14 1). pose proof (wsum_nonneg 19 b Hb 14 1). lia. }
  set (x := wsum 20 b 14 0) in *. clearbody x.
  rewrite fold_sum_ffff by (pose proof (ones_range x); unfold u16; lia). rewrite ones_0 by lia.
  unfold ones. rewrite (proj2 (Z.eqb_neq x 0)) by lia. zdm.
Qed.

(** An echo reply reuses the header of the request with the addresses exchanged:
    its checksum is right when the address the request was sent to has the same
    sum as ours. *)
Lemma icmp_header s : uip_wf s -> ip_header_ok (uip_buf s) (uip_len s) ->
  let s' := icmp_input s in
  uip_len s' = 0 \/
  rd8 (uip_buf s) ICMPBUF.type = ICMP_ECHO /\ ip_fields_ok (uip_buf s') (uip_len s') /\
  (uip_ipchksum (uip_buf s') = 0xffff <->
    addr_sum (rd4 (uip_buf s) BUF.destipaddr) mod 65535 = addr_sum (uip_hostaddr s) mod 65535).
Proof.
  intros Hs (Hv & Hl & Ho & Ho' & Hc) s'. subst s'. unfold icmp_input.
  destruct (Z.eqb_spec (rd8 (uip_buf s) ICMPBUF.type) ICMP_ECHO) as [Ht|]; cbn [negb]; [|by left]. right.
  split; [done|].
  cbv zeta. pose proof (buf_len s Hs). pose proof (wf_buf s Hs) as Hb.
  set (s1 := mem (wr8 ICMPBUF.type ICMP_ECHO_REPLY) s).
  match goal with |- context [mem _ (if ?c then ?x else ?y)] => set (s2 := if c then x else y) end.
  assert (uip_wf s2) as Hs2 by (unfold s2, s1; safe).
  assert (forall k, 0 <= k < 34 -> rd8 (uip_buf s2) k = rd8 (uip_buf s) k) as Hk.
  { intros k Hk. unfold s2, s1, ICMPBUF.type, ICMPBUF.icmpchksum. case_match; ssimpl; by fld. }
  assert (uip_hostaddr s2 = uip_hostaddr s /\ uip_len s2 = uip_len s) as [Hh Hln]
    by (unfold s2, s1; by case_match).
  clearbody s2. pose proof (buf_len s2 Hs2). pose proof (wf_buf s2 Hs2).
  pose proof (wf_hostaddr s Hs).
  unfold send. set (s3 := mem _ (mem _ s2)).
  change (ip_fields_ok (uip_buf s3) (uip_len s2) /\ (uip_ipchksum (uip_buf s3) = 0xffff <->
    addr_sum (rd4 (uip_buf s) BUF.destipaddr) mod 65535 = addr_sum (uip_hostaddr s) mod 65535)). rewrite Hln.
  assert (forall k, 0 <= k < 26 -> rd8 (uip_buf s3) k = rd8 (uip_buf s) k) as Hk3.
  { intros k ?. unfold s3, BUF.destipaddr, BUF.srcipaddr. ssimpl. fld. apply Hk. lia. }
  unfold ip_fields_ok, ip_length, BUF.vhl, BUF.len, BUF.ipoffset in *. rewrite !Hk3 by lia.
  split; [done|].
  rewrite ipchksum_mod in Hc by (done || (rewrite Hv; done)).
  rewrite (ipchksum_mod (uip_buf s3)); [|unfold s3; ssimpl; auto with mem|rewrite Hk3, Hv by lia; done].
  revert Hc. rewrite !wsum_header.
  rewrite (wsum_ext 12 (uip_buf s3) (uip_buf s)) by (intros; apply Hk3; lia).
  assert (rd4 (uip_buf s3) 26 = uip_hostaddr s) as ->.
  { unfold s3, BUF.destipaddr, BUF.srcipaddr. ssimpl. rewrite Hh. by fld. }
  assert (rd4 (uip_buf s3) 30 = rd4 (uip_buf s) 26) as ->.
  { unfold s3, BUF.destipaddr, BUF.srcipaddr. ssimpl. fld.
    rewrite rd4_wr4_eq by (by auto with mem || lia). apply rd4_ext. intros; apply Hk; lia. }
  unfold BUF.destipaddr. generalize (wsum 12 (uip_buf s) 14 0). intros w.
  generalize (addr_sum (rd4 (uip_buf s) 26)) (addr_sum (rd4 (uip_buf s) 30)) (addr_sum (uip_hostaddr s)).
  intros a d h Hc. clear -Hc. zdm.
Qed.

(** ** The whole function *)


(** A request for an echo that arrives before the host has an address, sent to an
    address whose words do not add up to a multiple of 65535. *)
Record unaddressed_echo s : Prop := {
  ue_host : uip_hostaddr s = zero4;
  ue_proto : rd8 (uip_buf s) BUF.proto = UIP_PROTO_ICMP;
  ue_type : rd8 (uip_buf s) ICMPBUF.type = ICMP_ECHO;
  ue_dest : addr_sum (rd4 (uip_buf s) BUF.destipaddr) mod 65535 <> 0 }.
(** What is sent: a packet with a good header, or the reply to such a request,
    whose header checksum is wrong. *)
Definition answer_ok s s' : Prop :=
  packet_ok s' \/ (unaddressed_echo s /\ ip_fields_ok (uip_buf s') (uip_len s') /\ uip_ipchksum (uip_buf s') <> 0xffff).

Lemma packet_answer s s' : packet_ok s' -> answer_ok s s'.
Proof. by left. Qed.

Lemma ip_accept_out s s' : uip_wf s -> UIP_IGMP = false ->
  (uip_ipchksum (uip_buf s) = 0xffff -> ip_header_ok (uip_buf s) (uip_len s)) ->
  rd4 (uip_buf s) BUF.destipaddr = uip_hostaddr s \/ uip_hostaddr s = zero4 -> ip_accept s = Some s' -> answer_ok s s'.
Proof.
  intros Hs Hi Hh Hd. unfold ip_accept. cbv zeta. rewrite Hi.
  destruct (Z.eqb_spec (uip_ipchksum (uip_buf s)) 0xffff); cbn [negb andb]; [|intros [= <-]; apply packet_answer; out].
  destruct (_ =? UIP_PROTO_TCP); [intros Ht; by apply packet_answer, (tcp_input_out s)|].
  destruct (_ =? UIP_PROTO_UDP); [intros [= <-]; by apply packet_answer, udp_input_out|].
  destruct (Z.eqb_spec (rd8 (uip_buf s) BUF.proto) UIP_PROTO_ICMP); cbn [negb]; intros [= <-];
    [|apply packet_answer; out].
  destruct (icmp_header s Hs) as [Hz|(Ht & Hf & Hc)]; [auto|by left; left|].
  destruct (decide (uip_ipchksum (uip_buf (icmp_input s)) = 0xffff)) as [Hk|Hk].
  { left. right. by apply ip_header_fields. }
  right. split; [|done]. rewrite Hc in Hk. destruct Hd as [Hd|Hd]; [by rewrite Hd in Hk|]. by constructor; rewrite ?Hd in *.
Qed.

Lemma ip_input_out s s' : uip_wf s -> UIP_IGMP = false -> ip_input s = Some s' -> answer_ok s s'.
Proof.
  intros Hs Hi. unfold ip_input. cbv zeta. rewrite Hi.
  destruct (Z.eqb_spec (rd8 (uip_buf s) BUF.vhl) 0x45); cbn [negb]; [|intros [= <-]; apply packet_answer; out].
  destruct (negb (_ <=? _)); [intros [= <-]; apply packet_answer; out|]. set (s1 := s <| uip_len := _ |>).
  assert (uip_wf s1) as Hs1 by (apply wf_set_len; [done|apply ip_length_u16, (wf_buf s Hs)]).
  destruct (Z.eqb_spec (Z.land (rd8 (uip_buf s) BUF.ipoffset) 0x3f) 0); cbn [negb orb];
    [|intros [= <-]; apply packet_answer; out].
  destruct (Z.eqb_spec (rd8 (uip_buf s) (BUF.ipoffset + 1)) 0); cbn [negb]; [|intros [= <-]; apply packet_answer; out].
  assert (forall t, answer_ok s1 t -> answer_ok s t) as Ha.
  { intros t [?|[[] ?]]; [by left|right]. by split; [constructor|]. }
  assert (uip_ipchksum (uip_buf s1) = 0xffff -> ip_header_ok (uip_buf s1) (uip_len s1)) as Hh
    by (intros Hc; unfold ip_header_ok; auto).
  destruct (uip_ipaddr_cmp (uip_hostaddr s1) all_zeroes_addr) eqn:Ez.
  { apply xtcp_compare_words_spec in Ez; [|apply (wf_hostaddr s Hs)|unfold u8x4_ok, u8; cbn; lia].
    intros Hp. apply Ha. eapply ip_accept_out; eauto. }
  destruct (_ && _); [intros [= <-]; apply packet_answer; by apply udp_input_out|].
  destruct (uip_ipaddr_cmp (rd4 _ _) _) eqn:Ed; cbn [negb andb]; [|intros [= <-]; apply packet_answer; out].
  apply xtcp_compare_words_spec in Ed; [|apply rd4_ok, (wf_buf s Hs)|apply (wf_hostaddr s Hs)].
  intros Hp. apply Ha. eapply ip_accept_out; eauto.
Qed.

Lemma timer_event_out i s : uip_wf s -> packet_ok (uip_timer_event i s).
Proof.
  intros Hs. unfold uip_timer_event. cbv zeta. set (s1 := set_field uip_slen _ _).
  assert (uip_wf s1) by (unfold s1; safe). clearbody s1.
  case_match; [out|]. case_match; [|out]. case_match; [|case_match; [apply appsend_out; safe|out]].
  case_match; [|out]. case_match; [out|]. unfold retransmit. cbv zeta.
  do 2 (case_match; [out|]). case_match; [apply apprexmit_out; safe|out].
Qed.

Lemma poll_request_out i s : uip_wf s -> packet_ok (uip_poll_request i s).
Proof. intros Hs. unfold uip_poll_request. case_match; [apply appsend_out; safe|out]. Qed.

(** The events for which [uip_process] looks at the current connection. *)
Definition needs_conn (flag : Z) : bool := (flag =? UIP_POLL_REQUEST) || (flag =? UIP_TIMER).
(** A packet has arrived. *)
Definition is_arrival (flag : Z) : bool :=
  negb (existsb (Z.eqb flag) [UIP_UDP_SEND_CONN; UIP_POLL_REQUEST; UIP_TIMER; UIP_UDP_TIMER; UIP_UDP_ACKDATA; UIP_UDP_ARP_EVENT]).

(** Whatever event is processed, what [uip_process] leaves to be sent. *)
Lemma uip_process_answer flag s s' : uip_wf s -> UIP_IGMP = false ->
  (needs_conn flag = true -> uip_conn s <> None) -> uip_process flag s = Some s' ->
  if is_arrival flag then answer_ok s s' else packet_ok s'.
Proof.
  intros Hs Hi Hc. unfold uip_process, needs_conn, is_arrival in *. cbv zeta. cbn [existsb].
  destruct (flag =? UIP_UDP_SEND_CONN); [intros [= <-]; by apply udp_send_out|].
  set (s1 := set_field uip_appdata _ _). assert (uip_wf s1) by (unfold s1; safe).
  assert (forall t, answer_ok s1 t -> answer_ok s t) as Ha.
  { intros t [?|[[] ?]]; [by left|right]. by split; [constructor|]. }
  clearbody s1.
  destruct (flag =? UIP_POLL_REQUEST).
  { destruct (uip_conn s); [intros [= <-]; by apply poll_request_out|by destruct Hc]. }
  destruct (flag =? UIP_TIMER).
  { destruct (uip_conn s); [intros [= <-]; by apply timer_event_out|by destruct Hc]. }
  destruct (flag =? UIP_UDP_TIMER); [intros [= <-]; by apply udp_event_out|].
  destruct (flag =? UIP_UDP_ACKDATA); [intros [= <-]; by apply udp_event_out|].
  destruct (flag =? UIP_UDP_ARP_EVENT); [intros [= <-]; by apply udp_arp_event_out|].
  cbn [orb negb]. intros Hp. by apply Ha, ip_input_out.
Qed.
End output.
