(* ===== verification/UipTcp.v ===== *)
(** * The TCP state machine

    [uip_process] itself changes the state of at most one connection per call,
    and only along the arrows below.  Segments, timer ticks and polls have
    different arrows; UDP events have none.  While it runs, the application it
    calls may open connections on blocks that are free. *)
From stdpp Require Import relations.
From S2P Require Export UipOutput.
Local Open Scope Z_scope.

(** The state of a connection without the [UIP_STOPPED] flag. *)
Definition st (c : uip_conn_t) : Z := Z.land (tcpstateflags c) UIP_TS_MASK.
Definition states {E} (s : uip_state E) : list Z := map st (uip_conns s).

(** ** The diagram *)

(** The application may close or abort a connection whenever it is called on
    an established one. *)
Inductive app_step : Z -> Prop :=
| app_keeps : app_step UIP_ESTABLISHED
| app_closes : app_step UIP_FIN_WAIT_1
| app_aborts : app_step UIP_CLOSED.

(** Arrival of a segment. *)
Inductive rx_step : Z -> Z -> Prop :=
| rx_listen : rx_step UIP_CLOSED UIP_SYN_RCVD
| rx_reuse : rx_step UIP_TIME_WAIT UIP_SYN_RCVD
| rx_accepted x : app_step x -> rx_step UIP_SYN_RCVD x
| rx_connected x : app_step x -> rx_step UIP_SYN_SENT x
| rx_app x : app_step x -> rx_step UIP_ESTABLISHED x
| rx_fin : rx_step UIP_ESTABLISHED UIP_LAST_ACK
| rx_fin_acked : rx_step UIP_FIN_WAIT_1 UIP_FIN_WAIT_2
| rx_fin_both : rx_step UIP_FIN_WAIT_1 UIP_TIME_WAIT
| rx_fin_crossed : rx_step UIP_FIN_WAIT_1 UIP_CLOSING
| rx_fin_second : rx_step UIP_FIN_WAIT_2 UIP_TIME_WAIT
| rx_crossed_acked : rx_step UIP_CLOSING UIP_TIME_WAIT
| rx_last_ack : rx_step UIP_LAST_ACK UIP_CLOSED
| rx_rst x : rx_step x UIP_CLOSED.

(** A tick of the periodic timer: the application is polled, or the connection
    times out. *)
Inductive tick_step : Z -> Z -> Prop :=
| tick_poll x : app_step x -> tick_step UIP_ESTABLISHED x
| tick_timeout x : tick_step x UIP_CLOSED.

Inductive poll_step : Z -> Z -> Prop :=
| poll_app x : app_step x -> poll_step UIP_ESTABLISHED x.

Definition event_step (flag : Z) : Z -> Z -> Prop :=
  if flag =? UIP_UDP_SEND_CONN then fun _ _ => False
  else if flag =? UIP_POLL_REQUEST then poll_step
  else if flag =? UIP_TIMER then tick_step
  else if (flag =? UIP_UDP_TIMER) || (flag =? UIP_UDP_ACKDATA) then fun _ _ => False
  else if flag =? UIP_UDP_ARP_EVENT then fun _ _ => False
  else rx_step.

(** At most one entry of the table changes, along [R]. *)
Definition moves (R : Z -> Z -> Prop) (l l' : list Z) : Prop :=
  l' = l \/ exists i x y, l !! i = Some x /\ R x y /\ l' = <[i := y]> l.

(** The blocks [uip_connect] takes, and active opens on such blocks. *)
Definition free (x : Z) : bool := (x =? UIP_CLOSED) || (x =? UIP_TIME_WAIT).
Definition open_one (l l' : list Z) : Prop :=
  exists i x, l !! i = Some x /\ free x = true /\ l' = <[i := UIP_SYN_SENT]> l.
Definition opens : list Z -> list Z -> Prop := rtc open_one.

(** One call: the arrow of the event, then what the application has opened. *)
Definition transition (R : Z -> Z -> Prop) (l l' : list Z) : Prop := exists m, moves R l m /\ opens m l'.

(** What the diagram relies on: the application acts on the connection it is
    called for through [uip_flags] and [uip_stop]/[uip_restart], and on others by
    opening them. *)
Class UipEnvStates (E : Type) {H : UipEnv E} : Prop := {
  APPCALL_states : forall s : uip_state E, opens (states s) (states (UIP_APPCALL s));
  APPCALL_conn : forall s : uip_state E, uip_conn (UIP_APPCALL s) = uip_conn s;
  igmp_in_states : forall s : uip_state E, states (igmp_in s) = states s }.

(** ** Active opens *)

#[export] Instance opens_preorder : PreOrder opens.
Proof. apply rtc_po. Qed.

(** They leave a connection in use alone, so they commute with what happens to it. *)
Lemma opens_keep l l' i x : opens l l' -> l !! i = Some x -> free x = false -> l' !! i = Some x.
Proof.
  intros Ho. induction Ho as [|l m l' (j & z & Hj & Hz & ->) _ IH]; intros Hi Hx; [done|]. apply IH; [|done].
  rewrite list_lookup_insert_ne; [done|]. intros ->. congruence.
Qed.
Lemma opens_insert l l' i x y : opens l l' -> l !! i = Some x -> free x = false ->
  opens (<[i := y]> l) (<[i := y]> l').
Proof.
  intros Ho. induction Ho as [|l m l' (j & z & Hj & Hz & ->) _ IH]; intros Hi Hx; [done|].
  assert (j <> i) as Hne by congruence. etrans; [|apply IH; [by rewrite list_lookup_insert_ne|done]].
  apply rtc_once. exists j, z. rewrite list_lookup_insert_ne by done. split; [done|]. split; [done|].
  by rewrite list_insert_insert_ne.
Qed.
(** They never give the connection a state other than [SYN_SENT]. *)
Lemma opens_only l l' i x : opens l l' -> l' !! i = Some x -> x = UIP_SYN_SENT \/ l !! i = Some x.
Proof.
  intros Ho. induction Ho as [|l m l' (j & z & Hj & Hz & ->) _ IH]; intros Hi; [by right|].
  destruct (IH Hi) as [?|Hl]; [by left|]. destruct (decide (j = i)) as [->|]; [|right; by rewrite list_lookup_insert_ne in Hl].
  rewrite list_lookup_insert_eq in Hl by (by eapply lookup_lt_Some). left. congruence.
Qed.

(** ** What each operation does to the table of states *)

Section states.
Context {E : Type} `{UipEnvStates E}.
Implicit Types s : uip_state E.

Lemma states_keep i f s : (forall c, st (f c) = st c) -> states (upd_conn i f s) = states s.
Proof.
  intros Hf. unfold states. ssimpl. apply list_eq. intros k. rewrite !list_lookup_fmap.
  destruct (decide (k = i)) as [->|].
  - rewrite list_lookup_alter_eq. destruct (uip_conns s !! i); simpl; [by rewrite Hf|done].
  - by rewrite list_lookup_alter_ne.
Qed.
Lemma states_set i x f s : (forall c, st (f c) = x) ->
  states (upd_conn i f s) = <[i := x]> (states s).
Proof.
  intros Hf. unfold states. ssimpl. apply list_eq. intros k. rewrite list_lookup_fmap.
  destruct (decide (k = i)) as [->|].
  - rewrite list_lookup_alter_eq. destruct (uip_conns s !! i) eqn:Ei; simpl.
    + rewrite Hf, list_lookup_insert_eq; [done|]. rewrite length_map. by eapply lookup_lt_Some.
    + symmetry. apply lookup_ge_None. rewrite length_insert, length_map. by apply lookup_ge_None.
  - rewrite list_lookup_alter_ne, list_lookup_insert_ne, list_lookup_fmap by done. done.
Qed.

Lemma states_drop s : states (drop s) = states s.
Proof. done. Qed.
Lemma states_tcp_send i s : states (tcp_send i s) = states s.
Proof. by rewrite tcp_send_rest. Qed.
Lemma states_noconn s : states (tcp_send_noconn s) = states s.
Proof. done. Qed.
Lemma states_noopts i s : states (tcp_send_noopts i s) = states s.
Proof. unfold tcp_send_noopts. by rewrite states_tcp_send. Qed.
Lemma states_nodata i s : states (tcp_send_nodata i s) = states s.
Proof. unfold tcp_send_nodata. by rewrite states_noopts. Qed.
Lemma states_send_ack i s : states (tcp_send_ack i s) = states s.
Proof. unfold tcp_send_ack. by rewrite states_nodata. Qed.
Lemma states_finack i s : states (tcp_send_finack i s) = states s.
Proof. unfold tcp_send_finack. by rewrite states_nodata. Qed.
Lemma states_syn i s : states (tcp_send_syn i s) = states s.
Proof. unfold tcp_send_syn. by rewrite states_tcp_send. Qed.
Lemma states_synack i s : states (tcp_send_synack i s) = states s.
Proof. unfold tcp_send_synack. by rewrite states_syn. Qed.
Lemma states_add_rcv_nxt n s : states (uip_add_rcv_nxt n s) = states s.
Proof. unfold uip_add_rcv_nxt. case_match; [|done]. by apply states_keep. Qed.
Lemma states_increment a s : states (xtcp_increment_word a s) = states s.
Proof. by destruct a. Qed.
Lemma states_parse_mss i s s' : parse_mss i s = Some s' -> states s' = states s.
Proof.
  unfold parse_mss. case_match; [|by intros [= <-]].
  destruct (parse_options _ _ _ _) as [[v|]|]; intros [= <-]; [|done]. by apply states_keep.
Qed.
Lemma states_apprexmit i s : states (apprexmit i s) = states s.
Proof. unfold apprexmit. repeat case_match; by rewrite ?states_noopts. Qed.
Lemma states_reset s : states (reset s) = states s.
Proof. unfold reset. case_match; [done|]. cbv zeta. by rewrite states_noconn. Qed.
Lemma states_udp_send s : states (udp_send s) = states s.
Proof. unfold udp_send. case_match; [done|]. cbv zeta. by case_match. Qed.
End states.
#[export] Hint Rewrite @states_drop @states_tcp_send @states_noconn @states_noopts @states_nodata
  @states_send_ack @states_finack @states_syn @states_synack @states_add_rcv_nxt
  @states_increment @states_apprexmit @states_reset @states_udp_send : states.

(** [st_norm] computes the table of states after a chain of updates. *)
Ltac st_norm :=
  repeat first
  [ progress autorewrite with states
  | match goal with
    | |- context [states (mem ?f ?s)] => change (states (mem f s)) with (states s)
    | |- context [states (upd_udp_conn ?i ?f ?s)] =>
        change (states (upd_udp_conn i f s)) with (states s)
    | |- context [states (set_field ?p ?f ?s)] =>
        change (states (set_field p f s)) with (states s)
    | |- context [states (igmp_in ?s)] => rewrite (igmp_in_states s)
    | |- context [states (upd_conn ?i ?f ?s)] =>
        first [ rewrite (states_keep i f s) by reflexivity
              | rewrite (states_set i UIP_CLOSED f s) by reflexivity
              | rewrite (states_set i UIP_ESTABLISHED f s) by reflexivity
              | rewrite (states_set i UIP_FIN_WAIT_1 f s) by reflexivity
              | rewrite (states_set i UIP_FIN_WAIT_2 f s) by reflexivity
              | rewrite (states_set i UIP_CLOSING f s) by reflexivity
              | rewrite (states_set i UIP_TIME_WAIT f s) by reflexivity
              | rewrite (states_set i UIP_LAST_ACK f s) by reflexivity
              | rewrite (states_set i UIP_SYN_RCVD f s) by reflexivity ]
    end ].

(** The table of states after the application has been called. *)
Ltac app_call :=
  match goal with
  | |- context [states (UIP_APPCALL ?t)] =>
      let Ho := fresh "Ho" in pose proof (APPCALL_states t) as Ho; revert Ho;
      generalize (states (UIP_APPCALL t)); intros ?l'; st_norm; intros Ho
  end.

Section handlers.
Context {E : Type} `{UipEnvStates E}.
Implicit Types s : uip_state E.

Lemma states_app_data i s : states (app_data i s) = states s.
Proof. unfold app_data. cbv zeta. repeat case_match; by st_norm. Qed.
#[local] Hint Rewrite states_app_data : states.

(** What the application's verdict does to the connection it was called for. *)
Lemma states_appsend i s : states (appsend i s) = states s \/
  states (appsend i s) = <[i := UIP_CLOSED]> (states s) \/
  states (appsend i s) = <[i := UIP_FIN_WAIT_1]> (states s).
Proof.
  unfold appsend. case_match; [right; left; by st_norm|].
  case_match; [right; right; by st_norm|]. left. by st_norm.
Qed.

(** The application is called for an established connection and its verdict
    carried out. *)
Lemma appsend_step i l s : (i < length l)%nat -> states s = <[i := UIP_ESTABLISHED]> l ->
  exists x, app_step x /\ opens (<[i := x]> l) (states (appsend i (UIP_APPCALL s))).
Proof.
  intros Hi Hl. pose proof (APPCALL_states s) as Ho. rewrite Hl in Ho.
  assert (forall y, opens (<[i := y]> l) (<[i := y]> (states (UIP_APPCALL s)))) as Hins.
  { intros y. rewrite <- (list_insert_insert_eq l i y UIP_ESTABLISHED).
    eapply opens_insert; [exact Ho|by apply list_lookup_insert_eq|done]. }
  destruct (states_appsend i (UIP_APPCALL s)) as [-> |[-> | ->]]; eauto using app_step.
Qed.

Lemma states_process_ack i s : states (process_ack i s) = states s.
Proof.
  unfold process_ack. cbv zeta. case_match; [|done]. case_match; [|done].
  rewrite states_keep by done. st_norm. case_match; by st_norm.
Qed.
Lemma states_process_push s : states (process_push s) = states s.
Proof. unfold process_push. by case_match. Qed.
Lemma states_take_data i s : states (take_data i s) = states s.
Proof.
  unfold take_data. cbv zeta. rewrite states_keep by done. case_match; st_norm; by case_match.
Qed.
#[local] Hint Rewrite states_process_ack states_process_push states_take_data : states.

Lemma transition_refl R l : transition R l l.
Proof. exists l. split; [by left|done]. Qed.
Lemma transition_opens R l l' : opens l l' -> transition R l l'.
Proof. intros Ho. exists l. split; [by left|done]. Qed.
Lemma transition_set R l i x y l' : l !! i = Some x -> R x y -> opens (<[i := y]> l) l' -> transition R l l'.
Proof. intros. exists (<[i := y]> l). split; [right; eauto 6|done]. Qed.
(** The application is called before the state is set. *)
Lemma transition_after R l i x y l' : l !! i = Some x -> free x = false -> R x y -> opens l l' ->
  transition R l (<[i := y]> l').
Proof. intros. eapply transition_set; [done..|by eapply opens_insert]. Qed.

Ltac arrow := eauto using rx_step, tick_step, poll_step, app_step.
(** Close a goal [transition R l l'] for the connection [i], which was in state
    [x]: the application was called before the state was set, after it, or not at
    all. *)
Ltac mv i x :=
  try app_call;
  first
  [ eapply (transition_after _ _ i x); [assumption|reflexivity| |eassumption]; solve [arrow]
  | eapply (transition_set _ _ i x); [assumption| |]; [ |first [eassumption|reflexivity]]; solve [arrow] ].
(** The same when no state is set. *)
Ltac stay := st_norm; first [apply transition_refl|app_call; by apply transition_opens].
(** The application is called for the connection and its verdict carried out. *)
Ltac mv_app x :=
  match goal with
  | |- transition _ ?l (states (appsend ?i (UIP_APPCALL ?a))) =>
      let y := fresh "y" in let Hy := fresh "Hy" in let Ho := fresh "Ho" in
      destruct (appsend_step i l a) as (y & Hy & Ho); [by eapply lookup_lt_Some|st_norm|mv i x]
  end.

(** One arrow per case of the [switch]. *)
Lemma in_SYN_RCVD_step i s : states s !! i = Some UIP_SYN_RCVD ->
  transition rx_step (states s) (states (in_SYN_RCVD i s)).
Proof.
  intros Hi. unfold in_SYN_RCVD. cbv zeta. case_match; [|stay].
  mv_app UIP_SYN_RCVD. case_match; by st_norm.
Qed.

Lemma in_SYN_SENT_step i s s' : states s !! i = Some UIP_SYN_SENT -> uip_conn s = Some i ->
  in_SYN_SENT i s = Some s' -> transition rx_step (states s) (states s').
Proof.
  intros Hi Hc. unfold in_SYN_SENT. case_match.
  - destruct (parse_mss i s) as [s1|] eqn:Em; [|done]. intros [= <-].
    apply states_parse_mss in Em. mv_app UIP_SYN_SENT. by rewrite Em.
  - rewrite APPCALL_conn. change (uip_conn (s <| uip_flags := UIP_ABORT |>)) with (uip_conn s).
    rewrite Hc. intros [= <-]. st_norm. mv i UIP_SYN_SENT.
Qed.

Lemma in_ESTABLISHED_step i s : states s !! i = Some UIP_ESTABLISHED ->
  transition rx_step (states s) (states (in_ESTABLISHED i s)).
Proof.
  intros Hi. unfold in_ESTABLISHED. cbv zeta. case_match.
  - case_match; [stay|]. st_norm.
    app_call. match type of Ho with opens (states ?x) _ => assert (states x = states s) as Hx by (case_match; by st_norm) end.
    rewrite Hx in Ho. mv i UIP_ESTABLISHED.
  - case_match; [|stay].
    mv_app UIP_ESTABLISHED. by rewrite list_insert_id.
Qed.

Lemma in_FIN_WAIT_1_step i s : states s !! i = Some UIP_FIN_WAIT_1 ->
  transition rx_step (states s) (states (in_FIN_WAIT_1 i s)).
Proof.
  intros Hi. unfold in_FIN_WAIT_1. cbv zeta.
  set (s1 := if 0 <? uip_len s then _ else s).
  assert (states s1 = states s) as Hs by (unfold s1; case_match; by st_norm). clearbody s1. rewrite <- Hs in *. clear Hs.
  case_match; [case_match; st_norm; mv i UIP_FIN_WAIT_1|].
  case_match; [st_norm; mv i UIP_FIN_WAIT_1|].
  case_match; stay.
Qed.

Lemma in_FIN_WAIT_2_step i s : states s !! i = Some UIP_FIN_WAIT_2 ->
  transition rx_step (states s) (states (in_FIN_WAIT_2 i s)).
Proof.
  intros Hi. unfold in_FIN_WAIT_2. cbv zeta.
  set (s1 := if 0 <? uip_len s then _ else s).
  assert (states s1 = states s) as Hs by (unfold s1; case_match; by st_norm). clearbody s1. rewrite <- Hs in *. clear Hs.
  case_match; [st_norm; mv i UIP_FIN_WAIT_2|].
  case_match; stay.
Qed.

Lemma st_conn_at i s x : states s !! i = Some x -> st (conn_at i s) = x.
Proof.
  unfold states, conn_at. rewrite list_lookup_fmap, list_lookup_total_alt.
  destruct (uip_conns s !! i); simpl; congruence.
Qed.

Lemma tcp_switch_step i s s' : (i < length (states s))%nat -> uip_conn s = Some i ->
  tcp_switch i s = Some s' -> transition rx_step (states s) (states s').
Proof.
  intros [x Hi]%lookup_lt_is_Some_2 Hc. unfold tcp_switch. cbv zeta. fold (st (conn_at i s)).
  rewrite (st_conn_at i s x Hi).
  destruct (Z.eqb_spec x UIP_SYN_RCVD) as [->|]; [intros [= <-]; by apply in_SYN_RCVD_step|].
  destruct (Z.eqb_spec x UIP_SYN_SENT) as [->|]; [by apply in_SYN_SENT_step|].
  destruct (Z.eqb_spec x UIP_ESTABLISHED) as [->|]; [intros [= <-]; by apply in_ESTABLISHED_step|].
  destruct (Z.eqb_spec x UIP_LAST_ACK) as [->|].
  { intros [= <-]. unfold in_LAST_ACK. cbv zeta. case_match; st_norm; [mv i UIP_LAST_ACK|stay]. }
  destruct (Z.eqb_spec x UIP_FIN_WAIT_1) as [->|]; [intros [= <-]; by apply in_FIN_WAIT_1_step|].
  destruct (Z.eqb_spec x UIP_FIN_WAIT_2) as [->|]; [intros [= <-]; by apply in_FIN_WAIT_2_step|].
  destruct (Z.eqb_spec x UIP_TIME_WAIT) as [->|]; [intros [= <-]; stay|].
  destruct (Z.eqb_spec x UIP_CLOSING) as [->|]; intros [= <-]; [|stay].
  unfold in_CLOSING. case_match; st_norm; [mv i UIP_CLOSING|stay].
Qed.

Lemma uip_conn_ack i s : uip_conn (process_push (process_ack i s)) = uip_conn s.
Proof.
  unfold process_push, process_ack. cbv zeta. repeat case_match; done.
Qed.

Lemma found_step i s s' : (i < length (states s))%nat -> found i s = Some s' ->
  transition rx_step (states s) (states s').
Proof.
  intros Hi. unfold found. cbv zeta. case_match.
  - intros [= <-]. st_norm. apply lookup_lt_is_Some_2 in Hi as [x Hx]. mv i x.
  - case_match; [intros [= <-]; stay|].
    intros Hs. apply tcp_switch_step in Hs; [|by st_norm|by rewrite uip_conn_ack].
    revert Hs. by st_norm.
Qed.

Lemma find_free_states s i : find_free_conn (uip_conns s) 0 None = Some i ->
  states s !! i = Some UIP_CLOSED \/ states s !! i = Some UIP_TIME_WAIT.
Proof.
  intros Hf.
  pose proof (find_free_conn_spec (uip_conns s) (uip_conns s) [] None eq_refl
    (Forall_nil_2 _) (Forall_nil_2 _)) as Hc. cbn [length] in Hc. rewrite Hf in Hc.
  destruct Hc as (c & Hc & Hor). unfold states. rewrite list_lookup_fmap, Hc. simpl. unfold st.
  destruct Hor as [[Hcl%Z.eqb_eq _]|(_ & Ht%Z.eqb_eq & _)]; [left; by rewrite Hcl|right; by rewrite Ht].
Qed.

Lemma found_listen_step s s' : found_listen s = Some s' -> transition rx_step (states s) (states s').
Proof.
  unfold found_listen. destruct (find_free_conn _ _ _) as [i|] eqn:Ef;
    [|intros [= <-]; stay].
  destruct (parse_mss i _) as [s2|] eqn:Em; [|done]. intros [= <-]. st_norm.
  rewrite (states_parse_mss _ _ _ Em). unfold listen_block. cbv zeta. st_norm.
  destruct (find_free_states s i Ef); [mv i UIP_CLOSED|mv i UIP_TIME_WAIT].
Qed.

Lemma tcp_input_step s s' : tcp_input s = Some s' -> transition rx_step (states s) (states s').
Proof.
  unfold tcp_input. cbv zeta. case_match; [intros [= <-]; stay|].
  destruct (find_index _ (uip_conns s)) as [i|] eqn:Ef.
  { apply found_step. apply find_index_lt in Ef. by unfold states; rewrite length_map. }
  case_match; [intros [= <-]; stay|].
  case_match; [apply found_listen_step|]. intros [= <-]. st_norm. stay.
Qed.

Lemma udp_input_opens s : opens (states s) (states (udp_input s)).
Proof.
  unfold udp_input, udp_found, udp_found_listener. cbv zeta. case_match; [done|].
  case_match; [st_norm; by app_call|]. case_match; [|done]. case_match; [|done]. st_norm. by app_call.
Qed.
Lemma states_icmp_input s : states (icmp_input s) = states s.
Proof. unfold icmp_input, send. case_match; [done|]. cbv zeta. by case_match. Qed.
Lemma states_udp_flag f s : states (upd_cur_udp_conn f s) = states s.
Proof. unfold upd_cur_udp_conn. by case_match. Qed.
#[local] Hint Rewrite states_icmp_input states_udp_flag : states.

Lemma ip_accept_step s s' : ip_accept s = Some s' -> transition rx_step (states s) (states s').
Proof.
  unfold ip_accept. cbv zeta. case_match; [intros [= <-]; stay|].
  case_match; [apply tcp_input_step|].
  case_match; [intros [= <-]; apply transition_opens, udp_input_opens|]. repeat case_match; intros [= <-]; stay.
Qed.

Lemma ip_input_step s s' : ip_input s = Some s' -> transition rx_step (states s) (states s').
Proof.
  unfold ip_input. cbv zeta. do 2 (case_match; [intros [= <-]; stay|]).
  set (s1 := s <| uip_len := _ |>). change (states s) with (states s1). clearbody s1.
  case_match; [intros [= <-]; stay|]. case_match; [apply ip_accept_step|].
  case_match; [intros [= <-]; apply transition_opens, udp_input_opens|].
  case_match; [intros [= <-]; stay|]. apply ip_accept_step.
Qed.

Lemma timer_event_step i s : (i < length (states s))%nat ->
  transition tick_step (states s) (states (uip_timer_event i s)).
Proof.
  intros Hi. unfold uip_timer_event. cbv zeta. set (s1 := set_field uip_slen _ _).
  assert (states s1 = states s) as Hs by (unfold s1; by st_norm). rewrite <- Hs in *. clearbody s1.
  apply lookup_lt_is_Some_2 in Hi as [x Hx].
  case_match; [case_match; st_norm; [mv i x|stay]|].
  case_match; [|stay]. case_match.
  - case_match; [|stay]. case_match; [st_norm; mv i x|].
    unfold retransmit. cbv zeta. repeat case_match; stay.
  - case_match; [|stay]. fold (st (conn_at i s1)) in *.
    match goal with Hst : (st _ =? _) = true |- _ => apply Z.eqb_eq in Hst; rename Hst into He end.
    rewrite (st_conn_at i s1 x Hx) in He. subst x.
    mv_app UIP_ESTABLISHED. by rewrite list_insert_id.
Qed.

Lemma poll_request_step i s : (i < length (states s))%nat ->
  transition poll_step (states s) (states (uip_poll_request i s)).
Proof.
  intros [x Hx]%lookup_lt_is_Some_2. unfold uip_poll_request. cbv zeta. fold (st (conn_at i s)).
  rewrite (st_conn_at i s x Hx). destruct (Z.eqb_spec x UIP_ESTABLISHED) as [->|]; cbn [andb];
    [|stay].
  case_match; [|stay]. mv_app UIP_ESTABLISHED. by rewrite list_insert_id.
Qed.

Lemma udp_event_opens flag s : opens (states s) (states (udp_event flag s)).
Proof.
  unfold udp_event. case_match; [|done]. cbv zeta. st_norm. app_call.
  match type of Ho with opens (states ?x) _ => assert (states x = states s) as Hx by (case_match; by st_norm) end.
  by rewrite Hx in Ho.
Qed.
Lemma udp_arp_event_opens s : opens (states s) (states (udp_arp_event s)).
Proof. unfold udp_arp_event. case_match; [|done]. cbv zeta. st_norm. by app_call. Qed.

(** One call of [uip_process]. *)
Lemma uip_process_step flag s s' : uip_wf s ->
  uip_process flag s = Some s' -> transition (event_step flag) (states s) (states s').
Proof.
  intros Hs. unfold uip_process, event_step. cbv zeta.
  destruct (flag =? UIP_UDP_SEND_CONN); [intros [= <-]; stay|].
  set (s1 := set_field uip_appdata _ _).
  change (states s) with (states s1). assert (uip_wf s1) as Hs1 by (unfold s1; wf_auto).
  assert (length (states s1) = UIP_CONNS) as Hl
    by (unfold states; rewrite length_map; apply (wf_conns_len s1 Hs1)).
  pose proof (wf_conn s Hs) as Hc. clearbody s1.
  destruct (flag =? UIP_POLL_REQUEST).
  { destruct (uip_conn s) as [i|]; intros [= <-]; [apply poll_request_step; by rewrite Hl|stay]. }
  destruct (flag =? UIP_TIMER).
  { destruct (uip_conn s) as [i|]; intros [= <-]; [apply timer_event_step; by rewrite Hl|stay]. }
  destruct (_ || _); [intros [= <-]; apply transition_opens, udp_event_opens|].
  destruct (flag =? UIP_UDP_ARP_EVENT); [|apply ip_input_step].
  intros [= <-]. apply transition_opens, udp_arp_event_opens.
Qed.
End handlers.
