(* ===== verification/UipFrame.v ===== *)
(** * What [uip_process] leaves to the application

    The environment of the stack and the application's record in every
    connection are changed only by the layers that [uip_process] calls: a
    property of them, and of nothing else, that those layers keep is kept by
    [uip_process]. *)
From S2P Require Export UipSafety.
Local Open Scope Z_scope.

Section keeps.
Context {E : Type} `{UipEnv E}.
Implicit Types s t : uip_state E.

(** The same environment and the same records. *)
Definition keeps_app s t : Prop :=
  env t = env s /\ map appstate (uip_conns t) = map appstate (uip_conns s) /\
  map udp_appstate (uip_udp_conns t) = map udp_appstate (uip_udp_conns s).
#[export] Instance keeps_preorder : PreOrder keeps_app.
Proof. split; [done|]. intros s t u (? & ? & ?) (? & ? & ?). repeat split; congruence. Qed.

Lemma map_alter_id {A B} (g : A -> B) f i (l : list A) : (forall a, g (f a) = g a) -> map g (alter f i l) = map g l.
Proof.
  intros Hf. apply list_eq. intros k. rewrite !list_lookup_fmap, list_lookup_alter. case_decide; [subst|done].
  destruct (l !! k); cbn; [by rewrite Hf|done].
Qed.
Lemma keeps_upd_conn i f s : (forall c, appstate (f c) = appstate c) -> keeps_app s (upd_conn i f s).
Proof. intros Hf. split; [done|]. split; [|done]. by apply map_alter_id. Qed.
Lemma keeps_upd_udp_conn i f s : (forall c, udp_appstate (f c) = udp_appstate c) -> keeps_app s (upd_udp_conn i f s).
Proof. intros Hf. split; [done|]. split; [done|]. by apply (map_alter_id udp_appstate). Qed.
Lemma keeps_cur_udp_conn f s : (forall c, udp_appstate (f c) = udp_appstate c) -> keeps_app s (upd_cur_udp_conn f s).
Proof. intros Hf. unfold upd_cur_udp_conn. case_match; [by apply keeps_upd_udp_conn|done]. Qed.
End keeps.

(** One step back through updates that are not of the environment or a record. *)
Ltac keeps_step :=
  lazymatch goal with
  | |- keeps_app ?s ?s => reflexivity
  | |- keeps_app _ (upd_conn ?i ?f ?t) => etrans; [|apply (keeps_upd_conn i f t); done]
  | |- keeps_app _ (upd_udp_conn ?i ?f ?t) => etrans; [|apply (keeps_upd_udp_conn i f t); done]
  | |- keeps_app _ (upd_cur_udp_conn ?f ?t) => etrans; [|apply (keeps_cur_udp_conn f t); done]
  | |- keeps_app _ (mem ?f ?t) => trans t; [|exact (conj eq_refl (conj eq_refl eq_refl))]
  | |- keeps_app _ (set_field ?p ?f ?t) => trans t; [|exact (conj eq_refl (conj eq_refl eq_refl))]
  | |- keeps_app _ (if _ then _ else _) => case_match
  | |- keeps_app _ (match _ with _ => _ end) => case_match
  | |- keeps_app _ (let _ := _ in _) => cbv zeta
  | |- keeps_app _ (?g ?t) => trans t; [|solve [auto with keeps]]
  | _ => done
  end.
Ltac keeps := repeat keeps_step.
Create HintDb keeps.

Section operations.
Context {E : Type} `{UipEnv E}.
Implicit Types s t : uip_state E.

Lemma keeps_drop s : keeps_app s (drop s).
Proof. done. Qed.
Lemma keeps_send s : keeps_app s (send s).
Proof. done. Qed.
Lemma keeps_noconn s : keeps_app s (tcp_send_noconn s).
Proof. done. Qed.
Lemma keeps_tcp_send i s : keeps_app s (tcp_send i s).
Proof. unfold tcp_send. cbv zeta. case_match; done. Qed.
Lemma keeps_add_rcv_nxt n s : keeps_app s (uip_add_rcv_nxt n s).
Proof. unfold uip_add_rcv_nxt. keeps. Qed.
Lemma keeps_increment a s : keeps_app s (xtcp_increment_word a s).
Proof. by destruct a. Qed.
#[local] Hint Resolve keeps_drop keeps_send keeps_noconn keeps_tcp_send keeps_add_rcv_nxt keeps_increment : keeps.
Lemma keeps_noopts i s : keeps_app s (tcp_send_noopts i s).
Proof. unfold tcp_send_noopts. keeps. Qed.
Lemma keeps_nodata i s : keeps_app s (tcp_send_nodata i s).
Proof. unfold tcp_send_nodata. etrans; [|apply keeps_noopts]. done. Qed.
Lemma keeps_send_ack i s : keeps_app s (tcp_send_ack i s).
Proof. unfold tcp_send_ack. etrans; [|apply keeps_nodata]. done. Qed.
Lemma keeps_finack i s : keeps_app s (tcp_send_finack i s).
Proof. unfold tcp_send_finack. etrans; [|apply keeps_nodata]. done. Qed.
Lemma keeps_syn i s : keeps_app s (tcp_send_syn i s).
Proof. unfold tcp_send_syn. cbv zeta. etrans; [|apply keeps_tcp_send]. done. Qed.
Lemma keeps_synack i s : keeps_app s (tcp_send_synack i s).
Proof. unfold tcp_send_synack. etrans; [|apply keeps_syn]. done. Qed.
#[local] Hint Resolve keeps_noopts keeps_nodata keeps_send_ack keeps_finack keeps_syn keeps_synack : keeps.
Lemma keeps_apprexmit i s : keeps_app s (apprexmit i s).
Proof. unfold apprexmit. keeps. Qed.
Lemma keeps_app_data i s : keeps_app s (app_data i s).
Proof. unfold app_data. keeps. Qed.
#[local] Hint Resolve keeps_apprexmit keeps_app_data : keeps.
Lemma keeps_appsend i s : keeps_app s (appsend i s).
Proof. unfold appsend. keeps. Qed.
Lemma keeps_reset s : keeps_app s (reset s).
Proof. unfold reset. keeps. Qed.
Lemma keeps_process_ack i s : keeps_app s (process_ack i s).
Proof. unfold process_ack. keeps. Qed.
Lemma keeps_process_push s : keeps_app s (process_push s).
Proof. unfold process_push. keeps. Qed.
Lemma keeps_parse_mss i s s' : parse_mss i s = Some s' -> keeps_app s s'.
Proof.
  unfold parse_mss. case_match; [|by intros [= <-]].
  destruct (parse_options _ _ _ _) as [[v|]|]; intros [= <-]; [|done]. by apply keeps_upd_conn.
Qed.
Lemma keeps_take_data i s : keeps_app s (take_data i s).
Proof.
  unfold take_data. cbv zeta. etrans; [|by apply keeps_upd_conn]. keeps.
Qed.
Lemma keeps_listen_block i s : keeps_app s (listen_block i s).
Proof. unfold listen_block. keeps. Qed.
Lemma keeps_ip_send_nolen s : keeps_app s (ip_send_nolen s).
Proof. exact (conj eq_refl (conj eq_refl eq_refl)). Qed.
#[local] Hint Resolve keeps_ip_send_nolen : keeps.
Lemma keeps_udp_send s : keeps_app s (udp_send s).
Proof. unfold udp_send. keeps. Qed.
Lemma keeps_icmp_input s : keeps_app s (icmp_input s).
Proof. unfold icmp_input. keeps. Qed.
End operations.
#[export] Hint Resolve keeps_drop keeps_send keeps_noconn keeps_tcp_send keeps_add_rcv_nxt keeps_increment
  keeps_noopts keeps_nodata keeps_send_ack keeps_finack keeps_syn keeps_synack keeps_apprexmit keeps_app_data
  keeps_appsend keeps_reset keeps_process_ack keeps_process_push keeps_take_data keeps_listen_block keeps_udp_send
  keeps_icmp_input : keeps.

(** ** A property of the environment and the records *)

Section invariant.
Context {E : Type} `{UipEnvWf E} (P : uip_state E -> Prop).
Context (P_keeps : forall s t, keeps_app s t -> P s -> P t).
Context (P_APPCALL : forall s, uip_wf s -> P s -> P (UIP_APPCALL s)).
Context (P_igmp_in : forall s, uip_wf s -> P s -> P (igmp_in s)).
Implicit Types s t : uip_state E.

(** Through calls of the application, and everything else. *)
Ltac holds_step :=
  lazymatch goal with
  | |- P (UIP_APPCALL _) => apply P_APPCALL; [safe|]
  | |- P (igmp_in _) => apply P_igmp_in; [safe|]
  | |- P (if _ then _ else _) => case_match
  | |- P (match _ with _ => _ end) => case_match
  | |- P (let _ := _ in _) => cbv zeta
  | |- P (upd_conn ?i ?f ?t) => apply (P_keeps t); [by apply keeps_upd_conn|]
  | |- P (upd_udp_conn ?i ?f ?t) => apply (P_keeps t); [by apply keeps_upd_udp_conn|]
  | |- P (upd_cur_udp_conn ?f ?t) => apply (P_keeps t); [by apply keeps_cur_udp_conn|]
  | |- P (mem ?f ?t) => apply (P_keeps t); [exact (conj eq_refl (conj eq_refl eq_refl))|]
  | |- P (set_field ?p ?f ?t) => apply (P_keeps t); [exact (conj eq_refl (conj eq_refl eq_refl))|]
  | |- P (?g ?t) => apply (P_keeps t); [solve [auto with keeps]|]
  | _ => done
  end.
Ltac holds := repeat holds_step.

Lemma tcp_switch_holds i s s' : uip_wf s -> P s -> tcp_switch i s = Some s' -> P s'.
Proof.
  intros Hs Hp. unfold tcp_switch. cbv zeta.
  destruct (_ =? UIP_SYN_RCVD); [intros [= <-]; unfold in_SYN_RCVD; holds|].
  destruct (_ =? UIP_SYN_SENT).
  { unfold in_SYN_SENT. case_match.
    - destruct (parse_mss i s) as [s1|] eqn:Em; [|done]. intros [= <-].
      pose proof (parse_mss_wf i s s1 Hs Em). apply keeps_parse_mss in Em. assert (P s1) by by eapply P_keeps.
      holds. apply wf_upd_conn; [safe|].
      intros []; constructor; ssimpl; auto. apply rd4_ok. by apply wf_buf.
    - intros [= <-]. holds. }
  destruct (_ =? UIP_ESTABLISHED).
  { intros [= <-]. pose proof (take_data_wf i s Hs). unfold in_ESTABLISHED. holds. }
  destruct (_ =? UIP_LAST_ACK); [intros [= <-]; unfold in_LAST_ACK; holds|].
  destruct (_ =? UIP_FIN_WAIT_1).
  { intros [= <-]. unfold in_FIN_WAIT_1. cbv zeta.
    set (s1 := if _ : bool then _ else s). assert (uip_wf s1) by (unfold s1; safe).
    assert (P s1) by (unfold s1; holds). clearbody s1. holds. }
  destruct (_ =? UIP_FIN_WAIT_2).
  { intros [= <-]. unfold in_FIN_WAIT_2. cbv zeta.
    set (s1 := if _ : bool then _ else s). assert (uip_wf s1) by (unfold s1; safe).
    assert (P s1) by (unfold s1; holds). clearbody s1. holds. }
  destruct (_ =? UIP_TIME_WAIT); [intros [= <-]; holds|].
  destruct (_ =? UIP_CLOSING); intros [= <-]; unfold in_CLOSING; holds.
Qed.

Lemma found_holds i s s' : uip_wf s -> (i < UIP_CONNS)%nat -> P s -> found i s = Some s' -> P s'.
Proof.
  intros Hs Hi Hp. unfold found. cbv zeta. case_match; [intros [= <-]; holds|].
  case_match; [intros [= <-]; holds|]. apply tcp_switch_holds.
  - apply process_push_wf, process_ack_wf. safe.
  - holds.
Qed.
Lemma found_listen_holds s s' : P s -> found_listen s = Some s' -> P s'.
Proof.
  intros Hp. unfold found_listen. destruct (find_free_conn _ _ _) as [i|]; [|intros [= <-]; holds].
  destruct (parse_mss i _) as [s2|] eqn:Em; [|done]. intros [= <-]. apply keeps_parse_mss in Em.
  assert (P s2) by (eapply P_keeps; [exact Em|holds]). holds.
Qed.
Lemma tcp_input_holds s s' : uip_wf s -> P s -> tcp_input s = Some s' -> P s'.
Proof.
  intros Hs Hp. unfold tcp_input. cbv zeta. case_match; [intros [= <-]; holds|].
  destruct (find_index _ (uip_conns s)) as [i|] eqn:Ef.
  { apply found_holds; [done| |done]. by eapply find_conn_lt. }
  case_match; [intros [= <-]; holds|].
  case_match; [by apply found_listen_holds|]. intros [= <-]. holds.
Qed.

Lemma udp_found_listener_holds s : uip_wf s -> P s -> P (udp_found_listener s).
Proof. intros Hs Hp. unfold udp_found_listener. holds. Qed.
Lemma udp_input_holds s : uip_wf s -> P s -> P (udp_input s).
Proof.
  intros Hs Hp. unfold udp_input. cbv zeta.
  set (s1 := s <| uip_len ::= _ |> <| uip_appdata := _ |>).
  assert (uip_wf s1) as Hs1 by (unfold s1; safe). assert (P s1) as Hp1 by (unfold s1; holds). clearbody s1.
  case_match; [holds|].
  destruct (find_index _ (uip_udp_conns s1)) as [i|] eqn:Ef.
  { apply udp_found_listener_holds; [|holds]. apply wf_set_flags. by eapply set_udp_conn_wf. }
  assert (uip_wf (s1 <| uip_udp_conn := Some UIP_UDP_CONNS |>)) as Hs2 by (by apply wf_set_udp_conn).
  case_match; [|holds].
  destruct (find_index (fun c => udp_lport c =? 0) _) as [i|] eqn:Eu; [|holds].
  apply udp_found_listener_holds; [|holds]. apply wf_set_flags, wf_upd_udp_conn; [by eapply set_udp_conn_wf|].
  pose proof (wf_buf s1 Hs1). conn_field.
Qed.
Lemma udp_event_holds flag s : uip_wf s -> P s -> P (udp_event flag s).
Proof.
  intros Hs Hp. unfold udp_event. case_match; [|holds]. cbv zeta. holds_step. apply P_APPCALL; [|holds].
  case_match; [|safe]. apply udp_flag_wf; [|safe]. intros x. apply lxor_u8; const_range.
Qed.
Lemma udp_arp_event_holds s : uip_wf s -> P s -> P (udp_arp_event s).
Proof.
  intros Hs Hp. unfold udp_arp_event. case_match; [|holds]. cbv zeta. holds_step. apply P_APPCALL; [|holds].
  apply udp_flag_wf; [|safe]. intros x. apply lxor_u8; const_range.
Qed.

Lemma ip_accept_holds s s' : uip_wf s -> P s -> ip_accept s = Some s' -> P s'.
Proof.
  intros Hs Hp. unfold ip_accept. cbv zeta. case_match; [intros [= <-]; holds|].
  case_match; [by apply tcp_input_holds|].
  repeat case_match; intros [= <-]; try (by apply udp_input_holds); holds.
Qed.
Lemma ip_input_holds s s' : uip_wf s -> P s -> ip_input s = Some s' -> P s'.
Proof.
  intros Hs Hp. unfold ip_input. cbv zeta. case_match; [intros [= <-]; holds|].
  case_match; [intros [= <-]; holds|]. set (s1 := s <| uip_len := _ |>).
  assert (uip_wf s1) by (apply wf_set_len; [done|apply ip_length_u16, (wf_buf s Hs)]).
  assert (P s1) by (unfold s1; holds). clearbody s1.
  repeat (case_match; [first [by apply ip_accept_holds|intros [= <-]; first [by apply udp_input_holds|holds]]|]).
  by apply ip_accept_holds.
Qed.

Lemma timer_event_holds i s : uip_wf s -> P s -> P (uip_timer_event i s).
Proof.
  intros Hs Hp. unfold uip_timer_event. cbv zeta. set (s1 := set_field uip_slen _ _).
  assert (uip_wf s1) by (unfold s1; safe). assert (P s1) by (unfold s1; holds). clearbody s1.
  unfold retransmit. cbv zeta. holds.
Qed.
Lemma poll_request_holds i s : uip_wf s -> P s -> P (uip_poll_request i s).
Proof. intros Hs Hp. unfold uip_poll_request. holds. Qed.

Lemma uip_process_holds flag s s' : uip_wf s -> P s -> uip_process flag s = Some s' -> P s'.
Proof.
  intros Hs Hp. unfold uip_process. cbv zeta.
  destruct (flag =? UIP_UDP_SEND_CONN); [intros [= <-]; holds|].
  set (s1 := set_field uip_appdata _ _). assert (uip_wf s1) by (unfold s1; safe).
  assert (P s1) by (unfold s1; holds). clearbody s1.
  destruct (flag =? UIP_POLL_REQUEST).
  { destruct (uip_conn s) as [i|]; intros [= <-]; [by apply poll_request_holds|done]. }
  destruct (flag =? UIP_TIMER).
  { destruct (uip_conn s) as [i|]; intros [= <-]; [by apply timer_event_holds|done]. }
  destruct (_ || _); [intros [= <-]; by apply udp_event_holds|].
  destruct (flag =? UIP_UDP_ARP_EVENT); [intros [= <-]; by apply udp_arp_event_holds|].
  by apply ip_input_holds.
Qed.
End invariant.
