(* ===== verification/UipSegment.v ===== *)
(** * Segments on an open connection

    What the labels from [found] on do with one segment: acknowledgements,
    data in order and out of order, resets, the end of the handshake; and what
    [ip_input] refuses to look at. *)
From S2P Require Export UipTcp.
Local Open Scope Z_scope.

(** A segment that acknowledges everything in transit. *)
Definition acks {E} (i : nat) (s : uip_state E) : bool :=
  let c := conn_at i s in
  tst (rd8 (uip_buf s) BUF.flags) TCP_ACK && negb (len c =? 0)
  && xtcp_compare_words (rd4 (uip_buf s) BUF.ackno) (uip_add32 (snd_nxt c) (len c)).

(** The length of the TCP header and of the payload, as [found] computes it. *)
Definition tcp_hlen (b : list Z) : Z := w8 (Z.shiftl (Z.shiftr (rd8 b BUF.tcpoffset) 4) 2).
Definition tcp_len {E} (s : uip_state E) : Z := w16 (uip_len s - tcp_hlen (uip_buf s) - UIP_IPH_LEN).

Section segments.
Context {E : Type} `{UipEnv E}.
Implicit Types s : uip_state E.

Lemma conn_lt s i : uip_wf s -> (i < UIP_CONNS)%nat -> (i < length (uip_conns s))%nat.
Proof. intros Hs. by rewrite (wf_conns_len s Hs). Qed.

(** The acknowledgement number, as a number. *)
Lemma acks_spec i s : uip_wf s -> acks i s = true ->
  tst (rd8 (uip_buf s) BUF.flags) TCP_ACK = true /\ len (conn_at i s) <> 0 /\
  be32 (rd4 (uip_buf s) BUF.ackno)
    = (be32 (snd_nxt (conn_at i s)) + len (conn_at i s)) mod 4294967296.
Proof.
  intros Hs. unfold acks. cbv zeta. destruct (wf_conn_at s i Hs).
  rewrite !andb_true_iff, negb_true_iff, Z.eqb_neq. intros [[Ha Hl] Hc].
  apply xtcp_compare_words_spec in Hc; [|apply rd4_ok, (wf_buf s Hs)|apply uip_add32_ok].
  rewrite Hc. split; [done|]. split; [done|]. by apply uip_add32_be32.
Qed.

Lemma process_ack_no i s : acks i s = false -> process_ack i s = s.
Proof.
  unfold acks, process_ack. cbv zeta. destruct (tst _ _ && _); [|done]. cbn [andb]. by intros ->.
Qed.

(** The connection block after an acknowledgement. *)
Definition acked_block (c : uip_conn_t) : uip_conn_t :=
  let c := c <| snd_nxt := uip_add32 (snd_nxt c) (len c) |> in
  let c := if nrtx c =? 0 then rtt_estimate c else c in
  c <| timer := rto c |> <| len := 0 |>.

Lemma process_ack_yes i s : uip_wf s -> (i < UIP_CONNS)%nat -> acks i s = true ->
  let s' := process_ack i s in
  conn_at i s' = acked_block (conn_at i s) /\ (forall j, j <> i -> conn_at j s' = conn_at j s) /\
  uip_flags s' = UIP_ACKDATA /\ uip_buf s' = uip_buf s /\ uip_len s' = uip_len s /\
  uip_appdata s' = uip_appdata s /\ uip_conn s' = uip_conn s /\ env s' = env s.
Proof.
  intros Hs Hi Ha s'. pose proof (conn_lt s i Hs Hi) as Hl.
  assert (s' = (upd_conn i (fun c => c <| timer := rto c |> <| len := 0 |>)
    (let s1 := upd_conn i (fun c => c <| snd_nxt := uip_add32 (snd_nxt (conn_at i s)) (len (conn_at i s)) |>) s in
     (if nrtx (conn_at i s1) =? 0 then upd_conn i rtt_estimate s1 else s1)
       <| uip_flags := UIP_ACKDATA |>))) as ->.
  { unfold s', process_ack, acks in *. cbv zeta in *. destruct (tst _ _ && _); [|done].
    cbn [andb] in Ha. by rewrite Ha. }
  cbv zeta. set (s1 := upd_conn i _ s).
  assert (conn_at i s1 = (conn_at i s) <| snd_nxt := uip_add32 (snd_nxt (conn_at i s)) (len (conn_at i s)) |>)
    as H1 by (unfold s1; by rewrite conn_at_upd_eq).
  assert (forall j, j <> i -> conn_at j s1 = conn_at j s) as Hj
    by (intros; unfold s1; by rewrite conn_at_upd_ne).
  assert (length (uip_conns s1) = length (uip_conns s)) as Hl1 by apply length_conns_upd.
  rewrite H1. unfold acked_block. cbv zeta. ssimpl.
  destruct (nrtx (conn_at i s) =? 0) eqn:En.
  - split.
    + rewrite conn_at_upd_eq by (ssimpl; rewrite length_alter; lia).
      change (conn_at i ((upd_conn i rtt_estimate s1) <| uip_flags := UIP_ACKDATA |>))
        with (conn_at i (upd_conn i rtt_estimate s1)).
      rewrite conn_at_upd_eq by lia. by rewrite H1.
    + split; [|done]. intros j Hji. rewrite conn_at_upd_ne by done.
      change (conn_at j ((upd_conn i rtt_estimate s1) <| uip_flags := UIP_ACKDATA |>))
        with (conn_at j (upd_conn i rtt_estimate s1)).
      rewrite conn_at_upd_ne by done. by apply Hj.
  - split.
    + rewrite conn_at_upd_eq by (ssimpl; lia).
      change (conn_at i (s1 <| uip_flags := UIP_ACKDATA |>)) with (conn_at i s1). by rewrite H1.
    + split; [|done]. intros j Hji. rewrite conn_at_upd_ne by done. by apply Hj.
Qed.

(** C13: acknowledgements.  A segment that acknowledges exactly what is in
    transit advances [snd_nxt] by it, clears the outstanding length and restarts
    the timer from the retransmission timeout, whose estimate is updated only if
    nothing was retransmitted; any other acknowledgement number, old, partial or
    from the future, changes nothing.  Other connections are untouched. *)
Theorem process_ack_spec i s : uip_wf s -> (i < UIP_CONNS)%nat ->
  let c := conn_at i s in let s' := process_ack i s in let c' := conn_at i s' in
  (acks i s = false -> s' = s) /\
  (acks i s = true ->
     be32 (rd4 (uip_buf s) BUF.ackno) = (be32 (snd_nxt c) + len c) mod 4294967296 /\
     be32 (snd_nxt c') = be32 (rd4 (uip_buf s) BUF.ackno) /\
     len c' = 0 /\ timer c' = rto c' /\ (nrtx c <> 0 -> rto c' = rto c /\ sa c' = sa c /\ sv c' = sv c) /\
     rcv_nxt c' = rcv_nxt c /\ tcpstateflags c' = tcpstateflags c /\
     uip_flags s' = UIP_ACKDATA /\ forall j, j <> i -> conn_at j s' = conn_at j s).
Proof.
  intros Hs Hi c s' c'. split; [apply process_ack_no|]. intros Ha.
  destruct (acks_spec i s Hs Ha) as (_ & Hl & Hn). fold c in Hl, Hn.
  destruct (process_ack_yes i s Hs Hi Ha) as (Hc & Hj & Hf & _). fold s' c' in Hc, Hj, Hf. fold c in Hc.
  pose proof (wf_conn_at s i Hs) as Hw. fold c in Hw.
  split; [done|]. rewrite Hn, Hc. unfold acked_block. cbv zeta.
  set (c1 := c <| snd_nxt := _ |>).
  assert (be32 (snd_nxt c1) = (be32 (snd_nxt c) + len c) mod 4294967296) as H1.
  { unfold c1. ssimpl. apply uip_add32_be32; apply Hw. }
  rewrite <- H1. change (nrtx c1) with (nrtx c).
  destruct (Z.eqb_spec (nrtx c) 0); unfold rtt_estimate; cbv zeta; ssimpl;
    repeat (split; [done|]); auto.
Qed.

(** ** The ways through [found] *)

(** The state in which the sequence number is checked. *)
Definition segment_state (i : nat) s : uip_state E :=
  (s <| uip_conn := Some i |> <| uip_flags := 0 |>) <| uip_len := tcp_len s |>.

Lemma segment_state_wf i s : uip_wf s -> (i < UIP_CONNS)%nat -> uip_wf (segment_state i s).
Proof.
  intros. unfold segment_state. apply wf_set_len; [|apply w16_u16].
  apply wf_set_flags. by apply wf_set_conn.
Qed.

Lemma found_no_rst i s : tst (rd8 (uip_buf s) BUF.flags) TCP_RST = false ->
  found i s = if bad_seqno i (segment_state i s) then Some (tcp_send_ack i (segment_state i s))
              else tcp_switch i (process_push (process_ack i (segment_state i s))).
Proof.
  intros Hr. unfold found. cbv zeta.
  change (uip_buf (s <| uip_conn := Some i |> <| uip_flags := 0 |>)) with (uip_buf s).
  rewrite Hr. reflexivity.
Qed.

(** Reset.  A segment with the RST flag closes the connection it belongs to,
    tells the application so, and is not answered. *)
Theorem found_reset i s : uip_wf s -> (i < UIP_CONNS)%nat ->
  tst (rd8 (uip_buf s) BUF.flags) TCP_RST = true ->
  exists s1, found i s = Some (drop (UIP_APPCALL s1)) /\
    uip_conn s1 = Some i /\ uip_flags s1 = UIP_ABORT /\ env s1 = env s /\
    tcpstateflags (conn_at i s1) = UIP_CLOSED /\
    forall j, j <> i -> conn_at j s1 = conn_at j s.
Proof.
  intros Hs Hi Hr. unfold found. cbv zeta.
  change (uip_buf (s <| uip_conn := Some i |> <| uip_flags := 0 |>)) with (uip_buf s). rewrite Hr.
  eexists. split; [reflexivity|]. do 3 (split; [done|]).
  set (s0 := s <| uip_conn := Some i |> <| uip_flags := 0 |>).
  change (tcpstateflags (conn_at i (upd_conn i (fun c => c <| tcpstateflags := UIP_CLOSED |>) s0)) = UIP_CLOSED /\
    forall j, j <> i -> conn_at j (upd_conn i (fun c => c <| tcpstateflags := UIP_CLOSED |>) s0) = conn_at j s).
  rewrite conn_at_upd_eq by exact (conn_lt s i Hs Hi). split; [done|].
  intros. by rewrite conn_at_upd_ne.
Qed.

(** The pure acknowledgement. *)
Lemma send_ack_rest i s : let s' := tcp_send_ack i s in
  uip_conns s' = uip_conns s /\ env s' = env s /\ uip_len s' = UIP_IPTCPH_LEN.
Proof.
  unfold tcp_send_ack, tcp_send_nodata, tcp_send_noopts. cbv zeta.
  match goal with |- context [tcp_send i ?x] => set (s1 := x) end.
  rewrite (tcp_send_rest i s1). repeat split.
Qed.

Lemma send_ack_segment i s : uip_wf s ->
  segment (uip_buf (tcp_send_ack i s)) = conn_segment (uip_hostaddr s) (conn_at i s) 0x50 TCP_ACK.
Proof.
  intros Hs. pose proof (buf_len s Hs). unfold tcp_send_ack, tcp_send_nodata, tcp_send_noopts.
  match goal with |- context [tcp_send i ?x] => set (s1 := x) end.
  assert (uip_wf s1) as Hs1 by (unfold s1; wf_auto).
  destruct (tcp_send_fields i s1 Hs1) as (-> & _).
  assert (rd8 (uip_buf s1) BUF.tcpoffset = 0x50 /\ rd8 (uip_buf s1) BUF.flags = TCP_ACK) as [-> ->]
    by (unfold s1, BUF.tcpoffset, BUF.flags; ssimpl; by fld).
  reflexivity.
Qed.

(** A segment out of order is not delivered.  Unless the connection is
    waiting for this very SYN/ACK, a segment that occupies sequence space and
    does not start at [rcv_nxt] is answered by a pure acknowledgement of
    [rcv_nxt]; no connection changes and the application is not called. *)
Theorem found_out_of_order i s : uip_wf s -> (i < UIP_CONNS)%nat ->
  tst (rd8 (uip_buf s) BUF.flags) TCP_RST = false -> bad_seqno i (segment_state i s) = true ->
  exists s', found i s = Some s' /\ uip_conns s' = uip_conns s /\ env s' = env s /\
    uip_len s' = UIP_IPTCPH_LEN /\
    segment (uip_buf s') = conn_segment (uip_hostaddr s) (conn_at i s) 0x50 TCP_ACK.
Proof.
  intros Hs Hi Hr Hb. rewrite found_no_rst, Hb by done. eexists. split; [reflexivity|].
  pose proof (segment_state_wf i s Hs Hi) as Hw.
  rewrite (send_ack_segment i _ Hw).
  destruct (send_ack_rest i (segment_state i s)) as (-> & -> & ->). done.
Qed.

(** ** Data in order *)

(** The block after new data: the next number expected, and the send window. *)
Definition data_block (b : list Z) (n : Z) (c : uip_conn_t) : uip_conn_t :=
  let wnd := w16 (Z.shiftl (rd8 b BUF.wnd) 8 + rd8 b (BUF.wnd + 1)) in
  c <| rcv_nxt := uip_add32 (rcv_nxt c) (w16 n) |>
    <| mss := if (initialmss c <? wnd) || (wnd =? 0) then initialmss c else wnd |>.

Lemma take_data_new i s : uip_wf s -> (i < UIP_CONNS)%nat -> uip_conn s = Some i ->
  tst (rd8 (uip_buf s) BUF.flags) TCP_URG = false -> 0 < uip_len s ->
  tst (tcpstateflags (conn_at i s)) UIP_STOPPED = false ->
  let s' := take_data i s in
  conn_at i s' = data_block (uip_buf s) (uip_len s) (conn_at i s) /\
  (forall j, j <> i -> conn_at j s' = conn_at j s) /\
  uip_flags s' = Z.lor UIP_NEWDATA (uip_flags s) /\ uip_buf s' = uip_buf s /\
  uip_len s' = uip_len s /\ uip_appdata s' = uip_appdata s /\ uip_conn s' = uip_conn s /\
  env s' = env s.
Proof.
  intros Hs Hi Hc Hu Hl%Z.ltb_lt Hst s'. unfold s', take_data. cbv zeta.
  rewrite Hu, Hl, Hst. cbn [negb andb]. unfold uip_add_rcv_nxt. ssimpl. rewrite Hc.
  set (s1 := s <| uip_flags ::= Z.lor UIP_NEWDATA |>).
  pose proof (conn_lt s i Hs Hi) as Hlt. split; [|split; [|done]].
  - rewrite conn_at_upd_eq by (rewrite length_conns_upd; exact Hlt).
    rewrite conn_at_upd_eq by exact Hlt. reflexivity.
  - intros j Hj. by rewrite !conn_at_upd_ne.
Qed.

(** The state in which the application receives data. *)
Record delivered (i : nat) s s1 : Prop := {
  dl_len : uip_len s1 = tcp_len s;
  dl_buf : uip_buf s1 = uip_buf s;
  dl_appdata : uip_appdata s1 = uip_appdata s;
  dl_newdata : tst (uip_flags s1) UIP_NEWDATA = true;
  dl_ackdata : tst (uip_flags s1) UIP_ACKDATA = acks i s;
  dl_slen : uip_slen s1 = 0;
  dl_conn : uip_conn s1 = Some i;
  dl_rcv_nxt : be32 (rcv_nxt (conn_at i s1))
    = (be32 (rcv_nxt (conn_at i s)) + tcp_len s) mod 4294967296;
  dl_state : tcpstateflags (conn_at i s1) = UIP_ESTABLISHED;
  dl_env : env s1 = env s;
  dl_others : forall j, j <> i -> conn_at j s1 = conn_at j s }.

Lemma acked_block_state c : tcpstateflags (acked_block c) = tcpstateflags c.
Proof. unfold acked_block, rtt_estimate. cbv zeta. by case_match. Qed.
Lemma acked_block_rcv c : rcv_nxt (acked_block c) = rcv_nxt c.
Proof. unfold acked_block, rtt_estimate. cbv zeta. by case_match. Qed.

(** The connection after [process_ack], whether or not it acknowledges. *)
Lemma after_ack i s : uip_wf s -> (i < UIP_CONNS)%nat -> uip_flags s = 0 ->
  let s' := process_push (process_ack i s) in
  uip_wf s' /\ tcpstateflags (conn_at i s') = tcpstateflags (conn_at i s) /\
  rcv_nxt (conn_at i s') = rcv_nxt (conn_at i s) /\ uip_buf s' = uip_buf s /\
  uip_len s' = uip_len s /\ uip_appdata s' = uip_appdata s /\ uip_conn s' = uip_conn s /\
  env s' = env s /\ (forall j, j <> i -> conn_at j s' = conn_at j s) /\
  let a := if acks i s then UIP_ACKDATA else 0 in
  (uip_flags s' = a \/ uip_flags s' = Z.lor UIP_TCP_PUSH a).
Proof.
  intros Hs Hi Hf s'. assert (uip_wf s') as Hw by (by apply process_push_wf, process_ack_wf).
  split; [done|]. clear Hw. unfold s'.
  destruct (acks i s) eqn:Ea.
  - destruct (process_ack_yes i s Hs Hi Ea) as (Hc & Hj & Hfl & Hb & Hl & Ha & Hco & He).
    set (s1 := process_ack i s) in *. clearbody s1. cbv zeta. rewrite <- Hfl, <- Hb, <- Hl, <- Ha, <- Hco, <- He.
    rewrite <- (acked_block_state (conn_at i s)), <- (acked_block_rcv (conn_at i s)), <- Hc.
    unfold process_push. case_match; auto 20.
  - rewrite (process_ack_no i s Ea). cbv zeta. rewrite <- Hf.
    unfold process_push. case_match; auto 20.
Qed.

(** C5: data in order.  On an established connection a segment that starts at
    [rcv_nxt] and carries data and no SYN, FIN, RST or URG is handed to the
    application exactly once: [uip_len] is the payload length, [NEWDATA] is
    set, [ACKDATA] tells whether it also acknowledges our data, [rcv_nxt] has
    advanced over the payload; then the application's answer is sent. *)
Theorem found_in_order i s : uip_wf s -> (i < UIP_CONNS)%nat ->
  tcpstateflags (conn_at i s) = UIP_ESTABLISHED ->
  tst (rd8 (uip_buf s) BUF.flags) TCP_RST = false ->
  tst (rd8 (uip_buf s) BUF.flags) TCP_FIN = false ->
  tst (rd8 (uip_buf s) BUF.flags) TCP_URG = false ->
  0 < tcp_len s -> rd4 (uip_buf s) BUF.seqno = rcv_nxt (conn_at i s) ->
  exists s1, found i s = Some (appsend i (UIP_APPCALL s1)) /\ delivered i s s1.
Proof.
  intros Hs Hi Hst Hr Hf Hu Hl Hq. rewrite found_no_rst by done.
  pose proof (segment_state_wf i s Hs Hi) as Hw. set (s0 := segment_state i s) in *.
  assert (bad_seqno i s0 = false) as ->.
  { unfold bad_seqno. change (uip_buf s0) with (uip_buf s). change (conn_at i s0) with (conn_at i s).
    rewrite <- Hq, (proj2 (xtcp_compare_words_spec _ _ (rd4_ok _ _ (wf_buf s Hs)) (rd4_ok _ _ (wf_buf s Hs))) eq_refl).
    by rewrite andb_false_r. }
  destruct (after_ack i s0 Hw Hi eq_refl) as (Hw1 & Hst1 & Hrn & Hb & Hln & Ha & Hc & He & Hj & Hfl).
  set (s1 := process_push (process_ack i s0)) in *. clearbody s1.
  change (tcpstateflags (conn_at i s0)) with (tcpstateflags (conn_at i s)) in Hst1. rewrite Hst in Hst1.
  unfold tcp_switch. rewrite Hst1. cbv zeta. cbn [Z.eqb Z.land Pos.eqb].
  destruct (take_data_new i s1) as (Td & Tj & Tf & Tb & Tl & Ta & Tc & Te); try done.
  { by rewrite Hb. } { by rewrite Hln. } { by rewrite Hst1. }
  unfold in_ESTABLISHED. rewrite Hb. change (uip_buf s0) with (uip_buf s). rewrite Hf. cbn [negb andb].
  set (s2 := take_data i s1) in *. clearbody s2.
  assert (tst (uip_flags s2) UIP_NEWDATA = true /\ tst (uip_flags s2) UIP_ACKDATA = acks i s /\
    tst (uip_flags s2) (Z.lor UIP_NEWDATA UIP_ACKDATA) = true) as (F1 & F2 & ->).
  { rewrite Tf. change (acks i s0) with (acks i s) in Hfl.
    destruct (acks i s), Hfl as [-> | ->]; done. }
  eexists. split; [reflexivity|].
  assert (rcv_nxt (conn_at i s2) = uip_add32 (rcv_nxt (conn_at i s)) (tcp_len s)) as Hrcv.
  { rewrite Td. unfold data_block. ssimpl. rewrite Hrn, Hln.
    change (uip_len s0) with (tcp_len s). by rewrite w16_small by apply w16_u16. }
  constructor; try done.
  - ssimpl. by rewrite Tl, Hln.
  - ssimpl. by rewrite Tb, Hb.
  - ssimpl. by rewrite Ta, Ha.
  - ssimpl. by rewrite Tc, Hc.
  - change (be32 (rcv_nxt (conn_at i s2)) = (be32 (rcv_nxt (conn_at i s)) + tcp_len s) mod 4294967296).
    rewrite Hrcv. apply uip_add32_be32. by apply cwf_rcv_nxt, wf_conn_at.
  - change (tcpstateflags (conn_at i s2) = UIP_ESTABLISHED). by rewrite Td.
  - ssimpl. by rewrite Te, He.
  - intros j Hne. change (conn_at j s2 = conn_at j s). by rewrite Tj, Hj.
Qed.

(** ** The end of the handshake *)

(** Without the acknowledgement of the SYN, a half-open connection does not get
    through the [switch]. *)
Lemma half_open_no_ack i s s' `{!UipEnvStates E} : uip_conn s = Some i ->
  tst (uip_flags s) UIP_ACKDATA = false ->
  states s !! i = Some UIP_SYN_RCVD \/ states s !! i = Some UIP_SYN_SENT ->
  tcp_switch i s = Some s' -> states s' !! i <> Some UIP_ESTABLISHED.
Proof.
  intros Hc Ha Hor. unfold tcp_switch. cbv zeta. fold (st (conn_at i s)).
  destruct Hor as [Hi|Hi]; rewrite (st_conn_at i s _ Hi); cbn [Z.eqb Pos.eqb UIP_SYN_RCVD UIP_SYN_SENT].
  - intros [= <-]. unfold in_SYN_RCVD. rewrite Ha. change (states (drop s)) with (states s).
    by rewrite Hi.
  - unfold in_SYN_SENT. rewrite Ha. cbn [andb]. rewrite APPCALL_conn.
    change (uip_conn (s <| uip_flags := UIP_ABORT |>)) with (uip_conn s). rewrite Hc.
    intros [= <-]. st_norm. app_call. eapply opens_keep in Ho; [|exact Hi|done].
    rewrite list_lookup_insert_eq; [done|]. by eapply lookup_lt_Some.
Qed.

(** No connection without its acknowledgement.  If a segment takes a
    half-open connection (one that sent a SYN or a SYN/ACK) to [ESTABLISHED],
    it has the ACK flag, is no reset, and acknowledges exactly the sequence
    number after the SYN that was sent. *)
Theorem established_by_ack i s s' `{!UipEnvStates E} : uip_wf s -> (i < UIP_CONNS)%nat ->
  states s !! i = Some UIP_SYN_RCVD \/ states s !! i = Some UIP_SYN_SENT ->
  found i s = Some s' -> states s' !! i = Some UIP_ESTABLISHED ->
  tst (rd8 (uip_buf s) BUF.flags) TCP_RST = false /\
  tst (rd8 (uip_buf s) BUF.flags) TCP_ACK = true /\
  be32 (rd4 (uip_buf s) BUF.ackno)
    = (be32 (snd_nxt (conn_at i s)) + len (conn_at i s)) mod 4294967296.
Proof.
  intros Hs Hi Hor Hf He. destruct (tst (rd8 (uip_buf s) BUF.flags) TCP_RST) eqn:Hr.
  { unfold found in Hf. cbv zeta in Hf.
    change (uip_buf (s <| uip_conn := Some i |> <| uip_flags := 0 |>)) with (uip_buf s) in Hf.
    rewrite Hr in Hf. injection Hf as <-. revert He. st_norm. app_call.
    intros He. destruct (opens_only _ _ _ _ Ho He) as [?|He2]; [done|].
    rewrite list_lookup_insert_eq in He2; [done|]. destruct Hor as [Hx|Hx]; by eapply lookup_lt_Some. }
  split; [done|]. destruct (acks i s) eqn:Ea; [by destruct (acks_spec i s Hs Ea) as (? & _ & ?)|].
  exfalso. rewrite found_no_rst in Hf by done. set (s0 := segment_state i s) in *.
  assert (states s0 = states s) as Hs0 by done.
  destruct (bad_seqno i s0).
  { injection Hf as <-. revert He. st_norm. rewrite Hs0. destruct Hor as [-> | ->]; done. }
  rewrite process_ack_no in Hf by done. revert He. apply (half_open_no_ack i (process_push s0) s'); [| | |exact Hf].
  - unfold process_push. by destruct (tst (rd8 (uip_buf s0) BUF.flags) TCP_PSH).
  - unfold process_push. by destruct (tst (rd8 (uip_buf s0) BUF.flags) TCP_PSH).
  - by rewrite states_process_push.
Qed.

(** ** What is not looked at *)

(** The checks of [ip_input] and [tcp_input] a received packet can fail. *)
Definition malformed s : bool :=
  let b := uip_buf s in
  negb (rd8 b BUF.vhl =? 0x45) || negb (ip_length b <=? uip_len s)
  || negb (Z.land (rd8 b BUF.ipoffset) 0x3f =? 0) || negb (rd8 b (BUF.ipoffset + 1) =? 0)
  || negb ((rd8 b BUF.proto =? UIP_PROTO_UDP)
           && (uip_ipaddr_cmp (rd4 b BUF.destipaddr) all_ones_addr
               || uip_ipaddr_is_multicast (rd4 b BUF.destipaddr)))
     && (negb (uip_ipchksum b =? 0xffff)
         || (rd8 b BUF.proto =? UIP_PROTO_TCP) && negb (uip_tcpchksum b =? 0xffff)
         || negb (uip_ipaddr_cmp (uip_hostaddr s) all_zeroes_addr)
            && negb UIP_IGMP && negb (uip_ipaddr_cmp (rd4 b BUF.destipaddr) (uip_hostaddr s))).

Definition rejects s (r : option (uip_state E)) : Prop :=
  exists s', r = Some s' /\ uip_len s' = 0 /\ uip_flags s' = 0 /\
    uip_buf s' = uip_buf s /\ uip_conns s' = uip_conns s /\ uip_udp_conns s' = uip_udp_conns s /\
    uip_listenports s' = uip_listenports s /\ env s' = env s.

(** C36: a malformed packet (version, length, fragment, IP or TCP checksum, an
    address that is not ours) has no effect: nothing is sent, no connection, no
    listening port and no application state changes. *)
Theorem uip_input_malformed s : malformed s = true -> rejects s (uip_process UIP_DATA s).
Proof.
  unfold uip_process. cbn [Z.eqb UIP_DATA UIP_UDP_SEND_CONN Pos.eqb orb UIP_POLL_REQUEST UIP_TIMER
    UIP_UDP_TIMER UIP_UDP_ACKDATA UIP_UDP_ARP_EVENT]. cbv zeta.
  unfold malformed, ip_input, ip_accept, tcp_input. cbv zeta.
  cbn [set_field uip_buf uip_len uip_hostaddr].
  set (b := uip_buf s). set (dest := rd4 b BUF.destipaddr).
  assert (forall s1 : uip_state E, uip_buf s1 = b -> uip_conns s1 = uip_conns s ->
    uip_udp_conns s1 = uip_udp_conns s -> uip_listenports s1 = uip_listenports s ->
    env s1 = env s -> rejects s (Some (drop s1))) as Hd by (intros; by eexists).
  fold (rejects s). destruct (rd8 b BUF.vhl =? 69); cbn [negb orb]; [|by intros _; apply Hd].
  destruct (ip_length b <=? uip_len s); cbn [negb orb]; [|by intros _; apply Hd].
  destruct (Z.land (rd8 b BUF.ipoffset) 0x3f =? 0); cbn [negb orb]; [|by intros _; apply Hd].
  destruct (rd8 b (BUF.ipoffset + 1) =? 0); cbn [negb orb]; [|by intros _; apply Hd].
  destruct ((rd8 b BUF.proto =? UIP_PROTO_UDP) && _); cbn [negb andb orb]; [done|].
  destruct (uip_ipchksum b =? 0xffff), ((rd8 b BUF.proto =? UIP_PROTO_TCP)),
    (uip_tcpchksum b =? 0xffff), (uip_ipaddr_cmp (uip_hostaddr s) all_zeroes_addr), UIP_IGMP,
    (uip_ipaddr_cmp dest (uip_hostaddr s)); cbn [negb andb orb];
    try done; intros _; repeat case_match; by apply Hd.
Qed.
End segments.
