(* ===== verification/UipTimer.v ===== *)
(** * Time-outs

    The periodic timer decides when a connection that hears nothing is given
    up.  [ticks] runs the timer of one connection with no packet in between;
    the theorems count the ticks. *)
From S2P Require Export UipSegment.
Local Open Scope Z_scope.

Section timers.
Context {E : Type} `{UipEnvWf E}.
Implicit Types s : uip_state E.

Fixpoint ticks (n : nat) (i : nat) s : option (uip_state E) :=
  match n with
  | O => Some s
  | S n => match uip_periodic i s with Some s => ticks n i s | None => None end
  end.

Lemma ticks_snoc n i : forall s, ticks (S n) i s
  = match ticks n i s with Some s => uip_periodic i s | None => None end.
Proof.
  induction n as [|n IH]; intros s.
  - cbn [ticks]. by destruct (uip_periodic i s).
  - change (ticks (S (S n)) i s)
      with (match uip_periodic i s with Some s => ticks (S n) i s | None => None end).
    change (ticks (S n) i s)
      with (match uip_periodic i s with Some s => ticks n i s | None => None end).
    destruct (uip_periodic i s); [apply IH|done].
Qed.

(** A tick enters [uip_process] with the packet pointers reset. *)
Definition tick_start (i : nat) s : uip_state E :=
  s <| uip_conn := Some i |> <| uip_sappdata := UIP_IPTCPH_LEN + UIP_LLH_LEN |>
    <| uip_appdata := UIP_IPTCPH_LEN + UIP_LLH_LEN |>.
Lemma periodic_eq i s : uip_periodic i s = Some (uip_timer_event i (tick_start i s)).
Proof. reflexivity. Qed.
Lemma tick_start_wf i s : uip_wf s -> (i < UIP_CONNS)%nat -> uip_wf (tick_start i s).
Proof. intros. unfold tick_start. wf_auto. Qed.

(** ** A half-open connection *)

(** Connection [i] is in state [x] with its SYN unacknowledged; [t] is its
    timer, [n] the number of retransmissions. *)
Record half_open (i : nat) (x t n : Z) (e : E) s : Prop := {
  ho_wf : uip_wf s;
  ho_i : (i < UIP_CONNS)%nat;
  ho_state : tcpstateflags (conn_at i s) = x;
  ho_len : len (conn_at i s) <> 0;
  ho_timer : timer (conn_at i s) = t;
  ho_nrtx : nrtx (conn_at i s) = n;
  ho_env : env s = e }.

(** The countdown with exponential backoff. *)
Definition backoff (tn : Z * Z) : Z * Z :=
  let (t, n) := tn in
  if t =? 0 then (Z.shiftl UIP_RTO (if 4 <? n then 4 else n), n + 1) else (t - 1, n).

(** The state after the prologue of the timer event. *)
Definition timer_start s : uip_state E :=
  (xtcp_increment_word PTR_iss s) <| uip_len := 0 |> <| uip_slen := 0 |>.

Lemma timer_start_conns s : uip_conns (timer_start s) = uip_conns s.
Proof. done. Qed.
Lemma timer_start_wf s : uip_wf s -> uip_wf (timer_start s).
Proof. intros. unfold timer_start. do 2 wf_step. by apply increment_word_wf. Qed.

Definition half_open_state (x : Z) : Prop := x = UIP_SYN_SENT \/ x = UIP_SYN_RCVD.

Lemma tcp_send_conns i s : uip_conns (tcp_send i s) = uip_conns s /\ env (tcp_send i s) = env s.
Proof. by rewrite tcp_send_rest. Qed.

(** What a timer event does to a half-open connection before it gives up. *)
Lemma half_open_event i x t n e s : half_open i x t n e s -> half_open_state x -> 0 <= n <= 5 ->
  (t = 0 -> n <> 5) ->
  exists s1, half_open i x (fst (backoff (t, n))) (snd (backoff (t, n))) e s1 /\
    uip_timer_event i s = if t =? 0 then retransmit i s1 else drop s1.
Proof.
  intros [] Hx Hn Ht. pose proof (cwf_timer _ (wf_conn_at s i ho_wf0)) as Htu.
  unfold uip_timer_event. cbv zeta. fold (timer_start s). set (s0 := timer_start s).
  assert (uip_wf s0) as Hw by (by apply timer_start_wf).
  assert (length (uip_conns s0) = UIP_CONNS) as Hl by apply (wf_conns_len s0 Hw).
  change (conn_at i s0) with (conn_at i s). rewrite ho_state0, ho_timer0.
  assert ((x =? UIP_TIME_WAIT) || (x =? UIP_FIN_WAIT_2) = false) as -> by (by destruct Hx as [-> | ->]).
  assert (x =? UIP_CLOSED = false) as -> by (by destruct Hx as [-> | ->]).
  rewrite (proj2 (Z.eqb_neq _ _) ho_len0). cbn [negb].
  set (s1 := upd_conn i (fun c => c <| timer := w8 (t - 1) |>) s0).
  assert (conn_at i s1 = (conn_at i s) <| timer := w8 (t - 1) |>) as Hc1
    by (unfold s1; rewrite conn_at_upd_eq by lia; reflexivity).
  assert (uip_wf s1) as Hw1 by (unfold s1; wf_auto).
  unfold backoff. destruct (Z.eqb_spec t 0) as [->|Hz].
  - assert (gives_up (conn_at i s1) = false) as ->.
    { unfold gives_up. rewrite Hc1. ssimpl. rewrite ho_nrtx0.
      unfold UIP_MAXRTX, UIP_MAXSYNRTX. destruct (Z.eqb_spec n 8), (Z.eqb_spec n 5); lia. }
    eexists. split; [|reflexivity].
    set (f := fun c : uip_conn_t => c <| timer := w8 (Z.shiftl UIP_RTO (if 4 <? nrtx c then 4 else nrtx c)) |>
                <| nrtx := w8 (nrtx c + 1) |>).
    assert (conn_at i (upd_conn i f s1) = f (conn_at i s1)) as Hc2
      by (apply conn_at_upd_eq; unfold s1; rewrite length_conns_upd; lia).
    constructor; rewrite ?Hc2, ?Hc1; unfold f; ssimpl; rewrite ?ho_nrtx0; try done.
    + wf_auto.
    + assert (n = 0 \/ n = 1 \/ n = 2 \/ n = 3 \/ n = 4) as Hc by lia.
      by destruct Hc as [-> |[-> |[-> |[-> | ->]]]].
    + cbn [snd]. apply w8_small. unfold u8. lia.
  - exists s1. split; [|done]. cbn [fst snd].
    constructor; rewrite ?Hc1; ssimpl; try done. apply w8_small. unfold u8 in *. lia.
Qed.

Lemma retransmit_half_open i x s : tcpstateflags (conn_at i s) = x -> half_open_state x ->
  retransmit i s = if x =? UIP_SYN_RCVD then tcp_send_synack i s
                   else tcp_send_syn i (mem (wr8 BUF.flags 0) s).
Proof. intros Hc Hx. unfold retransmit. rewrite Hc. by destruct Hx as [-> | ->]. Qed.

Lemma retransmit_conns i x s : tcpstateflags (conn_at i s) = x -> half_open_state x ->
  uip_conns (retransmit i s) = uip_conns s /\ env (retransmit i s) = env s.
Proof.
  intros Hc Hx. rewrite (retransmit_half_open i x s Hc Hx).
  case_match; unfold tcp_send_synack, tcp_send_syn; cbv zeta;
    match goal with |- context [tcp_send i ?a] => exact (tcp_send_conns i a) end.
Qed.

Lemma half_open_tick i x t n e s : half_open i x t n e s -> half_open_state x -> 0 <= n <= 5 ->
  (t = 0 -> n <> 5) ->
  exists s', uip_periodic i s = Some s' /\
    half_open i x (fst (backoff (t, n))) (snd (backoff (t, n))) e s'.
Proof.
  intros Hh Hx Hn Ht. rewrite periodic_eq. eexists. split; [reflexivity|].
  assert (half_open i x t n e (tick_start i s)) as Hh'.
  { destruct Hh. constructor; auto. by apply tick_start_wf. }
  destruct (half_open_event i x t n e _ Hh' Hx Hn Ht) as (s1 & H1 & He).
  pose proof (timer_event_wf i _ (ho_wf _ _ _ _ _ _ Hh')) as Hw. rewrite He in *.
  destruct (t =? 0) eqn:Et.
  - destruct (retransmit_conns i x s1 (ho_state _ _ _ _ _ _ H1) Hx) as [Hc Hv].
    destruct H1. constructor; unfold conn_at in *; rewrite ?Hc, ?Hv; auto.
  - destruct H1. constructor; auto.
Qed.

(** The pure countdown over [k] ticks, never reaching the last time-out. *)
Fixpoint countdown (k : nat) (tn : Z * Z) : Z * Z :=
  match k with O => tn | S k => backoff (countdown k tn) end.
Definition running (tn : Z * Z) : bool :=
  (0 <=? snd tn) && (snd tn <=? 5) && negb ((fst tn =? 0) && (snd tn =? 5)).

Lemma half_open_ticks i x t n e s k : half_open i x t n e s -> half_open_state x ->
  forallb (fun j => running (countdown j (t, n))) (seq 0 k) = true ->
  exists s', ticks k i s = Some s' /\
    half_open i x (fst (countdown k (t, n))) (snd (countdown k (t, n))) e s'.
Proof.
  intros Hh Hx. induction k as [|k IH]; intros Hr; [by exists s|].
  rewrite seq_S, forallb_app, andb_true_iff in Hr. destruct Hr as [Hr Hk].
  destruct (IH Hr) as (s1 & H1 & Hh1). rewrite ticks_snoc, H1. cbn [countdown].
  cbn [forallb Nat.add] in Hk. destruct (countdown k (t, n)) as [t' n'].
  unfold running in Hk. cbn [fst snd] in *. apply (half_open_tick i x t' n' e); [done|done|lia|lia].
Qed.

(** The last tick: the application hears of it and the peer gets a RST. *)
Lemma half_open_gives_up i x e s : half_open i x 0 5 e s -> half_open_state x ->
  exists s1, uip_periodic i s
      = Some (tcp_send_nodata i (mem (wr8 BUF.flags (Z.lor TCP_RST TCP_ACK)) (UIP_APPCALL s1))) /\
    uip_flags s1 = UIP_TIMEDOUT /\ tcpstateflags (conn_at i s1) = UIP_CLOSED /\ env s1 = e.
Proof.
  intros [] Hx. rewrite periodic_eq. unfold uip_timer_event. cbv zeta.
  fold (timer_start (tick_start i s)). set (s0 := timer_start (tick_start i s)).
  assert (uip_wf s0) as Hw by (by apply timer_start_wf, tick_start_wf).
  assert (length (uip_conns s0) = UIP_CONNS) as Hl by apply (wf_conns_len s0 Hw).
  change (conn_at i s0) with (conn_at i s). rewrite ho_state0, ho_timer0.
  assert ((x =? UIP_TIME_WAIT) || (x =? UIP_FIN_WAIT_2) = false) as -> by (by destruct Hx as [-> | ->]).
  assert (x =? UIP_CLOSED = false) as -> by (by destruct Hx as [-> | ->]).
  rewrite (proj2 (Z.eqb_neq _ _) ho_len0). cbn [negb Z.eqb].
  set (s1 := upd_conn i (fun c => c <| timer := w8 (0 - 1) |>) s0).
  assert (conn_at i s1 = (conn_at i s) <| timer := w8 (0 - 1) |>) as Hc1
    by (unfold s1; rewrite conn_at_upd_eq by lia; reflexivity).
  assert (gives_up (conn_at i s1) = true) as ->.
  { unfold gives_up. rewrite Hc1. ssimpl. rewrite ho_nrtx0, ho_state0. by destruct Hx as [-> | ->]. }
  eexists. split; [reflexivity|]. split; [done|]. split; [|done].
  match goal with |- context [set_field uip_flags _ ?s2] =>
    change (tcpstateflags (conn_at i s2) = UIP_CLOSED) end.
  rewrite conn_at_upd_eq; [done|]. unfold s1. rewrite length_conns_upd. lia.
Qed.

(** C11: an unanswered SYN is given up after a fixed time.  A connection fresh
    from [uip_connect] (timer 1, no retransmission) or from [found_listen]
    (timer 3) that never hears of its peer stays half open for exactly 99 ticks
    more than its first timer value says, with the application undisturbed; on
    the next tick it is closed, the application is called once with
    [UIP_TIMEDOUT], and a reset goes to the peer. *)
Theorem half_open_timeout i x t s : half_open i x t 0 (env s) s ->
  x = UIP_SYN_SENT /\ t = 1 \/ x = UIP_SYN_RCVD /\ t = UIP_RTO ->
  let n := Z.to_nat (t + 98) in
  (forall k, (k <= n)%nat -> exists s', ticks k i s = Some s' /\
     tcpstateflags (conn_at i s') = x /\ env s' = env s) /\
  exists s1, ticks (S n) i s
      = Some (tcp_send_nodata i (mem (wr8 BUF.flags (Z.lor TCP_RST TCP_ACK)) (UIP_APPCALL s1))) /\
    uip_flags s1 = UIP_TIMEDOUT /\ tcpstateflags (conn_at i s1) = UIP_CLOSED /\ env s1 = env s.
Proof.
  intros Hh Hxt n.
  assert (half_open_state x) as Hx by (destruct Hxt as [[? _]|[? _]]; [by left|by right]).
  assert (forallb (fun j => running (countdown j (t, 0))) (seq 0 n) = true) as Hr
    by (by destruct Hxt as [[_ ->]|[_ ->]]).
  split.
  - intros k Hk. destruct (half_open_ticks i x t 0 (env s) s k Hh Hx) as (s' & Ht & []).
    { apply forallb_forall. intros j Hj%in_seq. rewrite forallb_forall in Hr. apply Hr, in_seq. lia. }
    eauto.
  - destruct (half_open_ticks i x t 0 (env s) s n Hh Hx Hr) as (s' & Ht & Hh').
    rewrite ticks_snoc, Ht. apply (half_open_gives_up i x); [|done].
    replace (fst (countdown n (t, 0))) with 0 in Hh' by (by destruct Hxt as [[_ ->]|[_ ->]]).
    by replace (snd (countdown n (t, 0))) with 5 in Hh' by (by destruct Hxt as [[_ ->]|[_ ->]]).
Qed.

(** ** Waiting states *)

Record waiting (i : nat) (x t : Z) (e : E) s : Prop := {
  wt_wf : uip_wf s;
  wt_i : (i < UIP_CONNS)%nat;
  wt_state : tcpstateflags (conn_at i s) = x;
  wt_timer : timer (conn_at i s) = t;
  wt_env : env s = e }.

Lemma waiting_tick i x t e s : waiting i x t e s -> x = UIP_TIME_WAIT \/ x = UIP_FIN_WAIT_2 ->
  0 <= t < UIP_TIME_WAIT_TIMEOUT ->
  exists s', uip_periodic i s = Some s' /\ env s' = e /\ uip_len s' = 0 /\
    if t + 1 =? UIP_TIME_WAIT_TIMEOUT then tcpstateflags (conn_at i s') = UIP_CLOSED
    else tcpstateflags (conn_at i s') = x /\ waiting i x (t + 1) e s'.
Proof.
  intros [] Hx Ht. rewrite periodic_eq. eexists. split; [reflexivity|].
  assert (uip_wf (uip_timer_event i (tick_start i s))) as Hw'
    by (apply timer_event_wf, tick_start_wf; auto).
  revert Hw'. unfold uip_timer_event. cbv zeta.
  fold (timer_start (tick_start i s)). set (s0 := timer_start (tick_start i s)).
  assert (uip_wf s0) as Hw by (by apply timer_start_wf, tick_start_wf).
  assert (length (uip_conns s0) = UIP_CONNS) as Hl by apply (wf_conns_len s0 Hw).
  change (conn_at i s0) with (conn_at i s). rewrite wt_state0.
  assert ((x =? UIP_TIME_WAIT) || (x =? UIP_FIN_WAIT_2) = true) as -> by (by destruct Hx as [-> | ->]).
  set (s1 := upd_conn i (fun c => c <| timer ::= fun t => w8 (t + 1) |>) s0).
  assert (conn_at i s1 = (conn_at i s) <| timer := t + 1 |>) as Hc1.
  { unfold s1. rewrite conn_at_upd_eq by lia. change (conn_at i s0) with (conn_at i s).
    destruct (conn_at i s). cbn in *. subst. unfold set_field. cbn. f_equal. apply w8_small.
    unfold u8, UIP_TIME_WAIT_TIMEOUT in *. lia. }
  rewrite Hc1. ssimpl. intros Hw'. destruct (t + 1 =? UIP_TIME_WAIT_TIMEOUT).
  - split; [done|]. split; [done|].
    change (tcpstateflags (conn_at i (upd_conn i (fun c => c <| tcpstateflags := UIP_CLOSED |>) s1)) = UIP_CLOSED).
    rewrite conn_at_upd_eq; [done|]. unfold s1. rewrite length_conns_upd. lia.
  - assert (conn_at i (drop s1) = conn_at i s1) as Hd by done.
    split; [done|]. split; [done|]. split; [by rewrite Hd, Hc1|]. constructor; auto.
    + by rewrite Hd, Hc1.
    + by rewrite Hd, Hc1.
Qed.

Lemma waiting_ticks i x t e s k : waiting i x t e s -> x = UIP_TIME_WAIT \/ x = UIP_FIN_WAIT_2 ->
  0 <= t -> t + Z.of_nat k < UIP_TIME_WAIT_TIMEOUT ->
  exists s', ticks k i s = Some s' /\ waiting i x (t + Z.of_nat k) e s'.
Proof.
  intros Hw Hx Ht. induction k as [|k IH]; intros Hk.
  - exists s. replace (t + Z.of_nat 0) with t by lia. done.
  - destruct IH as (s1 & H1 & Hw1); [lia|]. rewrite ticks_snoc, H1.
    destruct (waiting_tick i x _ _ _ Hw1 Hx) as (s' & -> & _ & _ & Hc); [lia|].
    rewrite (proj2 (Z.eqb_neq _ _)) in Hc by lia. exists s'. split; [done|].
    replace (t + Z.of_nat (S k)) with (t + Z.of_nat k + 1) by lia. apply Hc.
Qed.

(** [TIME_WAIT] and [FIN_WAIT_2] last until the timer has counted to 120.
    A connection that enters with timer [t] below 120 and hears nothing leaves
    for [CLOSED] at tick 120 - [t] and not before, without sending anything. *)
Theorem waiting_timeout i x t s : uip_wf s -> (i < UIP_CONNS)%nat ->
  x = UIP_TIME_WAIT \/ x = UIP_FIN_WAIT_2 ->
  tcpstateflags (conn_at i s) = x -> timer (conn_at i s) = t -> t < UIP_TIME_WAIT_TIMEOUT ->
  forall k, 0 < k <= UIP_TIME_WAIT_TIMEOUT - t ->
  exists s', ticks (Z.to_nat k) i s = Some s' /\ env s' = env s /\ uip_len s' = 0 /\
    tcpstateflags (conn_at i s') = if k =? UIP_TIME_WAIT_TIMEOUT - t then UIP_CLOSED else x.
Proof.
  intros Hs Hi Hx Hst Ht Hlt k Hk. replace (Z.to_nat k) with (S (Z.to_nat (k - 1))) by lia.
  assert (waiting i x t (env s) s) as Hw by done.
  pose proof (cwf_timer _ (wf_conn_at s i Hs)) as Hu. rewrite Ht in Hu. unfold u8 in Hu.
  destruct (waiting_ticks i x t (env s) s (Z.to_nat (k - 1)) Hw Hx) as (s1 & H1 & Hw1); [lia|lia|].
  rewrite ticks_snoc, H1.
  destruct (waiting_tick i x _ _ _ Hw1 Hx) as (s' & -> & Hv & Hl & Hc); [lia|].
  exists s'. split; [done|]. split; [done|]. split; [done|].
  destruct (Z.eqb_spec k (UIP_TIME_WAIT_TIMEOUT - t)).
  - rewrite (proj2 (Z.eqb_eq _ _)) in Hc by lia. exact Hc.
  - rewrite (proj2 (Z.eqb_neq _ _)) in Hc by lia. apply Hc.
Qed.
End timers.
