(* ===== verification/UipOptions.v ===== *)
(** * The option loop and the word increment

    Two places where the C code does not do what it means to.  The offset [c]
    of the TCP option loop has 8 bits, so an option whose length carries it past
    255 sends the loop back: 256 turns are enough to tell whether it ends, and
    there are segments for which it does not.  [xtcp_increment_word] stores half
    of its result at a fixed place. *)
From S2P Require Export Loops UipTcp.
Local Open Scope Z_scope.

(** ** Termination of the option loop *)

(** One turn of the loop: the next offset, when the loop goes on. *)
Definition turn (b : list Z) (c : Z) : option Z :=
  let opt := rd8 b (UIP_TCPIP_HLEN + UIP_LLH_LEN + c) in
  let l := rd8 b (UIP_TCPIP_HLEN + UIP_LLH_LEN + 1 + c) in
  if opt =? TCP_OPT_END then None
  else if opt =? TCP_OPT_NOOP then Some (w8 (c + 1))
  else if (opt =? TCP_OPT_MSS) && (l =? TCP_OPT_MSS_LEN) then None
  else if l =? 0 then None
  else Some (w8 (c + l)).

Section options.
Variables (b : list Z) (limit : Z).

Lemma parse_turn fuel c : parse_options fuel b limit c = None <->
  c < limit /\ match fuel with
               | O => True
               | S fuel => exists c', turn b c = Some c' /\ parse_options fuel b limit c' = None
               end.
Proof.
  destruct fuel as [|fuel]; cbn [parse_options]; destruct (Z.ltb_spec c limit);
    try (split; [done|]; lia); [done|]. unfold turn.
  set (opt := rd8 b (UIP_TCPIP_HLEN + UIP_LLH_LEN + c)).
  set (l := rd8 b (UIP_TCPIP_HLEN + UIP_LLH_LEN + 1 + c)).
  destruct (opt =? TCP_OPT_END); [naive_solver|]. destruct (opt =? TCP_OPT_NOOP); [naive_solver|].
  destruct (_ && _); [naive_solver|]. destruct (l =? 0); naive_solver.
Qed.

Lemma turn_u8 c c' : turn b c = Some c' -> u8 c'.
Proof. unfold turn. cbv zeta. repeat case_match; intros [= <-]; apply w8_u8. Qed.

(** A turn after which the loop goes on. *)
Definition go_on (c : Z) : option Z := c' ← turn b c; if c' <? limit then Some c' else None.
Lemma parse_turns fuel : forall c, parse_options fuel b limit c = None <-> c < limit /\ is_Some (turns go_on fuel c).
Proof.
  induction fuel as [|fuel IH]; intros c; rewrite parse_turn; [cbn; split; intros [? _]; by split|].
  cbn [turns]. apply and_iff_compat_l.
  assert (go_on c = (c' ← turn b c; if c' <? limit then Some c' else None)) as -> by done. split.
  - intros (c' & -> & [Hc Ht]%IH). cbn [mbind option_bind]. by destruct (Z.ltb_spec c' limit); [|lia].
  - destruct (turn b c) as [c'|]; [|by intros [? ?]]. cbn [mbind option_bind].
    destruct (Z.ltb_spec c' limit) as [Hc|]; [|by intros [? ?]]. cbn [mbind option_bind]. intros Ht. exists c'. by rewrite IH.
Qed.

(** The bound on the option loop is exact.  If the loop of [found_listen]
    and [SYN_SENT] is still running after 256 turns it has come back to an
    offset it had before, and it never ends: [None] of [parse_mss] is the
    divergence of the C program, whatever the fuel. *)
Theorem options_fuel_exact : parse_options options_fuel b limit 0 = None ->
  forall n, parse_options n b limit 0 = None.
Proof.
  intros [Hl Hp]%parse_turns n. apply parse_turns. split; [done|].
  apply (turns_forever go_on 256); [|lia|exact Hp].
  unfold go_on. intros x y (z & Hz%turn_u8 & Hy)%bind_Some. case_match; by simplify_eq.
Qed.

(** The loop ends on every segment whose option lengths are below 217, in
    particular on every list of options RFC 793 allows (at most 40 bytes). *)
Theorem options_terminate : limit <= 40 ->
  (forall k, 0 <= k < limit -> 0 <= rd8 b (UIP_TCPIP_HLEN + UIP_LLH_LEN + 1 + k) < 217) ->
  parse_options options_fuel b limit 0 <> None.
Proof.
  intros Hlim Hlen.
  enough (forall fuel c, 0 <= c -> limit - c <= Z.of_nat fuel ->
    parse_options fuel b limit c <> None) as Hg.
  { apply Hg; [lia|]. change (Z.of_nat options_fuel) with 256. lia. }
  induction fuel as [|fuel IH]; intros c Hc Hf Hp; apply parse_turn in Hp as [Hlt Hn]; [lia|].
  destruct Hn as (c' & Ht & Hp). revert Hp. apply IH.
  all: unfold turn in Ht; cbv zeta in Ht; specialize (Hlen c ltac:(lia));
    repeat case_match; simplify_eq; unfold w8; rewrite Z.mod_small by lia; try lia.
  all: match goal with H : (_ =? 0) = false |- _ => apply Z.eqb_neq in H; lia end.
Qed.
End options.

(** A walk that comes back to the first option never ends. *)
Lemma turns_return f k x : turns f (S k) x = Some x -> forall n, is_Some (turns f n x).
Proof.
  intros H n. induction (lt_wf n) as [n _ IH]. destruct (decide (n <= S k)%nat) as [Hn|Hn].
  - apply (turns_before f n (S k)); [done|by eexists].
  - replace n with (S k + (n - S k))%nat by lia. rewrite turns_add, H. cbn [mbind option_bind]. apply IH. lia.
Qed.
Lemma options_return b limit k : 0 < limit -> turns (go_on b limit) (S k) 0 = Some 0 ->
  forall n, parse_options n b limit 0 = None.
Proof. intros Hl Hk n. apply parse_turns. split; [done|by eapply turns_return]. Qed.

(** ** A segment that stops the stack *)

Section hostile.
Context {E : Type} `{!UipEnv E}.
Implicit Types s : uip_state E.

(** A SYN to a port that is listened to, with valid checksums, for which there is
    a free connection block; from its options the walk comes back to the first. *)
Record hostile_syn s : Prop := {
  hs_version : rd8 (uip_buf s) BUF.vhl = 0x45;
  hs_length : ip_length (uip_buf s) <= uip_len s;
  hs_whole : Z.land (rd8 (uip_buf s) BUF.ipoffset) 0x3f = 0 /\ rd8 (uip_buf s) (BUF.ipoffset + 1) = 0;
  hs_dest : rd4 (uip_buf s) BUF.destipaddr = uip_hostaddr s;
  hs_ipsum : uip_ipchksum (uip_buf s) = 0xffff;
  hs_proto : rd8 (uip_buf s) BUF.proto = UIP_PROTO_TCP;
  hs_tcpsum : uip_tcpchksum (uip_buf s) = 0xffff;
  hs_new : Forall (fun c => tcp_match (uip_buf s) c = false) (uip_conns s);
  hs_syn : Z.land (rd8 (uip_buf s) BUF.flags) TCP_CTL = TCP_SYN;
  hs_port : rd16 (uip_buf s) BUF.destport ∈ uip_listenports s;
  hs_room : is_Some (find_free_conn (uip_conns s) 0 None);
  hs_options : 0x50 < Z.land (rd8 (uip_buf s) BUF.tcpoffset) 0xf0 /\ 0 < options_limit (uip_buf s);
  hs_return : exists k, turns (go_on (uip_buf s) (options_limit (uip_buf s))) (S k) 0 = Some 0 }.

Lemma hostile_listen s : hostile_syn s -> found_listen s = None.
Proof.
  intros []. unfold found_listen. destruct hs_room0 as [i ->]. unfold parse_mss.
  assert (uip_buf (listen_block i s) = uip_buf s) as -> by reflexivity.
  destruct hs_options0 as [Ho Hl]. rewrite (proj2 (Z.ltb_lt _ _)) by done.
  destruct hs_return0 as [k Hk]. by rewrite (options_return _ _ k).
Qed.
Lemma hostile_tcp s : hostile_syn s -> tcp_input s = None.
Proof.
  intros Hs. pose proof (hostile_listen s Hs) as Hl. destruct Hs. unfold tcp_input.
  rewrite hs_tcpsum0, hs_syn0, !Z.eqb_refl. cbn [negb].
  rewrite (proj2 (find_index_None _ _) hs_new0).
  destruct (find_index (Z.eqb (rd16 (uip_buf s) BUF.destport)) (uip_listenports s)) eqn:Ef; [done|].
  apply find_index_None in Ef. rewrite Forall_forall in Ef. specialize (Ef _ (proj1 (list_elem_of_In _ _) hs_port0)). cbn in Ef. by rewrite Z.eqb_refl in Ef.
Qed.
Lemma hostile_accept s : hostile_syn s -> ip_accept s = None.
Proof.
  intros Hs. pose proof (hostile_tcp s Hs). destruct Hs. unfold ip_accept.
  by rewrite hs_ipsum0, hs_proto0, !Z.eqb_refl.
Qed.

(** C39: one segment stops the stack.  On every SYN to a listening port whose
    checksums are valid and for which a connection block is free, the option loop
    of [found_listen] does not end, whatever the number of turns, if following
    the lengths of its options modulo 256 leads back to the first one; then
    [uip_process] never returns ([None]), whatever the application. *)
Theorem syn_hangs_stack s : hostile_syn s ->
  (forall n, parse_options n (uip_buf s) (options_limit (uip_buf s)) 0 = None) /\
  uip_process UIP_DATA s = None.
Proof.
  intros Hs. pose proof Hs as []. destruct hs_options0 as [Ho Hl]. destruct hs_return0 as [k Hk].
  split; [by eapply options_return|].
  change (uip_process UIP_DATA s) with (ip_input (s <| uip_sappdata := UIP_IPTCPH_LEN + UIP_LLH_LEN |>
               <| uip_appdata := UIP_IPTCPH_LEN + UIP_LLH_LEN |>)).
  unfold ip_input. ssimpl. rewrite hs_version0, Z.eqb_refl. cbn [negb].
  rewrite (proj2 (Z.leb_le _ _)) by done. destruct hs_whole0 as [Hw1 Hw2]. rewrite Hw1, Hw2. cbn [negb Z.eqb orb].
  set (s1 := set_field uip_len _ _).
  assert (hostile_syn s1) as H1 by (subst s1; constructor; ssimpl; eauto; reflexivity).
  apply hostile_accept in H1. case_match; [done|]. rewrite hs_proto0. cbn [Z.eqb andb].
  rewrite hs_dest0. unfold uip_ipaddr_cmp, xtcp_compare_words. rewrite !Z.eqb_refl. done.
Qed.
End hostile.

(** ** [xtcp_increment_word] *)

(** The value computed is right unless the second byte is negative as a
    [signed char]: then the sign of the low half leaks into the high half. *)
Lemma increment_value_be32 a : u8x4_ok a -> q1 a < 128 ->
  le32_bytes (xtcp_increment_value a) = uip_add32 a 1.
Proof.
  intros Ha Hq. unfold uip_add32, xtcp_increment_value.
  assert (s16 (word0 a) = word0 a) as ->.
  { destruct Ha as (? & ? & _). unfold s16, word0, u8 in *. zdm. }
  assert (w32 (Z.shiftl (s16 (word1 a)) 16 + word0 a) = w32 (Z.shiftl (word1 a) 16 + word0 a)) as ->.
  { rewrite !shiftl_16. unfold w32, s16. zdm. }
  reflexivity.
Qed.

Lemma add_one_be32 a : u8x4_ok a -> q2 a <> 255 \/ q3 a <> 255 ->
  be32 (uip_add32 a 1) = be32 a + 1.
Proof.
  intros Hok H23. rewrite uip_add32_be32 by done. apply Z.mod_small.
  destruct Hok as (? & ? & ? & ?). unfold u8, be32 in *. lia.
Qed.

(** Without a carry out of the low-order half the high-order half stays. *)
Lemma increment_high a v : u8x4_ok a -> q2 a <> 255 \/ q3 a <> 255 ->
  be32 (le32_bytes v) = be32 a + 1 -> U4 (w8 v) (w8 (v / 256)) (q2 a) (q3 a) = a.
Proof.
  intros (H0 & H1 & H2 & H3) H23 Hv. unfold be32, le32_bytes in Hv. cbn [q0 q1 q2 q3] in Hv.
  pose proof (w8_u8 v). pose proof (w8_u8 (v / 256)). pose proof (w8_u8 (v / 65536)).
  pose proof (w8_u8 (v / 16777216)).
  generalize dependent (w8 v). generalize dependent (w8 (v / 256)).
  generalize dependent (w8 (v / 65536)). generalize dependent (w8 (v / 16777216)).
  intros b3 ? b2 ? b1 ? b0 Hv ?. destruct a as [a0 a1 a2 a3]. unfold u8 in *. cbn [q0 q1 q2 q3] in *.
  f_equal; lia.
Qed.

Section increment.
Context {E : Type}.
Implicit Types s : uip_state E.

(** The initial sequence number is never increased.  The timer event means
    to count [iss] up, but [xtcp_increment_word] stores the low-order half of
    the sum into the acknowledgement field of the packet buffer instead of
    [iss]; as long as that half of [iss] is not all ones, [iss] keeps its
    value.  Starting from the load-time value 0 every connection begins with
    the same sequence number. *)
Theorem iss_never_increases s : u8x4_ok (iss s) -> q1 (iss s) < 128 ->
  q2 (iss s) <> 255 \/ q3 (iss s) <> 255 ->
  iss (xtcp_increment_word PTR_iss s) = iss s.
Proof.
  intros Hok Hq H23. unfold xtcp_increment_word. cbv zeta.
  change (U4 (w8 (xtcp_increment_value (iss s))) (w8 (xtcp_increment_value (iss s) / 256))
    (q2 (iss s)) (q3 (iss s)) = iss s).
  apply increment_high; [done|done|]. rewrite increment_value_be32 by done.
  by apply add_one_be32.
Qed.

Lemma increment_ackno_value s : uip_wf s ->
  rd4 (uip_buf (xtcp_increment_word (PTR_buf BUF.ackno) s)) BUF.ackno
  = le32_bytes (xtcp_increment_value (rd4 (uip_buf s) BUF.ackno)).
Proof.
  intros Hs. pose proof (buf_len s Hs) as Hl.
  unfold xtcp_increment_word. cbv zeta. ssimpl.
  set (v := xtcp_increment_value _). clearbody v. unfold BUF.ackno in *.
  unfold rd4, le32_bytes, wr16. repeat mem_step. rewrite shiftr_16.
  unfold w8, w16. f_equal; zdm.
Qed.

(** Where it works: the acknowledgement number of a reset, for sequence numbers
    whose second byte is below 128. *)
Lemma increment_ackno s : uip_wf s -> q1 (rd4 (uip_buf s) BUF.ackno) < 128 ->
  rd4 (uip_buf (xtcp_increment_word (PTR_buf BUF.ackno) s)) BUF.ackno
  = uip_add32 (rd4 (uip_buf s) BUF.ackno) 1.
Proof.
  intros Hs Hq. rewrite increment_ackno_value by done. pose proof (wf_buf s Hs).
  apply increment_value_be32; [auto with mem|done].
Qed.

(** And where it does not.  When the second byte of the number is 128 or
    more, the sign of the low half is subtracted from the high half, and a reset
    acknowledges a number 256 too small: half of all resets are not acceptable
    to the peer. *)
Theorem increment_ackno_wrong s : uip_wf s -> let a := rd4 (uip_buf s) BUF.ackno in
  128 <= q1 a -> 0 < q2 a ->
  be32 (rd4 (uip_buf (xtcp_increment_word (PTR_buf BUF.ackno) s)) BUF.ackno) = be32 a - 255.
Proof.
  intros Hs a Hq1 Hq2. pose proof (wf_buf s Hs) as Hb.
  assert (u8x4_ok a) as Ha by (unfold a; auto with mem).
  rewrite increment_ackno_value by done. fold a. clearbody a.
  set (a' := U4 (q0 a) (q1 a) (q2 a - 1) (q3 a)).
  assert (u8x4_ok a') as Ha' by (destruct Ha as (? & ? & ? & ?); unfold u8x4_ok, u8 in *; cbn; lia).
  assert (xtcp_increment_value a = byterev (w32 (be32 a' + 1))) as ->.
  { unfold xtcp_increment_value. cbv zeta. f_equal. f_equal. f_equal.
    rewrite <- byterev_be32 by done. f_equal. destruct Ha as (? & ? & ? & ?).
    unfold word0, word1, a'. cbn [q0 q1 q2 q3]. rewrite !shiftl_16. unfold s16, w32, u8 in *. zdm. }
  rewrite le32_byterev_be32 by apply w32_u32. unfold w32.
  destruct Ha as (? & ? & ? & ?), Ha' as (? & ? & ? & ?). unfold a', be32, u8 in *. cbn [q0 q1 q2 q3] in *.
  rewrite Z.mod_small; lia.
Qed.
End increment.
