(* ===== verification/UipExamples.v ===== *)
(** * A concrete application and concrete packets

    An echo server on top of the stack, the packets of a TCP conversation with
    it, and the witnesses: the theorems about [uip_process] applied to them. *)
From S2P Require Export UipTimer UipOptions.
Local Open Scope Z_scope.

(** ** The echo application *)

Section echo.
Context {E : Type}.
Implicit Types s : uip_state E.

(** What arrives is sent back. *)
Definition echo s : uip_state E :=
  if tst (uip_flags s) UIP_NEWDATA then uip_send (uip_appdata s) (uip_len s) s else s.

Lemma uip_send_states data length s : states (uip_send data length s) = states s.
Proof. unfold uip_send. by repeat case_match. Qed.

#[export] Instance echo_env : UipEnv E := {
  UIP_APPCALL := echo; UIP_IGMP := false; igmp_check_addr _ _ := false; igmp_in s := s }.
#[export] Instance echo_env_wf : UipEnvWf E.
Proof.
  constructor; [|done]. intros s Hs. simpl. unfold echo. case_match; [|done]. by apply uip_send_wf.
Qed.
#[export] Instance echo_env_states : UipEnvStates E.
Proof.
  constructor; try done; intros s; simpl; unfold echo; case_match; try done;
    [by rewrite uip_send_states|]. unfold uip_send. by repeat case_match.
Qed.
End echo.

(** ** Packets *)

Definition addr_bytes (a : u8x4) : list Z := [q0 a; q1 a; q2 a; q3 a].
Definition be16 (n : Z) : list Z := [n / 256; n mod 256].

Definition ip_packet (proto : Z) (src dst : u8x4) (payload : list Z) : list Z :=
  let b := replicate 14 0 ++ [0x45; 0] ++ be16 (20 + Z.of_nat (length payload))
    ++ [0; 1; 0; 0; 64; proto; 0; 0] ++ addr_bytes src ++ addr_bytes dst ++ payload
    ++ replicate (Z.to_nat UIP_BUF_BYTES - 34 - length payload) 0 in
  wr16 BUF.ipchksum (w16 (Z.lnot (uip_ipchksum b))) b.

Definition peer : u8x4 := U4 10 0 0 1.
Definition host : u8x4 := U4 10 0 0 2.

Definition tcp_packet (dport : Z) (seq ack : u8x4) (flags : Z) (opts data : list Z) : list Z :=
  let b := ip_packet UIP_PROTO_TCP peer host (be16 4000 ++ be16 dport ++ addr_bytes seq ++ addr_bytes ack
    ++ [Z.shiftl (5 + Z.of_nat (length opts) / 4) 4; flags] ++ be16 1000 ++ [0; 0; 0; 0] ++ opts ++ data) in
  wr16 BUF.tcpchksum (w16 (Z.lnot (uip_tcpchksum b))) b.

(** A host 10.0.0.2 listening on TCP port 80, and the arrival of a packet. *)
Definition server : uip_state unit :=
  (uip_listen (HTONS 80) (uip_init (initial_state tt))) <| uip_hostaddr := host |>.
Definition arrive (b : list Z) (s : uip_state unit) : uip_state unit :=
  s <| uip_buf := b |> <| uip_len := ip_length b |>.
Definition receive (b : list Z) (s : uip_state unit) : uip_state unit :=
  default s (uip_process UIP_DATA (arrive b s)).

(** The handshake: the server's initial sequence number is 0. *)
Definition syn : list Z := tcp_packet 80 (U4 0 0 0 99) zero4 TCP_SYN [2; 4; 2; 0] [].
Definition ack : list Z := tcp_packet 80 (U4 0 0 0 100) (U4 0 0 0 1) TCP_ACK [] [].
Definition hello : list Z :=
  tcp_packet 80 (U4 0 0 0 100) (U4 0 0 0 1) (Z.lor TCP_ACK TCP_PSH) [] [104; 101; 108; 108; 111].

Definition rst : list Z := tcp_packet 80 (U4 0 0 0 100) zero4 TCP_RST [] [].
(** Data that does not start where the server expects it. *)
Definition late : list Z := tcp_packet 80 (U4 0 0 0 200) (U4 0 0 0 1) TCP_ACK [] [33].
(** A SYN whose second option is 254 bytes long: 2 + 254 is offset 0 again. *)
Definition hang : list Z := tcp_packet 80 (U4 0 0 0 99) zero4 TCP_SYN [5; 2; 5; 254] [].

Definition s_syn : uip_state unit := receive syn server.
Definition s_est : uip_state unit := receive ack s_syn.

Definition bytesb (b : list Z) : bool := forallb (fun x => (0 <=? x) && (x <? 256)) b.
Lemma bytesb_bytes b : bytesb b = true -> bytes b.
Proof.
  unfold bytesb. induction b as [|x b IH]; cbn [forallb]; [constructor|].
  rewrite andb_true_iff. intros [Hx Hb]. constructor; [unfold u8; lia|exact (IH Hb)].
Qed.
(** A packet that fills the buffer. *)
Definition packet_fits (b : list Z) : bool :=
  bytesb b && (Z.of_nat (length b) =? UIP_BUF_BYTES).

Lemma arrive_wf b s : packet_fits b = true -> uip_wf s -> uip_wf (arrive b s).
Proof.
  unfold packet_fits. rewrite andb_true_iff, Z.eqb_eq. intros [Hb%bytesb_bytes Hl] Hs.
  unfold arrive. apply wf_set_len; [|by apply ip_length_u16].
  destruct Hs; constructor; ssimpl; auto.
Qed.

Lemma receive_wf b s : packet_fits b = true -> uip_wf s -> uip_wf (receive b s).
Proof.
  intros Hb Hs. pose proof (arrive_wf b s Hb Hs) as Ha. unfold receive.
  destruct (uip_process UIP_DATA (arrive b s)) as [s'|] eqn:Hp; [|done]. cbn [default].
  change (ip_input ((arrive b s) <| uip_sappdata := UIP_IPTCPH_LEN + UIP_LLH_LEN |>
    <| uip_appdata := UIP_IPTCPH_LEN + UIP_LLH_LEN |>) = Some s') in Hp.
  apply ip_input_wf in Hp; [done|]. wf_auto.
Qed.

Lemma server_wf : uip_wf server.
Proof.
  apply wf_set_hostaddr; [|unfold u8x4_ok, u8; cbn; lia].
  apply uip_listen_wf; [apply HTONS_u16|]. apply uip_init_wf, initial_state_wf.
Qed.
Lemma s_syn_wf : uip_wf s_syn.
Proof. apply receive_wf; [vm_compute; reflexivity|apply server_wf]. Qed.
Lemma s_est_wf : uip_wf s_est.
Proof. apply receive_wf; [vm_compute; reflexivity|apply s_syn_wf]. Qed.

(** The conversation, computed. *)
Example echo_conversation :
  states s_syn = UIP_SYN_RCVD :: replicate 9 UIP_CLOSED /\
  states s_est = UIP_ESTABLISHED :: replicate 9 UIP_CLOSED /\
  rds (uip_buf (receive hello s_est)) 54 5 = [104; 101; 108; 108; 111] /\
  uip_len (receive hello s_est) = 45.
Proof. vm_compute. auto. Qed.

Lemma hang_hostile : hostile_syn (arrive hang server).
Proof.
  constructor; try (vm_compute; reflexivity).
  - vm_compute. discriminate.
  - split; vm_compute; reflexivity.
  - apply List.Forall_forall. intros c Hc. apply negb_true_iff. revert c Hc.
    apply (proj1 (forallb_forall (fun c => negb (tcp_match (uip_buf (arrive hang server)) c)) _)). vm_compute. reflexivity.
  - apply list_elem_of_lookup. exists 0%nat. vm_compute. reflexivity.
  - exists 0%nat. vm_compute. reflexivity.
  - split; vm_compute; reflexivity.
  - exists 1%nat. vm_compute. reflexivity.
Qed.

(** ** Witnesses *)

Example uip_process_wf_witness :
  exists s', uip_process UIP_DATA (arrive hello s_est) = Some s' /\ uip_wf s'.
Proof.
  destruct (uip_process UIP_DATA (arrive hello s_est)) as [s'|] eqn:Hp.
  - exists s'. split; [reflexivity|]. apply (uip_process_wf UIP_DATA (arrive hello s_est) s'); [|exact Hp].
    apply arrive_wf; [vm_compute; reflexivity|apply s_est_wf].
  - exfalso. vm_compute in Hp. discriminate Hp.
Defined.

Lemma hello_wf : uip_wf (arrive hello s_est).
Proof. apply arrive_wf; [vm_compute; reflexivity|apply s_est_wf]. Qed.
Lemma late_wf : uip_wf (arrive late s_est).
Proof. apply arrive_wf; [vm_compute; reflexivity|apply s_est_wf]. Qed.
Lemma rst_wf : uip_wf (arrive rst s_est).
Proof. apply arrive_wf; [vm_compute; reflexivity|apply s_est_wf]. Qed.
Lemma ack_wf : uip_wf (arrive ack s_syn).
Proof. apply arrive_wf; [vm_compute; reflexivity|apply s_syn_wf]. Qed.

Example tcp_send_segment_witness :
  ip_header_ok (uip_buf (tcp_send 0 (arrive hello s_est))) 45.
Proof.
  destruct (tcp_send_segment 0 (arrive hello s_est) hello_wf) as (_ & _ & Hh & Hl & _).
  rewrite Hl in Hh. exact Hh.
Defined.

(** A datagram of four bytes from the first UDP connection. *)
Definition s_udp : uip_state unit := (arrive hello s_est) <| uip_slen := 4 |>.
Example udp_send_checksum_witness : uip_udpchksum (uip_buf (udp_send s_udp)) = 0xffff.
Proof.
  apply (udp_send_checksum s_udp).
  - apply wf_set_slen; [apply hello_wf|const_range].
  - vm_compute. discriminate.
  - const_range.
Defined.

Lemma conn0 : (0 < UIP_CONNS)%nat.
Proof. unfold UIP_CONNS. lia. Qed.

Example process_ack_spec_witness :
  len (conn_at 0 s_syn) = 1 /\ len (conn_at 0 (process_ack 0 (arrive ack s_syn))) = 0.
Proof.
  split; [vm_compute; reflexivity|].
  destruct (process_ack_spec 0 (arrive ack s_syn) ack_wf conn0) as [_ Hy].
  destruct Hy as (_ & _ & Hl & _); [vm_compute; reflexivity|]. exact Hl.
Defined.

Example found_reset_witness : exists s1,
  found 0 (arrive rst s_est) = Some (drop (UIP_APPCALL s1)) /\ tcpstateflags (conn_at 0 s1) = UIP_CLOSED.
Proof.
  destruct (found_reset 0 (arrive rst s_est) rst_wf conn0) as (s1 & Hf & _ & _ & _ & Hc & _).
  - vm_compute. reflexivity.
  - exists s1. exact (conj Hf Hc).
Defined.

Example found_out_of_order_witness : exists s',
  found 0 (arrive late s_est) = Some s' /\ uip_conns s' = uip_conns (arrive late s_est).
Proof.
  destruct (found_out_of_order 0 (arrive late s_est) late_wf conn0) as (s' & Hf & Hc & _).
  - vm_compute. reflexivity.
  - vm_compute. reflexivity.
  - exists s'. exact (conj Hf Hc).
Defined.

Example found_in_order_witness : exists s1,
  found 0 (arrive hello s_est) = Some (appsend 0 (UIP_APPCALL s1)) /\ delivered 0 (arrive hello s_est) s1.
Proof.
  apply (found_in_order 0 (arrive hello s_est) hello_wf conn0); vm_compute; reflexivity.
Defined.

Example established_by_ack_witness :
  be32 (rd4 (uip_buf (arrive ack s_syn)) BUF.ackno) = 1.
Proof.
  destruct (found 0 (arrive ack s_syn)) as [s'|] eqn:Hf.
  - destruct (established_by_ack 0 (arrive ack s_syn) s' ack_wf conn0) as (_ & _ & Ha).
    + left. vm_compute. reflexivity.
    + exact Hf.
    + vm_compute in Hf. injection Hf as <-. reflexivity.
    + rewrite Ha. vm_compute. reflexivity.
  - exfalso. vm_compute in Hf. discriminate Hf.
Defined.

Example uip_input_malformed_witness :
  rejects (arrive (wr8 BUF.tcpchksum 0 ack) s_syn)
          (uip_process UIP_DATA (arrive (wr8 BUF.tcpchksum 0 ack) s_syn)).
Proof. apply uip_input_malformed. vm_compute. reflexivity. Defined.

(** The SYN/ACK of [s_syn] is never acknowledged. *)
Example half_open_timeout_witness : exists s1, ticks 102 0 s_syn
  = Some (tcp_send_nodata 0 (mem (wr8 BUF.flags (Z.lor TCP_RST TCP_ACK)) (UIP_APPCALL s1))).
Proof.
  destruct (half_open_timeout 0 UIP_SYN_RCVD UIP_RTO s_syn) as (_ & s1 & Ht & _).
  - constructor; [apply s_syn_wf|apply conn0|..]; vm_compute; (reflexivity || discriminate).
  - right. split; reflexivity.
  - exists s1. exact Ht.
Defined.

Definition s_wait : uip_state unit :=
  upd_conn 0 (fun c => c <| tcpstateflags := UIP_TIME_WAIT |> <| timer := 0 |>) s_est.
Lemma s_wait_wf : uip_wf s_wait.
Proof.
  unfold s_wait. apply wf_upd_conn; [apply s_est_wf|]. generalize (conn_at 0 s_est). intros c Hc.
  conn_field.
Qed.

Example waiting_timeout_witness : exists s', ticks 120 0 s_wait = Some s' /\
  tcpstateflags (conn_at 0 s') = UIP_CLOSED.
Proof.
  assert (tcpstateflags (conn_at 0 s_wait) = UIP_TIME_WAIT) as Hst by (vm_compute; reflexivity).
  assert (timer (conn_at 0 s_wait) = 0) as Htm by (vm_compute; reflexivity).
  destruct (waiting_timeout 0 UIP_TIME_WAIT 0 s_wait s_wait_wf conn0 (or_introl eq_refl) Hst Htm eq_refl 120)
    as (s' & Ht & _ & _ & Hc).
  - split; [reflexivity|discriminate].
  - exists s'. exact (conj Ht Hc).
Defined.

Example syn_hangs_stack_witness : uip_process UIP_DATA (arrive hang server) = None.
Proof. apply syn_hangs_stack. exact hang_hostile. Defined.

Example options_fuel_exact_witness : parse_options 100000 hang 4 0 = None.
Proof. apply options_fuel_exact. vm_compute. reflexivity. Defined.

Example options_terminate_witness : parse_options options_fuel syn 4 0 <> None.
Proof.
  apply options_terminate; [lia|]. intros k Hk.
  assert (k = 0 \/ k = 1 \/ k = 2 \/ k = 3) as Hc by lia.
  destruct Hc as [-> |[-> |[-> | ->]]]; vm_compute; split; (discriminate || reflexivity).
Defined.

Example iss_never_increases_witness : iss (xtcp_increment_word PTR_iss server) = zero4.
Proof.
  rewrite iss_never_increases; [reflexivity|apply (wf_iss _ server_wf)|reflexivity|].
  left. discriminate.
Defined.

(** Acknowledging sequence number 0x00800100. *)
Definition stale : list Z := tcp_packet 81 (U4 0 0 0 7) (U4 0 128 1 0) TCP_ACK [] [].
Example increment_ackno_wrong_witness :
  be32 (rd4 (uip_buf (xtcp_increment_word (PTR_buf BUF.ackno) (arrive stale server))) BUF.ackno) = 0x00800001.
Proof.
  rewrite increment_ackno_wrong; [reflexivity| |vm_compute; discriminate|reflexivity].
  apply arrive_wf; [vm_compute; reflexivity|apply server_wf].
Defined.

Example chksum_equiv_witness : chksum 0 syn 14 20 = chksum6 0 syn 14 20.
Proof.
  apply chksum_equiv.
  - apply bytesb_bytes. vm_compute. reflexivity.
  - const_range.
  - const_range.
Defined.

Example uip_add32_equiv_witness : uip_add32 (U4 255 255 255 250) 10 = uip6_add32 (U4 255 255 255 250) 10.
Proof. apply uip_add32_equiv; [unfold u8x4_ok, u8; cbn; lia|const_range]. Defined.
