(* ===== verification/Arp.v ===== *)
(** * Address resolution: [uip_arp.c]

    The ARP table and the two directions of the protocol.  The table is a state
    of its own, [arp_state], passed beside that of the stack; the static
    [ipaddr], [i], [c] and [tmpage] are written before each use and are local
    here.  [autoip_arp_in], which watches incoming ARP packets for conflicts, is
    a parameter. *)
From S2P Require Export UipOutput.
Local Open Scope Z_scope.

(** ** Data *)

Definition UIP_ARPTAB_SIZE : nat := 8.
Definition UIP_ARP_MAXAGE : Z := 120.
Definition UIP_ETHTYPE_ARP : Z := 0x0806.
Definition UIP_ETHTYPE_IP : Z := 0x0800.
Definition ARP_REQUEST : Z := 1.
Definition ARP_REPLY : Z := 2.
Definition ARP_HWTYPE_ETH : Z := 1.

Record arp_entry : Type := ArpEntry { ae_ipaddr : u8x4; ae_ethaddr : list Z; ae_time : Z }.
#[export] Instance eta_arp_entry : Eta arp_entry := fun r =>
  ArpEntry r.(ae_ipaddr) r.(ae_ethaddr) r.(ae_time).
Definition zero_arp_entry : arp_entry := ArpEntry zero4 (replicate 6 0) 0.
#[export] Instance arp_entry_inhabited : Inhabited arp_entry := populate zero_arp_entry.

(** [arp_table] and [arptime]. *)
Record arp_state : Type := ArpState { arp_table : list arp_entry; arptime : Z }.
#[export] Instance eta_arp_state : Eta arp_state := fun r => ArpState r.(arp_table) r.(arptime).
Definition initial_arp : arp_state := ArpState (replicate UIP_ARPTAB_SIZE zero_arp_entry) 0.

(** The Ethernet header and the ARP packet ([struct arp_hdr]). *)
Module ARP.
Definition dest : Z := 0.
Definition src : Z := 6.
Definition type : Z := 12.
Definition hwtype : Z := 14.
Definition protocol : Z := 16.
Definition hwlen : Z := 18.
Definition protolen : Z := 19.
Definition opcode : Z := 20.
Definition shwaddr : Z := 22.
Definition sipaddr : Z := 28.
Definition dhwaddr : Z := 32.
Definition dipaddr : Z := 38.
Definition size : Z := 42.
End ARP.

(** ** The table *)

Definition uip_arp_init (a : arp_state) : arp_state :=
  a <| arp_table ::= map (fun e => e <| ae_ipaddr := zero4 |>) |>.

(** The difference of two 8-bit times is an [int]: it is negative once
    [arptime] has wrapped round. *)
Definition uip_arp_timer (a : arp_state) : arp_state :=
  let a := a <| arptime ::= fun t => w8 (t + 1) |> in
  a <| arp_table ::= map (fun e =>
    if negb (Z.lor (word0 (ae_ipaddr e)) (word1 (ae_ipaddr e)) =? 0)
       && (UIP_ARP_MAXAGE <=? arptime a - ae_time e)
    then e <| ae_ipaddr := zero4 |> else e) |>.

(** The oldest entry: the index of the largest positive age, 0 if there is
    none. *)
Fixpoint oldest_entry (now : Z) (l : list arp_entry) (i c : nat) (tmpage : Z) : nat :=
  match l with
  | [] => c
  | e :: l =>
      if tmpage <? now - ae_time e then oldest_entry now l (S i) i (w8 (now - ae_time e))
      else oldest_entry now l (S i) c tmpage
  end.

(** "Only check those entries that are actually in use." *)
Definition in_use (e : arp_entry) : bool :=
  negb (word0 (ae_ipaddr e) =? 0) && negb (word1 (ae_ipaddr e) =? 0).
Definition unused (e : arp_entry) : bool :=
  (word0 (ae_ipaddr e) =? 0) && (word1 (ae_ipaddr e) =? 0).
Definition same_words (ipaddr : u8x4) (e : arp_entry) : bool :=
  (word0 ipaddr =? word0 (ae_ipaddr e)) && (word1 ipaddr =? word1 (ae_ipaddr e)).

Definition uip_arp_update (ipaddr : u8x4) (ethaddr : list Z) (a : arp_state) : arp_state :=
  match find_index (fun e => in_use e && same_words ipaddr e) (arp_table a) with
  | Some i =>
      a <| arp_table ::= alter (fun e => e <| ae_ethaddr := ethaddr |> <| ae_time := arptime a |>) i |>
  | None =>
      let i := match find_index unused (arp_table a) with
               | Some i => i
               | None => oldest_entry (arptime a) (arp_table a) 0 0 0
               end in
      a <| arp_table ::= alter (fun _ => ArpEntry ipaddr ethaddr (arptime a)) i |>
  end.

(** ** Packets *)

Definition uip_ipaddr_maskcmp (addr1 addr2 mask : u8x4) : bool :=
  (Z.land (word0 addr1) (word0 mask) =? Z.land (word0 addr2) (word0 mask))
  && (Z.land (word1 addr1) (word1 mask) =? Z.land (word1 addr2) (word1 mask)).

Section arp.
Context {E : Type} (autoip_arp_in : uip_state E -> uip_state E).
Implicit Types s : uip_state E.

(** [memcpy(dst, src, 6)] within the buffer. *)
Definition copy6 (dst src : Z) (b : list Z) : list Z := wrs dst (rds b src 6) b.

(** The reply to a request for our address. *)
Definition arp_reply s : uip_state E :=
  let s := mem (wr16 ARP.opcode (HTONS ARP_REPLY)) s in
  let s := mem (copy6 ARP.dhwaddr ARP.shwaddr) s in
  let s := mem (wrs ARP.shwaddr (uip_ethaddr s)) s in
  let s := mem (wrs ARP.src (uip_ethaddr s)) s in
  let s := mem (copy6 ARP.dest ARP.dhwaddr) s in
  let s := mem (fun b => wr4 ARP.dipaddr (rd4 b ARP.sipaddr) b) s in
  let s := mem (wr4 ARP.sipaddr (uip_hostaddr s)) s in
  let s := mem (wr16 ARP.type (HTONS UIP_ETHTYPE_ARP)) s in
  s <| uip_len := ARP.size |>.

Definition uip_arp_arpin (a : arp_state) s : arp_state * uip_state E :=
  if uip_len s <? ARP.size then (a, s <| uip_len := 0 |>)
  else
    let s := s <| uip_len := 0 |> in
    let s := autoip_arp_in s in
    let b := uip_buf s in
    let opcode := rd16 b ARP.opcode in
    if opcode =? HTONS ARP_REQUEST then
      if uip_ipaddr_cmp (rd4 b ARP.dipaddr) (uip_hostaddr s) then
        (uip_arp_update (rd4 b ARP.sipaddr) (rds b ARP.shwaddr 6) a, arp_reply s)
      else (a, s)
    else if opcode =? HTONS ARP_REPLY then
      if uip_ipaddr_cmp (rd4 b ARP.dipaddr) (uip_hostaddr s) then
        (uip_arp_update (rd4 b ARP.sipaddr) (rds b ARP.shwaddr 6) a, s)
      else (a, s)
    else (a, s).

(** The request that replaces a packet whose next hop is unknown. *)
Definition arp_request (ipaddr : u8x4) s : uip_state E :=
  let s := mem (wrs ARP.dest (replicate 6 0xff)) s in
  let s := mem (wrs ARP.dhwaddr (replicate 6 0)) s in
  let s := mem (wrs ARP.src (uip_ethaddr s)) s in
  let s := mem (wrs ARP.shwaddr (uip_ethaddr s)) s in
  let s := mem (wr4 ARP.dipaddr ipaddr) s in
  let s := mem (wr4 ARP.sipaddr (uip_hostaddr s)) s in
  let s := mem (wr16 ARP.opcode (HTONS ARP_REQUEST)) s in
  let s := mem (wr16 ARP.hwtype (HTONS ARP_HWTYPE_ETH)) s in
  let s := mem (wr16 ARP.protocol (HTONS UIP_ETHTYPE_IP)) s in
  let s := mem (wr8 ARP.hwlen 6) s in
  let s := mem (wr8 ARP.protolen 4) s in
  let s := mem (wr16 ARP.type (HTONS UIP_ETHTYPE_ARP)) s in
  let s := s <| uip_appdata := UIP_TCPIP_HLEN + UIP_LLH_LEN |> in
  s <| uip_len := ARP.size |>.

(** [if (conn != NULL) conn->udpflags |= f;] *)
Definition mark_udp (conn : option nat) (f : Z) s : uip_state E :=
  match conn with
  | Some i => upd_udp_conn i (fun c => c <| udpflags ::= fun x => Z.lor x f |>) s
  | None => s
  end.

(** The common end: source address, type and length of the frame. *)
Definition arp_out_frame (conn : option nat) s : uip_state E :=
  let s := mem (wrs ARP.src (uip_ethaddr s)) s in
  let s := mem (wr16 ARP.type (HTONS UIP_ETHTYPE_IP)) s in
  let s := mark_udp conn UDP_SENT s in
  s <| uip_len ::= fun l => w16 (l + UIP_LLH_LEN) |>.

(** The Ethernet address of a multicast group, from its IP address. *)
Definition multicast_ethaddr (ip : u8x4) : list Z :=
  [0x01; 0x00; 0x5e; Z.shiftr (word0 ip) 8; Z.land (word1 ip) 0xf; Z.shiftr (word1 ip) 8].

(** Whose Ethernet address a unicast packet needs. *)
Definition next_hop (dest : u8x4) s : u8x4 :=
  if negb (uip_ipaddr_maskcmp dest (uip_hostaddr s) (uip_netmask s)) then uip_draddr s else dest.

Definition arp_lookup (ipaddr : u8x4) (a : arp_state) : option nat :=
  find_index (fun e => uip_ipaddr_cmp ipaddr (ae_ipaddr e)) (arp_table a).

Definition uip_arp_out (conn : option nat) (a : arp_state) s : uip_state E :=
  let dest := rd4 (uip_buf s) BUF.destipaddr in
  if uip_ipaddr_cmp dest all_ones_addr then
    arp_out_frame conn (mem (wrs ARP.dest (replicate 6 0xff)) s)
  else if uip_ipaddr_is_multicast dest then
    arp_out_frame conn (mem (wrs ARP.dest (multicast_ethaddr dest)) s)
  else
    let ipaddr := next_hop dest s in
    match arp_lookup ipaddr a with
    | None => mark_udp conn UDP_PENDING_ARP (arp_request ipaddr s)
    | Some i =>
        arp_out_frame conn (mem (wrs ARP.dest (ae_ethaddr (arp_table a !!! i))) s)
    end.
End arp.

(** ** The table as a partial function *)

Record entry_wf (e : arp_entry) : Prop := {
  ew_ipaddr : u8x4_ok (ae_ipaddr e);
  ew_ethaddr : bytes (ae_ethaddr e);
  ew_ethaddr_len : length (ae_ethaddr e) = 6%nat;
  ew_time : u8 (ae_time e) }.
Record arp_wf (a : arp_state) : Prop := {
  aw_table : Forall entry_wf (arp_table a);
  aw_len : length (arp_table a) = UIP_ARPTAB_SIZE;
  aw_time : u8 (arptime a) }.

(** What [uip_arp_out] finds for an address. *)
Definition resolve (ipaddr : u8x4) (a : arp_state) : option (list Z) :=
  i ← arp_lookup ipaddr a; Some (ae_ethaddr (arp_table a !!! i)).

(** An address with both halves non-zero: every host address in practice. *)
Definition full_addr (ip : u8x4) : Prop := word0 ip <> 0 /\ word1 ip <> 0.

Lemma zero_entry_wf : entry_wf zero_arp_entry.
Proof. repeat constructor; try done; unfold u8; cbn; lia. Qed.

Lemma initial_arp_wf : arp_wf initial_arp.
Proof. constructor; [apply Forall_replicate, zero_entry_wf|done|unfold u8; cbn; lia]. Qed.

Lemma same_words_spec ip e : u8x4_ok ip -> entry_wf e ->
  same_words ip e = true <-> ip = ae_ipaddr e.
Proof.
  intros Hip He. destruct (ew_ipaddr e He) as (? & ? & ? & ?), Hip as (? & ? & ? & ?).
  unfold same_words, word0, word1. rewrite andb_true_iff, !Z.eqb_eq.
  destruct ip as [a0 a1 a2 a3], (ae_ipaddr e) as [b0 b1 b2 b3]. unfold u8 in *. cbn [q0 q1 q2 q3] in *.
  split; [intros []; f_equal; lia|]. intros [= -> -> -> ->]. done.
Qed.

Lemma unused_zero e : entry_wf e -> unused e = true -> ae_ipaddr e = zero4.
Proof.
  intros He. unfold unused. rewrite andb_true_iff, !Z.eqb_eq. unfold word0, word1.
  destruct (ew_ipaddr e He) as (? & ? & ? & ?). destruct (ae_ipaddr e) as [b0 b1 b2 b3].
  unfold u8 in *. cbn [q0 q1 q2 q3] in *. intros []. unfold zero4. f_equal; lia.
Qed.

Lemma cmp_same ip e : u8x4_ok ip -> entry_wf e ->
  uip_ipaddr_cmp ip (ae_ipaddr e) = true <-> ip = ae_ipaddr e.
Proof. intros Hip He. apply xtcp_compare_words_spec; [done|apply He]. Qed.

Lemma oldest_entry_lt now l : forall i c t n, (c < n)%nat -> (i + length l <= n)%nat ->
  (oldest_entry now l i c t < n)%nat.
Proof.
  induction l as [|e l IH]; intros i c t n Hc Hn; cbn [oldest_entry length] in *; [done|].
  case_match; apply IH; lia.
Qed.

(** The entry [uip_arp_update] writes, and what it writes. *)
Definition update_slot (ip : u8x4) (a : arp_state) : nat :=
  match find_index (fun e => in_use e && same_words ip e) (arp_table a) with
  | Some i => i
  | None => match find_index unused (arp_table a) with
            | Some i => i
            | None => oldest_entry (arptime a) (arp_table a) 0 0 0
            end
  end.

Lemma update_slot_lt ip a : arp_wf a -> (update_slot ip a < length (arp_table a))%nat.
Proof.
  intros Ha. unfold update_slot. destruct (find_index _ _) as [i|] eqn:Ei; [by apply find_index_lt in Ei|].
  destruct (find_index unused _) as [j|] eqn:Ej; [by apply find_index_lt in Ej|].
  apply oldest_entry_lt; rewrite ?(aw_len a Ha); unfold UIP_ARPTAB_SIZE; lia.
Qed.

(** In every case the slot ends up holding the new mapping. *)
Lemma update_table ip eth a : u8x4_ok ip -> arp_wf a ->
  arp_table (uip_arp_update ip eth a)
  = alter (fun _ => ArpEntry ip eth (arptime a)) (update_slot ip a) (arp_table a).
Proof.
  intros Hip Ha. unfold uip_arp_update, update_slot.
  destruct (find_index _ _) as [i|] eqn:Ei; [|done]. cbn [set_field arp_table].
  apply find_index_Some in Ei as [(e & He & Hp) _]. apply andb_true_iff in Hp as [_ Hp].
  apply same_words_spec in Hp; [|done|by eapply Forall_lookup_1; [apply (aw_table a Ha)|]].
  apply list_eq. intros k. destruct (decide (k = i)) as [->|].
  - rewrite !list_lookup_alter_eq, He. cbn. f_equal. destruct e. cbn in *. by subst.
  - by rewrite !list_lookup_alter_ne.
Qed.

Lemma update_time ip eth a : arptime (uip_arp_update ip eth a) = arptime a.
Proof. unfold uip_arp_update. by case_match. Qed.

Lemma uip_arp_update_wf ip eth a : u8x4_ok ip -> bytes eth -> length eth = 6%nat -> arp_wf a ->
  arp_wf (uip_arp_update ip eth a).
Proof.
  intros Hip He Hl Ha. constructor; rewrite ?update_time, ?update_table by done;
    [|rewrite length_alter; apply Ha|apply Ha].
  apply Forall_alter; [apply Ha|]. intros _ _ _. by constructor; try apply Ha.
Qed.

(** Before the slot no entry has the address. *)
Lemma update_slot_first ip a : u8x4_ok ip -> full_addr ip -> arp_wf a ->
  forall j e, (j < update_slot ip a)%nat -> arp_table a !! j = Some e ->
  uip_ipaddr_cmp ip (ae_ipaddr e) = false.
Proof.
  intros Hip [H0 H1] Ha j e Hj He. apply not_true_is_false. intros Hc.
  assert (entry_wf e) as Hew by (by eapply Forall_lookup_1; [apply (aw_table a Ha)|]).
  apply cmp_same in Hc; [|done..].
  assert (in_use e && same_words ip e = true) as Hp.
  { unfold in_use. rewrite <- Hc. rewrite !(proj2 (Z.eqb_neq _ _)) by done. by apply same_words_spec. }
  unfold update_slot in Hj. destruct (find_index _ _) as [i|] eqn:Ei.
  - apply find_index_Some in Ei as [_ Hi]. by rewrite (Hi j e Hj He) in Hp.
  - apply find_index_None in Ei. by rewrite (Forall_lookup_1 _ _ _ _ Ei He) in Hp.
Qed.

Lemma resolve_update ip eth a : u8x4_ok ip -> full_addr ip -> arp_wf a ->
  resolve ip (uip_arp_update ip eth a) = Some eth.
Proof.
  intros Hip Hfull Ha. pose proof (update_slot_lt ip a Ha) as Hlt.
  unfold resolve, arp_lookup. rewrite update_table by done.
  rewrite find_index_hit; [|done| |].
  - cbn. rewrite list_lookup_total_alt, list_lookup_alter_eq.
    by destruct (lookup_lt_is_Some_2 _ _ Hlt) as [x ->].
  - intros x _. cbn. by apply xtcp_compare_words_spec.
  - by apply update_slot_first.
Qed.

(** Learning an address.  After [uip_arp_update] the address resolves to the
    Ethernet address it came with.  As long as the address was known or an entry
    was free, every other address resolves as before. *)
Theorem uip_arp_update_resolve ip eth a : u8x4_ok ip -> full_addr ip -> arp_wf a ->
  resolve ip (uip_arp_update ip eth a) = Some eth /\
  (is_Some (resolve ip a) \/ Exists (fun e => unused e = true) (arp_table a) ->
   forall ip', u8x4_ok ip' -> ip' <> ip -> ip' <> zero4 ->
   resolve ip' (uip_arp_update ip eth a) = resolve ip' a).
Proof.
  intros Hip Hfull Ha. pose proof (update_slot_lt ip a Ha) as Hlt.
  split; [by apply resolve_update|].
  intros Hroom ip' Hip' Hne Hz.
  destruct (lookup_lt_is_Some_2 _ _ Hlt) as [x Hx].
  assert (entry_wf x) as Hxw by (by eapply Forall_lookup_1; [apply (aw_table a Ha)|]).
  assert (uip_ipaddr_cmp ip' (ae_ipaddr x) = false) as Hxf.
  { apply not_true_is_false. intros Hc. apply cmp_same in Hc; [|done..].
    unfold update_slot in Hx. destruct (find_index _ _) as [i|] eqn:Ei.
    - apply find_index_Some in Ei as [(y & Hy & Hp) _]. apply andb_true_iff in Hp as [_ Hp].
      simplify_eq. apply same_words_spec in Hp; [congruence|done..].
    - destruct (find_index unused _) as [j|] eqn:Ej.
      + apply find_index_Some in Ej as [(y & Hy & Hp) _]. simplify_eq.
        apply unused_zero in Hp; [congruence|done].
      + destruct Hroom as [[e He]|Hex].
        * unfold resolve, arp_lookup in He. destruct (find_index _ _) as [k|] eqn:Ek; [|done].
          apply find_index_Some in Ek as [(y & Hy & Hp) _].
          assert (entry_wf y) as Hyw by (by eapply Forall_lookup_1; [apply (aw_table a Ha)|]).
          apply cmp_same in Hp; [|done..]. apply find_index_None in Ei.
          pose proof (Forall_lookup_1 _ _ _ _ Ei Hy) as Hf. cbn in Hf.
          unfold in_use in Hf. rewrite <- Hp in Hf. destruct Hfull as [F0 F1].
          rewrite !(proj2 (Z.eqb_neq _ _)) in Hf by done. cbn in Hf.
          by rewrite (proj2 (same_words_spec ip y Hip Hyw)) in Hf.
        * apply find_index_None in Ej. apply Exists_exists in Hex as (y & Hy & Hu).
          rewrite Forall_forall in Ej. by rewrite (Ej y Hy) in Hu. }
  unfold resolve, arp_lookup. rewrite update_table by done.
  rewrite find_index_alter.
  2:{ intros y Hy. rewrite Hx in Hy. injection Hy as <-. rewrite Hxf. cbn.
      apply not_true_is_false. intros Hc. apply Hne. by apply xtcp_compare_words_spec in Hc. }
  destruct (find_index _ (arp_table a)) as [k|] eqn:Ek; [|done]. cbn. do 2 f_equal.
  rewrite !list_lookup_total_alt, list_lookup_alter_ne; [done|]. intros <-.
  apply find_index_Some in Ek as [(y & Hy & Hp) _]. rewrite Hx in Hy. injection Hy as <-. congruence.
Qed.

(** ** Aging *)

Lemma uip_arp_timer_wf a : arp_wf a -> arp_wf (uip_arp_timer a).
Proof.
  intros []. constructor; cbn [uip_arp_timer set_field arp_table arptime].
  - apply Forall_fmap. revert aw_table0. apply Forall_impl. intros e []. cbn. case_match; [|done].
    by constructor.
  - by rewrite length_map.
  - apply w8_u8.
Qed.

(** One tick on one entry. *)
Lemma uip_arp_timer_entry a i e : arp_wf a -> arp_table a !! i = Some e ->
  let now := w8 (arptime a + 1) in
  arp_table (uip_arp_timer a) !! i
    = Some (if negb (unused e) && (UIP_ARP_MAXAGE <=? now - ae_time e)
            then e <| ae_ipaddr := zero4 |> else e) /\
  arptime (uip_arp_timer a) = now.
Proof.
  intros Ha He now. split; [|done]. cbn [uip_arp_timer set_field arp_table arptime].
  rewrite list_lookup_fmap, He. cbn [fmap option_fmap option_map]. f_equal.
  assert (entry_wf e) as Hw by (by eapply Forall_lookup_1; [apply (aw_table a Ha)|]).
  unfold unused. destruct (ew_ipaddr e Hw) as (? & ? & ? & ?). unfold word0, word1, u8 in *.
  set (x := q0 _ + _). set (y := q2 _ + _).
  assert ((Z.lor x y =? 0) = ((x =? 0) && (y =? 0))) as ->; [|done].
  apply eq_true_iff_eq. by rewrite andb_true_iff, !Z.eqb_eq, Z.lor_eq_0_iff.
Qed.

(** Entries written late in the cycle of the 8-bit clock never age out.  The
    age [arptime - time] is computed in [int] and becomes negative when
    [arptime] wraps, so an entry written at time 136 or later never reaches the
    maximum age: it stays, whatever the number of ticks, where the
    documentation promises 20 minutes. *)
Theorem arp_entry_never_expires a i e n : arp_wf a -> arp_table a !! i = Some e ->
  136 <= ae_time e -> arp_table (Nat.iter n uip_arp_timer a) !! i = Some e.
Proof.
  intros Ha He Ht. assert (arp_wf (Nat.iter n uip_arp_timer a) /\
    arp_table (Nat.iter n uip_arp_timer a) !! i = Some e) as [_ ?]; [|done].
  induction n as [|n [IHw IH]]; [done|]. change (Nat.iter (S n) uip_arp_timer a) with (uip_arp_timer (Nat.iter n uip_arp_timer a)). split; [by apply uip_arp_timer_wf|].
  destruct (uip_arp_timer_entry _ i e IHw IH) as [-> _]. rewrite (proj2 (Z.leb_gt _ _)).
  - by rewrite andb_false_r.
  - pose proof (w8_u8 (arptime (Nat.iter n uip_arp_timer a) + 1)). unfold UIP_ARP_MAXAGE, u8 in *. lia.
Qed.

(** The others do.  An entry written at time [t] below 136 survives every
    tick until the clock reads [t] + 120 and is cleared by that one. *)
Theorem arp_entry_expires a i e n : arp_wf a -> arp_table a !! i = Some e -> unused e = false ->
  ae_time e <= arptime a -> arptime a + Z.of_nat n <= 255 -> arptime a < ae_time e + UIP_ARP_MAXAGE ->
  arp_table (Nat.iter n uip_arp_timer a) !! i
  = Some (if arptime a + Z.of_nat n <? ae_time e + UIP_ARP_MAXAGE then e
          else e <| ae_ipaddr := zero4 |>).
Proof.
  intros Ha He Hu Hge Hle Hlt.
  assert (arp_wf (Nat.iter n uip_arp_timer a) /\
    arptime (Nat.iter n uip_arp_timer a) = arptime a + Z.of_nat n /\
    arp_table (Nat.iter n uip_arp_timer a) !! i
      = Some (if arptime a + Z.of_nat n <? ae_time e + UIP_ARP_MAXAGE then e
              else e <| ae_ipaddr := zero4 |>)) as (_ & _ & ?); [|done].
  induction n as [|n IH]; [rewrite Z.add_0_r, (proj2 (Z.ltb_lt _ _)) by done; done|].
  destruct IH as (IHw & IHt & IH); [lia|]. change (Nat.iter (S n) uip_arp_timer a) with (uip_arp_timer (Nat.iter n uip_arp_timer a)).
  destruct (uip_arp_timer_entry _ i _ IHw IH) as [Hn Htm].
  pose proof (aw_time a Ha) as Hu8.
  assert (w8 (arptime (Nat.iter n uip_arp_timer a) + 1) = arptime a + Z.of_nat (S n)) as Hw.
  { rewrite IHt, w8_small; unfold u8 in *; lia. }
  split; [by apply uip_arp_timer_wf|]. split; [by rewrite Htm|]. rewrite Hn, Hw. f_equal.
  destruct (Z.ltb_spec (arptime a + Z.of_nat n) (ae_time e + UIP_ARP_MAXAGE)).
  - rewrite Hu. cbn [negb andb].
    destruct (Z.leb_spec UIP_ARP_MAXAGE (arptime a + Z.of_nat (S n) - ae_time e)),
      (Z.ltb_spec (arptime a + Z.of_nat (S n)) (ae_time e + UIP_ARP_MAXAGE)); (reflexivity || lia).
  - rewrite (proj2 (Z.ltb_ge _ _)) by lia. cbn. done.
Qed.
