(* ===== verification/ArpFrames.v ===== *)
(** * ARP on the wire

    The frames [uip_arp_out] and [uip_arp_arpin] put in the buffer, and the
    exchange of a request and its reply between two stacks. *)
From S2P Require Export Arp.
Local Open Scope Z_scope.

(** Header offsets as numbers. *)
Ltac arp_offsets :=
  unfold ARP.dest, ARP.src, ARP.type, ARP.hwtype, ARP.protocol, ARP.hwlen, ARP.protolen,
    ARP.opcode, ARP.shwaddr, ARP.sipaddr, ARP.dhwaddr, ARP.dipaddr.

Section frames.
Context {E : Type}.
Implicit Types s : uip_state E.

(** The Ethernet frame header: destination, source, type. *)
Definition eth_header (b : list Z) : list Z * list Z * Z :=
  (rds b ARP.dest 6, rds b ARP.src 6, rd16 b ARP.type).

(** An ARP packet in its frame. *)
Record arp_packet : Type := ArpPacket {
  ap_eth : list Z * list Z * Z;
  ap_opcode : Z;
  ap_sha : list Z; ap_spa : u8x4;
  ap_tha : list Z; ap_tpa : u8x4 }.
Definition arp_view (b : list Z) : arp_packet :=
  ArpPacket (eth_header b) (rd16 b ARP.opcode) (rds b ARP.shwaddr 6) (rd4 b ARP.sipaddr)
    (rds b ARP.dhwaddr 6) (rd4 b ARP.dipaddr).

Lemma arp_request_view ip s : uip_wf s -> u8x4_ok ip ->
  arp_view (uip_buf (arp_request ip s))
  = ArpPacket (replicate 6 0xff, uip_ethaddr s, HTONS UIP_ETHTYPE_ARP) (HTONS ARP_REQUEST)
      (uip_ethaddr s) (uip_hostaddr s) (replicate 6 0) ip.
Proof.
  intros Hs Hip. pose proof (buf_len s Hs). pose proof (wf_hostaddr s Hs).
  pose proof (wf_ethaddr s Hs). pose proof (wf_ethaddr_len s Hs) as Hel.
  unfold arp_request, arp_view. ssimpl. unfold eth_header, copy6; arp_offsets.
  assert (bytes (replicate 6 0xff) /\ bytes (replicate 6 0)) as [? ?]
    by (split; apply Forall_replicate; unfold u8; lia).
  runs.
  rewrite !w16_small by apply HTONS_u16. done.
Qed.

Lemma arp_reply_view s : uip_wf s -> let b := uip_buf s in
  arp_view (uip_buf (arp_reply s))
  = ArpPacket (rds b ARP.shwaddr 6, uip_ethaddr s, HTONS UIP_ETHTYPE_ARP) (HTONS ARP_REPLY)
      (uip_ethaddr s) (uip_hostaddr s) (rds b ARP.shwaddr 6) (rd4 b ARP.sipaddr).
Proof.
  intros Hs b. pose proof (buf_len s Hs). pose proof (wf_hostaddr s Hs). pose proof (wf_buf s Hs).
  pose proof (wf_ethaddr s Hs). pose proof (wf_ethaddr_len s Hs) as Hel.
  assert (u8x4_ok (rd4 b 28)) by (by apply rd4_ok).
  assert (bytes (rds b 22 6)) by (by apply bytes_rds). subst b.
  unfold arp_reply, arp_view. ssimpl. unfold eth_header, copy6; arp_offsets. runs.
  rewrite !w16_small by apply HTONS_u16. done.
Qed.

(** The Ethernet address a packet to [dest] is sent to, if it is known. *)
Definition destination_mac (dest : u8x4) (a : arp_state) s : option (list Z) :=
  if uip_ipaddr_cmp dest all_ones_addr then Some (replicate 6 0xff)
  else if uip_ipaddr_is_multicast dest then Some (multicast_ethaddr dest)
  else resolve (next_hop dest s) a.

Lemma resolve_bytes ip a m : arp_wf a -> resolve ip a = Some m -> bytes m /\ length m = 6%nat.
Proof.
  intros Ha. unfold resolve. destruct (arp_lookup ip a) as [i|] eqn:Hi; [|done]. cbn. intros [= <-].
  apply find_index_Some in Hi as [(e & He & _) _]. rewrite list_lookup_total_alt, He. cbn.
  assert (entry_wf e) as [] by (by eapply Forall_lookup_1; [apply (aw_table a Ha)|]). done.
Qed.

Lemma multicast_bytes ip : u8x4_ok ip -> bytes (multicast_ethaddr ip).
Proof.
  intros (? & ? & ? & ?). unfold multicast_ethaddr, word0, word1.
  assert (0 <= Z.land (q2 ip + 256 * q3 ip) 15 < 16).
  { change 15 with (Z.ones 4). rewrite Z.land_ones by lia. apply Z.mod_pos_bound. lia. }
  repeat constructor; rewrite ?Z.shiftr_div_pow2 by lia; unfold u8 in *; cbn; zdm.
Qed.

Lemma destination_mac_bytes dest a s m : u8x4_ok dest -> arp_wf a ->
  destination_mac dest a s = Some m -> bytes m /\ length m = 6%nat.
Proof.
  intros Hd Ha. unfold destination_mac. repeat case_match; [intros [= <-]..|by apply resolve_bytes].
  - split; [repeat constructor|done]; unfold u8; lia.
  - split; [by apply multicast_bytes|done].
Qed.

(** The frame of a known destination. *)
Lemma arp_out_frame_spec conn m s : uip_wf s -> bytes m -> length m = 6%nat ->
  let s' := arp_out_frame conn (mem (wrs ARP.dest m) s) in
  eth_header (uip_buf s') = (m, uip_ethaddr s, HTONS UIP_ETHTYPE_IP) /\
  (forall k, UIP_LLH_LEN <= k -> rd8 (uip_buf s') k = rd8 (uip_buf s) k) /\
  uip_len s' = w16 (uip_len s + UIP_LLH_LEN) /\
  uip_udp_conns s' = uip_udp_conns (mark_udp conn UDP_SENT s).
Proof.
  intros Hs Hm Hl. pose proof (buf_len s Hs).
  pose proof (wf_ethaddr s Hs). pose proof (wf_ethaddr_len s Hs) as Hel.
  unfold arp_out_frame. destruct conn; cbn [mark_udp]; ssimpl; unfold eth_header; arp_offsets;
    (split_and!; [runs; by rewrite w16_small by apply HTONS_u16|
      intros k Hk; unfold UIP_LLH_LEN in Hk; runs; done|done|done]).
Qed.

Lemma uip_arp_out_cases conn a s : let dest := rd4 (uip_buf s) BUF.destipaddr in
  uip_arp_out conn a s
  = match destination_mac dest a s with
    | Some m => arp_out_frame conn (mem (wrs ARP.dest m) s)
    | None => mark_udp conn UDP_PENDING_ARP (arp_request (next_hop dest s) s)
    end.
Proof.
  intros dest. unfold uip_arp_out, destination_mac, resolve. fold dest.
  repeat case_match; try congruence; cbn in *; congruence.
Qed.

(** Sending.  When the Ethernet address of the destination is known
    (broadcast, multicast, or the next hop is in the table) the packet gets an
    Ethernet header for it, the packet itself is unchanged and [uip_len] grows
    by the header; a UDP connection that sent it is marked [UDP_SENT].
    Otherwise the packet is replaced by an ARP request for the next hop and the
    connection is marked [UDP_PENDING_ARP]. *)
Theorem uip_arp_out_spec conn a s : uip_wf s -> arp_wf a ->
  let dest := rd4 (uip_buf s) BUF.destipaddr in
  let s' := uip_arp_out conn a s in
  match destination_mac dest a s with
  | Some m =>
      eth_header (uip_buf s') = (m, uip_ethaddr s, HTONS UIP_ETHTYPE_IP) /\
      (forall k, UIP_LLH_LEN <= k -> rd8 (uip_buf s') k = rd8 (uip_buf s) k) /\
      uip_len s' = w16 (uip_len s + UIP_LLH_LEN) /\
      uip_udp_conns s' = uip_udp_conns (mark_udp conn UDP_SENT s)
  | None =>
      arp_view (uip_buf s')
      = ArpPacket (replicate 6 0xff, uip_ethaddr s, HTONS UIP_ETHTYPE_ARP) (HTONS ARP_REQUEST)
          (uip_ethaddr s) (uip_hostaddr s) (replicate 6 0) (next_hop dest s) /\
      uip_len s' = ARP.size /\
      uip_udp_conns s' = uip_udp_conns (mark_udp conn UDP_PENDING_ARP s)
  end.
Proof.
  intros Hs Ha dest s'. subst s'.
  assert (u8x4_ok dest) as Hd by (apply rd4_ok, Hs).
  assert (u8x4_ok (next_hop dest s)) as Hn by (unfold next_hop; case_match; [apply Hs|done]).
  rewrite uip_arp_out_cases. fold dest. destruct (destination_mac dest a s) as [m|] eqn:Hm.
  - destruct (destination_mac_bytes dest a s m) as [Hmb Hml]; [done..|]. by apply arp_out_frame_spec.
  - rewrite <- (arp_request_view (next_hop dest s) s) by done.
    destruct conn; cbn [mark_udp]; split_and!; reflexivity.
Qed.

(** ** Two stacks *)

(** The 42 bytes of a frame arrive at another stack. *)
Definition deliver (frame : list Z) s : uip_state E :=
  s <| uip_buf := frame |> <| uip_len := ARP.size |>.

(** What the exchange needs of the observer of incoming packets: it leaves the
    packet and the addresses of the host alone. *)
Class ArpObserver (autoip_arp_in : uip_state E -> uip_state E) : Prop := {
  obs_buf s : uip_buf (autoip_arp_in s) = uip_buf s;
  obs_len s : uip_len (autoip_arp_in s) = uip_len s;
  obs_hostaddr s : uip_hostaddr (autoip_arp_in s) = uip_hostaddr s;
  obs_ethaddr s : uip_ethaddr (autoip_arp_in s) = uip_ethaddr s;
  obs_wf s : uip_wf s -> uip_wf (autoip_arp_in s) }.
End frames.

Section exchange.
Context {E : Type} (obs_a obs_b : uip_state E -> uip_state E) `{!ArpObserver obs_a, !ArpObserver obs_b}.
Implicit Types s : uip_state E.

Lemma uip_ipaddr_cmp_refl ip : u8x4_ok ip -> uip_ipaddr_cmp ip ip = true.
Proof. intros H. by apply xtcp_compare_words_spec. Qed.

(** The two messages [uip_arp_arpin] acts on, when they are for this host. *)
Lemma arpin_request obs `{!ArpObserver obs} a s : u8x4_ok (uip_hostaddr s) -> bytes (uip_buf s) ->
  uip_len s = ARP.size ->
  let p := arp_view (uip_buf s) in
  ap_opcode p = HTONS ARP_REQUEST -> ap_tpa p = uip_hostaddr s ->
  uip_arp_arpin obs a s
  = (uip_arp_update (ap_spa p) (ap_sha p) a, arp_reply (obs (s <| uip_len := 0 |>))).
Proof.
  intros Hh Hb Hl p Hop Htp. unfold uip_arp_arpin. rewrite Hl, Z.ltb_irrefl. cbv zeta.
  rewrite obs_buf, obs_hostaddr. ssimpl. subst p. cbn [arp_view ap_opcode ap_tpa ap_spa ap_sha] in *.
  rewrite Hop, Z.eqb_refl, Htp, uip_ipaddr_cmp_refl by done. done.
Qed.

Lemma arpin_reply obs `{!ArpObserver obs} a s : u8x4_ok (uip_hostaddr s) -> bytes (uip_buf s) ->
  uip_len s = ARP.size ->
  let p := arp_view (uip_buf s) in
  ap_opcode p = HTONS ARP_REPLY -> ap_tpa p = uip_hostaddr s ->
  uip_arp_arpin obs a s
  = (uip_arp_update (ap_spa p) (ap_sha p) a, obs (s <| uip_len := 0 |>)).
Proof.
  intros Hh Hb Hl p Hop Htp. unfold uip_arp_arpin. rewrite Hl, Z.ltb_irrefl. cbv zeta.
  rewrite obs_buf, obs_hostaddr. ssimpl. subst p. cbn [arp_view ap_opcode ap_tpa ap_spa ap_sha] in *.
  rewrite Hop. change (HTONS ARP_REPLY =? HTONS ARP_REQUEST) with false. cbn [negb].
  rewrite Z.eqb_refl, Htp, uip_ipaddr_cmp_refl by done. done.
Qed.

Lemma uip_arp_out_buf conn a s : uip_wf s -> arp_wf a ->
  bytes (uip_buf (uip_arp_out conn a s)) /\
  Z.of_nat (length (uip_buf (uip_arp_out conn a s))) = UIP_BUF_BYTES.
Proof.
  intros Hs Ha. pose proof (wf_buf s Hs). pose proof (wf_buf_len s Hs).
  unfold uip_arp_out, arp_out_frame, arp_request, copy6.
  destruct conn; repeat case_match; cbn [mark_udp]; ssimpl;
    (split; [auto 20 with mem|autorewrite with memlen; done]).
Qed.

Lemma arp_reply_buf s : uip_wf s -> bytes (uip_buf (arp_reply s)) /\
  Z.of_nat (length (uip_buf (arp_reply s))) = UIP_BUF_BYTES.
Proof.
  intros Hs. pose proof (wf_buf s Hs). pose proof (wf_buf_len s Hs).
  unfold arp_reply, copy6. ssimpl. split; [auto 20 with mem|autorewrite with memlen; done].
Qed.

Lemma deliver_wf frame s : bytes frame -> Z.of_nat (length frame) = UIP_BUF_BYTES -> uip_wf s ->
  uip_wf (deliver frame s).
Proof.
  intros Hb Hl Hs. unfold deliver. apply wf_set_len; [|unfold u16, ARP.size; lia].
  destruct Hs; constructor; ssimpl; auto.
Qed.

(** A request for this host is answered; a reply to it is recorded. *)
Lemma arpin_answers obs `{!ArpObserver obs} a s frame p : uip_wf s -> bytes frame ->
  Z.of_nat (length frame) = UIP_BUF_BYTES -> arp_view frame = p ->
  ap_opcode p = HTONS ARP_REQUEST -> ap_tpa p = uip_hostaddr s ->
  let r := uip_arp_arpin obs a (deliver frame s) in
  r.1 = uip_arp_update (ap_spa p) (ap_sha p) a /\
  arp_view (uip_buf r.2) = ArpPacket (ap_sha p, uip_ethaddr s, HTONS UIP_ETHTYPE_ARP) (HTONS ARP_REPLY)
    (uip_ethaddr s) (uip_hostaddr s) (ap_sha p) (ap_spa p) /\
  uip_len r.2 = ARP.size /\ bytes (uip_buf r.2) /\ Z.of_nat (length (uip_buf r.2)) = UIP_BUF_BYTES.
Proof.
  intros Hs Hb Hl <- Hop Htp. pose proof (deliver_wf frame s Hb Hl Hs) as Hd.
  rewrite (arpin_request obs) by (first [apply Hs | done]). cbn [fst snd].
  assert (uip_wf (obs ((deliver frame s) <| uip_len := 0 |>))) as Hr
    by (apply obs_wf, wf_set_len; [done|unfold u16; lia]).
  split; [done|]. destruct (arp_reply_buf _ Hr) as [Hb2 Hl2].
  rewrite arp_reply_view by done. rewrite obs_buf, obs_ethaddr, obs_hostaddr. done.
Qed.

Lemma arpin_records obs `{!ArpObserver obs} a s frame p : uip_wf s -> bytes frame ->
  Z.of_nat (length frame) = UIP_BUF_BYTES -> arp_view frame = p ->
  ap_opcode p = HTONS ARP_REPLY -> ap_tpa p = uip_hostaddr s ->
  let r := uip_arp_arpin obs a (deliver frame s) in
  r.1 = uip_arp_update (ap_spa p) (ap_sha p) a /\ uip_buf r.2 = frame /\ uip_len r.2 = 0.
Proof.
  intros Hs Hb Hl <- Hop Htp. rewrite (arpin_reply obs) by (first [apply Hs | done]).
  cbn [fst snd]. rewrite (obs_buf (autoip_arp_in := obs)), (obs_len (autoip_arp_in := obs)). done.
Qed.

Lemma unresolved_request conn a s : destination_mac (rd4 (uip_buf s) BUF.destipaddr) a s = None ->
  uip_wf s -> arp_wf a ->
  arp_view (uip_buf (uip_arp_out conn a s))
  = ArpPacket (replicate 6 0xff, uip_ethaddr s, HTONS UIP_ETHTYPE_ARP) (HTONS ARP_REQUEST)
      (uip_ethaddr s) (uip_hostaddr s) (replicate 6 0) (next_hop (rd4 (uip_buf s) BUF.destipaddr) s).
Proof.
  intros Hm Hs Ha. rewrite uip_arp_out_cases, Hm.
  rewrite <- (arp_request_view (next_hop (rd4 (uip_buf s) BUF.destipaddr) s) s).
  - by destruct conn.
  - done.
  - unfold next_hop. case_match; [apply Hs|apply rd4_ok, Hs].
Qed.

(** C31: address resolution works.  Host A has a packet for an address it does
    not know; its [uip_arp_out] makes a request of it.  Host B, which owns the
    address, answers the request with a reply addressed to A and learns A's
    Ethernet address.  When the reply arrives, A (whatever happened there in
    between, as long as it kept its address) resolves the address to the
    Ethernet address of B and sends nothing further. *)
Theorem arp_exchange conn a_a (s_a : uip_state E) a_b (s_b : uip_state E) a_a' (s_a' : uip_state E) :
  uip_wf s_a -> uip_wf s_b -> uip_wf s_a' -> arp_wf a_a -> arp_wf a_b -> arp_wf a_a' ->
  let dest := rd4 (uip_buf s_a) BUF.destipaddr in
  destination_mac dest a_a s_a = None ->
  uip_hostaddr s_b = next_hop dest s_a -> full_addr (uip_hostaddr s_b) ->
  full_addr (uip_hostaddr s_a) -> uip_hostaddr s_a' = uip_hostaddr s_a ->
  uip_ethaddr s_a' = uip_ethaddr s_a ->
  let request := uip_arp_out conn a_a s_a in
  let b := uip_arp_arpin obs_b a_b (deliver (uip_buf request) s_b) in
  let a := uip_arp_arpin obs_a a_a' (deliver (uip_buf b.2) s_a') in
  resolve (uip_hostaddr s_a) b.1 = Some (uip_ethaddr s_a) /\
  uip_len b.2 = ARP.size /\
  eth_header (uip_buf b.2) = (uip_ethaddr s_a, uip_ethaddr s_b, HTONS UIP_ETHTYPE_ARP) /\
  resolve (uip_hostaddr s_b) a.1 = Some (uip_ethaddr s_b) /\
  uip_buf a.2 = uip_buf b.2 /\ uip_len a.2 = 0.
Proof.
  intros Hsa Hsb Hsa' Haa Hab Haa' dest Hm Hip Hfb Hfa Hh Heth request b a.
  pose proof (wf_hostaddr _ Hsa) as Hha. pose proof (wf_hostaddr _ Hsb) as Hhb.
  destruct (uip_arp_out_buf conn a_a s_a Hsa Haa) as [Hb1 Hl1].
  pose proof (unresolved_request conn a_a s_a Hm Hsa Haa) as Hv1.
  destruct (arpin_answers obs_b a_b s_b _ _ Hsb Hb1 Hl1 Hv1 eq_refl (eq_sym Hip))
    as (Ht1 & Hv2 & Hn2 & Hb2 & Hl2).
  destruct (arpin_records obs_a a_a' s_a' _ _ Hsa' Hb2 Hl2 Hv2 eq_refl (eq_sym Hh))
    as (Ht2 & Hb3 & Hn3).
  cbn [ap_sha ap_spa] in *. fold request b a in Ht1, Hv2, Hn2, Ht2, Hb3, Hn3. split_and!.
  - rewrite Ht1. by apply resolve_update.
  - exact Hn2.
  - exact (f_equal ap_eth Hv2).
  - rewrite Ht2. by apply resolve_update.
  - exact Hb3.
  - exact Hn3.
Qed.
End exchange.

(** ** Two hosts on 10.0.0.0/24 *)

#[export] Instance no_observer {E} : ArpObserver (fun s : uip_state E => s).
Proof. by constructor. Qed.

Definition host_a : u8x4 := U4 10 0 0 2.
Definition host_b : u8x4 := U4 10 0 0 1.
Definition mac (n : Z) : list Z := [2; 0; 0; 0; 0; n].
Definition lan_host (ip : u8x4) (n : Z) (dest : u8x4) : uip_state unit :=
  mem (wr4 BUF.destipaddr dest) ((((initial_state tt) <| uip_hostaddr := ip |>)
    <| uip_netmask := U4 255 255 255 0 |>) <| uip_ethaddr := mac n |>).

Lemma lan_host_wf ip n dest : u8x4_ok ip -> u8 n -> uip_wf (lan_host ip n dest).
Proof.
  intros Hip Hn. unfold lan_host. apply wf_mem; [|auto with mem|intros; apply length_wr4].
  destruct (initial_state_wf tt). constructor; ssimpl; auto.
  - unfold u8x4_ok, u8. cbn. lia.
  - unfold mac. repeat constructor; unfold u8 in *; lia.
Qed.
Lemma host_ok : u8x4_ok host_a /\ u8x4_ok host_b /\ full_addr host_a /\ full_addr host_b.
Proof. unfold u8x4_ok, u8, full_addr, word0, word1, host_a, host_b. cbn [q0 q1 q2 q3]. lia. Qed.
Lemma mac_bytes n : u8 n -> bytes (mac n) /\ length (mac n) = 6%nat.
Proof. intros. split; [repeat constructor; unfold u8 in *; lia|done]. Qed.

Lemma uip_arp_update_resolve_witness :
  resolve host_b (uip_arp_update host_b (mac 1) initial_arp) = Some (mac 1) /\
  (is_Some (resolve host_b initial_arp) \/ Exists (fun e => unused e = true) (arp_table initial_arp) ->
   forall ip', u8x4_ok ip' -> ip' <> host_b -> ip' <> zero4 ->
   resolve ip' (uip_arp_update host_b (mac 1) initial_arp) = resolve ip' initial_arp).
Proof.
  exact (uip_arp_update_resolve host_b (mac 1) initial_arp (proj1 (proj2 host_ok))
    (proj2 (proj2 (proj2 host_ok))) initial_arp_wf).
Defined.

(** An entry learnt when the clock reads [t]. *)
Definition learnt (t : Z) : arp_state := uip_arp_update host_b (mac 1) (initial_arp <| arptime := t |>).
Lemma learnt_wf t : u8 t -> arp_wf (learnt t).
Proof.
  intros Ht. apply uip_arp_update_wf; [apply host_ok|by apply mac_bytes..|].
  destruct initial_arp_wf. by constructor.
Qed.

Lemma arp_entry_never_expires_witness :
  arp_table (Nat.iter 1000 uip_arp_timer (learnt 136)) !! 0%nat = Some (ArpEntry host_b (mac 1) 136).
Proof.
  apply (arp_entry_never_expires (learnt 136) 0 (ArpEntry host_b (mac 1) 136));
    [apply learnt_wf; unfold u8; lia|reflexivity|cbn; lia].
Defined.

Lemma arp_entry_expires_witness :
  arp_table (Nat.iter 120 uip_arp_timer (learnt 100)) !! 0%nat = Some (ArpEntry zero4 (mac 1) 100).
Proof.
  apply (arp_entry_expires (learnt 100) 0 (ArpEntry host_b (mac 1) 100) 120);
    [apply learnt_wf; unfold u8; lia|reflexivity|reflexivity|vm_compute; (done || discriminate)..].
Defined.

Lemma lan_route : destination_mac (rd4 (uip_buf (lan_host host_a 2 host_b)) BUF.destipaddr) (learnt 0)
  (lan_host host_a 2 host_b) = Some (mac 1).
Proof. vm_compute. reflexivity. Qed.

Lemma uip_arp_out_spec_witness :
  eth_header (uip_buf (uip_arp_out None (learnt 0) (lan_host host_a 2 host_b)))
  = (mac 1, uip_ethaddr (lan_host host_a 2 host_b), HTONS UIP_ETHTYPE_IP).
Proof.
  assert (uip_wf (lan_host host_a 2 host_b)) as Hs
    by (apply lan_host_wf; [apply host_ok|unfold u8; lia]).
  assert (arp_wf (learnt 0)) as Ha by (apply learnt_wf; unfold u8; lia).
  pose proof (uip_arp_out_spec None (learnt 0) (lan_host host_a 2 host_b) Hs Ha) as H.
  cbv zeta in H. rewrite lan_route in H. exact (proj1 H).
Defined.

Lemma lan_unknown : destination_mac (rd4 (uip_buf (lan_host host_a 2 host_b)) BUF.destipaddr) initial_arp
  (lan_host host_a 2 host_b) = None.
Proof. vm_compute. reflexivity. Qed.
Lemma lan_next_hop : next_hop (rd4 (uip_buf (lan_host host_a 2 host_b)) BUF.destipaddr)
  (lan_host host_a 2 host_b) = host_b.
Proof. vm_compute. reflexivity. Qed.

Lemma arp_exchange_witness :
  let s_a := lan_host host_a 2 host_b in
  let s_b := lan_host host_b 1 zero4 in
  let b := uip_arp_arpin (fun s => s) initial_arp (deliver (uip_buf (uip_arp_out None initial_arp s_a)) s_b) in
  resolve (uip_hostaddr s_b) (uip_arp_arpin (fun s => s) initial_arp (deliver (uip_buf b.2) s_a)).1
  = Some (uip_ethaddr s_b).
Proof.
  destruct host_ok as (Ha & Hb & Hfa & Hfb).
  assert (uip_wf (lan_host host_a 2 host_b) /\ uip_wf (lan_host host_b 1 zero4)) as [Hwa Hwb]
    by (split; apply lan_host_wf; (done || (unfold u8; lia))).
  exact (proj1 (proj2 (proj2 (proj2 (arp_exchange (fun s => s) (fun s => s) None initial_arp
    (lan_host host_a 2 host_b) initial_arp (lan_host host_b 1 zero4) initial_arp (lan_host host_a 2 host_b)
    Hwa Hwb Hwa initial_arp_wf initial_arp_wf initial_arp_wf lan_unknown (eq_sym lan_next_hop) Hfb Hfa
    eq_refl eq_refl))))).
Defined.
