(* ===== verification/AutoIP.v ===== *)
(** * IPv4 link-local addresses: [autoip.c]

    The state machine that picks an address in 169.254/16, probes for it,
    announces it and hands it over with [autoip_configured], which belongs to
    the server ([uip_server_support.c]) and is an argument here.  The module's
    state is threaded beside that of the stack. *)
From S2P Require Export ArpFrames Clock.
Local Open Scope Z_scope.

Definition PROBE_WAIT : Z := 1.
Definition PROBE_NUM : Z := 3.
Definition PROBE_MIN : Z := 1.
Definition PROBE_MAX : Z := 2.
Definition ANNOUNCE_WAIT : Z := 2.
Definition ANNOUNCE_NUM : Z := 2.
Definition ANNOUNCE_INTERVAL : Z := 2.
Definition MAX_CONFLICTS : Z := 10.
Definition RATE_LIMIT_INTERVAL : Z := 60.

Inductive autoip_machine_state : Set :=
| DISABLED | NO_ADDRESS | WAIT_FOR_PROBE | PROBING | WAIT_FOR_ANNOUNCE | ANNOUNCING | CONFIGURED.
#[export] Instance autoip_machine_state_eq_dec : EqDecision autoip_machine_state.
Proof. solve_decision. Defined.

(** [struct autoip_state_t]. *)
Record autoip_state_t : Type := AutoipState {
  state : autoip_machine_state;
  probes_sent : Z;
  announces_sent : Z;
  num_conflicts : Z;
  limit_rate : bool;
  rand_value : Z;
  seed : Z;
  autoip_timer : uip_timer;
  autoip_ipaddr : u8x4 }.
#[export] Instance eta_autoip_state_t : Eta autoip_state_t := fun r =>
  AutoipState r.(state) r.(probes_sent) r.(announces_sent) r.(num_conflicts) r.(limit_rate)
    r.(rand_value) r.(seed) r.(autoip_timer) r.(autoip_ipaddr).

(** The template [autoip_arp_pkt]. *)
Definition autoip_arp_pkt : list Z :=
  replicate 6 0xff ++ replicate 6 0 ++ [0x08; 0x06] ++ [0x00; 0x01] ++ [0x08; 0x00] ++ [6; 4]
  ++ [0x00; 0x01] ++ replicate 6 0 ++ replicate 4 0 ++ replicate 6 0 ++ replicate 4 0.

Definition rand (a : autoip_state_t) : autoip_state_t :=
  a <| rand_value ::= fun r => w32 (1664525 * r + 1013904223) |>.

Definition autoip_init (seed' : Z) (a : autoip_state_t) : autoip_state_t :=
  ((((((a <| state := DISABLED |>) <| probes_sent := 0 |>) <| announces_sent := 0 |>)
     <| num_conflicts := 0 |>) <| limit_rate := false |>) <| seed := w32 seed' |>)
  <| rand_value := w32 seed' |>.

(** The product of the [unsigned] random number and the [int] range is taken in
    32 bits before it is widened and shifted. *)
Definition random_timer_set (now a b : Z) (st : autoip_state_t) : autoip_state_t :=
  let st := rand st in
  let x := Z.shiftr (w32 (rand_value st * (b - a))) 32 in
  st <| autoip_timer ::= timer_set now (s32 (a + x)) |>.

Section autoip.
Context {E : Type} (autoip_configured : u8x4 -> uip_state E -> uip_state E).
Implicit Types (s : uip_state E) (a : autoip_state_t).

Definition create_arp_packet s : uip_state E :=
  let s := mem (wrs 0 autoip_arp_pkt) s in
  let s := mem (wrs ARP.src (uip_ethaddr s)) s in
  let s := mem (wrs ARP.shwaddr (uip_ethaddr s)) s in
  let s := s <| uip_appdata := UIP_TCPIP_HLEN + UIP_LLH_LEN |> in
  s <| uip_len := ARP.size |>.

Definition send_probe (now : Z) a s : autoip_state_t * uip_state E :=
  let s := create_arp_packet s in
  let s := mem (wr4 ARP.dipaddr (autoip_ipaddr a)) s in
  let a := a <| probes_sent ::= fun n => n + 1 |> in
  (random_timer_set now (PROBE_MIN * CLOCK_SECOND) (PROBE_MAX * CLOCK_SECOND) a, s).

Definition send_announce (now : Z) a s : autoip_state_t * uip_state E :=
  let s := create_arp_packet s in
  let s := mem (wr4 ARP.dipaddr (autoip_ipaddr a)) s in
  let s := mem (wr4 ARP.sipaddr (autoip_ipaddr a)) s in
  let a := a <| announces_sent ::= fun n => n + 1 |> in
  (a <| autoip_timer ::= timer_set now (ANNOUNCE_INTERVAL * CLOCK_SECOND) |>, s).

Definition autoip_periodic (now : Z) a s : autoip_state_t * uip_state E :=
  match state a with
  | DISABLED => (a, s)
  | NO_ADDRESS =>
      if negb (limit_rate a) || timer_expired now (autoip_timer a) then
        let a := rand a in
        let r1 := Z.land (rand_value a) 0xff in
        let r2 := Z.shiftr (Z.land (rand_value a) 0xff00) 8 in
        let a := a <| autoip_ipaddr := uip_ipaddr 169 254 r1 r2 |> in
        let a := a <| state := WAIT_FOR_PROBE |> in
        (random_timer_set now 0 (PROBE_WAIT * CLOCK_SECOND) a, s)
      else (a, s)
  | WAIT_FOR_PROBE =>
      if timer_expired now (autoip_timer a) then send_probe now (a <| state := PROBING |>) s
      else (a, s)
  | PROBING =>
      if timer_expired now (autoip_timer a) then
        if probes_sent a =? PROBE_NUM then
          let a := a <| state := WAIT_FOR_ANNOUNCE |> in
          (a <| autoip_timer ::= timer_set now (ANNOUNCE_WAIT * CLOCK_SECOND) |>, s)
        else send_probe now a s
      else (a, s)
  | WAIT_FOR_ANNOUNCE =>
      if timer_expired now (autoip_timer a) then
        if num_conflicts a =? 0 then send_announce now (a <| state := ANNOUNCING |>) s
        else
          let a := a <| state := NO_ADDRESS |> in
          let a := a <| probes_sent := 0 |> in
          let a := a <| announces_sent := 0 |> in
          let a := a <| num_conflicts := 0 |> in
          let a := a <| limit_rate := limit_rate a || (MAX_CONFLICTS <? num_conflicts a) |> in
          (a <| autoip_timer ::= timer_set now (RATE_LIMIT_INTERVAL * CLOCK_SECOND) |>, s)
      else (a, s)
  | ANNOUNCING =>
      let '(a, s) := send_announce now a s in
      if announces_sent a =? ANNOUNCE_NUM then
        let a := a <| state := CONFIGURED |> in
        (a, autoip_configured (autoip_ipaddr a) s)
      else (a, s)
  | CONFIGURED => (a, s)
  end.

(** The conflict counter is an [int]. *)
Definition autoip_arp_in a s : autoip_state_t :=
  match state a with
  | WAIT_FOR_PROBE | PROBING | WAIT_FOR_ANNOUNCE =>
      if uip_ipaddr_cmp (rd4 (uip_buf s) ARP.sipaddr) (autoip_ipaddr a)
      then a <| num_conflicts ::= fun n => s32 (n + 1) |> else a
  | _ => a
  end.

Definition autoip_start a : autoip_state_t :=
  match state a with
  | DISABLED => (rand (autoip_init (seed a) a)) <| state := NO_ADDRESS |>
  | _ => a
  end.

Definition autoip_stop a : autoip_state_t := a <| state := DISABLED |>.
End autoip.

(** ** The random delays are not random *)

Lemma random_timer_set_delay now a b st : - 2147483648 <= a < 2147483648 ->
  random_timer_set now a b st = (rand st) <| autoip_timer := UipTimer now a |>.
Proof.
  intros Ha. unfold random_timer_set. cbv zeta.
  assert (Z.shiftr (w32 (rand_value (rand st) * (b - a))) 32 = 0) as ->.
  { rewrite Z.shiftr_div_pow2 by lia. apply Z.div_small.
    pose proof (w32_u32 (rand_value (rand st) * (b - a))). unfold u32 in *. lia. }
  rewrite Z.add_0_r, s32_small by done. done.
Qed.

Lemma uip_ipaddr_bytes a0 a1 a2 a3 : u8 a0 -> u8 a1 -> u8 a2 -> u8 a3 ->
  uip_ipaddr a0 a1 a2 a3 = U4 a0 a1 a2 a3.
Proof.
  assert (forall x y, u8 x -> u8 y -> HTONS (Z.lor (Z.shiftl x 8) y) = 256 * y + x) as Hw.
  { intros x y Hx Hy. unfold u8 in *. rewrite lor_shiftl_add by (cbn; lia).
    rewrite Z.shiftl_mul_pow2 by lia. rewrite HTONS_swap by (unfold u16; lia). zdm. }
  intros H0 H1 H2 H3. unfold uip_ipaddr. rewrite !Hw by done. unfold of_words, w8, u8 in *.
  f_equal; zdm.
Qed.

Lemma link_local_bytes r : let a := uip_ipaddr 169 254 (Z.land r 0xff) (Z.shiftr (Z.land r 0xff00) 8) in
  q0 a = 169 /\ q1 a = 254 /\ u8x4_ok a.
Proof.
  assert (u8 (Z.land r 0xff)).
  { change 0xff with (Z.ones 8). rewrite Z.land_ones by lia. apply Z.mod_pos_bound. lia. }
  assert (u8 (Z.shiftr (Z.land r 0xff00) 8)).
  { rewrite Z.shiftr_land. change (Z.shiftr 0xff00 8) with (Z.ones 8).
    rewrite Z.land_ones by lia. apply Z.mod_pos_bound. lia. }
  intros a. subst a. rewrite uip_ipaddr_bytes by (done || (unfold u8; lia)).
  unfold u8x4_ok. cbn [q0 q1 q2 q3]. unfold u8 in *. split_and!; lia.
Qed.

(** ** The invariant of the state machine *)

Section invariant.
Context {E : Type} (autoip_configured : u8x4 -> uip_state E -> uip_state E).
Implicit Types (s : uip_state E) (a : autoip_state_t).

(** What happens to the module: a periodic call, an ARP packet, the link. *)
Inductive autoip_event : Type :=
| Tick (now : Z) (s : uip_state E) | ArpIn (s : uip_state E) | Start | Stop.
Definition autoip_step (e : autoip_event) a : autoip_state_t :=
  match e with
  | Tick now s => (autoip_periodic autoip_configured now a s).1
  | ArpIn s => autoip_arp_in a s
  | Start => autoip_start a
  | Stop => autoip_stop a
  end.
Fixpoint autoip_run (es : list autoip_event) a : autoip_state_t :=
  match es with
  | [] => a
  | e :: es => autoip_run es (autoip_step e a)
  end.

Definition has_address (st : autoip_machine_state) : bool :=
  match st with DISABLED | NO_ADDRESS => false | _ => true end.

Definition counts_ok a : Prop :=
  match state a with
  | DISABLED => True
  | NO_ADDRESS => probes_sent a = 0 /\ announces_sent a = 0 /\ num_conflicts a = 0
  | WAIT_FOR_PROBE => probes_sent a = 0 /\ announces_sent a = 0
  | PROBING => 1 <= probes_sent a <= PROBE_NUM /\ announces_sent a = 0
  | WAIT_FOR_ANNOUNCE => probes_sent a = PROBE_NUM /\ announces_sent a = 0
  | ANNOUNCING => probes_sent a = PROBE_NUM /\ announces_sent a = 1 /\ num_conflicts a = 0
  | CONFIGURED => probes_sent a = PROBE_NUM /\ announces_sent a = ANNOUNCE_NUM /\ num_conflicts a = 0
  end.
Record autoip_inv a : Prop := {
  ai_counts : counts_ok a;
  ai_limit : limit_rate a = false;
  ai_addr : has_address (state a) = true ->
    q0 (autoip_ipaddr a) = 169 /\ q1 (autoip_ipaddr a) = 254 /\ u8x4_ok (autoip_ipaddr a) }.

Ltac autoip_fields :=
  cbn [set_field state probes_sent announces_sent num_conflicts limit_rate rand_value seed
       autoip_timer autoip_ipaddr rand has_address fst snd] in *.
Ltac inv_auto := constructor; unfold counts_ok in *; autoip_fields;
  unfold PROBE_NUM, ANNOUNCE_NUM in *; (done || auto || lia).

Lemma send_probe_inv now a s : state a = PROBING -> limit_rate a = false ->
  0 <= probes_sent a < PROBE_NUM -> announces_sent a = 0 ->
  q0 (autoip_ipaddr a) = 169 /\ q1 (autoip_ipaddr a) = 254 /\ u8x4_ok (autoip_ipaddr a) ->
  autoip_inv (send_probe now a s).1.
Proof.
  intros Hst Hl Hp Hn Ha. unfold send_probe. cbv zeta.
  rewrite random_timer_set_delay by (unfold PROBE_MIN, CLOCK_SECOND; lia).
  destruct a; autoip_fields; subst. inv_auto.
Qed.

Lemma autoip_periodic_inv now a s : autoip_inv a ->
  autoip_inv (autoip_periodic autoip_configured now a s).1.
Proof.
  intros Hi. pose proof Hi as [Hc Hl Ha]. unfold autoip_periodic, counts_ok in *.
  destruct (state a) eqn:Hst; try done.
  - rewrite Hl. cbn [negb orb]. cbv zeta. rewrite random_timer_set_delay by lia.
    pose proof (link_local_bytes (rand_value (rand a))). destruct a; autoip_fields; subst. inv_auto.
  - case_match; [|done]. apply send_probe_inv; destruct a; autoip_fields; subst; unfold PROBE_NUM; (done || auto || lia).
  - case_match; [|done]. destruct (Z.eqb_spec (probes_sent a) PROBE_NUM).
    + destruct a; autoip_fields; subst. inv_auto.
    + apply send_probe_inv; rewrite ?Hst in *; (done || auto || lia).
  - case_match; [|done]. destruct (Z.eqb_spec (num_conflicts a) 0); destruct a; autoip_fields; subst;
      unfold send_announce; autoip_fields; inv_auto.
  - unfold send_announce. autoip_fields. destruct a; autoip_fields; subst.
    replace (announces_sent0 + 1) with ANNOUNCE_NUM by (unfold ANNOUNCE_NUM; lia).
    rewrite Z.eqb_refl. autoip_fields. inv_auto.
Qed.

Lemma autoip_step_inv e a : autoip_inv a -> autoip_inv (autoip_step e a).
Proof.
  destruct e; cbn [autoip_step]; [apply autoip_periodic_inv|..]; intros Hi; pose proof Hi as [Hc Hl Ha];
    unfold counts_ok in *.
  - unfold autoip_arp_in. destruct (state a) eqn:Hst; try done; (case_match; [|done]);
      destruct a; autoip_fields; subst; inv_auto.
  - unfold autoip_start. destruct (state a); done.
  - unfold autoip_stop. destruct a; autoip_fields; subst. inv_auto.
Qed.

Lemma autoip_run_inv es : forall a, autoip_inv a -> autoip_inv (autoip_run es a).
Proof. induction es as [|e es IH]; intros a Ha; [done|]. by apply IH, autoip_step_inv. Qed.

Definition link_local (ip : u8x4) : Prop := q0 ip = 169 /\ q1 ip = 254 /\ u8x4_ok ip.

Lemma autoip_init_inv seed a : autoip_inv (autoip_init seed a).
Proof. by constructor. Qed.

(** The state machine of link-local addressing.  Whatever happens after
    [autoip_init] (clock readings, ARP packets, link changes, in any order): an
    address that is announced or configured is in 169.254/16, has been probed
    exactly three times and has no conflict on record, and it is configured
    after exactly two announcements.  The flag [limit_rate] is never set: the
    counter is cleared before it is compared with [MAX_CONFLICTS], so the delay
    of 60 seconds between attempts never applies. *)
Theorem autoip_reachable seed a es : let a' := autoip_run es (autoip_init seed a) in
  limit_rate a' = false /\
  match state a' with
  | ANNOUNCING =>
      probes_sent a' = PROBE_NUM /\ num_conflicts a' = 0 /\ announces_sent a' = 1 /\
      link_local (autoip_ipaddr a')
  | CONFIGURED =>
      probes_sent a' = PROBE_NUM /\ num_conflicts a' = 0 /\ announces_sent a' = ANNOUNCE_NUM /\
      link_local (autoip_ipaddr a')
  | NO_ADDRESS => num_conflicts a' = 0 /\ forall now s,
      state (autoip_periodic autoip_configured now a' s).1 = WAIT_FOR_PROBE
  | _ => True
  end.
Proof.
  intros a'. assert (autoip_inv a') as [Hc Hl Ha] by apply autoip_run_inv, autoip_init_inv.
  split; [done|]. unfold counts_ok, link_local in *. destruct (state a') eqn:Hst; try done.
  - split; [apply Hc|]. intros now s. unfold autoip_periodic. rewrite Hst, Hl. cbn [negb orb]. cbv zeta.
    by rewrite random_timer_set_delay.
  - destruct Hc as (? & ? & ?). auto.
  - destruct Hc as (? & ? & ?). auto.
Qed.

(** An address being probed, and one that is taken. *)
Definition probing (st : autoip_machine_state) : bool :=
  match st with WAIT_FOR_PROBE | PROBING | WAIT_FOR_ANNOUNCE => true | _ => false end.
Definition claims (st : autoip_machine_state) : bool :=
  match st with ANNOUNCING | CONFIGURED => true | _ => false end.

(** A contested address stays contested until it is given up. *)
Lemma contested_step e a : probing (state a) = true -> 0 < num_conflicts a < 2147483647 ->
  let a' := autoip_step e a in
  (probing (state a') = true /\ num_conflicts a <= num_conflicts a' <= num_conflicts a + 1) \/
  state a' = NO_ADDRESS \/ state a' = DISABLED.
Proof.
  intros Hp Hc. destruct e as [now s|s| |]; cbn [autoip_step].
  - unfold autoip_periodic. destruct (state a) eqn:Hst; try done;
      (case_match; [|left; cbn [fst]; rewrite Hst; split; [done|lia]]); cbv zeta.
    + left. unfold send_probe. rewrite random_timer_set_delay by (unfold PROBE_MIN, CLOCK_SECOND; lia).
      cbn. split; [done|lia].
    + case_match; [left; cbn; split; [done|lia]|]. left. unfold send_probe.
      rewrite random_timer_set_delay by (unfold PROBE_MIN, CLOCK_SECOND; lia).
      cbn. rewrite Hst. split; [done|lia].
    + rewrite (proj2 (Z.eqb_neq _ _)) by lia. right. left. done.
  - left. unfold autoip_arp_in. destruct (state a) eqn:Hst; try done;
      (case_match; cbn [set_field state num_conflicts]; rewrite ?Hst; [rewrite s32_small by lia|]; split; [done|lia|done|lia]).
  - left. unfold autoip_start. destruct (state a) eqn:Hst; try done; rewrite Hst; split; (done || lia).
  - right. right. done.
Qed.

Lemma disabled_step e a : state a = DISABLED ->
  state (autoip_step e a) = NO_ADDRESS \/ state (autoip_step e a) = DISABLED.
Proof.
  intros Hd. destruct e; cbn [autoip_step]; unfold autoip_periodic, autoip_arp_in, autoip_start;
    rewrite ?Hd; auto.
Qed.

(** C14: duplicate address detection.  When an ARP packet sent from the address
    being probed arrives at any time between its choice and its announcement,
    the address is never used: whatever follows, the machine goes back to
    [NO_ADDRESS] before it announces or configures anything.  (The conflict
    counter is an [int]; the statement is for fewer than 2^31 events.) *)
Theorem autoip_contested a s es : probing (state a) = true ->
  uip_ipaddr_cmp (rd4 (uip_buf s) ARP.sipaddr) (autoip_ipaddr a) = true ->
  0 <= num_conflicts a -> num_conflicts a + Z.of_nat (length es) < 2147483646 ->
  claims (state (autoip_run es (autoip_arp_in a s))) = true ->
  exists before after, es = before ++ after /\
    state (autoip_run before (autoip_arp_in a s)) = NO_ADDRESS.
Proof.
  intros Hp Hs Hc Hn.
  assert (forall es a, (probing (state a) = true /\ 0 < num_conflicts a /\
        num_conflicts a + Z.of_nat (length es) < 2147483647) \/
      state a = NO_ADDRESS \/ state a = DISABLED -> claims (state (autoip_run es a)) = true ->
      exists before after, es = before ++ after /\ state (autoip_run before a) = NO_ADDRESS) as H.
  { clear. induction es as [|e es IH]; intros a Ha Hcl; cbn [autoip_run length] in *.
    - destruct Ha as [[Hp _]|[Ha|Hd]]; [by destruct (state a)|by rewrite Ha in Hcl|by rewrite Hd in Hcl].
    - destruct Ha as [(Hp & Hc & Hn)|[Ha|Hd]]; [|by exists [], (e :: es)|].
      + destruct (IH (autoip_step e a)) as (b & f & -> & Hb); [|done|by exists (e :: b), f].
        destruct (contested_step e a Hp) as [[? ?]|?]; [lia| |by right]. left. split; [done|lia].
      + destruct (IH (autoip_step e a)) as (b & f & -> & Hb); [|done|by exists (e :: b), f].
        right. by apply disabled_step. }
  apply H. left. unfold autoip_arp_in. destruct (state a) eqn:Hst; try done; rewrite Hs;
    cbn [set_field state num_conflicts]; rewrite Hst, s32_small by lia; split_and!; (done || lia).
Qed.
End invariant.
