(* ===== verification/AutoIPLive.v ===== *)
(** * Link-local addressing: the frames sent, and success when nobody objects *)
From S2P Require Export AutoIP.
Local Open Scope Z_scope.

Lemma autoip_arp_pkt_bytes : bytes autoip_arp_pkt.
Proof. repeat constructor; unfold u8; lia. Qed.

Section frames.
Context {E : Type}.
Implicit Types (s : uip_state E) (a : autoip_state_t).

(** The template in the buffer. *)
Lemma rd8_template b k : 42 <= Z.of_nat (length b) -> 0 <= k < 42 ->
  rd8 (wrs 0 autoip_arp_pkt b) k = nth (Z.to_nat k) autoip_arp_pkt 0.
Proof.
  intros Hb Hk. rewrite rd8_wrs_in by (change (length autoip_arp_pkt) with 42%nat; lia).
  rewrite Z.sub_0_r. apply w8_small.
  apply (proj1 (List.Forall_forall u8 _) autoip_arp_pkt_bytes), nth_In.
  change (length autoip_arp_pkt) with 42%nat. lia.
Qed.

Lemma create_arp_packet_view s : uip_wf s ->
  arp_view (uip_buf (create_arp_packet s))
  = ArpPacket (replicate 6 0xff, uip_ethaddr s, HTONS UIP_ETHTYPE_ARP) (HTONS ARP_REQUEST)
      (uip_ethaddr s) zero4 (replicate 6 0) zero4.
Proof.
  intros Hs. pose proof (buf_len s Hs). pose proof (wf_ethaddr s Hs).
  pose proof (wf_ethaddr_len s Hs) as Hel. pose proof autoip_arp_pkt_bytes as Hb.
  assert (length autoip_arp_pkt = 42%nat) as Hl by done.
  unfold create_arp_packet, arp_view. ssimpl. unfold eth_header. arp_offsets.
  runs. rewrite !rds_wrs_sub by (done || lia).
  assert (rd16 (wrs 0 autoip_arp_pkt (uip_buf s)) 12 = HTONS UIP_ETHTYPE_ARP) as ->
    by (unfold rd16; rewrite !rd8_template by lia; reflexivity).
  runs. rewrite (rd4_wrs_ne _ 22), (rd4_wrs_ne _ 6) by run_side.
  unfold rd16, rd4. rewrite !rd8_template by lia. reflexivity.
Qed.

(** The frames: the sender address is 0 in a probe and the address itself in an
    announcement. *)
Definition autoip_frame (spa : u8x4) a s (b : list Z) : Prop :=
  arp_view b = ArpPacket (replicate 6 0xff, uip_ethaddr s, HTONS UIP_ETHTYPE_ARP) (HTONS ARP_REQUEST)
    (uip_ethaddr s) spa (replicate 6 0) (autoip_ipaddr a).

Lemma view_dipaddr ip b : u8x4_ok ip -> 42 <= Z.of_nat (length b) ->
  arp_view (wr4 ARP.dipaddr ip b) = (let p := arp_view b in
    ArpPacket (ap_eth p) (ap_opcode p) (ap_sha p) (ap_spa p) (ap_tha p) ip).
Proof. intros. unfold arp_view. cbv zeta. cbn. unfold eth_header. arp_offsets. runs. done. Qed.
Lemma view_sipaddr ip b : u8x4_ok ip -> 42 <= Z.of_nat (length b) ->
  arp_view (wr4 ARP.sipaddr ip b) = (let p := arp_view b in
    ArpPacket (ap_eth p) (ap_opcode p) (ap_sha p) ip (ap_tha p) (ap_tpa p)).
Proof. intros. unfold arp_view. cbv zeta. cbn. unfold eth_header. arp_offsets. runs. done. Qed.
End frames.

(** What the module needs of the layer it reports to. *)
Class AutoipClient {E} (autoip_configured : u8x4 -> uip_state E -> uip_state E) : Prop := {
  conf_buf ip s : uip_buf (autoip_configured ip s) = uip_buf s;
  conf_len ip s : uip_len (autoip_configured ip s) = uip_len s }.

Section periodic.
Context {E : Type} (autoip_configured : u8x4 -> uip_state E -> uip_state E).
Context `{!AutoipClient autoip_configured}.
Implicit Types (s : uip_state E) (a : autoip_state_t).

Lemma send_probe_frame now a s : uip_wf s -> u8x4_ok (autoip_ipaddr a) ->
  let r := send_probe now a s in
  uip_len r.2 = ARP.size /\ state r.1 = state a /\ probes_sent r.1 = probes_sent a + 1 /\
  autoip_frame zero4 r.1 s (uip_buf r.2).
Proof.
  intros Hs Hip r. subst r. unfold send_probe. cbv zeta.
  rewrite random_timer_set_delay by (unfold PROBE_MIN, CLOCK_SECOND; lia). cbn [fst snd].
  split_and!; [done..|]. unfold autoip_frame. cbn [set_field autoip_ipaddr rand mem uip_buf].
  pose proof (create_arp_packet_view s Hs) as Hv. rewrite view_dipaddr; [by rewrite Hv|done|].
  pose proof (buf_len s Hs). unfold create_arp_packet. ssimpl. autorewrite with memlen. lia.
Qed.

Lemma send_announce_frame now a s : uip_wf s -> u8x4_ok (autoip_ipaddr a) ->
  let r := send_announce now a s in
  uip_len r.2 = ARP.size /\ state r.1 = state a /\ announces_sent r.1 = announces_sent a + 1 /\
  autoip_frame (autoip_ipaddr r.1) r.1 s (uip_buf r.2).
Proof.
  intros Hs Hip r. subst r. unfold send_announce. cbn [fst snd].
  split_and!; [done..|]. unfold autoip_frame. cbn [set_field autoip_ipaddr mem uip_buf].
  pose proof (create_arp_packet_view s Hs) as Hv. pose proof (buf_len s Hs).
  assert (42 <= Z.of_nat (length (uip_buf (create_arp_packet s)))).
  { unfold create_arp_packet. ssimpl. autorewrite with memlen. lia. }
  rewrite view_sipaddr; [|done|by rewrite length_wr4]. rewrite view_dipaddr by done. by rewrite Hv.
Qed.

(** The packets of link-local addressing.  A periodic call either leaves the
    packet buffer alone, or puts an ARP probe for the current address there
    (broadcast request, sender address 0, one more probe counted), or an
    announcement of it (sender and target address equal to it, one more
    announcement counted).  Nothing else is ever sent. *)
Theorem autoip_periodic_frame now a s : uip_wf s -> autoip_inv a ->
  let r := autoip_periodic autoip_configured now a s in
  (uip_buf r.2 = uip_buf s /\ uip_len r.2 = uip_len s) \/
  (uip_len r.2 = ARP.size /\ state r.1 = PROBING /\ probes_sent r.1 = probes_sent a + 1 /\
   autoip_frame zero4 r.1 s (uip_buf r.2)) \/
  (uip_len r.2 = ARP.size /\ claims (state r.1) = true /\ announces_sent r.1 = announces_sent a + 1 /\
   autoip_frame (autoip_ipaddr r.1) r.1 s (uip_buf r.2)).
Proof.
  intros Hs [Hc Hl Ha] r. subst r. unfold autoip_periodic.
  destruct (state a) eqn:Hst; try (by left); cbn [has_address] in Ha;
    try (destruct (Ha eq_refl) as (_ & _ & Hip)).
  - case_match; by left.
  - case_match; [|by left]. right. left.
    destruct (send_probe_frame now (a <| state := PROBING |>) s Hs Hip) as (? & ? & ? & ?). auto.
  - case_match; [|by left]. case_match; [by left|]. right. left.
    destruct (send_probe_frame now a s Hs Hip) as (? & Hs' & ? & ?). rewrite Hst in Hs'. auto.
  - case_match; [|by left]. case_match; [|by left]. right. right.
    destruct (send_announce_frame now (a <| state := ANNOUNCING |>) s Hs Hip) as (? & Hs' & ? & ?).
    split_and!; auto.
  - right. right. destruct (send_announce_frame now a s Hs Hip) as (? & Hs' & ? & ?).
    destruct (send_announce now a s) as [a' s']. cbn [fst snd] in *.
    case_match; cbn [fst snd set_field state claims announces_sent autoip_ipaddr];
      rewrite ?conf_buf, ?conf_len, ?Hs', ?Hst; auto.
Qed.
End periodic.

(** ** Success when nobody objects *)

Section liveness.
Context {E : Type} (autoip_configured : u8x4 -> uip_state E -> uip_state E).

(** The calls of the server's loop: the true times at which they happen (at
    least a millisecond and at most 2^30 ms apart), the stack states they find,
    and the states of the module between them. *)
Record autoip_schedule (time : nat -> Z) (s : nat -> uip_state E) (a : nat -> autoip_state_t) : Prop := {
  sch_time k : time k < time (S k) <= time k + 1073741824;
  sch_next k : a (S k) = (autoip_periodic autoip_configured (clock (time k)) (a k) (s k)).1 }.

Context (time : nat -> Z) (s : nat -> uip_state E) (a : nat -> autoip_state_t).
Context (Hsch : autoip_schedule time s a).

(** Waiting for a timer set at the true time [t0]: the state stays as it is
    until a call finds the timer expired. *)
Lemma wait_expired i t0 : 0 <= i <= 2000 -> forall k,
  probing (state (a k)) = true -> autoip_timer (a k) = UipTimer (clock t0) i ->
  t0 <= time k <= t0 + 1073741824 + 2000 ->
  exists m, (k <= m)%nat /\ a m = a k /\ timer_expired (clock (time m)) (autoip_timer (a m)) = true.
Proof.
  intros Hi k. remember (Z.to_nat (i - (time k - t0))) as n eqn:Hn. revert k Hn.
  induction n as [n IH] using lt_wf_ind. intros k -> Hp Ht Htk.
  pose proof (sch_time _ _ _ Hsch k) as Hstep.
  assert (timer_expired (clock (time k)) (autoip_timer (a k)) = (i <=? time k - t0)) as Hexp.
  { rewrite Ht. change (UipTimer (clock t0) i) with (timer_set (clock t0) i (UipTimer 0 0)).
    rewrite timer_set_expired; lia. }
  destruct (Z.leb_spec i (time k - t0)) as [|Hlt]; [exists k; rewrite Hexp; auto|].
  assert (a (S k) = a k) as Heq.
  { rewrite (sch_next _ _ _ Hsch k). unfold autoip_periodic. rewrite Hexp.
    by destruct (state (a k)). }
  destruct (IH (Z.to_nat (i - (time (S k) - t0))) ltac:(lia) (S k) eq_refl) as (m & Hm & Ha & He);
    rewrite ?Heq; [done..|lia|]. exists m. split; [lia|]. rewrite Heq in Ha. done.
Qed.

(** The waiting states with their timers. *)
Definition waits (k : nat) (st : autoip_machine_state) (probes : Z) (ip : u8x4) : Prop :=
  state (a k) = st /\ probes_sent (a k) = probes /\ announces_sent (a k) = 0 /\
  num_conflicts (a k) = 0 /\ autoip_ipaddr (a k) = ip /\
  exists i t0, 0 <= i <= 2000 /\ t0 <= time k <= t0 + 1073741824 /\
    autoip_timer (a k) = UipTimer (clock t0) i.

(** One phase: wait, then the call that finds the timer expired. *)
Lemma phase k st n ip : waits k st n ip -> probing st = true ->
  exists m, (k <= m)%nat /\ state (a m) = st /\ probes_sent (a m) = n /\ announces_sent (a m) = 0 /\
    num_conflicts (a m) = 0 /\ autoip_ipaddr (a m) = ip /\
    timer_expired (clock (time m)) (autoip_timer (a m)) = true.
Proof.
  intros (Hst & Hn & Hann & Hc & Hip & i & t0 & Hi & Ht0 & Ht) Hp.
  destruct (wait_expired i t0 Hi k) as (m & Hm & Ha & He); [by rewrite Hst|done|lia|].
  exists m. rewrite Ha in *. split_and!; auto.
Qed.

Lemma probe_next m n ip st : state (a m) = st -> (st = WAIT_FOR_PROBE \/ st = PROBING /\ n <> PROBE_NUM) ->
  probes_sent (a m) = n -> announces_sent (a m) = 0 -> num_conflicts (a m) = 0 ->
  autoip_ipaddr (a m) = ip -> timer_expired (clock (time m)) (autoip_timer (a m)) = true ->
  waits (S m) PROBING (n + 1) ip.
Proof.
  intros Hst Hor Hn Hann Hc Hip He. pose proof (sch_time _ _ _ Hsch m).
  unfold waits. rewrite (sch_next _ _ _ Hsch m). unfold autoip_periodic. rewrite Hst, He.
  destruct Hor as [->|[-> Hne]]; rewrite ?Hn, ?(proj2 (Z.eqb_neq n PROBE_NUM)) by done;
    unfold send_probe; cbv zeta; rewrite random_timer_set_delay by (unfold PROBE_MIN, CLOCK_SECOND; lia);
    cbn -[clock]; rewrite ?Hst; split_and!; auto; try (by rewrite Hn);
    exists 1000, (time m); split_and!; (lia || done).
Qed.

Lemma probe_round k st n ip : waits k st n ip ->
  (st = WAIT_FOR_PROBE \/ st = PROBING /\ n <> PROBE_NUM) -> exists m, waits m PROBING (n + 1) ip.
Proof.
  intros Hw Hor. destruct (phase k st n ip Hw) as (m & _ & ? & ? & ? & ? & ? & ?);
    [by destruct Hor as [->|[-> _]]|]. exists (S m). by apply (probe_next m n ip st).
Qed.

(** The third probe has been sent: the address is announced next. *)
Lemma announce_next k ip : waits k PROBING PROBE_NUM ip ->
  exists m, state (a m) = ANNOUNCING /\ announces_sent (a m) = 1 /\ autoip_ipaddr (a m) = ip.
Proof.
  intros Hw. destruct (phase k _ _ _ Hw eq_refl) as (m & _ & Hs & Hp & Hn & Hc & Hip & He).
  pose proof (sch_time _ _ _ Hsch m).
  assert (waits (S m) WAIT_FOR_ANNOUNCE PROBE_NUM ip) as Hw'.
  { unfold waits. rewrite (sch_next _ _ _ Hsch m). unfold autoip_periodic.
    rewrite Hs, He, Hp, Z.eqb_refl. cbn -[clock]. split_and!; auto.
    exists 2000, (time m). split_and!; (lia || done). }
  destruct (phase _ _ _ _ Hw' eq_refl) as (m' & _ & Hs' & Hp' & Hn' & Hc' & Hip' & He').
  exists (S m'). rewrite (sch_next _ _ _ Hsch m'). unfold autoip_periodic.
  rewrite Hs', He', Hc'. cbn. by rewrite Hn', Hip'.
Qed.

(** Progress.  From [NO_ADDRESS], if no conflict is counted, the machine
    gets through probing and announcing however the calls are spaced: some call
    finds it [ANNOUNCING] and leaves it [CONFIGURED], with the address it chose
    in its first step, and that call ends by handing exactly this address to
    [autoip_configured]. *)
Theorem autoip_configures : state (a 0%nat) = NO_ADDRESS -> autoip_inv (a 0%nat) ->
  exists m s', state (a m) = ANNOUNCING /\ state (a (S m)) = CONFIGURED /\
    autoip_ipaddr (a (S m)) = autoip_ipaddr (a 1%nat) /\ link_local (autoip_ipaddr (a 1%nat)) /\
    (autoip_periodic autoip_configured (clock (time m)) (a m) (s m)).2
    = autoip_configured (autoip_ipaddr (a 1%nat)) s'.
Proof.
  intros Hst [Hc Hl _]. unfold counts_ok in Hc. rewrite Hst in Hc. destruct Hc as (Hp & Hn & Hcf).
  pose proof (sch_time _ _ _ Hsch 0%nat) as Ht0.
  assert (waits 1 WAIT_FOR_PROBE 0 (autoip_ipaddr (a 1%nat)) /\ link_local (autoip_ipaddr (a 1%nat)))
    as [H1 Hll].
  { unfold waits. rewrite (sch_next _ _ _ Hsch 0%nat). unfold autoip_periodic. rewrite Hst, Hl.
    cbn [negb orb]. cbv zeta. rewrite random_timer_set_delay by lia. cbn -[clock uip_ipaddr w32 Z.land Z.shiftr].
    split; [|apply link_local_bytes]. split_and!; auto. exists 0, (time 0%nat). split_and!; (lia || done). }
  destruct (probe_round _ _ _ _ H1 ltac:(by left)) as [m1 W1].
  destruct (probe_round _ _ _ _ W1 ltac:(by right)) as [m2 W2].
  destruct (probe_round _ _ _ _ W2 ltac:(by right)) as [m3 W3].
  destruct (announce_next m3 _ W3) as (m & Hm & Ha & Hip).
  exists m, (send_announce (clock (time m)) (a m) (s m)).2.
  rewrite (sch_next _ _ _ Hsch m). unfold autoip_periodic. rewrite Hm. unfold send_announce.
  cbn -[clock]. rewrite Ha. cbn -[clock]. by rewrite Hip.
Qed.
End liveness.

(** ** Concrete runs *)

Definition no_report (ip : u8x4) (s : uip_state unit) : uip_state unit := s.
#[export] Instance no_report_client : AutoipClient no_report.
Proof. by constructor. Qed.

(** A host whose loop calls the module every half second. *)
Definition half_seconds (k : nat) : Z := 500 * Z.of_nat k.
Definition booted : autoip_state_t :=
  Eval vm_compute in
    autoip_start (autoip_init 7 (AutoipState DISABLED 0 0 0 false 0 0 (UipTimer 0 0) zero4)).
Fixpoint link_local_host (k : nat) : autoip_state_t :=
  match k with
  | O => booted
  | S k => (autoip_periodic no_report (clock (half_seconds k)) (link_local_host k) (initial_state tt)).1
  end.

Lemma autoip_configures_witness : exists m, state (link_local_host (S m)) = CONFIGURED.
Proof.
  destruct (autoip_configures no_report half_seconds (fun _ => initial_state tt) link_local_host)
    as (m & _ & _ & H & _).
  - constructor; [intros k; unfold half_seconds; lia|done].
  - reflexivity.
  - by constructor.
  - by exists m.
Defined.

Lemma link_local_host_inv k : autoip_inv (link_local_host k).
Proof.
  induction k as [|k IH]; cbn [link_local_host]; [by constructor|by apply autoip_periodic_inv].
Qed.

(** Another host probes with the same address, while this one waits. *)
Definition rival : uip_state unit :=
  (initial_state tt) <| uip_buf := wr4 ARP.sipaddr (autoip_ipaddr (link_local_host 4)) (replicate 42 0) |>.
Definition later : list (@autoip_event unit) :=
  map (fun k => Tick (clock (2000 * Z.of_nat k)) (initial_state tt)) (seq 1 20).
Lemma rival_sender :
  uip_ipaddr_cmp (rd4 (uip_buf rival) ARP.sipaddr) (autoip_ipaddr (link_local_host 4)) = true.
Proof. vm_compute. reflexivity. Qed.
Lemma rival_claims :
  claims (state (autoip_run no_report later (autoip_arp_in (link_local_host 4) rival))) = true.
Proof. vm_compute. reflexivity. Qed.
Lemma host_probing : probing (state (link_local_host 4)) = true /\ num_conflicts (link_local_host 4) = 0.
Proof. vm_compute. done. Qed.

Lemma autoip_contested_witness :
  exists before after, later = before ++ after /\
    state (autoip_run no_report before (autoip_arp_in (link_local_host 4) rival)) = NO_ADDRESS.
Proof.
  destruct host_probing as [Hp Hc].
  apply (autoip_contested no_report _ rival later); [exact Hp|exact rival_sender|..|exact rival_claims];
    rewrite Hc; [done|]. reflexivity.
Defined.

Lemma autoip_periodic_frame_witness :
  let a := link_local_host 2 in
  let r := autoip_periodic no_report (clock 1000) a (initial_state tt) in
  (uip_buf r.2 = uip_buf (initial_state tt) /\ uip_len r.2 = uip_len (initial_state tt)) \/
  (uip_len r.2 = ARP.size /\ state r.1 = PROBING /\ probes_sent r.1 = probes_sent a + 1 /\
   autoip_frame zero4 r.1 (initial_state tt) (uip_buf r.2)) \/
  (uip_len r.2 = ARP.size /\ claims (state r.1) = true /\ announces_sent r.1 = announces_sent a + 1 /\
   autoip_frame (autoip_ipaddr r.1) r.1 (initial_state tt) (uip_buf r.2)).
Proof.
  exact (autoip_periodic_frame no_report (clock 1000) (link_local_host 2) (initial_state tt)
    (initial_state_wf tt) (link_local_host_inv 2)).
Defined.
