(* ===== verification/Split.v ===== *)
(** * Transmission: [uip-split.c] and [xcoredev_send]

    Large TCP segments go out as two, so that the receiver acknowledges at
    once.  The wire is the list of the frames handed to the MAC: the contents of
    [uip_buf] and the number of bytes sent. *)
From S2P Require Export UipOutput.
Local Open Scope Z_scope.

Definition UIP_PACKET_SPLIT_THRESHOLD : Z := UIP_BUFSIZE / 2.
Definition ACTUAL_UIP_PACKET_SPLIT_THRESHOLD : Z :=
  if 4 <? UIP_PACKET_SPLIT_THRESHOLD then UIP_PACKET_SPLIT_THRESHOLD else 4.

Definition wire : Type := list (list Z * Z).

(** Copying words down: [dst[i] = src[i]] for [i < n]. *)
Fixpoint copy_words (n : nat) (dst src : Z) (b : list Z) : list Z :=
  match n with
  | O => b
  | S n => copy_words n (dst + 4) (src + 4) (wrs dst (rds b src 4) b)
  end.

Section split.
Context {E : Type}.
Implicit Types (s : uip_state E) (w : wire).

(** Frames are padded to 64 bytes in place. *)
Definition xcoredev_send s w : uip_state E * wire :=
  let len := uip_len s in
  if negb (len =? 0) then
    if len <? 64 then
      let s := mem (wrs len (replicate (Z.to_nat (64 - len)) 0)) s in
      (s, w ++ [(uip_buf s, 64)])
    else (s, w ++ [(uip_buf s, len)])
  else (s, w).

Definition set_tcpchksum s : uip_state E :=
  let s := mem (wr16 BUF.tcpchksum 0) s in
  mem (fun b => wr16 BUF.tcpchksum (w16 (Z.lnot (uip_tcpchksum b))) b) s.

Definition uip_split_output_send s w : uip_state E * wire :=
  let s := set_tcpchksum s in
  let s := mem (wr16 BUF.ipchksum 0) s in
  let s := mem (fun b => wr16 BUF.ipchksum (w16 (Z.lnot (uip_ipchksum b))) b) s in
  let s := s <| uip_len ::= fun l => w16 (l + UIP_LLH_LEN) |> in
  xcoredev_send s w.

(** The IP length of the half of the segment that is sent next. *)
Definition set_half (len : Z) s : uip_state E :=
  let s := s <| uip_len := w16 (len + UIP_TCPIP_HLEN) |> in
  let s := mem (wr8 BUF.len (Z.shiftr (uip_len s) 8)) s in
  mem (wr8 (BUF.len + 1) (Z.land (uip_len s) 0xff)) s.

(** The second half moves down over the first. *)
Definition move_down (len1 len2 : Z) s : uip_state E :=
  let p := uip_appdata s in
  let s := mem (fun b => wr16 p (rd16 b (p + len1)) b) s in
  mem (copy_words (Z.to_nat (len2 / 4 + 1)) (p + 2) (p + 2 + len1)) s.

Definition uip_split_output s w : uip_state E * wire :=
  if rd8 (uip_buf s) BUF.proto =? UIP_PROTO_TCP then
    let data_len := uip_len s - UIP_TCPIP_HLEN - UIP_LLH_LEN in
    if ACTUAL_UIP_PACKET_SPLIT_THRESHOLD <? data_len then
      let tcplen := w16 (uip_len s - UIP_TCPIP_HLEN - UIP_LLH_LEN) in
      let len1 := Z.land (tcplen / 2) (Z.lnot 3) in
      let len2 := w16 (tcplen - len1) in
      let s := set_half len1 s in
      let '(s, w) := uip_split_output_send s w in
      let s := set_half len2 s in
      let s := move_down len1 len2 s in
      let s := mem (fun b => wr4 BUF.seqno (uip_add32 (rd4 b BUF.seqno) len1) b) s in
      uip_split_output_send s w
    else xcoredev_send (set_tcpchksum s) w
  else xcoredev_send s w.
End split.

(** ** Copying down *)

Lemma length_copy_words n : forall dst src b, length (copy_words n dst src b) = length b.
Proof. induction n as [|n IH]; intros; cbn [copy_words]; [done|]. by rewrite IH, length_wrs. Qed.
Lemma bytes_copy_words n : forall dst src b, bytes b -> bytes (copy_words n dst src b).
Proof. induction n as [|n IH]; intros; cbn [copy_words]; [done|]. by apply IH, bytes_wrs. Qed.

Lemma rd8_copy_out n : forall dst src b j, 0 <= dst -> 0 <= j ->
  j < dst \/ dst + 4 * Z.of_nat n <= j -> rd8 (copy_words n dst src b) j = rd8 b j.
Proof.
  induction n as [|n IH]; intros dst src b j Hd Hj H; cbn [copy_words]; [done|].
  rewrite IH by lia. apply rd8_wrs_out; rewrite ?length_rds; lia.
Qed.
Lemma rd8_copy_in n : forall dst src b j, bytes b -> 0 <= dst -> dst + 4 <= src ->
  dst + 4 * Z.of_nat n <= Z.of_nat (length b) -> dst <= j < dst + 4 * Z.of_nat n ->
  rd8 (copy_words n dst src b) j = rd8 b (j + (src - dst)).
Proof.
  induction n as [|n IH]; intros dst src b j Hb Hd Hs Hl Hj; [lia|]. cbn [copy_words].
  destruct (Z_lt_ge_dec j (dst + 4)).
  - rewrite rd8_copy_out, rd8_wrs_in by (rewrite ?length_rds; lia).
    rewrite nth_rds by lia. rewrite w8_small by (by apply rd8_u8). f_equal. lia.
  - rewrite IH by (rewrite ?length_wrs; try apply bytes_wrs; done || lia).
    rewrite rd8_wrs_out by (rewrite ?length_rds; lia). f_equal. lia.
Qed.

(** The bytes the checksums read. *)
Lemma upper_layer_ext proto b b' : bytes b -> bytes b' ->
  (forall k, 16 <= k < 18 \/ 26 <= k < 34 \/ 34 <= k < 34 + upper_len b -> rd8 b k = rd8 b' k) ->
  upper_layer_chksum proto b = upper_layer_chksum proto b'.
Proof.
  intros Hb Hb' H. rewrite !upper_layer_ones by done. do 2 f_equal. unfold upper_sum.
  assert (upper_len b = upper_len b') as He by (unfold upper_len, BUF.len; by rewrite !H by lia).
  assert (u16 (upper_len b)) by apply w16_u16. unfold u16 in *.
  rewrite <- He, (wsum_ext 8 b b'), (wsum_ext _ b b') by (intros; apply H; lia). done.
Qed.
Lemma ipchksum_ext b b' : bytes b -> bytes b' -> (forall k, 14 <= k < 34 -> rd8 b k = rd8 b' k) ->
  uip_ipchksum b = uip_ipchksum b'.
Proof.
  intros Hb Hb' H. rewrite !uip_ipchksum_ones by done.
  rewrite (wsum_ext 20 b b') by (intros; apply H; lia). done.
Qed.

(** ** Frames on the wire *)

(** [f] carries the TCP packet of [n] bytes in [b], its checksums filled in. *)
Record carries (b f : list Z) (n : Z) : Prop := {
  fr_bytes : bytes f;
  fr_len : length f = length b;
  fr_same k : 0 <= k < 14 + n -> k <> 24 -> k <> 25 -> k <> 50 -> k <> 51 -> rd8 f k = rd8 b k;
  fr_ip : uip_ipchksum f = 0xffff;
  fr_tcp : uip_tcpchksum f = 0xffff }.

(** A halfword copied within the buffer. *)
Lemma rd8_wr16_rd16 b i j k : bytes b -> 0 <= i -> i + 2 <= Z.of_nat (length b) -> i <= k < i + 2 ->
  rd8 (wr16 i (rd16 b j) b) k = rd8 b (j + (k - i)).
Proof.
  intros Hb Hi Hl Hk. pose proof (rd16_u16 b j Hb) as Hu.
  pose proof (rd8_u8 b j Hb) as H0. pose proof (rd8_u8 b (j + 1) Hb) as H1.
  unfold wr16. rewrite w16_small by done. unfold rd16, u8, u16 in *.
  destruct (decide (k = i)) as [->|].
  - rewrite rd8_wr8_ne, rd8_wr8_eq by lia. replace (j + (i - i)) with j by lia. unfold w8. zdm.
  - replace k with (i + 1) by lia. rewrite rd8_wr8_eq by (rewrite length_wr8; lia).
    replace (j + (i + 1 - i)) with (j + 1) by lia. unfold w8. zdm.
Qed.

Section frames.
Context {E : Type}.
Implicit Types (s : uip_state E) (w : wire).

Lemma upper_len_ip b n : ip_length b = n -> 20 <= n < 65536 -> upper_len b = n - 20.
Proof. intros <- H. unfold upper_len. fold (ip_length b). apply w16_small. unfold u16, UIP_IPH_LEN. lia. Qed.

Lemma set_tcpchksum_fields s n : uip_wf s -> ip_length (uip_buf s) = n -> 40 <= n <= 1512 ->
  uip_tcpchksum (uip_buf (set_tcpchksum s)) = 0xffff /\ uip_wf (set_tcpchksum s) /\
  uip_len (set_tcpchksum s) = uip_len s /\
  (forall k, 0 <= k -> k <> 50 -> k <> 51 -> rd8 (uip_buf (set_tcpchksum s)) k = rd8 (uip_buf s) k).
Proof.
  intros Hs Hn Hr. pose proof (buf_len s Hs) as Hl. pose proof (wf_buf s Hs).
  unfold set_tcpchksum. split_and!; [|wf_auto|done|].
  - ssimpl. unfold BUF.tcpchksum. apply (proj1 (upper_chksum_filled UIP_PROTO_TCP 50 (uip_buf s)
      ltac:(done) ltac:(lia) eq_refl ltac:(rewrite (upper_len_ip _ n); lia) ltac:(lia))).
  - intros k ? ? ?. ssimpl. unfold BUF.tcpchksum. by rewrite !rd8_wr16_ne by lia.
Qed.

(** [uip_split_output_send] as one update of the buffer. *)
Definition sealed s : uip_state E :=
  let s := mem (wr16 BUF.ipchksum 0) (set_tcpchksum s) in
  mem (fun b => wr16 BUF.ipchksum (w16 (Z.lnot (uip_ipchksum b))) b) s.

Lemma sealed_same s k : 0 <= k -> k <> 24 -> k <> 25 -> k <> 50 -> k <> 51 ->
  rd8 (uip_buf (sealed s)) k = rd8 (uip_buf s) k.
Proof.
  intros. unfold sealed, set_tcpchksum. ssimpl. unfold BUF.ipchksum, BUF.tcpchksum.
  by rewrite !rd8_wr16_ne by lia.
Qed.

Lemma sealed_wf s : uip_wf s -> uip_wf (sealed s).
Proof. intros Hs. unfold sealed, set_tcpchksum. wf_auto. Qed.

Lemma sealed_carries s n : uip_wf s -> ip_length (uip_buf s) = n -> 40 <= n <= 1512 ->
  carries (uip_buf s) (uip_buf (sealed s)) n.
Proof.
  intros Hs Hn Hr. pose proof (buf_len s Hs) as Hl.
  destruct (set_tcpchksum_fields s n Hs Hn Hr) as (Ht & Hw & _ & Hsame).
  pose proof (wf_buf _ (sealed_wf s Hs)). pose proof (wf_buf _ Hw).
  constructor; [done| |intros; apply sealed_same; lia| |].
  - apply Nat2Z.inj. by rewrite (wf_buf_len s Hs), (wf_buf_len _ (sealed_wf s Hs)).
  - unfold sealed. ssimpl. apply ipchksum_filled; [done|]. pose proof (buf_len _ Hw). lia.
  - rewrite <- Ht. apply upper_layer_ext; [done..|]. intros k Hk.
    unfold sealed. ssimpl. unfold BUF.ipchksum. by rewrite !rd8_wr16_ne by lia.
Qed.

Lemma set_len_eq s g v : g (uip_len s) = v -> s <| uip_len ::= g |> = s <| uip_len := v |>.
Proof. intros <-. done. Qed.

Lemma output_send_eq s w n : uip_wf s -> uip_len s = n -> 50 <= n <= 1512 ->
  uip_split_output_send s w
  = ((sealed s) <| uip_len := n + 14 |>, w ++ [(uip_buf (sealed s), n + 14)]).
Proof.
  intros Hs Hn Hr. unfold uip_split_output_send. cbv zeta. fold (sealed s).
  rewrite (set_len_eq (sealed s) _ (n + 14)).
  - unfold xcoredev_send. cbn [set_field uip_len uip_buf].
    by rewrite (proj2 (Z.eqb_neq _ _)), (proj2 (Z.ltb_ge _ _)) by lia.
  - change (uip_len (sealed s)) with (uip_len s). rewrite Hn. apply w16_small.
    unfold u16, UIP_LLH_LEN. lia.
Qed.

(** ** What the receiver sees *)

Definition header_fields (b : list Z) : Prop :=
  rd8 b BUF.vhl = 0x45 /\ Z.land (rd8 b BUF.ipoffset) 0x3f = 0 /\ rd8 b (BUF.ipoffset + 1) = 0.
Definition tcp_ok (f : list Z * Z) : Prop :=
  ip_header_ok f.1 (ip_length f.1) /\ uip_tcpchksum f.1 = 0xffff /\ UIP_LLH_LEN + ip_length f.1 <= f.2.
(** The data of a segment with a 20-byte TCP header. *)
Definition payload (f : list Z) : list Z := rds f 54 (Z.to_nat (ip_length f - UIP_TCPIP_HLEN)).

Definition advance (g : tcp_segment) (n : Z) : tcp_segment :=
  Segment (seg_src g) (seg_dst g) (seg_sport g) (seg_dport g) (uip_add32 (seg_seq g) n) (seg_ack g)
    (seg_off g) (seg_flags g) (seg_wnd g).
(** Consecutive segments of one connection, each starting where the last ended. *)
Fixpoint in_sequence (g : tcp_segment) (fs : wire) : Prop :=
  match fs with
  | [] => True
  | f :: fs => segment f.1 = g /\ in_sequence (advance g (ip_length f.1 - UIP_TCPIP_HLEN)) fs
  end.

Ltac buf_offsets := unfold BUF.vhl, BUF.len, BUF.ipoffset, BUF.srcipaddr, BUF.destipaddr, BUF.srcport,
  BUF.destport, BUF.seqno, BUF.ackno, BUF.tcpoffset, BUF.flags, BUF.wnd in *.

Lemma segment_ext b b' : (forall k, 26 <= k < 50 -> rd8 b k = rd8 b' k) -> segment b = segment b'.
Proof.
  intros H. unfold segment, rd4, rd16. buf_offsets. by rewrite !H by lia.
Qed.

Lemma carries_view b f n m : carries b f n -> header_fields b -> ip_length b = n -> 40 <= n ->
  UIP_LLH_LEN + n <= m ->
  tcp_ok (f, m) /\ segment f = segment b /\ payload f = payload b /\ ip_length f = n.
Proof.
  intros [Hb Hl Hs Hi Ht] (H1 & H2 & H3) Hn Hr Hm.
  assert (ip_length f = n) as Hf by (rewrite <- Hn; unfold ip_length; buf_offsets; by rewrite !Hs by lia).
  split_and!.
  - unfold tcp_ok, ip_header_ok. cbn [fst snd]. rewrite Hf. buf_offsets.
    rewrite !Hs by lia. auto 10.
  - apply segment_ext. intros k Hk. apply Hs; lia.
  - unfold payload. rewrite Hf, Hn. apply rds_ext. unfold UIP_TCPIP_HLEN, UIP_IPTCPH_LEN in *.
    intros k Hk. apply Hs; lia.
  - done.
Qed.

Lemma set_half_fields len s : uip_wf s -> 0 <= len <= 1472 ->
  let s' := set_half len s in
  uip_wf s' /\ uip_len s' = len + 40 /\ ip_length (uip_buf s') = len + 40 /\
  uip_appdata s' = uip_appdata s /\
  (forall k, 0 <= k -> k <> 16 -> k <> 17 -> rd8 (uip_buf s') k = rd8 (uip_buf s) k).
Proof.
  intros Hs Hr s'. pose proof (buf_len s Hs).
  assert (uip_len s' = len + 40) as Hl
    by (subst s'; unfold set_half; ssimpl; apply w16_small; unfold u16, UIP_TCPIP_HLEN, UIP_IPTCPH_LEN; lia).
  assert (uip_wf s') as Hw.
  { subst s'. unfold set_half. cbv zeta. apply wf_mem; [|auto with mem|intros; apply length_wr8].
    apply wf_mem; [|auto with mem|intros; apply length_wr8]. apply wf_set_len; [done|apply w16_u16]. }
  split_and!; [done..| |done|].
  - rewrite <- Hl. unfold ip_length. subst s'. unfold set_half in *. ssimpl. buf_offsets.
    fld. apply hi_lo, w16_u16.
  - intros k ? ? ?. subst s'. unfold set_half. ssimpl. buf_offsets. by rewrite !rd8_wr8_ne by lia.
Qed.

Lemma move_down_data len1 len2 s : uip_wf s -> uip_appdata s = 54 -> 4 <= len1 -> 2 <= len2 <= 800 ->
  let s' := move_down len1 len2 s in
  uip_wf s' /\ uip_len s' = uip_len s /\
  (forall k, 0 <= k < 54 -> rd8 (uip_buf s') k = rd8 (uip_buf s) k) /\
  (forall k, 54 <= k < 54 + len2 -> rd8 (uip_buf s') k = rd8 (uip_buf s) (k + len1)).
Proof.
  intros Hs Hp H1 H2 s'. pose proof (wf_buf s Hs) as Hb.
  assert (Z.of_nat (length (uip_buf s)) = 1528) as Hl by apply (wf_buf_len s Hs).
  assert (len2 - 4 < 4 * (len2 / 4) <= len2) as Hq by zdm.
  subst s'. unfold move_down. rewrite Hp. split_and!; [|done|..].
  - apply wf_mem; [|intros; by apply bytes_copy_words|intros; apply length_copy_words].
    apply wf_mem; [done|auto with mem|intros; apply length_wr16].
  - intros k Hk. ssimpl. rewrite rd8_copy_out by lia. by rewrite rd8_wr16_ne by lia.
  - intros k Hk. ssimpl. destruct (Z_lt_ge_dec k 56).
    + rewrite rd8_copy_out by lia. rewrite rd8_wr16_rd16 by (done || lia). f_equal. lia.
    + rewrite rd8_copy_in by (rewrite ?length_wr16; try apply bytes_wr16; done || lia).
      rewrite rd8_wr16_ne by lia. f_equal. lia.
Qed.

(** What a list of frames delivers. *)
Definition delivers (g : tcp_segment) (data : list Z) (fs : wire) : Prop :=
  Forall tcp_ok fs /\ in_sequence g fs /\ concat (map (fun f => payload f.1) fs) = data.

(** A small segment goes out as it is, with its checksum. *)
Lemma single_frame s w n : uip_wf s -> uip_len s = 54 + n -> ip_header_ok (uip_buf s) (40 + n) ->
  0 <= n <= 1472 ->
  exists f m, (xcoredev_send (set_tcpchksum s) w).2 = w ++ [(f, m)] /\
    delivers (segment (uip_buf s)) (rds (uip_buf s) 54 (Z.to_nat n)) [(f, m)].
Proof.
  intros Hs Hl (H1 & Hip & H2 & H3 & Hck) Hn. pose proof (wf_buf_len s Hs) as Hbl.
  destruct (set_tcpchksum_fields s (40 + n) Hs Hip ltac:(lia)) as (Ht & Hw & Hlen & Hsame).
  set (s' := set_tcpchksum s) in *. pose proof (wf_buf _ Hw).
  assert (forall f, bytes f -> length f = length (uip_buf s') ->
    (forall k, 0 <= k < 54 + n -> rd8 f k = rd8 (uip_buf s') k) ->
    carries (uip_buf s) f (40 + n)) as Hc.
  { intros f Hf Hfl Hfs. constructor; [done| | | |].
    - rewrite Hfl. apply Nat2Z.inj. by rewrite (wf_buf_len _ Hw), Hbl.
    - intros k Hk _ _ ? ?. rewrite Hfs by lia. apply Hsame; lia.
    - rewrite <- Hck. apply ipchksum_ext; [done|apply Hs|]. intros k Hk.
      rewrite Hfs by lia. apply Hsame; lia.
    - rewrite <- Ht. symmetry. apply upper_layer_ext; [done..|]. intros k Hk. symmetry. apply Hfs.
      rewrite (upper_len_ip _ (40 + n)) in Hk; [lia| |lia].
      rewrite <- Hip. unfold ip_length, BUF.len. by rewrite !Hsame by lia. }
  assert (forall f m, carries (uip_buf s) f (40 + n) -> 54 + n <= m ->
    delivers (segment (uip_buf s)) (rds (uip_buf s) 54 (Z.to_nat n)) [(f, m)]) as Hd.
  { intros f m Hf Hm. destruct (carries_view _ f (40 + n) m Hf) as (Hok & Hseg & Hpay & _);
      [done|done|lia|unfold UIP_LLH_LEN; lia|]. split_and!; [by constructor|done|].
    cbn [map concat fst]. rewrite app_nil_r, Hpay. unfold payload, UIP_TCPIP_HLEN, UIP_IPTCPH_LEN.
    rewrite Hip. by replace (40 + n - 40) with n by lia. }
  unfold xcoredev_send. cbv zeta. rewrite Hlen, Hl, (proj2 (Z.eqb_neq _ _)) by lia. cbn [negb].
  destruct (Z.ltb_spec (54 + n) 64); cbn [snd]; (do 2 eexists; split; [reflexivity|]; apply Hd; [|lia]; apply Hc).
  - ssimpl. by apply bytes_wrs.
  - ssimpl. apply length_wrs.
  - intros k Hk. ssimpl. rewrite rd8_wrs_out; [done|lia..].
  - done.
  - done.
  - done.
Qed.

Lemma segment_advance b b' n : (forall k, 26 <= k < 38 \/ 42 <= k < 50 -> rd8 b k = rd8 b' k) ->
  rd4 b 38 = uip_add32 (rd4 b' 38) n -> segment b = advance (segment b') n.
Proof.
  intros H Hq. unfold segment, advance.
  cbn [seg_src seg_dst seg_sport seg_dport seg_seq seg_ack seg_off seg_flags seg_wnd].
  buf_offsets. rewrite Hq. unfold rd16.
  rewrite !(rd4_ext b b') by (intros; apply H; lia). by rewrite !H by lia.
Qed.

Lemma land_lnot_3 x : Z.land x (Z.lnot 3) = 4 * (x / 4).
Proof.
  rewrite <- Z.ldiff_land. change 3 with (Z.ones 2). rewrite Z.ldiff_ones_r by lia.
  rewrite Z.shiftl_mul_pow2, Z.shiftr_div_pow2 by lia. change (2 ^ 2) with 4. lia.
Qed.

(** The second half of the buffer, ready to be sent. *)
Definition second_half (len1 len2 : Z) s : uip_state E :=
  mem (fun b => wr4 BUF.seqno (uip_add32 (rd4 b BUF.seqno) len1) b)
    (move_down len1 len2 (set_half len2 s)).

Lemma second_half_fields len1 len2 s : uip_wf s -> uip_appdata s = 54 -> 4 <= len1 -> 2 <= len2 <= 800 ->
  let s' := second_half len1 len2 s in
  uip_wf s' /\ uip_len s' = len2 + 40 /\ ip_length (uip_buf s') = len2 + 40 /\
  rd4 (uip_buf s') 38 = uip_add32 (rd4 (uip_buf s) 38) len1 /\
  (forall k, 0 <= k < 38 \/ 42 <= k < 54 -> k <> 16 -> k <> 17 -> rd8 (uip_buf s') k = rd8 (uip_buf s) k) /\
  (forall k, 54 <= k < 54 + len2 -> rd8 (uip_buf s') k = rd8 (uip_buf s) (k + len1)).
Proof.
  intros Hs Hp H1 H2 s'. destruct (set_half_fields len2 s Hs ltac:(lia)) as (Hw1 & Hl1 & Hi1 & Ha1 & Hs1).
  destruct (move_down_data len1 len2 (set_half len2 s) Hw1 ltac:(congruence) H1 H2) as (Hw2 & Hl2 & Hlo & Hhi).
  pose proof (buf_len _ Hw2). subst s'. unfold second_half, BUF.seqno.
  set (t := move_down len1 len2 (set_half len2 s)) in *.
  assert (rd4 (uip_buf t) 38 = rd4 (uip_buf s) 38) as Hseq.
  { apply rd4_ext. intros k Hk. rewrite Hlo, Hs1 by lia. done. }
  split_and!.
  - apply wf_mem; [done|auto with mem|intros; apply length_wr4].
  - ssimpl. lia.
  - rewrite <- Hi1. unfold ip_length, BUF.len. ssimpl. rewrite !rd8_wr4_ne, !Hlo by lia. done.
  - ssimpl. rewrite rd4_wr4_eq by (lia || apply uip_add32_ok). by rewrite Hseq.
  - intros k Hk ? ?. ssimpl. rewrite rd8_wr4_ne, Hlo, Hs1 by lia. done.
  - intros k Hk. ssimpl. rewrite rd8_wr4_ne, Hhi, Hs1 by lia. done.
Qed.

Lemma header_fields_ext b b' : (forall k, 14 <= k < 26 -> k <> 16 -> k <> 17 -> k <> 24 -> k <> 25 ->
  rd8 b k = rd8 b' k) -> header_fields b' -> header_fields b.
Proof. intros H. unfold header_fields. buf_offsets. by rewrite !H by lia. Qed.

(** A large one in two halves. *)
Lemma two_frames s n len1 len2 : uip_wf s -> uip_appdata s = 54 -> header_fields (uip_buf s) ->
  len1 + len2 = n -> 10 <= len1 <= 800 -> 10 <= len2 <= 800 ->
  let s1 := sealed (set_half len1 s) in
  let s2 := sealed (second_half len1 len2 (s1 <| uip_len := len1 + 40 + 14 |>)) in
  delivers (segment (uip_buf s)) (rds (uip_buf s) 54 (Z.to_nat n))
    [(uip_buf s1, len1 + 40 + 14); (uip_buf s2, len2 + 40 + 14)].
Proof.
  intros Hs Hp Hh Hn H1 H2. destruct (set_half_fields len1 s Hs ltac:(lia)) as (Hw1 & Hl1 & Hi1 & Ha1 & Hs1).
  pose proof (sealed_carries _ _ Hw1 Hi1 ltac:(lia)) as Hc1. pose proof (sealed_wf _ Hw1) as Hw1'.
  set (s1 := sealed (set_half len1 s)) in *. cbv zeta.
  assert (uip_wf (s1 <| uip_len := len1 + 40 + 14 |>)) as Hw2
    by (apply wf_set_len; [done|unfold u16; lia]).
  assert (forall k, 0 <= k -> k <> 16 -> k <> 17 -> k <> 24 -> k <> 25 -> k <> 50 -> k <> 51 ->
    rd8 (uip_buf s1) k = rd8 (uip_buf s) k) as Hb1.
  { intros. unfold s1. by rewrite sealed_same, Hs1 by lia. }
  destruct (second_half_fields len1 len2 _ Hw2 ltac:(done) ltac:(lia) ltac:(lia)) as (Hw3 & Hl3 & Hi3 & Hq & Hlo & Hhi).
  pose proof (sealed_carries _ _ Hw3 Hi3 ltac:(lia)) as Hc2.
  set (s3 := second_half _ _ _) in *. cbn [set_field uip_buf] in Hq, Hlo, Hhi.
  destruct (carries_view _ _ _ (len1 + 40 + 14) Hc1) as (Hok1 & Hseg1 & Hpay1 & Hlen1);
    [revert Hh; apply header_fields_ext; intros; apply Hs1; lia|done|lia|unfold UIP_LLH_LEN; lia|].
  destruct (carries_view _ _ _ (len2 + 40 + 14) Hc2) as (Hok2 & Hseg2 & Hpay2 & Hlen2);
    [revert Hh; apply header_fields_ext; intros; rewrite Hlo, Hb1 by lia; done|done|lia|unfold UIP_LLH_LEN; lia|].
  assert (segment (uip_buf (set_half len1 s)) = segment (uip_buf s)) as Hseg
    by (apply segment_ext; intros; apply Hs1; lia).
  split_and!; [constructor; [exact Hok1|constructor; [exact Hok2|constructor]]|..].
  - cbn [in_sequence fst]. rewrite Hseg1, Hlen1. split; [done|]. split; [|done].
    rewrite Hseg2. unfold UIP_TCPIP_HLEN, UIP_IPTCPH_LEN. replace (len1 + 40 - 40) with len1 by lia.
    apply segment_advance; [intros k Hk; rewrite Hlo, Hb1 by lia; done|].
    rewrite Hq. f_equal. apply rd4_ext. intros k Hk. apply Hb1; lia.
  - cbn [map concat fst]. rewrite app_nil_r, Hpay1, Hpay2. unfold payload. rewrite Hi1, Hi3.
    unfold UIP_TCPIP_HLEN, UIP_IPTCPH_LEN.
    replace (Z.to_nat n) with (Z.to_nat (len1 + 40 - 40) + Z.to_nat (len2 + 40 - 40))%nat by lia.
    rewrite rds_app. f_equal; [apply rds_ext; intros; apply Hs1; lia|].
    replace (54 + Z.of_nat (Z.to_nat (len1 + 40 - 40))) with (54 + len1) by lia.
    apply rds_shift. intros k Hk. rewrite Hhi, Hb1 by lia. done.
Qed.

(** C12: transmission of TCP segments.  A segment of [n] bytes with a valid IP
    header goes out as one frame, or as two if [n] is more than half the buffer.
    The frames pass the checks of the receiver (IP header, IP and TCP checksum,
    complete), they are consecutive segments of the same connection with the
    acknowledgement, flags and window of the original, and their data put
    together are the original data. *)
Theorem uip_split_output_spec s w n : uip_wf s -> uip_appdata s = 54 ->
  rd8 (uip_buf s) BUF.proto = UIP_PROTO_TCP -> uip_len s = 54 + n ->
  ip_header_ok (uip_buf s) (40 + n) -> 0 <= n <= UIP_TCP_MSS ->
  exists fs, (uip_split_output s w).2 = w ++ fs /\
    length fs = (if ACTUAL_UIP_PACKET_SPLIT_THRESHOLD <? n then 2%nat else 1%nat) /\
    delivers (segment (uip_buf s)) (rds (uip_buf s) 54 (Z.to_nat n)) fs.
Proof.
  intros Hs Hp Hpr Hl Hok Hn. unfold uip_split_output. rewrite Hpr, Z.eqb_refl. cbv zeta. rewrite Hl.
  unfold UIP_TCPIP_HLEN, UIP_IPTCPH_LEN, UIP_LLH_LEN. replace (54 + n - 40 - 14) with n by lia.
  change UIP_TCP_MSS with 1472 in Hn. change ACTUAL_UIP_PACKET_SPLIT_THRESHOLD with 763.
  destruct (Z.ltb_spec 763 n).
  - rewrite (w16_small n) by (unfold u16; lia). rewrite land_lnot_3.
    set (len1 := 4 * (n / 2 / 4)). assert (n / 2 - 4 < len1 <= n / 2) as Hb by (subst len1; zdm).
    assert (2 * (n / 2) <= n < 2 * (n / 2) + 2) as Hb2 by zdm. clearbody len1.
    rewrite (w16_small (n - len1)) by (unfold u16; lia).
    destruct (set_half_fields len1 s Hs ltac:(lia)) as (Hw1 & Hl1 & _ & _ & _).
    rewrite (output_send_eq _ w (len1 + 40) Hw1 Hl1) by lia. fold (second_half len1 (n - len1)
      ((sealed (set_half len1 s)) <| uip_len := len1 + 40 + 14 |>)).
    destruct (second_half_fields len1 (n - len1) ((sealed (set_half len1 s)) <| uip_len := len1 + 40 + 14 |>))
      as (Hw2 & Hl2 & _); [|done|lia..|].
    { apply wf_set_len; [by apply sealed_wf|unfold u16; lia]. }
    rewrite (output_send_eq _ _ (n - len1 + 40) Hw2 Hl2) by lia. cbn [snd]. rewrite <- app_assoc.
    eexists. split; [reflexivity|]. split; [done|].
    apply two_frames; [done|done| |lia..]. destruct Hok as (? & _ & ? & ? & _). done.
  - destruct (single_frame s w n Hs Hl Hok Hn) as (f & m & Hsend & Hd). by exists [(f, m)].
Qed.
End frames.
