(* ===== verification/Forward.v ===== *)
(** * Packet forwarding: [uip-fw.c]

    A router between network interfaces: the interfaces are records in a store,
    linked through their [next] pointers as the caller registered them; the
    cache of recently forwarded packets keeps a packet from circling.  The
    output functions of the interfaces are the application's, a parameter; they
    see the stack and not the tables of this file.  [None] is a walk that never
    ends, or the use of a null pointer. *)
From stdpp Require Import gmap.
From S2P Require Export UipOutput.
Local Open Scope Z_scope.

Definition ICMP_TE : Z := 11.
Definition FWCACHE_SIZE : nat := 2.
Definition FW_TIME : Z := 20.
Definition UIP_FW_LOCAL : Z := 0.
Definition UIP_FW_OK : Z := 0.
Definition UIP_FW_FORWARDED : Z := 1.
Definition UIP_FW_ZEROLEN : Z := 2.
Definition UIP_FW_NOROUTE : Z := 4.
(** The end of the header, with the payload of an ICMP message. *)
Module FWBUF.
Definition payload : Z := 42.
End FWBUF.

Record uip_fw_netif : Type := FwNetif { next : option nat; if_ipaddr : u8x4; if_netmask : u8x4 }.
#[export] Instance eta_uip_fw_netif : Eta uip_fw_netif := fun r => FwNetif (next r) (if_ipaddr r) (if_netmask r).

Record fwcache_entry : Type := FwcacheEntry {
  fw_timer : Z; fw_srcipaddr : u8x4; fw_destipaddr : u8x4; fw_ipid : Z; fw_proto : Z }.
#[export] Instance eta_fwcache_entry : Eta fwcache_entry := fun r =>
  FwcacheEntry (fw_timer r) (fw_srcipaddr r) (fw_destipaddr r) (fw_ipid r) (fw_proto r).

Record fw_state : Type := FwState {
  store : gmap nat uip_fw_netif;
  netifs : option nat;
  defaultnetif : option nat;
  fwcache : list fwcache_entry }.
#[export] Instance eta_fw_state : Eta fw_state := fun r => FwState (store r) (netifs r) (defaultnetif r) (fwcache r).
Definition initial_fw (m : gmap nat uip_fw_netif) : fw_state :=
  FwState m None None (replicate FWCACHE_SIZE (FwcacheEntry 0 zero4 zero4 0 0)).

Definition set_next (i : nat) (p : option nat) (fw : fw_state) : fw_state :=
  fw <| store ::= alter (fun n => n <| next := p |>) i |>.

(** Each turn clears a [next] that was set, or is the last. *)
Fixpoint fw_init_loop (fuel : nat) (fw : fw_state) : option fw_state :=
  match netifs fw with
  | None => Some fw
  | Some t =>
      match fuel with
      | O => None
      | S fuel =>
          n ← store fw !! t;
          let fw := fw <| netifs := next n |> in
          fw_init_loop fuel (set_next t None fw)
      end
  end.
Definition uip_fw_init (fw : fw_state) : option fw_state :=
  fw_init_loop (S (size (store fw))) (fw <| defaultnetif := None |>).

Definition ipaddr_maskcmp (ipaddr netipaddr netmask : u8x4) : bool :=
  (Z.land (word0 ipaddr) (word0 netmask) =? Z.land (word0 netipaddr) (word0 netmask))
  && (Z.land (word1 ipaddr) (word1 netmask) =? Z.land (word1 netipaddr) (word1 netmask)).

Definition same_addr (a b : u8x4) : bool := (word0 a =? word0 b) && (word1 a =? word1 b).

(** Walks visit at most as many interfaces as there are. *)
Fixpoint find_netif_from (fuel : nat) (fw : fw_state) (b : list Z) (p : option nat) : option (option nat) :=
  match p with
  | None => Some (defaultnetif fw)
  | Some i =>
      match fuel with
      | O => None
      | S fuel =>
          n ← store fw !! i;
          if ipaddr_maskcmp (rd4 b BUF.destipaddr) (if_ipaddr n) (if_netmask n) then Some (Some i)
          else find_netif_from fuel fw b (next n)
      end
  end.
Definition find_netif (fw : fw_state) (b : list Z) : option (option nat) :=
  find_netif_from (size (store fw)) fw b (netifs fw).

Fixpoint oldest_from (i : nat) (l : list fwcache_entry) (fw : option nat) (oldest : Z) : option nat :=
  match l with
  | [] => fw
  | e :: l =>
      if fw_timer e =? 0 then Some i
      else if fw_timer e <=? oldest then oldest_from (S i) l (Some i) (fw_timer e)
      else oldest_from (S i) l fw oldest
  end.
Definition fwcache_register (b : list Z) (fw : fw_state) : option fw_state :=
  i ← oldest_from 0 (fwcache fw) None FW_TIME;
  Some (fw <| fwcache ::= <[i := FwcacheEntry FW_TIME (rd4 b BUF.srcipaddr) (rd4 b BUF.destipaddr)
                                  (rd16 b BUF.ipid) (rd8 b BUF.proto)]> |>).

Definition fwcache_hit (b : list Z) (e : fwcache_entry) : bool :=
  negb (fw_timer e =? 0) && (fw_ipid e =? rd16 b BUF.ipid)
  && same_addr (fw_srcipaddr e) (rd4 b BUF.srcipaddr) && same_addr (fw_destipaddr e) (rd4 b BUF.destipaddr)
  && (fw_proto e =? rd8 b BUF.proto).

Definition is_broadcast (b : list Z) : bool :=
  (word0 (rd4 b BUF.destipaddr) =? 0xffff) && (word1 (rd4 b BUF.destipaddr) =? 0xffff).

(** The new IP checksum after the decrement of the time to live. *)
Definition ttl_checksum (c : Z) : Z :=
  if HTONS (0xffff - 0x0100) <=? c then c + HTONS 0x0100 + 1 else c + HTONS 0x0100.

Definition uip_fw_register (netif : nat) (fw : fw_state) : fw_state :=
  let fw := set_next netif (netifs fw) fw in
  fw <| netifs := Some netif |>.
Definition uip_fw_default (netif : option nat) (fw : fw_state) : fw_state := fw <| defaultnetif := netif |>.
Definition uip_fw_periodic (fw : fw_state) : fw_state :=
  fw <| fwcache ::= map (fun e => if 0 <? fw_timer e then e <| fw_timer ::= fun t => t - 1 |> else e) |>.

Section forwarding.
Context {E : Type}.
Implicit Types s : uip_state E.

Definition time_exceeded s : uip_state E :=
  if rd8 (uip_buf s) BUF.proto =? UIP_PROTO_ICMP then s <| uip_len := 0 |>
  else
    let s := mem (fun b => wrs FWBUF.payload (rds b BUF.vhl 28) b) s in
    let s := mem (wr8 ICMPBUF.type ICMP_TE) s in
    let s := mem (wr8 ICMPBUF.icode 0) s in
    let s := mem (wr16 ICMPBUF.icmpchksum 0) s in
    let s := mem (fun b => wr16 ICMPBUF.icmpchksum (w16 (Z.lnot (uip_chksum b ICMPBUF.type 36))) b) s in
    let tmp16 := rd16 (uip_buf s) BUF.destipaddr in
    let s := mem (fun b => wr16 BUF.destipaddr (rd16 b BUF.srcipaddr) b) s in
    let s := mem (wr16 BUF.srcipaddr tmp16) s in
    let tmp16 := rd16 (uip_buf s) (BUF.destipaddr + 2) in
    let s := mem (fun b => wr16 (BUF.destipaddr + 2) (rd16 b (BUF.srcipaddr + 2)) b) s in
    let s := mem (wr16 (BUF.srcipaddr + 2) tmp16) s in
    let s := mem (wr16 BUF.srcipaddr (word0 (uip_hostaddr s))) s in
    let s := mem (wr16 (BUF.srcipaddr + 2) (word1 (uip_hostaddr s))) s in
    let s := s <| uip_len := 56 |> in
    let s := mem (wr8 BUF.len 0) s in
    let s := mem (wr8 (BUF.len + 1) (uip_len s)) s in
    let s := mem (wr8 BUF.vhl 0x45) s in
    let s := mem (wr8 BUF.tos 0) s in
    let s := mem (wr8 (BUF.ipoffset + 1) 0) s in
    let s := mem (wr8 BUF.ipoffset 0) s in
    let s := mem (wr8 BUF.ttl UIP_TTL) s in
    let s := mem (wr8 BUF.proto UIP_PROTO_ICMP) s in
    let s := mem (wr16 BUF.ipchksum 0) s in
    mem (fun b => wr16 BUF.ipchksum (w16 (Z.lnot (uip_ipchksum b))) b) s.

(** The [output] function of the interface at an address. *)
Context (output : nat -> uip_state E -> Z * uip_state E).

Fixpoint output_all (fuel : nat) (fw : fw_state) (p : option nat) s : option (uip_state E) :=
  match p with
  | None => Some s
  | Some i =>
      match fuel with
      | O => None
      | S fuel => n ← store fw !! i; output_all fuel fw (next n) (output i s).2
      end
  end.

Definition uip_fw_output fw s : option (Z * fw_state * uip_state E) :=
  if uip_len s =? 0 then Some (UIP_FW_ZEROLEN, fw, s)
  else
    fw ← fwcache_register (uip_buf s) fw;
    if is_broadcast (uip_buf s) then
      let s := match defaultnetif fw with Some i => (output i s).2 | None => s end in
      s ← output_all (size (store fw)) fw (netifs fw) s;
      Some (UIP_FW_OK, fw, s)
    else
      netif ← find_netif fw (uip_buf s);
      match netif with
      | None => Some (UIP_FW_NOROUTE, fw, s)
      | Some i => let '(r, s) := output i s in Some (r, fw, s)
      end.

Definition uip_fw_forward fw s : option (Z * fw_state * uip_state E) :=
  if same_addr (rd4 (uip_buf s) BUF.destipaddr) (uip_hostaddr s) then Some (UIP_FW_LOCAL, fw, s)
  else if existsb (fwcache_hit (uip_buf s)) (fwcache fw) then Some (UIP_FW_FORWARDED, fw, s)
  else if (rd8 (uip_buf s) BUF.ttl <=? 1) && is_broadcast (uip_buf s) then Some (UIP_FW_LOCAL, fw, s)
  else
    let s := if rd8 (uip_buf s) BUF.ttl <=? 1 then time_exceeded s else s in
    let s := mem (fun b => wr8 BUF.ttl (rd8 b BUF.ttl - 1) b) s in
    let s := mem (fun b => wr16 BUF.ipchksum (ttl_checksum (rd16 b BUF.ipchksum)) b) s in
    '(_, fw, s) ←
      (if 0 <? uip_len s then
         let s := s <| uip_appdata := UIP_LLH_LEN + UIP_TCPIP_HLEN |> in
         uip_fw_output fw s
       else Some (UIP_FW_OK, fw, s));
    Some (if is_broadcast (uip_buf s) then UIP_FW_LOCAL else UIP_FW_FORWARDED, fw, s).
End forwarding.

(** * The list of interfaces *)

(** The interfaces from [p] on are [l]. *)
Fixpoint chain (m : gmap nat uip_fw_netif) (p : option nat) (l : list nat) : Prop :=
  match l with
  | [] => p = None
  | i :: l => p = Some i /\ exists n, m !! i = Some n /\ chain m (next n) l
  end.

Lemma chain_inj m l1 : forall l2 p, chain m p l1 -> chain m p l2 -> l1 = l2.
Proof.
  induction l1 as [|i l1 IH]; intros [|j l2] p; cbn.
  - done.
  - by intros -> (? & _).
  - by intros (-> & _) ?.
  - intros (-> & n & Hn & H1) ([= <-] & n' & Hn' & H2). simplify_eq. f_equal. by eapply IH.
Qed.

Lemma chain_app m l1 : forall l2 p, chain m p (l1 ++ l2) -> exists p', chain m p' l2.
Proof.
  induction l1 as [|i l1 IH]; intros l2 p; [by exists p|].
  intros (_ & n & _ & H). by eapply IH.
Qed.

(** A list that ends does not come back to an interface. *)
Lemma chain_NoDup m l : forall p, chain m p l -> NoDup l.
Proof.
  induction l as [|i l IH]; intros p; [by constructor|].
  intros (-> & n & Hn & H). constructor; [|by eapply IH].
  intros (l1 & l2 & ->)%list_elem_of_split.
  destruct (chain_app m l1 (i :: l2) _ H) as [p' Hp]. pose proof Hp as (-> & _).
  assert (chain m (Some i) (i :: l1 ++ i :: l2)) as Hc by (split; [done|by exists n]).
  pose proof (chain_inj m _ _ _ Hc Hp) as He.
  apply (f_equal length) in He. cbn in He. rewrite length_app in He. cbn in He. lia.
Qed.

Lemma chain_dom m l : forall p, chain m p l -> Forall (fun i => i ∈ dom m) l.
Proof.
  induction l as [|i l IH]; intros p; [by constructor|].
  intros (-> & n & Hn & H). constructor; [by apply elem_of_dom_2 in Hn|by eapply IH].
Qed.
Lemma chain_size m l p : chain m p l -> (length l <= size m)%nat.
Proof.
  intros H. pose proof (chain_NoDup m l p H) as Hn. pose proof (chain_dom m l p H) as Hd.
  rewrite <- size_dom. rewrite <- (size_list_to_set (C := gset nat) l) by done.
  apply subseteq_size. rewrite Forall_forall in Hd. intros x Hx%elem_of_list_to_set. by apply Hd, list_elem_of_In.
Qed.

Lemma chain_frame m i n l : forall p, i ∉ l -> chain m p l -> chain (<[i := n]> m) p l.
Proof.
  induction l as [|j l IH]; intros p Hi; [done|].
  intros (-> & n' & Hn & H). split; [done|]. exists n'. split.
  - rewrite lookup_insert_ne; [done|set_solver].
  - apply IH; [set_solver|done].
Qed.

Definition cache_ok (c : list fwcache_entry) : Prop :=
  length c = FWCACHE_SIZE /\ Forall (fun e => 0 <= fw_timer e <= FW_TIME) c.
(** The registered interfaces, the last first. *)
Record fw_wf (fw : fw_state) (l : list nat) : Prop := {
  fw_chain : chain (store fw) (netifs fw) l;
  fw_cache : cache_ok (fwcache fw) }.

Lemma initial_fw_wf m : fw_wf (initial_fw m) [].
Proof. split; [done|]. split; [done|]. apply Forall_replicate. unfold FW_TIME. cbn. lia. Qed.
Lemma uip_fw_register_wf fw l i : fw_wf fw l -> i ∈ dom (store fw) -> i ∉ l -> fw_wf (uip_fw_register i fw) (i :: l).
Proof.
  intros [Hc Hk] [n Hn]%elem_of_dom Hi. split; [|done]. split; [done|]. cbn.
  rewrite (alter_alt_Some _ _ _ n) by done. exists (n <| next := netifs fw |>).
  split; [apply lookup_insert_eq|]. by apply chain_frame.
Qed.

(** * Where a packet goes *)

(** The first interface whose network contains the destination, or the default. *)
Definition on_network (fw : fw_state) (b : list Z) (i : nat) : bool :=
  match store fw !! i with
  | Some n => ipaddr_maskcmp (rd4 b BUF.destipaddr) (if_ipaddr n) (if_netmask n)
  | None => false
  end.
Definition route (fw : fw_state) (b : list Z) (l : list nat) : option nat :=
  match find (on_network fw b) l with Some i => Some i | None => defaultnetif fw end.

Lemma find_netif_from_route fw b l : forall fuel p, chain (store fw) p l -> (length l <= fuel)%nat ->
  find_netif_from fuel fw b p = Some (route fw b l).
Proof.
  unfold route. induction l as [|i l IH]; intros fuel p; cbn [chain].
  - intros -> _. by destruct fuel.
  - intros (-> & n & Hn & H) Hf. destruct fuel as [|fuel]; [cbn in Hf; lia|]. cbn [find_netif_from].
    rewrite Hn. cbn [mbind option_bind find]. unfold on_network at 1. rewrite Hn.
    destruct (ipaddr_maskcmp _ _ _); [done|]. apply IH; [done|]. cbn in Hf. lia.
Qed.
Lemma find_netif_route fw b l : fw_wf fw l -> find_netif fw b = Some (route fw b l).
Proof. intros [Hc _]. apply find_netif_from_route; [done|]. by eapply chain_size. Qed.

(** * The cache of forwarded packets *)

Lemma oldest_from_lt l : forall i fw oldest j, oldest_from i l fw oldest = Some j ->
  fw = Some j \/ (j < i + length l)%nat.
Proof.
  induction l as [|e l IH]; intros i fw oldest j; cbn [oldest_from length]; [by left|].
  destruct (fw_timer e =? 0); [intros [= <-]; right; lia|].
  case_match; intros [E|?]%IH; [injection E as <-|..]; auto; right; lia.
Qed.
Lemma oldest_from_Some l : forall i k oldest, exists j, oldest_from i l (Some k) oldest = Some j.
Proof.
  induction l as [|e l IH]; intros i k oldest; cbn [oldest_from]; [by eexists|].
  destruct (fw_timer e =? 0); [by eexists|]. case_match; apply IH.
Qed.

Definition entry_of (b : list Z) : fwcache_entry :=
  FwcacheEntry FW_TIME (rd4 b BUF.srcipaddr) (rd4 b BUF.destipaddr) (rd16 b BUF.ipid) (rd8 b BUF.proto).
Lemma fwcache_register_ok b fw l : fw_wf fw l ->
  exists j, (j < FWCACHE_SIZE)%nat /\ fwcache_register b fw = Some (fw <| fwcache := <[j := entry_of b]> (fwcache fw) |>).
Proof.
  intros [_ [Hl Ht]]. unfold fwcache_register.
  assert (exists j, oldest_from 0 (fwcache fw) None FW_TIME = Some j) as [j Hj].
  { destruct (fwcache fw) as [|e c]; [done|]. cbn [oldest_from]. destruct (fw_timer e =? 0); [by eexists|].
    inversion_clear Ht. destruct (Z.leb_spec (fw_timer e) FW_TIME); [apply oldest_from_Some|lia]. }
  exists j. rewrite Hj. apply oldest_from_lt in Hj as [?|Hj]; [done|]. rewrite Hl in Hj. split; [lia|done].
Qed.
Lemma entry_ok c j b : (j < FWCACHE_SIZE)%nat -> cache_ok c -> cache_ok (<[j := entry_of b]> c).
Proof.
  intros Hj [Hl Ht]. split; [by rewrite length_insert|]. apply Forall_insert; [done|].
  cbn. unfold FW_TIME. lia.
Qed.

(** A packet stays in the cache while its timer runs. *)
Lemma same_addr_refl a : same_addr a a = true.
Proof. unfold same_addr. by rewrite !Z.eqb_refl. Qed.
Definition same_packet (b b' : list Z) : Prop :=
  rd4 b BUF.srcipaddr = rd4 b' BUF.srcipaddr /\ rd4 b BUF.destipaddr = rd4 b' BUF.destipaddr /\
  rd16 b BUF.ipid = rd16 b' BUF.ipid /\ rd8 b BUF.proto = rd8 b' BUF.proto.
Definition remembers (t : Z) (b : list Z) (fw : fw_state) : Prop :=
  exists j, fwcache fw !! j = Some ((entry_of b) <| fw_timer := t |>).
Lemma remembers_hit t b b' fw : 0 < t -> same_packet b b' -> remembers t b fw ->
  existsb (fwcache_hit b') (fwcache fw) = true.
Proof.
  intros Ht (H1 & H2 & H3 & H4) [j Hj]. apply existsb_exists. exists ((entry_of b) <| fw_timer := t |>).
  split; [by eapply list_elem_of_In, list_elem_of_lookup_2|].
  unfold fwcache_hit, entry_of. cbn. rewrite H1, H2, H3, H4, !same_addr_refl, !Z.eqb_refl.
  destruct (Z.eqb_spec t 0); [lia|done].
Qed.
Lemma remembers_periodic n t b fw : Z.of_nat n < t -> remembers t b fw ->
  remembers (t - Z.of_nat n) b (Nat.iter n uip_fw_periodic fw).
Proof.
  intros Hn H. induction n as [|n IH]; [by replace (t - Z.of_nat 0) with t by lia|]. cbn [Nat.iter nat_rect].
  destruct IH as [j Hj]; [lia|]. exists j. cbn. rewrite list_lookup_fmap.
  change (fwcache (nat_rect _ fw _ n)) with (fwcache (Nat.iter n uip_fw_periodic fw)). rewrite Hj. cbn.
  destruct (Z.ltb_spec 0 (t - Z.of_nat n)); [|lia]. f_equal. unfold entry_of, set_field. cbn. f_equal. lia.
Qed.
Lemma fw_periodic_wf fw l : fw_wf fw l -> fw_wf (uip_fw_periodic fw) l.
Proof.
  intros [Hc [Hl Ht]]. split; [done|]. split; [by cbn; rewrite length_map|].
  apply Forall_fmap. eapply Forall_impl; [|exact Ht]. intros e He. cbn in *.
  destruct (Z.ltb_spec 0 (fw_timer e)); cbn; [lia|done].
Qed.

(** * The header of a forwarded packet *)

Definition decremented (b : list Z) : list Z :=
  let b := wr8 BUF.ttl (rd8 b BUF.ttl - 1) b in
  wr16 BUF.ipchksum (ttl_checksum (rd16 b BUF.ipchksum)) b.

Lemma fold_valid b : bytes b -> uip_ipchksum b = 0xffff <-> exists k, 0 <= k /\ wsum 20 b 14 0 = 65535 * k.
Proof.
  intros Hb. pose proof (wsum_nonneg 20 b Hb 14 0) as Hn. rewrite uip_ipchksum_ones by done.
  pose proof (ones_range _ Hn). rewrite fold_sum_ffff by (unfold u16; lia). unfold ones.
  destruct (Z.eqb_spec (wsum 20 b 14 0) 0) as [->|]; split.
  - intros _. by exists 0.
  - by left.
  - intros [?|?]; [zdm|]. exists (wsum 20 b 14 0 / 65535). zdm.
  - intros (k & Hk & ->). right. zdm.
Qed.

(** Adding [0x0100] with the end-around carry makes up for the decrement. *)
Lemma ttl_checksum_sum c : u16 c -> exists d, HTONS (w16 (ttl_checksum c)) = HTONS c + 256 - 65535 * d.
Proof.
  intros Hc. unfold ttl_checksum. change (HTONS (0xffff - 0x0100)) with 65534. change (HTONS 0x0100) with 1.
  rewrite !HTONS_swap by (done || apply w16_u16). unfold u16 in Hc. unfold w16.
  destruct (Z.leb_spec 65534 c).
  - exists 1. assert (c = 65534 \/ c = 65535) as [-> | ->] by lia; reflexivity.
  - assert ((c + 1) mod 65536 = c + 1) as -> by (apply Z.mod_small; lia). destruct (decide (c mod 256 = 255)); [exists 1|exists 0]; zdm.
Qed.

Lemma word_parts lo hi : u8 lo -> (lo + 256 * hi) mod 256 = lo /\ (lo + 256 * hi) / 256 = hi.
Proof. unfold u8. intros. split; zdm. Qed.

Lemma decremented_valid b : bytes b -> 34 <= Z.of_nat (length b) -> 1 <= rd8 b BUF.ttl ->
  uip_ipchksum b = 0xffff -> uip_ipchksum (decremented b) = 0xffff.
Proof.
  intros Hb Hl Ht (k & Hk & Hs)%fold_valid; [|done]. unfold decremented. cbv zeta.
  assert (bytes (wr8 BUF.ttl (rd8 b BUF.ttl - 1) b)) as Hb1 by auto with mem.
  set (b1 := wr8 BUF.ttl (rd8 b BUF.ttl - 1) b) in *.
  assert (bytes (wr16 BUF.ipchksum (ttl_checksum (rd16 b1 BUF.ipchksum)) b1)) as Hb2 by auto with mem.
  apply fold_valid; [done|]. pose proof (wsum_nonneg 20 _ Hb2 14 0) as Hn2. revert Hn2.
  unfold BUF.ipchksum, BUF.ttl in *.
  rewrite wsum_wr16; try done; try lia; [|unfold b1; rewrite length_wr8; lia].
  pose proof (rd8_u8 b1 24 Hb1) as H0. pose proof (rd8_u8 b1 25 Hb1) as H1. unfold u8 in H0, H1.
  destruct (ttl_checksum_sum (rd16 b1 24) (rd16_u16 _ _ Hb1)) as [d Hd].
  rewrite HTONS_swap in Hd by apply w16_u16. rewrite HTONS_swap in Hd by (by apply rd16_u16).
  assert (rd16 b1 24 mod 256 = rd8 b1 24 /\ rd16 b1 24 / 256 = rd8 b1 25) as [Hm Hq] by (by apply word_parts).
  change (24 + 1) with 25. rewrite Hm, Hq in Hd.
  assert (wsum 20 b1 14 0 = wsum 20 b 14 0 - 256) as Hs1.
  { unfold b1. rewrite wsum_wr8_in by lia. pose proof (rd8_u8 b 22 Hb). unfold u8 in *.
    rewrite w8_small by (unfold u8; lia). change (if Z.even (22 - 14) then 256 else 1) with 256. lia. }
  rewrite Hs1, Hs, Hd. intros Hn2. exists (k - d). lia.
Qed.

Lemma decremented_length b : length (decremented b) = length b.
Proof. unfold decremented. by autorewrite with memlen. Qed.
Lemma decremented_bytes b : bytes b -> bytes (decremented b).
Proof. unfold decremented. auto with mem. Qed.
Lemma decremented_rd8 b j : 0 <= j -> j <> 22 -> j <> 24 -> j <> 25 -> rd8 (decremented b) j = rd8 b j.
Proof. intros. unfold decremented, BUF.ttl, BUF.ipchksum. by fld. Qed.
Lemma decremented_ttl b : 34 <= Z.of_nat (length b) -> rd8 (decremented b) BUF.ttl = w8 (rd8 b BUF.ttl - 1).
Proof. intros. unfold decremented, BUF.ttl, BUF.ipchksum. by fld. Qed.
Lemma decremented_rd4 b j : 26 <= j -> rd4 (decremented b) j = rd4 b j.
Proof. intros. apply rd4_ext. intros k Hk. apply decremented_rd8; lia. Qed.
Lemma decremented_header b n : bytes b -> 34 <= Z.of_nat (length b) -> 1 <= rd8 b BUF.ttl ->
  ip_header_ok b n -> ip_header_ok (decremented b) n.
Proof.
  intros Hb Hl Ht (H1 & H2 & H3 & H4 & H5). unfold ip_header_ok, ip_length in *.
  unfold BUF.vhl, BUF.len, BUF.ipoffset in *. rewrite !decremented_rd8 by lia.
  split_and!; try done. by apply decremented_valid.
Qed.

(** * The time-exceeded message *)

(** Filling a checksum field makes the sum of the region all ones. *)
Lemma chksum_patched b p q n : bytes b -> 0 <= p -> p <= q -> q + 2 <= p + n -> u16 n -> q + 2 <= Z.of_nat (length b) ->
  Z.even (q - p) = true ->
  let b0 := wr16 q 0 b in
  uip_chksum (wr16 q (w16 (Z.lnot (uip_chksum b0 p n))) b0) p n = 0xffff.
Proof.
  intros Hb Hp Hq Hqn Hn Hl He b0. assert (bytes b0) as Hb0 by (by apply bytes_wr16).
  assert (length b0 = length b) as Hl0 by apply length_wr16.
  assert (rd8 b0 q = 0 /\ rd8 b0 (q + 1) = 0) as [Z0 Z1] by (unfold b0; split; mem_simpl; reflexivity).
  unfold uip_chksum, htons in *. rewrite !(chksum_ones 0) by (done || (by apply bytes_wr16)).
  rewrite !Z.add_0_l, wsum_wr16, Z0, Z1 by (done || lia).
  pose proof (wsum_nonneg (Z.to_nat n) b0 Hb0 p 0) as Hs. set (w := wsum (Z.to_nat n) b0 p 0) in *. clearbody w.
  pose proof (ones_range w Hs) as Ho. rewrite w16_lnot by apply HTONS_u16.
  pose proof (HTONS_u16 (ones w)) as Hh. rewrite w16_small by (unfold u16 in *; lia).
  rewrite (HTONS_swap (ones w)) by (unfold u16; lia).
  assert (256 * ((65535 - (256 * (ones w mod 256) + ones w / 256)) mod 256)
    + (65535 - (256 * (ones w mod 256) + ones w / 256)) / 256 = 65535 - ones w) as -> by zdm.
  assert (ones (w + (65535 - ones w) - (256 * 0 + 0)) = 65535) as ->; [|done].
  clear Hh. unfold ones in *. destruct (Z.eqb_spec w 0) as [->|]; [done|].
  destruct (Z.eqb_spec (w + (65535 - ((w - 1) mod 65535 + 1)) - (256 * 0 + 0)) 0); zdm.
Qed.

(** The exchange of the addresses. *)
Definition readdressed (host : u8x4) (b : list Z) : list Z :=
  let tmp16 := rd16 b BUF.destipaddr in
  let b := wr16 BUF.destipaddr (rd16 b BUF.srcipaddr) b in
  let b := wr16 BUF.srcipaddr tmp16 b in
  let tmp16 := rd16 b (BUF.destipaddr + 2) in
  let b := wr16 (BUF.destipaddr + 2) (rd16 b (BUF.srcipaddr + 2)) b in
  let b := wr16 (BUF.srcipaddr + 2) tmp16 b in
  wr16 (BUF.srcipaddr + 2) (word1 host) (wr16 BUF.srcipaddr (word0 host) b).

Lemma rd4_of_words b i : bytes b -> rd4 b i = of_words (rd16 b i) (rd16 b (i + 2)).
Proof.
  intros Hb. unfold rd4, of_words, rd16. replace (i + 2 + 1) with (i + 3) by lia.
  pose proof (rd8_u8 b i Hb). pose proof (rd8_u8 b (i + 1) Hb).
  pose proof (rd8_u8 b (i + 2) Hb). pose proof (rd8_u8 b (i + 3) Hb).
  destruct (word_parts (rd8 b i) (rd8 b (i + 1))) as [E1 E2]; [done|].
  destruct (word_parts (rd8 b (i + 2)) (rd8 b (i + 3))) as [E3 E4]; [done|].
  unfold w8. rewrite E1, E2, E3, E4. unfold u8 in *. f_equal; symmetry; by apply Z.mod_small.
Qed.
Lemma wr16_parts i lo hi b : u8 lo -> u8 hi -> wr16 i (lo + 256 * hi) b = wr8 (i + 1) hi (wr8 i lo b).
Proof.
  intros Hlo Hhi. destruct (word_parts lo hi Hlo) as [E1 E2]. unfold wr16.
  rewrite w16_small by (unfold u8, u16 in *; lia). rewrite E2.
  assert (w8 (lo + 256 * hi) = w8 lo) as E; [|unfold wr8; by rewrite E].
  unfold w8. rewrite E1. unfold u8 in *. symmetry. by apply Z.mod_small.
Qed.
Lemma wr4_words i a b : u8x4_ok a -> wr16 (i + 2) (word1 a) (wr16 i (word0 a) b) = wr4 i a b.
Proof.
  intros (H0 & H1 & H2 & H3). unfold word0, word1, wr4. rewrite !wr16_parts by done.
  by replace (i + 2 + 1) with (i + 3) by lia.
Qed.

Lemma readdressed_spec host b : u8x4_ok host -> bytes b -> 34 <= Z.of_nat (length b) ->
  rd4 (readdressed host b) BUF.srcipaddr = host /\
  rd4 (readdressed host b) BUF.destipaddr = rd4 b BUF.srcipaddr /\
  (forall j, 0 <= j < 26 \/ 34 <= j -> rd8 (readdressed host b) j = rd8 b j).
Proof.
  intros Hh Hb Hl. unfold readdressed, BUF.srcipaddr, BUF.destipaddr. cbv zeta.
  rewrite wr4_words by done. split_and!.
  - by fld.
  - rewrite !rd4_of_words by auto 10 with mem. f_equal; fld; apply w16_small, rd16_u16; auto with mem.
  - intros j Hj. by fld.
Qed.
Lemma readdressed_ok host b : bytes b -> bytes (readdressed host b) /\ length (readdressed host b) = length b.
Proof. intros. unfold readdressed. cbv zeta. split; [auto 20 with mem|by autorewrite with memlen]. Qed.

(** The message in three steps: the ICMP part, the addresses, the IP header. *)
Definition te_body (b : list Z) : list Z :=
  let b := wrs FWBUF.payload (rds b BUF.vhl 28) b in
  let b := wr16 ICMPBUF.icmpchksum 0 (wr8 ICMPBUF.icode 0 (wr8 ICMPBUF.type ICMP_TE b)) in
  wr16 ICMPBUF.icmpchksum (w16 (Z.lnot (uip_chksum b ICMPBUF.type 36))) b.
Definition te_head (b : list Z) : list Z :=
  let b := wr8 (BUF.len + 1) 56 (wr8 BUF.len 0 b) in
  let b := wr8 BUF.tos 0 (wr8 BUF.vhl 0x45 b) in
  let b := wr8 BUF.ipoffset 0 (wr8 (BUF.ipoffset + 1) 0 b) in
  let b := wr8 BUF.proto UIP_PROTO_ICMP (wr8 BUF.ttl UIP_TTL b) in
  let b := wr16 BUF.ipchksum 0 b in
  wr16 BUF.ipchksum (w16 (Z.lnot (uip_ipchksum b))) b.

Lemma time_exceeded_steps {E} (s : uip_state E) : rd8 (uip_buf s) BUF.proto <> UIP_PROTO_ICMP ->
  time_exceeded s = s <| uip_buf := te_head (readdressed (uip_hostaddr s) (te_body (uip_buf s))) |> <| uip_len := 56 |>.
Proof.
  intros Hp. unfold time_exceeded. destruct (Z.eqb_spec (rd8 (uip_buf s) BUF.proto) UIP_PROTO_ICMP); [done|].
  by destruct s.
Qed.

Lemma te_body_spec b : bytes b -> UIP_BUF_BYTES = Z.of_nat (length b) ->
  bytes (te_body b) /\ length (te_body b) = length b /\
  rd8 (te_body b) ICMPBUF.type = ICMP_TE /\ rd8 (te_body b) ICMPBUF.icode = 0 /\
  uip_chksum (te_body b) ICMPBUF.type 36 = 0xffff /\
  rds (te_body b) FWBUF.payload 28 = rds b BUF.vhl 28 /\
  (forall j, 0 <= j < 34 -> rd8 (te_body b) j = rd8 b j).
Proof.
  intros Hb Hl. assert (1000 <= Z.of_nat (length b)) as Hl' by (rewrite <- Hl; by vm_compute). clear Hl.
  pose proof (bytes_rds b BUF.vhl 28 Hb). pose proof (length_rds b BUF.vhl 28) as Hr.
  unfold te_body, ICMPBUF.type, ICMPBUF.icode, ICMPBUF.icmpchksum, FWBUF.payload, ICMP_TE. cbv zeta.
  set (v := rds b BUF.vhl 28) in *. clearbody v.
  split; [auto 10 with mem|]. split; [by autorewrite with memlen|].
  split; [by runs|]. split; [by runs|]. split.
  - apply (chksum_patched _ 34 36 36); try done; try lia; [auto 10 with mem|]. autorewrite with memlen. lia.
  - split; [by runs|]. intros j Hj. by runs.
Qed.

Lemma te_head_spec b : bytes b -> 34 <= Z.of_nat (length b) ->
  bytes (te_head b) /\ length (te_head b) = length b /\
  ip_header_ok (te_head b) 56 /\ rd8 (te_head b) BUF.ttl = UIP_TTL /\ rd8 (te_head b) BUF.proto = UIP_PROTO_ICMP /\
  (forall j, 26 <= j -> rd8 (te_head b) j = rd8 b j).
Proof.
  intros Hb Hl. unfold te_head. cbv zeta. split; [auto 20 with mem|]. split; [by autorewrite with memlen|].
  split_and!; try (intros j Hj);
    unfold ip_header_ok, ip_length, BUF.len, BUF.vhl, BUF.tos, BUF.ipoffset, BUF.proto, BUF.ttl in *;
    change BUF.ipchksum with 24 in *; try by fld.
  split_and!; [by fld..|].
  apply ipchksum_filled; [auto 20 with mem|]. autorewrite with memlen. lia.
Qed.

(** What the sender of a packet that has expired gets. *)
Definition time_exceeded_message (host : u8x4) (b b' : list Z) : Prop :=
  rd4 b' BUF.srcipaddr = host /\ rd4 b' BUF.destipaddr = rd4 b BUF.srcipaddr /\
  rd8 b' BUF.proto = UIP_PROTO_ICMP /\ rd8 b' ICMPBUF.type = ICMP_TE /\ rd8 b' ICMPBUF.icode = 0 /\
  uip_chksum b' ICMPBUF.type 36 = 0xffff /\ rds b' FWBUF.payload 28 = rds b BUF.vhl 28.

Lemma time_exceeded_spec {E} (s : uip_state E) : uip_wf s -> rd8 (uip_buf s) BUF.proto <> UIP_PROTO_ICMP ->
  let b' := uip_buf (time_exceeded s) in
  bytes b' /\ length b' = length (uip_buf s) /\ uip_len (time_exceeded s) = 56 /\
  ip_header_ok b' 56 /\ rd8 b' BUF.ttl = UIP_TTL /\ time_exceeded_message (uip_hostaddr s) (uip_buf s) b'.
Proof.
  intros Hs Hp. rewrite time_exceeded_steps by done. cbn [uip_buf uip_len].
  pose proof (wf_buf s Hs) as Hb. pose proof (wf_buf_len s Hs) as Hl.
  destruct (te_body_spec (uip_buf s)) as (Bb & Bl & B1 & B2 & B3 & B4 & B5); [done..|].
  set (b1 := te_body (uip_buf s)) in *. clearbody b1.
  assert (34 <= Z.of_nat (length b1)) as Hl1 by (rewrite Bl, Hl; by vm_compute).
  destruct (readdressed_spec (uip_hostaddr s) b1 (wf_hostaddr s Hs) Bb Hl1) as (A1 & A2 & A3).
  destruct (readdressed_ok (uip_hostaddr s) b1 Bb) as [Ab Al].
  set (b2 := readdressed (uip_hostaddr s) b1) in *. clearbody b2.
  destruct (te_head_spec b2) as (Hb3 & Hl3 & H1 & H2 & H3 & H4); [done|lia|].
  cbn. set (b3 := te_head b2) in *. clearbody b3. split; [done|]. split; [congruence|]. do 3 (split; [done|]).
  assert (forall j, 34 <= j -> rd8 b3 j = rd8 b1 j) as H31 by (intros; rewrite H4, A3 by lia; done).
  assert (forall j, 26 <= j -> rd4 b3 j = rd4 b2 j) as H32 by (intros; apply rd4_ext; intros; apply H4; lia).
  unfold time_exceeded_message, BUF.srcipaddr, BUF.destipaddr, ICMPBUF.type, ICMPBUF.icode in *.
  rewrite !H32, (H31 34), (H31 35) by lia. split_and!; try done.
  - rewrite A2. apply rd4_ext. intros. apply B5. lia.
  - rewrite <- B3. unfold uip_chksum. f_equal. rewrite !chksum_ones by (done || (unfold u16; lia)).
    do 2 f_equal. apply wsum_ext. intros. apply H31. lia.
  - rewrite <- B4. apply rds_ext. unfold FWBUF.payload. intros. apply H31. lia.
Qed.

(** * Forwarding *)

Section forwarding_spec.
Context {E : Type} (output : nat -> uip_state E -> Z * uip_state E).
Implicit Types s : uip_state E.

(** A packet to one address goes out once, on its interface. *)
Lemma uip_fw_output_spec fw l s : fw_wf fw l -> 0 < uip_len s -> is_broadcast (uip_buf s) = false ->
  exists r fw', fw_wf fw' l /\ remembers FW_TIME (uip_buf s) fw' /\
    uip_fw_output output fw s = Some (r, fw', match route fw (uip_buf s) l with Some i => (output i s).2 | None => s end).
Proof.
  intros Hw Hn Hb. unfold uip_fw_output. destruct (Z.eqb_spec (uip_len s) 0); [lia|]. rewrite Hb.
  destruct (fwcache_register_ok (uip_buf s) fw l Hw) as (j & Hj & ->). cbn [mbind option_bind].
  set (fw' := fw <| fwcache := <[j := entry_of (uip_buf s)]> (fwcache fw) |>).
  destruct Hw as [Hc Hk]. assert (fw_wf fw' l) as Hw' by (split; [done|by apply entry_ok]).
  assert (remembers FW_TIME (uip_buf s) fw') as Hr.
  { exists j. apply list_lookup_insert_eq. by destruct Hk as [-> _]. }
  rewrite (find_netif_route fw' _ l) by done. cbn [mbind option_bind].
  change (route fw' (uip_buf s) l) with (route fw (uip_buf s) l).
  destruct (route fw (uip_buf s) l) as [i|]; [destruct (output i s) as [r s']; by exists r, fw'|].
  by exists UIP_FW_NOROUTE, fw'.
Qed.

Definition transit fw s : Prop :=
  same_addr (rd4 (uip_buf s) BUF.destipaddr) (uip_hostaddr s) = false /\
  existsb (fwcache_hit (uip_buf s)) (fwcache fw) = false /\
  is_broadcast (uip_buf s) = false.
(** The state in which an interface finds the packet. *)
Definition handed (b : list Z) s : uip_state E :=
  s <| uip_buf := b |> <| uip_appdata := UIP_LLH_LEN + UIP_TCPIP_HLEN |>.
Definition sent_on (i : option nat) s : uip_state E :=
  match i with Some i => (output i s).2 | None => s end.

Lemma uip_fw_forward_run fw l s : fw_wf fw l -> transit fw s -> 1 < rd8 (uip_buf s) BUF.ttl -> 0 < uip_len s ->
  let s' := handed (decremented (uip_buf s)) s in
  exists r fw', fw_wf fw' l /\ remembers FW_TIME (uip_buf s') fw' /\
    uip_fw_forward output fw s = Some (r, fw', sent_on (route fw (uip_buf s) l) s').
Proof.
  intros Hw (H1 & H2 & H3) Ht Hn s'. unfold uip_fw_forward. rewrite H1, H2.
  destruct (Z.leb_spec (rd8 (uip_buf s) BUF.ttl) 1); [lia|]. cbn [andb]. cbv zeta.
  set (t := mem _ (mem _ s)).
  assert (t <| uip_appdata := UIP_LLH_LEN + UIP_TCPIP_HLEN |> = s') as -> by (by destruct s).
  assert (uip_len t = uip_len s) as -> by done. destruct (Z.ltb_spec 0 (uip_len s)); [|lia].
  assert (rd4 (uip_buf s') BUF.destipaddr = rd4 (uip_buf s) BUF.destipaddr) as Hd by by apply decremented_rd4.
  destruct (uip_fw_output_spec fw l s') as (r & fw' & Hw' & Hr & Ho); [done..| |].
  { unfold is_broadcast. by rewrite Hd. }
  rewrite Ho. cbn [mbind option_bind]. eexists _, fw'. split; [done|]. split; [done|].
  assert (route fw (uip_buf s') l = route fw (uip_buf s) l) as ->; [|done].
  unfold route, on_network. by rewrite Hd.
Qed.

(** A packet for another host is sent on as it came: on the interface whose
    network contains the destination, the one registered last first, or on the
    default one; with the time to live one less and nothing else changed but the
    IP checksum, which is right again. *)
Theorem uip_fw_forward_transit fw l s : uip_wf s -> fw_wf fw l -> transit fw s ->
  1 < rd8 (uip_buf s) BUF.ttl -> 0 < uip_len s -> ip_header_ok (uip_buf s) (uip_len s) ->
  exists r fw' b', uip_fw_forward output fw s = Some (r, fw', sent_on (route fw (uip_buf s) l) (handed b' s)) /\
    ip_header_ok b' (uip_len s) /\ rd8 b' BUF.ttl = rd8 (uip_buf s) BUF.ttl - 1 /\
    (forall j, 0 <= j -> j <> BUF.ttl -> j <> BUF.ipchksum -> j <> BUF.ipchksum + 1 -> rd8 b' j = rd8 (uip_buf s) j).
Proof.
  intros Hs Hw Ht Hl Hn Hh. destruct (uip_fw_forward_run fw l s) as (r & fw' & _ & _ & Hr); [done..|].
  exists r, fw', (decremented (uip_buf s)). pose proof (wf_buf s Hs) as Hb.
  assert (34 <= Z.of_nat (length (uip_buf s))) as Hlen by (rewrite (wf_buf_len s Hs); by vm_compute).
  split; [done|]. split; [apply decremented_header; try done; lia|]. split.
  - rewrite decremented_ttl by done. apply w8_small. pose proof (rd8_u8 (uip_buf s) BUF.ttl Hb). unfold u8 in *. lia.
  - intros. by apply decremented_rd8.
Qed.

(** No packet circles.  A copy of a forwarded packet that comes back within
    20 ticks, whatever became of its time to live, is dropped without a trace. *)
Theorem uip_fw_forward_once fw l s r fw' s' n t : fw_wf fw l -> transit fw s -> 1 < rd8 (uip_buf s) BUF.ttl ->
  0 < uip_len s -> uip_fw_forward output fw s = Some (r, fw', s') -> (n < 20)%nat ->
  same_packet (uip_buf s) (uip_buf t) -> same_addr (rd4 (uip_buf t) BUF.destipaddr) (uip_hostaddr t) = false ->
  let fw'' := Nat.iter n uip_fw_periodic fw' in
  uip_fw_forward output fw'' t = Some (UIP_FW_FORWARDED, fw'', t).
Proof.
  intros Hw Ht Hl Hn Hf Hn20 (P1 & P2 & P3 & P4) Ha fw''.
  destruct (uip_fw_forward_run fw l s) as (r' & fw1 & _ & Hr & Hf'); [done..|].
  rewrite Hf in Hf'. injection Hf' as -> -> _. unfold uip_fw_forward. rewrite Ha.
  erewrite remembers_hit; [done| | |apply (remembers_periodic n FW_TIME); [unfold FW_TIME; lia|exact Hr]].
  - unfold FW_TIME. lia.
  - cbn. unfold same_packet, rd16, BUF.ipid, BUF.proto, BUF.srcipaddr, BUF.destipaddr in *.
    rewrite !decremented_rd4, !decremented_rd8 by lia. done.
Qed.
Lemma decremented_message host b b' : bytes b' -> 64 <= Z.of_nat (length b') -> time_exceeded_message host b b' ->
  time_exceeded_message host b (decremented b').
Proof.
  intros Hb Hl (H1 & H2 & H3 & H4 & H5 & H6 & H7).
  unfold time_exceeded_message, BUF.srcipaddr, BUF.destipaddr, BUF.proto, ICMPBUF.type, ICMPBUF.icode, FWBUF.payload in *.
  rewrite !decremented_rd4, !decremented_rd8 by lia. split_and!; try done.
  - rewrite <- H6. unfold uip_chksum. f_equal. pose proof (decremented_bytes b' Hb).
    rewrite !chksum_ones by (done || (unfold u16; lia)).
    do 2 f_equal. apply wsum_ext. intros. apply decremented_rd8; lia.
  - rewrite <- H7. apply rds_ext. intros. apply decremented_rd8; lia.
Qed.

(** A packet that has run out of hops is not sent on.  Unless it is an ICMP
    message, which is dropped, its sender gets a time-exceeded message: a valid
    packet of 56 bytes from this host, with a right ICMP checksum, that quotes
    the header and the first eight bytes of the packet. *)
Theorem uip_fw_forward_expired fw l s : uip_wf s -> fw_wf fw l -> transit fw s ->
  rd8 (uip_buf s) BUF.ttl <= 1 -> same_addr (rd4 (uip_buf s) BUF.srcipaddr) (U4 255 255 255 255) = false ->
  if rd8 (uip_buf s) BUF.proto =? UIP_PROTO_ICMP
  then exists s', uip_fw_forward output fw s = Some (UIP_FW_FORWARDED, fw, s') /\ uip_len s' = 0
  else exists r fw' b',
    uip_fw_forward output fw s = Some (r, fw', sent_on (route fw b' l) (handed b' (s <| uip_len := 56 |>))) /\
    ip_header_ok b' 56 /\ rd8 b' BUF.ttl = 63 /\ time_exceeded_message (uip_hostaddr s) (uip_buf s) b'.
Proof.
  intros Hs Hw (H1 & H2 & H3) Ht Hsrc. unfold uip_fw_forward. rewrite H1, H2, H3, andb_false_r.
  destruct (Z.leb_spec (rd8 (uip_buf s) BUF.ttl) 1); [|lia].
  destruct (Z.eqb_spec (rd8 (uip_buf s) BUF.proto) UIP_PROTO_ICMP) as [Hp|Hp].
  { unfold time_exceeded. rewrite Hp. cbn [Z.eqb Pos.eqb UIP_PROTO_ICMP]. cbv zeta. set (t := mem _ (mem _ _)).
    change (uip_len t) with 0. cbn [Z.ltb Z.compare mbind option_bind].
    assert (is_broadcast (uip_buf t) = false) as ->.
    { unfold is_broadcast in *. change (uip_buf t) with (decremented (uip_buf s)). by rewrite decremented_rd4. }
    by exists t. }
  destruct (time_exceeded_spec s Hs Hp) as (Eb & El & En & Eh & Et & Em). cbv zeta.
  set (t := mem _ (mem _ _)). change (uip_len t) with (uip_len (time_exceeded s)). rewrite En. cbn [Z.ltb Z.compare].
  set (b' := decremented (uip_buf (time_exceeded s))).
  assert (1000 <= Z.of_nat (length (uip_buf s))) as Hlen by (rewrite (wf_buf_len s Hs); by vm_compute).
  assert (t <| uip_appdata := UIP_LLH_LEN + UIP_TCPIP_HLEN |> = handed b' (s <| uip_len := 56 |>)) as ->.
  { unfold t, b'. rewrite time_exceeded_steps by done.
    generalize (te_head (readdressed (uip_hostaddr s) (te_body (uip_buf s)))). intros m. by destruct s. }
  assert (time_exceeded_message (uip_hostaddr s) (uip_buf s) b') as Hm by (apply decremented_message; [done|lia|done]).
  destruct (uip_fw_output_spec fw l (handed b' (s <| uip_len := 56 |>))) as (r & fw' & _ & _ & ->); [done..| |].
  { change (is_broadcast b' = false). unfold is_broadcast. destruct Hm as (_ & -> & _). exact Hsrc. }
  eexists _, fw', b'. split; [done|]. unfold b'. split.
  - apply decremented_header; try done; [lia|rewrite Et; by vm_compute].
  - split; [|done]. rewrite decremented_ttl, Et by lia. done.
Qed.
End forwarding_spec.
