(* ===== verification/Dhcpc.v ===== *)
(** * The DHCP client: [dhcpc.c]

    The protothread [handle_dhcp] as a step function: its resume points are the
    values of [dhcp_pc], and one call runs from a resume point to the next
    [PT_YIELD].  The labels [initwait], [init], [selecting] and [bound] and the
    loop heads are definitions of their own, each ending in a yield.

    The packet is read and written in place at [uip_appdata].  What the client
    hands its results to ([dhcpc_configured] of [uip_server_support.c],
    [autoip_start]) and the C library's generator are its interface
    [DhcpcClient].  [unsigned long] has 32 bits. *)
From S2P Require Export UipOutput Clock.
Local Open Scope Z_scope.

(** ** Data *)

Inductive dhcp_state_t : Set :=
| STATE_INITIAL | STATE_SENDING | STATE_OFFER_RECEIVED | STATE_CONFIG_RECEIVED | STATE_DISABLED.
#[export] Instance dhcp_state_eq_dec : EqDecision dhcp_state_t.
Proof. solve_decision. Defined.

(** The resume points of the protothread. *)
Inductive dhcp_pc : Set := PC_BEGIN | PC_INITWAIT | PC_DISCOVER | PC_REQUEST | PC_BOUND | PC_RENEW.

Module DHCP.
Definition op : Z := 0.
Definition htype : Z := 1.
Definition hlen : Z := 2.
Definition hops : Z := 3.
Definition xid : Z := 4.
Definition secs : Z := 8.
Definition flags : Z := 10.
Definition ciaddr : Z := 12.
Definition yiaddr : Z := 16.
Definition siaddr : Z := 20.
Definition giaddr : Z := 24.
Definition chaddr : Z := 28.
Definition sname : Z := 44.
Definition file : Z := 108.
Definition options : Z := 236.
End DHCP.

Definition BOOTP_BROADCAST : Z := 0x8000.
Definition DHCP_REQUEST : Z := 1.
Definition DHCP_REPLY : Z := 2.
Definition DHCP_HTYPE_ETHERNET : Z := 1.
Definition DHCPC_SERVER_PORT : Z := 67.
Definition DHCPC_CLIENT_PORT : Z := 68.
Definition DHCPDISCOVER : Z := 1.
Definition DHCPOFFER : Z := 2.
Definition DHCPREQUEST : Z := 3.
Definition DHCPACK : Z := 5.
Definition DHCPNAK : Z := 6.
Definition DHCP_OPTION_SUBNET_MASK : Z := 1.
Definition DHCP_OPTION_ROUTER : Z := 3.
Definition DHCP_OPTION_DNS_SERVER : Z := 6.
Definition DHCP_OPTION_REQ_IPADDR : Z := 50.
Definition DHCP_OPTION_LEASE_TIME : Z := 51.
Definition DHCP_OPTION_MSG_TYPE : Z := 53.
Definition DHCP_OPTION_SERVER_ID : Z := 54.
Definition DHCP_OPTION_REQ_LIST : Z := 55.
Definition DHCP_OPTION_END : Z := 255.
Definition magic_cookie : list Z := [99; 130; 83; 99].

(** [struct dhcpc_state] and the static [xid]; [mac_addr] points to the address
    of the interface, which does not change. *)
Record dhcpc_state : Type := DhcpcState {
  pt : dhcp_pc;
  d_state : dhcp_state_t;
  conn : option nat;
  d_timer : uip_timer;
  ticks : Z;
  mac_addr : list Z;
  mac_len : Z;
  serverid : u8x4;
  lease_time : Z * Z;
  d_ipaddr : u8x4;
  d_netmask : u8x4;
  dnsaddr : u8x4;
  default_router : u8x4;
  xid : list Z }.
#[export] Instance eta_dhcpc_state : Eta dhcpc_state := fun r =>
  DhcpcState r.(pt) r.(d_state) r.(conn) r.(d_timer) r.(ticks) r.(mac_addr) r.(mac_len) r.(serverid)
    r.(lease_time) r.(d_ipaddr) r.(d_netmask) r.(dnsaddr) r.(default_router) r.(xid).
Definition initial_dhcpc : dhcpc_state :=
  DhcpcState PC_BEGIN STATE_INITIAL None (UipTimer 0 0) 0 [] 0 zero4 (0, 0) zero4 zero4 zero4 zero4 (replicate 4 0).

(** ** The interface to the rest of the program *)

Class DhcpcClient (E : Type) := {
  dhcpc_configured : dhcpc_state -> uip_state E -> uip_state E;
  dhcpc_autoip_start : uip_state E -> uip_state E;
  dhcpc_clock : uip_state E -> Z;
  libc_srand : Z -> uip_state E -> uip_state E;
  libc_rand : uip_state E -> Z * uip_state E }.

Section dhcpc.
Context {E : Type} `{DhcpcClient E}.
Implicit Types (s : uip_state E) (d : dhcpc_state) (b : list Z).

(** ** Messages *)

(** Options are stored at [optptr]; the next position is returned. *)
Definition add_msg_type (type optptr : Z) b : list Z * Z :=
  (wrs optptr [DHCP_OPTION_MSG_TYPE; 1; type] b, optptr + 3).
Definition add_server_id d (optptr : Z) b : list Z * Z :=
  let b := wrs optptr [DHCP_OPTION_SERVER_ID; 4] b in
  (wr4 (optptr + 2) (serverid d) b, optptr + 6).
Definition add_req_ipaddr d (optptr : Z) b : list Z * Z :=
  let b := wrs optptr [DHCP_OPTION_REQ_IPADDR; 4] b in
  (wr4 (optptr + 2) (d_ipaddr d) b, optptr + 6).
Definition add_req_options (optptr : Z) b : list Z * Z :=
  (wrs optptr [DHCP_OPTION_REQ_LIST; 3; DHCP_OPTION_SUBNET_MASK; DHCP_OPTION_ROUTER; DHCP_OPTION_DNS_SERVER] b,
   optptr + 5).
Definition add_end (optptr : Z) b : list Z * Z := (wr8 optptr DHCP_OPTION_END b, optptr + 1).

Definition create_msg d (m : Z) s : uip_state E :=
  let s := mem (wr8 (m + DHCP.op) DHCP_REQUEST) s in
  let s := mem (wr8 (m + DHCP.htype) DHCP_HTYPE_ETHERNET) s in
  let s := mem (wr8 (m + DHCP.hlen) (mac_len d)) s in
  let s := mem (wr8 (m + DHCP.hops) 0) s in
  let s := mem (wrs (m + DHCP.xid) (xid d)) s in
  let s := mem (wr16 (m + DHCP.secs) 0) s in
  let s := mem (wr16 (m + DHCP.flags) (HTONS BOOTP_BROADCAST)) s in
  let s :=
    if bool_decide (d_state d = STATE_CONFIG_RECEIVED)
    then mem (wr4 (m + DHCP.ciaddr) (uip_hostaddr s)) s
    else mem (wr4 (m + DHCP.ciaddr) zero4) s in
  let s := mem (wrs (m + DHCP.yiaddr) (replicate (4 + 4 + 4 + 16 + 64 + 128) 0)) s in
  let s := mem (wrs (m + DHCP.chaddr) (take (Z.to_nat (mac_len d)) (mac_addr d))) s in
  mem (wrs (m + DHCP.options) magic_cookie) s.

Definition send_discover d s : uip_state E :=
  let m := uip_appdata s in
  let s := create_msg d m s in
  let '(b, end_) := add_msg_type DHCPDISCOVER (m + DHCP.options + 4) (uip_buf s) in
  let '(b, end_) := add_req_options end_ b in
  let '(b, end_) := add_end end_ b in
  uip_send m (end_ - m) (mem (fun _ => b) s).

Definition send_request d s : uip_state E :=
  let m := uip_appdata s in
  let s := create_msg d m s in
  let '(b, end_) := add_msg_type DHCPREQUEST (m + DHCP.options + 4) (uip_buf s) in
  let '(b, end_) := add_server_id d end_ b in
  let '(b, end_) := add_req_ipaddr d end_ b in
  let '(b, end_) := add_end end_ b in
  uip_send m (end_ - m) (mem (fun _ => b) s).

(** One option; the bytes of the lease time are swapped after the copy. *)
Definition parse_option b (optptr type : Z) d : Z * dhcpc_state :=
  let code := rd8 b optptr in
  if code =? DHCP_OPTION_SUBNET_MASK then (type, d <| d_netmask := rd4 b (optptr + 2) |>)
  else if code =? DHCP_OPTION_ROUTER then (type, d <| default_router := rd4 b (optptr + 2) |>)
  else if code =? DHCP_OPTION_DNS_SERVER then (type, d <| dnsaddr := rd4 b (optptr + 2) |>)
  else if code =? DHCP_OPTION_MSG_TYPE then (rd8 b (optptr + 2), d)
  else if code =? DHCP_OPTION_SERVER_ID then (type, d <| serverid := rd4 b (optptr + 2) |>)
  else if code =? DHCP_OPTION_LEASE_TIME then
    (type, d <| lease_time := (HTONS (rd16 b (optptr + 2)), HTONS (rd16 b (optptr + 4))) |>)
  else (type, d).

(** [None] when [fuel] options are not enough. *)
Fixpoint parse_options (fuel : nat) b (optptr end_ type : Z) d : option (Z * dhcpc_state) :=
  if optptr <? end_ then
    if rd8 b optptr =? DHCP_OPTION_END then Some (type, d)
    else
      match fuel with
      | O => None
      | S fuel =>
          let '(type, d) := parse_option b optptr type d in
          parse_options fuel b (optptr + rd8 b (optptr + 1) + 2) end_ type d
      end
  else Some (type, d).

(** [memcmp] of the identifiers of a message with ours. *)
Definition is_reply d (m : Z) b : bool :=
  (rd8 b (m + DHCP.op) =? DHCP_REPLY) && bool_decide (rds b (m + DHCP.xid) 4 = xid d)
  && bool_decide (rds b (m + DHCP.chaddr) (Z.to_nat (mac_len d)) = take (Z.to_nat (mac_len d)) (mac_addr d)).

(** [uip_datalen()] steps of at least two bytes pass over [uip_datalen()] bytes. *)
Definition parse_msg d s : Z * dhcpc_state :=
  let m := uip_appdata s in
  let b := uip_buf s in
  if is_reply d m b then
    let d := d <| d_ipaddr := rd4 b (m + DHCP.yiaddr) |> in
    let optptr := m + DHCP.options + 4 in
    default (0, d) (parse_options (Z.to_nat (uip_len s)) b optptr (optptr + uip_len s) 0 d)
  else (0, d).

Fixpoint find_msg_type (fuel : nat) b (optptr end_ : Z) : Z :=
  match fuel with
  | O => -1
  | S fuel =>
      if optptr <? end_ then
        if rd8 b optptr =? DHCP_OPTION_MSG_TYPE then rd8 b (optptr + 2)
        else if rd8 b optptr =? DHCP_OPTION_END then -1
        else find_msg_type fuel b (optptr + rd8 b (optptr + 1) + 2) end_
      else -1
  end.
Definition msg_for_me d s : Z :=
  let m := uip_appdata s in
  if is_reply d m (uip_buf s)
  then find_msg_type (Z.to_nat (uip_len s)) (uip_buf s) (m + DHCP.options + 4) (m + uip_len s)
  else -1.

(** ** The protothread *)

Definition arm s (t : Z) d : dhcpc_state := d <| d_timer ::= timer_set (dhcpc_clock s) (s32 t) |>.
Definition expired d s : bool := timer_expired (dhcpc_clock s) (d_timer d).
Definition newdata s : bool := tst (uip_flags s) UIP_NEWDATA.
Definition PT_YIELD (pc : dhcp_pc) d : dhcpc_state := d <| pt := pc |>.

Definition goto_initwait d s : dhcpc_state * uip_state E :=
  let '(r, s) := libc_rand s in
  let rand_startup := Z.rem r 8192 in
  let d := d <| ticks := w32 rand_startup |> in
  (PT_YIELD PC_INITWAIT (arm s (ticks d) d), s).

(** The head of the loop that asks for offers. *)
Definition discover_loop d s : dhcpc_state * uip_state E :=
  let s := send_discover d s in
  (PT_YIELD PC_DISCOVER (arm s (ticks d) d), s).
Definition goto_init d s : dhcpc_state * uip_state E :=
  let d := d <| d_state := STATE_SENDING |> in
  discover_loop (d <| ticks := CLOCK_SECOND |>) s.

(** The head of the loop that requests the address offered. *)
Definition request_loop d s : dhcpc_state * uip_state E :=
  let s := send_request d s in
  (PT_YIELD PC_REQUEST (arm s (ticks d) d), s).
Definition goto_selecting d s : dhcpc_state * uip_state E := request_loop (d <| ticks := CLOCK_SECOND |>) s.

Definition MAX_TICKS : Z := w32 (Z.lnot 0) / 2.
Definition MAX_TICKS32 : Z := w32 (Z.lnot 0).
Definition IMIN (a b : Z) : Z := if a <? b then a else b.

(** Half of the lease, in clock ticks, computed in 32 bits. *)
Definition half_lease d : Z :=
  let t := w32 (w32 (w32 (fst (lease_time d) * 65536) + snd (lease_time d)) * CLOCK_SECOND) / 2 in
  if t <=? MAX_TICKS32 then t else MAX_TICKS32.

Definition renew_loop d s : dhcpc_state * uip_state E :=
  let s := send_request d s in
  let t := IMIN (ticks d / 2) MAX_TICKS in
  let d := d <| ticks ::= fun x => w32 (x - t) |> in
  (PT_YIELD PC_RENEW (arm s t d), s).

(** [while (s.ticks > 0)], and the renewal that follows it. *)
Definition bound_loop d s : dhcpc_state * uip_state E :=
  if 0 <? ticks d then
    let t := IMIN (ticks d) MAX_TICKS in
    let d := d <| ticks ::= fun x => w32 (x - t) |> in
    (PT_YIELD PC_BOUND (arm s t d), s)
  else renew_loop (d <| ticks := half_lease d |>) s.
Definition goto_bound d s : dhcpc_state * uip_state E :=
  let s := dhcpc_configured d s in
  bound_loop (d <| ticks := half_lease d |>) s.

Definition handle_dhcp d s : dhcpc_state * uip_state E :=
  match pt d with
  | PC_BEGIN =>
      if bool_decide (d_state d = STATE_DISABLED) then (d, s) else goto_initwait d s
  | PC_INITWAIT => if expired d s then goto_init d s else (d, s)
  | PC_DISCOVER =>
      if newdata s && (msg_for_me d s =? DHCPOFFER) then
        let '(_, d) := parse_msg d s in
        goto_selecting (d <| d_state := STATE_OFFER_RECEIVED |>) s
      else if expired d s then
        let s := if ticks d =? CLOCK_SECOND * 4 then dhcpc_autoip_start s else s in
        let d := if ticks d <? CLOCK_SECOND * 60 then d <| ticks ::= fun x => w32 (x * 2) |> else d in
        discover_loop d s
      else (d, s)
  | PC_REQUEST =>
      if newdata s && (msg_for_me d s =? DHCPACK) then
        let '(_, d) := parse_msg d s in
        goto_bound (d <| d_state := STATE_CONFIG_RECEIVED |>) s
      else if newdata s && (msg_for_me d s =? DHCPNAK) then goto_initwait d s
      else if expired d s then
        if ticks d <=? CLOCK_SECOND * 10 then
          let d := d <| ticks ::= fun x => w32 (x + CLOCK_SECOND) |> in
          if bool_decide (d_state d = STATE_CONFIG_RECEIVED) then goto_bound d s else request_loop d s
        else goto_init d s
      else (d, s)
  | PC_BOUND => if expired d s then bound_loop d s else (d, s)
  | PC_RENEW =>
      if newdata s && (msg_for_me d s =? DHCPACK) then
        let '(_, d) := parse_msg d s in goto_bound d s
      else if newdata s && (msg_for_me d s =? DHCPNAK) then goto_init d s
      else if expired d s then
        if CLOCK_SECOND * 3 <=? ticks d then renew_loop d s else goto_init d s
      else (d, s)
  end.

(** ** The other entry points *)

Definition dhcpc_init (mac : list Z) (len : Z) d s : dhcpc_state * uip_state E :=
  let d := d <| mac_addr := mac |> <| mac_len := len |> <| d_state := STATE_DISABLED |> in
  let d := d <| xid := rds mac 2 4 |> in
  let s := libc_srand (rd16 mac 2 + 65536 * rd16 mac 4) s in
  let '(_, s) := libc_rand s in
  match uip_udp_new (Some (uip_ipaddr 255 255 255 255)) (HTONS DHCPC_SERVER_PORT) s with
  | Some (s, Some i) =>
      let s := upd_udp_conn i (fun c => c <| udp_lport := HTONS DHCPC_CLIENT_PORT |>) s in
      (d <| conn := Some i |> <| pt := PC_BEGIN |>, s)
  | Some (s, None) => (d <| conn := None |> <| pt := PC_BEGIN |>, s)
  | None => (d, s)
  end.
Definition dhcpc_start d s : dhcpc_state * uip_state E :=
  let d := d <| d_state := STATE_INITIAL |> in
  let s := uip_udp_listen (HTONS DHCPC_CLIENT_PORT) s in
  (d <| pt := PC_BEGIN |>, s).
Definition dhcpc_stop d s : dhcpc_state * uip_state E :=
  let d := d <| d_state := STATE_DISABLED |> in
  let s := uip_udp_unlisten (HTONS DHCPC_CLIENT_PORT) s in
  (d <| pt := PC_BEGIN |>, s).
Definition dhcpc_appcall d s : dhcpc_state * uip_state E := handle_dhcp d s.
Definition dhcpc_request d s : uip_state E :=
  if bool_decide (d_state d = STATE_INITIAL) then s <| uip_hostaddr := uip_ipaddr 0 0 0 0 |> else s.
End dhcpc.

(** ** The type invariant *)

Record dhcpc_wf (d : dhcpc_state) : Prop := {
  dw_ticks : u32 (ticks d);
  dw_serverid : u8x4_ok (serverid d);
  dw_lease : u16 (fst (lease_time d)) /\ u16 (snd (lease_time d));
  dw_ipaddr : u8x4_ok (d_ipaddr d);
  dw_netmask : u8x4_ok (d_netmask d);
  dw_dnsaddr : u8x4_ok (dnsaddr d);
  dw_router : u8x4_ok (default_router d) }.

(** What the client relies on. *)
Class DhcpcClientWf (E : Type) `{DhcpcClient E} : Prop := {
  dhcpc_configured_wf : forall d (s : uip_state E), uip_wf s -> uip_wf (dhcpc_configured d s);
  dhcpc_autoip_start_wf : forall s : uip_state E, uip_wf s -> uip_wf (dhcpc_autoip_start s);
  libc_srand_wf : forall n (s : uip_state E), uip_wf s -> uip_wf (libc_srand n s);
  libc_rand_wf : forall s : uip_state E, uip_wf s -> uip_wf (libc_rand s).2 }.

Lemma initial_dhcpc_wf : dhcpc_wf initial_dhcpc.
Proof. by do 2 constructor. Qed.

Ltac dwf := match goal with H : dhcpc_wf _ |- _ => destruct H end; constructor; cbn; auto with mem word.

Section invariant.
Context {E : Type} `{DhcpcClientWf E}.
Implicit Types (s : uip_state E) (d : dhcpc_state) (b : list Z).

Lemma parse_option_wf b p type d : bytes b -> dhcpc_wf d -> dhcpc_wf (parse_option b p type d).2.
Proof.
  intros Hb Hd. unfold parse_option. repeat case_match; cbn [snd]; try done; dwf.
Qed.
Lemma parse_options_wf fuel b e r d' : forall d type0 p0, bytes b -> dhcpc_wf d ->
  parse_options fuel b p0 e type0 d = Some (r, d') -> dhcpc_wf d'.
Proof.
  induction fuel as [|fuel IH]; intros d type0 p0 Hb Hd Hp; cbn [parse_options] in Hp.
  - case_match; [case_match; [by simplify_eq|done]|by simplify_eq].
  - case_match; [|by simplify_eq]. case_match; [by simplify_eq|].
    pose proof (parse_option_wf b p0 type0 d Hb Hd) as Hd1. destruct (parse_option b p0 type0 d) as [t1 d1].
    by eapply (IH d1).
Qed.
Lemma parse_msg_wf d s : uip_wf s -> dhcpc_wf d -> dhcpc_wf (parse_msg d s).2.
Proof.
  intros Hs Hd. unfold parse_msg. cbv zeta. case_match; [|done].
  set (d1 := d <| d_ipaddr := _ |>). assert (dhcpc_wf d1) as Hd1 by (unfold d1; pose proof (wf_buf s Hs); dwf).
  destruct (parse_options _ _ _ _ _ d1) as [[r d']|] eqn:Hp; [|done]. cbn.
  eapply parse_options_wf; eauto. by apply wf_buf.
Qed.

Lemma wf_set_buf b s : uip_wf s -> bytes b -> length b = length (uip_buf s) -> uip_wf (mem (fun _ => b) s).
Proof. intros Hs Hb Hl. destruct Hs; constructor; ssimpl; auto. by rewrite Hl. Qed.
Lemma create_msg_wf d m s : uip_wf s -> uip_wf (create_msg d m s).
Proof. intros Hs. unfold create_msg. cbv zeta. case_match; wf_auto. Qed.
Lemma send_discover_wf d s : uip_wf s -> uip_wf (send_discover d s).
Proof.
  intros Hs. unfold send_discover, add_msg_type, add_req_options, add_end. cbv zeta. apply uip_send_wf.
  pose proof (create_msg_wf d (uip_appdata s) s Hs) as H1. pose proof (wf_buf _ H1).
  apply wf_set_buf; [done|auto 20 with mem|by autorewrite with memlen].
Qed.
Lemma send_request_wf d s : uip_wf s -> uip_wf (send_request d s).
Proof.
  intros Hs. unfold send_request, add_msg_type, add_server_id, add_req_ipaddr, add_end. cbv zeta. apply uip_send_wf.
  pose proof (create_msg_wf d (uip_appdata s) s Hs) as H1. pose proof (wf_buf _ H1).
  apply wf_set_buf; [done|auto 20 with mem|by autorewrite with memlen].
Qed.

Lemma arm_wf s t d : dhcpc_wf d -> dhcpc_wf (arm s t d).
Proof. intros Hd. unfold arm. dwf. Qed.
Lemma ticks_wf v d : u32 v -> dhcpc_wf d -> dhcpc_wf (d <| ticks := v |>).
Proof. intros Hv Hd. dwf. Qed.
Lemma ticks_upd_wf f d : u32 (f (ticks d)) -> dhcpc_wf d -> dhcpc_wf (d <| ticks ::= f |>).
Proof. intros Hv Hd. dwf. Qed.
Lemma yield_wf pc d : dhcpc_wf d -> dhcpc_wf (PT_YIELD pc d).
Proof. intros Hd. unfold PT_YIELD. dwf. Qed.
Lemma d_state_wf st d : dhcpc_wf d -> dhcpc_wf (d <| d_state := st |>).
Proof. intros Hd. dwf. Qed.
Lemma half_lease_u32 d : u32 (half_lease d).
Proof.
  unfold half_lease. case_match; [|by apply w32_u32].
  pose proof (w32_u32 (w32 (w32 ((lease_time d).1 * 65536) + (lease_time d).2) * CLOCK_SECOND)). unfold u32 in *. zdm.
Qed.
Lemma second_u32 : u32 CLOCK_SECOND.
Proof. unfold u32, CLOCK_SECOND. lia. Qed.
#[local] Hint Resolve arm_wf ticks_wf ticks_upd_wf yield_wf d_state_wf half_lease_u32 second_u32 send_discover_wf
  send_request_wf w32_u32 parse_msg_wf dhcpc_configured_wf dhcpc_autoip_start_wf : core.

(** The stack stays well-formed, and so does the state of the client. *)
Definition both_wf d (r : dhcpc_state * uip_state E) : Prop := uip_wf r.2 /\ (dhcpc_wf d -> dhcpc_wf r.1).

Lemma both_wf_from d d' r : (dhcpc_wf d -> dhcpc_wf d') -> both_wf d' r -> both_wf d r.
Proof. intros Hd [H1 H2]. split; auto. Qed.
Lemma initwait_wf d s : uip_wf s -> both_wf d (goto_initwait d s).
Proof.
  intros Hs. unfold goto_initwait. pose proof (libc_rand_wf s Hs). destruct (libc_rand s) as [r s1].
  split; cbn [fst snd]; auto.
Qed.
Lemma discover_loop_wf d s : uip_wf s -> both_wf d (discover_loop d s).
Proof. intros Hs. unfold discover_loop. cbv zeta. split; cbn [fst snd]; auto. Qed.
Lemma init_wf d s : uip_wf s -> both_wf d (goto_init d s).
Proof. intros Hs. eapply both_wf_from; [|by apply discover_loop_wf]. auto. Qed.
Lemma request_loop_wf d s : uip_wf s -> both_wf d (request_loop d s).
Proof. intros Hs. unfold request_loop. cbv zeta. split; cbn [fst snd]; auto. Qed.
Lemma selecting_wf d s : uip_wf s -> both_wf d (goto_selecting d s).
Proof. intros Hs. eapply both_wf_from; [|by apply request_loop_wf]. auto. Qed.
Lemma renew_loop_wf d s : uip_wf s -> both_wf d (renew_loop d s).
Proof. intros Hs. unfold renew_loop. cbv zeta. split; cbn [fst snd]; auto. Qed.
Lemma bound_loop_wf d s : uip_wf s -> both_wf d (bound_loop d s).
Proof.
  intros Hs. unfold bound_loop. case_match; [split; cbn [fst snd]; auto|].
  eapply both_wf_from; [|by apply renew_loop_wf]. auto.
Qed.
Lemma bound_wf d s : uip_wf s -> both_wf d (goto_bound d s).
Proof. intros Hs. eapply both_wf_from; [|apply bound_loop_wf; auto]. auto. Qed.
#[local] Hint Resolve initwait_wf discover_loop_wf init_wf request_loop_wf selecting_wf renew_loop_wf
  bound_loop_wf bound_wf : core.

Lemma handle_dhcp_wf d s : uip_wf s -> both_wf d (handle_dhcp d s).
Proof.
  intros Hs. pose proof (parse_msg_wf d s Hs) as Hp. unfold handle_dhcp.
  assert (both_wf d (d, s)) as Hstay by by split.
  destruct (pt d); repeat case_match; cbn [snd] in *; auto;
    (eapply both_wf_from; [|solve [auto]]); auto.
Qed.

Lemma uip_udp_new_client s p s' r : uip_wf s ->
  uip_udp_new (Some (uip_ipaddr 255 255 255 255)) (HTONS p) s = Some (s', r) -> uip_wf s'.
Proof. intros Hs Hn. eapply uip_udp_new_wf; [exact Hs|apply of_words_ok|apply HTONS_u16|exact Hn]. Qed.

Lemma dhcpc_init_wf mac l d s : uip_wf s -> both_wf d (dhcpc_init mac l d s).
Proof.
  intros Hs. unfold dhcpc_init. cbv zeta. set (s1 := libc_srand _ s).
  assert (uip_wf s1) as H1 by by apply libc_srand_wf. pose proof (libc_rand_wf s1 H1) as H2.
  destruct (libc_rand s1) as [r s2]. cbn [snd] in H2.
  destruct (uip_udp_new _ _ s2) as [[s3 [i|]]|] eqn:Hn; (split; cbn [fst snd]; [|intros; dwf]); try done;
    apply uip_udp_new_client in Hn; try done.
  apply wf_upd_udp_conn; [done|]. conn_field.
Qed.
Lemma dhcpc_start_wf d s : uip_wf s -> both_wf d (dhcpc_start d s).
Proof. intros Hs. split; cbn [dhcpc_start fst snd]; [|intros; dwf]. apply uip_udp_listen_wf; [apply HTONS_u16|done]. Qed.
Lemma dhcpc_stop_wf d s : uip_wf s -> both_wf d (dhcpc_stop d s).
Proof. intros Hs. split; cbn [dhcpc_stop fst snd]; [|intros; dwf]. by apply uip_udp_unlisten_wf. Qed.
End invariant.

(** ** What the client leaves alone

    A property of the environment, the connections and the current connection
    that the operations it is given keep. *)
Section frame.
Context {E : Type} `{DhcpcClient E} (P : uip_state E -> Prop).
Definition still (s t : uip_state E) : Prop :=
  env t = env s /\ uip_conns t = uip_conns s /\ uip_udp_conns t = uip_udp_conns s /\ uip_conn t = uip_conn s.
Context (P_still : forall s t, still s t -> P s -> P t).
Context (P_configured : forall d s, P s -> P (dhcpc_configured d s)).
Context (P_autoip_start : forall s, P s -> P (dhcpc_autoip_start s)).
Context (P_rand : forall s, P s -> P (libc_rand s).2).
Implicit Types (s : uip_state E) (d : dhcpc_state).

Lemma still_send data l s : still s (uip_send data l s).
Proof. unfold uip_send. by repeat case_match. Qed.
Lemma still_trans s t u : still s t -> still t u -> still s u.
Proof. intros (? & ? & ? & ?) (? & ? & ? & ?). repeat split; congruence. Qed.
Lemma send_discover_holds d s : P s -> P (send_discover d s).
Proof.
  apply P_still. unfold send_discover. cbv zeta. eapply still_trans; [|apply still_send].
  unfold create_msg. cbv zeta. by case_match.
Qed.
Lemma send_request_holds d s : P s -> P (send_request d s).
Proof.
  apply P_still. unfold send_request. cbv zeta. eapply still_trans; [|apply still_send].
  unfold create_msg. cbv zeta. by case_match.
Qed.
#[local] Hint Resolve send_discover_holds send_request_holds : core.
Lemma initwait_holds d s : P s -> P (goto_initwait d s).2.
Proof. intros Hs. unfold goto_initwait. pose proof (P_rand s Hs). by destruct (libc_rand s). Qed.
Lemma bound_loop_holds d s : P s -> P (bound_loop d s).2.
Proof. intros Hs. unfold bound_loop. case_match; [done|]. by apply send_request_holds. Qed.
Lemma bound_holds d s : P s -> P (goto_bound d s).2.
Proof. intros Hs. by apply bound_loop_holds, P_configured. Qed.
#[local] Hint Resolve initwait_holds bound_loop_holds bound_holds : core.
Lemma handle_dhcp_holds d s : P s -> P (handle_dhcp d s).2.
Proof.
  intros Hs. unfold handle_dhcp. destruct (pt d); repeat case_match; cbn [snd]; auto;
    first [by apply send_discover_holds; auto|by apply send_request_holds; auto].
Qed.
End frame.
