(* ===== verification/DhcpcRun.v ===== *)
(** * The DHCP exchange

    Options as a list of code and value, written and parsed; what the client
    sends; and the exchange with a server: an offer is taken up by a request for
    the address offered, the acknowledgement configures the host with what it
    says, until half of the lease has passed. *)
From S2P Require Export Dhcpc.
Local Open Scope Z_scope.

(** ** Options *)

Definition dhcp_option : Type := Z * list Z.
Definition encode (l : list dhcp_option) : list Z :=
  concat (map (fun o => fst o :: Z.of_nat (length (snd o)) :: snd o) l).

(** The bytes of the value the client reads, by code. *)
Definition value_size (c : Z) : nat :=
  if c =? DHCP_OPTION_MSG_TYPE then 1%nat
  else if (c =? DHCP_OPTION_SUBNET_MASK) || (c =? DHCP_OPTION_ROUTER) || (c =? DHCP_OPTION_DNS_SERVER)
       || (c =? DHCP_OPTION_SERVER_ID) || (c =? DHCP_OPTION_LEASE_TIME) then 4%nat
  else 0%nat.
Record option_ok (o : dhcp_option) : Prop := {
  oo_code : fst o <> DHCP_OPTION_END;
  oo_len : (value_size (fst o) <= length (snd o))%nat }.

Definition quad (v : list Z) : u8x4 := U4 (nth 0 v 0) (nth 1 v 0) (nth 2 v 0) (nth 3 v 0).
Definition addr_value (a : u8x4) : list Z := [q0 a; q1 a; q2 a; q3 a].

(** What an option means to the client. *)
Definition apply_option (o : dhcp_option) (r : Z * dhcpc_state) : Z * dhcpc_state :=
  let '(c, v) := o in let '(type, d) := r in
  if c =? DHCP_OPTION_SUBNET_MASK then (type, d <| d_netmask := quad v |>)
  else if c =? DHCP_OPTION_ROUTER then (type, d <| default_router := quad v |>)
  else if c =? DHCP_OPTION_DNS_SERVER then (type, d <| dnsaddr := quad v |>)
  else if c =? DHCP_OPTION_MSG_TYPE then (nth 0 v 0, d)
  else if c =? DHCP_OPTION_SERVER_ID then (type, d <| serverid := quad v |>)
  else if c =? DHCP_OPTION_LEASE_TIME then
    (type, d <| lease_time := (HTONS (nth 0 v 0 + 256 * nth 1 v 0), HTONS (nth 2 v 0 + 256 * nth 3 v 0)) |>)
  else (type, d).
Definition apply_options (l : list dhcp_option) (d : dhcpc_state) : Z * dhcpc_state :=
  foldl (fun r o => apply_option o r) (0, d) l.
Fixpoint first_type (l : list dhcp_option) : Z :=
  match l with
  | [] => -1
  | (c, v) :: l => if c =? DHCP_OPTION_MSG_TYPE then nth 0 v 0 else first_type l
  end.

(** The run of options at [p], with the end marker. *)
Definition options_at (b : list Z) (p : Z) (l : list dhcp_option) : Prop :=
  rds b p (length (encode l) + 1) = encode l ++ [DHCP_OPTION_END].

Lemma rds_nth b p n l k : rds b p n = l -> (k < n)%nat -> rd8 b (p + Z.of_nat k) = nth k l 0.
Proof. intros <- Hk. by rewrite nth_rds. Qed.

Lemma encode_cons c v l : encode ((c, v) :: l) = c :: Z.of_nat (length v) :: v ++ encode l.
Proof. done. Qed.
Lemma length_encode_cons c v l : length (encode ((c, v) :: l)) = (2 + length v + length (encode l))%nat.
Proof. rewrite encode_cons. cbn. by rewrite length_app. Qed.

Lemma options_cons b p c v l : options_at b p ((c, v) :: l) ->
  rd8 b p = c /\ rd8 b (p + 1) = Z.of_nat (length v) /\
  (forall k, (k < length v)%nat -> rd8 b (p + 2 + Z.of_nat k) = nth k v 0) /\
  options_at b (p + rd8 b (p + 1) + 2) l.
Proof.
  unfold options_at. rewrite length_encode_cons. intros H.
  assert (forall k, (k < 2 + length v + length (encode l) + 1)%nat ->
    rd8 b (p + Z.of_nat k) = nth k (encode ((c, v) :: l) ++ [DHCP_OPTION_END]) 0) as Hn
    by (intros; by eapply rds_nth).
  rewrite encode_cons in Hn. cbn [app] in Hn.
  assert (rd8 b p = c) as H0 by (specialize (Hn 0%nat ltac:(lia)); by rewrite Z.add_0_r in Hn).
  assert (rd8 b (p + 1) = Z.of_nat (length v)) as H1 by exact (Hn 1%nat ltac:(lia)).
  split; [done|]. split; [done|]. split.
  - intros k Hk. specialize (Hn (2 + k)%nat ltac:(lia)). replace (p + Z.of_nat (2 + k)) with (p + 2 + Z.of_nat k) in Hn by lia.
    rewrite Hn. cbn [Nat.add nth]. rewrite app_nth1 by (rewrite length_app; lia). by rewrite app_nth1.
  - rewrite H1. replace (p + Z.of_nat (length v) + 2) with (p + Z.of_nat (2 + length v)) by lia.
    replace (2 + length v + length (encode l) + 1)%nat with ((2 + length v) + (length (encode l) + 1))%nat in H by lia.
    rewrite rds_app, encode_cons in H. cbn [app] in H.
    change (c :: Z.of_nat (length v) :: (v ++ encode l) ++ [DHCP_OPTION_END])
      with ([c; Z.of_nat (length v)] ++ (v ++ encode l) ++ [DHCP_OPTION_END]) in H.
    rewrite <- app_assoc, app_assoc in H. apply app_inj_1 in H as [_ H]; [done|].
    by rewrite length_rds, length_app.
Qed.
Lemma options_nil b p : options_at b p [] -> rd8 b p = DHCP_OPTION_END.
Proof. intros H. pose proof (rds_nth _ _ _ _ 0%nat H ltac:(cbn; lia)) as Hn. by rewrite Z.add_0_r in Hn. Qed.

Lemma parse_option_apply b p c v type d : option_ok (c, v) -> rd8 b p = c ->
  (forall k, (k < length v)%nat -> rd8 b (p + 2 + Z.of_nat k) = nth k v 0) ->
  parse_option b p type d = apply_option (c, v) (type, d).
Proof.
  intros [_ Hl] Hc Hv. unfold parse_option. cbn [fst snd apply_option] in *. rewrite Hc.
  assert ((4 <= length v)%nat -> rd4 b (p + 2) = quad v /\ rd16 b (p + 2) = nth 0 v 0 + 256 * nth 1 v 0 /\
    rd16 b (p + 4) = nth 2 v 0 + 256 * nth 3 v 0) as H4.
  { intros H. pose proof (Hv 0%nat ltac:(lia)) as A0. pose proof (Hv 1%nat ltac:(lia)) as A1.
    pose proof (Hv 2%nat ltac:(lia)) as A2. pose proof (Hv 3%nat ltac:(lia)) as A3. rewrite Z.add_0_r in A0.
    unfold rd4, rd16, quad. replace (p + 4) with (p + 2 + 2) by lia.
    change (Z.of_nat 1) with 1 in A1. change (Z.of_nat 2) with 2 in A2. change (Z.of_nat 3) with 3 in A3.
    replace (p + 2 + 2 + 1) with (p + 2 + 3) by lia.
    split; [by rewrite A0, A1, A2, A3|]. by rewrite A0, A1, A2, A3. }
  unfold value_size in Hl.
  destruct (c =? DHCP_OPTION_MSG_TYPE) eqn:E4.
  { apply Z.eqb_eq in E4. subst c. pose proof (Hv 0%nat ltac:(lia)) as A0. rewrite Z.add_0_r in A0. by rewrite <- A0. }
  destruct (c =? DHCP_OPTION_SUBNET_MASK); [by destruct H4 as [-> _]|].
  destruct (c =? DHCP_OPTION_ROUTER) eqn:E2; [by destruct H4 as [-> _]|].
  destruct (c =? DHCP_OPTION_DNS_SERVER) eqn:E3; [by destruct H4 as [-> _]|].
  destruct (c =? DHCP_OPTION_SERVER_ID) eqn:E5; [by destruct H4 as [-> _]|].
  destruct (c =? DHCP_OPTION_LEASE_TIME) eqn:E6; [by destruct H4 as (_ & -> & ->)|].
  done.
Qed.

(** The parser reads what the encoder wrote. *)
Lemma parse_encode b e l : forall fuel p type d, options_at b p l -> Forall option_ok l ->
  (length l <= fuel)%nat -> p + Z.of_nat (length (encode l)) < e ->
  parse_options fuel b p e type d = Some (foldl (fun r o => apply_option o r) (type, d) l).
Proof.
  induction l as [|[c v] l IH]; intros fuel p type d Ho Hok Hf He.
  - apply options_nil in Ho. cbn in He. destruct fuel; cbn [parse_options]; rewrite Ho, Z.eqb_refl;
      by rewrite (proj2 (Z.ltb_lt p e)) by lia.
  - apply Forall_cons_iff in Hok as [Hok Hoks]. destruct (options_cons _ _ _ _ _ Ho) as (Hc & Hlen & Hv & Hrest).
    rewrite length_encode_cons in He. destruct fuel as [|fuel]; [cbn in Hf; lia|]. cbn [parse_options foldl].
    rewrite (proj2 (Z.ltb_lt p e)) by lia. rewrite (parse_option_apply b p c v type d Hok Hc Hv).
    rewrite Hc. rewrite (proj2 (Z.eqb_neq c _)) by exact (oo_code _ Hok).
    destruct (apply_option (c, v) (type, d)) as [t1 d1]. apply IH; [done|done|cbn in Hf; lia|]. rewrite Hlen. lia.
Qed.

Lemma find_encode b e l : forall fuel p, options_at b p l -> Forall option_ok l ->
  (length l < fuel)%nat -> p + Z.of_nat (length (encode l)) < e ->
  find_msg_type fuel b p e = first_type l.
Proof.
  induction l as [|[c v] l IH]; intros [|fuel] p Ho Hok Hf He; cbn in Hf; try lia; cbn [find_msg_type first_type].
  - apply options_nil in Ho. cbn in He. by rewrite Ho, (proj2 (Z.ltb_lt p e)) by lia.
  - apply Forall_cons_iff in Hok as [Hok Hoks]. destruct (options_cons _ _ _ _ _ Ho) as (Hc & Hlen & Hv & Hrest).
    rewrite length_encode_cons in He. rewrite (proj2 (Z.ltb_lt p e)) by lia. rewrite Hc.
    destruct (c =? DHCP_OPTION_MSG_TYPE) eqn:E4.
    + pose proof (oo_len _ Hok) as Hl. unfold value_size in Hl. cbn [fst snd] in Hl. rewrite E4 in Hl.
      specialize (Hv 0%nat ltac:(lia)). by rewrite Z.add_0_r in Hv.
    + rewrite (proj2 (Z.eqb_neq c _)) by exact (oo_code _ Hok). apply IH; [done|done|lia|]. rewrite Hlen. lia.
Qed.

(** ** Replies *)

(** A datagram of [len] bytes at [m] that answers the client: for its
    transaction and interface, offering [addr], with the options [l]. *)
Record dhcp_reply (d : dhcpc_state) (m len : Z) (b : list Z) (addr : u8x4) (l : list dhcp_option) : Prop := {
  rp_reply : is_reply d m b = true;
  rp_addr : rd4 b (m + DHCP.yiaddr) = addr;
  rp_options : options_at b (m + DHCP.options + 4) l;
  rp_ok : Forall option_ok l;
  rp_len : DHCP.options + 4 + Z.of_nat (length (encode l)) < len }.

(** What the client takes from it. *)
Definition learned (addr : u8x4) (l : list dhcp_option) (d : dhcpc_state) : dhcpc_state :=
  (apply_options l (d <| d_ipaddr := addr |>)).2.

Lemma length_encode l : (2 * length l <= length (encode l))%nat.
Proof.
  induction l as [|[c v] l IH]; [done|]. rewrite length_encode_cons. cbn [length]. lia.
Qed.

Section exchange.
Context {E : Type} `{DhcpcClientWf E}.
Implicit Types (s : uip_state E) (d : dhcpc_state) (b : list Z).

Lemma reply_msg d s addr l : dhcp_reply d (uip_appdata s) (uip_len s) (uip_buf s) addr l ->
  msg_for_me d s = first_type l /\ parse_msg d s = apply_options l (d <| d_ipaddr := addr |>).
Proof.
  intros [Hr Ha Ho Hok Hl]. pose proof (length_encode l). unfold DHCP.options in *. split.
  - unfold msg_for_me. cbv zeta. rewrite Hr. apply find_encode; unfold DHCP.options; try done; lia.
  - unfold parse_msg. cbv zeta. rewrite Hr, Ha.
    rewrite (parse_encode _ _ l) by (try done; unfold DHCP.options; lia). done.
Qed.

(** ** What the client sends *)

Lemma wrs_app l1 : forall i l2 b, wrs i (l1 ++ l2) b = wrs (i + Z.of_nat (length l1)) l2 (wrs i l1 b).
Proof.
  induction l1 as [|x l1 IH]; intros i l2 b; cbn [app wrs length]; [by rewrite Z.add_0_r|].
  rewrite IH. f_equal. lia.
Qed.
Lemma wr4_wrs i a b : wr4 i a b = wrs i (addr_value a) b.
Proof.
  unfold wr4, addr_value. cbn [wrs]. replace (i + 1 + 1) with (i + 2) by lia. by replace (i + 2 + 1) with (i + 3) by lia.
Qed.

(** A message of ours: the header identifies the transaction and the interface,
    the options are [l]. *)
Record dhcp_message d (m len : Z) b (l : list dhcp_option) : Prop := {
  dm_op : rd8 b (m + DHCP.op) = DHCP_REQUEST;
  dm_xid : rds b (m + DHCP.xid) 4 = xid d;
  dm_chaddr : rds b (m + DHCP.chaddr) 6 = mac_addr d;
  dm_cookie : rds b (m + DHCP.options) 4 = magic_cookie;
  dm_options : options_at b (m + DHCP.options + 4) l;
  dm_len : len = DHCP.options + 4 + Z.of_nat (length (encode l)) + 1 }.

(** What [dhcpc_init] sets up. *)
Record client_ok d : Prop := {
  ck_len : mac_len d = 6;
  ck_mac : length (mac_addr d) = 6%nat /\ bytes (mac_addr d);
  ck_xid : length (xid d) = 4%nat /\ bytes (xid d);
  ck_wf : dhcpc_wf d }.

(** Where the payload of a datagram starts. *)
Definition UDP_DATA : Z := UIP_LLH_LEN + UIP_IPUDPH_LEN.
Record callback_state s : Prop := {
  cb_wf : uip_wf s;
  cb_appdata : uip_appdata s = UDP_DATA;
  cb_sappdata : uip_sappdata s = UDP_DATA }.

Lemma create_msg_header d s : client_ok d -> callback_state s ->
  let b := uip_buf (create_msg d UDP_DATA s) in
  rd8 b (UDP_DATA + DHCP.op) = DHCP_REQUEST /\ rds b (UDP_DATA + DHCP.xid) 4 = xid d /\
  rds b (UDP_DATA + DHCP.chaddr) 6 = mac_addr d /\ rds b (UDP_DATA + DHCP.options) 4 = magic_cookie /\
  Z.of_nat (length b) = UIP_BUF_BYTES.
Proof.
  intros [Hml [Hm Hmb] [Hx Hxb] _] [Hs _ _]. pose proof (wf_buf_len s Hs) as Hlen. change UIP_BUF_BYTES with 1528 in *.
  assert (take (Z.to_nat (mac_len d)) (mac_addr d) = mac_addr d) as Ht.
  { rewrite Hml. apply take_ge. change (Z.to_nat 6) with 6%nat. lia. }
  assert (bytes magic_cookie) as Hc by (unfold magic_cookie; repeat constructor; unfold u8; lia).
  assert (bytes (replicate (4 + 4 + 4 + 16 + 64 + 128) 0)) as Hz by (apply Forall_replicate; unfold u8; lia).
  unfold create_msg. cbv zeta. rewrite Ht.
  unfold DHCP.op, DHCP.htype, DHCP.hlen, DHCP.hops, DHCP.xid, DHCP.secs, DHCP.flags, DHCP.ciaddr, DHCP.yiaddr,
    DHCP.chaddr, DHCP.options. change UDP_DATA with 42. cbn [Z.add Pos.add Pos.succ Pos.add_carry].
  assert (length (replicate (4 + 4 + 4 + 16 + 64 + 128) 0) = 220%nat) as Hzl by apply length_replicate.
  revert Hz Hzl. generalize (replicate (4 + 4 + 4 + 16 + 64 + 128) 0). intros z Hz Hzl.
  assert (length magic_cookie = 4%nat) as Hcl by done. revert Hc Hcl. generalize magic_cookie. intros k Hk Hkl.
  case_match; ssimpl; (split_and!; [runs; done|runs; done|runs; done|runs; done|autorewrite with memlen; done]).
Qed.

Definition discover_options : list dhcp_option :=
  [(DHCP_OPTION_MSG_TYPE, [DHCPDISCOVER]);
   (DHCP_OPTION_REQ_LIST, [DHCP_OPTION_SUBNET_MASK; DHCP_OPTION_ROUTER; DHCP_OPTION_DNS_SERVER])].
Definition request_options d : list dhcp_option :=
  [(DHCP_OPTION_MSG_TYPE, [DHCPREQUEST]); (DHCP_OPTION_SERVER_ID, addr_value (serverid d));
   (DHCP_OPTION_REQ_IPADDR, addr_value (d_ipaddr d))].

Lemma create_msg_rest d m s : uip_sappdata (create_msg d m s) = uip_sappdata s.
Proof. unfold create_msg. cbv zeta. by case_match. Qed.

Lemma message_written d s l : client_ok d -> callback_state s -> bytes (encode l) -> (length (encode l) < 300)%nat ->
  dhcp_message d UDP_DATA (DHCP.options + 4 + Z.of_nat (length (encode l)) + 1)
    (wrs (UDP_DATA + DHCP.options + 4) (encode l ++ [DHCP_OPTION_END]) (uip_buf (create_msg d UDP_DATA s))) l.
Proof.
  intros Hd Hs Hb Hl. destruct (create_msg_header d s Hd Hs) as (H1 & H2 & H3 & H4 & Hlen).
  change UIP_BUF_BYTES with 1528 in Hlen. cbv zeta in *.
  assert (length (encode l ++ [DHCP_OPTION_END]) = (length (encode l) + 1)%nat) as He by by rewrite length_app.
  assert (bytes (encode l ++ [DHCP_OPTION_END])) as Hbe
    by (apply Forall_app; split; [done|repeat constructor; unfold u8, DHCP_OPTION_END; lia]).
  unfold UDP_DATA, UIP_LLH_LEN, UIP_IPUDPH_LEN, DHCP.op, DHCP.xid, DHCP.chaddr, DHCP.options in *.
  constructor; unfold DHCP.op, DHCP.xid, DHCP.chaddr, DHCP.options.
  - by rewrite rd8_wrs_out by lia.
  - by rewrite rds_wrs_ne by lia.
  - by rewrite rds_wrs_ne by lia.
  - by rewrite rds_wrs_ne by lia.
  - unfold options_at. apply rds_wrs_eq; try done; lia.
  - done.
Qed.

(** A message handed to [uip_send] where its payload is. *)
Lemma send_in_place n b s : uip_sappdata s = UDP_DATA -> 0 < n < 65536 ->
  uip_send UDP_DATA n (mem (fun _ => b) s) = (mem (fun _ => b) s) <| uip_slen := n |>.
Proof.
  intros Hs Hn. unfold uip_send. rewrite (proj2 (Z.ltb_lt 0 n)) by lia. cbv zeta. ssimpl. rewrite Hs, Z.eqb_refl.
  by rewrite w16_small by (unfold u16; lia).
Qed.

Lemma send_request_message d s : client_ok d -> callback_state s ->
  dhcp_message d UDP_DATA (uip_slen (send_request d s)) (uip_buf (send_request d s)) (request_options d).
Proof.
  intros Hd Hs. unfold send_request. cbv zeta. rewrite (cb_appdata _ Hs).
  unfold add_msg_type, add_server_id, add_req_ipaddr, add_end. cbv zeta.
  rewrite send_in_place; [|by rewrite create_msg_rest; apply Hs|unfold DHCP.options; lia]. ssimpl.
  pose proof (message_written d s (request_options d) Hd Hs) as Hm.
  destruct (ck_wf _ Hd) as [_ Hsid _ Hip _ _ _].
  specialize (Hm ltac:(unfold request_options; rewrite !encode_cons; destruct Hsid as (?&?&?&?), Hip as (?&?&?&?);
    repeat constructor; unfold u8 in *; cbn; unfold DHCPREQUEST, DHCP_OPTION_MSG_TYPE, DHCP_OPTION_SERVER_ID, DHCP_OPTION_REQ_IPADDR; lia)
    ltac:(cbn; lia)).
  match goal with |- dhcp_message d UDP_DATA ?n ?b _ => match type of Hm with dhcp_message _ _ ?n' ?b' _ =>
    replace n with n'; [replace b with b'; [exact Hm|]|] end end; [|cbn; lia].
  unfold request_options. rewrite !encode_cons. cbn [app length addr_value].
  rewrite !wr4_wrs. unfold addr_value. cbn [wrs encode concat map app].
  reflexivity.
Qed.

(** ** The exchange *)

(** What parsing options leaves alone. *)
Lemma apply_options_same l : forall r, let d' := (foldl (fun r o => apply_option o r) r l).2 in
  mac_len d' = mac_len r.2 /\ mac_addr d' = mac_addr r.2 /\ xid d' = xid r.2 /\ d_ipaddr d' = d_ipaddr r.2 /\
  pt d' = pt r.2 /\ d_state d' = d_state r.2.
Proof.
  induction l as [|[c v] l IH]; intros [t d]; cbn [foldl]; [done|].
  assert (let d' := (apply_option (c, v) (t, d)).2 in mac_len d' = mac_len d /\ mac_addr d' = mac_addr d /\
    xid d' = xid d /\ d_ipaddr d' = d_ipaddr d /\ pt d' = pt d /\ d_state d' = d_state d) as H1
    by (unfold apply_option; repeat case_match; done).
  specialize (IH (apply_option (c, v) (t, d))). cbn zeta in *. naive_solver congruence.
Qed.

Lemma learned_ok d s addr l : client_ok d -> uip_wf s ->
  dhcp_reply d (uip_appdata s) (uip_len s) (uip_buf s) addr l -> client_ok (learned addr l d).
Proof.
  intros [] Hs Hr. destruct (reply_msg d s addr l Hr) as [_ Hp].
  pose proof (parse_msg_wf d s Hs ck_wf0) as Hw. rewrite Hp in Hw.
  destruct (apply_options_same l (0, d <| d_ipaddr := addr |>)) as (H1 & H2 & H3 & _). unfold learned, apply_options in *.
  constructor; rewrite ?H1, ?H2, ?H3; done.
Qed.
Lemma learned_same addr l d : d_ipaddr (learned addr l d) = addr /\ xid (learned addr l d) = xid d /\
  mac_len (learned addr l d) = mac_len d /\ mac_addr (learned addr l d) = mac_addr d.
Proof. by destruct (apply_options_same l (0, d <| d_ipaddr := addr |>)) as (? & ? & ? & ? & _). Qed.

Lemma is_reply_ext d d' m b : xid d' = xid d -> mac_len d' = mac_len d -> mac_addr d' = mac_addr d ->
  is_reply d' m b = is_reply d m b.
Proof. intros H1 H2 H3. unfold is_reply. by rewrite H1, H2, H3. Qed.
Lemma dhcp_reply_ext d d' m len b addr l : xid d' = xid d -> mac_len d' = mac_len d -> mac_addr d' = mac_addr d ->
  dhcp_reply d m len b addr l -> dhcp_reply d' m len b addr l.
Proof. intros H1 H2 H3 []. constructor; try done. by rewrite (is_reply_ext d). Qed.
Lemma dhcp_message_ext d d' m len b l : xid d' = xid d -> mac_addr d' = mac_addr d ->
  dhcp_message d' m len b l -> dhcp_message d m len b l.
Proof. intros H1 H2 []. constructor; congruence. Qed.

(** The lease granted, in seconds, and the wait for its half. *)
Definition lease_seconds d : Z := 65536 * fst (lease_time d) + snd (lease_time d).
Lemma half_lease_exact d : dhcpc_wf d -> lease_seconds d < 4294968 -> half_lease d = 500 * lease_seconds d.
Proof.
  intros Hd Hl. destruct (dw_lease d Hd) as [H1 H2]. unfold half_lease, lease_seconds in *. unfold u16, CLOCK_SECOND in *.
  rewrite (w32_small (_ * 65536)) by (unfold u32; lia). rewrite (w32_small (_ + _)) by (unfold u32; lia).
  rewrite w32_small by (unfold u32; lia).
  change MAX_TICKS32 with 4294967295. rewrite (proj2 (Z.leb_le _ _)); zdm.
Qed.

Lemma send_request_rest d s : uip_hostaddr (send_request d s) = uip_hostaddr s.
Proof.
  unfold send_request, uip_send, create_msg. cbv zeta. cbn [add_msg_type add_server_id add_req_ipaddr add_end].
  by repeat case_match.
Qed.

Lemma offer_step d s addr l : pt d = PC_DISCOVER -> client_ok d -> callback_state s -> newdata s = true ->
  dhcp_reply d UDP_DATA (uip_len s) (uip_buf s) addr l -> first_type l = DHCPOFFER ->
  let o := (learned addr l d) <| d_state := STATE_OFFER_RECEIVED |> <| ticks := CLOCK_SECOND |> in
  handle_dhcp d s = (PT_YIELD PC_REQUEST (arm (send_request o s) CLOCK_SECOND o), send_request o s).
Proof.
  intros Hpc Hd Hs Hn Hr Ht. cbv zeta. rewrite <- (cb_appdata _ Hs) in Hr. destruct (reply_msg d s addr l Hr) as [Hm Hp].
  unfold handle_dhcp. rewrite Hpc, Hn, Hm, Ht. cbn [andb Z.eqb DHCPOFFER Pos.eqb]. rewrite Hp.
  rewrite (surjective_pairing (apply_options _ _)). done.
Qed.

Lemma ack_step d s addr l : pt d = PC_REQUEST -> client_ok d -> callback_state s -> newdata s = true ->
  dhcp_reply d UDP_DATA (uip_len s) (uip_buf s) addr l -> first_type l = DHCPACK ->
  handle_dhcp d s = goto_bound ((learned addr l d) <| d_state := STATE_CONFIG_RECEIVED |>) s.
Proof.
  intros Hpc Hd Hs Hn Hr Ht. rewrite <- (cb_appdata _ Hs) in Hr. destruct (reply_msg d s addr l Hr) as [Hm Hp].
  unfold handle_dhcp. rewrite Hpc, Hn, Hm, Ht. cbn [andb Z.eqb DHCPACK Pos.eqb]. rewrite Hp.
  by rewrite (surjective_pairing (apply_options _ _)).
Qed.

Lemma bound_step d s : dhcpc_wf d -> 0 < lease_seconds d < 4294968 ->
  exists d', goto_bound d s = (d', dhcpc_configured d s) /\ pt d' = PC_BOUND /\
    d_timer d' = UipTimer (dhcpc_clock (dhcpc_configured d s)) (500 * lease_seconds d) /\ ticks d' = 0.
Proof.
  intros Hd Hl. unfold goto_bound. cbv zeta. rewrite half_lease_exact by (done || lia).
  unfold bound_loop. cbn [ticks set_field]. rewrite (proj2 (Z.ltb_lt _ _)) by lia. cbv zeta.
  assert (IMIN (500 * lease_seconds d) MAX_TICKS = 500 * lease_seconds d) as ->
    by (unfold IMIN; change MAX_TICKS with 2147483647; case_match; lia).
  eexists. split; [reflexivity|]. split; [done|]. cbn. unfold timer_set. cbn.
  rewrite s32_small, Z.sub_diag by lia. done.
Qed.

(** C9: the exchange with a server.  In the state that waits for offers, an
    offer is answered by a request that names the address offered and the
    server, for the same transaction and interface, and the host keeps its
    present address.  When that request is acknowledged, at whatever later time
    and with whatever options, the host is configured with the address, mask,
    router and server of the acknowledgement, and the client waits for exactly
    half of the lease (leases of up to 4294967 s). *)
Theorem dhcp_exchange d s addr l : pt d = PC_DISCOVER -> client_ok d -> callback_state s -> newdata s = true ->
  dhcp_reply d UDP_DATA (uip_len s) (uip_buf s) addr l -> first_type l = DHCPOFFER ->
  exists d2 s2, handle_dhcp d s = (d2, s2) /\ pt d2 = PC_REQUEST /\ uip_hostaddr s2 = uip_hostaddr s /\
  dhcp_message d UDP_DATA (uip_slen s2) (uip_buf s2)
    [(DHCP_OPTION_MSG_TYPE, [DHCPREQUEST]); (DHCP_OPTION_SERVER_ID, addr_value (serverid (learned addr l d)));
     (DHCP_OPTION_REQ_IPADDR, addr_value addr)] /\
  forall s3 addr' l', callback_state s3 -> newdata s3 = true ->
    dhcp_reply d UDP_DATA (uip_len s3) (uip_buf s3) addr' l' -> first_type l' = DHCPACK ->
    let a := (learned addr' l' d2) <| d_state := STATE_CONFIG_RECEIVED |> in
    0 < lease_seconds a < 4294968 ->
    d_ipaddr a = addr' /\
    exists d4, handle_dhcp d2 s3 = (d4, dhcpc_configured a s3) /\ pt d4 = PC_BOUND /\
    d_timer d4 = UipTimer (dhcpc_clock (dhcpc_configured a s3)) (500 * lease_seconds a).
Proof.
  intros Hpc Hd Hs Hn Hr Ht. pose proof (offer_step d s addr l Hpc Hd Hs Hn Hr Ht) as Hstep. cbv zeta in Hstep.
  rewrite <- (cb_appdata _ Hs) in Hr. pose proof (learned_ok d s addr l Hd (cb_wf _ Hs) Hr) as Hlo.
  destruct (learned_same addr l d) as (Ha & Hx & Hml & Hma).
  set (o := (learned addr l d) <| d_state := STATE_OFFER_RECEIVED |> <| ticks := CLOCK_SECOND |>) in *.
  assert (client_ok o) as Ho
    by (destruct Hlo; constructor; try done; apply ticks_wf, d_state_wf; done || apply second_u32).
  eexists _, _. split; [exact Hstep|]. split; [done|]. split; [apply send_request_rest|]. split.
  { apply (dhcp_message_ext d o); [done|done|]. pose proof (send_request_message o s Ho Hs) as Hm.
    unfold request_options in Hm. change (d_ipaddr o) with (d_ipaddr (learned addr l d)) in Hm. by rewrite Ha in Hm. }
  set (d2 := PT_YIELD PC_REQUEST _). assert (client_ok d2) as H2
    by (destruct Ho; constructor; try done; by apply yield_wf, arm_wf).
  intros s3 addr' l' Hs3 Hn3 Hr3 Ht3 a Hl.
  assert (dhcp_reply d2 UDP_DATA (uip_len s3) (uip_buf s3) addr' l') as Hr2 by by apply (dhcp_reply_ext d).
  split; [by destruct (learned_same addr' l' d2) as [? _]|].
  pose proof (ack_step d2 s3 addr' l' eq_refl H2 Hs3 Hn3 Hr2 Ht3) as Hack. fold a in Hack.
  rewrite <- (cb_appdata _ Hs3) in Hr2. pose proof (learned_ok d2 s3 addr' l' H2 (cb_wf _ Hs3) Hr2) as Hla.
  destruct (bound_step a s3) as (d4 & Hb & Hp4 & Ht4 & _); [apply d_state_wf, Hla|done|].
  exists d4. by rewrite Hack.
Qed.

(** ** No server *)

(** The state of the client when [n] waits for an offer have passed in vain. *)
Inductive unanswered : nat -> dhcpc_state -> Prop :=
| unanswered_first d s : unanswered 0 (goto_init d s).1
| unanswered_next n d s : unanswered n d -> newdata s = false -> expired d s = true ->
    unanswered (S n) (handle_dhcp d s).1.

Definition backoff (n : nat) : Z := 1000 * 2 ^ Z.of_nat (Nat.min n 6).
Lemma backoff_next n : backoff (S n) = if backoff n <? CLOCK_SECOND * 60 then backoff n * 2 else backoff n.
Proof.
  unfold backoff, CLOCK_SECOND. destruct (Nat.leb_spec n 5).
  - assert (n = 0 \/ n = 1 \/ n = 2 \/ n = 3 \/ n = 4 \/ n = 5)%nat as Hn by lia.
    by destruct Hn as [->|[->|[->|[->|[->| ->]]]]].
  - by rewrite !Nat.min_r by lia.
Qed.
Lemma backoff_range n : 1000 <= backoff n <= 64000.
Proof.
  unfold backoff. assert (Nat.min n 6 <= 6)%nat by lia. generalize dependent (Nat.min n 6). intros k Hk.
  assert (1 <= 2 ^ Z.of_nat k <= 2 ^ 6) by (split; [apply (Z.pow_le_mono_r 2 0)|apply Z.pow_le_mono_r]; lia). lia.
Qed.
Lemma backoff_4 n : (backoff n =? CLOCK_SECOND * 4) = bool_decide (n = 2%nat).
Proof.
  destruct (Nat.leb_spec n 5).
  - assert (n = 0 \/ n = 1 \/ n = 2 \/ n = 3 \/ n = 4 \/ n = 5)%nat as Hn by lia.
    by destruct Hn as [->|[->|[->|[->|[->| ->]]]]].
  - rewrite bool_decide_false by lia. unfold backoff. by rewrite Nat.min_r by lia.
Qed.

(** The wait under way, and the step when it is over. *)
Definition waiting n d : Prop := pt d = PC_DISCOVER /\ ticks d = backoff n /\ interval (d_timer d) = backoff n.
Lemma discover_waiting n d s : ticks d = backoff n -> waiting n (discover_loop d s).1.
Proof.
  intros Ht. split; [done|]. split; [done|]. unfold discover_loop, arm. cbn. rewrite Ht.
  pose proof (backoff_range n). apply s32_small. lia.
Qed.
Lemma timeout_step n d s : waiting n d -> newdata s = false -> expired d s = true ->
  exists d1, ticks d1 = backoff (S n) /\
  handle_dhcp d s = discover_loop d1 (if bool_decide (n = 2%nat) then dhcpc_autoip_start s else s).
Proof.
  intros (Hpc & Ht & _) Hn He. unfold handle_dhcp. rewrite Hpc, Hn, He. cbn [andb]. rewrite Ht, backoff_4.
  eexists. split; [|reflexivity]. rewrite backoff_next. pose proof (backoff_range n).
  case_match; [|done]. cbn. rewrite Ht. apply w32_small. unfold u32. lia.
Qed.
Lemma unanswered_waiting n d : unanswered n d -> waiting n d.
Proof.
  induction 1 as [d s|n d s _ IH Hn He]; [by apply discover_waiting|].
  destruct (timeout_step n d s IH Hn He) as (d1 & Ht & ->). by apply discover_waiting.
Qed.

(** C37: without an answer the client asks again and again: the waits double from
    1 s to 64 s and stay there, each timeout sends a new DISCOVER, and
    link-local configuration is started at the third one (7 s) and at no
    other. *)
Theorem dhcp_backoff n d s : unanswered n d -> newdata s = false -> expired d s = true ->
  pt d = PC_DISCOVER /\ interval (d_timer d) = 1000 * 2 ^ Z.of_nat (Nat.min n 6) /\
  exists d', handle_dhcp d s = (d', send_discover d' (if bool_decide (n = 2%nat) then dhcpc_autoip_start s else s)).
Proof.
  intros Hu Hn He. pose proof (unanswered_waiting n d Hu) as Hw.
  destruct (timeout_step n d s Hw Hn He) as (d1 & _ & Hs). destruct Hw as (Hpc & _ & Hi).
  split; [done|]. split; [done|]. rewrite Hs.
  set (s1 := if bool_decide _ then _ else s). exists (discover_loop d1 s1).1.
  unfold discover_loop. cbv zeta. cbn [fst]. f_equal.
Qed.
End exchange.
