(* ===== verification/Igmp.v ===== *)
(** * Multicast group membership: [igmp.c]

    The module's statics are the ten group records, the counter of its own
    packets and two constant addresses.  The packets have a 24-byte IP header
    (the router alert option) and an 8-byte IGMP message. *)
From S2P Require Export ArpFrames AutoIP.
Local Open Scope Z_scope.

Definition UNSOLICITED_REPORT_INTERVAL : Z := 10.
Definition MAX_IGMP_GROUPS : nat := 10.
Definition IGMP_MEMBERSHIP_QUERY : Z := 0x11.
Definition IGMP_MEMBERSHIP_REPORT : Z := 0x16.
Definition IGMP_LEAVE_GROUP : Z := 0x17.
Definition PROTO_IGMP : Z := 0x02.

Inductive igmp_state_t : Set :=
| NON_MEMBER | PENDING_JOIN | DELAYED_MEMBER | IDLE_MEMBER | PENDING_LEAVE.
#[export] Instance igmp_state_eq_dec : EqDecision igmp_state_t.
Proof. solve_decision. Defined.

Record igmp_group_state_t : Type := IgmpGroup {
  g_state : igmp_state_t;
  g_addr : u8x4;
  g_flag : Z;
  g_timer : uip_timer }.
#[export] Instance eta_igmp_group : Eta igmp_group_state_t := fun r =>
  IgmpGroup r.(g_state) r.(g_addr) r.(g_flag) r.(g_timer).

(** The statics of the file. *)
Record igmp_state : Type := IgmpState {
  groups : list igmp_group_state_t;
  igmp_ipid : Z;
  allgroups_ipaddr : u8x4;
  leavegroup_ipaddr : u8x4 }.
#[export] Instance eta_igmp_state : Eta igmp_state := fun r =>
  IgmpState r.(groups) r.(igmp_ipid) r.(allgroups_ipaddr) r.(leavegroup_ipaddr).
Definition initial_igmp : igmp_state :=
  IgmpState (replicate MAX_IGMP_GROUPS (IgmpGroup NON_MEMBER zero4 0 (UipTimer 0 0))) 0 zero4 zero4.

(** [struct ip_options_t] and [struct igmp_msg_t] behind the IP header. *)
Module IGMPBUF.
Definition options : Z := 34.
Definition msgtype : Z := 38.
Definition max_response : Z := 39.
Definition checksum : Z := 40.
Definition addr : Z := 42.
Definition size : Z := 46.
End IGMPBUF.

Definition igmp_init (m : igmp_state) : igmp_state :=
  let m := m <| groups ::= map (fun g => g <| g_state := NON_MEMBER |>) |> in
  let m := m <| allgroups_ipaddr := uip_ipaddr 224 0 0 1 |> in
  m <| leavegroup_ipaddr := uip_ipaddr 224 0 0 2 |>.

Definition is_member (g : igmp_group_state_t) (st : igmp_state_t) : bool :=
  bool_decide (g_state g = st).

Section igmp.
Context {E : Type}.
Implicit Types (s : uip_state E) (m : igmp_state).

Definition create_igmp_msg (msgtype : Z) (dest_addr group_addr : u8x4) m s : igmp_state * uip_state E :=
  let s := s <| uip_len := IGMPBUF.size |> in
  let s := mem (wrs ARP.dest (multicast_ethaddr dest_addr)) s in
  let s := mem (wrs ARP.src (uip_ethaddr s)) s in
  let s := mem (wr4 BUF.destipaddr dest_addr) s in
  let s := mem (wr4 BUF.srcipaddr (uip_hostaddr s)) s in
  let s := mem (wr16 ARP.type (HTONS UIP_ETHTYPE_IP)) s in
  let s := mem (wr8 BUF.vhl 0x46) s in
  let s := mem (wr8 BUF.tos 0) s in
  let s := mem (wr8 BUF.len (Z.shiftr 32 8)) s in
  let s := mem (wr8 (BUF.len + 1) (Z.land 32 0xff)) s in
  let s := mem (wr8 BUF.ipid (Z.shiftr (igmp_ipid m) 8)) s in
  let s := mem (wr8 (BUF.ipid + 1) (Z.land (igmp_ipid m) 0xff)) s in
  let m := m <| igmp_ipid ::= fun i => w16 (i + 1) |> in
  let s := mem (wr8 (BUF.ipoffset + 1) 0) s in
  let s := mem (wr8 BUF.ipoffset 0) s in
  let s := mem (wr8 BUF.ttl 1) s in
  let s := mem (wr8 BUF.proto PROTO_IGMP) s in
  let s := mem (wr16 BUF.ipchksum 0) s in
  let s := mem (wrs IGMPBUF.options [0x94; 0x04; 0x00; 0x00]) s in
  let checksum := uip_chksum (uip_buf s) UIP_LLH_LEN (UIP_IPH_LEN + 4) in
  let checksum := if checksum =? 0 then 0xffff else checksum in
  let s := mem (wr16 BUF.ipchksum (w16 (Z.lnot checksum))) s in
  let s := mem (wr8 IGMPBUF.msgtype msgtype) s in
  let s := mem (wr8 IGMPBUF.max_response 0) s in
  let checksum := rd8 (uip_buf s) IGMPBUF.msgtype in
  let checksum := w16 (checksum + word0 group_addr) in
  let checksum := w16 (checksum + word1 group_addr) in
  let s := mem (wr16 IGMPBUF.checksum (w16 (Z.lnot checksum))) s in
  (m, mem (wr4 IGMPBUF.addr group_addr) s).

Definition send_membership_report (g : igmp_group_state_t) m s : igmp_state * uip_state E :=
  create_igmp_msg IGMP_MEMBERSHIP_REPORT (g_addr g) (g_addr g) m s.
Definition send_leave_group (g : igmp_group_state_t) m s : igmp_state * uip_state E :=
  create_igmp_msg IGMP_LEAVE_GROUP (leavegroup_ipaddr m) (g_addr g) m s.

(** The group record is [groups[i]]. *)
Definition igmp_group_periodic (now : Z) (i : nat) m s : igmp_state * uip_state E :=
  let upd f m := m <| groups ::= alter f i |> in
  match groups m !! i with
  | None => (m, s)
  | Some g =>
      match g_state g with
      | NON_MEMBER | IDLE_MEMBER => (m, s)
      | PENDING_JOIN =>
          let '(m, s) := send_membership_report g m s in
          let m := upd (fun g => g <| g_flag := 1 |>) m in
          let m := upd (fun g => g <| g_state := DELAYED_MEMBER |>) m in
          (upd (fun g => g <| g_timer ::= timer_set now (UNSOLICITED_REPORT_INTERVAL * CLOCK_SECOND) |>) m, s)
      | DELAYED_MEMBER =>
          if timer_expired now (g_timer g) then
            let '(m, s) := send_membership_report g m s in
            let m := upd (fun g => g <| g_flag := 1 |>) m in
            (upd (fun g => g <| g_state := IDLE_MEMBER |>) m, s)
          else (m, s)
      | PENDING_LEAVE =>
          let '(m, s) := if negb (g_flag g =? 0) then send_leave_group g m s else (m, s) in
          (upd (fun g => g <| g_state := NON_MEMBER |>) m, s)
      end
  end.

(** The loop from group [i], [n] groups to go. *)
Fixpoint igmp_periodic_from (now : Z) (n i : nat) m s : igmp_state * uip_state E :=
  match n with
  | O => (m, s)
  | S n =>
      let '(m, s) := igmp_group_periodic now i m s in
      if 0 <? uip_len s then (m, s) else igmp_periodic_from now n (S i) m s
  end.
Definition igmp_periodic (now : Z) m s : igmp_state * uip_state E :=
  igmp_periodic_from now MAX_IGMP_GROUPS 0 m s.

(** [~chksum] is computed in [int]. *)
Definition igmp_checksum_valid s : bool :=
  let b := uip_buf s in
  let chksum := w16 (Z.lor (Z.shiftl (rd8 b IGMPBUF.max_response) 8) (rd8 b IGMPBUF.msgtype)) in
  let chksum := w16 (chksum + rd16 b IGMPBUF.addr) in
  let chksum := w16 (chksum + rd16 b (IGMPBUF.addr + 2)) in
  rd16 b IGMPBUF.checksum =? Z.lnot chksum.

Definition igmp_in (now : Z) m s : igmp_state * uip_state E :=
  let b := uip_buf s in
  let addr := rd4 b IGMPBUF.addr in
  let msgtype := rd8 b IGMPBUF.msgtype in
  let m :=
    if msgtype =? IGMP_MEMBERSHIP_QUERY then
      let to_all_groups := uip_ipaddr_cmp addr (allgroups_ipaddr m) in
      if igmp_checksum_valid s then
        m <| groups ::= map (fun g =>
          if (is_member g IDLE_MEMBER || is_member g DELAYED_MEMBER)
             && (to_all_groups || uip_ipaddr_cmp addr (g_addr g))
          then (g <| g_state := DELAYED_MEMBER |>)
                 <| g_timer ::= timer_set now (Z.shiftr (rd8 b IGMPBUF.max_response) 5 * CLOCK_SECOND) |>
          else g) |>
      else m
    else if msgtype =? IGMP_MEMBERSHIP_REPORT then
      if igmp_checksum_valid s then
        m <| groups ::= map (fun g =>
          if is_member g DELAYED_MEMBER && uip_ipaddr_cmp addr (g_addr g)
          then (g <| g_state := IDLE_MEMBER |>) <| g_flag := 0 |>
          else g) |>
      else m
    else m in
  (m, s <| uip_len := 0 |>).
End igmp.

Definition igmp_join_group (addr : u8x4) (m : igmp_state) : igmp_state :=
  match find_index (fun g => is_member g NON_MEMBER) (groups m) with
  | None => m
  | Some i => m <| groups ::= alter (fun g => (g <| g_addr := addr |>) <| g_state := PENDING_JOIN |>) i |>
  end.

(** The conjunction with the address binds to the second state only. *)
Definition listens (addr : u8x4) (g : igmp_group_state_t) : bool :=
  is_member g IDLE_MEMBER || (is_member g DELAYED_MEMBER && uip_ipaddr_cmp addr (g_addr g)).

Definition igmp_leave_group (addr : u8x4) (m : igmp_state) : igmp_state :=
  m <| groups ::= map (fun g => if listens addr g then g <| g_state := PENDING_LEAVE |> else g) |>.

Definition igmp_check_addr (addr : u8x4) (m : igmp_state) : bool := existsb (listens addr) (groups m).

(** ** Incoming messages *)

Section incoming.
Context {E : Type}.
Implicit Types (s : uip_state E) (m : igmp_state).

Lemma checksum_never_valid s : bytes (uip_buf s) -> igmp_checksum_valid s = false.
Proof.
  intros Hb. unfold igmp_checksum_valid. cbv zeta. apply Z.eqb_neq.
  pose proof (rd16_u16 (uip_buf s) IGMPBUF.checksum Hb) as H.
  set (c := w16 (_ + rd16 _ (IGMPBUF.addr + 2))). pose proof (w16_u16 (c)) as Hc.
  assert (u16 c) by apply w16_u16. unfold Z.lnot, u16 in *. lia.
Qed.

(** No incoming IGMP message has any effect.  The check of the message
    checksum compares a 16-bit value with the complement of another computed in
    [int], which is negative, so it always fails: membership queries are never
    answered and reports of other hosts never recognised, whatever they
    contain. *)
Theorem igmp_in_inert now m s : bytes (uip_buf s) -> igmp_in now m s = (m, s <| uip_len := 0 |>).
Proof.
  intros Hb. unfold igmp_in. cbv zeta. rewrite checksum_never_valid by done. by repeat case_match.
Qed.
End incoming.

(** ** Outgoing messages *)

Section outgoing.
Context {E : Type}.
Implicit Types (s : uip_state E) (m : igmp_state).

(** The IP header of a message, its checksum still zero. *)
Definition igmp_header (dest : u8x4) (ipid : Z) s : list Z :=
  wrs 34 [0x94; 0x04; 0x00; 0x00] (wr16 24 0 (wr8 23 PROTO_IGMP (wr8 22 1 (wr8 20 0 (wr8 (20 + 1) 0
    (wr8 (18 + 1) (Z.land ipid 0xff) (wr8 18 (Z.shiftr ipid 8) (wr8 (16 + 1) (Z.land 32 0xff)
    (wr8 16 (Z.shiftr 32 8) (wr8 15 0 (wr8 14 0x46 (wr16 12 (HTONS UIP_ETHTYPE_IP)
    (wr4 26 (uip_hostaddr s) (wr4 30 dest (wrs 6 (uip_ethaddr s) (wrs 0 (multicast_ethaddr dest)
      (uip_buf s))))))))))))))))).

Definition igmp_message (t : Z) (grp : u8x4) (h : list Z) : list Z :=
  let c := uip_chksum h 14 24 in
  let b := wr8 39 0 (wr8 38 t (wr16 24 (w16 (Z.lnot (if c =? 0 then 0xffff else c))) h)) in
  let sum := w16 (w16 (rd8 b 38 + word0 grp) + word1 grp) in
  wr4 42 grp (wr16 40 (w16 (Z.lnot sum)) b).

Lemma create_igmp_msg_buf t dest grp m s :
  uip_buf (create_igmp_msg t dest grp m s).2 = igmp_message t grp (igmp_header dest (igmp_ipid m) s) /\
  uip_len (create_igmp_msg t dest grp m s).2 = 46.
Proof. split; reflexivity. Qed.

Lemma igmp_header_ok dest ipid s : uip_wf s -> u8x4_ok dest -> u16 ipid ->
  let h := igmp_header dest ipid s in
  bytes h /\ length h = length (uip_buf s) /\
  eth_header h = (multicast_ethaddr dest, uip_ethaddr s, HTONS UIP_ETHTYPE_IP) /\
  rd8 h 14 = 0x46 /\ ip_length h = 32 /\ rd8 h 22 = 1 /\ rd8 h 23 = PROTO_IGMP /\
  rd16 h 24 = 0 /\ rd4 h 26 = uip_hostaddr s /\ rd4 h 30 = dest /\ rds h 34 4 = [0x94; 0x04; 0x00; 0x00].
Proof.
  intros Hs Hd Hi h. pose proof (buf_len s Hs). pose proof (wf_buf s Hs). pose proof (wf_hostaddr s Hs).
  pose proof (wf_ethaddr s Hs). pose proof (wf_ethaddr_len s Hs) as Hel.
  pose proof (multicast_bytes dest Hd) as Hmb.
  assert (length (multicast_ethaddr dest) = 6%nat) as Hml by done.
  assert (bytes [0x94; 0x04; 0x00; 0x00]) by (repeat constructor; unfold u8; lia).
  subst h. unfold igmp_header, PROTO_IGMP. split_and!.
  - auto 30 with mem.
  - by autorewrite with memlen.
  - unfold eth_header. arp_offsets. runs. by rewrite w16_small by apply HTONS_u16.
  - runs. done.
  - unfold ip_length, BUF.len. runs. done.
  - runs. done.
  - runs. done.
  - runs. done.
  - runs. done.
  - runs. done.
  - runs. done.
Qed.

Lemma uip_chksum_ones b p n : bytes b -> u16 n -> uip_chksum b p n = HTONS (ones (wsum (Z.to_nat n) b p 0)).
Proof. intros. unfold uip_chksum, htons. by rewrite chksum_ones by (done || (unfold u16; lia)). Qed.

Lemma uip_chksum_ffff b p n : bytes b -> u16 n -> uip_chksum b p n = 0xffff <->
  ones (wsum (Z.to_nat n) b p 0) = 65535.
Proof.
  intros Hb Hn. rewrite uip_chksum_ones by done.
  pose proof (ones_range _ (wsum_nonneg (Z.to_nat n) b Hb p 0)).
  rewrite HTONS_swap by (unfold u16; lia). zdm.
Qed.

(** The header checksum is right. *)
Lemma igmp_header_sum h : bytes h -> 64 <= Z.of_nat (length h) -> rd16 h 24 = 0 ->
  let c := uip_chksum h 14 24 in
  0 < wsum 24 h 14 0 ->
  uip_chksum (wr16 24 (w16 (Z.lnot (if c =? 0 then 0xffff else c))) h) 14 24 = 0xffff.
Proof.
  intros Hb Hl Hz c Hpos. apply uip_chksum_ffff; [auto with mem|unfold u16; lia|].
  change (Z.to_nat 24) with 24%nat. rewrite wsum_wr16 by (done || lia).
  pose proof (rd8_u8 h 24 Hb). pose proof (rd8_u8 h (24 + 1) Hb).
  assert (rd8 h 24 = 0 /\ rd8 h (24 + 1) = 0) as [-> ->] by (unfold rd16, u8 in *; lia).
  rewrite Z.mul_0_r, Z.add_0_r, Z.sub_0_r.
  assert ((if c =? 0 then 0xffff else c) = fold_sum (ones (wsum 24 h 14 0))) as ->.
  { subst c. rewrite uip_chksum_ones by (done || (unfold u16; lia)). change (Z.to_nat 24) with 24%nat.
    pose proof (ones_range _ (Z.lt_le_incl _ _ Hpos)).
    assert (ones (wsum 24 h 14 0) <> 0) as Hne by (rewrite ones_0; lia).
    unfold fold_sum, htons. rewrite (proj2 (Z.eqb_neq (ones _) 0)) by done.
    rewrite (proj2 (Z.eqb_neq (HTONS _) 0)); [done|]. rewrite HTONS_swap by (unfold u16; lia). zdm. }
  pose proof (ones_patch (wsum 24 h 14 0) _ ltac:(lia) eq_refl) as Hp.
  set (v := w16 (Z.lnot _)) in *.
  set (x := wsum 24 h 14 0 + _) in *.
  assert (0 < x) by (subst x; pose proof (w16_u16 v); unfold u16 in *; zdm).
  apply fold_sum_ffff in Hp as [Hp|Hp]; [rewrite ones_0 in Hp; lia|done|].
  pose proof (ones_range x ltac:(lia)). unfold u16. lia.
Qed.

(** The message checksum is right when the 16-bit sum has not overflowed. *)
Lemma igmp_message_sum t grp : u8 t -> u8x4_ok grp ->
  let v := w16 (Z.lnot (w16 (w16 (t + word0 grp) + word1 grp))) in
  ones (256 * t + (256 * (v mod 256) + v / 256) + addr_sum grp) = 65535
  <-> t + word0 grp + word1 grp < 65536.
Proof.
  intros Ht (H0 & H1 & H2 & H3) v. unfold word0, word1, addr_sum in *.
  destruct grp as [a b c d]. cbn [q0 q1 q2 q3] in *. unfold u8 in *.
  set (T := t + (a + 256 * b) + (c + 256 * d)).
  assert (v = 65535 - T mod 65536) as Hv.
  { subst v T. rewrite w16_lnot by apply w16_u16. f_equal. unfold w16.
    by rewrite Zplus_mod_idemp_l. }
  assert (0 <= T / 65536 <= 2) by (subst T; zdm).
  assert (0 <= T mod 65536 < 65536 /\ T = 65536 * (T / 65536) + T mod 65536) as [? ?] by (split; zdm).
  set (x := 256 * t + _ + _).
  (* modulo 65535 the big-endian sum is 256 times the little-endian one *)
  assert (exists k, x = 256 * (T / 65536) + k * 65535 /\ 0 < x) as (k & Hx & Hp).
  { assert (v = 256 * (v / 256) + v mod 256 /\ 0 <= v mod 256 < 256) as [Hv2 ?] by (split; zdm).
    exists (256 + 256 * (T / 65536) - v / 256 - b - d). subst x. subst T. split; [|].
    - rewrite Hv in *. lia.
    - zdm. }
  unfold ones. rewrite (proj2 (Z.eqb_neq x 0)) by lia. split.
  - intros Hx2. assert (T / 65536 = 0); [|zdm]. assert ((x - 1) mod 65535 = 65534) as Hm by lia. zdm.
  - intros Hlt. assert (T / 65536 = 0) as Hq by (apply Z.div_small; lia). rewrite Hq in Hx. zdm.
Qed.

Lemma wsum_8 b : wsum 8 b 38 0 = 256 * rd8 b 38 + rd8 b 39 + (256 * rd8 b 40 + rd8 b 41) +
  (256 * rd8 b 42 + rd8 b 43 + (256 * rd8 b 44 + rd8 b 45)).
Proof.
  transitivity (256 * rd8 b 38 + (1 * rd8 b 39 + (256 * rd8 b 40 + (1 * rd8 b 41 +
    (256 * rd8 b 42 + (1 * rd8 b 43 + (256 * rd8 b 44 + (1 * rd8 b 45 + 0)))))))); [reflexivity|lia].
Qed.

(** The messages sent.  A report or leave message is a complete frame: the
    Ethernet header of the group, an IP header of 24 bytes with the router alert
    option and a checksum the receiver accepts, and the IGMP message with its
    type and group.  The checksum of the message is right exactly when the sum
    of its type and the two halves of the group address fits in 16 bits, since
    the code drops the carry: 224.0.0.251 is reported correctly, 239.255.255.250
    is not. *)
Theorem igmp_message_valid t dest grp m s : uip_wf s -> u8x4_ok dest -> u8x4_ok grp ->
  u16 (igmp_ipid m) -> u8 t ->
  let r := create_igmp_msg t dest grp m s in
  let b := uip_buf r.2 in
  uip_len r.2 = IGMPBUF.size /\
  eth_header b = (multicast_ethaddr dest, uip_ethaddr s, HTONS UIP_ETHTYPE_IP) /\
  rd8 b BUF.vhl = 0x46 /\ ip_length b = 32 /\ rd8 b BUF.ttl = 1 /\ rd8 b BUF.proto = PROTO_IGMP /\
  rd4 b BUF.srcipaddr = uip_hostaddr s /\ rd4 b BUF.destipaddr = dest /\
  rds b IGMPBUF.options 4 = [0x94; 0x04; 0x00; 0x00] /\ uip_chksum b UIP_LLH_LEN 24 = 0xffff /\
  rd8 b IGMPBUF.msgtype = t /\ rd4 b IGMPBUF.addr = grp /\
  (uip_chksum b IGMPBUF.msgtype 8 = 0xffff <-> t + word0 grp + word1 grp < 65536).
Proof.
  intros Hs Hd Hg Hi Ht r b. destruct (create_igmp_msg_buf t dest grp m s) as [Hb Hlen].
  destruct (igmp_header_ok dest (igmp_ipid m) s Hs Hd Hi)
    as (Hhb & Hhl & Heth & Hvhl & Hipl & Httl & Hpr & Hck & Hsrc & Hdst & Hopt).
  fold r b in Hb, Hlen. rewrite Hb. clearbody r b. clear b Hb.
  set (h := igmp_header dest (igmp_ipid m) s) in *. clearbody h.
  pose proof (buf_len s Hs) as Hl. rewrite <- Hhl in Hl.
  unfold igmp_message. set (v := w16 (Z.lnot (if _ =? 0 then _ else _))).
  assert (rd8 (wr8 39 0 (wr8 38 t (wr16 24 v h))) 38 = t) as ->.
  { fld. by apply w8_small. }
  unfold IGMPBUF.options, IGMPBUF.msgtype, IGMPBUF.addr, BUF.vhl, BUF.ttl, BUF.proto, BUF.srcipaddr,
    BUF.destipaddr, UIP_LLH_LEN, ip_length, BUF.len in *.
  unfold eth_header, ARP.dest, ARP.src, ARP.type in *.
  split_and!; [done|runs; done|fld; done|fld; done|fld; done|fld; done|fld; done|fld; done|runs; done
    | | fld; by apply w8_small|fld; done|].
  - rewrite <- (igmp_header_sum h Hhb Hl Hck).
    + fold v. rewrite !uip_chksum_ones by (auto 10 with mem || (unfold u16; lia)). do 2 f_equal.
      apply wsum_ext. intros j Hj. by fld.
    + change (wsum 24 h 14 0) with (256 * rd8 h 14 + wsum 23 h 14 1). rewrite Hvhl.
      pose proof (wsum_nonneg 23 h Hhb 14 1). lia.
  - rewrite uip_chksum_ffff by (auto 10 with mem || (unfold u16; lia)).
    rewrite <- (igmp_message_sum t grp Ht Hg). set (c := w16 (Z.lnot _)).
    set (b := wr4 42 grp _). change (Z.to_nat 8) with 8%nat.
    assert (rd8 b 38 = t /\ rd8 b 39 = 0 /\ rd16 b 40 = c /\ rd4 b 42 = grp) as (E1 & E2 & E3 & E4).
    { subst b. split_and!; fld; [by apply w8_small|done|apply w16_small, w16_u16|done]. }
    rewrite wsum_8. rewrite E1, E2. f_equiv. f_equiv.
    assert (bytes b) as Hbb by (subst b; auto 10 with mem).
    pose proof (rd8_u8 b 40 Hbb). pose proof (rd8_u8 b 41 Hbb). unfold rd16 in E3. change (40 + 1) with 41 in E3.
    rewrite <- E4, <- E3. unfold addr_sum, rd4. cbn [q0 q1 q2 q3].
    change (42 + 1) with 43. change (42 + 2) with 44. change (42 + 3) with 45. unfold u8 in *. zdm.
Qed.
End outgoing.
