(* ===== verification/Buffered.v ===== *)
(** * The buffered client API: [xtcp_buffered_client.c]

    A client reads messages out of the stream of received packets, and queues
    data that the server asks for one packet at a time.  Pointers are addresses
    in the client's memory, a byte list; the calls to the server
    ([xtcp_client.xc]) are a log, and the packet that [xtcp_recv] delivers is an
    argument of the receiving operations. *)
From S2P Require Export UipState.
Local Open Scope Z_scope.

Record xtcp_bufinfo_t : Type := XtcpBufinfo {
  rx_new_event : Z;
  rx_buf : Z; rx_end : Z; rx_wrptr : Z; rx_rdptr : Z;
  tx_buf : Z; tx_end : Z; tx_wrptr : Z; tx_rdptr : Z; tx_prev_rdptr : Z;
  tx_lowmark : Z }.
#[export] Instance eta_bufinfo : Eta xtcp_bufinfo_t := fun r =>
  XtcpBufinfo r.(rx_new_event) r.(rx_buf) r.(rx_end) r.(rx_wrptr) r.(rx_rdptr)
    r.(tx_buf) r.(tx_end) r.(tx_wrptr) r.(tx_rdptr) r.(tx_prev_rdptr) r.(tx_lowmark).

(** Requests to the server. *)
Inductive xtcp_call : Type :=
| Xtcp_init_send | Xtcp_pause | Xtcp_unpause | Xtcp_send (data : list Z).

Definition memmove (dst src n : Z) (h : list Z) : list Z := wrs dst (rds h src (Z.to_nat n)) h.

Definition xtcp_buffered_set_rx_buffer (buf buflen : Z) (b : xtcp_bufinfo_t) : xtcp_bufinfo_t :=
  let b := b <| rx_new_event := 1 |> in
  let b := b <| rx_buf := buf |> in
  let b := b <| rx_end := buf + buflen |> in
  let b := b <| rx_wrptr := buf |> in
  b <| rx_rdptr := buf |>.

Definition xtcp_buffered_set_tx_buffer (buf buflen lowmark : Z) (b : xtcp_bufinfo_t) : xtcp_bufinfo_t :=
  let b := b <| tx_buf := buf |> in
  let b := b <| tx_end := buf + buflen |> in
  let b := b <| tx_rdptr := buf |> in
  let b := b <| tx_prev_rdptr := buf |> in
  let b := b <| tx_wrptr := buf |> in
  b <| tx_lowmark := lowmark |>.

(** ** Receiving

    A receiving call returns a length, the pointer it stores in [*buf] and
    whether it sets [*overflow]. *)
Record recv_result : Type := RecvResult { ret_len : Z; ret_buf : option Z; ret_overflow : bool }.

(** [if (bufinfo->rx_new_event) { ... }]: fetch the packet announced. *)
Definition fetch (pkt : list Z) (b : xtcp_bufinfo_t) (h : list Z) : xtcp_bufinfo_t * list Z :=
  if negb (rx_new_event b =? 0) then
    let h := wrs (rx_wrptr b) pkt h in
    let len := Z.of_nat (length pkt) in
    let b := b <| rx_wrptr ::= fun p => p + len |> in
    (b <| rx_new_event := 0 |>, h)
  else (b, h).

(** "This is the end of the current recv event." *)
Definition end_of_event (b : xtcp_bufinfo_t) (h : list Z) : recv_result * xtcp_bufinfo_t * list Z :=
  let remaining := rx_wrptr b - rx_rdptr b in
  let h := memmove (rx_buf b) (rx_rdptr b) remaining h in
  let b := b <| rx_rdptr := rx_buf b |> in
  let b := b <| rx_wrptr := rx_buf b + remaining |> in
  let space_left := rx_end b - rx_wrptr b in
  if space_left <? XTCP_CLIENT_BUF_SIZE then
    let b := b <| rx_wrptr := rx_buf b |> in
    let b := b <| rx_rdptr := rx_wrptr b |> in
    (RecvResult remaining (Some (rx_buf b)) true, b, h)
  else
    (RecvResult 0 None false, b <| rx_new_event := 1 |>, h).

Definition xtcp_buffered_recv_upto (pkt : list Z) (delim : Z) (b : xtcp_bufinfo_t) (h : list Z)
    : recv_result * xtcp_bufinfo_t * list Z :=
  let '(b, h) := fetch pkt b h in
  match find_index (fun c => c =? delim) (rds h (rx_rdptr b) (Z.to_nat (rx_wrptr b - rx_rdptr b))) with
  | None => end_of_event b h
  | Some i =>
      let len := Z.of_nat i + 1 in
      (RecvResult len (Some (rx_rdptr b)) false, b <| rx_rdptr ::= fun p => p + len |>, h)
  end.

Definition xtcp_buffered_recv (pkt : list Z) (len : Z) (b : xtcp_bufinfo_t) (h : list Z)
    : recv_result * xtcp_bufinfo_t * list Z :=
  let '(b, h) := fetch pkt b h in
  if rx_wrptr b - rx_rdptr b <? len then end_of_event b h
  else (RecvResult len (Some (rx_rdptr b)) false, b <| rx_rdptr ::= fun p => p + len |>, h).

(** ** Sending *)

(** The data of the call is [data], [len] bytes; the calls made are returned. *)
Definition xtcp_buffered_send (data : list Z) (b : xtcp_bufinfo_t) (h : list Z)
    : Z * xtcp_bufinfo_t * list Z * list xtcp_call :=
  let len := Z.of_nat (length data) in
  let space_left := tx_end b - tx_wrptr b in
  let '(b, h, space_left) :=
    if space_left <? len then
      let remaining := tx_wrptr b - tx_prev_rdptr b in
      let shift := tx_prev_rdptr b - tx_buf b in
      let h := memmove (tx_buf b) (tx_prev_rdptr b) remaining h in
      let b := b <| tx_prev_rdptr ::= fun p => p - shift |> in
      let b := b <| tx_rdptr ::= fun p => p - shift |> in
      let b := b <| tx_wrptr ::= fun p => p - shift |> in
      (b, h, space_left + shift)
    else (b, h, space_left) in
  if space_left <? len then (0, b, h, [])
  else
    let h := wrs (tx_wrptr b) data h in
    let calls := if tx_rdptr b =? tx_wrptr b then [Xtcp_init_send] else [] in
    let b := b <| tx_wrptr ::= fun p => p + len |> in
    let space_left := space_left - len in
    let space_left := space_left + (tx_prev_rdptr b - tx_buf b) in
    let calls := if space_left <? tx_lowmark b then calls ++ [Xtcp_pause] else calls in
    (1, b, h, calls).

Definition xtcp_buffered_send_handler (conn : xtcp_connection_t) (b : xtcp_bufinfo_t) (h : list Z)
    : xtcp_bufinfo_t * list xtcp_call :=
  if bool_decide (event conn = XTCP_RESEND_DATA) then
    (b, [Xtcp_send (rds h (tx_prev_rdptr b) (Z.to_nat (tx_rdptr b - tx_prev_rdptr b)))])
  else
    let space_left := (tx_end b - tx_wrptr b) + (tx_prev_rdptr b - tx_buf b) in
    let len := tx_wrptr b - tx_rdptr b in
    let len := if conn_mss conn <? len then conn_mss conn else len in
    let calls := [Xtcp_send (rds h (tx_rdptr b) (Z.to_nat len))] in
    let calls :=
      if (space_left <? tx_lowmark b) && (tx_lowmark b <=? space_left + len)
      then calls ++ [Xtcp_unpause] else calls in
    let b := b <| tx_prev_rdptr := tx_rdptr b |> in
    (b <| tx_rdptr ::= fun p => p + len |>, calls).

Definition xtcp_buffered_send_buffer_remaining (b : xtcp_bufinfo_t) : Z :=
  (tx_end b - tx_wrptr b) + (tx_prev_rdptr b - tx_buf b).

(** ** The abstract stream: what the API promises *)

(** Receiving: the bytes not yet taken, and whether the next packet can be
    fetched. *)
Record rx_queue : Type := RxQueue { rxq : list Z; rx_open : bool }.
Definition rx_take_packet (pkt : list Z) (q : rx_queue) : rx_queue :=
  if rx_open q then RxQueue (rxq q ++ pkt) false else q.
(** Not enough data: wait for the next packet, or give everything away when
    there would be no room for it. *)
Definition rx_wait (size : Z) (q : rx_queue) : list Z * bool * rx_queue :=
  if size - Z.of_nat (length (rxq q)) <? XTCP_CLIENT_BUF_SIZE then (rxq q, true, RxQueue [] false)
  else ([], false, RxQueue (rxq q) true).
Definition rx_upto (size : Z) (pkt : list Z) (delim : Z) (q : rx_queue) : list Z * bool * rx_queue :=
  let q := rx_take_packet pkt q in
  match find_index (fun c => c =? delim) (rxq q) with
  | Some i => (firstn (S i) (rxq q), false, RxQueue (skipn (S i) (rxq q)) false)
  | None => rx_wait size q
  end.
Definition rx_exactly (size : Z) (pkt : list Z) (n : nat) (q : rx_queue) : list Z * bool * rx_queue :=
  let q := rx_take_packet pkt q in
  if (length (rxq q) <? n)%nat then rx_wait size q
  else (firstn n (rxq q), false, RxQueue (skipn n (rxq q)) false).

(** Sending: the packet in flight and the bytes behind it. *)
Record tx_queue : Type := TxQueue { in_flight : list Z; unsent : list Z }.
Definition tx_used (q : tx_queue) : Z := Z.of_nat (length (in_flight q) + length (unsent q)).
Definition tx_put (size : Z) (data : list Z) (q : tx_queue) : bool * tx_queue :=
  if size - tx_used q <? Z.of_nat (length data) then (false, q)
  else (true, TxQueue (in_flight q) (unsent q ++ data)).
Definition tx_next (mss : nat) (q : tx_queue) : list Z * tx_queue :=
  let p := firstn mss (unsent q) in (p, TxQueue p (skipn mss (unsent q))).

(** ** The receive buffer refines the queue *)

(** The bytes of [memory] from [p] up to [q]. *)
Definition between (p q : Z) (h : list Z) : list Z := rds h p (Z.to_nat (q - p)).

Record rx_rel (size : Z) (b : xtcp_bufinfo_t) (h : list Z) (q : rx_queue) : Prop := {
  rr_mem : bytes h;
  rr_buf : 0 <= rx_buf b;
  rr_end : rx_end b = rx_buf b + size;
  rr_fits : rx_end b <= Z.of_nat (length h);
  rr_ptrs : rx_buf b <= rx_rdptr b <= rx_wrptr b /\ rx_wrptr b <= rx_end b;
  rr_queue : between (rx_rdptr b) (rx_wrptr b) h = rxq q;
  rr_open : rx_open q = negb (rx_new_event b =? 0);
  rr_room : rx_open q = true -> XTCP_CLIENT_BUF_SIZE <= rx_end b - rx_wrptr b }.

(** Memory outside an address range is unchanged. *)
Definition untouched (lo hi : Z) (h h' : list Z) : Prop :=
  length h' = length h /\ forall k, 0 <= k -> k < lo \/ hi <= k -> rd8 h' k = rd8 h k.

(** What a receiving call returns, read at [*buf]. *)
Definition returned (r : recv_result) (h : list Z) : list Z :=
  match ret_buf r with Some p => rds h p (Z.to_nat (ret_len r)) | None => [] end.

Lemma between_app p q r h : p <= q <= r -> between p r h = between p q h ++ between q r h.
Proof.
  intros H. unfold between. replace (Z.to_nat (r - p)) with (Z.to_nat (q - p) + Z.to_nat (r - q))%nat by lia.
  rewrite rds_app. by replace (p + Z.of_nat (Z.to_nat (q - p))) with q by lia.
Qed.
Lemma length_between p q h : p <= q -> Z.of_nat (length (between p q h)) = q - p.
Proof. intros. unfold between. rewrite length_rds. lia. Qed.
Lemma between_wrs_eq p q vs h : 0 <= p -> q = p + Z.of_nat (length vs) -> q <= Z.of_nat (length h) ->
  bytes vs -> between p q (wrs p vs h) = vs.
Proof. intros Hp -> Hl Hb. unfold between. apply rds_wrs_eq; [lia..|done|lia]. Qed.
Lemma between_wrs_ne p q i vs h : 0 <= p -> p <= q -> 0 <= i -> q <= i \/ i + Z.of_nat (length vs) <= p ->
  between p q (wrs i vs h) = between p q h.
Proof. intros. unfold between. apply rds_wrs_ne; lia. Qed.
Lemma memmove_between dst src n h : bytes h -> 0 <= dst -> 0 <= n -> dst + n <= Z.of_nat (length h) ->
  between dst (dst + n) (memmove dst src n h) = between src (src + n) h.
Proof.
  intros Hb Hd Hn Hl. unfold memmove.
  rewrite between_wrs_eq; [unfold between; f_equal; lia|lia|rewrite length_rds; lia|lia|by apply bytes_rds].
Qed.

Lemma fetch_rel size pkt b h q : rx_rel size b h q -> bytes pkt ->
  Z.of_nat (length pkt) <= XTCP_CLIENT_BUF_SIZE ->
  let r := fetch pkt b h in
  rx_rel size r.1 r.2 (rx_take_packet pkt q) /\ rx_open (rx_take_packet pkt q) = false /\
  rx_buf r.1 = rx_buf b /\ rx_end r.1 = rx_end b /\ untouched (rx_buf b) (rx_end b) h r.2.
Proof.
  intros Hrel Hpk Hlen. pose proof Hrel as [Hm Hb He Hf [Hp Hp2] Hq Ho Hr].
  unfold fetch, rx_take_packet. rewrite <- Ho.
  destruct (rx_open q) eqn:Eo.
  - specialize (Hr eq_refl). split_and!; [|done..|].
    + constructor; cbn; try done; try lia.
      * by apply bytes_wrs.
      * rewrite length_wrs. lia.
      * rewrite (between_app _ (rx_wrptr b)) by lia.
        rewrite between_wrs_ne, between_wrs_eq by (done || lia). by rewrite Hq.
    + split; [apply length_wrs|]. intros k Hk Hor. cbn. apply rd8_wrs_out; lia.
  - split_and!; done.
Qed.

(** A receiving call does what the queue does: the same bytes at [*buf], the same
    overflow indication, and no store outside the buffer. *)
Definition recv_matches (size : Z) (b : xtcp_bufinfo_t) (h : list Z)
    (i : recv_result * xtcp_bufinfo_t * list Z) (a : list Z * bool * rx_queue) : Prop :=
  let '(r, b', h') := i in let '(data, overflow, q') := a in
  returned r h' = data /\ ret_len r = Z.of_nat (length data) /\ ret_overflow r = overflow /\
  rx_rel size b' h' q' /\ rx_buf b' = rx_buf b /\ rx_end b' = rx_end b /\
  untouched (rx_buf b) (rx_end b) h h'.

Lemma end_of_event_rel size b h q : rx_rel size b h q -> rx_open q = false ->
  recv_matches size b h (end_of_event b h) (rx_wait size q).
Proof.
  intros [Hm Hb He Hf [Hp Hp2] Hq Ho Hr] Hop. unfold recv_matches, end_of_event, rx_wait.
  set (n := rx_wrptr b - rx_rdptr b). cbn.
  assert (Z.of_nat (length (rxq q)) = n) as Hl by (rewrite <- Hq; apply length_between; lia).
  assert (between (rx_buf b) (rx_buf b + n) (memmove (rx_buf b) (rx_rdptr b) n h) = rxq q) as Hmv.
  { rewrite memmove_between by (done || lia). rewrite <- Hq. f_equal. lia. }
  assert (bytes (memmove (rx_buf b) (rx_rdptr b) n h)) as Hmb by (by apply bytes_wrs).
  assert (length (memmove (rx_buf b) (rx_rdptr b) n h) = length h) as Hml by apply length_wrs.
  assert (untouched (rx_buf b) (rx_end b) h (memmove (rx_buf b) (rx_rdptr b) n h)) as Hun.
  { split; [done|]. intros k Hk Hor. unfold memmove. apply rd8_wrs_out; rewrite ?length_rds; lia. }
  rewrite He, Hl. replace (rx_buf b + size - (rx_buf b + n)) with (size - n) by lia.
  destruct (Z.ltb_spec (size - n) XTCP_CLIENT_BUF_SIZE); cbn.
  - split_and!; [|done|done| |done|done|by rewrite <- He]; [|].
    + unfold returned. cbn. unfold between in Hmv. by replace (rx_buf b + n - rx_buf b) with n in Hmv by lia.
    + constructor; cbn; try done; try lia; [|by rewrite <- Ho].
      unfold between. by rewrite Z.sub_diag.
  - split_and!; [done|done|done| |done|done|by rewrite <- He].
    constructor; cbn; try done; try lia.
Qed.

Lemma untouched_trans lo hi h h' h'' : untouched lo hi h h' -> untouched lo hi h' h'' -> untouched lo hi h h''.
Proof. intros [? H1] [? H2]. split; [congruence|]. intros. by rewrite H2, H1. Qed.

Lemma recv_matches_after size b h b0 h0 i a : recv_matches size b0 h0 i a ->
  rx_buf b0 = rx_buf b -> rx_end b0 = rx_end b -> untouched (rx_buf b) (rx_end b) h h0 ->
  recv_matches size b h i a.
Proof.
  unfold recv_matches. destruct i as [[r b'] h'], a as [[data ov] q'].
  intros (? & ? & ? & ? & ? & ? & Hu) Hb He Hu0. rewrite Hb, He in *.
  split_and!; auto. by eapply untouched_trans.
Qed.

(** Taking [k] of the bytes that are there. *)
Lemma take_rel size b h q k : rx_rel size b h q -> rx_open q = false -> (k <= length (rxq q))%nat ->
  recv_matches size b h
    (RecvResult (Z.of_nat k) (Some (rx_rdptr b)) false, b <| rx_rdptr ::= fun p => p + Z.of_nat k |>, h)
    (firstn k (rxq q), false, RxQueue (skipn k (rxq q)) false).
Proof.
  intros [Hm Hb He Hf [Hp Hp2] Hq Ho Hr] Hop Hk. unfold recv_matches.
  assert (Z.of_nat (length (rxq q)) = rx_wrptr b - rx_rdptr b) as Hl
    by (rewrite <- Hq; apply length_between; lia).
  split_and!; try done.
  - unfold returned. cbn. rewrite <- Hq. unfold between. rewrite firstn_rds by lia. f_equal. lia.
  - cbn. rewrite length_firstn. lia.
  - constructor; cbn; try done; try lia; [|by rewrite <- Ho].
    rewrite <- Hq. unfold between. rewrite skipn_rds by lia. f_equal. lia.
Qed.

(** Receiving.  For a buffer of [size] bytes and packets of at most
    [XTCP_CLIENT_BUF_SIZE] bytes, both receiving calls behave as a queue: the
    packet fetched is appended, a complete record (up to a delimiter, or of a
    given length) is taken from the front, and without one the call waits for
    the next packet or, when that would not fit, hands over everything and sets
    [*overflow].  No byte is lost, repeated or reordered, and nothing outside
    the buffer is written. *)
Theorem xtcp_buffered_recv_refines size pkt b h q : rx_rel size b h q -> bytes pkt ->
  Z.of_nat (length pkt) <= XTCP_CLIENT_BUF_SIZE ->
  (forall delim, recv_matches size b h (xtcp_buffered_recv_upto pkt delim b h) (rx_upto size pkt delim q)) /\
  (forall n, recv_matches size b h (xtcp_buffered_recv pkt (Z.of_nat n) b h) (rx_exactly size pkt n q)).
Proof.
  intros Hrel Hp Hl. destruct (fetch_rel size pkt b h q Hrel Hp Hl) as (Hr & Ho & Hb & He & Hu).
  unfold xtcp_buffered_recv_upto, xtcp_buffered_recv, rx_upto, rx_exactly.
  destruct (fetch pkt b h) as [b0 h0]. cbn [fst snd] in *. cbv zeta.
  set (q0 := rx_take_packet pkt q) in *.
  assert (rds h0 (rx_rdptr b0) (Z.to_nat (rx_wrptr b0 - rx_rdptr b0)) = rxq q0) as Hq by apply Hr.
  assert (Z.of_nat (length (rxq q0)) = rx_wrptr b0 - rx_rdptr b0) as Hlen.
  { rewrite <- Hq, length_rds. pose proof (rr_ptrs _ _ _ _ Hr). lia. }
  split; [intros delim; rewrite Hq|intros n]; (eapply recv_matches_after; [|exact Hb|exact He|exact Hu]).
  - destruct (find_index _ _) as [i|] eqn:Ei; [|by apply end_of_event_rel].
    apply find_index_lt in Ei. replace (Z.of_nat i + 1) with (Z.of_nat (S i)) by lia. by apply take_rel.
  - destruct (Nat.ltb_spec (length (rxq q0)) n), (Z.ltb_spec (rx_wrptr b0 - rx_rdptr b0) (Z.of_nat n));
      try lia; [by apply end_of_event_rel|]. apply take_rel; (done || lia).
Qed.

Lemma set_rx_buffer_rel buf size b h : bytes h -> 0 <= buf -> XTCP_CLIENT_BUF_SIZE <= size ->
  buf + size <= Z.of_nat (length h) ->
  rx_rel size (xtcp_buffered_set_rx_buffer buf size b) h (RxQueue [] true).
Proof.
  intros Hb Hbuf Hs Hl. assert (0 < XTCP_CLIENT_BUF_SIZE) by done.
  constructor; cbn; try done; try lia. unfold between. by rewrite Z.sub_diag.
Qed.

(** ** The transmit buffer refines the queue *)

Record tx_rel (size : Z) (b : xtcp_bufinfo_t) (h : list Z) (q : tx_queue) : Prop := {
  tr_mem : bytes h;
  tr_buf : 0 <= tx_buf b;
  tr_end : tx_end b = tx_buf b + size;
  tr_fits : tx_end b <= Z.of_nat (length h);
  tr_ptrs : tx_buf b <= tx_prev_rdptr b <= tx_rdptr b /\ tx_rdptr b <= tx_wrptr b <= tx_end b;
  tr_flight : between (tx_prev_rdptr b) (tx_rdptr b) h = in_flight q;
  tr_unsent : between (tx_rdptr b) (tx_wrptr b) h = unsent q }.

Lemma set_tx_buffer_rel buf size lowmark b h : bytes h -> 0 <= buf -> 0 <= size ->
  buf + size <= Z.of_nat (length h) ->
  tx_rel size (xtcp_buffered_set_tx_buffer buf size lowmark b) h (TxQueue [] []).
Proof.
  intros Hb Hbuf Hs Hl. constructor; cbn; try done; try lia; unfold between; by rewrite Z.sub_diag.
Qed.

Lemma tx_lengths size b h q : tx_rel size b h q ->
  Z.of_nat (length (in_flight q)) = tx_rdptr b - tx_prev_rdptr b /\
  Z.of_nat (length (unsent q)) = tx_wrptr b - tx_rdptr b.
Proof. intros [? ? ? ? ? <- <-]. split; apply length_between; lia. Qed.

Lemma tx_remaining size b h q : tx_rel size b h q ->
  xtcp_buffered_send_buffer_remaining b = size - tx_used q.
Proof.
  intros Hr. destruct (tx_lengths _ _ _ _ Hr). destruct Hr.
  unfold xtcp_buffered_send_buffer_remaining, tx_used. lia.
Qed.

(** Moving everything to the bottom of the buffer changes no content. *)
Definition tx_shift (b : xtcp_bufinfo_t) : xtcp_bufinfo_t :=
  let shift := tx_prev_rdptr b - tx_buf b in
  ((b <| tx_prev_rdptr ::= fun p => p - shift |>) <| tx_rdptr ::= fun p => p - shift |>)
  <| tx_wrptr ::= fun p => p - shift |>.

Lemma between_sub p q r n h h' d : p <= q <= r -> between (p - d) (r - d) h' = between p r h -> n = r - p ->
  between (p - d) (q - d) h' = between p q h /\ between (q - d) (r - d) h' = between q r h.
Proof.
  intros Hq H ->. rewrite (between_app (p - d) (q - d) (r - d)), (between_app p q r) in H by lia.
  apply app_inj_1 in H; [done|]. apply Nat2Z.inj. rewrite !length_between by lia. lia.
Qed.

Lemma tx_shift_rel size b h q : tx_rel size b h q ->
  let h' := memmove (tx_buf b) (tx_prev_rdptr b) (tx_wrptr b - tx_prev_rdptr b) h in
  tx_rel size (tx_shift b) h' q /\ untouched (tx_buf b) (tx_end b) h h'.
Proof.
  intros [Hm Hb He Hf [Hp Hp2] Hfl Hun] h'. set (n := tx_wrptr b - tx_prev_rdptr b) in *.
  set (d := tx_prev_rdptr b - tx_buf b).
  assert (between (tx_prev_rdptr b - d) (tx_wrptr b - d) h' = between (tx_prev_rdptr b) (tx_wrptr b) h) as H.
  { replace (tx_prev_rdptr b - d) with (tx_buf b) by lia.
    replace (tx_wrptr b - d) with (tx_buf b + n) by lia. subst h'.
    rewrite memmove_between by (done || lia). f_equal. lia. }
  apply (between_sub _ (tx_rdptr b) _ n) in H as [H1 H2]; [|lia|done]. split.
  - constructor; cbn; fold d; try done; try lia.
    + by apply bytes_wrs.
    + unfold h', memmove. rewrite length_wrs. lia.
    + by rewrite H1.
    + by rewrite H2.
  - split; [apply length_wrs|]. intros k Hk Hor. unfold h', memmove. apply rd8_wrs_out; rewrite ?length_rds; lia.
Qed.

(** Appending where there is room. *)
Lemma tx_append_rel size b h q data : tx_rel size b h q -> bytes data ->
  Z.of_nat (length data) <= tx_end b - tx_wrptr b ->
  let h' := wrs (tx_wrptr b) data h in
  tx_rel size (b <| tx_wrptr ::= fun p => p + Z.of_nat (length data) |>) h'
    (TxQueue (in_flight q) (unsent q ++ data)) /\ untouched (tx_buf b) (tx_end b) h h'.
Proof.
  intros [Hm Hb He Hf [Hp Hp2] Hfl Hun] Hd Hl h'. split.
  - constructor; cbn; try done; try lia.
    + by apply bytes_wrs.
    + unfold h'. rewrite length_wrs. lia.
    + unfold h'. by rewrite between_wrs_ne by lia.
    + unfold h'. rewrite (between_app _ (tx_wrptr b)) by lia.
      rewrite between_wrs_ne, between_wrs_eq by (done || lia). by rewrite Hun.
  - split; [apply length_wrs|]. intros k Hk Hor. unfold h'. apply rd8_wrs_out; lia.
Qed.

(** The first half of the call: make room if that is needed. *)
Definition tx_make_room (len : Z) (b : xtcp_bufinfo_t) (h : list Z) : xtcp_bufinfo_t * list Z :=
  if tx_end b - tx_wrptr b <? len
  then (tx_shift b, memmove (tx_buf b) (tx_prev_rdptr b) (tx_wrptr b - tx_prev_rdptr b) h)
  else (b, h).

Lemma xtcp_buffered_send_eq data b h : let len := Z.of_nat (length data) in
  let '(b0, h0) := tx_make_room len b h in
  xtcp_buffered_send data b h
  = if tx_end b0 - tx_wrptr b0 <? len then (0, b0, h0, [])
    else (1, b0 <| tx_wrptr ::= fun p => p + len |>, wrs (tx_wrptr b0) data h0,
      (if tx_rdptr b0 =? tx_wrptr b0 then [Xtcp_init_send] else []) ++
      (if tx_end b0 - tx_wrptr b0 - len + (tx_prev_rdptr b0 - tx_buf b0) <? tx_lowmark b0
       then [Xtcp_pause] else [])).
Proof.
  intros len. unfold tx_make_room, xtcp_buffered_send. fold len.
  destruct (tx_end b - tx_wrptr b <? len) eqn:Ec; cbn.
  - replace (tx_end b - tx_wrptr b + (tx_prev_rdptr b - tx_buf b))
      with (tx_end b - (tx_wrptr b - (tx_prev_rdptr b - tx_buf b))) by lia.
    clear Ec. repeat case_match; rewrite ?app_nil_r; done.
  - rewrite Ec. clear Ec. repeat case_match; rewrite ?app_nil_r; done.
Qed.

Lemma tx_make_room_rel len size b h q : tx_rel size b h q -> let r := tx_make_room len b h in
  tx_rel size r.1 r.2 q /\ untouched (tx_buf b) (tx_end b) h r.2 /\
  tx_buf r.1 = tx_buf b /\ tx_end r.1 = tx_end b /\ tx_lowmark r.1 = tx_lowmark b /\
  (tx_end r.1 - tx_wrptr r.1 <? len) = (size - tx_used q <? len).
Proof.
  intros Hr r. pose proof (tx_remaining _ _ _ _ Hr) as Hrem. unfold xtcp_buffered_send_buffer_remaining in Hrem.
  pose proof (tr_ptrs _ _ _ _ Hr). subst r. unfold tx_make_room.
  destruct (Z.ltb_spec (tx_end b - tx_wrptr b) len).
  - destruct (tx_shift_rel _ _ _ _ Hr) as [Hr' Hu]. split_and!; try done.
    cbn. f_equal. lia.
  - split_and!; try done. cbn [fst]. apply eq_true_iff_eq. rewrite !Z.ltb_lt. lia.
Qed.

Lemma send_rel size data b h q : tx_rel size b h q -> bytes data ->
  let '(ret, b', h', calls) := xtcp_buffered_send data b h in
  let '(accepted, q') := tx_put size data q in
  ret = (if accepted then 1 else 0) /\ tx_rel size b' h' q' /\ untouched (tx_buf b) (tx_end b) h h' /\
  tx_lowmark b' = tx_lowmark b /\
  calls = (if accepted then
             (if (length (unsent q) =? 0)%nat then [Xtcp_init_send] else []) ++
             (if size - tx_used q' <? tx_lowmark b then [Xtcp_pause] else [])
           else []).
Proof.
  intros Hr Hd. pose proof (xtcp_buffered_send_eq data b h) as Heq. cbv zeta in Heq.
  pose proof (tx_make_room_rel (Z.of_nat (length data)) size b h q Hr) as Hroom.
  destruct (tx_make_room _ b h) as [b0 h0]. cbn [fst snd] in Hroom.
  destruct Hroom as (Hr0 & Hu0 & Hb & He & Hlow & Hfit). rewrite Heq, Hfit. unfold tx_put.
  destruct (Z.ltb_spec (size - tx_used q) (Z.of_nat (length data))) as [|Hge]; [by split_and!|].
  assert (Z.of_nat (length data) <= tx_end b0 - tx_wrptr b0) as Hroom.
  { destruct (Z.ltb_spec (tx_end b0 - tx_wrptr b0) (Z.of_nat (length data))); [done|lia]. }
  destruct (tx_append_rel _ _ _ _ data Hr0 Hd Hroom) as [Hr1 Hu1]. rewrite Hb, He in Hu1.
  pose proof (tx_remaining _ _ _ _ Hr1) as Hrem. unfold xtcp_buffered_send_buffer_remaining in Hrem.
  cbn in Hrem. destruct (tx_lengths _ _ _ _ Hr0) as [_ Hl2]. rewrite Hb, Hlow in *.
  split_and!; try done; [by eapply untouched_trans|]. f_equal.
  - destruct (Nat.eqb_spec (length (unsent q)) 0), (Z.eqb_spec (tx_rdptr b0) (tx_wrptr b0)); (done || lia).
  - by replace (tx_end b0 - tx_wrptr b0 - Z.of_nat (length data) + (tx_prev_rdptr b0 - tx_buf b))
      with (size - tx_used (TxQueue (in_flight q) (unsent q ++ data))) by lia.
Qed.

(** Queueing data.  [xtcp_buffered_send] accepts the data exactly when they
    fit beside the bytes not yet acknowledged, appends them to the queue, asks
    the server for a transmission when nothing was waiting, pauses the
    connection when the space left falls below the mark, and otherwise changes
    nothing the server or the client can see. *)
Theorem xtcp_buffered_send_refines size data b h q : tx_rel size b h q -> bytes data ->
  let '(ret, b', h', calls) := xtcp_buffered_send data b h in
  let '(accepted, q') := tx_put size data q in
  ret = (if accepted then 1 else 0) /\ tx_rel size b' h' q' /\ untouched (tx_buf b) (tx_end b) h h' /\
  tx_lowmark b' = tx_lowmark b /\
  calls = (if accepted then
             (if (length (unsent q) =? 0)%nat then [Xtcp_init_send] else []) ++
             (if size - tx_used q' <? tx_lowmark b then [Xtcp_pause] else [])
           else []).
Proof.
  apply send_rel.
Qed.

(** The server asks for data ([XTCP_REQUEST_DATA], [XTCP_SENT_DATA]): the next
    packet goes out and takes the place of the one in flight, which has been
    acknowledged; or it asks for the last packet again ([XTCP_RESEND_DATA]). *)
Lemma send_handler_rel size conn b h q : tx_rel size b h q -> 0 <= conn_mss conn ->
  let '(b', calls) := xtcp_buffered_send_handler conn b h in
  if bool_decide (event conn = XTCP_RESEND_DATA) then b' = b /\ calls = [Xtcp_send (in_flight q)]
  else
    let '(packet, q') := tx_next (Z.to_nat (conn_mss conn)) q in
    tx_rel size b' h q' /\ tx_lowmark b' = tx_lowmark b /\
    calls = Xtcp_send packet ::
      (if (size - tx_used q <? tx_lowmark b) &&
          (tx_lowmark b <=? size - tx_used q + Z.of_nat (length packet)) then [Xtcp_unpause] else []).
Proof.
  intros Hr Hm. destruct (tx_lengths _ _ _ _ Hr) as [Hl1 Hl2].
  pose proof (tx_remaining _ _ _ _ Hr) as Hrem. unfold xtcp_buffered_send_buffer_remaining in Hrem.
  pose proof Hr as [Hmem Hb He Hf [Hp Hp2] Hfl Hun]. unfold xtcp_buffered_send_handler.
  case_bool_decide as Hev.
  - split; [done|]. do 2 f_equal. exact Hfl.
  - unfold tx_next. cbv zeta. rewrite Hrem.
    set (mss := conn_mss conn) in *. set (len := if mss <? _ then _ else _).
    assert (len = Z.min mss (tx_wrptr b - tx_rdptr b)) as Hlen by (subst len; case_match; lia).
    assert (Z.of_nat (length (firstn (Z.to_nat mss) (unsent q))) = len) as Hpl.
    { rewrite length_firstn. lia. }
    assert (firstn (Z.to_nat mss) (unsent q) = between (tx_rdptr b) (tx_rdptr b + len) h) as Hpk.
    { rewrite <- Hun. unfold between. rewrite Hlen.
      destruct (Z.le_ge_cases mss (tx_wrptr b - tx_rdptr b)).
      - rewrite firstn_rds by lia. f_equal. lia.
      - rewrite firstn_all2 by (rewrite length_rds; lia). f_equal. lia. }
    split_and!.
    + constructor; cbn; try done; try lia.
      rewrite <- Hun. unfold between. rewrite Hlen.
      destruct (Z.le_ge_cases mss (tx_wrptr b - tx_rdptr b)).
      * rewrite skipn_rds by lia. f_equal; lia.
      * rewrite skipn_all2 by (rewrite length_rds; lia).
        by replace (Z.to_nat _) with 0%nat by lia.
    + done.
    + rewrite Hpl. rewrite Hpk. unfold between. replace (tx_rdptr b + len - tx_rdptr b) with len by lia.
      case_match; done.
Qed.

(** ** The stream as a whole *)

(** The client queues data; the server asks for a packet.  [accepted] are the
    bytes taken from the client, [sent] the packets handed to the server for the
    first time, [resent] what each request for a retransmission was answered
    with, beside the last packet sent before it. *)
Inductive tx_event : Type := TxSend (data : list Z) | TxRequest (conn : xtcp_connection_t).
Record tx_trace : Type := TxTrace {
  t_info : xtcp_bufinfo_t; t_mem : list Z; accepted : list Z; sent : list (list Z);
  resent : list (list xtcp_call * list Z) }.
(** The last packet, empty before the first. *)
Definition last_packet (t : tx_trace) : list Z := default [] (list.last (sent t)).

Definition packets (calls : list xtcp_call) : list Z :=
  concat (map (fun c => match c with Xtcp_send data => data | _ => [] end) calls).
Definition tx_step (t : tx_trace) (e : tx_event) : tx_trace :=
  match e with
  | TxSend data =>
      let '(ret, b, h, _) := xtcp_buffered_send data (t_info t) (t_mem t) in
      TxTrace b h (accepted t ++ (if ret =? 1 then data else [])) (sent t) (resent t)
  | TxRequest conn =>
      let '(b, calls) := xtcp_buffered_send_handler conn (t_info t) (t_mem t) in
      if bool_decide (event conn = XTCP_RESEND_DATA)
      then TxTrace b (t_mem t) (accepted t) (sent t) (resent t ++ [(calls, last_packet t)])
      else TxTrace b (t_mem t) (accepted t) (sent t ++ [packets calls]) (resent t)
  end.
Definition tx_event_ok (e : tx_event) : Prop :=
  match e with TxSend data => bytes data | TxRequest conn => 0 <= conn_mss conn end.

(** A retransmission is one [xtcp_send], of exactly the last packet. *)
Definition faithful (r : list xtcp_call * list Z) : Prop := fst r = [Xtcp_send (snd r)].
Definition stream_inv (size : Z) (t : tx_trace) : Prop :=
  exists q, tx_rel size (t_info t) (t_mem t) q /\ accepted t = concat (sent t) ++ unsent q /\
    last_packet t = in_flight q /\ Forall faithful (resent t).

Lemma tx_step_inv size t e : stream_inv size t -> tx_event_ok e -> stream_inv size (tx_step t e).
Proof.
  intros (q & Hr & Ha & Hl & Hf) He. destruct e as [data|conn]; cbn [tx_step tx_event_ok] in *.
  - pose proof (send_rel size data (t_info t) (t_mem t) q Hr He) as H.
    destruct (xtcp_buffered_send _ _ _) as [[[ret b'] h'] calls].
    destruct (tx_put size data q) as [acc q'] eqn:Eq. destruct H as (-> & Hr' & _).
    exists q'. split; [done|]. unfold tx_put in Eq. case_match; injection Eq as <- <-; cbn.
    + by rewrite app_nil_r.
    + by rewrite Ha, app_assoc.
  - pose proof (send_handler_rel size conn (t_info t) (t_mem t) q Hr He) as H.
    destruct (xtcp_buffered_send_handler _ _ _) as [b' calls]. case_bool_decide.
    + destruct H as [-> ->]. exists q. split_and!; try done. apply Forall_app. split; [done|].
      repeat constructor. unfold faithful. cbn. by rewrite Hl.
    + destruct (tx_next _ q) as [p q'] eqn:Eq. destruct H as (Hr' & _ & ->). exists q'.
      unfold tx_next in Eq. injection Eq as <- <-. unfold last_packet. cbn [t_info t_mem accepted sent resent unsent in_flight].
      assert (forall l, packets (Xtcp_send l :: (if (size - tx_used q <? tx_lowmark (t_info t)) &&
          (tx_lowmark (t_info t) <=? size - tx_used q + Z.of_nat (length l))
        then [Xtcp_unpause] else [])) = l) as ->.
      { intros l. unfold packets. case_match; cbn; by rewrite ?app_nil_r. }
      rewrite last_snoc, concat_app. cbn. by rewrite app_nil_r, <- app_assoc, firstn_skipn.
Qed.

(** C7: the sending side as a stream.  Whatever sequence of messages is queued
    and of packets asked for, the packets handed to the server, one after the
    other, are exactly the bytes accepted from the client, in order, up to those
    still waiting in the buffer; every retransmission asked for on the way was
    answered with exactly one packet, the last one sent before it, byte for
    byte; and so is one asked for now, which changes nothing. *)
Theorem xtcp_buffered_stream buf size lowmark b h es : bytes h -> 0 <= buf -> 0 <= size ->
  buf + size <= Z.of_nat (length h) -> Forall tx_event_ok es ->
  let t := foldl tx_step (TxTrace (xtcp_buffered_set_tx_buffer buf size lowmark b) h [] [] []) es in
  accepted t = concat (sent t) ++ between (tx_rdptr (t_info t)) (tx_wrptr (t_info t)) (t_mem t) /\
  Forall (fun r => fst r = [Xtcp_send (snd r)]) (resent t) /\
  forall conn, event conn = XTCP_RESEND_DATA ->
    xtcp_buffered_send_handler conn (t_info t) (t_mem t) = (t_info t, [Xtcp_send (last_packet t)]).
Proof.
  intros Hb Hbuf Hs Hl Hes t. assert (stream_inv size t) as (q & Hr & Ha & Hlast & Hf).
  { subst t. set (t0 := TxTrace _ _ _ _ _).
    assert (stream_inv size t0) as H0.
    { exists (TxQueue [] []). split; [by apply set_tx_buffer_rel|]. split_and!; [done..|constructor]. }
    clearbody t0. revert t0 H0. induction Hes as [|e es He Hes IH]; intros t0 H0; [done|].
    cbn [foldl]. by apply IH, tx_step_inv. }
  rewrite Ha. split; [f_equal; symmetry; apply Hr|]. split; [exact Hf|]. intros conn Hc.
  rewrite Hlast. unfold xtcp_buffered_send_handler.
  rewrite bool_decide_true by done. f_equal. do 2 f_equal. apply Hr.
Qed.

(** The space released by a request is that of the acknowledged packet, but the
    handler compares with the mark as if it were that of the packet being sent.
    When the last packet is acknowledged and nothing is waiting, the space left
    goes from below the mark to the whole buffer without [xtcp_unpause]. *)
Lemma xtcp_buffered_unpause_missed size conn b h q : tx_rel size b h q -> 0 <= conn_mss conn ->
  event conn <> XTCP_RESEND_DATA -> unsent q = [] ->
  size - Z.of_nat (length (in_flight q)) < tx_lowmark b ->
  let r := xtcp_buffered_send_handler conn b h in
  r.2 = [Xtcp_send []] /\ xtcp_buffered_send_buffer_remaining r.1 = size.
Proof.
  intros Hr Hm He Hu Hl r. pose proof (send_handler_rel size conn b h q Hr Hm) as H. subst r.
  destruct (xtcp_buffered_send_handler conn b h) as [b' calls]. rewrite bool_decide_false in H by done.
  unfold tx_next in H. rewrite Hu, firstn_nil, skipn_nil in H. destruct H as (Hr' & _ & ->). cbn [fst snd].
  rewrite (tx_remaining _ _ _ _ Hr'). unfold tx_used in *. rewrite Hu. cbn [in_flight unsent length].
  rewrite Nat.add_0_r, Z.add_0_r. rewrite (proj2 (Z.leb_gt _ _)) by lia.
  rewrite andb_false_r. split; [done|lia].
Qed.

(** ** A client with 4 KB of memory *)

Definition client_mem : list Z := replicate 4096 0.
Definition no_bufinfo : xtcp_bufinfo_t := XtcpBufinfo 0 0 0 0 0 0 0 0 0 0 0.
Definition reader : xtcp_bufinfo_t := xtcp_buffered_set_rx_buffer 0 2048 no_bufinfo.
Definition writer : xtcp_bufinfo_t := xtcp_buffered_set_tx_buffer 2048 2048 1024 no_bufinfo.
Lemma client_mem_bytes : bytes client_mem.
Proof. apply Forall_replicate. unfold u8. lia. Qed.

Lemma xtcp_buffered_recv_refines_witness :
  recv_matches 2048 reader client_mem (xtcp_buffered_recv_upto [71; 69; 84; 10; 72] 10 reader client_mem)
    ([71; 69; 84; 10], false, RxQueue [72] false).
Proof.
  apply (xtcp_buffered_recv_refines 2048 [71; 69; 84; 10; 72] reader client_mem (RxQueue [] true)).
  - apply set_rx_buffer_rel; [apply client_mem_bytes|lia|discriminate|].
    unfold client_mem. rewrite length_replicate. lia.
  - repeat constructor; unfold u8; lia.
  - discriminate.
Defined.

Lemma xtcp_buffered_send_refines_witness :
  let '(ret, b', h', calls) := xtcp_buffered_send [1; 2; 3] writer client_mem in
  ret = 1 /\ tx_rel 2048 b' h' (TxQueue [] [1; 2; 3]) /\ untouched 2048 4096 client_mem h' /\
  tx_lowmark b' = 1024 /\ calls = [Xtcp_init_send].
Proof.
  apply (xtcp_buffered_send_refines 2048 [1; 2; 3] writer client_mem (TxQueue [] [])).
  - apply set_tx_buffer_rel; [apply client_mem_bytes|lia..|].
    unfold client_mem. rewrite length_replicate. lia.
  - repeat constructor; unfold u8; lia.
Defined.

Definition request (ev : xtcp_event_type_t) : xtcp_connection_t :=
  XtcpConnection 1 XTCP_PROTOCOL_TCP XTCP_SERVER_CONNECTION ev 0 zero4 0 0 2.
Definition some_requests : list tx_event :=
  [TxSend [1; 2; 3]; TxRequest (request XTCP_REQUEST_DATA); TxRequest (request XTCP_RESEND_DATA);
   TxSend [4]; TxRequest (request XTCP_SENT_DATA)].

Lemma xtcp_buffered_stream_witness :
  let t := foldl tx_step (TxTrace writer client_mem [] [] []) some_requests in
  accepted t = concat (sent t) ++ between (tx_rdptr (t_info t)) (tx_wrptr (t_info t)) (t_mem t) /\
  Forall (fun r => fst r = [Xtcp_send (snd r)]) (resent t) /\
  xtcp_buffered_send_handler (request XTCP_RESEND_DATA) (t_info t) (t_mem t) = (t_info t, [Xtcp_send [3; 4]]).
Proof.
  destruct (xtcp_buffered_stream 2048 2048 1024 no_bufinfo client_mem some_requests) as (Ha & Hf & Hr);
    [apply client_mem_bytes|lia|lia|unfold client_mem; rewrite length_replicate; lia| |].
  { repeat constructor; cbn; unfold u8; lia. }
  split; [exact Ha|]. split; [exact Hf|].
  refine (eq_trans (Hr (request XTCP_RESEND_DATA) eq_refl) _).
  apply (f_equal (fun p => (_, [Xtcp_send p]))). vm_compute. reflexivity.
Defined.
Example some_requests_sent :
  let t := foldl tx_step (TxTrace writer client_mem [] [] []) some_requests in
  sent t = [[1; 2]; [3; 4]] /\ resent t = [([Xtcp_send [1; 2]], [1; 2])].
Proof. vm_compute. split; reflexivity. Qed.
