(* ===== verification/Tftp.v ===== *)
(** * The TFTP server: [module_tftp]

    [tftp_support.c] decodes packets and makes the replies; [tftp.xc] is the
    state machine over the events of the TCP/IP server.  One write request at a
    time is accepted, for one file.

    The application that stores the file is the class [TftpApp], the network
    order types of nettypes.h, which the repository does not contain, the class
    [NetTypes].  The calls to the TCP/IP server are a log. *)
From S2P Require Export UipState.
Local Open Scope Z_scope.

(** ** Constants of [tftp.h] and [tftp_conf.h] *)
Definition TFTP_OPCODE_RRQ : Z := 1.
Definition TFTP_OPCODE_WRQ : Z := 2.
Definition TFTP_OPCODE_DATA : Z := 3.
Definition TFTP_OPCODE_ACK : Z := 4.
Definition TFTP_OPCODE_ERROR : Z := 5.
Definition TFTP_ERROR_NOT_DEFINED : Z := 0.
Definition TFTP_ERROR_ACCESS_VIOLATION : Z := 2.
Definition TFTP_ERROR_DISK_FULL : Z := 3.
Definition TFTP_ERROR_ILLEGAL_OPERATION : Z := 4.
Definition TFTP_NULL_BYTE : Z := 1.
Definition TFTP_MIN_PKT_SIZE : Z := 4.
Definition TFTP_DEFAULT_PORT : Z := 69.
Definition TFTP_BLOCK_SIZE : Z := 512.
Definition TFTP_MAX_FILE_SIZE : Z := 128 * 1024.
Definition TFTP_TIMEOUT_SECONDS : Z := 3.
Definition TFTP_ERROR_MSG_MAX_LENGTH : Z := 25.
Definition TFTP_RX_BUFFER_SIZE : Z := TFTP_MIN_PKT_SIZE + TFTP_BLOCK_SIZE.
Definition TFTP_TX_BUFFER_SIZE : Z := TFTP_MIN_PKT_SIZE + TFTP_ERROR_MSG_MAX_LENGTH.
Definition TFTP_SOURCE_TID_SEED : Z := 51337.

(** The texts of the messages. *)
Definition TFTP_IMAGE_FILENAME : list Z := [117; 112; 103; 114; 97; 100; 101; 46; 98; 105; 110].
Definition octet : list Z := [111; 99; 116; 101; 116].
Definition application_error : list Z :=
  [65; 112; 112; 108; 105; 99; 97; 116; 105; 111; 110; 32; 101; 114; 114; 111; 114].
Definition read_not_supported : list Z :=
  [82; 101; 97; 100; 32; 110; 111; 116; 32; 115; 117; 112; 112; 111; 114; 116; 101; 100].
Definition invalid_filename : list Z :=
  [73; 110; 118; 97; 108; 105; 100; 32; 102; 105; 108; 101; 110; 97; 109; 101].
Definition invalid_transfer_mode : list Z :=
  [73; 110; 118; 97; 108; 105; 100; 32; 116; 114; 97; 110; 115; 102; 101; 114; 32; 109; 111; 100; 101].

(** ** Interfaces *)

(** [n16_t]: 16 bits in network order, as two bytes of memory. *)
Class NetTypes : Type := {
  hton16 : Z -> Z * Z;
  ntoh16 : Z * Z -> Z;
  hton16_bytes x : u16 x -> hton16 x = (x / 256, x mod 256);
  ntoh16_bytes a b : u8 a -> u8 b -> ntoh16 (a, b) = 256 * a + b }.

(** The application, with a state of its own; [tftp_app_process_data_block]
    gets the memory from the data on, and the number of bytes. *)
Class TftpApp (A : Type) : Type := {
  tftp_app_transfer_begin : A -> Z * A;
  tftp_app_process_data_block : list Z -> Z -> A -> Z * A;
  tftp_app_transfer_complete : A -> A;
  tftp_app_transfer_error : A -> A }.

Inductive tftp_state_t : Set :=
| TFTP_IDLE | TFTP_WAITING_FOR_CONNECTION | TFTP_WAITING_FOR_DATA | TFTP_SENDING_ACK | TFTP_COMPLETE.
#[export] Instance tftp_state_eq_dec : EqDecision tftp_state_t.
Proof. solve_decision. Defined.

Inductive tftp_call : Type :=
| Tftp_listen (port : Z)
| Tftp_close (conn_id : Z)
| Tftp_bind_local (conn_id port : Z)
| Tftp_set_poll_interval (conn_id n : Z)
| Tftp_init_send (conn_id : Z)
| Tftp_send (data : list Z)
| Tftp_complete_send.

(** The variables of [tftp.xc], the static variable of [tftp_support.c]
    ([support_prev_block_num]), the application and the log. *)
Record tftp {A : Type} : Type := Tftp {
  tftp_state : tftp_state_t;
  local_tid : Z;
  block_num : Z;
  prev_block_num : Z;
  tx_buffer : list Z;
  num_tx_bytes : Z;
  tftp_conn : xtcp_connection_t;
  signal_error : Z;
  signal_complete : Z;
  support_prev_block_num : Z;
  app : A;
  tftp_calls : list tftp_call }.
Global Arguments tftp : clear implicits.
#[export] Instance eta_tftp {A} : Eta (tftp A) := fun r =>
  Tftp A r.(tftp_state) r.(local_tid) r.(block_num) r.(prev_block_num) r.(tx_buffer) r.(num_tx_bytes) r.(tftp_conn)
    r.(signal_error) r.(signal_complete) r.(support_prev_block_num) r.(app) r.(tftp_calls).

Section tftp.
Context `{!NetTypes} {A : Type} `{!TftpApp A}.
Implicit Types s : tftp A.

Definition tcall (c : tftp_call) s : tftp A := s <| tftp_calls ::= fun l => l ++ [c] |>.
Definition wr_n16 (i x : Z) (b : list Z) : list Z := let '(b0, b1) := hton16 x in wr8 (i + 1) b1 (wr8 i b0 b).
Definition rd_n16 (b : list Z) (i : Z) : Z := ntoh16 (rd8 b i, rd8 b (i + 1)).

(** * [tftp_support.c] *)

Definition tftp_make_ack_pkt (num : Z) s : Z * tftp A :=
  let s := s <| tx_buffer ::= wr_n16 0 TFTP_OPCODE_ACK |> in
  let s := s <| tx_buffer ::= wr_n16 2 num |> in
  (TFTP_MIN_PKT_SIZE, s).
(** [error] tells whether the pointer is given; the assertion on the length
    holds of every message below. *)
Definition tftp_make_error_pkt (code : Z) (msg : list Z) (error : bool) s : Z * tftp A :=
  let s := if error then s <| signal_error := 1 |> else s in
  let s := s <| tx_buffer ::= wr_n16 0 TFTP_OPCODE_ERROR |> in
  let s := s <| tx_buffer ::= wr_n16 2 code |> in
  let s := s <| tx_buffer ::= wrs 4 (msg ++ [0]) |> in
  (TFTP_MIN_PKT_SIZE + Z.of_nat (length msg) + TFTP_NULL_BYTE, s).
Definition tftp_process_app_error s : Z * tftp A :=
  tftp_make_error_pkt TFTP_ERROR_NOT_DEFINED application_error false s.

(** [strlen] and [strncmp(p, str, strlen(str)) == 0] in memory. *)
Definition strlen_at (b : list Z) (i : Z) : Z :=
  default 0 (Z.of_nat <$> find_index (fun c => c =? 0) (skipn (Z.to_nat i) b ++ [0])).
Definition starts_with (b : list Z) (i : Z) (str : list Z) : bool := bool_decide (rds b i (length str) = str).

Definition process_data (rx_buf : list Z) (num_bytes : Z) s : Z * tftp A :=
  let s := if num_bytes <? TFTP_BLOCK_SIZE + TFTP_MIN_PKT_SIZE then s <| signal_complete := 1 |> else s in
  let num := rd_n16 rx_buf 2 in
  let s := s <| block_num := num |> in
  if num =? support_prev_block_num s + 1 then
    let s := s <| support_prev_block_num := num |> in
    if TFTP_MAX_FILE_SIZE <=? num * TFTP_BLOCK_SIZE then tftp_make_error_pkt TFTP_ERROR_DISK_FULL [] true s
    else
      let '(r, a) := tftp_app_process_data_block (skipn 4 rx_buf) (num_bytes - TFTP_MIN_PKT_SIZE) (app s) in
      let s := s <| app := a |> in
      if negb (r =? 0) then tftp_make_error_pkt TFTP_ERROR_ACCESS_VIOLATION [] true s
      else tftp_make_ack_pkt num s
  else tftp_make_ack_pkt num s.

Definition tftp_process_packet (rx_buf : list Z) (num_bytes : Z) s : Z * tftp A :=
  let opcode := rd_n16 rx_buf 0 in
  if opcode =? TFTP_OPCODE_RRQ then tftp_make_error_pkt TFTP_ERROR_NOT_DEFINED read_not_supported true s
  else if opcode =? TFTP_OPCODE_WRQ then
    let filename := 2 in
    if negb (starts_with rx_buf filename TFTP_IMAGE_FILENAME) then
      tftp_make_error_pkt TFTP_ERROR_NOT_DEFINED invalid_filename true s
    else
      let mode := filename + strlen_at rx_buf filename + TFTP_NULL_BYTE in
      if negb (starts_with rx_buf mode octet) then tftp_make_error_pkt TFTP_ERROR_NOT_DEFINED invalid_transfer_mode true s
      else tftp_make_ack_pkt 0 s
  else if opcode =? TFTP_OPCODE_DATA then process_data rx_buf num_bytes s
  else if opcode =? TFTP_OPCODE_ACK then tftp_make_error_pkt TFTP_ERROR_ILLEGAL_OPERATION [] true s
  else if opcode =? TFTP_OPCODE_ERROR then (-1, s)
  else tftp_make_error_pkt TFTP_ERROR_ILLEGAL_OPERATION [] true s.

(** * [tftp.xc] *)

Definition clear_transfer s : tftp A :=
  let s := s <| tftp_conn ::= fun c => c <| id := -1 |> |> in
  let s := s <| signal_error := 0 |> <| signal_complete := 0 |> in
  let s := s <| block_num := 0 |> <| prev_block_num := 0 |> in
  s <| num_tx_bytes := 0 |>.
Definition tftp_init s : tftp A := tcall (Tftp_listen TFTP_DEFAULT_PORT) (clear_transfer s).
Definition tftp_close (conn : xtcp_connection_t) s : tftp A := clear_transfer (tcall (Tftp_close (id conn)) s).

Definition new_connection (conn : xtcp_connection_t) s : tftp A :=
  if bool_decide (tftp_state s = TFTP_WAITING_FOR_CONNECTION) && (local_port conn =? TFTP_DEFAULT_PORT) then
    let s := s <| tftp_conn := conn |> in
    let s := s <| local_tid ::= fun t => w16 (t + 1) |> in
    let s := tcall (Tftp_bind_local (id conn) (local_tid s)) s in
    let '(r, a) := tftp_app_transfer_begin (app s) in
    let s := s <| app := a |> in
    let '(refused, s) :=
      if negb (r =? 0) then
        let '(n, s) := tftp_process_app_error s in
        let s := s <| num_tx_bytes := n |> <| signal_error := 1 |> in
        if 0 <? num_tx_bytes s then (true, (tcall (Tftp_init_send (id conn)) s) <| tftp_state := TFTP_SENDING_ACK |>)
        else (false, s)
      else (false, s) in
    if (refused : bool) then s
    else
      let s := s <| tftp_conn := conn |> in
      let s := tcall (Tftp_set_poll_interval (id conn) (TFTP_TIMEOUT_SECONDS * 1000)) s in
      let s := tcall (Tftp_bind_local (id conn) (local_tid s)) s in
      s <| tftp_state := TFTP_WAITING_FOR_DATA |>
  else s.

(** [rx_buffer] is the local array after [xtcp_recv_count], [response_len] the
    length of the packet, which may be more than the array holds. *)
Definition recv_data (rx_buffer : list Z) (response_len : Z) (conn : xtcp_connection_t) s : tftp A :=
  if bool_decide (tftp_state s = TFTP_WAITING_FOR_DATA) && (id conn =? id (tftp_conn s)) then
    let '(n, s) := tftp_process_packet rx_buffer response_len s in
    let s := s <| num_tx_bytes := n |> in
    if 0 <? num_tx_bytes s then (tcall (Tftp_init_send (id conn)) s) <| tftp_state := TFTP_SENDING_ACK |>
    else
      let s := s <| app ::= tftp_app_transfer_error |> in
      (tftp_close conn s) <| tftp_state := TFTP_WAITING_FOR_CONNECTION |>
  else s.

Definition sent_data (conn : xtcp_connection_t) s : tftp A :=
  let s := tcall Tftp_complete_send s in
  let s := s <| num_tx_bytes := 0 |> in
  if negb (signal_error s =? 0) then
    let s := s <| app ::= tftp_app_transfer_error |> in
    (tftp_close conn s) <| tftp_state := TFTP_WAITING_FOR_CONNECTION |>
  else if negb (signal_complete s =? 0) then
    let s := s <| app ::= tftp_app_transfer_complete |> in
    (tftp_close conn s) <| tftp_state := TFTP_COMPLETE |>
  else s <| tftp_state := TFTP_WAITING_FOR_DATA |>.

Definition poll s : tftp A :=
  if bool_decide (tftp_state s = TFTP_WAITING_FOR_DATA) && (prev_block_num s =? block_num s)
  then (tftp_close (tftp_conn s) s) <| tftp_state := TFTP_WAITING_FOR_CONNECTION |>
  else s <| prev_block_num := block_num s |>.

Definition tftp_handle_event (rx_buffer : list Z) (response_len : Z) (conn : xtcp_connection_t) s : tftp A :=
  if bool_decide (tftp_state s = TFTP_COMPLETE) then s
  else if negb (bool_decide (event conn = XTCP_IFUP)) && negb (bool_decide (event conn = XTCP_IFDOWN)) &&
      negb (local_port conn =? TFTP_DEFAULT_PORT) && negb (local_port conn =? local_tid s) then s
  else
    match event conn with
    | XTCP_IFUP => s <| tftp_state := TFTP_WAITING_FOR_CONNECTION |>
    | XTCP_IFDOWN =>
        if bool_decide (tftp_state s = TFTP_WAITING_FOR_DATA) || bool_decide (tftp_state s = TFTP_SENDING_ACK)
        then tftp_close conn (s <| app ::= tftp_app_transfer_error |>) else s
    | XTCP_NEW_CONNECTION => new_connection conn s
    | XTCP_RECV_DATA => recv_data rx_buffer response_len conn s
    | XTCP_REQUEST_DATA | XTCP_RESEND_DATA =>
        if bool_decide (tftp_state s = TFTP_SENDING_ACK) && (0 <? num_tx_bytes s)
        then tcall (Tftp_send (firstn (Z.to_nat (num_tx_bytes s)) (tx_buffer s))) s else s
    | XTCP_SENT_DATA => sent_data conn s
    | XTCP_POLL => poll s
    | _ => s
    end.

(** The transmit buffer has its size, [TFTP_TX_BUFFER_SIZE]. *)
Definition tx_ok s : Prop := length (tx_buffer s) = 29%nat.
End tftp.

(** Evaluation of nested updates, by need, and of the fields of the result. *)
Ltac tftp_eval :=
  lazy beta iota zeta delta [sent_data tftp_close clear_transfer tcall set_field eta eta_tftp tftp_state local_tid
    block_num prev_block_num tx_buffer num_tx_bytes tftp_conn signal_error signal_complete support_prev_block_num
    app tftp_calls negb].
Ltac tftp_fields :=
  split; lazy beta iota zeta delta [tx_ok tftp_state local_tid
    block_num prev_block_num tx_buffer num_tx_bytes tftp_conn signal_error signal_complete support_prev_block_num
    app tftp_calls]; try reflexivity; try assumption; try (rewrite <- ?app_assoc; reflexivity).
