(* ===== verification/TftpRun.v ===== *)
(** * Transfers to the TFTP server

    A whole transfer, from the write request to the last acknowledgement; what
    a second transfer delivers; and the replies to packets that are refused. *)
From S2P Require Export Tftp.
Local Open Scope Z_scope.

Section runs.
Context `{!NetTypes} {A : Type} `{!TftpApp A}.
Implicit Types s : tftp A.

(** One event: the packet, its length, the connection. *)
Definition tftp_event : Type := list Z * Z * xtcp_connection_t.
Fixpoint tftp_run (l : list tftp_event) s : tftp A :=
  match l with
  | [] => s
  | (rx, n, conn) :: l => tftp_run l (tftp_handle_event rx n conn s)
  end.
Lemma tftp_run_app l l' s : tftp_run (l ++ l') s = tftp_run l' (tftp_run l s).
Proof. revert s. induction l as [|[[rx n] conn] l IH]; intros s; cbn; [done|]. apply IH. Qed.

(** A packet arrives, the server asks for the reply, and reports it sent. *)
Definition exchange (conn : xtcp_connection_t) (rx : list Z) (n : Z) : list tftp_event :=
  [(rx, n, conn <| event := XTCP_RECV_DATA |>); ([], 0, conn <| event := XTCP_REQUEST_DATA |>);
   ([], 0, conn <| event := XTCP_SENT_DATA |>)].

(** ** Packets *)

Lemma rd_n16_value b i : u8 (rd8 b i) -> u8 (rd8 b (i + 1)) -> rd_n16 b i = 256 * rd8 b i + rd8 b (i + 1).
Proof. intros. unfold rd_n16. by apply ntoh16_bytes. Qed.
Definition ack (num : Z) : list Z := [0; TFTP_OPCODE_ACK; num / 256; num mod 256].
Definition error_packet (code : Z) (msg : list Z) : list Z := [0; TFTP_OPCODE_ERROR; code / 256; code mod 256] ++ msg ++ [0].

Lemma wr_n16_front (x y : Z) b : u16 x -> u16 y -> (4 <= length b)%nat ->
  wr_n16 2 y (wr_n16 0 x b) = [x / 256; x mod 256; y / 256; y mod 256] ++ skipn 4 b.
Proof.
  intros Hx Hy Hb. unfold wr_n16. rewrite !hton16_bytes by done. destruct b as [|b0 [|b1 [|b2 [|b3 b]]]]; cbn in Hb; try lia.
  unfold wr8. cbn. unfold u16 in *. rewrite !w8_small; [done|unfold u8; zdm..].
Qed.
Lemma make_ack num s : u16 num -> tx_ok s -> exists s', tftp_make_ack_pkt num s = (4, s') /\
  s' = s <| tx_buffer := ack num ++ skipn 4 (tx_buffer s) |>.
Proof.
  intros Hn Hl. eexists. split; [done|].
  assert (ack num ++ skipn 4 (tx_buffer s) = wr_n16 2 num (wr_n16 0 TFTP_OPCODE_ACK (tx_buffer s))) as ->; [|by destruct s].
  symmetry. apply (wr_n16_front TFTP_OPCODE_ACK num (tx_buffer s)); [unfold u16, TFTP_OPCODE_ACK; lia|done|unfold tx_ok in Hl; lia].
Qed.
Lemma make_error code msg (e : bool) s : u16 code -> bytes msg -> (length msg <= 24)%nat -> tx_ok s ->
  exists s', tftp_make_error_pkt code msg e s = (5 + Z.of_nat (length msg), s') /\
  s' = (if e then s <| signal_error := 1 |> else s) <| tx_buffer := error_packet code msg ++ skipn (5 + length msg) (tx_buffer s) |>.
Proof.
  intros Hc Hm Hl Ht. eexists. split; [unfold tftp_make_error_pkt, TFTP_MIN_PKT_SIZE, TFTP_NULL_BYTE; f_equal; lia|].
  assert (forall s0, tx_buffer s0 = tx_buffer s ->
    s0 <| tx_buffer ::= wr_n16 0 TFTP_OPCODE_ERROR |> <| tx_buffer ::= wr_n16 2 code |> <| tx_buffer ::= wrs 4 (msg ++ [0]) |> =
    s0 <| tx_buffer := error_packet code msg ++ skipn (5 + length msg) (tx_buffer s) |>) as Heq.
  { intros s0 H0. transitivity (s0 <| tx_buffer := wrs 4 (msg ++ [0]) (wr_n16 2 code (wr_n16 0 TFTP_OPCODE_ERROR (tx_buffer s0))) |>); [by destruct s0|].
    rewrite H0, wr_n16_front; [|unfold u16, TFTP_OPCODE_ERROR; lia|done|unfold tx_ok in Ht; lia].
    change 4 with (Z.of_nat (length [TFTP_OPCODE_ERROR / 256; TFTP_OPCODE_ERROR mod 256; code / 256; code mod 256])) at 1.
    rewrite wrs_app_exact.
    - rewrite skipn_skipn. replace (length (msg ++ [0%Z]) + 4)%nat with (5 + length msg)%nat by (rewrite length_app; cbn; lia).
      unfold error_packet. by rewrite <- !app_assoc.
    - apply Forall_app. split; [done|]. apply Forall_cons; [unfold u8; lia|constructor].
    - rewrite length_app, length_skipn. unfold tx_ok in Ht. cbn. lia. }
  destruct e; by apply Heq.
Qed.

(** ** One exchange *)

(** A transfer that waits for a packet: the last block taken, the application
    and the log. *)
Record waiting (conn : xtcp_connection_t) (p : Z) (a : A) (cs : list tftp_call) s : Prop := Waiting {
  w_state : tftp_state s = TFTP_WAITING_FOR_DATA;
  w_port : local_tid s = local_port conn;
  w_conn : id (tftp_conn s) = id conn;
  w_error : signal_error s = 0;
  w_complete : signal_complete s = 0;
  w_tx : tx_ok s;
  w_prev : support_prev_block_num s = p;
  w_app : app s = a;
  w_calls : tftp_calls s = cs }.
(** The end of a transfer, or of an attempt. *)
Record ended (st : tftp_state_t) (tid p : Z) (a : A) (cs : list tftp_call) s : Prop := Ended {
  e_state : tftp_state s = st;
  e_port : local_tid s = tid;
  e_error : signal_error s = 0;
  e_complete : signal_complete s = 0;
  e_tx : tx_ok s;
  e_prev : support_prev_block_num s = p;
  e_app : app s = a;
  e_calls : tftp_calls s = cs }.

(** The reply to a packet that [tftp_process_packet] has processed, and what
    follows when it has been sent. *)
Definition replied (conn : xtcp_connection_t) (reply : list Z) : list tftp_call :=
  [Tftp_init_send (id conn); Tftp_send reply; Tftp_complete_send].
Lemma exchange_run conn rx n s k s1 : tftp_state s = TFTP_WAITING_FOR_DATA -> local_tid s = local_port conn ->
  id (tftp_conn s) = id conn -> tftp_process_packet rx n s = (k, s1) -> 0 < k -> local_tid s1 = local_tid s ->
  tftp_run (exchange conn rx n) s =
  sent_data (conn <| event := XTCP_SENT_DATA |>)
    (s1 <| num_tx_bytes := k |> <| tftp_state := TFTP_SENDING_ACK |>
        <| tftp_calls ::= fun l => l ++ [Tftp_init_send (id conn); Tftp_send (firstn (Z.to_nat k) (tx_buffer s1))] |>).
Proof.
  intros Hs Hp Hc Hk H0 Ht. unfold exchange, tftp_run.
  assert (tftp_handle_event rx n (conn <| event := XTCP_RECV_DATA |>) s =
    s1 <| num_tx_bytes := k |> <| tftp_calls ::= fun l => l ++ [Tftp_init_send (id conn)] |> <| tftp_state := TFTP_SENDING_ACK |>) as ->.
  { unfold tftp_handle_event. rewrite Hs. rewrite !bool_decide_eq_false_2 by done. cbn [negb andb].
    change (local_port (conn <| event := XTCP_RECV_DATA |>)) with (local_port conn). rewrite <- Hp, Z.eqb_refl, andb_false_r.
    cbn. unfold recv_data. rewrite Hs, bool_decide_eq_true_2 by done. change (id (conn <| event := XTCP_RECV_DATA |>)) with (id conn).
    rewrite Hc, Z.eqb_refl. cbn [andb]. rewrite Hk. cbn. destruct (Z.ltb_spec 0 k); [|lia]. by destruct s1. }
  set (s2 := s1 <| num_tx_bytes := k |> <| tftp_calls ::= _ |> <| tftp_state := TFTP_SENDING_ACK |>).
  assert (forall ev st, ev <> XTCP_IFUP -> ev <> XTCP_IFDOWN -> tftp_state st = TFTP_SENDING_ACK -> local_tid st = local_port conn ->
    tftp_handle_event [] 0 (conn <| event := ev |>) st =
    match ev with
    | XTCP_REQUEST_DATA => if bool_decide (tftp_state st = TFTP_SENDING_ACK) && (0 <? num_tx_bytes st)
        then tcall (Tftp_send (firstn (Z.to_nat (num_tx_bytes st)) (tx_buffer st))) st else st
    | XTCP_SENT_DATA => sent_data (conn <| event := XTCP_SENT_DATA |>) st
    | _ => tftp_handle_event [] 0 (conn <| event := ev |>) st end) as Hev.
  { intros ev st Hu Hd Hst Hl. unfold tftp_handle_event. rewrite Hst. rewrite (bool_decide_eq_false_2 (TFTP_SENDING_ACK = TFTP_COMPLETE)) by done.
    change (local_port (conn <| event := ev |>)) with (local_port conn). rewrite Hl, Z.eqb_refl, andb_false_r. cbn. by destruct ev. }
  rewrite (Hev XTCP_REQUEST_DATA s2) by (done || (cbn; congruence)). rewrite bool_decide_eq_true_2 by done. cbn [num_tx_bytes s2 set_field andb].
  change (num_tx_bytes s2) with k. destruct (Z.ltb_spec 0 k); [|lia]. rewrite (Hev XTCP_SENT_DATA) by (done || (cbn; congruence)).
  f_equal. unfold s2, tcall. destruct s1. unfold set_field. cbn. by rewrite <- app_assoc.
Qed.

(** ** The packets of the sender *)

Definition write_request : list Z := [0; TFTP_OPCODE_WRQ] ++ TFTP_IMAGE_FILENAME ++ [0] ++ octet ++ [0].
Definition data_packet (num : Z) (d : list Z) : list Z := [0; TFTP_OPCODE_DATA; num / 256; num mod 256] ++ d.

Lemma process_write_request junk n s : tftp_process_packet (write_request ++ junk) n s = tftp_make_ack_pkt 0 s.
Proof.
  unfold tftp_process_packet. assert (rd8 (write_request ++ junk) 0 = 0 /\ rd8 (write_request ++ junk) (0 + 1) = 2) as [H0 H1] by done.
  rewrite rd_n16_value; rewrite ?H0, ?H1; [|unfold u8; lia..]. change (256 * 0 + 2) with 2.
  change (2 =? TFTP_OPCODE_RRQ) with false. change (2 =? TFTP_OPCODE_WRQ) with true. cbv iota zeta.
  assert (starts_with (write_request ++ junk) 2 TFTP_IMAGE_FILENAME = true) as -> by (by apply bool_decide_eq_true).
  assert (strlen_at (write_request ++ junk) 2 = 11) as -> by reflexivity.
  assert (starts_with (write_request ++ junk) (2 + 11 + TFTP_NULL_BYTE) octet = true) as -> by (by apply bool_decide_eq_true).
  reflexivity.
Qed.
Lemma process_data_packet num d junk n s : u16 num ->
  tftp_process_packet (data_packet num d ++ junk) n s = process_data (data_packet num d ++ junk) n s /\
  rd_n16 (data_packet num d ++ junk) 2 = num.
Proof.
  intros Hn. split.
  - unfold tftp_process_packet. assert (rd8 (data_packet num d ++ junk) 0 = 0 /\ rd8 (data_packet num d ++ junk) (0 + 1) = 3) as [H0 H1] by done.
    rewrite rd_n16_value; rewrite ?H0, ?H1; [|unfold u8; lia..]. change (256 * 0 + 3) with 3.
    change (3 =? TFTP_OPCODE_RRQ) with false. change (3 =? TFTP_OPCODE_WRQ) with false. change (3 =? TFTP_OPCODE_DATA) with true. reflexivity.
  - assert (rd8 (data_packet num d ++ junk) 2 = num / 256 /\ rd8 (data_packet num d ++ junk) (2 + 1) = num mod 256) as [H0 H1] by done.
    unfold u16 in Hn. rewrite rd_n16_value; rewrite ?H0, ?H1; [zdm|unfold u8; zdm..].
Qed.

(** What sending a reply leaves. *)
Lemma sent_reply (conn : xtcp_connection_t) p (a : A) cs (s1 : tftp A) num reply : local_tid s1 = local_port conn ->
  id (tftp_conn s1) = id conn -> tx_ok s1 -> support_prev_block_num s1 = p -> app s1 = a -> tftp_calls s1 = cs ->
  let s2 := sent_data (conn <| event := XTCP_SENT_DATA |>)
    (s1 <| num_tx_bytes := num |> <| tftp_state := TFTP_SENDING_ACK |>
        <| tftp_calls ::= fun l => l ++ [Tftp_init_send (id conn); Tftp_send reply] |>) in
  if negb (signal_error s1 =? 0) then
    ended TFTP_WAITING_FOR_CONNECTION (local_port conn) p (tftp_app_transfer_error a)
      (cs ++ replied conn reply ++ [Tftp_close (id conn)]) s2
  else if negb (signal_complete s1 =? 0) then
    ended TFTP_COMPLETE (local_port conn) p (tftp_app_transfer_complete a)
      (cs ++ replied conn reply ++ [Tftp_close (id conn)]) s2
  else waiting conn p a (cs ++ replied conn reply) s2.
Proof.
  intros Hp Hc Ht Hprev Ha Hcs. destruct s1 as [st lt bn pb tx nt tc se sc sp ap cl].
  cbn [local_tid tftp_conn signal_error tx_buffer support_prev_block_num app tftp_calls signal_complete] in *. subst.
  unfold replied. tftp_eval. destruct (Z.eqb_spec se 0) as [->|Hse]; [|by tftp_fields]. destruct (Z.eqb_spec sc 0) as [->|Hsc]; by tftp_fields.
Qed.

(** ** What the application has stored *)

Lemma ack_sent num x s : firstn (Z.to_nat 4) (tx_buffer (s <| tx_buffer := ack num ++ x |>)) = ack num.
Proof. reflexivity. Qed.
Lemma tx_ok_ack num s : tx_ok s -> tx_ok (s <| tx_buffer := ack num ++ skipn 4 (tx_buffer s) |>).
Proof. unfold tx_ok. cbn. rewrite length_skipn. lia. Qed.

Lemma exchange_write_request conn junk n p (a : A) cs (s : tftp A) : waiting conn p a cs s ->
  waiting conn p a (cs ++ replied conn (ack 0)) (tftp_run (exchange conn (write_request ++ junk) n) s).
Proof.
  intros [Hs Hp Hc He Hcm Ht Hpr Ha Hcs]. destruct (make_ack 0 s) as (s1 & Hm & ->); [unfold u16; lia|done|].
  rewrite (exchange_run conn _ n s 4 _ Hs Hp Hc (eq_trans (process_write_request junk n s) Hm)) by (done || lia).
  rewrite ack_sent. pose proof (tx_ok_ack 0 s Ht) as Ht1.
  set (s1 := s <| tx_buffer := ack 0 ++ skipn 4 (tx_buffer s) |>) in *.
  pose proof (sent_reply conn p a cs s1 4 (ack 0) Hp Hc Ht1 Hpr Ha Hcs) as H1.
  cbv zeta in H1. change (signal_error s1) with (signal_error s) in H1.
  change (signal_complete s1) with (signal_complete s) in H1. by rewrite He, Hcm in H1.
Qed.

(** The application stores the bytes it is given, [d], and reports no error. *)
Context (store : list Z -> A -> A).
Definition stores : Prop :=
  forall d junk a, tftp_app_process_data_block (d ++ junk) (Z.of_nat (length d)) a = (0, store d a).

Definition taken (num : Z) (d : list Z) (p : Z) (a : A) : Z * A := if num =? p + 1 then (num, store d a) else (p, a).
Definition is_last (d : list Z) : bool := (length d <? 512)%nat.

Lemma process_data_value num d junk p (a : A) (s : tftp A) : stores -> u16 num -> num * 512 < 131072 ->
  support_prev_block_num s = p -> app s = a -> tx_ok s ->
  exists s1, tftp_process_packet (data_packet num d ++ junk) (4 + Z.of_nat (length d)) s = (4, s1) /\
    tftp_state s1 = tftp_state s /\ local_tid s1 = local_tid s /\ tftp_conn s1 = tftp_conn s /\
    signal_error s1 = signal_error s /\ tftp_calls s1 = tftp_calls s /\ tx_ok s1 /\
    signal_complete s1 = (if is_last d then 1 else signal_complete s) /\
    (support_prev_block_num s1, app s1) = taken num d p a /\ firstn 4 (tx_buffer s1) = ack num.
Proof.
  intros Hst Hn Hmax Hp Ha Ht. destruct (process_data_packet num d junk (4 + Z.of_nat (length d)) s Hn) as [-> Hnum].
  unfold process_data. rewrite Hnum. unfold TFTP_BLOCK_SIZE, TFTP_MIN_PKT_SIZE, taken, is_last.
  replace (4 + Z.of_nat (length d) <? 512 + 4) with (length d <? 512)%nat
    by (destruct (Nat.ltb_spec (length d) 512), (Z.ltb_spec (4 + Z.of_nat (length d)) (512 + 4)); lia).
  set (s0 := (if (length d <? 512)%nat then s <| signal_complete := 1 |> else s) <| block_num := num |>).
  assert (support_prev_block_num s0 = p /\ app s0 = a /\ tx_buffer s0 = tx_buffer s /\ tftp_state s0 = tftp_state s /\
    local_tid s0 = local_tid s /\ tftp_conn s0 = tftp_conn s /\ signal_error s0 = signal_error s /\ tftp_calls s0 = tftp_calls s /\
    signal_complete s0 = (if (length d <? 512)%nat then 1 else signal_complete s)) as (E1 & E2 & E3 & E4 & E5 & E6 & E7 & E8 & E9)
    by (unfold s0; destruct (length d <? 512)%nat; repeat split; done).
  clearbody s0. cbv zeta. rewrite E1. destruct (Z.eqb_spec num (p + 1)) as [Hnp|Hnp].
  - change TFTP_MAX_FILE_SIZE with 131072. destruct (Z.leb_spec 131072 (num * 512)); [lia|].
    change (app (s0 <| support_prev_block_num := num |>)) with (app s0).
    replace (4 + Z.of_nat (length d) - 4) with (Z.of_nat (length d)) by lia.
    change (skipn 4 (data_packet num d ++ junk)) with (d ++ junk). rewrite E2, Hst. cbv beta iota zeta. change (negb (0 =? 0)) with false. cbv iota.
    destruct (make_ack num (s0 <| support_prev_block_num := num |> <| app := store d a |>) Hn) as (s1 & -> & ->); [by unfold tx_ok; cbn; rewrite E3|].
    eexists. split; [done|]. repeat split; try done. unfold tx_ok. cbn. rewrite length_skipn, E3. unfold tx_ok in Ht. lia.
  - destruct (make_ack num s0 Hn) as (s1 & -> & ->); [by unfold tx_ok; rewrite E3|].
    eexists. split; [done|]. repeat split; try done; [by apply tx_ok_ack; unfold tx_ok; rewrite E3|]. cbn. by rewrite E1, E2.
Qed.

Lemma exchange_data conn num d junk p (a : A) cs (s : tftp A) : stores -> u16 num -> num * 512 < 131072 -> waiting conn p a cs s ->
  let s' := tftp_run (exchange conn (data_packet num d ++ junk) (4 + Z.of_nat (length d))) s in
  let '(p', a') := taken num d p a in
  if is_last d then ended TFTP_COMPLETE (local_port conn) p' (tftp_app_transfer_complete a')
    (cs ++ replied conn (ack num) ++ [Tftp_close (id conn)]) s'
  else waiting conn p' a' (cs ++ replied conn (ack num)) s'.
Proof.
  intros Hst Hn Hmax [Hs Hp Hc He Hcm Ht Hpr Ha Hcs]. cbv zeta.
  destruct (process_data_value num d junk p a s Hst Hn Hmax Hpr Ha Ht) as (s1 & Hm & E1 & E2 & E3 & E4 & E5 & E6 & E7 & E8 & E9).
  rewrite (exchange_run conn _ _ s 4 s1 Hs Hp Hc Hm) by (done || lia). change (Z.to_nat 4) with 4%nat. rewrite E9. rewrite <- E8.
  pose proof (sent_reply conn _ _ cs s1 4 (ack num) (eq_trans E2 Hp) (eq_trans (f_equal id E3) Hc) E6 eq_refl eq_refl (eq_trans E5 Hcs)) as H1.
  cbv zeta in H1. rewrite E4, He, E7, Hcm in H1. destruct (is_last d); exact H1.
Qed.

(** ** A transfer *)

(** The data packets of the file cut in [chunks], numbered from [num]; [junk]
    is what the receive buffer holds behind a packet. *)
Fixpoint data_events (conn : xtcp_connection_t) (junk : Z -> list Z) (num : Z) (chunks : list (list Z)) : list tftp_event :=
  match chunks with
  | [] => []
  | d :: chunks =>
      exchange conn (data_packet num d ++ junk num) (4 + Z.of_nat (length d)) ++ data_events conn junk (num + 1) chunks
  end.
Fixpoint data_replies (conn : xtcp_connection_t) (num : Z) (chunks : list (list Z)) : list tftp_call :=
  match chunks with
  | [] => []
  | _ :: chunks => replied conn (ack num) ++ data_replies conn (num + 1) chunks
  end.
(** The last number taken and the application after the packets. *)
Fixpoint deliver (num : Z) (chunks : list (list Z)) (p : Z) (a : A) : Z * A :=
  match chunks with
  | [] => (p, a)
  | d :: chunks => let '(p, a) := taken num d p a in deliver (num + 1) chunks p a
  end.
Definition stored (chunks : list (list Z)) (a : A) : A := fold_left (fun a d => store d a) chunks a.

Lemma deliver_stored (p : Z) chunks : forall num (a : A), 1 <= num <= p + 1 ->
  deliver num chunks p a =
  (Z.max p (num + Z.of_nat (length chunks) - 1), stored (skipn (Z.to_nat (p + 1 - num)) chunks) a).
Proof.
  revert p. induction chunks as [|d chunks IH]; intros p num a Hn; cbn [deliver length].
  - rewrite skipn_nil. cbn. f_equal. lia.
  - unfold taken. destruct (Z.eqb_spec num (p + 1)) as [->|Hne].
    + rewrite IH by lia. rewrite !Z.sub_diag. change (Z.to_nat 0) with 0%nat. cbn. f_equal. lia.
    + rewrite IH by lia. f_equal; [lia|]. replace (Z.to_nat (p + 1 - num)) with (S (Z.to_nat (p + 1 - (num + 1)))) by lia. done.
Qed.

Lemma data_run conn junk chunks : stores -> Forall (fun d => is_last d = false) chunks ->
  forall num p (a : A) cs (s : tftp A), 0 <= num -> num + Z.of_nat (length chunks) <= 256 -> waiting conn p a cs s ->
  let '(p', a') := deliver num chunks p a in
  waiting conn p' a' (cs ++ data_replies conn num chunks) (tftp_run (data_events conn junk num chunks) s).
Proof.
  intros Hst Hfull. induction Hfull as [|d chunks Hd _ IH]; intros num p a cs s H0 Hn Hw; cbn [deliver data_events data_replies].
  - by rewrite app_nil_r.
  - cbn [length] in Hn. rewrite tftp_run_app.
    pose proof (exchange_data conn num d (junk num) p a cs s Hst ltac:(unfold u16; lia) ltac:(lia) Hw) as H1.
    cbv zeta in H1. destruct (taken num d p a) as [p1 a1]. rewrite Hd in H1.
    specialize (IH (num + 1) p1 a1 _ _ ltac:(lia) ltac:(lia) H1). by rewrite <- app_assoc in IH.
Qed.

(** A new connection, from the port [TFTP_DEFAULT_PORT]. *)
Definition bound (conn : xtcp_connection_t) (tid : Z) : xtcp_connection_t := conn <| local_port := w16 (tid + 1) |>.
Definition opened (conn : xtcp_connection_t) (tid : Z) : list tftp_call :=
  [Tftp_bind_local (id conn) (w16 (tid + 1)); Tftp_set_poll_interval (id conn) 3000; Tftp_bind_local (id conn) (w16 (tid + 1))].
Lemma connection_opened conn tid p (a : A) cs (s : tftp A) : ended TFTP_WAITING_FOR_CONNECTION tid p a cs s ->
  local_port conn = TFTP_DEFAULT_PORT -> fst (tftp_app_transfer_begin a) = 0 ->
  waiting (bound conn tid) p (snd (tftp_app_transfer_begin a)) (cs ++ opened conn tid)
    (tftp_handle_event [] 0 (conn <| event := XTCP_NEW_CONNECTION |>) s).
Proof.
  intros [Hs Hp He Hcm Ht Hpr Ha Hcs] Hport Hb. unfold tftp_handle_event. rewrite Hs. rewrite bool_decide_eq_false_2 by done.
  change (local_port (conn <| event := XTCP_NEW_CONNECTION |>)) with (local_port conn). rewrite Hport. rewrite andb_false_r. cbn [andb].
  change (event (conn <| event := XTCP_NEW_CONNECTION |>)) with XTCP_NEW_CONNECTION. cbv iota. unfold new_connection.
  rewrite Hs. rewrite bool_decide_eq_true_2 by done. change (local_port (conn <| event := XTCP_NEW_CONNECTION |>)) with (local_port conn).
  rewrite Hport, Z.eqb_refl. cbn [andb]. destruct s as [st lt bn pb tx nt tc se sc sp ap cl]. cbn in *. subst.
  destruct (tftp_app_transfer_begin a) as [r a1]. cbn in Hb. subst r. cbn. tftp_eval. by tftp_fields.
Qed.

(** The events of a transfer: a new connection, the write request, the blocks. *)
Definition transfer (conn : xtcp_connection_t) (tid : Z) (junk : Z -> list Z) (chunks : list (list Z)) : list tftp_event :=
  ([], 0, conn <| event := XTCP_NEW_CONNECTION |>) ::
  exchange (bound conn tid) (write_request ++ junk 0) (Z.of_nat (length write_request)) ++ data_events (bound conn tid) junk 1 chunks.
Definition transfer_calls (conn : xtcp_connection_t) (tid : Z) (chunks : list (list Z)) : list tftp_call :=
  opened conn tid ++ replied (bound conn tid) (ack 0) ++ data_replies (bound conn tid) 1 chunks.

Definition fulls (l : list (list Z)) : Prop := Forall (fun d => length d = 512%nat) l.
Lemma fulls_not_last l : fulls l -> Forall (fun d => is_last d = false) l.
Proof. apply Forall_impl. intros d Hd. unfold is_last. by rewrite Hd. Qed.

(** The connection, the write request and full blocks. *)
Lemma blocks_run conn tid junk sent p (a : A) cs (s : tftp A) : stores -> 0 <= p -> ended TFTP_WAITING_FOR_CONNECTION tid p a cs s ->
  local_port conn = TFTP_DEFAULT_PORT -> fst (tftp_app_transfer_begin a) = 0 -> fulls sent -> (length sent <= 255)%nat ->
  waiting (bound conn tid) (Z.max p (Z.of_nat (length sent)))
    (stored (skipn (Z.to_nat p) sent) (snd (tftp_app_transfer_begin a)))
    (cs ++ transfer_calls conn tid sent)
    (tftp_run (transfer conn tid junk sent) s).
Proof.
  intros Hst Hp0 He Hport Hb Hf Hl. unfold transfer. cbn [tftp_run]. rewrite tftp_run_app.
  pose proof (connection_opened conn tid p a cs s He Hport Hb) as Hw.
  apply exchange_write_request with (junk := junk 0) (n := Z.of_nat (length write_request)) in Hw.
  pose proof (data_run (bound conn tid) junk sent Hst (fulls_not_last _ Hf) 1 p _ _ _ ltac:(lia) ltac:(lia) Hw) as H1.
  rewrite (deliver_stored p sent 1) in H1 by lia.
  replace (Z.max p (1 + Z.of_nat (length sent) - 1)) with (Z.max p (Z.of_nat (length sent))) in H1 by lia.
  rewrite Z.add_simpl_r in H1. unfold transfer_calls. rewrite <- !app_assoc in H1. exact H1.
Qed.

Lemma data_events_app conn junk l l' num : data_events conn junk num (l ++ l') =
  data_events conn junk num l ++ data_events conn junk (num + Z.of_nat (length l)) l'.
Proof.
  revert num. induction l as [|d l IH]; intros num; cbn [data_events length Datatypes.app]; [by rewrite Z.add_0_r|].
  rewrite IH, <- app_assoc. by replace (num + 1 + Z.of_nat (length l)) with (num + Z.of_nat (S (length l))) by lia.
Qed.
Lemma data_replies_app conn l l' num : data_replies conn num (l ++ l') =
  data_replies conn num l ++ data_replies conn (num + Z.of_nat (length l)) l'.
Proof.
  revert num. induction l as [|d l IH]; intros num; cbn [data_replies length Datatypes.app]; [by rewrite Z.add_0_r|].
  rewrite IH, <- app_assoc. by replace (num + 1 + Z.of_nat (length l)) with (num + Z.of_nat (S (length l))) by lia.
Qed.
Lemma stored_app l l' (a : A) : stored (l ++ l') a = stored l' (stored l a).
Proof. apply fold_left_app. Qed.

(** A whole transfer, whatever the number of the last block taken was. *)
Lemma transfer_run conn tid junk full last p (a : A) cs (s : tftp A) : stores -> 0 <= p -> ended TFTP_WAITING_FOR_CONNECTION tid p a cs s ->
  local_port conn = TFTP_DEFAULT_PORT -> fst (tftp_app_transfer_begin a) = 0 ->
  fulls full -> (length last < 512)%nat -> (length full <= 254)%nat ->
  ended TFTP_COMPLETE (w16 (tid + 1)) (Z.max p (Z.of_nat (length full) + 1))
    (tftp_app_transfer_complete (stored (skipn (Z.to_nat p) (full ++ [last])) (snd (tftp_app_transfer_begin a))))
    (cs ++ transfer_calls conn tid (full ++ [last]) ++ [Tftp_close (id conn)])
    (tftp_run (transfer conn tid junk (full ++ [last])) s).
Proof.
  intros Hst Hp0 He Hport Hb Hf Hlast Hl.
  pose proof (blocks_run conn tid junk full p a cs s Hst Hp0 He Hport Hb Hf ltac:(lia)) as Hw.
  assert (transfer conn tid junk (full ++ [last]) = transfer conn tid junk full ++
    exchange (bound conn tid) (data_packet (Z.of_nat (length full) + 1) last ++ junk (Z.of_nat (length full) + 1)) (4 + Z.of_nat (length last))) as ->.
  { unfold transfer. rewrite data_events_app. cbn [data_events]. rewrite app_nil_r. replace (1 + Z.of_nat (length full)) with (Z.of_nat (length full) + 1) by lia.
    rewrite <- app_comm_cons, <- app_assoc. done. }
  rewrite tftp_run_app.
  pose proof (exchange_data _ (Z.of_nat (length full) + 1) last (junk (Z.of_nat (length full) + 1)) _ _ _ _ Hst
    ltac:(unfold u16; lia) ltac:(lia) Hw) as H1. cbv zeta in H1.
  assert (is_last last = true) as Hil by (apply Nat.ltb_lt, Hlast). rewrite Hil in H1. clear Hw.
  set (n := length full) in *. set (a0 := snd (tftp_app_transfer_begin a)) in *.
  assert (taken (Z.of_nat n + 1) last (Z.max p (Z.of_nat n)) (stored (skipn (Z.to_nat p) full) a0) =
    (Z.max p (Z.of_nat n + 1), stored (skipn (Z.to_nat p) (full ++ [last])) a0)) as Htk.
  { unfold taken. rewrite skipn_app, stored_app. fold n. destruct (Z.eqb_spec (Z.of_nat n + 1) (Z.max p (Z.of_nat n) + 1)).
    - replace (Z.to_nat p - n)%nat with 0%nat by lia. cbn [skipn stored fold_left]. f_equal. lia.
    - replace (Z.to_nat p - n)%nat with (S (pred (Z.to_nat p - n))) by lia. cbn [skipn]. rewrite skipn_nil. cbn. f_equal. lia. }
  rewrite Htk in H1. change (local_port (bound conn tid)) with (w16 (tid + 1)) in H1. change (id (bound conn tid)) with (id conn) in H1.
  unfold transfer_calls in *. rewrite data_replies_app. cbn [data_replies]. fold n. rewrite app_nil_r.
  replace (1 + Z.of_nat n) with (Z.of_nat n + 1) by lia. rewrite <- !app_assoc in *. exact H1.
Qed.

(** Two polls without a packet end a transfer. *)
Definition timeout (conn : xtcp_connection_t) : list tftp_event :=
  [([], 0, conn <| event := XTCP_POLL |>); ([], 0, conn <| event := XTCP_POLL |>)].
Lemma poll_event conn s : tftp_state s <> TFTP_COMPLETE -> local_tid s = local_port conn ->
  tftp_handle_event [] 0 (conn <| event := XTCP_POLL |>) s = poll s.
Proof.
  intros Hs Hp. unfold tftp_handle_event. rewrite bool_decide_eq_false_2 by done.
  change (local_port (conn <| event := XTCP_POLL |>)) with (local_port conn). by rewrite Hp, Z.eqb_refl, andb_false_r.
Qed.
Lemma timeout_run conn p (a : A) cs (s : tftp A) : waiting conn p a cs s ->
  ended TFTP_WAITING_FOR_CONNECTION (local_port conn) p a (cs ++ [Tftp_close (id conn)]) (tftp_run (timeout conn) s).
Proof.
  intros [Hs Hp Hc He Hcm Ht Hpr Ha Hcs]. unfold timeout. cbn [tftp_run].
  rewrite (poll_event conn s) by (done || congruence).
  assert (forall s0, tftp_state s0 = TFTP_WAITING_FOR_DATA -> prev_block_num s0 = block_num s0 ->
    poll s0 = (tftp_close (tftp_conn s0) s0) <| tftp_state := TFTP_WAITING_FOR_CONNECTION |>) as Hclose.
  { intros s0 H0 H1. unfold poll. by rewrite H0, bool_decide_eq_true_2, H1, Z.eqb_refl by done. }
  assert (forall s0, tftp_state s0 = TFTP_WAITING_FOR_CONNECTION \/ prev_block_num s0 <> block_num s0 ->
    poll s0 = s0 <| prev_block_num := block_num s0 |>) as Hkeep.
  { intros s0 [H0|H0]; unfold poll; [by rewrite H0, bool_decide_eq_false_2 by done|].
    apply Z.eqb_neq in H0. by rewrite H0, andb_false_r. }
  destruct (Z.eq_dec (prev_block_num s) (block_num s)) as [Heq|Hne].
  - rewrite (Hclose s) by done. destruct s as [st lt bn pb tx nt tc se sc sp ap cl]. cbn in *. subst.
    rewrite poll_event by done. rewrite Hkeep by (by left). tftp_eval. by tftp_fields; rewrite Hc.
  - rewrite (Hkeep s) by (by right). rewrite poll_event by (by cbn; rewrite ?Hs). rewrite Hclose by done.
    destruct s as [st lt bn pb tx nt tc se sc sp ap cl]. cbn in *. subst. tftp_eval. by tftp_fields; rewrite Hc.
Qed.

(** C19: a write request, then the blocks of a file in order (all of 512 bytes
    but the last, which is shorter, at most 255 in all), from a server that has
    taken no block since it started: every packet is acknowledged with its
    number, the application is given exactly the blocks, in order, then the end
    of the transfer; the connection is closed and no other is accepted. *)
Theorem tftp_transfer conn tid junk full last (a : A) cs (s : tftp A) : stores ->
  ended TFTP_WAITING_FOR_CONNECTION tid 0 a cs s -> local_port conn = TFTP_DEFAULT_PORT ->
  fst (tftp_app_transfer_begin a) = 0 -> fulls full -> (length last < 512)%nat -> (length full <= 254)%nat ->
  let s' := tftp_run (transfer conn tid junk (full ++ [last])) s in
  tftp_state s' = TFTP_COMPLETE /\
  app s' = tftp_app_transfer_complete (stored (full ++ [last]) (snd (tftp_app_transfer_begin a))) /\
  tftp_calls s' = cs ++ transfer_calls conn tid (full ++ [last]) ++ [Tftp_close (id conn)] /\
  forall rx n c, tftp_handle_event rx n c s' = s'.
Proof.
  intros Hst He Hport Hb Hf Hl Hn. destruct (transfer_run conn tid junk full last 0 a cs s Hst ltac:(lia) He Hport Hb Hf Hl Hn) as [H1 _ _ _ _ _ H2 H3].
  cbv zeta. split; [done|]. split; [exact H2|]. split; [exact H3|]. intros. unfold tftp_handle_event. by rewrite bool_decide_eq_true_2.
Qed.

(** C30: a transfer that is given up by the sender after some blocks, and its
    retry: the number of the last block taken is kept, so that the retry is
    acknowledged exactly as a transfer that succeeds, and reported complete,
    but the application is given only the blocks that the first attempt did
    not reach - none when it reached them all but the end. *)
Theorem tftp_retry_loses_blocks conn conn' tid junk junk' sent rest last (a : A) cs (s : tftp A) : stores ->
  ended TFTP_WAITING_FOR_CONNECTION tid 0 a cs s ->
  local_port conn = TFTP_DEFAULT_PORT -> local_port conn' = TFTP_DEFAULT_PORT ->
  (forall a, fst (tftp_app_transfer_begin a) = 0) ->
  fulls sent -> fulls rest -> (length last < 512)%nat -> (length sent + length rest <= 254)%nat ->
  let tid' := w16 (tid + 1) in
  let begun a := snd (tftp_app_transfer_begin a) in
  let s1 := tftp_run (transfer conn tid junk sent ++ timeout (bound conn tid)) s in
  let s2 := tftp_run (transfer conn' tid' junk' ((sent ++ rest) ++ [last])) s1 in
  tftp_state s1 = TFTP_WAITING_FOR_CONNECTION /\ app s1 = stored sent (begun a) /\
  tftp_state s2 = TFTP_COMPLETE /\
  tftp_calls s2 = tftp_calls s1 ++ transfer_calls conn' tid' ((sent ++ rest) ++ [last]) ++ [Tftp_close (id conn')] /\
  app s2 = tftp_app_transfer_complete (stored (rest ++ [last]) (begun (app s1))).
Proof.
  intros Hst He Hp Hp' Hb Hsent Hrest Hlast Hn tid' begun s1 s2.
  assert (ended TFTP_WAITING_FOR_CONNECTION tid' (Z.of_nat (length sent)) (stored sent (begun a))
    ((cs ++ transfer_calls conn tid sent) ++ [Tftp_close (id conn)]) s1) as H1.
  { unfold s1. rewrite tftp_run_app.
    pose proof (blocks_run conn tid junk sent 0 a cs s Hst ltac:(lia) He Hp (Hb a) Hsent ltac:(lia)) as Hw.
    rewrite Z.max_r in Hw by lia. apply timeout_run in Hw. exact Hw. }
  pose proof (transfer_run conn' tid' junk' (sent ++ rest) last (Z.of_nat (length sent)) _ _ s1 Hst ltac:(lia) H1 Hp' (Hb _)
    (proj2 (Forall_app _ _ _) (conj Hsent Hrest)) Hlast ltac:(rewrite length_app; lia)) as [E1 _ _ _ _ _ E2 E3].
  fold s2 in E1, E2, E3. destruct H1 as [G1 _ _ _ _ _ G2 G3]. rewrite G2, G3. split; [done|]. split; [done|]. split; [done|].
  split; [exact E3|]. rewrite E2. rewrite <- app_assoc, Nat2Z.id, skipn_app, skipn_all, Nat.sub_diag. done.
Qed.
End runs.
