(* ===== verification/TftpErrors.v ===== *)
(** * Refusals of the TFTP server, and what it ever sends

    The replies to packets that end a transfer, and the invariant of the reply
    under construction: whatever is received, in whatever order the events of
    the TCP/IP server come, only well-formed packets are sent. *)
From S2P Require Export TftpRun.
Local Open Scope Z_scope.

Section errors.
Context `{!NetTypes} {A : Type} `{!TftpApp A}.
Implicit Types s : tftp A.

(** ** Refusals *)

(** What the server refuses, of the fields of a packet: the error code, the
    message, the last block taken and the application. *)
Definition refusal (rx : list Z) (n p : Z) (a : A) : option (Z * list Z * Z * A) :=
  let opcode := rd_n16 rx 0 in
  let num := rd_n16 rx 2 in
  if opcode =? TFTP_OPCODE_RRQ then Some (TFTP_ERROR_NOT_DEFINED, read_not_supported, p, a)
  else if opcode =? TFTP_OPCODE_WRQ then
    if negb (starts_with rx 2 TFTP_IMAGE_FILENAME) then Some (TFTP_ERROR_NOT_DEFINED, invalid_filename, p, a)
    else if negb (starts_with rx (2 + strlen_at rx 2 + 1) octet) then Some (TFTP_ERROR_NOT_DEFINED, invalid_transfer_mode, p, a)
    else None
  else if opcode =? TFTP_OPCODE_DATA then
    if negb (num =? p + 1) then None
    else if TFTP_MAX_FILE_SIZE <=? num * TFTP_BLOCK_SIZE then Some (TFTP_ERROR_DISK_FULL, [], num, a)
    else if fst (tftp_app_process_data_block (skipn 4 rx) (n - 4) a) =? 0 then None
    else Some (TFTP_ERROR_ACCESS_VIOLATION, [], num, snd (tftp_app_process_data_block (skipn 4 rx) (n - 4) a))
  else if opcode =? TFTP_OPCODE_ERROR then None
  else Some (TFTP_ERROR_ILLEGAL_OPERATION, [], p, a).

Lemma rd_n16_u16 b i : bytes b -> u16 (rd_n16 b i).
Proof.
  intros Hb. pose proof (rd8_u8 b i Hb) as H0. pose proof (rd8_u8 b (i + 1) Hb) as H1.
  rewrite rd_n16_value by done. unfold u8, u16 in *. lia.
Qed.
Lemma TFTP_codes : u16 TFTP_ERROR_NOT_DEFINED /\ u16 TFTP_ERROR_ACCESS_VIOLATION /\ u16 TFTP_ERROR_DISK_FULL /\ u16 TFTP_ERROR_ILLEGAL_OPERATION.
Proof. done. Qed.

(** A reply made in a state that differs from [s] in nothing a reply needs. *)
Definition same_session s s' : Prop :=
  tftp_state s' = tftp_state s /\ local_tid s' = local_tid s /\ tftp_conn s' = tftp_conn s /\
  tftp_calls s' = tftp_calls s /\ tx_buffer s' = tx_buffer s.
Lemma refused_reply code msg p (a : A) s s0 : u16 code -> bytes msg -> (length msg <= 24)%nat -> tx_ok s -> same_session s s0 ->
  support_prev_block_num s0 = p -> app s0 = a ->
  exists s1, tftp_make_error_pkt code msg true s0 = (5 + Z.of_nat (length msg), s1) /\
    tftp_state s1 = tftp_state s /\ local_tid s1 = local_tid s /\ tftp_conn s1 = tftp_conn s /\ tftp_calls s1 = tftp_calls s /\
    tx_ok s1 /\ signal_error s1 = 1 /\ support_prev_block_num s1 = p /\ app s1 = a /\
    firstn (5 + length msg) (tx_buffer s1) = error_packet code msg.
Proof.
  intros Hc Hm Hl Ht (E1 & E2 & E3 & E4 & E5) Hp Ha.
  destruct (make_error code msg true s0 Hc Hm Hl) as (s1 & -> & ->); [by unfold tx_ok; rewrite E5|].
  assert (length (error_packet code msg) = 5 + length msg)%nat as Hlen by (unfold error_packet; rewrite !length_app; cbn; lia).
  eexists. split; [done|]. repeat split; try done.
  - unfold tx_ok. cbn -[error_packet Nat.add]. rewrite length_app, length_skipn, Hlen, E5. unfold tx_ok in Ht. lia.
  - cbn -[error_packet Nat.add]. by rewrite <- Hlen, firstn_app, firstn_all, Nat.sub_diag, firstn_O, app_nil_r.
Qed.
Ltac refused_here :=
  eexists; split; [done|]; split; [by repeat split|]; split; [done|]; split; [done|]; split; [done|]; split; [constructor|cbn; lia].
Lemma refusal_processed rx n code msg p p' (a a' : A) s : bytes rx -> tx_ok s -> support_prev_block_num s = p -> app s = a ->
  refusal rx n p a = Some (code, msg, p', a') ->
  exists s0, tftp_process_packet rx n s = tftp_make_error_pkt code msg true s0 /\ same_session s s0 /\
    support_prev_block_num s0 = p' /\ app s0 = a' /\ u16 code /\ bytes msg /\ (length msg <= 24)%nat.
Proof.
  intros Hb Ht Hp Ha. unfold refusal, tftp_process_packet, process_data. change (2 + strlen_at rx 2 + TFTP_NULL_BYTE) with (2 + strlen_at rx 2 + 1).
  assert (rx_number : u16 (rd_n16 rx 2)) by (by apply rd_n16_u16).
  assert (forall m b0, forallb (fun x => (0 <=? x) && (x <? 256)) m = true -> (length m <=? 24)%nat = true -> u16 b0 ->
    Some (b0, m, p, a) = Some (code, msg, p', a') -> exists s0, tftp_make_error_pkt b0 m true s = tftp_make_error_pkt code msg true s0 /\
    same_session s s0 /\ support_prev_block_num s0 = p' /\ app s0 = a' /\ u16 code /\ bytes msg /\ (length msg <= 24)%nat) as Hsame.
  { intros m b0 Hm Hl%Nat.leb_le Hc [= -> -> -> ->]. exists s. repeat split; try done; try apply Hc. by apply forallb_bytes. }
  pose proof TFTP_codes as (Hc0 & Hc2 & Hc3 & Hc4).
  destruct (rd_n16 rx 0 =? TFTP_OPCODE_RRQ); [by apply Hsame|].
  destruct (rd_n16 rx 0 =? TFTP_OPCODE_WRQ).
  { destruct (starts_with rx 2 TFTP_IMAGE_FILENAME); cbn [negb]; [|by apply Hsame].
    destruct (starts_with rx (2 + strlen_at rx 2 + 1) octet); cbn [negb]; [done|by apply Hsame]. }
  destruct (rd_n16 rx 0 =? TFTP_OPCODE_DATA).
  - set (s0 := (if n <? TFTP_BLOCK_SIZE + TFTP_MIN_PKT_SIZE then s <| signal_complete := 1 |> else s) <| block_num := rd_n16 rx 2 |>).
    assert (same_session s s0 /\ support_prev_block_num s0 = p /\ app s0 = a) as (E1 & E2 & E3)
      by (unfold s0; destruct (n <? TFTP_BLOCK_SIZE + TFTP_MIN_PKT_SIZE); repeat split; done).
    clearbody s0. cbv zeta. rewrite E2. destruct (rd_n16 rx 2 =? p + 1); cbn [negb]; [|done].
    change (app (s0 <| support_prev_block_num := rd_n16 rx 2 |>)) with (app s0). rewrite E3. change (n - TFTP_MIN_PKT_SIZE) with (n - 4).
    destruct E1 as (S1 & S2 & S3 & S4 & S5).
    destruct (TFTP_MAX_FILE_SIZE <=? rd_n16 rx 2 * TFTP_BLOCK_SIZE).
    + intros [=]; subst. refused_here.
    + destruct (tftp_app_process_data_block (skipn 4 rx) (n - 4) a) as [r a1]. cbn [fst snd]. destruct (r =? 0); cbn [negb]; [done|].
      intros [=]; subst. refused_here.
  - destruct (rd_n16 rx 0 =? TFTP_OPCODE_ACK) eqn:Hack.
    + apply Z.eqb_eq in Hack. rewrite Hack. change (TFTP_OPCODE_ACK =? TFTP_OPCODE_ERROR) with false. cbv iota. by apply Hsame.
    + destruct (rd_n16 rx 0 =? TFTP_OPCODE_ERROR); [done|]. by apply Hsame.
Qed.

(** C29: a packet that the server refuses - a read request, a write request of
    another file or in another mode, a block past the size limit or that the
    application does not take, an acknowledgement, an unknown opcode - is
    answered with the error packet of its reason; when that has been sent the
    application is told, the connection is closed and the server waits for
    another. *)
Theorem tftp_refused conn rx n code msg p p' (a a' : A) cs s : waiting conn p a cs s -> bytes rx ->
  refusal rx n p a = Some (code, msg, p', a') ->
  ended TFTP_WAITING_FOR_CONNECTION (local_port conn) p' (tftp_app_transfer_error a')
    (cs ++ replied conn (error_packet code msg) ++ [Tftp_close (id conn)]) (tftp_run (exchange conn rx n) s).
Proof.
  intros [Hs Hp Hc He Hcm Ht Hpr Ha Hcs] Hb Hr.
  destruct (refusal_processed rx n code msg p p' a a' s Hb Ht Hpr Ha Hr) as (s0 & Hm & Hss & Ep & Ea & Hcode & Hmsg & Hlen).
  destruct (refused_reply code msg p' a' s s0 Hcode Hmsg Hlen Ht Hss Ep Ea) as (s1 & Hm1 & E1 & E2 & E3 & E4 & E5 & E6 & E7 & E8 & E9).
  rewrite (exchange_run conn rx n s _ s1 Hs Hp Hc (eq_trans Hm Hm1)) by (done || lia).
  replace (Z.to_nat (5 + Z.of_nat (length msg))) with (5 + length msg)%nat by lia. rewrite E9.
  pose proof (sent_reply conn p' a' cs s1 (5 + Z.of_nat (length msg)) (error_packet code msg) (eq_trans E2 Hp)
    (eq_trans (f_equal id E3) Hc) E5 E7 E8 (eq_trans E4 Hcs)) as H1.
  cbv zeta in H1. rewrite E6 in H1. exact H1.
Qed.

(** An error packet of the sender ends the transfer without a reply. *)
Lemma tftp_error_received conn rx n p (a : A) cs s : waiting conn p a cs s -> rd_n16 rx 0 = TFTP_OPCODE_ERROR ->
  ended TFTP_WAITING_FOR_CONNECTION (local_port conn) p (tftp_app_transfer_error a) (cs ++ [Tftp_close (id conn)])
    (tftp_handle_event rx n (conn <| event := XTCP_RECV_DATA |>) s).
Proof.
  intros [Hs Hp Hc He Hcm Ht Hpr Ha Hcs] Hr. unfold tftp_handle_event. rewrite Hs, bool_decide_eq_false_2 by done.
  change (local_port (conn <| event := XTCP_RECV_DATA |>)) with (local_port conn). rewrite <- Hp, Z.eqb_refl, andb_false_r.
  change (event (conn <| event := XTCP_RECV_DATA |>)) with XTCP_RECV_DATA. cbv iota. unfold recv_data.
  rewrite Hs, bool_decide_eq_true_2 by done. change (id (conn <| event := XTCP_RECV_DATA |>)) with (id conn).
  rewrite Hc, Z.eqb_refl. cbn [andb]. unfold tftp_process_packet. rewrite Hr.
  destruct s as [st lt bn pb tx nt tc se sc sp ap cl]. cbn in *. subst. tftp_eval. by tftp_fields.
Qed.

(** ** What is ever sent *)

Definition reply_packet (d : list Z) : Prop :=
  (exists num, u16 num /\ d = ack num) \/
  (exists code msg, u16 code /\ bytes msg /\ (length msg <= 24)%nat /\ d = error_packet code msg).
Definition sends_reply (c : tftp_call) : Prop := match c with Tftp_send d => reply_packet d | _ => True end.
(** The reply under construction, and the log. *)
Record tx_inv s : Prop := TxInv {
  ti_buffer : tx_ok s;
  ti_reply : num_tx_bytes s <= 0 \/ reply_packet (firstn (Z.to_nat (num_tx_bytes s)) (tx_buffer s));
  ti_calls : Forall sends_reply (tftp_calls s) }.
Definition reply_ok (cs : list tftp_call) (r : Z * tftp A) : Prop :=
  tx_ok (snd r) /\ (fst r <= 0 \/ reply_packet (firstn (Z.to_nat (fst r)) (tx_buffer (snd r)))) /\ tftp_calls (snd r) = cs.

Lemma ack_reply num s : u16 num -> tx_ok s -> reply_ok (tftp_calls s) (tftp_make_ack_pkt num s).
Proof.
  intros Hn Ht. destruct (make_ack num s Hn Ht) as (s1 & -> & ->). split; [by apply tx_ok_ack|]. split; [|done].
  right. left. by exists num.
Qed.
Lemma error_reply code msg (e : bool) s : u16 code -> bytes msg -> (length msg <= 24)%nat -> tx_ok s ->
  reply_ok (tftp_calls s) (tftp_make_error_pkt code msg e s).
Proof.
  intros Hc Hm Hl Ht. destruct (make_error code msg e s Hc Hm Hl Ht) as (s1 & -> & ->).
  assert (length (error_packet code msg) = 5 + length msg)%nat as Hlen by (unfold error_packet; rewrite !length_app; cbn; lia).
  split; [|split].
  - unfold tx_ok, fst, snd. unfold set_field. cbn -[error_packet Nat.add]. rewrite length_app, length_skipn, Hlen. unfold tx_ok in Ht. lia.
  - right. right. exists code, msg. repeat (split; [done|]). unfold fst, snd. replace (Z.to_nat (5 + Z.of_nat (length msg))) with (5 + length msg)%nat by lia.
    cbn -[error_packet Nat.add]. by rewrite <- Hlen, firstn_app, firstn_all, Nat.sub_diag, firstn_O, app_nil_r.
  - by destruct e.
Qed.
Lemma error_reply_here code msg (e : bool) s : u16 code -> forallb (fun x => (0 <=? x) && (x <? 256)) msg = true ->
  (length msg <=? 24)%nat = true -> tx_ok s -> reply_ok (tftp_calls s) (tftp_make_error_pkt code msg e s).
Proof. intros Hc Hm Hl%Nat.leb_le Ht. apply error_reply; try done. by apply forallb_bytes. Qed.
Lemma process_packet_reply rx n s : bytes rx -> tx_ok s -> reply_ok (tftp_calls s) (tftp_process_packet rx n s).
Proof.
  intros Hb Ht. pose proof TFTP_codes as (Hc0 & Hc2 & Hc3 & Hc4). unfold tftp_process_packet.
  destruct (rd_n16 rx 0 =? TFTP_OPCODE_RRQ); [by apply error_reply_here|].
  destruct (rd_n16 rx 0 =? TFTP_OPCODE_WRQ).
  { destruct (negb _); [by apply error_reply_here|]. destruct (negb _); [by apply error_reply_here|]. apply ack_reply; [done|exact Ht]. }
  destruct (rd_n16 rx 0 =? TFTP_OPCODE_DATA).
  - unfold process_data. set (s0 := (if n <? TFTP_BLOCK_SIZE + TFTP_MIN_PKT_SIZE then s <| signal_complete := 1 |> else s) <| block_num := rd_n16 rx 2 |>).
    assert (tx_ok s0 /\ tftp_calls s0 = tftp_calls s) as [Ht0 <-] by (unfold s0; by destruct (n <? TFTP_BLOCK_SIZE + TFTP_MIN_PKT_SIZE)).
    clearbody s0. cbv zeta. pose proof (rd_n16_u16 rx 2 Hb) as Hn. destruct (_ =? _ + 1); [|by apply ack_reply].
    set (s2 := s0 <| support_prev_block_num := rd_n16 rx 2 |>). assert (tx_ok s2) by done. change (tftp_calls s0) with (tftp_calls s2).
    clearbody s2. destruct (_ <=? _); [by apply error_reply_here|].
    destruct (tftp_app_process_data_block _ _ _) as [r a1]. set (s1 := s2 <| app := a1 |>).
    assert (tx_ok s1) by done. change (tftp_calls s2) with (tftp_calls s1). clearbody s1. destruct (negb _); [by apply error_reply_here|by apply ack_reply].
  - destruct (_ =? _); [by apply error_reply_here|]. destruct (_ =? _); [|by apply error_reply_here].
    split; [done|]. split; [by left|done].
Qed.

Lemma tx_inv_same s s' : tx_inv s -> tx_buffer s' = tx_buffer s -> num_tx_bytes s' = num_tx_bytes s -> tftp_calls s' = tftp_calls s -> tx_inv s'.
Proof. intros [H1 H2 H3] E1 E2 E3. split; [by unfold tx_ok; rewrite E1|by rewrite E1, E2|by rewrite E3]. Qed.
Lemma tx_inv_idle s s' : tx_inv s -> tx_buffer s' = tx_buffer s -> num_tx_bytes s' <= 0 -> tftp_calls s' = tftp_calls s -> tx_inv s'.
Proof. intros [H1 H2 H3] E1 E2 E3. split; [by unfold tx_ok; rewrite E1|by left|by rewrite E3]. Qed.
Lemma tx_inv_call c s : tx_inv s -> sends_reply c -> tx_inv (tcall c s).
Proof. intros [H1 H2 H3] Hc. split; [done|done|]. cbn. apply Forall_app. split; [done|]. by constructor. Qed.
Lemma tx_inv_close conn s : tx_inv s -> tx_inv (tftp_close conn s).
Proof. intros Hi. by apply (tx_inv_idle (tcall (Tftp_close (id conn)) s)); [apply tx_inv_call|..]. Qed.
Lemma tx_inv_reply s k s1 : Forall sends_reply (tftp_calls s) -> reply_ok (tftp_calls s) (k, s1) -> tx_inv (s1 <| num_tx_bytes := k |>).
Proof. intros Hc (H1 & H2 & H3). split; [done|done|]. unfold snd in H3. cbn. by rewrite H3. Qed.

Lemma new_connection_inv conn s : tx_inv s -> tx_inv (new_connection conn s).
Proof.
  intros Hi. unfold new_connection. destruct (_ && _); [|done]. cbv zeta.
  set (s1 := tcall _ _). assert (tx_inv s1) as H1.
  { apply tx_inv_call; [|done]. by apply (tx_inv_same s). }
  clearbody s1. destruct (tftp_app_transfer_begin (app s1)) as [r a1]. set (s2 := s1 <| app := a1 |>).
  assert (tx_inv s2) as H2 by (by apply (tx_inv_same s1)). clearbody s2.
  assert (forall s, tx_inv s -> tx_inv ((tcall (Tftp_bind_local (id conn) (local_tid s)) (tcall (Tftp_set_poll_interval (id conn)
    (TFTP_TIMEOUT_SECONDS * 1000)) (s <| tftp_conn := conn |>))) <| tftp_state := TFTP_WAITING_FOR_DATA |>)) as Hopen.
  { intros s0 H0. apply (tx_inv_same (tcall (Tftp_bind_local (id conn) (local_tid s0)) (tcall (Tftp_set_poll_interval (id conn)
      (TFTP_TIMEOUT_SECONDS * 1000)) (s0 <| tftp_conn := conn |>)))); [|done..].
    apply tx_inv_call; [|done]. apply tx_inv_call; [|done]. by apply (tx_inv_same s0). }
  destruct (negb (r =? 0)); [|exact (Hopen s2 H2)].
  pose proof (error_reply_here TFTP_ERROR_NOT_DEFINED application_error false s2) as Hr. unfold tftp_process_app_error.
  destruct (tftp_make_error_pkt _ _ _ s2) as [k s3]. specialize (Hr (proj1 TFTP_codes) eq_refl eq_refl (ti_buffer _ H2)).
  apply (tx_inv_reply s2 k s3 (ti_calls _ H2)) in Hr. set (s4 := s3 <| num_tx_bytes := k |> <| signal_error := 1 |>).
  assert (tx_inv s4) as H4 by (by apply (tx_inv_same (s3 <| num_tx_bytes := k |>))). clearbody s4.
  destruct (0 <? num_tx_bytes s4); [|exact (Hopen s4 H4)].
  apply (tx_inv_same (tcall (Tftp_init_send (id conn)) s4)); [by apply tx_inv_call|done..].
Qed.
Lemma recv_data_inv rx n conn s : bytes rx -> tx_inv s -> tx_inv (recv_data rx n conn s).
Proof.
  intros Hb Hi. unfold recv_data. destruct (_ && _); [|done]. pose proof (process_packet_reply rx n s Hb (ti_buffer _ Hi)) as Hr.
  destruct (tftp_process_packet rx n s) as [k s1]. apply (tx_inv_reply s k s1 (ti_calls _ Hi)) in Hr.
  set (s2 := s1 <| num_tx_bytes := k |>) in *. clearbody s2. cbv zeta. destruct (0 <? num_tx_bytes s2).
  - apply (tx_inv_same (tcall (Tftp_init_send (id conn)) s2)); [by apply tx_inv_call|done..].
  - apply (tx_inv_same (tftp_close conn (s2 <| app ::= tftp_app_transfer_error |>))); [|done..].
    apply tx_inv_close. by apply (tx_inv_same s2).
Qed.
Lemma sent_data_inv conn s : tx_inv s -> tx_inv (sent_data conn s).
Proof.
  intros Hi. unfold sent_data. cbv zeta. set (s1 := (tcall Tftp_complete_send s) <| num_tx_bytes := 0 |>).
  assert (tx_inv s1) as H1 by (by apply (tx_inv_idle (tcall Tftp_complete_send s)); [apply tx_inv_call|..]). clearbody s1.
  assert (forall s' st, tx_inv s' -> tx_inv ((tftp_close conn s') <| tftp_state := st |>)) as Hclose.
  { intros s' st Hi'. apply (tx_inv_same (tftp_close conn s')); [by apply tx_inv_close|done..]. }
  destruct (negb _); [|destruct (negb _)]; [apply Hclose; by apply (tx_inv_same s1)..|by apply (tx_inv_same s1)].
Qed.
Lemma handle_event_inv rx n conn s : bytes rx -> tx_inv s -> tx_inv (tftp_handle_event rx n conn s).
Proof.
  intros Hb Hi. unfold tftp_handle_event. destruct (bool_decide _); [done|]. destruct (_ && _); [done|].
  assert (tx_inv (if bool_decide (tftp_state s = TFTP_SENDING_ACK) && (0 <? num_tx_bytes s)
    then tcall (Tftp_send (firstn (Z.to_nat (num_tx_bytes s)) (tx_buffer s))) s else s)) as Hsend.
  { destruct (Z.ltb_spec 0 (num_tx_bytes s)); [|by rewrite andb_false_r]. destruct (_ && _); [|done].
    apply tx_inv_call; [done|]. by destruct (ti_reply _ Hi) as [?|?]; [lia|]. }
  destruct (event conn); try exact Hsend; clear Hsend; try done.
  - by apply new_connection_inv.
  - by apply recv_data_inv.
  - by apply sent_data_inv.
  - unfold poll. destruct (_ && _); [|by apply (tx_inv_same s)].
    apply (tx_inv_same (tftp_close (tftp_conn s) s)); [by apply tx_inv_close|done..].
  - by apply (tx_inv_same s).
  - destruct (_ || _); [|done]. apply tx_inv_close. by apply (tx_inv_same s).
Qed.

(** C28: whatever arrives on any connection, and in whatever order the events
    come, the server started by [tftp_init] only ever sends acknowledgements
    and error packets, complete and within its buffer of 29 bytes. *)
Theorem tftp_replies_wellformed l s : tx_ok s -> tftp_calls s = [] -> Forall (fun '(rx, _, _) => bytes rx) l ->
  forall d, In (Tftp_send d) (tftp_calls (tftp_run l (tftp_init s))) -> reply_packet d /\ (4 <= length d <= 29)%nat.
Proof.
  intros Ht Hc Hl d Hd. assert (tx_inv (tftp_init s)) as Hi.
  { apply tx_inv_call; [|done]. split; [done|left; cbn; lia|]. change (Forall sends_reply (tftp_calls s)). by rewrite Hc. }
  revert Hi Hd. generalize (tftp_init s). induction Hl as [|[[rx n] conn] l Hrx _ IH]; intros s0 Hi Hd; cbn [tftp_run] in Hd.
  - pose proof (proj1 (Forall_forall _ _) (ti_calls _ Hi) _ Hd) as Hr. split; [exact Hr|].
    destruct Hr as [(num & _ & ->)|(code & msg & _ & _ & Hlen & ->)]; [cbn; lia|].
    unfold error_packet. rewrite !length_app. cbn. lia.
  - by eapply IH, Hd; apply handle_event_inv.
Qed.
End errors.
