(* ===== verification/TftpExamples.v ===== *)
(** * The TFTP theorems at concrete inputs

    An application that keeps the blocks in a list, network order types that
    compute, and the witnesses of the theorems of TftpRun and TftpErrors. *)
From S2P Require Export TftpErrors.
Local Open Scope Z_scope.

#[export] Instance net_types : NetTypes.
Proof.
  refine {| hton16 x := (x / 256, x mod 256); ntoh16 b := 256 * fst b + snd b |}; done.
Defined.

(** The blocks of the transfer, and how it ended: 1 complete, 2 error. *)
Definition blocks_app : Type := list (list Z) * Z.
#[export] Instance keeps_blocks : TftpApp blocks_app := {|
  tftp_app_transfer_begin _ := (0, ([], 0));
  tftp_app_process_data_block data n a := (0, (fst a ++ [firstn (Z.to_nat n) data], snd a));
  tftp_app_transfer_complete a := (fst a, 1);
  tftp_app_transfer_error a := (fst a, 2) |}.
Definition keep (d : list Z) (a : blocks_app) : blocks_app := (fst a ++ [d], snd a).
Lemma keeps_stores : stores keep.
Proof. intros d junk a. cbn. by rewrite Nat2Z.id, firstn_app, firstn_all, Nat.sub_diag, firstn_O, app_nil_r. Qed.

Definition tftp_conn_1 : xtcp_connection_t :=
  XtcpConnection 3 XTCP_PROTOCOL_UDP XTCP_SERVER_CONNECTION XTCP_NEW_CONNECTION 0 (U4 192 168 0 9) 4000 TFTP_DEFAULT_PORT 0.
Definition tftp_conn_2 : xtcp_connection_t := tftp_conn_1 <| id := 4 |>.
(** As the variables are before [tftp_init]. *)
Definition tftp_off : tftp blocks_app :=
  Tftp _ TFTP_IDLE TFTP_SOURCE_TID_SEED 0 0 (repeat 0 29) 0 tftp_conn_1 0 0 0 ([], 0) [].
Definition tftp_up : tftp blocks_app := tftp_handle_event [] 0 (tftp_conn_1 <| event := XTCP_IFUP |>) (tftp_init tftp_off).
Lemma tftp_up_ended : ended TFTP_WAITING_FOR_CONNECTION TFTP_SOURCE_TID_SEED 0 ([], 0) [Tftp_listen 69] tftp_up.
Proof. by split. Qed.
Definition block_1 : list Z := repeat 1 512.
Definition junk_0 (_ : Z) : list Z := [9; 9; 9].

Lemma fulls_block_1 : fulls [block_1].
Proof. by repeat constructor. Qed.

Lemma tftp_transfer_witness :
  app (tftp_run (transfer tftp_conn_1 TFTP_SOURCE_TID_SEED junk_0 [block_1; [5; 6]]) tftp_up) = ([block_1; [5; 6]], 1).
Proof.
  pose proof (tftp_transfer keep tftp_conn_1 TFTP_SOURCE_TID_SEED junk_0 [block_1] [5; 6] _ _ _ keeps_stores tftp_up_ended
    eq_refl eq_refl fulls_block_1 ltac:(cbn; lia) ltac:(cbn; lia)) as (_ & H & _). exact H.
Defined.
(** The retry of a transfer of two blocks that stopped before the second. *)
Lemma tftp_retry_loses_blocks_witness :
  let s1 := tftp_run (transfer tftp_conn_1 TFTP_SOURCE_TID_SEED junk_0 [block_1] ++ timeout (bound tftp_conn_1 TFTP_SOURCE_TID_SEED)) tftp_up in
  app (tftp_run (transfer tftp_conn_2 (w16 (TFTP_SOURCE_TID_SEED + 1)) junk_0 [block_1; [5; 6]]) s1) = ([[5; 6]], 1).
Proof.
  pose proof (tftp_retry_loses_blocks keep tftp_conn_1 tftp_conn_2 TFTP_SOURCE_TID_SEED junk_0 junk_0 [block_1] [] [5; 6] _ _ _
    keeps_stores tftp_up_ended eq_refl eq_refl (fun _ => eq_refl) fulls_block_1 (List.Forall_nil _) ltac:(cbn; lia) ltac:(cbn; lia)) as (_ & _ & _ & _ & H).
  exact H.
Defined.

(** A transfer that has been accepted, and a read request. *)
Definition tftp_open : tftp blocks_app := tftp_handle_event [] 0 (tftp_conn_1 <| event := XTCP_NEW_CONNECTION |>) tftp_up.
Definition read_request : list Z := [0; TFTP_OPCODE_RRQ] ++ TFTP_IMAGE_FILENAME ++ [0] ++ octet ++ [0].
Lemma bytes_checked m : forallb (fun x => (0 <=? x) && (x <? 256)) m = true -> bytes m.
Proof. apply forallb_bytes. Qed.
Lemma tftp_refused_witness :
  ended TFTP_WAITING_FOR_CONNECTION (w16 (TFTP_SOURCE_TID_SEED + 1)) 0 ([], 2)
    (tftp_calls tftp_open ++ replied tftp_conn_1 (error_packet 0 read_not_supported) ++ [Tftp_close 3])
    (tftp_run (exchange (bound tftp_conn_1 TFTP_SOURCE_TID_SEED) read_request 20) tftp_open).
Proof.
  pose proof (tftp_refused (bound tftp_conn_1 TFTP_SOURCE_TID_SEED) read_request 20 0 read_not_supported 0 0 ([], 0) ([], 0)
    (tftp_calls tftp_open) tftp_open ltac:(by split) ltac:(by apply bytes_checked) eq_refl) as H.
  exact H.
Defined.
Definition read_attempt : list tftp_event :=
  [([], 0, tftp_conn_1 <| event := XTCP_IFUP |>); ([], 0, tftp_conn_1 <| event := XTCP_NEW_CONNECTION |>);
   (read_request, 20, tftp_conn_1 <| event := XTCP_RECV_DATA |>); ([], 0, tftp_conn_1 <| event := XTCP_REQUEST_DATA |>)].
Lemma tftp_replies_wellformed_witness :
  let d := error_packet 0 read_not_supported in
  In (Tftp_send d) (tftp_calls (tftp_run read_attempt (tftp_init tftp_off))) /\ reply_packet d /\ (4 <= length d <= 29)%nat.
Proof.
  assert (In (Tftp_send (error_packet 0 read_not_supported)) (tftp_calls (tftp_run read_attempt (tftp_init tftp_off)))) as Hin
    by (vm_compute; tauto).
  split; [exact Hin|]. apply (tftp_replies_wellformed read_attempt tftp_off); [reflexivity|reflexivity| |exact Hin].
  do 4 (apply List.Forall_cons; [by apply bytes_checked|]). constructor.
Defined.
