(* ===== verification/MdnsName.v ===== *)
(** * Names of mDNS: the string functions of [mdns.c]

    Encoding, skipping and comparing domain names, and the names of the reverse
    mapping.  A C string is the list of its characters, without the final null
    byte.  A function that writes at a pointer and returns its end is the list
    of the bytes it writes.  [msg] is the memory from the start of a received
    message on, and pointers into it are offsets; [char] is unsigned on the
    target. *)
From S2P Require Export Loops UipLib.
Local Open Scope Z_scope.

(** * The functions *)

(** Ten digits are enough for an [int]. *)
Fixpoint itoa_digits (fuel : nat) (x : Z) : list Z :=
  match fuel with
  | O => []
  | S fuel =>
      let digit := Z.rem x 10 in
      let x := Z.quot x 10 in
      w8 (digit + 48) :: (if x =? 0 then [] else itoa_digits fuel x)
  end.
(** The digits are written backwards and reversed in place. *)
Definition mdns_itoa (x : Z) : list Z := rev (itoa_digits 10 x).

Fixpoint take_label (src : list Z) : list Z * list Z :=
  match src with
  | [] => ([], [])
  | c :: src' => if c =? DOT then ([], src) else let '(l, r) := take_label src' in (c :: l, r)
  end.
Fixpoint encode_labels (fuel : nat) (src : list Z) : list Z :=
  match fuel with
  | O => []
  | S fuel =>
      let '(l, src) := take_label src in
      let src := tl src in
      w8 (Z.of_nat (length l)) :: l ++ (match src with [] => [] | _ => encode_labels fuel src end)
  end.
Definition mdns_encode_name (src : list Z) : list Z := encode_labels (S (length src)) src ++ [0].

Definition in_addr : list Z := [105; 110; 45; 97; 100; 100; 114].
Definition arpa : list Z := [97; 114; 112; 97].
Definition mdns_encode_ip (addr : u8x4) : list Z :=
  let field a := let d := mdns_itoa a in w8 (Z.of_nat (length d)) :: d in
  field (q3 addr) ++ field (q2 addr) ++ field (q1 addr) ++ field (q0 addr)
  ++ 7 :: in_addr ++ 4 :: arpa ++ [0].

Definition compressed (n : Z) : bool := Z.land n 0xc0 =? 0xc0.

Section messages.
Variable msg : list Z.

Definition pointer_offset (n query : Z) : Z := Z.shiftl (Z.land n 0x3f) 8 + rd8 msg query.

(** [Some None] is the null pointer; [None] is a loop that does not end. *)
Fixpoint parse_name_loop (fuel : nat) (query limit : Z) (saved_endptr : option Z) : option (option Z) :=
  match fuel with
  | O => None
  | S fuel =>
      let n := rd8 msg query in
      let query := query + 1 in
      if limit <? query then Some None
      else
        let '(query, saved_endptr) :=
          if compressed n then
            (pointer_offset n query, match saved_endptr with None => Some (query + 1) | _ => saved_endptr end)
          else (query + n, saved_endptr) in
        if (compressed n || (0 <? n)) && (limit <? query) then Some None
        else if negb (rd8 msg query =? 0) then parse_name_loop fuel query limit saved_endptr
        else Some (Some (default query saved_endptr + 1))
  end.
(** The loop is at most once at each offset up to the limit. *)
Definition name_fuel (limit : Z) : nat := S (Z.to_nat (limit + 1)).
Definition mdns_parse_name (query limit : Z) : option (option Z) :=
  if limit <? query then Some None else parse_name_loop (name_fuel limit) query limit None.

(** The inner loop: a return value, or what is left of both names. *)
Fixpoint compare_label (n : nat) (query : list Z) (response : Z) : Z + (list Z * Z) :=
  match n, query with
  | S n, c :: query' =>
      let r := rd8 msg response in
      if r <? c then inl 1 else if c <? r then inl 255 else compare_label n query' (response + 1)
  | _, _ => inr (query, response)
  end.
Definition compare_end (query : list Z) (response : Z) : Z :=
  match query with
  | _ :: _ => 1
  | [] => if negb (rd8 msg response =? 0) then 255 else 0
  end.
(** The query gets shorter at each turn. *)
Fixpoint compare_loop (fuel : nat) (query : list Z) (response : Z) : Z :=
  match fuel with
  | O => compare_end query response
  | S fuel =>
      let n := rd8 msg response in
      let response := response + 1 in
      if compressed n then compare_end query (pointer_offset n response)
      else
        match compare_label (Z.to_nat n) query response with
        | inl r => r
        | inr (query, response) =>
            let query := tl query in
            if negb (rd8 msg response =? 0) && negb (bool_decide (query = []))
            then compare_loop fuel query response
            else compare_end query response
        end
  end.
Definition mdns_compare_name (query : list Z) (response : Z) : Z := compare_loop (S (length query)) query response.

(** The digits of a field, from the last. *)
Fixpoint rev_field (n : nat) (query base sum : Z) (res : bool) : Z * bool :=
  match n with
  | O => (sum, res)
  | S n =>
      let query := query - 1 in
      let c := rd8 msg query in
      if is_digit c then rev_field n query (base * 10) (sum + (c - 48) * base) res
      else rev_field n query (base * 10) sum false
  end.
Definition set_field_ip (curField v : Z) (a : u8x4) : u8x4 :=
  match curField with
  | 0 => a <| q3 := v |> | 1 => a <| q2 := v |> | 2 => a <| q1 := v |> | _ => a <| q0 := v |>
  end.
Fixpoint rev_ip_loop (fuel : nat) (query curField : Z) (res : bool) (addr : u8x4) : Z * bool * u8x4 :=
  match fuel with
  | O => (query, res, addr)
  | S fuel =>
      let n := rd8 msg query in
      let query := query + 1 in
      if compressed n then (pointer_offset n query, res, addr)
      else
        let query := query + n in
        let '(addr, res, curField) :=
          if (curField <? 4) && res then
            let '(addr, res) :=
              if n <=? 3 then
                let '(sum, res) := rev_field (Z.to_nat n) query 1 0 res in
                if 255 <? sum then (addr, false) else (set_field_ip curField sum addr, res)
              else (addr, false) in
            (addr, res, curField + 1)
          else (addr, res, curField) in
        if negb (rd8 msg query =? 0) && (curField <? 4) then rev_ip_loop fuel query curField res addr
        else (query, res, addr)
  end.
(** The result, and the address written through the pointer. *)
Definition mdns_parse_rev_ip (query : Z) (addr : u8x4) : bool * u8x4 :=
  let '(query, res, addr) := rev_ip_loop (S (length msg)) query 0 true addr in
  (res && (mdns_compare_name (in_addr ++ DOT :: arpa) query =? 0), addr).
End messages.

(** * Names as lists of labels *)

Definition label_ok (l : list Z) : Prop :=
  l <> [] /\ (length l <= 63)%nat /\ Forall (fun c => 0 < c < 256 /\ c <> DOT) l.
Definition name_ok (ls : list (list Z)) : Prop := ls <> [] /\ Forall label_ok ls.

(** In text, with dots, and on the wire, with lengths. *)
Fixpoint join (ls : list (list Z)) : list Z :=
  match ls with
  | [] => []
  | [l] => l
  | l :: ls => l ++ DOT :: join ls
  end.
Fixpoint wire (ls : list (list Z)) : list Z :=
  match ls with
  | [] => [0]
  | l :: ls => Z.of_nat (length l) :: l ++ wire ls
  end.

Lemma take_label_dot l r : Forall (fun c => 0 < c < 256 /\ c <> DOT) l -> take_label (l ++ DOT :: r) = (l, DOT :: r).
Proof.
  induction 1 as [|c l [_ Hc] _ IH]; cbn [app take_label]; [done|].
  destruct (Z.eqb_spec c DOT); [done|]. by rewrite IH.
Qed.
Lemma take_label_end l : Forall (fun c => 0 < c < 256 /\ c <> DOT) l -> take_label l = (l, []).
Proof.
  induction 1 as [|c l [_ Hc] _ IH]; cbn [take_label]; [done|]. destruct (Z.eqb_spec c DOT); [done|]. by rewrite IH.
Qed.
Lemma join_nonempty ls : name_ok ls -> join ls <> [].
Proof.
  intros [Hn Hl]. destruct ls as [|l [|l' ls]]; [done| |]; apply Forall_cons_iff in Hl as [(H & _) _]; [done|].
  cbn. by destruct l.
Qed.
Lemma name_ok_cons l l' ls : name_ok (l :: l' :: ls) <-> label_ok l /\ name_ok (l' :: ls).
Proof. unfold name_ok. rewrite Forall_cons_iff. intuition done. Qed.

Lemma encode_labels_wire ls : name_ok ls -> forall fuel, (length (join ls) < fuel)%nat ->
  encode_labels fuel (join ls) ++ [0] = wire ls.
Proof.
  induction ls as [|l ls IH]; [by intros [? _]|]. intros H fuel Hf. destruct fuel as [|fuel]; [lia|]. cbn [encode_labels].
  destruct ls as [|l' ls].
  - destruct H as [_ [(Hn & Hl & Hc) _]%Forall_cons_iff]. cbn [join wire]. rewrite take_label_end by done. cbn [tl].
    rewrite app_nil_r, w8_small by (unfold u8; lia). done.
  - apply name_ok_cons in H as [(Hn & Hl & Hc) H]. change (join (l :: l' :: ls)) with (l ++ DOT :: join (l' :: ls)) in *.
    rewrite take_label_dot by done. cbn [tl]. rewrite w8_small by (unfold u8; lia).
    destruct (join (l' :: ls)) as [|c r] eqn:E; [by apply join_nonempty in H|]. rewrite <- E in *.
    cbn [wire app]. f_equal. rewrite <- app_assoc. f_equal. apply IH; [done|].
    rewrite length_app in Hf. cbn [length] in Hf. lia.
Qed.
Lemma mdns_encode_name_wire ls : name_ok ls -> mdns_encode_name (join ls) = wire ls.
Proof. intros. unfold mdns_encode_name. apply encode_labels_wire; [done|lia]. Qed.

Section wire_names.
Variable msg : list Z.

Definition name_at (p : Z) (ls : list (list Z)) : Prop := 0 <= p /\ rds msg p (length (wire ls)) = wire ls.

Lemma rds_cons p n : rds msg p (S n) = rd8 msg p :: rds msg (p + 1) n.
Proof.
  change (S n) with (1 + n)%nat. rewrite rds_app. cbn [rds seq map]. by rewrite Z.add_0_r.
Qed.
Lemma name_at_nil p : name_at p [] -> rd8 msg p = 0.
Proof. intros [_ H]. cbn [wire length] in H. rewrite rds_cons in H. by injection H. Qed.
Lemma name_at_cons p l ls : name_at p (l :: ls) ->
  rd8 msg p = Z.of_nat (length l) /\ rds msg (p + 1) (length l) = l /\ name_at (p + 1 + Z.of_nat (length l)) ls.
Proof.
  intros [Hp H]. cbn [wire length] in H. rewrite rds_cons in H. injection H as H1 H2.
  rewrite length_app, rds_app in H2. apply app_inj_1 in H2 as [H2 H3]; [|by rewrite length_rds].
  split; [done|]. split; [done|]. split; [lia|done].
Qed.

(** The first byte of what follows a label. *)
Lemma name_at_next p ls : name_at p ls -> Forall label_ok ls -> rd8 msg p = 0 <-> ls = [].
Proof.
  intros Hp Hl. destruct ls as [|l ls].
  - apply name_at_nil in Hp. done.
  - apply name_at_cons in Hp as (-> & _). apply Forall_cons_iff in Hl as [(Hn & _) _]. split; [|done].
    destruct l; [done|cbn; lia].
Qed.
Lemma label_length_ok l : label_ok l -> compressed (Z.of_nat (length l)) = false /\ 0 < Z.of_nat (length l) < 64.
Proof.
  intros (Hn & Hl & _). split; [|destruct l; [done|cbn in *; lia]].
  assert (forallb (fun k => negb (compressed (Z.of_nat k))) (seq 0 64) = true) as H by (vm_compute; reflexivity).
  rewrite forallb_forall in H. specialize (H (length l)). apply negb_true_iff, H, in_seq. lia.
Qed.

(** ** Comparing *)

Lemma compare_label_hit l : forall q p, rds msg p (length l) = l ->
  compare_label msg (length l) (l ++ q) p = inr (q, p + Z.of_nat (length l)).
Proof.
  induction l as [|c l IH]; intros q p; cbn [length compare_label app]; [by rewrite Z.add_0_r|].
  rewrite rds_cons. intros [= -> H]. rewrite Z.ltb_irrefl, IH by done. f_equal. f_equal. lia.
Qed.
Lemma compare_label_miss l : forall q p, 0 <= p -> rds msg p (length l) = l -> Forall (fun c => 0 < c < 256 /\ c <> DOT) l ->
  (forall q', q <> l ++ q') ->
  (exists r, compare_label msg (length l) q p = inl r /\ r <> 0) \/
  (exists p', compare_label msg (length l) q p = inr ([], p') /\ rd8 msg p' <> 0).
Proof.
  induction l as [|c l IH]; intros q p Hp Hr Hc H; [by specialize (H q)|].
  cbn [length] in *. rewrite rds_cons in Hr. injection Hr as Hc1 Hr. apply Forall_cons_iff in Hc as [[Hc _] Hc'].
  destruct q as [|c' q]; cbn [compare_label].
  { right. exists p. split; [done|lia]. }
  rewrite Hc1. destruct (Z.ltb_spec c c'); [left; by exists 1|]. destruct (Z.ltb_spec c' c); [left; by exists 255|].
  assert (c' = c) as -> by lia. apply IH; [lia|done..|]. intros q' ->. by apply (H q').
Qed.

(** What the comparison accepts: the labels of the wire, with any character
    between them, and possibly one more at the end. *)
Fixpoint same_name (q : list Z) (ls : list (list Z)) : Prop :=
  match ls with
  | [] => False
  | [l] => q = l \/ exists c, q = l ++ [c]
  | l :: ls => exists c q', q = l ++ c :: q' /\ same_name q' ls
  end.
Lemma same_name_app l q ls : name_ok (l :: ls) ->
  same_name (l ++ q) (l :: ls) <-> match ls with [] => tl q = [] | _ => q <> [] /\ same_name (tl q) ls end.
Proof.
  intros _. destruct ls as [|l' ls]; cbn [same_name].
  - split.
    + intros [H|[c H]].
      * rewrite <- (app_nil_r l) in H at 2. by apply app_inv_head in H as ->.
      * by apply app_inv_head in H as ->.
    + destruct q as [|c [|? ?]]; [left; by rewrite app_nil_r|right; by exists c|done].
  - split.
    + intros (c & q' & H & Hs). by apply app_inv_head in H as ->.
    + intros [Hq H]. destruct q as [|c q]; [done|]. by exists c, q.
Qed.
Lemma same_name_nonempty q ls : name_ok ls -> same_name q ls -> q <> [].
Proof.
  intros [Hn Hl] H ->. destruct ls as [|l [|l' ls]]; [done| |]; apply Forall_cons_iff in Hl as [(Hl & _) _]; cbn in H.
  - destruct H as [<-|[c H]]; [done|by destruct l].
  - destruct H as (c & q' & H & _). by destruct l.
Qed.
Lemma same_name_prefix q l ls : same_name q (l :: ls) -> exists q', q = l ++ q'.
Proof.
  destruct ls; cbn.
  - intros [->|[c ->]]; [exists []; by rewrite app_nil_r|by eexists].
  - intros (c & q' & -> & _). by eexists.
Qed.

Lemma compare_loop_spec ls : name_ok ls -> forall fuel q p, (length q < fuel)%nat -> name_at p ls ->
  compare_loop msg fuel q p = 0 <-> same_name q ls.
Proof.
  induction ls as [|l ls IH]; [by intros [? _]|]. intros Hok fuel q p Hf Hp. destruct fuel as [|fuel]; [lia|]. cbn [compare_loop].
  pose proof Hok as [_ [Hl Hls]%Forall_cons_iff]. destruct (label_length_ok l Hl) as [Hcmp _].
  pose proof (proj1 Hp) as Hp0. apply name_at_cons in Hp as (-> & Hr & Hnext). rewrite Hcmp, Nat2Z.id.
  destruct (decide (prefix l q)) as [[q' ->]|Hno].
  2:{ destruct Hl as (Hn & Hlen & Hc).
      destruct (compare_label_miss l q (p + 1)) as [(r & -> & Hr0)|(p' & -> & Hp')]; [lia|done..|by intros q' ->; apply Hno; eexists| |].
      - split; [done|]. intros [q' ->]%same_name_prefix. by destruct Hno; eexists.
      - cbn [tl]. rewrite andb_false_r. cbn [compare_end]. destruct (Z.eqb_spec (rd8 msg p') 0); [done|].
        split; [done|]. intros [q' ->]%same_name_prefix. by destruct Hno; eexists. }
  rewrite compare_label_hit by done. rewrite same_name_app by done.
  pose proof (name_at_next _ _ Hnext Hls) as Hz. destruct ls as [|l' ls].
  - pose proof (proj2 Hz eq_refl) as E. rewrite E. cbn [Z.eqb negb andb]. unfold compare_end. rewrite E. by destruct (tl q').
  - destruct (Z.eqb_spec (rd8 msg (p + 1 + Z.of_nat (length l))) 0) as [E|E]; [by apply Hz in E|]. cbn [negb andb].
    assert (name_ok (l' :: ls)) as Hok' by done.
    case_bool_decide as Et; cbn [negb].
    + rewrite Et. cbn [compare_end]. destruct (Z.eqb_spec (rd8 msg (p + 1 + Z.of_nat (length l))) 0); [done|].
      split; [done|]. intros [_ Hs]. by apply same_name_nonempty in Hs.
    + rewrite IH; [|done| |done].
      * destruct q'; [done|]. naive_solver.
      * rewrite length_app in Hf. destruct q'; [done|]. cbn in *. lia.
Qed.
End wire_names.

(** ** Skipping a name *)

Section skipping.
Variable msg : list Z.

Lemma parse_name_wire ls : name_ok ls -> forall fuel p limit, name_at msg p ls ->
  p + Z.of_nat (length (wire ls)) <= limit -> (length ls <= fuel)%nat ->
  parse_name_loop msg fuel p limit None = Some (Some (p + Z.of_nat (length (wire ls)))).
Proof.
  induction ls as [|l ls IH]; [by intros [? _]|]. intros Hok fuel p limit Hp Hl Hf.
  pose proof Hok as [_ [Hl1 Hls]%Forall_cons_iff]. destruct (label_length_ok l Hl1) as [Hcmp Hlen].
  destruct fuel as [|fuel]; [cbn in Hf; lia|]. cbn [parse_name_loop length wire] in *. rewrite length_app in *.
  assert (1 <= Z.of_nat (length (wire ls))) as Hw by (destruct ls; cbn [wire length]; lia).
  apply name_at_cons in Hp as (-> & Hr & Hnext). rewrite Hcmp.
  destruct (Z.ltb_spec limit (p + 1)); [lia|]. cbn [orb].
  destruct (Z.ltb_spec limit (p + 1 + Z.of_nat (length l))); [lia|]. rewrite andb_false_r.
  pose proof (name_at_next msg _ _ Hnext Hls) as Hz. destruct ls as [|l' ls].
  - rewrite (proj2 Hz) by done. cbn. do 2 f_equal. lia.
  - destruct (Z.eqb_spec (rd8 msg (p + 1 + Z.of_nat (length l))) 0) as [E|E]; [by apply Hz in E|]. cbn [negb].
    rewrite IH; [do 2 f_equal; lia|done|done|lia|cbn in *; lia].
Qed.

Lemma length_wire ls : (length ls <= length (wire ls))%nat.
Proof. induction ls; cbn [wire length]; [lia|]. rewrite length_app. lia. Qed.

Lemma mdns_parse_name_wire ls p limit : name_ok ls -> name_at msg p ls -> p + Z.of_nat (length (wire ls)) <= limit ->
  mdns_parse_name msg p limit = Some (Some (p + Z.of_nat (length (wire ls)))).
Proof.
  intros Hok Hp Hl. unfold mdns_parse_name. destruct (Z.ltb_spec limit p); [lia|].
  apply parse_name_wire; try done. unfold name_fuel. pose proof (length_wire ls). destruct Hp. lia.
Qed.

(** A compression pointer ends a name, but the result is one byte further. *)
Lemma mdns_parse_name_pointer p limit : 0 <= p -> p + 1 <= limit -> compressed (rd8 msg p) = true ->
  pointer_offset msg (rd8 msg p) (p + 1) <= limit -> rd8 msg (pointer_offset msg (rd8 msg p) (p + 1)) = 0 ->
  mdns_parse_name msg p limit = Some (Some (p + 2 + 1)).
Proof.
  intros Hp Hl Hc Ho Hz. unfold mdns_parse_name, name_fuel. cbn [parse_name_loop].
  destruct (Z.ltb_spec limit p), (Z.ltb_spec limit (p + 1)); try lia. rewrite Hc. cbn [orb].
  destruct (Z.ltb_spec limit (pointer_offset msg (rd8 msg p) (p + 1))); [lia|]. cbn [andb]. rewrite Hz. cbn.
  do 2 f_equal. lia.
Qed.
End skipping.

(** ** Names that never end *)

Section endless.
Variables (msg : list Z) (limit : Z).

(** The offset of the next label, when the loop goes on. *)
Definition next_label (query : Z) : option Z :=
  let n := rd8 msg query in
  let query := query + 1 in
  if limit <? query then None
  else
    let query := if compressed n then pointer_offset msg n query else query + n in
    if (compressed n || (0 <? n)) && (limit <? query) then None
    else if negb (rd8 msg query =? 0) then Some query else None.

Lemma parse_name_turns fuel : forall query saved,
  parse_name_loop msg fuel query limit saved = None <-> is_Some (turns next_label fuel query).
Proof.
  induction fuel as [|fuel IH]; intros query saved; cbn [parse_name_loop turns]; [by split; [eexists|]|].
  set (T := turns next_label fuel) in *. clearbody T. unfold next_label. cbv zeta. cbn [mbind option_bind]. destruct (limit <? query + 1); [by split; [|intros [? ?]]|].
  destruct (compressed (rd8 msg query)); cbn [orb].
  all: destruct (_ && _); [by split; [|intros [? ?]]|].
  all: destruct (negb _); [apply IH|by split; [|intros [? ?]]].
Qed.

Lemma next_label_range query query' : bytes msg -> 0 <= query -> next_label query = Some query' -> 0 <= query' < limit + 1.
Proof.
  intros Hb Hq. unfold next_label. destruct (Z.ltb_spec limit (query + 1)); [done|]. cbv zeta.
  pose proof (rd8_u8 msg query Hb) as Hn. pose proof (rd8_u8 msg (query + 1) Hb) as Hn'. unfold u8 in *.
  destruct (compressed (rd8 msg query)) eqn:Hc; cbn [orb].
  - assert (0 <= pointer_offset msg (rd8 msg query) (query + 1)).
    { unfold pointer_offset. pose proof (Z.shiftl_nonneg (Z.land (rd8 msg query) 63) 8).
      pose proof (Z.land_nonneg (rd8 msg query) 63). lia. }
    destruct (Z.ltb_spec limit (pointer_offset msg (rd8 msg query) (query + 1))); [done|]. cbn [andb].
    case_match; intros [= <-]; lia.
  - destruct (Z.ltb_spec 0 (rd8 msg query)), (Z.ltb_spec limit (query + 1 + rd8 msg query)); cbn [andb]; try done;
      case_match; intros [= <-]; lia.
Qed.

(** The bound on the loop of [mdns_parse_name] is exact: a name that has
    not ended after as many labels as the message has bytes has come back to an
    offset it had before, and is followed for ever. *)
Theorem parse_name_fuel_exact query : bytes msg -> 0 <= query <= limit -> mdns_parse_name msg query limit = None ->
  forall fuel saved, parse_name_loop msg fuel query limit saved = None.
Proof.
  intros Hb Hq Hp fuel saved. unfold mdns_parse_name in Hp. destruct (Z.ltb_spec limit query); [lia|].
  apply parse_name_turns in Hp. apply parse_name_turns.
  set (g := fun q => if 0 <=? q then next_label q else None).
  assert (forall n q, 0 <= q -> turns g n q = turns next_label n q) as Hg.
  { induction n as [|n IH]; intros q Hq'; cbn [turns]; [done|]. 
    assert (g q = next_label q) as -> by (unfold g; destruct (Z.leb_spec 0 q); [done|lia]).
    destruct (next_label q) as [q'|] eqn:E; [|done]. destruct (next_label_range q q' Hb Hq' E). by apply IH. }
  rewrite <- Hg by lia. apply (turns_forever g (limit + 1)).
  - intros x y. unfold g. destruct (Z.leb_spec 0 x); [|done]. by apply next_label_range.
  - lia.
  - eapply turns_before; [|rewrite Hg; [exact Hp|lia]]. unfold name_fuel. lia.
Qed.
End endless.

(** A name whose first label is a pointer to itself. *)
Definition endless_name : list Z := replicate 12 0 ++ [0xc0; 12; 0; 1; 0; 1].
Lemma parse_name_fuel_exact_witness : parse_name_loop endless_name 4000 12 18 None = None.
Proof.
  apply parse_name_fuel_exact; [|lia|vm_compute; reflexivity].
  unfold endless_name, bytes. cbn [replicate app]. repeat (apply Forall_cons; [unfold u8; lia|]). constructor.
Defined.

(** * Round trips *)

Fixpoint dots (q : list Z) : nat :=
  match q with [] => O | c :: q => ((if decide (c = DOT) then 1 else 0) + dots q)%nat end.
Lemma dots_app q1 q2 : dots (q1 ++ q2) = (dots q1 + dots q2)%nat.
Proof. induction q1 as [|c q1 IH]; cbn [dots app]; [done|]. rewrite IH. lia. Qed.
Lemma dots_label l : label_ok l -> dots l = O.
Proof.
  intros (_ & _ & H). induction H as [|c l [_ Hc] _ IH]; [done|]. cbn [dots]. by rewrite decide_False.
Qed.
Lemma dots_cons c q : dots (c :: q) = ((if decide (c = DOT) then 1 else 0) + dots q)%nat.
Proof. done. Qed.
Lemma dots_join ls : name_ok ls -> S (dots (join ls)) = length ls.
Proof.
  induction ls as [|l ls IH]; [by intros [? _]|]. intros Hok. destruct ls as [|l' ls].
  - destruct Hok as [_ [Hl _]%Forall_cons_iff]. cbn. by rewrite dots_label.
  - apply name_ok_cons in Hok as [Hl Hok]. change (join (l :: l' :: ls)) with (l ++ DOT :: join (l' :: ls)).
    rewrite dots_app, dots_label, dots_cons, decide_True by done. cbn [length]. specialize (IH Hok). cbn [length] in IH. lia.
Qed.

(** With the right length and number of dots, only the name itself is accepted. *)
Lemma same_name_exact ls : name_ok ls -> forall q, same_name q ls -> length q = length (join ls) ->
  (S (dots q) <= length ls)%nat /\ (S (dots q) = length ls -> q = join ls).
Proof.
  induction ls as [|l ls IH]; [by intros [? _]|]. intros Hok q Hs Hl. destruct ls as [|l' ls].
  - destruct Hok as [_ [Hlo _]%Forall_cons_iff]. destruct Hs as [->|[c ->]].
    + cbn. rewrite dots_label by done. split; [lia|done].
    + rewrite length_app in Hl. cbn in Hl. lia.
  - apply name_ok_cons in Hok as [Hlo Hok]. destruct Hs as (c & q' & -> & Hs).
    change (join (l :: l' :: ls)) with (l ++ DOT :: join (l' :: ls)) in *.
    rewrite !length_app in Hl. cbn [length] in Hl. destruct (IH Hok q' Hs ltac:(lia)) as [H1 H2].
    rewrite dots_app, dots_label, dots_cons by done. cbn [length] in *. case_decide as Hc.
    + subst c. split; [lia|]. intros H. by rewrite H2 by lia.
    + split; lia.
Qed.
Lemma same_name_join ls : name_ok ls -> same_name (join ls) ls.
Proof.
  induction ls as [|l [|l' ls] IH]; [by intros [? _]|by left|]. intros Hok. apply name_ok_cons in Hok as [Hl Hok].
  exists DOT, (join (l' :: ls)). split; [done|]. by apply IH.
Qed.
Lemma wire_inj ls1 : forall ls2, Forall label_ok ls1 -> Forall label_ok ls2 -> wire ls1 = wire ls2 -> ls1 = ls2.
Proof.
  induction ls1 as [|l1 ls1 IH]; intros [|l2 ls2] H1 H2; cbn [wire]; [done| | |].
  - apply Forall_cons_iff in H2 as [(Hn & _) _]. destruct l2; done.
  - apply Forall_cons_iff in H1 as [(Hn & _) _]. destruct l1; done.
  - apply Forall_cons_iff in H1 as [_ H1], H2 as [_ H2]. intros [= Hl He].
    apply app_inj_1 in He as [-> He]; [|lia]. f_equal. by apply IH.
Qed.

(** C38: names on the wire.  What [mdns_encode_name] writes is skipped exactly
    by [mdns_parse_name], and is recognised by [mdns_compare_name] as the name it
    was written for and as no other of the same length with the same number of
    labels. *)
Theorem mdns_name_roundtrip msg p limit ls ls' : name_ok ls -> name_ok ls' -> 0 <= p ->
  rds msg p (length (mdns_encode_name (join ls))) = mdns_encode_name (join ls) ->
  p + Z.of_nat (length (mdns_encode_name (join ls))) <= limit ->
  length ls' = length ls -> length (join ls') = length (join ls) ->
  mdns_parse_name msg p limit = Some (Some (p + Z.of_nat (length (mdns_encode_name (join ls))))) /\
  (mdns_compare_name msg (join ls') p = 0 <-> ls' = ls).
Proof.
  intros Hok Hok' Hp Hm Hlim Hn Hl. rewrite mdns_encode_name_wire in * by done.
  assert (name_at msg p ls) as Hat by done. split; [by apply mdns_parse_name_wire|].
  unfold mdns_compare_name. rewrite (compare_loop_spec msg ls) by (done || lia). split.
  - intros Hs. destruct (same_name_exact ls Hok (join ls') Hs Hl) as [_ H].
    rewrite (dots_join ls') in H by done. specialize (H Hn).
    apply wire_inj; [by destruct Hok'|by destruct Hok|].
    by rewrite <- !mdns_encode_name_wire, H by done.
  - intros ->. by apply same_name_join.
Qed.

(** What [mdns_compare_name] accepts: the labels of the wire, with any
    character between them, where dots were meant, and with or without one more
    at the end. *)
Lemma mdns_compare_wire msg q ls p : name_ok ls -> name_at msg p ls -> mdns_compare_name msg q p = 0 <-> same_name q ls.
Proof. intros. unfold mdns_compare_name. apply compare_loop_spec; [done|lia|done]. Qed.

(** * Numbers and the reverse mapping *)

Definition digits_value (d : list Z) : Z := foldl (fun v c => v * 10 + (c - 48)) 0 d.
Lemma digits_value_snoc d c : digits_value (d ++ [c]) = digits_value d * 10 + (c - 48).
Proof. unfold digits_value. by rewrite foldl_snoc. Qed.

Lemma itoa_digits_spec fuel : forall x, 0 <= x < 10 ^ Z.of_nat fuel -> (0 < fuel)%nat ->
  Forall (fun c => is_digit c = true) (itoa_digits fuel x) /\ digits_value (rev (itoa_digits fuel x)) = x /\
  (length (itoa_digits fuel x) <= fuel)%nat.
Proof.
  induction fuel as [|fuel IH]; [lia|]. intros x Hx _. cbn [itoa_digits rev length].
  rewrite Z.rem_mod_nonneg, Z.quot_div_nonneg by lia. pose proof (Z.mod_pos_bound x 10 ltac:(lia)).
  assert (0 <= x / 10 < 10 ^ Z.of_nat fuel) as Hq.
  { rewrite Nat2Z.inj_succ, Z.pow_succ_r in Hx by lia. split; [apply Z.div_pos; lia|]. apply Z.div_lt_upper_bound; lia. }
  rewrite w8_small by (unfold u8; lia).
  assert (is_digit (x mod 10 + 48) = true) as Hd by (unfold is_digit; lia).
  pose proof (Z.div_mod x 10 ltac:(lia)). destruct (Z.eqb_spec (x / 10) 0) as [E|E].
  - split; [by repeat constructor|]. split; [|cbn; lia]. unfold digits_value. cbn. lia.
  - assert (0 < fuel)%nat as Hf by (destruct fuel; [cbn in Hq; lia|lia]). destruct (IH (x / 10) Hq Hf) as (H1 & H2 & H3).
    split; [by constructor|]. split; [|lia]. rewrite digits_value_snoc, H2. lia.
Qed.
(** The decimal digits of a counter. *)
Lemma mdns_itoa_value x : 0 <= x < 10 ^ 10 -> digits_value (mdns_itoa x) = x /\
  Forall (fun c => is_digit c = true) (mdns_itoa x) /\ (1 <= length (mdns_itoa x) <= 10)%nat.
Proof.
  intros Hx. destruct (itoa_digits_spec 10 x Hx ltac:(lia)) as (H1 & H2 & H3). unfold mdns_itoa.
  split; [done|]. split; [by apply Forall_rev|]. rewrite length_rev. split; [|done].
  cbn [itoa_digits]. cbn [length]. lia.
Qed.
Lemma mdns_itoa_u8 a : u8 a -> label_ok (mdns_itoa a) /\ (length (mdns_itoa a) <= 3)%nat /\
  Forall (fun c => is_digit c = true) (mdns_itoa a) /\ digits_value (mdns_itoa a) = a.
Proof.
  intros Ha. destruct (mdns_itoa_value a) as (H1 & H2 & H3); [unfold u8 in *; lia|].
  assert (length (mdns_itoa a) <= 3)%nat as H4.
  { assert (forallb (fun k => length (mdns_itoa (Z.of_nat k)) <=? 3)%nat (seq 0 256) = true) as H by (vm_compute; reflexivity).
    rewrite forallb_forall in H. specialize (H (Z.to_nat a)). rewrite Z2Nat.id in H by (unfold u8 in *; lia).
    apply Nat.leb_le, H, in_seq. unfold u8 in *. lia. }
  split; [|done]. split; [intros E; rewrite E in H3; cbn in H3; lia|]. split; [lia|].
  eapply Forall_impl; [|exact H2]. unfold is_digit, DOT. intros. lia.
Qed.

Section reverse.
Variable msg : list Z.

Lemma rev_field_value d : forall q base sum res, 0 <= q - Z.of_nat (length d) ->
  rds msg (q - Z.of_nat (length d)) (length d) = d -> Forall (fun c => is_digit c = true) d ->
  rev_field msg (length d) q base sum res = (sum + base * digits_value d, res).
Proof.
  induction d as [|c d IH] using rev_ind; intros q base sum res Hq Hr Hd.
  - cbn. f_equal. lia.
  - rewrite length_app in *. cbn [length] in *. rewrite Nat.add_1_r in *. cbn [rev_field].
    replace (S (length d)) with (length d + 1)%nat in Hr by lia. rewrite rds_app in Hr.
    apply app_inj_1 in Hr as [Hr Hc]; [|by rewrite length_rds]. apply Forall_app in Hd as [Hd Hd1].
    rewrite rds_cons in Hc. injection Hc as Hc. apply Forall_cons_iff in Hd1 as [Hd1 _].
    replace (q - Z.of_nat (length d + 1) + Z.of_nat (length d)) with (q - 1) in Hc by lia.
    rewrite Hc, Hd1. rewrite IH; [|lia| |done].
    + f_equal. rewrite digits_value_snoc. lia.
    + replace (q - 1 - Z.of_nat (length d)) with (q - Z.of_nat (length d + 1)) by lia. done.
Qed.

Definition rev_labels (a : u8x4) : list (list Z) :=
  [mdns_itoa (q3 a); mdns_itoa (q2 a); mdns_itoa (q1 a); mdns_itoa (q0 a); in_addr; arpa].
Lemma mdns_encode_ip_wire a : u8x4_ok a -> mdns_encode_ip a = wire (rev_labels a).
Proof.
  intros (H0 & H1 & H2 & H3). unfold mdns_encode_ip, rev_labels. cbn [wire].
  assert (forall x, u8 x -> w8 (Z.of_nat (length (mdns_itoa x))) = Z.of_nat (length (mdns_itoa x))) as Hw.
  { intros x Hx. apply w8_small. destruct (mdns_itoa_u8 x Hx) as (_ & H & _). unfold u8. lia. }
  rewrite !Hw by done. rewrite <- !app_comm_cons. do 4 (f_equal; f_equal).
Qed.

(** One field of the address. *)
Lemma rev_ip_step fuel p cur a l addr ls : (0 <= cur <= 3) -> u8 a -> name_at msg p (mdns_itoa a :: l :: ls) ->
  label_ok l -> Forall label_ok ls ->
  rev_ip_loop msg (S fuel) p cur true addr =
  let p' := p + 1 + Z.of_nat (length (mdns_itoa a)) in
  if cur <? 3 then rev_ip_loop msg fuel p' (cur + 1) true (set_field_ip cur a addr)
  else (p', true, set_field_ip cur a addr).
Proof.
  intros Hc Ha Hp Hl Hls. destruct (mdns_itoa_u8 a Ha) as (Hok & Hlen & Hd & Hv). cbn [rev_ip_loop].
  pose proof (proj1 Hp) as Hp0. apply name_at_cons in Hp as (-> & Hr & Hnext). destruct (label_length_ok _ Hok) as [-> _].
  destruct (Z.ltb_spec cur 4); [|lia]. cbn [andb]. destruct (Z.leb_spec (Z.of_nat (length (mdns_itoa a))) 3); [|lia].
  rewrite Nat2Z.id. set (p' := p + 1 + Z.of_nat (length (mdns_itoa a))) in *.
  rewrite rev_field_value; [|unfold p'; lia| |done].
  2:{ replace (p' - Z.of_nat (length (mdns_itoa a))) with (p + 1) by (unfold p'; lia). done. }
  rewrite Hv, Z.mul_1_l, Z.add_0_l. destruct (Z.ltb_spec 255 a); [unfold u8 in *; lia|].
  pose proof (name_at_next msg _ _ Hnext) as Hz. destruct (Z.eqb_spec (rd8 msg p') 0) as [E|E].
  { apply Hz in E; [done|by constructor]. }
  cbn [negb andb]. destruct (Z.ltb_spec (cur + 1) 4), (Z.ltb_spec cur 3); try lia; done.
Qed.

Ltac labels := repeat first [apply List.Forall_nil | apply List.Forall_cons; [assumption|]].
(** The name of the reverse mapping of an address, as [mdns_encode_ip]
    writes it, is read back by [mdns_parse_rev_ip] for every address. *)
Theorem mdns_rev_ip_roundtrip p a addr : u8x4_ok a -> 0 <= p -> (4 <= length msg)%nat ->
  rds msg p (length (mdns_encode_ip a)) = mdns_encode_ip a ->
  mdns_parse_rev_ip msg p addr = (true, a).
Proof.
  intros Ha Hp Hlen Hm. rewrite mdns_encode_ip_wire in Hm by done. assert (name_at msg p (rev_labels a)) as Hat by done.
  destruct Ha as (H0 & H1 & H2 & H3). unfold mdns_parse_rev_ip, rev_labels in *.
  assert (label_ok in_addr /\ label_ok arpa) as [Hin Har].
  { split; (split; [done|]; split; [cbn; lia|]); repeat (apply Forall_cons; [unfold DOT; lia|]); constructor. }
  assert (forall x, u8 x -> label_ok (mdns_itoa x)) as Hok by (intros x Hx; by destruct (mdns_itoa_u8 x Hx)).
  replace (S (length msg)) with (S (S (S (S (length msg - 3))))) by lia.
  pose proof (Hok _ H0). pose proof (Hok _ H1). pose proof (Hok _ H2).
  rewrite (rev_ip_step _ p 0 (q3 a) (mdns_itoa (q2 a)) addr [mdns_itoa (q1 a); mdns_itoa (q0 a); in_addr; arpa])
    by (done || lia || labels). apply name_at_cons in Hat as (_ & _ & Hat).
  cbv zeta. set (p1 := p + 1 + _) in *. clearbody p1. cbn [Z.ltb Z.compare Pos.compare Pos.compare_cont Z.add].
  rewrite (rev_ip_step _ p1 1 (q2 a) (mdns_itoa (q1 a)) _ [mdns_itoa (q0 a); in_addr; arpa])
    by (done || lia || labels). apply name_at_cons in Hat as (_ & _ & Hat).
  cbv zeta. set (p2 := p1 + 1 + _) in *. clearbody p2. cbn [Z.ltb Z.compare Pos.compare Pos.compare_cont Z.add].
  rewrite (rev_ip_step _ p2 2 (q1 a) (mdns_itoa (q0 a)) _ [in_addr; arpa])
    by (done || lia || labels). apply name_at_cons in Hat as (_ & _ & Hat).
  cbv zeta. set (p3 := p2 + 1 + _) in *. clearbody p3. cbn [Z.ltb Z.compare Pos.compare Pos.compare_cont Z.add].
  rewrite (rev_ip_step _ p3 3 (q0 a) in_addr _ [arpa])
    by (done || lia || labels). apply name_at_cons in Hat as (_ & _ & Hat).
  cbv zeta. set (p4 := p3 + 1 + _) in *. clearbody p4. cbn [Z.ltb Z.compare Pos.compare Pos.compare_cont andb].
  assert (name_ok [in_addr; arpa]) as Hn by (split; [done|labels]).
  assert (mdns_compare_name msg (in_addr ++ DOT :: arpa) p4 = 0) as ->; [|by destruct a].
  apply (compare_loop_spec msg [in_addr; arpa] Hn); [lia|done|]. exact (same_name_join _ Hn).
Qed.
End reverse.
