(* ===== verification/Mdns.v ===== *)
(** * Multicast DNS: [mdns.c]

    The responder of module_zeroconf claims names and services: every entry of
    its table is probed three times, announced three times and then active, and
    answers queries from then on.  A conflicting answer sends it back to
    probing, if it was being probed under another name.

    Every function that touches memory returns an option: [None] is a call that
    does not return (a name that never ends), an access through the null pointer
    or a write past the end of an array.  A function that writes at [dptr] and
    returns its end is the list of the bytes it writes; the calls to the TCP/IP
    server are a log.  What the server answers (a message, the configuration of
    the interface) and the clock are arguments.  The NetBIOS half of the file is
    not compiled ([MDNS_NETBIOS] is not defined). *)
From S2P Require Export MdnsName.
Local Open Scope Z_scope.

Inductive mdns_entry_type_t : Set := MDNS_CANONICAL_NAME_ENTRY | MDNS_NAME_ENTRY | MDNS_SRV_ENTRY.
Inductive mdns_state_t : Set :=
| UNUSED | DISABLED | PROBE_WAIT | PROBE_PARTIAL_SENT | PROBE_SENT | ANNOUNCE_WAIT | ANNOUNCE_SENT | ACTIVE.
#[export] Instance mdns_entry_type_eq_dec : EqDecision mdns_entry_type_t.
Proof. solve_decision. Defined.
#[export] Instance mdns_state_eq_dec : EqDecision mdns_state_t.
Proof. solve_decision. Defined.

(** ** Constants of [mdns.h] and [mdns_protocol.h] *)
Definition MDNS_MAX_NAME_LENGTH : nat := 100.
Definition MDNS_MAX_TXT_LENGTH : nat := 100.
Definition MDNS_NUM_TABLE_ENTRIES : nat := 5.
Definition mdns_ifup : Z := 0x1.
Definition mdns_ifdown : Z := 0x2.
Definition mdns_entry_lost : Z := 0x4.
Definition mdns_entry_active : Z := 0x8.
Definition MDNS_SERVER_PORT : Z := 5353.
Definition MDNS_RRTYPE_A : Z := 1.
Definition MDNS_RRTYPE_PTR : Z := 12.
Definition MDNS_RRTYPE_TXT : Z := 16.
Definition MDNS_RRTYPE_SRV : Z := 33.
Definition MDNS_RRTYPE_ANY : Z := 255.
Definition MDNS_RRCLASS_IN : Z := 1.
Definition MDNS_RRCLASS_FLUSH : Z := 0x8000.
Definition MDNS_FLAG1_RESPONSE : Z := 0x80.
Definition MDNS_FLAG1_AUTHORATIVE : Z := 0x04.
Definition PENDING_HOST_RESPONSE : Z := Z.shiftl 1 0.
Definition PENDING_PTR_RESPONSE : Z := Z.shiftl 1 1.
Definition PENDING_SRV_RESPONSE : Z := Z.shiftl 1 3.
Definition PENDING_TXT_RESPONSE : Z := Z.shiftl 1 4.

(** The macros [HTONS], [NTOHS] and [HTONL] of this file. *)
Definition bswap32 (x : Z) : Z := be32 (of_words (w32 x mod 65536) (w32 x / 65536)).
Definition HTONS (x : Z) : Z := Z.shiftr (bswap32 x) 16.
Definition NTOHS (x : Z) : Z := Z.shiftr (bswap32 x) 16.
Definition HTONL (x : Z) : Z := bswap32 x.
(** Little-endian stores, and the load of 32 bits. *)
Definition st16 (v : Z) : list Z := [w8 v; w8 (v / 256)].
Definition st32 (v : Z) : list Z := st16 v ++ st16 (v / 65536).
Definition rd32 (b : list Z) (i : Z) : Z := word0 (rd4 b i) + 65536 * word1 (rd4 b i).

(** Sizes of the packed structures, and offsets of their members. *)
Definition sizeof_hdr : Z := 12.
Definition sizeof_query : Z := 4.
Definition sizeof_answer : Z := 10.
Definition sizeof_srv_hdr : Z := 6.
Definition ans_type (ans : Z) : Z := ans.
Definition ans_class (ans : Z) : Z := ans + 2.
Definition ans_ttl (ans : Z) : Z := ans + 4.
Definition ans_len (ans : Z) : Z := ans + 8.
Definition hdr_numquestions : Z := 4.
Definition hdr_numanswers : Z := 6.
Definition hdr_numauthrr : Z := 8.

(** ** State *)
Record mdns_table_entry : Type := MdnsEntry {
  state : mdns_state_t;
  pending : Z;
  name : list Z;
  name_prefix : list Z;
  name_postfix : list Z;
  txt_record : list Z;
  srv_port : Z;
  ipaddr : u8x4;
  counter : Z;
  timeout : Z;
  num_sent : Z;
  entry_type : mdns_entry_type_t }.
#[export] Instance eta_mdns_table_entry : Eta mdns_table_entry := fun r =>
  MdnsEntry r.(state) r.(pending) r.(name) r.(name_prefix) r.(name_postfix) r.(txt_record) r.(srv_port)
    r.(ipaddr) r.(counter) r.(timeout) r.(num_sent) r.(entry_type).

Inductive mdns_call : Type :=
| Xtcp_connect (port : Z) (addr : u8x4)
| Xtcp_join_multicast_group (addr : u8x4)
| Xtcp_get_ipconfig
| Xtcp_set_poll_interval (n : Z)
| Xtcp_bind_local (port : Z)
| Xtcp_init_send
| Xtcp_recv
| Xtcp_send (data : list Z).

Record mdns : Type := Mdns {
  mdns_table : list mdns_table_entry;
  mdns_started : Z;
  calls : list mdns_call }.
#[export] Instance eta_mdns : Eta mdns := fun r => Mdns r.(mdns_table) r.(mdns_started) r.(calls).

Notation entry := mdns_table_entry.
Definition zero_entry : entry := MdnsEntry UNUSED 0 [] [] [] [] 0 zero4 0 0 0 MDNS_CANONICAL_NAME_ENTRY.
Definition initial_mdns : mdns := Mdns (replicate MDNS_NUM_TABLE_ENTRIES zero_entry) 0 [].
Definition call (c : mdns_call) (s : mdns) : mdns := s <| calls ::= fun l => l ++ [c] |>.

(** The loop [for (i=0;i<MDNS_NUM_TABLE_ENTRIES;i++)] whose body changes entry
    [i] and an accumulator; the body sees the table as it is at that moment. *)
Fixpoint for_table {A} (body : list entry -> entry -> A -> option (entry * A))
    (before rest : list entry) (a : A) : option (list entry * A) :=
  match rest with
  | [] => Some (before, a)
  | e :: rest =>
      '(e, a) ← body (before ++ e :: rest) e a;
      for_table body (before ++ [e]) rest a
  end.
(** The accumulator of the loops that collect events and calls. *)
Definition result : Type := Z * list mdns_call.
Definition for_entries (body : entry -> result -> option (entry * result)) (s : mdns) : option (Z * mdns) :=
  '(t, (r, cs)) ← for_table (fun _ => body) [] (mdns_table s) (0, []);
  Some (r, s <| mdns_table := t |> <| calls ::= fun l => l ++ cs |>).

(** A string and its null byte in an array of [size] characters. *)
Definition strcpy (size : nat) (src : list Z) : option (list Z) :=
  if (length src <? size)%nat then Some src else None.

Definition update_name (e : entry) : option entry :=
  let nm := name_prefix e in
  let nm :=
    if negb (counter e =? 0) then
      match entry_type e with
      | MDNS_SRV_ENTRY => nm ++ [32; 40] ++ mdns_itoa (counter e) ++ [41]
      | _ => nm ++ [45] ++ mdns_itoa (counter e)
      end
    else nm in
  nm ← strcpy MDNS_MAX_NAME_LENGTH (nm ++ [DOT] ++ name_postfix e);
  Some (e <| name := nm |>).

Definition is_host (e : entry) : bool :=
  match entry_type e with MDNS_SRV_ENTRY => false | _ => true end.

(** * Receiving *)
Section receiving.
Variables (msg : list Z) (eom : Z).

(** The first difference between the data of a record and a text. *)
Fixpoint compare_rdata (len : nat) (rdata : Z) (txt : list Z) : option Z :=
  match len, txt with
  | S len, c :: txt =>
      if c <? rd8 msg rdata then Some 1
      else if rd8 msg rdata <? c then Some (-1)
      else compare_rdata len (rdata + 1) txt
  | _, _ => None
  end.
Definition mdns_compare_answer (ans rrtype : Z) (txt : list Z) : Z :=
  let class := Z.ldiff (NTOHS (rd16 msg (ans_class ans))) MDNS_RRCLASS_FLUSH in
  let type := NTOHS (rd16 msg (ans_type ans)) in
  let len := NTOHS (rd16 msg (ans_len ans)) in
  let txtlen := Z.of_nat (length txt) in
  if MDNS_RRCLASS_IN <? class then 1 else if class <? MDNS_RRCLASS_IN then -1
  else if rrtype <? type then 1 else if type <? rrtype then -1
  else
    match compare_rdata (Z.to_nat len) (ans + sizeof_answer) txt with
    | Some r => r
    | None => if txtlen <? len then 1 else if len <? txtlen then -1 else 0
    end.
(** The same code, with the four bytes of the address for the text. *)
Definition ip_bytes (a : u8x4) : list Z := [q0 a; q1 a; q2 a; q3 a].
Definition mdns_compare_host_answer (ans : Z) (e : entry) : Z := mdns_compare_answer ans MDNS_RRTYPE_A (ip_bytes (ipaddr e)).
Definition mdns_compare_srv_answer (ans : Z) (e : entry) : Z := mdns_compare_answer ans MDNS_RRTYPE_SRV (name e).
Definition mdns_compare_txt_answer (ans : Z) (e : entry) : Z := mdns_compare_answer ans MDNS_RRTYPE_TXT [].

Definition mdns_answer_conflict (ans : Z) (e : entry) : bool :=
  match entry_type e with
  | MDNS_CANONICAL_NAME_ENTRY | MDNS_NAME_ENTRY => negb (mdns_compare_host_answer ans e =? 0)
  | MDNS_SRV_ENTRY =>
      if rd16 msg (ans_type ans) =? HTONS MDNS_RRTYPE_TXT then negb (mdns_compare_txt_answer ans e =? 0)
      else if rd16 msg (ans_type ans) =? HTONS MDNS_RRTYPE_SRV then negb (mdns_compare_srv_answer ans e =? 0)
      else false
  end.

Definition is_state (st : mdns_state_t) (e : entry) : bool := bool_decide (state e = st).
Definition names (q : list Z) (response : Z) : bool := mdns_compare_name msg q response =? 0.

(** The body of the loop of [handle_mdns_response]. *)
Definition handle_entry_response (query_name ans : Z) (e : entry) (a : result) : option (entry * result) :=
  let '(r, cs) := a in
  if negb (is_state DISABLED e) && negb (is_state UNUSED e) && names (name e) query_name then
    if mdns_answer_conflict ans e then
      let cs := if negb (is_state PROBE_WAIT e) || negb (is_state ANNOUNCE_WAIT e) then cs ++ [Xtcp_init_send] else cs in
      '(e, r) ← (if is_state PROBE_WAIT e || is_state PROBE_SENT e then
                   e ← update_name (e <| counter ::= fun c => s32 (c + 1) |>);
                   Some (e, Z.lor r mdns_entry_lost)
                 else Some (e, r));
      Some (e <| state := PROBE_WAIT |> <| num_sent := 0 |>, (r, cs))
    else if 255 / 2 <? HTONL (rd32 msg (ans_ttl ans)) then Some (e <| pending := 0 |>, (r, cs))
    else Some (e, (r, cs))
  else Some (e, (r, cs)).
Definition handle_mdns_response (query_name ans : Z) (s : mdns) : option (Z * mdns) :=
  for_entries (handle_entry_response query_name ans) s.

Fixpoint lower_rdata (n : nat) (rdata1 rdata2 : Z) : bool :=
  match n with
  | O => false
  | S n => (rd8 msg rdata1 <? rd8 msg rdata2) || lower_rdata n (rdata1 + 1) (rdata2 + 1)
  end.
Definition answer_is_lower (ans1 ans2 : Z) : bool :=
  let ans1_len := NTOHS (rd16 msg (ans_len ans1)) in
  let ans2_len := NTOHS (rd16 msg (ans_len ans2)) in
  if NTOHS (rd16 msg (ans_class ans1)) <? NTOHS (rd16 msg (ans_class ans2)) then true
  else if NTOHS (rd16 msg (ans_type ans1)) <? NTOHS (rd16 msg (ans_type ans2)) then true
  else if lower_rdata (Z.to_nat (ans1_len `min` ans2_len)) (ans1 + sizeof_answer) (ans2 + sizeof_answer) then true
  else ans1_len <? ans2_len.

Fixpoint find_lowest (e : entry) (dptr : Z) (num_rr : nat) (ignore lowest : option Z) : option (option Z) :=
  match num_rr with
  | O => Some lowest
  | S num_rr =>
      ans ← mdns_parse_name msg dptr eom;
      ans ← ans;
      let rdata := ans + sizeof_answer in
      let len := NTOHS (rd16 msg (ans_len ans)) in
      let lowest :=
        if names (name e) dptr && negb (bool_decide (ignore = Some ans)) then
          match lowest with
          | None => Some ans
          | Some l => if answer_is_lower ans l then Some ans else lowest
          end
        else lowest in
      find_lowest e (rdata + len) num_rr ignore lowest
  end.
Definition find_lowest_matching_answer (e : entry) (dptr : Z) (num_rr : nat) (ignore : option Z) : option (option Z) :=
  find_lowest e dptr num_rr ignore None.

Definition loses_tie_break (e : entry) (auth : Z) (n : nat) : option bool :=
  if is_host e then
    ans ← find_lowest_matching_answer e auth n None;
    match ans with
    | None => Some false
    | Some ans => Some (0 <? mdns_compare_host_answer ans e)
    end
  else
    ans ← find_lowest_matching_answer e auth n None;
    match ans with
    | None => Some false
    | Some ans =>
        let res := mdns_compare_txt_answer ans e in
        if res <? 0 then Some false
        else if 0 <? res then Some true
        else
          ans ← find_lowest_matching_answer e auth n (Some ans);
          ans ← ans;
          Some (0 <? mdns_compare_srv_answer ans e)
    end.

Definition handle_entry_auth (auth : Z) (n : nat) (e : entry) (a : result) : option (entry * result) :=
  let '(r, cs) := a in
  if is_state PROBE_WAIT e || is_state PROBE_SENT e then
    loses ← loses_tie_break e auth n;
    if (loses : bool) then
      let cs := if negb (is_state PROBE_WAIT e) then cs ++ [Xtcp_init_send] else cs in
      e ← update_name (e <| counter ::= fun c => s32 (c + 1) |>);
      Some (e <| state := PROBE_WAIT |> <| num_sent := 0 |>, (Z.lor r mdns_entry_lost, cs))
    else Some (e, (r, cs))
  else Some (e, (r, cs)).
Definition handle_mdns_auth (auth : Z) (n : nat) (s : mdns) : option (Z * mdns) :=
  for_entries (handle_entry_auth auth n) s.

(** [addr] is an uninitialised local variable that the comparisons write. *)
Fixpoint ptr_query (query_name : Z) (addr : u8x4) (l : list entry) : list entry * list mdns_call :=
  match l with
  | [] => ([], [])
  | e :: l =>
      let '(hit, addr) :=
        if is_state ACTIVE e && is_host e then
          let '(res, addr) := mdns_parse_rev_ip msg query_name addr in
          (res && bool_decide (addr = ipaddr e), addr)
        else (false, addr) in
      if hit || (is_state ACTIVE e && negb (is_host e) && names (name_postfix e) query_name)
      then (e <| pending ::= fun p => Z.lor p PENDING_PTR_RESPONSE |> :: l, [Xtcp_init_send])
      else let '(l, cs) := ptr_query query_name addr l in (e :: l, cs)
  end.
Definition handle_mdns_ptr_query (addr : u8x4) (query_name : Z) (s : mdns) : mdns :=
  let '(t, cs) := ptr_query query_name addr (mdns_table s) in
  s <| mdns_table := t |> <| calls ::= fun l => l ++ cs |>.

(** What a query of type [qtype] asks of an entry. *)
Definition is_type (qtype t : Z) : bool := (qtype =? t) || (qtype =? MDNS_RRTYPE_ANY).
Definition ask (p : Z) (e : entry) (cs : list mdns_call) : entry * list mdns_call :=
  (e <| pending ::= fun q => Z.lor q p |>, cs ++ [Xtcp_init_send]).
Definition answer_query (qtype : Z) (e : entry) : entry * list mdns_call :=
  if is_host e then
    if is_type qtype MDNS_RRTYPE_A then ask PENDING_HOST_RESPONSE e [] else (e, [])
  else
    let '(e, cs) := if is_type qtype MDNS_RRTYPE_SRV then ask PENDING_SRV_RESPONSE e [] else (e, []) in
    if is_type qtype MDNS_RRTYPE_TXT then ask PENDING_TXT_RESPONSE e cs else (e, cs).
Fixpoint name_query (qtype dptr : Z) (l : list entry) : list entry * list mdns_call :=
  match l with
  | [] => ([], [])
  | e :: l =>
      if is_state ACTIVE e && names (name e) dptr then
        let '(e, cs) := answer_query qtype e in (e :: l, cs)
      else let '(l, cs) := name_query qtype dptr l in (e :: l, cs)
  end.

Definition recv_question (addr : u8x4) (dptr qry : Z) (s : mdns) : mdns :=
  if NTOHS (rd16 msg (qry + 2)) =? MDNS_RRCLASS_IN then
    if NTOHS (rd16 msg qry) =? MDNS_RRTYPE_PTR then handle_mdns_ptr_query addr dptr s
    else
      let '(t, cs) := name_query (NTOHS (rd16 msg qry)) dptr (mdns_table s) in
      s <| mdns_table := t |> <| calls ::= fun l => l ++ cs |>
  else s.
Fixpoint recv_questions (addr : nat -> u8x4) (nquestions : nat) (dptr : Z) (s : mdns) : option (Z * mdns) :=
  match nquestions with
  | O => Some (dptr, s)
  | S nquestions =>
      qry ← mdns_parse_name msg dptr eom;
      match qry with
      | None => Some (dptr, s)
      | Some qry =>
          let s := recv_question (addr nquestions) dptr qry s in
          recv_questions addr nquestions (qry + sizeof_query) s
      end
  end.
Fixpoint recv_answers (nanswers : nat) (dptr result : Z) (s : mdns) : option (Z * Z * mdns) :=
  match nanswers with
  | O => Some (dptr, result, s)
  | S nanswers =>
      ans ← mdns_parse_name msg dptr eom;
      match ans with
      | None => Some (dptr, result, s)
      | Some ans =>
          '(r, s) ← handle_mdns_response dptr ans s;
          let dptr := ans + sizeof_answer + NTOHS (rd16 msg (ans_len ans)) in
          recv_answers nanswers dptr (Z.lor result r) s
      end
  end.
End receiving.

(** [data] is the local array after [xtcp_recv] has filled [len] bytes of it;
    [addr] gives the uninitialised variable of each query for a pointer. *)
Definition mdns_recv (data : list Z) (len : Z) (addr : nat -> u8x4) (s : mdns) : option (Z * mdns) :=
  let s := call Xtcp_recv s in
  let count i := Z.to_nat (NTOHS (rd16 data i)) in
  '(dptr, s) ← recv_questions data len addr (count hdr_numquestions) sizeof_hdr s;
  '(dptr, result, s) ← recv_answers data len (count hdr_numanswers) dptr 0 s;
  '(r, s) ← handle_mdns_auth data len dptr (count hdr_numauthrr) s;
  Some (Z.lor result r, s).

(** * Sending *)

(** [ans->type], [ans->class], [ans->ttl], [ans->len]. *)
Definition st_answer (type class len : Z) : list Z :=
  st16 (HTONS type) ++ st16 (HTONS class) ++ st32 (HTONL 255) ++ st16 (HTONS len).

Definition mdns_send_host_response (e : entry) : list Z :=
  mdns_encode_name (name e) ++ st_answer MDNS_RRTYPE_A (Z.lor MDNS_RRCLASS_IN MDNS_RRCLASS_FLUSH) 4 ++ ip_bytes (ipaddr e).

Fixpoint mdns_get_canonical_name (t : list entry) : option (list Z) :=
  match t with
  | [] => None
  | e :: t =>
      if negb (is_state PROBE_WAIT e) && bool_decide (entry_type e = MDNS_CANONICAL_NAME_ENTRY) then Some (name e)
      else mdns_get_canonical_name t
  end.

Definition mdns_send_ptr_response (e : entry) : list Z :=
  let owner := if is_host e then mdns_encode_ip (ipaddr e) else mdns_encode_name (name_postfix e) in
  let ans_name := mdns_encode_name (name e) in
  owner ++ st_answer MDNS_RRTYPE_PTR MDNS_RRCLASS_IN (Z.of_nat (length ans_name)) ++ ans_name.

(** The canonical name may be the null pointer. *)
Definition mdns_send_srv_response (t : list entry) (e : entry) : option (list Z) :=
  canonical ← mdns_get_canonical_name t;
  let target_name := mdns_encode_name canonical in
  Some (mdns_encode_name (name e)
        ++ st_answer MDNS_RRTYPE_SRV MDNS_RRCLASS_IN (sizeof_srv_hdr + Z.of_nat (length target_name))
        ++ st16 0 ++ st16 0 ++ st16 (HTONS (srv_port e)) ++ target_name).

Definition mdns_send_txt_response (e : entry) : list Z :=
  let ans_txt := mdns_encode_name (txt_record e) in
  mdns_encode_name (name e) ++ st_answer MDNS_RRTYPE_TXT MDNS_RRCLASS_IN (Z.of_nat (length ans_txt)) ++ ans_txt.

Definition mdns_send_probe (e : entry) : list Z :=
  mdns_encode_name (name e) ++ st16 (HTONS 255) ++ st16 (HTONS MDNS_RRCLASS_IN).

(** The records that a probe proposes and an announcement asserts, and their number. *)
Definition send_records (t : list entry) (e : entry) : option (list Z * Z) :=
  if is_host e then Some (mdns_send_host_response e, 1)
  else
    srv ← mdns_send_srv_response t e;
    Some (mdns_send_ptr_response e ++ srv ++ mdns_send_txt_response e, 3).

(** What has been written after the header, and the number of records. *)
Definition message : Type := list Z * Z.
Definition space_left (out : list Z) : Z := XTCP_CLIENT_BUF_SIZE - (sizeof_hdr + Z.of_nat (length out)).
Definition st_hdr (flags1 questions answers auth : Z) : list Z :=
  st16 0 ++ [flags1; 0] ++ st16 (HTONS questions) ++ st16 (HTONS answers) ++ st16 (HTONS auth) ++ st16 (HTONS 0).
(** The message is built in an array of [XTCP_CLIENT_BUF_SIZE] bytes. *)
Definition in_buffer (out : list Z) : option unit := if 0 <=? space_left out then Some tt else None.

Definition probe_size (e : entry) : Z := sizeof_query + Z.of_nat (length (name e)).
Definition send_question (e : entry) (m : message) : entry * message :=
  let '(out, num_probes) := m in
  if is_state PROBE_WAIT e && (probe_size e <? space_left out) then
    (e <| state := PROBE_PARTIAL_SENT |>, (out ++ mdns_send_probe e, num_probes + 1))
  else (e, m).
Definition send_authority (t0 : Z) (t : list entry) (e : entry) (m : message) : option (entry * message) :=
  let '(out, num_auth_records) := m in
  if is_state PROBE_PARTIAL_SENT e then
    '(recs, k) ← send_records t e;
    let e := e <| num_sent ::= fun n => n + 1 |> <| state := PROBE_SENT |> in
    let e := e <| timeout := w32 (t0 + (if counter e <? 15 then 250 else 2500) * 1000 * 100) |> in
    Some (e, (out ++ recs, num_auth_records + k))
  else Some (e, m).
Definition mdns_send_probes (t0 : Z) (s : mdns) : option (bool * mdns) :=
  '(t, (out, num_probes)) ← for_table (fun _ e m => Some (send_question e m)) [] (mdns_table s) ([], 0);
  '(t, (out, num_auth_records)) ← for_table (send_authority t0) [] t (out, 0);
  _ ← in_buffer out;
  let s := s <| mdns_table := t |> in
  if 0 <? num_probes then Some (true, call (Xtcp_send (st_hdr 0 num_probes 0 num_auth_records ++ out)) s)
  else Some (false, s).

Definition mdns_response_size (e : entry) : Z := sizeof_answer + 2 * Z.of_nat (length (name e)) + 4.
Definition announce (t0 : Z) (t : list entry) (e : entry) (m : message) : option (entry * message) :=
  let '(out, num_answers) := m in
  if is_state ANNOUNCE_WAIT e then
    '(recs, k) ← send_records t e;
    let e := e <| num_sent ::= fun n => n + 1 |> <| state := ANNOUNCE_SENT |> in
    let e := e <| timeout := w32 (t0 + 1000 * 1000 * 100) |> in
    Some (e, (out ++ recs, num_answers + k))
  else Some (e, m).
(** [if (pending & p) { dptr = response(dptr, e); pending ^= p; num_answers++; }] *)
Definition respond (p : Z) (response : entry -> option (list Z)) (e : entry) (m : message) : option (entry * message) :=
  let '(out, num_answers) := m in
  if tst (pending e) p then
    r ← response e;
    Some (e <| pending ::= fun q => Z.lxor q p |>, (out ++ r, num_answers + 1))
  else Some (e, m).
Definition send_answers (t0 : Z) (t : list entry) (e : entry) (m : message) : option (entry * message) :=
  if negb (is_state UNUSED e) && (mdns_response_size e <? space_left (fst m)) then
    '(e, m) ← announce t0 t e m;
    '(e, m) ← respond PENDING_HOST_RESPONSE (fun e => Some (mdns_send_host_response e)) e m;
    '(e, m) ← respond PENDING_PTR_RESPONSE (fun e => Some (mdns_send_ptr_response e)) e m;
    '(e, m) ← respond PENDING_SRV_RESPONSE (mdns_send_srv_response t) e m;
    respond PENDING_TXT_RESPONSE (fun e => Some (mdns_send_txt_response e)) e m
  else Some (e, m).
Definition mdns_send_responses (t0 : Z) (s : mdns) : option (bool * mdns) :=
  '(t, (out, num_answers)) ← for_table (send_answers t0) [] (mdns_table s) ([], 0);
  _ ← in_buffer out;
  let s := s <| mdns_table := t |> in
  if 0 <? num_answers then
    Some (true, call (Xtcp_send (st_hdr (Z.lor MDNS_FLAG1_RESPONSE MDNS_FLAG1_AUTHORATIVE) 0 num_answers 0 ++ out)) s)
  else Some (false, s).

Definition mdns_send (t0 : Z) (s : mdns) : option mdns :=
  '(res, s) ← mdns_send_probes t0 s;
  if (res : bool) then Some s
  else
    '(res, s) ← mdns_send_responses t0 s;
    if (res : bool) then Some s else Some (call (Xtcp_send []) s).

(** * Starting, timing, events *)

Definition mdns_group : u8x4 := U4 224 0 0 251.
Definition mdns_init (s : mdns) : mdns :=
  let s := call (Xtcp_connect MDNS_SERVER_PORT mdns_group) s in
  s <| mdns_table ::= map (fun e => e <| state := UNUSED |>) |>.

Definition start_entry (e : entry) (a : result) : option (entry * result) :=
  if negb (is_state UNUSED e) then Some (e <| state := PROBE_WAIT |> <| num_sent := 0 |>, (fst a, snd a ++ [Xtcp_init_send]))
  else Some (e, a).
Definition mdns_start_entries (s : mdns) : option mdns :=
  '(_, s) ← for_entries start_entry s;
  Some (s <| mdns_started := 2 |>).
Definition mdns_start (addr : u8x4) (s : mdns) : mdns :=
  let s := call (Xtcp_join_multicast_group mdns_group) s in
  let s := s <| mdns_table ::= map (fun e => e <| ipaddr := addr |>) |> in
  s <| mdns_started := 1 |>.

Definition timeafter (A B : Z) : bool := s32 (w32 (B - A)) <? 0.
Definition entry_periodic (t0 : Z) (e : entry) (a : result) : option (entry * result) :=
  let '(r, cs) := a in
  Some
    match state e with
    | PROBE_SENT =>
        if timeafter t0 (timeout e) then
          if num_sent e <? 3 then (e <| state := PROBE_WAIT |>, (r, cs ++ [Xtcp_init_send]))
          else (e <| state := ANNOUNCE_WAIT |> <| num_sent := 0 |>, (r, cs ++ [Xtcp_init_send]))
        else (e, a)
    | ANNOUNCE_SENT =>
        if timeafter t0 (timeout e) then
          if num_sent e <? 3 then (e <| state := ANNOUNCE_WAIT |>, (r, cs ++ [Xtcp_init_send]))
          else (e <| state := ACTIVE |>, (Z.lor r mdns_entry_active, cs))
        else (e, a)
    | _ => (e, a)
    end.
Definition mdns_periodic (t0 : Z) (s : mdns) : option (Z * mdns) :=
  s ← (if mdns_started s =? 1 then mdns_start_entries s else Some s);
  for_entries (entry_periodic t0) s.

(** What the server and the clock give to one call of the handler. *)
Record mdns_input : Type := MdnsInput {
  now : Z;
  rx_data : list Z;
  rx_len : Z;
  rx_addr : nat -> u8x4;
  if_addr : u8x4 }.

Definition mdns_handle_event (i : mdns_input) (conn : xtcp_connection_t) (s : mdns) : option (Z * xtcp_connection_t * mdns) :=
  match event conn with
  | XTCP_IFUP => Some (mdns_ifup, conn, mdns_start (if_addr i) (call Xtcp_get_ipconfig s))
  | XTCP_IFDOWN => Some (mdns_ifdown, conn, s)
  | XTCP_ALREADY_HANDLED => Some (0, conn, s)
  | _ =>
      let s :=
        if (remote_port conn =? MDNS_SERVER_PORT) && bool_decide (event conn = XTCP_NEW_CONNECTION)
        then call (Xtcp_bind_local MDNS_SERVER_PORT) (call (Xtcp_set_poll_interval 125) s) else s in
      if local_port conn =? MDNS_SERVER_PORT then
        '(result, s) ←
          match event conn with
          | XTCP_POLL => mdns_periodic (now i) s
          | XTCP_RECV_DATA => mdns_recv (rx_data i) (rx_len i) (rx_addr i) s
          | XTCP_REQUEST_DATA | XTCP_SENT_DATA | XTCP_RESEND_DATA => s ← mdns_send (now i) s; Some (0, s)
          | _ => Some (0, s)
          end;
        Some (result, conn <| event := XTCP_ALREADY_HANDLED |>, s)
      else Some (0, conn, s)
  end.

(** * Registering *)

Definition same_entry (prefix postfix : list Z) (e : entry) : bool :=
  negb (is_state UNUSED e) && bool_decide (postfix = name_postfix e) && bool_decide (prefix = name_prefix e).
Definition fill_entry (prefix postfix : list Z) (txt : option (list Z)) (addr : option u8x4) (port : Z)
    (type : mdns_entry_type_t) (e : entry) : option entry :=
  let e := e <| entry_type := type |> <| state := DISABLED |> <| pending := 0 |> in
  prefix ← strcpy MDNS_MAX_NAME_LENGTH prefix;
  let e := e <| name_prefix := prefix |> in
  postfix ← strcpy MDNS_MAX_NAME_LENGTH postfix;
  let e := e <| name_postfix := postfix |> in
  e ← match type with
      | MDNS_SRV_ENTRY =>
          postfix ← strcpy MDNS_MAX_NAME_LENGTH (postfix ++ [46; 108; 111; 99; 97; 108]);
          txt ← txt;
          txt ← strcpy MDNS_MAX_TXT_LENGTH txt;
          Some (e <| name_postfix := postfix |> <| txt_record := txt |>)
      | _ => Some e
      end;
  e ← update_name (e <| counter := 0 |>);
  let e := e <| srv_port := port |> in
  Some (match addr with Some a => e <| ipaddr := a |> | None => e end).
Definition mdns_add_entry (prefix postfix : list Z) (txt : option (list Z)) (addr : option u8x4) (port : Z)
    (type : mdns_entry_type_t) (s : mdns) : option mdns :=
  let i :=
    match find_index (same_entry prefix postfix) (mdns_table s) with
    | Some i => Some i
    | None => find_index (is_state UNUSED) (mdns_table s)
    end in
  match i with
  | None => Some s
  | Some i =>
      e ← mdns_table s !! i;
      e ← fill_entry prefix postfix txt addr port type e;
      Some (s <| mdns_table ::= <[i := e]> |>)
  end.

Definition local : list Z := [108; 111; 99; 97; 108].
Definition mdns_register_canonical_name (nm : list Z) (s : mdns) : option mdns :=
  mdns_add_entry nm local None None 0 MDNS_CANONICAL_NAME_ENTRY s.
Definition mdns_register_name (nm : list Z) (s : mdns) : option mdns :=
  mdns_add_entry nm local None None 0 MDNS_NAME_ENTRY s.
Definition mdns_register_service (nm srv_type : list Z) (port : Z) (txt : list Z) (s : mdns) : option mdns :=
  mdns_add_entry nm srv_type (Some txt) None port MDNS_SRV_ENTRY s.
