(* ===== verification/MdnsRun.v ===== *)
(** * The life of a name: how [mdns.c] claims and loses entries

    The invariant of the table; the protocol of RFC 6762, section 8, as an
    automaton on phases; and that every call of the handler takes each entry
    along it. *)
From S2P Require Export Mdns.
Local Open Scope Z_scope.

(** * The loop over the table *)

Section for_table.
Context {A : Type} (body : list entry -> entry -> A -> option (entry * A)).

(** [le]: how the accumulator grows; [R]: what one turn does. *)
Lemma for_table_inv (le : relation A) `{!PreOrder le} (R : entry -> A -> entry -> A -> Prop) :
  (forall t e a e' a', body t e a = Some (e', a') -> le a a' /\ R e a e' a') ->
  forall rest before a t' a', for_table body before rest a = Some (t', a') ->
  le a a' /\ exists rest', t' = before ++ rest' /\
    Forall2 (fun e e' => exists a1 a2, le a a1 /\ R e a1 e' a2 /\ le a2 a') rest rest'.
Proof.
  intros Hb rest. induction rest as [|e rest IH]; intros before a t' a'; cbn [for_table].
  - intros [= <- <-]. split; [done|]. exists []. by rewrite app_nil_r.
  - intros ([e1 a1] & H1 & H)%bind_Some. destruct (Hb _ _ _ _ _ H1) as [Hle HR].
    apply IH in H as (Hle' & rest' & -> & Hrest). split; [by etrans|]. exists (e1 :: rest').
    split; [by rewrite <- app_assoc|]. constructor; [by exists a, a1|].
    eapply Forall2_impl; [|exact Hrest]. intros x y (b1 & b2 & ? & ? & ?). exists b1, b2. split; [by etrans|done].
Qed.

(** A body that always goes on. *)
Lemma for_table_total (f : entry -> A -> entry * A) : (forall t e a, body t e a = Some (f e a)) ->
  forall rest before a, is_Some (for_table body before rest a).
Proof.
  intros Hb rest. induction rest as [|e rest IH]; intros before a; cbn [for_table]; [by eexists|].
  rewrite Hb. cbn. destruct (f e a). apply IH.
Qed.
End for_table.

Lemma Forall2_compose {A} (R1 R2 R : A -> A -> Prop) l1 l2 l3 : Forall2 R1 l1 l2 -> Forall2 R2 l2 l3 ->
  (forall x y z, R1 x y -> R2 y z -> R x z) -> Forall2 R l1 l3.
Proof.
  intros H. revert l3. induction H as [|x y l1 l2 Hxy _ IH]; intros l3 H2 HR; inversion H2; subst; constructor; eauto.
Qed.
Lemma Forall2_same {A} (R : A -> A -> Prop) l : (forall x, R x x) -> Forall2 R l l.
Proof. intros. induction l; by constructor. Qed.
Lemma Forall_Forall2 {A} (P Q : A -> Prop) (R : A -> A -> Prop) l l' : Forall2 R l l' -> Forall P l ->
  (forall x y, R x y -> P x -> Q y) -> Forall Q l'.
Proof. intros H HP HR. induction H; constructor; inversion HP; subst; eauto. Qed.

#[local] Instance any_preorder A : PreOrder (fun _ _ : A => True).
Proof. by split. Qed.
(** [for_entries] with a relation between an entry before and after. *)
Lemma for_entries_inv (R : entry -> entry -> Prop) body r s s' :
  (forall e a e' a', body e a = Some (e', a') -> R e e') -> for_entries body s = Some (r, s') ->
  Forall2 R (mdns_table s) (mdns_table s') /\ mdns_started s' = mdns_started s.
Proof.
  intros HR. unfold for_entries. intros ([t [r' cs]] & H & [= <- <-])%bind_Some.
  destruct (for_table_inv (fun _ => body) (fun _ _ => True) (fun e _ e' _ => R e e')) with (2 := H) as (_ & t' & -> & Ht).
  - by intros _ e a e' a' Hb%HR.
  - split; [|done]. cbn. eapply Forall2_impl; [|exact Ht]. by intros ? ? (? & ? & _ & ? & _).
Qed.

(** * Names *)

(** The name an entry goes by. *)
Definition full_name (e : entry) : list Z :=
  (if counter e =? 0 then name_prefix e
   else if is_host e then name_prefix e ++ [45] ++ mdns_itoa (counter e)
   else name_prefix e ++ [32; 40] ++ mdns_itoa (counter e) ++ [41]) ++ [DOT] ++ name_postfix e.
Lemma update_name_eq e :
  update_name e = if (length (full_name e) <? MDNS_MAX_NAME_LENGTH)%nat then Some (e <| name := full_name e |>) else None.
Proof.
  unfold update_name, full_name, is_host, strcpy. destruct (counter e =? 0), (entry_type e); cbn [negb]; by case_match.
Qed.

(** * The automaton *)

Inductive phase : Set := Idle | Probing (n : Z) (due : bool) | Announcing (n : Z) (due : bool) | Claimed.
Inductive label : Set := Sent | Elapsed | Conflict | Started.
#[export] Instance label_eq_dec : EqDecision label.
Proof. solve_decision. Defined.
(** A name is claimed after three probes and three announcements, with a pause
    after each; a conflict, or a new address, starts again. *)
Inductive pstep : phase -> label -> phase -> Prop :=
| p_probe n : n < 3 -> pstep (Probing n true) Sent (Probing (n + 1) false)
| p_again n : n < 3 -> pstep (Probing n false) Elapsed (Probing n true)
| p_probed : pstep (Probing 3 false) Elapsed (Announcing 0 true)
| p_announce n : n < 3 -> pstep (Announcing n true) Sent (Announcing (n + 1) false)
| p_repeat n : n < 3 -> pstep (Announcing n false) Elapsed (Announcing n true)
| p_claimed : pstep (Announcing 3 false) Elapsed Claimed
| p_conflict p : p <> Idle -> pstep p Conflict (Probing 0 true)
| p_started p : pstep p Started (Probing 0 true).

Definition phase_of (e : entry) : phase :=
  match state e with
  | UNUSED | DISABLED => Idle
  | PROBE_WAIT | PROBE_PARTIAL_SENT => Probing (num_sent e) true
  | PROBE_SENT => Probing (num_sent e) false
  | ANNOUNCE_WAIT => Announcing (num_sent e) true
  | ANNOUNCE_SENT => Announcing (num_sent e) false
  | ACTIVE => Claimed
  end.

(** Reachable phases: a message is due while fewer than three have been sent. *)
Definition phase_ok (p : phase) : Prop :=
  match p with
  | Probing n due | Announcing n due => if due then 0 <= n < 3 else 1 <= n <= 3
  | _ => True
  end.
Lemma pstep_ok p l p' : phase_ok p -> pstep p l p' -> phase_ok p'.
Proof. intros Hp H. destruct H; cbn in *; try lia; done. Qed.

(** What an entry may be asked for. *)
Definition answers_of (e : entry) : Z :=
  if is_host e then Z.lor PENDING_HOST_RESPONSE PENDING_PTR_RESPONSE
  else Z.lor PENDING_PTR_RESPONSE (Z.lor PENDING_SRV_RESPONSE PENDING_TXT_RESPONSE).

Record entry_ok (e : entry) : Prop := EntryOk {
  ok_state : state e <> PROBE_PARTIAL_SENT;
  ok_phase : phase_ok (phase_of e);
  ok_name : state e <> UNUSED -> name e = full_name e;
  ok_length : (length (name e) < MDNS_MAX_NAME_LENGTH)%nat;
  ok_pending : Z.ldiff (pending e) (answers_of e) = 0 }.
Definition table_ok (t : list entry) : Prop := length t = MDNS_NUM_TABLE_ENTRIES /\ Forall entry_ok t.

(** ** Pending answers *)

Lemma ldiff_lor a b m : Z.ldiff a m = 0 -> Z.ldiff b m = 0 -> Z.ldiff (Z.lor a b) m = 0.
Proof.
  rewrite !Z.ldiff_land. intros Ha Hb. by rewrite Z.land_lor_distr_l, Ha, Hb.
Qed.
Lemma ldiff_lxor a b m : Z.ldiff a m = 0 -> Z.ldiff b m = 0 -> Z.ldiff (Z.lxor a b) m = 0.
Proof.
  intros Ha Hb. apply Z.bits_inj'. intros n Hn. apply (f_equal (fun z => Z.testbit z n)) in Ha, Hb.
  rewrite Z.ldiff_spec, Z.bits_0 in *. rewrite Z.lxor_spec. by destruct (Z.testbit a n), (Z.testbit b n), (Z.testbit m n).
Qed.

(** ** Receiving *)

(** A received message leaves an entry in its phase or sends it back. *)
Definition hit (e e' : entry) : Prop :=
  entry_ok e -> entry_ok e' /\ (phase_of e' = phase_of e \/ phase_of e <> Idle /\ phase_of e' = Probing 0 true).
#[export] Instance hit_preorder : PreOrder hit.
Proof.
  split; [by intros e He; split; [|left]|]. intros e1 e2 e3 H12 H23 H1.
  destruct (H12 H1) as [H2 P12]. destruct (H23 H2) as [H3 P23]. split; [done|].
  destruct P12 as [<-|[Hi H12']], P23 as [->|[Hi' ->]]; auto.
Qed.
Lemma Forall2_hit t1 t2 t3 : Forall2 hit t1 t2 -> Forall2 hit t2 t3 -> Forall2 hit t1 t3.
Proof. intros H1 H2. eapply Forall2_compose; [exact H1|exact H2|]. intros x y z. by etrans. Qed.

(** Back to probing, under the name it has. *)
Lemma hit_reset e : phase_of e <> Idle -> hit e (e <| state := PROBE_WAIT |> <| num_sent := 0 |>).
Proof.
  intros Hi [H1 H2 H3 H4 H5]. split; [|by right]. split; cbn in *; [done|lia| |done|done].
  intros _. apply H3. intros E. unfold phase_of in Hi. by rewrite E in Hi.
Qed.
(** Back to probing, under the next name. *)
Lemma hit_lost e e' : phase_of e <> Idle -> update_name (e <| counter ::= fun c => s32 (c + 1) |>) = Some e' ->
  hit e (e' <| state := PROBE_WAIT |> <| num_sent := 0 |>).
Proof.
  intros Hi. rewrite update_name_eq. destruct (Nat.ltb_spec (length (full_name (e <| counter ::= fun c => s32 (c + 1) |>))) MDNS_MAX_NAME_LENGTH) as [Hl|];
    [|done]. intros [= <-] [H1 H2 H3 H4 H5]. split; [|by right]. split; cbn in *; done || lia.
Qed.
Lemma hit_pending e p : (entry_ok e -> Z.ldiff p (answers_of e) = 0) -> hit e (e <| pending := p |>).
Proof. intros Hp He. specialize (Hp He). destruct He as [H1 H2 H3 H4 H5]. split; [|by left]. by split. Qed.

Lemma active_phase e : is_state PROBE_WAIT e || is_state PROBE_SENT e = true -> phase_of e <> Idle.
Proof. unfold is_state, phase_of. by destruct (state e). Qed.

Section receiving.
Variables (msg : list Z) (eom : Z).

Lemma handle_entry_response_hit query_name ans e a e' a' :
  handle_entry_response msg query_name ans e a = Some (e', a') -> hit e e'.
Proof.
  unfold handle_entry_response. destruct a as [r cs].
  destruct (negb _ && negb _ && _) eqn:Hc; [|by intros [= <- _]].
  assert (phase_of e <> Idle) as Hi.
  { apply andb_true_iff in Hc as [Hc _]. unfold is_state, phase_of in *. by destruct (state e). }
  destruct (mdns_answer_conflict _ _ _).
  - destruct (is_state PROBE_WAIT e || is_state PROBE_SENT e) eqn:Ep.
    + destruct (update_name _) as [e1|] eqn:Hu; [|done]. cbn. intros [= <- _]. by eapply hit_lost.
    + cbn. intros [= <- _]. by apply hit_reset.
  - case_match; intros [= <- _]; [|done]. by apply hit_pending.
Qed.
Lemma handle_entry_auth_hit auth n e a e' a' : handle_entry_auth msg eom auth n e a = Some (e', a') -> hit e e'.
Proof.
  unfold handle_entry_auth. destruct a as [r cs].
  destruct (is_state PROBE_WAIT e || is_state PROBE_SENT e) eqn:Ep; [|by intros [= <- _]].
  intros ([|] & _ & H)%bind_Some; [|by injection H as <- _].
  apply bind_Some in H as (e1 & Hu & [= <- _]). eapply hit_lost; [by apply active_phase|done].
Qed.

Lemma ask_hit p e cs : Z.ldiff p (answers_of e) = 0 -> hit e (fst (ask p e cs)) /\ answers_of (fst (ask p e cs)) = answers_of e.
Proof.
  intros Hp. split; [|done]. cbn [ask fst]. apply hit_pending. intros [_ _ _ _ Hq]. by apply ldiff_lor.
Qed.
Lemma answer_query_hit qtype e : hit e (fst (answer_query qtype e)).
Proof.
  unfold answer_query. destruct (is_host e) eqn:Hh.
  - case_match; [|done]. apply ask_hit. unfold answers_of. by rewrite Hh.
  - assert (answers_of e = 26) as Ha by (unfold answers_of; by rewrite Hh).
    destruct (is_type qtype MDNS_RRTYPE_SRV), (is_type qtype MDNS_RRTYPE_TXT); cbn [fst]; try done.
    + destruct (ask PENDING_SRV_RESPONSE e []) as [e1 cs] eqn:E.
      destruct (ask_hit PENDING_SRV_RESPONSE e []) as [H1 H2]; [by rewrite Ha|]. rewrite E in H1, H2. cbn [fst] in *.
      etrans; [exact H1|]. apply ask_hit. by rewrite H2, Ha.
    + apply (ask_hit PENDING_SRV_RESPONSE e []). by rewrite Ha.
    + apply (ask_hit PENDING_TXT_RESPONSE e []). by rewrite Ha.
Qed.
Lemma name_query_hit qtype dptr l : Forall2 hit l (fst (name_query msg qtype dptr l)).
Proof.
  induction l as [|e l IH]; cbn [name_query]; [constructor|]. case_match.
  - pose proof (answer_query_hit qtype e) as H1. destruct (answer_query qtype e). constructor; [done|by apply Forall2_same].
  - destruct (name_query msg qtype dptr l). by constructor.
Qed.
Lemma ptr_query_hit q l : forall addr, Forall2 hit l (fst (ptr_query msg q addr l)).
Proof.
  induction l as [|e l IH]; intros addr; cbn [ptr_query]; [constructor|].
  destruct (if is_state ACTIVE e && is_host e then _ else _) as [h a]. case_match.
  - constructor; [|by apply Forall2_same]. apply hit_pending. intros [_ _ _ _ Hq]. apply ldiff_lor; [done|].
    unfold answers_of. by destruct (is_host e).
  - specialize (IH a). destruct (ptr_query msg q a l). by constructor.
Qed.
Lemma recv_question_hit addr dptr qry s :
  Forall2 hit (mdns_table s) (mdns_table (recv_question msg addr dptr qry s)) /\
  mdns_started (recv_question msg addr dptr qry s) = mdns_started s.
Proof.
  unfold recv_question, handle_mdns_ptr_query. case_match; [|by split; [apply Forall2_same|]]. case_match.
  - pose proof (ptr_query_hit dptr (mdns_table s) addr). by destruct (ptr_query _ _ _ _).
  - pose proof (name_query_hit (NTOHS (rd16 msg qry)) dptr (mdns_table s)). by destruct (name_query _ _ _ _).
Qed.
Lemma recv_questions_hit addr n : forall dptr s d s', recv_questions msg eom addr n dptr s = Some (d, s') ->
  Forall2 hit (mdns_table s) (mdns_table s') /\ mdns_started s' = mdns_started s.
Proof.
  induction n as [|n IH]; intros dptr s d s'; cbn [recv_questions]; [intros [= _ <-]; by split; [apply Forall2_same|]|].
  intros ([qry|] & _ & H)%bind_Some; [|injection H as _ <-; by split; [apply Forall2_same|]].
  apply IH in H as [H Hs]. destruct (recv_question_hit (addr n) dptr qry s) as [Hq Hqs].
  split; [by eapply Forall2_hit|congruence].
Qed.
Lemma recv_answers_hit n : forall dptr r s d r' s', recv_answers msg eom n dptr r s = Some (d, r', s') ->
  Forall2 hit (mdns_table s) (mdns_table s') /\ mdns_started s' = mdns_started s.
Proof.
  induction n as [|n IH]; intros dptr r s d r' s'; cbn [recv_answers]; [intros [= _ _ <-]; by split; [apply Forall2_same|]|].
  intros ([ans|] & _ & H)%bind_Some; [|injection H as _ _ <-; by split; [apply Forall2_same|]].
  apply bind_Some in H as ([r1 s1] & H1 & H). apply IH in H as [H Hs].
  apply (for_entries_inv hit) in H1 as [H1 Hs1]; [|by intros; eapply handle_entry_response_hit].
  split; [by eapply Forall2_hit|congruence].
Qed.
End receiving.

Lemma mdns_recv_hit data len addr s r s' : mdns_recv data len addr s = Some (r, s') ->
  Forall2 hit (mdns_table s) (mdns_table s') /\ mdns_started s' = mdns_started s.
Proof.
  unfold mdns_recv. intros ([d1 s1] & H1 & H)%bind_Some. apply bind_Some in H as ([[d2 r2] s2] & H2 & H).
  apply bind_Some in H as ([r3 s3] & H3 & [= _ <-]). apply recv_questions_hit in H1 as [H1 E1].
  apply recv_answers_hit in H2 as [H2 E2].
  apply (for_entries_inv hit) in H3 as [H3 E3]; [|by intros; eapply handle_entry_auth_hit].
  split; [|by rewrite E3, E2, E1]. eapply Forall2_hit; [exact H1|]. by eapply Forall2_hit.
Qed.

(** ** Sending *)

Definition within (x l : list Z) : Prop := exists a b, l = a ++ x ++ b.
Lemma within_end a x l : prefix (a ++ x) l -> within x l.
Proof. intros [b ->]. exists a, b. by rewrite <- app_assoc. Qed.
Lemma within_app h x l : within x l -> within x (h ++ l).
Proof. intros (a & b & ->). exists (h ++ a), b. by rewrite <- app_assoc. Qed.

(** A message carries an entry: its records, and in a probe the question. *)
Definition carries (data : list Z) (e : entry) : Prop :=
  (exists t recs k, send_records t e = Some (recs, k) /\ within recs data) /\
  (state e = PROBE_WAIT -> within (mdns_send_probe e) data).

Definition longer (m m' : message) : Prop := prefix (fst m) (fst m') /\ snd m <= snd m'.
#[local] Instance longer_preorder : PreOrder longer.
Proof.
  unfold longer. split; [intros m; by split|]. intros m1 m2 m3 [H1 L1] [H2 L2]. split; [by etrans|lia].
Qed.
(** Anything done is counted. *)
Definition counted (e e' : entry) (m m' : message) : Prop := e' = e \/ snd m < snd m'.
Lemma longer_add out w n k : 0 <= k -> longer (out, n) (out ++ w, n + k).
Proof. intros. split; cbn; [by apply prefix_app_r|lia]. Qed.

(** What a call that sends [out] does to an entry: nothing, or the entry was
    due and the message carries it. *)
Definition emitted (out : list Z) (e e' : entry) : Prop :=
  entry_ok e -> entry_ok e' /\
  (phase_of e' = phase_of e \/
   pstep (phase_of e) Sent (phase_of e') /\ carries out e).
Lemma carries_app h out e : carries out e -> carries (h ++ out) e.
Proof.
  intros [(t & recs & k & H & Hw) Hp]. split.
  - exists t, recs, k. split; [done|]. by apply within_app.
  - intros E. by apply within_app, Hp.
Qed.
Lemma emitted_app h out e e' : emitted out e e' -> emitted (h ++ out) e e'.
Proof. intros H He. destruct (H He) as [H1 [H2|[H2 H3]]]; split; auto. right. split; [done|]. by apply carries_app. Qed.

(** The two passes of a probe. *)
Definition asked (out : list Z) (e e1 : entry) : Prop :=
  e1 = e \/ state e = PROBE_WAIT /\ e1 = e <| state := PROBE_PARTIAL_SENT |> /\ within (mdns_send_probe e) out.
Definition proposed (out : list Z) (e1 e2 : entry) : Prop :=
  if is_state PROBE_PARTIAL_SENT e1 then
    (exists t recs k, send_records t e1 = Some (recs, k) /\ within recs out) /\
    exists timeout', e2 = e1 <| num_sent ::= fun n => n + 1 |> <| state := PROBE_SENT |> <| timeout := timeout' |>
  else e2 = e1.
Lemma asked_proposed out e e1 e2 : asked out e e1 -> proposed out e1 e2 -> emitted out e e2.
Proof.
  intros [->|(Hs & -> & Hq)] Hp He.
  - unfold proposed, is_state in Hp. rewrite bool_decide_eq_false_2 in Hp by apply He. subst. by split; [|left].
  - unfold proposed, is_state in Hp. rewrite bool_decide_eq_true_2 in Hp by done.
    destruct Hp as [(t & recs & k & Hr & Hw) [tm ->]]. destruct He as [H1 H2 H3 H4 H5].
    unfold phase_of in H2. rewrite Hs in H2. cbn in H2. split.
    + split; cbn; [done|lia| |done|done]. intros _. apply H3. by rewrite Hs.
    + right. unfold phase_of. rewrite Hs. cbn. split; [apply p_probe; lia|]. split; [|done]. by exists t, recs, k.
Qed.

Lemma send_records_count t e recs k : send_records t e = Some (recs, k) -> 0 < k.
Proof. unfold send_records. destruct (is_host e); [by intros [= _ <-]|]. by intros (? & _ & [= _ <-])%bind_Some. Qed.
Lemma send_question_spec e m e' m' : send_question e m = (e', m') -> longer m m' /\
  (e' = e \/ state e = PROBE_WAIT /\ e' = e <| state := PROBE_PARTIAL_SENT |> /\ prefix (fst m ++ mdns_send_probe e) (fst m')) /\
  counted e e' m m'.
Proof.
  unfold send_question, counted. destruct m as [out n]. destruct (is_state PROBE_WAIT e && _) eqn:E.
  - intros [= <- <-]. apply andb_true_iff in E as [E _]. apply bool_decide_eq_true in E. cbn [fst].
    split; [by apply longer_add|]. split; [by right|]. right. cbn. lia.
  - intros [= <- <-]. split; [done|]. by split; left.
Qed.
Lemma send_authority_spec t0 t e m e' m' : send_authority t0 t e m = Some (e', m') -> longer m m' /\
  if is_state PROBE_PARTIAL_SENT e then
    exists recs k timeout', send_records t e = Some (recs, k) /\ prefix (fst m ++ recs) (fst m') /\
    e' = e <| num_sent ::= fun n => n + 1 |> <| state := PROBE_SENT |> <| timeout := timeout' |>
  else e' = e.
Proof.
  unfold send_authority. destruct m as [out n]. destruct (is_state PROBE_PARTIAL_SENT e).
  - intros ([recs k] & Hr & [= <- <-])%bind_Some. split; [apply longer_add; apply send_records_count in Hr; lia|]. by eexists recs, k, _.
  - intros [= <- <-]. done.
Qed.

Definition unsent (e e' : entry) : Prop := entry_ok e -> e' = e.
Lemma mdns_send_probes_emitted t0 s b s' : mdns_send_probes t0 s = Some (b, s') ->
  mdns_started s' = mdns_started s /\ exists out num_probes num_auth,
  Forall2 (fun e e' => emitted out e e' /\ (b = false -> unsent e e')) (mdns_table s) (mdns_table s') /\
  calls s' = calls s ++ (if b then [Xtcp_send (st_hdr 0 num_probes 0 num_auth ++ out)] else []).
Proof.
  unfold mdns_send_probes. intros ([t1 [out1 k1]] & H1 & H)%bind_Some.
  apply bind_Some in H as ([t2 [out k2]] & H2 & H). apply bind_Some in H as (_ & _ & H).
  eapply (for_table_inv _ longer (fun e m e' m' => (e' = e \/ state e = PROBE_WAIT /\
    e' = e <| state := PROBE_PARTIAL_SENT |> /\ prefix (fst m ++ mdns_send_probe e) (fst m')) /\ counted e e' m m')) in H1
    as (_ & t1' & -> & F1); [|by intros _ e m e' m' [= E]; apply send_question_spec].
  eapply (for_table_inv _ longer (fun e m e' m' => if is_state PROBE_PARTIAL_SENT e then
    exists t recs k timeout', send_records t e = Some (recs, k) /\ prefix (fst m ++ recs) (fst m') /\
      e' = e <| num_sent ::= fun n => n + 1 |> <| state := PROBE_SENT |> <| timeout := timeout' |>
    else e' = e)) in H2 as (Hle & t2' & -> & F2).
  2:{ intros t e m e' m' [Hl Hr]%send_authority_spec. split; [done|]. destruct (is_state _ _); [|done].
      destruct Hr as (recs & k & tm & ?). by exists t, recs, k, tm. }
  cbn [app] in *.
  assert (Forall2 (fun e e' => emitted out e e' /\ ((0 <? k1) = false -> unsent e e')) (mdns_table s) t2') as HF.
  { eapply Forall2_compose; [exact F1|exact F2|]. intros e e1 e2 (m1 & m2 & L1 & (Ha & Hc) & Hl) (m3 & m4 & _ & Hp & Hl').
    split.
    2:{ intros Hk He. destruct L1 as [_ L1], Hl as [_ Hl]. cbn in L1, Hl. destruct Hc as [->|?]; [|lia].
        unfold is_state in Hp. rewrite bool_decide_eq_false_2 in Hp by apply He. done. }
    apply (asked_proposed out e e1 e2).
    - destruct Ha as [->|(? & -> & Hq)]; [by left|]. right. split; [done|]. split; [done|].
      apply (within_end (fst m1)). etrans; [exact Hq|]. etrans; [apply Hl|]. apply Hle.
    - unfold proposed. destruct (is_state PROBE_PARTIAL_SENT e1); [|done]. destruct Hp as (t & recs & k & tm & Hr & Hw & ->).
      split; [|by eexists]. exists t, recs, k. split; [done|]. apply (within_end (fst m3)). etrans; [exact Hw|apply Hl']. }
  destruct (0 <? k1); injection H as <- <-; (split; [done|]); exists out, k1, k2; split; try done.
  cbn. by rewrite app_nil_r.
Qed.

Lemma tst_bit q k : 0 <= k -> tst q (Z.shiftl 1 k) = Z.testbit q k.
Proof.
  intros Hk. unfold tst. rewrite Z.shiftl_1_l. destruct (Z.testbit q k) eqn:E.
  - destruct (Z.eqb_spec (Z.land q (2 ^ k)) 0) as [H|]; [|done]. apply (f_equal (fun z => Z.testbit z k)) in H.
    by rewrite Z.land_spec, Z.pow2_bits_true, E, Z.bits_0 in H by lia.
  - destruct (Z.eqb_spec (Z.land q (2 ^ k)) 0) as [|H]; [done|]. destruct H. apply Z.bits_inj'. intros n Hn.
    rewrite Z.land_spec, Z.bits_0. destruct (decide (n = k)) as [->|]; [by rewrite E|].
    by rewrite Z.pow2_bits_false, andb_false_r by lia.
Qed.
(** An answer that is pending is one that the entry may be asked for. *)
Lemma ldiff_bit q k m : 0 <= k -> Z.testbit q k = true -> Z.ldiff q m = 0 -> Z.ldiff (Z.shiftl 1 k) m = 0.
Proof.
  intros Hk Hq H. rewrite Z.shiftl_1_l. apply Z.bits_inj'. intros n Hn. rewrite Z.ldiff_spec, Z.bits_0.
  destruct (decide (n = k)) as [->|]; [|by rewrite Z.pow2_bits_false by lia].
  apply (f_equal (fun z => Z.testbit z k)) in H. rewrite Z.ldiff_spec, Z.bits_0, Hq in H. by rewrite Z.pow2_bits_true by lia.
Qed.

Definition repending (e e' : entry) : Prop :=
  exists q, e' = e <| pending := q |> /\ (Z.ldiff (pending e) (answers_of e) = 0 -> Z.ldiff q (answers_of e) = 0).
Lemma repending_trans e1 e2 e3 : repending e1 e2 -> repending e2 e3 -> repending e1 e3.
Proof. intros (q & -> & Hq) (q' & -> & Hq'). exists q'. split; [done|]. intros H. by apply Hq', Hq. Qed.
Lemma respond_spec k response e m e' m' : 0 <= k -> respond (Z.shiftl 1 k) response e m = Some (e', m') ->
  longer m m' /\ repending e e' /\ counted e e' m m'.
Proof.
  intros Hk. unfold respond, repending, counted. destruct m as [out n]. rewrite tst_bit by done. destruct (Z.testbit (pending e) k) eqn:Ht.
  - intros (r & _ & [= <- <-])%bind_Some. split; [by apply longer_add|]. split; [|right; cbn; lia].
    exists (Z.lxor (pending e) (Z.shiftl 1 k)). split; [done|]. intros Hq. apply ldiff_lxor; [done|]. by eapply ldiff_bit.
  - intros [= <- <-]. split; [done|]. split; [|by left]. exists (pending e). by destruct e.
Qed.

Definition announced (e e1 : entry) (recs : list Z) : Prop :=
  state e = ANNOUNCE_WAIT /\ (exists t k, send_records t e = Some (recs, k)) /\
  exists timeout', e1 = e <| num_sent ::= fun n => n + 1 |> <| state := ANNOUNCE_SENT |> <| timeout := timeout' |>.
Lemma announce_spec t0 t e m e' m' : announce t0 t e m = Some (e', m') -> longer m m' /\
  (e' = e \/ exists recs, announced e e' recs /\ prefix (fst m ++ recs) (fst m')) /\ counted e e' m m'.
Proof.
  unfold announce, counted. destruct m as [out n]. destruct (is_state ANNOUNCE_WAIT e) eqn:E.
  - apply bool_decide_eq_true in E. intros ([recs k] & Hr & [= <- <-])%bind_Some.
    pose proof (send_records_count _ _ _ _ Hr). split; [apply longer_add; lia|]. split; [|right; cbn; lia].
    right. exists recs. split; [|done]. split; [done|]. split; [by eexists t, k|by eexists].
  - intros [= <- <-]. split; [done|]. by split; left.
Qed.

(** An entry announced, or not, and rid of answers it owed. *)
Definition answered (out : list Z) (e e' : entry) : Prop :=
  exists e1, repending e1 e' /\ (e1 = e \/ exists recs, announced e e1 recs /\ within recs out).
Lemma answered_emitted out e e' : answered out e e' -> emitted out e e'.
Proof.
  intros (e1 & (q & -> & Hq) & H) [H1 H2 H3 H4 H5]. destruct H as [->|(recs & (Es & (t & k & Hr) & [tm ->]) & Hw)].
  - split; [|by left]. split; cbn in *; try done. by apply Hq.
  - unfold phase_of in H2. rewrite Es in H2. cbn in *. split.
    + split; cbn in *; [done|lia| |done|by apply Hq]. intros _. apply H3. by rewrite Es.
    + right. unfold phase_of. rewrite Es. cbn. split; [apply p_announce; lia|]. split; [by exists t, recs, k|]. by rewrite Es.
Qed.

Lemma send_answers_spec t0 t e m e' m' : send_answers t0 t e m = Some (e', m') -> longer m m' /\
  (exists e1, repending e1 e' /\ (e1 = e \/ exists recs, announced e e1 recs /\ prefix (fst m ++ recs) (fst m'))) /\
  counted e e' m m'.
Proof.
  unfold send_answers. destruct (negb _ && _).
  2:{ intros [= <- <-]. split; [done|]. split; [|by left]. exists e. split; [exists (pending e); by destruct e|by left]. }
  intros ([e1 m1] & (L1 & H1 & C1)%announce_spec & H)%bind_Some.
  apply bind_Some in H as ([e2 m2] & (L2 & H2 & C2)%(respond_spec 0) & H); [|done].
  apply bind_Some in H as ([e3 m3] & (L3 & H3 & C3)%(respond_spec 1) & H); [|done].
  apply bind_Some in H as ([e4 m4] & (L4 & H4 & C4)%(respond_spec 3) & (L5 & H5 & C5)%(respond_spec 4)); [|done..].
  assert (longer m1 m') as L by (etrans; [exact L2|]; etrans; [exact L3|]; etrans; [exact L4|]; exact L5).
  split; [by etrans|]. split.
  2:{ destruct L1, L2, L3, L4, L5. unfold counted in *.
      destruct C1 as [->|]; [|right; lia]. destruct C2 as [->|]; [|right; lia]. destruct C3 as [->|]; [|right; lia].
      destruct C4 as [->|]; [|right; lia]. destruct C5 as [->|]; [by left|right; lia]. }
  exists e1. split.
  - eapply repending_trans; [exact H2|]. eapply repending_trans; [exact H3|]. by eapply repending_trans.
  - destruct H1 as [->|(recs & ? & Hp)]; [by left|]. right. exists recs. split; [done|]. etrans; [exact Hp|apply L].
Qed.
Lemma mdns_send_responses_emitted t0 s b s' : mdns_send_responses t0 s = Some (b, s') ->
  mdns_started s' = mdns_started s /\ exists out num_answers,
  Forall2 (fun e e' => emitted out e e' /\ (b = false -> unsent e e')) (mdns_table s) (mdns_table s') /\
  calls s' = calls s ++ (if b then
    [Xtcp_send (st_hdr (Z.lor MDNS_FLAG1_RESPONSE MDNS_FLAG1_AUTHORATIVE) 0 num_answers 0 ++ out)] else []).
Proof.
  unfold mdns_send_responses. intros ([t1 [out k]] & H1 & H)%bind_Some. apply bind_Some in H as (_ & _ & H).
  eapply (for_table_inv _ longer (fun e m e' m' => (exists e1, repending e1 e' /\
    (e1 = e \/ exists recs, announced e e1 recs /\ prefix (fst m ++ recs) (fst m'))) /\ counted e e' m m')) in H1 as (_ & t1' & -> & F);
    [|by intros; eapply send_answers_spec].
  assert (Forall2 (fun e e' => emitted out e e' /\ ((0 <? k) = false -> unsent e e')) (mdns_table s) t1') as HF.
  { eapply Forall2_impl; [|exact F]. intros e e' (m1 & m2 & L1 & ((e1 & Hr & H1) & Hc) & Hl). split.
    2:{ intros Hk _. destruct L1 as [_ L1], Hl as [_ Hl]. cbn in L1, Hl. destruct Hc as [->|?]; [done|lia]. }
    apply answered_emitted. exists e1. split; [done|]. destruct H1 as [->|(recs & Ha & Hp)]; [by left|]. right. exists recs.
    split; [done|]. apply (within_end (fst m1)). etrans; [exact Hp|apply Hl]. }
  destruct (0 <? k); injection H as <- <-; (split; [done|]); exists out, k; split; try done.
  cbn. by rewrite app_nil_r.
Qed.

(** One call to send: one message, which carries every entry that moves. *)
Lemma mdns_send_emitted t0 s s' : mdns_send t0 s = Some s' ->
  mdns_started s' = mdns_started s /\ exists data,
  Forall2 (emitted data) (mdns_table s) (mdns_table s') /\ calls s' = calls s ++ [Xtcp_send data].
Proof.
  unfold mdns_send. intros ([b s1] & H1 & H)%bind_Some. apply mdns_send_probes_emitted in H1 as (E1 & out & k & n & F1 & C1).
  destruct b.
  - injection H as <-. split; [done|]. eexists. split; [|exact C1]. eapply Forall2_impl; [|exact F1].
    intros e e' [H _]. by apply emitted_app.
  - cbn in C1. rewrite app_nil_r in C1. apply bind_Some in H as ([b s2] & H2 & H).
    apply mdns_send_responses_emitted in H2 as (E2 & out2 & k2 & F2 & C2). destruct b; injection H as <-.
    + split; [congruence|]. eexists. split; [|by rewrite C2, C1]. eapply Forall2_compose; [exact F1|exact F2|].
      intros e e1 e2 [_ H1] [H2 _] He. rewrite (H1 eq_refl He) in H2. exact (emitted_app _ _ _ _ H2 He).
    + cbn in C2. rewrite app_nil_r in C2. split; [cbn; congruence|]. exists []. split; [|cbn; by rewrite C2, C1].
      eapply Forall2_compose; [exact F1|exact F2|]. intros e e1 e2 [_ H1] [_ H2] He.
      rewrite (H1 eq_refl He) in H2. rewrite (H2 eq_refl He). by split; [|left].
Qed.

(** ** The passing of time *)

Definition restarted (e e' : entry) : Prop :=
  entry_ok e -> entry_ok e' /\ (e' = e \/ phase_of e' = Probing 0 true).
Lemma start_entry_restarted e a e' a' : start_entry e a = Some (e', a') -> restarted e e'.
Proof.
  unfold start_entry. destruct (is_state UNUSED e) eqn:Es; cbn [negb]; intros [= <- _] He; [by split; [|left]|].
  apply bool_decide_eq_false in Es. destruct He as [H1 H2 H3 H4 H5]. split; [|by right]. split; cbn; try done; try lia.
  intros _. by apply H3.
Qed.
Definition elapsed (t : Z) (e e' : entry) : Prop :=
  entry_ok e -> entry_ok e' /\
  (e' = e \/ timeafter t (timeout e) = true /\ pstep (phase_of e) Elapsed (phase_of e')).
Lemma entry_periodic_elapsed t e a e' a' : entry_periodic t e a = Some (e', a') -> elapsed t e e'.
Proof.
  unfold entry_periodic. destruct a as [r cs]. intros H He. assert (entry_ok e) as He' by done.
  destruct He as [H1 H2 H3 H4 H5]. unfold phase_of in H2 |- *. destruct (state e) eqn:Es; try (injection H as <- _; by split; [|left]).
  all: destruct (timeafter t (timeout e)) eqn:Ht; [|injection H as <- _; by split; [|left]].
  all: destruct (Z.ltb_spec (num_sent e) 3); injection H as <- _; cbn in H2.
  all: (split; [split; cbn; try done; try lia; intros _; by rewrite H3 by congruence|]; right; cbn; split; [done|]).
  - by apply p_again.
  - replace (num_sent e) with 3 by lia. apply p_probed.
  - by apply p_repeat.
  - replace (num_sent e) with 3 by lia. apply p_claimed.
Qed.

(** * The handler *)

Lemma table_ok_lift (Q : entry -> entry -> Prop) t t' :
  Forall2 (fun e e' => entry_ok e -> entry_ok e' /\ Q e e') t t' -> table_ok t -> table_ok t' /\ Forall2 Q t t'.
Proof.
  intros HF [Hl Ht]. split; [split|].
  - by rewrite <- (Forall2_length HF).
  - eapply Forall_Forall2; [exact HF|exact Ht|]. intros e e' H He. by apply H.
  - clear Hl. induction HF as [|e e' l l' H _ IH]; inversion Ht; subst; constructor; [by apply H|by apply IH].
Qed.

(** What can be seen, when a call of the handler takes an entry along a step. *)
Definition observed (i : mdns_input) (conn : xtcp_connection_t) (s s' : mdns) (e : entry) (l : label) : Prop :=
  match l with
  | Sent => event conn ∈ [XTCP_REQUEST_DATA; XTCP_SENT_DATA; XTCP_RESEND_DATA] /\
      exists data, calls s' = calls s ++ [Xtcp_send data] /\ carries data e
  | Elapsed => event conn = XTCP_POLL /\ timeafter (now i) (timeout e) = true
  | Conflict => event conn = XTCP_RECV_DATA
  | Started => event conn = XTCP_POLL /\ mdns_started s = 1
  end.
(** [P] holds of at most one step. *)
Definition moves (P : entry -> label -> Prop) (e e' : entry) : Prop :=
  phase_of e' = phase_of e \/ exists l, P e l /\ pstep (phase_of e) l (phase_of e').

Lemma mdns_periodic_moves i conn s r s' s1 : event conn = XTCP_POLL -> mdns_periodic (now i) s = Some (r, s') ->
  table_ok (mdns_table s) ->
  table_ok (mdns_table s') /\ Forall2 (moves (observed i conn s s1)) (mdns_table s) (mdns_table s').
Proof.
  intros Hev H Hok. unfold mdns_periodic in H. apply bind_Some in H as (s2 & H2 & H).
  apply (for_entries_inv (elapsed (now i))) in H as [H _]; [|by intros; eapply entry_periodic_elapsed].
  assert (Forall2 (fun e e' => if mdns_started s =? 1 then restarted e e' else e' = e) (mdns_table s) (mdns_table s2)) as HF.
  { destruct (mdns_started s =? 1); [|injection H2 as <-; by apply Forall2_same].
    unfold mdns_start_entries in H2. apply bind_Some in H2 as ([r2 s3] & H2 & [= <-]).
    apply (for_entries_inv restarted) in H2 as [H2 _]; [done|]. intros. by eapply start_entry_restarted. }
  apply table_ok_lift; [|done]. eapply Forall2_compose; [exact HF|exact H|]. intros e e1 e2 H1 H12 He.
  assert (entry_ok e1 /\ (e1 = e \/ mdns_started s = 1 /\ phase_of e1 = Probing 0 true)) as [He1 Hp].
  { destruct (Z.eqb_spec (mdns_started s) 1); [|subst; by split; [|left]]. destruct (H1 He) as [? [?|?]]; auto. }
  destruct (H12 He1) as [He2 [->|[Ht Hs]]]; (split; [done|]); destruct Hp as [->|[Hst Hp]].
  - by left.
  - right. exists Started. split; [done|]. rewrite Hp. apply p_started.
  - right. by exists Elapsed.
  - rewrite Hp in Hs. inversion Hs.
Qed.

(** The two branches of the handler: setting up the connection, and the rest. *)
Lemma mdns_handle_event_cases i conn s r conn' s' : mdns_handle_event i conn s = Some (r, conn', s') ->
  mdns_table s' = mdns_table s \/ event conn = XTCP_IFUP /\ mdns_table s' = map (fun e => e <| ipaddr := if_addr i |>) (mdns_table s) \/
  (event conn = XTCP_POLL /\ mdns_periodic (now i) s = Some (r, s')) \/
  (event conn = XTCP_RECV_DATA /\ mdns_recv (rx_data i) (rx_len i) (rx_addr i) s = Some (r, s')) \/
  (event conn ∈ [XTCP_REQUEST_DATA; XTCP_SENT_DATA; XTCP_RESEND_DATA] /\ mdns_send (now i) s = Some s').
Proof.
  unfold mdns_handle_event. destruct (event conn) eqn:Hev;
    rewrite ?(bool_decide_eq_false_2 (_ = XTCP_NEW_CONNECTION)), ?andb_false_r by done;
    destruct (local_port conn =? MDNS_SERVER_PORT);
    try (intros ([r1 s1] & H1 & [= <- <- <-])%bind_Some); try (intros [= <- <- <-]).
  all: try (by left); try (injection H1 as <- <-).
  all: try (by left); try (left; cbn; by destruct (_ && _)); try (by right; left).
  all: try (right; right; left; by split); try (right; right; right; left; by split).
  all: apply bind_Some in H1 as (s2 & H1 & [= <- <-]); do 4 right; split; [|done]; rewrite !elem_of_cons; auto.
Qed.

(** Every call of the handler keeps the table well-formed and takes each
    entry along the automaton, by at most one step, for a reason that can be
    seen: it is in the message that the call sends, its pause is over, a message
    has been received, or the address of the host is new. *)
Lemma mdns_handle_event_refines i conn s r conn' s' : table_ok (mdns_table s) ->
  mdns_handle_event i conn s = Some (r, conn', s') ->
  table_ok (mdns_table s') /\ Forall2 (moves (observed i conn s s')) (mdns_table s) (mdns_table s').
Proof.
  intros Hok [Ht|[[Hev Ht]|[[Hev Ht]|[[Hev Ht]|[Hev Ht]]]]]%mdns_handle_event_cases.
  - rewrite Ht. split; [done|]. apply Forall2_same. by left.
  - apply table_ok_lift; [|done]. rewrite Ht. clear. induction (mdns_table s) as [|e t IH]; cbn [map]; constructor; [|done].
    intros [H1 H2 H3 H4 H5]. split; [by split|by left].
  - by eapply mdns_periodic_moves.
  - apply mdns_recv_hit in Ht as [Ht _]. apply table_ok_lift; [|done]. eapply Forall2_impl; [|exact Ht].
    intros e e' Hh He. destruct (Hh He) as [He' [?|[Hi Hp]]]; (split; [done|]); [by left|]. right. exists Conflict.
    split; [done|]. rewrite Hp. by apply p_conflict.
  - apply mdns_send_emitted in Ht as (_ & data & Ht & Hc). apply table_ok_lift; [|done]. eapply Forall2_impl; [|exact Ht].
    intros e e' Hh He. destruct (Hh He) as [He' [?|[Hs Hd]]]; (split; [done|]); [by left|]. right. exists Sent.
    split; [|done]. split; [done|]. by exists data.
Qed.

(** ** From the first probe to the claim *)

(** Steps of one entry along a run of the handler, with what was seen at each. *)
Inductive history (k : nat) : mdns -> list label -> mdns -> Prop :=
| h_start s : history k s [] s
| h_quiet s ls s1 i conn r conn' s2 : history k s ls s1 -> mdns_handle_event i conn s1 = Some (r, conn', s2) ->
    phase_of <$> mdns_table s2 !! k = phase_of <$> mdns_table s1 !! k -> history k s ls s2
| h_step s ls s1 i conn r conn' s2 e l : history k s ls s1 -> mdns_handle_event i conn s1 = Some (r, conn', s2) ->
    mdns_table s1 !! k = Some e -> observed i conn s1 s2 e l -> history k s (ls ++ [l]) s2.
Inductive runs : mdns -> mdns -> Prop :=
| r_start s : runs s s
| r_event s s1 i conn r conn' s2 : runs s s1 -> mdns_handle_event i conn s1 = Some (r, conn', s2) -> runs s s2.

Inductive psteps : phase -> list label -> phase -> Prop :=
| ps_start p : psteps p [] p
| ps_step p ls p1 l p2 : psteps p ls p1 -> pstep p1 l p2 -> psteps p (ls ++ [l]) p2.


Lemma runs_history s s' k e : runs s s' -> table_ok (mdns_table s) -> mdns_table s !! k = Some e ->
  table_ok (mdns_table s') /\ exists e' ls, mdns_table s' !! k = Some e' /\ history k s ls s' /\ psteps (phase_of e) ls (phase_of e').
Proof.
  intros Hr Hok He. induction Hr as [s|s s1 i conn r conn' s2 _ IH H].
  - split; [done|]. exists e, []. split; [done|]. split; [apply h_start|apply ps_start].
  - destruct (IH Hok He) as (Hok1 & e1 & ls & He1 & Hh & Hp).
    pose proof (mdns_handle_event_refines _ _ _ _ _ _ Hok1 H) as [Hok2 Hm]. split; [done|].
    destruct (Forall2_lookup_l _ _ _ _ _ Hm He1) as (e2 & He2 & Hm2). exists e2. destruct Hm2 as [Eq|(l & Ho & Hs)].
    + exists ls. split; [done|]. split; [|by rewrite Eq]. eapply h_quiet; [exact Hh|exact H|]. rewrite He2, He1. cbn. by f_equal.
    + exists (ls ++ [l]). split; [done|]. split; [by eapply h_step|by eapply ps_step].
Qed.

(** The steps since an entry last went back to the first probe. *)
Definition since (p : phase) : option (list label) :=
  match p with
  | Idle => None
  | Probing n due => Some (concat (repeat [Sent; Elapsed] (Z.to_nat (if due then n else n - 1))) ++ (if due then [] else [Sent]))
  | Announcing n due =>
      Some (concat (repeat [Sent; Elapsed] (3 + Z.to_nat (if due then n else n - 1))) ++ (if due then [] else [Sent]))
  | Claimed => Some (concat (repeat [Sent; Elapsed] 6))
  end.
Lemma repeat_snoc {A} (x : list A) n : concat (repeat x n) ++ x = concat (repeat x (S n)).
Proof. induction n as [|n IH]; cbn [repeat concat app]; [by rewrite app_nil_r|]. by rewrite <- app_assoc, IH. Qed.
Lemma pstep_since p l p' : phase_ok p -> pstep p l p' ->
  since p' = (if decide (l = Conflict \/ l = Started) then Some [] else (fun w => w ++ [l]) <$> since p).
Proof.
  intros Hp H. destruct H as [n Hn|n Hn| |n Hn|n Hn| |p Hi|p]; cbn in Hp;
    first [rewrite decide_False by (intros [?|?]; discriminate)|rewrite decide_True by auto; done]; cbn [since fmap option_fmap option_map];
    f_equal; rewrite ?app_nil_r.
  - by replace (n + 1 - 1) with n by lia.
  - rewrite <- app_assoc. cbn [app]. rewrite repeat_snoc. do 2 f_equal. lia.
  - by replace (n + 1 - 1) with n by lia.
  - rewrite <- app_assoc. cbn [app]. rewrite repeat_snoc. do 2 f_equal. lia.
Qed.
Lemma psteps_since p ls p' : psteps p ls p' -> phase_ok p -> p = Idle -> phase_ok p' /\
  match since p' with
  | None => ls = [] \/ p' = Idle
  | Some w => exists before l, (l = Conflict \/ l = Started) /\ ls = before ++ [l] ++ w
  end.
Proof.
  intros H Hp Hi. induction H as [|p ls p1 l p2 _ IH Hs]; [subst; by split; [|left]|]. destruct (IH Hp Hi) as [Hp1 IH1]. clear IH.
  split; [by eapply pstep_ok|]. rewrite (pstep_since _ _ _ Hp1 Hs). case_decide as Hl.
  - exists ls, l. by rewrite app_nil_r.
  - destruct (since p1) as [w|] eqn:E; cbn.
    + destruct IH1 as (b & l' & Hl' & ->). exists b, l'. split; [done|]. by rewrite <- !app_assoc.
    + right. destruct Hs; cbn in E; try done; try tauto.
Qed.

(** C15: a name is claimed only after three probes and three announcements.
    Whatever has happened since an idle entry of the table became active, its
    last thirteen steps are a start (or a conflict), and then six times a
    message that carries the entry and the end of the pause after it. *)
Theorem mdns_claimed_after_six s s' k e e' : table_ok (mdns_table s) -> runs s s' ->
  mdns_table s !! k = Some e -> phase_of e = Idle -> mdns_table s' !! k = Some e' -> state e' = ACTIVE ->
  exists before start, (start = Started \/ start = Conflict) /\
  history k s (before ++ [start] ++ concat (repeat [Sent; Elapsed] 6)) s'.
Proof.
  intros Hok Hr He Hi He' Ha. destruct (runs_history s s' k e Hr Hok He) as (_ & e1 & ls & He1 & Hh & Hp).
  rewrite He' in He1. injection He1 as <-. rewrite Hi in Hp. apply psteps_since in Hp as [_ Hp]; [|done|done].
  unfold phase_of in Hp. rewrite Ha in Hp. destruct Hp as (b & l & Hl & ->). exists b, l. split; [tauto|done].
Qed.
