(* ===== verification/MdnsSend.v ===== *)
(** * What [mdns.c] sends

    The exact message of a call to send, when everything that is due fits in
    one buffer; the claim of a name when nobody objects; the answer to a query. *)
From S2P Require Export MdnsRun.
Local Open Scope Z_scope.

(** * Loops that run to their end *)

Definition size (l : list Z) : Z := Z.of_nat (length l).
Definition total (f : entry -> Z) (t : list entry) : Z := foldr (fun e n => f e + n) 0 t.
Definition gather (f : entry -> list Z) (t : list entry) : list Z := concat (map f t).
Lemma size_app l l' : size (l ++ l') = size l + size l'.
Proof. unfold size. rewrite length_app. lia. Qed.
Lemma total_app f t t' : total f (t ++ t') = total f t + total f t'.
Proof. unfold total. induction t as [|e t IH]; cbn; [lia|]. rewrite IH. lia. Qed.
Lemma gather_app f t t' : gather f (t ++ t') = gather f t ++ gather f t'.
Proof. unfold gather. by rewrite map_app, concat_app. Qed.
Lemma total_nonneg f t : (forall e, 0 <= f e) -> 0 <= total f t.
Proof. intros H. unfold total. induction t as [|e t IH]; cbn; [lia|]. specialize (H e). lia. Qed.
Lemma total_le f g t : (forall e, f e <= g e) -> total f t <= total g t.
Proof. intros H. unfold total. induction t as [|e t IH]; cbn; [lia|]. specialize (H e). lia. Qed.
Lemma total_ext f g t : (forall e, f e = g e) -> total f t = total g t.
Proof. intros H. unfold total. induction t as [|e t IH]; cbn; [done|]. by rewrite IH, H. Qed.
Lemma size_gather f t : size (gather f t) = total (fun e => size (f e)) t.
Proof. unfold gather. induction t as [|e t IH]; cbn; [done|]. by rewrite size_app, IH. Qed.

Lemma gather_map f g t : gather f (map g t) = gather (fun e => f (g e)) t.
Proof. unfold gather. by rewrite map_map. Qed.
Lemma total_map f g t : total f (map g t) = total (fun e => f (g e)) t.
Proof. unfold total. induction t as [|e t IH]; cbn; [done|]. by rewrite IH. Qed.

(** A loop whose turns add [out e] to the message, [num e] to the count, and
    take [e] to [after e], as long as the message stays within its bound. *)
Section table_sum.
Context (body : list entry -> entry -> message -> option (entry * message)).
Context (after : entry -> entry) (out : entry -> list Z) (num : entry -> Z) (load : entry -> Z) (bound : Z).
Context (P : list entry -> Prop).
Hypothesis load_out : forall e, size (out e) <= load e.
Hypothesis after_P : forall before e rest, P (before ++ e :: rest) -> P (before ++ after e :: rest).
Hypothesis body_ok : forall before e rest o n, P (before ++ e :: rest) -> size o + load e <= bound ->
  body (before ++ e :: rest) e (o, n) = Some (after e, (o ++ out e, n + num e)).

Lemma for_table_sum t o n : P t -> size o + total load t <= bound ->
  for_table body [] t (o, n) = Some (map after t, (o ++ gather out t, n + total num t)).
Proof.
  intros HP Hl. assert (forall rest before o n, P (before ++ rest) -> size o + total load rest <= bound ->
    for_table body before rest (o, n) = Some (before ++ map after rest, (o ++ gather out rest, n + total num rest))) as H.
  { clear t o n HP Hl. intros rest. induction rest as [|e rest IH]; intros before o n HP Hl; cbn [for_table map gather concat total foldr].
    - by rewrite !app_nil_r, Z.add_0_r.
    - cbn [total foldr] in Hl. assert (0 <= total load rest) as Hp by (apply total_nonneg; intros e'; specialize (load_out e'); unfold size in *; lia).
      unfold total in *. rewrite body_ok by (done || lia). cbn [mbind option_bind]. rewrite IH.
      + by rewrite <- !app_assoc, Z.add_assoc.
      + rewrite <- app_assoc. by apply after_P.
      + rewrite size_app. pose proof (load_out e). lia. }
  by apply (H t []).
Qed.
End table_sum.

(** * The canonical name *)

(** The name that answers for the services, once it is not waiting to be probed. *)
Fixpoint canonical (t : list entry) : option (list Z) :=
  match t with
  | [] => None
  | e :: t => if bool_decide (entry_type e = MDNS_CANONICAL_NAME_ENTRY) then Some (name e) else canonical t
  end.
Definition settled (t : list entry) : Prop := Forall (fun e => is_state PROBE_WAIT e = false) t.
Lemma get_canonical_settled t : settled t -> mdns_get_canonical_name t = canonical t.
Proof.
  intros H. induction H as [|e t He _ IH]; cbn [mdns_get_canonical_name canonical]; [done|]. rewrite He, IH. by case_bool_decide.
Qed.
Definition keeps_name (f : entry -> entry) : Prop := forall e, name (f e) = name e /\ entry_type (f e) = entry_type e.
Lemma canonical_map f t : keeps_name f -> canonical (map f t) = canonical t.
Proof. intros Hf. induction t as [|e t IH]; cbn; [done|]. destruct (Hf e) as [-> ->]. by rewrite IH. Qed.
Lemma canonical_replace f before e rest : keeps_name f -> canonical (before ++ f e :: rest) = canonical (before ++ e :: rest).
Proof. intros Hf. induction before as [|x b IH]; cbn; [by destruct (Hf e) as [-> ->]|by rewrite IH]. Qed.

Section records.
Variable c : list Z.

Definition srv_record (e : entry) : list Z :=
  let target_name := mdns_encode_name c in
  mdns_encode_name (name e)
  ++ st_answer MDNS_RRTYPE_SRV MDNS_RRCLASS_IN (sizeof_srv_hdr + size target_name)
  ++ st16 0 ++ st16 0 ++ st16 (HTONS (srv_port e)) ++ target_name.
Definition records (e : entry) : list Z :=
  if is_host e then mdns_send_host_response e
  else mdns_send_ptr_response e ++ srv_record e ++ mdns_send_txt_response e.
Definition num_records (e : entry) : Z := if is_host e then 1 else 3.
Definition named (t : list entry) : Prop := settled t /\ canonical t = Some c.
Lemma named_srv t e : named t -> mdns_send_srv_response t e = Some (srv_record e).
Proof. intros [Hs Hc]. unfold mdns_send_srv_response. by rewrite get_canonical_settled, Hc. Qed.
Lemma named_records t e : named t -> send_records t e = Some (records e, num_records e).
Proof.
  intros H. unfold send_records, records, num_records. destruct (is_host e); [done|]. by rewrite named_srv.
Qed.
Lemma named_due before e rest : named (before ++ e :: rest) -> is_state PROBE_WAIT e = false.
Proof. intros [Hs _]. unfold settled in Hs. rewrite Forall_app, Forall_cons_iff in Hs. tauto. Qed.
Lemma named_replace f before e rest : keeps_name f -> is_state PROBE_WAIT (f e) = false ->
  named (before ++ e :: rest) -> named (before ++ f e :: rest).
Proof.
  intros Hf He [Hs Hc]. split; [|by rewrite canonical_replace].
  unfold settled in *. rewrite Forall_app, Forall_cons_iff in Hs |- *. tauto.
Qed.

(** * Probes *)

Definition due (e : entry) : Z := if is_state PROBE_WAIT e then 1 else 0.
Definition waiting (t : list entry) : bool := 0 <? total due t.
Definition question (e : entry) : list Z := if is_state PROBE_WAIT e then mdns_send_probe e else [].
Definition proposal (e : entry) : list Z := if is_state PROBE_WAIT e then records e else [].
Definition num_proposed (e : entry) : Z := if is_state PROBE_WAIT e then num_records e else 0.
Definition probed (t0 : Z) (e : entry) : entry :=
  if is_state PROBE_WAIT e then
    e <| num_sent ::= fun n => n + 1 |> <| state := PROBE_SENT |>
      <| timeout := w32 (t0 + (if counter e <? 15 then 250 else 2500) * 1000 * 100) |>
  else e.
Definition question_load (e : entry) : Z := if is_state PROBE_WAIT e then Z.max (size (mdns_send_probe e)) (probe_size e + 1) else 0.
Definition room : Z := XTCP_CLIENT_BUF_SIZE - sizeof_hdr.
Definition probe_message (t : list entry) : list Z :=
  st_hdr 0 (total due t) 0 (total num_proposed t) ++ gather question t ++ gather proposal t.

Lemma space_left_room o : space_left o = room - size o.
Proof. unfold space_left, room, size. lia. Qed.

Definition asking (e : entry) : entry := if is_state PROBE_WAIT e then e <| state := PROBE_PARTIAL_SENT |> else e.
Lemma send_questions t : total question_load t <= room ->
  for_table (fun _ e m => Some (send_question e m)) [] t ([], 0) = Some (map asking t, (gather question t, total due t)).
Proof.
  intros Hl. rewrite (for_table_sum _ asking question due question_load room (fun _ => True)); [by rewrite Z.add_0_l| |done| |done|done].
  - intros e. unfold question, question_load. destruct (is_state _ _); [lia|done].
  - intros before e rest o n _ He. f_equal. unfold send_question, asking, question, due, question_load in *. rewrite space_left_room.
    destruct (is_state PROBE_WAIT e); cbn [andb]; [|by rewrite app_nil_r, Z.add_0_r].
    by destruct (Z.ltb_spec (probe_size e) (room - size o)); [|lia].
Qed.
Definition proposing (t0 : Z) (e : entry) : entry :=
  if is_state PROBE_PARTIAL_SENT e then
    e <| num_sent ::= fun n => n + 1 |> <| state := PROBE_SENT |>
      <| timeout := w32 (t0 + (if counter e <? 15 then 250 else 2500) * 1000 * 100) |>
  else e.
Lemma send_authorities t0 t o : named t ->
  for_table (send_authority t0) [] t (o, 0) =
  Some (map (proposing t0) t, (o ++ gather (fun e => if is_state PROBE_PARTIAL_SENT e then records e else []) t,
    total (fun e => if is_state PROBE_PARTIAL_SENT e then num_records e else 0) t)).
Proof.
  intros Hn. set (out e := if is_state PROBE_PARTIAL_SENT e then records e else []).
  rewrite (for_table_sum _ (proposing t0) out (fun e => if is_state PROBE_PARTIAL_SENT e then num_records e else 0)
    (fun e => size (out e)) (size o + total (fun e => size (out e)) t) named); [by rewrite Z.add_0_l|done| | |done|lia].
  - intros before e rest H. apply named_replace; [| |done].
    + intros e'. unfold proposing. by destruct (is_state _ _).
    + unfold proposing. destruct (is_state PROBE_PARTIAL_SENT e) eqn:E; [done|]. by eapply named_due.
  - intros before e rest o' n H _. unfold send_authority, out, proposing. destruct (is_state PROBE_PARTIAL_SENT e).
    + by rewrite (named_records _ e H).
    + by rewrite app_nil_r, Z.add_0_r.
Qed.

(** One probe. *)
Definition probe_fits (t : list entry) : Prop := total question_load t + size (gather proposal t) <= room.
Lemma due_nonneg t : 0 <= total due t.
Proof. apply total_nonneg. intros e. unfold due. by destruct (is_state _ _). Qed.
Lemma waiting_false t : waiting t = false <-> settled t.
Proof.
  unfold waiting, settled. induction t as [|e t IH]; [by split|]. rewrite Forall_cons_iff, <- IH. pose proof (due_nonneg t).
  change (total due (e :: t)) with (due e + total due t). unfold due at 1. destruct (is_state PROBE_WAIT e).
  2:{ rewrite Z.add_0_l. split; [by split|by intros [_ ?]]. }
  split; [|by intros [? _]]. destruct (Z.ltb_spec 0 (1 + total due t)); [done|lia].
Qed.
Lemma mdns_send_probes_exact t0 s : Forall (fun e => state e <> PROBE_PARTIAL_SENT) (mdns_table s) ->
  canonical (mdns_table s) = Some c -> probe_fits (mdns_table s) ->
  mdns_send_probes t0 s =
  Some (if waiting (mdns_table s) then (true, call (Xtcp_send (probe_message (mdns_table s)))
                                                (s <| mdns_table := map (probed t0) (mdns_table s) |>))
        else (false, s)).
Proof.
  intros Hp Hc Hf. unfold mdns_send_probes, probe_fits in *. set (t := mdns_table s) in *.
  assert (0 <= size (gather proposal t)) by (unfold size; lia). rewrite send_questions by lia. cbn [mbind option_bind].
  assert (keeps_name asking) as Hk by (intros e; unfold asking; by destruct (is_state _ _)).
  rewrite send_authorities.
  2:{ split; [|by rewrite canonical_map]. apply Forall_map, Forall_true. intros e. unfold asking.
      destruct (is_state PROBE_WAIT e) eqn:E; [done|exact E]. }
  cbn [mbind option_bind]. rewrite gather_map, total_map, map_map.
  assert (map (fun e => proposing t0 (asking e)) t = map (probed t0) t /\
    gather (fun e => if is_state PROBE_PARTIAL_SENT (asking e) then records (asking e) else []) t = gather proposal t /\
    total (fun e => if is_state PROBE_PARTIAL_SENT (asking e) then num_records (asking e) else 0) t = total num_proposed t) as (-> & -> & ->).
  { clear -Hp. unfold gather, total. induction Hp as [|e t He _ (IH1 & IH2 & IH3)]; [done|]. cbn [map concat foldr].
    rewrite IH1, IH2, IH3. unfold proposing, asking, probed, proposal, num_proposed.
    destruct (is_state PROBE_WAIT e) eqn:E; [done|].
    by assert (is_state PROBE_PARTIAL_SENT e = false) as -> by (by apply bool_decide_eq_false_2). }
  unfold in_buffer. rewrite space_left_room, size_app, size_gather.
  assert (total (fun e => size (question e)) t <= total question_load t).
  { apply total_le. intros e. unfold question, question_load. destruct (is_state _ _); [lia|done]. }
  destruct (Z.leb_spec 0 (room - (total (fun e => size (question e)) t + size (gather proposal t)))); [|lia].
  cbn [mbind option_bind]. fold (waiting t). destruct (waiting t) eqn:Ew; [done|].
  apply waiting_false in Ew. do 2 f_equal. assert (map (probed t0) t = t) as ->; [|by unfold t; destruct s].
  clear -Ew. induction Ew as [|e t He _ IH]; cbn; [done|]. rewrite IH. unfold probed. by rewrite He.
Qed.

(** * Answers *)

Definition settle (p q : Z) : Z := if tst q p then Z.lxor q p else q.
Definition owed (p : Z) (e : entry) (r : list Z) : list Z := if tst (pending e) p then r else [].
Definition owes (p : Z) (e : entry) : Z := if tst (pending e) p then 1 else 0.
Definition announced_records (e : entry) : list Z := if is_state ANNOUNCE_WAIT e then records e else [].
Definition answers (e : entry) : list Z :=
  if is_state UNUSED e then []
  else announced_records e ++ owed PENDING_HOST_RESPONSE e (mdns_send_host_response e)
       ++ owed PENDING_PTR_RESPONSE e (mdns_send_ptr_response e) ++ owed PENDING_SRV_RESPONSE e (srv_record e)
       ++ owed PENDING_TXT_RESPONSE e (mdns_send_txt_response e).
Definition num_answers (e : entry) : Z :=
  if is_state UNUSED e then 0
  else (if is_state ANNOUNCE_WAIT e then num_records e else 0) + owes PENDING_HOST_RESPONSE e + owes PENDING_PTR_RESPONSE e
       + owes PENDING_SRV_RESPONSE e + owes PENDING_TXT_RESPONSE e.
Definition announced_entry (t0 : Z) (e : entry) : entry :=
  if is_state ANNOUNCE_WAIT e then
    e <| num_sent ::= fun n => n + 1 |> <| state := ANNOUNCE_SENT |> <| timeout := w32 (t0 + 1000 * 1000 * 100) |>
  else e.
Definition settle_all (q : Z) : Z :=
  settle PENDING_TXT_RESPONSE (settle PENDING_SRV_RESPONSE (settle PENDING_PTR_RESPONSE (settle PENDING_HOST_RESPONSE q))).
Definition responded (t0 : Z) (e : entry) : entry :=
  if is_state UNUSED e then e else (announced_entry t0 e) <| pending ::= settle_all |>.
Definition answer_load (e : entry) : Z :=
  if num_answers e =? 0 then 0 else Z.max (size (answers e)) (mdns_response_size e + 1).
Definition response_message (t : list entry) : list Z :=
  st_hdr (Z.lor MDNS_FLAG1_RESPONSE MDNS_FLAG1_AUTHORATIVE) 0 (total num_answers t) 0 ++ gather answers t.

Lemma respond_eq p response e r o n : response e = Some r ->
  respond p response e (o, n) = Some (e <| pending ::= settle p |>, (o ++ owed p e r, n + owes p e)).
Proof.
  intros Hr. unfold respond, owed, owes.
  assert (e <| pending ::= settle p |> = if tst (pending e) p then e <| pending ::= fun q => Z.lxor q p |> else e) as ->.
  { destruct e. unfold set_field, settle. cbn. by destruct (tst _ _). }
  destruct (tst (pending e) p); [by rewrite Hr|]. by rewrite app_nil_r, Z.add_0_r.
Qed.
Lemma tst_settle k k' q : 0 <= k -> 0 <= k' -> k <> k' -> tst (settle (Z.shiftl 1 k) q) (Z.shiftl 1 k') = tst q (Z.shiftl 1 k').
Proof.
  intros. unfold settle. rewrite !tst_bit by done. destruct (Z.testbit q k); [|done].
  by rewrite Z.lxor_spec, Z.shiftl_1_l, Z.pow2_bits_false, xorb_false_r by lia.
Qed.
(** An answer that is sent is no longer owed. *)
Lemma settle_all_zero e : Z.ldiff (pending e) (answers_of e) = 0 -> settle_all (pending e) = 0.
Proof.
  intros H. assert (Z.land (pending e) 27 = pending e) as Hm.
  { apply Z.bits_inj'. intros n Hn. apply (f_equal (fun z => Z.testbit z n)) in H. rewrite Z.ldiff_spec, Z.bits_0 in H.
    rewrite Z.land_spec. destruct (Z.testbit (pending e) n); [|done]. rewrite andb_true_l in *. apply negb_false_iff in H.
    unfold answers_of in H. destruct (is_host e).
    - assert (Z.land 3 27 = 3) as Hl by done. change (Z.lor _ _) with 3 in H. rewrite <- Hl, Z.land_spec in H. by apply andb_true_iff in H as [_ H].
    - assert (Z.land 26 27 = 26) as Hl by done. change (Z.lor _ _) with 26 in H. rewrite <- Hl, Z.land_spec in H. by apply andb_true_iff in H as [_ H]. }
  assert (0 <= pending e < 32) as Hr.
  { rewrite <- Hm. split; [apply Z.land_nonneg; by right|]. change 27 with (Z.land (Z.ones 5) 27). rewrite (Z.land_comm (Z.ones 5)), Z.land_assoc, Z.land_ones by lia.
    apply Z.mod_pos_bound. lia. }
  rewrite <- Hm. clear H Hm. generalize dependent (pending e). intros q Hq.
  assert (forallb (fun k => settle_all (Z.land (Z.of_nat k) 27) =? 0) (seq 0 32) = true) as Hall by (vm_compute; reflexivity).
  rewrite forallb_forall in Hall. specialize (Hall (Z.to_nat q)). rewrite Z2Nat.id in Hall by lia. apply Z.eqb_eq, Hall, in_seq. lia.
Qed.

Lemma settle_all_none e : (forall p, owes p e <= 0 -> settle p (pending e) = pending e) ->
  owes PENDING_HOST_RESPONSE e <= 0 -> owes PENDING_PTR_RESPONSE e <= 0 -> owes PENDING_SRV_RESPONSE e <= 0 ->
  owes PENDING_TXT_RESPONSE e <= 0 -> e <| pending ::= settle_all |> = e.
Proof.
  intros H H1 H2 H3 H4. assert (settle_all (pending e) = pending e) as Hs by (unfold settle_all; rewrite !H; done).
  destruct e. unfold set_field. cbn in *. by rewrite Hs.
Qed.
Lemma owes_nonneg p e : 0 <= owes p e.
Proof. unfold owes. by destruct (tst _ _). Qed.
Lemma num_answers_nonneg e : 0 <= num_answers e.
Proof.
  unfold num_answers, num_records. pose proof (owes_nonneg PENDING_HOST_RESPONSE e). pose proof (owes_nonneg PENDING_PTR_RESPONSE e).
  pose proof (owes_nonneg PENDING_SRV_RESPONSE e). pose proof (owes_nonneg PENDING_TXT_RESPONSE e).
  repeat case_match; lia.
Qed.
(** Nothing to say. *)
Lemma num_answers_zero t0 e : num_answers e = 0 -> answers e = [] /\ responded t0 e = e.
Proof.
  unfold num_answers, answers, responded. destruct (is_state UNUSED e); [done|].
  pose proof (owes_nonneg PENDING_HOST_RESPONSE e). pose proof (owes_nonneg PENDING_PTR_RESPONSE e).
  pose proof (owes_nonneg PENDING_SRV_RESPONSE e). pose proof (owes_nonneg PENDING_TXT_RESPONSE e).
  intros Hn. assert (is_state ANNOUNCE_WAIT e = false) as Hw.
  { destruct (is_state ANNOUNCE_WAIT e); [|done]. unfold num_records in Hn. destruct (is_host e); lia. }
  rewrite Hw in Hn. assert (forall p, owes p e <= 0 -> tst (pending e) p = false) as Ht.
  { intros p. unfold owes. by destruct (tst _ _). }
  unfold announced_records, announced_entry, owed. rewrite Hw, !Ht by lia. split; [done|].
  apply settle_all_none; try lia. intros p Hp. unfold settle. by rewrite Ht.
Qed.

Lemma owed_settle k k' e r : 0 <= k -> 0 <= k' -> k <> k' ->
  owed (Z.shiftl 1 k') (e <| pending ::= settle (Z.shiftl 1 k) |>) r = owed (Z.shiftl 1 k') e r /\
  owes (Z.shiftl 1 k') (e <| pending ::= settle (Z.shiftl 1 k) |>) = owes (Z.shiftl 1 k') e.
Proof. intros. unfold owed, owes. cbn [pending set_field]. by rewrite tst_settle. Qed.
Lemma send_answers_eq t0 t e o n : named t -> size o + answer_load e <= room ->
  send_answers t0 t e (o, n) = Some (responded t0 e, (o ++ answers e, n + num_answers e)).
Proof.
  intros Hc Hl. unfold send_answers. cbn [fst]. rewrite space_left_room. unfold answer_load in Hl.
  destruct (is_state UNUSED e) eqn:Eu; cbn [negb andb].
  { unfold responded, answers, num_answers. by rewrite Eu, app_nil_r, Z.add_0_r. }
  destruct (Z.ltb_spec (mdns_response_size e) (room - size o)) as [_|H].
  2:{ destruct (Z.eqb_spec (num_answers e) 0) as [E|]; [|lia]. destruct (num_answers_zero t0 e E) as [-> ->].
      by rewrite E, app_nil_r, Z.add_0_r. }
  clear Hl. set (e1 := announced_entry t0 e).
  assert (announce t0 t e (o, n) = Some (e1, (o ++ announced_records e, n + (if is_state ANNOUNCE_WAIT e then num_records e else 0)))) as ->.
  { unfold announce, e1, announced_entry, announced_records. destruct (is_state ANNOUNCE_WAIT e).
    - by rewrite (named_records t e Hc).
    - by rewrite app_nil_r, Z.add_0_r. }
  cbn [mbind option_bind]. rewrite (respond_eq _ _ _ _ _ _ eq_refl). cbn [mbind option_bind].
  rewrite (respond_eq _ _ _ _ _ _ eq_refl). cbn [mbind option_bind].
  rewrite (respond_eq _ _ _ (srv_record e1)) by (rewrite (named_srv t _ Hc); reflexivity).
  cbn [mbind option_bind]. rewrite (respond_eq _ _ _ _ _ _ eq_refl).
  change (mdns_send_ptr_response (e1 <| pending ::= _ |>)) with (mdns_send_ptr_response e1).
  change (mdns_send_txt_response _) with (mdns_send_txt_response e1).
  unfold PENDING_HOST_RESPONSE, PENDING_PTR_RESPONSE, PENDING_SRV_RESPONSE, PENDING_TXT_RESPONSE in *.
  repeat (rewrite (fun k k' e r H1 H2 H3 => proj1 (owed_settle k k' e r H1 H2 H3)) by lia).
  repeat (rewrite (fun k k' e H1 H2 H3 => proj2 (owed_settle k k' e [] H1 H2 H3)) by lia).
  unfold responded, answers, num_answers. rewrite Eu. fold e1. rewrite <- !app_assoc, !Z.add_assoc.
  do 2 f_equal. unfold e1, announced_entry, announced_records. destruct (is_state ANNOUNCE_WAIT e); reflexivity.
Qed.
Definition answers_fit (t : list entry) : Prop := total answer_load t <= room.
Lemma mdns_send_responses_exact t0 s : named (mdns_table s) -> answers_fit (mdns_table s) ->
  mdns_send_responses t0 s =
  let t := mdns_table s in
  let s := s <| mdns_table := map (responded t0) t |> in
  Some (if 0 <? total num_answers t then (true, call (Xtcp_send (response_message t)) s) else (false, s)).
Proof.
  intros Hn Hf. unfold mdns_send_responses, answers_fit in *. cbv zeta. set (t := mdns_table s) in *.
  assert (forall e, size (answers e) <= answer_load e) as Hl.
  { intros e. unfold answer_load. destruct (Z.eqb_spec (num_answers e) 0) as [E|]; [|lia]. by destruct (num_answers_zero 0 e E) as [-> _]. }
  rewrite (for_table_sum _ (responded t0) answers num_answers answer_load room named); [|done| | |done|done].
  2:{ intros before e rest H. apply named_replace; [| |done].
      - intros e'. unfold responded, announced_entry. by destruct (is_state UNUSED e'), (is_state ANNOUNCE_WAIT e').
      - apply named_due in H. unfold responded, announced_entry. destruct (is_state UNUSED e); [done|]. by destruct (is_state ANNOUNCE_WAIT e). }
  2:{ intros. by apply send_answers_eq. }
  cbn [mbind option_bind app]. rewrite Z.add_0_l. unfold in_buffer. rewrite space_left_room, size_gather.
  pose proof (total_le (fun e => size (answers e)) answer_load t Hl).
  destruct (Z.leb_spec 0 (room - total (fun e => size (answers e)) t)); [|lia].
  cbn [mbind option_bind]. by destruct (0 <? total num_answers t).
Qed.

(** What fits in one message. *)
Definition fits (t : list entry) : Prop := probe_fits t /\ answers_fit t.
(** The table after a call to send, and the message. *)
Definition sent_table (t0 : Z) (t : list entry) : list entry := map (if waiting t then probed t0 else responded t0) t.
Definition sent_message (t : list entry) : list Z :=
  if waiting t then probe_message t else if 0 <? total num_answers t then response_message t else [].

Lemma mdns_send_exact t0 s : Forall (fun e => state e <> PROBE_PARTIAL_SENT) (mdns_table s) -> canonical (mdns_table s) = Some c -> fits (mdns_table s) ->
  mdns_send t0 s = Some (call (Xtcp_send (sent_message (mdns_table s))) (s <| mdns_table := sent_table t0 (mdns_table s) |>)).
Proof.
  intros Hok Hc [Hp Ha]. unfold mdns_send. rewrite mdns_send_probes_exact by done.
  unfold sent_table, sent_message. destruct (waiting (mdns_table s)) eqn:Hw; [done|]. cbn [mbind option_bind].
  apply waiting_false in Hw. rewrite mdns_send_responses_exact by done. cbv zeta.
  by destruct (0 <? total num_answers (mdns_table s)).
Qed.
End records.
