(* ===== verification/MdnsLive.v ===== *)
(** * From registration to an answer: the whole protocol of [mdns.c]

    Runs of the handler when nobody objects: names become active; a query for an
    active name is answered. *)
From S2P Require Export MdnsSend.
Local Open Scope Z_scope.

(** [states] decides the tests of a state that is known. *)
Ltac states :=
  unfold is_state in *;
  repeat match goal with
  | H : state ?e = _ |- context [state ?e] => rewrite H
  end;
  repeat match goal with
  | |- context [bool_decide (?a = ?b :> mdns_state_t)] =>
      let v := eval vm_compute in (bool_decide (a = b)) in
      lazymatch v with true => idtac | false => idtac end; change (bool_decide (a = b)) with v
  end; cbv iota.

(** * Loops that only read the clock *)

Lemma for_entries_pure body f (g : entry -> Z) h s :
  (forall e r cs, body e (r, cs) = Some (f e, (Z.lor r (g e), cs ++ h e))) ->
  for_entries body s =
  Some (foldl (fun r e => Z.lor r (g e)) 0 (mdns_table s),
        s <| mdns_table := map f (mdns_table s) |> <| calls ::= fun l => l ++ concat (map h (mdns_table s)) |>).
Proof.
  intros Hb. unfold for_entries. assert (forall rest before r cs, for_table (fun _ => body) before rest (r, cs) =
    Some (before ++ map f rest, (foldl (fun r e => Z.lor r (g e)) r rest, cs ++ concat (map h rest)))) as H.
  { intros rest. induction rest as [|e rest IH]; intros before r cs; cbn [for_table map concat foldl].
    - by rewrite !app_nil_r.
    - rewrite Hb. cbn [mbind option_bind]. by rewrite IH, <- !app_assoc. }
  by rewrite H.
Qed.

(** The entry after a call of [mdns_periodic]. *)
Definition tick (t0 : Z) (e : entry) : entry :=
  match state e with
  | PROBE_SENT =>
      if timeafter t0 (timeout e) then
        if num_sent e <? 3 then e <| state := PROBE_WAIT |> else e <| state := ANNOUNCE_WAIT |> <| num_sent := 0 |>
      else e
  | ANNOUNCE_SENT =>
      if timeafter t0 (timeout e) then
        if num_sent e <? 3 then e <| state := ANNOUNCE_WAIT |> else e <| state := ACTIVE |>
      else e
  | _ => e
  end.
Definition restart (e : entry) : entry :=
  if is_state UNUSED e then e else e <| state := PROBE_WAIT |> <| num_sent := 0 |>.

Lemma entries_tick t0 s : exists r cs, for_entries (entry_periodic t0) s =
  Some (r, s <| mdns_table := map (tick t0) (mdns_table s) |> <| calls ::= fun l => l ++ cs |>).
Proof.
  eexists _, _. apply (for_entries_pure _ (tick t0)
    (fun e => match state e with ANNOUNCE_SENT => if timeafter t0 (timeout e) && negb (num_sent e <? 3) then mdns_entry_active else 0 | _ => 0 end)
    (fun e => match state e with
              | PROBE_SENT => if timeafter t0 (timeout e) then [Xtcp_init_send] else []
              | ANNOUNCE_SENT => if timeafter t0 (timeout e) && (num_sent e <? 3) then [Xtcp_init_send] else []
              | _ => [] end)).
  intros e r cs. unfold entry_periodic, tick. destruct (state e); try by rewrite Z.lor_0_r, app_nil_r.
  - destruct (timeafter _ _), (num_sent e <? 3); by rewrite Z.lor_0_r, ?app_nil_r.
  - destruct (timeafter _ _), (num_sent e <? 3); cbn [andb negb]; by rewrite ?Z.lor_0_r, ?app_nil_r.
Qed.
Lemma mdns_periodic_tick t0 s : exists r cs, mdns_periodic t0 s =
  Some (r, s <| mdns_table := map (tick t0) (if mdns_started s =? 1 then map restart (mdns_table s) else mdns_table s) |>
             <| mdns_started := if mdns_started s =? 1 then 2 else mdns_started s |> <| calls ::= fun l => l ++ cs |>).
Proof.
  unfold mdns_periodic. destruct (mdns_started s =? 1).
  - unfold mdns_start_entries.
    rewrite (for_entries_pure start_entry restart (fun _ => 0) (fun e => if is_state UNUSED e then [] else [Xtcp_init_send])).
    2:{ intros e r cs. unfold start_entry, restart. rewrite Z.lor_0_r. destruct (is_state UNUSED e); cbn; [by rewrite app_nil_r|done]. }
    cbn [mbind option_bind]. set (s1 := _ <| mdns_started := 2 |>). destruct (entries_tick t0 s1) as (r & cs & ->).
    exists r, (concat (map (fun e => if is_state UNUSED e then [] else [Xtcp_init_send]) (mdns_table s)) ++ cs).
    do 2 f_equal. unfold s1. destruct s. unfold set_field. cbn. by rewrite <- app_assoc.
  - cbn [mbind option_bind]. destruct (entries_tick t0 s) as (r & cs & ->). exists r, cs. by destruct s.
Qed.

(** * Coming up *)

(** Room for everything an entry says while it is being claimed. *)
Definition claim_load (c : list Z) (e : entry) : Z :=
  if is_state UNUSED e then 0
  else Z.max (Z.max (size (mdns_send_probe e)) (probe_size e + 1) + size (records c e))
             (Z.max (size (records c e)) (mdns_response_size e + 1)).
(** An entry nobody has asked for anything. *)
Definition quiet (st : mdns_state_t) (n : Z) (e : entry) : Prop :=
  state e = UNUSED \/ (state e = st /\ num_sent e = n /\ pending e = 0).
Record in_step (c : list Z) (st : mdns_state_t) (n : Z) (t : list entry) : Prop := InStep {
  step_quiet : Forall (quiet st n) t;
  step_name : canonical t = Some c;
  step_load : total (claim_load c) t <= room }.

Lemma claim_load_nonneg c e : 0 <= claim_load c e.
Proof. unfold claim_load, size. destruct (is_state _ _); lia. Qed.

(** A change that only concerns the progress of the claim. *)
Definition keeps_load (f : entry -> entry) : Prop :=
  keeps_name f /\ (forall c e, claim_load c (f e) = claim_load c e) /\ 
  (forall e, state (f e) = UNUSED <-> state e = UNUSED).
Lemma in_step_map c f st n st' n' t : keeps_load f ->
  (forall e, state e = st -> num_sent e = n -> pending e = 0 -> In e t -> quiet st' n' (f e)) ->
  in_step c st n t -> in_step c st' n' (map f t).
Proof.
  intros (Hk & Hl & Hu) Hf [Hq Hc Ht]. split.
  - apply Forall_map, List.Forall_forall. intros e He. pose proof (proj1 (List.Forall_forall _ _) Hq e He) as [Hs|(?&?&?)].
    + left. by apply Hu.
    + by apply Hf.
  - by rewrite canonical_map.
  - rewrite total_map. by rewrite (total_ext _ (claim_load c)).
Qed.

Lemma keeps_load_compose f g : keeps_load f -> keeps_load g -> keeps_load (fun e => f (g e)).
Proof.
  intros (Hk & Hl & Hu) (Hk' & Hl' & Hu'). split; [|split].
  - intros e. destruct (Hk (g e)), (Hk' e). split; congruence.
  - intros c e. by rewrite Hl.
  - intros e. by rewrite Hu, Hu'.
Qed.
(** Progress that depends on the state only, and leaves the rest of the load alone. *)
Lemma progress_keeps (f : entry -> entry) :
  (forall e, f e = e <| state := state (f e) |> <| pending := pending (f e) |> <| num_sent := num_sent (f e) |>
      <| timeout := timeout (f e) |> /\ (state (f e) = UNUSED <-> state e = UNUSED)) ->
  keeps_load f.
Proof.
  intros Hf. split; [|split].
  - intros e. by destruct (Hf e) as [-> _].
  - intros c e. destruct (Hf e) as [He Hs]. unfold claim_load, is_state. rewrite (bool_decide_ext _ _ Hs). by rewrite He.
  - intros e. apply Hf.
Qed.
Ltac progress_by e := split; [by destruct e|cbn; split; congruence].
Lemma probed_keeps t0 : keeps_load (probed t0).
Proof.
  apply progress_keeps. intros e. unfold probed.
  destruct (is_state PROBE_WAIT e) eqn:E; [apply bool_decide_eq_true in E|]; progress_by e.
Qed.
Lemma responded_keeps t0 : keeps_load (responded t0).
Proof.
  apply progress_keeps. intros e. unfold responded, announced_entry.
  destruct (is_state UNUSED e); [progress_by e|].
  destruct (is_state ANNOUNCE_WAIT e) eqn:E; [apply bool_decide_eq_true in E|]; progress_by e.
Qed.
Lemma tick_keeps t0 : keeps_load (tick t0).
Proof.
  apply progress_keeps. intros e. unfold tick.
  destruct (state e) eqn:E; try progress_by e; destruct (timeafter _ _), (num_sent e <? 3); progress_by e.
Qed.
Lemma restart_keeps : keeps_load restart.
Proof.
  apply progress_keeps. intros e. unfold restart.
  destruct (is_state UNUSED e) eqn:E; [progress_by e|apply bool_decide_eq_false in E; progress_by e].
Qed.
Lemma ipaddr_keeps a : keeps_load (fun e => e <| ipaddr := a |>).
Proof.
  split; [|split]; [done| |done]. intros c e. unfold claim_load.
  assert (size (records c (e <| ipaddr := a |>)) = size (records c e)) as ->; [|done].
  unfold records, mdns_send_ptr_response. change (is_host (e <| ipaddr := a |>)) with (is_host e). destruct (is_host e); [|done].
  unfold mdns_send_host_response, size. by rewrite !length_app.
Qed.
Lemma sent_keeps t0 (b : bool) : keeps_load (if b then probed t0 else responded t0).
Proof. destruct b; [apply probed_keeps|apply responded_keeps]. Qed.

(** From a message to the next poll, on a clock that wraps. *)
Definition pause (t0 t1 : Z) : Prop := 2500 * 1000 * 100 < w32 (t1 - t0) < 2147483648.
Lemma pause_timeafter t0 t1 d : pause t0 t1 -> 0 <= d <= 250000000 -> timeafter t1 (w32 (t0 + d)) = true.
Proof. unfold pause, timeafter, s32, w32. intros H Hd. apply Z.ltb_lt. zdm. Qed.

Definition next (st : mdns_state_t) (n : Z) : mdns_state_t * Z :=
  match st with
  | PROBE_WAIT => if n <? 2 then (PROBE_WAIT, n + 1) else (ANNOUNCE_WAIT, 0)
  | ANNOUNCE_WAIT => if n <? 2 then (ANNOUNCE_WAIT, n + 1) else (ACTIVE, 3)
  | _ => (st, n)
  end.
Lemma probe_turn t0 t1 e n : pause t0 t1 -> state e = PROBE_WAIT -> num_sent e = n -> n <= 2 -> pending e = 0 ->
  quiet (fst (next PROBE_WAIT n)) (snd (next PROBE_WAIT n)) (tick t1 (probed t0 e)).
Proof.
  intros Hp Hs Hn Hle Hq. right. unfold probed, is_state. rewrite bool_decide_eq_true_2 by done. unfold tick. cbn.
  rewrite pause_timeafter by (done || case_match; lia). rewrite Hn.
  destruct (Z.ltb_spec n 2), (Z.ltb_spec (n + 1) 3); try lia; cbn; rewrite ?Hn; done.
Qed.
Lemma announce_turn t0 t1 e n : pause t0 t1 -> state e = ANNOUNCE_WAIT -> num_sent e = n -> n <= 2 -> pending e = 0 ->
  quiet (fst (next ANNOUNCE_WAIT n)) (snd (next ANNOUNCE_WAIT n)) (tick t1 (responded t0 e)).
Proof.
  intros Hp Hs Hn Hle Hq. right. unfold responded, announced_entry, is_state. rewrite Hs.
  rewrite bool_decide_eq_false_2, bool_decide_eq_true_2 by done. unfold tick. cbn. rewrite pause_timeafter by (done || lia). rewrite Hn.
  destruct (Z.ltb_spec n 2), (Z.ltb_spec (n + 1) 3); try lia; cbn; rewrite ?Hn, ?Hq; repeat split; try done; lia.
Qed.

(** ** One message and the poll after it *)

Lemma total_claim_le c f t : (forall e, In e t -> f e <= claim_load c e) -> total f t <= total (claim_load c) t.
Proof.
  intros H. unfold total. induction t as [|e t IH]; cbn; [done|]. pose proof (H e (or_introl eq_refl)).
  specialize (IH (fun x Hx => H x (or_intror Hx))). lia.
Qed.
Lemma in_step_fits c st n t : (st = PROBE_WAIT \/ st = ANNOUNCE_WAIT) -> in_step c st n t ->
  fits c t /\ Forall (fun e => state e <> PROBE_PARTIAL_SENT) t.
Proof.
  intros Hst [Hq Hc Hl]. split; [split|].
  - unfold probe_fits. rewrite size_gather. etrans; [|exact Hl].
    assert (total question_load t + total (fun e => size (proposal c e)) t = total (fun e => question_load e + size (proposal c e)) t) as ->.
    { unfold total. clear. induction t as [|e t IH]; cbn; lia. }
    apply total_claim_le. intros e He. unfold question_load, proposal, claim_load.
    destruct (state e) eqn:Es; states; unfold size; cbn [length]; lia.
  - unfold answers_fit. etrans; [|exact Hl]. apply total_claim_le. intros e He.
    pose proof (proj1 (List.Forall_forall _ _) Hq e He) as [Hu|(Hs & _ & Hp)].
    + unfold answer_load, num_answers, claim_load, is_state. by rewrite Hu.
    + unfold answer_load, num_answers, answers, announced_records, owed, owes. rewrite Hp. cbn [tst Z.land Z.eqb negb].
      rewrite !app_nil_r, !Z.add_0_r. unfold claim_load. destruct (state e) eqn:Es; try discriminate; states; case_match; unfold size; cbn [length]; lia.
  - eapply Forall_impl; [|exact Hq]. intros e [->|[-> _]]; [done|]. by destruct Hst as [-> | ->].
Qed.
Lemma sent_in_step c st n t t0 t1 : (st = PROBE_WAIT \/ st = ANNOUNCE_WAIT) -> n <= 2 -> pause t0 t1 -> in_step c st n t ->
  in_step c (fst (next st n)) (snd (next st n)) (map (tick t1) (sent_table t0 t)).
Proof.
  intros Hst Hn Hp Hs. unfold sent_table. rewrite map_map. destruct Hst as [-> | ->].
  - destruct (waiting t) eqn:Hw.
    + eapply (in_step_map c (fun e => tick t1 (probed t0 e))); [apply keeps_load_compose; [apply tick_keeps|apply probed_keeps]| |exact Hs].
      intros e He He' Hq _. by apply probe_turn.
    + apply waiting_false in Hw.
      eapply (in_step_map c (fun e => tick t1 (responded t0 e))); [apply keeps_load_compose; [apply tick_keeps|apply responded_keeps]| |exact Hs].
      intros e He _ _ Hin. pose proof (proj1 (List.Forall_forall _ _) Hw e Hin) as Hw'. by apply bool_decide_eq_false in Hw'.
  - assert (waiting t = false) as ->.
    { apply waiting_false. destruct Hs as [Hq _ _]. eapply Forall_impl; [|exact Hq]. intros e [Hu|[Hu _]]; unfold is_state; by rewrite Hu. }
    eapply (in_step_map c (fun e => tick t1 (responded t0 e))); [apply keeps_load_compose; [apply tick_keeps|apply responded_keeps]| |exact Hs].
    intros e He He' Hq _. by apply announce_turn.
Qed.

(** ** Runs of the handler *)

Definition happening : Type := mdns_input * xtcp_connection_t.
Fixpoint run_events (l : list happening) (s : mdns) : option mdns :=
  match l with
  | [] => Some s
  | (i, conn) :: l => '(_, _, s) ← mdns_handle_event i conn s; run_events l s
  end.
Lemma run_events_app l l' s : run_events (l ++ l') s = (s ← run_events l s; run_events l' s).
Proof.
  revert s. induction l as [|[i conn] l IH]; intros s; [done|]. cbn [app run_events].
  destruct (mdns_handle_event i conn s) as [[[r c] s1]|]; [|done]. apply IH.
Qed.
(** The server asks for data, and polls the client after a pause. *)
Definition turn (p : happening * happening) : Prop :=
  let '((i, conn), (i', conn')) := p in
  event conn ∈ [XTCP_REQUEST_DATA; XTCP_SENT_DATA; XTCP_RESEND_DATA] /\ event conn' = XTCP_POLL /\
  local_port conn = MDNS_SERVER_PORT /\ local_port conn' = MDNS_SERVER_PORT /\ pause (now i) (now i').
Definition both (p : happening * happening) : list happening := [fst p; snd p].

Lemma handle_send i conn s s' : event conn ∈ [XTCP_REQUEST_DATA; XTCP_SENT_DATA; XTCP_RESEND_DATA] ->
  local_port conn = MDNS_SERVER_PORT -> mdns_send (now i) s = Some s' ->
  exists c, mdns_handle_event i conn s = Some (0, c, s').
Proof.
  intros He Hl Hs. unfold mdns_handle_event. rewrite Hl, Z.eqb_refl. rewrite !elem_of_cons in He.
  destruct He as [-> |[-> |[-> |He]]]; [..|by apply elem_of_nil in He];
    rewrite (bool_decide_eq_false_2 (_ = XTCP_NEW_CONNECTION)), andb_false_r, Hs by done; by eexists.
Qed.
Lemma handle_poll i conn s r s' : event conn = XTCP_POLL ->
  local_port conn = MDNS_SERVER_PORT -> mdns_periodic (now i) s = Some (r, s') ->
  exists c, mdns_handle_event i conn s = Some (r, c, s').
Proof.
  intros He Hl Hs. unfold mdns_handle_event. rewrite Hl, Z.eqb_refl, He.
  rewrite (bool_decide_eq_false_2 (_ = XTCP_NEW_CONNECTION)), andb_false_r, Hs by done. by eexists.
Qed.
Lemma handle_recv i conn s r s' : event conn = XTCP_RECV_DATA ->
  local_port conn = MDNS_SERVER_PORT -> mdns_recv (rx_data i) (rx_len i) (rx_addr i) s = Some (r, s') ->
  exists c, mdns_handle_event i conn s = Some (r, c, s').
Proof.
  intros He Hl Hs. unfold mdns_handle_event. rewrite Hl, Z.eqb_refl, He.
  rewrite (bool_decide_eq_false_2 (_ = XTCP_NEW_CONNECTION)), andb_false_r, Hs by done. by eexists.
Qed.
Lemma run_turn p c st n s : turn p -> (st = PROBE_WAIT \/ st = ANNOUNCE_WAIT) -> n <= 2 ->
  in_step c st n (mdns_table s) -> mdns_started s = 2 ->
  exists s', run_events (both p) s = Some s' /\ mdns_started s' = 2 /\
    in_step c (fst (next st n)) (snd (next st n)) (mdns_table s') /\
    exists f, keeps_load f /\ mdns_table s' = map f (mdns_table s).
Proof.
  destruct p as [[i conn] [i' conn']]. intros (He & He' & Hl & Hl' & Hp) Hst Hn Hs H2. cbn [both fst snd run_events].
  destruct (in_step_fits c st n _ Hst Hs) as [Hf Hpart].
  pose proof (mdns_send_exact c (now i) s Hpart (step_name _ _ _ _ Hs) Hf) as Hsend.
  destruct (handle_send i conn _ _ He Hl Hsend) as [c1 ->]. cbn [mbind option_bind]. clear Hsend.
  set (s1 := call _ _). destruct (mdns_periodic_tick (now i') s1) as (r & cs & Ht).
  destruct (handle_poll i' conn' _ _ _ He' Hl' Ht) as [c2 ->]. cbn [mbind option_bind].
  eexists. split; [done|]. change (mdns_started s1) with (mdns_started s). rewrite H2. split; [done|].
  change (mdns_table s1) with (sent_table (now i) (mdns_table s)). split; [by apply sent_in_step|].
  eexists. split; [|unfold sent_table; apply map_map]. apply keeps_load_compose; [apply tick_keeps|apply sent_keeps].
Qed.


Fixpoint next_n (k : nat) (st : mdns_state_t) (n : Z) : mdns_state_t * Z :=
  match k with O => (st, n) | S k => let '(st, n) := next st n in next_n k st n end.
Lemma next_due st n : (st = PROBE_WAIT \/ st = ANNOUNCE_WAIT) -> n <= 2 ->
  fst (next st n) = ACTIVE \/ ((fst (next st n) = PROBE_WAIT \/ fst (next st n) = ANNOUNCE_WAIT) /\ snd (next st n) <= 2).
Proof. intros [-> | ->] Hn; unfold next; destruct (Z.ltb_spec n 2); cbn; intuition lia. Qed.
Lemma keeps_load_id : keeps_load (fun e => e).
Proof. by split. Qed.

Lemma run_turns c l : forall st n s, Forall turn l -> (st = PROBE_WAIT \/ st = ANNOUNCE_WAIT) -> n <= 2 ->
  (forall k, (k < length l)%nat -> fst (next_n k st n) <> ACTIVE) ->
  in_step c st n (mdns_table s) -> mdns_started s = 2 ->
  exists s', run_events (concat (map both l)) s = Some s' /\
    in_step c (fst (next_n (length l) st n)) (snd (next_n (length l) st n)) (mdns_table s') /\
    exists f, keeps_load f /\ mdns_table s' = map f (mdns_table s).
Proof.
  induction l as [|p l IH]; intros st n s Hl Hst Hn Hk Hs H2.
  - exists s. split; [done|]. split; [done|]. exists (fun e => e). split; [apply keeps_load_id|by rewrite map_id].
  - apply Forall_cons_iff in Hl as [Hp Hl]. destruct (run_turn p c st n s Hp Hst Hn Hs H2) as (s1 & H1 & E1 & S1 & f1 & K1 & T1).
    cbn [map concat length next_n]. rewrite run_events_app, H1. cbn [mbind option_bind].
    destruct (next st n) as [st1 n1] eqn:En. cbn [fst snd] in S1. destruct l as [|p' l].
    + exists s1. split; [done|]. split; [done|]. by exists f1.
    + pose proof (next_due st n Hst Hn) as Hd. rewrite En in Hd. cbn [fst snd] in Hd.
      destruct Hd as [->|[Hst1 Hn1]].
      { destruct (Hk 1%nat); [cbn; lia|]. cbn. by rewrite En. }
      destruct (IH st1 n1 s1 Hl Hst1 Hn1) as (s2 & H2' & S2 & f2 & K2 & T2); [|done..|].
      { intros k Hlt. specialize (Hk (S k)). cbn [next_n] in Hk. rewrite En in Hk. apply Hk. cbn in *. lia. }
      exists s2. split; [done|]. split; [done|]. exists (fun e => f2 (f1 e)). split; [by apply keeps_load_compose|].
      by rewrite T2, T1, map_map.
Qed.

(** A table that has been filled by the registering functions. *)
Definition registered (e : entry) : Prop := state e = UNUSED \/ (state e = DISABLED /\ pending e = 0).

(** C17: names come up.  After the interface is up, six times the data the
    handler asked for and a poll at least the pause of a probe later make every
    registered entry active under the name it was registered with, if one of them
    is the canonical name and the messages fit in the buffer. *)
Theorem mdns_comes_up i0 conn0 i1 conn1 l s c : event conn0 = XTCP_IFUP -> event conn1 = XTCP_POLL ->
  local_port conn1 = MDNS_SERVER_PORT -> Forall turn l -> length l = 6%nat ->
  Forall registered (mdns_table s) -> canonical (mdns_table s) = Some c -> total (claim_load c) (mdns_table s) <= room ->
  exists s', run_events ([(i0, conn0); (i1, conn1)] ++ concat (map both l)) s = Some s' /\
    Forall2 (fun e e' => name e' = name e /\ (state e <> UNUSED -> state e' = ACTIVE)) (mdns_table s) (mdns_table s').
Proof.
  intros He0 He1 Hp1 Hl H6 Hr Hc Hload. cbn [app run_events].
  assert (mdns_handle_event i0 conn0 s = Some (mdns_ifup, conn0, mdns_start (if_addr i0) (call Xtcp_get_ipconfig s))) as ->.
  { unfold mdns_handle_event. by rewrite He0. }
  cbn [mbind option_bind]. set (s0 := mdns_start _ _). destruct (mdns_periodic_tick (now i1) s0) as (r & cs & Ht).
  destruct (handle_poll i1 conn1 _ _ _ He1 Hp1 Ht) as [c2 ->]. clear Ht. cbn [mbind option_bind].
  set (s1 := s0 <| mdns_table := _ |> <| mdns_started := _ |> <| calls ::= _ |>).
  set (up e := tick (now i1) (restart (e <| ipaddr := if_addr i0 |>))).
  assert (mdns_table s1 = map up (mdns_table s)) as T1.
  { unfold s1, s0, up. cbn. rewrite !map_map. done. }
  assert (keeps_load up) as Kup.
  { apply (keeps_load_compose (tick (now i1))); [apply tick_keeps|]. apply (keeps_load_compose restart); [apply restart_keeps|apply ipaddr_keeps]. }
  assert (in_step c PROBE_WAIT 0 (mdns_table s1)) as S1.
  { rewrite T1. destruct Kup as (Hk & Hl1 & Hu). split.
    - apply Forall_map. eapply Forall_impl; [|exact Hr]. intros e [He|[He Hq]]; [left; by apply Hu|right].
      unfold up, restart. change (is_state UNUSED (e <| ipaddr := if_addr i0 |>)) with (is_state UNUSED e). states. done.
    - by rewrite canonical_map.
    - rewrite total_map. by rewrite (total_ext _ (claim_load c)). }
  destruct (run_turns c l PROBE_WAIT 0 s1 Hl) as (s2 & H2 & [Q2 _ _] & f & Kf & T2); [by left|lia| |done|done|].
  { rewrite H6. intros k Hk. do 6 (destruct k as [|k]; [done|]). lia. }
  exists s2. split; [exact H2|]. rewrite H6 in Q2. cbn in Q2. rewrite T2, T1, map_map in *.
  destruct Kf as (Kn & _ & Ku), Kup as (Kn' & _ & Ku'). clear -Q2 Kn Ku Kn' Ku'.
  induction (mdns_table s) as [|e t IH]; cbn [map] in *; constructor.
  - split; [by rewrite (proj1 (Kn _)), (proj1 (Kn' _))|]. intros Hu. apply Forall_cons_iff in Q2 as [[Hq|[Hq _]] _]; [|done].
    by rewrite Ku, Ku' in Hq.
  - apply IH. by apply Forall_cons_iff in Q2 as [_ Q2].
Qed.
