(* ===== verification/MdnsQuery.v ===== *)
(** * Queries, conflicts and malformed messages of [mdns.c]

    What one received message does: a query for an active name is answered, a
    conflicting answer costs a name that is being probed, and a name that never
    ends stops the client. *)
From S2P Require Export MdnsLive.
Local Open Scope Z_scope.

(** * Messages in memory *)

Lemma rd8_app_r a b i : Z.of_nat (length a) <= i -> rd8 (a ++ b) i = rd8 b (i - Z.of_nat (length a)).
Proof. intros H. unfold rd8. rewrite lookup_app_r by lia. f_equal. f_equal. lia. Qed.
Lemma rd8_app_l a b i : 0 <= i < Z.of_nat (length a) -> rd8 (a ++ b) i = rd8 a i.
Proof. intros H. unfold rd8. rewrite lookup_app_l by lia. done. Qed.
Lemma rds_app_r a b i n : Z.of_nat (length a) <= i -> rds (a ++ b) i n = rds b (i - Z.of_nat (length a)) n.
Proof.
  intros H. unfold rds. apply map_ext. intros k. rewrite rd8_app_r by lia. f_equal. lia.
Qed.
Lemma rds_prefix x b : rds (x ++ b) 0 (length x) = x.
Proof.
  apply nth_ext with (d := 0) (d' := 0); [apply length_rds|]. intros k Hk. rewrite length_rds in Hk.
  rewrite nth_rds by done. rewrite rd8_app_l by lia. unfold rd8. rewrite Z.add_0_l, Nat2Z.id.
  rewrite <- nth_lookup. done.
Qed.
Lemma rds_middle a x b : rds (a ++ x ++ b) (Z.of_nat (length a)) (length x) = x.
Proof. rewrite rds_app_r by lia. rewrite Z.sub_diag. apply rds_prefix. Qed.

(** A field of 16 bits in network order. *)
Lemma NTOHS_rd16 b i : u8 (rd8 b i) -> u8 (rd8 b (i + 1)) -> NTOHS (rd16 b i) = 256 * rd8 b i + rd8 b (i + 1).
Proof.
  unfold u8. intros H0 H1. unfold NTOHS, bswap32, of_words, be32, rd16, w32, w8. cbn [q0 q1 q2 q3]. rewrite Z.shiftr_div_pow2 by lia. zdm.
Qed.
Lemma HTONS_bytes x : u16 x -> st16 (HTONS x) = [x / 256; x mod 256].
Proof.
  unfold u16. intros H. unfold st16, HTONS, bswap32, of_words, be32, w32, w8. cbn [q0 q1 q2 q3]. rewrite Z.shiftr_div_pow2 by lia.
  f_equal; [|f_equal]; zdm.
Qed.

(** No record in the authority section. *)
Lemma auth_none msg len auth s : handle_mdns_auth msg len auth 0 s = Some (0, s).
Proof.
  unfold handle_mdns_auth. rewrite (for_entries_pure _ (fun e => e) (fun _ => 0) (fun _ => [])).
  - assert (foldl (fun r _ => Z.lor r 0) 0 (mdns_table s) = 0) as ->.
    { induction (mdns_table s) as [|e t IH]; cbn; [done|exact IH]. }
    rewrite map_id. do 2 f_equal. assert (concat (map (fun _ : entry => [] : list mdns_call) (mdns_table s)) = []) as ->.
    { induction (mdns_table s); cbn; done. }
    destruct s. unfold set_field. cbn. by rewrite app_nil_r.
  - intros e r cs. rewrite Z.lor_0_r, app_nil_r. unfold handle_entry_auth, loses_tie_break, find_lowest_matching_answer. cbn.
    destruct (is_state PROBE_WAIT e || is_state PROBE_SENT e); [|done]. by destruct (is_host e).
Qed.

(** A loop that only concerns one entry. *)
Lemma for_entries_one body s before e after : mdns_table s = before ++ e :: after ->
  Forall (fun x => forall rs, body x rs = Some (x, rs)) (before ++ after) ->
  for_entries body s =
  '(e, (r, cs)) ← body e (0, []);
  Some (r, s <| mdns_table := before ++ e :: after |> <| calls ::= fun l => l ++ cs |>).
Proof.
  intros Ht [Hb Ha]%Forall_app. assert (forall l pre rs, Forall (fun x => forall rs, body x rs = Some (x, rs)) l ->
    for_table (fun _ => body) pre l rs = Some (pre ++ l, rs)) as Hsame.
  { clear. intros l pre rs H. revert pre. induction H as [|x l Hx _ IH]; intros pre; cbn [for_table]; [by rewrite app_nil_r|].
    rewrite Hx. cbn [mbind option_bind]. by rewrite IH, <- app_assoc. }
  unfold for_entries. rewrite Ht. assert (forall pre rs, for_table (fun _ => body) pre (before ++ e :: after) rs =
    '(e, rs) ← body e rs; Some (pre ++ before ++ e :: after, rs)) as ->.
  { clear Ht. induction Hb as [|x before Hx _ IH]; intros pre rs; cbn [app for_table].
    - destruct (body e rs) as [[e' rs']|]; [|done]. cbn [mbind option_bind]. by rewrite Hsame, <- app_assoc.
    - rewrite Hx. cbn [mbind option_bind]. rewrite IH. destruct (body e rs) as [[e' rs']|]; [|done]. cbn. by rewrite <- !app_assoc. }
  destruct (body e (0, [])) as [[e' [r cs]]|]; done.
Qed.

(** * A query *)

(** A message that asks one question about the name [ls]. *)
Definition query (ls : list (list Z)) (qtype : Z) : list Z :=
  [0; 0; 0; 0; 0; 1; 0; 0; 0; 0; 0; 0] ++ wire ls ++ [0; qtype; 0; 1].
(** The answer the protocol asks for: one address record, authoritative,
    to replace what is cached. *)
Definition address_answer (ls : list (list Z)) (a : u8x4) : list Z :=
  [0; 0; 0x84; 0; 0; 0; 0; 1; 0; 0; 0; 0] ++ wire ls ++ [0; 1; 0x80; 1; 0; 0; 0; 255; 0; 4] ++ ip_bytes a.

(** An entry that has nothing to send. *)
Definition silent (e : entry) : Prop :=
  state e ∉ [PROBE_WAIT; PROBE_PARTIAL_SENT; ANNOUNCE_WAIT] /\ pending e = 0.

(** A header, one name and the record after it. *)
Section record.
Variables (hdr tail junk : list Z) (ls : list (list Z)).
Hypothesis hdr_length : length hdr = 12%nat.
Hypothesis name_fine : name_ok ls.
Let msg := (hdr ++ wire ls ++ tail) ++ junk.
Let len := size (hdr ++ wire ls ++ tail).
Let rec := 12 + size (wire ls).

Lemma record_name_at : name_at msg 12 ls.
Proof.
  split; [lia|]. unfold msg. rewrite <- !app_assoc. change 12 with (Z.of_nat 12). rewrite <- hdr_length. apply rds_middle.
Qed.
Lemma record_end i : 0 <= i < size tail -> rd8 msg (rec + i) = rd8 tail i.
Proof.
  intros Hi. unfold msg, rec, size in *. rewrite <- !app_assoc, app_assoc. rewrite rd8_app_r; rewrite length_app, hdr_length; [|lia].
  rewrite rd8_app_l by lia. f_equal. lia.
Qed.
Lemma record_len : len = rec + size tail.
Proof. unfold len, rec, size. rewrite !length_app, hdr_length. lia. Qed.
Lemma record_parsed : mdns_parse_name msg 12 len = Some (Some rec).
Proof.
  rewrite (mdns_parse_name_wire msg ls 12 len name_fine record_name_at); [done|]. rewrite record_len. unfold rec, size. lia.
Qed.
End record.

Section query.
Variables (ls : list (list Z)) (qtype : Z) (junk : list Z).
Hypothesis name_fine : name_ok ls.
Hypothesis qtype_fine : u8 qtype.
Let msg := query ls qtype ++ junk.
Let len := size (query ls qtype).
Let qry := 12 + size (wire ls).

Lemma query_name_at : name_at msg 12 ls.
Proof. by apply record_name_at. Qed.
Lemma query_end i : 0 <= i < 4 -> rd8 msg (qry + i) = rd8 [0; qtype; 0; 1] i.
Proof. intros. by apply record_end. Qed.
Lemma query_parsed : mdns_parse_name msg 12 len = Some (Some qry).
Proof. by apply record_parsed. Qed.
Lemma query_type : NTOHS (rd16 msg qry) = qtype.
Proof.
  pose proof (query_end 0 ltac:(lia)) as H0. pose proof (query_end 1 ltac:(lia)) as H1. rewrite Z.add_0_r in H0.
  change (rd8 msg qry = 0) in H0. change (rd8 msg (qry + 1) = qtype) in H1.
  rewrite NTOHS_rd16; rewrite ?H0, ?H1; unfold u8 in *; lia.
Qed.
Lemma query_class : NTOHS (rd16 msg (qry + 2)) = MDNS_RRCLASS_IN.
Proof.
  pose proof (query_end 2 ltac:(lia)) as H0. pose proof (query_end 3 ltac:(lia)) as H1.
  change (rd8 msg (qry + 2) = 0) in H0. change (rd8 msg (qry + 3) = 1) in H1.
  rewrite NTOHS_rd16; replace (qry + 2 + 1) with (qry + 3) by lia; rewrite ?H0, ?H1; unfold u8, MDNS_RRCLASS_IN; lia.
Qed.

Lemma query_counts : NTOHS (rd16 msg hdr_numquestions) = 1 /\ NTOHS (rd16 msg hdr_numanswers) = 0 /\ NTOHS (rd16 msg hdr_numauthrr) = 0.
Proof. done. Qed.

(** The entry that answers: the first active one of that name. *)
Definition answers_to (e : entry) : Prop := state e = ACTIVE /\ is_host e = true /\ name e = join ls.
Definition passes (e : entry) : Prop := state e = ACTIVE -> ~ same_name (name e) ls.
Lemma name_query_first qt before e after : Forall passes before -> answers_to e ->
  name_query msg qt 12 (before ++ e :: after) =
  let '(e, cs) := answer_query qt e in (before ++ e :: after, cs).
Proof.
  intros Hb (Ha & _ & Hn). induction Hb as [|x before Hx _ IH]; cbn [app name_query].
  - unfold is_state. rewrite bool_decide_eq_true_2 by done. cbn [andb]. unfold names.
    rewrite (proj2 (mdns_compare_wire msg (name e) ls 12 name_fine query_name_at)); [done|]. rewrite Hn. by apply same_name_join.
  - destruct (is_state ACTIVE x && names msg (name x) 12) eqn:E.
    + apply andb_true_iff in E as [E1 E2]. apply bool_decide_eq_true in E1. apply Z.eqb_eq in E2.
      apply (mdns_compare_wire msg (name x) ls 12 name_fine query_name_at) in E2. by destruct (Hx E1).
    + rewrite IH. by destruct (answer_query qt e).
Qed.

Lemma recv_query addr s before e after : mdns_table s = before ++ e :: after -> Forall passes before -> answers_to e ->
  is_type qtype MDNS_RRTYPE_A = true ->
  mdns_recv msg len addr s =
  Some (0, s <| mdns_table := before ++ e <| pending ::= fun q => Z.lor q PENDING_HOST_RESPONSE |> :: after |>
             <| calls ::= fun l => l ++ [Xtcp_recv; Xtcp_init_send] |>).
Proof.
  intros Ht Hb He Hq. unfold mdns_recv. destruct query_counts as (-> & -> & ->).
  change (Z.to_nat 1) with 1%nat. change (Z.to_nat 0) with 0%nat. cbn [recv_questions recv_answers]. unfold sizeof_hdr.
  rewrite query_parsed. cbn [mbind option_bind]. unfold recv_question. rewrite query_class, Z.eqb_refl, query_type.
  assert (qtype =? MDNS_RRTYPE_PTR = false) as ->.
  { unfold is_type, MDNS_RRTYPE_A, MDNS_RRTYPE_ANY, MDNS_RRTYPE_PTR in *. lia. }
  cbn [mdns_table call set_field]. change (mdns_table (call Xtcp_recv s)) with (mdns_table s). rewrite Ht, name_query_first by done.
  unfold answer_query. rewrite (proj1 (proj2 He)), Hq. cbn [ask app]. rewrite auth_none. cbn [mbind option_bind].
  do 2 f_equal. destruct s. unfold call, set_field. cbn. by rewrite <- app_assoc.
Qed.

(** ** The answer *)

Lemma silent_state e st : silent e -> st ∈ [PROBE_WAIT; PROBE_PARTIAL_SENT; ANNOUNCE_WAIT] -> is_state st e = false.
Proof. intros [H _] Hst. apply bool_decide_eq_false. by intros E; rewrite E in H. Qed.
Lemma silent_settled t : Forall silent t -> settled t.
Proof. intros H. eapply Forall_impl; [|exact H]. intros e He. apply silent_state; [done|]. rewrite !elem_of_cons. auto. Qed.
Lemma settled_no_proposal c t : settled t -> total question_load t = 0 /\ gather (proposal c) t = [].
Proof.
  induction 1 as [|e t He _ [IH1 IH2]]; [done|]. unfold total, gather in *. cbn [map concat foldr]. unfold question_load at 1, proposal at 1.
  rewrite He, IH2. split; [lia|done].
Qed.
Lemma silent_answers c e : silent e -> num_answers e = 0 /\ answers c e = [].
Proof.
  intros He. assert (num_answers e = 0) as H.
  { unfold num_answers, owes. rewrite (silent_state e ANNOUNCE_WAIT He) by (rewrite !elem_of_cons; auto). destruct He as [_ ->]. by destruct (is_state UNUSED e). }
  split; [done|]. by destruct (num_answers_zero c 0 e H).
Qed.
Lemma silent_table c t : Forall silent t ->
  total num_answers t = 0 /\ gather (answers c) t = [] /\ total (answer_load c) t = 0 /\ forall t0, map (responded t0) t = t.
Proof.
  induction 1 as [|e t He _ (IH1 & IH2 & IH3 & IH4)]; [done|]. destruct (silent_answers c e He) as [Hn Ha].
  unfold total, gather in *. cbn [map concat foldr]. unfold answer_load at 1. rewrite Hn, Ha, IH1, IH2, IH3.
  split; [done|]. split; [done|]. split; [done|]. intros t0. rewrite IH4. f_equal. by destruct (num_answers_zero c t0 e Hn).
Qed.

Lemma Forall_replace {A} (P : A -> Prop) before e e' after : Forall P (before ++ e :: after) -> (P e -> P e') -> Forall P (before ++ e' :: after).
Proof. rewrite !Forall_app, !Forall_cons_iff. tauto. Qed.
Definition asked_host (e : entry) : entry := e <| pending := PENDING_HOST_RESPONSE |>.
Lemma asked_answers c t0 e : silent e -> state e = ACTIVE ->
  num_answers (asked_host e) = 1 /\ answers c (asked_host e) = mdns_send_host_response e /\ responded t0 (asked_host e) = e.
Proof.
  intros [_ Hp] Ha. unfold num_answers, answers, responded, announced_records, announced_entry, is_state. cbn [asked_host state set_field].
  change (state (asked_host e)) with (state e). rewrite Ha. rewrite !bool_decide_eq_false_2 by done.
  split; [done|]. split; [cbn; by rewrite app_nil_r|]. destruct e. cbn in *. unfold set_field. cbn. by rewrite Hp.
Qed.
Lemma length_encode_labels fuel : forall src, size (encode_labels fuel src) <= size src + 1.
Proof.
  unfold size. induction fuel as [|fuel IH]; intros src; cbn [encode_labels]; [cbn; lia|].
  destruct (take_label src) as [l r] eqn:E.
  assert (length src = length l + length r)%nat as Hl.
  { revert l r E. induction src as [|x src IHs]; intros l r; cbn [take_label]; [by intros [= <- <-]|].
    destruct (x =? DOT); [by intros [= <- <-]|]. destruct (take_label src) as [l' r'] eqn:E. intros [= <- <-]. cbn. by rewrite (IHs l' r'). }
  destruct (tl r) as [|y r'] eqn:Er.
  - cbn [length app]. rewrite app_nil_r. lia.
  - cbn [length]. rewrite length_app. specialize (IH (y :: r')). destruct r as [|z r]; [done|]. cbn in Er. subst. cbn [length] in *. lia.
Qed.
Lemma size_encode_name src : size (mdns_encode_name src) <= size src + 2.
Proof. unfold mdns_encode_name. rewrite size_app. pose proof (length_encode_labels (S (length src)) src). unfold size in *. cbn [length]. lia. Qed.

Lemma send_answer c t0 s before e after : mdns_table s = before ++ asked_host e :: after ->
  Forall silent (before ++ e :: after) -> answers_to e -> (length (name e) < MDNS_MAX_NAME_LENGTH)%nat ->
  canonical (mdns_table s) = Some c ->
  mdns_send t0 s = Some (s <| mdns_table := before ++ e :: after |>
                           <| calls ::= fun l => l ++ [Xtcp_send (address_answer ls (ipaddr e))] |>).
Proof.
  intros Ht Hs (Ha & Hh & Hn) Hl Hc. pose proof Hs as [Hb [He Hf]%Forall_cons_iff]%Forall_app.
  destruct (silent_table c before Hb) as (B1 & B2 & B3 & B4). destruct (silent_table c after Hf) as (A1 & A2 & A3 & A4).
  destruct (asked_answers c t0 e He Ha) as (E1 & E2 & E3).
  assert (settled (mdns_table s)) as Hset.
  { rewrite Ht. by apply (Forall_replace _ before e (asked_host e) after (silent_settled _ Hs)). }
  destruct (settled_no_proposal c _ Hset) as [P1 P2]. rewrite (mdns_send_exact c t0 s); [| |done|].
  - unfold sent_table, sent_message. rewrite (proj2 (waiting_false _) Hset). rewrite Ht, total_app, map_app. cbn [total foldr map].
    rewrite B1, E1. change (foldr _ 0 after) with (total num_answers after). rewrite A1. cbn [Z.add Z.ltb Z.compare].
    rewrite B4, E3, A4. unfold response_message. rewrite total_app, gather_app. unfold gather at 2. cbn [map concat total foldr].
    change (foldr _ 0 after) with (total num_answers after). change (concat (map _ after)) with (gather (answers c) after).
    rewrite B1, B2, A1, A2, E1, E2, app_nil_r. unfold mdns_send_host_response. rewrite Hn, mdns_encode_name_wire by done.
    destruct s. reflexivity.
  - rewrite Ht. apply (Forall_replace _ before e (asked_host e) after); [|done]. eapply Forall_impl; [|exact Hs].
    intros x [Hx _] E. rewrite E, !elem_of_cons in Hx. tauto.
  - split; [unfold probe_fits; rewrite P1, P2; unfold size, room, XTCP_CLIENT_BUF_SIZE, sizeof_hdr; cbn; lia|].
    unfold answers_fit. rewrite Ht, total_app. cbn [total foldr]. change (foldr _ 0 after) with (total (answer_load c) after).
    rewrite B3, A3. unfold answer_load. rewrite E1, E2. cbn [Z.eqb]. unfold mdns_send_host_response, mdns_response_size.
    rewrite !size_app. pose proof (size_encode_name (name (asked_host e))). change (name (asked_host e)) with (name e) in *.
    unfold room, XTCP_CLIENT_BUF_SIZE, sizeof_hdr, sizeof_answer, size in *. cbn [length st_answer ip_bytes st16 st32 app].
    unfold MDNS_MAX_NAME_LENGTH in Hl. lia.
Qed.

(** C16: a query is answered.  Any message asking for the address of a name that
    an entry of the table holds, on a table with nothing else to send, makes the
    handler ask for a turn to send; and when the server gives it, the message is
    the address record of that name, byte for byte, and nothing remains to be
    sent. *)
Theorem mdns_query_answered i conn i' conn' s before e after c :
  mdns_table s = before ++ e :: after -> Forall silent (mdns_table s) -> Forall passes before -> answers_to e ->
  (length (name e) < MDNS_MAX_NAME_LENGTH)%nat -> canonical (mdns_table s) = Some c ->
  is_type qtype MDNS_RRTYPE_A = true -> rx_data i = msg -> rx_len i = len ->
  event conn = XTCP_RECV_DATA -> local_port conn = MDNS_SERVER_PORT ->
  event conn' = XTCP_REQUEST_DATA -> local_port conn' = MDNS_SERVER_PORT ->
  run_events [(i, conn); (i', conn')] s =
  Some (s <| calls ::= fun l => l ++ [Xtcp_recv; Xtcp_init_send; Xtcp_send (address_answer ls (ipaddr e))] |>).
Proof.
  intros Ht Hs Hb He Hl Hc Hq Hd Hlen Hev Hp Hev' Hp'. cbn [run_events].
  pose proof (recv_query (rx_addr i) s before e after Ht Hb He Hq) as Hr.
  rewrite <- Hd, <- Hlen in Hr. destruct (handle_recv i conn _ _ _ Hev Hp Hr) as [c1 ->]. clear Hr. cbn [mbind option_bind].
  set (s1 := s <| mdns_table := _ |> <| calls ::= _ |>).
  assert (e <| pending ::= fun q => Z.lor q PENDING_HOST_RESPONSE |> = asked_host e) as Ea.
  { rewrite Ht in Hs. apply Forall_app in Hs as [_ [[_ Hz] _]%Forall_cons_iff]. destruct e. cbn in *. unfold set_field, asked_host. cbn. by rewrite Hz. }
  pose proof (send_answer c (now i') s1 before e after) as Hsend.
  destruct (handle_send i' conn' s1 (s <| calls ::= fun l => l ++ [Xtcp_recv; Xtcp_init_send; Xtcp_send (address_answer ls (ipaddr e))] |>)) as [c2 ->].
  - rewrite Hev', !elem_of_cons. auto.
  - done.
  - rewrite Hsend; [| |by rewrite <- Ht|done|done|].
    + destruct s. cbn in Ht. unfold s1, set_field. cbn. by rewrite <- Ht, <- app_assoc.
    + unfold s1. cbn. by rewrite Ea.
    + unfold s1. cbn. rewrite Ea, <- Hc, Ht. by apply (canonical_replace asked_host).
  - done.
Qed.
End query.

(** * Conflicts *)

Section conflict.
Variables (ls : list (list Z)) (a : u8x4) (junk : list Z).
Hypothesis name_fine : name_ok ls.
Hypothesis a_fine : u8x4_ok a.
Let tail := [0; 1; 0x80; 1; 0; 0; 0; 255; 0; 4] ++ ip_bytes a.
Let msg := address_answer ls a ++ junk.
Let len := size (address_answer ls a).
Let ans := 12 + size (wire ls).

Lemma answer_parsed : mdns_parse_name msg 12 len = Some (Some ans).
Proof. by apply record_parsed. Qed.
Lemma answer_name_at : name_at msg 12 ls.
Proof. by apply record_name_at. Qed.
Lemma answer_end i : 0 <= i < 14 -> rd8 msg (ans + i) = rd8 tail i.
Proof. intros. by apply record_end. Qed.
Lemma answer_fields : NTOHS (rd16 msg (ans_type ans)) = MDNS_RRTYPE_A /\
  Z.ldiff (NTOHS (rd16 msg (ans_class ans))) MDNS_RRCLASS_FLUSH = MDNS_RRCLASS_IN /\
  HTONL (rd32 msg (ans_ttl ans)) = 255 /\ NTOHS (rd16 msg (ans_len ans)) = 4.
Proof.
  assert (forall i b0 b1, 0 <= i <= 12 -> rd8 tail i = b0 -> rd8 tail (i + 1) = b1 -> u8 b0 -> u8 b1 ->
    NTOHS (rd16 msg (ans + i)) = 256 * b0 + b1) as H.
  { intros i b0 b1 Hi <- <- H0 H1. rewrite <- !answer_end, Z.add_assoc in * by lia. by apply NTOHS_rd16. }
  unfold ans_type, ans_class, ans_ttl, ans_len. repeat split.
  - rewrite <- (Z.add_0_r ans). rewrite (H 0 0 1); done.
  - rewrite (H 2 0x80 1); done.
  - unfold rd32, rd4. pose proof (answer_end 4 ltac:(lia)) as H4. pose proof (answer_end 5 ltac:(lia)) as H5.
    pose proof (answer_end 6 ltac:(lia)) as H6. pose proof (answer_end 7 ltac:(lia)) as H7.
    replace (ans + 4 + 1) with (ans + 5) by lia. replace (ans + 4 + 2) with (ans + 6) by lia. replace (ans + 4 + 3) with (ans + 7) by lia.
    by rewrite H4, H5, H6, H7.
  - rewrite (H 8 0 4); done.
Qed.
Lemma compare_rdata_spec l : forall p, Forall u8 l ->
  compare_rdata msg (length l) p l = None <-> rds msg p (length l) = l.
Proof.
  induction l as [|x l IH]; intros p Hl; [done|]. cbn [compare_rdata length]. rewrite rds_cons.
  destruct (Z.ltb_spec x (rd8 msg p)); [split; [done|intros [= E _]; lia]|].
  destruct (Z.ltb_spec (rd8 msg p) x); [split; [done|intros [= E _]; lia]|].
  apply Forall_cons_iff in Hl as [_ Hl]. rewrite IH by done. assert (rd8 msg p = x) as -> by lia. split; [by intros ->|by intros [= ->]].
Qed.
Lemma compare_rdata_nonzero l : forall n p, compare_rdata msg n p l <> Some 0.
Proof. induction l as [|x l IH]; intros [|n] p; cbn [compare_rdata]; try done. by repeat case_match. Qed.
(** The comparison decides whether the address is the same. *)
Lemma host_answer_same e : u8x4_ok (ipaddr e) -> mdns_compare_host_answer msg ans e = 0 <-> a = ipaddr e.
Proof.
  intros He. unfold mdns_compare_host_answer, mdns_compare_answer. destruct answer_fields as (-> & -> & _ & ->).
  cbn [Z.ltb Z.compare Pos.compare Pos.compare_cont MDNS_RRCLASS_IN MDNS_RRTYPE_A]. cbv zeta.
  assert (rds msg (ans + sizeof_answer) 4 = ip_bytes a) as Hr.
  { unfold rds, sizeof_answer. cbn [seq map]. rewrite <- !Z.add_assoc. unfold ip_bytes. cbn [Z.of_nat Pos.of_succ_nat Pos.succ Z.add Pos.add].
    by rewrite !answer_end by lia. }
  change (Z.to_nat 4) with (length (ip_bytes (ipaddr e))).
  assert (Forall u8 (ip_bytes (ipaddr e))) as Hb.
  { destruct He as (H0 & H1 & H2 & H3). unfold ip_bytes. do 4 (apply Forall_cons; [done|]). constructor. }
  pose proof (compare_rdata_spec (ip_bytes (ipaddr e)) (ans + sizeof_answer) Hb) as Hc. cbn [length ip_bytes] in Hc. rewrite Hr in Hc.
  destruct (compare_rdata _ _ _ _) as [d|] eqn:Ed.
  - split.
    + intros ->. by apply compare_rdata_nonzero in Ed.
    + intros E. assert (Some d = None) as H; [|done]. apply Hc. by rewrite E.
  - split; [intros _|done]. pose proof (proj1 Hc eq_refl) as E. destruct a, (ipaddr e). unfold ip_bytes in E. cbn in E. congruence.
Qed.

(** What an entry does when the address of [ls] is given as [a]. *)
Definition hear (e : entry) : entry :=
  if decide (a = ipaddr e) then e <| pending := 0 |>
  else
    let e := if is_state PROBE_WAIT e || is_state PROBE_SENT e then
               let e := e <| counter ::= fun c => s32 (c + 1) |> in e <| name := full_name e |>
             else e in
    e <| state := PROBE_WAIT |> <| num_sent := 0 |>.
(** An entry that does not claim the name. *)
Definition deaf (e : entry) : Prop := state e = UNUSED \/ state e = DISABLED \/ ~ same_name (name e) ls.
Lemma deaf_response e rs : deaf e -> handle_entry_response msg 12 ans e rs = Some (e, rs).
Proof.
  intros Hd. unfold handle_entry_response. destruct rs as [r cs].
  destruct (negb (is_state DISABLED e) && negb (is_state UNUSED e) && names msg (name e) 12) eqn:E; [|done].
  apply andb_true_iff in E as [[E1 E2]%andb_true_iff E3]. apply negb_true_iff in E1, E2. apply bool_decide_eq_false in E1, E2.
  apply Z.eqb_eq in E3. apply (mdns_compare_wire msg (name e) ls 12 name_fine answer_name_at) in E3. by destruct Hd as [?|[?|?]].
Qed.
Lemma own_response e r cs : state e <> UNUSED -> state e <> DISABLED -> is_host e = true -> u8x4_ok (ipaddr e) -> name e = join ls ->
  (length (full_name (e <| counter ::= fun c => s32 (c + 1) |>)) < MDNS_MAX_NAME_LENGTH)%nat ->
  handle_entry_response msg 12 ans e (r, cs) =
  Some (hear e,
    if decide (a = ipaddr e) then (r, cs)
    else (if is_state PROBE_WAIT e || is_state PROBE_SENT e then Z.lor r mdns_entry_lost else r, cs ++ [Xtcp_init_send])).
Proof.
  intros Hu Hd Hh Hip Hn Hl. unfold handle_entry_response, hear.
  assert (is_state DISABLED e = false /\ is_state UNUSED e = false) as [-> ->] by (split; by apply bool_decide_eq_false).
  assert (names msg (name e) 12 = true) as ->.
  { apply Z.eqb_eq. apply (mdns_compare_wire msg (name e) ls 12 name_fine answer_name_at). rewrite Hn. by apply same_name_join. }
  cbn [negb andb]. assert (mdns_answer_conflict msg ans e = negb (mdns_compare_host_answer msg ans e =? 0)) as ->.
  { unfold mdns_answer_conflict. unfold is_host in Hh. by destruct (entry_type e). }
  pose proof (host_answer_same e Hip) as Hsame. case_decide as Ha.
  - rewrite (proj2 Hsame Ha). cbn [Z.eqb negb]. destruct answer_fields as (_ & _ & -> & _). done.
  - destruct (Z.eqb_spec (mdns_compare_host_answer msg ans e) 0) as [E|_]; [by apply Hsame in E|]. cbn [negb].
    assert (negb (is_state PROBE_WAIT e) || negb (is_state ANNOUNCE_WAIT e) = true) as ->.
    { unfold is_state. by destruct (state e). }
    destruct (is_state PROBE_WAIT e || is_state PROBE_SENT e); [|done]. rewrite update_name_eq.
    destruct (Nat.ltb_spec (length (full_name (e <| counter ::= fun c => s32 (c + 1) |>))) MDNS_MAX_NAME_LENGTH); [done|lia].
Qed.

(** C18: conflicts.  A record of another address for the name of an entry makes
    the entry probe again; one that is still being probed first takes the next
    name and reports the loss.  The record of its own address only cancels the
    answers it owes, and no other entry changes. *)
Theorem mdns_name_contested i conn s before e after :
  mdns_table s = before ++ e :: after -> Forall deaf (before ++ after) ->
  state e <> UNUSED -> state e <> DISABLED -> is_host e = true -> u8x4_ok (ipaddr e) -> name e = join ls ->
  (length (full_name (e <| counter ::= fun c => s32 (c + 1) |>)) < MDNS_MAX_NAME_LENGTH)%nat ->
  rx_data i = msg -> rx_len i = len -> event conn = XTCP_RECV_DATA -> local_port conn = MDNS_SERVER_PORT ->
  exists conn', mdns_handle_event i conn s =
    Some (if decide (a = ipaddr e) then 0
          else if is_state PROBE_WAIT e || is_state PROBE_SENT e then mdns_entry_lost else 0, conn',
      s <| mdns_table := before ++ hear e :: after |>
        <| calls ::= fun l => l ++ Xtcp_recv :: (if decide (a = ipaddr e) then [] else [Xtcp_init_send]) |>).
Proof.
  intros Ht Hdeaf Hu Hd Hh Hip Hn Hl Hdata Hlen Hev Hp. apply handle_recv; [done|done|]. rewrite Hdata, Hlen.
  unfold mdns_recv. change (NTOHS (rd16 msg hdr_numquestions)) with 0. change (NTOHS (rd16 msg hdr_numanswers)) with 1.
  change (NTOHS (rd16 msg hdr_numauthrr)) with 0. change (Z.to_nat 1) with 1%nat. change (Z.to_nat 0) with 0%nat.
  cbn [recv_questions recv_answers mbind option_bind]. unfold sizeof_hdr. rewrite answer_parsed. cbn [mbind option_bind].
  unfold handle_mdns_response. rewrite (for_entries_one _ _ before e after).
  2:{ exact Ht. }
  2:{ eapply Forall_impl; [|exact Hdeaf]. intros x Hx rs. by apply deaf_response. }
  rewrite own_response by done. destruct (decide (a = ipaddr e)).
  - cbn [mbind option_bind]. rewrite auth_none. destruct s. unfold call, set_field. cbn. by rewrite app_nil_r.
  - cbn [mbind option_bind]. rewrite auth_none. cbn [mbind option_bind app].
    do 2 f_equal; [by destruct (is_state PROBE_WAIT e || is_state PROBE_SENT e)|].
    destruct s. unfold call, set_field. cbn. by rewrite <- app_assoc.
Qed.
End conflict.

(** * A message that never ends *)

(** One datagram stops the client.  A query for a name that is a
    compression pointer to itself is followed for ever, whatever the state of the
    responder; so the handler does not return. *)
Theorem mdns_endless_query i conn s rest : rx_data i = [0; 0; 0; 0; 0; 1; 0; 0; 0; 0; 0; 0; 0xc0; 12; 0; 1; 0; 1] ++ rest ->
  rx_len i = 18 -> event conn = XTCP_RECV_DATA -> local_port conn = MDNS_SERVER_PORT -> mdns_handle_event i conn s = None.
Proof.
  intros Hd Hlen Hev Hp. unfold mdns_handle_event. rewrite Hev, Hp. cbn. unfold mdns_recv. rewrite Hd, Hlen.
  cbn. done.
Qed.
