(* ===== verification/Xtcp.v ===== *)
(** * The xtcp server: [uip_xtcp.c]

    The layer between uIP and the clients: connection identifiers, listeners,
    the requests of the clients, and [xtcpd_appcall], the application uIP calls.
    The channel protocol of [xtcp_server.xc] is seen from here as follows.  While
    the server waits for a client ([xtcpd_service_clients_until_ready]) the
    clients issue a batch of commands and take the interface events queued for
    them, in the order given by [script]; whether a client is ready for received
    data is taken from [ready], what it sends when asked for data from [answers];
    what the clients are told is appended to [output].  Using a null pointer, or
    a connection of the wrong protocol through a pointer, or storing an answer
    past the end of the packet buffer, sets [fault]. *)
From S2P Require Export UipSafety Clock.
From S2P Require Igmp.
Local Open Scope Z_scope.

Definition DHCPC_SERVER_PORT : Z := 67.
Definition DHCPC_CLIENT_PORT : Z := 68.
Definition MAX_GUID : Z := 200.
Definition NUM_TCP_LISTENERS : nat := 10.
Definition NUM_UDP_LISTENERS : nat := 10.
Definition MAX_XTCP_CLIENTS : nat := 10.
(** [unsigned int linknum] holding -1. *)
Definition NO_LINK : Z := w32 (-1).
(** [UIP_IGMP] of [uip-conf.h]. *)
Definition UIP_CONF_IGMP : bool := false.

#[export] Instance connptr_eq_dec : EqDecision connptr.
Proof. solve_decision. Defined.

Record listener_info_t : Type := ListenerInfo { active : Z; port_number : Z; l_linknum : Z }.
#[export] Instance eta_listener : Eta listener_info_t := fun r =>
  ListenerInfo r.(active) r.(port_number) r.(l_linknum).

(** The commands of [handle_xtcp_cmd], with the identifier of the link. *)
Inductive xtcp_cmd_t : Type :=
| CMD_LISTEN (port : Z) (p : xtcp_protocol_t) | CMD_UNLISTEN (port : Z)
| CMD_CONNECT (port : Z) (addr : u8x4) (p : xtcp_protocol_t)
| CMD_BIND_LOCAL (conn_id port : Z) | CMD_BIND_REMOTE (conn_id : Z) (addr : u8x4) (port : Z)
| CMD_INIT_SEND (conn_id : Z) | CMD_SET_APPSTATE (conn_id v : Z)
| CMD_ABORT (conn_id : Z) | CMD_CLOSE (conn_id : Z) | CMD_SET_POLL_INTERVAL (conn_id ms : Z)
| CMD_ACK_RECV (conn_id : Z) | CMD_ACK_RECV_MODE (conn_id : Z)
| CMD_PAUSE (conn_id : Z) | CMD_UNPAUSE (conn_id : Z)
| CMD_JOIN_GROUP (addr : u8x4) | CMD_LEAVE_GROUP (addr : u8x4)
| CMD_GET_MAC_ADDRESS | CMD_GET_IPCONFIG.

(** What the server serves a link: a command, or, when the client answers its
    notification, the event queued for it. *)
Inductive client_act : Type := Command (i : Z) (cmd : xtcp_cmd_t) | TakeEvent (i : nat).

(** What a client sees: an event of a connection, with the data that go with it. *)
Inductive xtcp_output : Type :=
| OutEvent (link : Z) (ev : xtcp_event_type_t) (conn_id : Z)
| OutRecv (link : Z) (conn_id : Z) (data : list Z)
| OutConfig (link : nat) (ev : xtcp_event_type_t)
| OutMac (link : Z) (mac_addr : list Z)
| OutIpconfig (link : Z) (ipaddr netmask gateway : u8x4).

(** The statics of the file, the event queued for each link (a static of
    [xtcp_server.xc], where -1 is none), the clients, and the state of the other
    modules. *)
Record xtcp_env (F : Type) : Type := XtcpEnv {
  guid : Z;
  tcp_listeners : list listener_info_t;
  udp_listeners : list listener_info_t;
  prev_ifstate : list Z;
  uip_ifstate : Z;
  pending_event : list (option xtcp_event_type_t);
  igmp : Igmp.igmp_state;
  xtcp_num : nat;
  now : Z;
  script : list (list client_act);
  ready : list bool;
  answers : list (list Z);
  output : list xtcp_output;
  fault : bool;
  rest : F }.
Arguments XtcpEnv {F}. Arguments guid {F}. Arguments tcp_listeners {F}. Arguments udp_listeners {F}.
Arguments prev_ifstate {F}. Arguments uip_ifstate {F}. Arguments pending_event {F}. Arguments igmp {F}. Arguments xtcp_num {F}. Arguments now {F}.
Arguments script {F}. Arguments ready {F}. Arguments answers {F}. Arguments output {F}. Arguments fault {F}. Arguments rest {F}.
#[export] Instance eta_xtcp_env {F} : Eta (xtcp_env F) := fun r =>
  XtcpEnv r.(guid) r.(tcp_listeners) r.(udp_listeners) r.(prev_ifstate) r.(uip_ifstate) r.(pending_event) r.(igmp) r.(xtcp_num)
    r.(now) r.(script) r.(ready) r.(answers) r.(output) r.(fault) r.(rest).

Section xtcp.
Context {F : Type}.
Notation S := (uip_state (xtcp_env F)).
Implicit Types s : S.

Definition upd_env (f : xtcp_env F -> xtcp_env F) s : S := s <| env ::= f |>.
Definition set_fault s : S := upd_env (fun e => e <| fault := true |>) s.
Definition say (o : xtcp_output) s : S := upd_env (fun e => e <| output ::= fun l => l ++ [o] |>) s.

(** The [xtcpd_state_t] of a connection, through its pointer. *)
Definition app_at (p : connptr) s : xtcpd_state_t :=
  match p with
  | CPtcp i => appstate (conn_at i s)
  | CPudp i => udp_appstate (udp_conn_at i s)
  | CPnull => zero_xtcpd_state
  end.
Definition upd_app (p : connptr) (f : xtcpd_state_t -> xtcpd_state_t) s : S :=
  match p with
  | CPtcp i => upd_conn i (fun c => c <| appstate ::= f |>) s
  | CPudp i => upd_udp_conn i (fun c => c <| udp_appstate ::= f |>) s
  | CPnull => set_fault s
  end.
Definition upd_xs (p : connptr) (f : xtcp_server_state_t -> xtcp_server_state_t) : S -> S :=
  upd_app p (fun a => a <| xs ::= f |>).
Definition upd_xconn (p : connptr) (f : xtcp_connection_t -> xtcp_connection_t) : S -> S :=
  upd_app p (fun a => a <| xconn ::= f |>).

(** TCP and UDP connections are looked at in turn. *)
Fixpoint lookup_from (n i : nat) (conn_id : Z) s : connptr :=
  match n with
  | O => CPnull
  | Datatypes.S n =>
      if (i <? UIP_CONNS)%nat && (id (xconn (app_at (CPtcp i) s)) =? conn_id) then CPtcp i
      else if (i <? UIP_UDP_CONNS)%nat && (id (xconn (app_at (CPudp i) s)) =? conn_id) then CPudp i
      else lookup_from n (Datatypes.S i) conn_id s
  end.
Definition lookup_xtcpd_state (conn_id : Z) s : connptr :=
  lookup_from (Nat.max UIP_CONNS UIP_UDP_CONNS) 0 conn_id s.

Definition get_listener_linknum (listeners : list listener_info_t) (local_port : Z) : Z :=
  match find_index (fun l => negb (active l =? 0) && (local_port =? port_number l)) listeners with
  | Some i => match listeners !! i with Some l => l_linknum l | None => NO_LINK end
  | None => NO_LINK
  end.

(** [while (lookup_xtcpd_state(guid) != NULL) ...]: [None] when [fuel] further
    identifiers are all in use. *)
Fixpoint find_guid (fuel : nat) s (guid : Z) : option Z :=
  match lookup_xtcpd_state guid s with
  | CPnull => Some guid
  | _ =>
      match fuel with
      | O => None
      | Datatypes.S fuel => find_guid fuel s (if MAX_GUID <? guid + 1 then 1 else guid + 1)
      end
  end.

Definition is_null (p : connptr) : bool := match p with CPnull => true | _ => false end.

(** Running out of fuel ([fault]) does not happen: there are more identifiers
    than connections. *)
Definition xtcpd_init_state (p : connptr) (proto : xtcp_protocol_t) (remote : u8x4)
    (local_port' remote_port' : Z) (conn : connptr) s : S :=
  let a := app_at p s in
  let '(linknum', connection_type') :=
    if negb (connect_request (xs a) =? 0) then (linknum a, connection_type (xconn a))
    else
      (get_listener_linknum
         match proto with
         | XTCP_PROTOCOL_TCP => tcp_listeners (env s)
         | XTCP_PROTOCOL_UDP => udp_listeners (env s)
         end local_port', XTCP_SERVER_CONNECTION) in
  let s := upd_app p (fun _ => zero_xtcpd_state) s in
  match find_guid (UIP_CONNS + UIP_UDP_CONNS) s (guid (env s)) with
  | None => set_fault s
  | Some g =>
      let s := upd_env (fun e => e <| guid := g |>) s in
      let s := upd_xconn p (fun c => c <| connection_type := connection_type' |>) s in
      let s := upd_app p (fun a => a <| linknum := linknum' |>) s in
      let s := upd_xconn p (fun c => c <| id := g |>) s in
      let s := upd_xconn p (fun c => c <| local_port := HTONS local_port' |>) s in
      let s := upd_xconn p (fun c => c <| remote_port := HTONS remote_port' |>) s in
      let s := upd_xconn p (fun c => c <| protocol := proto |>) s in
      let s := upd_xs p (fun x => x <| s_uip_conn := conn |>) s in
      upd_xconn p (fun c => c <| remote_addr := remote |>) s
  end.

(** ** Listeners *)

Definition unregister_listener (port : Z) (listeners : list listener_info_t) : list listener_info_t :=
  map (fun l => if (port_number l =? HTONS port) && negb (active l =? 0) then l <| active := 0 |> else l)
    listeners.

Definition register_listener (linknum port : Z) (listeners : list listener_info_t) : list listener_info_t :=
  match find_index (fun l => active l =? 0) listeners with
  | None => listeners
  | Some i => alter (fun _ => ListenerInfo 1 (HTONS port) linknum) i listeners
  end.

Definition xtcpd_unlisten (port : Z) s : S :=
  let s := upd_env (fun e => e <| tcp_listeners ::= unregister_listener port |>) s in
  uip_unlisten (HTONS port) s.

Definition xtcpd_listen (linknum port : Z) (p : xtcp_protocol_t) s : S :=
  match p with
  | XTCP_PROTOCOL_TCP =>
      let s := upd_env (fun e => e <| tcp_listeners ::= register_listener linknum port |>) s in
      uip_listen (HTONS port) s
  | XTCP_PROTOCOL_UDP =>
      let s := upd_env (fun e => e <| udp_listeners ::= register_listener linknum port |>) s in
      uip_udp_listen (HTONS port) s
  end.

(** ** The requests of the clients *)

(** A store through [s->s.uip_conn] as a TCP connection. *)
Definition upd_tcp_block (p : connptr) (f : uip_conn_t -> uip_conn_t) s : S :=
  match p with CPtcp i => upd_conn i f s | _ => set_fault s end.
Definition upd_udp_block (p : connptr) (f : uip_udp_conn_t -> uip_udp_conn_t) s : S :=
  match p with CPudp i => upd_udp_conn i f s | _ => set_fault s end.
Definition block_of (p : connptr) s : connptr := s_uip_conn (xs (app_at p s)).
(** [if (s != NULL)]. *)
Definition with_conn (conn_id : Z) (f : connptr -> S -> S) s : S :=
  let p := lookup_xtcpd_state conn_id s in if is_null p then s else f p s.

Definition xtcpd_bind_local (conn_id port : Z) s : S :=
  let p := lookup_xtcpd_state conn_id s in
  let s := upd_xconn p (fun c => c <| local_port := port |>) s in
  match protocol (xconn (app_at p s)) with
  | XTCP_PROTOCOL_UDP => upd_udp_block (block_of p s) (fun c => c <| udp_lport := HTONS port |>) s
  | XTCP_PROTOCOL_TCP => upd_tcp_block (block_of p s) (fun c => c <| lport := HTONS port |>) s
  end.

Definition xtcpd_bind_remote (conn_id : Z) (addr : u8x4) (port : Z) s : S :=
  let p := lookup_xtcpd_state conn_id s in
  if is_null p then set_fault s
  else match protocol (xconn (app_at p s)) with
  | XTCP_PROTOCOL_UDP =>
      let conn := block_of p s in
      let s := upd_xconn p (fun c => c <| remote_port := port |>) s in
      let s := upd_udp_block conn (fun c => c <| udp_rport := HTONS port |>) s in
      let s := upd_xconn p (fun c => c <| remote_addr := addr |>) s in
      upd_udp_block conn (fun c => c <| udp_ripaddr :=
        of_words (Z.lor (Z.shiftl (q1 addr) 8) (q0 addr)) (Z.lor (Z.shiftl (q3 addr) 8) (q2 addr)) |>) s
  | XTCP_PROTOCOL_TCP => s
  end.

(** The fields of a connection a client asked for. *)
Definition connecting (linknum' : Z) (p : connptr) s : S :=
  let s := upd_app p (fun a => a <| linknum := linknum' |>) s in
  let s := upd_xs p (fun x => x <| connect_request := 1 |>) s in
  upd_xconn p (fun c => c <| connection_type := XTCP_CLIENT_CONNECTION |>) s.

(** [None] of the port search does not happen ([uip_connect_spec]). *)
Definition xtcpd_connect (linknum port : Z) (addr : u8x4) (p : xtcp_protocol_t) s : S :=
  let uipaddr := uip_ipaddr (q0 addr) (q1 addr) (q2 addr) (q3 addr) in
  match p with
  | XTCP_PROTOCOL_TCP =>
      match uip_connect uipaddr (HTONS port) s with
      | Some (s, Some i) => connecting linknum (CPtcp i) s
      | Some (s, None) => s
      | None => set_fault s
      end
  | XTCP_PROTOCOL_UDP =>
      match uip_udp_new (Some uipaddr) (HTONS port) s with
      | Some (s, Some i) => connecting linknum (CPudp i) s
      | Some (s, None) => s
      | None => set_fault s
      end
  end.

Definition xtcpd_init_send (conn_id : Z) : S -> S :=
  with_conn conn_id (fun p => upd_xs p (fun x => x <| send_request ::= fun n => s32 (n + 1) |>)).
Definition xtcpd_init_send_from_uip (i : nat) : S -> S :=
  upd_xs (CPtcp i) (fun x => x <| send_request ::= fun n => s32 (n + 1) |>).
Definition xtcpd_set_appstate (conn_id v : Z) : S -> S :=
  with_conn conn_id (fun p => upd_xconn p (fun c => c <| conn_appstate := v |>)).
Definition xtcpd_abort (conn_id : Z) : S -> S :=
  with_conn conn_id (fun p => upd_xs p (fun x => x <| abort_request := 1 |>)).
Definition xtcpd_close (conn_id : Z) : S -> S :=
  with_conn conn_id (fun p => upd_xs p (fun x => x <| close_request := 1 |>)).
Definition xtcpd_ack_recv_mode (conn_id : Z) : S -> S :=
  with_conn conn_id (fun p => upd_xs p (fun x => x <| ack_recv_mode := 1 |>)).
Definition restart_block (c : uip_conn_t) : uip_conn_t :=
  c <| tcpstateflags ::= fun f => Z.land f (Z.lnot UIP_STOPPED) |>.
Definition xtcpd_ack_recv (conn_id : Z) : S -> S :=
  with_conn conn_id (fun p s =>
    let s := upd_tcp_block (block_of p s) restart_block s in
    upd_xs p (fun x => x <| ack_request := 1 |>) s).
Definition xtcpd_pause (conn_id : Z) : S -> S :=
  with_conn conn_id (fun p s =>
    upd_tcp_block (block_of p s) (fun c => c <| tcpstateflags ::= fun f => Z.lor f UIP_STOPPED |>) s).
Definition xtcpd_unpause (conn_id : Z) : S -> S :=
  with_conn conn_id (fun p s =>
    let s := upd_tcp_block (block_of p s) restart_block s in
    upd_xs p (fun x => x <| ack_request := 1 |>) s).
Definition xtcpd_set_poll_interval (conn_id poll_interval' : Z) : S -> S :=
  with_conn conn_id (fun p s =>
    match protocol (xconn (app_at p s)) with
    | XTCP_PROTOCOL_UDP =>
        let s := upd_xs p (fun x => x <| poll_interval := poll_interval' |>) s in
        upd_xs p (fun x => x <| tmr ::= timer_set (now (env s)) (s32 (poll_interval' * CLOCK_SECOND) ÷ 1000) |>) s
    | XTCP_PROTOCOL_TCP => s
    end).

Definition xtcpd_join_group (addr : u8x4) s : S :=
  if UIP_CONF_IGMP
  then upd_env (fun e => e <| igmp ::= Igmp.igmp_join_group (uip_ipaddr (q0 addr) (q1 addr) (q2 addr) (q3 addr)) |>) s
  else s.
Definition xtcpd_leave_group (addr : u8x4) s : S :=
  if UIP_CONF_IGMP
  then upd_env (fun e => e <| igmp ::= Igmp.igmp_leave_group (uip_ipaddr (q0 addr) (q1 addr) (q2 addr) (q3 addr)) |>) s
  else s.
Definition xtcpd_get_mac_address s : list Z := uip_ethaddr s.
(** [uip_ipaddr1] to [uip_ipaddr4] are the bytes of an address in order. *)
Definition xtcpd_get_ipconfig s : u8x4 * u8x4 * u8x4 := (uip_hostaddr s, uip_netmask s, uip_draddr s).

Definition handle_xtcp_cmd (i : Z) (cmd : xtcp_cmd_t) : S -> S :=
  match cmd with
  | CMD_LISTEN port p => xtcpd_listen i port p
  | CMD_UNLISTEN port => xtcpd_unlisten port
  | CMD_CONNECT port addr p => xtcpd_connect i port addr p
  | CMD_BIND_LOCAL conn_id port => xtcpd_bind_local conn_id port
  | CMD_BIND_REMOTE conn_id addr port => xtcpd_bind_remote conn_id addr port
  | CMD_INIT_SEND conn_id => xtcpd_init_send conn_id
  | CMD_SET_APPSTATE conn_id v => xtcpd_set_appstate conn_id v
  | CMD_ABORT conn_id => xtcpd_abort conn_id
  | CMD_CLOSE conn_id => xtcpd_close conn_id
  | CMD_SET_POLL_INTERVAL conn_id ms => xtcpd_set_poll_interval conn_id ms
  | CMD_ACK_RECV conn_id => xtcpd_ack_recv conn_id
  | CMD_ACK_RECV_MODE conn_id => xtcpd_ack_recv_mode conn_id
  | CMD_PAUSE conn_id => xtcpd_pause conn_id
  | CMD_UNPAUSE conn_id => xtcpd_unpause conn_id
  | CMD_JOIN_GROUP addr => xtcpd_join_group addr
  | CMD_LEAVE_GROUP addr => xtcpd_leave_group addr
  | CMD_GET_MAC_ADDRESS => fun s => say (OutMac i (xtcpd_get_mac_address s)) s
  | CMD_GET_IPCONFIG => fun s =>
      let '(ipaddr, netmask, gateway) := xtcpd_get_ipconfig s in say (OutIpconfig i ipaddr netmask gateway) s
  end.

(** [xtcpd_service_client0]: a token of a client starts a command or answers
    the notification; in the latter case the queued event is delivered. *)
Definition take_event (i : nat) (e : xtcp_env F) : xtcp_env F :=
  match pending_event e !! i with
  | Some (Some ev) =>
      (e <| pending_event ::= <[i := None]> |>) <| output ::= fun l => l ++ [OutConfig i ev] |>
  | _ => e
  end.
Definition serve_act s (a : client_act) : S :=
  match a with
  | Command i cmd => handle_xtcp_cmd i cmd s
  | TakeEvent i => upd_env (take_event i) s
  end.
Definition serve (l : list client_act) s : S := foldl serve_act s l.

(** What the clients do up to the point where the link waited for is ready. *)
Definition xtcpd_service_clients_until_ready s : S :=
  match script (env s) with
  | [] => s
  | batch :: later => serve batch (upd_env (fun e => e <| script := later |>) s)
  end.

(** ** Events *)

(** [xtcpd_send_event]. *)
Definition xtcpd_send_event (link : Z) (ev : xtcp_event_type_t) (p : connptr) s : S :=
  let s := upd_xconn p (fun c => c <| event := ev |>) s in
  say (OutEvent link ev (id (xconn (app_at p s)))) s.

Definition xtcpd_event (ev : xtcp_event_type_t) (p : connptr) s : S :=
  if negb (linknum (app_at p s) =? NO_LINK) then
    let s := xtcpd_service_clients_until_ready s in
    xtcpd_send_event (linknum (app_at p s)) ev p s
  else s.

(** [xtcpd_recv]: the event is repeated until the client is ready for the
    [len] bytes at [data], the other requests being served in between. *)
Fixpoint recv_loop (replies : list bool) (link : Z) (p : connptr) (data len : Z) s : S :=
  let s := xtcpd_send_event link XTCP_RECV_DATA p s in
  match replies with
  | false :: later =>
      let s := upd_env (fun e => e <| ready := later |>) s in
      recv_loop later link p data len (xtcpd_service_clients_until_ready s)
  | _ =>
      let s := upd_env (fun e => e <| ready ::= tail |>) s in
      say (OutRecv link (id (xconn (app_at p s))) (rds (uip_buf s) data (Z.to_nat len))) s
  end.
Definition xtcpd_recv (link : Z) (p : connptr) (data len : Z) s : S :=
  recv_loop (ready (env s)) link p data len s.

(** The bytes of an answer are stored one by one as they arrive, however many
    the client sends. *)
Definition store_answer (data : Z) (a : list Z) s : S :=
  let s := mem (wrs data a) s in
  if UIP_BUF_BYTES <? data + Z.of_nat (length a) then set_fault s else s.

(** [xtcpd_send]: the client's answer is stored at [data]; its length. *)
Definition xtcpd_send (link : Z) (ev : xtcp_event_type_t) (p : connptr) (data mss : Z) s : S * Z :=
  let s := upd_xconn p (fun c => (c <| event := ev |>) <| conn_mss := mss |>) s in
  let s := say (OutEvent link ev (id (xconn (app_at p s)))) s in
  match answers (env s) with
  | [] => (s, 0)
  | a :: later =>
      (store_answer data a (upd_env (fun e => e <| answers := later |>) s), Z.of_nat (length a))
  end.

Definition uip_udpconnection s : bool := match uip_conn s with None => true | Some _ => false end.
Definition cur_mss s : Z :=
  match uip_conn s with None => XTCP_CLIENT_BUF_SIZE | Some i => mss (conn_at i s) end.

Definition do_xtcpd_send (link : Z) (ev : xtcp_event_type_t) (p : connptr) (data mss : Z) s : S * Z :=
  let s := xtcpd_service_clients_until_ready s in
  xtcpd_send link ev p data mss s.

(** [uip_udp_conn->lport = 0] followed by the event. *)
Definition close_udp (p : connptr) s : S :=
  let s := upd_cur_udp_conn (fun c => c <| udp_lport := 0 |>) s in
  xtcpd_event XTCP_CLOSED p s.

Definition udp_ptr s : connptr := match uip_udp_conn s with Some j => CPudp j | None => CPnull end.

Definition uip_xtcpd_handle_poll (p : connptr) s : S :=
  let s :=
    if negb (ack_request (xs (app_at p s)) =? 0) then
      let s := s <| uip_flags ::= fun f => Z.lor f UIP_NEWDATA |> in
      let s := s <| uip_slen := 0 |> in
      upd_xs p (fun x => x <| ack_request := 0 |>) s
    else s in
  let x := xs (app_at p s) in
  if negb (abort_request x =? 0) then
    let s := if uip_udpconnection s then close_udp p s else s <| uip_flags := UIP_ABORT |> in
    upd_xs p (fun x => x <| abort_request := 0 |>) s
  else if negb (close_request x =? 0) then
    let s := if uip_udpconnection s then close_udp p s else s <| uip_flags := UIP_CLOSE |> in
    upd_xs p (fun x => x <| close_request := 0 |>) s
  else if negb (connect_request x =? 0) then
    if uip_udpconnection s then
      let c := cur_udp_conn s in
      let s := xtcpd_init_state p XTCP_PROTOCOL_UDP (udp_ripaddr c) (udp_lport c) (udp_rport c) (udp_ptr s) s in
      let s := xtcpd_event XTCP_NEW_CONNECTION p s in
      upd_xs p (fun x => x <| connect_request := 0 |>) s
    else s
  else if negb (send_request x =? 0) then
    let s :=
      if negb (linknum (app_at p s) =? NO_LINK) then
        let '(s, len) := do_xtcpd_send (linknum (app_at p s)) XTCP_REQUEST_DATA p (uip_appdata s) (cur_mss s) s in
        uip_send (uip_appdata s) len s
      else s in
    upd_xs p (fun x => x <| send_request ::= fun n => s32 (n - 1) |>) s
  else if negb (poll_interval x =? 0) && timer_expired (now (env s)) (tmr x) then
    let s := xtcpd_event XTCP_POLL p s in
    upd_xs p (fun x => x <| tmr ::= timer_set (now (env s)) (poll_interval x) |>) s
  else s.

(** ** The application of the stack *)

Definition flag s (f : Z) : bool := tst (uip_flags s) f.

(** A new connection is given its identifier and announced. *)
Definition appcall_connected (p : connptr) s : S :=
  if flag s UIP_CONNECTED then
    let s :=
      match uip_conn s with
      | Some i =>
          let c := conn_at i s in
          xtcpd_init_state p XTCP_PROTOCOL_TCP (ripaddr c) (lport c) (rport c) (CPtcp i) s
      | None =>
          let c := cur_udp_conn s in
          xtcpd_init_state p XTCP_PROTOCOL_UDP (udp_ripaddr c) (udp_lport c) (udp_rport c) (udp_ptr s) s
      end in
    xtcpd_event XTCP_NEW_CONNECTION p s
  else s.

(** [if (uip_newdata() && uip_len > 0)]. *)
Definition appcall_newdata (p : connptr) s : S :=
  if negb (linknum (app_at p s) =? NO_LINK) then
    let s := xtcpd_service_clients_until_ready s in
    let s := xtcpd_recv (linknum (app_at p s)) p (uip_appdata s) (uip_len s) s in
    match uip_conn s with
    | Some i =>
        if negb (ack_recv_mode (xs (app_at p s)) =? 0)
        then upd_conn i (fun c => c <| tcpstateflags ::= fun f => Z.lor f UIP_STOPPED |>) s else s
    | None => s
    end
  else s.

Definition appcall_acked (p : connptr) s : S :=
  if flag s UIP_ACKDATA && negb (linknum (app_at p s) =? NO_LINK) then
    let '(s, len) := do_xtcpd_send (linknum (app_at p s)) XTCP_SENT_DATA p (uip_appdata s) (cur_mss s) s in
    uip_send (uip_appdata s) len s
  else s.

Definition appcall_rexmit (p : connptr) s : S :=
  if flag s UIP_REXMIT && negb (linknum (app_at p s) =? NO_LINK) then
    let s := xtcpd_service_clients_until_ready s in
    let '(s, len) := xtcpd_send (linknum (app_at p s)) XTCP_RESEND_DATA p (uip_appdata s) (cur_mss s) s in
    if negb (len =? 0) then uip_send (uip_appdata s) len s else s
  else s.

Definition appcall_closed (p : connptr) s : S :=
  if flag s UIP_CLOSE then
    if closed (xs (app_at p s)) =? 0 then
      let s := upd_xs p (fun x => x <| closed := 1 |>) s in
      xtcpd_event XTCP_CLOSED p s
    else s
  else s.

Context (dhcpc_appcall : S -> S).

Definition xtcpd_appcall s : S :=
  if uip_udpconnection s &&
     ((udp_lport (cur_udp_conn s) =? HTONS DHCPC_CLIENT_PORT) || (udp_lport (cur_udp_conn s) =? HTONS DHCPC_SERVER_PORT))
  then dhcpc_appcall s
  else
    let p := match uip_conn s with Some i => CPtcp i | None => udp_ptr s end in
    let s :=
      if uip_udpconnection s && flag s UIP_NEWDATA then
        let s := upd_xconn p (fun c => c <| remote_port := HTONS (rd16 (uip_buf s) BUF.srcport) |>) s in
        upd_xconn p (fun c => c <| remote_addr := rd4 (uip_buf s) BUF.srcipaddr |>) s
      else s in
    let s := appcall_connected p s in
    if negb (flag s UIP_NEWDATA && (0 <? uip_len s)) && flag s UIP_ABORT then xtcpd_event XTCP_ABORTED p s
    else if negb (flag s UIP_NEWDATA && (0 <? uip_len s)) && flag s UIP_TIMEDOUT then xtcpd_event XTCP_TIMED_OUT p s
    else
      let s := if flag s UIP_NEWDATA && (0 <? uip_len s) then appcall_newdata p s else s in
      let s := appcall_acked p s in
      let s := appcall_rexmit p s in
      let s := if flag s UIP_POLL then uip_xtcpd_handle_poll p s else s in
      appcall_closed p s.
End xtcp.

(** ** The interface state *)

Section ifstate.
Context {F : Type}.
Implicit Types e : xtcp_env F.

(** An event that is queued replaces one that the client has not taken yet. *)
Definition queue_event (linknum : nat) (ev : xtcp_event_type_t) e : xtcp_env F :=
  e <| pending_event ::= <[linknum := Some ev]> |>.
Definition uip_xtcpd_send_config (linknum : nat) e : xtcp_env F :=
  if negb (uip_ifstate e =? 0) then queue_event linknum XTCP_IFUP e else queue_event linknum XTCP_IFDOWN e.

(** The loop over the clients, from client [i], [n] to go. *)
Fixpoint checkstate_from (n i : nat) e : xtcp_env F :=
  match n with
  | O => e
  | S n =>
      let e :=
        if negb (uip_ifstate e =? prev_ifstate e !!! i) then
          (uip_xtcpd_send_config i e) <| prev_ifstate ::= <[i := uip_ifstate e]> |>
        else e in
      checkstate_from n (S i) e
  end.
Definition uip_xtcp_checkstate e : xtcp_env F := checkstate_from (xtcp_num e) 0 e.
Definition uip_xtcp_up e : xtcp_env F := e <| uip_ifstate := 1 |>.
Definition uip_xtcp_down e : xtcp_env F := e <| uip_ifstate := 0 |>.
Definition get_uip_xtcp_ifstate e : Z := uip_ifstate e.
Definition xtcpd_init (n : nat) e : xtcp_env F :=
  ((e <| xtcp_num := n |>) <| prev_ifstate := replicate MAX_XTCP_CLIENTS (-1) |>)
    <| pending_event := replicate MAX_XTCP_CLIENTS None |>.
End ifstate.
