(* ===== verification/XtcpSafety.v ===== *)
(** * The xtcp server keeps the stack well-formed, and its identifiers apart

    Whatever the clients ask for and answer, the callback of the stack
    preserves [uip_wf]; the identifiers it gives to connections are in range and
    distinct; and it changes the state of a connection only by opening one on a
    free block. *)
From stdpp Require Import relations.
From S2P Require Export Xtcp UipTcp.
Local Open Scope Z_scope.

Section safety.
Context {F : Type}.
Notation S := (uip_state (xtcp_env F)).
Implicit Types s : S.

Lemma upd_env_wf f s : uip_wf s -> uip_wf (upd_env f s).
Proof. apply wf_set_env. Qed.
Lemma set_fault_wf s : uip_wf s -> uip_wf (set_fault s).
Proof. apply upd_env_wf. Qed.
Lemma say_wf o s : uip_wf s -> uip_wf (say o s).
Proof. apply upd_env_wf. Qed.
Lemma upd_app_wf p f s : uip_wf s -> uip_wf (upd_app p f s).
Proof.
  intros Hs. destruct p as [|i|i]; [by apply set_fault_wf|..]; unfold upd_app.
  - apply wf_upd_conn; [done|]. intros []; constructor; ssimpl; auto.
  - apply wf_upd_udp_conn; [done|]. intros []; constructor; ssimpl; auto.
Qed.
Lemma upd_xs_wf p f s : uip_wf s -> uip_wf (upd_xs p f s).
Proof. apply upd_app_wf. Qed.
Lemma upd_xconn_wf p f s : uip_wf s -> uip_wf (upd_xconn p f s).
Proof. apply upd_app_wf. Qed.
Lemma upd_tcp_block_wf p f s : (forall c, conn_wf c -> conn_wf (f c)) -> uip_wf s -> uip_wf (upd_tcp_block p f s).
Proof. intros Hf Hs. destruct p; try by apply set_fault_wf. apply wf_upd_conn; auto. Qed.
Lemma upd_udp_block_wf p f s : (forall c, udp_conn_wf c -> udp_conn_wf (f c)) ->
  uip_wf s -> uip_wf (upd_udp_block p f s).
Proof. intros Hf Hs. destruct p; try by apply set_fault_wf. apply wf_upd_udp_conn; auto. Qed.
Lemma with_conn_wf conn_id f s : (forall p s, uip_wf s -> uip_wf (f p s)) -> uip_wf s -> uip_wf (with_conn conn_id f s).
Proof. intros Hf Hs. unfold with_conn. case_match; auto. Qed.
Lemma restart_block_wf c : conn_wf c -> conn_wf (restart_block c).
Proof. unfold restart_block. conn_field. Qed.
Lemma stop_block_wf c : conn_wf c -> conn_wf (c <| tcpstateflags ::= fun f => Z.lor f UIP_STOPPED |>).
Proof. conn_field. apply lor_u8; [done|const_range]. Qed.

End safety.

(** One step back through a sequence of the operations of [uip_xtcp.c]. *)
Ltac xwf_step :=
  lazymatch goal with
  | |- uip_wf (upd_env _ _) => apply upd_env_wf
  | |- uip_wf (set_fault _) => apply set_fault_wf
  | |- uip_wf (say _ _) => apply say_wf
  | |- uip_wf (upd_app _ _ _) => apply upd_app_wf
  | |- uip_wf (upd_xs _ _ _) => apply upd_xs_wf
  | |- uip_wf (upd_xconn _ _ _) => apply upd_xconn_wf
  | |- uip_wf (upd_tcp_block _ restart_block _) => apply upd_tcp_block_wf; [exact restart_block_wf|]
  | |- uip_wf (upd_tcp_block _ _ _) => apply upd_tcp_block_wf; [first [exact stop_block_wf | solve [conn_field]]|]
  | |- uip_wf (upd_udp_block _ _ _) => apply upd_udp_block_wf; [solve [conn_field]|]
  | |- uip_wf (with_conn _ _ _) => apply with_conn_wf; [intros|]
  | |- uip_wf (uip_send _ _ _) => apply uip_send_wf
  | |- uip_wf (uip_listen _ _) => apply uip_listen_wf; [apply HTONS_u16|]
  | |- uip_wf (uip_udp_listen _ _) => apply uip_udp_listen_wf; [apply HTONS_u16|]
  | |- uip_wf (uip_unlisten _ _) => apply uip_unlisten_wf
  | |- uip_wf (let _ := _ in _) => cbv zeta
  | |- uip_wf (if _ then _ else _) => case_match
  | |- uip_wf (match _ with _ => _ end) => case_match
  | _ => wf_step
  end.
Ltac xwf := repeat xwf_step.

Section operations.
Context {F : Type}.
Notation S := (uip_state (xtcp_env F)).
Implicit Types s : S.

Lemma xtcpd_init_state_wf p proto remote lp rp conn s :
  uip_wf s -> uip_wf (xtcpd_init_state p proto remote lp rp conn s).
Proof. intros Hs. unfold xtcpd_init_state. case_match. xwf. Qed.

Lemma connecting_wf l p s : uip_wf s -> uip_wf (connecting l p s).
Proof. intros Hs. unfold connecting. xwf. Qed.

Lemma xtcpd_connect_wf l port addr p s : uip_wf s -> uip_wf (xtcpd_connect l port addr p s).
Proof.
  intros Hs. unfold xtcpd_connect. cbv zeta. set (a := uip_ipaddr _ _ _ _).
  assert (u8x4_ok a) as Ha by apply of_words_ok.
  destruct p.
  - destruct (uip_connect a (HTONS port) s) as [[s1 r]|] eqn:Hc; [|xwf].
    assert (uip_wf s1) by (eapply uip_connect_wf; eauto using HTONS_u16).
    destruct r; [by apply connecting_wf|done].
  - destruct (uip_udp_new (Some a) (HTONS port) s) as [[s1 r]|] eqn:Hc; [|xwf].
    assert (uip_wf s1) by (eapply uip_udp_new_wf; eauto using HTONS_u16).
    destruct r; [by apply connecting_wf|done].
Qed.

Lemma handle_xtcp_cmd_wf i cmd s : uip_wf s -> uip_wf (handle_xtcp_cmd i cmd s).
Proof.
  intros Hs. destruct cmd; cbn [handle_xtcp_cmd];
    unfold xtcpd_listen, xtcpd_unlisten, xtcpd_bind_local, xtcpd_bind_remote, xtcpd_init_send,
      xtcpd_set_appstate, xtcpd_abort, xtcpd_close, xtcpd_set_poll_interval, xtcpd_ack_recv,
      xtcpd_ack_recv_mode, xtcpd_pause, xtcpd_unpause, xtcpd_join_group, xtcpd_leave_group, xtcpd_get_ipconfig;
    try by apply xtcpd_connect_wf.
  all: try solve [xwf].
Qed.

Lemma serve_act_wf a s : uip_wf s -> uip_wf (serve_act s a).
Proof. intros Hs. destruct a; cbn [serve_act]; [by apply handle_xtcp_cmd_wf|by apply upd_env_wf]. Qed.
Lemma serve_wf l : forall s, uip_wf s -> uip_wf (serve l s).
Proof. induction l as [|a l IH]; intros s Hs; [done|]. by apply IH, serve_act_wf. Qed.
Lemma service_wf s : uip_wf s -> uip_wf (xtcpd_service_clients_until_ready s).
Proof. intros Hs. unfold xtcpd_service_clients_until_ready. case_match; [done|]. by apply serve_wf, upd_env_wf. Qed.

Lemma xtcpd_send_event_wf link ev p s : uip_wf s -> uip_wf (xtcpd_send_event link ev p s).
Proof. intros Hs. unfold xtcpd_send_event. xwf. Qed.
Lemma xtcpd_event_wf ev p s : uip_wf s -> uip_wf (xtcpd_event ev p s).
Proof. intros Hs. unfold xtcpd_event. case_match; [|done]. by apply xtcpd_send_event_wf, service_wf. Qed.
Lemma recv_loop_wf replies link p data len : forall s, uip_wf s -> uip_wf (recv_loop replies link p data len s).
Proof.
  induction replies as [|[] replies IH]; intros s Hs; cbn [recv_loop]; cbv zeta.
  - apply say_wf, upd_env_wf. by apply xtcpd_send_event_wf.
  - apply say_wf, upd_env_wf. by apply xtcpd_send_event_wf.
  - apply IH, service_wf, upd_env_wf. by apply xtcpd_send_event_wf.
Qed.
Lemma xtcpd_send_wf link ev p data m s : uip_wf s -> uip_wf (xtcpd_send link ev p data m s).1.
Proof.
  intros Hs. unfold xtcpd_send, store_answer. cbv zeta. case_match; cbn [fst]; [xwf|].
  match goal with |- context [mem ?f ?t] => assert (uip_wf (mem f t)) end.
  { apply wf_mem; [xwf|intros; auto with mem|intros; apply length_wrs]. }
  case_match; [by apply set_fault_wf|done].
Qed.
Lemma do_xtcpd_send_wf link ev p data m s : uip_wf s -> uip_wf (do_xtcpd_send link ev p data m s).1.
Proof. intros Hs. by apply xtcpd_send_wf, service_wf. Qed.
Lemma close_udp_wf p s : uip_wf s -> uip_wf (close_udp p s).
Proof.
  intros Hs. apply xtcpd_event_wf. unfold upd_cur_udp_conn. case_match; [|done].
  apply wf_upd_udp_conn; [done|]. conn_field.
Qed.
Lemma handle_poll_wf p s : uip_wf s -> uip_wf (uip_xtcpd_handle_poll p s).
Proof.
  intros Hs. unfold uip_xtcpd_handle_poll. cbv zeta.
  set (s1 := if negb (ack_request _ =? 0) then _ else s).
  assert (uip_wf s1) as H1 by (unfold s1; xwf). clearbody s1. clear s Hs.
  case_match; [apply upd_xs_wf; case_match; [by apply close_udp_wf|xwf]|].
  case_match; [apply upd_xs_wf; case_match; [by apply close_udp_wf|xwf]|].
  case_match; [case_match; [|done]; apply upd_xs_wf, xtcpd_event_wf; by apply xtcpd_init_state_wf|].
  case_match.
  - apply upd_xs_wf. case_match; [|done].
    match goal with |- context [do_xtcpd_send ?l ?e ?q ?d ?m ?t] =>
      pose proof (do_xtcpd_send_wf l e q d m t H1); destruct (do_xtcpd_send l e q d m t) end.
    by apply uip_send_wf.
  - case_match; [|done]. by apply upd_xs_wf, xtcpd_event_wf.
Qed.
End operations.

(** ** Identifiers *)

Section ids.
Context {F : Type}.
Notation S := (uip_state (xtcp_env F)).
Implicit Types s : S.

Definition id_of (a : xtcpd_state_t) : Z := id (xconn a).
(** The identifiers of the connection table, TCP before UDP. *)
Definition ids s : list Z :=
  map (fun c => id_of (appstate c)) (uip_conns s) ++ map (fun c => id_of (udp_appstate c)) (uip_udp_conns s).
(** The pointer is to a block of its table, and the place of this block in [ids]. *)
Definition in_table (p : connptr) : Prop :=
  match p with CPtcp i => (i < UIP_CONNS)%nat | CPudp i => (i < UIP_UDP_CONNS)%nat | CPnull => False end.
#[export] Instance in_table_dec p : Decision (in_table p).
Proof. destruct p; unfold in_table; apply _. Defined.
Definition place (p : connptr) : nat :=
  match p with CPtcp i => i | CPudp i => UIP_CONNS + i | CPnull => 0 end.

(** Identifiers are in range, and distinct where they are in use. *)
Definition ids_distinct (l : list Z) : Prop :=
  Forall (fun x => 0 <= x <= MAX_GUID) l /\
  forall i j x, l !! i = Some x -> l !! j = Some x -> x <> 0 -> i = j.
Record ids_ok s : Prop := {
  ids_guid : 1 <= guid (env s) <= MAX_GUID;
  ids_apart : ids_distinct (ids s) }.

Lemma ids_lookup s p : uip_wf s -> in_table p -> ids s !! place p = Some (id_of (app_at p s)).
Proof.
  intros Hs Hp. unfold ids. destruct p as [|i|i]; [done|..]; cbn [place in_table app_at] in *.
  - rewrite lookup_app_l by by rewrite length_map, (wf_conns_len s Hs).
    rewrite list_lookup_fmap. unfold conn_at. rewrite list_lookup_total_alt.
    destruct (lookup_lt_is_Some_2 (uip_conns s) i) as [c ->]; [by rewrite (wf_conns_len s Hs)|done].
  - rewrite lookup_app_r by (rewrite length_map, (wf_conns_len s Hs); lia).
    rewrite length_map, (wf_conns_len s Hs). replace (UIP_CONNS + i - UIP_CONNS)%nat with i by lia.
    rewrite list_lookup_fmap. unfold udp_conn_at. rewrite list_lookup_total_alt.
    destruct (lookup_lt_is_Some_2 (uip_udp_conns s) i) as [c ->]; [by rewrite (wf_udp_conns_len s Hs)|done].
Qed.

Lemma length_ids s : uip_wf s -> length (ids s) = (UIP_CONNS + UIP_UDP_CONNS)%nat.
Proof.
  intros Hs. unfold ids. by rewrite length_app, !length_map, (wf_conns_len s Hs), (wf_udp_conns_len s Hs).
Qed.

Lemma ids_elem s x : uip_wf s -> x ∈ ids s -> exists p, in_table p /\ id_of (app_at p s) = x.
Proof.
  intros Hs [k Hk]%list_elem_of_lookup. pose proof (lookup_lt_Some _ _ _ Hk) as Hl.
  rewrite length_ids in Hl by done.
  destruct (decide (k < UIP_CONNS)%nat) as [H|H].
  - exists (CPtcp k). split; [done|]. pose proof (ids_lookup s (CPtcp k) Hs H) as E. cbn [place] in E. congruence.
  - exists (CPudp (k - UIP_CONNS)). assert (in_table (CPudp (k - UIP_CONNS))) as Hi by (cbn; lia).
    split; [done|]. pose proof (ids_lookup s _ Hs Hi) as E. cbn [place] in E.
    replace (UIP_CONNS + (k - UIP_CONNS))%nat with k in E by lia. congruence.
Qed.

Lemma place_inj p q : in_table p -> in_table q -> place p = place q -> p = q.
Proof. destruct p, q; cbn [in_table place]; intros; try done; try (f_equal; lia); exfalso; lia. Qed.

(** [lookup_xtcpd_state] finds a block with the identifier, if there is one. *)
Lemma lookup_from_spec n x s : forall i,
  match lookup_from n i x s with
  | CPnull => forall p, in_table p -> (match p with CPtcp j => i <= j < i + n | CPudp j => i <= j < i + n | CPnull => False end)%nat ->
      id_of (app_at p s) <> x
  | p => in_table p /\ id_of (app_at p s) = x
  end.
Proof.
  induction n as [|n IH]; intros i; cbn [lookup_from].
  - intros [|j|j] _ H; try lia.
  - destruct ((i <? UIP_CONNS)%nat && _) eqn:E1.
    { apply andb_true_iff in E1 as [? ?]. split; [cbn; by apply Nat.ltb_lt|by apply Z.eqb_eq]. }
    destruct ((i <? UIP_UDP_CONNS)%nat && _) eqn:E2.
    { apply andb_true_iff in E2 as [? ?]. split; [cbn; by apply Nat.ltb_lt|by apply Z.eqb_eq]. }
    specialize (IH (Datatypes.S i)). destruct (lookup_from n (Datatypes.S i) x s); [|exact IH..].
    intros p Hp Hr Heq. unfold id_of in Heq. destruct p as [|j|j]; [done|..]; cbn [in_table] in Hp.
    + destruct (decide (j = i)) as [->|]; [|apply (IH (CPtcp j)); try done; lia].
      rewrite Heq, Z.eqb_refl, andb_true_r in E1. apply Nat.ltb_ge in E1. lia.
    + destruct (decide (j = i)) as [->|]; [|apply (IH (CPudp j)); try done; lia].
      rewrite Heq, Z.eqb_refl, andb_true_r in E2. apply Nat.ltb_ge in E2. lia.
Qed.

Lemma lookup_null s x : uip_wf s -> lookup_xtcpd_state x s = CPnull <-> x ∉ ids s.
Proof.
  intros Hs. unfold lookup_xtcpd_state. pose proof (lookup_from_spec (Nat.max UIP_CONNS UIP_UDP_CONNS) x s 0) as H.
  destruct (lookup_from _ 0 x s) as [|i|i] eqn:E.
  - split; [|done]. intros _ (p & Hp & Hx)%ids_elem; [|done]. apply (H p Hp); [|done].
    destruct p as [|j|j]; [done|..]; cbn [in_table] in Hp; lia.
  - split; [done|]. destruct H as [Hp <-]. intros []. eapply list_elem_of_lookup_2. by apply ids_lookup.
  - split; [done|]. destruct H as [Hp <-]. intros []. eapply list_elem_of_lookup_2. by apply ids_lookup.
Qed.

Lemma map_alter_same {A B} (g : A -> B) (f : A -> A) i l : (forall a, g (f a) = g a) -> map g (alter f i l) = map g l.
Proof.
  intros H. apply list_eq. intros k. rewrite !list_lookup_fmap, list_lookup_alter.
  case_decide; [|done]. subst. destruct (l !! k); cbn; [by rewrite H|done].
Qed.
Lemma map_alter_set {A B} (g : A -> B) (f : A -> A) i l x : (forall a, g (f a) = x) ->
  map g (alter f i l) = <[i := x]> (map g l).
Proof.
  intros H. apply list_eq. intros k. rewrite list_lookup_fmap, list_lookup_alter.
  case_decide.
  - subst. destruct (l !! k) eqn:E; cbn.
    + rewrite list_lookup_insert_eq, H; [done|]. rewrite length_map. by eapply lookup_lt_Some.
    + symmetry. apply lookup_ge_None_2. rewrite length_insert, length_map. by apply lookup_ge_None_1.
  - by rewrite list_lookup_insert_ne, list_lookup_fmap.
Qed.
Lemma alter_out {A} (f : A -> A) i l : (length l <= i)%nat -> alter f i l = l.
Proof.
  intros H. apply list_eq. intros k. rewrite list_lookup_alter. case_decide; [|done].
  subst. by rewrite lookup_ge_None_2.
Qed.

Lemma ids_upd_env f s : ids (upd_env f s) = ids s.
Proof. done. Qed.
Lemma ids_upd_app p f s : (forall a, id_of (f a) = id_of a) -> ids (upd_app p f s) = ids s.
Proof.
  intros H. destruct p as [|i|i]; [done|..]; unfold ids, upd_app; ssimpl.
  - rewrite map_alter_same; [done|]. intros c. apply H.
  - rewrite (map_alter_same (fun c => id_of (udp_appstate c))); [done|]. intros c. apply H.
Qed.
Lemma ids_upd_app_set p f s x : uip_wf s -> in_table p -> (forall a, id_of (f a) = x) ->
  ids (upd_app p f s) = <[place p := x]> (ids s).
Proof.
  intros Hs Hp H. destruct p as [|i|i]; [done|..]; unfold ids, upd_app; ssimpl; cbn [place in_table] in *.
  - rewrite (map_alter_set (fun c => id_of (appstate c)) _ _ _ x) by (intros c; apply H).
    rewrite insert_app_l by by rewrite length_map, (wf_conns_len s Hs). done.
  - rewrite (map_alter_set (fun c => id_of (udp_appstate c)) _ _ _ x) by (intros c; apply H).
    rewrite insert_app_r_alt by (rewrite length_map, (wf_conns_len s Hs); lia).
    rewrite length_map, (wf_conns_len s Hs). by replace (UIP_CONNS + i - UIP_CONNS)%nat with i by lia.
Qed.
(** A null pointer, or one past the end of the UDP table. *)
Lemma ids_upd_app_out p f s : uip_wf s -> ~ in_table p -> ids (upd_app p f s) = ids s.
Proof.
  intros Hs Hp. destruct p as [|i|i]; [done|..]; unfold ids, upd_app; ssimpl; cbn [in_table] in Hp.
  - by rewrite alter_out by (rewrite (wf_conns_len s Hs); lia).
  - by rewrite alter_out by (rewrite (wf_udp_conns_len s Hs); lia).
Qed.

(** *** The search for an unused identifier *)

Definition next_guid (g : Z) : Z := if MAX_GUID <? g + 1 then 1 else g + 1.
Definition guid_after (g : Z) (k : nat) : Z := (g - 1 + Z.of_nat k) mod MAX_GUID + 1.

Lemma next_guid_after g k : next_guid (guid_after g k) = guid_after g (Datatypes.S k).
Proof.
  unfold next_guid, guid_after, MAX_GUID. replace (g - 1 + Z.of_nat (Datatypes.S k)) with (g - 1 + Z.of_nat k + 1) by lia.
  generalize (g - 1 + Z.of_nat k). intros z. case_match; zdm.
Qed.
Lemma guid_after_range g k : 1 <= guid_after g k <= MAX_GUID.
Proof. unfold guid_after, MAX_GUID. zdm. Qed.
Lemma guid_after_0 g : 1 <= g <= MAX_GUID -> guid_after g 0 = g.
Proof. unfold guid_after, MAX_GUID. intros. rewrite Z.mod_small; lia. Qed.
Lemma guid_after_inj g j k : (j < 200)%nat -> (k < 200)%nat -> guid_after g j = guid_after g k -> j = k.
Proof. unfold guid_after, MAX_GUID. intros. zdm. Qed.

Lemma find_guid_after s n : uip_wf s -> forall k g,
  match find_guid n s (guid_after g k) with
  | Some x => x ∉ ids s /\ 1 <= x <= MAX_GUID
  | None => forall j, (k <= j <= k + n)%nat -> guid_after g j ∈ ids s
  end.
Proof.
  intros Hs. induction n as [|n IH]; intros k g; cbn [find_guid];
    pose proof (lookup_null s (guid_after g k) Hs) as Hl;
    (destruct (lookup_xtcpd_state (guid_after g k) s) eqn:E;
      [split; [by apply Hl|apply guid_after_range]|..]);
    assert (guid_after g k ∈ ids s) as Hin by (destruct (decide (guid_after g k ∈ ids s)) as [?|?%Hl]; done).
  1,2: intros j Hj; by replace j with k by lia.
  all: fold (next_guid (guid_after g k)); rewrite next_guid_after; specialize (IH (Datatypes.S k) g);
    destruct (find_guid n s (guid_after g (Datatypes.S k))); [done|];
    intros j Hj; (destruct (decide (j = k)) as [->|]; [done|apply IH; lia]).
Qed.

(** There are more identifiers than connections. *)
Lemma find_guid_total s g : uip_wf s -> 1 <= g <= MAX_GUID ->
  exists x, find_guid (UIP_CONNS + UIP_UDP_CONNS) s g = Some x /\ x ∉ ids s /\ 1 <= x <= MAX_GUID.
Proof.
  intros Hs Hg. pose proof (find_guid_after s (UIP_CONNS + UIP_UDP_CONNS) Hs 0 g) as H.
  rewrite guid_after_0 in H by done.
  destruct (find_guid _ s g) as [x|]; [by exists x|]. exfalso.
  set (l := map (guid_after g) (seq 0 21)).
  assert (NoDup l) as Hl.
  { apply NoDup_fmap_2_strong; [|apply NoDup_seq]. intros j k Hj%elem_of_seq Hk%elem_of_seq.
    apply guid_after_inj; lia. }
  assert (l ⊆+ ids s) as Hsub.
  { apply NoDup_submseteq; [done|]. intros x (j & -> & Hj%elem_of_seq)%list_elem_of_fmap.
    apply H. unfold UIP_CONNS, UIP_UDP_CONNS. lia. }
  apply submseteq_length in Hsub. rewrite length_ids in Hsub by done.
  unfold l in Hsub. rewrite length_map, length_seq in Hsub. unfold UIP_CONNS, UIP_UDP_CONNS in Hsub. lia.
Qed.

(** *** A new connection *)

Lemma app_at_upd_eq p f s : uip_wf s -> in_table p -> app_at p (upd_app p f s) = f (app_at p s).
Proof.
  intros Hs Hp. destruct p as [|i|i]; [done|..]; cbn [in_table] in Hp; unfold upd_app, app_at.
  - rewrite conn_at_upd_eq by by rewrite (wf_conns_len s Hs). done.
  - unfold udp_conn_at. ssimpl. rewrite !list_lookup_total_alt, list_lookup_alter_eq.
    destruct (lookup_lt_is_Some_2 (uip_udp_conns s) i) as [c ->]; [by rewrite (wf_udp_conns_len s Hs)|done].
Qed.
Lemma app_at_upd_ne p q f s : p <> q -> app_at q (upd_app p f s) = app_at q s.
Proof.
  intros Hp. destruct p as [|i|i], q as [|j|j]; try done; unfold upd_app, app_at.
  - rewrite conn_at_upd_ne; [done|congruence].
  - unfold udp_conn_at. ssimpl. rewrite !list_lookup_total_alt, list_lookup_alter_ne; [done|congruence].
Qed.
Lemma env_upd_app p f s : in_table p -> env (upd_app p f s) = env s.
Proof. by destruct p. Qed.

Lemma guid_upd_app p f s : guid (env (upd_app p f s)) = guid (env s).
Proof. by destruct p. Qed.

(** The link and the kind of a connection about to be initialised: those the
    client gave it, else those of the listener of its port. *)
Definition owner (p : connptr) (proto : xtcp_protocol_t) (lp : Z) s : Z * xtcp_connection_type_t :=
  if connect_request (xs (app_at p s)) =? 0
  then (get_listener_linknum (match proto with XTCP_PROTOCOL_TCP => tcp_listeners | XTCP_PROTOCOL_UDP => udp_listeners end
          (env s)) lp, XTCP_SERVER_CONNECTION)
  else (linknum (app_at p s), connection_type (xconn (app_at p s))).

Lemma init_state_eq p proto remote lp rp conn s : uip_wf s -> in_table p -> 1 <= guid (env s) <= MAX_GUID ->
  exists g, g ∉ <[place p := 0]> (ids s) /\ 1 <= g <= MAX_GUID /\
  let s' := xtcpd_init_state p proto remote lp rp conn s in
  app_at p s' = XtcpdState (owner p proto lp s).1
      (XtcpConnection g proto (owner p proto lp s).2 XTCP_NEW_CONNECTION 0 remote (HTONS rp) (HTONS lp) 0)
      ((xs zero_xtcpd_state) <| s_uip_conn := conn |>) /\
  env s' = (env s) <| guid := g |> /\ ids s' = <[place p := g]> (ids s) /\
  (forall q, q <> p -> app_at q s' = app_at q s).
Proof.
  intros Hs Hp Hg. set (s1 := upd_app p (fun _ => zero_xtcpd_state) s).
  assert (uip_wf s1) as H1 by by apply upd_app_wf.
  assert (ids s1 = <[place p := 0]> (ids s)) as Hi1 by by apply ids_upd_app_set.
  assert (env s1 = env s) as He1 by by apply env_upd_app.
  destruct (find_guid_total s1 (guid (env s1)) H1) as (g & Hf & Hn & Hr); [by rewrite He1|].
  exists g. rewrite Hi1 in Hn. split; [done|]. split; [done|]. cbv zeta.
  unfold xtcpd_init_state. cbv zeta. fold s1. rewrite Hf.
  rewrite (surjective_pairing (if negb _ then _ else _)).
  replace (if negb (connect_request (xs (app_at p s)) =? 0) then _ else _) with (owner p proto lp s)
    by (unfold owner; destruct (connect_request _ =? 0), proto; reflexivity).
  unfold upd_xconn, upd_xs.
  assert (forall f (t : S), uip_wf t -> uip_wf (upd_app p f t)) as Hw by (intros; by apply upd_app_wf).
  assert (uip_wf (upd_env (fun e => e <| guid := g |>) s1)) as H2 by by apply upd_env_wf.
  assert (app_at p s1 = zero_xtcpd_state) as Ha1 by by apply (app_at_upd_eq p (fun _ => zero_xtcpd_state)).
  split; [|split; [|split]].
  - unfold upd_xconn, upd_xs. rewrite !app_at_upd_eq by auto 10.
    assert (app_at p (upd_env (fun e => e <| guid := g |>) s1) = app_at p s1) as -> by by destruct p.
    by rewrite Ha1.
  - unfold upd_xconn, upd_xs. rewrite !env_upd_app by done. unfold upd_env. ssimpl. by rewrite He1.
  - unfold upd_xconn, upd_xs. do 5 (rewrite ids_upd_app by done).
    rewrite (ids_upd_app_set _ _ _ g) by auto 10. do 2 (rewrite ids_upd_app by done).
    rewrite ids_upd_env, Hi1. by rewrite list_insert_insert_eq.
  - intros q Hq. unfold upd_xconn, upd_xs. rewrite !app_at_upd_ne by done.
    trans (app_at q s1); [by destruct q|]. by apply app_at_upd_ne.
Qed.

(** C10: a new connection gets an identifier of its own.  The search for it ends
    (no fault); the identifier is in 1..200, no other block of either table has
    it, and looking it up finds this connection.  The connection belongs to the
    client that asked for it, or else to the one listening on its local port;
    its remote address, the swapped ports and its block are recorded, all
    requests cleared; every other connection is as it was. *)
Theorem xtcpd_init_state_fresh p proto remote lp rp conn s :
  uip_wf s -> in_table p -> 1 <= guid (env s) <= MAX_GUID ->
  let s' := xtcpd_init_state p proto remote lp rp conn s in
  let g := id_of (app_at p s') in
  1 <= g <= MAX_GUID /\ fault (env s') = fault (env s) /\
  app_at p s' = XtcpdState (owner p proto lp s).1
      (XtcpConnection g proto (owner p proto lp s).2 XTCP_NEW_CONNECTION 0 remote (HTONS rp) (HTONS lp) 0)
      ((xs zero_xtcpd_state) <| s_uip_conn := conn |>) /\
  lookup_xtcpd_state g s' = p /\
  forall q, in_table q -> q <> p -> app_at q s' = app_at q s /\ id_of (app_at q s') <> g.
Proof.
  intros Hs Hp Hg. cbv zeta.
  destruct (init_state_eq p proto remote lp rp conn s Hs Hp Hg) as (g & Hn & Hr & Ha & He & Hi & Hq).
  set (s' := xtcpd_init_state _ _ _ _ _ _ s) in *.
  assert (uip_wf s') as Hs' by by apply xtcpd_init_state_wf.
  replace (id_of (app_at p s')) with g by by rewrite Ha.
  assert (forall q, in_table q -> q <> p -> app_at q s' = app_at q s /\ id_of (app_at q s') <> g) as Hother.
  { intros q Hqt Hne. rewrite (Hq q Hne). split; [done|]. intros Hx. apply Hn.
    apply list_elem_of_lookup. exists (place q). rewrite list_lookup_insert_ne.
    - by rewrite ids_lookup, Hx.
    - intros Hpl. by apply Hne, place_inj. }
  split; [done|]. split; [by rewrite He|]. split; [done|]. split; [|done].
  pose proof (lookup_null s' g Hs') as Hnull.
  pose proof (lookup_from_spec (Nat.max UIP_CONNS UIP_UDP_CONNS) g s' 0) as Hl.
  fold (lookup_xtcpd_state g s') in Hl.
  destruct (lookup_xtcpd_state g s') as [|i|i] eqn:E.
  - exfalso. destruct Hnull as [Hnull _]. apply Hnull; [done|]. apply list_elem_of_lookup. exists (place p).
    rewrite ids_lookup by done. by rewrite Ha.
  - destruct Hl as [Hin Hid]. destruct (decide (CPtcp i = p)); [done|]. by destruct (Hother _ Hin n).
  - destruct Hl as [Hin Hid]. destruct (decide (CPudp i = p)); [done|]. by destruct (Hother _ Hin n).
Qed.

Lemma ids_distinct_insert l k g : ids_distinct l -> g ∉ <[k := 0]> l -> 1 <= g <= MAX_GUID ->
  ids_distinct (<[k := g]> l).
Proof.
  intros [Hr Hd] Hn Hg. assert (forall i, i <> k -> l !! i <> Some g) as Hne.
  { intros i Hi He. apply Hn, list_elem_of_lookup. exists i. by rewrite list_lookup_insert_ne. }
  split; [apply Forall_insert; [done|lia]|].
  intros i j x Hi Hj Hx. apply list_lookup_insert_Some in Hi, Hj.
  destruct Hi as [(-> & Hxi & _)|[Hik Hi]], Hj as [(-> & Hxj & _)|[Hjk Hj]]; subst; try done.
  - exfalso. by apply (Hne j).
  - exfalso. by apply (Hne i).
  - by apply (Hd i j x).
Qed.

Lemma init_state_ids p proto remote lp rp conn s : uip_wf s -> ids_ok s ->
  ids_ok (xtcpd_init_state p proto remote lp rp conn s).
Proof.
  intros Hs [Hg Hd]. destruct (decide (in_table p)) as [Hp|Hp].
  - destruct (init_state_eq p proto remote lp rp conn s Hs Hp Hg) as (g & Hn & Hr & Ha & He & Hi & Hq).
    split; [by rewrite He|]. rewrite Hi. by apply ids_distinct_insert.
  - unfold xtcpd_init_state. set (s1 := upd_app p (fun _ => zero_xtcpd_state) s). cbv zeta. fold s1.
    assert (uip_wf s1) as H1 by by apply upd_app_wf.
    assert (ids s1 = ids s) as Hi1 by by apply ids_upd_app_out.
    assert (guid (env s1) = guid (env s)) as Hg1 by apply guid_upd_app.
    destruct (find_guid_total s1 (guid (env s1)) H1) as (g & -> & Hn & Hr); [by rewrite Hg1|].
    case_match. unfold upd_xconn, upd_xs. split; [by rewrite !guid_upd_app|].
    rewrite !ids_upd_app_out by (try done; repeat (apply upd_app_wf || apply upd_env_wf); done).
    by rewrite ids_upd_env, Hi1.
Qed.
End ids.

(** ** What the server leaves alone while it serves its clients *)

Section invariant.
Context {F : Type}.
Notation S := (uip_state (xtcp_env F)).
Implicit Types s : S.

(** The requests of a connection are flags, and their count an [int]. *)
Definition is_flag (x : Z) : Prop := x = 0 \/ x = 1.
Record xs_ok (x : xtcp_server_state_t) : Prop := {
  xo_send : -2147483648 <= send_request x < 2147483648;
  xo_abort : is_flag (abort_request x);
  xo_close : is_flag (close_request x);
  xo_connect : is_flag (connect_request x);
  xo_ack : is_flag (ack_request x);
  xo_closed : is_flag (closed x);
  xo_mode : is_flag (ack_recv_mode x) }.
Definition app_ok (a : xtcpd_state_t) : Prop := xs_ok (xs a).
Definition apps s : list xtcpd_state_t := map appstate (uip_conns s) ++ map udp_appstate (uip_udp_conns s).
Definition apps_ok s : Prop := Forall app_ok (apps s).

Record listener_ok (l : listener_info_t) : Prop := {
  lo_active : is_flag (active l);
  lo_port : u16 (port_number l) }.
Record listeners_ok (e : xtcp_env F) : Prop := {
  lo_tcp : Forall listener_ok (tcp_listeners e);
  lo_tcp_len : length (tcp_listeners e) = NUM_TCP_LISTENERS;
  lo_udp : Forall listener_ok (udp_listeners e);
  lo_udp_len : length (udp_listeners e) = NUM_UDP_LISTENERS }.

(** The interface and everything below this layer. *)
Definition statics (e : xtcp_env F) :=
  (prev_ifstate e, uip_ifstate e, length (pending_event e), igmp e, xtcp_num e, now e, rest e).

(** Identifiers, the current connection, the interface and the other modules
    stay as they are; connections are opened; requests and listeners stay in
    range. *)
Record leaves s s' : Prop := {
  lv_guid : guid (env s') = guid (env s);
  lv_ids : ids s' = ids s;
  lv_conn : uip_conn s' = uip_conn s;
  lv_statics : statics (env s') = statics (env s);
  lv_states : opens (states s) (states s');
  lv_apps : apps_ok s -> apps_ok s';
  lv_listeners : listeners_ok (env s) -> listeners_ok (env s') }.
#[export] Instance leaves_preorder : PreOrder leaves.
Proof.
  split; [by constructor|]. intros a b c [] []. constructor; try congruence; try tauto. by etrans.
Qed.

Lemma leaves_ids_ok s s' : leaves s s' -> ids_ok s -> ids_ok s'.
Proof. intros [Hg Hi] [? ?]. split; [by rewrite Hg|by rewrite Hi]. Qed.

Lemma Forall_map_alter {A B} (P : B -> Prop) (g : A -> B) f i l : (forall a, P (g a) -> P (g (f a))) ->
  Forall P (map g l) -> Forall P (map g (alter f i l)).
Proof.
  intros H. rewrite !Forall_map, !Forall_lookup. intros Hl k x. rewrite list_lookup_alter.
  case_decide; [subst|apply Hl]. destruct (l !! k) eqn:E; [|done]. cbn. intros [= <-]. apply H. by apply (Hl k).
Qed.
Lemma apps_ok_upd_app p f s : (forall a, app_ok a -> app_ok (f a)) -> apps_ok s -> apps_ok (upd_app p f s).
Proof.
  intros H [H1 H2]%Forall_app. destruct p as [|i|i]; [by apply Forall_app|..]; apply Forall_app; split; try done; unfold upd_app; ssimpl.
  - apply Forall_map_alter; [|done]. intros c. apply H.
  - apply (Forall_map_alter _ udp_appstate); [|done]. intros c. apply H.
Qed.
Lemma states_upd_app p f s : states (upd_app p f s) = states s.
Proof. destruct p; [done| |done]. by apply states_keep. Qed.

Lemma leaves_still s s' : env s' = env s -> uip_conns s' = uip_conns s -> uip_udp_conns s' = uip_udp_conns s ->
  uip_conn s' = uip_conn s -> leaves s s'.
Proof.
  intros He Hc Hu Hn. constructor; unfold ids, states, apps_ok, apps; rewrite ?He, ?Hc, ?Hu; done.
Qed.
Lemma leaves_upd_app p f s : (forall a, id_of (f a) = id_of a) -> (forall a, app_ok a -> app_ok (f a)) ->
  leaves s (upd_app p f s).
Proof.
  intros H Ha. constructor; [apply guid_upd_app|by apply ids_upd_app|by destruct p|by destruct p|
    by rewrite states_upd_app|by apply apps_ok_upd_app|destruct p; try done; by intros []].
Qed.
Lemma leaves_upd_xs p f s : (forall x, xs_ok x -> xs_ok (f x)) -> leaves s (upd_xs p f s).
Proof. intros H. apply leaves_upd_app; [done|]. intros a. apply H. Qed.
Lemma leaves_upd_xconn p f s : (forall c, id (f c) = id c) -> leaves s (upd_xconn p f s).
Proof. intros H. apply leaves_upd_app; [|done]. intros a. apply H. Qed.
Lemma leaves_upd_env f s : (forall e, guid (f e) = guid e) -> (forall e, statics (f e) = statics e) ->
  (forall e, listeners_ok e -> listeners_ok (f e)) -> leaves s (upd_env f s).
Proof. intros Hg Hst Hl. constructor; [apply Hg|done|done|apply Hst|done|done|apply Hl]. Qed.
Lemma leaves_upd_conn i f s : (forall c, appstate (f c) = appstate c) -> (forall c, st (f c) = st c) ->
  leaves s (upd_conn i f s).
Proof.
  intros H Hst. constructor; try done.
  - unfold ids. ssimpl. f_equal. apply map_alter_same. intros c. by rewrite H.
  - by rewrite states_keep.
  - unfold apps_ok, apps. ssimpl. by rewrite (map_alter_same appstate).
Qed.
Lemma leaves_upd_udp_conn i f s : (forall c, udp_appstate (f c) = udp_appstate c) -> leaves s (upd_udp_conn i f s).
Proof.
  intros H. constructor; try done.
  - unfold ids. ssimpl. f_equal. apply (map_alter_same (fun c => id_of (udp_appstate c))). intros c. by rewrite H.
  - unfold apps_ok, apps. ssimpl. by rewrite (map_alter_same udp_appstate).
Qed.
Lemma leaves_fault s : leaves s (set_fault s).
Proof. apply leaves_upd_env; try done. by intros e []. Qed.
Lemma leaves_say o s : leaves s (say o s).
Proof. apply leaves_upd_env; try done. by intros e []. Qed.
Lemma leaves_tcp_block p f s : (forall c, appstate (f c) = appstate c) -> (forall c, st (f c) = st c) ->
  leaves s (upd_tcp_block p f s).
Proof. intros H Hst. destruct p; try apply leaves_fault. by apply leaves_upd_conn. Qed.
Lemma leaves_udp_block p f s : (forall c, udp_appstate (f c) = udp_appstate c) -> leaves s (upd_udp_block p f s).
Proof. intros H. destruct p; try apply leaves_fault. by apply leaves_upd_udp_conn. Qed.

(** A connection that is stopped or started again keeps its state. *)
Lemma st_stopped c : st (c <| tcpstateflags ::= fun f => Z.lor f UIP_STOPPED |>) = st c.
Proof.
  unfold st, UIP_TS_MASK, UIP_STOPPED. ssimpl. rewrite Z.land_lor_distr_l. change (Z.land 16 15) with 0.
  apply Z.lor_0_r.
Qed.
Lemma st_restarted c : st (restart_block c) = st c.
Proof. unfold st, restart_block, UIP_TS_MASK, UIP_STOPPED. ssimpl. by rewrite <- Z.land_assoc. Qed.
End invariant.
#[export] Hint Resolve st_stopped st_restarted : core.

Ltac xs_field := intros [] []; constructor; cbn in *; unfold is_flag in *; auto using s32_range.

(** One step back through a sequence of operations. *)
Ltac leaves_step :=
  lazymatch goal with
  | |- leaves ?s ?s => reflexivity
  | |- leaves _ (upd_xs ?p ?f ?t) => etrans; [|apply (leaves_upd_xs p f t); solve [xs_field]]
  | |- leaves _ (upd_xconn ?p ?f ?t) => etrans; [|apply (leaves_upd_xconn p f t); done]
  | |- leaves _ (upd_app ?p ?f ?t) => etrans; [|apply (leaves_upd_app p f t); done]
  | |- leaves _ (say ?o ?t) => etrans; [|apply leaves_say]
  | |- leaves _ (set_fault ?t) => etrans; [|apply leaves_fault]
  | |- leaves _ (upd_env ?f ?t) => etrans; [|apply (leaves_upd_env f t); [done|done|by intros ? []]]
  | |- leaves _ (upd_tcp_block ?p ?f ?t) => etrans; [|apply (leaves_tcp_block p f t); done || auto]
  | |- leaves _ (upd_udp_block ?p ?f ?t) => etrans; [|apply (leaves_udp_block p f t); done]
  | |- leaves _ (let _ := _ in _) => cbv zeta
  | |- leaves _ (if _ then _ else _) => case_match
  | |- leaves _ (match _ with _ => _ end) => case_match
  | |- leaves _ (with_conn _ _ _) => unfold with_conn
  | _ => first [done | by apply leaves_still]
  end.
Ltac leave := repeat leaves_step.

Section invariant_steps.
Context {F : Type}.
Notation S := (uip_state (xtcp_env F)).
Implicit Types s : S.

Lemma connecting_leaves l p s : leaves s (connecting l p s).
Proof. unfold connecting. leave. Qed.
Lemma uip_connect_leaves addr rp s s' r : uip_connect addr rp s = Some (s', r) -> leaves s s'.
Proof.
  unfold uip_connect. destruct (find_port _ _ _) as [port|]; [|done]. cbv zeta.
  destruct (find_free_conn _ 0 None) as [i|] eqn:Ef; intros [= <- <-]; [|by apply leaves_still].
  set (f := connect_block (iss s) port rp addr).
  assert (forall c, appstate (f c) = appstate c) as Ha by done.
  assert (leaves s (s <| lastport := port |>)) as H1 by by apply leaves_still. etrans; [exact H1|].
  pose proof (states_set i UIP_SYN_SENT f (s <| lastport := port |>) (fun c => eq_refl)) as Hs.
  constructor; try done.
  - unfold ids. ssimpl. f_equal. apply map_alter_same. intros c. by rewrite Ha.
  - change (uip_conns (s <| lastport := port |>)) with (uip_conns s) in Ef.
    rewrite Hs. apply rtc_once. exists i.
    destruct (find_free_states s i Ef) as [Hi|Hi]; eauto.
  - unfold apps_ok, apps. ssimpl. by rewrite (map_alter_same appstate).
Qed.
Lemma uip_udp_new_leaves addr rp s s' r : uip_udp_new addr rp s = Some (s', r) -> leaves s s'.
Proof.
  unfold uip_udp_new. case_match; [|done]. case_match; intros [= <- <-]; [|by apply leaves_still].
  etrans; [|apply leaves_upd_udp_conn; done]. by apply leaves_still.
Qed.
Lemma xtcpd_connect_leaves l port addr p s : leaves s (xtcpd_connect l port addr p s).
Proof.
  unfold xtcpd_connect. cbv zeta. destruct p.
  - case_match; [|leave]. case_match. apply uip_connect_leaves in H. case_match; [|by subst].
    subst. etrans; [exact H|apply connecting_leaves].
  - case_match; [|leave]. case_match. apply uip_udp_new_leaves in H. case_match; [|by subst].
    subst. etrans; [exact H|apply connecting_leaves].
Qed.

Lemma register_listener_ok l p ls : Forall listener_ok ls -> Forall listener_ok (register_listener l p ls).
Proof.
  intros H. unfold register_listener. case_match; [|done]. apply Forall_alter; [done|].
  intros x _ _. constructor; [by right|apply HTONS_u16].
Qed.
Lemma length_register_listener l p ls : length (register_listener l p ls) = length ls.
Proof. unfold register_listener. case_match; [by rewrite length_alter|done]. Qed.
Lemma unregister_listener_ok p ls : Forall listener_ok ls -> Forall listener_ok (unregister_listener p ls).
Proof.
  intros H. unfold unregister_listener. apply Forall_map. revert H. apply Forall_impl. intros x Hx. cbn beta.
  case_match; [|done]. destruct Hx. constructor; [by left|done].
Qed.
Lemma xtcpd_listen_leaves l port p s : leaves s (xtcpd_listen l port p s).
Proof.
  unfold xtcpd_listen. destruct p; cbv zeta;
    match goal with |- leaves _ (_ _ (upd_env ?f s)) => trans (upd_env f s); [|by apply leaves_still] end;
    (apply leaves_upd_env; [done|done|]); intros e [H1 H2 H3 H4]; constructor;
    unfold set_field; cbn [tcp_listeners udp_listeners eta eta_xtcp_env];
    rewrite ?length_register_listener; auto using register_listener_ok.
Qed.
Lemma xtcpd_unlisten_leaves port s : leaves s (xtcpd_unlisten port s).
Proof.
  unfold xtcpd_unlisten. cbv zeta. match goal with |- leaves _ (_ _ (upd_env ?f s)) => trans (upd_env f s); [|by apply leaves_still] end.
  apply leaves_upd_env; [done|done|]. intros e [H1 H2 H3 H4]. constructor;
    unfold set_field; cbn [tcp_listeners udp_listeners eta eta_xtcp_env]; auto using unregister_listener_ok.
  unfold unregister_listener. by rewrite length_map.
Qed.

Lemma handle_xtcp_cmd_leaves i cmd s : leaves s (handle_xtcp_cmd i cmd s).
Proof.
  destruct cmd; cbn [handle_xtcp_cmd];
    unfold xtcpd_bind_local, xtcpd_bind_remote, xtcpd_init_send,
      xtcpd_set_appstate, xtcpd_abort, xtcpd_close, xtcpd_set_poll_interval, xtcpd_ack_recv,
      xtcpd_ack_recv_mode, xtcpd_pause, xtcpd_unpause, xtcpd_join_group, xtcpd_leave_group, xtcpd_get_ipconfig;
    try apply xtcpd_connect_leaves; try apply xtcpd_listen_leaves; try apply xtcpd_unlisten_leaves.
  all: try solve [leave].
Qed.
Lemma take_event_leaves i s : leaves s (upd_env (take_event i) s).
Proof.
  apply leaves_upd_env; unfold take_event; intros e; repeat case_match; try done; [|by intros []].
  unfold statics, set_field. cbn. by rewrite length_insert.
Qed.
Lemma serve_leaves l : forall s, leaves s (serve l s).
Proof.
  induction l as [|a l IH]; intros s; [done|]. etrans; [|apply IH].
  destruct a; cbn [serve_act]; [apply handle_xtcp_cmd_leaves|apply take_event_leaves].
Qed.
Lemma service_leaves s : leaves s (xtcpd_service_clients_until_ready s).
Proof.
  unfold xtcpd_service_clients_until_ready. case_match; [done|]. etrans; [|apply serve_leaves]. leave.
Qed.
Lemma xtcpd_event_leaves ev p s : leaves s (xtcpd_event ev p s).
Proof.
  unfold xtcpd_event. case_match; [|done]. unfold xtcpd_send_event. etrans; [apply service_leaves|]. leave.
Qed.
Lemma recv_loop_leaves replies link p data len : forall s, leaves s (recv_loop replies link p data len s).
Proof.
  assert (forall s, leaves s (xtcpd_send_event link XTCP_RECV_DATA p s)) as He
    by (intros; unfold xtcpd_send_event; leave).
  induction replies as [|[] replies IH]; intros s; cbn [recv_loop]; cbv zeta; (etrans; [apply He|]); [leave..|].
  etrans; [|apply IH]. etrans; [|apply service_leaves]. leave.
Qed.
Lemma store_answer_leaves data a s : leaves s (store_answer data a s).
Proof. unfold store_answer. cbv zeta. leave. Qed.
Lemma xtcpd_send_leaves link ev p data m s : leaves s (xtcpd_send link ev p data m s).1.
Proof.
  unfold xtcpd_send. cbv zeta. case_match; cbn [fst]; [leave|]. etrans; [|apply store_answer_leaves]. leave.
Qed.
Lemma do_xtcpd_send_leaves link ev p data m s : leaves s (do_xtcpd_send link ev p data m s).1.
Proof. unfold do_xtcpd_send. etrans; [apply service_leaves|]. apply xtcpd_send_leaves. Qed.
Lemma uip_send_leaves data l s : leaves s (uip_send data l s).
Proof. unfold uip_send. repeat case_match; by apply leaves_still. Qed.
Lemma close_udp_leaves p s : leaves s (close_udp p s).
Proof.
  unfold close_udp. etrans; [|apply xtcpd_event_leaves]. unfold upd_cur_udp_conn. case_match; [|done].
  by apply leaves_upd_udp_conn.
Qed.

(** A new connection changes identifiers, and nothing else of this. *)
Lemma init_state_states p proto remote lp rp conn s :
  states (xtcpd_init_state p proto remote lp rp conn s) = states s /\
  uip_conn (xtcpd_init_state p proto remote lp rp conn s) = uip_conn s.
Proof.
  assert (forall f (t : S), uip_conn (upd_app p f t) = uip_conn t) as Hc by (intros; by destruct p).
  assert (forall f (t : S), states (upd_env f t) = states t /\ uip_conn (upd_env f t) = uip_conn t) as He by done.
  unfold xtcpd_init_state, set_fault, upd_xconn, upd_xs. destruct (if negb _ then _ else _) as [n ty]. cbv zeta.
  destruct (find_guid _ _ _); rewrite ?states_upd_app, ?Hc, ?(proj1 (He _ _)), ?(proj2 (He _ _)), ?states_upd_app, ?Hc; done.
Qed.
Lemma init_state_apps p proto remote lp rp conn s : apps_ok s -> apps_ok (xtcpd_init_state p proto remote lp rp conn s).
Proof.
  intros H. unfold xtcpd_init_state, upd_xconn, upd_xs. destruct (if negb _ then _ else _) as [n ty]. cbv zeta.
  set (s1 := upd_app p (fun _ => zero_xtcpd_state) s). assert (apps_ok s1) as H1.
  { apply apps_ok_upd_app; [|done]. intros _ _. constructor; cbn; unfold is_flag; auto; lia. }
  destruct (find_guid _ _ _); [|done]. repeat (apply apps_ok_upd_app; [done || (intros ? []; by constructor)|]). exact H1.
Qed.
Lemma init_state_env p proto remote lp rp conn s :
  statics (env (xtcpd_init_state p proto remote lp rp conn s)) = statics (env s) /\
  (listeners_ok (env s) -> listeners_ok (env (xtcpd_init_state p proto remote lp rp conn s))).
Proof.
  unfold xtcpd_init_state, upd_xconn, upd_xs. destruct (if negb _ then _ else _) as [n ty]. cbv zeta.
  destruct p; cbn [upd_app]; destruct (find_guid _ _ _); (split; [done|by intros []]).
Qed.
End invariant_steps.

(** ** The callback

    For any property [P] of what is left alone that initialisation keeps, with
    the invariant of the stack or without. *)

(** The data of a client are sent on. *)
Ltac sent_step tac := match goal with
  | |- ?I (let '(_, _) := ?x in _) =>
      let H := fresh in assert (I x.1) as H by tac; destruct x; cbn [fst] in H
  end.

Section callback.
Context {F : Type}.
Notation S := (uip_state (xtcp_env F)).
Implicit Types s : S.
Context (P : S -> Prop).
Context (with_wf : Prop).
Context (P_leaves : forall s s', leaves s s' -> P s -> P s').
Context (P_init : forall p proto remote lp rp conn s, (with_wf -> uip_wf s) -> P s ->
  P (xtcpd_init_state p proto remote lp rp conn s)).

Definition inv s : Prop := (with_wf -> uip_wf s) /\ P s.

Lemma inv_leaves s s' : inv s -> (uip_wf s -> uip_wf s') -> leaves s s' -> inv s'.
Proof. intros [Hw Hi] H Hs. split; [auto|by eapply P_leaves]. Qed.
Lemma inv_init p proto remote lp rp conn s : inv s -> inv (xtcpd_init_state p proto remote lp rp conn s).
Proof. intros [Hw Hi]. split; [intros ?; by apply xtcpd_init_state_wf; auto|by apply P_init]. Qed.
Lemma inv_event ev p s : inv s -> inv (xtcpd_event ev p s).
Proof. intros H. apply (inv_leaves _ _ H); [apply xtcpd_event_wf|apply xtcpd_event_leaves]. Qed.
Lemma inv_xs p f s : (forall x, xs_ok x -> xs_ok (f x)) -> inv s -> inv (upd_xs p f s).
Proof. intros Hf H. apply (inv_leaves _ _ H); [apply upd_xs_wf|by apply leaves_upd_xs]. Qed.
Lemma inv_service s : inv s -> inv (xtcpd_service_clients_until_ready s).
Proof. intros H. apply (inv_leaves _ _ H); [apply service_wf|apply service_leaves]. Qed.
Lemma inv_send d l s : inv s -> inv (uip_send d l s).
Proof. intros H. apply (inv_leaves _ _ H); [apply uip_send_wf|apply uip_send_leaves]. Qed.
Lemma inv_xtcpd_send link ev p d m s : inv s -> inv (xtcpd_send link ev p d m s).1.
Proof. intros H. apply (inv_leaves _ _ H); [apply xtcpd_send_wf|apply xtcpd_send_leaves]. Qed.
Lemma inv_do_send link ev p d m s : inv s -> inv (do_xtcpd_send link ev p d m s).1.
Proof. intros H. apply (inv_leaves _ _ H); [apply do_xtcpd_send_wf|apply do_xtcpd_send_leaves]. Qed.
Lemma inv_close_udp p s : inv s -> inv (close_udp p s).
Proof. intros H. apply (inv_leaves _ _ H); [apply close_udp_wf|apply close_udp_leaves]. Qed.
Lemma inv_flags f s : inv s -> inv (s <| uip_flags ::= f |>).
Proof. intros H. apply (inv_leaves _ _ H); [apply wf_set_flags|by apply leaves_still]. Qed.
Lemma inv_stop i s : inv s ->
  inv (upd_conn i (fun c => c <| tcpstateflags ::= fun f => Z.lor f UIP_STOPPED |>) s).
Proof.
  intros H. apply (inv_leaves _ _ H); [|apply leaves_upd_conn; done || auto].
  intros Hw. apply wf_upd_conn; [done|apply stop_block_wf].
Qed.
Lemma inv_recv_loop replies link p d l s : inv s -> inv (recv_loop replies link p d l s).
Proof. intros H. apply (inv_leaves _ _ H); [apply recv_loop_wf|apply recv_loop_leaves]. Qed.
Lemma inv_xconn p f s : (forall c, id (f c) = id c) -> inv s -> inv (upd_xconn p f s).
Proof. intros Hf H. apply (inv_leaves _ _ H); [apply upd_xconn_wf|by apply leaves_upd_xconn]. Qed.
#[local] Hint Extern 0 (xs_ok _) =>
  match goal with H : xs_ok ?x |- _ => destruct x, H; constructor; cbn in *; unfold is_flag in *; auto using s32_range end : core.
#[local] Hint Resolve inv_init inv_event inv_xs inv_service inv_send inv_xtcpd_send inv_do_send inv_close_udp
  inv_flags inv_stop inv_recv_loop : core.

Lemma inv_handle_poll p s : inv s -> inv (uip_xtcpd_handle_poll p s).
Proof.
  intros H. unfold uip_xtcpd_handle_poll. cbv zeta.
  set (s1 := if negb (ack_request _ =? 0) then _ else s).
  assert (inv s1) as H1.
  { unfold s1. case_match; [|done]. apply inv_xs; [auto|].
    apply (inv_leaves _ _ H); [intros; wf_auto|by apply leaves_still]. }
  clearbody s1. clear s H.
  do 2 (case_match; [case_match; auto|]).
  case_match; [case_match; auto|].
  case_match; [apply inv_xs; [auto|]; case_match; [|done]; sent_step ltac:(auto); by apply inv_send|].
  case_match; auto.
Qed.

Lemma inv_connected p s : inv s -> inv (appcall_connected p s).
Proof. intros H. unfold appcall_connected. repeat case_match; eauto. Qed.
Lemma inv_newdata p s : inv s -> inv (appcall_newdata p s).
Proof. intros H. unfold appcall_newdata, xtcpd_recv. cbv zeta. repeat case_match; eauto. Qed.
Lemma inv_acked p s : inv s -> inv (appcall_acked p s).
Proof. intros H. unfold appcall_acked. case_match; [|done]. sent_step ltac:(auto). by apply inv_send. Qed.
Lemma inv_rexmit p s : inv s -> inv (appcall_rexmit p s).
Proof.
  intros H. unfold appcall_rexmit. cbv zeta. case_match; [|done]. sent_step ltac:(auto). case_match; eauto.
Qed.
Lemma inv_closed p s : inv s -> inv (appcall_closed p s).
Proof. intros H. unfold appcall_closed. repeat case_match; eauto. Qed.

Lemma inv_appcall (dhcpc_appcall : S -> S) s : (forall t, inv t -> inv (dhcpc_appcall t)) ->
  inv s -> inv (xtcpd_appcall dhcpc_appcall s).
Proof.
  intros Hd H. unfold xtcpd_appcall. case_match; [by apply Hd|]. cbv zeta.
  set (p := match uip_conn s with Some i => CPtcp i | None => udp_ptr s end). clearbody p.
  set (s1 := if uip_udpconnection s && _ then _ else s).
  assert (inv s1) as H1 by (unfold s1; case_match; [do 2 (apply inv_xconn; [done|])|]; done).
  clearbody s1. pose proof (inv_connected p s1 H1) as H2.
  set (s2 := appcall_connected p s1) in *. clearbody s2. clear s1 H1.
  repeat (case_match; [by apply inv_event|]).
  match goal with |- context [appcall_acked p ?t] => assert (inv t) as Hn; [|revert Hn; generalize t] end.
  { case_match; [by apply inv_newdata|done]. }
  intros s3 Hn. pose proof (inv_rexmit p _ (inv_acked p _ Hn)). apply inv_closed.
  case_match; [by apply inv_handle_poll|done].
Qed.
End callback.

Section xtcp_inv.
Context {F : Type}.
Notation S := (uip_state (xtcp_env F)).
Implicit Types s : S.

Lemma xtcpd_appcall_wf (dhcpc_appcall : S -> S) s : (forall t, uip_wf t -> uip_wf (dhcpc_appcall t)) ->
  uip_wf s -> uip_wf (xtcpd_appcall dhcpc_appcall s).
Proof.
  intros Hd Hs. apply (inv_appcall (fun _ : S => True) True); try done. intros t [Ht _]. split; [auto|done].
Qed.

(** What this layer keeps of the connections and listeners. *)
Record xtcp_ok s : Prop := {
  xk_ids : ids_ok s;
  xk_apps : apps_ok s;
  xk_listeners : listeners_ok (env s) }.
Lemma xtcp_ok_leaves s s' : leaves s s' -> xtcp_ok s -> xtcp_ok s'.
Proof. intros H []. constructor; [by eapply leaves_ids_ok|by apply (lv_apps _ _ H)|by apply (lv_listeners _ _ H)]. Qed.
Lemma xtcp_ok_init p proto remote lp rp conn s : uip_wf s -> xtcp_ok s ->
  xtcp_ok (xtcpd_init_state p proto remote lp rp conn s).
Proof.
  intros Hs []. constructor; [by apply init_state_ids|by apply init_state_apps|by apply init_state_env].
Qed.

(** The callback keeps the stack well-formed, the identifiers apart and the
    requests and listeners in range, whatever commands the clients issue while
    it waits for them and whatever they answer; and any property [P] of what
    serving them leaves alone. *)
Theorem xtcpd_appcall_inv (P : S -> Prop) (dhcpc_appcall : S -> S) s :
  (forall s s', leaves s s' -> P s -> P s') ->
  (forall p proto remote lp rp conn s, uip_wf s -> P s -> P (xtcpd_init_state p proto remote lp rp conn s)) ->
  (forall t, uip_wf t -> xtcp_ok t -> P t -> uip_wf (dhcpc_appcall t) /\ xtcp_ok (dhcpc_appcall t) /\ P (dhcpc_appcall t)) ->
  uip_wf s -> xtcp_ok s -> P s ->
  uip_wf (xtcpd_appcall dhcpc_appcall s) /\ xtcp_ok (xtcpd_appcall dhcpc_appcall s) /\ P (xtcpd_appcall dhcpc_appcall s).
Proof.
  intros HP Hi Hd Hs Hx Hp. destruct (inv_appcall (fun s : S => xtcp_ok s /\ P s) True) with (dhcpc_appcall := dhcpc_appcall) (s := s) as [? []].
  - intros ? ? Hl [? ?]. split; [by eapply xtcp_ok_leaves|by eapply HP].
  - intros ? ? ? ? ? ? ? Hw [? ?]. split; [apply xtcp_ok_init; auto|auto].
  - intros t [Hw [? ?]]. destruct (Hd t) as (? & ? & ?); [auto..|]. split; auto.
  - split; auto.
  - auto.
Qed.

(** The callback changes the states of connections only by opening some. *)
Lemma xtcpd_appcall_states (dhcpc_appcall : S -> S) s :
  (forall t, opens (states t) (states (dhcpc_appcall t)) /\ uip_conn (dhcpc_appcall t) = uip_conn t) ->
  opens (states s) (states (xtcpd_appcall dhcpc_appcall s)) /\ uip_conn (xtcpd_appcall dhcpc_appcall s) = uip_conn s.
Proof.
  intros Hd. destruct (inv_appcall (fun t : S => opens (states s) (states t) /\ uip_conn t = uip_conn s) False)
    with (dhcpc_appcall := dhcpc_appcall) (s := s) as [_ ?]; [..|done].
  - intros t t' Hl [Ho Hc]. rewrite (lv_conn _ _ Hl). split; [|done]. etrans; [exact Ho|apply (lv_states _ _ Hl)].
  - intros p proto remote lp rp conn t _. by destruct (init_state_states p proto remote lp rp conn t) as [-> ->].
  - intros t [_ [Ho Hc]]. split; [done|]. destruct (Hd t) as [Ho' ->]. split; [by etrans|done].
  - by repeat split.
Qed.
End xtcp_inv.

(** ** The interface state *)

Section ifstate.
Context {F : Type}.
Implicit Types e : xtcp_env F.

(** What each client was last told of is -1 before anything. *)
Record interface_ok e : Prop := {
  io_clients : (xtcp_num e <= MAX_XTCP_CLIENTS)%nat;
  io_state : is_flag (uip_ifstate e);
  io_prev : length (prev_ifstate e) = MAX_XTCP_CLIENTS;
  io_told : Forall (fun x => x = -1 \/ is_flag x) (prev_ifstate e);
  io_pending : length (pending_event e) = MAX_XTCP_CLIENTS }.
Lemma interface_ok_statics e e' : statics e' = statics e -> interface_ok e -> interface_ok e'.
Proof. intros [= Hp Hi Hl _ Hn _ _] []. constructor; congruence. Qed.

Definition ifstate_event (ifstate : Z) : xtcp_event_type_t := if negb (ifstate =? 0) then XTCP_IFUP else XTCP_IFDOWN.

(** One client: it is told when the state is not what it was last told. *)
Definition tell (i : nat) e : xtcp_env F :=
  if negb (uip_ifstate e =? prev_ifstate e !!! i)
  then (uip_xtcpd_send_config i e) <| prev_ifstate ::= <[i := uip_ifstate e]> |> else e.
Lemma send_config_eq i e : uip_xtcpd_send_config i e = queue_event i (ifstate_event (uip_ifstate e)) e.
Proof. unfold uip_xtcpd_send_config, ifstate_event. by destruct (negb _). Qed.
Lemma tell_spec i e : (i < length (prev_ifstate e))%nat -> (i < length (pending_event e))%nat ->
  uip_ifstate (tell i e) = uip_ifstate e /\ prev_ifstate (tell i e) = <[i := uip_ifstate e]> (prev_ifstate e) /\
  pending_event (tell i e) = (if uip_ifstate e =? prev_ifstate e !!! i then pending_event e
                              else <[i := Some (ifstate_event (uip_ifstate e))]> (pending_event e)).
Proof.
  intros Hp Hq. unfold tell. rewrite send_config_eq. destruct (Z.eqb_spec (uip_ifstate e) (prev_ifstate e !!! i)) as [He|]; cbn [negb]; [|done].
  split; [done|]. split; [|done]. rewrite He. symmetry. apply list_insert_id. by apply list_lookup_lookup_total_lt.
Qed.
Lemma checkstate_from_spec n : forall i e, (i + n <= length (prev_ifstate e))%nat -> (i + n <= length (pending_event e))%nat ->
  let e' := checkstate_from n i e in
  uip_ifstate e' = uip_ifstate e /\ xtcp_num e' = xtcp_num e /\
  length (prev_ifstate e') = length (prev_ifstate e) /\ length (pending_event e') = length (pending_event e) /\
  forall k, if decide (i <= k < i + n)%nat
    then prev_ifstate e' !! k = Some (uip_ifstate e) /\
         pending_event e' !! k = (if uip_ifstate e =? prev_ifstate e !!! k then pending_event e !! k
                                  else Some (Some (ifstate_event (uip_ifstate e))))
    else prev_ifstate e' !! k = prev_ifstate e !! k /\ pending_event e' !! k = pending_event e !! k.
Proof.
  induction n as [|n IH]; intros i e Hp Hq; cbv zeta; cbn [checkstate_from].
  { repeat split. intros k. rewrite decide_False by lia. done. }
  fold (tell i e). destruct (tell_spec i e) as (Hi & Hpr & Hpe); [lia..|].
  assert (length (prev_ifstate (tell i e)) = length (prev_ifstate e)) as Hlp by by rewrite Hpr, length_insert.
  assert (length (pending_event (tell i e)) = length (pending_event e)) as Hlq
    by (rewrite Hpe; case_match; rewrite ?length_insert; done).
  assert (xtcp_num (tell i e) = xtcp_num e) as Hn.
  { unfold tell. rewrite send_config_eq. by case_match. }
  destruct (IH (Datatypes.S i) (tell i e)) as (H1 & H2 & H3 & H4 & H5); [lia..|]. cbv zeta in *.
  split; [congruence|]. split; [congruence|]. split; [congruence|]. split; [congruence|].
  intros k. specialize (H5 k). rewrite Hi in H5. destruct (decide (k = i)) as [->|Hk].
  - rewrite decide_False in H5 by lia. rewrite decide_True by lia. destruct H5 as [-> ->]. rewrite Hpr, Hpe.
    split; [apply list_lookup_insert_eq; lia|]. destruct (_ =? _); [done|]. apply list_lookup_insert_eq. lia.
  - assert (prev_ifstate (tell i e) !! k = prev_ifstate e !! k) as Hpk by (rewrite Hpr; by apply list_lookup_insert_ne).
    assert (pending_event (tell i e) !! k = pending_event e !! k) as Hqk
      by (rewrite Hpe; destruct (_ =? _); [done|by apply list_lookup_insert_ne]).
    rewrite list_lookup_total_alt in H5. rewrite Hpk, Hqk, <- list_lookup_total_alt in H5.
    destruct (decide (Datatypes.S i <= k < Datatypes.S i + n)%nat); [rewrite decide_True by lia|rewrite decide_False by lia]; exact H5.
Qed.

(** Every client is told of a state it has not been told of, and nobody of
    anything else. *)
Lemma checkstate_spec e k : interface_ok e ->
  let e' := uip_xtcp_checkstate e in
  if decide (k < xtcp_num e)%nat
  then prev_ifstate e' !! k = Some (uip_ifstate e) /\
       pending_event e' !! k = (if uip_ifstate e =? prev_ifstate e !!! k then pending_event e !! k
                                else Some (Some (ifstate_event (uip_ifstate e))))
  else prev_ifstate e' !! k = prev_ifstate e !! k /\ pending_event e' !! k = pending_event e !! k.
Proof.
  intros []. cbv zeta. destruct (checkstate_from_spec (xtcp_num e) 0 e) as (_ & _ & _ & _ & H); [lia..|].
  specialize (H k). destruct (decide (k < xtcp_num e)%nat); [rewrite decide_True in H by lia|rewrite decide_False in H by lia]; exact H.
Qed.
Lemma checkstate_ok e : interface_ok e -> interface_ok (uip_xtcp_checkstate e).
Proof.
  intros Hok. pose proof (fun k => checkstate_spec e k Hok) as Hk. destruct Hok.
  destruct (checkstate_from_spec (xtcp_num e) 0 e) as (H1 & H2 & H3 & H4 & _); [lia..|].
  fold (uip_xtcp_checkstate e) in *. cbv zeta in *. constructor; try congruence.
  - rewrite Forall_lookup in io_told0 |- *. intros k x Hx. specialize (Hk k). case_decide.
    + destruct Hk as [Hk _]. rewrite Hk in Hx. injection Hx as <-. by right.
    + destruct Hk as [Hk _]. rewrite Hk in Hx. eauto.
Qed.
Lemma checkstate_rest e : guid (uip_xtcp_checkstate e) = guid e /\ tcp_listeners (uip_xtcp_checkstate e) = tcp_listeners e /\
  udp_listeners (uip_xtcp_checkstate e) = udp_listeners e /\ rest (uip_xtcp_checkstate e) = rest e /\
  output (uip_xtcp_checkstate e) = output e.
Proof.
  unfold uip_xtcp_checkstate. generalize 0%nat (xtcp_num e). intros i n. revert i e.
  induction n as [|n IH]; intros i e; [done|]. cbn [checkstate_from]. fold (tell i e).
  destruct (IH (Datatypes.S i) (tell i e)) as (-> & -> & -> & -> & ->). unfold tell. rewrite send_config_eq. by case_match.
Qed.
End ifstate.

(** ** The stack with the xtcp server on top

    The interface of [UipConn] implemented by [xtcpd_appcall] and [igmp.c]: the
    theorems about [uip_process] are about this program. *)
Section stack.
Context {F : Type}.
Context (dhcpc_appcall : uip_state (xtcp_env F) -> uip_state (xtcp_env F)).

#[local] Instance xtcp_uip_env : UipEnv (xtcp_env F) := {
  UIP_APPCALL := xtcpd_appcall dhcpc_appcall;
  UIP_IGMP := UIP_CONF_IGMP;
  igmp_check_addr a s := Igmp.igmp_check_addr a (igmp (env s));
  igmp_in s := let '(m, s) := Igmp.igmp_in (now (env s)) (igmp (env s)) s in upd_env (fun e => e <| igmp := m |>) s }.

Lemma xtcp_uip_env_wf : (forall t, uip_wf t -> uip_wf (dhcpc_appcall t)) -> UipEnvWf (xtcp_env F).
Proof.
  intros Hd. constructor; intros s Hs; simpl; [by apply xtcpd_appcall_wf|].
  apply upd_env_wf. wf_auto.
Qed.
End stack.
