(* ===== verification/XtcpEvents.v ===== *)
(** * The events a callback reports to the client

    Each operation of [uip_xtcp.c] is described by the events it adds to the
    output; the composition of [xtcpd_appcall] then gives the order in which a
    client sees the events of one callback. *)
From S2P Require Export XtcpSafety.
Local Open Scope Z_scope.

Definition event_of (o : xtcp_output) : option xtcp_event_type_t :=
  match o with OutEvent _ ev _ => Some ev | _ => None end.

Section events.
Context {F : Type}.
Notation S := (uip_state (xtcp_env F)).
Implicit Types s : S.

(** The events reported so far. *)
Definition events s : list xtcp_event_type_t := omap event_of (output (env s)).
Definition closed_of (p : connptr) s : Z := closed (xs (app_at p s)).

(** From [s] to [s'] the events [l] are reported; what the rest of the callback
    looks at is unchanged, except for the [closed] flags ... *)
Record emits (l : list xtcp_event_type_t) s s' : Prop := {
  em_events : events s' = events s ++ l;
  em_flags : uip_flags s' = uip_flags s;
  em_conn : uip_conn s' = uip_conn s;
  em_len : uip_len s' = uip_len s }.
(** ... and with them. *)
Record runs (l : list xtcp_event_type_t) s s' : Prop := {
  run_emits : emits l s s';
  run_closed : forall q, closed_of q s' = closed_of q s }.

Lemma emits_refl s : emits [] s s.
Proof. split; try done. by rewrite app_nil_r. Qed.
Lemma emits_trans l1 l2 s t u : emits l1 s t -> emits l2 t u -> emits (l1 ++ l2) s u.
Proof. intros [] []. split; try congruence. rewrite app_assoc. congruence. Qed.
Lemma runs_refl s : runs [] s s.
Proof. split; [apply emits_refl|done]. Qed.
Lemma runs_trans l1 l2 s t u : runs l1 s t -> runs l2 t u -> runs (l1 ++ l2) s u.
Proof. intros [] []. split; [by eapply emits_trans|]. intros q. congruence. Qed.
Lemma runs_trans_l l s t u : runs [] s t -> runs l t u -> runs l s u.
Proof. apply (runs_trans []). Qed.
Lemma runs_trans_r l s t u : runs l s t -> runs [] t u -> runs l s u.
Proof. rewrite <- (app_nil_r l) at 2. apply runs_trans. Qed.

Lemma emits_upd_app p f s : emits [] s (upd_app p f s).
Proof. destruct p; split; try done; unfold events; cbn; by rewrite app_nil_r. Qed.
Lemma app_at_upd_cases p f q s : app_at q (upd_app p f s) = app_at q s \/
  app_at q (upd_app p f s) = f (app_at q s).
Proof.
  destruct (decide (p = q)) as [<-|Hne]; [|left; by apply app_at_upd_ne].
  destruct p as [|i|i]; [by left|..]; unfold upd_app, app_at.
  - destruct (decide (i < length (uip_conns s))%nat).
    + right. by rewrite conn_at_upd_eq.
    + left. unfold upd_conn, conn_at. ssimpl. by rewrite alter_out by lia.
  - destruct (decide (i < length (uip_udp_conns s))%nat).
    + right. unfold udp_conn_at. ssimpl. rewrite !list_lookup_total_alt, list_lookup_alter_eq.
      by destruct (lookup_lt_is_Some_2 (uip_udp_conns s) i) as [c ->].
    + left. unfold upd_udp_conn, udp_conn_at. ssimpl. by rewrite alter_out by lia.
Qed.
Lemma runs_upd_app p f s : (forall a, closed (xs (f a)) = closed (xs a)) -> runs [] s (upd_app p f s).
Proof.
  intros H. split; [apply emits_upd_app|]. intros q. unfold closed_of.
  destruct (app_at_upd_cases p f q s) as [-> | ->]; auto.
Qed.
Lemma runs_upd_xs p f s : (forall x, closed (f x) = closed x) -> runs [] s (upd_xs p f s).
Proof. intros H. apply runs_upd_app. intros a. apply H. Qed.
Lemma runs_upd_xconn p f s : runs [] s (upd_xconn p f s).
Proof. by apply runs_upd_app. Qed.
Lemma runs_upd_env f s : (forall e, output (f e) = output e) -> runs [] s (upd_env f s).
Proof. intros H. split; [|by intros []]. split; try done. unfold events. cbn. by rewrite H, app_nil_r. Qed.
Lemma runs_say o s : runs (match event_of o with Some ev => [ev] | None => [] end) s (say o s).
Proof.
  split; [|by intros []]. split; try done. unfold events, say, upd_env. ssimpl. cbn.
  rewrite omap_app. cbn. by destruct (event_of o).
Qed.
Lemma runs_upd_conn i f s : (forall c, appstate (f c) = appstate c) -> runs [] s (upd_conn i f s).
Proof.
  intros H. split; [split; try done; by rewrite app_nil_r|]. intros [|j|j]; try done.
  unfold closed_of, app_at. destruct (decide (i = j)) as [<-|]; [|by rewrite conn_at_upd_ne].
  destruct (decide (i < length (uip_conns s))%nat); [by rewrite conn_at_upd_eq, H|].
  unfold conn_at. ssimpl. by rewrite alter_out by lia.
Qed.
Lemma runs_upd_udp_conn i f s : (forall c, udp_appstate (f c) = udp_appstate c) -> runs [] s (upd_udp_conn i f s).
Proof.
  intros H. split; [split; try done; by rewrite app_nil_r|]. intros [|j|j]; try done.
  unfold closed_of, app_at, udp_conn_at. ssimpl. rewrite !list_lookup_total_alt, list_lookup_alter.
  case_decide; [subst|done]. destruct (uip_udp_conns s !! j); cbn; [by rewrite H|done].
Qed.
Lemma runs_tcp_block p f s : (forall c, appstate (f c) = appstate c) -> runs [] s (upd_tcp_block p f s).
Proof. intros H. destruct p; try by apply runs_upd_env. by apply runs_upd_conn. Qed.
Lemma runs_udp_block p f s : (forall c, udp_appstate (f c) = udp_appstate c) -> runs [] s (upd_udp_block p f s).
Proof. intros H. destruct p; try by apply runs_upd_env. by apply runs_upd_udp_conn. Qed.
End events.

(** One step back through operations that report nothing. *)
Ltac quiet_step :=
  lazymatch goal with
  | |- runs [] ?s ?s => apply runs_refl
  | |- runs [] _ (upd_xs ?p ?f ?t) => eapply runs_trans_r; [|apply (runs_upd_xs p f t); done]
  | |- runs [] _ (upd_xconn ?p ?f ?t) => eapply runs_trans_r; [|apply (runs_upd_xconn p f t)]
  | |- runs [] _ (upd_app ?p ?f ?t) => eapply runs_trans_r; [|apply (runs_upd_app p f t); done]
  | |- runs [] _ (upd_env ?f ?t) => eapply runs_trans_r; [|apply (runs_upd_env f t); done]
  | |- runs [] _ (set_fault ?t) => eapply runs_trans_r; [|apply (runs_upd_env _ t); done]
  | |- runs [] _ (say ?o ?t) => eapply runs_trans_r; [|apply (runs_say o t)]
  | |- runs [] _ (upd_tcp_block ?p ?f ?t) => eapply runs_trans_r; [|apply (runs_tcp_block p f t); done]
  | |- runs [] _ (upd_udp_block ?p ?f ?t) => eapply runs_trans_r; [|apply (runs_udp_block p f t); done]
  | |- runs [] _ (let _ := _ in _) => cbv zeta
  | |- runs [] _ (if _ then _ else _) => case_match
  | |- runs [] _ (match _ with _ => _ end) => case_match
  | |- runs [] _ (with_conn _ _ _) => unfold with_conn
  | _ => done
  end.
Ltac quiet := repeat quiet_step.

Section quiet.
Context {F : Type}.
Notation S := (uip_state (xtcp_env F)).
Implicit Types s : S.

Lemma runs_same_but s s' : env s' = env s -> uip_flags s' = uip_flags s -> uip_conn s' = uip_conn s ->
  uip_len s' = uip_len s -> uip_conns s' = uip_conns s -> uip_udp_conns s' = uip_udp_conns s -> runs [] s s'.
Proof.
  intros He Hf Hc Hl Hcs Hus. split; [split; try done; unfold events; by rewrite He, app_nil_r|].
  intros [|j|j]; unfold closed_of, app_at, conn_at, udp_conn_at; by rewrite ?Hcs, ?Hus.
Qed.

Lemma listen_quiet port s : runs [] s (uip_listen port s).
Proof. by apply runs_same_but. Qed.
Lemma udp_listen_quiet port s : runs [] s (uip_udp_listen port s).
Proof. by apply runs_same_but. Qed.
Lemma unlisten_quiet port s : runs [] s (uip_unlisten port s).
Proof. by apply runs_same_but. Qed.
Lemma uip_send_quiet d l s : runs [] s (uip_send d l s).
Proof. unfold uip_send. repeat case_match; first [apply runs_refl | by apply runs_same_but]. Qed.

Lemma connecting_quiet l p s : runs [] s (connecting l p s).
Proof. unfold connecting. quiet. Qed.
Lemma uip_connect_quiet addr rp s s' r : uip_connect addr rp s = Some (s', r) -> runs [] s s'.
Proof.
  unfold uip_connect. case_match; [|done].
  assert (runs [] s (s <| lastport := z |>)) by by apply runs_same_but.
  case_match; intros [= <- <-]; [|done]. eapply runs_trans_r; [done|]. by apply runs_upd_conn.
Qed.
Lemma uip_udp_new_quiet addr rp s s' r : uip_udp_new addr rp s = Some (s', r) -> runs [] s s'.
Proof.
  unfold uip_udp_new. case_match; [|done].
  assert (runs [] s (s <| lastport := z |>)) by by apply runs_same_but.
  case_match; intros [= <- <-]; [|done]. eapply runs_trans_r; [done|]. by apply runs_upd_udp_conn.
Qed.
Lemma xtcpd_connect_quiet l port addr p s : runs [] s (xtcpd_connect l port addr p s).
Proof.
  unfold xtcpd_connect. cbv zeta. destruct p.
  - case_match; [|quiet]. case_match. apply uip_connect_quiet in H. case_match; [|by subst].
    subst. eapply runs_trans_r; [exact H|apply connecting_quiet].
  - case_match; [|quiet]. case_match. apply uip_udp_new_quiet in H. case_match; [|by subst].
    subst. eapply runs_trans_r; [exact H|apply connecting_quiet].
Qed.
Lemma handle_xtcp_cmd_quiet i cmd s : runs [] s (handle_xtcp_cmd i cmd s).
Proof.
  destruct cmd; cbn [handle_xtcp_cmd];
    unfold xtcpd_listen, xtcpd_unlisten, xtcpd_bind_local, xtcpd_bind_remote, xtcpd_init_send,
      xtcpd_set_appstate, xtcpd_abort, xtcpd_close, xtcpd_set_poll_interval, xtcpd_ack_recv,
      xtcpd_ack_recv_mode, xtcpd_pause, xtcpd_unpause, xtcpd_join_group, xtcpd_leave_group, xtcpd_get_ipconfig;
    try by apply xtcpd_connect_quiet.
  all: try solve [quiet].
  - destruct p; [eapply runs_trans_r; [|apply listen_quiet]|eapply runs_trans_r; [|apply udp_listen_quiet]]; quiet.
  - eapply runs_trans_r; [|apply unlisten_quiet]. quiet.
Qed.
Lemma serve_quiet l : forall s, runs [] s (serve l s).
Proof.
  induction l as [|a l IH]; intros s; [apply runs_refl|]. eapply runs_trans_l; [|apply IH].
  destruct a as [i cmd|i]; cbn [serve_act]; [apply handle_xtcp_cmd_quiet|].
  split; [|by intros []]. split; try done. unfold events, upd_env, take_event. ssimpl. cbn.
  repeat case_match; rewrite ?app_nil_r; try done. cbn. by rewrite omap_app, app_nil_r.
Qed.
Lemma service_quiet s : runs [] s (xtcpd_service_clients_until_ready s).
Proof.
  unfold xtcpd_service_clients_until_ready. case_match; [apply runs_refl|].
  eapply runs_trans_l; [|apply serve_quiet]. by apply runs_upd_env.
Qed.
End quiet.

(** ** The stages of the callback *)

Section stages.
Context {F : Type}.
Notation S := (uip_state (xtcp_env F)).
Implicit Types s : S.

(** At most one event, of those listed. *)
Definition one_of (evs l : list xtcp_event_type_t) : Prop := l = [] \/ exists ev, ev ∈ evs /\ l = [ev].
Lemma one_of_nil evs : one_of evs [].
Proof. by left. Qed.
Lemma one_of_sing evs ev : ev ∈ evs -> one_of evs [ev].
Proof. right. eauto. Qed.

Lemma send_event_runs link ev p s : runs [ev] s (xtcpd_send_event link ev p s).
Proof.
  unfold xtcpd_send_event. cbv zeta.
  eapply runs_trans_l; [apply (runs_upd_xconn p)|]. apply (runs_say (OutEvent link ev _)).
Qed.
Lemma event_runs ev p s : exists l, one_of [ev] l /\ runs l s (xtcpd_event ev p s).
Proof.
  unfold xtcpd_event. case_match; [|by exists []; eauto using one_of_nil, runs_refl].
  exists [ev]. split; [apply one_of_sing; constructor|].
  eapply runs_trans_l; [apply service_quiet|]. apply send_event_runs.
Qed.
Lemma recv_loop_runs replies link p d n : forall s, exists k,
  runs (replicate k XTCP_RECV_DATA) s (recv_loop replies link p d n s).
Proof.
  induction replies as [|[] replies IH]; intros s; cbn [recv_loop]; cbv zeta.
  - exists 1%nat. eapply runs_trans_r; [apply (send_event_runs link _ p s)|]. quiet.
  - exists 1%nat. eapply runs_trans_r; [apply (send_event_runs link _ p s)|]. quiet.
  - set (s1 := xtcpd_service_clients_until_ready _). destruct (IH s1) as [k Hk]. exists (Datatypes.S k).
    apply (runs_trans [XTCP_RECV_DATA] (replicate k XTCP_RECV_DATA) _ s1); [|exact Hk].
    unfold s1. eapply runs_trans_r; [|apply service_quiet].
    eapply runs_trans_r; [apply (send_event_runs link _ p s)|]. quiet.
Qed.
Lemma xtcpd_send_runs link ev p d m s : runs [ev] s (xtcpd_send link ev p d m s).1.
Proof.
  unfold xtcpd_send. cbv zeta.
  set (s1 := upd_xconn p _ s). set (s2 := say _ s1).
  assert (runs [ev] s s2) as H2.
  { eapply runs_trans_l; [|apply (runs_say (OutEvent _ ev _))]. apply runs_upd_xconn. }
  case_match; cbn [fst]; [done|]. eapply runs_trans_r; [exact H2|].
  unfold store_answer. cbv zeta. match goal with |- context [mem ?f ?u] => assert (runs [] s2 (mem f u)) as H3
    by (apply (runs_trans_r _ _ u); [by apply runs_upd_env|by apply runs_same_but]) end.
  case_match; [|exact H3]. eapply runs_trans_r; [exact H3|]. by apply runs_upd_env.
Qed.
Lemma do_send_runs link ev p d m s : runs [ev] s (do_xtcpd_send link ev p d m s).1.
Proof. eapply runs_trans_l; [apply service_quiet|]. apply xtcpd_send_runs. Qed.

Lemma init_state_emits p proto remote lp rp conn s : emits [] s (xtcpd_init_state p proto remote lp rp conn s).
Proof.
  unfold xtcpd_init_state. destruct (if negb _ then _ else _) as [linknum' type']. cbv zeta.
  set (s1 := upd_app p _ s). assert (emits [] s s1) as H1 by apply emits_upd_app.
  assert (forall f, (forall e, output (f e) = output e) -> emits [] s (upd_env f s1)) as H2
    by (intros f Hf; apply (emits_trans [] [] _ s1); [done|by apply runs_upd_env]).
  destruct (find_guid _ s1 _) as [g|]; [|by apply H2]. unfold upd_xconn, upd_xs.
  repeat (eapply (emits_trans [] []); [|apply emits_upd_app]). by apply H2.
Qed.

Lemma connected_emits p s : exists l, one_of [XTCP_NEW_CONNECTION] l /\ emits l s (appcall_connected p s) /\
  (flag s UIP_CONNECTED = false -> l = [] /\ appcall_connected p s = s).
Proof.
  unfold appcall_connected. destruct (flag s UIP_CONNECTED); [|exists []; auto using one_of_nil, emits_refl].
  cbv zeta. set (s1 := match uip_conn s with Some _ => _ | None => _ end).
  assert (emits [] s s1) as H1 by (unfold s1; case_match; apply init_state_emits).
  destruct (event_runs XTCP_NEW_CONNECTION p s1) as (l & Hl & Hr & _).
  exists l. split; [done|]. split; [|done]. by eapply (emits_trans []).
Qed.

Lemma newdata_runs p s : exists k, runs (replicate k XTCP_RECV_DATA) s (appcall_newdata p s).
Proof.
  unfold appcall_newdata, xtcpd_recv. case_match; [|exists 0%nat; apply runs_refl]. cbv zeta.
  set (s1 := xtcpd_service_clients_until_ready s). assert (runs [] s s1) as H1 by apply service_quiet.
  destruct (recv_loop_runs (ready (env s1)) (linknum (app_at p s1)) p (uip_appdata s1) (uip_len s1) s1) as [k Hk].
  exists k. eapply runs_trans_l; [exact H1|].
  repeat case_match; try done. eapply runs_trans_r; [exact Hk|]. by apply runs_upd_conn.
Qed.

Lemma acked_runs p s : exists l, one_of [XTCP_SENT_DATA] l /\ runs l s (appcall_acked p s).
Proof.
  unfold appcall_acked. case_match; [|exists []; auto using one_of_nil, runs_refl].
  pose proof (do_send_runs (linknum (app_at p s)) XTCP_SENT_DATA p (uip_appdata s) (cur_mss s) s) as H1.
  destruct (do_xtcpd_send _ _ _ _ _ s) as [s1 n]. exists [XTCP_SENT_DATA].
  split; [apply one_of_sing; constructor|]. eapply runs_trans_r; [exact H1|apply uip_send_quiet].
Qed.
Lemma rexmit_runs p s : exists l, one_of [XTCP_RESEND_DATA] l /\ runs l s (appcall_rexmit p s).
Proof.
  unfold appcall_rexmit. case_match; [|exists []; auto using one_of_nil, runs_refl]. cbv zeta.
  set (s0 := xtcpd_service_clients_until_ready s). assert (runs [] s s0) as H0 by apply service_quiet.
  pose proof (xtcpd_send_runs (linknum (app_at p s0)) XTCP_RESEND_DATA p (uip_appdata s0) (cur_mss s0) s0) as H1.
  destruct (xtcpd_send _ _ _ _ _ s0) as [s1 n]. exists [XTCP_RESEND_DATA].
  split; [apply one_of_sing; constructor|]. eapply runs_trans_l; [exact H0|].
  case_match; [|exact H1]. eapply runs_trans_r; [exact H1|apply uip_send_quiet].
Qed.

Lemma closed_emits p s : exists l, one_of [XTCP_CLOSED] l /\ emits l s (appcall_closed p s) /\
  (l <> [] -> flag s UIP_CLOSE = true /\ closed_of p s = 0).
Proof.
  unfold appcall_closed. destruct (flag s UIP_CLOSE) eqn:Hf;
    [|exists []; by split_and!; auto using one_of_nil, emits_refl].
  fold (closed_of p s). destruct (closed_of p s =? 0) eqn:Hc;
    [|exists []; by split_and!; auto using one_of_nil, emits_refl].
  cbv zeta. set (s1 := upd_xs p _ s). assert (emits [] s s1) as H1 by apply emits_upd_app.
  destruct (event_runs XTCP_CLOSED p s1) as (l & Hl & Hr & _). exists l. split; [done|].
  split; [by eapply (emits_trans [])|]. by apply Z.eqb_eq in Hc.
Qed.
End stages.

(** ** The order of the events *)

Section order.
Context {F : Type}.
Notation S := (uip_state (xtcp_env F)).
Implicit Types s : S.

(** What a poll reports to a TCP and to a UDP connection. *)
Definition polled l s s' : Prop :=
  events s' = events s ++ l /\ uip_conn s' = uip_conn s /\
  if uip_udpconnection s
  then one_of [XTCP_NEW_CONNECTION; XTCP_REQUEST_DATA; XTCP_POLL; XTCP_CLOSED] l /\ flag s' UIP_CLOSE = flag s UIP_CLOSE
  else one_of [XTCP_REQUEST_DATA; XTCP_POLL] l /\ forall q, closed_of q s' = closed_of q s.

Lemma one_of_mono evs evs' l : one_of evs l -> evs ⊆ evs' -> one_of evs' l.
Proof. intros [->|(ev & He & ->)] H; [by left|right; eauto]. Qed.

Lemma polled_runs ev l s s' : one_of [ev] l -> ev ∈ [XTCP_REQUEST_DATA; XTCP_POLL] -> runs l s s' -> polled l s s'.
Proof.
  intros Hl Hev [[He Hf Hc _] Hcl]. split; [done|]. split; [done|].
  assert (one_of [XTCP_REQUEST_DATA; XTCP_POLL] l) as H
    by (apply (one_of_mono _ _ _ Hl); by intros x ->%list_elem_of_singleton).
  case_match; (split; [|try done; by unfold flag; rewrite Hf]); [|done].
  apply (one_of_mono _ _ _ H). intros x. rewrite !elem_of_cons. tauto.
Qed.
Lemma polled_none s s' : runs [] s s' -> polled [] s s'.
Proof. apply (polled_runs XTCP_POLL); [by left|by right; left]. Qed.
Lemma polled_udp ev l s s' : uip_udpconnection s = true -> one_of [ev] l ->
  ev ∈ [XTCP_NEW_CONNECTION; XTCP_CLOSED] -> emits l s s' -> polled l s s'.
Proof.
  intros Hu Hl Hev [He Hf Hc _]. split; [done|]. split; [done|]. rewrite Hu. unfold flag. rewrite Hf.
  split; [|done]. apply (one_of_mono _ _ _ Hl). intros x ->%list_elem_of_singleton. revert Hev.
  rewrite !elem_of_cons. tauto.
Qed.
Lemma polled_flags v s : uip_udpconnection s = false -> polled [] s (s <| uip_flags := v |>).
Proof.
  intros Hu. split; [by rewrite app_nil_r|]. split; [done|]. rewrite Hu. split; [by left|by intros []].
Qed.
Lemma polled_then l s t u : polled l s t -> runs [] t u -> polled l s u.
Proof.
  intros (He & Hc & H) [[He' Hf' Hc' _] Hcl']. split; [by rewrite He', app_nil_r|]. split; [congruence|].
  case_match; destruct H as [Hl H]; (split; [done|]); [by unfold flag in *; rewrite Hf'|].
  intros q. by rewrite Hcl'.
Qed.

Lemma close_udp_polled p s : uip_udpconnection s = true -> exists l, polled l s (close_udp p s).
Proof.
  intros Hu. unfold close_udp. cbv zeta. set (s1 := upd_cur_udp_conn _ s).
  assert (runs [] s s1) as H1.
  { unfold s1, upd_cur_udp_conn. case_match; [by apply runs_upd_udp_conn|apply runs_refl]. }
  destruct (event_runs XTCP_CLOSED p s1) as (l & Hl & Hr). exists l.
  apply (polled_udp XTCP_CLOSED); [done|done|by right; left|]. by eapply (runs_trans []).
Qed.

Lemma handle_poll_polled p s : exists l, polled l s (uip_xtcpd_handle_poll p s).
Proof.
  unfold uip_xtcpd_handle_poll. cbv zeta. set (s1 := if negb (ack_request _ =? 0) then _ else s).
  assert (forall l t, polled l s1 t -> polled l s t) as Hs.
  { unfold s1. case_match; [|done]. set (s2 := upd_xs p _ _). intros l t (He & Hc & Hx).
    assert (runs [] (s <| uip_flags ::= fun f => Z.lor f UIP_NEWDATA |> <| uip_slen := 0 |>) s2) as [[He2 Hf2 Hc2 _] Hcl2]
      by by apply runs_upd_xs.
    assert (events s2 = events s) as E by by rewrite He2, app_nil_r.
    assert (flag s2 UIP_CLOSE = flag s UIP_CLOSE) as Ef.
    { unfold flag. rewrite Hf2. ssimpl. unfold tst. rewrite Z.land_lor_distr_l.
      change (Z.land UIP_NEWDATA UIP_CLOSE) with 0. by rewrite Z.lor_0_r. }
    assert (uip_udpconnection s2 = uip_udpconnection s) as Eu by (unfold uip_udpconnection; by rewrite Hc2).
    split; [by rewrite He, E|]. split; [by rewrite Hc, Hc2|]. rewrite Eu in Hx.
    case_match; destruct Hx as [Hl Hx]; (split; [done|]); [congruence|]. intros q. rewrite Hx, Hcl2. by destruct q. }
  enough (exists l, polled l s1 (uip_xtcpd_handle_poll p s)) as (l & Hl) by (exists l; by apply Hs).
  unfold uip_xtcpd_handle_poll. cbv zeta. fold s1. clearbody s1. clear s Hs.
  case_match; [|case_match; [|case_match; [|case_match; [|case_match]]]].
  - case_match.
    + destruct (close_udp_polled p s1) as [l Hl]; [done|]. exists l. eapply polled_then; [exact Hl|].
      by apply runs_upd_xs.
    + exists []. eapply polled_then; [by apply polled_flags|by apply runs_upd_xs].
  - case_match.
    + destruct (close_udp_polled p s1) as [l Hl]; [done|]. exists l. eapply polled_then; [exact Hl|].
      by apply runs_upd_xs.
    + exists []. eapply polled_then; [by apply polled_flags|by apply runs_upd_xs].
  - case_match; [|exists []; apply polled_none, runs_refl].
    set (s2 := xtcpd_init_state _ _ _ _ _ _ s1). assert (emits [] s1 s2) as H3 by apply init_state_emits.
    destruct (event_runs XTCP_NEW_CONNECTION p s2) as (l & Hl & Hr). exists l.
    eapply polled_then; [|by apply runs_upd_xs].
    apply (polled_udp XTCP_NEW_CONNECTION); [done|done|by left|]. eapply (emits_trans []); [done|apply Hr].
  - destruct (negb (linknum (app_at p s1) =? NO_LINK)).
    + pose proof (do_send_runs (linknum (app_at p s1)) XTCP_REQUEST_DATA p (uip_appdata s1) (cur_mss s1) s1) as H3.
      destruct (do_xtcpd_send _ _ _ _ _ s1) as [s2 n]. exists [XTCP_REQUEST_DATA].
      apply (polled_runs XTCP_REQUEST_DATA); [apply one_of_sing; constructor|by left|].
      eapply runs_trans_r; [|by apply runs_upd_xs]. eapply runs_trans_r; [exact H3|apply uip_send_quiet].
    + exists []. apply polled_none. by apply runs_upd_xs.
  - destruct (event_runs XTCP_POLL p s1) as (l & Hl & Hr). exists l.
    apply (polled_runs XTCP_POLL); [done|by right; left|].
    eapply runs_trans_r; [exact Hr|by apply runs_upd_xs].
  - exists []. apply polled_none, runs_refl.
Qed.
End order.

Section callback.
Context {F : Type}.
Notation S := (uip_state (xtcp_env F)).
Implicit Types s : S.

(** Received data, then the acknowledgement, a retransmission, the poll, and
    the end of the connection. *)
Definition data_order l : Prop := exists k b c d e,
  l = replicate k XTCP_RECV_DATA ++ b ++ c ++ d ++ e /\
  one_of [XTCP_SENT_DATA] b /\ one_of [XTCP_RESEND_DATA] c /\
  one_of [XTCP_NEW_CONNECTION; XTCP_REQUEST_DATA; XTCP_POLL] d /\ one_of [XTCP_CLOSED] e.
Definition callback_order l : Prop := exists a r,
  l = a ++ r /\ one_of [XTCP_NEW_CONNECTION] a /\ (one_of [XTCP_ABORTED; XTCP_TIMED_OUT] r \/ data_order r).

(** The stages after the announcement of the connection. *)
Definition data_stages (p : connptr) s : S :=
  appcall_rexmit p (appcall_acked p
    (if flag s UIP_NEWDATA && (0 <? uip_len s) then appcall_newdata p s else s)).
Definition poll_stage (p : connptr) s : S := if flag s UIP_POLL then uip_xtcpd_handle_poll p s else s.

Lemma data_stages_runs p s : exists k b c, runs (replicate k XTCP_RECV_DATA ++ b ++ c) s (data_stages p s) /\
  one_of [XTCP_SENT_DATA] b /\ one_of [XTCP_RESEND_DATA] c.
Proof.
  unfold data_stages. set (s1 := if flag s UIP_NEWDATA && (0 <? uip_len s) then appcall_newdata p s else s).
  assert (exists k, runs (replicate k XTCP_RECV_DATA) s s1) as [k Hk]
    by (unfold s1; case_match; [apply newdata_runs|exists 0%nat; apply runs_refl]).
  destruct (acked_runs p s1) as (b & Hb & Hrb). destruct (rexmit_runs p (appcall_acked p s1)) as (c & Hc & Hrc).
  exists k, b, c. split; [|done]. eapply runs_trans; [exact Hk|]. by eapply runs_trans.
Qed.

(** The [closed] flag of a TCP connection over the last two stages. *)
Lemma closing_order p s : (flag s UIP_POLL = true -> flag s UIP_CLOSE = false) ->
  exists d e, events (appcall_closed p (poll_stage p s)) = events s ++ d ++ e /\
  one_of [XTCP_NEW_CONNECTION; XTCP_REQUEST_DATA; XTCP_POLL] d /\ one_of [XTCP_CLOSED] e /\
  (uip_udpconnection s = false -> e <> [] -> closed_of p s = 0).
Proof.
  intros Hx. unfold poll_stage. destruct (closed_emits p (if flag s UIP_POLL then uip_xtcpd_handle_poll p s else s))
    as (e & He & [Hee _ _ _] & Hec).
  destruct (flag s UIP_POLL) eqn:Hp.
  2:{ exists [], e. split; [done|]. split; [by left|]. split; [done|]. intros _ Hne. by apply Hec. }
  destruct (handle_poll_polled p s) as (d & Hde & Hdc & Hd). destruct (uip_udpconnection s).
  - destruct Hd as [Hd Hf]. assert (e = []) as ->.
    { destruct He as [|(x & _ & ->)]; [done|]. destruct Hec as [Hc _]; [done|].
      rewrite Hf, Hx in Hc by done. discriminate Hc. }
    rewrite Hee, Hde, app_nil_r.
    destruct (decide (d = [XTCP_CLOSED])) as [->|Hn].
    + exists [], [XTCP_CLOSED]. split; [done|]. split; [by left|]. split; [|done]. apply one_of_sing; constructor.
    + exists d, []. rewrite app_nil_r. split; [done|]. split; [|split; [by left|done]].
      destruct Hd as [->|(ev & Hev & ->)]; [by left|]. right. exists ev. split; [|done].
      revert Hev. rewrite !elem_of_cons. intros [|[|[|[->|]]]]; tauto.
  - destruct Hd as [Hd Hcl]. exists d, e. rewrite Hee, Hde, app_assoc. split; [done|].
    split; [|split; [done|]].
    + apply (one_of_mono _ _ _ Hd). intros x. rewrite !elem_of_cons. tauto.
    + intros _ Hne. rewrite <- Hcl. by apply Hec.
Qed.

Lemma one_of_not_elem ev evs l : one_of evs l -> ev ∉ evs -> ev ∉ l.
Proof.
  intros [->|(x & Hx & ->)] Hn; [apply not_elem_of_nil|]. by intros ->%list_elem_of_singleton.
Qed.

Lemma ended_order ev p s : ev ∈ [XTCP_ABORTED; XTCP_TIMED_OUT] -> exists r,
  events (xtcpd_event ev p s) = events s ++ r /\ one_of [XTCP_ABORTED; XTCP_TIMED_OUT] r /\ XTCP_CLOSED ∉ r.
Proof.
  intros Hev. destruct (event_runs ev p s) as (r & Hr & [[Hre _ _ _] _]). exists r. split; [done|].
  assert (one_of [XTCP_ABORTED; XTCP_TIMED_OUT] r) as H
    by (apply (one_of_mono _ _ _ Hr); by intros x ->%list_elem_of_singleton).
  split; [done|]. apply (one_of_not_elem _ _ _ H). rewrite !elem_of_cons, elem_of_nil. intuition discriminate.
Qed.

Lemma data_not_closed k b c d : one_of [XTCP_SENT_DATA] b -> one_of [XTCP_RESEND_DATA] c ->
  one_of [XTCP_NEW_CONNECTION; XTCP_REQUEST_DATA; XTCP_POLL] d ->
  XTCP_CLOSED ∉ replicate k XTCP_RECV_DATA ++ b ++ c ++ d.
Proof.
  intros Hb Hc Hd. rewrite !elem_of_app, elem_of_replicate. intros [[? _]|[Hin|[Hin|Hin]]]; [done|..]; revert Hin.
  - apply (one_of_not_elem _ _ _ Hb). by intros ?%list_elem_of_singleton.
  - apply (one_of_not_elem _ _ _ Hc). by intros ?%list_elem_of_singleton.
  - apply (one_of_not_elem _ _ _ Hd). rewrite !elem_of_cons, elem_of_nil. intuition discriminate.
Qed.

(** C34: the events of one callback come in a fixed order.  A new connection is
    announced first; an aborted or timed out connection reports just that;
    otherwise received data (repeated until the client is ready) come before the
    request for more after an acknowledgement, the request to send again, the
    poll, and, last and once, the end of the connection, whatever the clients
    do in between.  An established TCP connection whose end has been reported
    ([closed]) does not report it again. *)
Theorem xtcpd_appcall_events (dhcpc_appcall : S -> S) s :
  uip_udpconnection s &&
     ((udp_lport (cur_udp_conn s) =? HTONS DHCPC_CLIENT_PORT) || (udp_lport (cur_udp_conn s) =? HTONS DHCPC_SERVER_PORT))
     = false ->
  (flag s UIP_POLL = true -> flag s UIP_CLOSE = false) ->
  exists l, events (xtcpd_appcall dhcpc_appcall s) = events s ++ l /\ callback_order l /\
  forall i, uip_conn s = Some i -> flag s UIP_CONNECTED = false -> closed_of (CPtcp i) s <> 0 -> XTCP_CLOSED ∉ l.
Proof.
  intros Hd Hx. unfold xtcpd_appcall. rewrite Hd. cbv zeta.
  set (p := match uip_conn s with Some i => CPtcp i | None => udp_ptr s end).
  set (s1 := if uip_udpconnection s && _ then _ else s).
  assert (runs [] s s1) as H1 by (unfold s1; quiet). clearbody s1.
  destruct (connected_emits p s1) as (a & Ha & Hem & Hnc). set (s2 := appcall_connected p s1) in *.
  assert (emits a s s2) as H2 by (eapply (emits_trans []); [apply H1|exact Hem]).
  assert (forall i, uip_conn s = Some i -> flag s UIP_CONNECTED = false -> a = [] /\ closed_of p s2 = closed_of (CPtcp i) s)
    as Hfirst.
  { intros i Hi Hf. destruct Hnc as [Ha' ->]; [by unfold flag in *; rewrite (em_flags _ _ _ (run_emits _ _ _ H1))|].
    split; [done|]. unfold p. rewrite Hi. apply H1. }
  clearbody s2. clear Hem Hnc.
  assert (forall ev, ev ∈ [XTCP_ABORTED; XTCP_TIMED_OUT] -> exists l,
    events (xtcpd_event ev p s2) = events s ++ l /\ callback_order l /\
    forall i, uip_conn s = Some i -> flag s UIP_CONNECTED = false -> closed_of (CPtcp i) s <> 0 -> XTCP_CLOSED ∉ l)
    as Hend.
  { intros ev (r & Hre & Hr & Hcr)%(ended_order ev p s2).
    exists (a ++ r). rewrite Hre, (em_events _ _ _ H2), app_assoc. split; [done|]. split; [exists a, r; auto|].
    intros i Hi Hf _. by destruct (Hfirst i Hi Hf) as [-> _]. }
  case_match; [apply Hend; constructor|]. case_match; [apply Hend; do 2 constructor|]. clear Hend.
  fold (data_stages p s2). fold (poll_stage p (data_stages p s2)).
  destruct (data_stages_runs p s2) as (k & b & c & Hr & Hb & Hc).
  destruct (closing_order p (data_stages p s2)) as (d & e & He & Hde & Hee & Hcl).
  { unfold flag in *. by rewrite (em_flags _ _ _ (run_emits _ _ _ Hr)), (em_flags _ _ _ H2). }
  exists (a ++ replicate k XTCP_RECV_DATA ++ b ++ c ++ d ++ e).
  rewrite He, (em_events _ _ _ (run_emits _ _ _ Hr)), (em_events _ _ _ H2), <- !app_assoc. split; [done|]. split.
  { exists a, (replicate k XTCP_RECV_DATA ++ b ++ c ++ d ++ e). split; [done|]. split; [done|]. right.
    by exists k, b, c, d, e. }
  intros i Hi Hf Hcc. destruct (Hfirst i Hi Hf) as [-> Hcs]. assert (e = []) as ->.
  { destruct e; [done|]. exfalso. apply Hcc. rewrite <- Hcs, <- (run_closed _ _ _ Hr).
    apply Hcl; [|done]. unfold uip_udpconnection.
    by rewrite (em_conn _ _ _ (run_emits _ _ _ Hr)), (em_conn _ _ _ H2), Hi. }
  rewrite app_nil_l, app_nil_r. by apply data_not_closed.
Qed.
End callback.
