(* ===== verification/Channel.v ===== *)
(** * Channels: two tasks that exchange tokens

    The channel ends of XC and of xs1.h, as far as xtcp_client.xc,
    xtcp_blocking_client.xc and xtcp_server.xc use them.  A task is a program
    [prog] that puts tokens on its channel end, gets tokens from it and ends
    with a value.  The two ends of a channel are joined by two queues of
    bounded capacity, and the two tasks take their steps in any order.

    [exch] says that two programs meet: they run to their ends.  It composes
    ([exch_bind]), so a transaction is proved from its parts, and it does not
    depend on the order of the steps ([exch_inevitable]). *)
From S2P Require Export Prelude.
From stdpp Require Export relations.
Local Open Scope Z_scope.

(** ** Tokens and programs *)

(** A control token; a word of 4 data tokens; a data token. *)
Inductive token : Type := Ct (c : Z) | Word (w : Z) | Byte (b : Z).

Inductive prog (A : Type) : Type :=
| Done (a : A)
| Put (t : token) (k : prog A)
| Get (k : token -> prog A)
| Trapped.
Arguments Done {A}. Arguments Put {A}. Arguments Get {A}. Arguments Trapped {A}.

Fixpoint bind {A B} (m : prog A) (f : A -> prog B) : prog B :=
  match m with
  | Done a => f a
  | Put t k => Put t (bind k f)
  | Get k => Get (fun t => bind (k t) f)
  | Trapped => Trapped
  end.
Declare Scope prog_scope.
Delimit Scope prog_scope with prog.
Notation "x <- m ;; f" := (bind m (fun x => f)) (at level 100, m at next level, right associativity) : prog_scope.
Notation "m ;;; f" := (bind m (fun _ => f)) (at level 100, right associativity) : prog_scope.
Local Open Scope prog_scope.

(** ** xs1.h *)

Definition XS1_CT_END : Z := 1.
Definition XS1_CT_PAUSE : Z := 2.
(** A pause frees the route and is not delivered. *)
Definition outct (c : Z) : prog unit := if c =? XS1_CT_PAUSE then Done tt else Put (Ct c) (Done tt).
Definition chkct (c : Z) : prog unit :=
  Get (fun t => match t with Ct c' => if c' =? c then Done tt else Trapped | _ => Trapped end).
Definition inct : prog Z := Get (fun t => match t with Ct c => Done c | _ => Trapped end).
Definition outuint (w : Z) : prog unit := Put (Word w) (Done tt).
Definition inuint : prog Z := Get (fun t => match t with Word w => Done w | _ => Trapped end).
Definition outuchar (b : Z) : prog unit := Put (Byte b) (Done tt).
Definition inuchar : prog Z := Get (fun t => match t with Byte b => Done b | _ => Trapped end).

(** ** The statements of XC *)

(** A transaction: both sides synchronise before and after it; [c <: x] and
    [c :> x] outside of a transaction are transactions of their own. *)
Definition end_master : prog unit := outct XS1_CT_END;;; chkct XS1_CT_END.
Definition end_slave : prog unit := chkct XS1_CT_END;;; outct XS1_CT_END.
Definition master {A} (m : prog A) : prog A := end_master;;; a <- m;; end_master;;; Done a.
Definition slave {A} (m : prog A) : prog A := end_slave;;; a <- m;; end_slave;;; Done a.

(** [for (int i=0;i<n;i++) c <: data[i]], and the loop that reads. *)
Fixpoint out_bytes (l : list Z) : prog unit :=
  match l with [] => Done tt | b :: l => outuchar b;;; out_bytes l end.
Fixpoint in_bytes (n : nat) : prog (list Z) :=
  match n with O => Done [] | S n => b <- inuchar;; l <- in_bytes n;; Done (b :: l) end.
Fixpoint out_words (l : list Z) : prog unit :=
  match l with [] => Done tt | w :: l => outuint w;;; out_words l end.
Fixpoint in_words (n : nat) : prog (list Z) :=
  match n with O => Done [] | S n => w <- inuint;; l <- in_words n;; Done (w :: l) end.

(** A context of a program: what is done with its value, at any depth. *)
Class Ctx {A B} (K : prog A -> prog B) : Prop := {
  ctx_put t k : K (Put t k) = Put t (K k);
  ctx_get k : K (Get k) = Get (fun t => K (k t)) }.
#[global] Instance ctx_id {A} : Ctx (fun m : prog A => m).
Proof. done. Qed.
#[global] Instance ctx_bind {A B B'} (K : prog A -> prog B) (f : B -> prog B') : Ctx K -> Ctx (fun m => bind (K m) f).
Proof. intros [Hp Hg]. split; intros; [by rewrite Hp|by rewrite Hg]. Qed.
#[global] Instance ctx_under {A B B'} (K : prog B -> prog B') (f : A -> prog B) : Ctx K -> Ctx (fun m => K (bind m f)).
Proof. intros [Hp Hg]. split; intros; cbn [bind]; [by rewrite Hp|by rewrite Hg]. Qed.
#[global] Hint Extern 10 (Ctx _) => (split; intros; cbn [bind]; first [apply ctx_put|apply ctx_get|reflexivity]) : typeclass_instances.

(** ** Two tasks on a channel *)

Record net (A B : Type) : Type := Net { client : prog A; to_server : list token; to_client : list token; server : prog B }.
Arguments Net {A B}. Arguments client {A B}. Arguments to_server {A B}.
Arguments to_client {A B}. Arguments server {A B}.

Section net.
(** The room of each direction, beyond one token. *)
Context {cap : nat}.
Definition room (q : list token) : Prop := (length q <= cap)%nat.

Inductive nstep {A B} : net A B -> net A B -> Prop :=
| PutLeft t k u d r : room u -> nstep (Net (Put t k) u d r) (Net k (u ++ [t]) d r)
| GetLeft t k u d r : nstep (Net (Get k) u (t :: d) r) (Net (k t) u d r)
| PutRight l u d t k : room d -> nstep (Net l u d (Put t k)) (Net l u (d ++ [t]) k)
| GetRight l t u d k : nstep (Net l (t :: u) d (Get k)) (Net l u d (k t)).
Definition met {A B} (a : A) (d : list token) (b : B) : net A B := Net (Done a) [] d (Done b).

(** *** The order of the steps does not matter *)

Lemma nstep_diamond {A B} (n n1 n2 : net A B) : nstep n n1 -> nstep n n2 -> n1 = n2 \/ exists n3, nstep n1 n3 /\ nstep n2 n3.
Proof.
  intros H1 H2. destruct H1; inversion H2; subst; try (by left); right; eexists; (split; [|constructor; unfold room in *; cbn in *; lia]);
    rewrite <- ?app_comm_cons; constructor; unfold room in *; cbn in *; lia.
Qed.
Lemma met_normal {A B} (a : A) d (b : B) n : ~ nstep (met a d b) n.
Proof. inversion 1. Qed.

(** [inevitable n n']: whatever steps are taken from [n], the rest of the way
    leads to [n'], and it has a fixed length. *)
Definition inevitable {A B} (n n' : net A B) : Prop :=
  exists len, forall k n1, nsteps nstep k n n1 -> (k <= len)%nat /\ nsteps nstep (len - k) n1 n'.
Lemma nsteps_first {A B} len : forall (n n1 : net A B) a d b, nsteps nstep len n (met a d b) -> nstep n n1 ->
  exists m, len = S m /\ nsteps nstep m n1 (met a d b).
Proof.
  induction len as [|len IH]; intros n n1 a d b H H1; inversion H as [|? ? n2 ? H2 Hr]; subst.
  - by apply met_normal in H1.
  - exists len. split; [done|]. destruct (nstep_diamond n n1 n2 H1 H2) as [->|(n3 & H13 & H23)]; [done|].
    destruct (IH n2 n3 a d b Hr H23) as (m & -> & Hm). by eapply nsteps_l.
Qed.
Lemma rtc_inevitable {A B} (n : net A B) a d b : rtc nstep n (met a d b) -> inevitable n (met a d b).
Proof.
  intros [len H]%rtc_nsteps. exists len. intros k. revert n len H. induction k as [|k IH]; intros n len H n1 Hk; inversion Hk as [|? ? n2 ? H2 Hr]; subst.
  - split; [lia|]. by rewrite Nat.sub_0_r.
  - destruct (nsteps_first len n n2 a d b H H2) as (m & -> & Hm). destruct (IH n2 m Hm n1 Hr) as [Hle Hrest].
    split; [lia|]. by replace (S m - S k)%nat with (m - k)%nat by lia.
Qed.

(** Confluence: a task that traps, traps whatever the order. *)
Lemma nstep_strip {A B} (n n1 n2 : net A B) : nstep n n1 -> rtc nstep n n2 -> exists n3, rtc nstep n1 n3 /\ (n2 = n3 \/ nstep n2 n3).
Proof.
  intros H1 H2. revert n1 H1. induction H2 as [n|n m n2 Hm H2 IH]; intros n1 H1; [exists n1; auto using rtc_refl|].
  destruct (nstep_diamond n n1 m H1 Hm) as [->|(k & H1k & Hmk)].
  - exists n2. auto.
  - destruct (IH k Hmk) as (n3 & H3 & Hn). exists n3. split; [by eapply rtc_l|done].
Qed.
Lemma nstep_confluent {A B} (n n1 n2 : net A B) : rtc nstep n n1 -> rtc nstep n n2 -> exists n3, rtc nstep n1 n3 /\ rtc nstep n2 n3.
Proof.
  intros H1. revert n2. induction H1 as [n|n m n1 Hm _ IH]; intros n2 H2; [eauto using rtc_refl|].
  destruct (nstep_strip n m n2 Hm H2) as (k & Hmk & Hk). destruct (IH k Hmk) as (n3 & H13 & H3). exists n3. split; [done|].
  destruct Hk as [->|Hk]; [done|by eapply rtc_l].
Qed.
Lemma trapped_stays {A B} (n n' : net A B) : rtc nstep n n' -> client n = Trapped -> client n' = Trapped.
Proof. induction 1 as [|n m n' Hm _ IH]; [done|]. intros Hc. apply IH. destruct Hm; cbn in *; congruence. Qed.
Lemma trapped_inevitable {A B} (n n' : net A B) : rtc nstep n n' -> client n' = Trapped ->
  forall n1, rtc nstep n n1 -> exists n2, rtc nstep n1 n2 /\ client n2 = Trapped.
Proof.
  intros H Hc n1 H1. destruct (nstep_confluent n n1 n' H1 H) as (n2 & H12 & H2). exists n2. split; [done|]. by eapply trapped_stays.
Qed.

(** *** Exchanges *)

(** The client [c], with [d] on its way to it, and the server [s] run to their
    ends, with the values [a] and [b]; [d'] is then on its way. *)
Definition exch {A B} (c : prog A) (d : list token) (s : prog B) (a : A) (d' : list token) (b : B) : Prop :=
  rtc nstep (Net c [] d s) (met a d' b).
Lemma exch_inevitable {A B} c d s (a : A) d' (b : B) : exch c d s a d' b -> inevitable (Net c [] d s) (met a d' b).
Proof. apply rtc_inevitable. Qed.

Definition net_ctx {A B A' B'} (K : prog A -> prog A') (M : prog B -> prog B') (n : net A B) : net A' B' :=
  Net (K (client n)) (to_server n) (to_client n) (M (server n)).
Lemma nstep_ctx {A B A' B'} (K : prog A -> prog A') (M : prog B -> prog B') `{!Ctx K, !Ctx M} n n' :
  nstep n n' -> nstep (net_ctx K M n) (net_ctx K M n').
Proof. destruct 1; unfold net_ctx; cbn; rewrite ?ctx_put, ?ctx_get; by constructor. Qed.
Lemma exch_ctx {A B A' B'} (K : prog A -> prog A') (M : prog B -> prog B') `{!Ctx K, !Ctx M} c d s a d' b a' d'' b' :
  exch c d s a d' b -> exch (K (Done a)) d' (M (Done b)) a' d'' b' -> exch (K c) d (M s) a' d'' b'.
Proof.
  intros H1 H2. unfold exch. transitivity (net_ctx K M (met a d' b)); [|exact H2].
  change (Net (K c) [] d (M s)) with (net_ctx K M (Net c [] d s)).
  by eapply rtc_congruence; [apply nstep_ctx; done|].
Qed.
Lemma rtc_ctx {A B A' B'} (K : prog A -> prog A') (M : prog B -> prog B') `{!Ctx K, !Ctx M} c d s a d' b :
  exch c d s a d' b -> rtc nstep (Net (K c) [] d (M s)) (Net (K (Done a)) [] d' (M (Done b))).
Proof.
  intros H. change (rtc nstep (net_ctx K M (Net c [] d s)) (net_ctx K M (met a d' b))).
  by eapply rtc_congruence; [apply nstep_ctx; done|].
Qed.
Lemma exch_bind {A B A' B'} (c : prog A) d (s : prog B) a d' b (f : A -> prog A') (g : B -> prog B') a' d'' b' :
  exch c d s a d' b -> exch (f a) d' (g b) a' d'' b' -> exch (bind c f) d (bind s g) a' d'' b'.
Proof. apply (exch_ctx (fun m => bind m f) (fun m => bind m g)). Qed.
Lemma exch_bind_right {A B B'} (c : prog A) d (s : prog B) a d' b (g : B -> prog B') d'' b' :
  exch c d s a d' b -> exch (Done a) d' (g b) a d'' b' -> exch c d (bind s g) a d'' b'.
Proof. apply (exch_ctx (fun m => m) (fun m => bind m g)). Qed.
Lemma exch_bind_left {A B A'} (c : prog A) d (s : prog B) a d' b (f : A -> prog A') a' d'' :
  exch c d s a d' b -> exch (f a) d' (Done b) a' d'' b -> exch (bind c f) d s a' d'' b.
Proof. apply (exch_ctx (fun m => bind m f) (fun m => m)). Qed.
Lemma exch_done {A B} (a : A) d (b : B) : exch (Done a) d (Done b) a d b.
Proof. apply rtc_refl. Qed.

(** *** Running *)

(** One step, the server's if it can take one; a token is only put on an
    empty queue, which every capacity allows. *)
Definition net_step {A B} (n : net A B) : option (net A B) :=
  match n with
  | Net l (t :: u) d (Get k) => Some (Net l u d (k t))
  | Net (Get k) u (t :: d) r => Some (Net (k t) u d r)
  | Net l u [] (Put t k) => Some (Net l u [t] k)
  | Net (Put t k) [] d r => Some (Net k [t] d r)
  | _ => None
  end.
Lemma net_step_sound {A B} (n n' : net A B) : net_step n = Some n' -> nstep n n'.
Proof.
  assert (room []) as H0 by (unfold room; cbn; lia).
  destruct n as [l u d r]. destruct l, u, d, r; cbn; intros [=]; subst;
    first [apply GetRight|apply GetLeft|apply (PutRight _ _ []); exact H0|apply (PutLeft _ _ []); exact H0].
Qed.
Fixpoint net_run {A B} (fuel : nat) (n : net A B) : net A B :=
  match fuel with
  | O => n
  | S fuel => match net_step n with Some n' => net_run fuel n' | None => n end
  end.
Lemma net_run_sound {A B} fuel : forall n : net A B, rtc nstep n (net_run fuel n).
Proof.
  induction fuel as [|fuel IH]; intros n; cbn; [done|]. destruct (net_step n) as [n'|] eqn:E; [|done].
  eapply rtc_l; [by apply net_step_sound|apply IH].
Qed.
Lemma run_exch {A B} fuel (c : prog A) d (s : prog B) a d' b : net_run fuel (Net c [] d s) = met a d' b -> exch c d s a d' b.
Proof. intros H. unfold exch. rewrite <- H. apply net_run_sound. Qed.

Lemma exch_prefix {A B} fuel (c : prog A) d (s : prog B) c' d1 s' a d' b :
  net_run fuel (Net c [] d s) = Net c' [] d1 s' -> exch c' d1 s' a d' b -> exch c d s a d' b.
Proof. intros H H'. unfold exch. etransitivity; [apply (net_run_sound fuel)|]. by rewrite H. Qed.

Lemma exch_put {A B} (c : prog A) t (s : prog B) a d' b : exch c [t] s a d' b -> exch c [] (Put t s) a d' b.
Proof. intros H. eapply rtc_l; [apply (PutRight c [] []); unfold room; cbn; lia|exact H]. Qed.

(** *** Data *)

(** Transfers in both directions, word by word and byte by byte. *)
Lemma exch_loop {X : Type} (puts : list X -> prog unit) (gets : nat -> prog (list X)) (put1 : X -> prog unit) (get1 : prog X) l :
  puts [] = Done tt -> gets O = Done [] -> (forall x l, puts (x :: l) = (put1 x;;; puts l)) ->
  (forall n, gets (S n) = (x <- get1;; l <- gets n;; Done (x :: l))) ->
  (forall x, exch (put1 x) [] get1 tt [] x) -> exch (puts l) [] (gets (length l)) tt [] l.
Proof.
  intros P0 G0 P1 G1 H1. induction l as [|x l IH]; cbn [length]; [rewrite P0, G0; apply exch_done|].
  rewrite P1, G1. eapply exch_bind; [apply H1|]. cbn beta. eapply exch_bind_right; [exact IH|]. apply exch_done.
Qed.
Lemma exch_loop_down {X : Type} (puts : list X -> prog unit) (gets : nat -> prog (list X)) (put1 : X -> prog unit) (get1 : prog X) l :
  puts [] = Done tt -> gets O = Done [] -> (forall x l, puts (x :: l) = (put1 x;;; puts l)) ->
  (forall n, gets (S n) = (x <- get1;; l <- gets n;; Done (x :: l))) ->
  (forall x, exch get1 [] (put1 x) x [] tt) -> exch (gets (length l)) [] (puts l) l [] tt.
Proof.
  intros P0 G0 P1 G1 H1. induction l as [|x l IH]; cbn [length]; [rewrite P0, G0; apply exch_done|].
  rewrite P1, G1. eapply exch_bind; [apply H1|]. cbn beta. eapply exch_bind_left; [exact IH|]. apply exch_done.
Qed.
Lemma exch_bytes_up l : exch (out_bytes l) [] (in_bytes (length l)) tt [] l.
Proof. by apply (exch_loop _ _ outuchar inuchar); [..|intros x; apply (run_exch 2)]. Qed.
Lemma exch_bytes_down l : exch (in_bytes (length l)) [] (out_bytes l) l [] tt.
Proof. by apply (exch_loop_down _ _ outuchar inuchar); [..|intros x; apply (run_exch 2)]. Qed.
Lemma exch_words_down l : exch (in_words (length l)) [] (out_words l) l [] tt.
Proof. by apply (exch_loop_down _ _ outuint inuint); [..|intros x; apply (run_exch 2)]. Qed.

(** Transactions, the client as master and the server as slave, and the other
    way round. *)
Lemma exch_master {A B} (c : prog A) (s : prog B) a b : exch c [] s a [] b -> exch (master c) [] (slave s) a [] b.
Proof.
  intros H. eapply exch_bind; [by apply (run_exch 4)|]. eapply exch_bind; [exact H|]. cbn beta.
  eapply exch_bind; [by apply (run_exch 4)|]. apply exch_done.
Qed.
Lemma exch_slave {A B} (c : prog A) (s : prog B) a b : exch c [] s a [] b -> exch (slave c) [] (master s) a [] b.
Proof.
  intros H. eapply exch_bind; [by apply (run_exch 4)|]. eapply exch_bind; [exact H|]. cbn beta.
  eapply exch_bind; [by apply (run_exch 4)|]. apply exch_done.
Qed.
End net.
