(* ===== verification/XcClient.v ===== *)
(** * The client library: [xtcp_client.xc]

    Every function of the library is the program that it runs on the channel to
    the server.  [int]s travel as words ([out_int], [in_int]), the members of a
    connection as the words of its memory ([conn_words]). *)
From S2P Require Export Channel Xtcp.
Local Open Scope Z_scope.
Local Open Scope prog_scope.

(** ** Data on the channel *)

Definition out_int (x : Z) : prog unit := outuint (w32 x).
Definition in_int : prog Z := w <- inuint;; Done (s32 w).
(** [xtcp_ipaddr_t] in a loop, or byte by byte. *)
Definition out_ipaddr (a : u8x4) : prog unit := out_bytes [q0 a; q1 a; q2 a; q3 a].
Definition in_ipaddr : prog u8x4 := q0 <- inuchar;; q1 <- inuchar;; q2 <- inuchar;; q3 <- inuchar;; Done (U4 q0 q1 q2 q3).

(** Enumerations; no other value is ever sent. *)
Definition protocol_word (p : xtcp_protocol_t) : Z := match p with XTCP_PROTOCOL_TCP => 0 | XTCP_PROTOCOL_UDP => 1 end.
Definition word_protocol (w : Z) : xtcp_protocol_t := if w =? 0 then XTCP_PROTOCOL_TCP else XTCP_PROTOCOL_UDP.
Definition type_word (t : xtcp_connection_type_t) : Z := match t with XTCP_CLIENT_CONNECTION => 0 | XTCP_SERVER_CONNECTION => 1 end.
Definition word_type (w : Z) : xtcp_connection_type_t := if w =? 0 then XTCP_CLIENT_CONNECTION else XTCP_SERVER_CONNECTION.
Definition event_types : list xtcp_event_type_t :=
  [XTCP_NEW_CONNECTION; XTCP_RECV_DATA; XTCP_REQUEST_DATA; XTCP_SENT_DATA; XTCP_RESEND_DATA; XTCP_TIMED_OUT;
   XTCP_ABORTED; XTCP_CLOSED; XTCP_POLL; XTCP_IFUP; XTCP_IFDOWN; XTCP_ALREADY_HANDLED].
Definition event_word (ev : xtcp_event_type_t) : Z :=
  match ev with
  | XTCP_NEW_CONNECTION => 0 | XTCP_RECV_DATA => 1 | XTCP_REQUEST_DATA => 2 | XTCP_SENT_DATA => 3
  | XTCP_RESEND_DATA => 4 | XTCP_TIMED_OUT => 5 | XTCP_ABORTED => 6 | XTCP_CLOSED => 7 | XTCP_POLL => 8
  | XTCP_IFUP => 9 | XTCP_IFDOWN => 10 | XTCP_ALREADY_HANDLED => 11
  end.
Definition word_event (w : Z) : xtcp_event_type_t := nth (Z.to_nat w) event_types XTCP_ALREADY_HANDLED.

(** [(conn,unsigned int[])[i]], for the [sizeof(conn)>>2] words of a connection. *)
Definition conn_size : nat := 9.
Definition addr_word (a : u8x4) : Z := q0 a + 256 * q1 a + 65536 * q2 a + 16777216 * q3 a.
Definition word_addr (w : Z) : u8x4 := U4 (w mod 256) (w / 256 mod 256) (w / 65536 mod 256) (w / 16777216).
Definition conn_words (c : xtcp_connection_t) : list Z :=
  [w32 (id c); protocol_word (protocol c); type_word (connection_type c); event_word (event c); conn_appstate c;
   addr_word (remote_addr c); remote_port c; local_port c; conn_mss c].
Definition words_conn (l : list Z) : xtcp_connection_t :=
  XtcpConnection (s32 (nth 0 l 0)) (word_protocol (nth 1 l 0)) (word_type (nth 2 l 0)) (word_event (nth 3 l 0)) (nth 4 l 0)
    (word_addr (nth 5 l 0)) (nth 6 l 0) (nth 7 l 0) (nth 8 l 0).

(** ** Commands *)

Definition XTCP_CMD_TOKEN : Z := 128.
Definition XTCP_CMD_LISTEN : Z := 0.
Definition XTCP_CMD_UNLISTEN : Z := 1.
Definition XTCP_CMD_CONNECT : Z := 2.
Definition XTCP_CMD_BIND_LOCAL : Z := 3.
Definition XTCP_CMD_BIND_REMOTE : Z := 4.
Definition XTCP_CMD_INIT_SEND : Z := 5.
Definition XTCP_CMD_SET_APPSTATE : Z := 6.
Definition XTCP_CMD_CLOSE : Z := 7.
Definition XTCP_CMD_ABORT : Z := 8.
Definition XTCP_CMD_SET_POLL_INTERVAL : Z := 10.
Definition XTCP_CMD_JOIN_GROUP : Z := 11.
Definition XTCP_CMD_LEAVE_GROUP : Z := 12.
Definition XTCP_CMD_GET_MAC_ADDRESS : Z := 13.
Definition XTCP_CMD_GET_IPCONFIG : Z := 14.
Definition XTCP_CMD_ACK_RECV : Z := 15.
Definition XTCP_CMD_ACK_RECV_MODE : Z := 16.
Definition XTCP_CMD_PAUSE : Z := 17.
Definition XTCP_CMD_UNPAUSE : Z := 18.
Definition XTCP_CMD_ACCEPT_PARTIAL_ACK : Z := 20.

Definition send_cmd (cmd conn_id : Z) : prog unit :=
  outct XTCP_CMD_TOKEN;;;
  outct XS1_CT_PAUSE;;;
  chkct XS1_CT_END;;;
  chkct XS1_CT_END;;;
  outuint cmd;;;
  out_int conn_id;;;
  outct XS1_CT_END;;;
  chkct XS1_CT_END.

Definition xtcp_listen (port_number : Z) (p : xtcp_protocol_t) : prog unit :=
  send_cmd XTCP_CMD_LISTEN 0;;;
  master (out_int port_number;;; outuint (protocol_word p)).
Definition xtcp_unlisten (port_number : Z) : prog unit :=
  send_cmd XTCP_CMD_UNLISTEN 0;;;
  master (out_int port_number).
Definition xtcp_connect (port_number : Z) (ipaddr : u8x4) (p : xtcp_protocol_t) : prog unit :=
  send_cmd XTCP_CMD_CONNECT 0;;;
  master (out_int port_number;;; out_ipaddr ipaddr;;; outuint (protocol_word p)).
Definition xtcp_bind_local (conn_id port_number : Z) : prog unit :=
  send_cmd XTCP_CMD_BIND_LOCAL conn_id;;;
  master (out_int port_number).
Definition xtcp_bind_remote (conn_id : Z) (addr : u8x4) (port_number : Z) : prog unit :=
  send_cmd XTCP_CMD_BIND_REMOTE conn_id;;;
  master (out_ipaddr addr;;; out_int port_number).
Definition xtcp_init_send (conn_id : Z) : prog unit := send_cmd XTCP_CMD_INIT_SEND conn_id.
Definition xtcp_set_connection_appstate (conn_id appstate : Z) : prog unit :=
  send_cmd XTCP_CMD_SET_APPSTATE conn_id;;;
  master (outuint appstate).
Definition xtcp_close (conn_id : Z) : prog unit := send_cmd XTCP_CMD_CLOSE conn_id.
Definition xtcp_ack_recv (conn_id : Z) : prog unit := send_cmd XTCP_CMD_ACK_RECV conn_id.
Definition xtcp_ack_recv_mode (conn_id : Z) : prog unit := send_cmd XTCP_CMD_ACK_RECV_MODE conn_id.
Definition xtcp_abort (conn_id : Z) : prog unit := send_cmd XTCP_CMD_ABORT conn_id.
Definition xtcp_pause (conn_id : Z) : prog unit := send_cmd XTCP_CMD_PAUSE conn_id.
Definition xtcp_unpause (conn_id : Z) : prog unit := send_cmd XTCP_CMD_UNPAUSE conn_id.
Definition xtcp_set_poll_interval (conn_id poll_interval : Z) : prog unit :=
  send_cmd XTCP_CMD_SET_POLL_INTERVAL conn_id;;;
  master (out_int poll_interval).
Definition xtcp_join_multicast_group (addr : u8x4) : prog unit :=
  send_cmd XTCP_CMD_JOIN_GROUP 0;;;
  master (out_ipaddr addr).
Definition xtcp_leave_multicast_group (addr : u8x4) : prog unit :=
  send_cmd XTCP_CMD_LEAVE_GROUP 0;;;
  master (out_ipaddr addr).
Definition xtcp_accept_partial_ack (conn_id : Z) : prog unit := send_cmd XTCP_CMD_ACCEPT_PARTIAL_ACK conn_id.
(** Six inputs outside of a transaction. *)
Definition xtcp_get_mac_address : prog (list Z) :=
  send_cmd XTCP_CMD_GET_MAC_ADDRESS 0;;;
  m0 <- slave inuchar;; m1 <- slave inuchar;; m2 <- slave inuchar;;
  m3 <- slave inuchar;; m4 <- slave inuchar;; m5 <- slave inuchar;;
  Done [m0; m1; m2; m3; m4; m5].
Definition xtcp_get_ipconfig : prog (u8x4 * u8x4 * u8x4) :=
  send_cmd XTCP_CMD_GET_IPCONFIG 0;;;
  slave (ipaddr <- in_ipaddr;; netmask <- in_ipaddr;; gateway <- in_ipaddr;; Done (ipaddr, netmask, gateway)).

(** ** Events and data *)

Definition xtcp_event : prog xtcp_connection_t := l <- in_words conn_size;; Done (words_conn l).
Definition do_xtcp_event : prog xtcp_connection_t := slave xtcp_event.

(** The functions that receive give the array after them and the length. *)
Definition xtcp_recvi (data : list Z) (index : Z) : prog (list Z * Z) :=
  r <- slave (out_int 1;;; len <- in_int;; l <- in_bytes (Z.to_nat len);; Done (wrs index l data, len));;
  chkct XS1_CT_END;;;
  Done r.
Definition xtcp_recv (data : list Z) : prog (list Z * Z) := xtcp_recvi data 0.
Definition xtcp_recv_count (data : list Z) (count : Z) : prog (list Z * Z) :=
  r <- slave (out_int 1;;; len <- in_int;;
    let rxc := if count <? len then count else len in
    l <- in_bytes (Z.to_nat len);; Done (wrs 0 (firstn (Z.to_nat rxc) l) data, len));;
  chkct XS1_CT_END;;;
  Done r.
Definition xtcp_ignore_recv : prog unit :=
  slave (out_int 1;;; len <- in_int;; in_bytes (Z.to_nat len);;; Done tt).
(** [slave { tcp_svr <: 0; }] of xtcp_blocking_client.xc: not now. *)
Definition delay_recv : prog unit := slave (out_int 0).
Definition xtcp_sendi (data : list Z) (index len : Z) : prog unit :=
  slave (out_int len;;; out_bytes (rds data index (Z.to_nat len))).
Definition xtcp_send (data : list Z) (len : Z) : prog unit := xtcp_sendi data 0 len.
Definition xtcp_complete_send : prog unit := xtcp_send [] 0.

Definition xtcp_uint_to_ipaddr (i : Z) : u8x4 :=
  let ip0 := Z.land i 255 in
  let i := Z.shiftr i 8 in
  let ip1 := Z.land i 255 in
  let i := Z.shiftr i 8 in
  let ip2 := Z.land i 255 in
  let i := Z.shiftr i 8 in
  U4 ip0 ip1 ip2 (Z.land i 255).
