(* ===== verification/XcServer.v ===== *)
(** * The server's side of the channels: [xtcp_server.xc], token by token

    [Xtcp] sees a client as a list of commands and answers.  Here the functions
    of xtcp_server.xc are programs on the channel of one client, the link [i];
    the stack they act upon is that of [Xtcp].  The theorems of [XcRun] show
    that the two agree.

    [xtcpd_service_clients_until_ready] polls all links.  A poll that finds no
    token changes nothing, and serving another link happens on that link's
    channel; so on link [i] the loop is seen as: what is served to other links in
    the meantime, then the next token of this link. *)
From S2P Require Export XcClient.
Local Open Scope Z_scope.
Local Open Scope prog_scope.

(** [notified], and the rest of the server. *)
Record links (S : Type) : Type := Links {
  notified : list bool;
  stack : S }.
Arguments Links {S}. Arguments notified {S}. Arguments stack {S}.
#[export] Instance eta_links {S} : Eta (links S) := fun r => Links r.(notified) r.(stack).

(** [dummy_conn], a static variable of which only the event is ever set. *)
Definition dummy_conn : xtcp_connection_t :=
  XtcpConnection 0 XTCP_PROTOCOL_TCP XTCP_CLIENT_CONNECTION XTCP_NEW_CONNECTION 0 (U4 0 0 0 0) 0 0 0.

Section server.
Context {F : Type}.
Notation S := (uip_state (xtcp_env F)).
Notation L := (links S).
Implicit Types s : S.
Implicit Types v : L.

Definition is_notified (i : nat) v : bool := nth i (notified v) false.
Definition set_notified (i : nat) (b : bool) v : L := v <| notified ::= <[i := b]> |>.
Definition pending (i : nat) v : option xtcp_event_type_t := nth i (pending_event (env (stack v))) None.
Definition on_stack (f : S -> S) v : L := v <| stack ::= f |>.

Definition xtcpd_server_init v : L :=
  on_stack (upd_env (fun e => e <| pending_event := repeat None MAX_XTCP_CLIENTS |>))
    (v <| notified := repeat false MAX_XTCP_CLIENTS |>).

Definition send_conn_and_complete (conn : xtcp_connection_t) : prog unit :=
  out_words (conn_words conn);;;
  outct XS1_CT_END;;;
  chkct XS1_CT_END.

(** The commands; an identifier that is none of them is ignored. *)
Definition link_handle_cmd (i : nat) (cmd conn_id : Z) v : prog L :=
  let run c := Done (on_stack (handle_xtcp_cmd (Z.of_nat i) c) v) in
  if cmd =? XTCP_CMD_LISTEN then
    a <- slave (port_number <- in_int;; protocol <- inuint;; Done (port_number, protocol));;
    run (CMD_LISTEN (fst a) (word_protocol (snd a)))
  else if cmd =? XTCP_CMD_UNLISTEN then
    port_number <- slave in_int;; run (CMD_UNLISTEN port_number)
  else if cmd =? XTCP_CMD_CONNECT then
    slave (port_number <- in_int;; ipaddr <- in_ipaddr;; protocol <- inuint;;
      run (CMD_CONNECT port_number ipaddr (word_protocol protocol)))
  else if cmd =? XTCP_CMD_BIND_REMOTE then
    a <- slave (ipaddr <- in_ipaddr;; port_number <- in_int;; Done (ipaddr, port_number));;
    run (CMD_BIND_REMOTE conn_id (fst a) (snd a))
  else if cmd =? XTCP_CMD_BIND_LOCAL then
    port_number <- slave in_int;; run (CMD_BIND_LOCAL conn_id port_number)
  else if cmd =? XTCP_CMD_INIT_SEND then run (CMD_INIT_SEND conn_id)
  else if cmd =? XTCP_CMD_SET_APPSTATE then
    appstate <- slave inuint;; run (CMD_SET_APPSTATE conn_id appstate)
  else if cmd =? XTCP_CMD_ABORT then run (CMD_ABORT conn_id)
  else if cmd =? XTCP_CMD_CLOSE then run (CMD_CLOSE conn_id)
  else if cmd =? XTCP_CMD_SET_POLL_INTERVAL then
    poll_interval <- slave in_int;; run (CMD_SET_POLL_INTERVAL conn_id poll_interval)
  else if cmd =? XTCP_CMD_JOIN_GROUP then ipaddr <- slave in_ipaddr;; run (CMD_JOIN_GROUP ipaddr)
  else if cmd =? XTCP_CMD_LEAVE_GROUP then ipaddr <- slave in_ipaddr;; run (CMD_LEAVE_GROUP ipaddr)
  else if cmd =? XTCP_CMD_GET_MAC_ADDRESS then
    let mac_addr := xtcpd_get_mac_address (stack v) in
    let put j := master (outuchar (nth j mac_addr 0)) in
    put 0%nat;;; put 1%nat;;; put 2%nat;;; put 3%nat;;; put 4%nat;;; put 5%nat;;; run CMD_GET_MAC_ADDRESS
  else if cmd =? XTCP_CMD_GET_IPCONFIG then
    let '(ipaddr, netmask, gateway) := xtcpd_get_ipconfig (stack v) in
    master (out_ipaddr ipaddr;;; out_ipaddr netmask;;; out_ipaddr gateway);;; run CMD_GET_IPCONFIG
  else if cmd =? XTCP_CMD_ACK_RECV then run (CMD_ACK_RECV conn_id)
  else if cmd =? XTCP_CMD_ACK_RECV_MODE then run (CMD_ACK_RECV_MODE conn_id)
  else if cmd =? XTCP_CMD_PAUSE then run (CMD_PAUSE conn_id)
  else if cmd =? XTCP_CMD_UNPAUSE then run (CMD_UNPAUSE conn_id)
  else Done v.

(** [xtcpd_service_client0] when the poll finds the token [tok]. *)
Definition service_token (i : nat) (waiting_link tok : Z) v : prog L :=
  if tok =? XS1_CT_END then
    let v := set_notified i false v in
    match pending i v with
    | Some ev =>
        send_conn_and_complete (dummy_conn <| event := ev |>);;;
        let v := on_stack (upd_env (take_event i)) v in
        if Z.of_nat i =? waiting_link then outct XS1_CT_END;;; Done (set_notified i true v) else Done v
    | None => Done v
    end
  else
    outct XS1_CT_END;;;
    (if negb (is_notified i v) then outct XS1_CT_END else Done tt);;;
    cmd <- inuint;;
    conn_id <- in_int;;
    chkct XS1_CT_END;;;
    outct XS1_CT_END;;;
    v <- link_handle_cmd i cmd conn_id v;;
    (if is_notified i v then outct XS1_CT_END else Done tt);;;
    Done v.
(** [found]: whether a token was at the channel end. *)
Definition xtcpd_service_client0 (found : bool) (i : nat) (waiting_link : Z) v : prog (Z * L) :=
  if found then tok <- inct;; v <- service_token i waiting_link tok v;; Done (1, v) else Done (0, v).

(** What is served to other links. *)
Definition serve_others (l : list client_act) v : L := on_stack (serve l) v.

(** The oracles of [Xtcp] advance with the program. *)
Definition next_batch s : S := upd_env (fun e => e <| script ::= tail |>) s.
Definition next_ready s : S := upd_env (fun e => e <| ready ::= tail |>) s.
Definition next_answer s : S := upd_env (fun e => e <| answers ::= tail |>) s.

(** The loop that waits for link [i]: what is served before each of its
    tokens, and, in the round of the last of them, behind it. *)
Definition wait_turns : Type := list (list client_act) * list client_act.
Fixpoint service_loop (others : list (list client_act)) (i : nat) v : prog L :=
  if is_notified i v then
    match others with
    | [] => Trapped
    | o :: others =>
        r <- xtcpd_service_client0 true i (Z.of_nat i) (serve_others o v);;
        service_loop others i (snd r)
    end
  else Done v.
Definition link_until_ready (t : wait_turns) (i : nat) v : prog L :=
  let v := on_stack next_batch v in
  v <- (if negb (is_notified i v) then outct XS1_CT_END;;; Done (set_notified i true v) else Done v);;
  v <- service_loop (fst t) i v;;
  Done (serve_others (snd t) v).

(** ** Events and data *)

Definition link_send_event (i : nat) (ev : xtcp_event_type_t) (p : connptr) v : prog L :=
  let v := on_stack (upd_xconn p (fun c => c <| event := ev |>)) v in
  let conn := xconn (app_at p (stack v)) in
  send_conn_and_complete conn;;;
  Done (on_stack (say (OutEvent (Z.of_nat i) ev (id conn))) v).

Definition do_recv (datalen : Z) (data : list Z) : prog Z :=
  client_ready <- in_int;;
  (if negb (client_ready =? 0) then out_int datalen;;; out_bytes data else Done tt);;;
  Done client_ready.
(** The loop of [xtcpd_recv]; the turns of every wait for the client. *)
Fixpoint link_recv (waits : list wait_turns) (i : nat) (p : connptr) (data datalen : Z) v : prog L :=
  v <- link_send_event i XTCP_RECV_DATA p v;;
  let received := rds (uip_buf (stack v)) data (Z.to_nat datalen) in
  client_ready <- master (do_recv datalen received);;
  let v := on_stack next_ready v in
  if client_ready =? 0 then
    match waits with
    | [] => Trapped
    | t :: waits => v <- link_until_ready t i v;; link_recv waits i p data datalen v
    end
  else
    outct XS1_CT_END;;;
    Done (on_stack (say (OutRecv (Z.of_nat i) (id (xconn (app_at p (stack v)))) received)) v).

Definition link_send (i : nat) (ev : xtcp_event_type_t) (p : connptr) (data mss : Z) v : prog (L * Z) :=
  let v := on_stack (upd_xconn p (fun c => (c <| event := ev |>) <| conn_mss := mss |>)) v in
  let conn := xconn (app_at p (stack v)) in
  send_conn_and_complete conn;;;
  a <- master (len <- in_int;; l <- in_bytes (Z.to_nat len);; Done (l, len));;
  let v := on_stack (say (OutEvent (Z.of_nat i) ev (id conn))) v in
  Done (on_stack (store_answer data (fst a)) (on_stack next_answer v), snd a).

Definition xtcpd_queue_event (i : nat) (ev : xtcp_event_type_t) v : prog L :=
  let v := on_stack (upd_env (queue_event i ev)) v in
  if negb (is_notified i v) then outct XS1_CT_END;;; Done (set_notified i true v) else Done v.
End server.
