(* ===== verification/XcRun.v ===== *)
(** * The channel protocol implements the interface of [Xtcp]

    For every function of the client library and the server's side of it: the
    two meet, whatever the order of their steps and the capacity of the channel,
    the client gets what it asks for and the server's stack is left as [Xtcp]
    says.  A notification that is on its way when a command starts is taken back
    and sent again. *)
From S2P Require Export XcServer.
Local Open Scope Z_scope.
Local Open Scope prog_scope.

Section run.
Context {cap : nat} {F : Type}.
Notation S := (uip_state (xtcp_env F)).
Notation L := (links S).
Local Abbreviation exch := (exch (cap := cap)).
Implicit Types s : S.
Implicit Types v : L.

(** ** Words *)

Definition int_ok (x : Z) : Prop := -2147483648 <= x < 2147483648.
Lemma s32_w32 x : int_ok x -> s32 (w32 x) = x.
Proof. unfold int_ok, s32, w32. intros. zdm. Qed.
Definition conn_ok (c : xtcp_connection_t) : Prop := int_ok (id c) /\ u8x4_ok (remote_addr c).
Lemma word_addr_word a : u8x4_ok a -> word_addr (addr_word a) = a.
Proof.
  destruct a as [a0 a1 a2 a3]. unfold u8x4_ok, u8, word_addr, addr_word. cbn. intros (H0 & H1 & H2 & H3). f_equal; zdm.
Qed.
Lemma words_conn_words c : conn_ok c -> words_conn (conn_words c) = c.
Proof.
  intros [Hid Ha]. unfold words_conn, conn_words. cbn [nth]. rewrite s32_w32, word_addr_word by done.
  destruct c as [i p t ev ap ra rp lp ms]. cbn. by destruct p, t, ev.
Qed.
Lemma u4_eta a : U4 (q0 a) (q1 a) (q2 a) (q3 a) = a.
Proof. by destruct a. Qed.

(** ** Commands *)

Inductive reply : Type := R_done | R_mac (mac_addr : list Z) | R_ipconfig (ipaddr netmask gateway : u8x4).
(** The client function of each command. *)
Definition api (cmd : xtcp_cmd_t) : prog reply :=
  match cmd with
  | CMD_LISTEN port p => xtcp_listen port p;;; Done R_done
  | CMD_UNLISTEN port => xtcp_unlisten port;;; Done R_done
  | CMD_CONNECT port addr p => xtcp_connect port addr p;;; Done R_done
  | CMD_BIND_LOCAL conn_id port => xtcp_bind_local conn_id port;;; Done R_done
  | CMD_BIND_REMOTE conn_id addr port => xtcp_bind_remote conn_id addr port;;; Done R_done
  | CMD_INIT_SEND conn_id => xtcp_init_send conn_id;;; Done R_done
  | CMD_SET_APPSTATE conn_id a => xtcp_set_connection_appstate conn_id a;;; Done R_done
  | CMD_ABORT conn_id => xtcp_abort conn_id;;; Done R_done
  | CMD_CLOSE conn_id => xtcp_close conn_id;;; Done R_done
  | CMD_SET_POLL_INTERVAL conn_id ms => xtcp_set_poll_interval conn_id ms;;; Done R_done
  | CMD_ACK_RECV conn_id => xtcp_ack_recv conn_id;;; Done R_done
  | CMD_ACK_RECV_MODE conn_id => xtcp_ack_recv_mode conn_id;;; Done R_done
  | CMD_PAUSE conn_id => xtcp_pause conn_id;;; Done R_done
  | CMD_UNPAUSE conn_id => xtcp_unpause conn_id;;; Done R_done
  | CMD_JOIN_GROUP addr => xtcp_join_multicast_group addr;;; Done R_done
  | CMD_LEAVE_GROUP addr => xtcp_leave_multicast_group addr;;; Done R_done
  | CMD_GET_MAC_ADDRESS => m <- xtcp_get_mac_address;; Done (R_mac m)
  | CMD_GET_IPCONFIG => c <- xtcp_get_ipconfig;; Done (let '(ip, mask, gw) := c in R_ipconfig ip mask gw)
  end.
(** The array [mac_addr] of [handle_xtcp_cmd]. *)
Definition mac6 (m : list Z) : list Z := [nth 0 m 0; nth 1 m 0; nth 2 m 0; nth 3 m 0; nth 4 m 0; nth 5 m 0].
Definition reply_of (cmd : xtcp_cmd_t) s : reply :=
  match cmd with
  | CMD_GET_MAC_ADDRESS => R_mac (mac6 (xtcpd_get_mac_address s))
  | CMD_GET_IPCONFIG => let '(ip, mask, gw) := xtcpd_get_ipconfig s in R_ipconfig ip mask gw
  | _ => R_done
  end.
(** The [int]s of a command. *)
Definition cmd_ok (cmd : xtcp_cmd_t) : Prop :=
  match cmd with
  | CMD_LISTEN x _ | CMD_UNLISTEN x | CMD_CONNECT x _ _ => int_ok x
  | CMD_BIND_LOCAL c x | CMD_BIND_REMOTE c _ x | CMD_SET_POLL_INTERVAL c x => int_ok c /\ int_ok x
  | CMD_INIT_SEND c | CMD_SET_APPSTATE c _ | CMD_ABORT c | CMD_CLOSE c | CMD_ACK_RECV c | CMD_ACK_RECV_MODE c
  | CMD_PAUSE c | CMD_UNPAUSE c => int_ok c
  | _ => True
  end.
Definition note (b : bool) : list token := if b then [Ct XS1_CT_END] else [].

Ltac run_net :=
  lazy -[handle_xtcp_cmd stack is_notified on_stack Z.of_nat w32 s32 xtcpd_get_mac_address uip_hostaddr uip_netmask uip_draddr q0 q1 q2 q3].
Lemma command_exch i waiting_link cmd v : cmd_ok cmd ->
  exch (api cmd) (note (is_notified i v)) (xtcpd_service_client0 true i waiting_link v)
    (reply_of cmd (stack v)) (note (is_notified i v)) (1, on_stack (handle_xtcp_cmd (Z.of_nat i) cmd) v).
Proof.
  intros Hok. unfold xtcpd_service_client0.
  assert (forall f, is_notified i (on_stack f v) = is_notified i v) as Hf by done.
  destruct cmd; cbn in Hok; destruct (is_notified i v) eqn:E; try destruct p;
    apply (run_exch 130); unfold service_token; rewrite ?E; run_net; rewrite ?Hf, ?E; try run_net;
    rewrite ?s32_w32, ?u4_eta by first [done|apply Hok]; reflexivity.
Qed.
(** The same for the library function alone, with no notification. *)
Lemma init_send_exch i waiting_link c v : int_ok c -> is_notified i v = false ->
  exch (xtcp_init_send c) [] (xtcpd_service_client0 true i waiting_link v) tt [] (1, on_stack (xtcpd_init_send c) v).
Proof.
  intros Hok E. unfold xtcpd_service_client0. assert (forall f, is_notified i (on_stack f v) = is_notified i v) as Hf by done.
  apply (run_exch 130). unfold service_token. rewrite E. run_net. rewrite ?Hf, ?E, ?s32_w32 by done. reflexivity.
Qed.

(** ** Commands leave the oracles and the queued events alone *)

(** What the clients will do, and the queued events. *)
Definition oracles (e : xtcp_env F) : list (list client_act) * list bool * list (list Z) := (script e, ready e, answers e).
Definition client_side (e : xtcp_env F) := (oracles e, pending_event e).
Definition same_oracles s s' : Prop := client_side (env s') = client_side (env s).
Lemma same_oracles_trans s s' s'' : same_oracles s s' -> same_oracles s' s'' -> same_oracles s s''.
Proof. unfold same_oracles. congruence. Qed.
Lemma oracles_upd_env f s : (forall e, client_side (f e) = client_side e) -> same_oracles s (upd_env f s).
Proof. intros H. apply H. Qed.
Lemma oracles_upd_app p f s : same_oracles s (upd_app p f s).
Proof. by destruct p. Qed.
Lemma oracles_upd_xs p f s : same_oracles s (upd_xs p f s).
Proof. by destruct p. Qed.
Lemma oracles_upd_xconn p f s : same_oracles s (upd_xconn p f s).
Proof. by destruct p. Qed.
Lemma oracles_tcp_block p f s : same_oracles s (upd_tcp_block p f s).
Proof. by destruct p. Qed.
Lemma oracles_udp_block p f s : same_oracles s (upd_udp_block p f s).
Proof. by destruct p. Qed.
Lemma oracles_with_conn c f s : (forall p s, same_oracles s (f p s)) -> same_oracles s (with_conn c f s).
Proof. intros H. unfold with_conn. by destruct (is_null _). Qed.
Lemma oracles_env s s' : env s' = env s -> same_oracles s s'.
Proof. unfold same_oracles. by intros ->. Qed.

Lemma oracles_connect addr rp s s' r : uip_connect addr rp s = Some (s', r) -> same_oracles s s'.
Proof. unfold uip_connect. intros H. repeat case_match; simplify_eq; done. Qed.
Lemma oracles_udp_new addr rp s s' r : uip_udp_new addr rp s = Some (s', r) -> same_oracles s s'.
Proof. unfold uip_udp_new. intros H. repeat case_match; simplify_eq; done. Qed.
Lemma oracles_connecting i p s : same_oracles s (connecting i p s).
Proof.
  unfold connecting. eapply same_oracles_trans; [apply oracles_upd_app|]. eapply same_oracles_trans; [apply oracles_upd_xs|].
  apply oracles_upd_xconn.
Qed.
Local Hint Resolve oracles_upd_env oracles_upd_app oracles_upd_xs oracles_upd_xconn oracles_tcp_block oracles_udp_block oracles_with_conn : core.
Lemma xtcpd_connect_oracles i port addr p s : same_oracles s (xtcpd_connect i port addr p s).
Proof.
  unfold xtcpd_connect. cbv zeta. destruct p.
  - destruct (uip_connect _ _ s) as [[s' [j|]]|] eqn:E; [|by eapply oracles_connect|by apply oracles_upd_env].
    eapply same_oracles_trans; [by eapply oracles_connect|apply oracles_connecting].
  - destruct (uip_udp_new _ _ s) as [[s' [j|]]|] eqn:E; [|by eapply oracles_udp_new|by apply oracles_upd_env].
    eapply same_oracles_trans; [by eapply oracles_udp_new|apply oracles_connecting].
Qed.
Ltac oracle_steps :=
  repeat first [apply oracles_upd_xs|apply oracles_upd_xconn|apply oracles_tcp_block|apply oracles_udp_block
    |eapply same_oracles_trans; [|apply oracles_upd_xs]|eapply same_oracles_trans; [|apply oracles_upd_xconn]
    |eapply same_oracles_trans; [|apply oracles_udp_block]]; try done.
Lemma xtcpd_bind_local_oracles c port s : same_oracles s (xtcpd_bind_local c port s).
Proof. unfold xtcpd_bind_local. cbv zeta. case_match; (eapply same_oracles_trans; [apply oracles_upd_xconn|auto]). Qed.
Lemma xtcpd_bind_remote_oracles c addr port s : same_oracles s (xtcpd_bind_remote c addr port s).
Proof. unfold xtcpd_bind_remote. cbv zeta. repeat case_match; [by apply oracles_upd_env|done|oracle_steps]. Qed.

Lemma handle_oracles i cmd s : same_oracles s (handle_xtcp_cmd i cmd s).
Proof.
  destruct cmd; cbn [handle_xtcp_cmd]; try apply xtcpd_connect_oracles; try apply xtcpd_bind_local_oracles;
    try apply xtcpd_bind_remote_oracles; try by apply oracles_upd_env.
  - by destruct p.
  - apply oracles_with_conn. auto.
  - apply oracles_with_conn. auto.
  - apply oracles_with_conn. auto.
  - apply oracles_with_conn. auto.
  - apply oracles_with_conn. intros q s'. cbv zeta. case_match; oracle_steps.
  - apply oracles_with_conn. intros q s'. oracle_steps.
  - apply oracles_with_conn. auto.
  - apply oracles_with_conn. auto.
  - apply oracles_with_conn. intros q s'. oracle_steps.
  - done.
  - done.
Qed.
(** Serving takes queued events, and queues none. *)
Definition none_pending (i : nat) s : Prop := nth i (pending_event (env s)) None = None.
Lemma serve_oracles l s : oracles (env (serve l s)) = oracles (env s).
Proof.
  unfold serve. revert s. induction l as [|a l IH]; intros s; [done|]. cbn. rewrite IH. destruct a as [j cmd|j]; cbn [serve_act].
  - exact (f_equal fst (handle_oracles j cmd s)).
  - unfold upd_env, take_event. cbn. by repeat case_match.
Qed.
Lemma serve_pending i l s : none_pending i s -> none_pending i (serve l s).
Proof.
  unfold serve. revert s. induction l as [|a l IH]; intros s Hs; [done|]. cbn. apply IH. destruct a as [j cmd|j]; cbn [serve_act].
  - unfold none_pending. pose proof (f_equal snd (handle_oracles j cmd s)) as Hp. cbn [client_side snd] in Hp. by rewrite Hp.
  - unfold none_pending, upd_env, take_event in *. cbn. destruct (pending_event (env s) !! j) as [[ev|]|]; [|done..]. cbn.
    rewrite nth_lookup in *. rewrite list_lookup_insert. repeat case_match; done.
Qed.

(** ** Waiting for a client *)

(** A client that issues some commands and goes on with their replies. *)
Fixpoint client_run {A} (cmds : list xtcp_cmd_t) (k : list reply -> prog A) : prog A :=
  match cmds with
  | [] => k []
  | cmd :: cmds => r <- api cmd;; client_run cmds (fun rs => k (r :: rs))
  end.
(** What is served, in order, and the replies. *)
Fixpoint woven (i : nat) (others : list (list client_act)) (cmds : list xtcp_cmd_t) : list client_act :=
  match others, cmds with
  | o :: others, cmd :: cmds => o ++ Command (Z.of_nat i) cmd :: woven i others cmds
  | o :: _, [] => o
  | [], _ => []
  end.
Definition batch (i : nat) (t : wait_turns) (cmds : list xtcp_cmd_t) : list client_act := woven i (fst t) cmds ++ snd t.
Fixpoint replies (i : nat) (others : list (list client_act)) (cmds : list xtcp_cmd_t) s : list reply :=
  match others, cmds with
  | o :: others, cmd :: cmds => let s := serve o s in reply_of cmd s :: replies i others cmds (handle_xtcp_cmd (Z.of_nat i) cmd s)
  | _, _ => []
  end.
Lemma serve_app l l' s : serve (l ++ l') s = serve l' (serve l s).
Proof. apply foldl_app. Qed.

(** [slave xtcp_event(c, conn)] behind its first synchronisation. *)
Definition event_rest : prog xtcp_connection_t := conn <- xtcp_event;; end_slave;;; Done conn.

Lemma is_notified_false i v : is_notified i (set_notified i false v) = false.
Proof.
  unfold is_notified, set_notified. cbn. destruct (decide (i < length (notified v))%nat).
  - by rewrite nth_lookup, list_lookup_insert_eq.
  - apply nth_overflow. rewrite length_insert. lia.
Qed.
Lemma is_notified_true i v : (i < length (notified v))%nat -> is_notified i (set_notified i true v) = true.
Proof. intros. unfold is_notified, set_notified. cbn. by rewrite nth_lookup, list_lookup_insert_eq. Qed.

Lemma respond_exch i v : pending i v = None ->
  exch end_slave [Ct XS1_CT_END] (xtcpd_service_client0 true i (Z.of_nat i) v) tt [] (1, set_notified i false v).
Proof.
  intros Hp. apply (run_exch 10). unfold xtcpd_service_client0, service_token. change (XS1_CT_END =? XS1_CT_END) with true.
  change (pending i v) with (pending i (set_notified i false v)) in Hp.
  cbn -[Z.of_nat pending set_notified]. rewrite Hp. reflexivity.
Qed.

Lemma service_loop_exch {A B} i (M : prog L -> prog B) `{!Ctx M} (a : A) d (b : B) cmds : forall others v h,
  Forall cmd_ok cmds -> length others = Datatypes.S (length cmds) -> is_notified i v = true -> pending i v = None ->
  exch (bind event_rest (h (replies i others cmds (stack v)))) []
    (M (Done (set_notified i false (on_stack (serve (woven i others cmds)) v)))) a d b ->
  exch (client_run cmds (fun rs => bind do_xtcp_event (h rs))) [Ct XS1_CT_END] (M (service_loop others i v)) a d b.
Proof.
  induction cmds as [|cmd cmds IH]; intros [|o others] v h Hok Hl Hn Hp Hrest; cbn in Hl; try lia;
    cbn [service_loop client_run replies woven] in *; rewrite Hn.
  - destruct others; [|by cbn in Hl]. apply (exch_ctx (fun m => bind (bind m (fun _ => event_rest)) (h []))
      (fun m => M (bind m (fun r => service_loop [] i (snd r)))) _ _ _ tt [] (1, set_notified i false (serve_others o v))).
    + apply respond_exch. by apply (serve_pending i o).
    + cbn [bind snd service_loop]. rewrite is_notified_false. exact Hrest.
  - apply Forall_cons_iff in Hok as [Hok Hoks].
    apply (exch_ctx (fun m => bind m (fun r => client_run cmds (fun rs => bind do_xtcp_event (h (r :: rs)))))
      (fun m => M (bind m (fun r => service_loop others i (snd r)))) _ _ _ (reply_of cmd (serve o (stack v))) [Ct XS1_CT_END]
      (1, on_stack (handle_xtcp_cmd (Z.of_nat i) cmd) (serve_others o v))).
    + pose proof (command_exch i (Z.of_nat i) cmd (serve_others o v) Hok) as H. change (is_notified i (serve_others o v)) with (is_notified i v) in H.
      rewrite Hn in H. exact H.
    + cbn [bind snd]. apply (IH others _ (fun rs => h (reply_of cmd (serve o (stack v)) :: rs))); [done|lia|done|..].
      { apply (serve_pending i [Command (Z.of_nat i) cmd]), (serve_pending i o), Hp. }
      match type of Hrest with context [on_stack ?f v] => assert (on_stack f v =
        on_stack (serve (woven i others cmds)) (on_stack (handle_xtcp_cmd (Z.of_nat i) cmd) (serve_others o v))) as Heq end.
      { unfold on_stack, serve_others, set_field. cbn. f_equal. by rewrite serve_app. }
      rewrite Heq in Hrest. exact Hrest.
Qed.

(** [xtcpd_service_clients_until_ready], with the batch of commands it serves. *)
Definition ready_after (i : nat) (t : wait_turns) (cmds : list xtcp_cmd_t) v : L :=
  set_notified i false (on_stack (serve (batch i t cmds)) (on_stack next_batch v)).
Lemma until_ready_exch {A B} i (M : prog L -> prog B) `{!Ctx M} (a : A) d (b : B) cmds t v h :
  Forall cmd_ok cmds -> length (fst t) = Datatypes.S (length cmds) -> (i < length (notified v))%nat -> pending i v = None ->
  exch (bind event_rest (h (replies i (fst t) cmds (next_batch (stack v))))) [] (M (Done (ready_after i t cmds v))) a d b ->
  exch (client_run cmds (fun rs => bind do_xtcp_event (h rs))) (note (is_notified i v)) (M (link_until_ready t i v)) a d b.
Proof.
  intros Hok Hl Hi Hp Hrest. unfold link_until_ready. cbv zeta.
  set (w := on_stack next_batch v). change (is_notified i v) with (is_notified i w). assert (pending i w = None) as Hw by exact Hp.
  assert (i < length (notified w))%nat as Hiw by exact Hi. change (next_batch (stack v)) with (stack w) in Hrest.
  change (ready_after i t cmds v) with (set_notified i false (on_stack (serve (batch i t cmds)) w)) in Hrest. clearbody w. clear Hi Hp v.
  assert (forall v', is_notified i v' = true -> pending i v' = None -> stack v' = stack w ->
    set_notified i false v' = set_notified i false w ->
    exch (client_run cmds (fun rs => bind do_xtcp_event (h rs))) [Ct XS1_CT_END]
      (M (v <- service_loop (fst t) i v';; Done (serve_others (snd t) v))) a d b) as Hloop.
  { intros v' Hn Hp' Hs He. apply (service_loop_exch i (fun m => M (v <- m;; Done (serve_others (snd t) v)))); [done..|].
    rewrite Hs. cbn [bind].
    replace (serve_others (snd t) (set_notified i false (on_stack (serve (woven i (fst t) cmds)) v')))
      with (set_notified i false (on_stack (serve (batch i t cmds)) w)); [exact Hrest|].
    unfold batch, serve_others, on_stack. destruct w as [nt st], v' as [nt' st']. unfold set_notified, set_field in *. cbn in *. subst st'.
    injection He as He1. rewrite He1. f_equal. by rewrite serve_app. }
  change (outct XS1_CT_END) with (Put (Ct XS1_CT_END) (Done tt)). destruct (is_notified i w) eqn:Hn; cbn [negb note bind].
  - by apply Hloop.
  - rewrite ctx_put. apply exch_put. apply Hloop; [by apply is_notified_true|done|done|].
    unfold set_notified. destruct w. unfold set_field. cbn. f_equal. apply list_insert_insert_eq.
Qed.
End run.
