(* ===== verification/XcRefine.v ===== *)
(** * The server of [Xtcp], refined by the programs on the channels

    A whole event: the server waits for its client, which may first issue
    commands, while other clients are served; the client is told of the event,
    and takes or gives data.  However the two tasks interleave, both come to
    their ends, and the server's stack is the one that [Xtcp] computes from the
    batch of commands, the readiness and the answer. *)
From S2P Require Export XcRun.
Local Open Scope Z_scope.
Local Open Scope prog_scope.

Section refine.
Context {cap : nat} {F : Type}.
Notation S := (uip_state (xtcp_env F)).
Notation L := (links S).
Local Abbreviation exch := (exch (cap := cap)).
Local Abbreviation inevitable := (inevitable (cap := cap)).
Implicit Types s : S.
Implicit Types v : L.

(** ** Commands *)

(** The wait of [Xtcp], when its oracle holds the batch that is served. *)
Lemma ready_after_stack i t cmds v later : script (env (stack v)) = batch i t cmds :: later ->
  stack (ready_after i t cmds v) = xtcpd_service_clients_until_ready (stack v) /\
  oracles (env (stack (ready_after i t cmds v))) = (later, ready (env (stack v)), answers (env (stack v))).
Proof.
  intros Hs. assert (next_batch (stack v) = upd_env (fun e => e <| script := later |>) (stack v)) as Hb.
  { unfold next_batch, upd_env, set_field. cbn. by rewrite Hs. }
  assert (stack (ready_after i t cmds v) = serve (batch i t cmds) (next_batch (stack v))) as Hr by done.
  rewrite Hr, Hb. split; [unfold xtcpd_service_clients_until_ready; by rewrite Hs|].
  by rewrite (serve_oracles (batch i t cmds)).
Qed.

(** C32: a command of the client library, with a notification on its way or not:
    whatever the order of the steps, the server executes exactly that command,
    the client gets its reply, and the notification is on its way again. *)
Theorem xtcp_command_refines i waiting_link cmd v : cmd_ok cmd ->
  inevitable (Net (api cmd) [] (note (is_notified i v)) (xtcpd_service_client0 true i waiting_link v))
    (met (reply_of cmd (stack v)) (note (is_notified i v)) (1, on_stack (handle_xtcp_cmd (Z.of_nat i) cmd) v)).
Proof. intros Hok. by apply exch_inevitable, command_exch. Qed.

(** ** Events *)

(** What a client makes of the words of a connection: the connection itself. *)
Definition as_received (conn : xtcp_connection_t) : xtcp_connection_t := words_conn (conn_words conn).
Lemma conn_exch c : exch event_rest [] (send_conn_and_complete c) (as_received c) [] tt.
Proof.
  unfold event_rest, xtcp_event, send_conn_and_complete.
  apply (exch_ctx (fun m => conn <- (l <- m;; Done (words_conn l));; end_slave;;; Done conn)
    (fun m => m;;; outct XS1_CT_END;;; chkct XS1_CT_END) _ _ _ (conn_words c) [] tt); [apply (exch_words_down (conn_words c))|].
  by apply (run_exch 10).
Qed.

(** The server's record after an event has been sent. *)
Definition told (i : nat) (ev : xtcp_event_type_t) (p : connptr) s : S := xtcpd_send_event (Z.of_nat i) ev p s.
Definition conn_told (i : nat) (ev : xtcp_event_type_t) (p : connptr) s : xtcp_connection_t :=
  as_received (xconn (app_at p (told i ev p s))).
Definition with_stack v s : L := v <| stack := s |>.
Lemma send_event_exch {A B} i ev p (M : prog L -> prog B) `{!Ctx M} (h : xtcp_connection_t -> prog A) a d b v :
  exch (h (conn_told i ev p (stack v))) [] (M (Done (on_stack (told i ev p) v))) a d b ->
  exch (bind event_rest h) [] (M (link_send_event i ev p v)) a d b.
Proof.
  intros H. unfold link_send_event. cbv zeta.
  set (conn := xconn (app_at p (stack (on_stack (upd_xconn p (fun c => c <| event := ev |>)) v)))).
  apply (exch_ctx (fun m => bind m h) (fun m => M (m;;; Done (on_stack (say (OutEvent (Z.of_nat i) ev (id conn)))
    (on_stack (upd_xconn p (fun c => c <| event := ev |>)) v)))) _ _ _ (as_received conn) [] tt); [apply conn_exch|].
  exact H.
Qed.

(** C3: an event of a connection: while the server waits for the client of link
    [i], which first issues [cmds], and serves the other links in the turns
    [t], everything goes through whatever the order of the steps: the client
    gets the replies to its commands and the connection with its event, and the
    server is left as [xtcpd_event] of the abstract server leaves it, with no
    notification outstanding. *)
Theorem xtcp_event_refines i ev p cmds t v later : Forall cmd_ok cmds -> length (fst t) = Datatypes.S (length cmds) ->
  (i < length (notified v))%nat -> pending i v = None -> script (env (stack v)) = batch i t cmds :: later ->
  linknum (app_at p (stack v)) <> NO_LINK -> linknum (app_at p (xtcpd_service_clients_until_ready (stack v))) = Z.of_nat i ->
  inevitable
    (Net (client_run cmds (fun rs => conn <- do_xtcp_event;; Done (rs, conn))) [] (note (is_notified i v))
       (v <- link_until_ready t i v;; link_send_event i ev p v))
    (met (replies i (fst t) cmds (next_batch (stack v)), conn_told i ev p (xtcpd_service_clients_until_ready (stack v))) []
       (with_stack (set_notified i false v) (xtcpd_event ev p (stack v)))).
Proof.
  intros Hok Hl Hi Hp Hs Hlink Hlink'. apply exch_inevitable. destruct (ready_after_stack i t cmds v later Hs) as [Hr _].
  apply (until_ready_exch i (fun m => v <- m;; link_send_event i ev p v)); [done..|]. cbn [bind].
  apply (send_event_exch i ev p (fun m => m)). rewrite Hr.
  replace (on_stack (told i ev p) (ready_after i t cmds v)) with (with_stack (set_notified i false v) (xtcpd_event ev p (stack v)));
    [apply exch_done|].
  unfold xtcpd_event. destruct (Z.eqb_spec (linknum (app_at p (stack v))) NO_LINK); [done|]. cbn [negb].
  cbv zeta. rewrite Hlink', <- Hr. by destruct v.
Qed.
Lemma as_received_event c : event (as_received c) = event c.
Proof. unfold as_received, words_conn, conn_words. cbn [nth event]. by destruct (event c). Qed.
Lemma as_received_ok c : conn_ok c -> as_received c = c.
Proof. apply words_conn_words. Qed.

(** An event of the interface, which is not of a connection: it is queued, the
    client is notified, and gets it when it answers; the server is left as
    [queue_event] and [take_event] of the abstract server leave it. *)
Lemma queued_event_exch i ev v : (i < length (notified v))%nat -> (i < length (pending_event (env (stack v))))%nat ->
  is_notified i v = false ->
  exch do_xtcp_event [] (v <- xtcpd_queue_event i ev v;; r <- xtcpd_service_client0 true i (-1) v;; Done (snd r))
    (as_received (dummy_conn <| event := ev |>)) []
    (set_notified i false (on_stack (upd_env (fun e => take_event i (queue_event i ev e))) v)).
Proof.
  intros Hi Hp Hn. unfold xtcpd_queue_event. set (u := on_stack (upd_env (queue_event i ev)) v). change (is_notified i u) with (is_notified i v).
  rewrite Hn. cbn [negb bind]. apply exch_put. set (w := set_notified i true u).
  assert (pending i (set_notified i false w) = Some ev) as Hw.
  { unfold pending, w, u, set_notified, on_stack, upd_env, queue_event, set_field. cbn.
    rewrite nth_lookup, list_lookup_insert_eq by done. done. }
  change (outct XS1_CT_END) with (Put (Ct XS1_CT_END) (Done tt)). cbn [bind]. fold w.
  apply (exch_prefix 3 _ _ _ event_rest [] (r <- (v <- service_token i (-1) XS1_CT_END w;; Done (1, v));; Done (snd r))); [reflexivity|].
  unfold service_token. change (XS1_CT_END =? XS1_CT_END) with true. cbv iota zeta. rewrite Hw.
  assert ((Z.of_nat i =? -1) = false) as -> by (apply Z.eqb_neq; lia).
  apply (exch_ctx (fun m => m) (fun m => r <- (v <- (m;;; Done (on_stack (upd_env (take_event i)) (set_notified i false w)));; Done (1, v));; Done (snd r))
    _ _ _ _ _ _ _ _ _ (conn_exch (dummy_conn <| event := ev |>))).
  assert (on_stack (upd_env (take_event i)) (set_notified i false w) =
    set_notified i false (on_stack (upd_env (fun e => take_event i (queue_event i ev e))) v)) as <-; [|apply exch_done].
  unfold w, u. destruct v as [nt s]. unfold on_stack, set_notified, set_field. cbn. by rewrite list_insert_insert_eq.
Qed.

(** ** Received data *)

(** [receive], the body of the transaction of a receiving function, makes [y]
    of the bytes [l]. *)
Definition receives {Y} (receive : prog Y) (l : list Z) (y : Y) : Prop :=
  exch receive [] (do_recv (Z.of_nat (length l)) l) y [] 1.
Lemma do_recv_exch {Y} (k : list Z -> Y) l : int_ok (Z.of_nat (length l)) ->
  receives (out_int 1;;; len <- in_int;; l <- in_bytes (Z.to_nat len);; Done (k l, len)) l (k l, Z.of_nat (length l)).
Proof.
  intros Hl. unfold receives, do_recv.
  apply (exch_prefix 4 _ _ _ (l0 <- in_bytes (Z.to_nat (s32 (w32 (Z.of_nat (length l)))));; Done (k l0, s32 (w32 (Z.of_nat (length l))))) []
    (out_bytes l;;; Done 1)); [reflexivity|].
  rewrite s32_w32, Nat2Z.id by done. apply (exch_bind _ _ _ l [] tt); [apply exch_bytes_down|]. apply exch_done.
Qed.
(** The transactions of [xtcp_recvi] and [xtcp_recv_count]. *)
Lemma xtcp_recvi_receives data index l : int_ok (Z.of_nat (length l)) ->
  receives (out_int 1;;; len <- in_int;; l <- in_bytes (Z.to_nat len);; Done (wrs index l data, len)) l (wrs index l data, Z.of_nat (length l)).
Proof. apply (do_recv_exch (fun l => wrs index l data)). Qed.
Lemma xtcp_recv_count_receives data count l : int_ok (Z.of_nat (length l)) ->
  receives (out_int 1;;; len <- in_int;; let rxc := if count <? len then count else len in
    l <- in_bytes (Z.to_nat len);; Done (wrs 0 (firstn (Z.to_nat rxc) l) data, len)) l
    (wrs 0 (firstn (Z.to_nat (Z.min count (Z.of_nat (length l)))) l) data, Z.of_nat (length l)).
Proof.
  intros Hl. unfold receives, do_recv.
  apply (exch_prefix 4 _ _ _ (let len := s32 (w32 (Z.of_nat (length l))) in let rxc := if count <? len then count else len in
    l0 <- in_bytes (Z.to_nat len);; Done (wrs 0 (firstn (Z.to_nat rxc) l0) data, len)) []
    (out_bytes l;;; Done 1)); [reflexivity|].
  rewrite s32_w32 by done. cbv zeta. rewrite Nat2Z.id. apply (exch_bind _ _ _ l [] tt); [apply exch_bytes_down|].
  replace (if count <? Z.of_nat (length l) then count else Z.of_nat (length l)) with (Z.min count (Z.of_nat (length l)))
    by (destruct (Z.ltb_spec count (Z.of_nat (length l))); lia).
  apply exch_done.
Qed.

(** A client that is told of data: it puts them off, some commands each time,
    and then receives them. *)
Fixpoint recv_rounds {Y} (receive : prog Y) (delays : list (list xtcp_cmd_t)) (conn : xtcp_connection_t) : prog (xtcp_connection_t * Y) :=
  match delays with
  | [] => y <- slave receive;; chkct XS1_CT_END;;; Done (conn, y)
  | cmds :: delays => delay_recv;;; client_run cmds (fun _ => bind do_xtcp_event (recv_rounds receive delays))
  end.
Definition round_ok (cmds : list xtcp_cmd_t) (t : wait_turns) : Prop :=
  Forall cmd_ok cmds /\ length (fst t) = Datatypes.S (length cmds).

Lemma told_oracles i ev p s : same_oracles s (told i ev p s).
Proof. unfold told, xtcpd_send_event. cbv zeta. eapply same_oracles_trans; [apply oracles_upd_xconn|]. by apply oracles_upd_env. Qed.
Lemma set_notified_id i v : (i < length (notified v))%nat -> is_notified i v = false -> set_notified i false v = v.
Proof.
  intros Hi Hn. destruct v as [nt st]. unfold set_notified, is_notified, set_field in *. cbn in *. f_equal.
  apply list_insert_id. rewrite nth_lookup in Hn. destruct (nt !! i) eqn:E; [by cbn in Hn; subst|]. apply lookup_ge_None_1 in E. lia.
Qed.
Lemma delay_exch len l : exch delay_recv [] (master (do_recv len l)) tt [] 0.
Proof. by apply (run_exch 20). Qed.
Lemma next_ready_eq s r later : ready (env s) = r :: later -> next_ready s = upd_env (fun e => e <| ready := later |>) s.
Proof. intros H. unfold next_ready, upd_env, set_field. cbn. by rewrite H. Qed.

Lemma recv_now_exch {Y} i p data len (receive : prog Y) (y : list Z -> Y) rlater waits v conn :
  0 <= len -> (forall l, Z.of_nat (length l) = len -> receives receive l (y l)) -> ready (env (stack v)) = true :: rlater ->
  let v1 := on_stack (told i XTCP_RECV_DATA p) v in
  let s' := recv_loop (true :: rlater) (Z.of_nat i) p data len (stack v) in
  exch (recv_rounds receive [] conn) []
    (let received := rds (uip_buf (stack v1)) data (Z.to_nat len) in
     client_ready <- master (do_recv len received);;
     let v := on_stack next_ready v1 in
     if client_ready =? 0 then
       match waits with [] => Trapped | t :: waits => v <- link_until_ready t i v;; link_recv waits i p data len v end
     else outct XS1_CT_END;;; Done (on_stack (say (OutRecv (Z.of_nat i) (id (xconn (app_at p (stack v)))) received)) v))
    (conn, y (rds (uip_buf s') data (Z.to_nat len))) [] (with_stack v s').
Proof.
  intros Hlen Hrecv Hr v1 s'. cbv zeta. set (l := rds (uip_buf (stack v1)) data (Z.to_nat len)). cbn [recv_rounds].
  assert (Z.of_nat (length l) = len) as Hl by (unfold l; rewrite length_rds; lia).
  apply (exch_bind _ _ _ (y l) [] 1); [apply exch_slave; rewrite <- Hl at 1; apply Hrecv, Hl|]. change (1 =? 0) with false. cbv iota.
  assert (rds (uip_buf s') data (Z.to_nat len) = l) as -> by done. apply (run_exch 5).
  reflexivity.
Qed.

Lemma link_recv_exch {Y} i p data len (receive : prog Y) (y : list Z -> Y) later rlater delays : forall waits v,
  Forall2 round_ok delays waits -> 0 <= len -> (forall l, Z.of_nat (length l) = len -> receives receive l (y l)) ->
  (i < length (notified v))%nat -> is_notified i v = false -> pending i v = None ->
  script (env (stack v)) = zip_with (fun cmds t => batch i t cmds) delays waits ++ later ->
  ready (env (stack v)) = repeat false (length delays) ++ true :: rlater ->
  let s' := xtcpd_recv (Z.of_nat i) p data len (stack v) in
  exists conn, exch (bind event_rest (recv_rounds receive delays)) [] (link_recv waits i p data len v)
    (conn, y (rds (uip_buf s') data (Z.to_nat len))) [] (with_stack v s').
Proof.
  induction delays as [|cmds delays IH]; intros waits v Hrounds Hlen Hrecv Hi Hn Hp Hs Hr s'; inversion Hrounds as [|? t ? waits' [Hok Hlt] Hrounds']; subst.
  - cbn [repeat length Datatypes.app] in Hr. eexists. unfold xtcpd_recv in *. subst s'. rewrite Hr.
    cbn [link_recv]. apply (send_event_exch i XTCP_RECV_DATA p (fun m => bind m _)). cbn [bind].
    exact (recv_now_exch i p data len receive y rlater [] v (conn_told i XTCP_RECV_DATA p (stack v)) Hlen Hrecv Hr).
  - cbn [repeat length Datatypes.app zip_with] in Hr, Hs. set (v1 := on_stack (told i XTCP_RECV_DATA p) v).
    assert (same_oracles (stack v) (stack v1)) as Ho by apply told_oracles.
    assert (script (env (stack v1)) = script (env (stack v)) /\ ready (env (stack v1)) = ready (env (stack v))) as [Hs1 Hr1]
      by exact (conj (f_equal (fun o => fst (fst (fst o))) Ho) (f_equal (fun o => snd (fst (fst o))) Ho)).
    set (v2 := on_stack next_ready v1). rewrite Hr in Hr1. pose proof (next_ready_eq _ _ _ Hr1) as Hr2.
    assert (script (env (stack v2)) = batch i t cmds :: (zip_with (fun cmds t => batch i t cmds) delays waits' ++ later)) as Hs2.
    { change (stack v2) with (next_ready (stack v1)). rewrite Hr2. rewrite <- Hs, <- Hs1. done. }
    assert (ready (env (stack v2)) = repeat false (length delays) ++ true :: rlater) as Hr3.
    { change (stack v2) with (next_ready (stack v1)). rewrite Hr2. done. }
    destruct (ready_after_stack i t cmds v2 _ Hs2) as [Hst Hor].
    set (v3 := ready_after i t cmds v2) in *.
    assert (v3 = with_stack v (xtcpd_service_clients_until_ready (stack v2))) as Hv3.
    { rewrite <- Hst. unfold v3, ready_after. pose proof (set_notified_id i v Hi Hn) as Hid. destruct v as [nt st].
      unfold set_notified, with_stack, set_field in *. cbn in *. injection Hid as Hid. by rewrite Hid. }
    assert (script (env (stack v3)) = zip_with (fun cmds t => batch i t cmds) delays waits' ++ later) as Hsc by exact (f_equal (fun o => fst (fst o)) Hor).
    assert (ready (env (stack v3)) = ready (env (stack v2))) as Hrd by exact (f_equal (fun o => snd (fst o)) Hor).
    assert (pending i v2 = None) as Hp2.
    { pose proof (f_equal snd Ho : pending_event (env (stack v1)) = _) as Hpe.
      change (nth i (pending_event (env (stack v1))) None = None). rewrite Hpe. exact Hp. }
    assert (pending i v3 = None) as Hp3 by exact (serve_pending i (batch i t cmds) (next_batch (stack v2)) Hp2).
    destruct (IH waits' v3 Hrounds' Hlen Hrecv) as [conn Hconn]; [rewrite Hv3; done..|exact Hp3|exact Hsc|by rewrite Hrd|].
    exists conn.
    assert (xtcpd_recv (Z.of_nat i) p data len (stack v) = xtcpd_recv (Z.of_nat i) p data len (stack v3)) as Hx.
    { transitivity (recv_loop (repeat false (length delays) ++ true :: rlater) (Z.of_nat i) p data len (stack v3)).
      - unfold xtcpd_recv. rewrite Hr. rewrite Hst. change (stack v2) with (next_ready (stack v1)). rewrite Hr2. done.
      - unfold xtcpd_recv. by rewrite <- Hr3, <- Hrd. }
    cbn [link_recv]. apply (send_event_exch i XTCP_RECV_DATA p (fun m => bind m _)). cbn [bind recv_rounds]. cbv zeta. fold v1.
    apply (exch_bind _ _ _ tt [] 0); [apply delay_exch|]. change (0 =? 0) with true. cbv iota. fold v2.
    assert (note (is_notified i v2) = []) as Hnote by (change (is_notified i v2) with (is_notified i v); by rewrite Hn). rewrite <- Hnote.
    apply (until_ready_exch i (fun m => v <- m;; link_recv waits' i p data len v)); [done..|]. cbn [bind]. fold v3. subst s'. rewrite Hx.
    assert (with_stack v (xtcpd_recv (Z.of_nat i) p data len (stack v3)) = with_stack v3 (xtcpd_recv (Z.of_nat i) p data len (stack v3))) as ->
      by (by rewrite Hv3).
    rewrite Hnote. exact Hconn.
Qed.

(** C4: received data: the client of link [i] is told of the data once, puts
    them off any number of times - [delays], with the commands that it issues
    each time - and then takes them with one of the receiving functions.
    Whatever the order of the steps, it gets exactly the bytes of the packet,
    and the server is left as [xtcpd_recv] of the abstract server leaves it. *)
Theorem xtcp_recv_refines {Y} i p data len (receive : prog Y) (y : list Z -> Y) cmds delays t waits later rlater v :
  round_ok cmds t -> Forall2 round_ok delays waits -> 0 <= len ->
  (forall l, Z.of_nat (length l) = len -> receives receive l (y l)) ->
  (i < length (notified v))%nat -> pending i v = None ->
  script (env (stack v)) = batch i t cmds :: zip_with (fun cmds t => batch i t cmds) delays waits ++ later ->
  ready (env (stack v)) = repeat false (length delays) ++ true :: rlater ->
  let s' := xtcpd_recv (Z.of_nat i) p data len (xtcpd_service_clients_until_ready (stack v)) in
  exists conn, inevitable
    (Net (client_run cmds (fun _ => bind do_xtcp_event (recv_rounds receive delays))) [] (note (is_notified i v))
       (v <- link_until_ready t i v;; link_recv waits i p data len v))
    (met (conn, y (rds (uip_buf s') data (Z.to_nat len))) [] (with_stack (set_notified i false v) s')).
Proof.
  intros [Hok Hl] Hrounds Hlen Hrecv Hi Hp Hs Hr s'. destruct (ready_after_stack i t cmds v _ Hs) as [Hst Ho].
  set (v1 := ready_after i t cmds v) in *.
  assert (script (env (stack v1)) = zip_with (fun cmds t => batch i t cmds) delays waits ++ later) as Hs1 by exact (f_equal (fun o => fst (fst o)) Ho).
  assert (ready (env (stack v1)) = ready (env (stack v))) as Hr1 by exact (f_equal (fun o => snd (fst o)) Ho). rewrite Hr in Hr1.
  assert (notified v1 = notified (set_notified i false v)) as Hn1 by done.
  destruct (link_recv_exch i p data len receive y later rlater delays waits v1) as [conn Hconn]; try done.
  { rewrite Hn1. unfold set_notified. cbn. by rewrite length_insert. }
  { apply (is_notified_false i (on_stack _ (on_stack next_batch v))). }
  { exact (serve_pending i (batch i t cmds) (next_batch (stack v)) Hp). }
  exists conn. apply exch_inevitable. apply (until_ready_exch i (fun m => v <- m;; link_recv waits i p data len v)); [done..|].
  cbn [bind]. fold v1. rewrite Hst in Hconn.
  assert (with_stack (set_notified i false v) s' = with_stack v1 s') as -> by (by destruct v). exact Hconn.
Qed.

Lemma send_data_exch len l : int_ok len -> Z.of_nat (length l) = len ->
  exch (out_int len;;; out_bytes l) [] (len <- in_int;; l <- in_bytes (Z.to_nat len);; Done (l, len)) tt [] (l, len).
Proof.
  intros Hlen Hl.
  apply (exch_bind _ _ _ tt [] len); [apply (run_exch 2); cbn -[s32 w32]; by rewrite s32_w32|].
  rewrite <- Hl at 1. rewrite Nat2Z.id. apply (exch_bind_right _ _ _ tt [] l); [apply exch_bytes_up|apply exch_done].
Qed.

(** Data to send: the client is asked for data and answers with [len] bytes
    of its array; the server stores them where [xtcpd_send] of the abstract
    server does, and gets their number. *)
Theorem xtcp_send_refines i ev p data mss cmds d index len t later alater v :
  round_ok cmds t -> int_ok len -> 0 <= len -> (i < length (notified v))%nat -> pending i v = None ->
  script (env (stack v)) = batch i t cmds :: later -> answers (env (stack v)) = rds d index (Z.to_nat len) :: alater ->
  let r := do_xtcpd_send (Z.of_nat i) ev p data mss (stack v) in
  exists conn, event conn = event (xconn (app_at p (upd_xconn p (fun c => (c <| event := ev |>) <| conn_mss := mss |>)
      (xtcpd_service_clients_until_ready (stack v))))) /\
  inevitable
    (Net (client_run cmds (fun _ => conn <- do_xtcp_event;; xtcp_sendi d index len;;; Done conn)) [] (note (is_notified i v))
       (v <- link_until_ready t i v;; link_send i ev p data mss v))
    (met conn [] (with_stack (set_notified i false v) (fst r), snd r)).
Proof.
  intros [Hok Hl] Hlen H0 Hi Hp Hs Ha r. destruct (ready_after_stack i t cmds v _ Hs) as [Hst Ho].
  set (v1 := ready_after i t cmds v) in *.
  assert (answers (env (stack v1)) = rds d index (Z.to_nat len) :: alater) as Ha1 by (rewrite <- Ha; exact (f_equal snd Ho)).
  set (l := rds d index (Z.to_nat len)) in *. assert (Z.of_nat (length l) = len) as Hll by (unfold l; rewrite length_rds; lia).
  set (v2 := on_stack (upd_xconn p (fun c => (c <| event := ev |>) <| conn_mss := mss |>)) v1).
  set (conn := xconn (app_at p (stack v2))).
  exists (as_received conn). split; [rewrite as_received_event; unfold conn, v2; cbn [stack on_stack]; by rewrite <- Hst|].
  apply exch_inevitable. apply (until_ready_exch i (fun m => v <- m;; link_send i ev p data mss v)); [done..|].
  cbn [bind]. fold v1. unfold link_send. cbv zeta. fold v2. fold conn.
  apply (exch_bind _ _ _ (as_received conn) [] tt); [apply conn_exch|].
  apply (exch_bind _ _ _ tt [] (l, len)).
  - apply exch_slave. by apply send_data_exch.
  - cbn [fst snd]. set (s3 := say (OutEvent (Z.of_nat i) ev (id conn)) (stack v2)).
    assert (answers (env s3) = l :: alater) as Ha3 by (rewrite <- Ha1; exact (f_equal (fun o => snd (fst o)) (oracles_upd_xconn p _ (stack v1)))).
    assert (r = (store_answer data l (next_answer s3), len)) as ->.
    { unfold r, do_xtcpd_send. rewrite <- Hst. unfold xtcpd_send. cbv zeta. change (say _ _) with s3. rewrite Ha3, Hll. f_equal. f_equal.
      unfold next_answer, upd_env, set_field. cbn [env eta]. by rewrite Ha3. }
    cbn [fst snd]. assert (with_stack (set_notified i false v) (store_answer data l (next_answer s3)) =
      on_stack (store_answer data l) (on_stack next_answer (on_stack (say (OutEvent (Z.of_nat i) ev (id conn))) v2))) as -> by (by destruct v).
    apply exch_done.
Qed.

(** [xtcp_ignore_recv] leaves the token behind that the server sends after
    data have been taken; the next event of the connection then traps the
    client, which takes the token for the notification, whatever the order of
    the steps. *)
Theorem xtcp_ignore_recv_traps i ev p received t v : int_ok (Z.of_nat (length received)) -> is_notified i v = false ->
  let n := Net (xtcp_ignore_recv;;; do_xtcp_event) [] []
    (master (do_recv (Z.of_nat (length received)) received);;;
     outct XS1_CT_END;;;
     v <- link_until_ready t i v;; link_send_event i ev p v) in
  forall n1, rtc (nstep (cap := cap)) n n1 -> exists n2, rtc (nstep (cap := cap)) n1 n2 /\ client n2 = Trapped.
Proof.
  intros Hl Hn n. assert (receives (out_int 1;;; len <- in_int;; in_bytes (Z.to_nat len);;; Done tt) received tt) as Hr.
  { unfold receives, do_recv. apply (exch_prefix 4 _ _ _ (in_bytes (Z.to_nat (s32 (w32 (Z.of_nat (length received)))));;; Done tt) []
      (out_bytes received;;; Done 1)); [reflexivity|].
    rewrite s32_w32, Nat2Z.id by done. apply (exch_bind _ _ _ received [] tt); [apply exch_bytes_down|]. apply exch_done. }
  apply exch_slave in Hr.
  eapply trapped_inevitable; [etransitivity; [apply (rtc_ctx (fun m => m;;; do_xtcp_event) (fun m => m;;; _) _ _ _ _ _ _ Hr)|]|]; cbn [bind].
  - assert (is_notified i (on_stack next_batch v) = false) as Hn' by exact Hn. unfold link_until_ready. cbv zeta. rewrite Hn'.
    eapply rtc_l; [apply (PutRight _ _ []); unfold room; cbn; lia|]. eapply rtc_l; [apply GetLeft|].
    eapply rtc_l; [apply (PutLeft _ _ []); unfold room; cbn; lia|].
    eapply rtc_l; [apply (PutRight _ _ []); unfold room; cbn; lia|]. eapply rtc_l; [apply GetLeft|]. apply rtc_refl.
  - reflexivity.
Qed.
End refine.
