(* ===== verification/Blocking.v ===== *)
(** * The blocking client: [xtcp_blocking_client.xc]

    The functions are loops over the events of the server; [fuel] bounds the
    number of events, which is the server's to choose.  The server is seen as
    the programs that [XcRefine] shows it to run: it notifies the client, sends
    it a connection, and takes or gives data. *)
From S2P Require Export XcRefine.
Local Open Scope Z_scope.
Local Open Scope prog_scope.

Fixpoint wait_for (fuel : nat) (ev : xtcp_event_type_t) : prog xtcp_connection_t :=
  match fuel with
  | O => Trapped
  | S fuel => conn <- do_xtcp_event;; if bool_decide (event conn = ev) then Done conn else wait_for fuel ev
  end.
Definition xtcp_wait_for_ifup (fuel : nat) : prog unit := wait_for fuel XTCP_IFUP;;; Done tt.
Definition xtcp_wait_for_connection (fuel : nat) : prog xtcp_connection_t := wait_for fuel XTCP_NEW_CONNECTION.

(** The loop of [xtcp_write]; the result is the value and [conn]. *)
Fixpoint write_loop (fuel : nat) (buf : list Z) (len cid index prev : Z) : prog (Z * xtcp_connection_t) :=
  match fuel with
  | O => Trapped
  | S fuel =>
      conn <- do_xtcp_event;;
      match event conn with
      | XTCP_NEW_CONNECTION => xtcp_close (id conn);;; write_loop fuel buf len cid index prev
      | XTCP_REQUEST_DATA | XTCP_SENT_DATA =>
          let sendlen := len - index in
          let sendlen := if conn_mss conn <? sendlen then conn_mss conn else sendlen in
          xtcp_sendi buf index sendlen;;;
          let prev := index in
          let index := index + sendlen in
          if sendlen =? 0 then Done (1, conn) else write_loop fuel buf len cid index prev
      | XTCP_RESEND_DATA => xtcp_sendi buf prev (index - prev);;; write_loop fuel buf len cid index prev
      | XTCP_RECV_DATA => delay_recv;;; Done (if negb (prev =? len) then 0 else 1, conn)
      | XTCP_TIMED_OUT | XTCP_ABORTED | XTCP_CLOSED =>
          if id conn =? cid then Done (0, conn) else write_loop fuel buf len cid index prev
      | XTCP_IFDOWN => Done (0, conn)
      | _ => write_loop fuel buf len cid index prev
      end
  end.
Definition xtcp_write (fuel : nat) (conn : xtcp_connection_t) (buf : list Z) (len : Z) : prog (Z * xtcp_connection_t) :=
  let cid := id conn in
  xtcp_init_send (id conn);;;
  write_loop fuel buf len cid 0 0.

(** The loop of [xtcp_read]; the result is the value, [buf] and [conn]. *)
Fixpoint read_loop (fuel : nat) (buf : list Z) (minlen cid rlen : Z) (conn : xtcp_connection_t) : prog (Z * list Z * xtcp_connection_t) :=
  if rlen <? minlen then
    match fuel with
    | O => Trapped
    | S fuel =>
        conn <- do_xtcp_event;;
        match event conn with
        | XTCP_NEW_CONNECTION => xtcp_close (id conn);;; read_loop fuel buf minlen cid rlen conn
        | XTCP_RECV_DATA =>
            r <- xtcp_recvi buf rlen;;
            read_loop fuel (fst r) minlen cid (rlen + snd r) conn
        | XTCP_REQUEST_DATA | XTCP_SENT_DATA | XTCP_RESEND_DATA => xtcp_send [] 0;;; read_loop fuel buf minlen cid rlen conn
        | XTCP_TIMED_OUT | XTCP_ABORTED | XTCP_CLOSED =>
            if id conn =? cid then Done (-1, buf, conn) else read_loop fuel buf minlen cid rlen conn
        | XTCP_IFDOWN => Done (-1, buf, conn)
        | _ => read_loop fuel buf minlen cid rlen conn
        end
    end
  else Done (rlen, buf, conn).
Definition xtcp_read (fuel : nat) (conn : xtcp_connection_t) (buf : list Z) (minlen : Z) : prog (Z * list Z * xtcp_connection_t) :=
  read_loop fuel buf minlen (id conn) 0 conn.

(** ** The server's part *)

Section blocking.
Context {cap : nat}.
Local Abbreviation exch := (exch (cap := cap)).
Local Abbreviation inevitable := (inevitable (cap := cap)).

(** An event: the notification and the connection. *)
Definition tell (conn : xtcp_connection_t) : prog unit := end_master;;; send_conn_and_complete conn.
(** [xtcpd_send]: the data that the client gives. *)
Definition ask_data (conn : xtcp_connection_t) : prog (list Z) :=
  tell conn;;; r <- master (len <- in_int;; l <- in_bytes (Z.to_nat len);; Done (l, len));; Done (fst r).
(** [xtcpd_recv], to a client that takes the data at once. *)
Definition give (conn : xtcp_connection_t) (l : list Z) : prog unit :=
  tell conn;;; r <- master (do_recv (Z.of_nat (length l)) l);; if r =? 0 then Trapped else outct XS1_CT_END.

Lemma tell_exch conn : exch do_xtcp_event [] (tell conn) (as_received conn) [] tt.
Proof.
  unfold do_xtcp_event, slave, tell. apply (exch_bind _ _ _ tt [] tt); [by apply (run_exch 4)|]. apply conn_exch.
Qed.

Lemma sendi_exch buf index len : int_ok len -> 0 <= len ->
  exch (xtcp_sendi buf index len) [] (r <- master (len <- in_int;; l <- in_bytes (Z.to_nat len);; Done (l, len));; Done (fst r)) tt []
    (rds buf index (Z.to_nat len)).
Proof.
  intros Hl H0. apply (exch_bind_right _ _ _ tt [] (rds buf index (Z.to_nat len), len)); [|apply exch_done].
  apply exch_slave, send_data_exch; [done|]. rewrite length_rds. lia.
Qed.
(** Asked again for data: [n] times the same. *)
Fixpoint asks_again (again : list xtcp_connection_t) : prog (list (list Z)) :=
  match again with [] => Done [] | c :: again => d <- ask_data c;; ds <- asks_again again;; Done (d :: ds) end.
(** Some requests, each for new data and then for the last data again. *)
Fixpoint asks (l : list (xtcp_connection_t * list xtcp_connection_t)) : prog (list (list Z * list (list Z))) :=
  match l with
  | [] => Done []
  | (conn, again) :: l => d <- ask_data conn;; ds <- asks_again again;; rest <- asks l;; Done ((d, ds) :: rest)
  end.

(** ** [xtcp_write] *)

Definition new_data (conn : xtcp_connection_t) : Prop := event conn = XTCP_REQUEST_DATA \/ event conn = XTCP_SENT_DATA.
Definition round_ok (r : xtcp_connection_t * list xtcp_connection_t) : Prop :=
  new_data (fst r) /\ 1 <= conn_mss (fst r) /\ Forall (fun c => event c = XTCP_RESEND_DATA) (snd r).
Definition events_of (l : list (xtcp_connection_t * list xtcp_connection_t)) : nat :=
  list_sum (map (fun r => Datatypes.S (length (snd r))) l).
(** The requests end with one more than the data need. *)
Fixpoint enough (len index : Z) (l : list (xtcp_connection_t * list xtcp_connection_t)) : Prop :=
  match l with
  | [] => False
  | (conn, again) :: l =>
      let n := Z.min (conn_mss conn) (len - index) in
      if n =? 0 then again = [] /\ l = [] else enough len (index + n) l
  end.
Fixpoint chunks (buf : list Z) (len index : Z) (l : list (xtcp_connection_t * list xtcp_connection_t)) : list (list Z * list (list Z)) :=
  match l with
  | [] => []
  | (conn, again) :: l =>
      let n := Z.min (conn_mss conn) (len - index) in
      let d := rds buf index (Z.to_nat n) in
      (d, map (fun _ => d) again) :: chunks buf len (index + n) l
  end.

Lemma write_again_exch {A B} fuel buf len cid index prev again (M : prog (list (list Z)) -> prog B) `{!Ctx M} a d (b : B) (K : prog (Z * xtcp_connection_t) -> prog A) `{!Ctx K} :
  Forall (fun c => event c = XTCP_RESEND_DATA) again -> int_ok (index - prev) -> 0 <= index - prev ->
  exch (K (write_loop fuel buf len cid index prev)) []
    (M (Done (map (fun _ => rds buf prev (Z.to_nat (index - prev))) again))) a d b ->
  exch (K (write_loop (length again + fuel) buf len cid index prev)) [] (M (asks_again again)) a d b.
Proof.
  intros Hag Hi H0. revert M Ctx0. induction Hag as [|c again Hc _ IH]; intros M HM Hrest; [apply Hrest|].
  cbn [length Nat.add write_loop asks_again]. unfold ask_data.
  apply (exch_ctx (fun m => K (bind m _)) (fun m => M (bind (bind m _) _)) _ _ _ _ _ _ _ _ _ (tell_exch c)).
  cbn [bind]. rewrite as_received_event, Hc.
  apply (exch_ctx (fun m => K (bind m _)) (fun m => M (bind m _)) _ _ _ _ _ _ _ _ _ (sendi_exch buf prev (index - prev) Hi H0)).
  cbn [bind]. apply (IH (fun m => M (bind m _))); [typeclasses eauto|]. apply Hrest.
Qed.

Lemma write_rounds_exch buf len cid rounds : forall fuel index prev, Forall round_ok rounds -> enough len index rounds ->
  0 <= prev <= index -> index <= len -> int_ok len -> (events_of rounds <= fuel)%nat ->
  exists conn, exch (write_loop fuel buf len cid index prev) [] (asks rounds) (1, conn) [] (chunks buf len index rounds).
Proof.
  induction rounds as [|[c again] rounds IH]; intros fuel index prev Hok Hen Hp Hi Hl Hf; [done|].
  apply Forall_cons_iff in Hok as [(Hnew & Hm & Hag) Hok]. cbn [fst snd] in *. cbn [enough chunks] in *. cbv zeta in *.
  set (n := Z.min (conn_mss c) (len - index)) in *. unfold int_ok in *.
  assert (events_of ((c, again) :: rounds) = Datatypes.S (length again + events_of rounds)) as He by done. rewrite He in Hf.
  destruct fuel as [|fuel]; [lia|]. cbn [asks write_loop]. unfold ask_data.
  set (C := if n =? 0 then Done (1, as_received c) else write_loop fuel buf len cid (index + n) index).
  set (d := rds buf index (Z.to_nat n)).
  assert (exists conn, exch C [] (ds <- asks_again again;; rest <- asks rounds;; Done ((d, ds) :: rest)) (1, conn) []
    ((d, map (fun _ => d) again) :: chunks buf len (index + n) rounds)) as [conn Hconn].
  { unfold C. destruct (Z.eqb_spec n 0) as [Hn|Hn].
    - destruct Hen as [-> ->]. eexists. apply exch_done.
    - destruct (IH (fuel - length again)%nat (index + n) index) as [conn Hconn]; [done|done|lia|lia|unfold int_ok; lia|lia|].
      exists conn. replace fuel with (length again + (fuel - length again))%nat by lia.
      apply (write_again_exch _ _ _ _ _ _ _ (fun m => ds <- m;; rest <- asks rounds;; Done ((d, ds) :: rest)) _ _ _ (fun m => m));
        [done|unfold int_ok; lia|lia|].
      cbn [bind]. replace (index + n - index) with n by lia. fold d.
      apply (exch_bind_right _ _ _ _ _ _ _ _ _ Hconn). apply exch_done. }
  exists conn. apply (exch_ctx (fun m => bind m _) (fun m => bind (bind m _) _) _ _ _ _ _ _ _ _ _ (tell_exch c)). cbn [bind].
  rewrite as_received_event. change (conn_mss (as_received c)) with (conn_mss c).
  assert ((if conn_mss c <? len - index then conn_mss c else len - index) = n) as Hif
    by (unfold n; destruct (Z.ltb_spec (conn_mss c) (len - index)); lia).
  assert (exch (xtcp_sendi buf index n;;; C) [] (d <- (r <- master (len <- in_int;; l <- in_bytes (Z.to_nat len);; Done (l, len));; Done (fst r));;
      ds <- asks_again again;; rest <- asks rounds;; Done ((d, ds) :: rest)) (1, conn) []
    ((d, map (fun _ => d) again) :: chunks buf len (index + n) rounds)) as Hgo.
  { apply (exch_bind _ _ _ tt [] d); [apply sendi_exch; [unfold int_ok; lia|lia]|exact Hconn]. }
  destruct Hnew as [-> | ->]; cbv zeta; rewrite Hif; exact Hgo.
Qed.

(** What is given is the data, in order, and again what it was. *)
Lemma chunks_data buf len rounds : forall index, Forall round_ok rounds -> enough len index rounds -> 0 <= index <= len ->
  concat (map fst (chunks buf len index rounds)) = rds buf index (Z.to_nat (len - index)) /\
  Forall2 (fun r c => Z.of_nat (length (fst c)) <= conn_mss (fst r) /\ Forall (fun d => d = fst c) (snd c)) rounds (chunks buf len index rounds).
Proof.
  induction rounds as [|[c again] rounds IH]; intros index Hok Hen Hi; [done|].
  apply Forall_cons_iff in Hok as [(_ & Hm & _) Hok]. cbn [fst snd] in Hm. cbn [enough chunks map concat fst] in *. cbv zeta in *.
  set (n := Z.min (conn_mss c) (len - index)) in *.
  assert (Z.of_nat (length (rds buf index (Z.to_nat n))) <= conn_mss c /\
    Forall (fun d => d = rds buf index (Z.to_nat n)) (map (fun _ : xtcp_connection_t => rds buf index (Z.to_nat n)) again)) as Hc.
  { split; [rewrite length_rds; lia|]. apply Forall_map, Forall_forall. done. }
  destruct (Z.eqb_spec n 0) as [Hn|Hn].
  - destruct Hen as [-> ->]. rewrite Hn in *. cbn [chunks map concat]. replace (len - index) with 0 by lia. split; [done|]. constructor; [exact Hc|constructor].
  - destruct (IH (index + n)) as [H1 H2]; [done|done|lia|]. split; [|by constructor].
    rewrite H1. replace (Z.to_nat (len - index)) with (Z.to_nat n + Z.to_nat (len - (index + n)))%nat by lia.
    rewrite rds_app. by replace (index + Z.of_nat (Z.to_nat n)) with (index + n) by lia.
Qed.

(** C33: [xtcp_write]: the server takes the request to send and then asks for
    data, every time for as many bytes as it likes and again for the last ones
    as often as it likes, until it is given none.  Whatever the order of the
    steps, what it is given is the [len] bytes of the array in order, no more
    than it asked for at a time, the same when it asks again, and the client
    returns success. *)
Theorem xtcp_write_delivers {F} i (v : links (uip_state (xtcp_env F))) fuel conn buf len rounds : Forall round_ok rounds -> enough len 0 rounds ->
  0 <= len -> int_ok len -> int_ok (id conn) -> (events_of rounds <= fuel)%nat -> is_notified i v = false ->
  exists conn' ds,
    inevitable
      (Net (xtcp_write fuel conn buf len) [] []
         (r <- xtcpd_service_client0 true i (-1) v;; ds <- asks rounds;; Done (snd r, ds)))
      (met (1, conn') [] (on_stack (xtcpd_init_send (id conn)) v, ds)) /\
    concat (map fst ds) = rds buf 0 (Z.to_nat len) /\
    Forall2 (fun r c => Z.of_nat (length (fst c)) <= conn_mss (fst r) /\ Forall (fun d => d = fst c) (snd c)) rounds ds.
Proof.
  intros Hok Hen H0 Hlen Hid Hf Hn. destruct (write_rounds_exch buf len (id conn) rounds fuel 0 0 Hok Hen ltac:(lia) H0 Hlen Hf) as [conn' Hw].
  exists conn', (chunks buf len 0 rounds). destruct (chunks_data buf len rounds 0 Hok Hen ltac:(lia)) as [H1 H2].
  split; [|split; [by rewrite Z.sub_0_r in H1|exact H2]]. apply exch_inevitable.
  apply (exch_bind _ _ _ _ _ _ _ _ _ _ _ (init_send_exch i (-1) (id conn) v Hid Hn)).
  apply (exch_bind_right _ _ _ _ _ _ _ _ _ Hw). apply exch_done.
Qed.

(** ** [xtcp_read] *)

(** Packets, until the client has as many bytes as it wants. *)
Fixpoint gives (l : list (xtcp_connection_t * list Z)) : prog unit :=
  match l with [] => Done tt | (conn, d) :: l => give conn d;;; gives l end.
Fixpoint gathered (buf : list Z) (rlen : Z) (l : list (xtcp_connection_t * list Z)) : list Z :=
  match l with [] => buf | (_, d) :: l => gathered (wrs rlen d buf) (rlen + Z.of_nat (length d)) l end.
Fixpoint wanted (minlen rlen : Z) (l : list (xtcp_connection_t * list Z)) : Prop :=
  match l with
  | [] => minlen <= rlen
  | (_, d) :: l => rlen < minlen /\ int_ok (Z.of_nat (length d)) /\ wanted minlen (rlen + Z.of_nat (length d)) l
  end.
Lemma read_exch minlen cid l : forall fuel buf rlen conn0, Forall (fun r => event (fst r) = XTCP_RECV_DATA) l ->
  wanted minlen rlen l -> (length l <= fuel)%nat ->
  exists conn, exch (read_loop fuel buf minlen cid rlen conn0) [] (gives l)
    (rlen + Z.of_nat (length (concat (map snd l))), gathered buf rlen l, conn) [] tt.
Proof.
  induction l as [|[c d] l IH]; intros fuel buf rlen conn0 Hev Hw Hf; cbn [wanted gives gathered map concat snd] in *.
  - exists conn0. assert (read_loop fuel buf minlen cid rlen conn0 = Done (rlen, buf, conn0)) as ->.
    { destruct fuel; cbn [read_loop]; destruct (Z.ltb_spec rlen minlen); done || lia. }
    cbn. rewrite Z.add_0_r. apply exch_done.
  - apply Forall_cons_iff in Hev as [Hc Hev]. destruct Hw as (Hlt & Hd & Hw). cbn [fst length] in *. destruct fuel as [|fuel]; [lia|].
    destruct (IH fuel (wrs rlen d buf) (rlen + Z.of_nat (length d)) (as_received c)) as [conn Hconn]; [done|done|lia|].
    exists conn. cbn [read_loop]. destruct (Z.ltb_spec rlen minlen); [|lia]. unfold give.
    apply (exch_ctx (fun m => bind m _) (fun m => bind (bind m _) _) _ _ _ _ _ _ _ _ _ (tell_exch c)). cbn [bind].
    rewrite as_received_event, Hc. unfold xtcp_recvi.
    pose proof (exch_slave _ _ _ _ (xtcp_recvi_receives (cap := cap) buf rlen d Hd)) as Hr.
    apply (exch_ctx (fun m => bind (bind m _) _) (fun m => bind (bind m _) _) _ _ _ _ _ _ _ _ _ Hr). cbn [bind]. change (1 =? 0) with false. cbv iota.
    apply (exch_prefix 2 _ _ _ (read_loop fuel (wrs rlen d buf) minlen cid (rlen + Z.of_nat (length d)) (as_received c)) [] (gives l)); [reflexivity|].
    rewrite length_app, Nat2Z.inj_add, Z.add_assoc. exact Hconn.
Qed.
(** [xtcp_read] gathers the packets that it is given, in order, in its
    array, and returns as soon as it has [minlen] bytes, with their number. *)
Theorem xtcp_read_gathers fuel conn0 buf minlen l : Forall (fun r => event (fst r) = XTCP_RECV_DATA) l ->
  wanted minlen 0 l -> (length l <= fuel)%nat -> bytes (concat (map snd l)) -> (length (concat (map snd l)) <= length buf)%nat ->
  exists conn buf', inevitable (Net (xtcp_read fuel conn0 buf minlen) [] [] (gives l))
      (met (Z.of_nat (length (concat (map snd l))), buf', conn) [] tt) /\
    buf' = concat (map snd l) ++ skipn (length (concat (map snd l))) buf.
Proof.
  intros Hev Hw Hf Hb Hl. destruct (read_exch minlen (id conn0) l fuel buf 0 conn0 Hev Hw Hf) as [conn Hr].
  exists conn, (gathered buf 0 l). split; [by apply exch_inevitable|].
  assert (forall l got rest, bytes (concat (map snd l)) -> (length (concat (map snd l)) <= length rest)%nat ->
    gathered (got ++ rest) (Z.of_nat (length got)) l = got ++ concat (map snd l) ++ skipn (length (concat (map snd l))) rest) as Hg.
  { clear. induction l as [|[c d] l IH]; intros got rest Hb Hl; cbn [gathered map concat snd] in *; [done|].
    rewrite length_app in *. apply Forall_app in Hb as [Hd Hb]. rewrite wrs_app_exact by (done || lia).
    replace (Z.of_nat (length got) + Z.of_nat (length d)) with (Z.of_nat (length (got ++ d))) by (rewrite length_app; lia).
    rewrite (app_assoc got d), IH; [|done|rewrite length_skipn; lia]. rewrite skipn_skipn, <- !app_assoc. by rewrite (Nat.add_comm (length d)). }
  exact (Hg l [] buf Hb Hl).
Qed.
End blocking.
