(* ===== verification/Server.v ===== *)
(** * The server: [uip_server_support.c] and the loop of [uip_server.c]

    Where everything comes together: the stack with the xtcp server as its
    application, ARP, transmission, link-local addresses and DHCP, over one
    state.  [server_state] holds the variables of this file and those of the
    modules that keep their own state; it is the innermost part of the
    environment of the stack.  [None] is a call of [uip_process] that never
    returns, after which the server does nothing more.  The generator of the C
    library is a parameter. *)
From S2P Require Export XtcpSafety AutoIP Split Dhcpc.
Local Open Scope Z_scope.

(** [xtcp_ipconfig_t]. *)
Record xtcp_ipconfig_t : Type := XtcpIpconfig { c_ipaddr : u8x4; c_netmask : u8x4; c_gateway : u8x4 }.

Record server_state (R : Type) : Type := ServerState {
  arp : arp_state;
  autoip : autoip_state_t;
  dhcpc : dhcpc_state;
  dhcp_done : Z;
  uip_static_ip : Z;
  uip_static_ipconfig : xtcp_ipconfig_t;
  libc : R;
  out : wire }.
Arguments ServerState {R}. Arguments arp {R}. Arguments autoip {R}. Arguments dhcpc {R}. Arguments dhcp_done {R}.
Arguments uip_static_ip {R}. Arguments uip_static_ipconfig {R}. Arguments libc {R}. Arguments out {R}.
#[export] Instance eta_server_state {R} : Eta (server_state R) := fun r =>
  ServerState r.(arp) r.(autoip) r.(dhcpc) r.(dhcp_done) r.(uip_static_ip) r.(uip_static_ipconfig) r.(libc) r.(out).

(** A C loop [for (i = 0; i < n; i++)] whose body may not return. *)
Fixpoint for_each {S} (l : list nat) (f : nat -> S -> option S) (s : S) : option S :=
  match l with
  | [] => Some s
  | i :: l => match f i s with Some s => for_each l f s | None => None end
  end.

Section server.
Context {R : Type} (srand : Z -> R) (rand : R -> Z * R).
Notation S := (uip_state (xtcp_env (server_state R))).
Implicit Types s : S.

Definition srv s : server_state R := rest (env s).
Definition upd_srv (f : server_state R -> server_state R) s : S := upd_env (fun e => e <| rest ::= f |>) s.

(** ** Addresses *)

(** [uip_ipaddr_copy] copies two halfwords. *)
Definition uip_ipaddr_copy (a : u8x4) : u8x4 := of_words (word0 a) (word1 a).
Definition uip_sethostaddr (a : u8x4) s : S := s <| uip_hostaddr := uip_ipaddr_copy a |>.
Definition uip_setdraddr (a : u8x4) s : S := s <| uip_draddr := uip_ipaddr_copy a |>.
Definition uip_setnetmask (a : u8x4) s : S := s <| uip_netmask := uip_ipaddr_copy a |>.

Definition srv_dhcpc_configured (d : dhcpc_state) s : S :=
  let s := upd_srv (fun v => v <| autoip ::= autoip_stop |>) s in
  let s := uip_sethostaddr (d_ipaddr d) s in
  let s := uip_setdraddr (default_router d) s in
  let s := uip_setnetmask (d_netmask d) s in
  let s := upd_env uip_xtcp_up s in
  upd_srv (fun v => v <| dhcp_done := 1 |>) s.

Definition autoip_configured (autoip_ipaddr : u8x4) s : S :=
  if dhcp_done (srv s) =? 0 then
    let s := uip_sethostaddr autoip_ipaddr s in
    let s := uip_setnetmask (uip_ipaddr 255 255 0 0) s in
    let s := uip_setdraddr (uip_ipaddr 0 0 0 0) s in
    upd_env uip_xtcp_up s
  else s.

#[local] Instance server_dhcpc : DhcpcClient (xtcp_env (server_state R)) := {
  dhcpc_configured := srv_dhcpc_configured;
  dhcpc_autoip_start := upd_srv (fun v => v <| autoip ::= autoip_start |>);
  dhcpc_clock s := now (env s);
  libc_srand n := upd_srv (fun v => v <| libc := srand n |>);
  libc_rand s := let '(r, l) := rand (libc (srv s)) in (r, upd_srv (fun v => v <| libc := l |>) s) }.

(** An operation of the DHCP client on its own state. *)
Definition with_dhcpc (f : dhcpc_state -> S -> dhcpc_state * S) s : S :=
  let '(d, s) := f (dhcpc (srv s)) s in upd_srv (fun v => v <| dhcpc := d |>) s.
Definition server_dhcpc_appcall : S -> S := with_dhcpc dhcpc_appcall.

(** The application of the stack. *)
#[local] Instance server_env : UipEnv (xtcp_env (server_state R)) := xtcp_uip_env server_dhcpc_appcall.

Definition uip_linkup s : S :=
  let s := if negb (get_uip_xtcp_ifstate (env s) =? 0) then upd_env uip_xtcp_down s else s in
  if negb (uip_static_ip (srv s) =? 0) then
    let s := uip_sethostaddr (c_ipaddr (uip_static_ipconfig (srv s))) s in
    let s := uip_setdraddr (c_gateway (uip_static_ipconfig (srv s))) s in
    let s := uip_setnetmask (c_netmask (uip_static_ipconfig (srv s))) s in
    upd_env uip_xtcp_up s
  else
    let s := upd_srv (fun v => v <| dhcp_done := 0 |>) s in
    let s := with_dhcpc dhcpc_stop s in
    let s := upd_srv (fun v => v <| autoip ::= autoip_stop |>) s in
    with_dhcpc dhcpc_start s.

Definition uip_linkdown s : S :=
  let s := upd_srv (fun v => v <| dhcp_done := 0 |>) s in
  let s := with_dhcpc dhcpc_stop s in
  let s := upd_srv (fun v => v <| autoip ::= autoip_stop |>) s in
  upd_env uip_xtcp_down s.

(** [NULL] is [None].  The static configuration stays as it was without one. *)
Definition uip_server_init (num_xtcp : nat) (ipconfig : option xtcp_ipconfig_t) (mac_address : list Z) s : S :=
  let s := match ipconfig with Some c => upd_srv (fun v => v <| uip_static_ipconfig := c |>) s | None => s end in
  let s := s <| uip_ethaddr := map w8 (take 6 mac_address) |> in
  let s := uip_init s in
  let s := match ipconfig with
           | Some c => if bool_decide (c_ipaddr c <> zero4) then upd_srv (fun v => v <| uip_static_ip := 1 |>) s else s
           | None => s
           end in
  let s := match ipconfig with
           | None =>
               let s := uip_sethostaddr (uip_ipaddr 0 0 0 0) s in
               let s := uip_setdraddr (uip_ipaddr 0 0 0 0) s in
               uip_setnetmask (uip_ipaddr 0 0 0 0) s
           | Some c =>
               let s := uip_sethostaddr (c_ipaddr c) s in
               let s := uip_setdraddr (c_gateway c) s in
               uip_setnetmask (c_netmask c) s
           end in
  let hwsum := foldr Z.add 0 (take 6 mac_address) in
  let s := upd_srv (fun v => v <| autoip ::= autoip_init (hwsum + Z.shiftl hwsum 16 + Z.shiftl hwsum 24) |>) s in
  let s := with_dhcpc (dhcpc_init (uip_ethaddr s) 6) s in
  upd_env (xtcpd_init num_xtcp) s.

(** ** Packets *)

Definition xtcp_tx_buffer s : S :=
  let '(s, w) := uip_split_output s (out (srv s)) in
  let s := upd_srv (fun v => v <| out := w |>) s in
  s <| uip_len := 0 |>.
(** [if (uip_len > 0)] the packet goes out through ARP. *)
Definition send_if_any (conn : option nat) s : S :=
  if 0 <? uip_len s then xtcp_tx_buffer (uip_arp_out conn (arp (srv s)) s) else s.

Definition needs_poll (a : xtcpd_state_t) : Z :=
  let x := xs a in
  Z.lor (Z.lor (Z.lor (Z.lor (connect_request x) (UipState.send_request x)) (abort_request x)) (close_request x)) (ack_request x).
Definition uip_conn_needs_poll (i : nat) s : bool := negb (needs_poll (appstate (conn_at i s)) =? 0).
Definition uip_udp_conn_needs_poll (i : nat) s : bool := negb (needs_poll (udp_appstate (udp_conn_at i s)) =? 0).

Definition xtcpd_check_connection_poll s : option S :=
  s ← for_each (seq 0 UIP_CONNS) (fun i s =>
    if uip_conn_needs_poll i s then send_if_any None <$> uip_poll_conn i s else Some s) s;
  for_each (seq 0 UIP_UDP_CONNS) (fun i s =>
    if uip_udp_conn_needs_poll i s then send_if_any (Some i) <$> uip_udp_periodic i s else Some s) s.

Definition uip_udp_arp_event (i : nat) s : option S := uip_process UIP_UDP_ARP_EVENT (s <| uip_udp_conn := Some i |>).
Definition uip_udp_ackdata (i : nat) s : option S := uip_process UIP_UDP_ACKDATA (s <| uip_udp_conn := Some i |>).
Definition uip_udp_conn_has_ack (i : nat) s : bool := tst (udpflags (udp_conn_at i s)) UDP_SENT.

(** The conflict detection watches the ARP packets. *)
Definition server_arp_in s : S := upd_srv (fun v => v <| autoip := autoip_arp_in (autoip v) s |>) s.

Definition xtcp_process_incoming_packet (length : Z) s : option S :=
  let ethtype := rd16 (uip_buf s) ARP.type in
  if ethtype =? HTONS UIP_ETHTYPE_IP then
    let s := s <| uip_len := w16 length |> in
    s ← uip_input s;
    Some (if 0 <? uip_len s then
      let proto := rd8 (uip_buf s) BUF.proto in
      if uip_udpconnection s && negb (proto =? UIP_PROTO_ICMP) && negb (proto =? UIP_PROTO_IGMP)
      then xtcp_tx_buffer (uip_arp_out (uip_udp_conn s) (arp (srv s)) s)
      else xtcp_tx_buffer (uip_arp_out None (arp (srv s)) s)
    else s)
  else if ethtype =? HTONS UIP_ETHTYPE_ARP then
    let s := s <| uip_len := w16 length |> in
    let '(a, s) := uip_arp_arpin server_arp_in (arp (srv s)) s in
    let s := upd_srv (fun v => v <| arp := a |>) s in
    let s := if 0 <? uip_len s then xtcp_tx_buffer s else s in
    for_each (seq 0 UIP_UDP_CONNS) (fun i s => send_if_any (Some i) <$> uip_udp_arp_event i s) s
  else Some s.

Definition xtcp_process_udp_acks s : option S :=
  for_each (seq 0 UIP_UDP_CONNS) (fun i s =>
    if uip_udp_conn_has_ack i s then send_if_any (Some i) <$> uip_udp_ackdata i s else Some s) s.

(** [igmp_periodic] is not compiled in. *)
Definition xtcp_process_periodic_timer s : option S :=
  s ← for_each (seq 0 UIP_UDP_CONNS) (fun i s => send_if_any (Some i) <$> uip_udp_periodic i s) s;
  for_each (seq 0 UIP_CONNS) (fun i s => send_if_any None <$> uip_periodic i s) s.

(** ** The main loop *)

Record loop_timers : Type := LoopTimers { periodic_timer : uip_timer; arp_timer : uip_timer; loop_autoip_timer : uip_timer }.
Definition initial_timers (now : Z) : loop_timers :=
  LoopTimers (UipTimer now (CLOCK_SECOND / 10)) (UipTimer now (CLOCK_SECOND * 10)) (UipTimer now (CLOCK_SECOND / 2)).

Definition server_autoip_periodic s : S :=
  let '(a, s) := autoip_periodic autoip_configured (now (env s)) (autoip (srv s)) s in
  upd_srv (fun v => v <| autoip := a |>) s.

(** What [safe_mac_rx] yields: nothing, a change of the link (a packet of
    [STATUS_PACKET_LEN] bytes whose first is the state) or a frame. *)
Inductive mac_rx : Type := RxNothing | RxStatus (up : bool) | RxFrame (frame : list Z).

Definition xcoredev_read (rx : mac_rx) (n : Z) s : S * Z :=
  match rx with
  | RxNothing => (s, 0)
  | RxStatus up =>
      let s := mem (wr8 0 (if up then 1 else 0)) s in
      (if rd8 (uip_buf s) 0 =? 0 then uip_linkdown s else uip_linkup s, 0)
  | RxFrame frame =>
      let s := mem (wrs 0 (take (Z.to_nat n) frame)) s in
      let len := Z.of_nat (length frame) in
      (s, if len <=? n then len else 0)
  end.

(** One turn of the loop: [rx] is what the driver has received, [clock] the time, which stands still during a turn. *)
Definition server_loop (rx : mac_rx) (clock : Z) (t : loop_timers) s : option (loop_timers * S) :=
  let s := upd_env (fun e => e <| now := clock |>) s in
  let s := xtcpd_service_clients_until_ready s in
  s ← xtcpd_check_connection_poll s;
  let s := upd_env uip_xtcp_checkstate s in
  let '(s, len) := xcoredev_read rx UIP_BUFSIZE s in
  let s := s <| uip_len := w16 len |> in
  s ← (if 0 <? uip_len s then xtcp_process_incoming_packet (uip_len s) s else Some s);
  s ← xtcp_process_udp_acks s;
  let '(arp_timer', s) :=
    if timer_expired clock (arp_timer t)
    then (timer_reset (arp_timer t), upd_srv (fun v => v <| arp ::= uip_arp_timer |>) s)
    else (arp_timer t, s) in
  let '(autoip_timer', s) :=
    if timer_expired clock (loop_autoip_timer t) then
      let s := server_autoip_periodic s in
      (timer_reset (loop_autoip_timer t), if 0 <? uip_len s then xtcp_tx_buffer s else s)
    else (loop_autoip_timer t, s) in
  if timer_expired clock (periodic_timer t) then
    s ← xtcp_process_periodic_timer s;
    Some (LoopTimers (timer_reset (periodic_timer t)) arp_timer' autoip_timer', s)
  else Some (LoopTimers (periodic_timer t) arp_timer' autoip_timer', s).
End server.

(** ** The invariant of the program *)

Section invariant.
Context {R : Type} (srand : Z -> R) (rand : R -> Z * R).
Notation S := (uip_state (xtcp_env (server_state R))).
Implicit Types s : S.

Lemma upd_srv_wf f s : uip_wf s -> uip_wf (upd_srv f s).
Proof. apply wf_set_env. Qed.
Lemma ipaddr_copy_ok a : u8x4_ok (uip_ipaddr_copy a).
Proof. apply of_words_ok. Qed.
Lemma sethostaddr_wf a s : uip_wf s -> uip_wf (uip_sethostaddr a s).
Proof. intros Hs. apply wf_set_hostaddr; [done|apply ipaddr_copy_ok]. Qed.
Lemma setdraddr_wf a s : uip_wf s -> uip_wf (uip_setdraddr a s).
Proof. intros Hs. apply wf_set_draddr; [done|apply ipaddr_copy_ok]. Qed.
Lemma setnetmask_wf a s : uip_wf s -> uip_wf (uip_setnetmask a s).
Proof. intros Hs. apply wf_set_netmask; [done|apply ipaddr_copy_ok]. Qed.
#[local] Hint Resolve upd_srv_wf upd_env_wf sethostaddr_wf setdraddr_wf setnetmask_wf : core.

Lemma autoip_configured_wf a s : uip_wf s -> uip_wf (autoip_configured a s).
Proof. intros Hs. unfold autoip_configured. case_match; auto. Qed.

#[local] Instance server_dhcpc_wf : @DhcpcClientWf (xtcp_env (server_state R)) (server_dhcpc srand rand).
Proof.
  constructor; intros; cbn; auto.
  - unfold srv_dhcpc_configured. cbv zeta. auto 10.
  - destruct (rand _). cbn. auto.
Qed.

Lemma with_dhcpc_wf f s : (forall d, uip_wf (f d s).2) -> uip_wf (with_dhcpc f s).
Proof. intros H. unfold with_dhcpc. specialize (H (dhcpc (srv s))). destruct (f _ s). by apply upd_srv_wf. Qed.

#[local] Instance server_env_wf : @UipEnvWf (xtcp_env (server_state R)) (server_env srand rand).
Proof. apply xtcp_uip_env_wf. intros t Ht. apply with_dhcpc_wf. intros d. by apply handle_dhcp_wf. Qed.

Lemma dhcpc_start_server_wf s : uip_wf s -> uip_wf (with_dhcpc dhcpc_start s).
Proof. intros Hs. apply with_dhcpc_wf. intros d. by apply dhcpc_start_wf. Qed.
Lemma dhcpc_stop_server_wf s : uip_wf s -> uip_wf (with_dhcpc dhcpc_stop s).
Proof. intros Hs. apply with_dhcpc_wf. intros d. by apply dhcpc_stop_wf. Qed.
#[local] Hint Resolve dhcpc_start_server_wf dhcpc_stop_server_wf : core.

Lemma uip_linkup_wf s : uip_wf s -> uip_wf (uip_linkup s).
Proof.
  intros Hs. unfold uip_linkup. cbv zeta. set (s1 := if negb (get_uip_xtcp_ifstate _ =? 0) then _ else s).
  assert (uip_wf s1) as H1 by (unfold s1; case_match; auto). clearbody s1. case_match; auto 10.
Qed.
Lemma uip_linkdown_wf s : uip_wf s -> uip_wf (uip_linkdown s).
Proof. intros Hs. unfold uip_linkdown. auto 10. Qed.

Lemma uip_server_init_wf n c mac s : length (take 6 mac) = 6%nat -> uip_wf s -> uip_wf (uip_server_init srand rand n c mac s).
Proof.
  intros Hm Hs. unfold uip_server_init. cbv zeta.
  set (s1 := match c with Some _ => _ | None => s end).
  assert (uip_wf s1) as H1 by (unfold s1; case_match; auto). clearbody s1.
  assert (uip_wf (s1 <| uip_ethaddr := map w8 (take 6 mac) |>)) as H2.
  { destruct H1; constructor; ssimpl; auto; [|by rewrite length_map].
    apply Forall_map, Forall_forall. intros x _. apply w8_u8. }
  revert H2. generalize (s1 <| uip_ethaddr := map w8 (take 6 mac) |>). clear s1 H1. intros s1 H1.
  apply uip_init_wf in H1. set (s2 := match c with Some _ => _ | None => uip_init s1 end).
  assert (uip_wf s2) as H2 by (unfold s2; repeat case_match; auto). clearbody s2.
  apply upd_env_wf, with_dhcpc_wf. intros d. apply dhcpc_init_wf, upd_srv_wf. case_match; auto 10.
Qed.

(** *** Transmission *)

Lemma mark_udp_wf conn f s : u8 f -> uip_wf s -> uip_wf (mark_udp conn f s).
Proof.
  intros Hf Hs. unfold mark_udp. case_match; [|done]. apply wf_upd_udp_conn; [done|].
  intros []; constructor; ssimpl; auto using lor_u8.
Qed.
Lemma arp_out_frame_wf conn s : uip_wf s -> uip_wf (arp_out_frame conn s).
Proof.
  intros Hs. unfold arp_out_frame. cbv zeta. apply wf_set_len; [|apply w16_u16].
  apply mark_udp_wf; [unfold u8, UDP_SENT; lia|]. wf_auto.
Qed.
Lemma arp_request_wf ip s : uip_wf s -> uip_wf (arp_request ip s).
Proof. intros Hs. unfold arp_request. cbv zeta. wf_auto. Qed.
Lemma uip_arp_out_wf conn a s : uip_wf s -> uip_wf (uip_arp_out conn a s).
Proof.
  intros Hs. unfold uip_arp_out. cbv zeta. repeat case_match.
  - apply arp_out_frame_wf. wf_auto.
  - apply arp_out_frame_wf. wf_auto.
  - apply arp_out_frame_wf. wf_auto.
  - apply mark_udp_wf; [unfold u8, UDP_PENDING_ARP; lia|]. by apply arp_request_wf.
Qed.

Lemma xcoredev_send_wf s w : uip_wf s -> uip_wf (xcoredev_send s w).1.
Proof. intros Hs. unfold xcoredev_send. cbv zeta. repeat case_match; cbn [fst]; wf_auto. Qed.
Lemma set_tcpchksum_wf s : uip_wf s -> uip_wf (set_tcpchksum s).
Proof. intros Hs. unfold set_tcpchksum. cbv zeta. wf_auto. Qed.
Lemma split_send_wf s w : uip_wf s -> uip_wf (uip_split_output_send s w).1.
Proof.
  intros Hs. unfold uip_split_output_send. cbv zeta. apply xcoredev_send_wf, wf_set_len; [|apply w16_u16].
  pose proof (set_tcpchksum_wf s Hs). wf_auto.
Qed.
Lemma set_half_wf l s : uip_wf s -> uip_wf (set_half l s).
Proof. intros Hs. unfold set_half. cbv zeta. wf_auto. Qed.
Lemma move_down_wf l1 l2 s : uip_wf s -> uip_wf (move_down l1 l2 s).
Proof.
  intros Hs. unfold move_down. cbv zeta. apply wf_mem; [wf_auto|apply bytes_copy_words|intros; apply length_copy_words].
Qed.
Lemma uip_split_output_wf s w : uip_wf s -> uip_wf (uip_split_output s w).1.
Proof.
  intros Hs. unfold uip_split_output. cbv zeta. case_match; [|by apply xcoredev_send_wf].
  case_match; [|by apply xcoredev_send_wf, set_tcpchksum_wf].
  match goal with |- context [uip_split_output_send (set_half ?l s) w] =>
    pose proof (split_send_wf (set_half l s) w (set_half_wf l s Hs)) as H1;
    destruct (uip_split_output_send (set_half l s) w) as [s1 w1]; cbn [fst] in H1 end.
  apply split_send_wf. apply wf_mem; [by apply move_down_wf, set_half_wf|auto with mem|intros; apply length_wr4].
Qed.
Lemma xtcp_tx_buffer_wf s : uip_wf s -> uip_wf (xtcp_tx_buffer s).
Proof.
  intros Hs. unfold xtcp_tx_buffer. pose proof (uip_split_output_wf s (out (srv s)) Hs) as H1.
  destruct (uip_split_output _ _) as [s1 w]. cbv zeta. cbn [fst] in H1. pose proof (upd_srv_wf (fun v => v <| out := w |>) s1 H1).
  wf_auto.
Qed.
Lemma tx_if_any_wf s : uip_wf s -> uip_wf (if 0 <? uip_len s then xtcp_tx_buffer s else s).
Proof. intros Hs. case_match; auto using xtcp_tx_buffer_wf. Qed.
Lemma send_if_any_wf conn s : uip_wf s -> uip_wf (send_if_any conn s).
Proof. intros Hs. unfold send_if_any. case_match; [|done]. by apply xtcp_tx_buffer_wf, uip_arp_out_wf. Qed.

Lemma arp_reply_wf s : uip_wf s -> uip_wf (arp_reply s).
Proof. intros Hs. unfold arp_reply, copy6. cbv zeta. wf_auto. Qed.
Lemma uip_arp_arpin_wf a s : uip_wf s -> uip_wf (uip_arp_arpin server_arp_in a s).2.
Proof.
  intros Hs. unfold uip_arp_arpin. case_match; cbn [snd]; [wf_auto|]. cbv zeta.
  assert (uip_wf (server_arp_in (s <| uip_len := 0 |>))) as H1 by (apply upd_srv_wf; wf_auto).
  repeat case_match; cbn [snd]; auto using arp_reply_wf.
Qed.

Lemma create_arp_packet_wf s : uip_wf s -> uip_wf (create_arp_packet s).
Proof. intros Hs. unfold create_arp_packet. cbv zeta. wf_auto. Qed.
Lemma autoip_periodic_wf now a s : uip_wf s -> uip_wf (autoip_periodic autoip_configured now a s).2.
Proof.
  intros Hs. pose proof (create_arp_packet_wf s Hs).
  assert (forall a, uip_wf (send_probe now a s).2) as Hp by (intros; unfold send_probe; cbv zeta; cbn [snd]; wf_auto).
  assert (forall a, uip_wf (send_announce now a s).2) as Ha by (intros; unfold send_announce; cbv zeta; cbn [snd]; wf_auto).
  unfold autoip_periodic. cbv zeta. destruct (state a); try done.
  5: { specialize (Ha a). destruct (send_announce now a s). cbn [snd] in Ha.
       case_match; cbn [snd]; auto using autoip_configured_wf. }
  all: repeat case_match; auto.
Qed.
Lemma server_autoip_periodic_wf s : uip_wf s -> uip_wf (server_autoip_periodic s).
Proof.
  intros Hs. unfold server_autoip_periodic. pose proof (autoip_periodic_wf (now (env s)) (autoip (srv s)) s Hs) as H1.
  destruct (autoip_periodic _ _ _ _). by apply upd_srv_wf.
Qed.
End invariant.
