(* ===== verification/ServerInv.v ===== *)
(** * The invariant of the server

    [server_ok]: the stack is well-formed, and so is everything else the server
    keeps: identifiers, requests and listeners, what each client has been told of
    the interface, the ARP table, the link-local and the DHCP client.  Every
    operation of [Server] keeps it.  The states of TCP connections change along
    the arrows of [UipTcp] only. *)
From S2P Require Export Server UipFrame.
Local Open Scope Z_scope.

Section layers.
Context {R : Type} (srand : Z -> R) (rand : R -> Z * R).
Notation S := (uip_state (xtcp_env (server_state R))).
Implicit Types s : S.
#[local] Hint Extern 0 (DhcpcClient _) => exact (server_dhcpc srand rand) : typeclass_instances.
#[local] Hint Extern 0 (DhcpcClientWf _) => exact (server_dhcpc_wf srand rand) : typeclass_instances.
#[local] Hint Extern 0 (UipEnv _) => exact (server_env srand rand) : typeclass_instances.
#[local] Hint Extern 0 (UipEnvWf _) => exact (server_env_wf srand rand) : typeclass_instances.

Record modules_ok (v : server_state R) : Prop := {
  mk_arp : arp_wf (arp v);
  mk_autoip : autoip_inv (autoip v);
  mk_dhcpc : dhcpc_wf (dhcpc v) }.
Record layers_ok s : Prop := {
  lk_xtcp : xtcp_ok s;
  lk_interface : interface_ok (env s);
  lk_modules : modules_ok (srv s) }.
Definition server_ok s : Prop := uip_wf s /\ layers_ok s.

(** Everything but the stack itself. *)
Lemma layers_keeps s t : keeps_app s t -> layers_ok s -> layers_ok t.
Proof.
  intros (He & Hc & Hu) [[[Hg Hi] Ha Hl] Hn Hm]. unfold apps_ok, apps, srv in *.
  assert (ids t = ids s) as Hids.
  { unfold ids. rewrite <- (map_map appstate id_of), <- (map_map udp_appstate id_of), Hc, Hu. by rewrite !map_map. }
  constructor; [constructor; [constructor|..]|..]; unfold apps_ok, apps, srv; by rewrite ?He, ?Hc, ?Hu, ?Hids.
Qed.
Lemma layers_leaves s t : leaves s t -> layers_ok s -> layers_ok t.
Proof.
  intros Hl [Hx Hn Hm]. pose proof (lv_statics _ _ Hl) as Hst. constructor; [by eapply xtcp_ok_leaves|by eapply interface_ok_statics|].
  unfold srv in *. assert (rest (env t) = rest (env s)) as -> by (injection Hst; congruence). done.
Qed.
Lemma layers_init p proto remote lp rp conn s : uip_wf s -> layers_ok s -> layers_ok (xtcpd_init_state p proto remote lp rp conn s).
Proof.
  intros Hs [Hx Hn Hm]. destruct (init_state_env p proto remote lp rp conn s) as [Hst _].
  constructor; [by apply xtcp_ok_init|by eapply interface_ok_statics|].
  unfold srv in *. assert (rest (env (xtcpd_init_state p proto remote lp rp conn s)) = rest (env s)) as -> by (injection Hst; congruence). done.
Qed.

(** Updates of the environment below the xtcp layer. *)
Lemma layers_upd_env f s : (forall e, guid (f e) = guid e /\ tcp_listeners (f e) = tcp_listeners e /\ udp_listeners (f e) = udp_listeners e) ->
  interface_ok (f (env s)) -> modules_ok (rest (f (env s))) -> layers_ok s -> layers_ok (upd_env f s).
Proof.
  intros Hf Hi Hm [[[Hg Hd] Ha Hl] _ _]. destruct (Hf (env s)) as (H1 & H2 & H3). constructor; [|done..].
  constructor; [constructor; [by cbn; rewrite H1|done]|done|]. destruct Hl. constructor; cbn; congruence.
Qed.
Lemma layers_upd_srv f s : (modules_ok (srv s) -> modules_ok (f (srv s))) -> layers_ok s -> layers_ok (upd_srv f s).
Proof.
  intros Hf Hs. apply layers_upd_env; [done|..|done].
  - destruct Hs as [_ [] _]. by constructor.
  - apply Hf, Hs.
Qed.
Lemma layers_up s : layers_ok s -> layers_ok (upd_env uip_xtcp_up s).
Proof. intros Hs. apply layers_upd_env; [done|destruct Hs as [_ [] _]; constructor; try done; by right|apply Hs|done]. Qed.
Lemma layers_down s : layers_ok s -> layers_ok (upd_env uip_xtcp_down s).
Proof. intros Hs. apply layers_upd_env; [done|destruct Hs as [_ [] _]; constructor; try done; by left|apply Hs|done]. Qed.
Lemma layers_now n s : layers_ok s -> layers_ok (upd_env (fun e => e <| now := n |>) s).
Proof. intros Hs. apply layers_upd_env; [done|destruct Hs as [_ [] _]; by constructor|apply Hs|done]. Qed.
Lemma layers_checkstate s : layers_ok s -> layers_ok (upd_env uip_xtcp_checkstate s).
Proof.
  intros Hs. apply layers_upd_env; [|apply checkstate_ok, Hs| |done].
  - intros e. by destruct (checkstate_rest e) as (-> & -> & -> & _).
  - destruct (checkstate_rest (env s)) as (_ & _ & _ & -> & _). apply Hs.
Qed.
#[local] Hint Resolve layers_up layers_down : core.

Lemma modules_same v v' : arp v' = arp v -> autoip v' = autoip v -> dhcpc v' = dhcpc v -> modules_ok v -> modules_ok v'.
Proof. intros H1 H2 H3 []. constructor; congruence. Qed.
Lemma modules_autoip f v : (autoip_inv (autoip v) -> autoip_inv (f (autoip v))) -> modules_ok v -> modules_ok (v <| autoip ::= f |>).
Proof. intros Hf []. constructor; cbn; auto. Qed.
Lemma autoip_stop_ok a : autoip_inv a -> autoip_inv (autoip_stop a).
Proof. apply (autoip_step_inv (fun _ (s : S) => s) Stop). Qed.
Lemma autoip_start_ok a : autoip_inv a -> autoip_inv (autoip_start a).
Proof. apply (autoip_step_inv (fun _ (s : S) => s) Start). Qed.

(** *** DHCP and link-local addresses *)

Lemma layers_autoip_start s : layers_ok s -> layers_ok (upd_srv (fun v => v <| autoip ::= autoip_start |>) s).
Proof. apply layers_upd_srv, modules_autoip, autoip_start_ok. Qed.
Lemma layers_autoip_stop s : layers_ok s -> layers_ok (upd_srv (fun v => v <| autoip ::= autoip_stop |>) s).
Proof. apply layers_upd_srv, modules_autoip, autoip_stop_ok. Qed.
Lemma layers_dhcp_done n s : layers_ok s -> layers_ok (upd_srv (fun v => v <| dhcp_done := n |>) s).
Proof. apply layers_upd_srv. by apply modules_same. Qed.
#[local] Hint Resolve layers_autoip_stop layers_autoip_start layers_dhcp_done : core.
Lemma layers_addresses a m g s : layers_ok s -> layers_ok (uip_setnetmask m (uip_setdraddr g (uip_sethostaddr a s))).
Proof. by apply layers_keeps. Qed.
Lemma srv_dhcpc_configured_layers d s : layers_ok s -> layers_ok (srv_dhcpc_configured d s).
Proof. intros Hs. unfold srv_dhcpc_configured. cbv zeta. apply layers_dhcp_done, layers_up, layers_addresses. auto. Qed.
Lemma autoip_configured_layers a s : layers_ok s -> layers_ok (autoip_configured a s).
Proof. intros Hs. unfold autoip_configured. case_match; [|done]. cbv zeta. apply layers_up. revert Hs. by apply layers_keeps. Qed.
Lemma libc_rand_layers s : layers_ok s -> layers_ok (libc_rand s).2.
Proof. intros Hs. cbn. destruct (rand _). cbn. revert Hs. apply layers_upd_srv. by apply modules_same. Qed.

(** An operation of the DHCP client. *)
Lemma with_dhcpc_layers f s : (forall d, layers_ok (f d s).2) -> (forall d, dhcpc_wf d -> dhcpc_wf (f d s).1) -> layers_ok s ->
  layers_ok (with_dhcpc f s).
Proof.
  intros Hl Hd [_ _ [_ _ Hw]]. unfold with_dhcpc. specialize (Hl (dhcpc (srv s))). specialize (Hd _ Hw).
  destruct (f _ s) as [d t]. cbn [fst snd] in *. revert Hl. apply layers_upd_srv. intros []. by constructor.
Qed.
Lemma layers_still s t : still s t -> layers_ok s -> layers_ok t.
Proof. intros (He & Hc & Hu & _). apply layers_keeps. split; [done|]. by rewrite Hc, Hu. Qed.
Lemma dhcpc_appcall_ok s : server_ok s -> server_ok (server_dhcpc_appcall srand rand s).
Proof.
  intros [Hs Hl]. split; [apply with_dhcpc_wf; intros d; by apply handle_dhcp_wf|].
  apply with_dhcpc_layers; [|intros d; by apply handle_dhcp_wf|done].
  intros d. apply handle_dhcp_holds; [apply layers_still|apply srv_dhcpc_configured_layers|apply layers_autoip_start|apply libc_rand_layers|done].
Qed.
Lemma dhcpc_start_ok s : server_ok s -> server_ok (with_dhcpc dhcpc_start s).
Proof.
  intros [Hs Hl]. split; [by eapply dhcpc_start_server_wf|].
  apply with_dhcpc_layers; [intros d; revert Hl; by apply layers_keeps|intros d; by apply (dhcpc_start_wf d s)|done].
Qed.
Lemma dhcpc_stop_ok s : server_ok s -> server_ok (with_dhcpc dhcpc_stop s).
Proof.
  intros [Hs Hl]. split; [by eapply dhcpc_stop_server_wf|].
  apply with_dhcpc_layers; [intros d; revert Hl; by apply layers_keeps|intros d; by apply (dhcpc_stop_wf d s)|done].
Qed.
#[local] Hint Resolve dhcpc_start_ok dhcpc_stop_ok : core.

(** [server_ok] of an operation whose two halves are known. *)
Lemma ok_upd_srv f s : (modules_ok (srv s) -> modules_ok (f (srv s))) -> server_ok s -> server_ok (upd_srv f s).
Proof. intros Hf [Hs Hl]. split; [by apply upd_srv_wf|by apply layers_upd_srv]. Qed.
Lemma ok_keeps s t : (uip_wf s -> uip_wf t) -> keeps_app s t -> server_ok s -> server_ok t.
Proof. intros Hw Hk [Hs Hl]. split; [auto|by eapply layers_keeps]. Qed.
Lemma ok_leaves s t : (uip_wf s -> uip_wf t) -> leaves s t -> server_ok s -> server_ok t.
Proof. intros Hw Hk [Hs Hl]. split; [auto|by eapply layers_leaves]. Qed.
Lemma ok_up s : server_ok s -> server_ok (upd_env uip_xtcp_up s).
Proof. intros [Hs Hl]. split; [by apply upd_env_wf|by apply layers_up]. Qed.
Lemma ok_down s : server_ok s -> server_ok (upd_env uip_xtcp_down s).
Proof. intros [Hs Hl]. split; [by apply upd_env_wf|by apply layers_down]. Qed.
Lemma ok_autoip_stop s : server_ok s -> server_ok (upd_srv (fun v => v <| autoip ::= autoip_stop |>) s).
Proof. apply ok_upd_srv, modules_autoip, autoip_stop_ok. Qed.
Lemma ok_dhcp_done n s : server_ok s -> server_ok (upd_srv (fun v => v <| dhcp_done := n |>) s).
Proof. apply ok_upd_srv. by apply modules_same. Qed.
#[local] Hint Resolve ok_up ok_down ok_autoip_stop ok_dhcp_done : core.
Lemma ok_addresses a m g s : server_ok s -> server_ok (uip_setnetmask m (uip_setdraddr g (uip_sethostaddr a s))).
Proof. apply ok_keeps; [|done]. intros Hs. by apply setnetmask_wf, setdraddr_wf, sethostaddr_wf. Qed.

Lemma uip_linkup_ok s : server_ok s -> server_ok (uip_linkup s).
Proof.
  intros Hs. unfold uip_linkup. cbv zeta. set (s1 := if negb (get_uip_xtcp_ifstate _ =? 0) then _ else s).
  assert (server_ok s1) as H1 by (unfold s1; case_match; auto). clearbody s1.
  case_match; [by apply ok_up, ok_addresses|auto 10].
Qed.
Lemma uip_linkdown_ok s : server_ok s -> server_ok (uip_linkdown s).
Proof. intros Hs. unfold uip_linkdown. auto 10. Qed.

(** *** Transmission *)

Lemma mark_udp_keeps conn f s : keeps_app s (mark_udp conn f s).
Proof. unfold mark_udp. case_match; [|done]. by apply keeps_upd_udp_conn. Qed.
Lemma uip_arp_out_ok conn a s : server_ok s -> server_ok (uip_arp_out conn a s).
Proof.
  apply ok_keeps; [apply uip_arp_out_wf|]. unfold uip_arp_out, arp_out_frame. cbv zeta.
  repeat case_match; (etrans; [|exact (conj eq_refl (conj eq_refl eq_refl))]) || idtac;
    (etrans; [|apply mark_udp_keeps]); exact (conj eq_refl (conj eq_refl eq_refl)).
Qed.
Lemma xcoredev_send_keeps s w : keeps_app s (xcoredev_send s w).1.
Proof. unfold xcoredev_send. cbv zeta. by repeat case_match. Qed.
Lemma split_send_keeps s w : keeps_app s (uip_split_output_send s w).1.
Proof. unfold uip_split_output_send. cbv zeta. etrans; [|apply xcoredev_send_keeps]. exact (conj eq_refl (conj eq_refl eq_refl)). Qed.
Lemma uip_split_output_keeps s w : keeps_app s (uip_split_output s w).1.
Proof.
  unfold uip_split_output. cbv zeta. case_match; [|apply xcoredev_send_keeps].
  case_match; [|etrans; [|apply xcoredev_send_keeps]; exact (conj eq_refl (conj eq_refl eq_refl))].
  match goal with |- context [uip_split_output_send ?h w] =>
    pose proof (split_send_keeps h w) as H1; destruct (uip_split_output_send h w) as [s1 w1]; cbn [fst] in H1 end.
  etrans; [|apply split_send_keeps]. etrans; [|exact (conj eq_refl (conj eq_refl eq_refl))]. etrans; [|exact H1].
  exact (conj eq_refl (conj eq_refl eq_refl)).
Qed.
Lemma xtcp_tx_buffer_ok s : server_ok s -> server_ok (xtcp_tx_buffer s).
Proof.
  intros Hs. split; [apply xtcp_tx_buffer_wf, Hs|]. destruct Hs as [_ Hl]. unfold xtcp_tx_buffer.
  pose proof (uip_split_output_keeps s (out (srv s))) as Hk. destruct (uip_split_output _ _) as [s1 w]. cbn [fst] in Hk.
  apply (layers_keeps (upd_srv (fun v => v <| out := w |>) s1)); [done|]. apply layers_upd_srv; [by apply modules_same|].
  by eapply layers_keeps.
Qed.
Lemma tx_if_any_ok s : server_ok s -> server_ok (if 0 <? uip_len s then xtcp_tx_buffer s else s).
Proof. intros Hs. case_match; auto using xtcp_tx_buffer_ok. Qed.
Lemma send_if_any_ok conn s : server_ok s -> server_ok (send_if_any conn s).
Proof. intros Hs. unfold send_if_any. case_match; [|done]. by apply xtcp_tx_buffer_ok, uip_arp_out_ok. Qed.

(** *** ARP packets and link-local addresses *)

Lemma arp_update_ok b a : bytes b -> arp_wf a -> arp_wf (uip_arp_update (rd4 b ARP.sipaddr) (rds b ARP.shwaddr 6) a).
Proof. intros Hb Ha. apply uip_arp_update_wf; [by apply rd4_ok|by apply bytes_rds|apply length_rds|done]. Qed.
Lemma arpin_ok a s : server_ok s -> arp_wf a ->
  let r := uip_arp_arpin server_arp_in a s in server_ok (upd_srv (fun v => v <| arp := r.1 |>) r.2).
Proof.
  intros Hs Ha r. assert (server_ok r.2 /\ arp_wf r.1) as [Hr Hra].
  2:{ revert Hr. apply ok_upd_srv. intros []. by constructor. }
  unfold r, uip_arp_arpin. case_match; cbn [fst snd].
  { split; [|done]. revert Hs. apply ok_keeps; [intros; wf_auto|done]. }
  cbv zeta. set (s1 := server_arp_in _). assert (server_ok s1) as H1.
  { apply ok_upd_srv; [|revert Hs; apply ok_keeps; [intros; wf_auto|done]]. intros []. constructor; try done.
    cbn. by apply (autoip_step_inv (fun _ (s : S) => s) (ArpIn (s <| uip_len := 0 |>))). }
  clearbody s1. pose proof (arp_update_ok _ a (wf_buf s1 (proj1 H1)) Ha).
  assert (server_ok (arp_reply s1)) by (revert H1; apply ok_keeps; [apply arp_reply_wf|exact (conj eq_refl (conj eq_refl eq_refl))]).
  repeat case_match; cbn [fst snd]; auto.
Qed.
Lemma server_autoip_periodic_ok s : server_ok s -> server_ok (server_autoip_periodic s).
Proof.
  intros Hs. split; [apply server_autoip_periodic_wf, Hs|]. destruct Hs as [Hs Hl]. unfold server_autoip_periodic.
  pose proof (autoip_periodic_inv autoip_configured (now (env s)) (autoip (srv s)) s (mk_autoip _ (lk_modules _ Hl))) as Hi.
  assert (layers_ok (autoip_periodic autoip_configured (now (env s)) (autoip (srv s)) s).2) as H2.
  { unfold autoip_periodic, send_probe, send_announce. cbv zeta. repeat case_match; cbn [snd] in *; try done.
    all: try (revert Hl; apply layers_keeps; exact (conj eq_refl (conj eq_refl eq_refl))).
    all: apply autoip_configured_layers; revert Hl; apply layers_keeps; exact (conj eq_refl (conj eq_refl eq_refl)). }
  destruct (autoip_periodic _ _ _ _) as [a t]. cbn [fst snd] in *. revert H2. apply layers_upd_srv. intros []. by constructor.
Qed.

(** *** The stack *)

Lemma appcall_ok s : server_ok s -> server_ok (@UIP_APPCALL _ (server_env srand rand) s).
Proof.
  intros [Hs [Hx Hi Hm]]. cbn.
  destruct (xtcpd_appcall_inv (fun t => interface_ok (env t) /\ modules_ok (srv t)) (server_dhcpc_appcall srand rand) s)
    as (? & ? & ? & ?); try done.
  - intros t t' Hl [Hn Hv]. pose proof (lv_statics _ _ Hl) as Hst. split; [by eapply interface_ok_statics|].
    unfold srv in *. by assert (rest (env t') = rest (env t)) as -> by (injection Hst; congruence).
  - intros p proto remote lp rp conn t _ [Hn Hv]. destruct (init_state_env p proto remote lp rp conn t) as [Hst _].
    split; [by eapply interface_ok_statics|]. unfold srv in *.
    by assert (rest (env (xtcpd_init_state p proto remote lp rp conn t)) = rest (env t)) as -> by (injection Hst; congruence).
  - intros t Ht Hxt [Hn Hv]. by destruct (dhcpc_appcall_ok t) as [? []].
Qed.
Lemma igmp_in_ok s : server_ok s -> server_ok (@igmp_in _ (server_env srand rand) s).
Proof.
  intros Hs. split; [apply (@igmp_in_wf _ _ (server_env_wf srand rand)), Hs|]. destruct Hs as [_ Hl]. cbn.
  apply layers_upd_env; [done|..].
  - destruct Hl as [_ [] _]. by constructor.
  - apply Hl.
  - revert Hl. by apply layers_keeps.
Qed.
Lemma uip_process_ok flag s s' : server_ok s -> @uip_process _ (server_env srand rand) flag s = Some s' -> server_ok s'.
Proof.
  intros [Hs Hl] Hp. split; [by apply (uip_process_wf flag s)|].
  apply (uip_process_holds layers_ok layers_keeps) with (flag := flag) (s := s); try done; intros t Ht Hlt.
  - by apply appcall_ok.
  - by apply igmp_in_ok.
Qed.

(** *** The loops *)

Lemma set_conn_ok i s : i ∈ seq 0 UIP_CONNS -> server_ok s -> server_ok (s <| uip_conn := Some i |>).
Proof. intros Hi%elem_of_seq. apply ok_keeps; [|done]. intros Hs. apply wf_set_conn; [done|lia]. Qed.
Lemma set_udp_conn_ok i s : i ∈ seq 0 UIP_UDP_CONNS -> server_ok s -> server_ok (s <| uip_udp_conn := Some i |>).
Proof. intros Hi%elem_of_seq. apply ok_keeps; [|done]. intros Hs. apply wf_set_udp_conn; [done|lia]. Qed.

(** The calls of the stack for one connection. *)
Definition calls_ok (n : nat) (call : nat -> S -> option S) : Prop :=
  forall i s s', i ∈ seq 0 n -> server_ok s -> call i s = Some s' -> server_ok s'.
Lemma tcp_calls_ok flag : calls_ok UIP_CONNS (fun i s => uip_process flag (s <| uip_conn := Some i |>)).
Proof. intros i s s' Hi Hs. apply uip_process_ok. by apply set_conn_ok. Qed.
Lemma udp_calls_ok flag : calls_ok UIP_UDP_CONNS (fun i s => uip_process flag (s <| uip_udp_conn := Some i |>)).
Proof. intros i s s' Hi Hs. apply uip_process_ok. by apply set_udp_conn_ok. Qed.

(** A loop of such calls, for the connections that need one. *)
Lemma sending_loop_ok n (conn : nat -> option nat) call (due : nat -> S -> bool) : calls_ok n call -> forall s s', server_ok s ->
  for_each (seq 0 n) (fun i s => if due i s then send_if_any (conn i) <$> call i s else Some s) s = Some s' -> server_ok s'.
Proof.
  intros Hc. unfold calls_ok in Hc. revert Hc. generalize (seq 0 n). intros l. induction l as [|i l IH]; intros Hc s s' Hs; cbn [for_each]; [by intros [= <-]|].
  assert (forall j t t', j ∈ l -> server_ok t -> call j t = Some t' -> server_ok t') as Hcl by (intros j ? ? ?; apply Hc; by right).
  destruct (due i s); [|by apply IH].
  destruct (call i s) as [s1|] eqn:E; cbn; [|done]. apply IH; [done|]. apply send_if_any_ok. eapply Hc; [by left|exact Hs|exact E].
Qed.
Lemma calling_loop_ok n (conn : nat -> option nat) call : calls_ok n call -> forall s s', server_ok s ->
  for_each (seq 0 n) (fun i s => send_if_any (conn i) <$> call i s) s = Some s' -> server_ok s'.
Proof. apply (sending_loop_ok n conn call (fun _ _ => true)). Qed.

Lemma check_poll_ok s s' : server_ok s -> xtcpd_check_connection_poll srand rand s = Some s' -> server_ok s'.
Proof.
  intros Hs. unfold xtcpd_check_connection_poll. intros (s1 & E & H2)%bind_Some.
  eapply (sending_loop_ok _ Some); [apply udp_calls_ok| |exact H2].
  eapply (sending_loop_ok _ (fun _ => None)); [apply tcp_calls_ok|exact Hs|exact E].
Qed.
Lemma udp_acks_ok s s' : server_ok s -> xtcp_process_udp_acks srand rand s = Some s' -> server_ok s'.
Proof. apply (sending_loop_ok _ Some). apply udp_calls_ok. Qed.
Lemma periodic_timer_ok s s' : server_ok s -> xtcp_process_periodic_timer srand rand s = Some s' -> server_ok s'.
Proof.
  intros Hs. unfold xtcp_process_periodic_timer. intros (s1 & E & H2)%bind_Some.
  eapply (calling_loop_ok _ (fun _ => None)); [apply tcp_calls_ok| |exact H2].
  eapply (calling_loop_ok _ Some); [apply udp_calls_ok|exact Hs|exact E].
Qed.
Lemma incoming_ok n s s' : server_ok s -> xtcp_process_incoming_packet srand rand n s = Some s' -> server_ok s'.
Proof.
  intros Hs. unfold xtcp_process_incoming_packet. cbv zeta.
  assert (server_ok (s <| uip_len := w16 n |>)) as H0 by (revert Hs; apply ok_keeps; [intros; wf_auto|done]).
  case_match; [|case_match; [|by intros [= <-]]].
  - intros (s1 & E & [= <-])%bind_Some. apply uip_process_ok in E; [|done].
    repeat case_match; auto using xtcp_tx_buffer_ok, uip_arp_out_ok.
  - pose proof (arpin_ok (arp (srv (s <| uip_len := w16 n |>))) _ H0 (mk_arp _ (lk_modules _ (proj2 H0)))) as H3. cbv zeta in H3.
    destruct (uip_arp_arpin _ _ _) as [a s1]. cbn [fst snd] in H3.
    apply (calling_loop_ok _ Some); [apply udp_calls_ok|]. case_match; auto using xtcp_tx_buffer_ok.
Qed.
Lemma xcoredev_read_ok rx n s : server_ok s -> server_ok (xcoredev_read rx n s).1.
Proof.
  intros Hs. unfold xcoredev_read. destruct rx; cbn [fst]; [done| |revert Hs; apply ok_keeps; [intros; wf_auto|done]]. cbv zeta.
  case_match; [apply uip_linkdown_ok|apply uip_linkup_ok]; (revert Hs; apply ok_keeps; [intros; wf_auto|done]).
Qed.

(** One turn of the main loop. *)
Lemma server_loop_ok rx clock (t : loop_timers) s t' s' : server_ok s -> server_loop srand rand rx clock t s = Some (t', s') -> server_ok s'.
Proof.
  intros Hs. unfold server_loop. cbv zeta. intros (s1 & E1 & H1)%bind_Some.
  apply check_poll_ok in E1.
  2:{ eapply ok_leaves; [apply service_wf|apply service_leaves|]. destruct Hs. split; [by apply upd_env_wf|by apply layers_now]. }
  assert (server_ok (upd_env uip_xtcp_checkstate s1)) as E1' by (destruct E1; split; [by apply upd_env_wf|by apply layers_checkstate]).
  pose proof (xcoredev_read_ok rx UIP_BUFSIZE _ E1') as H2. revert H1.
  destruct (xcoredev_read rx UIP_BUFSIZE _) as [s1' len]. cbn [fst] in H2.
  assert (server_ok (s1' <| uip_len := w16 len |>)) as H2' by (revert H2; apply ok_keeps; [intros; wf_auto|done]). revert H2'.
  generalize (s1' <| uip_len := w16 len |>). clear H2 s1' len. intros s2 H2 H1.
  apply bind_Some in H1 as (s3 & E3 & H1).
  assert (server_ok s3) as H3 by (destruct (0 <? uip_len s2); [by apply incoming_ok in E3|by injection E3 as <-]).
  apply bind_Some in H1 as (s4 & E4 & H1). apply udp_acks_ok in E4; [|done]. revert H1.
  destruct (if timer_expired clock (arp_timer t) then _ else _) as [ta s5] eqn:E5.
  assert (server_ok s5) as H5.
  { destruct (timer_expired clock (arp_timer t)); injection E5 as _ <-; [|done]. revert E4. apply ok_upd_srv.
    intros []. constructor; try done. by apply uip_arp_timer_wf. }
  destruct (if timer_expired clock (loop_autoip_timer t) then _ else _) as [tu s6] eqn:E6.
  assert (server_ok s6) as H6.
  { pose proof (server_autoip_periodic_ok s5 H5). destruct (timer_expired clock (loop_autoip_timer t)); injection E6 as _ <-; [|done].
    by apply tx_if_any_ok. }
  destruct (timer_expired clock (periodic_timer t)); [|by intros [= _ <-]].
  intros (s7 & E7 & [= _ <-])%bind_Some. by eapply periodic_timer_ok.
Qed.

(** *** Initialisation *)

(** The statics of the program before [main]; [r] is the state of the C library. *)
Definition initial_server (r : R) : server_state R :=
  ServerState initial_arp (AutoipState DISABLED 0 0 0 false 0 0 (UipTimer 0 0) zero4) initial_dhcpc 0 0
    (XtcpIpconfig zero4 zero4 zero4) r [].
Definition initial_env (r : R) : xtcp_env (server_state R) :=
  XtcpEnv 1 (replicate NUM_TCP_LISTENERS (ListenerInfo 0 0 0)) (replicate NUM_UDP_LISTENERS (ListenerInfo 0 0 0))
    (replicate MAX_XTCP_CLIENTS 0) 0 (replicate MAX_XTCP_CLIENTS (Some XTCP_NEW_CONNECTION)) Igmp.initial_igmp 0 0
    [] [] [] [] false (initial_server r).
Lemma zero_app_ok : app_ok zero_xtcpd_state.
Proof. constructor; cbn; unfold is_flag; auto; lia. Qed.
Lemma zero_ids : ids_distinct (replicate (UIP_CONNS + UIP_UDP_CONNS) 0).
Proof.
  split; [apply Forall_replicate; unfold MAX_GUID; lia|]. intros i j x Hi Hj Hx. by apply lookup_replicate in Hi as [-> _].
Qed.
Lemma initial_ok r : server_ok (initial_state (initial_env r)).
Proof.
  split; [apply initial_state_wf|]. assert (listener_ok (ListenerInfo 0 0 0)) as Hl by (constructor; [by left|unfold u16; cbn; lia]).
  constructor; [constructor; [constructor| |constructor]|constructor|constructor].
  - cbn. unfold MAX_GUID. lia.
  - apply zero_ids.
  - change (Forall app_ok (replicate (UIP_CONNS + UIP_UDP_CONNS) zero_xtcpd_state)). apply Forall_replicate, zero_app_ok.
  - by apply Forall_replicate.
  - apply length_replicate.
  - by apply Forall_replicate.
  - apply length_replicate.
  - cbn. lia.
  - by left.
  - apply length_replicate.
  - apply Forall_replicate. right. by left.
  - apply length_replicate.
  - apply initial_arp_wf.
  - by constructor.
  - apply initial_dhcpc_wf.
Qed.

Lemma uip_init_ok s : server_ok s -> server_ok (uip_init s).
Proof.
  intros [Hs [[[Hg _] _ Hl] Hi Hm]]. split; [by apply uip_init_wf|]. constructor; [|done..].
  constructor; [by constructor; [|apply zero_ids]| |done].
  change (Forall app_ok (replicate (UIP_CONNS + UIP_UDP_CONNS) zero_xtcpd_state)). apply Forall_replicate, zero_app_ok.
Qed.
Lemma static_config_ok c s : server_ok s -> server_ok (upd_srv (fun v => v <| uip_static_ipconfig := c |>) s).
Proof. apply ok_upd_srv. by apply modules_same. Qed.
Lemma static_ip_ok s : server_ok s -> server_ok (upd_srv (fun v => v <| uip_static_ip := 1 |>) s).
Proof. apply ok_upd_srv. by apply modules_same. Qed.

Lemma dhcpc_init_ok mac n s : server_ok s -> server_ok (with_dhcpc (dhcpc_init mac n) s).
Proof.
  intros [Hs Hl]. split; [apply with_dhcpc_wf; intros d; by apply dhcpc_init_wf|].
  apply with_dhcpc_layers; [|intros d; by apply dhcpc_init_wf|done]. intros d. unfold dhcpc_init. cbv zeta.
  set (s1 := libc_srand _ s). assert (layers_ok s1) as H1 by (revert Hl; apply layers_upd_srv; by apply modules_same).
  pose proof (libc_rand_layers s1 H1) as H2. destruct (libc_rand s1) as [r s2]. cbn [snd] in H2.
  destruct (uip_udp_new _ _ s2) as [[s3 [i|]]|] eqn:Hn; cbn [snd]; [..|done]; apply uip_udp_new_leaves in Hn.
  - eapply layers_leaves; [|exact H2]. etrans; [exact Hn|]. by apply leaves_upd_udp_conn.
  - by eapply layers_leaves.
Qed.
Lemma xtcpd_init_ok n s : (n <= MAX_XTCP_CLIENTS)%nat -> server_ok s -> server_ok (upd_env (xtcpd_init n) s).
Proof.
  intros Hn [Hs Hl]. split; [by apply upd_env_wf|]. apply layers_upd_env; [done| |apply Hl|done].
  destruct Hl as [_ [] _]. constructor; unfold xtcpd_init, set_field; cbn -[replicate]; rewrite ?length_replicate; try done. apply Forall_replicate. by left.
Qed.
Lemma uip_server_init_ok n c mac s : (n <= MAX_XTCP_CLIENTS)%nat -> length mac = 6%nat -> server_ok s ->
  server_ok (uip_server_init srand rand n c mac s).
Proof.
  intros Hn Hm Hs. unfold uip_server_init. cbv zeta.
  set (s1 := match c with Some _ => _ | None => s end).
  assert (server_ok s1) as H1 by (unfold s1; case_match; auto using static_config_ok). clearbody s1.
  assert (server_ok (uip_init (s1 <| uip_ethaddr := map w8 (take 6 mac) |>))) as H2.
  { apply uip_init_ok. revert H1. apply ok_keeps; [|done]. intros H1. destruct H1; constructor; ssimpl; auto; [|rewrite length_map, length_take; lia].
    apply Forall_map, Forall_forall. intros x _. apply w8_u8. }
  revert H2. generalize (uip_init (s1 <| uip_ethaddr := map w8 (take 6 mac) |>)). clear s1 H1. intros s1 H1.
  set (s2 := match c with Some _ => _ | None => s1 end).
  assert (server_ok s2) as H2 by (unfold s2; repeat case_match; auto using static_ip_ok). clearbody s2.
  apply xtcpd_init_ok, dhcpc_init_ok; [done|]. apply ok_upd_srv; [apply modules_autoip; intros _; apply autoip_init_inv|].
  case_match; by apply ok_addresses.
Qed.

(** ** The states of connections, and what is sent *)

Lemma dhcpc_appcall_states s : states (server_dhcpc_appcall srand rand s) = states s /\
  uip_conn (server_dhcpc_appcall srand rand s) = uip_conn s.
Proof.
  pose proof (handle_dhcp_holds (fun t : S => states t = states s /\ uip_conn t = uip_conn s)) as H.
  unfold server_dhcpc_appcall, with_dhcpc, dhcpc_appcall.
  destruct (handle_dhcp (dhcpc (srv s)) s) as [d t] eqn:E. apply (f_equal snd) in E. cbn [snd] in E. subst t.
  apply H; [..|done].
  - intros t u (_ & Hc & _ & Hu). unfold states. by rewrite Hc, Hu.
  - done.
  - done.
  - intros t Ht. cbn. by destruct (rand _).
Qed.
#[local] Instance server_env_states : @UipEnvStates _ (server_env srand rand).
Proof.
  assert (forall s, opens (states s) (states (server_dhcpc_appcall srand rand s)) /\
    uip_conn (server_dhcpc_appcall srand rand s) = uip_conn s) as Hd
    by (intros s; by destruct (dhcpc_appcall_states s) as [-> ->]).
  constructor; intros s; [by apply xtcpd_appcall_states|by apply xtcpd_appcall_states|done].
Qed.

(** C1: the TCP state machine of the server.  In one call of [uip_process], for
    whatever event, packet and state, the stack moves at most one connection,
    and that along an arrow of the diagram for the kind of event
    ([rx_step], [tick_step], [poll_step]; none for UDP events).  Beyond that,
    connections change state only when clients, served while the call reports
    to one of them, ask for new ones: a block that is closed or in [TIME_WAIT]
    enters [SYN_SENT]. *)
Theorem server_process_transitions flag s s' : uip_wf s -> @uip_process _ (server_env srand rand) flag s = Some s' ->
  transition (event_step flag) (states s) (states s').
Proof. apply uip_process_step. Qed.

(** C6: what the server sends.  After any call of [uip_process] either nothing is
    to be sent, or the buffer holds an unfragmented IP packet of the length
    announced with a good header checksum.  There is one exception, for a
    packet that arrives while the host has no address yet: the reply to an ICMP
    echo request, whose header checksum is wrong because the address it puts in
    is not the one it was asked at.  (Events of a TCP connection are for the
    connection [uip_conn] points to, which the server sets before it.) *)
Theorem server_process_packet flag s s' : uip_wf s -> (needs_conn flag = true -> uip_conn s <> None) ->
  @uip_process _ (server_env srand rand) flag s = Some s' ->
  uip_len s' = 0 \/ ip_header_ok (uip_buf s') (uip_len s') \/
  (is_arrival flag = true /\ unaddressed_echo s /\ ip_fields_ok (uip_buf s') (uip_len s') /\
   uip_ipchksum (uip_buf s') <> 0xffff).
Proof.
  intros Hs Hc Hp. pose proof (uip_process_answer flag s s' Hs eq_refl Hc Hp) as H.
  destruct (is_arrival flag) eqn:E; unfold answer_ok, packet_ok in H; tauto.
Qed.
End layers.
