(* ===== verification/ServerRun.v ===== *)
(** * Runs of the server

    The reachable states of the whole program are well-formed; and the source of
    the host's address, seen as a small automaton, is implemented by the link
    and configuration events of [uip_server_support.c]. *)
From stdpp Require Import relations.
From S2P Require Export ServerInv.
Local Open Scope Z_scope.

Section run.
Context {R : Type} (srand : Z -> R) (rand : R -> Z * R).
Notation S := (uip_state (xtcp_env (server_state R))).
Implicit Types s : S.

(** ** Reachable states *)

(** What the clients will ask for and answer. *)
Definition clients_plan (commands : list (list client_act)) (readiness : list bool) (data : list (list Z)) s : S :=
  upd_env (fun e => ((e <| script := commands |>) <| ready := readiness |>) <| answers := data |>) s.

Inductive server_step : loop_timers * S -> loop_timers * S -> Prop :=
| step_loop rx clock t s t' s' :
    server_loop srand rand rx clock t s = Some (t', s') -> server_step (t, s) (t', s')
| step_linkup t s : server_step (t, s) (t, uip_linkup s)
| step_linkdown t s : server_step (t, s) (t, uip_linkdown s)
| step_clients commands readiness data t s : server_step (t, s) (t, clients_plan commands readiness data s).

Lemma server_step_ok x y : server_step x y -> server_ok x.2 -> server_ok y.2.
Proof.
  intros Hst Hx. destruct Hst; cbn [snd] in *.
  - by eapply server_loop_ok.
  - by eapply uip_linkup_ok.
  - by eapply uip_linkdown_ok.
  - eapply ok_leaves; [apply upd_env_wf| |exact Hx]. apply leaves_upd_env; [done|done|by intros ? []].
Qed.


(** ** Where the address comes from *)

Inductive net_config : Set := NoLink | Acquiring | LinkLocal | Leased | Static.
Inductive config_event : Type :=
| EvLinkup | EvLinkdown | EvDhcp (d : dhcpc_state) | EvAutoip (a : u8x4).

Definition config_next (static : bool) (e : config_event) (c : net_config) : net_config :=
  match e with
  | EvLinkup => if static then Static else Acquiring
  | EvLinkdown => NoLink
  | EvDhcp _ => Leased
  | EvAutoip _ => match c with Leased => Leased | _ => LinkLocal end
  end.
(** The clients report only while they run. *)
Definition config_enabled (e : config_event) (c : net_config) : Prop :=
  match e, c with
  | (EvDhcp _ | EvAutoip _), (NoLink | Static) => False
  | _, _ => True
  end.
Definition config_op (e : config_event) s : S :=
  match e with
  | EvLinkup => uip_linkup s
  | EvLinkdown => uip_linkdown s
  | EvDhcp d => srv_dhcpc_configured d s
  | EvAutoip a => autoip_configured a s
  end.

Definition static s : bool := negb (uip_static_ip (srv s) =? 0).
Definition clients_off s : Prop :=
  pt (dhcpc (srv s)) = PC_BEGIN /\ d_state (dhcpc (srv s)) = STATE_DISABLED /\ state (autoip (srv s)) = DISABLED.
Definition host_config s : u8x4 * u8x4 * u8x4 := (uip_hostaddr s, uip_netmask s, uip_draddr s).
Definition copied (a m g : u8x4) : u8x4 * u8x4 * u8x4 := (uip_ipaddr_copy a, uip_ipaddr_copy m, uip_ipaddr_copy g).

(** The interface is up exactly in the states with an address. *)
Definition config_of (c : net_config) s : Prop :=
  match c with
  | NoLink => uip_ifstate (env s) = 0 /\ dhcp_done (srv s) = 0 /\ clients_off s
  | Acquiring => uip_ifstate (env s) = 0 /\ dhcp_done (srv s) = 0 /\ static s = false
  | LinkLocal => uip_ifstate (env s) = 1 /\ dhcp_done (srv s) = 0 /\ static s = false
  | Leased => uip_ifstate (env s) = 1 /\ dhcp_done (srv s) = 1 /\ static s = false
  | Static => uip_ifstate (env s) = 1 /\ dhcp_done (srv s) = 0 /\ clients_off s /\ static s = true /\
      host_config s = copied (c_ipaddr (uip_static_ipconfig (srv s))) (c_netmask (uip_static_ipconfig (srv s)))
                             (c_gateway (uip_static_ipconfig (srv s)))
  end.

Lemma upd_srv_same (f : server_state R -> server_state R) s : f (srv s) = srv s -> upd_srv f s = s.
Proof.
  intros H. change (upd_srv f s) with (upd_srv (fun _ => f (srv s)) s). rewrite H.
  unfold srv. by destruct s as [? ? ? ? ? ? ? ? ? ? ? ? ? ? ? ? ? ? ? []].
Qed.
Lemma clients_idle s : clients_off s -> server_dhcpc_appcall srand rand s = s /\ server_autoip_periodic s = s.
Proof.
  intros (Hp & Hd & Ha). split.
  - unfold server_dhcpc_appcall, with_dhcpc, dhcpc_appcall, handle_dhcp. rewrite Hp, Hd.
    rewrite bool_decide_true by done. apply upd_srv_same. by destruct (srv s).
  - unfold server_autoip_periodic, autoip_periodic. rewrite Ha. apply upd_srv_same. by destruct (srv s).
Qed.

Lemma linkup_config c s : config_of c s -> config_of (config_next (static s) EvLinkup c) (uip_linkup s).
Proof.
  intros Hc. cbn [config_next]. unfold uip_linkup, get_uip_xtcp_ifstate. cbv zeta.
  set (s1 := if negb (uip_ifstate (env s) =? 0) then _ else s).
  assert (uip_ifstate (env s1) = 0 /\ srv s1 = srv s) as [H1 H2].
  { unfold s1. destruct (uip_ifstate (env s) =? 0) eqn:E; [by apply Z.eqb_eq in E|done]. }
  clearbody s1. change (negb (uip_static_ip (srv s1) =? 0)) with (static s1).
  assert (static s1 = static s) as -> by (unfold static; by rewrite H2).
  assert (srv s1 = srv s -> static s = static s1) as Hst by (unfold static; by intros ->).
  destruct (static s) eqn:Es.
  2:{ split; [exact H1|]. split; [done|]. symmetry. by apply Hst. }
  assert (dhcp_done (srv s) = 0 /\ clients_off s) as [Hd Ho].
  { destruct c; [by destruct Hc as (_ & ? & ?)|..|by destruct Hc as (_ & ? & ? & _)];
      destruct Hc as (_ & _ & Hs); congruence. }
  destruct Ho as (Ho1 & Ho2 & Ho3). unfold config_of, clients_off, static. cbn. fold (srv s1). rewrite H2.
  unfold static in Es. split_and!; try done.
  change (copied (c_ipaddr (uip_static_ipconfig (srv s))) (c_netmask (uip_static_ipconfig (srv s1)))
    (c_gateway (uip_static_ipconfig (srv s1))) = copied (c_ipaddr (uip_static_ipconfig (srv s)))
    (c_netmask (uip_static_ipconfig (srv s))) (c_gateway (uip_static_ipconfig (srv s)))).
  by rewrite H2.
Qed.

(** In which configurations the interface is up. *)
Definition config_up (c : net_config) : bool := match c with NoLink | Acquiring => false | _ => true end.
Lemma config_ifstate c s : config_of c s -> uip_ifstate (env s) = if config_up c then 1 else 0.
Proof. by destruct c; intros [-> _]. Qed.
(** The next turn of the main loop passes the change on. *)
Definition config_told s : S := upd_env uip_xtcp_checkstate s.

Lemma config_op_told e s : prev_ifstate (env (config_op e s)) = prev_ifstate (env s) /\
  pending_event (env (config_op e s)) = pending_event (env s) /\ xtcp_num (env (config_op e s)) = xtcp_num (env s).
Proof.
  destruct e; cbn [config_op]; [|done|done|unfold autoip_configured; by case_match].
  unfold uip_linkup. cbv zeta. by repeat case_match.
Qed.
Lemma config_op_interface e s : interface_ok (env s) -> interface_ok (env (config_op e s)).
Proof.
  destruct (config_op_told e s) as (H1 & H2 & H3). intros []. constructor; try congruence.
  destruct e; cbn [config_op]; [|by left|by right|unfold autoip_configured; case_match; [by right|done]].
  unfold uip_linkup. cbv zeta. repeat case_match; cbn; unfold is_flag; auto.
Qed.

(** What the automaton says of each event. *)
Lemma config_next_ok c e s : config_of c s -> config_enabled e c ->
  config_of (config_next (static s) e c) (config_op e s).
Proof.
  intros Hc He. destruct e; cbn [config_op].
  - by apply linkup_config.
  - done.
  - destruct c; try done; by destruct Hc as (_ & _ & Hs).
  - unfold autoip_configured. destruct c; try done; destruct Hc as (Hi & Hd & Hs); rewrite Hd; done.
Qed.
(** A client takes what is queued for it. *)
Lemma take_queued i ev s : pending_event (env s) !! i = Some (Some ev) ->
  output (env (serve_act s (TakeEvent i))) = output (env s) ++ [OutConfig i ev] /\
  pending_event (env (serve_act s (TakeEvent i))) !! i = Some None.
Proof.
  intros H. cbn [serve_act]. unfold upd_env, take_event. cbn. rewrite H. cbn. split; [done|].
  apply list_lookup_insert_eq. by eapply lookup_lt_Some.
Qed.

(** C8: the source of the address.  The events of [uip_server_support.c]
    implement the automaton: a link with a static address uses it, another one
    acquires one; a lease configures the host with exactly its address, mask
    and router, and a link-local address the host unless it has a lease, in
    which case nothing changes; without link, and with a static address, the
    clients are off and do nothing when called.  In the next turn of the loop
    exactly the clients that were last told of another state of the interface
    get an event queued, [XTCP_IFUP] in the configurations with an address and
    [XTCP_IFDOWN] in the others, in place of one not taken yet, and are given it
    when they answer; nothing is queued for anybody else. *)
Theorem config_refines c e s : config_of c s -> config_enabled e c -> interface_ok (env s) ->
  let s' := config_op e s in
  let c' := config_next (static s) e c in
  config_of c' s' /\
  match e with
  | EvDhcp d => host_config s' = copied (d_ipaddr d) (d_netmask d) (default_router d)
  | EvAutoip a =>
      match c with
      | Leased => s' = s
      | _ => host_config s' = (uip_ipaddr_copy a, U4 255 255 0 0, zero4)
      end
  | _ => True
  end /\
  (c = NoLink \/ c = Static -> server_dhcpc_appcall srand rand s = s /\ server_autoip_periodic s = s) /\
  forall i,
    let queued := pending_event (env (config_told s')) !! i in
    if decide ((i < xtcp_num (env s))%nat /\ prev_ifstate (env s) !! i <> Some (if config_up c' then 1 else 0))
    then let ev := if config_up c' then XTCP_IFUP else XTCP_IFDOWN in
         queued = Some (Some ev) /\ prev_ifstate (env (config_told s')) !! i = Some (if config_up c' then 1 else 0) /\
         output (env (serve_act (config_told s') (TakeEvent i))) = output (env (config_told s')) ++ [OutConfig i ev]
    else queued = pending_event (env s) !! i /\ prev_ifstate (env (config_told s')) !! i = prev_ifstate (env s) !! i.
Proof.
  intros Hc He Hi. cbv zeta. pose proof (config_next_ok c e s Hc He) as Hc'. split; [done|]. split; [|split].
  - destruct e; try done. cbn [config_op]. unfold autoip_configured.
    destruct c; try done; destruct Hc as (_ & Hd & Hs); rewrite Hd; done.
  - intros [-> | ->]; apply clients_idle; [by destruct Hc as (_ & _ & ?)|by destruct Hc as (_ & _ & ? & _)].
  - intros i. pose proof (checkstate_spec (env (config_op e s)) i (config_op_interface e s Hi)) as Hk. cbv zeta in Hk.
    destruct (config_op_told e s) as (Hp & Hq & Hn). rewrite Hp, Hq, Hn in Hk. rewrite (config_ifstate _ _ Hc') in Hk.
    set (up := config_up (config_next (static s) e c)) in *. change (env (config_told ?t)) with (uip_xtcp_checkstate (env t)).
    assert (ifstate_event (if up then 1 else 0) = if up then XTCP_IFUP else XTCP_IFDOWN) as Hev by by destruct up.
    rewrite Hev in Hk. clear Hev. destruct (decide (i < xtcp_num (env s))%nat) as [Hlt|Hge].
    2:{ rewrite decide_False by tauto. tauto. }
    assert (i < length (prev_ifstate (env s)))%nat as Hlen by (destruct Hi; lia).
    pose proof (list_lookup_lookup_total_lt _ _ Hlen) as Hpi. destruct Hk as [Hk1 Hk2].
    destruct (Z.eqb_spec (if up then 1 else 0) (prev_ifstate (env s) !!! i)) as [Heq|Hne].
    + rewrite decide_False by (intros [_ Hx]; apply Hx; rewrite Heq; by apply list_lookup_lookup_total_lt).
      split; [done|]. by rewrite Hk1, Heq.
    + rewrite decide_True by (split; [done|]; rewrite Hpi; congruence).
      split; [done|]. split; [done|]. by apply take_queued.
Qed.
End run.
