(* ===== verification/NetExamples.v ===== *)
(** * Concrete runs of the components around the stack *)
From S2P Require Export UipExamples AutoIPLive Split Igmp.
Local Open Scope Z_scope.

(** ** A segment of 1000 bytes *)

Definition bulk : list Z := tcp_packet 80 (U4 0 0 0 100) zero4 TCP_ACK [] (replicate 1000 65).
Definition bulk_state : uip_state unit :=
  ((arrive bulk server) <| uip_len := 1054 |>) <| uip_appdata := 54 |>.

Lemma bulk_wf : uip_wf bulk_state.
Proof.
  unfold bulk_state. apply wf_set_appdata, wf_set_len; [|unfold u16; lia].
  apply arrive_wf; [vm_compute; reflexivity|apply server_wf].
Qed.
Lemma bulk_header : ip_header_ok bulk (40 + 1000) /\ rd8 bulk BUF.proto = UIP_PROTO_TCP.
Proof. vm_compute. split_and!; reflexivity. Qed.

Lemma uip_split_output_spec_witness :
  exists fs, (uip_split_output bulk_state []).2 = [] ++ fs /\ length fs = 2%nat /\
    delivers (segment bulk) (rds bulk 54 (Z.to_nat 1000)) fs.
Proof.
  apply (uip_split_output_spec bulk_state [] 1000 bulk_wf eq_refl (proj2 bulk_header) eq_refl
    (proj1 bulk_header)). split; discriminate.
Defined.

(** ** Multicast *)

(** A query for all groups, with the checksum a correct sender computes. *)
Definition query : list Z :=
  let b := wrs 38 [0x11; 100; 0; 0] (uip_buf (initial_state tt)) in
  wr16 40 (w16 (Z.lnot (uip_chksum b 38 8))) b.
Definition listener : igmp_state := igmp_join_group (U4 224 0 0 251) (igmp_init initial_igmp).

Lemma query_bytes : bytes query.
Proof. apply bytesb_bytes. vm_compute. reflexivity. Qed.
(** The query is valid on the wire. *)
Example query_valid : uip_chksum query 38 8 = 0xffff.
Proof. vm_compute. reflexivity. Qed.

Lemma igmp_in_inert_witness :
  igmp_in 0 listener ((initial_state tt) <| uip_buf := query |>)
  = (listener, ((initial_state tt) <| uip_buf := query |>) <| uip_len := 0 |>).
Proof. exact (igmp_in_inert 0 listener ((initial_state tt) <| uip_buf := query |>) query_bytes). Defined.

Lemma igmp_message_valid_witness :
  let report g := uip_buf (create_igmp_msg IGMP_MEMBERSHIP_REPORT g g initial_igmp (lan_host host_a 2 zero4)).2 in
  uip_chksum (report (U4 224 0 0 251)) IGMPBUF.msgtype 8 = 0xffff /\
  uip_chksum (report (U4 239 255 255 250)) IGMPBUF.msgtype 8 <> 0xffff.
Proof.
  assert (forall g, u8x4_ok g ->
    (uip_chksum (uip_buf (create_igmp_msg IGMP_MEMBERSHIP_REPORT g g initial_igmp (lan_host host_a 2 zero4)).2)
       IGMPBUF.msgtype 8 = 0xffff <-> 0x16 + word0 g + word1 g < 65536)) as H.
  { intros g Hg. assert (uip_wf (lan_host host_a 2 zero4)) as Hw
      by (apply lan_host_wf; [apply host_ok|unfold u8; lia]).
    assert (u8 IGMP_MEMBERSHIP_REPORT) as Ht by (unfold u8, IGMP_MEMBERSHIP_REPORT; lia).
    assert (u16 (igmp_ipid initial_igmp)) as Hi by (unfold u16; cbn; lia).
    apply (igmp_message_valid IGMP_MEMBERSHIP_REPORT g g initial_igmp (lan_host host_a 2 zero4)
      Hw Hg Hg Hi Ht). }
  split; rewrite H; try (unfold u8x4_ok, u8; cbn [q0 q1 q2 q3]; lia); unfold word0, word1; cbn [q0 q1 q2 q3]; lia.
Defined.
