(* ===== verification/XtcpExamples.v ===== *)
(** * A conversation through the xtcp server

    The echo conversation of [UipExamples] with the xtcp server as application:
    client 0 listens on port 80. *)
From S2P Require Export UipExamples XtcpEvents.
Local Open Scope Z_scope.

Notation xstate := (uip_state (xtcp_env unit)).
#[export] Instance demo_env : UipEnv (xtcp_env unit) := xtcp_uip_env (fun s => s).
#[export] Instance demo_env_wf : UipEnvWf (xtcp_env unit).
Proof. by apply xtcp_uip_env_wf. Qed.

Definition no_listeners : list listener_info_t := replicate NUM_TCP_LISTENERS (ListenerInfo 0 0 0).
Definition boot_env : xtcp_env unit :=
  XtcpEnv 1 no_listeners no_listeners (replicate MAX_XTCP_CLIENTS (-1)) 0 (replicate MAX_XTCP_CLIENTS None) Igmp.initial_igmp 2 0 [] [] [] [] false tt.
Definition xboot : xstate :=
  (xtcpd_listen 0 80 XTCP_PROTOCOL_TCP (uip_init (initial_state boot_env))) <| uip_hostaddr := host |>.
Definition xreceive (b : list Z) (s : xstate) : xstate :=
  default s (uip_process UIP_DATA (s <| uip_buf := b |> <| uip_len := ip_length b |>)).

(** The connection is announced.  When the data arrive the client is not ready at
    first; meanwhile it chooses to acknowledge packets itself and asks for the
    connection to be closed. *)
Definition x_est : xstate := Eval vm_compute in xreceive ack (xreceive syn xboot).
Definition x_hello : xstate := Eval vm_compute in
  (upd_env (fun e => e <| script := [[Command 0 (CMD_ACK_RECV_MODE 1); Command 0 (CMD_CLOSE 1)]] |> <| ready := [false] |>)
    (x_est <| uip_buf := hello |> <| uip_appdata := 54 |> <| uip_len := 5 |>)) <| uip_flags := UIP_NEWDATA |>.

Example xtcp_conversation :
  states x_est = UIP_ESTABLISHED :: replicate 9 UIP_CLOSED /\
  output (env x_est) = [OutEvent 0 XTCP_NEW_CONNECTION 1] /\
  output (env (xtcpd_appcall (fun s => s) x_hello)) =
    [OutEvent 0 XTCP_NEW_CONNECTION 1; OutEvent 0 XTCP_RECV_DATA 1; OutEvent 0 XTCP_RECV_DATA 1;
     OutRecv 0 1 [104; 101; 108; 108; 111]] /\
  close_request (xs (app_at (CPtcp 0) (xtcpd_appcall (fun s => s) x_hello))) = 1.
Proof. vm_compute. auto. Qed.

(** ** A check of the type invariant *)

Definition u8b (x : Z) : bool := (0 <=? x) && (x <? 256).
Definition u16b (x : Z) : bool := (0 <=? x) && (x <? 65536).
Definition u8x4b (a : u8x4) : bool := u8b (q0 a) && u8b (q1 a) && u8b (q2 a) && u8b (q3 a).
Definition conn_wfb (c : uip_conn_t) : bool :=
  u8x4b (ripaddr c) && u16b (lport c) && u16b (rport c) && u8x4b (rcv_nxt c) && u8x4b (snd_nxt c)
  && u16b (len c) && u16b (mss c) && u16b (initialmss c) && u8b (sa c) && u8b (sv c) && u8b (rto c)
  && u8b (tcpstateflags c) && u8b (timer c) && u8b (nrtx c).
Definition udp_conn_wfb (c : uip_udp_conn_t) : bool :=
  u8x4b (udp_ripaddr c) && u16b (udp_lport c) && u16b (udp_rport c) && u8b (udp_ttl c) && u8b (udpflags c).
Definition uip_wfb {E} (s : uip_state E) : bool :=
  forallb u8b (uip_buf s) && (Z.of_nat (length (uip_buf s)) =? UIP_BUF_BYTES)
  && (0 <=? uip_sappdata s) && (uip_sappdata s <=? UIP_LLH_LEN + UIP_IPTCPH_LEN)
  && u16b (uip_len s) && u16b (uip_slen s)
  && match uip_conn s with Some i => (i <? UIP_CONNS)%nat | None => true end
  && forallb conn_wfb (uip_conns s) && (length (uip_conns s) =? UIP_CONNS)%nat
  && forallb u16b (uip_listenports s) && (length (uip_listenports s) =? UIP_LISTENPORTS)%nat
  && forallb u16b (uip_udp_listenports s) && (length (uip_udp_listenports s) =? UIP_LISTENPORTS)%nat
  && match uip_udp_conn s with Some i => (i <=? UIP_UDP_CONNS)%nat | None => true end
  && forallb udp_conn_wfb (uip_udp_conns s) && (length (uip_udp_conns s) =? UIP_UDP_CONNS)%nat
  && u16b (ipid s) && u8x4b (iss s) && (0 <=? lastport s) && (lastport s <? 32000)
  && u8x4b (uip_hostaddr s) && u8x4b (uip_draddr s) && u8x4b (uip_netmask s)
  && forallb u8b (uip_ethaddr s) && (length (uip_ethaddr s) =? 6)%nat.

Lemma u8b_ok x : u8b x = true -> u8 x.
Proof. unfold u8b, u8. lia. Qed.
Lemma u16b_ok x : u16b x = true -> u16 x.
Proof. unfold u16b, u16. lia. Qed.
Lemma u8x4b_ok a : u8x4b a = true -> u8x4_ok a.
Proof. unfold u8x4b, u8x4_ok. rewrite !andb_true_iff. intuition auto using u8b_ok. Qed.
Lemma forallb_Forall {A} (f : A -> bool) (P : A -> Prop) l : (forall x, f x = true -> P x) ->
  forallb f l = true -> Forall P l.
Proof. intros H. induction l; cbn; [constructor|]. rewrite andb_true_iff. intros []. constructor; auto. Qed.
Lemma conn_wfb_ok c : conn_wfb c = true -> conn_wf c.
Proof.
  unfold conn_wfb. rewrite !andb_true_iff. intros H.
  decompose [and] H. constructor; auto using u8b_ok, u16b_ok, u8x4b_ok.
Qed.
Lemma udp_conn_wfb_ok c : udp_conn_wfb c = true -> udp_conn_wf c.
Proof.
  unfold udp_conn_wfb. rewrite !andb_true_iff. intros H.
  decompose [and] H. constructor; auto using u8b_ok, u16b_ok, u8x4b_ok.
Qed.
Lemma uip_wfb_ok {E} (s : uip_state E) : uip_wfb s = true -> uip_wf s.
Proof.
  unfold uip_wfb. rewrite !andb_true_iff. intros H. decompose [and] H. clear H.
  rewrite ?Nat.eqb_eq, ?Z.eqb_eq in *.
  constructor; eauto using u8b_ok, u16b_ok, u8x4b_ok, conn_wfb_ok, udp_conn_wfb_ok, forallb_Forall; try lia.
  - by apply (forallb_Forall u8b); [apply u8b_ok|].
  - destruct (uip_conn s); [by apply Nat.ltb_lt|done].
  - destruct (uip_udp_conn s); [by apply Nat.leb_le|done].
  - by apply (forallb_Forall u8b); [apply u8b_ok|].
Qed.

(** ** Witnesses *)

Lemma x_hello_wf : uip_wf x_hello.
Proof. apply uip_wfb_ok. vm_compute. reflexivity. Qed.
Lemma x_hello_ids : ids x_hello = 1 :: replicate 19 0.
Proof. vm_compute. reflexivity. Qed.
Lemma x_hello_guid : guid (env x_hello) = 1.
Proof. vm_compute. reflexivity. Qed.
Lemma x_hello_ids_ok : ids_ok x_hello.
Proof.
  split; [rewrite x_hello_guid; unfold MAX_GUID; lia|]. rewrite x_hello_ids. split.
  - constructor; [unfold MAX_GUID; lia|]. apply Forall_replicate. unfold MAX_GUID. lia.
  - intros [|i] [|j] x Hi Hj Hx; [done|..]; exfalso; apply Hx.
    + by apply lookup_replicate in Hj as [-> _].
    + by apply lookup_replicate in Hi as [-> _].
    + by apply lookup_replicate in Hi as [-> _].
Qed.

(** A second connection: identifier 1 is taken. *)
Lemma x_hello_guid_range : 1 <= guid (env x_hello) <= MAX_GUID.
Proof. rewrite x_hello_guid. unfold MAX_GUID. lia. Qed.
Lemma udp0 : in_table (CPudp 0).
Proof. cbn. unfold UIP_UDP_CONNS. lia. Qed.
Definition x_udp : xstate :=
  xtcpd_init_state (CPudp 0) XTCP_PROTOCOL_UDP peer (HTONS 53) (HTONS 53) (CPudp 0) x_hello.
Lemma xtcpd_init_state_fresh_witness : id_of (app_at (CPtcp 0) x_udp) <> id_of (app_at (CPudp 0) x_udp).
Proof.
  destruct (xtcpd_init_state_fresh (CPudp 0) XTCP_PROTOCOL_UDP peer (HTONS 53) (HTONS 53) (CPudp 0) x_hello
    x_hello_wf udp0 x_hello_guid_range) as (_ & _ & _ & _ & H).
  exact (proj2 (H (CPtcp 0) conn0 ltac:(discriminate))).
Defined.

Lemma x_hello_not_dhcp : uip_udpconnection x_hello &&
  ((udp_lport (cur_udp_conn x_hello) =? HTONS DHCPC_CLIENT_PORT)
   || (udp_lport (cur_udp_conn x_hello) =? HTONS DHCPC_SERVER_PORT)) = false.
Proof. vm_compute. reflexivity. Qed.
Lemma x_hello_no_close : flag x_hello UIP_POLL = true -> flag x_hello UIP_CLOSE = false.
Proof. vm_compute. reflexivity. Qed.
Lemma xtcpd_appcall_events_witness : exists l,
  events (xtcpd_appcall (fun s => s) x_hello) = events x_hello ++ l /\ callback_order l.
Proof.
  destruct (xtcpd_appcall_events (fun s => s) x_hello x_hello_not_dhcp x_hello_no_close) as (l & He & Ho & _).
  exists l. exact (conj He Ho).
Defined.
