(* ===== verification/XcExamples.v ===== *)
(** * The channel theorems at concrete inputs

    The conversation of [XtcpExamples] at the level of tokens: client 0 is told
    of the data of its connection, puts them off once, changes its mode and
    closes meanwhile, while client 1 stops listening. *)
From S2P Require Export XtcpExamples Blocking.
Local Open Scope Z_scope.
Local Open Scope prog_scope.

Definition hello_cmds : list xtcp_cmd_t := [CMD_ACK_RECV_MODE 1; CMD_CLOSE 1].
Definition hello_turns : wait_turns := ([[Command 1 (CMD_UNLISTEN 81); TakeEvent 1]; []; []], []).
Definition no_turns : wait_turns := ([[]], []).
(** Client 0 has no command before it is told; its commands come when it puts
    the data off. *)
Definition x_links : links xstate :=
  Links (repeat false 10)
    (upd_env (fun e => e <| script := [batch 0 no_turns []; batch 0 hello_turns hello_cmds] |> <| ready := [false; true] |>
      <| answers := [[104; 105]] |>) x_hello).

Lemma hello_cmds_ok : Forall cmd_ok hello_cmds.
Proof. repeat constructor; cbn; unfold int_ok; lia. Qed.

Lemma xtcp_command_refines_witness :
  inevitable (cap := 0) (Net (api (CMD_CLOSE 1)) [] [] (xtcpd_service_client0 true 0 (-1) x_links))
    (met R_done [] (1, on_stack (xtcpd_close 1) x_links)).
Proof. apply (xtcp_command_refines 0 (-1) (CMD_CLOSE 1) x_links). cbn. unfold int_ok. lia. Defined.

Definition hello_told : links xstate := with_stack (set_notified 0 false x_links) (xtcpd_event XTCP_POLL (CPtcp 0) (stack x_links)).
Lemma xtcp_event_refines_witness :
  inevitable (cap := 0)
    (Net (client_run [] (fun rs => conn <- do_xtcp_event;; Done (rs, conn))) [] []
       (v <- link_until_ready no_turns 0 x_links;; link_send_event 0 XTCP_POLL (CPtcp 0) v))
    (met ([], conn_told 0 XTCP_POLL (CPtcp 0) (xtcpd_service_clients_until_ready (stack x_links))) [] hello_told).
Proof.
  apply (xtcp_event_refines 0 XTCP_POLL (CPtcp 0) [] no_turns x_links [batch 0 hello_turns hello_cmds]);
    [constructor|reflexivity|cbn; lia|reflexivity|reflexivity|vm_compute; discriminate|vm_compute; reflexivity].
Defined.

Lemma hello_receives l : Z.of_nat (length l) = 5 -> receives (cap := 0)
  (out_int 1;;; len <- in_int;; l <- in_bytes (Z.to_nat len);; Done (wrs 0 l [0; 0; 0; 0; 0], len)) l (wrs 0 l [0; 0; 0; 0; 0], Z.of_nat (length l)).
Proof. intros H. apply xtcp_recvi_receives. unfold int_ok. lia. Qed.
Definition hello_received : xstate := Eval vm_compute in
  xtcpd_recv 0 (CPtcp 0) 54 5 (xtcpd_service_clients_until_ready (stack x_links)).
(** The client gets "hello". *)
Lemma xtcp_recv_refines_witness : exists conn,
  inevitable (cap := 0)
    (Net (client_run [] (fun _ => bind do_xtcp_event (recv_rounds
        (out_int 1;;; len <- in_int;; l <- in_bytes (Z.to_nat len);; Done (wrs 0 l [0; 0; 0; 0; 0], len)) [hello_cmds]))) [] []
       (v <- link_until_ready no_turns 0 x_links;; link_recv [hello_turns] 0 (CPtcp 0) 54 5 v))
    (met (conn, ([104; 101; 108; 108; 111], 5)) [] (with_stack (set_notified 0 false x_links) hello_received)).
Proof.
  destruct (xtcp_recv_refines 0 (CPtcp 0) 54 5 _ _ [] [hello_cmds] no_turns [hello_turns] [] [] x_links
    ltac:(by split; [constructor|]) ltac:(constructor; [split; [apply hello_cmds_ok|reflexivity]|constructor]) ltac:(lia) hello_receives ltac:(cbn; lia) eq_refl eq_refl eq_refl)
    as [conn H].
  exists conn.
  assert (xtcpd_recv (Z.of_nat 0) (CPtcp 0) 54 5 (xtcpd_service_clients_until_ready (stack x_links)) = hello_received) as Hs by (vm_compute; reflexivity).
  cbv zeta in H. rewrite Hs in H. exact H.
Defined.

Definition hello_sent : xstate * Z := Eval vm_compute in do_xtcpd_send 0 XTCP_SENT_DATA (CPtcp 0) 54 536 (stack x_links).
Lemma xtcp_send_refines_witness : exists conn, event conn = XTCP_SENT_DATA /\
  inevitable (cap := 0)
    (Net (client_run [] (fun _ => conn <- do_xtcp_event;; xtcp_sendi [0; 104; 105; 0] 1 2;;; Done conn)) [] []
       (v <- link_until_ready no_turns 0 x_links;; link_send 0 XTCP_SENT_DATA (CPtcp 0) 54 536 v))
    (met conn [] (with_stack (set_notified 0 false x_links) (fst hello_sent), 2)).
Proof.
  destruct (xtcp_send_refines (cap := 0) 0 XTCP_SENT_DATA (CPtcp 0) 54 536 [] [0; 104; 105; 0] 1 2 no_turns [batch 0 hello_turns hello_cmds] [] x_links
    ltac:(by split; [constructor|]) ltac:(unfold int_ok; lia) ltac:(lia) ltac:(cbn; lia) eq_refl eq_refl eq_refl) as (conn & He & H).
  exists conn. split; [rewrite He; vm_compute; reflexivity|].
  assert (do_xtcpd_send (Z.of_nat 0) XTCP_SENT_DATA (CPtcp 0) 54 536 (stack x_links) = hello_sent) as Hs by (vm_compute; reflexivity).
  rewrite Hs in H. exact H.
Defined.

Lemma xtcp_ignore_recv_traps_witness : exists n2,
  rtc (nstep (cap := 0))
    (Net (xtcp_ignore_recv;;; do_xtcp_event) [] []
      (master (do_recv 2 [104; 105]);;; outct XS1_CT_END;;;
       v <- link_until_ready no_turns 0 x_links;; link_send_event 0 XTCP_POLL (CPtcp 0) v)) n2 /\ client n2 = Trapped.
Proof.
  apply (xtcp_ignore_recv_traps 0 XTCP_POLL (CPtcp 0) [104; 105] no_turns x_links); [unfold int_ok; cbn; lia|reflexivity|apply rtc_refl].
Defined.

(** ** The blocking client *)

Definition told_of (ev : xtcp_event_type_t) : xtcp_connection_t :=
  XtcpConnection 1 XTCP_PROTOCOL_TCP XTCP_SERVER_CONNECTION ev 0 (U4 192 168 0 9) 4000 80 2.
Definition write_rounds : list (xtcp_connection_t * list xtcp_connection_t) :=
  [(told_of XTCP_REQUEST_DATA, [told_of XTCP_RESEND_DATA]); (told_of XTCP_SENT_DATA, []); (told_of XTCP_SENT_DATA, [])].
Lemma write_rounds_ok : Forall round_ok write_rounds.
Proof.
  repeat apply List.Forall_cons; [..|apply List.Forall_nil];
    (split; [unfold new_data; cbn; auto|split; [cbn; lia|repeat constructor]]).
Qed.
(** Three bytes, in pieces of two. *)
Lemma xtcp_write_delivers_witness : exists ds, concat (map fst ds) = [7; 8; 9] /\ exists conn',
  inevitable (cap := 0)
    (Net (xtcp_write 4 (told_of XTCP_NEW_CONNECTION) [7; 8; 9; 10] 3) [] []
      (r <- xtcpd_service_client0 true 0 (-1) x_links;; ds <- asks write_rounds;; Done (snd r, ds)))
    (met (1, conn') [] (on_stack (xtcpd_init_send 1) x_links, ds)).
Proof.
  destruct (xtcp_write_delivers (cap := 0) 0 x_links 4 (told_of XTCP_NEW_CONNECTION) [7; 8; 9; 10] 3 write_rounds write_rounds_ok
    ltac:(by vm_compute) ltac:(lia) ltac:(unfold int_ok; lia) ltac:(unfold int_ok; cbn; lia) ltac:(cbn; lia) eq_refl) as (conn' & ds & H & Hc & _).
  exists ds. split; [rewrite Hc; reflexivity|]. exists conn'. exact H.
Defined.

(** Two packets, of which the second has more than is wanted. *)
Definition read_packets : list (xtcp_connection_t * list Z) :=
  [(told_of XTCP_RECV_DATA, [7]); (told_of XTCP_RECV_DATA, [8; 9])].
Lemma xtcp_read_gathers_witness : exists conn,
  inevitable (cap := 0) (Net (xtcp_read 2 (told_of XTCP_NEW_CONNECTION) [0; 0; 0; 0] 2) [] [] (gives read_packets))
    (met (3, [7; 8; 9; 0], conn) [] tt).
Proof.
  destruct (xtcp_read_gathers (cap := 0) 2 (told_of XTCP_NEW_CONNECTION) [0; 0; 0; 0] 2 read_packets
    ltac:(repeat constructor) ltac:(cbn; unfold int_ok; lia) ltac:(cbn; lia) ltac:(repeat constructor; lia) ltac:(cbn; lia)) as (conn & buf' & H & ->).
  exists conn. exact H.
Defined.
