(* ===== verification/ServerExamples.v ===== *)
(** * A host on a network with a DHCP server

    The whole program, initialised without a static address: its first frames,
    and the exchange with a server, computed. *)
From stdpp Require Import relations.
From S2P Require Export DhcpcRun ServerRun XtcpExamples.
Local Open Scope Z_scope.

(** A generator for the C library. *)
Definition demo_srand (seed : Z) : Z := seed.
Definition demo_rand (r : Z) : Z * Z := (r mod 32768, (r * 1103515245 + 12345) mod 2147483648).
Notation sstate := (uip_state (xtcp_env (server_state Z))).
#[local] Instance demo_dhcpc : DhcpcClient (xtcp_env (server_state Z)) := server_dhcpc demo_srand demo_rand.
#[local] Instance demo_dhcpc_wf : DhcpcClientWf (xtcp_env (server_state Z)).
Proof. apply server_dhcpc_wf. Qed.

Definition mac0 : list Z := [2; 0; 0; 17; 34; 51].
Definition env0 : xtcp_env (server_state Z) := initial_env 0.
Definition booted : sstate := Eval vm_compute in uip_server_init demo_srand demo_rand 2 None mac0 (initial_state env0).

Lemma booted_eq : booted = uip_server_init demo_srand demo_rand 2 None mac0 (initial_state env0).
Proof. vm_compute. reflexivity. Qed.
Lemma booted_wf : uip_wf booted.
Proof. apply uip_wfb_ok. vm_compute. reflexivity. Qed.

(** An ARP request for another host. *)
Definition arp_frame : list Z :=
  replicate 6 0xff ++ [2; 0; 0; 0; 0; 9] ++ [8; 6; 0; 1; 8; 0; 6; 4; 0; 1] ++ [2; 0; 0; 0; 0; 9] ++ [10; 0; 0; 9]
  ++ replicate 6 0 ++ [10; 0; 0; 7] ++ replicate 22 0.

Definition turn (clock : Z) (rx : mac_rx) (x : loop_timers * sstate) : loop_timers * sstate :=
  default x (server_loop demo_srand demo_rand rx clock x.1 x.2).
(** One turn after the link has come up, at 100 ms: the periodic timer starts
    the DHCP client. *)
Definition first_turn : loop_timers * sstate := Eval vm_compute in turn 100 (RxFrame arp_frame) (initial_timers 0, uip_linkup booted).

Lemma first_turn_eq :
  server_loop demo_srand demo_rand (RxFrame arp_frame) 100 (initial_timers 0) (uip_linkup booted) = Some (first_turn.1, first_turn.2).
Proof. vm_compute. reflexivity. Qed.

Example dhcp_started : pt (dhcpc (srv first_turn.2)) = PC_INITWAIT /\ d_state (dhcpc (srv first_turn.2)) = STATE_INITIAL.
Proof. vm_compute. auto. Qed.

(** ** The exchange, frame by frame *)

Definition dhcp_payload (type : Z) (addr : u8x4) (opts : list dhcp_option) : list Z :=
  [DHCP_REPLY; 1; 6; 0] ++ take 4 (skipn 2 mac0) ++ replicate 8 0 ++ addr_value addr ++ replicate 8 0
  ++ mac0 ++ replicate 202 0 ++ magic_cookie ++ encode ((DHCP_OPTION_MSG_TYPE, [type]) :: opts) ++ [DHCP_OPTION_END]
  ++ replicate 60 0.
Definition udp_frame (payload : list Z) : list Z :=
  let n := Z.of_nat (length payload) in
  let b := replicate 6 0xff ++ [2; 0; 0; 0; 0; 1; 8; 0] ++ [0x45; 0] ++ be16 (28 + n) ++ [0; 1; 0; 0; 64; 17; 0; 0]
    ++ [10; 0; 0; 1] ++ [255; 255; 255; 255] ++ be16 67 ++ be16 68 ++ be16 (8 + n) ++ [0; 0] ++ payload in
  wr16 BUF.ipchksum (w16 (Z.lnot (uip_ipchksum b))) b.

Definition server_ip : u8x4 := U4 10 0 0 1.
Definition given : u8x4 := U4 10 0 0 77.
Definition lease : list dhcp_option :=
  [(DHCP_OPTION_SERVER_ID, addr_value server_ip); (DHCP_OPTION_LEASE_TIME, [0; 0; 14; 16]);
   (DHCP_OPTION_SUBNET_MASK, [255; 255; 255; 0]); (DHCP_OPTION_ROUTER, addr_value server_ip)].
Definition offer : list Z := udp_frame (dhcp_payload DHCPOFFER given lease).
Definition acknowledge : list Z := udp_frame (dhcp_payload DHCPACK given lease).

Definition discovering : loop_timers * sstate := Eval vm_compute in turn 9000 RxNothing first_turn.
Definition offered : loop_timers * sstate := Eval vm_compute in turn 9010 (RxFrame offer) discovering.
Definition leased : loop_timers * sstate := Eval vm_compute in turn 9020 (RxFrame acknowledge) offered.


(** DISCOVER and REQUEST go out, the host gets the address and waits for half
    of the hour. *)
Example dhcp_lease :
  map (fun f => rds f.1 282 3) (out (srv leased.2)) =
    [[DHCP_OPTION_MSG_TYPE; 1; DHCPDISCOVER]; [DHCP_OPTION_MSG_TYPE; 1; DHCPREQUEST]] /\
  pt (dhcpc (srv leased.2)) = PC_BOUND /\ uip_hostaddr leased.2 = given /\ uip_ifstate (env leased.2) = 1 /\
  d_timer (dhcpc (srv leased.2)) = UipTimer 9020 1800000.
Proof. vm_compute. split_and!; reflexivity. Qed.

(** ** Witnesses *)

Lemma two_clients : (2 <= MAX_XTCP_CLIENTS)%nat.
Proof. unfold MAX_XTCP_CLIENTS. lia. Qed.

(** A host that has a lease, in the turn after, loses the link: both clients are
    told. *)
Definition settled : loop_timers * sstate := Eval vm_compute in turn 9030 RxNothing leased.
Lemma leased_config : config_of Leased settled.2.
Proof. vm_compute. auto. Qed.
Lemma leased_interface : interface_ok (env settled.2).
Proof.
  constructor; [vm_compute; lia|by right|reflexivity| |reflexivity].
  apply (forallb_Forall (fun x => (x =? -1) || (x =? 0) || (x =? 1))); [|vm_compute; reflexivity].
  intros x Hx. unfold is_flag. lia.
Qed.
Lemma config_refines_witness : config_of NoLink (uip_linkdown settled.2) /\
  pending_event (env (config_told (uip_linkdown settled.2))) !! 0%nat = Some (Some XTCP_IFDOWN).
Proof.
  destruct (config_refines demo_srand demo_rand Leased EvLinkdown settled.2 leased_config I leased_interface) as (Hc & _ & _ & Ht).
  split; [exact Hc|]. specialize (Ht 0%nat). cbv zeta in Ht. rewrite decide_True in Ht by (split; [vm_compute; lia|vm_compute; discriminate]).
  exact (proj1 Ht).
Defined.

(** A client of the leased host listens on port 80, and a segment arrives. *)
Definition listening : sstate := Eval vm_compute in
  (serve [Command 0 (CMD_LISTEN 80 XTCP_PROTOCOL_TCP)] leased.2) <| uip_hostaddr := host |>.
Definition syn_arrives : sstate := Eval vm_compute in (listening <| uip_buf := syn |>) <| uip_len := ip_length syn |>.
Lemma syn_arrives_wf : uip_wf syn_arrives.
Proof. apply uip_wfb_ok. vm_compute. reflexivity. Qed.
Definition syn_taken : sstate := Eval vm_compute in
  default syn_arrives (@uip_process _ (server_env demo_srand demo_rand) UIP_DATA syn_arrives).
Lemma syn_taken_eq : @uip_process _ (server_env demo_srand demo_rand) UIP_DATA syn_arrives = Some syn_taken.
Proof. vm_compute. reflexivity. Qed.
Lemma server_process_transitions_witness : transition rx_step (replicate 10 UIP_CLOSED) (UIP_SYN_RCVD :: replicate 9 UIP_CLOSED).
Proof. exact (server_process_transitions demo_srand demo_rand UIP_DATA syn_arrives syn_taken syn_arrives_wf syn_taken_eq). Defined.
Lemma server_process_packet_witness : uip_len syn_taken = 44 /\ (uip_len syn_taken = 0 \/
  ip_header_ok (uip_buf syn_taken) (uip_len syn_taken) \/
  (is_arrival UIP_DATA = true /\ unaddressed_echo syn_arrives /\ ip_fields_ok (uip_buf syn_taken) (uip_len syn_taken) /\
   uip_ipchksum (uip_buf syn_taken) <> 0xffff)).
Proof.
  split; [vm_compute; reflexivity|].
  apply (server_process_packet demo_srand demo_rand UIP_DATA syn_arrives syn_taken syn_arrives_wf); [discriminate|exact syn_taken_eq].
Defined.

(** The client waits for an offer, and a callback delivers one. *)
Definition client : dhcpc_state := Eval vm_compute in dhcpc (srv discovering.2).
Definition delivered_payload (p : list Z) (s : sstate) : sstate :=
  (((mem (wrs 42 p) s) <| uip_appdata := UDP_DATA |>) <| uip_sappdata := UDP_DATA |>)
    <| uip_len := Z.of_nat (length p) |> <| uip_flags := UIP_NEWDATA |>.
Definition with_offer : sstate := Eval vm_compute in delivered_payload (dhcp_payload DHCPOFFER given lease) discovering.2.
Definition with_ack : sstate := Eval vm_compute in delivered_payload (dhcp_payload DHCPACK given lease) offered.2.

Lemma client_is_ok : client_ok client.
Proof.
  constructor; [reflexivity|split; [reflexivity|apply bytesb_bytes; reflexivity]..|].
  constructor; try (unfold u32, u16; cbn; lia); unfold u8x4_ok, u8; cbn; lia.
Qed.
Lemma with_offer_state : callback_state with_offer.
Proof. constructor; [apply uip_wfb_ok; vm_compute; reflexivity|reflexivity|reflexivity]. Qed.
Lemma lease_options_ok t : Forall option_ok ((DHCP_OPTION_MSG_TYPE, [t]) :: lease).
Proof. repeat constructor; cbn; try lia; discriminate. Qed.
Lemma offer_reply : dhcp_reply client UDP_DATA (uip_len with_offer) (uip_buf with_offer) given
  ((DHCP_OPTION_MSG_TYPE, [DHCPOFFER]) :: lease).
Proof. constructor; [vm_compute; reflexivity..|apply lease_options_ok|vm_compute; reflexivity]. Qed.

Lemma dhcp_exchange_witness : exists d2 s2, handle_dhcp client with_offer = (d2, s2) /\ pt d2 = PC_REQUEST.
Proof.
  destruct (dhcp_exchange client with_offer given ((DHCP_OPTION_MSG_TYPE, [DHCPOFFER]) :: lease) eq_refl client_is_ok
    with_offer_state eq_refl offer_reply eq_refl) as (d2 & s2 & Hh & Hp & _).
  exists d2, s2. exact (conj Hh Hp).
Defined.

Definition tired : dhcpc_state := Eval vm_compute in (goto_init client discovering.2).1.
Definition much_later : sstate := Eval vm_compute in
  (upd_env (fun e => e <| now := 10000 |>) discovering.2) <| uip_flags := UIP_POLL |>.
Lemma tired_unanswered : unanswered 0 tired.
Proof. exact (unanswered_first client discovering.2). Qed.
Lemma dhcp_backoff_witness : interval (d_timer tired) = 1000.
Proof. exact (proj1 (proj2 (dhcp_backoff 0 tired much_later tired_unanswered eq_refl eq_refl))). Defined.
