(* ===== verification/RouterExamples.v ===== *)
(** * A router with two networks

    A host between 192.168.1.0/24 and a default network: a packet that passes
    through, one that has run out of hops, and one that comes back. *)
From stdpp Require Import gmap.
From S2P Require Export XtcpExamples Forward.
Local Open Scope Z_scope.

Definition lan : uip_fw_netif := FwNetif None (U4 192 168 1 1) (U4 255 255 255 0).
Definition uplink : uip_fw_netif := FwNetif None (U4 10 0 0 1) (U4 255 0 0 0).
Definition router : fw_state :=
  uip_fw_default (Some 1%nat) (uip_fw_register 0%nat (initial_fw {[0%nat := lan; 1%nat := uplink]})).

Lemma router_wf : fw_wf router [0%nat].
Proof.
  assert (fw_wf (uip_fw_register 0 (initial_fw {[0%nat := lan; 1%nat := uplink]})) [0%nat]) as [Hc Hk].
  { apply uip_fw_register_wf; [apply initial_fw_wf| |by intros ?%list_elem_of_In].
    apply elem_of_dom. by exists lan. }
  by split.
Qed.

(** From 10.0.0.9 to 192.168.1.7, UDP. *)
Definition passing (ttl : Z) : list Z :=
  let h := [0x45; 0; 0; 50; 0x12; 0x34; 0; 0; ttl; 17; 0; 0; 10; 0; 0; 9; 192; 168; 1; 7] in
  let b := wrs BUF.vhl (h ++ [0; 53; 0; 53; 0; 30; 0; 0]) (uip_buf (initial_state tt)) in
  wr16 BUF.ipchksum (w16 (Z.lnot (uip_ipchksum b))) b.
Definition arrived (b : list Z) : uip_state unit :=
  (initial_state tt) <| uip_buf := b |> <| uip_len := 50 |> <| uip_hostaddr := U4 10 0 0 1 |>.
Definition hopping : uip_state unit := Eval vm_compute in arrived (passing 64).
Definition expiring : uip_state unit := Eval vm_compute in arrived (passing 1).

Lemma hopping_wf : uip_wf hopping.
Proof. apply uip_wfb_ok. vm_compute. reflexivity. Qed.
Lemma expiring_wf : uip_wf expiring.
Proof. apply uip_wfb_ok. vm_compute. reflexivity. Qed.
Lemma hopping_transit : transit router hopping.
Proof. unfold transit. split_and!; vm_compute; reflexivity. Qed.
Lemma expiring_transit : transit router expiring.
Proof. unfold transit. split_and!; vm_compute; reflexivity. Qed.
Lemma hopping_header : ip_header_ok (uip_buf hopping) (uip_len hopping).
Proof. unfold ip_header_ok. split_and!; vm_compute; reflexivity. Qed.

(** The interfaces count the packets they send. *)
Definition demo_output (i : nat) (s : uip_state unit) : Z * uip_state unit := (UIP_FW_OK, s <| ipid ::= Z.add 1 |>).

Lemma uip_fw_forward_transit_witness : exists r fw' b',
  uip_fw_forward demo_output router hopping = Some (r, fw', sent_on demo_output (Some 0%nat) (handed b' hopping)) /\
  rd8 b' BUF.ttl = 63.
Proof.
  assert (1 < rd8 (uip_buf hopping) BUF.ttl) as Ht by (vm_compute; reflexivity).
  assert (0 < uip_len hopping) as Hn by (vm_compute; reflexivity).
  destruct (uip_fw_forward_transit demo_output router [0%nat] hopping hopping_wf router_wf hopping_transit Ht Hn
    hopping_header) as (r & fw' & b' & Hf & _ & Hl & _).
  exists r, fw', b'. split; [exact Hf|exact Hl].
Defined.

(** The copy that comes back has one hop less. *)
Lemma uip_fw_forward_once_witness : exists fw',
  uip_fw_forward demo_output fw' hopping = Some (UIP_FW_FORWARDED, fw', hopping).
Proof.
  destruct (uip_fw_forward_run demo_output router [0%nat] hopping router_wf hopping_transit) as (r & fw' & _ & _ & Hf);
    [vm_compute; reflexivity..|].
  exists (Nat.iter 3 uip_fw_periodic fw').
  apply (uip_fw_forward_once demo_output router [0%nat] hopping r fw'
    (sent_on demo_output (route router (uip_buf hopping) [0%nat]) (handed (decremented (uip_buf hopping)) hopping)) 3 hopping
    router_wf hopping_transit); [vm_compute; reflexivity|vm_compute; reflexivity|exact Hf|lia|done|vm_compute; reflexivity].
Defined.

Lemma uip_fw_forward_expired_witness : exists r fw' b',
  uip_fw_forward demo_output router expiring
  = Some (r, fw', sent_on demo_output (route router b' [0%nat]) (handed b' (expiring <| uip_len := 56 |>))) /\
  time_exceeded_message (U4 10 0 0 1) (uip_buf expiring) b'.
Proof.
  assert (rd8 (uip_buf expiring) BUF.ttl <= 1) as Ht by (vm_compute; discriminate).
  pose proof (uip_fw_forward_expired demo_output router [0%nat] expiring expiring_wf router_wf expiring_transit Ht eq_refl) as H.
  assert ((rd8 (uip_buf expiring) BUF.proto =? UIP_PROTO_ICMP) = false) as Hp by (vm_compute; reflexivity).
  rewrite Hp in H. destruct H as (r & fw' & b' & Hf & _ & _ & Hm). exists r, fw', b'. split; [exact Hf|exact Hm].
Defined.
