(* ===== verification/MdnsExamples.v ===== *)
(** * Runs of the mDNS responder

    A host that registers its name and a service, is probed, announced and
    queried; the theorems of the previous files on that host; and the messages
    that defeat it. *)
From Stdlib Require Import String Ascii.
From S2P Require Import MdnsQuery.
Local Open Scope Z_scope.

Definition text (s : string) : list Z := map (fun a => Z.of_N (N_of_ascii a)) (list_ascii_of_string s).
Definition mdns_conn (ev : xtcp_event_type_t) : xtcp_connection_t :=
  XtcpConnection 0 XTCP_PROTOCOL_UDP XTCP_CLIENT_CONNECTION ev 0 mdns_group MDNS_SERVER_PORT MDNS_SERVER_PORT 1472.
Definition at_time (t : Z) : mdns_input := MdnsInput t [] 0 (fun _ => zero4) (U4 10 0 0 7).
Definition with_data (d : list Z) : mdns_input := MdnsInput 0 (d ++ replicate (1472 - length d) 0) (size d) (fun _ => zero4) zero4.
Definition polled (t : Z) : happening := (at_time t, mdns_conn XTCP_POLL).
Definition requested (t : Z) : happening := (at_time t, mdns_conn XTCP_REQUEST_DATA).
Definition received (d : list Z) : happening := (with_data d, mdns_conn XTCP_RECV_DATA).
Definition get (s : option mdns) : mdns := default initial_mdns s.

(** ** Coming up *)

Definition host : mdns := Eval vm_compute in
  get (s ← mdns_register_canonical_name (text "xc2") (mdns_init initial_mdns);
       mdns_register_service (text "Web") (text "_http._tcp") 80 (text "a=b") s).
Definition rounds : list (happening * happening) := Eval vm_compute in
  map (fun k => (requested (k * 300000000), polled (k * 300000000 + 290000000))) [0; 1; 2; 3; 4; 5].
Definition up : mdns := Eval vm_compute in
  get (run_events ([(at_time 0, mdns_conn XTCP_IFUP); polled 0] ++ concat (map both rounds)) host).
Example up_runs : run_events ([(at_time 0, mdns_conn XTCP_IFUP); polled 0] ++ concat (map both rounds)) host = Some up.
Proof. vm_compute. reflexivity. Qed.
Example up_active : map state (mdns_table up) = [ACTIVE; ACTIVE; UNUSED; UNUSED; UNUSED].
Proof. reflexivity. Qed.

Lemma mdns_comes_up_witness :
  exists s', run_events ([(at_time 0, mdns_conn XTCP_IFUP); polled 0] ++ concat (map both rounds)) host = Some s' /\
    Forall2 (fun e e' => name e' = name e /\ (state e <> UNUSED -> state e' = ACTIVE)) (mdns_table host) (mdns_table s').
Proof.
  apply (mdns_comes_up (at_time 0) (mdns_conn XTCP_IFUP) (at_time 0) (mdns_conn XTCP_POLL) rounds host (text "xc2.local")).
  - reflexivity.
  - reflexivity.
  - reflexivity.
  - unfold rounds. repeat (apply Forall_cons; [|]); try apply Forall_nil;
      (split; [apply elem_of_cons; by left|]); repeat (split; [reflexivity|]); vm_compute; done.
  - reflexivity.
  - unfold host. repeat (apply Forall_cons; [|]); try apply Forall_nil; unfold registered; cbn; auto.
  - vm_compute. reflexivity.
  - vm_compute. discriminate.
Defined.

Lemma run_events_runs l : forall s0 s s', runs s0 s -> run_events l s = Some s' -> runs s0 s'.
Proof.
  induction l as [|[i conn] l IH]; intros s0 s s' Hr; cbn [run_events]; [by intros [= <-]|].
  intros ([[r c] s1] & H & H')%bind_Some. eapply IH; [|exact H']. by eapply r_event.
Qed.
Lemma table_ok_by_cases t : length t = MDNS_NUM_TABLE_ENTRIES ->
  Forall (fun e => (state e = UNUSED \/ state e = DISABLED) /\ (state e <> UNUSED -> name e = full_name e) /\
    (length (name e) < MDNS_MAX_NAME_LENGTH)%nat /\ pending e = 0) t -> table_ok t.
Proof.
  intros Hl H. split; [done|]. eapply Forall_impl; [|exact H]. intros e (Hs & Hn & Hlen & Hp). split.
  - by destruct Hs as [-> | ->].
  - unfold phase_of. by destruct Hs as [-> | ->].
  - done.
  - done.
  - by rewrite Hp.
Qed.
Lemma mdns_host_ok : table_ok (mdns_table host).
Proof.
  apply table_ok_by_cases; [reflexivity|]. unfold host. cbn [mdns_table]. repeat (apply Forall_cons; [|]); try apply Forall_nil;
    (split; [auto|]); (split; [intros H; first [reflexivity|by destruct H]|]); (split; [by apply Nat.ltb_lt|reflexivity]).
Qed.

Lemma mdns_claimed_after_six_witness : exists before start, (start = Started \/ start = Conflict) /\
  history 0 host (before ++ [start] ++ concat (repeat [Sent; Elapsed] 6)) up.
Proof.
  eapply (mdns_claimed_after_six host up 0); [exact mdns_host_ok| |reflexivity|reflexivity|reflexivity|reflexivity].
  exact (run_events_runs _ _ _ _ (r_start host) up_runs).
Defined.

(** ** A query *)

Definition xc2 : list (list Z) := [text "xc2"; text "local"].
Lemma xc2_fine : name_ok xc2.
Proof.
  split; [done|]. apply Forall_cons; [|apply Forall_cons; [|apply Forall_nil]]; unfold text; cbn [list_ascii_of_string map];
    (split; [done|]; split; [cbn; lia|]); repeat (apply Forall_cons; [unfold DOT; vm_compute; done|]); apply Forall_nil.
Qed.
Definition up_xc2 : entry := Eval vm_compute in hd zero_entry (mdns_table up).
Definition ask_xc2 : list Z := query xc2 255.
Lemma mdns_query_answered_witness :
  run_events [received ask_xc2; requested 0] up =
  Some (up <| calls ::= fun l => l ++ [Xtcp_recv; Xtcp_init_send; Xtcp_send (address_answer xc2 (U4 10 0 0 7))] |>).
Proof.
  unfold received, requested, with_data, at_time.
  eapply (mdns_query_answered xc2 255 (replicate (1472 - length ask_xc2) 0) xc2_fine) with (before := []) (e := up_xc2) (after := tl (mdns_table up)) (c := text "xc2.local");
    [unfold u8; lia|reflexivity| |apply Forall_nil|repeat split|vm_compute; lia|reflexivity|reflexivity|reflexivity|reflexivity|reflexivity..].
  unfold up. cbn [mdns_table]. repeat (apply Forall_cons; [|]); try apply Forall_nil; (split; [|reflexivity]);
    cbn [state]; rewrite !elem_of_cons, elem_of_nil; intuition discriminate.
Defined.

(** ** A conflict *)

Definition starting : mdns := Eval vm_compute in get (run_events [(at_time 0, mdns_conn XTCP_IFUP); polled 0; requested 0] host).
Definition probing_xc2 : entry := Eval vm_compute in hd zero_entry (mdns_table starting).
Definition other : u8x4 := U4 10 0 0 9.
Lemma other_fine : u8x4_ok other.
Proof. unfold u8x4_ok, u8, other. cbn. lia. Qed.

(** The next name of a host that loses is [xc2-1.local]. *)
Example next_name : name (hear other probing_xc2) = text "xc2-1.local".
Proof. reflexivity. Qed.
Lemma mdns_name_contested_witness : exists conn',
  mdns_handle_event (with_data (address_answer xc2 other)) (mdns_conn XTCP_RECV_DATA) starting =
  Some (mdns_entry_lost, conn',
    starting <| mdns_table := [] ++ hear other probing_xc2 :: tl (mdns_table starting) |>
      <| calls ::= fun l => l ++ [Xtcp_recv; Xtcp_init_send] |>).
Proof.
  apply (mdns_name_contested xc2 other (replicate (1472 - length (address_answer xc2 other)) 0) xc2_fine other_fine
    (with_data (address_answer xc2 other)) (mdns_conn XTCP_RECV_DATA) starting [] probing_xc2 (tl (mdns_table starting)));
    [reflexivity| |discriminate|discriminate|reflexivity|unfold u8x4_ok, u8; cbn; lia|reflexivity|by apply Nat.ltb_lt|reflexivity..].
  unfold starting. cbn [mdns_table tl app]. apply Forall_cons; [|repeat (apply Forall_cons; [by left|]); apply Forall_nil].
  right; right. intros (c & q & H & _). vm_compute in H. congruence.
Defined.

(** ** A name that never ends *)

Definition endless : list Z := [0; 0; 0; 0; 0; 1; 0; 0; 0; 0; 0; 0; 0xc0; 12; 0; 1; 0; 1].
Lemma mdns_endless_query_witness : mdns_handle_event (with_data endless) (mdns_conn XTCP_RECV_DATA) up = None.
Proof. apply (mdns_endless_query _ _ _ (replicate 1454 0)); reflexivity. Defined.

(** ** Names *)

Definition text_message : list Z := replicate 12 0 ++ mdns_encode_name (text "xc2.local") ++ [0; 1; 0; 1].
Lemma mdns_name_roundtrip_witness :
  mdns_parse_name text_message 12 27 = Some (Some (12 + Z.of_nat (length (mdns_encode_name (join xc2))))) /\
  (mdns_compare_name text_message (join xc2) 12 = 0 <-> xc2 = xc2).
Proof.
  apply (mdns_name_roundtrip text_message 12 27 xc2 xc2 xc2_fine xc2_fine);
    [lia|reflexivity|vm_compute; discriminate|reflexivity|reflexivity].
Defined.

(** * Flaws *)

(** Two services with long names: their probes do not fit in the buffer, which
    the check of the space left does not see, for it only counts questions. *)
Definition long (c : Z) : list Z := replicate 60 c.
Definition two_services : mdns := Eval vm_compute in
  get (s ← mdns_register_canonical_name (long 97) (mdns_init initial_mdns);
       s ← mdns_register_service (long 98) (text "_http._tcp") 80 (replicate 99 116) s;
       s ← mdns_register_service (long 99) (text "_http._tcp") 80 (replicate 99 116) s;
       mdns_register_service (long 100) (text "_http._tcp") 80 (replicate 99 116) s).
Example probes_overflow : run_events [(at_time 0, mdns_conn XTCP_IFUP); polled 0; requested 0] two_services = None.
Proof. vm_compute. reflexivity. Qed.

(** A service that is being probed, and a peer that proposes an empty text
    record for its name and nothing else: the second record of the tie break is
    read through the null pointer. *)
Definition web : list (list Z) := [text "Web"; text "_http"; text "_tcp"; text "local"].
Definition empty_txt : list Z :=
  [0; 0; 0; 0; 0; 0; 0; 0; 0; 1; 0; 0] ++ wire web ++ [0; 16; 0; 1; 0; 0; 0; 255; 0; 0].
Example tie_break_crashes : run_events [received empty_txt] starting = None.
Proof. vm_compute. reflexivity. Qed.
(** So does a record that is promised and missing. *)
Example missing_record_crashes : run_events [received [0; 0; 0; 0; 0; 0; 0; 0; 0; 1; 0; 0]] starting = None.
Proof. vm_compute. reflexivity. Qed.

(** The record a service itself announces is taken for a conflict, because its
    data is compared with a name in text. *)
Definition announcing : mdns := Eval vm_compute in
  get (run_events (concat (map both [(requested 0, polled 290000000); (requested 300000000, polled 590000000);
    (requested 600000000, polled 890000000)])) (starting <| mdns_table ::= map (fun e => restart e) |>)).
Definition own_srv : list Z := [0; 0; 0x84; 0; 0; 0; 0; 1; 0; 0; 0; 0] ++ srv_record (text "xc2.local") (nth 1 (mdns_table announcing) zero_entry).
Example own_record_conflicts :
  map state (mdns_table announcing) = [ANNOUNCE_WAIT; ANNOUNCE_WAIT; UNUSED; UNUSED; UNUSED] /\
  (s ← run_events [received own_srv] announcing; Some (map state (mdns_table s))) =
  Some [ANNOUNCE_WAIT; PROBE_WAIT; UNUSED; UNUSED; UNUSED].
Proof. vm_compute. done. Qed.

(** A service that is registered again takes a second entry: the name it is
    looked up by has not been given its domain. *)
Example registered_twice :
  (s ← mdns_register_service (text "Web") (text "_http._tcp") 80 (text "a=b") host; Some (map state (mdns_table s))) =
  Some [DISABLED; DISABLED; DISABLED; UNUSED; UNUSED].
Proof. vm_compute. reflexivity. Qed.

(** A compressed name is read one byte too far. *)
Example pointer_name : mdns_parse_name (replicate 12 0 ++ [3; 97; 98; 99; 0; 0xc0; 12; 0; 1; 0; 1]) 17 23 = Some (Some 20).
Proof. vm_compute. reflexivity. Qed.
(** And it is never recognised. *)
Example pointer_unknown : mdns_compare_name (replicate 12 0 ++ [3; 97; 98; 99; 0; 0xc0; 12; 0; 1; 0; 1]) (text "abc") 17 = 1.
Proof. vm_compute. reflexivity. Qed.
